(* ===== verification/_CoqProject ===== *)
-Q . S2P
Prelude.v
Mem.v
CString.v
Mmu.v
Kalloc.v
PageTable.v
Uvm.v
UvmCopy.v
Disk.v
Bio.v
Log.v
Spinlock.v
Pipe.v
Blocks.v
Balloc.v
Inode.v
Dinode.v
InodeData.v
InodeIO.v
Dir.v
DirLaws.v
File.v
FileLaws.v
Ptable.v
Sched.v
Proc.v
Exec.v
Syscall.v
ExecLaws.v
Sysfile.v
Trap.v
Grep.v
Printf.v
Sh.v
ShParse.v
ShGrammar.v
ShRun.v
Console.v
Kbd.v
Ide.v
Mkfs.v
Umalloc.v
Boot.v
Mp.v
ShMain.v
Utils.v
Programs.v
Apic.v
ForkLaws.v
Seg.v
Asm.v
UserAsm.v
ForkRun.v
Lapic.v
Start.v
FirstProc.v
Main.v
Kmain.v
Reboot.v
