(* ===== verification/Prelude.v ===== *)
(** * A verification of the xv6 kernel (x86)

    The program is a small Unix kernel in C with its user programs.  At the
    bottom are the page allocator (kalloc.c), page tables and address spaces
    (vm.c), spin locks and sleep locks, and a disk.  The buffer cache (bio.c)
    caches disk blocks; the log (log.c) groups writes of blocks into
    transactions; fs.c builds block allocation, inodes, directories and paths on
    it.  file.c and pipe.c give open files, proc.c processes and their
    scheduling, exec.c loads programs, and syscall.c, sysfile.c, sysproc.c and
    trap.c are the way in from user space.  Drivers serve the disk, the console
    and the keyboard.  Assembly enters the kernel, switches between processes and
    takes traps; main.c starts everything.  Around the kernel are the boot loader,
    the program that builds a file system image, and user programs: init, the
    shell, a memory allocator, formatted output, grep, cat, wc, ls.

    ** How code is represented

    C functions are functions in a state monad ([M] below) whose result is a
    value with a new state, a call of panic, or divergence.  Integers are [Z]
    with the wrap-around of their width written out ([u32], [s32]).  Memory is a
    function from addresses to bytes.  Assembly is a list of instructions of a
    small machine with registers, run one after the other.  Loops that are not structural run on fuel
    computed from their operands: the number of pages, entries or bytes that they
    go over, and a round or two more.  The functional theorems state that a
    result is returned, so they show that this fuel is enough; the exceptions are
    listed below.

    A critical section is one atomic step.  Concurrency is modelled in Kalloc,
    Bio, Pipe, Spinlock, Log, Sched, Console and Ide by step relations or
    sequences of events that interleave such
    steps, with invariants by rule induction.  The other files model one process;
    there, a call that would wait for another process diverges.

    ** Files

    - Prelude, Mem, CString, Mmu: the monad, memory, string.c and part of ulib.c,
      and the macros of mmu.h.
    - Kalloc (kalloc.c): the free list threaded through the free pages refines a
      stack of pages; no page is handed out twice.
    - PageTable, Uvm, UvmCopy (vm.c, growproc of proc.c): what each operation maps
      and unmaps, that pages are neither lost nor shared, and that failures undo.
    - Disk, Bio (memide.c, sleeplock.c, bio.c): the cache is transparent, and a
      buffer in use is never recycled.
    - Log (log.c): a crash at any block write of a commit or of a recovery leaves
      all of a transaction or nothing; when reservations suffice.
    - Spinlock (spinlock.c): mutual exclusion, and restoring of interrupts.
    - Pipe (pipe.c): a pipe is a byte stream, and which wake-ups are lost.
    - Blocks: the class [BlockOps] of block operations that the file system uses,
      their laws [BlockLaws], and two instances: the log, and an ideal disk used
      in witnesses.
    - Balloc, Inode, Dinode, InodeData, InodeIO, Dir, DirLaws (fs.c): the first
      free block, reads and writes of files, directories as maps, path elements.
    - File, FileLaws (file.c, pipealloc): writes in transactions that fit their
      reservation, and pipealloc's failures.
    - Ptable, Sched (proc.c under ptable.lock): the process table under any
      interleaving on any number of processors.
    - Proc, Exec, ExecLaws (the rest of proc.c, exec.c, loaduvm): exec replaces the
      process at the end or not at all.
    - Syscall, Sysfile (syscall.c, sysfile.c, sysproc.c): the checks of arguments
      are exact.  Trap (trap.c): a killed process does not get back to user space.
    - Console, Kbd (console.c, uart.c, kbd.c): the ring buffer is a queue of lines
      with one being edited; scan codes become the bytes that were typed.
    - Ide (ide.c): over the class [Ata] of disks; requests are served in order, and
      the driver is an instance of the disk interface of Disk.
    - Boot (bootmain.c): over the same class; the kernel image is loaded.
    - Mp (mp.c): the processors of the BIOS table are those that Spinlock assumes.
    - Apic (ioapic.c, the clock of lapic.c): routes of interrupts, and a date that
      is the date of one moment.
    - Mkfs (mkfs.c): the image has the files, by the inode layout of Dinode and
      InodeData.
    - Umalloc (umalloc.c): live blocks do not overlap.  Printf (printf.c, cprintf):
      numbers can be read back.  Grep (grep.c): the matcher decides what patterns
      mean, and what lines are printed.
    - Sh, ShParse, ShGrammar, ShRun, ShMain (sh.c, gets): the parser reads a
      grammar, with any white space, and is total, commands get the right files, or
      end where fork or pipe fails, and the main loop runs a script.
    - Utils (cat.c, wc.c, ls.c, echo.c): over a class [Sys] of system calls.
    - Programs (init.c, main of grep.c, rm.c, mkdir.c, ln.c, kill.c, zombie.c and the
      tests forktest.c, stressfs.c, swaptest.c): over [Sys] and a class [Procs];
      init starts a shell in every round, and forktest passes on a system that
      keeps the laws of fork and wait.
    - ForkLaws (fork and wait of proc.c): fork copies the process, or fails and
      leaves no more than a pid in an unused slot; wait takes the first child that
      has exited and returns all of its pages.
    - Seg (mmu.h, asm.h, seginit, switchuvm, tvinit): the bytes of descriptors, gates
      and the task state, and how the processor reads them.
    - Asm (swtch.S, trapasm.S, vectors.pl): swtch resumes a saved context; a trap
      and its return restore every register.
    - UserAsm (usys.S, initcode.S): the stubs of system calls, and the first program.
    - ForkRun: the child of fork, followed through swtch, forkret and trapret back to
      user space, returns there with 0.
    - Lapic (lapic.c, picirq.c, uart.c): the local APIC, the messages that start
      another processor, and the serial port, over classes of registers and ports.
    - Start (entry.S, entryother.S, bootasm.S, entrypgdir): paging is turned on
      without losing the code that does it.
    - FirstProc (userinit): the first process, from its creation to the call of exec.
    - Main (startothers): each other processor finds its stack and its code.
    - Kmain (main, mpenter, mpmain and the initialisers they call): main reaches the
      scheduler, and every page then has exactly one owner.
    - Reboot (forkret): after a crash in a commit the first process finds all of the
      transaction or none of it.

    ** Limits of what is shown

    - In Proc, Exec, Sysfile and Trap there is one memory, that of the page
      allocator.  User addresses are translated by the page table of the process
      ([Proc.seen]); file code runs on that view and its stores are translated
      back.  An address that is not mapped reads as 0 there, where the processor
      would fault.  The bytes of a pipe are kept apart from its page.
    - [exec_commits_last] and [killed_never_resumes] speak of runs that return;
      that exec returns is not shown.  Of the operations of Proc, fork, wait and
      userinit are proved, and of Sysfile the panics of the swap calls
      ([swap_call_panics]); the others are definitions.
    - In ForkRun and FirstProc the caller of a C function is assumed to get control back as
      the calling convention says ([returned]); the C code itself is not run on
      that machine.  Of bootasm.S there are only definitions.  A processor that startothers starts is a function of the
      memory with the behaviour [comes_up]; [mpenter_sets_flag] shows that of its
      C part; it is assumed not to write to the controllers of the first one.
    - [main_boots] asks for a kernel that leaves room for 75 pages below four
      megabytes: 65 for the directory of the kernel, a stack for each of NCPU
      processors, and two for rounding.
    - The first run of forkret is shown for one process; Sched has the others.
    - [scheduler_passes_over_none] does not say that a scheduler makes progress.
    - Sched assumes that process identifiers have not run out.
    - [filewrite_writes] is for file systems with at most four bitmap blocks.
    - Device reads and writes of inodes and the interrupt handlers of devices
      are parameters in the files up to Trap, and so are linker symbols and the
      addresses of variables on kernel stacks.  Messages of the kernel to the
      console are left out there.
    - Hardware is a class with laws (disks, the two APICs) or a parameter (what ports
      and registers return); each class has an instance that the witnesses use.  The
      laws of disks in [PromptAta] are what the driver and the boot loader take for
      granted: no errors, and data of a write that is taken at once.
    - [fork_then_wait] lets the child exchange pages with the free list only, so it
      is for a time in which no other process takes or gives pages.
    - In [log_reservation_suffices] end_op, with the commit, is one step: meanwhile
      begin_op of others would wait.
    - [malloc_blocks_disjoint] is for requests of at most 2^31 - 16 bytes, and
      [shell_runs_script] for lines of at most 99 bytes with an end.
    - User programs are modelled on the results of their system calls, by laws for
      files that can be read to their end, not on the kernel of this library.

    ** Not modelled

    procdump of proc.c, a listing for debugging, and the output of panic, which is a
    result of the monad; the string instructions of x86.h, which are part of the
    functions that use them; kernel.ld, sign.pl and pr.pl, which build and print the
    sources; and usertests.c, a list of runs of system calls with their expected
    results, which has no operations of its own. *)

From stdpp Require Export base numbers list gmap strings relations.
From Stdlib Require Export ZArith Lia.

#[global] Open Scope Z_scope.

Declare Scope xv6_scope.
Delimit Scope xv6_scope with xv6.
#[global] Open Scope xv6_scope.

(** ** Outcomes

    Kernel code either returns a value and a new state, calls [panic], or loops
    for ever.  A loop whose recursion is not structural runs on an amount of
    fuel computed from its operands; [Diverge] is what running out of it gives,
    and the theorems exclude it. *)
Inductive res (S A : Type) : Type :=
| Ret (a : A) (s : S)
| Panic (msg : string)
| Diverge.
Arguments Ret {S A} a s.
Arguments Panic {S A} msg.
Arguments Diverge {S A}.

(** The state monad of kernel code over a state [S]. *)
Definition M (S A : Type) : Type := S -> res S A.

Definition ret {S A} (a : A) : M S A := fun s => Ret a s.
Definition bind {S A B} (m : M S A) (k : A -> M S B) : M S B := fun s =>
  match m s with
  | Ret a s' => k a s'
  | Panic msg => Panic msg
  | Diverge => Diverge
  end.
Definition panic {S A} (msg : string) : M S A := fun _ => Panic msg.
Definition get {S} : M S S := fun s => Ret s s.
Definition gets {S A} (f : S -> A) : M S A := fun s => Ret (f s) s.
Definition put {S} (s : S) : M S unit := fun _ => Ret tt s.
Definition modify {S} (f : S -> S) : M S unit := fun s => Ret tt (f s).
Definition diverge {S A} : M S A := fun _ => Diverge.

Notation "x <- m ;; k" := (bind m (fun x => k))
  (at level 100, m at next level, right associativity) : xv6_scope.
Notation "m ;;; k" := (bind m (fun _ => k))
  (at level 100, right associativity) : xv6_scope.

(** [if (c) panic(msg);] *)
Definition panic_if {S} (c : bool) (msg : string) : M S unit :=
  if c then panic msg else ret tt.

(** A computation on a component of a larger state: [getc] and [setc] are the
    component's projection and update. *)
Definition zoom {S T A} (getc : S -> T) (setc : T -> S -> S) (m : M T A) : M S A :=
  fun s =>
    match m (getc s) with
    | Ret a t => Ret a (setc t s)
    | Panic msg => Panic msg
    | Diverge => Diverge
    end.

Lemma bind_ret_inv {S A B} (m : M S A) (k : A -> M S B) s b s' :
  bind m k s = Ret b s' -> exists a s1, m s = Ret a s1 /\ k a s1 = Ret b s'.
Proof. unfold bind. destruct (m s); intros; try discriminate. eauto. Qed.

Lemma bind_Ret {S A B} (m : M S A) (k : A -> M S B) s a s1 :
  m s = Ret a s1 -> bind m k s = k a s1.
Proof. unfold bind. by intros ->. Qed.

(** What the steps that cannot fail do. *)
Lemma bind_get {S A} (k : S -> M S A) s : bind get k s = k s s.
Proof. done. Qed.
Lemma bind_gets {S A B} (f : S -> A) (k : A -> M S B) s : bind (gets f) k s = k (f s) s.
Proof. done. Qed.
Lemma bind_modify {S B} (f : S -> S) (k : unit -> M S B) s : bind (modify f) k s = k tt (f s).
Proof. done. Qed.
Lemma bind_check {S B} (c : bool) msg (k : unit -> M S B) s : c = false -> bind (panic_if c msg) k s = k tt s.
Proof. by intros ->. Qed.
Lemma bind_assoc {S A B C} (m : M S A) (f : A -> M S B) (k : B -> M S C) s :
  bind (bind m f) k s = bind m (fun a => bind (f a) k) s.
Proof. unfold bind. by destruct (m s). Qed.

(** Splits a hypothesis [bind m k s = Ret b s'] into the run of [m] and the run
    of [k]; the conjuncts get fresh names. *)
Ltac inv_bind H :=
  let a := fresh "a" in let s1 := fresh "s1" in
  let H1 := fresh "Hm" in let H2 := fresh "Hk" in
  apply bind_ret_inv in H; destruct H as (a & s1 & H1 & H2).

(** ** Step relations *)

(** A property that every step keeps holds of every reachable state. *)
Lemma rtc_invariant {A} (R : relation A) (P : A -> Prop) x z :
  (forall y y', R y y' -> P y -> P y') -> P x -> rtc R x z -> P z.
Proof. intros Hstep Hx Hr. revert Hx. induction Hr; eauto. Qed.

(** ** Machine integers

    A [uint] is a [Z] in [0, 2^32); arithmetic that can leave the range is
    wrapped where the source computes it. *)
Abbreviation W32 := 4294967296.

Definition u8 (x : Z) : Z := x mod 256.
Definition u16 (x : Z) : Z := x mod 65536.
Definition u32 (x : Z) : Z := x mod W32.
(** An [int] holding the bits of [x]. *)
Definition s32 (x : Z) : Z :=
  let y := u32 x in if y <? 2147483648 then y else y - W32.

(** [lia] over division and remainder by constants. *)
Ltac zlia := Z.to_euclidean_division_equations; lia.

(** Splits on every comparison of integers that the goal tests, and closes the
    cases that contradict each other. *)
Ltac zcases :=
  repeat match goal with
    | |- context [?a <=? ?b] => destruct (Z.leb_spec a b); try lia
    | |- context [?a <? ?b] => destruct (Z.ltb_spec a b); try lia
    | |- context [?a =? ?b] => destruct (Z.eqb_spec a b); try lia
    end; cbn [andb orb negb]; try lia.
(** The same on the comparisons of a hypothesis. *)
Ltac zcases_in H :=
  repeat match type of H with
    | context [?a <=? ?b] => destruct (Z.leb_spec a b); try lia
    | context [?a <? ?b] => destruct (Z.ltb_spec a b); try lia
    | context [?a =? ?b] => destruct (Z.eqb_spec a b); try lia
    end; cbn [andb orb negb] in H; try lia.

Create HintDb word discriminated.

Lemma u32_small x : 0 <= x < W32 -> u32 x = x.
Proof. apply Z.mod_small. Qed.
Lemma u32_range x : 0 <= u32 x < W32.
Proof. unfold u32. apply Z.mod_pos_bound. lia. Qed.
Lemma u8_small x : 0 <= x < 256 -> u8 x = x.
Proof. apply Z.mod_small. Qed.
Lemma u8_range x : 0 <= u8 x < 256.
Proof. apply Z.mod_pos_bound. lia. Qed.
Lemma u32_idem x : u32 (u32 x) = u32 x.
Proof. apply u32_small, u32_range. Qed.
Lemma u32_add_l x y : u32 (u32 x + y) = u32 (x + y).
Proof. apply Z.add_mod_idemp_l. lia. Qed.
Lemma s32_range x : -2147483648 <= s32 x < 2147483648.
Proof. unfold s32. pose proof (u32_range x). destruct (Z.ltb_spec (u32 x) 2147483648); lia. Qed.
Lemma s32_small x : -2147483648 <= x < 2147483648 -> s32 x = x.
Proof.
  intros H. unfold s32, u32.
  destruct (Z.ltb_spec (x mod W32) 2147483648); zlia.
Qed.
#[export] Hint Resolve u32_range u8_range s32_range : word.

(** ** Bit masks as arithmetic *)
Lemma land_low_mask x k : 0 <= k -> Z.land x (2 ^ k - 1) = x mod 2 ^ k.
Proof. intros. rewrite <- Z.land_ones by done. f_equal. rewrite Z.ones_equiv. lia. Qed.

Lemma land_high_mask x k :
  0 <= k -> Z.land x (Z.lnot (2 ^ k - 1)) = x - x mod 2 ^ k.
Proof.
  intros Hk. rewrite <- Z.ldiff_land.
  replace (2 ^ k - 1) with (Z.ones k) by (rewrite Z.ones_equiv; lia).
  rewrite Z.ldiff_ones_r by done.
  rewrite Z.shiftl_mul_pow2, Z.shiftr_div_pow2 by done.
  pose proof (Z.div_mod x (2 ^ k)). lia.
Qed.

(** A multiple of [2^k] and a number below [2^k] share no bit. *)
Lemma lor_disjoint_add x y k :
  0 <= k -> x mod 2 ^ k = 0 -> 0 <= y < 2 ^ k -> Z.lor x y = x + y.
Proof.
  intros Hk Hx Hy.
  assert (Z.land x y = 0) as Hland.
  { apply Z.bits_inj'. intros i Hi. rewrite Z.land_spec, Z.bits_0.
    destruct (Z.lt_ge_cases i k).
    - rewrite <- (Z.mod_pow2_bits_low x k i) by lia. by rewrite Hx, Z.bits_0.
    - rewrite <- (Z.mod_small y (2 ^ k)) by done.
      rewrite Z.mod_pow2_bits_high by lia. by rewrite andb_false_r. }
  rewrite Z.add_nocarry_lxor by done. symmetry. by apply Z.lxor_lor.
Qed.

(** A mask of one bit. *)
Lemma land_bit x k : 0 <= k -> Z.land x (2 ^ k) = if Z.testbit x k then 2 ^ k else 0.
Proof.
  intros Hk. apply Z.bits_inj'. intros i Hi. rewrite Z.land_spec, Z.pow2_bits_eqb by done.
  destruct (Z.eqb_spec k i) as [->|Hne].
  - rewrite andb_true_r. destruct (Z.testbit x i); [by rewrite Z.pow2_bits_true | by rewrite Z.bits_0].
  - rewrite andb_false_r. destruct (Z.testbit x k); [by rewrite Z.pow2_bits_false | by rewrite Z.bits_0].
Qed.

(** ** Lists *)
Lemma alter_insert_same {A} (f : A -> A) (l : list A) i x :
  l !! i = Some x -> alter f i l = <[i := f x]> l.
Proof.
  intros H. apply list_eq. intros j. destruct (decide (i = j)) as [<-|].
  - rewrite list_lookup_alter_eq, H, list_lookup_insert_eq; [done | by eapply lookup_lt_Some].
  - by rewrite list_lookup_alter_ne, list_lookup_insert_ne.
Qed.
