(* ===== verification/Mem.v ===== *)
(** * Byte-addressed memory

    The memory that kernel pointers and user pointers refer to: a total function
    from addresses to bytes, with little-endian 32-bit accesses as on the x86,
    and the two string-store instructions of x86.h.  Memories are compared
    pointwise ([mem_eq]); the accessors are [Proper] for that equivalence. *)

From S2P Require Import Prelude.

Definition mem := Z -> Z.

Definition mem_eq (m1 m2 : mem) : Prop := forall a, m1 a = m2 a.
Infix "=m=" := mem_eq (at level 70) : xv6_scope.

(** Every cell holds a byte. *)
Definition mem_ok (m : mem) : Prop := forall a, 0 <= m a < 256.

Definition st8 (m : mem) (a v : Z) : mem := fun x => if x =? a then u8 v else m x.

(** Byte [k] of the 32-bit word [w], least significant first. *)
Definition byte_of (w k : Z) : Z := u8 (Z.shiftr w (8 * k)).

Definition ld32 (m : mem) (a : Z) : Z :=
  m a + 256 * m (a + 1) + 65536 * m (a + 2) + 16777216 * m (a + 3).

Definition st32 (m : mem) (a w : Z) : mem := fun x =>
  if (a <=? x) && (x <? a + 4) then byte_of w (x - a) else m x.

(** 16-bit accesses. *)
Definition ld16 (m : mem) (a : Z) : Z := m a + 256 * m (a + 1).
Definition st16 (m : mem) (a w : Z) : mem := st8 (st8 m a (byte_of w 0)) (a + 1) (byte_of w 1).

(** [rep stosb]: stores the byte [c] into the [n] bytes at [a]. *)
Definition stosb (m : mem) (a c n : Z) : mem := fun x =>
  if (a <=? x) && (x <? a + n) then u8 c else m x.

(** [rep stosl]: stores the word [w] into the [n] words at [a]. *)
Definition stosl (m : mem) (a w n : Z) : mem := fun x =>
  if (a <=? x) && (x <? a + 4 * n) then byte_of w ((x - a) mod 4) else m x.

(** The [n] bytes at [a], as a list. *)
Fixpoint bytes_at (m : mem) (a : Z) (n : nat) : list Z :=
  match n with
  | O => []
  | S n => m a :: bytes_at m (a + 1) n
  end.

#[export] Instance mem_eq_equiv : Equivalence mem_eq.
Proof. split; intros ?; [done | intros ? ? ?; congruence..]. Qed.
#[export] Instance st8_proper : Proper (mem_eq ==> eq ==> eq ==> mem_eq) st8.
Proof. intros m1 m2 H a ? <- v ? <- x. unfold st8. by destruct (x =? a). Qed.
#[export] Instance st32_proper : Proper (mem_eq ==> eq ==> eq ==> mem_eq) st32.
Proof. intros m1 m2 H a ? <- v ? <- x. unfold st32. by destruct (_ && _). Qed.
#[export] Instance ld32_proper : Proper (mem_eq ==> eq ==> eq) ld32.
Proof. intros m1 m2 H a ? <-. unfold ld32. by rewrite !H. Qed.

Lemma byte_of_range w k : 0 <= byte_of w k < 256.
Proof. apply u8_range. Qed.

Lemma byte_of_0 w : byte_of w 0 = w mod 256.
Proof. unfold byte_of, u8. by rewrite Z.shiftr_0_r. Qed.
Lemma byte_of_pow w k : 0 <= k -> byte_of w k = w / 2 ^ (8 * k) mod 256.
Proof. intros. unfold byte_of, u8. by rewrite Z.shiftr_div_pow2 by lia. Qed.

(** Little-endian round trip. *)
Lemma byte_of_sum w :
  0 <= w < W32 ->
  byte_of w 0 + 256 * byte_of w 1 + 65536 * byte_of w 2 + 16777216 * byte_of w 3 = w.
Proof.
  intros. rewrite !byte_of_pow by lia.
  change (2 ^ (8 * 0)) with 1. change (2 ^ (8 * 1)) with 256.
  change (2 ^ (8 * 2)) with 65536. change (2 ^ (8 * 3)) with 16777216. zlia.
Qed.

Lemma ld32_range m a : mem_ok m -> 0 <= ld32 m a < W32.
Proof.
  intros H. unfold ld32.
  pose proof (H a). pose proof (H (a + 1)). pose proof (H (a + 2)). pose proof (H (a + 3)). lia.
Qed.

Lemma ld32_ext m1 m2 a :
  (forall x, a <= x < a + 4 -> m1 x = m2 x) -> ld32 m1 a = ld32 m2 a.
Proof. intros H. unfold ld32. rewrite !H by lia. done. Qed.

Lemma st32_in m a w x : a <= x < a + 4 -> st32 m a w x = byte_of w (x - a).
Proof.
  intros. unfold st32. by zcases.
Qed.
Lemma st32_out m a w x : x < a \/ a + 4 <= x -> st32 m a w x = m x.
Proof.
  intros. unfold st32. by zcases.
Qed.

Lemma ld32_st32_eq m a w : 0 <= w < W32 -> ld32 (st32 m a w) a = w.
Proof.
  intros. unfold ld32. rewrite !st32_in by lia.
  rewrite <- (byte_of_sum w) at 5 by done.
  by replace (a - a) with 0 by lia; replace (a + 1 - a) with 1 by lia;
    replace (a + 2 - a) with 2 by lia; replace (a + 3 - a) with 3 by lia.
Qed.
Lemma ld32_st32_ne m a b w : b + 4 <= a \/ a + 4 <= b -> ld32 (st32 m a w) b = ld32 m b.
Proof. intros. apply ld32_ext. intros. apply st32_out. lia. Qed.

(** Word-aligned accesses overlap only when they coincide. *)
Lemma ld32_st32 m a b w :
  a mod 4 = 0 -> b mod 4 = 0 -> 0 <= w < W32 ->
  ld32 (st32 m a w) b = if a =? b then w else ld32 m b.
Proof.
  intros. destruct (Z.eqb_spec a b) as [<- |].
  - by apply ld32_st32_eq.
  - apply ld32_st32_ne. zlia.
Qed.

Lemma stosb_in m a c n x : a <= x < a + n -> stosb m a c n x = u8 c.
Proof.
  intros. unfold stosb. by zcases.
Qed.
Lemma stosb_out m a c n x : x < a \/ a + n <= x -> stosb m a c n x = m x.
Proof.
  intros. unfold stosb. by zcases.
Qed.

Lemma st8_eq m a v : st8 m a v a = u8 v.
Proof. unfold st8. by rewrite Z.eqb_refl. Qed.
Lemma st8_ne m a v x : x <> a -> st8 m a v x = m x.
Proof. intros. unfold st8. by destruct (Z.eqb_spec x a). Qed.

Lemma st8_ok m a v : mem_ok m -> mem_ok (st8 m a v).
Proof. intros H x. unfold st8. destruct (x =? a); auto with word. Qed.
Lemma st32_ok m a w : mem_ok m -> mem_ok (st32 m a w).
Proof. intros H x. unfold st32. destruct (_ && _); [apply byte_of_range | done]. Qed.
Lemma stosb_ok m a c n : mem_ok m -> mem_ok (stosb m a c n).
Proof. intros H x. unfold stosb. destruct (_ && _); auto with word. Qed.
Lemma ld16_ext m1 m2 a : (forall x, a <= x < a + 2 -> m1 x = m2 x) -> ld16 m1 a = ld16 m2 a.
Proof. intros H. unfold ld16. rewrite !H by lia. done. Qed.
Lemma ld16_range m a : mem_ok m -> 0 <= ld16 m a < 65536.
Proof. intros H. unfold ld16. pose proof (H a). pose proof (H (a + 1)). lia. Qed.
Lemma st16_out m a w x : x < a \/ a + 2 <= x -> st16 m a w x = m x.
Proof. intros. unfold st16. by rewrite !st8_ne by lia. Qed.
Lemma ld16_st16_eq m a w : 0 <= w < 65536 -> ld16 (st16 m a w) a = w.
Proof.
  intros. unfold ld16, st16. rewrite st8_eq, st8_ne, st8_eq by lia. rewrite !byte_of_pow by lia.
  change (2 ^ (8 * 0)) with 1. change (2 ^ (8 * 1)) with 256. unfold u8. zlia.
Qed.
Lemma ld16_st16_ne m a b w : b + 2 <= a \/ a + 2 <= b -> ld16 (st16 m a w) b = ld16 m b.
Proof. intros. apply ld16_ext. intros. apply st16_out. lia. Qed.
Lemma ld16_st32_ne m a b w : b + 2 <= a \/ a + 4 <= b -> ld16 (st32 m a w) b = ld16 m b.
Proof. intros. apply ld16_ext. intros. apply st32_out. lia. Qed.
Lemma ld32_st16_ne m a b w : b + 4 <= a \/ a + 2 <= b -> ld32 (st16 m a w) b = ld32 m b.
Proof. intros. apply ld32_ext. intros. apply st16_out. lia. Qed.
Lemma st16_ok m a w : mem_ok m -> mem_ok (st16 m a w).
Proof. intros. unfold st16. by apply st8_ok, st8_ok. Qed.
#[export] Hint Resolve st8_ok st16_ok st32_ok stosb_ok ld32_range : word.

Lemma length_bytes_at m a n : length (bytes_at m a n) = n.
Proof. revert a. induction n; simpl; auto. Qed.

Lemma bytes_at_lookup m a n i :
  (i < n)%nat -> bytes_at m a n !! i = Some (m (a + Z.of_nat i)).
Proof.
  revert a i. induction n as [|n IH]; intros a i Hi; [lia|].
  destruct i as [|i]; simpl; [by rewrite Z.add_0_r|].
  rewrite IH by lia. do 2 f_equal. lia.
Qed.

Lemma bytes_at_ext m1 m2 a n :
  (forall x, a <= x < a + Z.of_nat n -> m1 x = m2 x) -> bytes_at m1 a n = bytes_at m2 a n.
Proof.
  revert a. induction n as [|n IH]; intros a H; simpl; [done|].
  rewrite H by lia. f_equal. apply IH. intros. apply H. lia.
Qed.

Lemma bytes_at_app m a n k :
  bytes_at m a (n + k) = bytes_at m a n ++ bytes_at m (a + Z.of_nat n) k.
Proof.
  revert a. induction n as [|n IH]; intros a; simpl; [by rewrite Z.add_0_r|].
  rewrite IH. do 3 f_equal. lia.
Qed.
