(* ===== verification/CString.v ===== *)
(** * Memory and string routines (string.c, ulib.c)

    The kernel's [memset], [memcmp], [memmove], [strncmp], [strncpy],
    [safestrcpy] and [strlen], and the user library's [strcpy], [strcmp],
    [strchr], [atoi] and forward-only [memmove], on the memory of Mem.v.  A
    pointer is an address; the regions a call works on do not wrap around the
    end of the address space, as C objects do not, so pointer increments are
    plain additions.  A scan for a NUL runs on fuel, the length of the memory
    that may be read; [None] means that no NUL was found in it. *)

From S2P Require Import Prelude Mem.
#[local] Open Scope Z_scope.

(** ** string.c *)

Definition memset (m : mem) (dst c n : Z) : mem :=
  if (dst mod 4 =? 0) && (n mod 4 =? 0) then
    let c := Z.land c 255 in
    stosl m dst (Z.lor (Z.lor (Z.lor (Z.shiftl c 24) (Z.shiftl c 16)) (Z.shiftl c 8)) c) (n / 4)
  else stosb m dst c n.

Fixpoint memcmp_loop (m : mem) (s1 s2 : Z) (n : nat) : Z :=
  match n with
  | O => 0
  | S n => if m s1 =? m s2 then memcmp_loop m (s1 + 1) (s2 + 1) n else m s1 - m s2
  end.
Definition memcmp (m : mem) (v1 v2 n : Z) : Z := memcmp_loop m v1 v2 (Z.to_nat n).

(** [while(n-- > 0) *--d = *--s;] *)
Fixpoint copy_down (m : mem) (d s : Z) (n : nat) : mem :=
  match n with
  | O => m
  | S n => copy_down (st8 m (d - 1) (m (s - 1))) (d - 1) (s - 1) n
  end.
(** [while(n-- > 0) *d++ = *s++;] *)
Fixpoint copy_up (m : mem) (d s : Z) (n : nat) : mem :=
  match n with
  | O => m
  | S n => copy_up (st8 m d (m s)) (d + 1) (s + 1) n
  end.
Definition memmove (m : mem) (dst src n : Z) : mem :=
  if (src <? dst) && (dst <? src + n) then copy_down m (dst + n) (src + n) (Z.to_nat n)
  else copy_up m dst src (Z.to_nat n).

Definition memcpy (m : mem) (dst src n : Z) : mem := memmove m dst src n.

Fixpoint strncmp_loop (m : mem) (p q : Z) (n : nat) : Z :=
  match n with
  | O => 0
  | S n => if negb (m p =? 0) && (m p =? m q) then strncmp_loop m (p + 1) (q + 1) n
           else u8 (m p) - u8 (m q)
  end.
Definition strncmp (m : mem) (p q n : Z) : Z := strncmp_loop m p q (Z.to_nat n).

(** [while(n-- > 0) *s++ = 0;] *)
Fixpoint zero_fill (m : mem) (s : Z) (n : nat) : mem :=
  match n with
  | O => m
  | S n => zero_fill (st8 m s 0) (s + 1) n
  end.
Fixpoint strncpy_loop (m : mem) (s t : Z) (n : nat) : mem :=
  match n with
  | O => m
  | S n => let m' := st8 m s (m t) in
           if m t =? 0 then zero_fill m' (s + 1) n else strncpy_loop m' (s + 1) (t + 1) n
  end.
Definition strncpy (m : mem) (s t n : Z) : mem := strncpy_loop m s t (Z.to_nat n).

(** The loop of [safestrcpy], with [k] the value of [n - 1]; the store after it
    goes to the byte after the last one copied. *)
Fixpoint safestrcpy_loop (m : mem) (s t : Z) (k : nat) : mem :=
  match k with
  | O => st8 m s 0
  | S k => let m' := st8 m s (m t) in
           if m t =? 0 then st8 m' (s + 1) 0 else safestrcpy_loop m' (s + 1) (t + 1) k
  end.
Definition safestrcpy (m : mem) (s t n : Z) : mem :=
  if n <=? 0 then m else safestrcpy_loop m s t (Z.to_nat (n - 1)).

Fixpoint strlen_loop (fuel : nat) (m : mem) (s n : Z) : option Z :=
  match fuel with
  | O => None
  | S fuel => if m (s + n) =? 0 then Some n else strlen_loop fuel m s (n + 1)
  end.
Definition strlen (fuel : nat) (m : mem) (s : Z) : option Z := strlen_loop fuel m s 0.

(** ** ulib.c *)

Fixpoint strcpy (fuel : nat) (m : mem) (s t : Z) : option mem :=
  match fuel with
  | O => None
  | S fuel => let m' := st8 m s (m t) in
              if m t =? 0 then Some m' else strcpy fuel m' (s + 1) (t + 1)
  end.

Fixpoint strcmp (fuel : nat) (m : mem) (p q : Z) : option Z :=
  match fuel with
  | O => None
  | S fuel => if negb (m p =? 0) && (m p =? m q) then strcmp fuel m (p + 1) (q + 1)
              else Some (u8 (m p) - u8 (m q))
  end.

(** The result is a pointer, 0 when [c] does not occur. *)
Fixpoint strchr (fuel : nat) (m : mem) (s c : Z) : option Z :=
  match fuel with
  | O => None
  | S fuel => if m s =? 0 then Some 0
              else if m s =? c then Some s else strchr fuel m (s + 1) c
  end.

Fixpoint atoi_loop (fuel : nat) (m : mem) (s n : Z) : option Z :=
  match fuel with
  | O => None
  | S fuel => if (48 <=? m s) && (m s <=? 57)
              then atoi_loop fuel m (s + 1) (s32 (n * 10 + m s - 48)) else Some n
  end.
Definition atoi (fuel : nat) (m : mem) (s : Z) : option Z := atoi_loop fuel m s 0.

(** The user library's [memmove] only copies upwards. *)
Definition ulib_memmove (m : mem) (vdst vsrc n : Z) : mem := copy_up m vdst vsrc (Z.to_nat n).
Definition ulib_memset (m : mem) (dst c n : Z) : mem := stosb m dst c n.

(** ** What the routines are about *)

(** The string in a field of [n] bytes at [p]: its bytes up to the first NUL, or
    all [n] of them when there is none (a directory entry's name). *)
Fixpoint cfield (m : mem) (p : Z) (n : nat) : list Z :=
  match n with
  | O => []
  | S n => if m p =? 0 then [] else m p :: cfield m (p + 1) n
  end.

(** The NUL-terminated string at [p] is [l]. *)
Definition cstr (m : mem) (p : Z) (l : list Z) : Prop :=
  bytes_at m p (length l) = l /\ Forall (fun b => b <> 0) l /\ m (p + Z.of_nat (length l)) = 0.

(** The value of a string of decimal digits, on top of [acc]. *)
Fixpoint dec_value (acc : Z) (l : list Z) : Z :=
  match l with
  | [] => acc
  | d :: l => dec_value (acc * 10 + (d - 48)) l
  end.
Definition is_digit (d : Z) : Prop := 48 <= d <= 57.

(** ** Copies *)

Lemma copy_up_spec m d s n x :
  mem_ok m -> d <= s \/ s + Z.of_nat n <= d ->
  copy_up m d s n x =
    if (d <=? x) && (x <? d + Z.of_nat n) then m (s + (x - d)) else m x.
Proof.
  revert m d s. induction n as [|n IH]; intros m d s Hok Hd; cbn [copy_up]; [by zcases|].
  rewrite IH by (auto with word || lia). zcases; rewrite ?st8_ne by lia; try done.
  - f_equal. lia.
  - assert (x = d) as -> by lia. rewrite st8_eq, u8_small by apply Hok. f_equal. lia.
Qed.

Lemma copy_down_spec m d s n x :
  mem_ok m -> s <= d ->
  copy_down m d s n x =
    if (d - Z.of_nat n <=? x) && (x <? d) then m (s - d + x) else m x.
Proof.
  revert m d s. induction n as [|n IH]; intros m d s Hok Hd; cbn [copy_down]; [by zcases|].
  rewrite IH by (auto with word || lia). zcases; rewrite ?st8_ne by lia; try done.
  - f_equal. lia.
  - assert (x = d - 1) as -> by lia. rewrite st8_eq, u8_small by apply Hok. f_equal. lia.
Qed.

Lemma memmove_correct (m : mem) (dst src n x : Z) :
  mem_ok m -> 0 <= n ->
  memmove m dst src n x =
    if (dst <=? x) && (x <? dst + n) then m (src + (x - dst)) else m x.
Proof.
  intros Hok Hn. unfold memmove.
  destruct (Z.ltb_spec src dst), (Z.ltb_spec dst (src + n)); simpl.
  1: rewrite copy_down_spec, Z2Nat.id by (auto || lia);
     replace (dst + n - n) with dst by lia; by replace (src + n - (dst + n) + x)
       with (src + (x - dst)) by lia.
  all: by rewrite copy_up_spec, Z2Nat.id by (auto || lia).
Qed.

(** ** memset *)

Lemma rep_word c :
  0 <= c < 256 ->
  Z.lor (Z.lor (Z.lor (Z.shiftl c 24) (Z.shiftl c 16)) (Z.shiftl c 8)) c = c * 16843009.
Proof.
  intros. rewrite !Z.shiftl_mul_pow2 by lia.
  rewrite (lor_disjoint_add (c * 2 ^ 24) _ 24) by zlia.
  rewrite (lor_disjoint_add (c * 2 ^ 24 + c * 2 ^ 16) _ 16) by zlia.
  rewrite (lor_disjoint_add _ c 8) by zlia. lia.
Qed.

Lemma byte_of_rep_word c k : 0 <= c < 256 -> 0 <= k < 4 -> byte_of (c * 16843009) k = c.
Proof.
  intros. rewrite byte_of_pow by lia.
  assert (k = 0 \/ k = 1 \/ k = 2 \/ k = 3) as [-> | [-> | [-> | ->]]] by lia;
    [change (2 ^ (8 * 0)) with 1 | change (2 ^ (8 * 1)) with 256
    | change (2 ^ (8 * 2)) with 65536 | change (2 ^ (8 * 3)) with 16777216]; zlia.
Qed.

Lemma memset_correct (m : mem) (dst c n x : Z) :
  0 <= n ->
  memset m dst c n x = if (dst <=? x) && (x <? dst + n) then u8 c else m x.
Proof.
  intros. unfold memset. destruct (Z.eqb_spec (dst mod 4) 0), (Z.eqb_spec (n mod 4) 0);
    cbn [andb]; try done.
  assert (Z.land c 255 = u8 c) as -> by apply (land_low_mask c 8 ltac:(lia)).
  rewrite rep_word by apply u8_range. unfold stosl.
  replace (dst + 4 * (n / 4)) with (dst + n) by zlia.
  zcases; [|done..]. apply byte_of_rep_word; [apply u8_range | zlia].
Qed.

Lemma memset_ok m dst c n : 0 <= n -> mem_ok m -> mem_ok (memset m dst c n).
Proof. intros Hn H x. rewrite memset_correct by done. destruct (_ && _); auto with word. Qed.
Lemma memmove_ok m dst src n : 0 <= n -> mem_ok m -> mem_ok (memmove m dst src n).
Proof. intros Hn H x. rewrite memmove_correct by done. by destruct (_ && _). Qed.
#[export] Hint Resolve memset_ok memmove_ok : word.

(** ** Fields and NUL-terminated strings *)

Lemma cfield_ext m1 m2 p n :
  (forall x, p <= x < p + Z.of_nat n -> m1 x = m2 x) -> cfield m1 p n = cfield m2 p n.
Proof.
  revert p. induction n as [|n IH]; intros p H; simpl; [done|].
  rewrite H by lia. destruct (m2 p =? 0); [done|]. f_equal. apply IH. intros. apply H. lia.
Qed.

Lemma cfield_length m p n : (length (cfield m p n) <= n)%nat.
Proof.
  revert p. induction n as [|n IH]; intros p; simpl; [lia|].
  destruct (m p =? 0); simpl; [lia|]. specialize (IH (p + 1)). lia.
Qed.

Lemma cfield_nonzero m p n : Forall (fun b => b <> 0) (cfield m p n).
Proof.
  revert p. induction n as [|n IH]; intros p; simpl; [done|].
  destruct (Z.eqb_spec (m p) 0); by constructor.
Qed.

Lemma cfield_bytes m p n :
  bytes_at m p (length (cfield m p n)) = cfield m p n.
Proof.
  revert p. induction n as [|n IH]; intros p; simpl; [done|].
  destruct (m p =? 0); simpl; [done|]. by rewrite IH.
Qed.

(** The field of [n] bytes holding a NUL-terminated string. *)
Lemma cfield_cstr m p l n : cstr m p l -> cfield m p n = take n l.
Proof.
  revert p n. induction l as [|b l IH]; intros p n (Hb & Hnz & H0); destruct n; simpl; try done.
  - simpl in H0. rewrite Z.add_0_r in H0. by rewrite H0.
  - simpl in Hb. injection Hb as Hb Hl. inversion Hnz; subst.
    destruct (Z.eqb_spec (m p) 0); [done|]. f_equal. apply IH. split_and!; try done.
    rewrite <- H0. f_equal. simpl. lia.
Qed.

Lemma cstr_cons m p b l : cstr m p (b :: l) -> m p = b /\ b <> 0 /\ cstr m (p + 1) l.
Proof.
  intros (Hb & Hnz & H0). simpl in Hb. injection Hb as Hb Hl. inversion Hnz; subst.
  split_and!; try done. split_and!; try done. rewrite <- H0. f_equal. simpl. lia.
Qed.
Lemma cstr_nil m p : cstr m p [] -> m p = 0.
Proof. intros (_ & _ & H). simpl in H. by rewrite Z.add_0_r in H. Qed.

Lemma cstr_ext m1 m2 p l :
  (forall x, p <= x <= p + Z.of_nat (length l) -> m1 x = m2 x) -> cstr m1 p l -> cstr m2 p l.
Proof.
  intros H (Hb & Hnz & H0). split_and!; [|done|].
  - rewrite <- Hb at 2. apply bytes_at_ext. intros. symmetry. apply H. lia.
  - rewrite <- H0. symmetry. apply H. lia.
Qed.

(** ** Comparison *)

Lemma strncmp_loop_zero m p q n :
  mem_ok m -> strncmp_loop m p q n = 0 <-> cfield m p n = cfield m q n.
Proof.
  intros Hok. revert p q. induction n as [|n IH]; intros p q; simpl; [done|].
  rewrite !u8_small by apply Hok.
  destruct (Z.eqb_spec (m p) 0) as [Hp|Hp]; simpl.
  - destruct (Z.eqb_spec (m q) 0); (split; [done || lia | done || lia]).
  - destruct (Z.eqb_spec (m p) (m q)) as [Hpq|Hpq].
    + rewrite IH, <- Hpq. destruct (Z.eqb_spec (m p) 0); [done|].
      split; [by intros -> | congruence].
    + split; [lia|]. destruct (Z.eqb_spec (m q) 0); congruence.
Qed.

Lemma memcmp_loop_zero m p q n :
  memcmp_loop m p q n = 0 <-> bytes_at m p n = bytes_at m q n.
Proof.
  revert p q. induction n as [|n IH]; intros p q; simpl; [done|].
  destruct (Z.eqb_spec (m p) (m q)).
  - rewrite IH. split; [intros ->; congruence | congruence].
  - split; [lia | congruence].
Qed.

Lemma strcmp_zero fuel m p q l1 l2 :
  mem_ok m -> cstr m p l1 -> cstr m q l2 -> (length l1 < fuel)%nat ->
  exists r, strcmp fuel m p q = Some r /\ (r = 0 <-> l1 = l2).
Proof.
  intros Hok. revert p q l1 l2. induction fuel as [|fuel IH]; intros p q l1 l2 H1 H2 Hf; [lia|].
  simpl. rewrite !u8_small by apply Hok.
  destruct l1 as [|a l1], l2 as [|b l2].
  - apply cstr_nil in H1, H2. rewrite H1, H2. simpl. by exists 0.
  - apply cstr_nil in H1. apply cstr_cons in H2 as (H2 & ? & _). rewrite H1. simpl.
    eexists. split; [done|]. split; [lia|discriminate].
  - apply cstr_nil in H2. apply cstr_cons in H1 as (H1 & ? & _). rewrite H1, H2.
    destruct (Z.eqb_spec a 0); [done|]. simpl.
    eexists. split; [done|]. split; [lia|discriminate].
  - apply cstr_cons in H1 as (H1 & ? & Hl1). apply cstr_cons in H2 as (H2 & ? & Hl2).
    rewrite H1, H2. destruct (Z.eqb_spec a 0); [done|].
    destruct (Z.eqb_spec a b); simpl in *.
    + subst b. destruct (IH _ _ _ _ Hl1 Hl2) as (r & Hr & Heq); [lia|].
      exists r. split; [done|]. rewrite Heq. split; congruence.
    + eexists. split; [done|]. split; [lia|congruence].
Qed.

(** ** Bounded copies of strings *)

Lemma zero_fill_spec m s n x :
  zero_fill m s n x = if (s <=? x) && (x <? s + Z.of_nat n) then 0 else m x.
Proof.
  revert m s. induction n as [|n IH]; intros m s; cbn [zero_fill]; [by zcases|].
  rewrite IH. zcases; try done; try (by rewrite st8_ne by lia).
  assert (x = s) as -> by lia. apply st8_eq.
Qed.

Lemma strncpy_loop_frame m s t n x :
  x < s \/ s + Z.of_nat n <= x -> strncpy_loop m s t n x = m x.
Proof.
  revert m s t. induction n as [|n IH]; intros m s t H; cbn [strncpy_loop]; [done|].
  destruct (m t =? 0).
  - rewrite zero_fill_spec. zcases; by rewrite st8_ne by lia.
  - rewrite IH by lia. by rewrite st8_ne by lia.
Qed.

Definition disjoint (a b n : Z) : Prop := a + n <= b \/ b + n <= a.

Lemma strncpy_loop_bytes m s t n :
  mem_ok m -> disjoint s t (Z.of_nat n) ->
  bytes_at (strncpy_loop m s t n) s n =
    cfield m t n ++ replicate (n - length (cfield m t n)) 0.
Proof.
  unfold disjoint. revert m s t. induction n as [|n IH]; intros m s t Hok Hd; [done|].
  cbn [strncpy_loop bytes_at cfield]. destruct (Z.eqb_spec (m t) 0) as [H0|H0].
  - rewrite zero_fill_spec. zcases. rewrite st8_eq, H0. simpl. f_equal.
    transitivity (bytes_at (fun _ => 0) (s + 1) n).
    + apply bytes_at_ext. intros. rewrite zero_fill_spec. by zcases.
    + clear. generalize (s + 1). induction n as [|n IH]; intros z; simpl; [done|]. by rewrite IH.
  - rewrite strncpy_loop_frame, st8_eq, u8_small by (apply Hok || lia).
    simpl. f_equal. rewrite IH by (auto with word || lia).
    rewrite (cfield_ext _ m); [done|]. intros. apply st8_ne. lia.
Qed.

Lemma safestrcpy_loop_frame m s t k x :
  x < s \/ s + Z.of_nat k < x -> safestrcpy_loop m s t k x = m x.
Proof.
  revert m s t. induction k as [|k IH]; intros m s t H; cbn [safestrcpy_loop].
  { by rewrite st8_ne by lia. }
  destruct (m t =? 0); [by rewrite !st8_ne by lia|].
  rewrite IH by lia. by rewrite st8_ne by lia.
Qed.

Lemma safestrcpy_loop_cstr m s t k :
  mem_ok m -> disjoint s t (Z.of_nat k + 1) ->
  cstr (safestrcpy_loop m s t k) s (cfield m t k).
Proof.
  unfold disjoint. revert m s t. induction k as [|k IH]; intros m s t Hok Hd.
  { split_and!; [done | constructor |]. cbn. by rewrite Z.add_0_r, st8_eq. }
  cbn [safestrcpy_loop cfield]. destruct (Z.eqb_spec (m t) 0) as [H0|H0].
  { split_and!; [done | constructor |]. cbn. by rewrite Z.add_0_r, st8_ne, st8_eq, H0 by lia. }
  destruct (IH (st8 m s (m t)) (s + 1) (t + 1)) as (Hb & Hnz & Hz); [auto with word | lia |].
  rewrite (cfield_ext _ m) in Hb, Hnz, Hz by (intros; apply st8_ne; lia).
  split_and!; cbn [bytes_at length].
  - rewrite safestrcpy_loop_frame, st8_eq, u8_small by (apply Hok || lia). by f_equal.
  - by constructor.
  - rewrite <- Hz. f_equal. lia.
Qed.

(** ** Scans *)

Lemma strlen_loop_cstr fuel m s l n :
  cstr m (s + n) l -> (length l < fuel)%nat ->
  strlen_loop fuel m s n = Some (n + Z.of_nat (length l)).
Proof.
  revert l n. induction fuel as [|fuel IH]; intros l n H Hf; [lia|]. cbn [strlen_loop].
  destruct l as [|b l].
  - apply cstr_nil in H. rewrite H. simpl. f_equal. lia.
  - apply cstr_cons in H as (Hb & Hnz & H). rewrite Hb.
    destruct (Z.eqb_spec b 0); [done|]. rewrite (IH l); [f_equal; simpl; lia | | simpl in Hf; lia].
    by rewrite Z.add_assoc.
Qed.

Lemma dec_value_ge acc l : 0 <= acc -> Forall is_digit l -> acc <= dec_value acc l.
Proof.
  revert acc. induction l as [|d l IH]; intros acc Ha Hl; simpl; [lia|].
  inversion Hl as [|? ? Hx Hl']; subst. unfold is_digit in Hx.
  etransitivity; [|apply IH; [lia|done]]. lia.
Qed.

Lemma atoi_loop_digits fuel m s n l :
  bytes_at m s (length l) = l -> Forall is_digit l ->
  ~ is_digit (m (s + Z.of_nat (length l))) ->
  0 <= n -> dec_value n l < 2147483648 -> (length l < fuel)%nat ->
  atoi_loop fuel m s n = Some (dec_value n l).
Proof.
  revert s n l. induction fuel as [|fuel IH]; intros s n l Hb Hd Hend Hn Hov Hf; [lia|].
  cbn [atoi_loop]. destruct l as [|d l]; cbn in Hb, Hend, Hov, Hf.
  - rewrite Z.add_0_r in Hend. unfold is_digit in Hend. by zcases.
  - injection Hb as Hb Hl. inversion Hd as [|? ? Hdd Hds]; subst. red in Hdd.
    pose proof (dec_value_ge (n * 10 + (m s - 48)) l ltac:(lia) Hds).
    zcases. rewrite s32_small by lia.
    replace (n * 10 + m s - 48) with (n * 10 + (m s - 48)) by lia.
    simpl. apply IH; try done; try lia.
    by replace (s + 1 + Z.of_nat (length l)) with (s + Z.pos (Pos.of_succ_nat (length l))) by lia.
Qed.

Lemma strncpy_loop_ok m s t n : mem_ok m -> mem_ok (strncpy_loop m s t n).
Proof.
  revert m s t. induction n as [|n IH]; intros m s t H; cbn [strncpy_loop]; [done|].
  destruct (m t =? 0); [|auto with word].
  intros x. rewrite zero_fill_spec. destruct (_ && _); [lia | by apply st8_ok].
Qed.

(** A field that holds [l] padded with NULs holds the string [l]. *)
Lemma cfield_of_padded m p n l :
  Forall (fun b => b <> 0) l -> bytes_at m p n = l ++ replicate (n - length l) 0 ->
  cfield m p n = l.
Proof.
  revert p l. induction n as [|n IH]; intros p l Hnz Hb; simpl in *.
  { by destruct l. }
  destruct l as [|b l]; simpl in Hb; injection Hb as Hp Hb.
  - by rewrite Hp.
  - inversion Hnz; subst. destruct (Z.eqb_spec (m p) 0); [done|]. f_equal. by apply IH.
Qed.

(** ** Properties *)

(** [memmove] copies the [n] bytes of the source as they were before the
    call, whichever way the two regions overlap, and writes nothing outside the
    destination. *)
Theorem memmove_any_overlap (m : mem) (dst src n : Z) :
  mem_ok m -> 0 <= n ->
  bytes_at (memmove m dst src n) dst (Z.to_nat n) = bytes_at m src (Z.to_nat n) /\
  (forall x, x < dst \/ dst + n <= x -> memmove m dst src n x = m x).
Proof.
  intros Hok Hn. split.
  - apply list_eq_same_length with (Z.to_nat n); [by rewrite !length_bytes_at..|].
    intros i a b Hi. rewrite !bytes_at_lookup, memmove_correct by done. zcases.
    intros [= <-] [= <-]. f_equal. lia.
  - intros x Hx. rewrite memmove_correct by done. by zcases.
Qed.
Lemma memmove_any_overlap_witness :
  bytes_at (memmove (fun x => u8 x) 12 10 4) 12 4 = [10; 11; 12; 13] /\
  memmove (fun x => u8 x) 12 10 4 11 = 11.
Proof.
  pose proof (memmove_any_overlap (fun x => u8 x) 12 10 4 u8_range ltac:(lia)) as [H1 H2].
  split; [exact H1 | apply H2; lia].
Defined.

(** [memset], whose word-sized path replicates the byte into a 32-bit word,
    fills exactly the [n] bytes at [dst] with the low byte of [c], for every
    alignment and length. *)
Theorem memset_fills (m : mem) (dst c n : Z) :
  0 <= n ->
  bytes_at (memset m dst c n) dst (Z.to_nat n) = replicate (Z.to_nat n) (u8 c) /\
  (forall x, x < dst \/ dst + n <= x -> memset m dst c n x = m x).
Proof.
  intros Hn. split.
  - apply list_eq_same_length with (Z.to_nat n);
      [by rewrite ?length_bytes_at, ?length_replicate..|].
    intros i a b Hi. rewrite bytes_at_lookup, memset_correct, lookup_replicate_2 by done. zcases.
    by intros [= <-] [= <-].
  - intros x Hx. rewrite memset_correct by done. by zcases.
Qed.
Lemma memset_fills_witness :
  bytes_at (memset (fun _ => 0) 4096 257 8) 4096 8 = replicate 8 1.
Proof. apply (memset_fills (fun _ => 0) 4096 257 8 ltac:(lia)). Defined.

(** A name written into a fixed-size field with [strncpy] reads back: the
    field holds the (possibly truncated) name padded with NULs, [strncmp] finds
    it equal to the source, and nothing outside the field changes. *)
Theorem strncpy_field_roundtrip (m : mem) (s t n : Z) :
  mem_ok m -> 0 <= n -> disjoint s t n ->
  let m' := strncpy m s t n in
  let name := cfield m t (Z.to_nat n) in
  bytes_at m' s (Z.to_nat n) = name ++ replicate (Z.to_nat n - length name) 0 /\
  strncmp m' s t n = 0 /\
  (forall x, x < s \/ s + n <= x -> m' x = m x).
Proof.
  intros Hok Hn Hd m' name.
  assert (disjoint s t (Z.of_nat (Z.to_nat n))) as Hd' by by rewrite Z2Nat.id.
  assert (forall x, x < s \/ s + n <= x -> m' x = m x) as Hframe.
  { intros x Hx. apply strncpy_loop_frame. by rewrite Z2Nat.id. }
  assert (bytes_at m' s (Z.to_nat n) = name ++ replicate (Z.to_nat n - length name) 0) as Hb
    by by apply strncpy_loop_bytes.
  assert (mem_ok m') as Hok' by by apply strncpy_loop_ok.
  split_and!; try done.
  apply strncmp_loop_zero; [done|].
  rewrite (cfield_ext m' m t) by (intros; apply Hframe; destruct Hd; lia).
  fold name. apply cfield_of_padded; [apply cfield_nonzero | done].
Qed.
Lemma strncpy_field_roundtrip_witness :
  let m := fun x => if x =? 100 then 97 else if x =? 101 then 98 else 0 in
  bytes_at (strncpy m 200 100 4) 200 4 = [97; 98; 0; 0] /\
  strncmp (strncpy m 200 100 4) 200 100 4 = 0.
Proof.
  intros m.
  assert (mem_ok m) as Hok by (intros x; unfold m; zcases).
  pose proof (strncpy_field_roundtrip m 200 100 4 Hok ltac:(lia) ltac:(right; lia)) as (H1 & H2 & _).
  split; [exact H1 | exact H2].
Defined.

(** [safestrcpy] always leaves a NUL-terminated string in the destination,
    the source truncated to [n - 1] bytes, and never writes outside the [n]
    bytes of the destination. *)
Theorem safestrcpy_terminates (m : mem) (s t n : Z) :
  mem_ok m -> 0 < n -> disjoint s t n ->
  let m' := safestrcpy m s t n in
  cstr m' s (cfield m t (Z.to_nat (n - 1))) /\
  (length (cfield m t (Z.to_nat (n - 1))) < Z.to_nat n)%nat /\
  (forall x, x < s \/ s + n <= x -> m' x = m x).
Proof.
  intros Hok Hn Hd m'. unfold m', safestrcpy. destruct (Z.leb_spec n 0); [lia|].
  split_and!.
  - apply safestrcpy_loop_cstr; [done|].
    by replace (Z.of_nat (Z.to_nat (n - 1)) + 1) with n by lia.
  - pose proof (cfield_length m t (Z.to_nat (n - 1))). lia.
  - intros x Hx. apply safestrcpy_loop_frame. lia.
Qed.
Lemma safestrcpy_terminates_witness :
  cstr (safestrcpy (fun x => if x <? 200 then 97 else 7) 300 100 4) 300 [97; 97; 97].
Proof.
  assert (mem_ok (fun x => if x <? 200 then 97 else 7)) as Hok by (intros x; zcases).
  apply (safestrcpy_terminates (fun x => if x <? 200 then 97 else 7) 300 100 4 Hok
           ltac:(lia) ltac:(right; lia)).
Defined.

(** [atoi] returns the value of the decimal digits at [s], up to the first
    byte that is not a digit, when that value fits an [int]. *)
Theorem atoi_value (m : mem) (s : Z) (l : list Z) (fuel : nat) :
  bytes_at m s (length l) = l -> Forall is_digit l ->
  ~ is_digit (m (s + Z.of_nat (length l))) ->
  dec_value 0 l < 2147483648 -> (length l < fuel)%nat ->
  atoi fuel m s = Some (dec_value 0 l).
Proof. intros. apply atoi_loop_digits; try done. Qed.
Lemma atoi_value_witness :
  atoi 9 (fun x => if x =? 0 then 52 else if x =? 1 then 50 else 0) 0 = Some 42.
Proof.
  apply (atoi_value (fun x => if x =? 0 then 52 else if x =? 1 then 50 else 0) 0 [52; 50] 9);
    [done | repeat constructor; lia | unfold is_digit; simpl; lia | simpl; lia | simpl; lia].
Defined.
