(* ===== verification/Mmu.v ===== *)
(** * Address-space layout and paging macros (memlayout.h, mmu.h)

    The macros of memlayout.h and mmu.h that the allocator and the virtual
    memory code are written with, as functions on [uint]s, and the arithmetic
    facts that replace their bit masks. *)

From S2P Require Import Prelude Mem.
#[local] Open Scope Z_scope.

Abbreviation EXTMEM := 1048576.
Abbreviation PHYSTOP := 234881024.
Abbreviation DEVSPACE := 4261412864.
Abbreviation KERNBASE := 2147483648.
Abbreviation KERNLINK := 2148532224.
Abbreviation PGSIZE := 4096.
Abbreviation NPDENTRIES := 1024.

Definition V2P (a : Z) : Z := u32 (a - KERNBASE).
Definition P2V (a : Z) : Z := u32 (a + KERNBASE).

Definition PDX (va : Z) : Z := Z.land (Z.shiftr va 22) 1023.
Definition PTX (va : Z) : Z := Z.land (Z.shiftr va 12) 1023.
Definition PGADDR (d t o : Z) : Z :=
  u32 (Z.lor (Z.lor (Z.shiftl d 22) (Z.shiftl t 12)) o).

(** [~(PGSIZE-1)] as a [uint]. *)
Definition PGMASK : Z := 4294963200.
Definition PGROUNDUP (sz : Z) : Z := Z.land (u32 (sz + PGSIZE - 1)) PGMASK.
Definition PGROUNDDOWN (a : Z) : Z := Z.land a PGMASK.

Definition PTE_P : Z := 1.
Definition PTE_W : Z := 2.
Definition PTE_U : Z := 4.
Definition PTE_PS : Z := 128.
Definition PTE_ADDR (pte : Z) : Z := Z.land pte PGMASK.
Definition PTE_FLAGS (pte : Z) : Z := Z.land pte 4095.

(** Is a bit of an entry set? *)
Definition has (flag pte : Z) : bool := negb (Z.land pte flag =? 0).

(** ** Arithmetic of the macros *)

Lemma PGROUNDDOWN_eq a : 0 <= a < W32 -> PGROUNDDOWN a = a - a mod 4096.
Proof.
  intros H. unfold PGROUNDDOWN, PGMASK.
  transitivity (Z.land (Z.land a (Z.lnot (2 ^ 12 - 1))) (2 ^ 32 - 1)).
  - rewrite <- Z.land_assoc. f_equal.
  - rewrite land_high_mask, land_low_mask by lia. change (2 ^ 12) with 4096.
    change (2 ^ 32) with W32. apply Z.mod_small. zlia.
Qed.
Lemma PTE_ADDR_eq a : 0 <= a < W32 -> PTE_ADDR a = a - a mod 4096.
Proof. apply PGROUNDDOWN_eq. Qed.
Lemma PTE_FLAGS_eq a : PTE_FLAGS a = a mod 4096.
Proof. apply (land_low_mask a 12). lia. Qed.
Lemma PGROUNDUP_eq a :
  0 <= a -> a + 4095 < W32 -> PGROUNDUP a = (a + 4095) / 4096 * 4096.
Proof.
  intros H1 H2. unfold PGROUNDUP. fold (PGROUNDDOWN (u32 (a + 4096 - 1))).
  rewrite u32_small, PGROUNDDOWN_eq by lia. replace (a + 4096 - 1) with (a + 4095) by lia. zlia.
Qed.
Lemma PDX_eq va : 0 <= va < W32 -> PDX va = va / 4194304.
Proof.
  intros. unfold PDX. rewrite Z.shiftr_div_pow2 by lia.
  rewrite (land_low_mask _ 10) by lia. change (2 ^ 22) with 4194304. change (2 ^ 10) with 1024. zlia.
Qed.
Lemma PTX_eq va : PTX va = va / 4096 mod 1024.
Proof.
  unfold PTX. rewrite Z.shiftr_div_pow2 by lia. by rewrite (land_low_mask _ 10) by lia.
Qed.
Lemma PGADDR_dir d : 0 <= d < 1024 -> PGADDR d 0 0 = d * 4194304.
Proof.
  intros. unfold PGADDR. rewrite Z.shiftl_0_l, !Z.lor_0_r, Z.shiftl_mul_pow2 by lia.
  change (2 ^ 22) with 4194304. apply u32_small. lia.
Qed.
Lemma P2V_eq a : 0 <= a < KERNBASE -> P2V a = a + KERNBASE.
Proof. intros. apply u32_small. lia. Qed.
Lemma V2P_eq a : KERNBASE <= a < W32 -> V2P a = a - KERNBASE.
Proof. intros. apply u32_small. lia. Qed.

(** An address splits into its two indices and its offset in the page. *)
Lemma va_split va : 0 <= va < W32 -> va = PDX va * 4194304 + PTX va * 4096 + va mod 4096.
Proof. intros. rewrite PDX_eq, PTX_eq by done. zlia. Qed.

Lemma PDX_range va : 0 <= va < W32 -> 0 <= PDX va < 1024.
Proof. intros. rewrite PDX_eq by done. zlia. Qed.
Lemma PTX_range va : 0 <= PTX va < 1024.
Proof. rewrite PTX_eq. zlia. Qed.

(** An entry made of a page address and flags gives both back. *)
Lemma mk_pte pa flags :
  pa mod 4096 = 0 -> 0 <= pa -> 0 <= flags < 4096 -> Z.lor pa flags = pa + flags.
Proof. intros. by apply (lor_disjoint_add pa flags 12). Qed.
Lemma PTE_ADDR_mk pa flags :
  pa mod 4096 = 0 -> 0 <= pa -> pa + 4096 <= W32 -> 0 <= flags < 4096 ->
  PTE_ADDR (Z.lor pa flags) = pa.
Proof. intros. rewrite mk_pte, PTE_ADDR_eq by lia. zlia. Qed.
Lemma PTE_FLAGS_mk pa flags :
  pa mod 4096 = 0 -> 0 <= pa -> 0 <= flags < 4096 -> PTE_FLAGS (Z.lor pa flags) = flags.
Proof. intros. rewrite mk_pte, PTE_FLAGS_eq by lia. zlia. Qed.

Lemma has_P pte : has PTE_P pte = Z.odd pte.
Proof.
  unfold has, PTE_P.
  replace (Z.land pte 1) with (pte mod 2) by (symmetry; apply (land_low_mask pte 1); lia).
  rewrite Zmod_odd. by destruct (Z.odd pte).
Qed.
Lemma has_lor flag a b : has flag (Z.lor a b) = has flag a || has flag b.
Proof.
  unfold has. rewrite Z.land_lor_distr_l.
  destruct (Z.eqb_spec (Z.lor (Z.land a flag) (Z.land b flag)) 0) as [E|E];
    destruct (Z.eqb_spec (Z.land a flag) 0) as [Ea|Ea],
             (Z.eqb_spec (Z.land b flag) 0) as [Eb|Eb]; try done.
  - by apply Z.lor_eq_0_iff in E as [? ?].
  - by apply Z.lor_eq_0_iff in E as [? ?].
  - by apply Z.lor_eq_0_iff in E as [? ?].
  - by rewrite Ea, Eb in E.
Qed.
