(* ===== verification/Kalloc.v ===== *)
(** * The physical page allocator (kalloc.c)

    The allocator keeps its free list inside the free pages: the first word of
    a free page is the pointer to the next one.  [kst] is that memory with the
    head of the list.  The critical section under [kmem.lock] is the whole body
    of [kfree] and [kalloc] after the checks, so each is one step.

    The abstract allocator is the stack of free pages: [free_inv st l] says
    that the list in memory is [l], has no page twice, and holds only pages the
    allocator may hand out.  [kalloc] pops, [kfree] pushes; [owns] runs are
    sequences of calls by clients that only free what they were given. *)

From S2P Require Import Prelude Mem CString Mmu.
#[local] Open Scope Z_scope.

Record kst := KSt {
  kmem_mem : mem;
  kmem_freelist : Z;      (* struct run *freelist *)
  kmem_use_lock : bool;
}.
Definition set_mem (m : mem) (st : kst) : kst := KSt m (kmem_freelist st) (kmem_use_lock st).
Definition set_freelist (p : Z) (st : kst) : kst := KSt (kmem_mem st) p (kmem_use_lock st).
Definition set_use_lock (b : bool) (st : kst) : kst := KSt (kmem_mem st) (kmem_freelist st) b.

Section kalloc.
(** The first address after the kernel image, a linker symbol of kernel.ld. *)
Context (kend : Z).

Definition kfree (v : Z) : M kst unit :=
  panic_if (negb (v mod PGSIZE =? 0) || (v <? kend) || (PHYSTOP <=? V2P v)) "kfree" ;;;
  modify (fun st => set_mem (memset (kmem_mem st) v 1 PGSIZE) st) ;;;
  modify (fun st => set_mem (st32 (kmem_mem st) v (kmem_freelist st)) st) ;;;
  modify (set_freelist v).

Definition kalloc : M kst Z :=
  r <- gets kmem_freelist ;;
  (if r =? 0 then ret tt
   else modify (fun st => set_freelist (ld32 (kmem_mem st) r) st)) ;;;
  ret r.

(** [for(; p + PGSIZE <= vend; p += PGSIZE) kfree(p);] with fuel for the pages
    that are left. *)
Fixpoint freerange_loop (fuel : nat) (p vend : Z) : M kst unit :=
  match fuel with
  | O => diverge
  | S fuel =>
      if p + PGSIZE <=? vend then kfree p ;;; freerange_loop fuel (p + PGSIZE) vend
      else ret tt
  end.
Definition freerange (vstart vend : Z) : M kst unit :=
  let p := PGROUNDUP vstart in
  freerange_loop (S (Z.to_nat ((vend - p) / PGSIZE))) p vend.

Definition kinit1 (vstart vend : Z) : M kst unit :=
  modify (set_use_lock false) ;;; freerange vstart vend.
Definition kinit2 (vstart vend : Z) : M kst unit :=
  freerange vstart vend ;;; modify (set_use_lock true).

(** ** The abstract allocator *)

(** A page the allocator may hand out. *)
Definition kpage (p : Z) : Prop := p mod 4096 = 0 /\ kend <= p /\ p + 4096 <= KERNBASE + PHYSTOP.

Fixpoint chain (m : mem) (p : Z) (l : list Z) : Prop :=
  match l with
  | [] => p = 0
  | q :: l => p = q /\ chain m (ld32 m q) l
  end.

Definition free_inv (st : kst) (l : list Z) : Prop :=
  mem_ok (kmem_mem st) /\ NoDup l /\ Forall kpage l /\ chain (kmem_mem st) (kmem_freelist st) l.

(** The kernel is linked at [KERNLINK] and fits below [PHYSTOP]. *)
Context (Hend : KERNBASE <= kend < KERNBASE + PHYSTOP).

Lemma kpage_range p : kpage p -> KERNBASE <= p /\ p + 4096 <= KERNBASE + PHYSTOP /\ p mod 4096 = 0.
Proof using Hend. unfold kpage. lia. Qed.
Lemma kpage_ne p q : kpage p -> kpage q -> p <> q -> p + 4096 <= q \/ q + 4096 <= p.
Proof using. unfold kpage. intros (H1 & _) (H2 & _) H. zlia. Qed.

Lemma chain_ext m1 m2 p l :
  (forall q, q ∈ l -> ld32 m1 q = ld32 m2 q) -> chain m1 p l -> chain m2 p l.
Proof.
  revert p. induction l as [|q l IH]; intros p H; simpl; [done|].
  intros [-> Hc]. split; [done|]. rewrite <- H by constructor.
  apply IH; [|done]. intros. apply H. by constructor.
Qed.

(** Changing memory outside the free pages keeps the free list. *)
Lemma free_inv_ext st m l :
  free_inv st l -> mem_ok m ->
  (forall q x, q ∈ l -> q <= x < q + 4096 -> m x = kmem_mem st x) ->
  free_inv (set_mem m st) l.
Proof.
  intros (Hok & Hnd & Hp & Hc) Hm H. split_and!; try done. simpl.
  eapply chain_ext; [|done]. intros q Hq. apply ld32_ext. intros x Hx.
  symmetry. apply (H q); [done | lia].
Qed.

Lemma kfree_panics v st :
  kfree v st = Panic "kfree" \/ (v mod 4096 = 0 /\ kend <= v /\ V2P v < PHYSTOP).
Proof.
  unfold kfree, panic_if, bind, panic. zcases; by (left; done) || (right; lia).
Qed.

Lemma kfree_ok v st l :
  free_inv st l -> kpage v -> v ∉ l ->
  exists st', kfree v st = Ret tt st' /\ free_inv st' (v :: l) /\
    (forall x, x < v \/ v + 4096 <= x -> kmem_mem st' x = kmem_mem st x) /\
    kmem_use_lock st' = kmem_use_lock st.
Proof.
  intros (Hok & Hnd & Hp & Hc) Hv Hnin. pose proof (kpage_range _ Hv) as (Hv1 & Hv2 & Hv3).
  destruct Hv as (Ha & Hb & Hd).
  eexists. unfold kfree, panic_if. rewrite V2P_eq by lia. zcases.
  split; [reflexivity|]. simpl.
  assert (0 <= kmem_freelist st < W32) as Hfl.
  { destruct l as [|q l]; simpl in Hc; [lia|]. destruct Hc as [-> _].
    apply Forall_cons in Hp as [Hq _]. apply kpage_range in Hq. lia. }
  assert (forall x, x < v \/ v + 4096 <= x ->
    st32 (memset (kmem_mem st) v 1 4096) v (kmem_freelist st) x = kmem_mem st x) as Hframe.
  { intros x Hx. rewrite st32_out, memset_correct by lia. by zcases. }
  split_and!; try done. split_and!; simpl.
  - apply st32_ok, memset_ok; [lia | done].
  - by constructor.
  - constructor; [done|done].
  - split; [done|]. rewrite ld32_st32_eq by done.
    eapply chain_ext; [|done]. intros q Hq. apply ld32_ext. intros x Hx.
    symmetry. apply Hframe.
    assert (kpage q) as Hq' by (by eapply Forall_forall in Hp).
    destruct (kpage_ne q v); try done; [by intros -> | lia | lia].
Qed.

Lemma kalloc_some p l st :
  free_inv st (p :: l) ->
  kalloc st = Ret p (set_freelist (ld32 (kmem_mem st) p) st) /\
  free_inv (set_freelist (ld32 (kmem_mem st) p) st) l /\ kpage p /\ (p ∉ l) /\ p <> 0.
Proof.
  intros (Hok & Hnd & Hp & Hfl & Hc). apply NoDup_cons in Hnd as [Hnin Hnd].
  apply Forall_cons in Hp as [Hq Hp]. pose proof (kpage_range _ Hq).
  unfold kalloc, bind, gets. rewrite Hfl. destruct (Z.eqb_spec p 0); [lia|].
  split_and!; try done.
Qed.

Lemma kalloc_none st : free_inv st [] -> kalloc st = Ret 0 st.
Proof. intros (_ & _ & _ & Hfl). unfold kalloc, bind, gets. simpl in Hfl. by rewrite Hfl. Qed.

(** ** Initialisation *)

(** The [k] consecutive pages from [p] on. *)
Fixpoint pages (p : Z) (k : nat) : list Z :=
  match k with
  | O => []
  | S k => p :: pages (p + 4096) k
  end.

Lemma elem_of_pages p k q :
  q ∈ pages p k <-> p <= q < p + 4096 * Z.of_nat k /\ (q - p) mod 4096 = 0.
Proof using.
  revert p. induction k as [|k IH]; intros p; cbn [pages].
  - split; [by intros ?%not_elem_of_nil | lia].
  - rewrite elem_of_cons, IH. zlia.
Qed.

Lemma kpage_not_free st l p : free_inv st l -> p ∈ l -> kpage p.
Proof using. intros (_ & _ & Hp & _) Hin. by eapply Forall_forall in Hp. Qed.

Lemma freerange_loop_ok fuel p vend st l :
  free_inv st l -> p mod 4096 = 0 -> kend <= p -> vend <= KERNBASE + PHYSTOP ->
  (forall q, q ∈ l -> q < p \/ vend < q + 4096) -> (Z.to_nat ((vend - p) / 4096) < fuel)%nat ->
  exists st', freerange_loop fuel p vend st = Ret tt st' /\
    free_inv st' (reverse (pages p (Z.to_nat ((vend - p) / 4096))) ++ l) /\
    kmem_use_lock st' = kmem_use_lock st /\ (forall x, x < p \/ vend <= x -> kmem_mem st' x = kmem_mem st x).
Proof using Hend.
  revert p st l. induction fuel as [|fuel IH]; intros p st l Hinv Hal Hp Hv Hl Hf; [lia|].
  cbn [freerange_loop]. destruct (Z.leb_spec (p + 4096) vend).
  - destruct (kfree_ok p st l) as (st1 & Hk & Hinv1 & Hm1 & Hul); [done | split; lia | |].
    { intros [?|?]%Hl; lia. }
    assert (Z.to_nat ((vend - p) / 4096) = S (Z.to_nat ((vend - (p + 4096)) / 4096))) as Hn by zlia.
    destruct (IH (p + 4096) st1 (p :: l)) as (st2 & Hr & Hinv2 & Hul2 & Hm2); try done; try zlia.
    { intros q [->|Hq]%elem_of_cons; [lia|]. specialize (Hl q Hq). lia. }
    exists st2. rewrite (bind_Ret _ _ _ _ _ Hk). split_and!; [done | | congruence | intros x Hx; rewrite Hm2, Hm1 by lia; done].
    rewrite Hn. cbn [pages]. by rewrite reverse_cons, <- (assoc_L (++)).
  - exists st. replace (Z.to_nat ((vend - p) / 4096)) with O by zlia. done.
Qed.

Lemma freerange_ok vstart vend st l :
  free_inv st l -> kend <= vstart -> vend <= KERNBASE + PHYSTOP -> vstart <= vend ->
  (forall q, q ∈ l -> q < vstart \/ vend < q + 4096) ->
  exists st' l', freerange vstart vend st = Ret tt st' /\ free_inv st' l' /\
    (forall q, q ∈ l' <-> q ∈ l \/ (q mod 4096 = 0 /\ vstart <= q /\ q + 4096 <= vend)) /\
    kmem_use_lock st' = kmem_use_lock st /\ (forall x, x < vstart \/ vend <= x -> kmem_mem st' x = kmem_mem st x).
Proof using Hend.
  intros Hinv Hs Hv Hsv Hl. unfold freerange. rewrite PGROUNDUP_eq by lia.
  destruct (freerange_loop_ok (S (Z.to_nat ((vend - (vstart + 4095) / 4096 * 4096) / 4096)))
    ((vstart + 4095) / 4096 * 4096) vend st l) as (st' & Hr & Hinv' & Hul & Hm);
    try done; try zlia.
  { intros q Hq. specialize (Hl q Hq). pose proof (kpage_not_free _ _ _ Hinv Hq) as (? & _). zlia. }
  eexists _, _. split_and!; [done | done | | done | intros x Hx; apply Hm; zlia].
  intros q. rewrite elem_of_app, elem_of_reverse, elem_of_pages.
  split; [intros [?|?]; [right; zlia | by left] | intros [?|?]; [by right | left; zlia]].
Qed.

(** ** Runs of well-behaved clients *)

(** A client owns the pages [kalloc] gave it and has not freed; it may write to
    them, allocate, and free what it owns. *)
Inductive kstep : kst * gset Z -> kst * gset Z -> Prop :=
| kstep_alloc st st' p o :
    kalloc st = Ret p st' -> p <> 0 -> kstep (st, o) (st', {[p]} ∪ o)
| kstep_full st st' o :
    kalloc st = Ret 0 st' -> kstep (st, o) (st', o)
| kstep_free st st' p o :
    p ∈ o -> kfree p st = Ret tt st' -> kstep (st, o) (st', o ∖ {[p]})
| kstep_write st m o :
    mem_ok m ->
    (forall x, m x <> kmem_mem st x -> exists p, p ∈ o /\ p <= x < p + 4096) ->
    kstep (st, o) (set_mem m st, o).

(** The free list holds [l]; together with the owned pages it makes up [all],
    without overlap. *)
Definition partition (all : gset Z) (c : kst * gset Z) (l : list Z) : Prop :=
  free_inv c.1 l /\ list_to_set l ## c.2 /\ list_to_set l ∪ c.2 = all.

Lemma kstep_partition all c c' l :
  (forall p, p ∈ all -> kpage p) -> kstep c c' -> partition all c l ->
  exists l', partition all c' l'.
Proof using Hend.
  intros Hall Hstep (Hinv & Hdisj & Hun). destruct Hstep as
    [st st' p o Hk Hp | st st' o Hk | st st' p o Hp Hk | st m o Hm Hw]; simpl in *.
  - destruct l as [|q l].
    { rewrite kalloc_none in Hk by done. congruence. }
    destruct (kalloc_some _ _ _ Hinv) as (Hr & Hinv' & Hkp & Hnin & _).
    rewrite Hr in Hk. injection Hk as -> <-. exists l. split_and!; simpl; set_solver.
  - destruct l as [|q l].
    { rewrite kalloc_none in Hk by done. injection Hk as <-. by exists []. }
    destruct (kalloc_some _ _ _ Hinv) as (Hr & _ & _ & _ & ?). congruence.
  - destruct (kfree_ok p st l) as (st1 & Hr & Hinv1 & _); [done | set_solver | set_solver |].
    rewrite Hr in Hk. injection Hk as ->. exists (p :: l). split_and!; simpl; [done|set_solver|].
    rewrite <- Hun. apply set_eq. intros x. destruct (decide (x = p)); set_solver.
  - exists l. split_and!; simpl; try done. apply free_inv_ext; try done.
    intros q x Hq Hx. destruct (decide (m x = kmem_mem st x)) as [|Hne]; [done|].
    destruct (Hw _ Hne) as (p & Hpo & Hpx).
    destruct (decide (p = q)) as [->|]; [set_solver|].
    destruct (kpage_ne p q); try lia; try done; apply Hall; set_solver.
Qed.
End kalloc.

(** ** Properties *)

(** The page allocator implements a stack of free pages.  [kalloc] pops the
    top page without touching memory, and returns 0 exactly when the stack is
    empty; [kfree] of an allocatable page that is not free pushes it and changes
    no byte outside it; and [kfree] of anything that is not page-aligned, lies
    below the end of the kernel or above [PHYSTOP] panics. *)
Theorem kalloc_refines_stack (kend : Z) (st : kst) (l : list Z) :
  KERNBASE <= kend < KERNBASE + PHYSTOP -> free_inv kend st l ->
  (match l with
   | [] => kalloc st = Ret 0 st
   | p :: l' => exists st', kalloc st = Ret p st' /\ free_inv kend st' l' /\
                            kmem_mem st' = kmem_mem st /\ p <> 0
   end) /\
  (forall v, kpage kend v -> v ∉ l ->
     exists st', kfree kend v st = Ret tt st' /\ free_inv kend st' (v :: l) /\
       (forall x, x < v \/ v + 4096 <= x -> kmem_mem st' x = kmem_mem st x)) /\
  (forall v, ~ (v mod 4096 = 0 /\ kend <= v /\ V2P v < PHYSTOP) ->
     kfree kend v st = Panic "kfree").
Proof.
  intros Hend Hinv. split_and!.
  - destruct l as [|p l]; [by eapply kalloc_none|].
    destruct (kalloc_some kend Hend p l st Hinv) as (Hr & Hinv' & _ & _ & Hp). eauto.
  - intros v Hv Hnin. destruct (kfree_ok kend Hend v st l) as (st' & ? & ? & ? & _); eauto.
  - intros v Hv. by destruct (kfree_panics kend v st).
Qed.
Lemma kalloc_refines_stack_witness :
  free_inv 2149580800 (KSt (fun _ => 0) 0 true) [] /\
  exists st', kfree 2149580800 2149584896 (KSt (fun _ => 0) 0 true) = Ret tt st' /\
              free_inv 2149580800 st' [2149584896].
Proof.
  assert (free_inv 2149580800 (KSt (fun _ => 0) 0 true) []) as Hinv
    by (split_and!; [intros x; simpl; lia | constructor | constructor | done]).
  split; [exact Hinv|].
  destruct (kalloc_refines_stack 2149580800 _ [] ltac:(lia) Hinv) as (_ & Hf & _).
  destruct (Hf 2149584896) as (st' & H1 & H2 & _);
    [split; [reflexivity | lia] | apply not_elem_of_nil | eauto].
Defined.

(** Initialisation frees every page.  [kinit1(end, P2V(4MB))] leaves exactly
    the allocatable pages below 4MB on the free list; [kinit2(P2V(4MB),
    P2V(PHYSTOP))], run later when some of those are in use, adds exactly the
    allocatable pages above, without a panic, and turns locking on.  Neither writes anywhere else. *)
Theorem kinit_frees_all_pages (kend : Z) (st : kst) :
  KERNBASE <= kend <= P2V 4194304 -> mem_ok (kmem_mem st) -> kmem_freelist st = 0 ->
  exists st1 l1, kinit1 kend kend (P2V 4194304) st = Ret tt st1 /\
    free_inv kend st1 l1 /\ kmem_use_lock st1 = false /\
    (forall p, p ∈ l1 <-> kpage kend p /\ p < P2V 4194304) /\ (forall x, x < kend -> kmem_mem st1 x = kmem_mem st x) /\
    forall st2 l2, free_inv kend st2 l2 -> (forall p, p ∈ l2 -> p < P2V 4194304) ->
      exists st3 l3, kinit2 kend (P2V 4194304) (P2V PHYSTOP) st2 = Ret tt st3 /\
        free_inv kend st3 l3 /\ kmem_use_lock st3 = true /\
        (forall p, p ∈ l3 <-> p ∈ l2 \/ (kpage kend p /\ P2V 4194304 <= p)) /\ (forall x, x < P2V 4194304 -> kmem_mem st3 x = kmem_mem st2 x).
Proof.
  rewrite !P2V_eq by lia. intros Hend Hok Hfl.
  assert (KERNBASE <= kend < KERNBASE + PHYSTOP) as Hend' by lia.
  destruct (freerange_ok kend Hend' kend (4194304 + KERNBASE) (set_use_lock false st) [])
    as (st1 & l1 & Hr & Hinv & Hl & Hul & Hm); try lia.
  { split_and!; [done | constructor | constructor | done]. }
  { by intros q ?%not_elem_of_nil. }
  exists st1, l1. split_and!; [exact Hr | done | done | | intros x Hx; apply (Hm x); by left |].
  { intros p. rewrite Hl, elem_of_nil. unfold kpage. zlia. }
  intros st2 l2 Hinv2 Hl2.
  destruct (freerange_ok kend Hend' (4194304 + KERNBASE) (PHYSTOP + KERNBASE) st2 l2)
    as (st3 & l3 & Hr3 & Hinv3 & Hl3 & Hul3 & Hm3); try lia; try done.
  { intros q Hq. left. by apply Hl2. }
  exists (set_use_lock true st3), l3. unfold kinit2. rewrite (bind_Ret _ _ _ _ _ Hr3).
  split_and!; try done; [|intros x Hx; apply Hm3; by left]. intros p. rewrite Hl3. unfold kpage.
  split; (intros [?|?]; [by left | right; lia]).
Qed.
Lemma kinit_frees_all_pages_witness :
  exists st1 l1,
    kinit1 2149580800 2149580800 (P2V 4194304) (KSt (fun _ => 0) 0 true) = Ret tt st1 /\
    free_inv 2149580800 st1 l1 /\ 2149584896 ∈ l1.
Proof.
  destruct (kinit_frees_all_pages 2149580800 (KSt (fun _ => 0) 0 true)) as
    (st1 & l1 & H1 & H2 & _ & H3 & _);
    [rewrite P2V_eq by lia; lia | intros x; simpl; lia | reflexivity |].
  exists st1, l1. split; [exact H1|]. split; [exact H2|].
  apply H3. rewrite P2V_eq by lia. unfold kpage. zlia.
Defined.

(** C12: no page is ever handed out twice.  After any interleaving of [kalloc],
    of [kfree] of pages that are in use, and of writes by clients to their own
    pages, the free list is well formed and shares no page with those in use,
    and free and in-use pages together are the initial free pages; so a page
    [kalloc] returns was in nobody's hands. *)
Theorem kalloc_never_double_allocates (kend : Z) (st0 st : kst) (l0 : list Z) (o : gset Z) :
  KERNBASE <= kend < KERNBASE + PHYSTOP -> free_inv kend st0 l0 ->
  rtc (kstep kend) (st0, ∅) (st, o) ->
  exists l, free_inv kend st l /\ (forall p, p ∈ l -> p ∉ o) /\
    list_to_set l ∪ o = (list_to_set l0 : gset Z) /\
    (forall p st', kalloc st = Ret p st' -> p <> 0 -> kpage kend p /\ (p ∉ o)) /\
    (forall p, p ∈ o -> exists st', kfree kend p st = Ret tt st').
Proof.
  intros Hend Hinv Hsteps.
  assert (forall p, p ∈ (list_to_set l0 : gset Z) -> kpage kend p) as Hall.
  { intros p Hp%elem_of_list_to_set. by eapply kpage_not_free. }
  assert (exists l, partition kend (list_to_set l0) (st, o) l) as (l & Hl & Hd & Hu).
  { apply (rtc_invariant (kstep kend) (fun c => exists l, partition kend (list_to_set l0) c l)
      (st0, ∅)); [| |done].
    - intros c c' Hs [l Hl]. by eapply kstep_partition.
    - exists l0. split_and!; simpl; [done | set_solver..]. }
  simpl in *. exists l. split_and!; try done; [set_solver | |].
  - intros p st' Hk Hp. destruct l as [|q l].
    { erewrite kalloc_none in Hk by done. congruence. }
    destruct (kalloc_some kend Hend _ _ _ Hl) as (Hr & _ & Hkp & _ & _).
    rewrite Hr in Hk. injection Hk as -> _. split; [done | set_solver].
  - intros p Hp. destruct (kfree_ok kend Hend p st l) as (st' & ? & _); [done | | | by eauto].
    + apply Hall. set_solver.
    + set_solver.
Qed.
Lemma kalloc_never_double_allocates_witness :
  let st0 := KSt (fun _ => 0) 2149584896 true in
  exists l, free_inv 2149580800 (KSt (fun _ => 0) 0 true) l /\
    list_to_set l ∪ {[2149584896]} = ({[2149584896]} : gset Z).
Proof.
  intros st0.
  assert (free_inv 2149580800 st0 [2149584896]) as Hinv.
  { split_and!; [intros x; simpl; lia | apply NoDup_singleton
    | apply Forall_singleton; unfold kpage; zlia | done]. }
  destruct (kalloc_never_double_allocates 2149580800 st0 (KSt (fun _ => 0) 0 true)
    [2149584896] {[2149584896]} ltac:(lia) Hinv) as (l & H1 & _ & H2 & _).
  - apply rtc_once. rewrite <- (union_empty_r_L {[2149584896]}).
    apply kstep_alloc; [reflexivity | lia].
  - exists l. split; [exact H1|]. rewrite H2. set_solver.
Defined.
