(* ===== verification/PageTable.v ===== *)
(** * Page tables (vm.c: walkpgdir, mappages, kmap)

    A page directory and its page tables are pages of the kernel's memory, read
    and written word by word as the code does.  [mapped m pgdir va] is what the
    hardware finds for [va]: the entry, when both levels are present.

    [pt_ok st l pgdir] is the invariant: the free list is [l], the directory and
    the tables are distinct allocated pages.  The lemmas say how the two
    operations change [mapped], which pages they take off the free list, and
    which memory they leave alone ([same_outside]). *)

From S2P Require Import Prelude Mem CString Mmu Kalloc.
#[local] Open Scope Z_scope.

Definition store32 (a w : Z) : M kst unit :=
  modify (fun st => set_mem (st32 (kmem_mem st) a w) st).
Definition load32 (a : Z) : M kst Z := gets (fun st => ld32 (kmem_mem st) a).
Definition memset_page (p c : Z) : M kst unit :=
  modify (fun st => set_mem (memset (kmem_mem st) p c PGSIZE) st).

(** Returns the address of the entry, or 0. *)
Definition walkpgdir (pgdir va : Z) (alloc : bool) : M kst Z :=
  let pde := pgdir + 4 * PDX va in
  e <- load32 pde ;;
  if has PTE_P e then
    let pgtab := P2V (PTE_ADDR e) in ret (pgtab + 4 * PTX va)
  else if negb alloc then ret 0
  else
    pgtab <- kalloc ;;
    if pgtab =? 0 then ret 0
    else
      (* Make sure all those PTE_P bits are zero. *)
      memset_page pgtab 0 ;;;
      store32 pde (Z.lor (Z.lor (Z.lor (V2P pgtab) PTE_P) PTE_W) PTE_U) ;;;
      ret (pgtab + 4 * PTX va).

Fixpoint mappages_loop (fuel : nat) (pgdir a last pa perm : Z) : M kst Z :=
  match fuel with
  | O => diverge
  | S fuel =>
      pte <- walkpgdir pgdir a true ;;
      if pte =? 0 then ret (-1)
      else
        e <- load32 pte ;;
        panic_if (has PTE_P e) "remap" ;;;
        store32 pte (Z.lor (Z.lor pa perm) PTE_P) ;;;
        if a =? last then ret 0
        else mappages_loop fuel pgdir (u32 (a + PGSIZE)) last (u32 (pa + PGSIZE)) perm
  end.
(** The loop stops when [a] reaches [last], which it does after as many pages as
    lie between them. *)
Definition mappages (pgdir va size pa perm : Z) : M kst Z :=
  let a := PGROUNDDOWN va in
  let last := PGROUNDDOWN (u32 (va + size - 1)) in
  mappages_loop (S (Z.to_nat (u32 (last - a) / PGSIZE))) pgdir a last pa perm.

Record kmap := Kmap { kmap_virt : Z; kmap_phys_start : Z; kmap_phys_end : Z; kmap_perm : Z }.

(** [kmap_table data]: [data] is a linker symbol of kernel.ld. *)
Definition kmap_table (data : Z) : list kmap :=
  [ Kmap KERNBASE 0 EXTMEM PTE_W;
    Kmap KERNLINK (V2P KERNLINK) (V2P data) 0;
    Kmap data (V2P data) PHYSTOP PTE_W;
    Kmap DEVSPACE DEVSPACE 0 PTE_W ].

(** ** What the hardware sees *)

Definition pdeP (m : mem) (pgdir i : Z) : bool := has PTE_P (ld32 m (pgdir + 4 * i)).
Definition ptab (m : mem) (pgdir i : Z) : Z := P2V (PTE_ADDR (ld32 m (pgdir + 4 * i))).
Definition pte_at (m : mem) (pgdir va : Z) : Z :=
  ld32 m (ptab m pgdir (PDX va) + 4 * PTX va).
Definition mapped (m : mem) (pgdir va : Z) : option Z :=
  if pdeP m pgdir (PDX va) && has PTE_P (pte_at m pgdir va)
  then Some (pte_at m pgdir va) else None.

Definition in_page (p x : Z) : Prop := p <= x < p + 4096.
(** [m'] differs from [m] only inside the pages of [S]. *)
Definition same_outside (S : Z -> Prop) (m m' : mem) : Prop :=
  forall x, (forall p, S p -> ~ in_page p x) -> m' x = m x.

(** The pages of the table itself: the directory and the page tables. *)
Definition tpage (m : mem) (pgdir p : Z) : Prop :=
  p = pgdir \/ exists i, 0 <= i < 1024 /\ pdeP m pgdir i = true /\ p = ptab m pgdir i.

Lemma walkpgdir_noalloc pgdir va st :
  walkpgdir pgdir va false st =
    Ret (if pdeP (kmem_mem st) pgdir (PDX va)
         then ptab (kmem_mem st) pgdir (PDX va) + 4 * PTX va else 0) st.
Proof. unfold walkpgdir, bind, load32, gets, pdeP, ptab. by destruct (has PTE_P _). Qed.

Lemma same_outside_refl S m : same_outside S m m.
Proof. by intros x _. Qed.
Lemma same_outside_trans S m1 m2 m3 :
  same_outside S m1 m2 -> same_outside S m2 m3 -> same_outside S m1 m3.
Proof. intros H1 H2 x Hx. by rewrite H2, H1. Qed.
Lemma same_outside_mono (S S' : Z -> Prop) m m' :
  (forall p, S p -> S' p) -> same_outside S m m' -> same_outside S' m m'.
Proof. intros HS H x Hx. apply H. auto. Qed.

Lemma tpage_dir m pgdir : tpage m pgdir pgdir.
Proof. by left. Qed.
Lemma tpage_tab m pgdir i :
  0 <= i < 1024 -> pdeP m pgdir i = true -> tpage m pgdir (ptab m pgdir i).
Proof. right. eauto. Qed.

Definition va_ok (va : Z) : Prop := 0 <= va < W32.

Lemma tpage_ext m m' pgdir :
  (forall i, 0 <= i < 1024 -> pdeP m' pgdir i = pdeP m pgdir i /\
                              ptab m' pgdir i = ptab m pgdir i) ->
  forall p, tpage m' pgdir p <-> tpage m pgdir p.
Proof.
  intros Hd p. unfold tpage.
  split; (intros [?|(i & Hi & Hp & Hq)]; [by left|right; exists i; destruct (Hd _ Hi) as [? ?]];
    split_and!; congruence || lia).
Qed.

(** Memory that agrees on the pages of a table shows the same table. *)
Lemma tables_ext m m' pgdir :
  (forall p i, tpage m pgdir p -> 0 <= i < 1024 -> ld32 m' (p + 4 * i) = ld32 m (p + 4 * i)) ->
  (forall i, 0 <= i < 1024 -> pdeP m' pgdir i = pdeP m pgdir i /\
                              ptab m' pgdir i = ptab m pgdir i) /\
  (forall va, va_ok va -> mapped m' pgdir va = mapped m pgdir va) /\
  (forall p, tpage m' pgdir p <-> tpage m pgdir p).
Proof.
  intros H.
  assert (forall i, 0 <= i < 1024 -> pdeP m' pgdir i = pdeP m pgdir i /\
                                     ptab m' pgdir i = ptab m pgdir i) as Hd.
  { intros i Hi. unfold pdeP, ptab. by rewrite H by (apply tpage_dir || done). }
  split_and!; [done | |].
  - intros va Hva. unfold mapped, pte_at. pose proof (PDX_range va Hva) as Hi.
    destruct (Hd _ Hi) as [-> ->]. destruct (pdeP m pgdir (PDX va)) eqn:E; simpl; [|done].
    by rewrite H by (by apply tpage_tab || apply PTX_range).
  - by apply tpage_ext.
Qed.

Lemma vpn_eq va va' :
  va_ok va -> va_ok va' ->
  PDX va = PDX va' /\ PTX va = PTX va' <-> va / 4096 = va' / 4096.
Proof. unfold va_ok. intros H H'. rewrite !PDX_eq, !PTX_eq by done. zlia. Qed.

(** The table only grew: some pages from the front of the free list [l] became
    page tables, and no other memory changed. *)
Definition pt_grow (pgdir : Z) (st : kst) (l : list Z) (st' : kst) (l' : list Z) : Prop :=
  exists used, l = used ++ l' /\
    (forall p, tpage (kmem_mem st') pgdir p <-> tpage (kmem_mem st) pgdir p \/ p ∈ used) /\
    same_outside (fun p => tpage (kmem_mem st) pgdir p \/ p ∈ used) (kmem_mem st) (kmem_mem st').

Lemma pt_grow_refl pgdir st l : pt_grow pgdir st l st l.
Proof.
  exists []. split_and!; [done | | apply same_outside_refl].
  intros p. rewrite elem_of_nil. tauto.
Qed.
Lemma pt_grow_trans pgdir st1 l1 st2 l2 st3 l3 :
  pt_grow pgdir st1 l1 st2 l2 -> pt_grow pgdir st2 l2 st3 l3 -> pt_grow pgdir st1 l1 st3 l3.
Proof.
  intros (u1 & -> & Ht1 & Hs1) (u2 & -> & Ht2 & Hs2). exists (u1 ++ u2). split_and!.
  - by rewrite (assoc_L (++)).
  - intros p. rewrite Ht2, Ht1, elem_of_app. tauto.
  - eapply same_outside_trans; eapply same_outside_mono; [|done| |done]; intros p; simpl;
      rewrite ?Ht1, elem_of_app; tauto.
Qed.

(** Every page table maps something. *)
Definition no_empty (m : mem) (pgdir : Z) : Prop := forall i, 0 <= i < 1024 -> pdeP m pgdir i = true ->
  exists va, va_ok va /\ PDX va = i /\ mapped m pgdir va <> None.

Lemma set_freelist_id st : set_freelist (kmem_freelist st) st = st.
Proof. destruct st. reflexivity. Qed.

(** The entry that maps [va] when a run of pages from [a] on goes to [pa]. *)
Definition run_pte (a pa perm va : Z) : Z :=
  Z.lor (Z.lor (pa + (va / 4096 * 4096 - a)) perm) PTE_P.

Lemma has_P_pte x perm : has PTE_P (Z.lor (Z.lor x perm) PTE_P) = true.
Proof. rewrite has_lor. by rewrite orb_true_r. Qed.

Lemma flags_range perm : 0 <= perm < 4096 -> 0 <= Z.lor perm PTE_P < 4096.
Proof.
  intros Hp. split; [apply Z.lor_nonneg; unfold PTE_P; lia|].
  apply (Z.log2_lt_cancel _ 4096). rewrite Z.log2_lor by (unfold PTE_P; lia).
  change (Z.log2 4096) with 12. change (Z.log2 PTE_P) with 0.
  assert (Z.log2 perm < 12).
  { destruct (decide (perm = 0)) as [->|]; [done|]. apply Z.log2_lt_pow2; lia. }
  lia.
Qed.
Lemma pte_range x perm :
  0 <= x < W32 -> x mod 4096 = 0 -> 0 <= perm < 4096 -> 0 <= Z.lor (Z.lor x perm) PTE_P < W32.
Proof.
  intros Hx Ha Hp. rewrite <- Z.lor_assoc. pose proof (flags_range perm Hp).
  rewrite mk_pte by lia. zlia.
Qed.

Section pagetable.
Context (kend : Z) (Hend : KERNBASE <= kend < KERNBASE + PHYSTOP).

Definition pt_ok (st : kst) (l : list Z) (pgdir : Z) : Prop :=
  let m := kmem_mem st in
  free_inv kend st l /\
  (forall p, tpage m pgdir p -> kpage kend p /\ (p ∉ l)) /\
  (forall i, 0 <= i < 1024 -> pdeP m pgdir i = true -> ptab m pgdir i <> pgdir) /\
  (forall i j, 0 <= i < 1024 -> 0 <= j < 1024 -> pdeP m pgdir i = true ->
     pdeP m pgdir j = true -> ptab m pgdir i = ptab m pgdir j -> i = j).

(** ** Memory changes *)

(** A page none of whose bytes are in a page of [S] keeps its words. *)
Lemma same_outside_page S m m' p x :
  same_outside S m m' -> (forall q, S q -> kpage kend q) -> kpage kend p -> ~ S p ->
  in_page p x -> m' x = m x.
Proof.
  intros H HS Hp Hn Hx. apply H. intros q Hq Hin. unfold in_page in *.
  destruct (kpage_ne kend p q Hp (HS _ Hq)); try lia. congruence.
Qed.
Lemma same_outside_ld32 S m m' p i :
  same_outside S m m' -> (forall q, S q -> kpage kend q) -> kpage kend p -> ~ S p ->
  0 <= i < 1024 -> ld32 m' (p + 4 * i) = ld32 m (p + 4 * i).
Proof.
  intros H HS Hp Hn Hi. apply ld32_ext. intros x Hx.
  eapply same_outside_page; eauto. unfold in_page. lia.
Qed.

(** Writes to allocated pages keep the free list. *)
Lemma free_inv_outside st l S m :
  free_inv kend st l -> mem_ok m -> same_outside S (kmem_mem st) m ->
  (forall p, S p -> kpage kend p /\ (p ∉ l)) -> free_inv kend (set_mem m st) l.
Proof.
  intros Hfree Hok Hso HS. apply free_inv_ext; [done..|]. intros q x Hq Hx.
  eapply (same_outside_page S); eauto.
  - intros p Hp. by apply HS.
  - by eapply kpage_not_free.
  - intros Hq'. by destruct (HS q Hq').
Qed.

Lemma pt_ok_free st l pgdir : pt_ok st l pgdir -> free_inv kend st l.
Proof. by intros (? & _). Qed.
Lemma pt_ok_mem st l pgdir : pt_ok st l pgdir -> mem_ok (kmem_mem st).
Proof. by intros ((? & _) & _). Qed.

(** Two words of page-table pages are the same address only when both the page
    and the index agree. *)
Lemma entry_inj p q i j :
  kpage kend p -> kpage kend q -> 0 <= i < 1024 -> 0 <= j < 1024 ->
  p + 4 * i = q + 4 * j -> p = q /\ i = j.
Proof.
  intros (Hp & _) (Hq & _) Hi Hj H. assert (p = q) by zlia. lia.
Qed.
Lemma entry_aligned p i : kpage kend p -> (p + 4 * i) mod 4 = 0.
Proof. intros (Hp & _). zlia. Qed.
Lemma ld32_st32_entry m p q i j w :
  kpage kend p -> kpage kend q -> 0 <= i < 1024 -> 0 <= j < 1024 -> 0 <= w < W32 ->
  ld32 (st32 m (p + 4 * i) w) (q + 4 * j) =
    if (p =? q) && (i =? j) then w else ld32 m (q + 4 * j).
Proof.
  intros Hp Hq Hi Hj Hw. rewrite ld32_st32 by (by apply entry_aligned || done).
  destruct (Z.eqb_spec (p + 4 * i) (q + 4 * j)) as [E|E].
  - destruct (entry_inj p q i j) as [-> ->]; try done. by rewrite !Z.eqb_refl.
  - destruct (Z.eqb_spec p q), (Z.eqb_spec i j); simpl; try done. lia.
Qed.

(** ** Writing an entry *)

Lemma set_pte st l pgdir va w :
  pt_ok st l pgdir -> va_ok va -> pdeP (kmem_mem st) pgdir (PDX va) = true -> 0 <= w < W32 ->
  let m := kmem_mem st in
  let m' := st32 m (ptab m pgdir (PDX va) + 4 * PTX va) w in
  pt_ok (set_mem m' st) l pgdir /\
  (forall va', va_ok va' -> mapped m' pgdir va' =
     if va' / 4096 =? va / 4096 then (if has PTE_P w then Some w else None)
     else mapped m pgdir va') /\
  (forall p, tpage m' pgdir p <-> tpage m pgdir p) /\
  (forall i, 0 <= i < 1024 -> pdeP m' pgdir i = pdeP m pgdir i /\
                              ptab m' pgdir i = ptab m pgdir i) /\
  same_outside (eq (ptab m pgdir (PDX va))) m m'.
Proof.
  intros (Hfree & Htp & Hnd & Hinj) Hva HP Hw m m'. fold m in HP, Htp, Hnd, Hinj.
  pose proof (PDX_range va Hva) as Hpd. pose proof (PTX_range va) as Hpt.
  set (t := ptab m pgdir (PDX va)) in *.
  destruct (Htp t (tpage_tab _ _ _ Hpd HP)) as [Hkt Htl].
  destruct (Htp pgdir (tpage_dir _ _)) as [Hkd Hdl].
  assert (forall i, 0 <= i < 1024 -> pdeP m' pgdir i = pdeP m pgdir i /\
                                     ptab m' pgdir i = ptab m pgdir i) as Hd.
  { intros i Hi. unfold pdeP, ptab, m'. rewrite ld32_st32_entry by done.
    destruct (Z.eqb_spec t pgdir) as [E|]; [by destruct (Hnd (PDX va))|done]. }
  pose proof (tpage_ext m m' pgdir Hd) as Htp'.
  assert (same_outside (eq t) m m') as Hso.
  { intros x Hx. apply st32_out. specialize (Hx t eq_refl). unfold in_page in Hx. lia. }
  split_and!; try done.
  - split_and!.
    + eapply free_inv_outside; [done | apply st32_ok, Hfree | done |]. by intros p <-.
    + intros p Hp. apply Htp. by apply Htp'.
    + intros i Hi. simpl. destruct (Hd i Hi) as [-> ->]. auto.
    + intros i j Hi Hj. simpl. destruct (Hd i Hi) as [-> ->], (Hd j Hj) as [-> ->]. auto.
  - intros va' Hva'. pose proof (PDX_range va' Hva') as Hpd'. pose proof (PTX_range va') as Hpt'.
    unfold mapped, pte_at. destruct (Hd _ Hpd') as [-> ->].
    destruct (Z.eqb_spec (va' / 4096) (va / 4096)) as [Ev|Ev].
    + apply vpn_eq in Ev as [-> ->]; [|done..]. fold t. rewrite HP. simpl. unfold m'.
      by rewrite ld32_st32_eq.
    + destruct (pdeP m pgdir (PDX va')) eqn:E'; simpl; [|done].
      destruct (Htp _ (tpage_tab _ _ _ Hpd' E')) as [Hkt' _].
      unfold m'. rewrite ld32_st32_entry by done.
      destruct (Z.eqb_spec t (ptab m pgdir (PDX va'))) as [Et|], (Z.eqb_spec (PTX va) (PTX va')) as [Ex|];
        simpl; try done.
      exfalso. apply Ev. symmetry. apply vpn_eq; [done..|]. split; [by apply Hinj|done].
Qed.

(** ** Adding a page table *)

Definition new_pde (t : Z) : Z := Z.lor (Z.lor (Z.lor (V2P t) PTE_P) PTE_W) PTE_U.

Lemma new_pde_eq t : kpage kend t -> new_pde t = t - KERNBASE + 7.
Proof.
  intros Ht. pose proof (kpage_range kend Hend t Ht). unfold new_pde.
  rewrite V2P_eq, <- !Z.lor_assoc by lia. change (Z.lor PTE_P (Z.lor PTE_W PTE_U)) with 7.
  apply mk_pte; zlia.
Qed.

Definition add_table (m : mem) (pgdir i t : Z) : mem :=
  st32 (memset m t 0 4096) (pgdir + 4 * i) (new_pde t).

Lemma ld32_add_table m pgdir i t q j :
  kpage kend pgdir -> kpage kend t -> kpage kend q -> t <> pgdir ->
  0 <= i < 1024 -> 0 <= j < 1024 ->
  ld32 (add_table m pgdir i t) (q + 4 * j) =
    if (pgdir =? q) && (i =? j) then t - KERNBASE + 7
    else if t =? q then 0 else ld32 m (q + 4 * j).
Proof.
  intros Hd Ht Hq Htd Hi Hj. pose proof (kpage_range kend Hend t Ht).
  unfold add_table. rewrite new_pde_eq, ld32_st32_entry by (done || lia).
  destruct ((pgdir =? q) && (i =? j)); [done|]. destruct (Z.eqb_spec t q) as [<-|].
  - unfold ld32. rewrite !memset_correct by lia. zcases. done.
  - apply ld32_ext. intros x Hx. rewrite memset_correct by lia. zcases; [|done..].
    destruct (kpage_ne kend t q Ht Hq); try done; lia.
Qed.

Lemma pde_fields t :
  kpage kend t -> has PTE_P (t - KERNBASE + 7) = true /\ P2V (PTE_ADDR (t - KERNBASE + 7)) = t.
Proof.
  intros Ht. pose proof (kpage_range kend Hend t Ht) as (H1 & H2 & H3). split.
  - rewrite has_P. rewrite Z.odd_spec. exists ((t - KERNBASE + 7) / 2). zlia.
  - rewrite PTE_ADDR_eq by lia. rewrite P2V_eq by zlia. zlia.
Qed.

Lemma add_table_dir m pgdir i t j :
  kpage kend pgdir -> kpage kend t -> t <> pgdir -> 0 <= i < 1024 -> 0 <= j < 1024 ->
  pdeP (add_table m pgdir i t) pgdir j = (i =? j) || pdeP m pgdir j /\
  ptab (add_table m pgdir i t) pgdir j = if i =? j then t else ptab m pgdir j.
Proof.
  intros Hd Ht Htd Hi Hj. unfold pdeP, ptab. rewrite ld32_add_table by done.
  rewrite Z.eqb_refl. destruct (Z.eqb_spec t pgdir); [done|].
  destruct (Z.eqb_spec i j); simpl; [|done]. by destruct (pde_fields t Ht) as [-> ->].
Qed.

Lemma add_table_tpage m pgdir i t :
  kpage kend pgdir -> kpage kend t -> t <> pgdir -> 0 <= i < 1024 -> pdeP m pgdir i = false ->
  forall p, tpage (add_table m pgdir i t) pgdir p <-> tpage m pgdir p \/ p = t.
Proof.
  intros Hkd Hkt Htd Hi HP p. pose proof (fun j => add_table_dir m pgdir i t j Hkd Hkt Htd Hi) as Hdir.
  unfold tpage. split.
  - intros [->|(j & Hj & Hp & ->)]; [by left; left|]. destruct (Hdir j Hj) as [Hd1 Hd2].
    rewrite Hd1 in Hp. rewrite Hd2.
    destruct (Z.eqb_spec i j); [by right|]. left. right. exists j. by split_and!; try lia.
  - intros [[->|(j & Hj & Hp & ->)]| ->]; [by left|right..].
    + exists j. destruct (Hdir j Hj) as [Hd1 Hd2]. rewrite Hd1, Hd2.
      destruct (Z.eqb_spec i j); [congruence|]. by split_and!; try lia.
    + exists i. destruct (Hdir i Hi) as [Hd1 Hd2]. rewrite Hd1, Hd2, Z.eqb_refl.
      by split_and!; try lia.
Qed.

Lemma add_table_ok st t l pgdir i :
  pt_ok (set_freelist t st) (t :: l) pgdir -> 0 <= i < 1024 ->
  pdeP (kmem_mem st) pgdir i = false ->
  let m := kmem_mem st in
  let m' := add_table m pgdir i t in
  pt_ok (set_mem m' (set_freelist (ld32 m t) st)) l pgdir /\
  (forall va, va_ok va -> mapped m' pgdir va = mapped m pgdir va) /\
  (forall p, tpage m' pgdir p <-> tpage m pgdir p \/ p = t) /\
  same_outside (fun p => p = pgdir \/ p = t) m m' /\ mem_ok m'.
Proof.
  intros (Hfree & Htp & Hnd & Hinj) Hi HP m m'. simpl in *. fold m in Htp, Hnd, Hinj, HP.
  destruct (kalloc_some kend Hend t l _ Hfree) as (_ & Hfree' & Hkt & Htl & _).
  destruct (Htp pgdir (tpage_dir _ _)) as [Hkd Hdl].
  assert (t <> pgdir) as Htd by (intros ->; apply Hdl; constructor).
  assert (forall j, 0 <= j < 1024 -> pdeP m pgdir j = true -> ptab m pgdir j <> t) as Htab.
  { intros j Hj Hp <-. destruct (Htp _ (tpage_tab _ _ _ Hj Hp)) as [_ Hn]. apply Hn. constructor. }
  pose proof (fun j => add_table_dir m pgdir i t j Hkd Hkt Htd Hi) as Hdir.
  assert (mem_ok m') as Hok by (apply st32_ok, memset_ok; [lia | apply Hfree]).
  assert (same_outside (fun p => p = pgdir \/ p = t) m m') as Hso.
  { intros x Hx. assert (~ in_page pgdir x) by auto. assert (~ in_page t x) by auto.
    unfold in_page in *. unfold m', add_table. rewrite st32_out, memset_correct by lia. by zcases. }
  pose proof (add_table_tpage m pgdir i t Hkd Hkt Htd Hi HP) as Htp'. fold m' in Htp'.
  split_and!; try done.
  - split_and!; simpl.
    + eapply (free_inv_outside (set_freelist (ld32 m t) st)); [done..|].
      intros p [-> | ->]; [|done]. split; [done|]. intros ?. apply Hdl. by constructor.
    + intros p [Hp | ->]%Htp'; [|done]. destruct (Htp p Hp) as [? Hn].
      split; [done|]. intros ?. apply Hn. by constructor.
    + intros j Hj. destruct (Hdir j Hj) as [Hd1 Hd2]. unfold m'. rewrite Hd1, Hd2.
      destruct (Z.eqb_spec i j); [done|]. simpl. auto.
    + intros j k Hj Hk. unfold m'. destruct (Hdir j Hj) as [-> ->], (Hdir k Hk) as [-> ->].
      destruct (Z.eqb_spec i j) as [<-|], (Z.eqb_spec i k) as [<-|]; simpl; try done; try auto.
      * intros _ Hp Heq. by destruct (Htab k Hk Hp).
      * intros Hp _ Heq. by destruct (Htab j Hj Hp).
  - intros va Hva. pose proof (PDX_range va Hva) as Hpd. pose proof (PTX_range va) as Hpt.
    unfold mapped, pte_at. destruct (Hdir _ Hpd) as [Hd1 Hd2]. unfold m'. rewrite Hd1, Hd2.
    destruct (Z.eqb_spec i (PDX va)) as [->|Hne]; simpl.
    + rewrite HP. simpl. rewrite ld32_add_table by done.
      destruct (Z.eqb_spec pgdir t); [congruence|]. simpl. by rewrite Z.eqb_refl.
    + destruct (pdeP m pgdir (PDX va)) eqn:E; simpl; [|done].
      destruct (Htp _ (tpage_tab _ _ _ Hpd E)) as [Hkq _].
      rewrite ld32_add_table by done.
      destruct (Z.eqb_spec pgdir (ptab m pgdir (PDX va))); [by destruct (Hnd (PDX va))|].
      destruct (Z.eqb_spec t (ptab m pgdir (PDX va))); [by destruct (Htab (PDX va))|]. done.
Qed.

(** ** walkpgdir *)

Lemma pt_ok_entry_pos st l pgdir va :
  pt_ok st l pgdir -> va_ok va -> pdeP (kmem_mem st) pgdir (PDX va) = true ->
  0 < ptab (kmem_mem st) pgdir (PDX va) + 4 * PTX va.
Proof.
  intros (_ & Htp & _) Hva HP. pose proof (PTX_range va).
  destruct (Htp _ (tpage_tab _ _ _ (PDX_range va Hva) HP)) as [Hk _].
  pose proof (kpage_range kend Hend _ Hk). lia.
Qed.

Lemma walkpgdir_alloc pgdir va st l :
  pt_ok st l pgdir -> va_ok va ->
  (walkpgdir pgdir va true st = Ret 0 st /\ l = [] /\ pdeP (kmem_mem st) pgdir (PDX va) = false) \/
  exists st' l', let m' := kmem_mem st' in
    walkpgdir pgdir va true st = Ret (ptab m' pgdir (PDX va) + 4 * PTX va) st' /\
    pdeP m' pgdir (PDX va) = true /\
    pt_ok st' l' pgdir /\ pt_grow pgdir st l st' l' /\
    (forall va', va_ok va' -> mapped m' pgdir va' = mapped (kmem_mem st) pgdir va') /\
    (forall i, 0 <= i < 1024 -> pdeP m' pgdir i = (PDX va =? i) || pdeP (kmem_mem st) pgdir i) /\
    (length l <= S (length l'))%nat.
Proof.
  intros Hpt Hva. pose proof (PDX_range va Hva) as Hpd.
  destruct (pdeP (kmem_mem st) pgdir (PDX va)) eqn:HP.
  { right. exists st, l. split_and!; try done; [|apply pt_grow_refl | | lia].
    - unfold walkpgdir, bind, load32, gets, ptab. unfold pdeP in HP. by rewrite HP.
    - intros i Hi. destruct (Z.eqb_spec (PDX va) i) as [<-|]; [by rewrite HP | done]. }
  destruct l as [|t l].
  { left. split_and!; try done. unfold walkpgdir, bind, load32, gets. unfold pdeP in HP.
    rewrite HP. simpl. by rewrite (kalloc_none kend) by apply Hpt. }
  right. destruct (kalloc_some kend Hend t l st (pt_ok_free _ _ _ Hpt)) as (Hk & _ & Hkt & _ & Ht0).
  assert (kmem_freelist st = t) as Hfl by by destruct Hpt as ((_ & _ & _ & Hfl & _) & _).
  destruct (add_table_ok st t l pgdir (PDX va)) as (Hpt' & Hmap & Htp & Hso & _); try done.
  { rewrite <- Hfl, set_freelist_id. by rewrite Hfl. }
  assert (t <> pgdir /\ kpage kend pgdir) as [Htd Hkd].
  { destruct Hpt as (_ & Hp & _). destruct (Hp _ (tpage_dir _ _)) as [? Hn]. split; [|done].
    intros ->. apply Hn. constructor. }
  destruct (add_table_dir (kmem_mem st) pgdir (PDX va) t (PDX va)) as [Hd1 Hd2]; try done.
  rewrite Z.eqb_refl in Hd1, Hd2.
  eexists _, l. split_and!; [| |exact Hpt' | |exact Hmap | intros i Hi; by apply add_table_dir | done]; simpl.
  - unfold walkpgdir, bind, load32, gets. unfold pdeP in HP. rewrite HP. simpl. rewrite Hk.
    destruct (Z.eqb_spec t 0); [done|]. by rewrite Hd2.
  - by rewrite Hd1.
  - exists [t]. split_and!; [done | |]; simpl.
    + intros p. by rewrite Htp, list_elem_of_singleton.
    + eapply same_outside_mono; [|done]. simpl. intros p [->| ->]; [left; apply tpage_dir|].
      right. by apply list_elem_of_singleton.
Qed.

(** ** mappages *)

(** Entering one mapping: the walk, the store. *)
Lemma map_one pgdir a pa perm st l :
  pt_ok st l pgdir -> va_ok a -> 0 <= pa < W32 -> pa mod 4096 = 0 -> 0 <= perm < 4096 ->
  pdeP (kmem_mem st) pgdir (PDX a) = true ->
  let m := kmem_mem st in
  let m' := st32 m (ptab m pgdir (PDX a) + 4 * PTX a) (Z.lor (Z.lor pa perm) PTE_P) in
  pt_ok (set_mem m' st) l pgdir /\ pt_grow pgdir st l (set_mem m' st) l /\
  (forall va, va_ok va -> mapped m' pgdir va =
     if va / 4096 =? a / 4096 then Some (Z.lor (Z.lor pa perm) PTE_P) else mapped m pgdir va) /\
  (forall i, 0 <= i < 1024 -> pdeP m' pgdir i = pdeP m pgdir i).
Proof.
  intros Hpt Ha Hpa Hal Hperm HP. cbv zeta.
  destruct (set_pte st l pgdir a (Z.lor (Z.lor pa perm) PTE_P)) as (Hpt' & Hmap & Htp & Hpd & Hso);
    try done; [by apply pte_range|].
  rewrite has_P_pte in Hmap. split_and!; try done; [|intros i Hi; by apply Hpd].
  exists []. split_and!; [done | |].
  - intros p. rewrite elem_of_nil. simpl. rewrite Htp. tauto.
  - eapply same_outside_mono; [|done]. intros p <-. left. apply tpage_tab; [|done].
    by apply PDX_range.
Qed.


(** One round of the loop. *)
Lemma mappages_loop_S fuel pgdir a last pa perm st l :
  pt_ok st l pgdir -> va_ok a -> 0 <= pa < W32 -> pa mod 4096 = 0 -> 0 <= perm < 4096 ->
  mapped (kmem_mem st) pgdir a = None ->
  (mappages_loop (S fuel) pgdir a last pa perm st = Ret (-1) st /\ l = []) \/
  exists st' l',
    mappages_loop (S fuel) pgdir a last pa perm st =
      (if a =? last then ret 0
       else mappages_loop fuel pgdir (u32 (a + PGSIZE)) last (u32 (pa + PGSIZE)) perm) st' /\
    pt_ok st' l' pgdir /\ pt_grow pgdir st l st' l' /\
    (forall va, va_ok va -> mapped (kmem_mem st') pgdir va =
       if va / 4096 =? a / 4096 then Some (Z.lor (Z.lor pa perm) PTE_P)
       else mapped (kmem_mem st) pgdir va) /\
    (length l <= S (length l'))%nat /\ (no_empty (kmem_mem st) pgdir -> no_empty (kmem_mem st') pgdir).
Proof.
  intros Hpt Ha Hpa Hal Hperm Hun. cbn [mappages_loop].
  destruct (walkpgdir_alloc pgdir a st l Hpt Ha)
    as [(Hw & -> & HP) | (st1 & l1 & Hw & HP & Hpt1 & Hg1 & Hmap1 & Hpd1 & Hlen)].
  { left. split; [|done]. by rewrite (bind_Ret _ _ _ _ _ Hw). }
  right. pose proof (pt_ok_entry_pos _ _ _ a Hpt1 Ha HP) as Hpos.
  destruct (map_one pgdir a pa perm st1 l1) as (Hpt2 & Hg2 & Hmap2 & Hpd2); try done.
  assert (has PTE_P (pte_at (kmem_mem st1) pgdir a) = false) as Hnp.
  { rewrite <- Hmap1 in Hun by done. unfold mapped in Hun. rewrite HP in Hun. simpl in Hun.
    by destruct (has PTE_P _). }
  eexists _, l1. rewrite (bind_Ret _ _ _ _ _ Hw). destruct (Z.eqb_spec (ptab (kmem_mem st1) pgdir
    (PDX a) + 4 * PTX a) 0); [lia|].
  split_and!; [| exact Hpt2 | by eapply pt_grow_trans | | done |].
  - unfold bind at 1, load32, gets. unfold pte_at in Hnp. by rewrite Hnp.
  - intros va Hva. simpl. rewrite Hmap2 by done. destruct (_ =? _); [done|]. by apply Hmap1.
  - intros Hne i Hi. simpl. rewrite Hpd2, Hpd1 by done. destruct (Z.eqb_spec (PDX a) i) as [<-|]; simpl.
    + intros _. exists a. split_and!; [done | done|]. by rewrite Hmap2, Z.eqb_refl by done.
    + intros Hp. destruct (Hne i Hi Hp) as (va & Hva & Hpv & Hm). exists va. split_and!; [done | done|].
      rewrite Hmap2, Hmap1 by done. by destruct (_ =? _).
Qed.

Lemma mappages_loop_ok n pgdir a pa perm st l :
  pt_ok st l pgdir -> 0 <= a -> a mod 4096 = 0 -> a + 4096 * Z.of_nat n < W32 ->
  0 <= pa -> pa mod 4096 = 0 -> pa + 4096 * Z.of_nat n < W32 -> 0 <= perm < 4096 ->
  (forall va, a <= va < a + 4096 * Z.of_nat (S n) -> mapped (kmem_mem st) pgdir va = None) ->
  exists r st' l' k, (k <= S n)%nat /\
    mappages_loop (S n) pgdir a (a + 4096 * Z.of_nat n) pa perm st = Ret r st' /\
    pt_ok st' l' pgdir /\ pt_grow pgdir st l st' l' /\
    (forall va, va_ok va -> mapped (kmem_mem st') pgdir va =
       if (a <=? va) && (va <? a + 4096 * Z.of_nat k) then Some (run_pte a pa perm va)
       else mapped (kmem_mem st) pgdir va) /\
    ((r = 0 /\ k = S n) \/ (r = -1 /\ l' = [] /\ (k <= n)%nat)) /\
    (no_empty (kmem_mem st) pgdir -> no_empty (kmem_mem st') pgdir).
Proof.
  revert a pa st l. induction n as [|n IH]; intros a pa st l Hpt Ha Hal Hov Hpa Hpal Hpov Hperm Hun.
  1: destruct (mappages_loop_S 0 pgdir a (a + 4096 * Z.of_nat 0) pa perm st l Hpt) as
    [(Hr & ->) | (st1 & l1 & Hr & Hpt1 & Hg1 & Hmap1 & _ & Hne1)]; try (unfold va_ok; lia); try (apply Hun; lia).
  3: destruct (mappages_loop_S (S n) pgdir a (a + 4096 * Z.of_nat (S n)) pa perm st l Hpt) as
    [(Hr & ->) | (st1 & l1 & Hr & Hpt1 & Hg1 & Hmap1 & _ & Hne1)]; try (unfold va_ok; lia); try (apply Hun; lia).
  1, 3: exists (-1), st, [], O; split_and!; try done; [lia | apply pt_grow_refl
    | intros va Hva; by zcases | right; split_and!; done || lia].
  all: rewrite Hr; clear Hr.
  - exists 0, st1, l1, 1%nat. destruct (Z.eqb_spec a (a + 4096 * Z.of_nat 0)); [|lia].
    split_and!; try done; [|by left]. intros va Hva. rewrite Hmap1 by done. unfold va_ok in Hva.
    zcases; try zlia; try done. unfold run_pte. do 3 f_equal. zlia.
  - destruct (Z.eqb_spec a (a + 4096 * Z.of_nat (S n))); [lia|].
    rewrite !u32_small by lia.
    destruct (IH (a + 4096) (pa + 4096) st1 l1) as
      (r & st2 & l2 & k & Hk & Hr & Hpt2 & Hg2 & Hmap2 & Hcase & Hne2); try done; try zlia.
    { intros va Hva. rewrite Hmap1 by (unfold va_ok; zlia).
      destruct (Z.eqb_spec (va / 4096) (a / 4096)); [zlia|]. apply Hun. lia. }
    exists r, st2, l2, (S k).
    replace (a + 4096 * Z.of_nat (S n)) with (a + 4096 + 4096 * Z.of_nat n) by lia.
    split_and!; try done; [lia | by eapply pt_grow_trans | | destruct Hcase as [?|(? & ? & ?)]; [left; lia | right; split_and!; done || lia] | auto].
    intros va Hva. rewrite Hmap2, Hmap1 by done. unfold va_ok in Hva.
    zcases; try zlia; try done; unfold run_pte; do 3 f_equal; zlia.
Qed.

(** The pages that [mappages(pgdir, va, size, ..)] covers. *)
Definition run_first (va : Z) : Z := va / 4096 * 4096.
Definition run_end (va size : Z) : Z := (va + size - 1) / 4096 * 4096 + 4096.

Lemma mappages_ok pgdir va size pa perm st l :
  pt_ok st l pgdir -> 0 <= va -> 0 < size -> va + size <= W32 ->
  0 <= pa -> pa mod 4096 = 0 -> pa + (run_end va size - run_first va) <= W32 -> 0 <= perm < 4096 ->
  (forall x, run_first va <= x < run_end va size -> mapped (kmem_mem st) pgdir x = None) ->
  exists r st' l' e,
    mappages pgdir va size pa perm st = Ret r st' /\
    pt_ok st' l' pgdir /\ pt_grow pgdir st l st' l' /\
    run_first va <= e <= run_end va size /\ e mod 4096 = 0 /\
    (forall x, va_ok x -> mapped (kmem_mem st') pgdir x =
       if (run_first va <=? x) && (x <? e) then Some (run_pte (run_first va) pa perm x)
       else mapped (kmem_mem st) pgdir x) /\
    ((r = 0 /\ e = run_end va size) \/ (r = -1 /\ l' = [] /\ e < run_end va size)) /\
    (no_empty (kmem_mem st) pgdir -> no_empty (kmem_mem st') pgdir).
Proof.
  intros Hpt Hva Hsz Hov Hpa Hpal Hpov Hperm Hun. unfold run_first, run_end in *. unfold mappages.
  rewrite (u32_small (va + size - 1)), !PGROUNDDOWN_eq, u32_small by zlia.
  set (a := va - va mod 4096). set (last := va + size - 1 - (va + size - 1) mod 4096).
  assert (va / 4096 * 4096 = a) as Ea by (unfold a; zlia).
  assert ((va + size - 1) / 4096 * 4096 = last) as El by (unfold last; zlia).
  rewrite Ea, El in *. set (n := Z.to_nat ((last - a) / 4096)).
  assert (last = a + 4096 * Z.of_nat n) as Hlast by (unfold n, a, last; zlia).
  assert (0 <= a /\ a mod 4096 = 0 /\ last + 4096 <= W32) as (Ha & Hal & Hlw) by (unfold a, last; zlia).
  clearbody a last n. subst last.
  destruct (mappages_loop_ok n pgdir a pa perm st l) as
    (r & st' & l' & k & Hk & Hr & Hpt' & Hg & Hmap & Hcase & Hne); try done; try lia.
  { intros x Hx. apply Hun. lia. }
  exists r, st', l', (a + 4096 * Z.of_nat k). split_and!; try done; try zlia.
  { by rewrite Hlast. }
  destruct Hcase as [[-> ->]|(-> & -> & ?)]; [left; lia | right; split_and!; done || lia].
Qed.

(** A page of the run that is mapped already stops the first round. *)
Lemma mappages_remap pgdir va size pa perm st l e :
  pt_ok st l pgdir -> va_ok va -> mapped (kmem_mem st) pgdir (run_first va) = Some e ->
  mappages pgdir va size pa perm st = Panic "remap".
Proof.
  intros Hpt Hva Hm. unfold mappages. rewrite (PGROUNDDOWN_eq va) by done.
  replace (va - va mod 4096) with (run_first va) by (unfold run_first; zlia).
  assert (va_ok (run_first va)) as Ha by (unfold va_ok, run_first in *; zlia).
  cbn [mappages_loop]. unfold mapped in Hm.
  destruct (pdeP (kmem_mem st) pgdir (PDX (run_first va))) eqn:HP; [|done].
  destruct (has PTE_P (pte_at (kmem_mem st) pgdir (run_first va))) eqn:He; [|done].
  pose proof (pt_ok_entry_pos _ _ _ _ Hpt Ha HP) as Hpos.
  assert (walkpgdir pgdir (run_first va) true st =
    Ret (ptab (kmem_mem st) pgdir (PDX (run_first va)) + 4 * PTX (run_first va)) st) as Hw.
  { unfold walkpgdir, bind, load32, gets, ptab. unfold pdeP in HP. by rewrite HP. }
  rewrite (bind_Ret _ _ _ _ _ Hw). destruct (Z.eqb_spec (ptab (kmem_mem st) pgdir
    (PDX (run_first va)) + 4 * PTX (run_first va)) 0); [lia|].
  unfold pte_at in He. unfold bind at 1, load32, gets. by rewrite He.
Qed.
End pagetable.

(** ** Properties *)

(** [mappages] maps exactly the run of pages that the bytes [va] to
    [va + size] touch, page [k] of the run to physical page [k] from [pa] on with
    the permissions asked for, and no other address changes.  It takes pages only
    from the front of the free list, for page tables, and writes nowhere else.
    It fails only when the free list is used up, having mapped an initial part
    of the run.  A run whose first page is mapped already panics. *)
Theorem mappages_maps_run (kend pgdir va size pa perm : Z) (st : kst) (l : list Z) :
  KERNBASE <= kend < KERNBASE + PHYSTOP -> pt_ok kend st l pgdir ->
  0 <= va -> 0 < size -> va + size <= W32 -> 0 <= perm < 4096 ->
  0 <= pa -> pa mod 4096 = 0 -> pa + (run_end va size - run_first va) <= W32 ->
  ((forall x, run_first va <= x < run_end va size -> mapped (kmem_mem st) pgdir x = None) ->
   exists r st' l' e,
     mappages pgdir va size pa perm st = Ret r st' /\
     pt_ok kend st' l' pgdir /\ pt_grow pgdir st l st' l' /\
     run_first va <= e <= run_end va size /\ e mod 4096 = 0 /\
     (forall x, va_ok x -> mapped (kmem_mem st') pgdir x =
        if (run_first va <=? x) && (x <? e) then Some (run_pte (run_first va) pa perm x)
        else mapped (kmem_mem st) pgdir x) /\
     ((r = 0 /\ e = run_end va size) \/ (r = -1 /\ l' = [] /\ e < run_end va size))) /\
  (forall e, mapped (kmem_mem st) pgdir (run_first va) = Some e ->
     mappages pgdir va size pa perm st = Panic "remap").
Proof.
  intros Hend Hpt Hva Hsz Hov Hperm Hpa Hpal Hpov. split.
  - intros Hun. destruct (mappages_ok kend Hend pgdir va size pa perm st l) as (r & st' & l' & e & H1 & H2 & H3 & H4 & H5 & H6 & H7 & _); try done. by exists r, st', l', e.
  - intros e He. eapply mappages_remap; [done | done | unfold va_ok; lia | done].
Qed.

Lemma zero_dir kend d l b m fl :
  (forall i, 0 <= i < 1024 -> ld32 m (d + 4 * i) = 0) ->
  free_inv kend (KSt m fl b) l -> kpage kend d -> (d ∉ l) ->
  pt_ok kend (KSt m fl b) l d /\ (forall va, va_ok va -> mapped m d va = None).
Proof.
  intros Hz Hf Hk Hd.
  assert (forall i, 0 <= i < 1024 -> pdeP m d i = false) as HP
    by (intros i Hi; unfold pdeP; by rewrite Hz).
  split.
  - split_and!; try done; simpl.
    + intros p [->|(i & Hi & H & _)]; [done|]. by rewrite HP in H.
    + intros i Hi H. by rewrite HP in H.
    + intros i j Hi Hj H. by rewrite HP in H.
  - intros va Hva. unfold mapped. by rewrite HP by by apply PDX_range.
Qed.

Lemma mappages_maps_run_witness :
  let st := KSt (fun _ => 0) 2149584896 true in
  exists r st', mappages 2149588992 8192 4096 1048576 PTE_W st = Ret r st'.
Proof.
  intros st. destruct (zero_dir 2149580800 2149588992 [2149584896] true (fun _ => 0) 2149584896) as [Hpt Hm].
  - intros i Hi. reflexivity.
  - split_and!; [intros x; simpl; lia | apply NoDup_singleton
    | apply Forall_singleton; unfold kpage; zlia | done].
  - unfold kpage. zlia.
  - rewrite list_elem_of_singleton. lia.
  - destruct (mappages_maps_run 2149580800 2149588992 8192 4096 1048576 PTE_W st [2149584896]) as [H _];
      try done; try lia; try (unfold PTE_W, run_end, run_first; zlia).
    destruct H as (r & st' & l' & e & H & _); [|by exists r, st'].
    intros x Hx. apply Hm. unfold va_ok, run_first, run_end in *. zlia.
Defined.
