(* ===== verification/Uvm.v ===== *)
(** * User address spaces (vm.c: setupkvm to copyout)

    The operations on a process's address space, on the memory and free list of
    the page allocator.  [vm_ok st l pgdir] is the invariant of an address
    space: its table is well formed ([pt_ok]) and the frames of its user pages
    are distinct allocated pages that are neither tables nor free.  [owned] is
    the set of pages the space holds.  Every operation is shown to keep the
    invariant and to neither leak nor lose a page. *)

From S2P Require Import Prelude Mem CString Mmu Kalloc PageTable.
#[local] Open Scope Z_scope.

Section uvm.
(** Linker symbols of kernel.ld: the end of the kernel and the start of its
    writable data. *)
Context (kend kdata : Z).

(** [for(; a < oldsz; a += PGSIZE)]: every round moves [a] up by a page at
    least. *)
Fixpoint deallocuvm_loop (fuel : nat) (pgdir a oldsz : Z) : M kst unit :=
  match fuel with
  | O => diverge
  | S fuel =>
      if a <? oldsz then
        pte <- walkpgdir pgdir a false ;;
        if pte =? 0 then
          let a := u32 (PGADDR (PDX a + 1) 0 0 - PGSIZE) in
          deallocuvm_loop fuel pgdir (u32 (a + PGSIZE)) oldsz
        else
          e <- load32 pte ;;
          (if has PTE_P e then
             let pa := PTE_ADDR e in
             panic_if (pa =? 0) "kfree" ;;;
             kfree kend (P2V pa) ;;;
             store32 pte 0
           else ret tt) ;;;
          deallocuvm_loop fuel pgdir (u32 (a + PGSIZE)) oldsz
      else ret tt
  end.
Definition deallocuvm (pgdir oldsz newsz : Z) : M kst Z :=
  if oldsz <=? newsz then ret oldsz
  else
    let a := PGROUNDUP newsz in
    deallocuvm_loop (S (Z.to_nat ((oldsz - a + PGSIZE - 1) / PGSIZE))) pgdir a oldsz ;;;
    ret newsz.

(** [for(i = 0; i < NPDENTRIES; i++)] with [n] entries left. *)
Fixpoint freevm_loop (n : nat) (pgdir i : Z) : M kst unit :=
  match n with
  | O => ret tt
  | S n =>
      e <- load32 (pgdir + 4 * i) ;;
      (if has PTE_P e then kfree kend (P2V (PTE_ADDR e)) else ret tt) ;;;
      freevm_loop n pgdir (i + 1)
  end.
Definition freevm (pgdir : Z) : M kst unit :=
  panic_if (pgdir =? 0) "freevm: no pgdir" ;;;
  deallocuvm pgdir KERNBASE 0 ;;;
  freevm_loop (Z.to_nat NPDENTRIES) pgdir 0 ;;;
  kfree kend pgdir.

Fixpoint setupkvm_loop (ks : list kmap) (pgdir : Z) : M kst Z :=
  match ks with
  | [] => ret pgdir
  | k :: ks =>
      r <- mappages pgdir (kmap_virt k) (u32 (kmap_phys_end k - kmap_phys_start k))
             (kmap_phys_start k) (kmap_perm k) ;;
      if r <? 0 then freevm pgdir ;;; ret 0
      else setupkvm_loop ks pgdir
  end.
Definition setupkvm : M kst Z :=
  pgdir <- kalloc ;;
  if pgdir =? 0 then ret 0
  else
    memset_page pgdir 0 ;;;
    panic_if (DEVSPACE <? P2V PHYSTOP) "PHYSTOP too high" ;;;
    setupkvm_loop (kmap_table kdata) pgdir.

Fixpoint allocuvm_loop (fuel : nat) (pgdir a oldsz newsz : Z) : M kst Z :=
  match fuel with
  | O => diverge
  | S fuel =>
      if a <? newsz then
        mem <- kalloc ;;
        if mem =? 0 then deallocuvm pgdir newsz oldsz ;;; ret 0
        else
          memset_page mem 0 ;;;
          r <- mappages pgdir a PGSIZE (V2P mem) (Z.lor PTE_W PTE_U) ;;
          if r <? 0 then deallocuvm pgdir newsz oldsz ;;; kfree kend mem ;;; ret 0
          else allocuvm_loop fuel pgdir (u32 (a + PGSIZE)) oldsz newsz
      else ret newsz
  end.
Definition allocuvm (pgdir oldsz newsz : Z) : M kst Z :=
  if KERNBASE <=? newsz then ret 0
  else if newsz <? oldsz then ret oldsz
  else
    let a := PGROUNDUP oldsz in
    allocuvm_loop (S (Z.to_nat ((newsz - a + PGSIZE - 1) / PGSIZE))) pgdir a oldsz newsz.

(** ** The invariant of an address space *)

Definition frame (e : Z) : Z := P2V (PTE_ADDR e).
Definition uva (va : Z) : Prop := 0 <= va < KERNBASE.

Definition upage (m : mem) (pgdir p : Z) : Prop :=
  exists va e, uva va /\ mapped m pgdir va = Some e /\ p = frame e.
(** The pages an address space holds. *)
Definition owned (m : mem) (pgdir p : Z) : Prop := tpage m pgdir p \/ upage m pgdir p.

Definition vm_ok (st : kst) (l : list Z) (pgdir : Z) : Prop :=
  let m := kmem_mem st in
  pt_ok kend st l pgdir /\
  (forall va e, uva va -> mapped m pgdir va = Some e ->
     kpage kend (frame e) /\ (frame e ∉ l) /\ ~ tpage m pgdir (frame e)) /\
  (forall va va' e e', uva va -> uva va' -> mapped m pgdir va = Some e ->
     mapped m pgdir va' = Some e' -> frame e = frame e' -> va / 4096 = va' / 4096).

(** What a user program sees at [va]: the flags of its page and the byte. *)
Definition uview (m : mem) (pgdir va : Z) : option (Z * Z) :=
  match mapped m pgdir va with
  | Some e => Some (PTE_FLAGS e, m (frame e + va mod 4096))
  | None => None
  end.

(** No page appears or disappears: what the space holds and what is free
    together stay the same. *)
Definition conserved (pgdir : Z) (st : kst) (l : list Z) (st' : kst) (l' : list Z) : Prop :=
  forall p, owned (kmem_mem st') pgdir p \/ p ∈ l' <-> owned (kmem_mem st) pgdir p \/ p ∈ l.

(** The page that holds [va]. *)
Definition pg (va : Z) : Z := va / 4096 * 4096.

Lemma uva_ok va : uva va -> va_ok va.
Proof. unfold uva, va_ok. lia. Qed.

Lemma vm_ok_pt st l pgdir : vm_ok st l pgdir -> pt_ok kend st l pgdir.
Proof. by intros (? & _). Qed.
Lemma vm_ok_free st l pgdir : vm_ok st l pgdir -> free_inv kend st l.
Proof. intros H%vm_ok_pt. by eapply pt_ok_free. Qed.
Lemma vm_ok_owned st l pgdir p :
  vm_ok st l pgdir -> owned (kmem_mem st) pgdir p -> kpage kend p /\ (p ∉ l).
Proof.
  intros (Hpt & Hup & _) [Hp|(va & e & Hva & Hm & ->)].
  - by apply Hpt.
  - destruct (Hup va e Hva Hm) as (? & ? & _). done.
Qed.

(** ** Changes outside a space *)

Lemma pt_ok_outside S st l st' l' pgdir :
  pt_ok kend st l pgdir -> free_inv kend st' l' ->
  same_outside S (kmem_mem st) (kmem_mem st') ->
  (forall p, S p -> kpage kend p /\ ~ tpage (kmem_mem st) pgdir p) ->
  (forall p, p ∈ l' -> ~ tpage (kmem_mem st) pgdir p) ->
  pt_ok kend st' l' pgdir /\
  (forall i, 0 <= i < 1024 -> pdeP (kmem_mem st') pgdir i = pdeP (kmem_mem st) pgdir i /\
                              ptab (kmem_mem st') pgdir i = ptab (kmem_mem st) pgdir i) /\
  (forall va, va_ok va -> mapped (kmem_mem st') pgdir va = mapped (kmem_mem st) pgdir va) /\
  (forall p, tpage (kmem_mem st') pgdir p <-> tpage (kmem_mem st) pgdir p).
Proof.
  intros (Hfree & Htp & Hnd & Hinj) Hfree' Hso HS Hl'.
  destruct (tables_ext (kmem_mem st) (kmem_mem st') pgdir) as (Hd & Hmap & Htp').
  { intros p i Hp Hi. eapply same_outside_ld32; [done | | by apply Htp | | done].
    - intros q Hq. by apply HS.
    - intros Hq. by destruct (HS p Hq). }
  split_and!; try done. split_and!; try done.
  - intros p Hp%Htp'. split; [by apply Htp|]. intros Hin. by apply (Hl' p).
  - intros i Hi. destruct (Hd i Hi) as [-> ->]. auto.
  - intros i j Hi Hj. destruct (Hd i Hi) as [-> ->], (Hd j Hj) as [-> ->]. auto.
Qed.

(** A space does not notice changes to pages it does not hold. *)
Lemma vm_ok_outside S st l st' l' pgdir :
  vm_ok st l pgdir -> free_inv kend st' l' ->
  same_outside S (kmem_mem st) (kmem_mem st') ->
  (forall p, S p -> kpage kend p /\ ~ owned (kmem_mem st) pgdir p) ->
  (forall p, p ∈ l' -> ~ owned (kmem_mem st) pgdir p) ->
  vm_ok st' l' pgdir /\
  (forall va, va_ok va -> mapped (kmem_mem st') pgdir va = mapped (kmem_mem st) pgdir va) /\
  (forall p, owned (kmem_mem st') pgdir p <-> owned (kmem_mem st) pgdir p) /\
  (forall p x, owned (kmem_mem st) pgdir p -> in_page p x -> kmem_mem st' x = kmem_mem st x).
Proof.
  intros Hvm Hfree' Hso HS Hl'. pose proof Hvm as (Hpt & Hup & Hinj).
  destruct (pt_ok_outside S st l st' l' pgdir) as (Hpt' & _ & Hmap & Htp); try done.
  { intros p Hp. destruct (HS p Hp) as [? Hn]. split; [done|]. intros ?. apply Hn. by left. }
  { intros p Hp ?. apply (Hl' p Hp). by left. }
  assert (forall p, upage (kmem_mem st') pgdir p <-> upage (kmem_mem st) pgdir p) as Hup'.
  { intros p. unfold upage. split; intros (va & e & Hva & Hm & ->); exists va, e;
      [rewrite Hmap in Hm by by apply uva_ok | rewrite Hmap by by apply uva_ok]; done. }
  split_and!; try done.
  - split_and!; try done.
    + intros va e Hva. rewrite Hmap by by apply uva_ok. intros Hm.
      destruct (Hup va e) as (? & ? & ?); try done. split_and!; [done | | by rewrite Htp].
      intros Hin. apply (Hl' _ Hin). right. by exists va, e.
    + intros va va' e e' Hva Hva'. rewrite !Hmap by by apply uva_ok. by apply Hinj.
  - intros p. unfold owned. by rewrite Htp, Hup'.
  - intros p x Hp Hx. eapply same_outside_page; [done | | by eapply vm_ok_owned | | done].
    + intros q Hq. by apply HS.
    + intros Hq. by destruct (HS p Hq).
Qed.

(** ** Unmapping *)

(** From [st] to [st'] the mappings of the addresses in [drop] went, and their
    frames to the free list. *)
Definition unmaps (drop : Z -> bool) (pgdir : Z) (st : kst) (l : list Z) (st' : kst) (l' : list Z)
  : Prop :=
  vm_ok st' l' pgdir /\
  (forall va, va_ok va -> mapped (kmem_mem st') pgdir va =
     if drop va then None else mapped (kmem_mem st) pgdir va) /\
  (forall p, tpage (kmem_mem st') pgdir p <-> tpage (kmem_mem st) pgdir p) /\
  (forall p, p ∈ l' <-> p ∈ l \/ exists va e, uva va /\ drop va = true /\
                          mapped (kmem_mem st) pgdir va = Some e /\ p = frame e) /\
  same_outside (fun p => tpage (kmem_mem st) pgdir p \/ p ∈ l' /\ (p ∉ l)) (kmem_mem st) (kmem_mem st').

Lemma unmaps_nothing drop pgdir st l :
  vm_ok st l pgdir ->
  (forall va, va_ok va -> drop va = true -> mapped (kmem_mem st) pgdir va = None) ->
  unmaps drop pgdir st l st l.
Proof.
  intros Hvm Hnone. split_and!; try done.
  - intros va Hva. destruct (drop va) eqn:E; [by apply Hnone | done].
  - intros p. split; [by left|]. intros [?|(va & e & Hva & Hd & Hm & _)]; [done|].
    rewrite Hnone in Hm by (done || by apply uva_ok). done.
Qed.

Lemma unmaps_owned drop pgdir st l st' l' p :
  unmaps drop pgdir st l st' l' -> owned (kmem_mem st') pgdir p -> owned (kmem_mem st) pgdir p.
Proof.
  intros (_ & Hm & Ht & _) [Hp|(va & e & Hva & He & ->)]; [left; by apply Ht|].
  right. exists va, e. rewrite Hm in He by by apply uva_ok. by destruct (drop va).
Qed.

Lemma unmaps_trans d1 d2 pgdir st1 l1 st2 l2 st3 l3 :
  unmaps d1 pgdir st1 l1 st2 l2 -> unmaps d2 pgdir st2 l2 st3 l3 ->
  unmaps (fun va => d1 va || d2 va) pgdir st1 l1 st3 l3.
Proof.
  intros H1 H2. pose proof H1 as (Hv1 & Hm1 & Ht1 & Hl1 & Hs1).
  pose proof H2 as (Hv2 & Hm2 & Ht2 & Hl2 & Hs2). split_and!; try done.
  - intros va Hva. rewrite Hm2, Hm1 by done. by destruct (d1 va), (d2 va).
  - intros p. by rewrite Ht2.
  - intros p. rewrite Hl2, Hl1. split.
    + intros [[?|(va & e & Hva & Hd & Hm & ->)]|(va & e & Hva & Hd & Hm & ->)]; [by left|right..];
        exists va, e; rewrite Hd, ?orb_true_r; split_and!; try done.
      rewrite Hm1 in Hm by by apply uva_ok. by destruct (d1 va).
    + intros [?|(va & e & Hva & Hd & Hm & ->)]; [tauto|].
      destruct (d1 va) eqn:E; [left; right; by exists va, e|]. right. exists va, e.
      rewrite Hm1, E by by apply uva_ok. done.
  - eapply same_outside_trans; eapply same_outside_mono; [|done | |done]; intros p; simpl;
      rewrite ?Ht1, ?Hl2, ?Hl1; tauto.
Qed.

Lemma unmaps_outside drop pgdir st l st' l' :
  unmaps drop pgdir st l st' l' ->
  same_outside (owned (kmem_mem st) pgdir) (kmem_mem st) (kmem_mem st').
Proof.
  intros (_ & _ & _ & Hl & Hs). eapply same_outside_mono; [|done].
  intros p [?|[[?|(va & e & ? & _ & ? & ->)]%Hl ?]]; [by left | done | right; by exists va, e].
Qed.

Lemma unmaps_ext d1 d2 pgdir st l st' l' :
  (forall va, va_ok va -> d1 va = d2 va) -> unmaps d1 pgdir st l st' l' ->
  unmaps d2 pgdir st l st' l'.
Proof.
  intros Hd (Hv & Hm & Ht & Hl & Hs). split_and!; try done.
  - intros va Hva. by rewrite <- Hd, Hm by done.
  - intros p. rewrite Hl. f_equiv. split; intros (va & e & Hva & Hdv & Hm' & ->); exists va, e;
      [rewrite Hd in Hdv by by apply uva_ok | rewrite <- Hd in Hdv by by apply uva_ok]; done.
Qed.

Lemma unmaps_conserved drop pgdir st l st' l' :
  unmaps drop pgdir st l st' l' -> conserved pgdir st l st' l'.
Proof.
  intros H p. pose proof H as (Hv & Hm & Ht & Hl & _). split.
  - intros [Hp|Hp]; [left; by eapply unmaps_owned|]. apply Hl in Hp as [?|(va & e & ? & _ & ? & ->)];
      [by right|]. left. right. by exists va, e.
  - intros [[Hp|(va & e & Hva & He & ->)]|Hp]; [left; left; by apply Ht | | right; apply Hl; by left].
    destruct (drop va) eqn:E.
    + right. apply Hl. right. by exists va, e.
    + left. right. exists va, e. rewrite Hm, E by by apply uva_ok. done.
Qed.

Lemma frame_byte e va : in_page (frame e) (frame e + va mod 4096).
Proof. unfold in_page. zlia. Qed.

(** Pages whose mapping and frame are untouched look the same. *)
Lemma uview_same S st' l' m pgdir va :
  vm_ok st' l' pgdir -> uva va -> mapped (kmem_mem st') pgdir va = mapped m pgdir va ->
  same_outside S m (kmem_mem st') -> (forall p, S p -> kpage kend p) ->
  (forall e, mapped m pgdir va = Some e -> ~ S (frame e)) ->
  uview (kmem_mem st') pgdir va = uview m pgdir va.
Proof.
  intros Hvm Hva Hm Hso HS Hn. unfold uview. rewrite Hm. destruct (mapped m pgdir va) as [e|] eqn:E;
    [|done]. do 2 f_equal. eapply same_outside_page; [done..| | by apply Hn | apply frame_byte].
  destruct (proj1 (proj2 Hvm) va e Hva) as (? & _); [by rewrite Hm | done].
Qed.

Lemma unmaps_uview drop pgdir st l st' l' va :
  unmaps drop pgdir st l st' l' -> uva va ->
  uview (kmem_mem st') pgdir va = if drop va then None else uview (kmem_mem st) pgdir va.
Proof.
  intros (Hvm & Hm & Ht & Hl & Hs) Hva. specialize (Hm va (uva_ok _ Hva)).
  destruct (drop va); [unfold uview; by rewrite Hm|].
  eapply uview_same; [done.. | |].
  - intros p [Hp%Ht|[Hp _]].
    + by apply (vm_ok_owned _ _ _ _ Hvm); left.
    + eapply kpage_not_free; [by eapply vm_ok_free | done].
  - intros e He. rewrite <- Hm in He. destruct (proj1 (proj2 Hvm) va e Hva He) as (_ & ? & Hnt).
    rewrite <- Ht. tauto.
Qed.

Context (Hkend : KERNLINK <= kend < KERNBASE + PHYSTOP).

Lemma kend_range : KERNBASE <= kend < KERNBASE + PHYSTOP.
Proof using Hkend. lia. Qed.

(** ** deallocuvm *)

Lemma frame_addr e : 0 <= e < W32 -> kpage kend (frame e) -> PTE_ADDR e <> 0.
Proof.
  intros He (_ & Hk & _) H0. unfold frame in Hk. rewrite H0 in Hk. unfold P2V in Hk.
  rewrite u32_small in Hk by lia. lia.
Qed.

Lemma mapped_range st l pgdir va e :
  pt_ok kend st l pgdir -> mapped (kmem_mem st) pgdir va = Some e -> 0 <= e < W32.
Proof.
  intros Hpt. unfold mapped. destruct (_ && _); [|done]. intros [= <-].
  apply ld32_range. by eapply pt_ok_mem.
Qed.
Lemma mapped_walk m pgdir va e :
  mapped m pgdir va = Some e ->
  pdeP m pgdir (PDX va) = true /\ has PTE_P e = true /\
  ld32 m (ptab m pgdir (PDX va) + 4 * PTX va) = e.
Proof.
  unfold mapped, pte_at. destruct (pdeP _ _ _); [|done].
  destruct (has PTE_P _) eqn:E; [|done]. intros [= <-]. done.
Qed.

(** Freeing the frame of a page and clearing its entry. *)
Lemma dealloc_one pgdir a e st l :
  vm_ok st l pgdir -> uva a -> mapped (kmem_mem st) pgdir a = Some e ->
  exists st1 st2, kfree kend (frame e) st = Ret tt st1 /\
    store32 (ptab (kmem_mem st) pgdir (PDX a) + 4 * PTX a) 0 st1 = Ret tt st2 /\
    unmaps (fun va => va / 4096 =? a / 4096) pgdir st l st2 (frame e :: l).
Proof.
  intros Hvm Ha Hm. pose proof Hvm as (Hpt & Hup & Hinj).
  destruct (Hup a e Ha Hm) as (Hkf & Hfl & Hft). destruct (mapped_walk _ _ _ _ Hm) as (HP & _ & _).
  destruct (kfree_ok kend kend_range (frame e) st l) as (st1 & Hk & Hfree1 & Hmem1 & _);
    [by eapply vm_ok_free | done..|].
  destruct (pt_ok_outside (eq (frame e)) st l st1 (frame e :: l) pgdir) as (Hpt1 & Hd1 & Hmap1 & Htp1);
    try done.
  { intros x Hx. apply Hmem1. specialize (Hx _ eq_refl). unfold in_page in Hx. lia. }
  { by intros p <-. }
  { intros p [->|Hp]%elem_of_cons; [done|]. intros Ht. by destruct (proj1 (proj2 Hpt) p Ht). }
  pose proof (PDX_range a (uva_ok _ Ha)) as Hpd. destruct (Hd1 _ Hpd) as [Hpe1 Hpt1'].
  destruct (set_pte kend st1 (frame e :: l) pgdir a 0) as (Hpt2 & Hmap2 & Htp2 & _ & Hso2);
    [done | by apply uva_ok | by rewrite Hpe1 | lia|].
  rewrite Hpt1' in *. eexists st1, _. split_and!; [done | reflexivity |].
  set (m2 := st32 _ _ _) in *. change (has PTE_P 0) with false in Hmap2. cbv iota in Hmap2.
  assert (forall va, va_ok va -> mapped m2 pgdir va =
    if va / 4096 =? a / 4096 then None else mapped (kmem_mem st) pgdir va) as Hmap.
  { intros va Hva. rewrite Hmap2, Hmap1 by done. done. }
  split_and!; simpl.
  - split_and!; [done | |]; simpl.
    + intros va e' Hva. rewrite Hmap by by apply uva_ok.
      destruct (Z.eqb_spec (va / 4096) (a / 4096)) as [|Hne]; [done|]. intros He'.
      destruct (Hup va e' Hva He') as (? & ? & ?).
      split_and!; [done | | by rewrite Htp2, Htp1]. rewrite elem_of_cons. intros [Hf|?]; [|done].
      by apply Hne, (Hinj va a e' e).
    + intros va va' e1 e2 Hva Hva'. rewrite !Hmap by by apply uva_ok.
      destruct (va / 4096 =? a / 4096), (va' / 4096 =? a / 4096); try done. by apply Hinj.
  - done.
  - intros p. by rewrite Htp2.
  - intros p. rewrite elem_of_cons. split.
    + intros [->|?]; [|by left]. right. exists a, e. by rewrite Z.eqb_refl.
    + intros [?|(va & e' & Hva & Hd & He' & ->)]; [by right|]. left.
      unfold mapped, pte_at in He', Hm. apply Z.eqb_eq, vpn_eq in Hd as [E1 E2];
        [|by apply uva_ok..]. rewrite E1, E2 in He'. congruence.
  - eapply same_outside_trans with (kmem_mem st1).
    + intros x Hx. apply Hmem1.
      assert (~ in_page (frame e) x) as Hn by (apply Hx; right; split; [by constructor | done]).
      unfold in_page in Hn. lia.
    + eapply same_outside_mono; [|done]. intros p <-. left. by apply tpage_tab.
Qed.

Definition in_range (a hi va : Z) : bool := (a <=? va) && (pg va <? hi).

(** One round of the loop unmaps the pages up to where it goes on. *)
Lemma deallocuvm_loop_S fuel pgdir a oldsz st l :
  vm_ok st l pgdir -> uva a -> a mod 4096 = 0 -> a < oldsz <= KERNBASE ->
  exists a' st' l', a + 4096 <= a' <= KERNBASE /\ a' mod 4096 = 0 /\
    deallocuvm_loop (S fuel) pgdir a oldsz st = deallocuvm_loop fuel pgdir a' oldsz st' /\
    unmaps (fun va => in_range a oldsz va && (va <? a')) pgdir st l st' l'.
Proof.
  intros Hvm Ha Hal Hold. pose proof (uva_ok _ Ha) as Hva. cbn [deallocuvm_loop].
  destruct (Z.ltb_spec a oldsz); [|lia].
  rewrite (bind_Ret _ _ _ _ _ (walkpgdir_noalloc pgdir a st)).
  destruct (pdeP (kmem_mem st) pgdir (PDX a)) eqn:HP.
  - pose proof (pt_ok_entry_pos kend kend_range _ _ _ _ (vm_ok_pt _ _ _ Hvm) Hva HP) as Hpos.
    destruct (Z.eqb_spec (ptab (kmem_mem st) pgdir (PDX a) + 4 * PTX a) 0); [lia|].
    unfold bind at 1, load32, gets. fold (pte_at (kmem_mem st) pgdir a).
    unfold uva in Ha. rewrite (u32_small (a + 4096)) by lia.
    destruct (has PTE_P (pte_at (kmem_mem st) pgdir a)) eqn:He.
    + assert (mapped (kmem_mem st) pgdir a = Some (pte_at (kmem_mem st) pgdir a)) as Hm
        by (unfold mapped; by rewrite HP, He).
      pose proof (mapped_range _ _ _ _ _ (vm_ok_pt _ _ _ Hvm) Hm) as Hr.
      destruct (proj1 (proj2 Hvm) a _ Ha Hm) as (Hkf & _ & _).
      destruct (dealloc_one pgdir a _ st l Hvm Ha Hm) as (st1 & st2 & Hk & Hs & Hun).
      exists (a + 4096), st2, (frame (pte_at (kmem_mem st) pgdir a) :: l).
      split_and!; [zlia | zlia | zlia | |].
      * pose proof (frame_addr _ Hr Hkf). unfold panic_if. zcases.
        unfold bind. unfold frame in Hk. cbn [ret]. rewrite Hk. by rewrite Hs.
      * eapply unmaps_ext; [|done]. intros va Hva'. unfold in_range, pg, va_ok in *. zcases; zlia.
    + exists (a + 4096), st, l. split_and!; [zlia | zlia | zlia | done |].
      apply unmaps_nothing; [done|]. intros va Hva' Hd. unfold mapped, pte_at.
      assert (PDX va = PDX a /\ PTX va = PTX a) as [-> ->].
      { apply vpn_eq; [done..|]. unfold in_range, va_ok in *. zcases_in Hd; zlia. }
      unfold pte_at in He. by rewrite He, andb_false_r.
  - destruct (Z.eqb_spec 0 0); [|done]. unfold uva in Ha.
    pose proof (PDX_eq a Hva) as Epd. rewrite PGADDR_dir by zlia.
    rewrite (u32_small (_ - 4096)), u32_small by zlia.
    exists ((PDX a + 1) * 4194304), st, l. split_and!; [zlia | zlia | zlia | f_equal; lia |].
    apply unmaps_nothing; [done|]. intros va Hva' Hd. unfold mapped.
    replace (PDX va) with (PDX a); [by rewrite HP|]. rewrite Epd, PDX_eq by done.
    unfold in_range, va_ok in *. zcases_in Hd; zlia.
Qed.

Lemma deallocuvm_loop_ok fuel pgdir a oldsz st l :
  vm_ok st l pgdir -> 0 <= a <= KERNBASE -> a mod 4096 = 0 -> oldsz <= KERNBASE ->
  (oldsz - a + 4095) / 4096 < Z.of_nat fuel -> (0 < fuel)%nat ->
  exists st' l', deallocuvm_loop fuel pgdir a oldsz st = Ret tt st' /\
    unmaps (in_range a oldsz) pgdir st l st' l'.
Proof.
  revert a st l. induction fuel as [|fuel IH]; intros a st l Hvm Ha Hal Hold Hf Hf0; [lia|].
  destruct (Z.lt_ge_cases a oldsz) as [Hlt|Hge].
  - destruct (deallocuvm_loop_S fuel pgdir a oldsz st l) as (a' & st1 & l1 & Ha' & Hal' & Hr & Hun);
      [done | unfold uva; lia | done | lia |].
    destruct (IH a' st1 l1) as (st2 & l2 & Hr2 & Hun2); try done; try lia; try zlia.
    { apply Hun. }
    exists st2, l2. split; [by rewrite Hr|]. eapply unmaps_ext; [|by eapply unmaps_trans].
    intros va Hva. unfold va_ok in Hva. unfold in_range, pg. zcases; zlia.
  - exists st, l. cbn [deallocuvm_loop]. destruct (Z.ltb_spec a oldsz); [lia|]. split; [done|].
    apply unmaps_nothing; [done|]. intros va Hva Hd. unfold in_range, pg in Hd. unfold va_ok in Hva.
    zcases_in Hd; zlia.
Qed.

Definition roundup (a : Z) : Z := (a + 4095) / 4096 * 4096.

Lemma deallocuvm_ok pgdir oldsz newsz st l :
  vm_ok st l pgdir -> 0 <= newsz -> oldsz <= KERNBASE ->
  exists st' l', deallocuvm pgdir oldsz newsz st = Ret (Z.min oldsz newsz) st' /\
    unmaps (in_range (roundup newsz) oldsz) pgdir st l st' l'.
Proof.
  intros Hvm Hn Hold. unfold deallocuvm, roundup. destruct (Z.leb_spec oldsz newsz).
  - exists st, l. split; [unfold ret; f_equal; lia|]. apply unmaps_nothing; [done|].
    intros va Hva Hd. unfold in_range, pg in Hd. unfold va_ok in Hva. zcases_in Hd; zlia.
  - rewrite PGROUNDUP_eq by lia.
    destruct (deallocuvm_loop_ok (S (Z.to_nat ((oldsz - (newsz + 4095) / 4096 * 4096 + 4096 - 1) / 4096)))
      pgdir ((newsz + 4095) / 4096 * 4096) oldsz st l) as (st' & l' & Hr & Hun); try done; try zlia.
    exists st', l'. split; [|done]. rewrite (bind_Ret _ _ _ _ _ Hr). unfold ret. f_equal. lia.
Qed.

(** ** freevm *)

(** The tables from entry [i] of the directory on. *)
Definition tabs (m : mem) (pgdir i p : Z) : Prop :=
  exists j, i <= j < 1024 /\ pdeP m pgdir j = true /\ p = ptab m pgdir j.

Lemma freevm_loop_ok n pgdir i st l :
  free_inv kend st l -> kpage kend pgdir -> (pgdir ∉ l) -> 0 <= i -> i + Z.of_nat n = 1024 ->
  (forall p, tabs (kmem_mem st) pgdir i p -> kpage kend p /\ (p ∉ l) /\ p <> pgdir) ->
  (forall j k, i <= j < 1024 -> i <= k < 1024 -> pdeP (kmem_mem st) pgdir j = true ->
     pdeP (kmem_mem st) pgdir k = true -> ptab (kmem_mem st) pgdir j = ptab (kmem_mem st) pgdir k ->
     j = k) ->
  exists st' l', freevm_loop n pgdir i st = Ret tt st' /\ free_inv kend st' l' /\
    (forall p, p ∈ l' <-> p ∈ l \/ tabs (kmem_mem st) pgdir i p) /\
    same_outside (tabs (kmem_mem st) pgdir i) (kmem_mem st) (kmem_mem st').
Proof.
  revert i st l. induction n as [|n IH]; intros i st l Hfree Hkd Hdl Hi Hn Htab Hinj.
  { exists st, l. split_and!; try done. intros p. split; [by left|].
    intros [?|(j & ? & _)]; [done | lia]. }
  cbn [freevm_loop]. unfold bind at 1, load32, gets. fold (pdeP (kmem_mem st) pgdir i).
  assert (forall st1 l1, (forall j, i < j < 1024 ->
      ld32 (kmem_mem st1) (pgdir + 4 * j) = ld32 (kmem_mem st) (pgdir + 4 * j)) ->
      free_inv kend st1 l1 -> (pgdir ∉ l1) ->
      (forall p, tabs (kmem_mem st) pgdir (i + 1) p -> p ∉ l1) ->
      exists st' l', freevm_loop n pgdir (i + 1) st1 = Ret tt st' /\ free_inv kend st' l' /\
        (forall p, p ∈ l' <-> p ∈ l1 \/ tabs (kmem_mem st) pgdir (i + 1) p) /\
        same_outside (tabs (kmem_mem st) pgdir (i + 1)) (kmem_mem st1) (kmem_mem st')) as IH'.
  { intros st1 l1 Heq Hf1 Hd1 Ht1.
    assert (forall p, tabs (kmem_mem st1) pgdir (i + 1) p <-> tabs (kmem_mem st) pgdir (i + 1) p) as Hiff.
    { intros p. unfold tabs, pdeP, ptab. split; intros (j & Hj & Hp & ->); exists j;
        rewrite Heq in * by lia; done. }
    destruct (IH (i + 1) st1 l1) as (st' & l' & Hr & Hf & Hl & Hs); try done; try lia.
    - intros p Hp%Hiff. destruct (Htab p) as (? & _ & ?); [|auto].
      destruct Hp as (j & ? & ?). exists j. split; [lia|done].
    - intros j k Hj Hk. unfold pdeP, ptab. rewrite !Heq by lia. apply Hinj; lia.
    - exists st', l'. split_and!; try done.
      + intros p. by rewrite Hl, Hiff.
      + eapply same_outside_mono; [|done]. intros p. apply Hiff. }
  assert (forall p, tabs (kmem_mem st) pgdir i p <->
    tabs (kmem_mem st) pgdir (i + 1) p \/
    (pdeP (kmem_mem st) pgdir i = true /\ p = ptab (kmem_mem st) pgdir i)) as Hsplit.
  { intros p. split.
    - intros (j & Hj & Hp & ->). destruct (decide (j = i)) as [->|]; [by right|].
      left. exists j. split; [lia|done].
    - intros [(j & Hj & ?)|?]; [exists j; split; [lia|done] | exists i; split; [lia|done]]. }
  destruct (pdeP (kmem_mem st) pgdir i) eqn:HP.
  - fold (ptab (kmem_mem st) pgdir i). set (t := ptab (kmem_mem st) pgdir i) in *.
    destruct (Htab t) as (Hkt & Htl & Htd); [apply Hsplit; by right|].
    destruct (kfree_ok kend kend_range t st l Hfree Hkt Htl) as (st1 & Hk & Hf1 & Hm1 & _).
    rewrite (bind_Ret _ _ _ _ _ Hk).
    destruct (IH' st1 (t :: l)) as (st' & l' & Hr & Hf & Hl & Hs); [| done | | |].
    + intros j Hj. apply ld32_ext. intros x Hx. apply Hm1.
      destruct (kpage_ne kend t pgdir Hkt Hkd Htd); lia.
    + rewrite elem_of_cons. intros [?|?]; [by apply Htd|done].
    + intros p (j & Hj & Hp & ->). rewrite elem_of_cons. intros [Heq|Hin].
      * assert (j = i); [|lia]. apply Hinj; [lia | lia | done | done | done].
      * destruct (Htab (ptab (kmem_mem st) pgdir j)) as (_ & ? & _); [|done].
        exists j. split; [lia|done].
    + exists st', l'. split_and!; try done.
      * intros p. rewrite Hl, Hsplit, elem_of_cons. naive_solver.
      * eapply same_outside_trans with (kmem_mem st1).
        { intros x Hx. apply Hm1. assert (~ in_page t x) as Hn' by (apply Hx, Hsplit; by right).
          unfold in_page in Hn'. lia. }
        eapply same_outside_mono; [|done]. intros p ?. apply Hsplit. by left.
  - unfold bind at 1, ret at 1. destruct (IH' st l) as (st' & l' & Hr & Hf & Hl & Hs); try done.
    { intros p Hp. apply Htab, Hsplit. by left. }
    exists st', l'. split_and!; try done.
    + intros p. rewrite Hl, Hsplit. naive_solver.
    + eapply same_outside_mono; [|done]. intros p ?. apply Hsplit. by left.
Qed.

Lemma freevm_ok pgdir st l :
  vm_ok st l pgdir ->
  exists st' l', freevm pgdir st = Ret tt st' /\ free_inv kend st' l' /\
    (forall p, p ∈ l' <-> p ∈ l \/ owned (kmem_mem st) pgdir p) /\
    same_outside (owned (kmem_mem st) pgdir) (kmem_mem st) (kmem_mem st').
Proof.
  intros Hvm. destruct (deallocuvm_ok pgdir KERNBASE 0 st l) as (st1 & l1 & Hr1 & Hun); try done; try lia.
  pose proof Hun as (Hvm1 & Hm1 & Ht1 & Hl1 & Hs1). pose proof Hvm1 as ((Hfree1 & Htp1 & Hnd1 & Hinj1) & _).
  destruct (Htp1 _ (tpage_dir _ _)) as [Hkd Hdl].
  pose proof (kpage_range kend kend_range _ Hkd) as (Hdr & _).
  assert (forall p, tabs (kmem_mem st1) pgdir 0 p -> tpage (kmem_mem st1) pgdir p) as Htabs
    by (intros p (j & ?); right; by exists j).
  destruct (freevm_loop_ok 1024 pgdir 0 st1 l1) as (st2 & l2 & Hr2 & Hf2 & Hl2 & Hs2); try done.
  { intros p Hp. destruct (Htp1 p (Htabs p Hp)) as [? ?]. split_and!; try done.
    destruct Hp as (j & Hj & ? & ->). by apply Hnd1. }
  destruct (kfree_ok kend kend_range pgdir st2 l2) as (st3 & Hr3 & Hf3 & Hm3 & _); try done.
  { intros [?|(j & Hj & Hp & Heq)]%Hl2; [done|]. by apply (Hnd1 j). }
  exists st3, (pgdir :: l2). split_and!; try done.
  - unfold freevm, panic_if. zcases. unfold bind at 1, ret at 1. rewrite (bind_Ret _ _ _ _ _ Hr1).
    change (Z.to_nat 1024) with 1024%nat. by rewrite (bind_Ret _ _ _ _ _ Hr2).
  - intros p. rewrite elem_of_cons, Hl2, Hl1. unfold owned. rewrite <- Ht1.
    assert (forall va, uva va -> in_range (roundup 0) KERNBASE va = true) as Hall.
    { intros va Hva. unfold uva in Hva. unfold in_range, roundup, pg. zcases; zlia. }
    split.
    + intros [->|[[?|(va & e & Hva & _ & Hm & ->)]|Hp]];
        [right; left; apply tpage_dir | by left | right; right; by exists va, e | right; left; auto].
    + intros [?|[[->|(j & Hj)]|(va & e & Hva & Hm & ->)]]; [tauto | by left | | ].
      * right. right. exists j. done.
      * right. left. right. exists va, e. auto.
  - eapply same_outside_trans; [by eapply unmaps_outside|].
    eapply same_outside_mono with (tpage (kmem_mem st1) pgdir).
    { intros p Hp. left. by apply Ht1. }
    eapply same_outside_trans with (kmem_mem st2).
    + eapply same_outside_mono; [|done]. done.
    + intros x Hx. apply Hm3. assert (~ in_page pgdir x) as Hn by apply Hx, tpage_dir.
      unfold in_page in Hn. lia.
Qed.

(** ** Mapping *)

(** A computation that holds the pages [O] before and [O'] after, takes further
    pages only from the free list, returns to it what it gives up, and writes
    nowhere else. *)
Definition evolves (O : Z -> Prop) (st : kst) (l : list Z) (O' : Z -> Prop) (st' : kst)
  (l' : list Z) : Prop :=
  free_inv kend st' l' /\ (forall p, O' p \/ p ∈ l' <-> O p \/ p ∈ l) /\
  same_outside (fun p => O p \/ p ∈ l) (kmem_mem st) (kmem_mem st').

Lemma evolves_refl O st l : free_inv kend st l -> evolves O st l O st l.
Proof. intros ?. by split_and!. Qed.
Lemma evolves_trans O1 O2 O3 st1 l1 st2 l2 st3 l3 :
  evolves O1 st1 l1 O2 st2 l2 -> evolves O2 st2 l2 O3 st3 l3 -> evolves O1 st1 l1 O3 st3 l3.
Proof.
  intros (Hf1 & Hp1 & Hs1) (Hf2 & Hp2 & Hs2). split_and!; [done | |].
  - intros p. by rewrite Hp2, Hp1.
  - eapply same_outside_trans; [done|]. eapply same_outside_mono; [|done]. intros p. apply Hp1.
Qed.
Lemma evolves_ext O1 O1' O2 O2' st l st' l' :
  (forall p, O1 p <-> O1' p) -> (forall p, O2 p <-> O2' p) ->
  evolves O1 st l O2 st' l' -> evolves O1' st l O2' st' l'.
Proof.
  intros H1 H2 (Hf & Hp & Hs). split_and!; [done | |].
  - intros p. by rewrite <- H2, Hp, H1.
  - eapply same_outside_mono; [|done]. intros p. simpl. by rewrite H1.
Qed.
(** A page held on the side through a computation. *)
Lemma evolves_frame (q : Z) O st l O' st' l' :
  evolves O st l O' st' l' ->
  evolves (fun p => O p \/ p = q) st l (fun p => O' p \/ p = q) st' l'.
Proof.
  intros (Hf & Hp & Hs). split_and!; [done | |].
  - intros p. specialize (Hp p). tauto.
  - eapply same_outside_mono; [|done]. intros p. simpl. tauto.
Qed.

Lemma unmaps_evolves drop pgdir st l st' l' :
  unmaps drop pgdir st l st' l' ->
  evolves (owned (kmem_mem st) pgdir) st l (owned (kmem_mem st') pgdir) st' l'.
Proof.
  intros H. split_and!.
  - eapply vm_ok_free, H.
  - by eapply unmaps_conserved.
  - eapply same_outside_mono; [|by eapply unmaps_outside]. by left.
Qed.
Lemma freevm_evolves pgdir st l :
  vm_ok st l pgdir ->
  exists st' l', freevm pgdir st = Ret tt st' /\
    evolves (owned (kmem_mem st) pgdir) st l (fun _ => False) st' l'.
Proof.
  intros Hvm. destruct (freevm_ok pgdir st l Hvm) as (st' & l' & Hr & Hf & Hl & Hs).
  exists st', l'. split; [done|]. split_and!; [done | |].
  - intros p. rewrite Hl. tauto.
  - eapply same_outside_mono; [|done]. by left.
Qed.
Lemma kfree_evolves O q st l :
  free_inv kend st l -> kpage kend q -> (q ∉ l) ->
  exists st', kfree kend q st = Ret tt st' /\
    evolves (fun p => O p \/ p = q) st l O st' (q :: l) /\
    (forall x, x < q \/ q + 4096 <= x -> kmem_mem st' x = kmem_mem st x).
Proof.
  intros Hf Hk Hq. destruct (kfree_ok kend kend_range q st l Hf Hk Hq) as (st' & Hr & Hf' & Hm & _).
  exists st'. split_and!; try done. split_and!; [done | |].
  - intros p. rewrite elem_of_cons. tauto.
  - intros x Hx. apply Hm. assert (~ in_page q x) as Hn by (apply Hx; tauto).
    unfold in_page in Hn. lia.
Qed.
(** Taking the page [q] off the free list and filling it. *)
Lemma kalloc_evolves O q st l m :
  free_inv kend st (q :: l) -> mem_ok m -> same_outside (eq q) (kmem_mem st) m ->
  let st' := set_mem m (set_freelist (ld32 (kmem_mem st) q) st) in
  kalloc st = Ret q (set_freelist (ld32 (kmem_mem st) q) st) /\
  evolves O st (q :: l) (fun p => O p \/ p = q) st' l /\ kpage kend q /\ (q ∉ l) /\ q <> 0.
Proof.
  intros Hf Hok Hso st'. destruct (kalloc_some kend kend_range q l st Hf) as (Hr & Hf' & Hk & Hq & H0).
  split_and!; try done. split_and!.
  - eapply (free_inv_outside kend (set_freelist _ st)); [done..|]. by intros p <-.
  - intros p. rewrite elem_of_cons. tauto.
  - eapply same_outside_mono; [|done]. intros p <-. right. constructor.
Qed.

(** An address space that shares no page with those another computation holds
    stays as it was, contents included. *)
Lemma bystander O st l O' st' l' pgdir :
  vm_ok st l pgdir -> evolves O st l O' st' l' ->
  (forall p, O p -> kpage kend p /\ ~ owned (kmem_mem st) pgdir p) ->
  vm_ok st' l' pgdir /\
  (forall va, va_ok va -> mapped (kmem_mem st') pgdir va = mapped (kmem_mem st) pgdir va) /\
  (forall p, owned (kmem_mem st') pgdir p <-> owned (kmem_mem st) pgdir p) /\
  (forall p x, owned (kmem_mem st) pgdir p -> in_page p x -> kmem_mem st' x = kmem_mem st x) /\
  (forall p, O' p -> kpage kend p /\ ~ owned (kmem_mem st') pgdir p).
Proof.
  intros Hvm (Hf & Hp & Hs) HO.
  assert (forall p, O p \/ p ∈ l -> kpage kend p /\ ~ owned (kmem_mem st) pgdir p) as HO'.
  { intros p [?|Hl]; [auto|]. split; [eapply kpage_not_free; [by eapply vm_ok_free | done]|].
    intros Ho. by destruct (vm_ok_owned _ _ _ _ Hvm Ho). }
  destruct (vm_ok_outside (fun p => O p \/ p ∈ l) st l st' l' pgdir) as (? & ? & Ho & ?); try done.
  { intros p Hp'. apply HO', Hp. by right. }
  split_and!; try done. intros p Hp'. rewrite Ho. apply HO', Hp. by left.
Qed.

Lemma bystander_uview O st l O' st' l' pgdir :
  vm_ok st l pgdir -> evolves O st l O' st' l' ->
  (forall p, O p -> kpage kend p /\ ~ owned (kmem_mem st) pgdir p) ->
  forall va, uva va -> uview (kmem_mem st') pgdir va = uview (kmem_mem st) pgdir va.
Proof.
  intros Hvm He HO va Hva. destruct (bystander O st l O' st' l' pgdir Hvm He HO) as (_ & Hm & _ & Hc & _).
  unfold uview. rewrite Hm by by apply uva_ok. destruct (mapped (kmem_mem st) pgdir va) as [e|] eqn:E;
    [|done]. do 2 f_equal. eapply Hc; [|apply frame_byte]. right. by exists va, e.
Qed.

Definition mk_uentry (q perm : Z) : Z := Z.lor (Z.lor (V2P q) perm) PTE_P.

Lemma mk_uentry_fields q perm :
  kpage kend q -> 0 <= perm < 4096 ->
  frame (mk_uentry q perm) = q /\ PTE_FLAGS (mk_uentry q perm) = Z.lor perm PTE_P.
Proof.
  intros Hq Hp. destruct (kpage_range kend kend_range q Hq) as (H1 & H2 & H3).
  pose proof (flags_range perm Hp). unfold mk_uentry, frame. rewrite V2P_eq, <- Z.lor_assoc by lia.
  rewrite PTE_ADDR_mk, PTE_FLAGS_mk by zlia. split; [|done]. rewrite P2V_eq by lia. lia.
Qed.

Lemma mappages_one pgdir a pa perm :
  0 <= a < KERNBASE -> a mod 4096 = 0 ->
  mappages pgdir a PGSIZE pa perm = mappages_loop 1 pgdir a a pa perm.
Proof.
  intros Ha Hal. unfold mappages. rewrite (u32_small (a + 4096 - 1)), !PGROUNDDOWN_eq by lia.
  replace (a + 4096 - 1 - (a + 4096 - 1) mod 4096) with a by zlia.
  replace (a - a mod 4096) with a by lia. by rewrite Z.sub_diag.
Qed.

(** A page held on the side becomes the user page at [a]; or there was no page
    left for the table, and nothing changed. *)
Lemma vm_map_page pgdir a q perm st l :
  vm_ok st l pgdir -> uva a -> a mod 4096 = 0 -> 0 <= perm < 4096 ->
  kpage kend q -> (q ∉ l) -> ~ owned (kmem_mem st) pgdir q ->
  mapped (kmem_mem st) pgdir a = None ->
  (mappages pgdir a PGSIZE (V2P q) perm st = Ret (-1) st /\ l = []) \/
  exists st' l', mappages pgdir a PGSIZE (V2P q) perm st = Ret 0 st' /\
    vm_ok st' l' pgdir /\ (length l <= S (length l'))%nat /\
    evolves (fun p => owned (kmem_mem st) pgdir p \/ p = q) st l (owned (kmem_mem st') pgdir) st' l' /\
    (forall va, va_ok va -> mapped (kmem_mem st') pgdir va =
       if va / 4096 =? a / 4096 then Some (mk_uentry q perm) else mapped (kmem_mem st) pgdir va) /\
    (forall p x, upage (kmem_mem st) pgdir p \/ p = q -> in_page p x ->
       kmem_mem st' x = kmem_mem st x).
Proof.
  intros Hvm Ha Hal Hperm Hkq Hql Hqo Hun. pose proof Hvm as (Hpt & Hup & Hinj).
  destruct (kpage_range kend kend_range q Hkq) as (Hq1 & Hq2 & Hq3).
  destruct (mk_uentry_fields q perm Hkq Hperm) as [Hfr _].
  rewrite mappages_one by done.
  destruct (mappages_loop_S kend kend_range 0 pgdir a a (V2P q) perm st l) as
    [?|(st' & l' & Hr & Hpt' & (used & -> & Ht & Hs) & Hmap & Hlen & _)];
    try done; [by apply uva_ok | rewrite V2P_eq by lia; lia | rewrite V2P_eq by lia; zlia | by left |].
  right. exists st', l'. rewrite Z.eqb_refl in Hr. fold (mk_uentry q perm) in Hmap.
  assert (forall p, upage (kmem_mem st) pgdir p \/ p = q ->
    kpage kend p /\ (p ∉ used ++ l') /\ ~ tpage (kmem_mem st) pgdir p) as Hpg.
  { intros p [(va & e & Hva & Hm & ->)| ->]; [by apply (Hup va)|]. split_and!; try done.
    intros ?. apply Hqo. by left. }
  assert (forall va e, uva va -> mapped (kmem_mem st') pgdir va = Some e ->
    (va / 4096 = a / 4096 /\ e = mk_uentry q perm) \/
    (va / 4096 <> a / 4096 /\ mapped (kmem_mem st) pgdir va = Some e)) as Hinv.
  { intros va e Hva. rewrite Hmap by by apply uva_ok.
    destruct (Z.eqb_spec (va / 4096) (a / 4096)); naive_solver. }
  assert (forall p, upage (kmem_mem st') pgdir p <-> upage (kmem_mem st) pgdir p \/ p = q) as Hupg.
  { intros p. split.
    - intros (va & e & Hva & Hm & ->). apply Hinv in Hm as [(_ & ->)|(_ & Hm)]; [|by left; exists va, e| done].
      by right.
    - intros [(va & e & Hva & Hm & ->)| ->].
      + exists va, e. rewrite Hmap by by apply uva_ok.
        destruct (Z.eqb_spec (va / 4096) (a / 4096)) as [E|]; [|done]. exfalso.
        apply vpn_eq in E as [E1 E2]; [|by apply uva_ok..].
        unfold mapped, pte_at in Hm, Hun. rewrite E1, E2 in Hm. congruence.
      + exists a, (mk_uentry q perm). rewrite Hmap, Z.eqb_refl by by apply uva_ok. done. }
  assert (forall p, upage (kmem_mem st') pgdir p ->
     kpage kend p /\ (p ∉ l') /\ ~ tpage (kmem_mem st') pgdir p) as Hpg'.
  { intros p Hp%Hupg. destruct (Hpg p Hp) as (? & Hn & ?). rewrite elem_of_app in Hn.
    split_and!; [done | tauto |]. rewrite Ht. tauto. }
  split_and!; try done.
  - split_and!; [done | |].
    + intros va e Hva Hm. apply Hpg'. by exists va, e.
    + intros va va' e e' Hva Hva' Hm Hm' Hf.
      apply Hinv in Hm as [(E & ->)|(E & Hm)]; [| |done]; apply Hinv in Hm' as [(E' & ->)|(E' & Hm')];
        try done; try congruence; try (by eapply Hinj); exfalso; apply Hqo; right.
      * exists va', e'. by rewrite <- Hfr.
      * exists va, e. by rewrite <- Hfr.
  - split_and!; [by eapply pt_ok_free| |].
    + intros p. unfold owned. rewrite Ht, Hupg, elem_of_app. tauto.
    + eapply same_outside_mono; [|done]. intros p. unfold owned. simpl. rewrite elem_of_app. tauto.
  - intros p x Hp Hx. destruct (Hpg p Hp) as (? & Hn & ?). rewrite elem_of_app in Hn.
    eapply same_outside_page; [done | | done | | done].
    + intros r Hr'. by apply Hpt', Ht.
    + intros [?|?]; tauto.
Qed.

(** ** allocuvm *)

Lemma uview_None m pgdir va : uview m pgdir va = None <-> mapped m pgdir va = None.
Proof. unfold uview. by destruct (mapped m pgdir va). Qed.

(** What a space shows after [vm_map_page]. *)
Lemma map_page_uview pgdir a q perm st st' :
  (forall va, va_ok va -> mapped (kmem_mem st') pgdir va =
     if va / 4096 =? a / 4096 then Some (mk_uentry q perm) else mapped (kmem_mem st) pgdir va) ->
  (forall p x, upage (kmem_mem st) pgdir p \/ p = q -> in_page p x ->
     kmem_mem st' x = kmem_mem st x) ->
  kpage kend q -> 0 <= perm < 4096 ->
  forall va, uva va -> uview (kmem_mem st') pgdir va =
    if va / 4096 =? a / 4096 then Some (Z.lor perm PTE_P, kmem_mem st (q + va mod 4096))
    else uview (kmem_mem st) pgdir va.
Proof.
  intros Hm Hc Hk Hp va Hva. destruct (mk_uentry_fields q perm Hk Hp) as [Hfr Hfl].
  unfold uview. rewrite Hm by by apply uva_ok. destruct (Z.eqb_spec (va / 4096) (a / 4096)) as [E|E].
  - rewrite Hfr, Hfl. do 2 f_equal. apply (Hc q); [by right|]. unfold in_page. zlia.
  - destruct (mapped (kmem_mem st) pgdir va) as [e|] eqn:He; [|done]. do 2 f_equal.
    apply (Hc (frame e)); [|apply frame_byte]. left. by exists va, e.
Qed.

Lemma memset_outside m q c : same_outside (eq q) m (memset m q c 4096).
Proof.
  intros x Hx. specialize (Hx q eq_refl). unfold in_page in Hx.
  rewrite memset_correct by lia. by zcases.
Qed.

(** Taking a page and filling it, as the holder of a space does. *)
Lemma take_page pgdir q l st m :
  vm_ok st (q :: l) pgdir -> mem_ok m -> same_outside (eq q) (kmem_mem st) m ->
  let st1 := set_mem m (set_freelist (ld32 (kmem_mem st) q) st) in
  kalloc st = Ret q (set_freelist (ld32 (kmem_mem st) q) st) /\ q <> 0 /\
  vm_ok st1 l pgdir /\ kpage kend q /\ (q ∉ l) /\ ~ owned (kmem_mem st1) pgdir q /\
  (forall va, va_ok va -> mapped (kmem_mem st1) pgdir va = mapped (kmem_mem st) pgdir va) /\
  (forall va, uva va -> uview (kmem_mem st1) pgdir va = uview (kmem_mem st) pgdir va) /\
  evolves (owned (kmem_mem st) pgdir) st (q :: l)
    (fun p => owned (kmem_mem st1) pgdir p \/ p = q) st1 l.
Proof.
  intros Hvm Hok Hso st1.
  destruct (kalloc_evolves (fun _ => False) q st l m) as (Hk & He0 & Hkq & Hql & Hq0);
    [by eapply vm_ok_free | done..|].
  destruct (kalloc_evolves (owned (kmem_mem st) pgdir) q st l m) as (_ & He & _);
    [by eapply vm_ok_free | done..|].
  destruct (bystander _ _ _ _ _ _ pgdir Hvm He0) as (Hvm1 & Hm & Ho & _ & Hd); [done|].
  split_and!; try done.
  - apply Hd. by right.
  - intros va Hva. by eapply bystander_uview; [exact Hvm | exact He0 | |].
  - eapply evolves_ext; [| |exact He]; [done|]. intros p. unfold st1. by rewrite Ho.
Qed.

Definition npages (a hi : Z) : Z := (hi - a + 4095) / 4096.

(** One round: it maps a zeroed page at [a], or there are fewer than two free
    pages and the loop gives up, with a page in hand ([q]) or without. *)
Lemma allocuvm_loop_S fuel pgdir a oldsz newsz st l :
  vm_ok st l pgdir -> uva a -> a mod 4096 = 0 -> a < newsz -> uview (kmem_mem st) pgdir a = None ->
  (l = [] /\ allocuvm_loop (S fuel) pgdir a oldsz newsz st =
               (deallocuvm pgdir newsz oldsz ;;; ret 0) st) \/
  (exists q st1, l = [q] /\ allocuvm_loop (S fuel) pgdir a oldsz newsz st =
               (deallocuvm pgdir newsz oldsz ;;; kfree kend q ;;; ret 0) st1 /\
     vm_ok st1 [] pgdir /\ kpage kend q /\ ~ owned (kmem_mem st1) pgdir q /\
     (forall va, uva va -> uview (kmem_mem st1) pgdir va = uview (kmem_mem st) pgdir va) /\
     evolves (owned (kmem_mem st) pgdir) st l
       (fun p => owned (kmem_mem st1) pgdir p \/ p = q) st1 []) \/
  (exists st' l', allocuvm_loop (S fuel) pgdir a oldsz newsz st =
               allocuvm_loop fuel pgdir (a + 4096) oldsz newsz st' /\
     vm_ok st' l' pgdir /\ (length l <= S (S (length l')))%nat /\
     evolves (owned (kmem_mem st) pgdir) st l (owned (kmem_mem st') pgdir) st' l' /\
     (forall va, uva va -> uview (kmem_mem st') pgdir va =
        if va / 4096 =? a / 4096 then Some (7, 0) else uview (kmem_mem st) pgdir va)).
Proof.
  intros Hvm Ha Hal Hlt Hun. cbn [allocuvm_loop]. destruct (Z.ltb_spec a newsz); [|lia].
  destruct l as [|q l].
  { left. split; [done|].
    by rewrite (bind_Ret _ _ _ _ _ (kalloc_none kend _ (vm_ok_free _ _ _ Hvm))). }
  right. destruct (take_page pgdir q l st (memset (kmem_mem st) q 0 4096)) as
    (Hk & Hq0 & Hvm1 & Hkq & Hql & Hqo & Hm1 & Hv1 & He1); [done | | apply memset_outside |].
  { apply memset_ok; [lia|]. eapply pt_ok_mem, vm_ok_pt, Hvm. }
  set (st1 := set_mem _ _) in *. rewrite (bind_Ret _ _ _ _ _ Hk). destruct (Z.eqb_spec q 0); [lia|].
  assert ((memset_page q 0) (set_freelist (ld32 (kmem_mem st) q) st) = Ret tt st1) as Hset by done.
  rewrite (bind_Ret _ _ _ _ _ Hset).
  destruct (vm_map_page pgdir a q (Z.lor PTE_W PTE_U) st1 l) as
    [(Hr & ->)|(st2 & l2 & Hr & Hvm2 & Hlen & He2 & Hm2 & Hc2)]; try done.
  { rewrite Hm1 by by apply uva_ok. by apply uview_None. }
  - left. exists q, st1. rewrite (bind_Ret _ _ _ _ _ Hr). by split_and!.
  - right. exists st2, l2. rewrite (bind_Ret _ _ _ _ _ Hr). unfold uva in Ha.
    rewrite u32_small by lia. split_and!; [done | done | simpl; lia | |].
    + by eapply evolves_trans.
    + intros va Hva. erewrite map_page_uview by done. destruct (_ =? _); [|by apply Hv1].
      do 2 f_equal. unfold st1. simpl. rewrite memset_correct by lia. zcases; [done | zlia..].
Qed.

(** Giving up with a page in hand: the range is unmapped again and the page
    freed. *)
Lemma give_up_page pgdir newsz oldsz q st l :
  vm_ok st l pgdir -> 0 <= oldsz -> newsz <= KERNBASE -> kpage kend q -> (q ∉ l) ->
  ~ owned (kmem_mem st) pgdir q ->
  exists st' l', (deallocuvm pgdir newsz oldsz ;;; kfree kend q ;;; ret 0) st = Ret 0 st' /\
    vm_ok st' l' pgdir /\
    evolves (fun p => owned (kmem_mem st) pgdir p \/ p = q) st l (owned (kmem_mem st') pgdir) st' l' /\
    (forall va, uva va -> uview (kmem_mem st') pgdir va =
       if in_range (roundup oldsz) newsz va then None else uview (kmem_mem st) pgdir va).
Proof.
  intros Hvm Hold Hnew Hkq Hql Hqo.
  destruct (deallocuvm_ok pgdir newsz oldsz st l) as (st1 & l1 & Hr1 & Hun); try done.
  pose proof Hun as (Hvm1 & _ & _ & Hl1 & _). pose proof (unmaps_evolves _ _ _ _ _ _ Hun) as He1.
  assert (q ∉ l1) as Hql1.
  { intros [?|(va & e & ? & _ & ? & ->)]%Hl1; [done|]. apply Hqo. right. by exists va, e. }
  assert (~ owned (kmem_mem st1) pgdir q) as Hqo1 by (intros ?; eapply Hqo, unmaps_owned; done).
  destruct (kfree_evolves (fun _ => False) q st1 l1) as (st2 & Hr2 & He2 & Hm2);
    [by eapply vm_ok_free | done..|].
  destruct (bystander _ _ _ _ _ _ pgdir Hvm1 He2) as (Hvm2 & _ & Ho2 & _).
  { intros p [?| ->]; done. }
  exists st2, (q :: l1). split_and!.
  - rewrite (bind_Ret _ _ _ _ _ Hr1). by rewrite (bind_Ret _ _ _ _ _ Hr2).
  - done.
  - eapply evolves_trans; [apply evolves_frame; exact He1|].
    destruct He2 as (Hf & Hp & Hs). split_and!; [done | |].
    + intros p. rewrite Ho2. specialize (Hp p). tauto.
    + eapply same_outside_mono; [|done]. simpl. tauto.
  - intros va Hva. rewrite (bystander_uview _ _ _ _ _ _ pgdir Hvm1 He2); [|by intros p [?| ->]|done].
    by eapply unmaps_uview.
Qed.

Lemma allocuvm_loop_ok fuel pgdir a oldsz newsz st l :
  vm_ok st l pgdir -> 0 <= oldsz -> roundup oldsz <= a -> a mod 4096 = 0 -> newsz < KERNBASE ->
  (forall va, uva va -> in_range a newsz va = true -> uview (kmem_mem st) pgdir va = None) ->
  npages a newsz < Z.of_nat fuel -> (0 < fuel)%nat ->
  exists r st' l', allocuvm_loop fuel pgdir a oldsz newsz st = Ret r st' /\
    vm_ok st' l' pgdir /\
    evolves (owned (kmem_mem st) pgdir) st l (owned (kmem_mem st') pgdir) st' l' /\
    ((r = newsz /\ forall va, uva va -> uview (kmem_mem st') pgdir va =
        if in_range a newsz va then Some (7, 0) else uview (kmem_mem st) pgdir va) \/
     (r = 0 /\ Z.of_nat (length l) < 2 * npages a newsz /\
      forall va, uva va -> uview (kmem_mem st') pgdir va =
        if in_range (roundup oldsz) newsz va then None else uview (kmem_mem st) pgdir va)).
Proof.
  unfold npages. revert a st l.
  induction fuel as [|fuel IH]; intros a st l Hvm Hold Ha Hal Hnew Hun Hf Hf0; [lia|].
  destruct (Z.lt_ge_cases a newsz) as [Hlt|Hge].
  2:{ exists newsz, st, l. cbn [allocuvm_loop]. destruct (Z.ltb_spec a newsz); [lia|].
      split_and!; try done; [by apply evolves_refl; eapply vm_ok_free|]. left. split; [done|].
      intros va Hva. unfold uva in Hva. unfold in_range, pg. zcases; [zlia | done..]. }
  assert (uva a) as Hua by (unfold uva, roundup in *; zlia).
  assert (in_range a newsz a = true) as Hin by (unfold in_range, pg; zcases; zlia).
  destruct (allocuvm_loop_S fuel pgdir a oldsz newsz st l) as
    [(-> & Hr)|[(q & st1 & -> & Hr & Hvm1 & Hkq & Hqo & Hv1 & He1)|
                (st1 & l1 & Hr & Hvm1 & Hlen & He1 & Hv1)]]; try done; [by auto | | |].
  - destruct (deallocuvm_ok pgdir newsz oldsz st []) as (st1 & l1 & Hr1 & Hu1); try done; [lia|].
    exists 0, st1, l1. split_and!.
    + by rewrite Hr, (bind_Ret _ _ _ _ _ Hr1).
    + apply Hu1.
    + by eapply unmaps_evolves.
    + right. split_and!; [done | simpl; zlia |]. intros va Hva. by eapply unmaps_uview.
  - destruct (give_up_page pgdir newsz oldsz q st1 []) as (st2 & l2 & Hr2 & Hvm2 & He2 & Hv2);
      try done; [lia | apply not_elem_of_nil |].
    exists 0, st2, l2. split_and!.
    + by rewrite Hr.
    + done.
    + by eapply evolves_trans.
    + right. split_and!; [done | simpl; zlia |]. intros va Hva. by rewrite Hv2, Hv1.
  - destruct (IH (a + 4096) st1 l1) as (r & st2 & l2 & Hr2 & Hvm2 & He2 & Hcase); try done; try zlia.
    { intros va Hva Hd. rewrite Hv1 by done. unfold in_range, pg in *. unfold uva in *.
      destruct (Z.eqb_spec (va / 4096) (a / 4096)); [zcases_in Hd; zlia|].
      apply Hun; [done|]. zcases_in Hd; zcases. }
    exists r, st2, l2. split_and!; try done.
    + by rewrite Hr.
    + by eapply evolves_trans.
    + destruct Hcase as [(-> & Hv2)|(-> & Hsh & Hv2)]; [left|right]; split_and!; try done; try zlia;
        intros va Hva; rewrite Hv2, Hv1 by done; unfold in_range, pg, uva in *; zcases; zlia || done.
Qed.

(** The undo path restores the view when nothing was mapped above the old size. *)
Lemma allocuvm_ok pgdir oldsz newsz st l :
  vm_ok st l pgdir -> 0 <= oldsz <= newsz -> newsz < KERNBASE ->
  (forall va, uva va -> in_range (roundup oldsz) newsz va = true ->
     uview (kmem_mem st) pgdir va = None) ->
  exists r st' l', allocuvm pgdir oldsz newsz st = Ret r st' /\
    vm_ok st' l' pgdir /\
    evolves (owned (kmem_mem st) pgdir) st l (owned (kmem_mem st') pgdir) st' l' /\
    ((r = newsz /\ forall va, uva va -> uview (kmem_mem st') pgdir va =
        if in_range (roundup oldsz) newsz va then Some (7, 0) else uview (kmem_mem st) pgdir va) \/
     (r = 0 /\ Z.of_nat (length l) < 2 * npages (roundup oldsz) newsz /\
      forall va, uva va -> uview (kmem_mem st') pgdir va = uview (kmem_mem st) pgdir va)).
Proof.
  intros Hvm Hold Hnew Hun. unfold allocuvm. zcases. rewrite PGROUNDUP_eq by lia.
  fold (roundup oldsz).
  destruct (allocuvm_loop_ok (S (Z.to_nat ((newsz - roundup oldsz + 4096 - 1) / 4096))) pgdir
    (roundup oldsz) oldsz newsz st l) as (r & st' & l' & Hr & Hvm' & He & Hcase);
    try done; try (unfold npages, roundup; zlia).
  exists r, st', l'. split_and!; try done.
  destruct Hcase as [?|(? & ? & Hv)]; [by left|]. right. split_and!; try done.
  intros va Hva. rewrite Hv by done. destruct (in_range _ _ va) eqn:E; [|done].
  symmetry. by apply Hun.
Qed.

(** ** setupkvm *)

Definition kmap_size (k : kmap) : Z := u32 (kmap_phys_end k - kmap_phys_start k).
Definition in_kmap (k : kmap) (va : Z) : bool :=
  (kmap_virt k <=? va) && (va <? kmap_virt k + kmap_size k).
(** The entry that a table of mappings asks for. *)
Fixpoint kmaps_pte (ks : list kmap) (va : Z) : option Z :=
  match ks with
  | [] => None
  | k :: ks => if in_kmap k va then Some (run_pte (kmap_virt k) (kmap_phys_start k) (kmap_perm k) va)
               else kmaps_pte ks va
  end.
Definition kmap_wf (k : kmap) : Prop :=
  KERNBASE <= kmap_virt k /\ kmap_virt k mod 4096 = 0 /\ 0 < kmap_size k /\
  kmap_size k mod 4096 = 0 /\ kmap_virt k + kmap_size k <= W32 /\
  0 <= kmap_phys_start k /\ kmap_phys_start k mod 4096 = 0 /\
  kmap_phys_start k + kmap_size k <= W32 /\ 0 <= kmap_perm k < 4096.
Fixpoint kmaps_wf (ks : list kmap) : Prop :=
  match ks with
  | [] => True
  | k :: ks => kmap_wf k /\ kmaps_wf ks /\
               forall va, in_kmap k va = true -> kmaps_pte ks va = None
  end.

(** Entries for kernel addresses leave the user part alone. *)
Lemma vm_ok_grow st l st' l' pgdir :
  vm_ok st l pgdir -> pt_ok kend st' l' pgdir -> pt_grow pgdir st l st' l' ->
  (forall va, uva va -> mapped (kmem_mem st') pgdir va = mapped (kmem_mem st) pgdir va) ->
  vm_ok st' l' pgdir /\
  evolves (owned (kmem_mem st) pgdir) st l (owned (kmem_mem st') pgdir) st' l' /\
  (forall va, uva va -> uview (kmem_mem st') pgdir va = uview (kmem_mem st) pgdir va).
Proof.
  intros (Hpt & Hup & Hinj) Hpt' (used & -> & Ht & Hs) Hm.
  assert (vm_ok st' l' pgdir) as Hvm'.
  { split_and!; [done | |].
    - intros va e Hva. rewrite Hm by done. intros He. destruct (Hup va e Hva He) as (? & Hn & ?).
      rewrite elem_of_app in Hn. rewrite Ht. tauto.
    - intros va va' e e' Hva Hva'. rewrite !Hm by done. by apply Hinj. }
  split_and!; [done | |].
  - split_and!; [by eapply pt_ok_free | |].
    + assert (forall p, upage (kmem_mem st') pgdir p <-> upage (kmem_mem st) pgdir p) as Hu.
      { intros p. split; intros (va & e & Hva & He & ->); exists va, e; rewrite Hm in * by done; done. }
      intros p. unfold owned. rewrite Ht, Hu, elem_of_app. tauto.
    + eapply same_outside_mono; [|done]. intros p. unfold owned. simpl. rewrite elem_of_app. tauto.
  - intros va Hva. eapply uview_same; [exact Hvm' | done | by apply Hm | exact Hs | |].
    + intros p Hp. by apply Hpt', Ht.
    + intros e He. destruct (Hup va e Hva He) as (? & Hn & ?). rewrite elem_of_app in Hn. tauto.
Qed.

(** The entries of a directory for the mappings of the kernel, and the pages that
    a directory with only these can refer to. *)
Definition kernel_index (i : Z) : Prop := 512 <= i < 568 \/ 1016 <= i < 1024.
Definition kernel_pages (m : mem) (pgdir : Z) : list Z := pgdir :: (ptab m pgdir <$> (seqZ 512 56 ++ seqZ 1016 8)).
Definition kernel_only (m : mem) (pgdir : Z) : Prop :=
  no_empty m pgdir /\ forall va, va_ok va -> mapped m pgdir va <> None -> kernel_index (PDX va).

Lemma length_kernel_pages m pgdir : length (kernel_pages m pgdir) = 65%nat.
Proof. unfold kernel_pages. cbn [length]. by rewrite length_fmap, length_app, !length_seqZ. Qed.

Lemma kernel_only_pages m pgdir p :
  (forall va, uva va -> uview m pgdir va = None) -> kernel_only m pgdir -> owned m pgdir p -> p ∈ kernel_pages m pgdir.
Proof.
  intros Hu [Hne Hki] [[->|(i & Hi & HP & ->)]|(va & e & Hva & He & _)].
  - constructor.
  - apply elem_of_cons. right. apply list_elem_of_fmap. exists i. split; [done|]. destruct (Hne i Hi HP) as (va & Hva & <- & Hm).
    apply elem_of_app. rewrite !elem_of_seqZ. destruct (Hki va Hva Hm); [left | right]; lia.
  - apply Hu, uview_None in Hva. congruence.
Qed.
Lemma kernel_only_length st pgdir l l' O :
  NoDup l -> (forall va, uva va -> uview (kmem_mem st) pgdir va = None) -> kernel_only (kmem_mem st) pgdir ->
  (forall p, owned (kmem_mem st) pgdir p \/ p ∈ l' <-> O p \/ p ∈ l) -> (length l <= 65 + length l')%nat.
Proof.
  intros Hnd Hu Hko Hp. rewrite <- (length_kernel_pages (kmem_mem st) pgdir), <- length_app. apply submseteq_length, NoDup_submseteq; [done|].
  intros p Hin. apply elem_of_app. destruct (proj2 (Hp p) (or_intror Hin)) as [Ho|?]; [left; by eapply kernel_only_pages | by right].
Qed.

Lemma setupkvm_loop_ok ks pgdir st l :
  vm_ok st l pgdir -> kmaps_wf ks ->
  (forall va, va_ok va -> kmaps_pte ks va <> None -> mapped (kmem_mem st) pgdir va = None) ->
  (forall va, va_ok va -> kmaps_pte ks va <> None -> kernel_index (PDX va)) -> kernel_only (kmem_mem st) pgdir ->
  (forall va, uva va -> uview (kmem_mem st) pgdir va = None) ->
  exists r st' l', setupkvm_loop ks pgdir st = Ret r st' /\
    ((r = pgdir /\ vm_ok st' l' pgdir /\
      evolves (owned (kmem_mem st) pgdir) st l (owned (kmem_mem st') pgdir) st' l' /\
      (forall va, uva va -> uview (kmem_mem st') pgdir va = None) /\
      (forall va, va_ok va -> mapped (kmem_mem st') pgdir va =
         match kmaps_pte ks va with Some e => Some e | None => mapped (kmem_mem st) pgdir va end) /\
      kernel_only (kmem_mem st') pgdir) \/
     (r = 0 /\ evolves (owned (kmem_mem st) pgdir) st l (fun _ => False) st' l' /\
      exists ts, length ts = 65%nat /\
        forall p, owned (kmem_mem st) pgdir p \/ p ∈ l -> p ∈ ts)).
Proof.
  revert st l. induction ks as [|k ks IH]; intros st l Hvm Hwf Hun Hkk Hko Hu; cbn [setupkvm_loop].
  { exists pgdir, st, l. split; [done|]. left. split_and!; try done.
    apply evolves_refl. by eapply vm_ok_free. }
  destruct Hwf as ((Hv & Hval & Hsz & Hszal & Hvo & Hp & Hpal & Hpo & Hperm) & Hwf & Hdis).
  fold (kmap_size k).
  destruct (mappages_ok kend kend_range pgdir (kmap_virt k) (kmap_size k) (kmap_phys_start k)
    (kmap_perm k) st l) as (r & st1 & l1 & e & Hr & Hpt1 & Hg1 & He & Heal & Hm1 & Hcase & Hne1);
    try done; try lia; try (unfold run_end, run_first; zlia).
  { by apply vm_ok_pt. }
  { intros x Hx. unfold run_first, run_end in Hx. apply Hun; [unfold va_ok; zlia|].
    cbn [kmaps_pte]. unfold in_kmap. zcases; try done; zlia. }
  assert (run_first (kmap_virt k) = kmap_virt k /\
          run_end (kmap_virt k) (kmap_size k) = kmap_virt k + kmap_size k) as [Ef Ee]
    by (unfold run_first, run_end; zlia).
  rewrite Ef, Ee in *.
  destruct (vm_ok_grow st l st1 l1 pgdir) as (Hvm1 & He1 & Hu1); try done.
  { intros va Hva. rewrite Hm1 by by apply uva_ok. unfold uva in Hva. by zcases. }
  assert (kernel_only (kmem_mem st1) pgdir) as Hko1.
  { destruct Hko as [Hne Hki]. split; [auto|]. intros va Hva. rewrite Hm1 by done. destruct (_ && _) eqn:E; [|by apply Hki]. intros _. apply Hkk; [done|].
    cbn [kmaps_pte]. unfold in_kmap. zcases; try done; zcases_in E. }
  rewrite (bind_Ret _ _ _ _ _ Hr). destruct Hcase as [(-> & ->)|(-> & -> & _)]; simpl.
  - destruct (IH st1 l1) as (r & st2 & l2 & Hr2 & Hcase); try done.
    { intros va Hva Hk. rewrite Hm1 by done. fold (in_kmap k va).
      destruct (in_kmap k va) eqn:E; [by rewrite Hdis in Hk by done|].
      apply Hun; [done|]. cbn [kmaps_pte]. by rewrite E. }
    { intros va Hva Hk. apply Hkk; [done|]. cbn [kmaps_pte]. by destruct (in_kmap k va). }
    { intros va Hva. rewrite Hu1 by done. auto. }
    exists r, st2, l2. split; [done|]. destruct Hcase as [(-> & Hvm2 & He2 & Hu2 & Hm2 & Hko2)|(-> & He2 & ts & Hlen & Hts)].
    + left. split_and!; try done; [by eapply evolves_trans|].
      intros va Hva. rewrite Hm2, Hm1 by done. cbn [kmaps_pte]. fold (in_kmap k va).
      destruct (in_kmap k va) eqn:E; [by rewrite Hdis|done].
    + right. split_and!; [done | by eapply evolves_trans |]. exists ts. split; [done|].
      intros p Hp'. apply Hts. by apply He1.
  - destruct (freevm_evolves pgdir st1 [] Hvm1) as (st2 & l2 & Hr2 & He2).
    exists 0, st2, l2. rewrite (bind_Ret _ _ _ _ _ Hr2). split; [done|]. right.
    split_and!; [done | by eapply evolves_trans |].
    exists (kernel_pages (kmem_mem st1) pgdir). split; [apply length_kernel_pages|].
    intros p Hp'. destruct He1 as (_ & Hcons & _). apply Hcons in Hp' as [Ho|?%not_elem_of_nil]; [|done].
    eapply kernel_only_pages; [|exact Hko1 | exact Ho]. intros va Hva. rewrite Hu1 by done. auto.
Qed.

(** A fresh directory. *)
Lemma empty_dir q st l :
  free_inv kend st (q :: l) ->
  let st1 := set_mem (memset (kmem_mem st) q 0 4096) (set_freelist (ld32 (kmem_mem st) q) st) in
  kalloc st = Ret q (set_freelist (ld32 (kmem_mem st) q) st) /\ q <> 0 /\
  vm_ok st1 l q /\ (forall va, va_ok va -> mapped (kmem_mem st1) q va = None) /\
  evolves (fun _ => False) st (q :: l) (owned (kmem_mem st1) q) st1 l /\ kernel_only (kmem_mem st1) q.
Proof.
  intros Hf st1.
  destruct (kalloc_evolves (fun _ => False) q st l (memset (kmem_mem st) q 0 4096)) as
    (Hk & He & Hkq & Hql & Hq0); [done | apply memset_ok; [lia | apply Hf] | apply memset_outside|].
  assert (forall i, 0 <= i < 1024 -> pdeP (kmem_mem st1) q i = false) as Hnp.
  { intros i Hi. unfold pdeP. replace (ld32 (kmem_mem st1) (q + 4 * i)) with 0; [done|].
    unfold ld32, st1. simpl. rewrite !memset_correct by lia. zcases. done. }
  assert (forall p, tpage (kmem_mem st1) q p <-> p = q) as Ht.
  { intros p. split; [|intros ->; apply tpage_dir]. intros [?|(i & Hi & HP & _)]; [done|].
    by rewrite Hnp in HP. }
  assert (forall va, va_ok va -> mapped (kmem_mem st1) q va = None) as Hm.
  { intros va Hva. unfold mapped. by rewrite Hnp by by apply PDX_range. }
  assert (forall p, owned (kmem_mem st1) q p <-> False \/ p = q) as Ho.
  { intros p. unfold owned. rewrite Ht. split; [|by left; tauto].
    intros [?|(va & e & Hva & He' & _)]; [by right|]. by rewrite Hm in He' by by apply uva_ok. }
  split_and!; try done; [| |split].
  - split_and!; [split_and! | |].
    + apply He.
    + by intros p ->%Ht.
    + intros i Hi HP. by rewrite Hnp in HP.
    + intros i j Hi Hj HP. by rewrite Hnp in HP.
    + intros va e Hva. by rewrite Hm by by apply uva_ok.
    + intros va va' e e' Hva Hva'. by rewrite Hm by by apply uva_ok.
  - eapply evolves_ext; [| |exact He]; [done|]. intros p. by rewrite Ho.
  - intros i Hi HP. by rewrite Hnp in HP.
  - intros va Hva []. by apply Hm.
Qed.

(** [data] is page aligned and lies between the kernel's text and its end. *)
Context (Hdata : KERNLINK < kdata < KERNBASE + PHYSTOP) (Hdal : kdata mod 4096 = 0).

Lemma kmap_table_wf : kmaps_wf (kmap_table kdata).
Proof.
  unfold kmap_table. rewrite !V2P_eq by lia. unfold kmaps_wf, kmap_wf, kmaps_pte, in_kmap, kmap_size.
  cbn [kmap_virt kmap_phys_start kmap_phys_end kmap_perm]. unfold PTE_W.
  change (u32 (0 - DEVSPACE)) with 33554432. rewrite !u32_small by lia.
  split_and!; try done; try lia; try zlia; intros va Hva; zcases_in Hva; zcases; done.
Qed.

(** The kernel half of every address space. *)
Definition kernel_pte (va : Z) : option Z :=
  if (KERNBASE <=? va) && (va <? KERNLINK) then Some (Z.lor (pg va - KERNBASE) (Z.lor PTE_W PTE_P))
  else if (KERNLINK <=? va) && (va <? kdata) then Some (Z.lor (pg va - KERNBASE) PTE_P)
  else if (kdata <=? va) && (va <? KERNBASE + PHYSTOP) then
    Some (Z.lor (pg va - KERNBASE) (Z.lor PTE_W PTE_P))
  else if (DEVSPACE <=? va) && (va <? W32) then Some (Z.lor (pg va) (Z.lor PTE_W PTE_P))
  else None.

Lemma kmap_table_pte va : va_ok va -> kmaps_pte (kmap_table kdata) va = kernel_pte va.
Proof.
  intros Hva. unfold va_ok in Hva. unfold kmap_table, kernel_pte. rewrite !V2P_eq by lia.
  unfold kmaps_pte, in_kmap, kmap_size, run_pte, pg.
  cbn [kmap_virt kmap_phys_start kmap_phys_end kmap_perm].
  change (u32 (0 - DEVSPACE)) with 33554432. rewrite !u32_small by lia. rewrite <- !Z.lor_assoc.
  replace (KERNBASE + (EXTMEM - 0)) with KERNLINK by lia.
  replace (KERNLINK + (kdata - KERNBASE - (KERNLINK - KERNBASE))) with kdata by lia.
  replace (kdata + (PHYSTOP - (kdata - KERNBASE))) with (KERNBASE + PHYSTOP) by lia.
  replace (DEVSPACE + 33554432) with W32 by lia.
  zcases; try done; do 2 f_equal; lia.
Qed.

Lemma kernel_pte_index va : va_ok va -> kernel_pte va <> None -> kernel_index (PDX va).
Proof. unfold kernel_pte, va_ok, kernel_index. intros Hva. rewrite PDX_eq by done. zcases; zlia || done. Qed.

Lemma setupkvm_ok st l :
  free_inv kend st l ->
  exists r st' l', setupkvm st = Ret r st' /\
    ((r <> 0 /\ vm_ok st' l' r /\
      evolves (fun _ => False) st l (owned (kmem_mem st') r) st' l' /\
      (forall va, uva va -> uview (kmem_mem st') r va = None) /\
      (forall va, va_ok va -> mapped (kmem_mem st') r va = kernel_pte va) /\ (length l <= 65 + length l')%nat) \/
     (r = 0 /\ evolves (fun _ => False) st l (fun _ => False) st' l' /\ (length l <= 65)%nat)).
Proof.
  intros Hf. unfold setupkvm. destruct l as [|q l].
  { exists 0, st, []. rewrite (bind_Ret _ _ _ _ _ (kalloc_none kend _ Hf)). split; [done|].
    right. split_and!; [done | by apply evolves_refl | simpl; lia]. }
  destruct (empty_dir q st l Hf) as (Hk & Hq0 & Hvm1 & Hm1 & He1 & Hko1). set (st1 := set_mem _ _) in *.
  rewrite (bind_Ret _ _ _ _ _ Hk). destruct (Z.eqb_spec q 0); [done|].
  assert (memset_page q 0 (set_freelist (ld32 (kmem_mem st) q) st) = Ret tt st1) as Hset by done.
  rewrite (bind_Ret _ _ _ _ _ Hset).
  change (panic_if (DEVSPACE <? P2V PHYSTOP) "PHYSTOP too high") with (@ret kst unit tt).
  destruct (setupkvm_loop_ok (kmap_table kdata) q st1 l) as (r & st2 & l2 & Hr & Hcase);
    [done | apply kmap_table_wf | by auto | | done | |].
  { intros va Hva. rewrite kmap_table_pte by done. by apply kernel_pte_index. }
  { intros va Hva. apply uview_None, Hm1. by apply uva_ok. }
  exists r, st2, l2. split; [done|]. destruct Hcase as [(-> & Hvm2 & He2 & Hu2 & Hm2 & Hko2)|(-> & He2 & ts & Hlen & Hts)].
  - pose proof (evolves_trans _ _ _ _ _ _ _ _ _ He1 He2) as Hall. left. split_and!; try done; [|eapply kernel_only_length; [apply Hf | exact Hu2 | exact Hko2 | apply Hall]].
    intros va Hva. rewrite Hm2, Hm1, kmap_table_pte by done. by destruct (kernel_pte va).
  - right. split_and!; [done | by eapply evolves_trans |]. rewrite <- Hlen.
    apply submseteq_length, NoDup_submseteq; [apply Hf|]. intros p Hp. apply Hts.
    apply He1. by right.
Qed.
End uvm.

(** ** A small address space *)

(** A machine with an empty directory at [demo_dir] and two free pages. *)
Definition demo_kend : Z := 2149580800.
Definition demo_dir : Z := 2149584896.
Definition demo_st : kst := KSt (st32 (fun _ => 0) 2149588992 2149593088) 2149588992 true.
Definition demo_free : list Z := [2149588992; 2149593088].

Lemma demo_free_inv : free_inv demo_kend demo_st demo_free.
Proof.
  split_and!.
  - apply st32_ok. intros x. simpl. lia.
  - apply NoDup_cons. split; [rewrite list_elem_of_singleton; lia | apply NoDup_singleton].
  - repeat constructor; unfold demo_kend; try lia; zlia.
  - split; [done|]. simpl. rewrite ld32_st32_eq by lia. split; [done|].
    rewrite ld32_st32_ne by lia. done.
Qed.
Lemma demo_ok :
  vm_ok demo_kend demo_st demo_free demo_dir /\
  (forall va, va_ok va -> mapped (kmem_mem demo_st) demo_dir va = None).
Proof.
  destruct (zero_dir demo_kend demo_dir demo_free true (kmem_mem demo_st) 2149588992) as [Hpt Hm].
  - intros i Hi. unfold demo_st, demo_dir. simpl. rewrite ld32_st32_ne by lia. done.
  - apply demo_free_inv.
  - unfold kpage, demo_dir, demo_kend. zlia.
  - unfold demo_free, demo_dir. rewrite !elem_of_cons, elem_of_nil. lia.
  - split; [|done]. split_and!; [done | |].
    + intros va e Hva. by rewrite Hm by by apply uva_ok.
    + intros va va' e e' Hva _. by rewrite Hm by by apply uva_ok.
Qed.
Lemma demo_empty va : uva va -> uview (kmem_mem demo_st) demo_dir va = None.
Proof. intros Hva. apply uview_None, demo_ok. by apply uva_ok. Qed.

(** ** Properties *)

(** C10: growing an address space.  When nothing is mapped between the old and
    the new size, [allocuvm] either returns the new size, every byte of the new
    pages then being zero and open to the user, or returns 0; in that case what
    the user sees is what it was, and fewer than two pages for each page asked
    for were free.  Other addresses keep their bytes and flags.  Pages move only
    between the space and the free list and none is lost.  A size in kernel
    space is refused, and a smaller size is a no-op. *)
Theorem allocuvm_grows_or_undoes (kend pgdir oldsz newsz : Z) (st : kst) (l : list Z) :
  KERNLINK <= kend < KERNBASE + PHYSTOP -> vm_ok kend st l pgdir -> 0 <= oldsz -> 0 <= newsz ->
  (forall va, uva va -> in_range (roundup oldsz) newsz va = true ->
     uview (kmem_mem st) pgdir va = None) ->
  if KERNBASE <=? newsz then allocuvm kend pgdir oldsz newsz st = Ret 0 st
  else if newsz <? oldsz then allocuvm kend pgdir oldsz newsz st = Ret oldsz st
  else
    exists r st' l', allocuvm kend pgdir oldsz newsz st = Ret r st' /\
      vm_ok kend st' l' pgdir /\ conserved pgdir st l st' l' /\
      ((r = newsz /\ forall va, uva va -> uview (kmem_mem st') pgdir va =
          if in_range (roundup oldsz) newsz va then Some (Z.lor PTE_P (Z.lor PTE_W PTE_U), 0)
          else uview (kmem_mem st) pgdir va) \/
       (r = 0 /\ Z.of_nat (length l) < 2 * npages (roundup oldsz) newsz /\
        forall va, uva va -> uview (kmem_mem st') pgdir va = uview (kmem_mem st) pgdir va)).
Proof.
  intros Hk Hvm Hold Hnew Hun. destruct (Z.leb_spec KERNBASE newsz).
  { unfold allocuvm. by zcases. }
  destruct (Z.ltb_spec newsz oldsz); [unfold allocuvm; by zcases|].
  destruct (allocuvm_ok kend Hk pgdir oldsz newsz st l) as (r & st' & l' & Hr & Hvm' & He & Hcase);
    try done.
  exists r, st', l'. split_and!; try done. intros p. apply He.
Qed.
Lemma allocuvm_grows_or_undoes_witness :
  exists st' l', allocuvm demo_kend demo_dir 0 4096 demo_st = Ret 4096 st' /\
    vm_ok demo_kend st' l' demo_dir /\ uview (kmem_mem st') demo_dir 17 = Some (7, 0).
Proof.
  destruct (allocuvm_grows_or_undoes demo_kend demo_dir 0 4096 demo_st demo_free) as
    (r & st' & l' & Hr & Hvm & _ & Hcase);
    [unfold demo_kend; lia | apply demo_ok | lia | lia | intros; by apply demo_empty |].
  destruct Hcase as [(-> & Hv)|(_ & Hl & _)]; [|exfalso; vm_compute in Hl; discriminate].
  exists st', l'. split; [exact Hr|]. split; [exact Hvm|]. rewrite Hv by (unfold uva; lia). reflexivity.
Defined.

(** Shrinking an address space.  [deallocuvm] always returns, unmaps exactly
    the pages that start at or above the rounded-up new size and below the old
    size, absent page tables included, gives their frames to the free list, and
    leaves every other address of the space and every page it does not hold
    alone. *)
Theorem deallocuvm_unmaps_range (kend pgdir oldsz newsz : Z) (st : kst) (l : list Z) :
  KERNLINK <= kend < KERNBASE + PHYSTOP -> vm_ok kend st l pgdir ->
  0 <= newsz -> oldsz <= KERNBASE ->
  exists st' l', deallocuvm kend pgdir oldsz newsz st = Ret (Z.min oldsz newsz) st' /\
    vm_ok kend st' l' pgdir /\ conserved pgdir st l st' l' /\
    (forall va, uva va -> uview (kmem_mem st') pgdir va =
       if in_range (roundup newsz) oldsz va then None else uview (kmem_mem st) pgdir va) /\
    (forall p, p ∈ l' <-> p ∈ l \/
       exists va e, uva va /\ in_range (roundup newsz) oldsz va = true /\
         mapped (kmem_mem st) pgdir va = Some e /\ p = frame e) /\
    same_outside (owned (kmem_mem st) pgdir) (kmem_mem st) (kmem_mem st').
Proof.
  intros Hk Hvm Hnew Hold.
  destruct (deallocuvm_ok kend Hk pgdir oldsz newsz st l) as (st' & l' & Hr & Hun); try done.
  exists st', l'. split_and!; try done.
  - apply Hun.
  - by eapply unmaps_conserved.
  - intros va Hva. by eapply unmaps_uview.
  - apply Hun.
  - by eapply unmaps_outside.
Qed.
Lemma deallocuvm_unmaps_range_witness :
  exists st' l', deallocuvm demo_kend demo_dir 8192 100 demo_st = Ret 100 st' /\
    vm_ok demo_kend st' l' demo_dir.
Proof.
  destruct (deallocuvm_unmaps_range demo_kend demo_dir 8192 100 demo_st demo_free) as
    (st' & l' & Hr & Hvm & _); [unfold demo_kend; lia | apply demo_ok | lia | lia |].
  exists st', l'. split; [exact Hr | exact Hvm].
Defined.

(** C20: [freevm] gives back everything.  It never panics on a well-formed space,
    and the free list afterwards is the old one plus exactly the pages the space
    held: its user frames, its page tables and its directory. *)
Theorem freevm_returns_everything (kend pgdir : Z) (st : kst) (l : list Z) :
  KERNLINK <= kend < KERNBASE + PHYSTOP -> vm_ok kend st l pgdir ->
  exists st' l', freevm kend pgdir st = Ret tt st' /\ free_inv kend st' l' /\
    (forall p, p ∈ l' <-> p ∈ l \/ owned (kmem_mem st) pgdir p) /\
    same_outside (owned (kmem_mem st) pgdir) (kmem_mem st) (kmem_mem st').
Proof. intros Hk Hvm. by apply freevm_ok. Qed.
Lemma freevm_returns_everything_witness :
  exists st' (l' : list Z), freevm demo_kend demo_dir demo_st = Ret tt st' /\ demo_dir ∈ l'.
Proof.
  destruct (freevm_returns_everything demo_kend demo_dir demo_st demo_free) as
    (st' & l' & Hr & _ & Hl & _); [unfold demo_kend; lia | apply demo_ok |].
  exists st', l'. split; [exact Hr|]. apply Hl. right. left. by left.
Defined.

(** Every address space has the same kernel half.  [setupkvm] builds an
    empty user half and, above [KERNBASE], exactly the kernel's mappings: low
    memory and data writable, text read-only, devices mapped to themselves, none
    of them open to the user.  If memory runs out it frees what it took and
    returns 0, which 66 free pages rule out. *)
Theorem setupkvm_maps_kernel (kend kdata : Z) (st : kst) (l : list Z) :
  KERNLINK <= kend < KERNBASE + PHYSTOP ->
  KERNLINK < kdata < KERNBASE + PHYSTOP -> kdata mod 4096 = 0 -> free_inv kend st l ->
  exists r st' l', setupkvm kend kdata st = Ret r st' /\ free_inv kend st' l' /\
    same_outside (fun p => p ∈ l) (kmem_mem st) (kmem_mem st') /\
    ((r <> 0 /\ vm_ok kend st' l' r /\
      (forall p, owned (kmem_mem st') r p \/ p ∈ l' <-> p ∈ l) /\
      (forall va, uva va -> uview (kmem_mem st') r va = None) /\
      (forall va, va_ok va -> mapped (kmem_mem st') r va = kernel_pte kdata va)) \/
     (r = 0 /\ (forall p, p ∈ l' <-> p ∈ l) /\ (length l <= 65)%nat)).
Proof.
  intros Hk Hd Hdal Hf.
  destruct (setupkvm_ok kend kdata Hk Hd Hdal st l Hf) as (r & st' & l' & Hr & Hcase).
  exists r, st', l'. destruct Hcase as [(? & ? & (? & Hp & Hs) & ? & ? & _)|(? & (? & Hp & Hs) & ?)].
  all: split_and!; try done; [eapply same_outside_mono; [|exact Hs]; tauto|].
  - left. split_and!; try done. intros p. rewrite Hp. tauto.
  - right. split_and!; try done. intros p. specialize (Hp p). tauto.
Qed.
Lemma setupkvm_maps_kernel_witness :
  exists r st' l', setupkvm demo_kend 2148536320 demo_st = Ret r st' /\ free_inv demo_kend st' l'.
Proof.
  destruct (setupkvm_maps_kernel demo_kend 2148536320 demo_st demo_free) as (r & st' & l' & Hr & Hf & _);
    [unfold demo_kend; lia | lia | reflexivity | apply demo_free_inv |].
  exists r, st', l'. split; [exact Hr | exact Hf].
Defined.
