(* ===== verification/UvmCopy.v ===== *)
(** * Copying address spaces (vm.c: inituvm, clearpteu, copyuvm, uva2ka, copyout)

    The operations that fill a user address space: the first process's code,
    the copy that [fork] makes, and the writes of [exec] through another
    process's table.  Their effect is stated on what a user program sees
    ([uview]). *)

From S2P Require Import Prelude Mem CString Mmu Kalloc PageTable Uvm.
#[local] Open Scope Z_scope.

Section uvmcopy.
(** Linker symbols of kernel.ld: the end of the kernel and the start of its
    writable data. *)
Context (kend kdata : Z).

(** Copies the [sz] bytes of [init], which lie outside the allocator's pages. *)
Definition inituvm (pgdir init sz : Z) : M kst unit :=
  panic_if (PGSIZE <=? sz) "inituvm: more than a page" ;;;
  mem <- kalloc ;;
  memset_page mem 0 ;;;
  mappages pgdir 0 PGSIZE (V2P mem) (Z.lor PTE_W PTE_U) ;;;
  modify (fun st => set_mem (memmove (kmem_mem st) mem init sz) st).

Definition clearpteu (pgdir uva : Z) : M kst unit :=
  pte <- walkpgdir pgdir uva false ;;
  panic_if (pte =? 0) "clearpteu" ;;;
  e <- load32 pte ;;
  store32 pte (Z.land e (u32 (Z.lnot PTE_U))).

Fixpoint copyuvm_loop (fuel : nat) (pgdir d i sz : Z) : M kst Z :=
  match fuel with
  | O => diverge
  | S fuel =>
      if i <? sz then
        pte <- walkpgdir pgdir i false ;;
        panic_if (pte =? 0) "copyuvm: pte should exist" ;;;
        e <- load32 pte ;;
        panic_if (negb (has PTE_P e)) "copyuvm: page not present" ;;;
        let pa := PTE_ADDR e in
        let flags := PTE_FLAGS e in
        mem <- kalloc ;;
        if mem =? 0 then freevm kend d ;;; ret 0
        else
          modify (fun st => set_mem (memmove (kmem_mem st) mem (P2V pa) PGSIZE) st) ;;;
          r <- mappages d i PGSIZE (V2P mem) flags ;;
          if r <? 0 then kfree kend mem ;;; freevm kend d ;;; ret 0
          else copyuvm_loop fuel pgdir d (u32 (i + PGSIZE)) sz
      else ret d
  end.
Definition copyuvm (pgdir sz : Z) : M kst Z :=
  d <- setupkvm kend kdata ;;
  if d =? 0 then ret 0
  else copyuvm_loop (S (Z.to_nat ((sz + PGSIZE - 1) / PGSIZE))) pgdir d 0 sz.

(** The entry is read through the pointer [walkpgdir] returns, null or not. *)
Definition uva2ka (pgdir uva : Z) : M kst Z :=
  pte <- walkpgdir pgdir uva false ;;
  e <- load32 pte ;;
  if negb (has PTE_P e) then ret 0
  else if negb (has PTE_U e) then ret 0
  else ret (P2V (PTE_ADDR e)).

(** Each round copies up to the end of a page, so the pages that [len] bytes
    can touch bound the rounds. *)
Fixpoint copyout_loop (fuel : nat) (pgdir va buf len : Z) : M kst Z :=
  match fuel with
  | O => diverge
  | S fuel =>
      if 0 <? len then
        let va0 := PGROUNDDOWN va in
        pa0 <- uva2ka pgdir va0 ;;
        if pa0 =? 0 then ret (-1)
        else
          let n := PGSIZE - (va - va0) in
          let n := if len <? n then len else n in
          modify (fun st => set_mem (memmove (kmem_mem st) (pa0 + (va - va0)) buf n) st) ;;;
          copyout_loop fuel pgdir (u32 (va0 + PGSIZE)) (buf + n) (len - n)
      else ret 0
  end.
Definition copyout (pgdir va p len : Z) : M kst Z :=
  copyout_loop (S (Z.to_nat (len / PGSIZE + 2))) pgdir va p len.

Context (Hkend : KERNLINK <= kend < KERNBASE + PHYSTOP).

Lemma lor_P_flags e : has PTE_P e = true -> Z.lor (PTE_FLAGS e) PTE_P = PTE_FLAGS e.
Proof using.
  rewrite has_P, PTE_FLAGS_eq. intros Ho. apply Z.odd_spec in Ho as [k Hk].
  assert (exists j, e mod 4096 = 2 * j + 1 /\ 0 <= j) as (j & -> & Hj)
    by (exists (k - e / 4096 * 2048); zlia).
  rewrite Z.lor_comm. destruct j; [done | done | lia].
Qed.

Lemma uview_mapped m pgdir va : uview m pgdir va <> None -> exists e, mapped m pgdir va = Some e.
Proof using. unfold uview. destruct (mapped m pgdir va); [eauto | done]. Qed.

Lemma memmove_outside m q src :
  mem_ok m -> same_outside (eq q) m (memmove m q src 4096).
Proof using.
  intros Hok x Hx. specialize (Hx q eq_refl). unfold in_page in Hx.
  rewrite memmove_correct by (done || lia). by zcases.
Qed.

(** The [bad] exit with a page in hand. *)
Lemma copy_bad_page d q st l :
  vm_ok kend st l d -> kpage kend q -> (q ∉ l) -> ~ owned (kmem_mem st) d q ->
  exists st' l', (kfree kend q ;;; freevm kend d ;;; ret 0) st = Ret 0 st' /\
    evolves kend (fun p => owned (kmem_mem st) d p \/ p = q) st l (fun _ => False) st' l'.
Proof.
  intros Hvm Hk Hq Ho.
  destruct (kfree_evolves kend Hkend (fun _ => False) q st l) as (st1 & Hr1 & He1 & _);
    [by eapply vm_ok_free | done..|].
  destruct (bystander kend _ _ _ _ _ _ d Hvm He1) as (Hvm1 & _ & Ho1 & _).
  { by intros p [?| ->]. }
  destruct (freevm_evolves kend Hkend d st1 (q :: l) Hvm1) as (st2 & l2 & Hr2 & He2).
  exists st2, l2. rewrite (bind_Ret _ _ _ _ _ Hr1), (bind_Ret _ _ _ _ _ Hr2). split; [done|].
  eapply evolves_trans; [|exact He2]. destruct He1 as (Hf & Hp & Hs). split_and!; [done | |].
  - intros p. rewrite Ho1. specialize (Hp p). tauto.
  - eapply same_outside_mono; [|done]. simpl. tauto.
Qed.

(** The two spaces of a copy. *)
Definition apart (m : mem) (pgdir d : Z) : Prop := forall p, owned m d p -> ~ owned m pgdir p.

Lemma apart_holds st l pgdir d :
  vm_ok kend st l d -> apart (kmem_mem st) pgdir d ->
  forall p, owned (kmem_mem st) d p -> kpage kend p /\ ~ owned (kmem_mem st) pgdir p.
Proof. intros Hd Ha p Hp. split; [by eapply vm_ok_owned | by apply Ha]. Qed.

(** The lookup at the start of a round finds the parent's entry. *)
Lemma copyuvm_loop_walk fuel pgdir d i sz st l e :
  vm_ok kend st l pgdir -> uva i -> i < sz -> mapped (kmem_mem st) pgdir i = Some e ->
  copyuvm_loop (S fuel) pgdir d i sz st =
    (mem <- kalloc ;;
     if mem =? 0 then freevm kend d ;;; ret 0
     else
       modify (fun st => set_mem (memmove (kmem_mem st) mem (frame e) PGSIZE) st) ;;;
       r <- mappages d i PGSIZE (V2P mem) (PTE_FLAGS e) ;;
       if r <? 0 then kfree kend mem ;;; freevm kend d ;;; ret 0
       else copyuvm_loop fuel pgdir d (u32 (i + PGSIZE)) sz) st.
Proof.
  intros Hvp Hi Hlt He. destruct (mapped_walk _ _ _ _ He) as (HP & HPe & Hld). cbn [copyuvm_loop].
  destruct (Z.ltb_spec i sz); [|lia]. rewrite (bind_Ret _ _ _ _ _ (walkpgdir_noalloc pgdir i st)), HP.
  pose proof (pt_ok_entry_pos kend (kend_range _ Hkend) _ _ _ _ (vm_ok_pt _ _ _ _ Hvp) (uva_ok _ Hi) HP).
  unfold panic_if. destruct (Z.eqb_spec (ptab (kmem_mem st) pgdir (PDX i) + 4 * PTX i) 0); [lia|].
  unfold bind at 1, ret at 1. unfold bind at 1, load32, gets. by rewrite Hld, HPe.
Qed.

(** One round copies a page, or gives up with everything freed. *)
Lemma copyuvm_loop_S fuel pgdir d i sz st l :
  vm_ok kend st l pgdir -> vm_ok kend st l d -> apart (kmem_mem st) pgdir d ->
  uva i -> i mod 4096 = 0 -> i < sz ->
  uview (kmem_mem st) pgdir i <> None -> uview (kmem_mem st) d i = None ->
  (exists st' l', copyuvm_loop (S fuel) pgdir d i sz st = Ret 0 st' /\ (length l < 2)%nat /\
     evolves kend (owned (kmem_mem st) d) st l (fun _ => False) st' l') \/
  (exists st' l', copyuvm_loop (S fuel) pgdir d i sz st = copyuvm_loop fuel pgdir d (i + 4096) sz st' /\
     vm_ok kend st' l' d /\ (length l <= S (S (length l')))%nat /\
     evolves kend (owned (kmem_mem st) d) st l (owned (kmem_mem st') d) st' l' /\
     (forall va, KERNBASE <= va < W32 -> mapped (kmem_mem st') d va = mapped (kmem_mem st) d va) /\
     (forall va, uva va -> uview (kmem_mem st') d va =
        if va / 4096 =? i / 4096 then uview (kmem_mem st) pgdir va
        else uview (kmem_mem st) d va)).
Proof.
  intros Hvp Hvd Hap Hi Hial Hlt Hpar Hchd. destruct (uview_mapped _ _ _ Hpar) as [e He].
  rewrite (copyuvm_loop_walk fuel pgdir d i sz st l e) by done.
  pose proof (pt_ok_mem _ _ _ _ (vm_ok_pt _ _ _ _ Hvp)) as Hok.
  destruct l as [|q l].
  { left. destruct (freevm_evolves kend Hkend d st [] Hvd) as (st1 & l1 & Hr1 & He1).
    rewrite (bind_Ret _ _ _ _ _ (kalloc_none kend _ (vm_ok_free _ _ _ _ Hvd))).
    exists st1, l1. simpl. rewrite (bind_Ret _ _ _ _ _ Hr1). split_and!; [done | lia | done]. }
  destruct (take_page kend Hkend d q l st (memmove (kmem_mem st) q (frame e) 4096)) as
    (Hk & Hq0 & Hvm1 & Hkq & Hql & Hqo & Hm1 & Hv1 & He1);
    [done | by apply memmove_ok | by apply memmove_outside|].
  set (st1 := set_mem _ _) in *. rewrite (bind_Ret _ _ _ _ _ Hk). destruct (Z.eqb_spec q 0); [done|].
  assert (modify (fun st => set_mem (memmove (kmem_mem st) q (frame e) 4096) st)
    (set_freelist (ld32 (kmem_mem st) q) st) = Ret tt st1) as Hmv by done.
  rewrite (bind_Ret _ _ _ _ _ Hmv). clear Hmv.
  destruct (vm_map_page kend Hkend d i q (PTE_FLAGS e) st1 l) as
    [(Hr & ->)|(st2 & l2 & Hr & Hvm2 & Hlen & He2 & Hm2 & Hc2)]; try done.
  { rewrite PTE_FLAGS_eq. zlia. }
  { rewrite Hm1 by by apply uva_ok. by apply uview_None. }
  - left. destruct (copy_bad_page d q st1 []) as (st2 & l2 & Hr2 & He2); try done.
    exists st2, l2. rewrite (bind_Ret _ _ _ _ _ Hr). split_and!; [done | simpl; lia |].
    by eapply evolves_trans.
  - right. exists st2, l2. rewrite (bind_Ret _ _ _ _ _ Hr). unfold uva in Hi.
    rewrite u32_small by lia. split_and!; [done | done | simpl; lia | by eapply evolves_trans | |].
    + intros va Hva. rewrite Hm2, Hm1 by (unfold va_ok; lia).
      destruct (Z.eqb_spec (va / 4096) (i / 4096)); [zlia|done].
    + intros va Hva.
      rewrite (map_page_uview kend Hkend d i q (PTE_FLAGS e) st1 st2 Hm2 Hc2 Hkq
        ltac:(rewrite PTE_FLAGS_eq; zlia) va Hva).
      destruct (Z.eqb_spec (va / 4096) (i / 4096)) as [E|E]; [|by apply Hv1].
      assert (mapped (kmem_mem st) pgdir va = Some e) as Heva.
      { rewrite <- He. unfold mapped, pte_at.
        apply vpn_eq in E as [-> ->]; [done | by apply uva_ok | by apply uva_ok]. }
      destruct (mapped_walk _ _ _ _ He) as (_ & HPe & _).
      unfold uview. rewrite Heva, lor_P_flags by done. do 2 f_equal. unfold st1. cbn [kmem_mem set_mem].
      rewrite memmove_correct by (done || lia). zcases; [f_equal; lia | zlia | zlia].
Qed.

Lemma copyuvm_loop_ok fuel pgdir d i sz st l :
  vm_ok kend st l pgdir -> vm_ok kend st l d -> apart (kmem_mem st) pgdir d ->
  0 <= i -> i mod 4096 = 0 -> sz <= KERNBASE ->
  (forall va, uva va -> in_range i sz va = true -> uview (kmem_mem st) pgdir va <> None) ->
  (forall va, uva va -> in_range i sz va = true -> uview (kmem_mem st) d va = None) ->
  npages i sz < Z.of_nat fuel -> (0 < fuel)%nat ->
  exists r st' l', copyuvm_loop fuel pgdir d i sz st = Ret r st' /\
    ((r = d /\ vm_ok kend st' l' d /\
      evolves kend (owned (kmem_mem st) d) st l (owned (kmem_mem st') d) st' l' /\
      (forall va, KERNBASE <= va < W32 -> mapped (kmem_mem st') d va = mapped (kmem_mem st) d va) /\
      (forall va, uva va -> uview (kmem_mem st') d va =
         if in_range i sz va then uview (kmem_mem st) pgdir va else uview (kmem_mem st) d va)) \/
     (r = 0 /\ evolves kend (owned (kmem_mem st) d) st l (fun _ => False) st' l' /\
      Z.of_nat (length l) < 2 * npages i sz)).
Proof.
  unfold npages. revert i st l.
  induction fuel as [|fuel IH]; intros i st l Hvp Hvd Hap Hi Hial Hsz Hpar Hchd Hf Hf0; [lia|].
  destruct (Z.lt_ge_cases i sz) as [Hlt|Hge].
  2:{ exists d, st, l. cbn [copyuvm_loop]. destruct (Z.ltb_spec i sz); [lia|].
      split; [done|]. left. split_and!; try done; [by apply evolves_refl; eapply vm_ok_free|].
      intros va Hva. unfold uva in Hva. unfold in_range, pg. zcases; [zlia | done..]. }
  assert (uva i) as Hui by (unfold uva; lia).
  assert (in_range i sz i = true) as Hin by (unfold in_range, pg; zcases; zlia).
  destruct (copyuvm_loop_S fuel pgdir d i sz st l) as
    [(st1 & l1 & Hr & Hlen & He1)|(st1 & l1 & Hr & Hvd1 & Hlen & He1 & Hk1 & Hv1)]; try done; try by auto.
  { exists 0, st1, l1. split; [done|]. right. split_and!; [done | done | zlia]. }
  pose proof (apart_holds _ _ _ _ Hvd Hap) as Hholds.
  destruct (bystander kend _ _ _ _ _ _ pgdir Hvp He1 Hholds) as (Hvp1 & _ & _ & _ & Hap1).
  pose proof (bystander_uview kend _ _ _ _ _ _ pgdir Hvp He1 Hholds) as Hu1.
  destruct (IH (i + 4096) st1 l1) as (r & st2 & l2 & Hr2 & Hcase); try done; try zlia.
  { intros p Hp. by apply Hap1. }
  1, 2: intros va Hva Hd; rewrite ?Hu1, ?Hv1 by done; unfold in_range, pg, uva in *;
    assert (va / 4096 <> i / 4096) by (zcases_in Hd; zlia);
    try (destruct (Z.eqb_spec (va / 4096) (i / 4096)); [done|]);
    (apply Hpar || apply Hchd); [done|]; zcases_in Hd; zcases.
  exists r, st2, l2. split; [by rewrite Hr|].
  destruct Hcase as [(-> & Hvd2 & He2 & Hk2 & Hv2)|(-> & He2 & Hl2)]; [left|right]; split_and!; try done.
  - by eapply evolves_trans.
  - intros va Hva. by rewrite Hk2, Hk1.
  - intros va Hva. rewrite Hv2, Hu1, Hv1 by done. unfold in_range, pg, uva in *.
    zcases; zlia || done.
  - by eapply evolves_trans.
  - zlia.
Qed.

(** ** Writing to a user page *)

(** Writes inside the frame of a user page change no table. *)
Lemma vm_write pgdir a e st l m' :
  vm_ok kend st l pgdir -> uva a -> mapped (kmem_mem st) pgdir a = Some e ->
  mem_ok m' -> same_outside (eq (frame e)) (kmem_mem st) m' ->
  vm_ok kend (set_mem m' st) l pgdir /\
  (forall va, va_ok va -> mapped m' pgdir va = mapped (kmem_mem st) pgdir va) /\
  (forall p, owned m' pgdir p <-> owned (kmem_mem st) pgdir p) /\
  (forall va, uva va -> uview m' pgdir va =
     if va / 4096 =? a / 4096 then Some (PTE_FLAGS e, m' (frame e + va mod 4096))
     else uview (kmem_mem st) pgdir va).
Proof.
  intros Hvm Ha He Hok Hso. pose proof Hvm as (Hpt & Hup & Hinj).
  destruct (Hup a e Ha He) as (Hkf & Hfl & Hft).
  destruct (pt_ok_outside kend (eq (frame e)) st l (set_mem m' st) l pgdir) as (Hpt' & _ & Hm & Ht);
    try done.
  { eapply free_inv_outside; [by eapply vm_ok_free | done..|]. by intros p <-. }
  { by intros p <-. }
  { intros p Hp Htp. by destruct (proj1 (proj2 Hpt) p Htp). }
  cbn [kmem_mem set_mem] in *.
  assert (vm_ok kend (set_mem m' st) l pgdir) as Hvm'.
  { split_and!; [done | |]; cbn [kmem_mem set_mem].
    - intros va e' Hva. rewrite Hm by by apply uva_ok. intros He'. rewrite Ht. by apply (Hup va).
    - intros va va' e1 e2 Hva Hva'. rewrite !Hm by by apply uva_ok. by apply Hinj. }
  split_and!; try done.
  - intros p. unfold owned. rewrite Ht. f_equiv. unfold upage.
    split; intros (va & e' & Hva & He' & ->); exists va, e'; rewrite Hm in * by (by apply uva_ok); done.
  - intros va Hva. destruct (Z.eqb_spec (va / 4096) (a / 4096)) as [E|E].
    + unfold uview. rewrite Hm by by apply uva_ok. replace (mapped (kmem_mem st) pgdir va) with (Some e);
        [done|]. rewrite <- He. unfold mapped, pte_at.
      apply vpn_eq in E as [-> ->]; [done | by apply uva_ok | by apply uva_ok].
    + eapply (uview_same kend _ (set_mem m' st)); [exact Hvm' | done | by apply Hm, uva_ok | exact Hso | |].
      * by intros p <-.
      * intros e' He' Hf. by apply E, (Hinj va a e' e).
Qed.

(** [clearpteu] takes the page away from the user and changes nothing else. *)
Lemma clear_U e : 
  PTE_ADDR (Z.land e (u32 (Z.lnot PTE_U))) = PTE_ADDR e /\
  PTE_FLAGS (Z.land e (u32 (Z.lnot PTE_U))) = Z.ldiff (PTE_FLAGS e) PTE_U /\
  has PTE_P (Z.land e (u32 (Z.lnot PTE_U))) = has PTE_P e.
Proof using.
  unfold PTE_ADDR, PTE_FLAGS, has. change (u32 (Z.lnot PTE_U)) with 4294967291.
  rewrite <- !Z.land_assoc. split_and!; [done | | done].
  change 4095 with (Z.ones 12). rewrite Z.ldiff_land, <- Z.land_assoc. done.
Qed.

Lemma clearpteu_ok pgdir a st l :
  vm_ok kend st l pgdir -> uva a -> uview (kmem_mem st) pgdir a <> None ->
  exists st', clearpteu pgdir a st = Ret tt st' /\ vm_ok kend st' l pgdir /\
    (forall p, owned (kmem_mem st') pgdir p <-> owned (kmem_mem st) pgdir p) /\
    (forall va, uva va -> uview (kmem_mem st') pgdir va =
       match uview (kmem_mem st) pgdir va with
       | Some (flags, b) => Some (if va / 4096 =? a / 4096 then Z.ldiff flags PTE_U else flags, b)
       | None => None
       end).
Proof.
  intros Hvm Ha Hv. destruct (uview_mapped _ _ _ Hv) as [e He]. pose proof Hvm as (Hpt & Hup & Hinj).
  destruct (mapped_walk _ _ _ _ He) as (HP & HPe & Hld). destruct (clear_U e) as (Ca & Cf & Cp).
  pose proof (mapped_range _ _ _ _ _ _ Hpt He) as Her. set (e' := Z.land e _) in *.
  assert (0 <= e' < W32) as He'.
  { unfold e'. change (u32 (Z.lnot PTE_U)) with 4294967291. split; [apply Z.land_nonneg; lia|].
    destruct (Z.eq_dec e 0) as [->|]; [done|]. apply (Z.log2_lt_cancel _ W32).
    eapply Z.le_lt_trans; [apply Z.log2_land; lia|]. change (Z.log2 W32) with 32.
    apply Z.min_lt_iff. right. done. }
  destruct (set_pte kend st l pgdir a e') as (Hpt' & Hm & Ht & _ & Hso); try done; [by apply uva_ok|].
  set (m' := st32 _ _ _) in *. rewrite Cp, HPe in Hm.
  assert (forall va, uva va -> va / 4096 = a / 4096 -> mapped (kmem_mem st) pgdir va = Some e) as Hsame.
  { intros va Hva E. rewrite <- He. unfold mapped, pte_at.
    apply vpn_eq in E as [-> ->]; [done | by apply uva_ok | by apply uva_ok]. }
  assert (frame e' = frame e) as Hfr by (unfold frame; by rewrite Ca).
  assert (forall va e1, uva va -> mapped m' pgdir va = Some e1 ->
    exists e0, mapped (kmem_mem st) pgdir va = Some e0 /\ frame e1 = frame e0) as Hback.
  { intros va e1 Hva. rewrite Hm by by apply uva_ok. destruct (Z.eqb_spec (va / 4096) (a / 4096)); [|by eauto].
    intros [= <-]. exists e. auto. }
  exists (set_mem m' st). split_and!; cbn [kmem_mem set_mem].
  - unfold clearpteu. rewrite (bind_Ret _ _ _ _ _ (walkpgdir_noalloc pgdir a st)), HP.
    pose proof (pt_ok_entry_pos kend (kend_range _ Hkend) _ _ _ _ Hpt (uva_ok _ Ha) HP).
    unfold panic_if. destruct (Z.eqb_spec (ptab (kmem_mem st) pgdir (PDX a) + 4 * PTX a) 0); [lia|].
    unfold bind at 1, ret. unfold bind, load32, gets. by rewrite Hld.
  - split_and!; [done | |]; cbn [kmem_mem set_mem].
    + intros va e1 Hva H1. destruct (Hback va e1 Hva H1) as (e0 & H0 & ->). rewrite Ht. by apply (Hup va).
    + intros va va' e1 e2 Hva Hva' H1 H2. destruct (Hback va e1 Hva H1) as (e0 & H0 & ->).
      destruct (Hback va' e2 Hva' H2) as (e3 & H3 & ->). by apply Hinj.
  - intros p. unfold owned. rewrite Ht. f_equiv. split; intros (va & e1 & Hva & H1 & ->).
    + destruct (Hback va e1 Hva H1) as (e0 & H0 & ->). by exists va, e0.
    + exists va. rewrite Hm by by apply uva_ok. destruct (Z.eqb_spec (va / 4096) (a / 4096)) as [E|].
      * exists e'. rewrite Hfr. rewrite (Hsame va Hva E) in H1. by injection H1 as ->.
      * by exists e1.
  - intros va Hva. unfold uview. rewrite Hm by by apply uva_ok.
    assert (forall e0, mapped (kmem_mem st) pgdir va = Some e0 ->
      m' (frame e0 + va mod 4096) = kmem_mem st (frame e0 + va mod 4096)) as Hbyte.
    { intros e0 H0. destruct (Hup va e0 Hva H0) as (? & ? & Hnt).
      assert (tpage (kmem_mem st) pgdir (ptab (kmem_mem st) pgdir (PDX a))) as Htt
        by (apply tpage_tab; [by apply PDX_range, uva_ok | done]).
      eapply same_outside_page; [exact Hso | | done | | apply frame_byte].
      - intros q <-. by apply Hpt.
      - intros Heq. by rewrite Heq in Htt. }
    destruct (Z.eqb_spec (va / 4096) (a / 4096)) as [E|E].
    + rewrite (Hsame va Hva E), Cf, Hfr, Hbyte by auto. done.
    + destruct (mapped (kmem_mem st) pgdir va) eqn:E1; [|done]. by rewrite Hbyte.
Qed.

(** ** uva2ka and copyout *)

(** The page of [va] is mapped for the user. *)
Definition user_ok (m : mem) (pgdir va : Z) : bool :=
  match mapped m pgdir va with Some e => has PTE_U e | None => false end.

Lemma uva2ka_ok pgdir a st :
  pdeP (kmem_mem st) pgdir (PDX a) = true ->
  uva2ka pgdir a st =
    Ret (match mapped (kmem_mem st) pgdir a with
         | Some e => if has PTE_U e then frame e else 0
         | None => 0
         end) st.
Proof using.
  intros HP. unfold uva2ka. rewrite (bind_Ret _ _ _ _ _ (walkpgdir_noalloc pgdir a st)), HP.
  unfold mapped. rewrite HP. unfold bind, load32, gets. fold (pte_at (kmem_mem st) pgdir a).
  destruct (has PTE_P _); [|done]. simpl. by destruct (has PTE_U _).
Qed.

Lemma user_ok_page m pgdir a b :
  va_ok a -> va_ok b -> a / 4096 = b / 4096 -> mapped m pgdir a = mapped m pgdir b.
Proof using. intros Ha Hb E. unfold mapped, pte_at. by apply vpn_eq in E as [-> ->]. Qed.

(** One round: a page that is not the user's stops it, otherwise the bytes up to
    the end of the page are written. *)
Lemma copyout_loop_S fuel pgdir va buf len st l :
  vm_ok kend st l pgdir -> 0 <= va -> 0 < len -> va + len <= KERNBASE ->
  pdeP (kmem_mem st) pgdir (PDX va) = true ->
  let n := Z.min len (4096 - va mod 4096) in
  if user_ok (kmem_mem st) pgdir va then
    exists st', copyout_loop (S fuel) pgdir va buf len st =
        copyout_loop fuel pgdir (va - va mod 4096 + 4096) (buf + n) (len - n) st' /\
      vm_ok kend st' l pgdir /\
      (forall x, va_ok x -> mapped (kmem_mem st') pgdir x = mapped (kmem_mem st) pgdir x) /\
      (forall p, owned (kmem_mem st') pgdir p <-> owned (kmem_mem st) pgdir p) /\
      same_outside (upage (kmem_mem st) pgdir) (kmem_mem st) (kmem_mem st') /\
      (forall x, uva x -> uview (kmem_mem st') pgdir x =
         match uview (kmem_mem st) pgdir x with
         | Some (flags, b) =>
             Some (flags, if (va <=? x) && (x <? va + n) then kmem_mem st (buf + (x - va)) else b)
         | None => None
         end)
  else copyout_loop (S fuel) pgdir va buf len st = Ret (-1) st.
Proof.
  intros Hvm Hva Hlen Hle HP n. assert (uva va) as Hu by (unfold uva; lia).
  set (va0 := va - va mod 4096). assert (uva va0 /\ va0 mod 4096 = 0) as [Hu0 Hal] by (unfold uva, va0; zlia).
  assert (va0 / 4096 = va / 4096) as Evp by (unfold va0; zlia).
  pose proof (pt_ok_mem _ _ _ _ (vm_ok_pt _ _ _ _ Hvm)) as Hok.
  pose proof (user_ok_page (kmem_mem st) pgdir va0 va (uva_ok _ Hu0) (uva_ok _ Hu) Evp) as Em.
  cbn [copyout_loop]. destruct (Z.ltb_spec 0 len); [|lia].
  rewrite (PGROUNDDOWN_eq va) by lia. fold va0.
  rewrite (bind_Ret _ _ _ _ _ (uva2ka_ok pgdir va0 st ltac:(apply vpn_eq in Evp as [-> _];
    [done | by apply uva_ok | by apply uva_ok]))), Em.
  unfold user_ok. destruct (mapped (kmem_mem st) pgdir va) as [e|] eqn:He; [|done].
  destruct (has PTE_U e) eqn:HU; [|done].
  destruct (proj1 (proj2 Hvm) va e Hu He) as (Hkf & _ & _).
  pose proof (kpage_range kend (kend_range _ Hkend) _ Hkf). destruct (Z.eqb_spec (frame e) 0); [lia|].
  replace (if len <? 4096 - (va - va0) then len else 4096 - (va - va0)) with n
    by (unfold n, va0; zcases; lia).
  assert (0 < n /\ va mod 4096 + n <= 4096) as [Hn1 Hn2] by (unfold n; zlia).
  replace (frame e + (va - va0)) with (frame e + va mod 4096) by (unfold va0; lia).
  set (m' := memmove (kmem_mem st) (frame e + va mod 4096) buf n).
  assert (forall x, m' x = if (frame e + va mod 4096 <=? x) && (x <? frame e + va mod 4096 + n)
    then kmem_mem st (buf + (x - (frame e + va mod 4096))) else kmem_mem st x) as Hm'
    by (intros x; by apply memmove_correct; [|lia]).
  assert (same_outside (eq (frame e)) (kmem_mem st) m') as Hso.
  { intros x Hx. specialize (Hx _ eq_refl). unfold in_page in Hx. rewrite Hm'. zcases; try done; zlia. }
  destruct (vm_write pgdir va e st l m' Hvm Hu He ltac:(apply memmove_ok; [lia|done]) Hso) as
    (Hvm' & Hmap & Ho & Hv).
  exists (set_mem m' st). split_and!; try done.
  - unfold bind at 1, modify. fold m'. unfold uva in Hu0. by rewrite (u32_small (va0 + 4096)) by zlia.
  - eapply same_outside_mono; [|exact Hso]. intros p <-. by exists va, e.
  - intros x Hx. cbn [kmem_mem set_mem]. rewrite Hv by done. unfold uva in Hx.
    destruct (Z.eqb_spec (x / 4096) (va / 4096)) as [E|E].
    + unfold uview. rewrite (user_ok_page (kmem_mem st) pgdir x va), He by (done || apply uva_ok; done).
      do 2 f_equal. rewrite Hm'. zcases; try done; try zlia. f_equal. zlia.
    + destruct (uview (kmem_mem st) pgdir x) as [[flags b]|]; [|done]. zcases; try done; zlia.
Qed.

(** [copyout] writes the bytes up to the first page that is not the user's. *)
Lemma copyout_loop_ok fuel pgdir va buf len st l :
  vm_ok kend st l pgdir -> 0 <= va -> 0 <= len -> va + len <= KERNBASE ->
  (forall x, va <= x < va + len -> pdeP (kmem_mem st) pgdir (PDX x) = true) ->
  (forall p x, upage (kmem_mem st) pgdir p -> buf <= x < buf + len -> ~ in_page p x) ->
  (va mod 4096 + len + 4095) / 4096 < Z.of_nat fuel ->
  exists r st' k, copyout_loop fuel pgdir va buf len st = Ret r st' /\ 0 <= k <= len /\
    vm_ok kend st' l pgdir /\
    (forall p, owned (kmem_mem st') pgdir p <-> owned (kmem_mem st) pgdir p) /\
    (forall x, uva x -> uview (kmem_mem st') pgdir x =
       match uview (kmem_mem st) pgdir x with
       | Some (flags, b) =>
           Some (flags, if (va <=? x) && (x <? va + k) then kmem_mem st (buf + (x - va)) else b)
       | None => None
       end) /\
    (forall x, va <= x < va + k -> user_ok (kmem_mem st) pgdir x = true) /\
    ((r = 0 /\ k = len) \/ (r = -1 /\ k < len /\ user_ok (kmem_mem st) pgdir (va + k) = false)).
Proof.
  revert va buf len st.
  induction fuel as [|fuel IH]; intros va buf len st Hvm Hva Hlen Hle HP Hsrc Hf; [zlia|].
  destruct (Z.eq_dec len 0) as [->|Hne].
  { exists 0, st, 0. split_and!; try done; try lia.
    intros x Hx. destruct (uview (kmem_mem st) pgdir x) as [[flags b]|]; [|done]. by zcases. }
  pose proof (copyout_loop_S fuel pgdir va buf len st l Hvm Hva ltac:(lia) Hle (HP va ltac:(lia))) as HS.
  cbv zeta in HS. set (n := Z.min len (4096 - va mod 4096)) in *.
  destruct (user_ok (kmem_mem st) pgdir va) eqn:HU.
  2:{ exists (-1), st, 0. split_and!; try done; try lia; [|right; rewrite Z.add_0_r; split_and!; done || lia].
      intros x Hx. destruct (uview (kmem_mem st) pgdir x) as [[flags b]|]; [|done]. by zcases. }
  destruct HS as (st1 & Hr1 & Hvm1 & Hm1 & Ho1 & Hs1 & Hv1).
  assert (forall x, va <= x < va + n -> user_ok (kmem_mem st) pgdir x = true) as Hhead.
  { intros x Hx. rewrite <- HU. unfold user_ok.
    rewrite (user_ok_page _ pgdir x va); [done | unfold va_ok; lia | unfold va_ok; lia | unfold n in Hx; zlia]. }
  assert (n = len \/ n < len /\ va - va mod 4096 + 4096 = va + n) as [Hn|[Hn1 Hn2]] by (unfold n; lia).
  { (* the last page *)
    exists 0, st1, len. rewrite Hr1, Hn, Z.sub_diag. destruct fuel as [|fuel]; [unfold n in *; zlia|].
    rewrite Hn in *. split_and!; try done; try lia. }
  destruct (IH (va + n) (buf + n) (len - n) st1) as (r & st2 & k & Hr2 & Hk & Hvm2 & Ho2 & Hv2 & Hu2 & Hcase);
    try done; try (unfold n in *; zlia).
  { intros x Hx. assert (pdeP (kmem_mem st1) pgdir (PDX x) = pdeP (kmem_mem st) pgdir (PDX x)) as ->;
      [|apply HP; unfold n in *; zlia].
    unfold pdeP. f_equal. eapply (same_outside_ld32 kend); [exact Hs1 | | | |].
    - intros q (y & e & Hy & He & ->). by destruct (proj1 (proj2 Hvm) y e Hy He).
    - eapply vm_ok_owned; [exact Hvm|]. left. apply tpage_dir.
    - intros (y & e & Hy & He & Heq). destruct (proj1 (proj2 Hvm) y e Hy He) as (_ & _ & Hn).
      apply Hn. rewrite <- Heq. apply tpage_dir.
    - apply PDX_range. unfold n in *. zlia. }
  { intros p x (y & e & Hy & He & ->) Hx. apply Hsrc; [|unfold n in *; zlia].
    exists y, e. rewrite <- Hm1 by by apply uva_ok. done. }
  assert (forall x, va + n <= x < va + len -> user_ok (kmem_mem st1) pgdir x =
    user_ok (kmem_mem st) pgdir x) as Huok.
  { intros x Hx. unfold user_ok. rewrite Hm1 by (unfold va_ok; unfold n in *; zlia). done. }
  exists r, st2, (n + k). split_and!; try done; try (unfold n in *; zlia).
  - by rewrite Hr1, Hn2.
  - intros p. by rewrite Ho2.
  - intros x Hx. rewrite Hv2, Hv1 by done.
    destruct (uview (kmem_mem st) pgdir x) as [[flags b]|]; [|done]. do 2 f_equal.
    zcases; try done; try (unfold n in *; zlia).
    replace (buf + n + (x - (va + n))) with (buf + (x - va)) by lia. apply Hs1.
    intros p Hp. apply Hsrc; [done | lia].
  - intros x Hx. destruct (Z.lt_ge_cases x (va + n)); [apply Hhead; lia|].
    rewrite <- Huok by lia. apply Hu2. lia.
  - destruct Hcase as [[-> ->]|(-> & ? & Hno)]; [left; lia | right]. split_and!; [done | lia|].
    rewrite <- Huok, Z.add_assoc by lia. done.
Qed.

(** ** inituvm *)

Lemma inituvm_ok pgdir init sz st l :
  vm_ok kend st l pgdir -> (2 <= length l)%nat -> 0 <= sz < 4096 -> init + sz <= kend ->
  uview (kmem_mem st) pgdir 0 = None ->
  exists st' l', inituvm pgdir init sz st = Ret tt st' /\ vm_ok kend st' l' pgdir /\
    evolves kend (owned (kmem_mem st) pgdir) st l (owned (kmem_mem st') pgdir) st' l' /\
    (forall va, uva va -> uview (kmem_mem st') pgdir va =
       if va <? 4096 then Some (7, if va <? sz then kmem_mem st (init + va) else 0)
       else uview (kmem_mem st) pgdir va).
Proof.
  intros Hvm Hl Hsz Hinit Hv0. destruct l as [|q [|q' l]]; [simpl in Hl; lia..|].
  pose proof (pt_ok_mem _ _ _ _ (vm_ok_pt _ _ _ _ Hvm)) as Hok.
  destruct (take_page kend Hkend pgdir q (q' :: l) st (memset (kmem_mem st) q 0 4096)) as
    (Hk & Hq0 & Hvm1 & Hkq & Hql & Hqo & Hm1 & Hv1 & He1);
    [done | by apply memset_ok | apply memset_outside|].
  set (st1 := set_mem _ _) in *. assert (uva 0) as Hu0 by (unfold uva; lia).
  destruct (vm_map_page kend Hkend pgdir 0 q (Z.lor PTE_W PTE_U) st1 (q' :: l)) as
    [(Hr & ?)|(st2 & l2 & Hr & Hvm2 & Hlen & He2 & Hm2 & Hc2)]; try done.
  { rewrite Hm1 by by apply uva_ok. by apply uview_None. }
  assert (mapped (kmem_mem st2) pgdir 0 = Some (mk_uentry q (Z.lor PTE_W PTE_U))) as Hm0
    by (by rewrite Hm2 by by apply uva_ok).
  destruct (mk_uentry_fields kend Hkend q (Z.lor PTE_W PTE_U) Hkq ltac:(done)) as [Hfr Hfl].
  pose proof (pt_ok_mem _ _ _ _ (vm_ok_pt _ _ _ _ Hvm2)) as Hok2.
  set (m3 := memmove (kmem_mem st2) q init sz).
  assert (forall x, m3 x = if (q <=? x) && (x <? q + sz) then kmem_mem st2 (init + (x - q))
    else kmem_mem st2 x) as Hm3 by (intros x; by apply memmove_correct; [|lia]).
  destruct (vm_write pgdir 0 (mk_uentry q (Z.lor PTE_W PTE_U)) st2 l2 m3) as (Hvm3 & _ & Ho3 & Hv3);
    try done; [apply memmove_ok; [lia|done] | |].
  { rewrite Hfr. intros x Hx. specialize (Hx q eq_refl). unfold in_page in Hx. rewrite Hm3. by zcases. }
  rewrite Hfr, Hfl in Hv3. change (Z.lor (Z.lor PTE_W PTE_U) PTE_P) with 7 in Hv3.
  (* the code to copy lies below every page of the allocator *)
  pose proof (evolves_trans kend _ _ _ _ _ _ _ _ _ He1 He2) as Hall.
  assert (forall x, init <= x < init + sz -> kmem_mem st2 x = kmem_mem st x) as Hsrc.
  { intros x Hx. destruct Hall as (_ & _ & Hs). apply Hs. intros p Hp Hin.
    assert (kpage kend p) as (_ & ? & _); [|unfold in_page in Hin; lia].
    destruct Hp as [Hp|Hp]; [apply (vm_ok_owned _ _ _ _ _ Hvm Hp)|].
    eapply kpage_not_free; [apply (vm_ok_free _ _ _ _ Hvm) | done]. }
  exists (set_mem m3 st2), l2. split_and!; try done.
  - unfold inituvm, panic_if. zcases. unfold bind at 1, ret. rewrite (bind_Ret _ _ _ _ _ Hk).
    assert (memset_page q 0 (set_freelist (ld32 (kmem_mem st) q) st) = Ret tt st1) as Hset by done.
    rewrite (bind_Ret _ _ _ _ _ Hset). by rewrite (bind_Ret _ _ _ _ _ Hr).
  - destruct Hall as (_ & Hp & Hs). split_and!; [by eapply vm_ok_free | intros p; cbn [kmem_mem set_mem]; by rewrite Ho3 |].
    intros x Hx. rewrite <- (Hs x Hx). cbn [kmem_mem set_mem]. rewrite Hm3. assert (~ in_page q x) as Hnq by (apply Hx; right; left). unfold in_page in Hnq. by zcases.
  - intros va Hva. cbn [kmem_mem set_mem]. rewrite Hv3 by done. unfold uva in Hva.
    destruct (Z.eqb_spec (va / 4096) (0 / 4096)), (Z.ltb_spec va 4096); try zlia.
    + do 2 f_equal. rewrite Z.mod_small by lia. rewrite Hm3. zcases.
      * rewrite Hsrc by lia. f_equal. lia.
      * rewrite (Hc2 q) by (by right || unfold in_page; lia). unfold st1. cbn [kmem_mem set_mem].
        rewrite memset_correct by lia. by zcases.
    + rewrite (map_page_uview kend Hkend pgdir 0 q _ st1 st2 Hm2 Hc2 Hkq ltac:(done) va Hva).
      destruct (Z.eqb_spec (va / 4096) (0 / 4096)); [done|]. by apply Hv1.
Qed.

(** ** copyuvm *)

Context (Hdata : KERNLINK < kdata < KERNBASE + PHYSTOP) (Hdal : kdata mod 4096 = 0).

Lemma copyuvm_ok pgdir sz st l :
  vm_ok kend st l pgdir -> 0 <= sz <= KERNBASE ->
  (forall va, uva va -> pg va < sz -> uview (kmem_mem st) pgdir va <> None) ->
  exists d st' l', copyuvm pgdir sz st = Ret d st' /\
    vm_ok kend st' l' pgdir /\
    (forall va, uva va -> uview (kmem_mem st') pgdir va = uview (kmem_mem st) pgdir va) /\
    (forall p, owned (kmem_mem st') pgdir p <-> owned (kmem_mem st) pgdir p) /\
    ((d <> 0 /\ vm_ok kend st' l' d /\ apart (kmem_mem st') pgdir d /\
      (forall p, owned (kmem_mem st') d p \/ p ∈ l' <-> p ∈ l) /\
      (forall va, uva va -> uview (kmem_mem st') d va =
         if pg va <? sz then uview (kmem_mem st) pgdir va else None) /\
      (forall va, KERNBASE <= va < W32 -> mapped (kmem_mem st') d va = kernel_pte kdata va) /\
      evolves kend (fun _ => False) st l (owned (kmem_mem st') d) st' l') \/
     (d = 0 /\ (forall p, p ∈ l' <-> p ∈ l) /\
      Z.of_nat (length l) <= 65 + 2 * npages 0 sz /\ evolves kend (fun _ => False) st l (fun _ => False) st' l')).
Proof.
  intros Hvp Hsz Hpar. pose proof (vm_ok_free _ _ _ _ Hvp) as Hf. unfold copyuvm.
  destruct (setupkvm_ok kend kdata Hkend Hdata Hdal st l Hf) as (d & st1 & l1 & Hr1 & Hcase).
  rewrite (bind_Ret _ _ _ _ _ Hr1). destruct Hcase as [(Hd & Hvd & He1 & Hu1 & Hk1 & Hlen1)|(-> & He1 & Hlen)].
  2:{ destruct (bystander kend _ _ _ _ _ _ pgdir Hvp He1) as (Hvp1 & _ & Ho1 & _); [done|].
      exists 0, st1, l1. split_and!; try done.
      - intros va Hva. by eapply bystander_uview; [exact Hvp | exact He1 | |].
      - right. split_and!; [done | | unfold npages; zlia | done]. intros p. destruct He1 as (_ & Hp & _).
        specialize (Hp p). tauto. }
  destruct (Z.eqb_spec d 0); [done|].
  destruct (bystander kend _ _ _ _ _ _ pgdir Hvp He1) as (Hvp1 & _ & _ & _ & Hap1); [done|].
  pose proof (bystander_uview kend _ _ _ _ _ _ pgdir Hvp He1 ltac:(done)) as Hup1.
  destruct (copyuvm_loop_ok (S (Z.to_nat ((sz + 4096 - 1) / 4096))) pgdir d 0 sz st1 l1) as
    (r & st2 & l2 & Hr2 & Hcase); try done; try (unfold npages; zlia).
  { intros p Hp. by apply Hap1. }
  { intros va Hva Hin. rewrite Hup1 by done. apply Hpar; [done|]. unfold in_range in Hin.
    zcases_in Hin. }
  { auto. }
  assert (exists O', evolves kend (fun _ => False) st l O' st2 l2) as (O' & He2).
  { destruct Hcase as [(_ & _ & He2 & _)|(_ & He2 & _)]; eexists; by eapply evolves_trans. }
  destruct (bystander kend _ _ _ _ _ _ pgdir Hvp He2) as (Hvp2 & _ & Ho2 & _ & _); [done|].
  exists r, st2, l2. split_and!; try done.
  { intros va Hva. by eapply bystander_uview; [exact Hvp | exact He2 | |]. }
  destruct Hcase as [(-> & Hvd2 & He & Hk2 & Hv2)|(-> & He & Hl2)]; [left|right];
    pose proof (evolves_trans kend _ _ _ _ _ _ _ _ _ He1 He) as Hall.
  - split_and!; try done.
    + destruct (bystander kend _ _ _ _ _ _ pgdir Hvp Hall) as (_ & _ & _ & _ & Hap2); [done|].
      intros p Hp. by apply Hap2.
    + intros p. destruct Hall as (_ & Hp & _). rewrite Hp. tauto.
    + intros va Hva. rewrite Hv2, Hup1, Hu1 by done. unfold uva in Hva. unfold in_range. by zcases.
    + intros va Hva. rewrite Hk2, Hk1; [done | unfold va_ok; lia | lia].
  - split_and!; try done.
    + intros p. destruct Hall as (_ & Hp & _). specialize (Hp p). tauto.
    + lia.
Qed.
End uvmcopy.

(** ** growproc (proc.c)

    The size of the process is passed in and out; [switchuvm] at the end reloads
    registers and leaves memory alone. *)
Definition growproc (kend pgdir sz n : Z) : M kst (Z * Z) :=
  if 0 <? n then
    sz' <- allocuvm kend pgdir sz (u32 (sz + n)) ;;
    if sz' =? 0 then ret (-1, sz) else ret (0, sz')
  else if n <? 0 then
    sz' <- deallocuvm kend pgdir sz (u32 (sz + n)) ;;
    if sz' =? 0 then ret (-1, sz) else ret (0, sz')
  else ret (0, sz).

(** Exactly the pages below [sz] are mapped. *)
Definition exact (m : mem) (pgdir sz : Z) : Prop :=
  forall va, uva va -> uview m pgdir va <> None <-> pg va < sz.

Lemma exact_above m pgdir sz va :
  exact m pgdir sz -> uva va -> roundup sz <= va -> uview m pgdir va = None.
Proof.
  intros He Hva Hr. destruct (uview m pgdir va) eqn:E; [|done]. exfalso.
  assert (pg va < sz) by (apply He; [done | by rewrite E]). unfold pg, roundup, uva in *. zlia.
Qed.

(** ** Properties *)

(** C6: [copyuvm] gives the child its own copy.  When it succeeds the child sees
    below [sz] exactly the bytes and flags the parent sees, and nothing above;
    its pages are all taken from the free list and shared with nobody; the
    kernel half is the kernel's.  The parent keeps its pages and its view.  When
    it fails the free pages are what they were, and there were at most 65 plus
    two for each page to copy. *)
Theorem copyuvm_copies (kend kdata pgdir sz : Z) (st : kst) (l : list Z) :
  KERNLINK <= kend < KERNBASE + PHYSTOP ->
  KERNLINK < kdata < KERNBASE + PHYSTOP -> kdata mod 4096 = 0 ->
  vm_ok kend st l pgdir -> 0 <= sz <= KERNBASE -> exact (kmem_mem st) pgdir sz ->
  exists d st' l', copyuvm kend kdata pgdir sz st = Ret d st' /\
    vm_ok kend st' l' pgdir /\
    (forall va, uva va -> uview (kmem_mem st') pgdir va = uview (kmem_mem st) pgdir va) /\
    (forall p, owned (kmem_mem st') pgdir p <-> owned (kmem_mem st) pgdir p) /\
    ((d <> 0 /\ vm_ok kend st' l' d /\ apart (kmem_mem st') pgdir d /\
      (forall p, owned (kmem_mem st') d p \/ p ∈ l' <-> p ∈ l) /\
      (forall va, uva va -> uview (kmem_mem st') d va = uview (kmem_mem st) pgdir va) /\
      (forall va, KERNBASE <= va < W32 -> mapped (kmem_mem st') d va = kernel_pte kdata va)) \/
     (d = 0 /\ (forall p, p ∈ l' <-> p ∈ l) /\
      Z.of_nat (length l) <= 65 + 2 * npages 0 sz)).
Proof.
  intros Hk Hd Hdal Hvm Hsz Hex.
  destruct (copyuvm_ok kend kdata Hk Hd Hdal pgdir sz st l) as
    (d & st' & l' & Hr & Hvm' & Hv & Ho & Hcase); try done.
  { intros va Hva Hlt. by apply Hex. }
  exists d, st', l'. split_and!; try done.
  destruct Hcase as [(? & ? & ? & ? & Hc & ? & _)|(? & ? & ? & _)]; [left|by right]. split_and!; try done.
  intros va Hva. rewrite Hc by done. destruct (Z.ltb_spec (pg va) sz); [done|].
  destruct (uview (kmem_mem st) pgdir va) eqn:E; [|done]. exfalso.
  assert (pg va < sz) by (apply Hex; [done | by rewrite E]). lia.
Qed.

(** The small space grown by a page, and the pages left. *)
Lemma demo_grown :
  exists st l, vm_ok demo_kend st l demo_dir /\ exact (kmem_mem st) demo_dir 4096 /\
    (forall va, uva va -> pg va < 4096 -> uview (kmem_mem st) demo_dir va = Some (7, 0)).
Proof.
  destruct (allocuvm_ok demo_kend ltac:(unfold demo_kend; lia) demo_dir 0 4096 demo_st demo_free) as
    (r & st' & l' & Hr & Hvm & _ & Hcase); [apply demo_ok | lia | lia | intros; by apply demo_empty |].
  destruct Hcase as [(-> & Hv)|(_ & Hl & _)]; [|exfalso; vm_compute in Hl; discriminate].
  exists st', l'. split_and!; [exact Hvm | |].
  - intros va Hva. rewrite Hv by done. destruct (in_range (roundup 0) 4096 va) eqn:E.
    + unfold in_range in E. split; [intros _; zcases_in E | done].
    + rewrite demo_empty by done. split; [done|]. intros Hp.
      unfold in_range, roundup, uva in *. zcases_in E; zlia.
  - intros va Hva Hp. rewrite Hv by done. unfold in_range, roundup, pg, uva in *. zcases; zlia || done.
Qed.

Lemma copyuvm_copies_witness :
  exists st d st', copyuvm demo_kend 2148536320 demo_dir 4096 st = Ret d st' /\
    uview (kmem_mem st') demo_dir 5 = Some (7, 0).
Proof.
  destruct demo_grown as (st & l & Hvm & Hex & Hv).
  destruct (copyuvm_copies demo_kend 2148536320 demo_dir 4096 st l) as (d & st' & l' & Hr & _ & Hu & _);
    [unfold demo_kend; lia | lia | reflexivity | exact Hvm | lia | exact Hex |].
  exists st, d, st'. split; [exact Hr|].
  rewrite Hu, Hv; [reflexivity | unfold uva; lia | reflexivity | unfold uva; lia].
Defined.

(** [copyout] writes through another process's table.  On a range whose page
    tables exist it writes the source bytes, from the start of the range up to
    the first page that is not mapped for the user, changes nothing else the
    process sees, and returns 0 exactly when it reached the end. *)
Theorem copyout_writes_prefix (kend pgdir va p len : Z) (st : kst) (l : list Z) :
  KERNLINK <= kend < KERNBASE + PHYSTOP -> vm_ok kend st l pgdir ->
  0 <= va -> 0 <= len -> va + len <= KERNBASE ->
  (forall x, va <= x < va + len -> pdeP (kmem_mem st) pgdir (PDX x) = true) ->
  (forall q x, upage (kmem_mem st) pgdir q -> p <= x < p + len -> ~ in_page q x) ->
  exists r st' k, copyout pgdir va p len st = Ret r st' /\ 0 <= k <= len /\
    vm_ok kend st' l pgdir /\
    (forall q, owned (kmem_mem st') pgdir q <-> owned (kmem_mem st) pgdir q) /\
    (forall x, uva x -> uview (kmem_mem st') pgdir x =
       match uview (kmem_mem st) pgdir x with
       | Some (flags, b) =>
           Some (flags, if (va <=? x) && (x <? va + k) then kmem_mem st (p + (x - va)) else b)
       | None => None
       end) /\
    (forall x, va <= x < va + k -> user_ok (kmem_mem st) pgdir x = true) /\
    ((r = 0 /\ k = len) \/ (r = -1 /\ k < len /\ user_ok (kmem_mem st) pgdir (va + k) = false)).
Proof.
  intros Hk Hvm Hva Hlen Hle HP Hsrc.
  apply (copyout_loop_ok kend Hk (S (Z.to_nat (len / 4096 + 2)))); try done. zlia.
Qed.
Lemma copyout_writes_prefix_witness :
  exists st r st', copyout demo_dir 100 1048576 50 st = Ret r st'.
Proof.
  destruct demo_grown as (st & l & Hvm & Hex & Hv).
  destruct (copyout_writes_prefix demo_kend demo_dir 100 1048576 50 st l) as (r & st' & k & Hr & _);
    [unfold demo_kend; lia | exact Hvm | lia | lia | lia | | |].
  - intros x Hx. destruct (uview_mapped (kmem_mem st) demo_dir x) as [e He].
    + rewrite Hv by (unfold uva, pg; zlia). done.
    + apply (mapped_walk _ _ _ _ He).
  - intros q x Hq Hx Hin. assert (kpage demo_kend q) as (_ & Hk & _).
    { apply (vm_ok_owned _ _ _ _ _ Hvm). by right. }
    unfold in_page, demo_kend in *. lia.
  - exists st, r, st'. exact Hr.
Defined.

(** [uva2ka] trusts a null entry pointer.  When no page table covers the
    address, [walkpgdir] returns 0 and the code reads the entry at address 0; if
    the word there has the present and user bits, an unmapped address is
    translated into a kernel pointer. *)
Theorem uva2ka_reads_null (pgdir uva : Z) (st : kst) :
  pdeP (kmem_mem st) pgdir (PDX uva) = false ->
  has PTE_P (ld32 (kmem_mem st) 0) = true -> has PTE_U (ld32 (kmem_mem st) 0) = true ->
  mapped (kmem_mem st) pgdir uva = None /\
  uva2ka pgdir uva st = Ret (P2V (PTE_ADDR (ld32 (kmem_mem st) 0))) st.
Proof.
  intros HP H1 H2. split; [unfold mapped; by rewrite HP|].
  unfold uva2ka. rewrite (bind_Ret _ _ _ _ _ (walkpgdir_noalloc pgdir uva st)), HP.
  unfold bind, load32, gets. by rewrite H1, H2.
Qed.
Lemma uva2ka_reads_null_witness :
  let st := KSt (st32 (fun _ => 0) 0 4101) 0 true in
  uva2ka demo_dir 4096 st = Ret 2147487744 st.
Proof.
  intros st. apply (uva2ka_reads_null demo_dir 4096 st); vm_compute; reflexivity.
Defined.

(** C19: [growproc] moves the end of the process.  Growing maps zeroed pages up
    to the new size or, out of memory or address space, fails with the process
    as it was; shrinking to a positive size unmaps the pages above it; growing
    by 0 does nothing.  The mapped pages stay exactly those below the size. *)
Theorem growproc_keeps_exact (kend pgdir sz n : Z) (st : kst) (l : list Z) :
  KERNLINK <= kend < KERNBASE + PHYSTOP -> vm_ok kend st l pgdir ->
  0 < sz <= KERNBASE -> - sz < n < 2147483648 -> exact (kmem_mem st) pgdir sz ->
  exists r sz' st' l', growproc kend pgdir sz n st = Ret (r, sz') st' /\
    vm_ok kend st' l' pgdir /\ conserved pgdir st l st' l' /\
    exact (kmem_mem st') pgdir sz' /\
    (forall va, uva va -> pg va < sz -> pg va < sz' ->
       uview (kmem_mem st') pgdir va = uview (kmem_mem st) pgdir va) /\
    (forall va, uva va -> sz <= pg va < sz' -> uview (kmem_mem st') pgdir va = Some (7, 0)) /\
    ((r = 0 /\ sz' = sz + n) \/
     (r = -1 /\ sz' = sz /\ 0 < n /\
      (KERNBASE <= sz + n \/ Z.of_nat (length l) < 2 * npages (roundup sz) (sz + n)))).
Proof.
  intros Hk Hvm Hsz Hn Hex. unfold growproc. rewrite u32_small by lia.
  destruct (Z.ltb_spec 0 n) as [Hpos|]; [|destruct (Z.ltb_spec n 0) as [Hneg|]].
  - destruct (Z.le_gt_cases KERNBASE (sz + n)) as [Hbig|Hsm].
    { exists (-1), sz, st, l. unfold allocuvm, bind. zcases.
      split_and!; try done; lia. }
    destruct (allocuvm_ok kend Hk pgdir sz (sz + n) st l) as (r & st' & l' & Hr & Hvm' & He & Hcase);
      try done; try lia.
    { intros va Hva Hin. eapply exact_above; [done..|]. unfold in_range in Hin. zcases_in Hin. }
    rewrite (bind_Ret _ _ _ _ _ Hr). destruct Hcase as [(-> & Hv)|(-> & Hlen & Hv)].
    + destruct (Z.eqb_spec (sz + n) 0); [lia|]. exists 0, (sz + n), st', l'.
      split_and!; try done; [intros p; apply He | | | | by left]; intros va Hva; rewrite ?Hv by done;
        unfold in_range, roundup in *; specialize (Hex va Hva); unfold pg, uva in *.
      * zcases; rewrite ?Hex; split; zlia || done.
      * intros H1 H2. zcases; done || zlia.
      * intros H1. zcases; done || zlia.
    + exists (-1), sz, st', l'. split_and!; try done; try lia.
      * intros p. apply He.
      * intros va Hva. rewrite Hv by done. by apply Hex.
      * intros va Hva _ _. by apply Hv.
  - destruct (deallocuvm_ok kend Hk pgdir sz (sz + n) st l) as (st' & l' & Hr & Hun); try done; try lia.
    rewrite (bind_Ret _ _ _ _ _ Hr), Z.min_r by lia. destruct (Z.eqb_spec (sz + n) 0); [lia|].
    exists 0, (sz + n), st', l'.
    split_and!; try done; [apply Hun | by eapply unmaps_conserved | | | | by left];
      intros va Hva; rewrite ?(unmaps_uview _ _ _ _ _ _ _ _ Hun Hva);
      unfold in_range, roundup in *; specialize (Hex va Hva); unfold pg, uva in *; try lia.
    + zcases; rewrite ?Hex; split; zlia || done.
    + intros H1 H2. zcases; done || zlia.
  - exists 0, sz, st, l. split_and!; try done; lia.
Qed.
Lemma growproc_keeps_exact_witness :
  exists st sz' st' r, growproc demo_kend demo_dir 4096 (-96) st = Ret (r, sz') st' /\
    exact (kmem_mem st') demo_dir sz'.
Proof.
  destruct demo_grown as (st & l & Hvm & Hex & Hv).
  destruct (growproc_keeps_exact demo_kend demo_dir 4096 (-96) st l) as
    (r & sz' & st' & l' & Hr & _ & _ & He & _);
    [unfold demo_kend; lia | exact Hvm | lia | lia | exact Hex |].
  exists st, sz', st', r. split; [exact Hr | exact He].
Defined.

(** Shrinking a process to nothing corrupts it.  [growproc(-sz)] unmaps
    every page, then takes the size 0 that [deallocuvm] returns for an error: it
    returns -1 and leaves the old size, although no page below it is mapped. *)
Theorem growproc_to_zero_loses_pages (kend pgdir sz : Z) (st : kst) (l : list Z) :
  KERNLINK <= kend < KERNBASE + PHYSTOP -> vm_ok kend st l pgdir ->
  0 < sz < KERNBASE -> exact (kmem_mem st) pgdir sz ->
  exists st' l', growproc kend pgdir sz (- sz) st = Ret (-1, sz) st' /\ vm_ok kend st' l' pgdir /\
    (forall va, uva va -> uview (kmem_mem st') pgdir va = None) /\
    ~ exact (kmem_mem st') pgdir sz.
Proof.
  intros Hk Hvm Hsz Hex. unfold growproc. rewrite Z.add_opp_diag_r. zcases.
  destruct (deallocuvm_ok kend Hk pgdir sz (u32 0) st l) as (st' & l' & Hr & Hun); try done; try lia.
  change (u32 0) with 0 in *. rewrite (bind_Ret _ _ _ _ _ Hr), Z.min_r by lia. exists st', l'.
  assert (forall va, uva va -> uview (kmem_mem st') pgdir va = None) as Hnone.
  { intros va Hva. rewrite (unmaps_uview _ _ _ _ _ _ _ _ Hun Hva). specialize (Hex va Hva).
    destruct (in_range (roundup 0) sz va) eqn:E; [done|].
    destruct (uview (kmem_mem st) pgdir va) eqn:Ev; [|done]. exfalso.
    assert (pg va < sz) by (by apply Hex). unfold in_range, roundup, uva in *. zcases_in E; zlia. }
  split_and!; [done | apply Hun | done |]. intros Hc.
  assert (uva 0) as Hu0 by (unfold uva; lia). apply (Hc 0 Hu0); [unfold pg; zlia | by apply Hnone].
Qed.
Lemma growproc_to_zero_loses_pages_witness :
  exists st st', growproc demo_kend demo_dir 4096 (-4096) st = Ret (-1, 4096) st'.
Proof.
  destruct demo_grown as (st & l & Hvm & Hex & Hv).
  destruct (growproc_to_zero_loses_pages demo_kend demo_dir 4096 st l) as (st' & l' & Hr & _);
    [unfold demo_kend; lia | exact Hvm | lia | exact Hex |].
  exists st, st'. exact Hr.
Defined.

(** The first process starts on its code.  With two free pages [inituvm]
    makes the page at address 0 show the [sz] bytes of the program followed by
    zeros, open to the user, and changes nothing else. *)
Theorem inituvm_loads_code (kend pgdir init sz : Z) (st : kst) (l : list Z) :
  KERNLINK <= kend < KERNBASE + PHYSTOP -> vm_ok kend st l pgdir ->
  (2 <= length l)%nat -> 0 <= sz -> init + sz <= kend -> uview (kmem_mem st) pgdir 0 = None ->
  if PGSIZE <=? sz then inituvm pgdir init sz st = Panic "inituvm: more than a page"
  else
    exists st' l', inituvm pgdir init sz st = Ret tt st' /\ vm_ok kend st' l' pgdir /\
      conserved pgdir st l st' l' /\
      (forall va, uva va -> uview (kmem_mem st') pgdir va =
         if va <? 4096 then Some (7, if va <? sz then kmem_mem st (init + va) else 0)
         else uview (kmem_mem st) pgdir va).
Proof.
  intros Hk Hvm Hl Hsz Hinit Hv. destruct (Z.leb_spec 4096 sz).
  - unfold inituvm, panic_if, bind. by zcases.
  - destruct (inituvm_ok kend Hk pgdir init sz st l) as (st' & l' & E & Hv' & He & Hu); try done. exists st', l'. split_and!; try done. exact (proj1 (proj2 He)).
Qed.
Lemma inituvm_loads_code_witness :
  exists st', inituvm demo_dir 2148532224 44 demo_st = Ret tt st' /\
    uview (kmem_mem st') demo_dir 44 = Some (7, 0).
Proof.
  destruct (inituvm_loads_code demo_kend demo_dir 2148532224 44 demo_st demo_free) as
    (st' & l' & Hr & _ & _ & Hv);
    [unfold demo_kend; lia | apply demo_ok | simpl; lia | lia | unfold demo_kend; lia
    | apply demo_empty; unfold uva; lia |].
  exists st'. split; [exact Hr|]. rewrite Hv by (unfold uva; lia). reflexivity.
Defined.
