(* ===== verification/Disk.v ===== *)
(** * Disk blocks, buffers and the disk interface (buf.h, sleeplock.c, memide.c)

    A buffer ([buf]) and its sleep lock as the code has them, and what the
    buffer cache needs of a disk driver, as a class: [iderw] synchronises one
    locked buffer with one block.  memide.c, the disk in memory, is an instance:
    its copies of bytes are shown to satisfy the laws.  [traced] records the
    block writes of any driver, in order; crash theorems speak of its
    prefixes. *)

From S2P Require Import Prelude Mem CString.
#[local] Open Scope Z_scope.

Abbreviation BSIZE := 512.
Abbreviation block := (list Z).
Definition block_ok (d : block) : Prop := length d = 512%nat /\ Forall (fun x => 0 <= x < 256) d.

(** ** Sleep locks *)

Record sleeplock := Sleeplock { locked : bool; lock_pid : Z }.

Definition initsleeplock : sleeplock := Sleeplock false 0.
(** With no other process to release the lock, the [while] loop sleeps for
    ever. *)
Definition acquiresleep {S} (pid : Z) (lk : sleeplock) : M S sleeplock :=
  if locked lk then diverge else ret (Sleeplock true pid).
Definition releasesleep (lk : sleeplock) : sleeplock := Sleeplock false 0.
Definition holdingsleep (pid : Z) (lk : sleeplock) : bool := locked lk && (lock_pid lk =? pid).

(** ** Buffers *)

Record buf := Buf {
  b_flags : Z;
  b_dev : Z;
  b_blockno : Z;
  b_lock : sleeplock;
  b_refcnt : Z;
  b_data : block;
}.
Definition B_VALID : Z := 2.
Definition B_DIRTY : Z := 4.

Definition set_flags (f : Z) (b : buf) : buf :=
  Buf f (b_dev b) (b_blockno b) (b_lock b) (b_refcnt b) (b_data b).
Definition set_data (d : block) (b : buf) : buf :=
  Buf (b_flags b) (b_dev b) (b_blockno b) (b_lock b) (b_refcnt b) d.
Definition set_lock (lk : sleeplock) (b : buf) : buf :=
  Buf (b_flags b) (b_dev b) (b_blockno b) lk (b_refcnt b) (b_data b).
Definition set_refcnt (n : Z) (b : buf) : buf :=
  Buf (b_flags b) (b_dev b) (b_blockno b) (b_lock b) n (b_data b).

Definition valid (b : buf) : bool := negb (Z.land (b_flags b) B_VALID =? 0).
Definition dirty (b : buf) : bool := negb (Z.land (b_flags b) B_DIRTY =? 0).

Definition add_flag (f : Z) (b : buf) : buf := set_flags (Z.lor (b_flags b) f) b.
Definition del_flag (f : Z) (b : buf) : buf := set_flags (Z.ldiff (b_flags b) f) b.

Lemma valid_flags b :
  valid (add_flag B_VALID b) = true /\ valid (add_flag B_DIRTY b) = valid b /\
  valid (del_flag B_DIRTY b) = valid b /\ valid (set_flags 0 b) = false.
Proof.
  unfold valid, add_flag, del_flag, set_flags, B_VALID, B_DIRTY. simpl. split_and!; [ | | |done].
  - rewrite Z.land_lor_distr_l. change (Z.land 2 2) with 2. destruct (Z.eqb_spec (Z.lor (Z.land (b_flags b) 2) 2) 0)
      as [E|]; [|done]. apply Z.lor_eq_0_iff in E as [_ ?]. done.
  - rewrite Z.land_lor_distr_l. change (Z.land 4 2) with 0. by rewrite Z.lor_0_r.
  - rewrite Z.ldiff_land, <- Z.land_assoc. done.
Qed.
Lemma dirty_flags b :
  dirty (add_flag B_DIRTY b) = true /\ dirty (add_flag B_VALID b) = dirty b /\
  dirty (del_flag B_DIRTY b) = false /\ dirty (set_flags 0 b) = false.
Proof.
  unfold dirty, add_flag, del_flag, set_flags, B_VALID, B_DIRTY. simpl. split_and!; [ | | |done].
  - rewrite Z.land_lor_distr_l. change (Z.land 4 4) with 4. destruct (Z.eqb_spec (Z.lor (Z.land (b_flags b) 4) 4) 0)
      as [E|]; [|done]. apply Z.lor_eq_0_iff in E as [_ ?]. done.
  - rewrite Z.land_lor_distr_l. change (Z.land 2 4) with 0. by rewrite Z.lor_0_r.
  - rewrite Z.ldiff_land, <- Z.land_assoc. change (Z.land (Z.lnot 4) 4) with 0. by rewrite Z.land_0_r.
Qed.

(** ** The disk driver interface *)

Class DiskDriver (D : Type) := {
  (** What the disk holds, and how many blocks. *)
  disk_block : D -> Z -> block;
  nblocks : D -> Z;
  driver_ok : D -> Prop;
  (** [iderw(b)], run by process [pid]: gives the buffer back. *)
  iderw : Z -> buf -> M D buf;
}.

(** The buffer is locked by [pid], has work for the disk, and names one of its
    blocks. *)
Definition request_ok {D} `{DiskDriver D} (pid : Z) (b : buf) (d : D) : Prop :=
  holdingsleep pid (b_lock b) = true /\ b_dev b = 1 /\ 0 <= b_blockno b < nblocks d /\
  block_ok (b_data b).

Class DiskLaws (D : Type) `{DiskDriver D} := {
  disk_block_ok d n : driver_ok d -> 0 <= n < nblocks d -> block_ok (disk_block d n);
  iderw_write pid b d :
    driver_ok d -> request_ok pid b d -> dirty b = true ->
    exists d', iderw pid b d = Ret (add_flag B_VALID (del_flag B_DIRTY b)) d' /\
      driver_ok d' /\ nblocks d' = nblocks d /\
      forall n, 0 <= n < nblocks d ->
        disk_block d' n = if n =? b_blockno b then b_data b else disk_block d n;
  iderw_read pid b d :
    driver_ok d -> request_ok pid b d -> dirty b = false -> valid b = false ->
    exists d', iderw pid b d =
        Ret (add_flag B_VALID (set_data (disk_block d (b_blockno b)) b)) d' /\
      driver_ok d' /\ nblocks d' = nblocks d /\
      forall n, 0 <= n < nblocks d -> disk_block d' n = disk_block d n;
}.

(** ** The disk in memory (memide.c) *)

Record memide := Memide {
  memdisk : Z;        (* where the image starts *)
  disksize : Z;       (* in blocks *)
  mi_mem : mem;       (* the kernel's memory *)
}.

(** [_binary_fs_img_start] and [_binary_fs_img_size] are linker symbols. *)
Definition ideinit (img_start img_size : Z) (m : mem) : memide :=
  Memide img_start (img_size / BSIZE) m.

(** [memmove] between the image and the buffer's array, which lies elsewhere. *)
Fixpoint copy_to (m : mem) (p : Z) (l : list Z) : mem :=
  match l with
  | [] => m
  | x :: l => copy_to (st8 m p x) (p + 1) l
  end.

Definition memide_iderw (pid : Z) (b : buf) : M memide buf :=
  panic_if (negb (holdingsleep pid (b_lock b))) "iderw: buf not locked" ;;;
  panic_if (Z.land (b_flags b) (Z.lor B_VALID B_DIRTY) =? B_VALID) "iderw: nothing to do" ;;;
  panic_if (negb (b_dev b =? 1)) "iderw: request not for disk 1" ;;;
  sz <- gets disksize ;;
  panic_if (sz <=? b_blockno b) "iderw: block out of range" ;;;
  p <- gets (fun d => memdisk d + b_blockno b * BSIZE) ;;
  if dirty b then
    let b := del_flag B_DIRTY b in
    modify (fun d => Memide (memdisk d) (disksize d) (copy_to (mi_mem d) p (b_data b))) ;;;
    ret (add_flag B_VALID b)
  else
    data <- gets (fun d => bytes_at (mi_mem d) p 512) ;;
    ret (add_flag B_VALID (set_data data b)).

#[export] Instance memide_driver : DiskDriver memide := {
  disk_block d n := bytes_at (mi_mem d) (memdisk d + n * BSIZE) 512;
  nblocks := disksize;
  driver_ok d := mem_ok (mi_mem d);
  iderw := memide_iderw;
}.

Lemma copy_to_spec m p l x :
  Forall (fun v => 0 <= v < 256) l ->
  copy_to m p l x =
    if (p <=? x) && (x <? p + Z.of_nat (length l)) then default 0 (l !! Z.to_nat (x - p)) else m x.
Proof.
  revert m p. induction l as [|v l IH]; intros m p Hl; cbn [copy_to length].
  { by zcases. }
  apply Forall_cons in Hl as [Hv Hl]. rewrite IH by done. unfold st8.
  destruct (Z.eqb_spec x p) as [->|Hne].
  - rewrite u8_small, Z.sub_diag by done. zcases; done.
  - zcases; try done. replace (Z.to_nat (x - p)) with (S (Z.to_nat (x - (p + 1)))) by lia. done.
Qed.
Lemma copy_to_ok m p l : mem_ok m -> mem_ok (copy_to m p l).
Proof. revert m p. induction l; intros m p H; simpl; auto with word. Qed.

Lemma bytes_at_copy_to m p l :
  Forall (fun v => 0 <= v < 256) l -> bytes_at (copy_to m p l) p (length l) = l.
Proof.
  intros Hl. apply list_eq. intros i. destruct (Nat.lt_ge_cases i (length l)) as [Hi|Hi].
  - rewrite bytes_at_lookup, copy_to_spec by done. zcases.
    replace (Z.to_nat (p + Z.of_nat i - p)) with i by lia.
    by destruct (lookup_lt_is_Some_2 l i Hi) as [v ->].
  - rewrite !lookup_ge_None_2; [done | lia | rewrite length_bytes_at; lia].
Qed.

Lemma block_ok_bytes m a : mem_ok m -> block_ok (bytes_at m a 512).
Proof.
  intros Hm. split; [apply length_bytes_at|]. apply Forall_lookup. intros i x Hi.
  assert (i < 512)%nat as Hlt by (apply lookup_lt_Some in Hi; by rewrite length_bytes_at in Hi).
  rewrite bytes_at_lookup in Hi by done. by injection Hi as <-.
Qed.

Lemma nothing_to_do b :
  (Z.land (b_flags b) (Z.lor B_VALID B_DIRTY) =? B_VALID) = valid b && negb (dirty b).
Proof.
  unfold valid, dirty, B_VALID, B_DIRTY. rewrite Z.land_lor_distr_r.
  change 4 with (2 ^ 2). change 2 with (2 ^ 1) at 1 2 5. rewrite !land_bit by lia.
  by destruct (Z.testbit _ 1), (Z.testbit _ 2).
Qed.

#[local] Arguments bytes_at : simpl never.
#[export] Instance memide_laws : DiskLaws memide.
Proof.
  split.
  - intros d n Hok Hn. by apply block_ok_bytes.
  - intros pid b d Hok (Hh & Hdev & Hno & Hlen & Hbytes) Hd. simpl in *. unfold memide_iderw, panic_if.
    rewrite Hh, nothing_to_do, Hd, andb_false_r, Hdev. unfold bind, gets, ret, modify. simpl.
    destruct (Z.leb_spec (disksize d) (b_blockno b)); [lia|]. eexists. split; [reflexivity|].
    simpl. split; [by apply copy_to_ok|]. split; [done|]. intros n Hn.
    destruct (Z.eqb_spec n (b_blockno b)) as [->|Hne].
    + rewrite <- Hlen. by apply bytes_at_copy_to.
    + apply bytes_at_ext. intros x Hx. rewrite copy_to_spec by done. zcases.
  - intros pid b d Hok (Hh & Hdev & Hno & Hlen & Hbytes) Hd Hv. simpl in *. unfold memide_iderw, panic_if.
    rewrite Hh, nothing_to_do, Hd, Hv, Hdev. unfold bind, gets, ret, modify. simpl.
    destruct (Z.leb_spec (disksize d) (b_blockno b)); [lia|]. eexists. split; [reflexivity|]. done.
Qed.

(** ** Recording the writes of a driver *)

Record traced (D : Type) := Traced { tr_drv : D; tr_writes : list (Z * block) }.
Arguments Traced {D} tr_drv tr_writes.
Arguments tr_drv {D} t.
Arguments tr_writes {D} t.

Definition traced_iderw {D} `{DiskDriver D} (pid : Z) (b : buf) : M (traced D) buf := fun t =>
  match iderw pid b (tr_drv t) with
  | Ret b' d' => Ret b' (Traced d' (tr_writes t ++ (if dirty b then [(b_blockno b, b_data b)] else [])))
  | Panic msg => Panic msg
  | Diverge => Diverge
  end.

#[export] Instance traced_driver D `{DiskDriver D} : DiskDriver (traced D) := {
  disk_block t := disk_block (tr_drv t);
  nblocks t := nblocks (tr_drv t);
  driver_ok t := driver_ok (tr_drv t);
  iderw := traced_iderw;
}.

#[export] Instance traced_laws D `{DiskLaws D} : DiskLaws (traced D).
Proof.
  split.
  - intros t n. apply (disk_block_ok (tr_drv t)).
  - intros pid b t Hok Hreq Hd. destruct (iderw_write pid b (tr_drv t) Hok Hreq Hd) as (d' & Hr & Hrest).
    eexists. simpl. unfold traced_iderw. rewrite Hr. split; [reflexivity|]. done.
  - intros pid b t Hok Hreq Hd Hv.
    destruct (iderw_read pid b (tr_drv t) Hok Hreq Hd Hv) as (d' & Hr & Hrest).
    eexists. simpl. unfold traced_iderw. rewrite Hr. split; [reflexivity|]. done.
Qed.

(** ** 32-bit fields of a block *)

Definition get8 (d : block) (off : nat) : Z := default 0 (d !! off).
Definition get32 (d : block) (off : nat) : Z :=
  get8 d off + 256 * get8 d (off + 1) + 65536 * get8 d (off + 2) + 16777216 * get8 d (off + 3).
Definition put32 (d : block) (off : nat) (w : Z) : block :=
  <[off := byte_of w 0]> (<[(off + 1)%nat := byte_of w 1]>
    (<[(off + 2)%nat := byte_of w 2]> (<[(off + 3)%nat := byte_of w 3]> d))).

Lemma put32_ok d off w : block_ok d -> block_ok (put32 d off w).
Proof.
  intros [Hl Hf]. unfold put32. split; [by rewrite !length_insert|].
  repeat apply Forall_insert; try done; apply byte_of_range.
Qed.
Lemma length_put32 d off w : length (put32 d off w) = length d.
Proof. unfold put32. by rewrite !length_insert. Qed.

Lemma get8_put32 d off w i :
  (off + 4 <= length d)%nat ->
  get8 (put32 d off w) i =
    if decide (off <= i < off + 4)%nat then byte_of w (Z.of_nat (i - off)) else get8 d i.
Proof.
  intros Hlen. unfold get8, put32. destruct (decide (off <= i < off + 4)%nat) as [Hi|Hi].
  - assert (i = off \/ i = off + 1 \/ i = off + 2 \/ i = off + 3)%nat as [-> | [-> | [-> | ->]]] by lia;
      repeat (rewrite list_lookup_insert_ne by lia); rewrite list_lookup_insert_eq
        by (rewrite ?length_insert; lia); simpl; f_equal; lia.
  - by rewrite !list_lookup_insert_ne by lia.
Qed.
Lemma get32_put32_eq d off w :
  (off + 4 <= length d)%nat -> 0 <= w < W32 -> get32 (put32 d off w) off = w.
Proof.
  intros Hlen Hw. unfold get32. rewrite !get8_put32 by done. repeat (rewrite decide_True by lia).
  rewrite <- (byte_of_sum w) at 5 by done. repeat f_equal; lia.
Qed.
Lemma get32_put32_ne d off off' w :
  (off + 4 <= length d)%nat -> (off' + 4 <= off \/ off + 4 <= off')%nat ->
  get32 (put32 d off w) off' = get32 d off'.
Proof.
  intros Hlen Ho. unfold get32. rewrite !get8_put32 by done. by repeat (rewrite decide_False by lia).
Qed.
Lemma get32_range d off : block_ok d -> 0 <= get32 d off < W32.
Proof.
  intros [_ Hf]. assert (forall i, 0 <= get8 d i < 256) as H8.
  { intros i. unfold get8. destruct (d !! i) as [x|] eqn:E; simpl; [|lia].
    by eapply Forall_lookup in Hf. }
  unfold get32. pose proof (H8 off). pose proof (H8 (off + 1)%nat). pose proof (H8 (off + 2)%nat).
  pose proof (H8 (off + 3)%nat). lia.
Qed.
