(* ===== verification/Bio.v ===== *)
(** * The buffer cache (bio.c)

    [NBUF] buffers on a circular doubly linked list through a head, most
    recently used first.  Buffers are numbered, the head is number [NBUF], and
    the [prev] and [next] pointers are maps on those numbers.

    The cache is correct when it is transparent.  [bc_ok st view dty hld] is its
    invariant for one process: [view n] is the current contents of block [n],
    found in its buffer or else on the disk; [dty] are the blocks pinned by the
    log, [hld] those whose buffer the process has locked.  Reading and releasing
    keep [view]; only writing changes it. *)

From stdpp Require Import functions.
From S2P Require Import Prelude Mem Disk.
#[local] Open Scope Z_scope.

Definition NBUF : nat := 30.
Definition bhead : nat := NBUF.

Record bst (D : Type) := BSt {
  bufs : nat -> buf;
  bnext : nat -> nat;
  bprev : nat -> nat;
  bdrv : D;
}.
Arguments BSt {D} bufs bnext bprev bdrv.
Arguments bufs {D} b.
Arguments bnext {D} b.
Arguments bprev {D} b.
Arguments bdrv {D} b.

Definition set_buf {D} (i : nat) (x : buf) (st : bst D) : bst D :=
  BSt (<[i := x]> (bufs st)) (bnext st) (bprev st) (bdrv st).
Definition set_next {D} (i j : nat) (st : bst D) : bst D :=
  BSt (bufs st) (<[i := j]> (bnext st)) (bprev st) (bdrv st).
Definition set_prev {D} (i j : nat) (st : bst D) : bst D :=
  BSt (bufs st) (bnext st) (<[i := j]> (bprev st)) (bdrv st).

(** Links buffer [b] in behind the head. *)
Definition push_front {D} (b : nat) (st : bst D) : bst D :=
  let st := set_next b (bnext st bhead) st in
  let st := set_prev b bhead st in
  let st := set_prev (bnext st bhead) b st in
  set_next bhead b st.

(** [for(b = bcache.buf; b < bcache.buf+NBUF; b++)] with [n] buffers left. *)
Fixpoint binit_loop {D} (n b : nat) (st : bst D) : bst D :=
  match n with
  | O => st
  | S n => binit_loop n (S b) (set_buf b (set_lock initsleeplock (bufs st b)) (push_front b st))
  end.
Definition binit {D} (st : bst D) : bst D :=
  let st := set_prev bhead bhead st in
  let st := set_next bhead bhead st in
  binit_loop NBUF 0 st.

Section bio.
Context {D : Type} `{!DiskDriver D}.
(** The running process. *)
Context (pid : Z).

Definition is_key (dev blockno : Z) (x : buf) : bool := (b_dev x =? dev) && (b_blockno x =? blockno).
Definition is_free (x : buf) : bool := (b_refcnt x =? 0) && negb (dirty x).

(** The scans of [bget], each with fuel for the buffers on the list. *)
Fixpoint bget_cached (fuel : nat) (b : nat) (dev blockno : Z) : M (bst D) (option nat) :=
  match fuel with
  | O => diverge
  | S fuel =>
      if (b =? bhead)%nat then ret None
      else
        x <- gets (fun st => bufs st b) ;;
        if is_key dev blockno x then
          modify (set_buf b (set_refcnt (u32 (b_refcnt x + 1)) x)) ;;; ret (Some b)
        else b' <- gets (fun st => bnext st b) ;; bget_cached fuel b' dev blockno
  end.
Fixpoint bget_recycle (fuel : nat) (b : nat) (dev blockno : Z) : M (bst D) nat :=
  match fuel with
  | O => diverge
  | S fuel =>
      if (b =? bhead)%nat then panic "bget: no buffers"
      else
        x <- gets (fun st => bufs st b) ;;
        if is_free x then
          modify (set_buf b (Buf 0 dev blockno (b_lock x) 1 (b_data x))) ;;; ret b
        else b' <- gets (fun st => bprev st b) ;; bget_recycle fuel b' dev blockno
  end.
(** The part of [bget] under [bcache.lock]. *)
Definition bget_find (dev blockno : Z) : M (bst D) nat :=
  b <- gets (fun st => bnext st bhead) ;;
  r <- bget_cached (S NBUF) b dev blockno ;;
  match r with
  | Some b => ret b
  | None => b <- gets (fun st => bprev st bhead) ;; bget_recycle (S NBUF) b dev blockno
  end.
Definition lock_buf (b : nat) : M (bst D) unit :=
  x <- gets (fun st => bufs st b) ;;
  lk <- acquiresleep pid (b_lock x) ;;
  modify (set_buf b (set_lock lk x)).
Definition bget (dev blockno : Z) : M (bst D) nat :=
  b <- bget_find dev blockno ;; lock_buf b ;;; ret b.

Definition run_iderw (b : nat) : M (bst D) unit := fun st =>
  match iderw pid (bufs st b) (bdrv st) with
  | Ret x d => Ret tt (BSt (<[b := x]> (bufs st)) (bnext st) (bprev st) d)
  | Panic msg => Panic msg
  | Diverge => Diverge
  end.

Definition bread (dev blockno : Z) : M (bst D) nat :=
  b <- bget dev blockno ;;
  x <- gets (fun st => bufs st b) ;;
  (if negb (valid x) then run_iderw b else ret tt) ;;;
  ret b.

Definition bwrite (b : nat) : M (bst D) unit :=
  x <- gets (fun st => bufs st b) ;;
  panic_if (negb (holdingsleep pid (b_lock x))) "bwrite" ;;;
  modify (set_buf b (add_flag B_DIRTY x)) ;;;
  run_iderw b.

(** The part of [brelse] under [bcache.lock]. *)
Definition bput (b : nat) : M (bst D) unit :=
  x <- gets (fun st => bufs st b) ;;
  let x := set_refcnt (u32 (b_refcnt x - 1)) x in
  modify (set_buf b x) ;;;
  if b_refcnt x =? 0 then
    modify (fun st =>
      let st := set_prev (bnext st b) (bprev st b) st in
      let st := set_next (bprev st b) (bnext st b) st in
      push_front b st)
  else ret tt.
Definition brelse (b : nat) : M (bst D) unit :=
  x <- gets (fun st => bufs st b) ;;
  panic_if (negb (holdingsleep pid (b_lock x))) "brelse" ;;;
  modify (set_buf b (set_lock (releasesleep (b_lock x)) x)) ;;;
  bput b.

(** [memmove] into [b->data], and other changes of it, by the holder. *)
Definition bmodify (b : nat) (f : block -> block) : M (bst D) unit :=
  x <- gets (fun st => bufs st b) ;;
  modify (set_buf b (set_data (f (b_data x)) x)).
End bio.

(** ** The list *)

(** Following [nx] from [a] visits [l] and then [z]; [pv] leads back. *)
Fixpoint path (nx pv : nat -> nat) (a : nat) (l : list nat) (z : nat) : Prop :=
  match l with
  | [] => nx a = z /\ pv z = a
  | b :: l => nx a = b /\ pv b = a /\ path nx pv b l z
  end.

Lemma path_ext nx pv nx' pv' a l z :
  (forall x, x = a \/ x ∈ l -> nx' x = nx x) -> (forall x, x ∈ l \/ x = z -> pv' x = pv x) ->
  path nx pv a l z -> path nx' pv' a l z.
Proof.
  revert a. induction l as [|b l IH]; intros a Hn Hp; simpl.
  - intros [? ?]. rewrite Hn, Hp by auto. done.
  - intros (? & ? & ?). rewrite Hn, Hp by (rewrite ?elem_of_cons; auto). split_and!; try done.
    apply IH; [| |done]; intros x Hx; [apply Hn | apply Hp]; rewrite elem_of_cons; naive_solver.
Qed.

Lemma path_app nx pv a l1 b l2 z :
  path nx pv a (l1 ++ b :: l2) z <-> path nx pv a l1 b /\ path nx pv b l2 z.
Proof. revert a. induction l1 as [|c l1 IH]; intros a; simpl; [tauto|]. rewrite IH. tauto. Qed.

Lemma path_ends nx pv a l z :
  path nx pv a l z -> (nx a ∈ l \/ nx a = z) /\ (pv z = a \/ pv z ∈ l).
Proof.
  revert a. induction l as [|b l IH]; intros a; simpl; [intuition|].
  intros (-> & _ & Hp). destruct (IH _ Hp) as [_ H]. rewrite !elem_of_cons. intuition.
Qed.

Lemma elem_ne (x y : nat) (l : list nat) : x ∈ l -> y ∉ l -> x <> y.
Proof. by intros H1 H2 ->. Qed.

Lemma path_unlink nx pv a l1 b l2 z :
  path nx pv a (l1 ++ b :: l2) z -> NoDup (a :: l1 ++ b :: l2) -> z ∉ l1 ++ b :: l2 ->
  path (<[pv b := nx b]> nx) (<[nx b := pv b]> pv) a (l1 ++ l2) z.
Proof.
  revert a. induction l1 as [|c l1 IH]; intros a; simpl.
  - intros (Ha & Hb & Hp) Hnd Hz. rewrite Hb. apply NoDup_cons in Hnd as [Hab Hnd].
    apply NoDup_cons in Hnd as [Hbl Hnd]. destruct l2 as [|c l2]; simpl in *.
    + destruct Hp as [Hn _]. rewrite Hn, !fn_lookup_insert. done.
    + destruct Hp as (Hn & _ & Hp). rewrite Hn, !fn_lookup_insert. split_and!; try done.
      apply NoDup_cons in Hnd as [Hc Hnd]. rewrite !not_elem_of_cons in *.
      eapply path_ext; [| |exact Hp]; intros x [Hx|Hx]; rewrite fn_lookup_insert_ne; try done; subst;
        intuition congruence.
  - intros (Ha & Hc & Hp) Hnd Hz. apply NoDup_cons in Hnd as [Hac Hnd].
    assert (pv b ∈ c :: l1) as Hpb.
    { apply path_app in Hp as [Hp _]. apply path_ends in Hp as [_ Hp]. by apply elem_of_cons. }
    assert (nx b ∈ z :: l2) as Hnb.
    { apply path_app in Hp as [_ Hp]. apply path_ends in Hp as [Hp _]. apply elem_of_cons. tauto. }
    pose proof Hnd as [Hcl _]%NoDup_cons.
    rewrite not_elem_of_cons, not_elem_of_app, not_elem_of_cons in Hac, Hz.
    rewrite not_elem_of_app, not_elem_of_cons in Hcl.
    rewrite !fn_lookup_insert_ne.
    + split_and!; try done. apply IH; [done | done |]. rewrite not_elem_of_app, not_elem_of_cons. tauto.
    + eapply elem_ne; [exact Hnb|]. rewrite not_elem_of_cons. intuition.
    + eapply elem_ne; [exact Hpb|]. rewrite not_elem_of_cons. intuition.
Qed.

Lemma path_push nx pv a l z b :
  path nx pv a l z -> b <> a -> b ∉ l -> b <> z -> NoDup (a :: l) -> z ∉ l ->
  path (<[a := b]> (<[b := nx a]> nx)) (<[nx a := b]> (<[b := a]> pv)) a (b :: l) z.
Proof.
  intros Hp Hba Hbl Hbz Hnd Hz. apply NoDup_cons in Hnd as [Hal Hnd].
  pose proof (path_ends _ _ _ _ _ Hp) as [Hf _].
  assert (nx a <> b) as Hfb by (destruct Hf as [?| ->]; [by eapply elem_ne | done]).
  cbn [path]. rewrite fn_lookup_insert, (fn_lookup_insert_ne _ (nx a) b), fn_lookup_insert by done.
  split_and!; try done.
  destruct l as [|c l]; simpl in *.
  - destruct Hp as [Hn _]. rewrite Hn in *.
    rewrite (fn_lookup_insert_ne _ a b), !fn_lookup_insert by done. done.
  - destruct Hp as (Hn & _ & Hp). rewrite Hn in *.
    rewrite (fn_lookup_insert_ne _ a b), !fn_lookup_insert by done. split_and!; try done.
    rewrite !not_elem_of_cons in *. apply NoDup_cons in Hnd as [Hfl Hnd].
    eapply path_ext; [| |exact Hp]; intros x [Hx|Hx]; rewrite !fn_lookup_insert_ne; try done;
      try (intros ->; intuition congruence).
Qed.

(** The list holds every buffer once, in the order [l]. *)
Definition list_ok {D} (st : bst D) (l : list nat) : Prop :=
  path (bnext st) (bprev st) bhead l bhead /\ l ≡ₚ seq 0 NBUF.

Lemma list_ok_elem {D} (st : bst D) l i : list_ok st l -> i ∈ l <-> (i < NBUF)%nat.
Proof. intros [_ ->]. rewrite elem_of_seq. lia. Qed.
Lemma list_ok_nodup {D} (st : bst D) l : list_ok st l -> NoDup l /\ (bhead ∉ l).
Proof.
  intros H. split; [destruct H as [_ ->]; apply NoDup_seq|].
  rewrite (list_ok_elem _ _ _ H). unfold bhead. lia.
Qed.
Lemma list_ok_length {D} (st : bst D) l : list_ok st l -> length l = NBUF.
Proof. intros [_ ->]. apply length_seq. Qed.

(** The list depends on the pointers alone. *)
Lemma list_ok_ext {D} (st st' : bst D) l :
  bnext st' = bnext st -> bprev st' = bprev st -> list_ok st l -> list_ok st' l.
Proof. unfold list_ok. by intros -> ->. Qed.

Lemma push_front_ok {D} (st : bst D) l b :
  path (bnext st) (bprev st) bhead l bhead -> NoDup (bhead :: l) -> b <> bhead -> b ∉ l ->
  path (bnext (push_front b st)) (bprev (push_front b st)) bhead (b :: l) bhead /\
  bufs (push_front b st) = bufs st /\ bdrv (push_front b st) = bdrv st.
Proof.
  intros Hp Hnd Hb Hbl. split; [|done]. unfold push_front. cbn [bnext bprev set_next set_prev].
  rewrite (fn_lookup_insert_ne _ b bhead) by done.
  apply path_push; try done. by apply NoDup_cons in Hnd as [? _].
Qed.

(** Moving a buffer to the front. *)
Lemma move_front_ok {D} (st : bst D) l b :
  list_ok st l -> (b < NBUF)%nat ->
  exists l',
    list_ok (let st := set_prev (bnext st b) (bprev st b) st in
             let st := set_next (bprev st b) (bnext st b) st in push_front b st) l'.
Proof.
  intros Hl Hb. destruct (list_ok_nodup _ _ Hl) as [Hnd Hh]. pose proof Hl as [Hp Hperm].
  apply (list_ok_elem _ _ _ Hl) in Hb as Hin. apply list_elem_of_split in Hin as (l1 & l2 & ->).
  assert (NoDup (bhead :: l1 ++ l2) /\ (b ∉ l1 ++ l2)) as [Hnd' Hbl].
  { apply NoDup_app in Hnd as (H1 & H2 & H3). apply NoDup_cons in H3 as [H3 H4].
    rewrite not_elem_of_app, not_elem_of_cons in Hh. split; [|rewrite not_elem_of_app].
    - apply NoDup_cons. rewrite not_elem_of_app. split; [tauto|]. apply NoDup_app. split_and!; try done.
      intros x Hx Hx2. apply (H2 x Hx). by constructor.
    - split; [|done]. intros Hx. apply (H2 b Hx). constructor. }
  exists (b :: l1 ++ l2). cbv zeta. set (st1 := set_next _ _ _).
  assert (path (bnext st1) (bprev st1) bhead (l1 ++ l2) bhead) as Hp1.
  { pose proof (path_unlink _ _ _ _ _ _ _ Hp ltac:(by apply NoDup_cons) Hh) as Hu.
    replace (bnext st1) with (<[bprev st b := bnext st b]> (bnext st)); [done|].
    unfold st1. cbn [bnext bprev set_next set_prev]. f_equal.
    (* [b->prev] is read after [b->next->prev] is written, which is another buffer's *)
    rewrite fn_lookup_insert_ne; [done|]. intros E. apply path_app in Hp as [_ Hp].
    apply path_ends in Hp as [[Hin|Hin] _]; rewrite E in Hin.
    - apply Hbl, elem_of_app. by right.
    - unfold bhead in Hin. lia. }
  split.
  - apply push_front_ok; try done. unfold bhead. lia.
  - rewrite <- Hperm. by rewrite Permutation_middle.
Qed.

Lemma binit_loop_ok {D} n b (st : bst D) l :
  path (bnext st) (bprev st) bhead l bhead -> l ≡ₚ seq 0 b -> (b + n = NBUF)%nat ->
  exists l', list_ok (binit_loop n b st) l' /\ bdrv (binit_loop n b st) = bdrv st /\
    (forall i, bufs (binit_loop n b st) i =
       if decide (b <= i < NBUF)%nat then set_lock initsleeplock (bufs st i) else bufs st i).
Proof.
  revert b st l. induction n as [|n IH]; intros b st l Hp Hl Hb; cbn [binit_loop].
  { exists l. split_and!; [split; [done|] | done |].
    - by replace NBUF with b by lia.
    - intros i. by rewrite decide_False by lia. }
  assert ((b ∉ l) /\ NoDup (bhead :: l)) as [Hbl Hnd].
  { rewrite Hl. split; [rewrite elem_of_seq; lia|]. apply NoDup_cons. split; [|apply NoDup_seq].
    rewrite elem_of_seq. unfold bhead. lia. }
  destruct (push_front_ok st l b Hp Hnd) as (Hp' & Hbuf & Hdrv); [unfold bhead; lia | done |].
  destruct (IH (S b) (set_buf b (set_lock initsleeplock (bufs st b)) (push_front b st)) (b :: l))
    as (l' & Hl' & Hd' & Hb'); [done | | lia |].
  - rewrite Hl, seq_S. simpl. by rewrite Permutation_cons_append.
  - exists l'. split_and!; [done | by rewrite Hd' |]. intros i. rewrite Hb'. cbn [bufs set_buf].
    rewrite Hbuf. destruct (decide (i = b)) as [->|Hne].
    + rewrite decide_False, decide_True, fn_lookup_insert by lia. done.
    + rewrite fn_lookup_insert_ne by done. by repeat case_decide; try lia.
Qed.

(** [binit] puts every buffer on the list, unlocked. *)
Lemma binit_ok {D} (st : bst D) :
  exists l, list_ok (binit st) l /\ bdrv (binit st) = bdrv st /\
    (forall i, (i < NBUF)%nat -> bufs (binit st) i = set_lock initsleeplock (bufs st i)).
Proof.
  unfold binit. destruct (binit_loop_ok NBUF 0 (set_next bhead bhead (set_prev bhead bhead st)) [])
    as (l & Hl & Hd & Hb); [|done|lia|].
  - simpl. by rewrite !fn_lookup_insert.
  - exists l. split; [exact Hl|]. split; [exact Hd|].
    intros i Hi. rewrite Hb, decide_True by lia. reflexivity.
Qed.

Section scans.
Context {D : Type} `{!DiskDriver D}.

Lemma bget_cached_ok fuel a l dev blockno (st : bst D) :
  path (bnext st) (bprev st) a l bhead -> bhead ∉ l -> (length l < fuel)%nat ->
  bget_cached fuel (bnext st a) dev blockno st =
    match List.find (fun b => is_key dev blockno (bufs st b)) l with
    | Some b => Ret (Some b) (set_buf b (set_refcnt (u32 (b_refcnt (bufs st b) + 1)) (bufs st b)) st)
    | None => Ret None st
    end.
Proof.
  revert a l. induction fuel as [|fuel IH]; intros a l Hp Hh Hf; [lia|].
  destruct l as [|b l]; simpl in Hp; cbn [bget_cached List.find].
  - destruct Hp as [-> _]. by rewrite Nat.eqb_refl.
  - destruct Hp as (-> & _ & Hp). rewrite not_elem_of_cons in Hh. simpl in Hf.
    destruct (Nat.eqb_spec b bhead); [subst; tauto|]. unfold bind at 1, gets.
    destruct (is_key dev blockno (bufs st b)); [done|]. unfold bind. apply IH; [done | tauto | lia].
Qed.

Lemma bget_recycle_ok fuel l z dev blockno (st : bst D) :
  path (bnext st) (bprev st) bhead l z -> bhead ∉ l -> (length l < fuel)%nat ->
  bget_recycle fuel (bprev st z) dev blockno st =
    match List.find (fun b => is_free (bufs st b)) (reverse l) with
    | Some b => Ret b (set_buf b (Buf 0 dev blockno (b_lock (bufs st b)) 1 (b_data (bufs st b))) st)
    | None => Panic "bget: no buffers"
    end.
Proof.
  revert l z. induction fuel as [|fuel IH]; intros l z Hp Hh Hf; [lia|].
  destruct l as [|b l] using rev_ind; cbn [bget_recycle].
  - simpl in *. destruct Hp as [_ ->]. by rewrite Nat.eqb_refl.
  - rewrite reverse_snoc. cbn [List.find]. apply path_app in Hp as [Hp [_ ->]].
    rewrite not_elem_of_app, not_elem_of_cons in Hh. rewrite length_app in Hf. simpl in Hf.
    destruct (Nat.eqb_spec b bhead); [subst; tauto|]. unfold bind at 1, gets.
    destruct (is_free (bufs st b)); [done|]. unfold bind. apply IH; [done | tauto | lia].
Qed.

Lemma bget_find_ok dev blockno (st : bst D) l :
  list_ok st l ->
  bget_find dev blockno st =
    match List.find (fun b => is_key dev blockno (bufs st b)) l with
    | Some b => Ret b (set_buf b (set_refcnt (u32 (b_refcnt (bufs st b) + 1)) (bufs st b)) st)
    | None =>
        match List.find (fun b => is_free (bufs st b)) (reverse l) with
        | Some b => Ret b (set_buf b (Buf 0 dev blockno (b_lock (bufs st b)) 1 (b_data (bufs st b))) st)
        | None => Panic "bget: no buffers"
        end
    end.
Proof.
  intros Hl. destruct (list_ok_nodup _ _ Hl) as [_ Hh]. pose proof (list_ok_length _ _ Hl) as Hlen.
  destruct Hl as [Hp _]. unfold bget_find, bind, gets.
  rewrite (bget_cached_ok (S NBUF) bhead l) by (done || lia).
  destruct (List.find (fun b => is_key dev blockno (bufs st b)) l); [done|].
  by rewrite (bget_recycle_ok (S NBUF) l bhead) by (done || lia).
Qed.
End scans.

(** ** The cache is transparent *)

Section cache.
Context {D : Type} `{!DiskDriver D} `{!DiskLaws D}.
Context (pid : Z).

Implicit Types (st : bst D) (view : Z -> block) (dty hld : gset Z).

Definition buf_inv (nb : Z) view dty hld (x : buf) : Prop :=
  block_ok (b_data x) /\
  if b_dev x =? 1 then
    0 <= b_blockno x < nb /\
    b_refcnt x = (if decide (b_blockno x ∈ hld) then 1 else 0) /\
    b_lock x = (if decide (b_blockno x ∈ hld) then Sleeplock true pid else initsleeplock) /\
    (dirty x = true <-> b_blockno x ∈ dty) /\
    (valid x = true -> b_data x = view (b_blockno x)) /\
    (b_blockno x ∈ hld \/ b_blockno x ∈ dty -> valid x = true)
  else valid x = false /\ dirty x = false /\ b_refcnt x = 0 /\ b_lock x = initsleeplock.

(** Buffer [i] holds block [n]. *)
Definition handle st (i : nat) (n : Z) : Prop :=
  (i < NBUF)%nat /\ b_dev (bufs st i) = 1 /\ b_blockno (bufs st i) = n.

Definition bc_ok st view dty hld : Prop :=
  (exists l, list_ok st l) /\ driver_ok (bdrv st) /\
  (forall i, (i < NBUF)%nat -> buf_inv (nblocks (bdrv st)) view dty hld (bufs st i)) /\
  (forall i j n, handle st i n -> handle st j n -> i = j) /\
  (forall n, n ∈ hld \/ n ∈ dty -> exists i, handle st i n) /\
  (forall n, 0 <= n < nblocks (bdrv st) -> n ∉ hld -> n ∉ dty -> view n = disk_block (bdrv st) n) /\
  (forall n, 0 <= n < nblocks (bdrv st) -> block_ok (view n)).

Lemma handle_inv st view dty hld i n :
  bc_ok st view dty hld -> handle st i n ->
  let x := bufs st i in
  block_ok (b_data x) /\ 0 <= n < nblocks (bdrv st) /\
  b_refcnt x = (if decide (n ∈ hld) then 1 else 0) /\
  b_lock x = (if decide (n ∈ hld) then Sleeplock true pid else initsleeplock) /\
  (dirty x = true <-> n ∈ dty) /\ (valid x = true -> b_data x = view n) /\
  (n ∈ hld \/ n ∈ dty -> valid x = true).
Proof.
  intros (_ & _ & Hinv & _) (Hi & Hdev & <-) x. destruct (Hinv i Hi) as [Hok Hx].
  unfold x. rewrite Hdev in Hx. simpl in Hx. tauto.
Qed.

(** Replacing one buffer, for block [n], keeps the invariant when everything
    about other blocks stays. *)
Lemma bc_ok_set st st' view view' dty dty' hld hld' i n x :
  bc_ok st view dty hld -> (i < NBUF)%nat ->
  (forall j, bufs st' j = if decide (j = i) then x else bufs st j) ->
  (exists l, list_ok st' l) -> driver_ok (bdrv st') -> nblocks (bdrv st') = nblocks (bdrv st) ->
  b_dev x = 1 -> b_blockno x = n ->
  (forall j, j <> i -> ~ handle st j n) ->
  (forall k, handle st i k -> k = n \/ (k ∉ hld) /\ (k ∉ dty)) ->
  (forall k, k <> n -> view' k = view k /\ (k ∈ dty' <-> k ∈ dty) /\ (k ∈ hld' <-> k ∈ hld)) ->
  (forall k, 0 <= k < nblocks (bdrv st) -> k <> n -> disk_block (bdrv st') k = disk_block (bdrv st) k) ->
  buf_inv (nblocks (bdrv st)) view' dty' hld' x ->
  (n ∉ hld' -> n ∉ dty' -> view' n = disk_block (bdrv st') n) -> block_ok (view' n) ->
  bc_ok st' view' dty' hld'.
Proof.
  intros (Hl & Hd & Hinv & Huniq & Hcov & Hclean & Hvok) Hi Hbufs Hl' Hd' Hnb Hdev Hno Hother Hold
    Haway Hdisk Hx Hcl Hok.
  assert (forall j k, handle st' j k <-> (j = i /\ k = n) \/ (j <> i /\ handle st j k)) as Hh.
  { intros j k. unfold handle. rewrite Hbufs. destruct (decide (j = i)) as [->|]; naive_solver. }
  split_and!; try done.
  - intros j Hj. rewrite Hnb, Hbufs. destruct (decide (j = i)) as [->|Hne]; [done|].
    destruct (Hinv j Hj) as [Hb Hrest]. split; [done|].
    destruct (Z.eqb_spec (b_dev (bufs st j)) 1) as [E|E]; [|done].
    assert (b_blockno (bufs st j) <> n) as Hn by (intros <-; by apply (Hother j Hne)).
    destruct (Haway _ Hn) as (-> & Hdty & Hhld). rewrite Hdty.
    destruct (decide (b_blockno (bufs st j) ∈ hld')), (decide (b_blockno (bufs st j) ∈ hld)); tauto.
  - intros j1 j2 k [[-> ->]|[Hj1 H1]]%Hh [[-> Hk]|[Hj2 H2]]%Hh; try done.
    + by destruct (Hother j2 Hj2).
    + subst k. by destruct (Hother j1 Hj1).
    + by eapply Huniq.
  - intros k Hk. destruct (decide (k = n)) as [->|Hkn]; [exists i; apply Hh; by left|].
    destruct (Haway k Hkn) as (_ & Hdty & Hhld). rewrite Hdty, Hhld in Hk.
    destruct (Hcov k Hk) as [j Hj]. exists j. apply Hh. right. split; [|done].
    intros ->. destruct (Hold k Hj) as [?|[? ?]]; [done | tauto].
  - intros k Hk Hk1 Hk2. rewrite Hnb in Hk. destruct (decide (k = n)) as [->|Hkn]; [by auto|].
    destruct (Haway k Hkn) as (-> & Hdty & Hhld). rewrite Hdisk by done.
    apply Hclean; [done | by rewrite <- Hhld | by rewrite <- Hdty].
  - intros k Hk. rewrite Hnb in Hk. destruct (decide (k = n)) as [->|Hkn]; [done|].
    destruct (Haway k Hkn) as (-> & _). by apply Hvok.
Qed.

(** A buffer that is neither held nor pinned exists while those are few. *)
Lemma free_exists st view dty hld l :
  bc_ok st view dty hld -> list_ok st l -> (size (hld ∪ dty) < NBUF)%nat ->
  exists i, List.find (fun b => is_free (bufs st b)) (reverse l) = Some i /\ (i < NBUF)%nat /\
    is_free (bufs st i) = true.
Proof.
  intros Hbc Hl Hsz. pose proof Hbc as (_ & _ & Hinv & Huniq & _).
  destruct (List.find (fun b => is_free (bufs st b)) (reverse l)) as [i|] eqn:E.
  { exists i. apply List.find_some in E as [Hin Hf]. split_and!; try done.
    apply (list_ok_elem _ _ _ Hl). by apply elem_of_reverse, list_elem_of_In. }
  exfalso. assert (forall i, (i < NBUF)%nat -> handle st i (b_blockno (bufs st i)) /\
    (b_blockno (bufs st i) ∈ hld ∪ dty)) as Hbusy.
  { intros i Hi. assert (is_free (bufs st i) = false) as Hnf.
    { eapply (List.find_none _ _ E). apply list_elem_of_In, elem_of_reverse.
      by apply (list_ok_elem _ _ _ Hl). }
    destruct (Hinv i Hi) as [_ Hx]. unfold handle, is_free in *.
    destruct (Z.eqb_spec (b_dev (bufs st i)) 1) as [Ed|Ed].
    - split; [done|]. apply elem_of_union. destruct Hx as (_ & Hr & _ & Hd & _). rewrite Hr in Hnf.
      destruct (decide (b_blockno (bufs st i) ∈ hld)); [by left|]. right. apply Hd.
      by destruct (dirty (bufs st i)).
    - destruct Hx as (_ & Hd & Hr & _). by rewrite Hr, Hd in Hnf. }
  assert (list_to_set ((fun i => b_blockno (bufs st i)) <$> seq 0 NBUF) ⊆ hld ∪ dty) as Hsub.
  { intros n Hn. apply elem_of_list_to_set, list_elem_of_fmap in Hn as (i & -> & Hi%elem_of_seq).
    apply Hbusy. lia. }
  apply subseteq_size in Hsub. rewrite size_list_to_set in Hsub.
  - rewrite length_fmap, length_seq in Hsub. lia.
  - apply NoDup_fmap_2_strong; [|apply NoDup_seq]. intros i j Hi%elem_of_seq Hj%elem_of_seq Heq.
    apply (Huniq i j (b_blockno (bufs st i))); [apply Hbusy; lia | rewrite Heq; apply Hbusy; lia].
Qed.

Lemma find_key st l n :
  list_ok st l ->
  match List.find (fun b => is_key 1 n (bufs st b)) l with
  | Some i => handle st i n
  | None => forall i, ~ handle st i n
  end.
Proof using.
  intros Hl. destruct (List.find (fun b => is_key 1 n (bufs st b)) l) as [i|] eqn:E.
  - apply List.find_some in E as [Hin Hk]. unfold is_key in Hk. apply andb_true_iff in Hk as [H1 H2].
    apply Z.eqb_eq in H1, H2. split; [|done]. by apply (list_ok_elem _ _ _ Hl), list_elem_of_In.
  - intros i (Hi & Hd & Hb). apply (list_ok_elem _ _ _ Hl), list_elem_of_In in Hi.
    pose proof (List.find_none _ _ E i Hi) as Hk. unfold is_key in Hk. rewrite Hd, Hb, !Z.eqb_refl in Hk.
    done.
Qed.

Lemma set_buf_lookup st i x j : bufs (set_buf i x st) j = if decide (j = i) then x else bufs st j.
Proof using.
  cbn [bufs set_buf]. destruct (decide (j = i)) as [->|]; [apply fn_lookup_insert|].
  by rewrite fn_lookup_insert_ne.
Qed.
Lemma set_buf_twice st i x y j :
  bufs (set_buf i x (set_buf i y st)) j = if decide (j = i) then x else bufs st j.
Proof using. rewrite !set_buf_lookup. by destruct (decide (j = i)). Qed.

(** Picks the buffer for block [n]: one that is known for it or one that is
    free; either way it ends up referenced once and locked. *)
Lemma bget_ok st view dty hld n :
  bc_ok st view dty hld -> 0 <= n < nblocks (bdrv st) -> n ∉ hld ->
  (size (hld ∪ dty ∪ {[n]}) <= NBUF)%nat ->
  exists i x st1, bget pid 1 n st = Ret i st1 /\
    bnext st1 = bnext st /\ bprev st1 = bprev st /\ bdrv st1 = bdrv st /\
    (forall j, bufs st1 j = if decide (j = i) then x else bufs st j) /\
    (i < NBUF)%nat /\ b_dev x = 1 /\ b_blockno x = n /\ b_refcnt x = 1 /\
    b_lock x = Sleeplock true pid /\ block_ok (b_data x) /\
    (dirty x = true <-> n ∈ dty) /\ (valid x = true -> b_data x = view n) /\
    (n ∈ dty -> valid x = true) /\
    (forall j, j <> i -> ~ handle st j n) /\
    (forall k, handle st i k -> k = n \/ (k ∉ hld) /\ (k ∉ dty)).
Proof.
  intros Hbc Hn Hnh Hsz. pose proof Hbc as ([l Hl] & _ & Hinv & Huniq & Hcov & _).
  unfold bget. pose proof (bget_find_ok 1 n st l Hl) as Hf. pose proof (find_key st l n Hl) as Hk.
  destruct (List.find (fun b => is_key 1 n (bufs st b)) l) as [i|].
  - destruct (handle_inv st view dty hld i n Hbc Hk) as (Hb & _ & Hr & Hlk & Hd & Hv & Hv').
    rewrite decide_False in Hr by done. rewrite decide_False in Hlk by done. rewrite Hr in Hf.
    eexists i, (set_lock (Sleeplock true pid) (set_refcnt 1 (bufs st i))), _.
    rewrite (bind_Ret _ _ _ _ _ Hf). destruct Hk as (Hi & Hdev & Hno). split.
    { unfold lock_buf, bind, gets. cbn [bufs set_buf]. rewrite fn_lookup_insert.
      cbn [set_refcnt b_lock]. rewrite Hlk. reflexivity. }
    split_and!; try done.
    + intros j. apply set_buf_twice.
    + auto.
    + intros j Hj Hh. by apply Hj, (Huniq j i n).
    + intros k (_ & _ & <-). by left.
  - destruct (free_exists st view dty hld l Hbc Hl) as (i & E & Hi & Hfree).
    { eapply Nat.lt_le_trans; [|exact Hsz]. apply subset_size. split; [set_solver|].
      intros Hsub. assert (n ∈ hld ∪ dty) as [?|?]%elem_of_union by (apply Hsub; set_solver); [done|].
      destruct (Hcov n) as [j Hj]; [by right | by apply (Hk j)]. }
    rewrite E in Hf. unfold is_free in Hfree. apply andb_true_iff in Hfree as [Hr0 Hd0].
    apply Z.eqb_eq in Hr0. apply negb_true_iff in Hd0.
    assert (b_lock (bufs st i) = initsleeplock /\ forall k, handle st i k -> (k ∉ hld) /\ (k ∉ dty))
      as [Hlk Hout].
    { split.
      - destruct (Hinv i Hi) as [_ Hx]. destruct (b_dev (bufs st i) =? 1); [|tauto].
        destruct Hx as (_ & Hr & Hlk & _). rewrite Hlk. rewrite Hr0 in Hr.
        by destruct (decide (b_blockno (bufs st i) ∈ hld)).
      - intros k Hh. destruct (handle_inv st view dty hld i k Hbc Hh) as (_ & _ & Hr & _ & Hd & _).
        rewrite Hr0 in Hr. rewrite Hd0 in Hd. split; [by destruct (decide (k ∈ hld))|].
        intros ?. by destruct Hd as [_ Hd]; specialize (Hd ltac:(done)). }
    eexists i, (Buf 0 1 n (Sleeplock true pid) 1 (b_data (bufs st i))), _.
    rewrite (bind_Ret _ _ _ _ _ Hf). split.
    { unfold lock_buf, bind, gets. cbn [bufs set_buf]. rewrite fn_lookup_insert.
      cbn [b_lock]. rewrite Hlk. reflexivity. }
    split_and!; try done.
    + intros j. apply set_buf_twice.
    + apply (Hinv i Hi).
    + split; [done|]. intros Hd. destruct (Hcov n) as [j Hj]; [by right | by apply Hk in Hj].
    + intros Hd. destruct (Hcov n) as [j Hj]; [by right | by apply Hk in Hj].
    + intros k Hh. right. by apply Hout.
Qed.

(** [bread] returns the current contents in a locked buffer; nothing else is
    seen to change. *)
Lemma bread_ok st view dty hld n :
  bc_ok st view dty hld -> 0 <= n < nblocks (bdrv st) -> n ∉ hld ->
  (size (hld ∪ dty ∪ {[n]}) <= NBUF)%nat ->
  exists i st', bread pid 1 n st = Ret i st' /\ bc_ok st' view dty ({[n]} ∪ hld) /\
    handle st' i n /\ b_data (bufs st' i) = view n /\ nblocks (bdrv st') = nblocks (bdrv st) /\
    (forall k, 0 <= k < nblocks (bdrv st) -> disk_block (bdrv st') k = disk_block (bdrv st) k) /\
    (forall j k, k ∈ hld -> handle st j k -> handle st' j k) /\
    (bdrv st' = bdrv st \/
     exists x y, dirty x = false /\ iderw pid x (bdrv st) = Ret y (bdrv st')).
Proof.
  intros Hbc Hn Hnh Hsz.
  destruct (bget_ok st view dty hld n Hbc Hn Hnh Hsz) as
    (i & x & st1 & Hr & Hnx1 & Hpv1 & Hdrv1 & Hb1 & Hi & Hdev & Hno & Href & Hlk & Hbok & Hd & Hv & Hv' & Hother & Hold).
  pose proof Hbc as ([l Hl] & Hdrv & _ & _ & _ & Hclean & Hvok).
  unfold bread. rewrite (bind_Ret _ _ _ _ _ Hr).
  assert (bufs st1 i = x) as Ex by (rewrite Hb1; by rewrite decide_True).
  assert (exists st2 x2, (y <- gets (fun st => bufs st i) ;;
      (if negb (valid y) then run_iderw pid i else ret tt) ;;; ret i) st1 = Ret i st2 /\
    bnext st2 = bnext st /\ bprev st2 = bprev st /\ driver_ok (bdrv st2) /\
    nblocks (bdrv st2) = nblocks (bdrv st) /\
    (forall k, 0 <= k < nblocks (bdrv st) -> disk_block (bdrv st2) k = disk_block (bdrv st) k) /\
    (forall j, bufs st2 j = if decide (j = i) then x2 else bufs st j) /\
    b_dev x2 = 1 /\ b_blockno x2 = n /\ b_refcnt x2 = 1 /\ b_lock x2 = Sleeplock true pid /\
    (dirty x2 = true <-> n ∈ dty) /\ valid x2 = true /\ b_data x2 = view n /\
    (bdrv st2 = bdrv st \/
     exists x y, dirty x = false /\ iderw pid x (bdrv st) = Ret y (bdrv st2))) as
    (st2 & x2 & Hr2 & Hnx & Hpv & Hdrv2 & Hnb2 & Hdisk2 & Hbufs2 & E1 & E2 & E3 & E4 & E5 & E6 & E7 & Eio).
  { unfold bind at 1, gets. rewrite Ex. destruct (valid x) eqn:Evx; cbn [negb].
    - exists st1, x. rewrite Hdrv1. split_and!; try done; tauto.
    - assert (dirty x = false) as Edx.
      { destruct (dirty x) eqn:Edx; [|done]. assert (n ∈ dty) as Hin by (by apply Hd).
        specialize (Hv' Hin). congruence. }
      destruct (iderw_read pid x (bdrv st)) as (d' & Hio & Hdrv' & Hnb' & Hdisk'); try done.
      { split_and!; try done; [|rewrite Hno; lia | rewrite Hno; lia].
        rewrite Hlk. unfold holdingsleep. simpl. by rewrite Z.eqb_refl. }
      eexists _, (add_flag B_VALID (set_data (disk_block (bdrv st) (b_blockno x)) x)).
      unfold bind, run_iderw. rewrite Ex, Hdrv1, Hio. split; [reflexivity|].
      cbn [bnext bprev bdrv bufs]. split_and!; try done.
      + intros j. destruct (decide (j = i)) as [->|]; [by rewrite fn_lookup_insert|].
        rewrite fn_lookup_insert_ne, Hb1 by done. by rewrite decide_False.
      + destruct (dirty_flags (set_data (disk_block (bdrv st) (b_blockno x)) x)) as (_ & Hdd & _).
        unfold dirty in Hdd, Hd, Edx |- *. cbn [set_data b_flags] in Hdd. by rewrite Hdd.
      + apply valid_flags.
      + simpl. rewrite Hno. symmetry. apply Hclean; try done.
        intros Hin. specialize (Hv' Hin). congruence.
      + right. eauto. }
  exists i, st2. split; [done|].
  assert (bc_ok st2 view dty ({[n]} ∪ hld)) as Hbc2.
  { eapply (bc_ok_set st st2 view view dty dty hld _ i n x2); try done.
    - exists l. by eapply list_ok_ext.
    - intros k Hk. split_and!; [done | done |]. rewrite elem_of_union, elem_of_singleton. tauto.
    - intros k Hk _. by apply Hdisk2.
    - split; [rewrite E7; by apply Hvok|]. rewrite E1. simpl. rewrite E2, E3, E4, E5, E6, E7.
      rewrite !decide_True by set_solver. split_and!; done || lia.
    - intros H1. exfalso. apply H1. set_solver.
    - by apply Hvok. }
  assert (handle st2 i n) as Hhd by (split; [done|]; rewrite Hbufs2, decide_True by done; done).
  split_and!; try done.
  - rewrite Hbufs2. by rewrite decide_True.
  - intros j k Hk (Hj & Hdj & Hkj). unfold handle. rewrite Hbufs2.
    destruct (decide (j = i)) as [->|]; [|done]. destruct (Hold k) as [->|[? _]]; done.
Qed.

(** A change to the buffer of a held block. *)
Lemma bc_ok_held st st' view view' dty dty' hld hld' i n x :
  bc_ok st view dty hld -> handle st i n ->
  (forall j, bufs st' j = if decide (j = i) then x else bufs st j) ->
  (exists l, list_ok st' l) -> driver_ok (bdrv st') -> nblocks (bdrv st') = nblocks (bdrv st) ->
  b_dev x = 1 -> b_blockno x = n ->
  (forall k, k <> n -> view' k = view k /\ (k ∈ dty' <-> k ∈ dty) /\ (k ∈ hld' <-> k ∈ hld)) ->
  (forall k, 0 <= k < nblocks (bdrv st) -> k <> n -> disk_block (bdrv st') k = disk_block (bdrv st) k) ->
  buf_inv (nblocks (bdrv st)) view' dty' hld' x ->
  (n ∉ hld' -> n ∉ dty' -> view' n = disk_block (bdrv st') n) -> block_ok (view' n) ->
  bc_ok st' view' dty' hld' /\ (forall j k, handle st' j k <-> handle st j k).
Proof.
  intros Hbc Hh Hb Hl Hd Hnb Hdev Hno Haway Hdisk Hx Hcl Hok.
  pose proof Hbc as (_ & _ & _ & Huniq & _). split.
  - eapply (bc_ok_set st st' view view' dty dty' hld hld' i n x); try done.
    + apply Hh.
    + intros j Hj Hj'. by apply Hj, (Huniq j i n).
    + intros k (_ & _ & <-). left. by destruct Hh as (_ & _ & ->).
  - destruct Hh as (Hi & Hd1 & Hn1). intros j k. unfold handle. rewrite Hb.
    destruct (decide (j = i)) as [->|]; [|done]. rewrite Hdev, Hno, Hd1, Hn1. done.
Qed.

Lemma held_buf st view dty hld i n :
  bc_ok st view dty hld -> handle st i n -> n ∈ hld ->
  holdingsleep pid (b_lock (bufs st i)) = true /\ b_refcnt (bufs st i) = 1 /\
  valid (bufs st i) = true /\ b_data (bufs st i) = view n /\ b_dev (bufs st i) = 1 /\
  b_blockno (bufs st i) = n /\ b_lock (bufs st i) = Sleeplock true pid /\
  (dirty (bufs st i) = true <-> n ∈ dty) /\ 0 <= n < nblocks (bdrv st).
Proof.
  intros Hbc Hh Hn. destruct (handle_inv _ _ _ _ _ _ Hbc Hh) as (_ & Hr & Href & Hlk & Hd & Hv & Hv').
  rewrite decide_True in Href by done. rewrite decide_True in Hlk by done. rewrite Hlk.
  destruct Hh as (_ & ? & ?). unfold holdingsleep. cbn [locked lock_pid]. rewrite Z.eqb_refl.
  assert (valid (bufs st i) = true) by auto. split_and!; try done; auto; lia.
Qed.

Lemma bmodify_ok st view dty hld i n f :
  bc_ok st view dty hld -> handle st i n -> n ∈ hld -> block_ok (f (view n)) ->
  exists st', bmodify i f st = Ret tt st' /\ bc_ok st' (<[n := f (view n)]> view) dty hld /\
    (forall j k, handle st' j k <-> handle st j k) /\ bdrv st' = bdrv st.
Proof.
  intros Hbc Hh Hn Hok.
  destruct (held_buf _ _ _ _ _ _ Hbc Hh Hn) as (_ & Href & Hv & Hdata & Hdev & Hno & Hlk & Hd & Hr).
  pose proof Hbc as ([l Hl] & Hdrv & _). eexists. split; [reflexivity|].
  apply and_assoc. split; [|done]. rewrite Hdata.
  eapply bc_ok_held; [exact Hbc | exact Hh | intros j; apply set_buf_lookup | by exists l | done..| | done | | |].
  - intros k Hk. by rewrite fn_lookup_insert_ne.
  - split; [done|]. cbn [set_data b_dev b_blockno b_refcnt b_lock b_data]. rewrite Hdev, Hno, Href, Hlk.
    simpl. rewrite !decide_True, fn_lookup_insert by done. split_and!; done || lia.
  - done.
  - by rewrite fn_lookup_insert.
Qed.

(** [b->flags |= B_DIRTY], as [log_write] does it. *)
Definition bpin (b : nat) : M (bst D) unit :=
  x <- gets (fun st => bufs st b) ;; modify (set_buf b (add_flag B_DIRTY x)).

Lemma bpin_ok st view dty hld i n :
  bc_ok st view dty hld -> handle st i n -> n ∈ hld ->
  exists st', bpin i st = Ret tt st' /\ bc_ok st' view ({[n]} ∪ dty) hld /\
    (forall j k, handle st' j k <-> handle st j k) /\ bdrv st' = bdrv st.
Proof.
  intros Hbc Hh Hn.
  destruct (held_buf _ _ _ _ _ _ Hbc Hh Hn) as (_ & Href & Hv & Hdata & Hdev & Hno & Hlk & Hd & Hr).
  pose proof Hbc as ([l Hl] & Hdrv & _ & _ & _ & _ & Hvok). eexists. split; [reflexivity|].
  apply and_assoc. split; [|done].
  eapply bc_ok_held; [exact Hbc | exact Hh | intros j; apply set_buf_lookup | by exists l | done..| | done | | |].
  - intros k Hk. split_and!; [done | set_solver | done].
  - destruct (valid_flags (bufs st i)) as (_ & Hvf & _). destruct (dirty_flags (bufs st i)) as (Hdf & _).
    split; [cbn [b_data add_flag set_flags]; rewrite Hdata; by apply Hvok|].
    rewrite Hvf, Hdf. cbn [add_flag set_flags b_dev b_blockno b_refcnt b_lock b_data].
    rewrite Hdev, Hno, Href, Hlk. simpl. rewrite !decide_True by done.
    split_and!; try done; try lia. set_solver.
  - done.
  - by apply Hvok.
Qed.

(** [bwrite] makes the disk hold the current contents. *)
Lemma bwrite_ok st view dty hld i n :
  bc_ok st view dty hld -> handle st i n -> n ∈ hld ->
  exists st', bwrite pid i st = Ret tt st' /\ bc_ok st' view (dty ∖ {[n]}) hld /\
    (forall j k, handle st' j k <-> handle st j k) /\ nblocks (bdrv st') = nblocks (bdrv st) /\
    (forall k, 0 <= k < nblocks (bdrv st) ->
       disk_block (bdrv st') k = if k =? n then view n else disk_block (bdrv st) k) /\
    iderw pid (add_flag B_DIRTY (bufs st i)) (bdrv st) = Ret (bufs st' i) (bdrv st').
Proof.
  intros Hbc Hh Hn.
  destruct (held_buf _ _ _ _ _ _ Hbc Hh Hn) as (Hhs & Href & Hv & Hdata & Hdev & Hno & Hlk & Hd & Hr).
  pose proof Hbc as ([l Hl] & Hdrv & _ & _ & _ & _ & Hvok).
  destruct (valid_flags (bufs st i)) as (_ & Hvf & _). destruct (dirty_flags (bufs st i)) as (Hdf & _).
  set (x := add_flag B_DIRTY (bufs st i)) in *.
  destruct (iderw_write pid x (bdrv st)) as (d' & Hio & Hdrv' & Hnb' & Hdisk'); try done.
  { split_and!; try done; unfold x; cbn [add_flag set_flags b_blockno b_data]; rewrite ?Hno, ?Hdata;
      try lia; by apply Hvok. }
  cbn [x add_flag set_flags b_blockno b_data] in Hdisk'. rewrite Hno, Hdata in Hdisk'.
  eexists. split.
  { unfold bwrite, bind, gets, panic_if. rewrite Hhs. cbn. fold x. unfold run_iderw.
    rewrite set_buf_lookup, decide_True by done. cbn [bdrv set_buf]. rewrite Hio. reflexivity. }
  apply and_assoc. cbn [bdrv bufs]. rewrite fn_lookup_insert. split; [|done].
  eapply (bc_ok_held st _ _ _ _ _ _ _ i n (add_flag B_VALID (del_flag B_DIRTY x)));
    [exact Hbc | exact Hh | | by exists l | done..| | | | |].
  - intros j. cbn [bufs set_buf]. destruct (decide (j = i)) as [->|]; [by rewrite fn_lookup_insert|].
    by rewrite !fn_lookup_insert_ne.
  - intros k Hk. split_and!; [done | set_solver | done].
  - intros k Hk Hne. cbn [bdrv]. rewrite Hdisk' by done. by destruct (Z.eqb_spec k n).
  - destruct (valid_flags (del_flag B_DIRTY x)) as (Hv1 & _). destruct (dirty_flags x) as (_ & _ & Hd1 & _).
    destruct (dirty_flags (del_flag B_DIRTY x)) as (_ & Hd2 & _).
    split; [cbn [b_data add_flag del_flag set_flags x]; rewrite Hdata; by apply Hvok|].
    rewrite Hv1, Hd2, Hd1. cbn [x add_flag del_flag set_flags b_dev b_blockno b_refcnt b_lock b_data].
    rewrite Hdev, Hno, Href, Hlk. simpl. rewrite !decide_True by done.
    split_and!; try done; try lia. set_solver.
  - intros ? _. cbn [bdrv]. rewrite Hdisk' by done. by rewrite Z.eqb_refl.
  - by apply Hvok.
Qed.

(** [brelse] gives the buffer back; a block whose changes are on the disk or
    pinned by the log stays readable. *)
Lemma brelse_ok st view dty hld i n :
  bc_ok st view dty hld -> handle st i n -> n ∈ hld ->
  n ∈ dty \/ view n = disk_block (bdrv st) n ->
  exists st', brelse pid i st = Ret tt st' /\ bc_ok st' view dty (hld ∖ {[n]}) /\
    (forall j k, handle st' j k <-> handle st j k) /\ bdrv st' = bdrv st.
Proof.
  intros Hbc Hh Hn Hsafe.
  destruct (held_buf _ _ _ _ _ _ Hbc Hh Hn) as (Hhs & Href & Hv & Hdata & Hdev & Hno & Hlk & Hd & Hr).
  pose proof Hbc as ([l Hl] & Hdrv & _ & _ & _ & _ & Hvok).
  set (x := set_refcnt 0 (set_lock initsleeplock (bufs st i))).
  set (st1 := set_buf i x (set_buf i (set_lock initsleeplock (bufs st i)) st)).
  assert (list_ok st1 l) as Hl1 by (by eapply list_ok_ext; [| |exact Hl]).
  assert ((i < NBUF)%nat) as Hi by apply Hh.
  destruct (move_front_ok st1 l i Hl1 Hi) as [l' Hl']. cbv zeta in Hl'.
  set (st2 := push_front i _) in Hl'. exists st2. split.
  { unfold brelse, bind at 1 2, gets, panic_if. rewrite Hhs. unfold ret. cbn [negb].
    unfold bind at 1, modify at 1. unfold bput, bind at 1, gets. rewrite set_buf_lookup, decide_True by done.
    cbn [b_refcnt set_lock]. rewrite Href. change (u32 (1 - 1)) with 0. reflexivity. }
  apply and_assoc. split; [|done].
  eapply (bc_ok_held st st2 _ _ _ _ _ _ i n x); [exact Hbc | exact Hh | | by exists l' | done..| | done | | |].
  - intros j. apply set_buf_twice.
  - intros k Hk. split_and!; [done | done | set_solver].
  - split; [cbn [b_data x set_refcnt set_lock]; rewrite Hdata; by apply Hvok|].
    cbn [x set_refcnt set_lock b_dev b_blockno b_refcnt b_lock b_data].
    rewrite Hdev, Hno. simpl. rewrite !decide_False by set_solver.
    split_and!; try done; try lia.
  - intros _ ?. cbn. destruct Hsafe; done.
  - by apply Hvok.
Qed.
End cache.

Section boot.
Context {D : Type} `{!DiskDriver D} `{!DiskLaws D}.

(** [bcache] is static data: zeros. *)
Definition zero_buf : buf := Buf 0 0 0 (Sleeplock false 0) 0 (replicate 512 0).
Definition zero_cache (d : D) : bst D := BSt (fun _ => zero_buf) (fun _ => 0%nat) (fun _ => 0%nat) d.

Lemma boot_ok pid d :
  driver_ok d -> bc_ok pid (binit (zero_cache d)) (disk_block d) ∅ ∅ /\ bdrv (binit (zero_cache d)) = d.
Proof.
  intros Hd. destruct (binit_ok (zero_cache d)) as (l & Hl & Hdrv & Hb). cbn [bdrv zero_cache] in Hdrv.
  set (st0 := binit (zero_cache d)) in *. clearbody st0. cbn [bufs zero_cache] in Hb.
  split; [|exact Hdrv]. assert (forall i n, ~ handle st0 i n) as Hno.
  { intros i n (Hi & H1 & _). rewrite Hb in H1 by done. done. }
  split; [by exists l|]. rewrite Hdrv. split; [exact Hd|]. split_and!.
  - intros i Hi. rewrite Hb by done. cbn. split; [|done]. split; [done|].
    apply Forall_replicate. lia.
  - intros i j n H1. by apply Hno in H1.
  - intros n [?|?]; set_solver.
  - done.
  - intros n Hn. by apply disk_block_ok.
Qed.
End boot.

(** ** Many processes

    What other processes can do to the cache between two steps of one: a
    process that wants a block runs [bget_find] under [bcache.lock], waits for
    the buffer's sleep lock, works on the buffer, releases the lock and runs
    [bput].  [refs] lists who refers to which buffer, for which block, and how
    far they are. *)

Inductive phase := Waiting | Holding | Releasing.
Record ref := Ref { r_pid : Z; r_buf : nat; r_dev : Z; r_blockno : Z; r_phase : phase }.

#[export] Instance phase_eq_dec : EqDecision phase.
Proof. solve_decision. Defined.

Section processes.
Context {D : Type} `{!DiskDriver D}.

Inductive bstep : bst D * list ref -> bst D * list ref -> Prop :=
| bstep_get st st' refs p dev n i :
    dev <> 0 -> Z.of_nat (length refs) < W32 - 1 -> bget_find dev n st = Ret i st' ->
    bstep (st, refs) (st', Ref p i dev n Waiting :: refs)
| bstep_lock st st' r1 r2 p i dev n :
    lock_buf p i st = Ret tt st' ->
    bstep (st, r1 ++ Ref p i dev n Waiting :: r2) (st', r1 ++ Ref p i dev n Holding :: r2)
| bstep_work st r1 r2 p i dev n x d :
    b_dev x = b_dev (bufs st i) -> b_blockno x = b_blockno (bufs st i) ->
    b_lock x = b_lock (bufs st i) -> b_refcnt x = b_refcnt (bufs st i) ->
    bstep (st, r1 ++ Ref p i dev n Holding :: r2)
      (BSt (<[i := x]> (bufs st)) (bnext st) (bprev st) d, r1 ++ Ref p i dev n Holding :: r2)
| bstep_unlock st r1 r2 p i dev n :
    bstep (st, r1 ++ Ref p i dev n Holding :: r2)
      (set_buf i (set_lock (releasesleep (b_lock (bufs st i))) (bufs st i)) st,
       r1 ++ Ref p i dev n Releasing :: r2)
| bstep_put st st' r1 r2 p i dev n :
    bput i st = Ret tt st' ->
    bstep (st, r1 ++ Ref p i dev n Releasing :: r2) (st', r1 ++ r2).

Definition refs_to (i : nat) (refs : list ref) : list ref := filter (fun r => r_buf r = i) refs.
Definition holders (i : nat) (refs : list ref) : list ref :=
  filter (fun r => r_buf r = i /\ r_phase r = Holding) refs.

Definition refs_ok (c : bst D * list ref) : Prop :=
  (exists l, list_ok c.1 l) /\
  (forall i, (i < NBUF)%nat ->
     b_refcnt (bufs c.1 i) = Z.of_nat (length (refs_to i c.2)) /\
     length (holders i c.2) = (if locked (b_lock (bufs c.1 i)) then 1 else 0)%nat) /\
  (forall r, r ∈ c.2 -> (r_buf r < NBUF)%nat /\ r_dev r <> 0 /\
     b_dev (bufs c.1 (r_buf r)) = r_dev r /\ b_blockno (bufs c.1 (r_buf r)) = r_blockno r) /\
  (forall i j, (i < NBUF)%nat -> (j < NBUF)%nat -> b_dev (bufs c.1 i) <> 0 ->
     b_dev (bufs c.1 i) = b_dev (bufs c.1 j) -> b_blockno (bufs c.1 i) = b_blockno (bufs c.1 j) ->
     i = j) /\
  Z.of_nat (length c.2) < W32.

Lemma refs_to_mid i r1 r r2 :
  length (refs_to i (r1 ++ r :: r2)) =
    ((if decide (r_buf r = i) then 1 else 0) + length (refs_to i (r1 ++ r2)))%nat.
Proof using.
  unfold refs_to. rewrite !filter_app, filter_cons, !length_app. case_decide; simpl; lia.
Qed.
Lemma holders_mid i r1 r r2 :
  length (holders i (r1 ++ r :: r2)) =
    ((if decide (r_buf r = i /\ r_phase r = Holding) then 1 else 0) + length (holders i (r1 ++ r2)))%nat.
Proof using.
  unfold holders. rewrite !filter_app, filter_cons, !length_app. case_decide; simpl; lia.
Qed.
Lemma refs_to_cons i r refs :
  length (refs_to i (r :: refs)) =
    ((if decide (r_buf r = i) then 1 else 0) + length (refs_to i refs))%nat.
Proof using. apply (refs_to_mid i [] r refs). Qed.
Lemma holders_cons i r refs :
  length (holders i (r :: refs)) =
    ((if decide (r_buf r = i /\ r_phase r = Holding) then 1 else 0) + length (holders i refs))%nat.
Proof using. apply (holders_mid i [] r refs). Qed.
Lemma refs_to_nil i refs r : length (refs_to i refs) = 0%nat -> r ∈ refs -> r_buf r <> i.
Proof using.
  intros H%nil_length_inv Hr <-. apply (not_elem_of_nil r). unfold refs_to in H. rewrite <- H.
  by apply list_elem_of_filter.
Qed.
Lemma holders_le i refs : (length (holders i refs) <= length (refs_to i refs))%nat.
Proof using.
  induction refs as [|r refs IH]; [done|]. rewrite refs_to_cons, holders_cons. repeat case_decide; simpl in *; tauto || lia.
Qed.

Lemma bget_find_refs st st' refs p dev n i :
  refs_ok (st, refs) -> dev <> 0 -> Z.of_nat (length refs) < W32 - 1 ->
  bget_find dev n st = Ret i st' -> refs_ok (st', Ref p i dev n Waiting :: refs).
Proof.
  intros ([l Hl] & Hcnt & Hkey & Huniq & _) Hdev Hlen Hf. cbn [fst snd] in *.
  rewrite (bget_find_ok dev n st l Hl) in Hf.
  assert (forall j, length (refs_to j refs) <= length refs)%nat as Hle
    by (intros j; apply length_filter).
  destruct (List.find (fun b => is_key dev n (bufs st b)) l) as [b|] eqn:E.
  - injection Hf as -> <-. apply List.find_some in E as [Hin Hk]. unfold is_key in Hk.
    apply andb_true_iff in Hk as [Hk1%Z.eqb_eq Hk2%Z.eqb_eq].
    assert (i < NBUF)%nat as Hi by (by apply (list_ok_elem _ _ _ Hl), list_elem_of_In).
    destruct (Hcnt i Hi) as [Hci Hhi]. specialize (Hle i). rewrite u32_small by lia.
    split; [by exists l|]. cbn [fst snd]. split_and!.
    + intros j Hj. rewrite set_buf_lookup, refs_to_cons, holders_cons. cbn [r_buf r_phase].
      rewrite (decide_False (P := i = j /\ Waiting = Holding)) by (by intros [_ ?]).
      destruct (decide (j = i)) as [->|Hne]; [rewrite decide_True by done | rewrite decide_False by done].
      * cbn [b_refcnt set_refcnt b_lock]. split; [lia | done].
      * by apply Hcnt.
    + intros r [->|Hr]%elem_of_cons; rewrite set_buf_lookup.
      * simpl. by rewrite decide_True.
      * destruct (Hkey r Hr) as (? & ? & ? & ?). destruct (decide (r_buf r = i)) as [E|]; [|done].
        rewrite E in *. done.
    + intros j k Hj Hk'. rewrite !set_buf_lookup. intros H1 H2 H3. apply Huniq; try done;
        destruct (decide (j = i)) as [->|], (decide (k = i)) as [->|]; done.
    + simpl. lia.
  - destruct (List.find (fun b => is_free (bufs st b)) (reverse l)) as [b|] eqn:E2; [|done].
    injection Hf as -> <-. apply List.find_some in E2 as [Hin Hfree]. unfold is_free in Hfree.
    apply andb_true_iff in Hfree as [Hr0%Z.eqb_eq _].
    assert (i < NBUF)%nat as Hi.
    { apply (list_ok_elem _ _ _ Hl), elem_of_reverse. by apply list_elem_of_In. }
    destruct (Hcnt i Hi) as [Hci Hhi]. rewrite Hr0 in Hci.
    assert (length (refs_to i refs) = 0%nat) as Hnone by lia.
    assert (forall j, (j < NBUF)%nat -> ~ (b_dev (bufs st j) = dev /\ b_blockno (bufs st j) = n)) as Hnk.
    { intros j Hj [H1 H2]. apply (list_ok_elem _ _ _ Hl), list_elem_of_In in Hj.
      pose proof (List.find_none _ _ E j Hj) as Hk. unfold is_key in Hk.
      by rewrite H1, H2, !Z.eqb_refl in Hk. }
    split; [by exists l|]. cbn [fst snd]. split_and!.
    + intros j Hj. rewrite set_buf_lookup, refs_to_cons, holders_cons. cbn [r_buf r_phase].
      rewrite (decide_False (P := i = j /\ Waiting = Holding)) by (by intros [_ ?]).
      destruct (decide (j = i)) as [->|Hne]; [rewrite decide_True by done | rewrite decide_False by done].
      * cbn [b_refcnt b_lock]. rewrite Hnone. split; [lia | done].
      * by apply Hcnt.
    + intros r [->|Hr]%elem_of_cons; rewrite set_buf_lookup.
      * simpl. by rewrite decide_True.
      * rewrite decide_False by by eapply refs_to_nil. by apply Hkey.
    + intros j k Hj Hk'. rewrite !set_buf_lookup. intros H1 H2 H3.
      destruct (decide (j = i)) as [->|], (decide (k = i)) as [->|]; try done.
      * exfalso. by apply (Hnk k Hk').
      * exfalso. by apply (Hnk j Hj).
      * by apply Huniq.
    + simpl. lia.
Qed.

(** A step that changes buffer [i] but not what it is for, and the phase of one
    reference. *)
Lemma refs_ok_phase st st' r1 r2 p i dev n ph ph' x :
  refs_ok (st, r1 ++ Ref p i dev n ph :: r2) ->
  bnext st' = bnext st -> bprev st' = bprev st ->
  (forall j, bufs st' j = if decide (j = i) then x else bufs st j) ->
  b_dev x = b_dev (bufs st i) -> b_blockno x = b_blockno (bufs st i) ->
  b_refcnt x = b_refcnt (bufs st i) ->
  ((if decide (ph' = Holding) then 1 else 0) + (if locked (b_lock (bufs st i)) then 1 else 0) =
   (if decide (ph = Holding) then 1 else 0) + (if locked (b_lock x) then 1 else 0))%nat ->
  refs_ok (st', r1 ++ Ref p i dev n ph' :: r2).
Proof.
  intros ([l Hl] & Hcnt & Hkey & Huniq & Hlen) Hnx Hpv Hb Hd Hn Hr Hlk. cbn [fst snd] in *.
  assert (forall j, b_dev (bufs st' j) = b_dev (bufs st j) /\
    b_blockno (bufs st' j) = b_blockno (bufs st j) /\ b_refcnt (bufs st' j) = b_refcnt (bufs st j)) as Hsame
    by (intros j; rewrite Hb; by destruct (decide (j = i)) as [->|]).
  split; [exists l; by eapply list_ok_ext|]. cbn [fst snd]. split_and!.
  - intros j Hj. destruct (Hcnt j Hj) as [Hc Hh]. destruct (Hsame j) as (_ & _ & ->).
    rewrite refs_to_mid in *. rewrite holders_mid in *. cbn [r_buf r_phase] in *. split; [done|].
    rewrite Hb. destruct (decide (j = i)) as [->|Hne].
    + destruct (decide (ph = Holding)), (decide (ph' = Holding)); repeat case_decide; tauto || lia.
    + rewrite decide_False in Hh by naive_solver. by rewrite decide_False by naive_solver.
  - intros r [Hr'|[->|Hr']%elem_of_cons]%elem_of_app; destruct (Hsame (r_buf r)) as (-> & -> & _) || idtac.
    + apply Hkey. apply elem_of_app. by left.
    + cbn [r_buf r_dev r_blockno]. destruct (Hsame i) as (-> & -> & _).
      apply (Hkey (Ref p i dev n ph)). apply elem_of_app. right. constructor.
    + apply Hkey. apply elem_of_app. right. by constructor.
  - intros j k Hj Hk. destruct (Hsame j) as (-> & -> & _), (Hsame k) as (-> & -> & _). by apply Huniq.
  - rewrite length_app in *. simpl in *. lia.
Qed.

Lemma bput_refs st st' r1 r2 p i dev n :
  refs_ok (st, r1 ++ Ref p i dev n Releasing :: r2) -> bput i st = Ret tt st' ->
  refs_ok (st', r1 ++ r2).
Proof.
  intros ([l Hl] & Hcnt & Hkey & Huniq & Hlen) Hr. cbn [fst snd] in *.
  assert (i < NBUF)%nat as Hi.
  { apply (Hkey (Ref p i dev n Releasing)). apply elem_of_app. right. constructor. }
  destruct (Hcnt i Hi) as [Hci _]. rewrite refs_to_mid in Hci. cbn [r_buf] in Hci.
  rewrite decide_True in Hci by done. rewrite length_app in Hlen. simpl in Hlen.
  assert (length (refs_to i (r1 ++ r2)) <= length (r1 ++ r2))%nat as Hle by apply length_filter.
  rewrite length_app in Hle.
  set (x := set_refcnt (u32 (b_refcnt (bufs st i) - 1)) (bufs st i)).
  assert (b_refcnt x = Z.of_nat (length (refs_to i (r1 ++ r2)))) as Hx.
  { unfold x. cbn [b_refcnt set_refcnt]. rewrite Hci, u32_small by lia. lia. }
  assert (exists l', list_ok st' l') as Hl'.
  { unfold bput, bind, gets, modify in Hr. fold x in Hr. destruct (b_refcnt x =? 0); injection Hr as <-.
    - by apply (move_front_ok (set_buf i x st) l i).
    - exists l. by eapply list_ok_ext. }
  assert (forall j, bufs st' j = if decide (j = i) then x else bufs st j) as Hb.
  { intros j. rewrite <- set_buf_lookup. unfold bput, bind, gets, modify in Hr. fold x in Hr.
    by destruct (b_refcnt x =? 0); injection Hr as <-. }
  assert (forall j, b_dev (bufs st' j) = b_dev (bufs st j) /\
    b_blockno (bufs st' j) = b_blockno (bufs st j)) as Hsame
    by (intros j; rewrite Hb; by destruct (decide (j = i)) as [->|]).
  split; [done|]. cbn [fst snd]. split_and!.
  - intros j Hj. destruct (Hcnt j Hj) as [Hc Hh]. rewrite refs_to_mid in Hc. rewrite holders_mid in Hh.
    cbn [r_buf r_phase] in *. rewrite decide_False in Hh by (by intros [_ ?]). rewrite Hb.
    destruct (decide (j = i)) as [->|Hne]; [done|]. rewrite decide_False in Hc by done. done.
  - intros r Hr'. destruct (Hsame (r_buf r)) as [-> ->]. apply Hkey.
    rewrite elem_of_app, elem_of_cons. apply elem_of_app in Hr'. tauto.
  - intros j k Hj Hk. destruct (Hsame j) as [-> ->], (Hsame k) as [-> ->]. by apply Huniq.
  - rewrite length_app. lia.
Qed.

Lemma bstep_refs_ok c c' : bstep c c' -> refs_ok c -> refs_ok c'.
Proof.
  intros Hs Hok. destruct Hs as [st st' refs p dev n i Hd Hlen Hf | st st' r1 r2 p i dev n Hf
    | st r1 r2 p i dev n x d H1 H2 H3 H4 | st r1 r2 p i dev n | st st' r1 r2 p i dev n Hf].
  - by eapply bget_find_refs.
  - unfold lock_buf, bind, gets, acquiresleep in Hf.
    destruct (locked (b_lock (bufs st i))) eqn:E; [done|]. injection Hf as <-.
    eapply (refs_ok_phase st _ r1 r2 p i dev n Waiting Holding (set_lock (Sleeplock true p) (bufs st i)));
      try done.
    + intros j. apply set_buf_lookup.
    + simpl. rewrite E. done.
  - eapply (refs_ok_phase st _ r1 r2 p i dev n Holding Holding x); try done.
    + intros j. cbn [bufs]. destruct (decide (j = i)) as [->|]; [by rewrite fn_lookup_insert|].
      by rewrite fn_lookup_insert_ne.
    + by rewrite H3.
  - eapply (refs_ok_phase st _ r1 r2 p i dev n Holding Releasing
      (set_lock (releasesleep (b_lock (bufs st i))) (bufs st i))); try done.
    + intros j. apply set_buf_lookup.
    + assert (i < NBUF)%nat as Hi.
      { destruct Hok as (_ & _ & Hkey & _). apply (Hkey (Ref p i dev n Holding)). apply elem_of_app.
        right. constructor. }
      destruct Hok as (_ & Hcnt & _). destruct (Hcnt i Hi) as [_ Hh]. cbn [fst snd] in Hh.
      rewrite holders_mid in Hh. cbn [r_buf r_phase] in Hh. rewrite decide_True in Hh by done. simpl.
      destruct (locked (b_lock (bufs st i))); lia.
  - by eapply bput_refs.
Qed.
End processes.

(** ** Properties *)

(** C11: the buffer cache is transparent.  [bread] of a block the process does
    not hold returns a locked buffer with the block's current contents, whether
    from the cache, pinned by the log, or from the disk, as long as fewer than
    [NBUF] other blocks are held or pinned; what every block holds, what is
    pinned and what is on the disk stay as they were, also when a buffer is
    recycled.  This holds for every disk driver that satisfies the interface. *)
Theorem bread_returns_current {D} `{!DiskDriver D} `{!DiskLaws D} (pid n : Z) (st : bst D)
    (view : Z -> block) (dty hld : gset Z) :
  bc_ok pid st view dty hld -> 0 <= n < nblocks (bdrv st) -> n ∉ hld ->
  (size (hld ∪ dty ∪ {[n]}) <= NBUF)%nat ->
  exists i st', bread pid 1 n st = Ret i st' /\ bc_ok pid st' view dty ({[n]} ∪ hld) /\
    handle st' i n /\ b_data (bufs st' i) = view n /\
    holdingsleep pid (b_lock (bufs st' i)) = true /\
    (forall k, 0 <= k < nblocks (bdrv st) -> disk_block (bdrv st') k = disk_block (bdrv st) k).
Proof.
  intros Hbc Hn Hh Hsz. destruct (bread_ok pid st view dty hld n) as (i & st' & Hr & Hbc' & Hhd & Hd & _ & Hdisk & _); try done.
  exists i, st'. split_and!; try done. eapply held_buf; [done | done | set_solver].
Qed.
Lemma bread_returns_current_witness :
  let d := Memide 1048576 8 (fun _ => 7) in
  exists i st', bread 3 1 2 (binit (zero_cache d)) = Ret i st' /\
    b_data (bufs st' i) = replicate 512 7.
Proof.
  intros d. destruct (boot_ok 3 d) as [Hbc Hd]; [intros x; simpl; lia|].
  destruct (bread_returns_current 3 2 (binit (zero_cache d)) (disk_block d) ∅ ∅ Hbc) as
    (i & st' & Hr & _ & _ & Hdata & _).
  - rewrite Hd. cbn. lia.
  - apply not_elem_of_empty.
  - rewrite union_empty_l_L, union_empty_l_L, size_singleton. unfold NBUF. lia.
  - exists i, st'. split; [exact Hr|]. rewrite Hdata. reflexivity.
Defined.

(** C7: a reference stays good.  However the steps of many processes interleave,
    a process that has asked for a block, also while it sleeps on the buffer's
    lock, refers to a buffer that holds that very block; two processes asking
    for one block get one buffer; and at most one process holds a buffer's lock.
    So [bget] never recycles a buffer under a process that waits for it. *)
Theorem bcache_references_stay_good {D} `{!DiskDriver D} (d : D) (st : bst D) (refs : list ref) :
  rtc bstep (binit (zero_cache d), []) (st, refs) ->
  (forall r, r ∈ refs -> is_key (r_dev r) (r_blockno r) (bufs st (r_buf r)) = true) /\
  (forall r r', r ∈ refs -> r' ∈ refs -> r_dev r = r_dev r' -> r_blockno r = r_blockno r' ->
     r_buf r = r_buf r') /\
  (forall i, (i < NBUF)%nat -> (length (holders i refs) <= 1)%nat /\
     b_refcnt (bufs st i) = Z.of_nat (length (refs_to i refs))).
Proof.
  intros Hs. assert (refs_ok (st, refs)) as (_ & Hcnt & Hkey & Huniq & _).
  { eapply (rtc_invariant bstep refs_ok); [apply bstep_refs_ok | | exact Hs].
    destruct (binit_ok (zero_cache d)) as (l & Hl & _ & Hb). set (st0 := binit (zero_cache d)) in *.
    clearbody st0. cbn [bufs zero_cache] in Hb. split; [by exists l|]. cbn [fst snd]. split_and!.
    - intros i Hi. rewrite Hb by done. done.
    - intros r Hr. by apply not_elem_of_nil in Hr.
    - intros i j Hi Hj. rewrite Hb by done. done.
    - simpl. lia. }
  cbn [fst snd] in *. split_and!.
  - intros r Hr. destruct (Hkey r Hr) as (_ & _ & H1 & H2). unfold is_key.
    by rewrite H1, H2, !Z.eqb_refl.
  - intros r r' Hr Hr' Hd Hn. destruct (Hkey r Hr) as (H1 & H2 & H3 & H4).
    destruct (Hkey r' Hr') as (H5 & H6 & H7 & H8). apply Huniq; congruence.
  - intros i Hi. destruct (Hcnt i Hi) as [H1 H2]. split; [|done]. rewrite H2.
    destruct (locked _); lia.
Qed.
Lemma bcache_references_stay_good_witness :
  exists (st : bst memide) refs, length refs = 1%nat /\
    (forall r, r ∈ refs -> is_key (r_dev r) (r_blockno r) (bufs st (r_buf r)) = true).
Proof.
  set (d := Memide 1048576 8 (fun _ => 7)).
  destruct (binit_ok (zero_cache d)) as (l & Hl & _ & Hb).
  pose proof (bget_find_ok 1 2 (binit (zero_cache d)) l Hl) as Hf.
  pose proof (find_key (binit (zero_cache d)) l 2 Hl) as Hk.
  destruct (List.find (fun b => is_key 1 2 (bufs (binit (zero_cache d)) b)) l) as [i|].
  { exfalso. destruct Hk as (Hi & Hd & _). rewrite Hb in Hd by exact Hi. discriminate Hd. }
  destruct (List.find (fun b => is_free (bufs (binit (zero_cache d)) b)) (reverse l)) as [i|] eqn:E.
  - eexists _, [Ref 3 i 1 2 Waiting]. split; [reflexivity|].
    apply (bcache_references_stay_good d). apply rtc_once. apply bstep_get; [lia | simpl; lia | exact Hf].
  - exfalso. assert (0%nat ∈ l) as H0 by (apply (list_ok_elem _ _ _ Hl); unfold NBUF; lia).
    apply elem_of_reverse, list_elem_of_In in H0. pose proof (List.find_none _ _ E _ H0) as Hn.
    cbn beta in Hn. rewrite Hb in Hn by (unfold NBUF; lia). discriminate Hn.
Defined.
