(* ===== verification/Log.v ===== *)
(** * The write-ahead log (log.c)

    A transaction's blocks stay pinned in the cache until [commit] copies them
    to the log area, writes the header, copies them home and clears the header.
    [recover_from_log] redoes what a committed header names.

    The main theorem is crash safety: run on a disk that records its block
    writes ([traced]), a commit may be cut after any of them; recovery on what is
    then on the disk gives every home block its old contents, or every one its
    new contents.  One block write is taken to be atomic. *)

From stdpp Require Import functions.
From S2P Require Import Prelude Mem Disk Bio.
#[local] Open Scope Z_scope.

Abbreviation MAXOPBLOCKS := 10.
Abbreviation LOGSIZE := 30.

(** [struct log] with its [struct logheader]. *)
Record logst := Logst {
  lg_start : Z;
  lg_size : Z;
  lg_outstanding : Z;
  lg_committing : bool;
  lg_dev : Z;
  lh_n : Z;
  lh_block : list Z;
}.
Definition set_lh_n (n : Z) (g : logst) : logst :=
  Logst (lg_start g) (lg_size g) (lg_outstanding g) (lg_committing g) (lg_dev g) n (lh_block g).
Definition set_lh_block (bs : list Z) (g : logst) : logst :=
  Logst (lg_start g) (lg_size g) (lg_outstanding g) (lg_committing g) (lg_dev g) (lh_n g) bs.
Definition set_outstanding (n : Z) (g : logst) : logst :=
  Logst (lg_start g) (lg_size g) n (lg_committing g) (lg_dev g) (lh_n g) (lh_block g).
Definition set_committing (b : bool) (g : logst) : logst :=
  Logst (lg_start g) (lg_size g) (lg_outstanding g) b (lg_dev g) (lh_n g) (lh_block g).

(** [struct superblock] of fs.h. *)
Record superblock := Superblock {
  sb_size : Z;
  sb_nblocks : Z;
  sb_ninodes : Z;
  sb_nlog : Z;
  sb_logstart : Z;
  sb_inodestart : Z;
  sb_bmapstart : Z;
}.

(** The cache with its disk, and the log. *)
Record lst (D : Type) := LSt { lbc : bst D; llog : logst }.
Arguments LSt {D} lbc llog.
Arguments lbc {D} l.
Arguments llog {D} l.

Definition set_lbc {D} (b : bst D) (st : lst D) : lst D := LSt b (llog st).
Definition set_llog {D} (g : logst) (st : lst D) : lst D := LSt (lbc st) g.

Section log.
Context {D : Type} `{!DiskDriver D} (pid : Z).

Definition cache {A} (m : M (bst D) A) : M (lst D) A := zoom lbc set_lbc m.
Definition glog {A} (f : logst -> A) : M (lst D) A := gets (fun st => f (llog st)).
Definition mlog (f : logst -> logst) : M (lst D) unit := modify (fun st => set_llog (f (llog st)) st).
Definition data_of (b : nat) : M (lst D) block := gets (fun st => b_data (bufs (lbc st) b)).

(** [log.lh.block[i]]; outside the array C has no meaning for it. *)
Definition get_lh (i : Z) : M (lst D) Z :=
  bs <- glog lh_block ;;
  match bs !! Z.to_nat i with Some b => ret b | None => panic "log.lh.block: out of bounds" end.
Definition put_lh (i b : Z) : M (lst D) unit :=
  bs <- glog lh_block ;;
  panic_if (Z.of_nat (length bs) <=? i) "log.lh.block: out of bounds" ;;;
  mlog (set_lh_block (<[Z.to_nat i := b]> bs)).

(** [for (tail = 0; tail < log.lh.n; tail++)] with [k] blocks left. *)
Fixpoint install_loop (k : nat) (tail : Z) : M (lst D) unit :=
  match k with
  | O => ret tt
  | S k =>
      dev <- glog lg_dev ;; start <- glog lg_start ;;
      lbuf <- cache (bread pid dev (start + tail + 1)) ;;
      bno <- get_lh tail ;;
      dbuf <- cache (bread pid dev bno) ;;
      data <- data_of lbuf ;;
      cache (bmodify dbuf (fun _ => data)) ;;;
      cache (bwrite pid dbuf) ;;;
      cache (brelse pid lbuf) ;;;
      cache (brelse pid dbuf) ;;;
      install_loop k (tail + 1)
  end.
Definition install_trans : M (lst D) unit :=
  n <- glog lh_n ;; install_loop (Z.to_nat n) 0.

Fixpoint read_head_loop (k : nat) (i : Z) (data : block) : M (lst D) unit :=
  match k with
  | O => ret tt
  | S k =>
      put_lh i (s32 (get32 data (4 + 4 * Z.to_nat i))) ;;;
      read_head_loop k (i + 1) data
  end.
Definition read_head : M (lst D) unit :=
  dev <- glog lg_dev ;; start <- glog lg_start ;;
  buf <- cache (bread pid dev start) ;;
  data <- data_of buf ;;
  let n := s32 (get32 data 0) in
  mlog (set_lh_n n) ;;;
  read_head_loop (Z.to_nat n) 0 data ;;;
  cache (brelse pid buf).

(** The stores of [write_head] into the header block. *)
Fixpoint fill_header (k : nat) (i : nat) (bs : list Z) (d : block) : block :=
  match k with
  | O => d
  | S k => fill_header k (S i) bs (put32 d (4 + 4 * i) (u32 (default 0 (bs !! i))))
  end.
Definition write_head : M (lst D) unit :=
  dev <- glog lg_dev ;; start <- glog lg_start ;;
  buf <- cache (bread pid dev start) ;;
  n <- glog lh_n ;; bs <- glog lh_block ;;
  cache (bmodify buf (fun d => fill_header (Z.to_nat n) 0 bs (put32 d 0 (u32 n)))) ;;;
  cache (bwrite pid buf) ;;;
  cache (brelse pid buf).

Definition recover_from_log : M (lst D) unit :=
  read_head ;;; install_trans ;;; mlog (set_lh_n 0) ;;; write_head.

(** [readsb] of fs.c: the superblock is block 1. *)
Definition readsb (dev : Z) : M (lst D) superblock :=
  bp <- cache (bread pid dev 1) ;;
  d <- data_of bp ;;
  let sb := Superblock (get32 d 0) (get32 d 4) (get32 d 8) (get32 d 12) (get32 d 16) (get32 d 20)
              (get32 d 24) in
  cache (brelse pid bp) ;;;
  ret sb.

Definition initlog (dev : Z) : M (lst D) unit :=
  panic_if (BSIZE <=? 4 + 4 * LOGSIZE) "initlog: too big logheader" ;;;
  sb <- readsb dev ;;
  mlog (fun g => Logst (s32 (sb_logstart sb)) (s32 (sb_nlog sb)) (lg_outstanding g)
                   (lg_committing g) dev (lh_n g) (lh_block g)) ;;;
  recover_from_log.

(** The operation might exhaust the log. *)
Definition no_space (g : logst) : bool :=
  LOGSIZE <? lh_n g + (lg_outstanding g + 1) * MAXOPBLOCKS.
(** Waiting for a commit, with nobody else to run it, takes for ever. *)
Definition begin_op : M (lst D) unit :=
  g <- glog id ;;
  if lg_committing g then diverge
  else if no_space g then diverge
  else mlog (set_outstanding (lg_outstanding g + 1)).

Fixpoint write_log_loop (k : nat) (tail : Z) : M (lst D) unit :=
  match k with
  | O => ret tt
  | S k =>
      dev <- glog lg_dev ;; start <- glog lg_start ;;
      to <- cache (bread pid dev (start + tail + 1)) ;;
      bno <- get_lh tail ;;
      from <- cache (bread pid dev bno) ;;
      data <- data_of from ;;
      cache (bmodify to (fun _ => data)) ;;;
      cache (bwrite pid to) ;;;
      cache (brelse pid from) ;;;
      cache (brelse pid to) ;;;
      write_log_loop k (tail + 1)
  end.
Definition write_log : M (lst D) unit :=
  n <- glog lh_n ;; write_log_loop (Z.to_nat n) 0.

Definition commit : M (lst D) unit :=
  n <- glog lh_n ;;
  if 0 <? n then
    write_log ;;; write_head ;;; install_trans ;;; mlog (set_lh_n 0) ;;; write_head
  else ret tt.

Definition end_op : M (lst D) unit :=
  mlog (fun g => set_outstanding (lg_outstanding g - 1) g) ;;;
  g <- glog id ;;
  panic_if (lg_committing g) "log.committing" ;;;
  if lg_outstanding g =? 0 then
    mlog (set_committing true) ;;;
    commit ;;;
    mlog (set_committing false)
  else ret tt.

(** [for (i = 0; i < log.lh.n; i++) if (log.lh.block[i] == b->blockno) break;] *)
Fixpoint absorb (bs : list Z) (n : nat) (i : nat) (bno : Z) : nat :=
  match n with
  | O => i
  | S n => if default 0 (bs !! i) =? bno then i else absorb bs n (S i) bno
  end.
Definition log_full (g : logst) : bool := (LOGSIZE <=? lh_n g) || (lg_size g - 1 <=? lh_n g).
Definition log_write (b : nat) : M (lst D) unit :=
  g <- glog id ;;
  panic_if (log_full g) "too big a transaction" ;;;
  panic_if (lg_outstanding g <? 1) "log_write outside of trans" ;;;
  bno <- gets (fun st => b_blockno (bufs (lbc st) b)) ;;
  let i := absorb (lh_block g) (Z.to_nat (lh_n g)) 0 bno in
  put_lh (Z.of_nat i) bno ;;;
  (if Z.of_nat i =? lh_n g then mlog (set_lh_n (lh_n g + 1)) else ret tt) ;;;
  cache (bpin b).
End log.

(** ** Block writes *)

(** What a disk [d] holds after the writes [w]. *)
Definition wapply (w : list (Z * block)) (d : Z -> block) : Z -> block :=
  fold_left (fun d p => <[p.1 := p.2]> d) w d.

Lemma wapply_app w1 w2 d : wapply (w1 ++ w2) d = wapply w2 (wapply w1 d).
Proof. apply fold_left_app. Qed.
Lemma wapply_snoc w n b d : wapply (w ++ [(n, b)]) d = <[n := b]> (wapply w d).
Proof. by rewrite wapply_app. Qed.

Lemma wapply_out w d k : (forall b, (k, b) ∉ w) -> wapply w d k = d k.
Proof.
  revert d. induction w as [|[n b] w IH]; intros d Hk; [done|]. unfold wapply. simpl.
  fold (wapply w (<[n := b]> d)). rewrite IH; [apply fn_lookup_insert_ne|].
  - intros ->. apply (Hk b). constructor.
  - intros b' Hb'. apply (Hk b'). by constructor.
Qed.
Lemma wapply_in w d k b :
  NoDup w.*1 -> (k, b) ∈ w -> wapply w d k = b.
Proof.
  revert d. induction w as [|[n c] w IH]; intros d Hnd Hin; [by apply not_elem_of_nil in Hin|].
  rewrite fmap_cons in Hnd. apply NoDup_cons in Hnd as [Hn Hnd]. unfold wapply. simpl.
  fold (wapply w (<[n := c]> d)). apply elem_of_cons in Hin as [[= -> ->]|Hin]; [|by apply IH].
  rewrite wapply_out; [by rewrite fn_lookup_insert|]. intros b' Hb'. apply Hn.
  apply list_elem_of_fmap. by exists (n, b').
Qed.
Lemma wapply_ext w d d' k : d k = d' k -> wapply w d k = wapply w d' k.
Proof.
  revert d d'. induction w as [|[n b] w IH]; intros d d' H; [done|]. unfold wapply. simpl. apply IH.
  destruct (decide (n = k)) as [->|]; [by rewrite !fn_lookup_insert | by rewrite !fn_lookup_insert_ne].
Qed.
Lemma wapply_elem w d k : wapply w d k = d k \/ (k, wapply w d k) ∈ w.
Proof.
  revert d. induction w as [|[n b] w IH]; intros d; [by left|]. unfold wapply. simpl.
  fold (wapply w (<[n := b]> d)). destruct (IH (<[n := b]> d)) as [E|E]; [|right; by constructor].
  rewrite E. destruct (decide (n = k)) as [->|]; [|left; by rewrite fn_lookup_insert_ne].
  right. rewrite fn_lookup_insert. constructor.
Qed.

(** The block numbers of a header. *)
Definition lhb (bs : list Z) (t : Z) : Z := default 0 (bs !! Z.to_nat t).

(** The writes of [install_trans] and of [write_log], for the blocks from number
    [tail] on, when the blocks hold [view]. *)
Fixpoint home_writes (start : Z) (bs : list Z) (view : Z -> block) (tail : Z) (k : nat)
  : list (Z * block) :=
  match k with
  | O => []
  | S k => (lhb bs tail, view (start + tail + 1)) :: home_writes start bs view (tail + 1) k
  end.
Fixpoint log_writes (start : Z) (bs : list Z) (view : Z -> block) (tail : Z) (k : nat)
  : list (Z * block) :=
  match k with
  | O => []
  | S k => (start + tail + 1, view (lhb bs tail)) :: log_writes start bs view (tail + 1) k
  end.

Lemma elem_of_home_writes start bs view tail k p :
  p ∈ home_writes start bs view tail k <->
  exists t, tail <= t < tail + Z.of_nat k /\ p = (lhb bs t, view (start + t + 1)).
Proof.
  revert tail. induction k as [|k IH]; intros tail; cbn [home_writes].
  - rewrite elem_of_nil. split; [done|]. intros (t & ? & _). lia.
  - rewrite elem_of_cons, IH. split.
    + intros [->|(t & Ht & ->)]; [exists tail | exists t]; split; done || lia.
    + intros (t & Ht & ->). destruct (decide (t = tail)) as [->|]; [by left|].
      right. exists t. split; [lia|done].
Qed.
Lemma elem_of_log_writes start bs view tail k p :
  p ∈ log_writes start bs view tail k <->
  exists t, tail <= t < tail + Z.of_nat k /\ p = (start + t + 1, view (lhb bs t)).
Proof.
  revert tail. induction k as [|k IH]; intros tail; cbn [log_writes].
  - rewrite elem_of_nil. split; [done|]. intros (t & ? & _). lia.
  - rewrite elem_of_cons, IH. split.
    + intros [->|(t & Ht & ->)]; [exists tail | exists t]; split; done || lia.
    + intros (t & Ht & ->). destruct (decide (t = tail)) as [->|]; [by left|].
      right. exists t. split; [lia|done].
Qed.
Lemma home_writes_ext start bs v v' tail k :
  (forall t, tail <= t < tail + Z.of_nat k -> v (start + t + 1) = v' (start + t + 1)) ->
  home_writes start bs v tail k = home_writes start bs v' tail k.
Proof.
  revert tail. induction k as [|k IH]; intros tail H; cbn [home_writes]; [done|].
  rewrite (IH (tail + 1)), H by (intros; lia || (apply H; lia)). done.
Qed.
Lemma log_writes_ext start bs v v' tail k :
  (forall t, tail <= t < tail + Z.of_nat k -> v (lhb bs t) = v' (lhb bs t)) ->
  log_writes start bs v tail k = log_writes start bs v' tail k.
Proof.
  revert tail. induction k as [|k IH]; intros tail H; cbn [log_writes]; [done|].
  rewrite (IH (tail + 1)), H by (intros; lia || (apply H; lia)). done.
Qed.
Lemma log_writes_nodup start bs v tail k : NoDup (log_writes start bs v tail k).*1.
Proof.
  revert tail. induction k as [|k IH]; intros tail; cbn [log_writes]; [constructor|].
  rewrite fmap_cons. apply NoDup_cons. split; [|done]. cbn [fst].
  intros ([n b] & Hn & Hin)%list_elem_of_fmap. apply elem_of_log_writes in Hin as (t & Ht & [= -> _]).
  simpl in Hn. lia.
Qed.
Lemma home_writes_nodup start bs v tail k :
  (forall t t', tail <= t < tail + Z.of_nat k -> tail <= t' < tail + Z.of_nat k ->
     lhb bs t = lhb bs t' -> t = t') -> NoDup (home_writes start bs v tail k).*1.
Proof.
  revert tail. induction k as [|k IH]; intros tail Hinj; cbn [home_writes]; [constructor|].
  rewrite fmap_cons. apply NoDup_cons. split; [|apply IH; intros; apply Hinj; lia || done]. cbn [fst].
  intros ([n b] & Hn & Hin)%list_elem_of_fmap. apply elem_of_home_writes in Hin as (t & Ht & [= -> _]).
  simpl in Hn. apply Hinj in Hn; lia.
Qed.

Lemma size_le (X Y : gset Z) (x : Z) (n : nat) :
  X ⊆ {[x]} ∪ Y -> (S (size Y) <= n)%nat -> (size X <= n)%nat.
Proof.
  intros Hs Hy. apply subseteq_size in Hs. etrans; [exact Hs|]. rewrite size_union_alt, size_singleton.
  etrans; [|exact Hy]. simpl. apply le_n_S, subseteq_size. set_solver.
Qed.

(** ** The header block *)

Definition hdr_n (d : block) : Z := s32 (get32 d 0).
Definition hdr_b (d : block) (t : Z) : Z := s32 (get32 d (4 + 4 * Z.to_nat t)).
(** What [write_head] makes of the header block. *)
Definition header (n : Z) (bs : list Z) (d : block) : block :=
  fill_header (Z.to_nat n) 0 bs (put32 d 0 (u32 n)).

Lemma fill_header_ok k i bs d : block_ok d -> block_ok (fill_header k i bs d).
Proof. revert i d. induction k; intros i d H; simpl; auto using put32_ok. Qed.
Lemma get32_fill_0 k i bs d :
  block_ok d -> (i + k <= 127)%nat -> get32 (fill_header k i bs d) 0 = get32 d 0.
Proof.
  revert i d. induction k as [|k IH]; intros i d Hd Hi; [done|]. cbn [fill_header].
  rewrite IH by (lia || by apply put32_ok). destruct Hd as [Hl _].
  apply get32_put32_ne; lia.
Qed.
Lemma get32_fill k i bs d j :
  block_ok d -> (i + k <= 127)%nat -> (j <= 126)%nat ->
  get32 (fill_header k i bs d) (4 + 4 * j) =
    if decide (i <= j < i + k)%nat then u32 (default 0 (bs !! j)) else get32 d (4 + 4 * j).
Proof.
  revert i d. induction k as [|k IH]; intros i d Hd Hi Hj; cbn [fill_header].
  { by rewrite decide_False by lia. }
  rewrite IH by (lia || by apply put32_ok). destruct Hd as [Hl _].
  destruct (decide (j = i)) as [->|Hne].
  - rewrite decide_False, decide_True by lia. apply get32_put32_eq; [lia | apply u32_range].
  - rewrite get32_put32_ne by lia. by repeat case_decide; try lia.
Qed.

Lemma header_block_ok n bs d : block_ok d -> block_ok (header n bs d).
Proof. intros Hd. by apply fill_header_ok, put32_ok. Qed.
(** The header that is written is the header that is read back. *)
Lemma header_roundtrip n bs d :
  block_ok d -> 0 <= n <= 30 -> (forall t, 0 <= t < n -> 0 <= lhb bs t < 2147483648) ->
  hdr_n (header n bs d) = n /\ (forall t, 0 <= t < n -> hdr_b (header n bs d) t = lhb bs t).
Proof.
  intros Hd Hn Hbs. unfold hdr_n, hdr_b, header. pose proof Hd as [Hl _].
  assert (block_ok (put32 d 0 (u32 n))) as Hp by by apply put32_ok. split.
  - rewrite get32_fill_0, get32_put32_eq by (done || lia || apply u32_range).
    rewrite u32_small, s32_small by lia. done.
  - intros t Ht. rewrite get32_fill by (done || lia). rewrite decide_True by lia.
    specialize (Hbs t Ht). unfold lhb in Hbs |- *. rewrite u32_small, s32_small by lia. done.
Qed.

(** ** Recovery, as a function on disks *)

(** The block numbers that a header block names. *)
Definition hblist (h : block) : list Z := hdr_b h <$> seqZ 0 30.

Lemma lhb_hblist h t : 0 <= t < 30 -> lhb (hblist h) t = hdr_b h t.
Proof.
  intros Ht. unfold lhb, hblist. rewrite list_lookup_fmap, lookup_seqZ_lt by lia. simpl. f_equal. lia.
Qed.
Lemma home_writes_bs start bs bs' v tail k :
  (forall t, tail <= t < tail + Z.of_nat k -> lhb bs t = lhb bs' t) ->
  home_writes start bs v tail k = home_writes start bs' v tail k.
Proof.
  revert tail. induction k as [|k IH]; intros tail H; cbn [home_writes]; [done|].
  rewrite (IH (tail + 1)), H by (intros; lia || (apply H; lia)). done.
Qed.

Definition redo_writes (start : Z) (d : Z -> block) : list (Z * block) :=
  home_writes start (hblist (d start)) d 0 (Z.to_nat (hdr_n (d start))).
(** Redo what the header names, and clear it. *)
Definition recover_disk (start : Z) (d : Z -> block) : Z -> block :=
  <[start := put32 (d start) 0 0]> (wapply (redo_writes start d) d).

(** A disk whose header is clear recovers to itself. *)
Lemma recover_clear start d b : hdr_n (d start) = 0 -> b <> start -> recover_disk start d b = d b.
Proof.
  intros Hd Hb. unfold recover_disk, redo_writes. rewrite Hd. simpl. by apply fn_lookup_insert_ne.
Qed.

(** ** The cache on a recording disk *)

Lemma put_lh_ok {D} (st : lst D) i x :
  0 <= i < Z.of_nat (length (lh_block (llog st))) ->
  put_lh i x st = Ret tt (set_llog (set_lh_block (<[Z.to_nat i := x]> (lh_block (llog st))) (llog st)) st).
Proof.
  intros Hi. unfold put_lh, glog, bind, gets, panic_if, mlog, modify. by zcases.
Qed.

Section logspec.
Context {D0 : Type} `{!DiskDriver D0} `{!DiskLaws D0} (pid : Z).
Abbreviation D := (traced D0).
(** The disk at the start, and its size. *)
Context (d0 : Z -> block) (nb : Z).

Implicit Types (st : lst D) (view : Z -> block) (dty hld : gset Z) (w : list (Z * block)).

Definition lok st view dty hld w : Prop :=
  bc_ok pid (lbc st) view dty hld /\ tr_writes (bdrv (lbc st)) = w /\
  nblocks (bdrv (lbc st)) = nb /\
  (forall k, 0 <= k < nb -> disk_block (bdrv (lbc st)) k = wapply w d0 k).

Lemma bind_cache {A B} (m : M (bst D) A) (k : A -> M (lst D) B) st a b :
  m (lbc st) = Ret a b -> bind (cache m) k st = k a (set_lbc b st).
Proof using. unfold bind, cache, zoom. by intros ->. Qed.

Lemma lok_bread st view dty hld w n :
  lok st view dty hld w -> 0 <= n < nb -> n ∉ hld -> (size (hld ∪ dty ∪ {[n]}) <= NBUF)%nat ->
  exists i b, bread pid 1 n (lbc st) = Ret i b /\
    lok (set_lbc b st) view dty ({[n]} ∪ hld) w /\ handle b i n /\ b_data (bufs b i) = view n /\
    (forall j k, k ∈ hld -> handle (lbc st) j k -> handle b j k).
Proof.
  intros (Hbc & Hw & Hnb & Hdk) Hn Hh Hsz. rewrite <- Hnb in Hn.
  destruct (bread_ok pid (lbc st) view dty hld n Hbc Hn Hh Hsz) as
    (i & b & Hr & Hbc' & Hhd & Hd & Hnb' & Hdisk & Hkeep & Hio).
  exists i, b. split_and!; try done. split_and!; cbn [lbc set_lbc]; try done.
  - destruct Hio as [->|(x & y & Hx & Hio)]; [done|]. cbn [iderw traced_driver] in Hio.
    unfold traced_iderw in Hio. destruct (iderw pid x (tr_drv (bdrv (lbc st)))); try done.
    rewrite Hx, app_nil_r in Hio. by injection Hio as _ <-.
  - by rewrite Hnb'.
  - intros k Hk. rewrite Hdisk by lia. by apply Hdk.
Qed.

Lemma lok_bmodify st view dty hld w i n f :
  lok st view dty hld w -> handle (lbc st) i n -> n ∈ hld -> block_ok (f (view n)) ->
  exists b, bmodify i f (lbc st) = Ret tt b /\
    lok (set_lbc b st) (<[n := f (view n)]> view) dty hld w /\
    (forall j k, handle b j k <-> handle (lbc st) j k).
Proof.
  intros (Hbc & Hw & Hnb & Hdk) Hh Hn Hok.
  destruct (bmodify_ok pid (lbc st) view dty hld i n f Hbc Hh Hn Hok) as (b & Hr & Hbc' & Hhd & Hdrv).
  exists b. split_and!; try done. split_and!; cbn [lbc set_lbc]; rewrite ?Hdrv; done.
Qed.

Lemma lok_bwrite st view dty hld w i n :
  lok st view dty hld w -> handle (lbc st) i n -> n ∈ hld ->
  exists b, bwrite pid i (lbc st) = Ret tt b /\
    lok (set_lbc b st) view (dty ∖ {[n]}) hld (w ++ [(n, view n)]) /\
    (forall j k, handle b j k <-> handle (lbc st) j k).
Proof.
  intros (Hbc & Hw & Hnb & Hdk) Hh Hn.
  destruct (bwrite_ok pid (lbc st) view dty hld i n Hbc Hh Hn) as (b & Hr & Hbc' & Hhd & Hnb' & Hdisk & Hio).
  exists b. split_and!; try done. split_and!; cbn [lbc set_lbc]; try done.
  - destruct (held_buf _ _ _ _ _ _ _ Hbc Hh Hn) as (_ & _ & _ & Hdata & _ & Hno & _).
    cbn [iderw traced_driver] in Hio. unfold traced_iderw in Hio.
    destruct (iderw pid _ (tr_drv (bdrv (lbc st)))); try done.
    destruct (dirty_flags (bufs (lbc st) i)) as (Hd & _). rewrite Hd in Hio.
    injection Hio as _ <-. cbn [tr_writes]. rewrite Hw. cbn [add_flag set_flags b_blockno b_data].
    by rewrite Hno, Hdata.
  - by rewrite Hnb'.
  - intros k Hk. rewrite Hdisk, wapply_snoc by lia. destruct (Z.eqb_spec k n) as [->|].
    + by rewrite fn_lookup_insert.
    + rewrite fn_lookup_insert_ne by done. by apply Hdk.
Qed.

Lemma lok_brelse st view dty hld w i n :
  lok st view dty hld w -> handle (lbc st) i n -> n ∈ hld ->
  n ∈ dty \/ view n = wapply w d0 n ->
  exists b, brelse pid i (lbc st) = Ret tt b /\
    lok (set_lbc b st) view dty (hld ∖ {[n]}) w /\
    (forall j k, handle b j k <-> handle (lbc st) j k).
Proof.
  intros (Hbc & Hw & Hnb & Hdk) Hh Hn Hs.
  assert (0 <= n < nb) as Hr0.
  { destruct (held_buf _ _ _ _ _ _ _ Hbc Hh Hn) as (_ & _ & _ & _ & _ & _ & _ & _ & ?). lia. }
  destruct (brelse_ok pid (lbc st) view dty hld i n Hbc Hh Hn) as (b & Hr & Hbc' & Hhd & Hdrv).
  { destruct Hs as [?|Hs]; [by left|]. right. by rewrite Hdk. }
  exists b. split_and!; try done. split_and!; cbn [lbc set_lbc]; rewrite ?Hdrv; done.
Qed.

(** Blocks that are neither held nor pinned are on the disk. *)
Lemma lok_clean st view dty hld w n :
  lok st view dty hld w -> 0 <= n < nb -> n ∉ hld -> n ∈ dty \/ view n = wapply w d0 n.
Proof.
  intros (Hbc & _ & Hnb & Hdk) Hn Hh. destruct (decide (n ∈ dty)); [by left|]. right.
  rewrite <- Hdk by done. destruct Hbc as (_ & _ & _ & _ & _ & Hcl & _). apply Hcl; [lia | done | done].
Qed.

(** ** Copying blocks *)

Lemma view_block_ok st view dty hld w n :
  lok st view dty hld w -> 0 <= n < nb -> block_ok (view n).
Proof. intros (Hbc & _ & Hnb & _) Hn. apply Hbc. by rewrite Hnb. Qed.

Lemma get_lh_ok st i b :
  lh_block (llog st) !! Z.to_nat i = Some b -> get_lh i st = Ret b st.
Proof using. unfold get_lh, glog, bind, gets. by intros ->. Qed.

(** With both buffers in hand: copy, write, release. *)
Lemma copy_release st view dty w src dst i j :
  lok st view dty {[src; dst]} w -> src <> dst ->
  handle (lbc st) i src -> handle (lbc st) j dst -> b_data (bufs (lbc st) i) = view src ->
  src ∈ dty \/ view src = wapply w d0 src ->
  exists b1 b2 b3 b4,
    bmodify j (fun _ => view src) (lbc st) = Ret tt b1 /\
    bwrite pid j b1 = Ret tt b2 /\ brelse pid i b2 = Ret tt b3 /\ brelse pid j b3 = Ret tt b4 /\
    lok (set_lbc b4 st) (<[dst := view src]> view) (dty ∖ {[dst]}) ∅ (w ++ [(dst, view src)]).
Proof.
  intros Hl Hne Hi Hj Hdata Hsrc.
  assert (0 <= src < nb) as Hsr.
  { destruct Hl as (Hbc & _ & Hnb & _).
    destruct (held_buf _ _ _ _ _ _ _ Hbc Hi ltac:(set_solver)) as (_ & _ & _ & _ & _ & _ & _ & _ & ?). lia. }
  destruct (lok_bmodify st _ _ _ _ j dst (fun _ => view src) Hl Hj) as (b1 & R1 & L1 & H1);
    [set_solver | by eapply view_block_ok |].
  destruct (lok_bwrite _ _ _ _ _ j dst L1) as (b2 & R2 & L2 & H2); [by apply H1 | set_solver |].
  rewrite fn_lookup_insert in L2.
  destruct (lok_brelse _ _ _ _ _ i src L2) as (b3 & R3 & L3 & H3); [by apply H2, H1 | set_solver | |].
  { rewrite fn_lookup_insert_ne, wapply_snoc, fn_lookup_insert_ne by done. set_solver. }
  destruct (lok_brelse _ _ _ _ _ j dst L3) as (b4 & R4 & L4 & H4); [by apply H3, H2, H1 | set_solver | |].
  { right. by rewrite wapply_snoc, !fn_lookup_insert. }
  exists b1, b2, b3, b4. split_and!; try done.
  replace (({[src; dst]} ∖ {[src]}) ∖ {[dst]}) with (∅ : gset Z) in L4 by set_solver. done.
Qed.

Lemma install_one k tail st view dty w src dst :
  lok st view dty ∅ w -> lg_dev (llog st) = 1 -> src = lg_start (llog st) + tail + 1 ->
  lh_block (llog st) !! Z.to_nat tail = Some dst -> 0 <= src < nb -> 0 <= dst < nb -> src <> dst ->
  (size (dty ∪ {[src; dst]}) <= NBUF)%nat ->
  exists b, install_loop pid (S k) tail st = install_loop pid k (tail + 1) (set_lbc b st) /\
    lok (set_lbc b st) (<[dst := view src]> view) (dty ∖ {[dst]}) ∅ (w ++ [(dst, view src)]).
Proof.
  intros Hl Hdev Hst Hlh Hs Hd Hne Hsz. pose proof (lok_clean _ _ _ _ _ src Hl Hs ltac:(set_solver)) as Hcl.
  destruct (lok_bread st _ _ _ _ src Hl Hs) as (i & b1 & R1 & L1 & H1 & D1 & _); [set_solver| |].
  { etrans; [|exact Hsz]. apply subseteq_size. set_solver. }
  rewrite union_empty_r_L in L1.
  destruct (lok_bread (set_lbc b1 st) _ _ _ _ dst L1 Hd) as (j & b2 & R2 & L2 & H2 & D2 & K2); [set_solver| |].
  { etrans; [|exact Hsz]. apply subseteq_size. set_solver. }
  assert (handle b2 i src) as Hi2 by (apply K2; [set_solver | done]).
  rewrite (union_comm_L {[dst]} {[src]}) in L2.
  assert (b_data (bufs b2 i) = view src) as Di2.
  { destruct L2 as (Hbc2 & _). by apply (held_buf _ _ _ _ _ _ _ Hbc2 Hi2 ltac:(set_solver)). }
  destruct (copy_release _ view dty w src dst i j L2 Hne Hi2 H2 Di2 Hcl) as (b3 & b4 & b5 & b6 & R3 & R4 & R5 & R6 & L6).
  exists b6. split; [|done]. cbn [install_loop]. unfold bind at 1 2, glog, gets.
  rewrite Hdev, <- Hst, (bind_cache _ _ _ _ _ R1).
  rewrite (bind_Ret _ _ _ _ _ (get_lh_ok (set_lbc b1 st) tail dst Hlh)).
  rewrite (bind_cache _ _ _ _ _ R2). unfold bind at 1, data_of, gets. cbn [lbc set_lbc]. rewrite Di2.
  by rewrite (bind_cache _ _ _ _ _ R3), (bind_cache _ _ (set_lbc b3 st) _ _ R4),
    (bind_cache _ _ (set_lbc b4 st) _ _ R5), (bind_cache _ _ (set_lbc b5 st) _ _ R6).
Qed.

Lemma write_log_one k tail st view dty w src dst :
  lok st view dty ∅ w -> lg_dev (llog st) = 1 -> dst = lg_start (llog st) + tail + 1 ->
  lh_block (llog st) !! Z.to_nat tail = Some src -> 0 <= src < nb -> 0 <= dst < nb -> src <> dst ->
  (size (dty ∪ {[src; dst]}) <= NBUF)%nat ->
  exists b, write_log_loop pid (S k) tail st = write_log_loop pid k (tail + 1) (set_lbc b st) /\
    lok (set_lbc b st) (<[dst := view src]> view) (dty ∖ {[dst]}) ∅ (w ++ [(dst, view src)]).
Proof.
  intros Hl Hdev Hst Hlh Hs Hd Hne Hsz. pose proof (lok_clean _ _ _ _ _ src Hl Hs ltac:(set_solver)) as Hcl.
  destruct (lok_bread st _ _ _ _ dst Hl Hd) as (j & b1 & R1 & L1 & H1 & D1 & _); [set_solver| |].
  { etrans; [|exact Hsz]. apply subseteq_size. set_solver. }
  rewrite union_empty_r_L in L1.
  destruct (lok_bread (set_lbc b1 st) _ _ _ _ src L1 Hs) as (i & b2 & R2 & L2 & H2 & D2 & K2); [set_solver| |].
  { etrans; [|exact Hsz]. apply subseteq_size. set_solver. }
  assert (handle b2 j dst) as Hj2 by (apply K2; [set_solver | done]).
  destruct (copy_release _ view dty w src dst i j L2 Hne H2 Hj2 D2 Hcl) as (b3 & b4 & b5 & b6 & R3 & R4 & R5 & R6 & L6).
  exists b6. split; [|done]. cbn [write_log_loop]. unfold bind at 1 2, glog, gets.
  rewrite Hdev, <- Hst, (bind_cache _ _ _ _ _ R1).
  rewrite (bind_Ret _ _ _ _ _ (get_lh_ok (set_lbc b1 st) tail src Hlh)).
  rewrite (bind_cache _ _ _ _ _ R2). unfold bind at 1, data_of, gets. cbn [lbc set_lbc]. rewrite D2.
  by rewrite (bind_cache _ _ _ _ _ R3), (bind_cache _ _ (set_lbc b3 st) _ _ R4),
    (bind_cache _ _ (set_lbc b4 st) _ _ R5), (bind_cache _ _ (set_lbc b5 st) _ _ R6).
Qed.

(** ** The loops *)

(** The log occupies [lsize] blocks from [start] on: a header and at most
    [NBUF - 1] copies, so that pinned blocks leave a buffer free. *)
Definition geom (start lsize : Z) : Prop := 0 <= start /\ start + lsize <= nb /\ lsize <= 30.
Definition home (start lsize n : Z) : Prop := 0 <= n < nb /\ ~ (start <= n < start + lsize).

(** The first [n] numbers of a header are home blocks. *)
Definition hblocks (start lsize n : Z) (bs : list Z) : Prop :=
  0 <= n < lsize /\
  forall t, 0 <= t < n -> bs !! Z.to_nat t = Some (lhb bs t) /\ home start lsize (lhb bs t).

Lemma install_loop_ok k tail st view dty w start lsize n bs :
  lok st view dty ∅ w -> lg_dev (llog st) = 1 -> lg_start (llog st) = start ->
  lh_block (llog st) = bs -> geom start lsize -> hblocks start lsize n bs ->
  0 <= tail -> tail + Z.of_nat k = n ->
  (size (dty ∪ list_to_set (home_writes start bs view tail k).*1) <= 29)%nat ->
  let ws := home_writes start bs view tail k in
  exists b, install_loop pid k tail st = Ret tt (set_lbc b st) /\
    lok (set_lbc b st) (wapply ws view) (dty ∖ list_to_set ws.*1) ∅ (w ++ ws).
Proof.
  intros Hl Hdev Hst Hbs Hg Hh. revert tail st view dty w Hl Hdev Hst Hbs.
  induction k as [|k IH]; intros tail st view dty w Hl Hdev Hst Hbs Ht Hk Hsz ws.
  { exists (lbc st). unfold ws. cbn [home_writes]. destruct st as [b0 g0]. split; [done|].
    rewrite app_nil_r. simpl. by rewrite difference_empty_L. }
  unfold ws. cbn [home_writes] in *. rewrite fmap_cons in *. cbn [fst list_to_set] in Hsz |- *.
  destruct Hg as (Hg1 & Hg2 & Hg3). destruct Hh as (Hn & Hh). destruct (Hh tail) as [Hlk Hhome]; [lia|].
  set (src := start + tail + 1) in *. set (dst := lhb bs tail) in *.
  assert (0 <= src < nb /\ src <> dst /\ 0 <= dst < nb) as (Hs1 & Hs2 & Hs3)
    by (destruct Hhome as [? ?]; unfold src; lia).
  destruct (install_one k tail st view dty w src dst) as (b & Hr & Hl1); try done.
  { by rewrite Hst. }
  { by rewrite Hbs. }
  { eapply (size_le _ _ src); [|apply le_n_S, Hsz]. set_solver. }
  assert (home_writes start bs (<[dst := view src]> view) (tail + 1) k =
          home_writes start bs view (tail + 1) k) as Hext.
  { apply home_writes_ext. intros t Ht'. apply fn_lookup_insert_ne. destruct Hhome as [_ Hnl]. lia. }
  destruct (IH (tail + 1) (set_lbc b st) (<[dst := view src]> view) (dty ∖ {[dst]}) (w ++ [(dst, view src)]))
    as (b2 & Hr2 & Hl2); try done; try lia.
  { rewrite Hext. etrans; [|exact Hsz]. apply subseteq_size. set_solver. }
  rewrite Hext in Hl2. exists b2. split; [by rewrite Hr|].
  rewrite <- (assoc_L (++)) in Hl2. unfold wapply. cbn [fold_left fst snd].
  fold (wapply (home_writes start bs view (tail + 1) k) (<[dst := view src]> view)).
  replace (dty ∖ ({[dst]} ∪ list_to_set (home_writes start bs view (tail + 1) k).*1)) with
    ((dty ∖ {[dst]}) ∖ list_to_set (home_writes start bs view (tail + 1) k).*1); [done|].
  apply difference_difference_l_L.
Qed.

Lemma write_log_loop_ok k tail st view dty w start lsize n bs :
  lok st view dty ∅ w -> lg_dev (llog st) = 1 -> lg_start (llog st) = start ->
  lh_block (llog st) = bs -> geom start lsize -> hblocks start lsize n bs ->
  0 <= tail -> tail + Z.of_nat k = n ->
  (forall t, 0 <= t < n -> lhb bs t ∈ dty) -> (size dty <= 29)%nat ->
  (forall b, b ∈ dty -> home start lsize b) ->
  let ws := log_writes start bs view tail k in
  exists b, write_log_loop pid k tail st = Ret tt (set_lbc b st) /\
    lok (set_lbc b st) (wapply ws view) dty ∅ (w ++ ws).
Proof.
  intros Hl Hdev Hst Hbs Hg Hh. revert tail st view w Hl Hdev Hst Hbs.
  induction k as [|k IH]; intros tail st view w Hl Hdev Hst Hbs Ht Hk Hdty Hsz Hdh ws.
  { exists (lbc st). unfold ws. cbn [log_writes]. destruct st as [b0 g0]. split; [done|].
    by rewrite app_nil_r. }
  unfold ws. cbn [log_writes] in *.
  destruct Hg as (Hg1 & Hg2 & Hg3). destruct Hh as (Hn & Hh). destruct (Hh tail) as [Hlk Hhome]; [lia|].
  set (dst := start + tail + 1) in *. set (src := lhb bs tail) in *.
  assert (0 <= src < nb /\ src <> dst /\ 0 <= dst < nb /\ (dst ∉ dty)) as (Hs1 & Hs2 & Hs3 & Hs4).
  { assert (dst ∉ dty) by (intros [_ Hn']%Hdh; unfold dst in Hn'; lia).
    destruct Hhome as [? ?]. unfold dst in *. split_and!; done || lia. }
  destruct (write_log_one k tail st view dty w src dst) as (b & Hr & Hl1); try done.
  { by rewrite Hst. }
  { by rewrite Hbs. }
  { eapply (size_le _ dty dst); [|apply le_n_S, Hsz].
    assert (src ∈ dty) by (apply Hdty; lia). set_solver. }
  replace (dty ∖ {[dst]}) with dty in Hl1 by set_solver.
  assert (log_writes start bs (<[dst := view src]> view) (tail + 1) k =
          log_writes start bs view (tail + 1) k) as Hext.
  { apply log_writes_ext. intros t Ht'. apply fn_lookup_insert_ne.
    destruct (Hh t) as [_ [_ Hnl]]; [lia|]. unfold dst. lia. }
  destruct (IH (tail + 1) (set_lbc b st) (<[dst := view src]> view) (w ++ [(dst, view src)]))
    as (b2 & Hr2 & Hl2); try done; try lia.
  rewrite Hext in Hl2. exists b2. split; [by rewrite Hr|].
  by rewrite <- (assoc_L (++)) in Hl2.
Qed.

(** ** The header *)

Lemma write_head_ok st view dty w start n bs :
  lok st view dty ∅ w -> lg_dev (llog st) = 1 -> lg_start (llog st) = start ->
  lh_n (llog st) = n -> lh_block (llog st) = bs -> 0 <= start < nb -> start ∉ dty ->
  (size dty <= 29)%nat ->
  exists b, write_head pid st = Ret tt (set_lbc b st) /\
    lok (set_lbc b st) (<[start := header n bs (view start)]> view) dty ∅
      (w ++ [(start, header n bs (view start))]).
Proof.
  intros Hl Hdev Hst Hn Hbs Hs Hsd Hsz.
  destruct (lok_bread st _ _ _ _ start Hl Hs) as (i & b1 & R1 & L1 & H1 & D1 & _); [set_solver| |].
  { eapply (size_le _ dty start); [set_solver | unfold NBUF; lia]. }
  destruct (lok_bmodify (set_lbc b1 st) _ _ _ _ i start (header n bs) L1 H1) as (b2 & R2 & L2 & H2);
    [set_solver | by eapply header_block_ok, view_block_ok |].
  destruct (lok_bwrite (set_lbc b2 st) _ _ _ _ i start L2) as (b3 & R3 & L3 & H3);
    [by apply H2 | set_solver|]. rewrite fn_lookup_insert in L3.
  destruct (lok_brelse (set_lbc b3 st) _ _ _ _ i start L3) as (b4 & R4 & L4 & H4);
    [by apply H3, H2 | set_solver | right; by rewrite wapply_snoc, !fn_lookup_insert |].
  exists b4. replace (dty ∖ {[start]}) with dty in L4 by set_solver.
  replace (({[start]} ∪ ∅) ∖ {[start]}) with (∅ : gset Z) in L4 by set_solver. split; [|done].
  unfold write_head. unfold bind at 1 2, glog, gets. rewrite Hdev, Hst, (bind_cache _ _ _ _ _ R1).
  unfold bind at 1 2. cbn [llog set_lbc]. rewrite Hn, Hbs. fold (header n bs).
  rewrite (bind_cache _ _ (set_lbc b1 st) _ _ R2), (bind_cache _ _ (set_lbc b2 st) _ _ R3).
  unfold cache, zoom. cbn [lbc set_lbc] in R4 |- *. by rewrite R4.
Qed.

Lemma read_head_loop_ok k i data st :
  0 <= i -> i + Z.of_nat k <= Z.of_nat (length (lh_block (llog st))) ->
  exists bs, read_head_loop k i data st = Ret tt (set_llog (set_lh_block bs (llog st)) st) /\
    length bs = length (lh_block (llog st)) /\
    (forall t, 0 <= t -> bs !! Z.to_nat t =
       if (i <=? t) && (t <? i + Z.of_nat k) then Some (hdr_b data t)
       else lh_block (llog st) !! Z.to_nat t).
Proof using.
  revert i st. induction k as [|k IH]; intros i st Hi Hlen; cbn [read_head_loop].
  - exists (lh_block (llog st)). destruct st as [b []]. split_and!; try done. intros t Ht. by zcases.
  - rewrite (bind_Ret _ _ _ _ _ (put_lh_ok st i (s32 (get32 data (4 + 4 * Z.to_nat i))) ltac:(lia))).
    destruct (IH (i + 1) (set_llog (set_lh_block (<[Z.to_nat i := s32 (get32 data (4 + 4 * Z.to_nat i))]>
      (lh_block (llog st))) (llog st)) st)) as (bs & Hr & Hl & Hb);
      [lia | cbn [llog set_llog lh_block set_lh_block]; rewrite length_insert; lia |].
    exists bs. split; [exact Hr|]. cbn [llog set_llog lh_block set_lh_block] in Hl, Hb.
    rewrite length_insert in Hl. split; [done|]. intros t Ht. rewrite Hb by done.
    zcases; try done.
    + by rewrite list_lookup_insert_ne by lia.
    + assert (t = i) as -> by lia. rewrite list_lookup_insert_eq by lia. done.
    + by rewrite list_lookup_insert_ne by lia.
Qed.

Lemma read_head_ok st view dty w start :
  lok st view dty ∅ w -> lg_dev (llog st) = 1 -> lg_start (llog st) = start ->
  0 <= start < nb -> (size dty <= 29)%nat -> length (lh_block (llog st)) = 30%nat ->
  0 <= hdr_n (view start) <= 30 ->
  exists b bs, read_head pid st =
      Ret tt (LSt b (set_lh_block bs (set_lh_n (hdr_n (view start)) (llog st)))) /\
    lok (set_lbc b st) view dty ∅ w /\ length bs = 30%nat /\
    (forall t, 0 <= t < hdr_n (view start) -> bs !! Z.to_nat t = Some (hdr_b (view start) t)).
Proof.
  intros Hl Hdev Hst Hs Hsz Hlen Hn.
  pose proof (lok_clean _ _ _ _ _ start Hl Hs ltac:(set_solver)) as Hcl.
  destruct (lok_bread st _ _ _ _ start Hl Hs) as (i & b1 & R1 & L1 & H1 & D1 & _); [set_solver| |].
  { eapply (size_le _ dty start); [set_solver | unfold NBUF; lia]. }
  destruct (lok_brelse (set_lbc b1 st) _ _ _ _ i start L1) as (b2 & R2 & L2 & H2);
    [done | set_solver | done |].
  destruct (read_head_loop_ok (Z.to_nat (hdr_n (view start))) 0 (view start)
    (LSt b1 (set_lh_n (hdr_n (view start)) (llog st)))) as (bs & Hr & Hbl & Hb); [lia | simpl; lia |].
  replace (({[start]} ∪ ∅) ∖ {[start]}) with (∅ : gset Z) in L2 by set_solver.
  exists b2, bs. split_and!; [| done | by rewrite Hbl |].
  - unfold read_head. unfold bind at 1 2, glog, gets. rewrite Hdev, Hst, (bind_cache _ _ _ _ _ R1).
    unfold bind at 1, data_of, gets. cbn [lbc set_lbc]. rewrite D1. fold (hdr_n (view start)).
    unfold bind at 1, mlog, modify. cbn [llog set_lbc set_llog].
    unfold set_llog at 1. cbn [lbc]. rewrite (bind_Ret _ _ _ _ _ Hr).
    unfold cache, zoom. cbn [lbc set_llog]. cbn [lbc set_lbc] in R2. by rewrite R2.
  - intros t Ht. rewrite Hb by lia. zcases. done.
Qed.

(** ** Recovery and commit *)

Lemma install_trans_ok st view dty w start lsize n bs :
  lok st view dty ∅ w -> lg_dev (llog st) = 1 -> lg_start (llog st) = start ->
  lh_block (llog st) = bs -> lh_n (llog st) = n -> geom start lsize -> hblocks start lsize n bs ->
  (size (dty ∪ list_to_set (home_writes start bs view 0 (Z.to_nat n)).*1) <= 29)%nat ->
  let ws := home_writes start bs view 0 (Z.to_nat n) in
  exists b, install_trans pid st = Ret tt (set_lbc b st) /\
    lok (set_lbc b st) (wapply ws view) (dty ∖ list_to_set ws.*1) ∅ (w ++ ws).
Proof.
  intros Hl Hdev Hst Hbs Hn Hg Hh Hsz ws. unfold install_trans, glog, bind, gets. rewrite Hn.
  assert (0 <= n) by (destruct Hh; lia).
  eapply (install_loop_ok (Z.to_nat n) 0 st view dty w start lsize n bs); try done. lia.
Qed.

Lemma home_writes_size start bs v n :
  (size (list_to_set (home_writes start bs v 0 n).*1 : gset Z) <= n)%nat.
Proof.
  assert (length (home_writes start bs v 0 n).*1 = n) as Hlen.
  { rewrite length_fmap. generalize 0. induction n as [|k IH]; intros t; simpl; [done|]. by rewrite IH. }
  assert (forall l : list Z, size (list_to_set l : gset Z) <= length l)%nat as Hle.
  { induction l as [|x l IH]; [done|]. cbn [list_to_set length].
    eapply (size_le _ (list_to_set l) x); [done | by apply le_n_S]. }
  etrans; [apply Hle|]. by rewrite Hlen.
Qed.

Lemma wapply_not_home ws view start lsize k :
  (forall p, p ∈ ws -> home start lsize p.1) -> ~ home start lsize k -> wapply ws view k = view k.
Proof. intros Hw Hk. apply wapply_out. intros b Hb. by apply Hk, (Hw (k, b)). Qed.

Lemma home_writes_home start lsize n bs v :
  hblocks start lsize n bs -> forall p, p ∈ home_writes start bs v 0 (Z.to_nat n) -> home start lsize p.1.
Proof.
  intros [Hn Hb] p (t & Ht & ->)%elem_of_home_writes. cbn [fst]. apply Hb. lia.
Qed.

Lemma recover_ok st view w start lsize :
  lok st view ∅ ∅ w -> lg_dev (llog st) = 1 -> lg_start (llog st) = start -> geom start lsize ->
  0 < lsize -> length (lh_block (llog st)) = 30%nat -> 0 <= hdr_n (view start) < lsize ->
  (forall t, 0 <= t < hdr_n (view start) -> home start lsize (hdr_b (view start) t)) ->
  exists st', recover_from_log pid st = Ret tt st' /\
    lok st' (recover_disk start view) ∅ ∅
      (w ++ redo_writes start view ++ [(start, put32 (view start) 0 0)]) /\
    lh_n (llog st') = 0 /\ lg_start (llog st') = start /\ lg_dev (llog st') = 1 /\
    lg_size (llog st') = lg_size (llog st) /\ length (lh_block (llog st')) = 30%nat /\
    lg_outstanding (llog st') = lg_outstanding (llog st) /\ lg_committing (llog st') = lg_committing (llog st).
Proof.
  intros Hl Hdev Hst Hg Hls Hlen Hn Hb. pose proof Hg as (Hg1 & Hg2 & Hg3).
  destruct (read_head_ok st view ∅ w start) as (b1 & bs & Hr1 & L1 & Hbl & Hbs); try done; try lia.
  { rewrite size_empty. lia. }
  set (st1 := LSt b1 (set_lh_block bs (set_lh_n (hdr_n (view start)) (llog st)))) in *.
  assert (lok st1 view ∅ ∅ w) as L1' by exact L1.
  assert (hblocks start lsize (hdr_n (view start)) bs) as Hh.
  { split; [lia|]. intros t Ht. unfold lhb. rewrite Hbs by done. split; [done|]. by apply Hb. }
  assert (home_writes start bs view 0 (Z.to_nat (hdr_n (view start))) = redo_writes start view) as Hws.
  { apply home_writes_bs. intros t Ht. rewrite lhb_hblist by lia. unfold lhb. by rewrite Hbs by lia. }
  destruct (install_trans_ok st1 view ∅ w start lsize (hdr_n (view start)) bs) as (b2 & Hr2 & L2); try done.
  { rewrite union_empty_l_L. etrans; [apply home_writes_size|]. lia. }
  rewrite Hws in L2.
  replace (∅ ∖ list_to_set (redo_writes start view).*1) with (∅ : gset Z) in L2 by set_solver.
  assert (forall p, p ∈ redo_writes start view -> home start lsize p.1) as Hhome
    by (rewrite <- Hws; by apply home_writes_home).
  assert (wapply (redo_writes start view) view start = view start) as Hs.
  { apply (wapply_not_home _ _ start lsize); [done|]. unfold home. lia. }
  destruct (write_head_ok (LSt b2 (set_lh_n 0 (llog st1))) (wapply (redo_writes start view) view) ∅
    (w ++ redo_writes start view) start 0 bs) as (b3 & Hr3 & L3); try done; try lia.
  { rewrite size_empty. lia. }
  rewrite Hs, <- (assoc_L (++)) in L3. change (header 0 bs (view start)) with (put32 (view start) 0 0) in L3.
  exists (LSt b3 (set_lh_n 0 (llog st1))). split_and!; try done.
  unfold recover_from_log. rewrite (bind_Ret _ _ _ _ _ Hr1). rewrite (bind_Ret _ _ _ _ _ Hr2).
  unfold bind, mlog, modify. exact Hr3.
Qed.

(** The log in memory between transactions and during one: it names the pinned
    blocks, each once. *)
Definition log_ok st view dty hld w start lsize : Prop :=
  lok st view dty hld w /\ lg_dev (llog st) = 1 /\ lg_start (llog st) = start /\
  lg_size (llog st) = lsize /\ geom start lsize /\ 0 < lsize /\
  length (lh_block (llog st)) = 30%nat /\ nb <= 2147483648 /\
  hblocks start lsize (lh_n (llog st)) (lh_block (llog st)) /\
  (forall b, b ∈ dty <-> exists t, 0 <= t < lh_n (llog st) /\ b = lhb (lh_block (llog st)) t) /\
  (forall t t', 0 <= t < lh_n (llog st) -> 0 <= t' < lh_n (llog st) ->
     lhb (lh_block (llog st)) t = lhb (lh_block (llog st)) t' -> t = t').

Lemma dty_homes (dty : gset Z) n bs start v :
  (forall b, b ∈ dty <-> exists t, 0 <= t < n /\ b = lhb bs t) -> 0 <= n ->
  dty = list_to_set (home_writes start bs v 0 (Z.to_nat n)).*1.
Proof.
  intros Hd Hn. apply set_eq. intros b. rewrite Hd, elem_of_list_to_set, list_elem_of_fmap. split.
  - intros (t & Ht & ->). exists (lhb bs t, v (start + t + 1)). split; [done|].
    apply elem_of_home_writes. exists t. split; [lia|done].
  - intros ([x y] & -> & (t & Ht & [= -> ->])%elem_of_home_writes). exists t. split; [lia|done].
Qed.

(** The writes of a commit: the copies, the header, the home blocks, the header
    cleared. *)
Definition commit_writes (start n : Z) (bs : list Z) (view : Z -> block) : list (Z * block) :=
  log_writes start bs view 0 (Z.to_nat n) ++
  (start, header n bs (view start)) ::
  ((fun t => (lhb bs t, view (lhb bs t))) <$> seqZ 0 n) ++
  [(start, put32 (header n bs (view start)) 0 0)].

(** The home writes of a commit carry the new contents. *)
Lemma home_writes_commit start bs v view tail k :
  (forall t, tail <= t < tail + Z.of_nat k -> v (start + t + 1) = view (lhb bs t)) ->
  home_writes start bs v tail k = (fun t => (lhb bs t, view (lhb bs t))) <$> seqZ tail (Z.of_nat k).
Proof using.
  revert tail. induction k as [|k IH]; intros tail Hv; [done|].
  cbn [home_writes]. rewrite seqZ_cons by lia.
  replace (Z.pred (Z.of_nat (S k))) with (Z.of_nat k) by lia. rewrite fmap_cons.
  rewrite IH; [|intros; apply Hv; lia]. rewrite Hv by lia. done.
Qed.

Lemma commit_ok st view dty w start lsize :
  log_ok st view dty ∅ w start lsize -> 0 < lh_n (llog st) ->
  let n := lh_n (llog st) in let bs := lh_block (llog st) in
  exists st' view', commit pid st = Ret tt st' /\
    log_ok st' view' ∅ ∅ (w ++ commit_writes start n bs view) start lsize /\ lh_n (llog st') = 0 /\
    (forall b, home start lsize b -> view' b = view b) /\ lg_outstanding (llog st') = lg_outstanding (llog st) /\
    lg_committing (llog st') = lg_committing (llog st).
Proof.
  intros (Hl & Hdev & Hst & Hsize & Hg & Hls & Hlen & Hnb & Hh & Hd & Hinj) Hpos n bs.
  fold n bs in Hh, Hd, Hinj. pose proof Hg as (Hg1 & Hg2 & Hg3). pose proof Hh as [Hn Hhb].
  assert (size dty <= 29)%nat as Hsz.
  { rewrite (dty_homes dty n bs start view) by (done || lia). etrans; [apply home_writes_size|]. lia. }
  assert (forall b, b ∈ dty -> home start lsize b) as Hdh by (intros b (t & Ht & ->)%Hd; by apply Hhb).
  assert (start ∉ dty) as Hsd by (intros [_ ?]%Hdh; lia).
  destruct (write_log_loop_ok (Z.to_nat n) 0 st view dty w start lsize n bs) as (b1 & Hr1 & L1);
    try done; try lia.
  { intros t Ht. apply Hd. by exists t. }
  set (lw := log_writes start bs view 0 (Z.to_nat n)) in *. set (view1 := wapply lw view) in *.
  assert (forall k, ~ (start < k < start + lsize) -> view1 k = view k) as Hv1.
  { intros k Hk. apply wapply_out. intros b (t & Ht & [= -> _])%elem_of_log_writes. lia. }
  assert (forall t, 0 <= t < n -> view1 (start + t + 1) = view (lhb bs t)) as Hv1l.
  { intros t Ht. apply wapply_in; [apply log_writes_nodup|]. apply elem_of_log_writes. exists t.
    split; [lia|done]. }
  destruct (write_head_ok (set_lbc b1 st) view1 dty (w ++ lw) start n bs) as (b2 & Hr2 & L2); try done; try lia.
  rewrite (Hv1 start) in L2 by lia. set (h := header n bs (view start)) in *.
  set (view2 := <[start := h]> view1) in *.
  assert (forall k, k <> start -> view2 k = view1 k) as Hv2
    by (intros k Hk; unfold view2; by rewrite fn_lookup_insert_ne).
  destruct (install_trans_ok (set_lbc b2 st) view2 dty ((w ++ lw) ++ [(start, h)]) start lsize n bs)
    as (b3 & Hr3 & L3); try done.
  { rewrite <- (dty_homes dty n bs start view2) by (done || lia). by rewrite union_idemp_L. }
  rewrite <- (dty_homes dty n bs start view2), difference_diag_L in L3 by (done || lia).
  rewrite (home_writes_commit start bs view2 view 0) in L3.
  2:{ intros t Ht. rewrite Hv2 by lia. apply Hv1l. lia. }
  rewrite Z2Nat.id in L3 by lia.
  set (hw := (fun t => (lhb bs t, view (lhb bs t))) <$> seqZ 0 n) in *. set (view3 := wapply hw view2) in *.
  assert (forall p, p ∈ hw -> home start lsize p.1 /\ p.2 = view p.1) as Hhw.
  { intros p (t & -> & Ht%elem_of_seqZ)%list_elem_of_fmap. cbn [fst snd].
    split; [apply Hhb; lia | done]. }
  assert (view3 start = h) as Hs3.
  { unfold view3. rewrite wapply_out; [unfold view2; apply fn_lookup_insert|].
    intros b Hb. apply Hhw in Hb as [[_ ?] _]. cbn [fst] in *. lia. }
  destruct (write_head_ok (LSt b3 (set_lh_n 0 (llog st))) view3 ∅ (((w ++ lw) ++ [(start, h)]) ++ hw)
    start 0 bs) as (b4 & Hr4 & L4); try done; try lia; [rewrite size_empty; lia|].
  rewrite Hs3 in L4. change (header 0 bs h) with (put32 h 0 0) in L4.
  exists (LSt b4 (set_lh_n 0 (llog st))), (<[start := put32 h 0 0]> view3).
  split_and!.
  - unfold commit, glog, bind at 1, gets. fold n. destruct (Z.ltb_spec 0 n); [|lia].
    assert (write_log pid st = Ret tt (set_lbc b1 st)) as Hwl by exact Hr1.
    rewrite (bind_Ret _ _ _ _ _ Hwl), (bind_Ret _ _ _ _ _ Hr2). rewrite (bind_Ret _ _ _ _ _ Hr3).
    unfold bind, mlog, modify. exact Hr4.
  - split.
    { unfold commit_writes. fold lw h hw. rewrite <- !(assoc_L (++)) in L4. exact L4. }
    split_and!; cbn [llog lh_n set_lh_n lh_block]; try done; try lia.
    + split; [lia|]. intros t Ht. lia.
    + intros b. split; [set_solver|]. intros (t & Ht & _). lia.
  - done.
  - intros b Hb. rewrite fn_lookup_insert_ne by (intros <-; destruct Hb; lia). unfold view3.
    destruct (wapply_elem hw view2 b) as [E|E].
    + rewrite E, Hv2, Hv1; [done | destruct Hb; lia | intros ->; destruct Hb; lia].
    + by apply Hhw in E as [_ E].
  - done.
  - done.
Qed.

(** ** Crashes during a commit *)

Section crash.
Context (start lsize n : Z) (bs : list Z) (view : Z -> block).
Context (Hg : geom start lsize) (Hls : 0 < lsize) (Hnb : nb <= 2147483648).
Context (Hh : hblocks start lsize n bs).
Context (Hinj : forall t t', 0 <= t < n -> 0 <= t' < n -> lhb bs t = lhb bs t' -> t = t').
Context (Hclear : hdr_n (d0 start) = 0) (Hvs : view start = d0 start) (Hok : block_ok (d0 start)).
(** Blocks outside the transaction are on the disk. *)
Context (Hold : forall b, home start lsize b -> (forall t, 0 <= t < n -> b <> lhb bs t) -> view b = d0 b).

Let lw := log_writes start bs view 0 (Z.to_nat n).
Let h := header n bs (view start).
Let hw := (fun t => (lhb bs t, view (lhb bs t))) <$> seqZ 0 n.

Lemma crash_hdr : hdr_n h = n /\ forall t, 0 <= t < n -> hdr_b h t = lhb bs t.
Proof.
  destruct Hh as [Hn Hb], Hg as (? & ? & ?). apply header_roundtrip; [by rewrite Hvs | lia |].
  intros t Ht. destruct (Hb t Ht) as [_ [? _]]. lia.
Qed.
Lemma elem_of_lw p : p ∈ lw <-> exists t, 0 <= t < n /\ p = (start + t + 1, view (lhb bs t)).
Proof.
  destruct Hh as [Hn _]. unfold lw. rewrite elem_of_log_writes. split; intros (t & Ht & ->); exists t;
    (split; [lia | done]).
Qed.
Lemma elem_of_hw p : p ∈ hw <-> exists t, 0 <= t < n /\ p = (lhb bs t, view (lhb bs t)).
Proof.
  unfold hw. rewrite list_elem_of_fmap. split.
  - intros (t & -> & Ht%elem_of_seqZ). exists t. split; [lia|done].
  - intros (t & Ht & ->). exists t. split; [done|]. apply elem_of_seqZ. lia.
Qed.

(** A disk with the commit's header and copies recovers to the new contents. *)
Lemma recover_committed d b :
  d start = h -> (forall t, 0 <= t < n -> d (start + t + 1) = view (lhb bs t)) ->
  (forall k, home start lsize k -> (forall t, 0 <= t < n -> k <> lhb bs t) -> d k = d0 k) ->
  home start lsize b -> recover_disk start d b = view b.
Proof.
  intros Hds Hlog Hother Hb. destruct crash_hdr as [Hn1 Hb1]. destruct Hh as [Hn Hhb].
  destruct Hg as (? & ? & ?).
  unfold recover_disk. rewrite fn_lookup_insert_ne by (intros ->; destruct Hb; lia).
  unfold redo_writes. rewrite Hds, Hn1.
  assert (home_writes start (hblist h) d 0 (Z.to_nat n) = home_writes start bs d 0 (Z.to_nat n)) as ->.
  { apply home_writes_bs. intros t Ht. rewrite lhb_hblist by lia. apply Hb1. lia. }
  destruct (wapply_elem (home_writes start bs d 0 (Z.to_nat n)) d b) as [E|E].
  - rewrite E. assert (forall t, 0 <= t < n -> b <> lhb bs t \/ d b = view b) as Hcase.
    { intros t Ht. destruct (decide (b = lhb bs t)) as [->|]; [|by left]. right. rewrite <- E.
      rewrite <- Hlog by done. apply wapply_in.
      - apply home_writes_nodup. intros t1 t2 Ht1 Ht2. apply Hinj; lia.
      - apply elem_of_home_writes. exists t. split; [lia|done]. }
    destruct (decide (d b = view b)) as [|Hne]; [done|].
    rewrite Hother, <- Hold by (done || intros t Ht; by destruct (Hcase t Ht)). done.
  - apply elem_of_home_writes in E as (t & Ht & [= -> E]). rewrite E. apply Hlog. lia.
Qed.

Lemma crash_cases w1 w2 :
  w1 ++ w2 = commit_writes start n bs view ->
  let d1 := wapply w1 d0 in
  0 <= hdr_n (d1 start) < lsize /\
  (forall t, 0 <= t < hdr_n (d1 start) -> home start lsize (hdr_b (d1 start) t)) /\
  ((forall b, home start lsize b -> recover_disk start d1 b = d0 b) \/
   (forall b, home start lsize b -> recover_disk start d1 b = view b)) /\
  (w2 = [] -> forall b, home start lsize b -> recover_disk start d1 b = view b).
Proof.
  intros Hw d1. destruct Hh as [Hn Hhb]. pose proof Hg as (Hg1 & Hg2 & Hg3). destruct crash_hdr as [Hn1 Hb1].
  unfold commit_writes in Hw. fold lw h hw in Hw.
  assert (forall p, p ∈ lw -> p.1 <> start /\ ~ home start lsize p.1) as Hlw.
  { intros p (t & Ht & ->)%elem_of_lw. cbn [fst]. unfold home. lia. }
  assert (forall p, p ∈ hw -> p.1 <> start /\ home start lsize p.1 /\ p.2 = view p.1) as Hhw.
  { intros p (t & Ht & ->)%elem_of_hw. cbn [fst snd]. destruct (Hhb t Ht) as [_ Hhome].
    split_and!; try done. destruct Hhome. lia. }
  (* before the header is written *)
  assert (forall k, lw = w1 ++ k -> hdr_n (d1 start) = 0 /\
    forall b, home start lsize b -> recover_disk start d1 b = d0 b) as Hbefore.
  { intros k Hk. assert (forall p, p ∈ w1 -> p.1 <> start /\ ~ home start lsize p.1) as Hw1
      by (intros p Hp; apply Hlw; rewrite Hk; apply elem_of_app; by left).
    assert (d1 start = d0 start) as Hs by (apply wapply_out; intros b Hb; by destruct (Hw1 _ Hb)).
    rewrite Hs. split; [done|]. intros b Hb. rewrite recover_clear; [|by rewrite Hs | intros ->; destruct Hb; lia].
    apply wapply_out. intros c Hc. by destruct (Hw1 _ Hc). }
  apply app_eq_inv in Hw as [(k & Hw1 & Hk)|(k & Hk & Hw2)].
  2:{ destruct (Hbefore k Hk) as [Hz Hr]. rewrite Hz. split_and!; [lia | lia | intros; lia | by left |].
      intros ->. by destruct k. }
  destruct k as [|p k].
  { rewrite app_nil_r in Hw1. destruct (Hbefore [] ltac:(by rewrite app_nil_r)) as [Hz Hr]. rewrite Hz.
    split_and!; [lia | lia | intros; lia | by left |]. by intros ->. }
  injection Hk as <- Hk.
  (* after *)
  assert (forall k1, k = k1 -> (forall p, p ∈ k1 -> p ∈ hw) ->
    d1 start = h /\ forall b, home start lsize b -> recover_disk start d1 b = view b) as Hafter.
  { intros k1 <- Hk1. assert (d1 = wapply k (<[start := h]> (wapply lw d0))) as Hd1
      by (unfold d1; rewrite Hw1, wapply_app; done).
    assert (d1 start = h) as Hs.
    { rewrite Hd1, wapply_out; [by rewrite fn_lookup_insert|]. intros b Hb. by destruct (Hhw _ (Hk1 _ Hb)). }
    split; [done|]. intros b Hb. apply recover_committed; try done.
    - intros t Ht. rewrite Hd1, wapply_out; [rewrite fn_lookup_insert_ne by lia|].
      + apply wapply_in; [apply log_writes_nodup|]. apply elem_of_lw. by exists t.
      + intros c Hc. apply Hk1, Hhw in Hc as (_ & [_ Hnl] & _). cbn [fst] in Hnl. lia.
    - intros c Hc Hct. rewrite Hd1, wapply_out.
      + rewrite fn_lookup_insert_ne by (intros ->; destruct Hc; lia). apply wapply_out.
        intros x Hx. by destruct (Hlw _ Hx).
      + intros x Hx. apply Hk1, elem_of_hw in Hx as (t & Ht & [= -> _]). by apply (Hct t). }
  apply app_eq_inv in Hk as [(k2 & Hk & Hw2)|(k2 & Hk & Hz)].
  { destruct (Hafter k eq_refl) as [Hs Hr]; [intros p Hp; rewrite Hk; apply elem_of_app; by left|].
      rewrite Hs, Hn1. split_and!; [lia | lia | | by right | done].
      intros t Ht. rewrite Hb1 by done. by apply Hhb. }
  destruct k2 as [|z k2].
  { rewrite app_nil_r in Hk. destruct (Hafter k eq_refl) as [Hs Hr]; [by rewrite Hk|].
    rewrite Hs, Hn1. split_and!; [lia | lia | | by right | done].
    intros t Ht. rewrite Hb1 by done. by apply Hhb. }
  (* everything written *)
  injection Hz as <- Hz. symmetry in Hz. apply app_eq_nil in Hz as [-> ->].
  assert (d1 = <[start := put32 h 0 0]> (wapply hw (<[start := h]> (wapply lw d0)))) as Hd1.
  { unfold d1. rewrite Hw1, Hk. change (?a :: ?l) with ([a] ++ l) at 1. by rewrite !wapply_app. }
  assert (hdr_n (d1 start) = 0) as Hz.
  { rewrite Hd1, fn_lookup_insert. unfold hdr_n. rewrite get32_put32_eq; [done | | lia].
    assert (block_ok h) as [-> _] by (apply header_block_ok; by rewrite Hvs). lia. }
  assert (forall b, home start lsize b -> recover_disk start d1 b = view b) as Hr.
  { intros b Hb. rewrite recover_clear; [rewrite Hd1 | done | intros ->; destruct Hb; lia].
    rewrite fn_lookup_insert_ne by (intros ->; destruct Hb; lia).
    destruct (decide (b ∈ lhb bs <$> seqZ 0 n)) as [(t & -> & Ht%elem_of_seqZ)%list_elem_of_fmap|Hno].
    - apply wapply_in.
      + unfold hw. rewrite <- list_fmap_compose. apply NoDup_fmap_2_strong; [|apply NoDup_seqZ].
        intros t1 t2 Ht1%elem_of_seqZ Ht2%elem_of_seqZ. simpl. apply Hinj; lia.
      + apply elem_of_hw. exists t. split; [lia|done].
    - rewrite wapply_out.
      + rewrite fn_lookup_insert_ne by (intros ->; destruct Hb; lia).
        rewrite wapply_out by (intros x Hx; by destruct (Hlw _ Hx)).
        symmetry. apply Hold; [done|]. intros t Ht ->. apply Hno, list_elem_of_fmap. exists t.
        split; [done|]. apply elem_of_seqZ. lia.
      + intros x (t & Ht & [= -> _])%elem_of_hw. apply Hno, list_elem_of_fmap. exists t.
        split; [done|]. apply elem_of_seqZ. lia. }
  rewrite Hz. split_and!; [lia | lia | intros; lia | by right | done].
Qed.
End crash.

(** ** log_write *)

Lemma absorb_spec bs k i bno :
  (i <= absorb bs k i bno <= i + k)%nat /\
  (forall t, (i <= t < absorb bs k i bno)%nat -> default 0 (bs !! t) <> bno) /\
  ((absorb bs k i bno < i + k)%nat -> default 0 (bs !! absorb bs k i bno) = bno).
Proof using.
  revert i. induction k as [|k IH]; intros i; cbn [absorb].
  { split_and!; lia. }
  destruct (Z.eqb_spec (default 0 (bs !! i)) bno) as [E|E].
  - split_and!; done || lia.
  - destruct (IH (S i)) as (H1 & H2 & H3). split_and!; try lia.
    intros t Ht. destruct (decide (t = i)) as [->|]; [done|]. apply H2. lia.
Qed.

Lemma log_write_ok st view dty hld w start lsize i b :
  log_ok st view dty hld w start lsize -> handle (lbc st) i b -> b ∈ hld -> home start lsize b ->
  1 <= lg_outstanding (llog st) -> lh_n (llog st) < lsize - 1 ->
  exists st', log_write i st = Ret tt st' /\
    log_ok st' view ({[b]} ∪ dty) hld w start lsize /\
    lh_n (llog st') = (if decide (b ∈ dty) then lh_n (llog st) else lh_n (llog st) + 1) /\
    lg_outstanding (llog st') = lg_outstanding (llog st) /\
    lg_committing (llog st') = lg_committing (llog st) /\
    (forall j k, handle (lbc st') j k <-> handle (lbc st) j k).
Proof.
  intros (Hl & Hdev & Hst & Hsize & Hg & Hls & Hlen & Hnb & Hh & Hd & Hinj) Hi Hb Hhome Hout Hn.
  pose proof Hg as (Hg1 & Hg2 & Hg3). pose proof Hh as [Hn0 Hhb].
  set (n := lh_n (llog st)) in *. set (bs := lh_block (llog st)) in *.
  pose proof Hl as (Hbc & Hw & Hnb' & Hdk).
  destruct (bpin_ok pid (lbc st) view dty hld i b Hbc Hi Hb) as (b1 & R1 & Hbc1 & Hhd & Hdrv).
  destruct (absorb_spec bs (Z.to_nat n) 0 b) as (Hj1 & Hj2 & Hj3).
  set (j := absorb bs (Z.to_nat n) 0 b) in *. set (bs' := <[j := b]> bs).
  assert (length bs' = 30%nat) as Hlen' by (unfold bs'; by rewrite length_insert).
  assert (forall t, 0 <= t -> lhb bs' t = if decide (t = Z.of_nat j) then b else lhb bs t) as Hlb.
  { intros t Ht. unfold lhb, bs'. destruct (decide (t = Z.of_nat j)) as [->|].
    - rewrite Nat2Z.id, list_lookup_insert_eq by lia. done.
    - by rewrite list_lookup_insert_ne by lia. }
  assert (b ∈ dty <-> (Z.of_nat j < n)) as Hin.
  { rewrite Hd. split.
    - intros (t & Ht & Heq). destruct (decide (Z.of_nat j < n)); [done|]. exfalso.
      apply (Hj2 (Z.to_nat t)); [lia|]. done.
    - intros Hlt. exists (Z.of_nat j). split; [lia|]. unfold lhb. rewrite Nat2Z.id, Hj3 by lia. done. }
  set (n' := if decide (b ∈ dty) then n else n + 1).
  assert (n' = Z.max n (Z.of_nat j + 1)) as Hn'
    by (unfold n'; case_decide as Hc; rewrite Hin in Hc; lia).
  exists (LSt b1 (set_lh_n n' (set_lh_block bs' (llog st)))). split.
  { unfold log_write, glog, bind at 1, gets, id. fold n bs. unfold panic_if, log_full. rewrite Hsize. fold n. zcases.
    unfold bind at 1 2, ret. unfold bind at 1, gets. destruct Hi as (_ & _ & ->). fold j.
    rewrite (bind_Ret _ _ _ _ _ (put_lh_ok st (Z.of_nat j) b ltac:(fold bs; lia))). rewrite Nat2Z.id.
    fold bs bs'. unfold n'. destruct (Z.eqb_spec (Z.of_nat j) n) as [E|E].
    - rewrite decide_False by (rewrite Hin; lia). unfold bind, mlog, modify, cache, zoom.
      cbn [lbc set_llog]. by rewrite R1.
    - rewrite decide_True by (rewrite Hin; lia). unfold bind, ret, cache, zoom. cbn [lbc set_llog].
      rewrite R1. unfold set_lbc, set_llog, set_lh_n, set_lh_block. by destruct (llog st). }
  split_and!; try done. split_and!; cbn [llog lbc lh_n lh_block set_lh_n set_lh_block lg_dev lg_start lg_size];
    try done.
  - split_and!; cbn [lbc]; rewrite ?Hdrv; done.
  - split; [lia|]. intros t Ht. rewrite Hlb by lia. destruct (decide (t = Z.of_nat j)) as [->|].
    + split; [|done]. unfold bs'. by rewrite Nat2Z.id, list_lookup_insert_eq by lia.
    + unfold bs'. rewrite list_lookup_insert_ne by lia. apply Hhb. lia.
  - intros c. rewrite elem_of_union, elem_of_singleton, Hd. split.
    + intros [->|(t & Ht & ->)].
      * exists (Z.of_nat j). split; [lia|]. rewrite Hlb by lia. by rewrite decide_True.
      * exists t. split; [lia|]. rewrite Hlb by lia. case_decide as E; [|done].
        subst t. unfold lhb. by rewrite Nat2Z.id, Hj3 by lia.
    + intros (t & Ht & ->). rewrite Hlb by lia. case_decide; [by left|]. right. exists t.
      split; [lia|done].
  - assert (forall t, 0 <= t < n' -> t <> Z.of_nat j -> lhb bs t <> b) as Hne.
    { intros t Ht Htj Heq. assert (t < Z.of_nat j \/ Z.of_nat j < t < n) as [Hlt|Hgt] by lia.
      - apply (Hj2 (Z.to_nat t)); [lia|]. done.
      - apply Htj, Hinj; [lia | lia |]. rewrite Heq. unfold lhb. by rewrite Nat2Z.id, Hj3 by lia. }
    intros t t' Ht Ht'. rewrite !Hlb by lia. repeat case_decide; try congruence.
    + intros Heq. by destruct (Hne t' Ht').
    + intros Heq. by destruct (Hne t Ht).
    + apply Hinj; lia.
Qed.
End logspec.

Section afterwards.
Context {D : Type} `{!DiskDriver D} `{!DiskLaws D}.

(** A machine that starts on the disk [dr]. *)
Definition booted (dr : D) (g : logst) : lst (traced D) := LSt (binit (zero_cache (Traced dr []))) g.

Lemma booted_ok pid dr g :
  driver_ok dr -> lok pid (disk_block dr) (nblocks dr) (booted dr g) (disk_block dr) ∅ ∅ [].
Proof.
  intros Hd. destruct (boot_ok (D := traced D) pid (Traced dr [])) as [Hbc Hdrv]; [exact Hd|].
  split; [exact Hbc|]. cbn [booted lbc]. rewrite Hdrv. clear Hbc Hdrv.
  split; [reflexivity|]. split; [reflexivity|]. intros k _. reflexivity.
Qed.
Lemma booted_log (dr : D) g : llog (booted dr g) = g.
Proof. reflexivity. Qed.

Lemma recover_disk_ext nb start lsize d d' b :
  (forall k, 0 <= k < nb -> d k = d' k) -> geom nb start lsize -> 0 <= b < nb ->
  0 <= hdr_n (d' start) < lsize -> recover_disk start d b = recover_disk start d' b.
Proof.
  intros Hd (Hg1 & Hg2 & Hg3) Hb Hn. unfold recover_disk, redo_writes. rewrite (Hd start) by lia.
  rewrite (home_writes_ext _ _ d d') by (intros t Ht; apply Hd; lia).
  destruct (decide (b = start)) as [->|]; [by rewrite !fn_lookup_insert|].
  rewrite !fn_lookup_insert_ne by done. apply wapply_ext. by apply Hd.
Qed.

(** Recovery after a restart, on the disk that was left. *)
Lemma restart_ok nb start lsize d1 dr g pid :
  driver_ok dr -> nblocks dr = nb -> (forall k, 0 <= k < nb -> disk_block dr k = d1 k) ->
  geom nb start lsize -> 0 < lsize -> lg_dev g = 1 -> lg_start g = start ->
  length (lh_block g) = 30%nat -> 0 <= hdr_n (d1 start) < lsize ->
  (forall t, 0 <= t < hdr_n (d1 start) -> home nb start lsize (hdr_b (d1 start) t)) ->
  exists st2, recover_from_log pid (booted dr g) = Ret tt st2 /\
    tr_writes (bdrv (lbc st2)) = redo_writes start (disk_block dr) ++
      [(start, put32 (d1 start) 0 0)] /\
    (forall b, 0 <= b < nb -> disk_block (bdrv (lbc st2)) b = recover_disk start d1 b).
Proof.
  intros Hok Hnb Hd Hg Hls Hdev Hst Hlen Hn Hb. pose proof Hg as (Hg1 & Hg2 & Hg3).
  pose proof (booted_ok pid dr g Hok) as Hl. rewrite Hnb in Hl. pose proof (booted_log dr g) as Hlog.
  set (st0 := booted dr g) in *. clearbody st0.
  assert (disk_block dr start = d1 start) as Hds by (apply Hd; lia).
  destruct (recover_ok pid (disk_block dr) nb st0 (disk_block dr) [] start lsize) as
    (st2 & Hr & Hl2 & _); rewrite ?Hlog, ?Hds; try done.
  exists st2. split; [done|]. destruct Hl2 as (Hbc & Hw & Hnb2 & _). rewrite Hds in Hw. split; [done|].
  intros b Hbr. destruct Hbc as (_ & _ & _ & _ & _ & Hcl & _).
  rewrite <- Hcl by (rewrite ?Hnb2; done || set_solver).
  by apply (recover_disk_ext nb start lsize).
Qed.
End afterwards.

(** Writing a set of blocks again changes nothing on them. *)
Lemma wapply_base w d d' k : k ∈ w.*1 -> wapply w d k = wapply w d' k.
Proof.
  revert d d'. induction w as [|[n b] w IH]; intros d d' Hk; [by apply not_elem_of_nil in Hk|].
  rewrite fmap_cons in Hk. unfold wapply. simpl. fold (wapply w (<[n := b]> d)) (wapply w (<[n := b]> d')).
  destruct (decide (k ∈ w.*1)) as [Hin|Hout]; [by apply IH|].
  apply elem_of_cons in Hk as [->|?]; [|done]. apply wapply_ext. by rewrite !fn_lookup_insert.
Qed.

(** Recovery cut short after [w1] and run again ends on the same home blocks. *)
Lemma recover_again nb start lsize d w1 w2 :
  geom nb start lsize -> 0 < lsize -> block_ok (d start) -> 0 <= hdr_n (d start) < lsize ->
  (forall t, 0 <= t < hdr_n (d start) -> home nb start lsize (hdr_b (d start) t)) ->
  w1 ++ w2 = redo_writes start d ++ [(start, put32 (d start) 0 0)] ->
  let d1 := wapply w1 d in
  0 <= hdr_n (d1 start) < lsize /\
  (forall t, 0 <= t < hdr_n (d1 start) -> home nb start lsize (hdr_b (d1 start) t)) /\
  (forall b, home nb start lsize b -> recover_disk start d1 b = recover_disk start d b).
Proof.
  intros (Hg1 & Hg2 & Hg3) Hls Hok Hn Hb Hw d1.
  assert (forall p, p ∈ redo_writes start d -> home nb start lsize p.1) as Hhome.
  { intros p (t & Ht & ->)%elem_of_home_writes. cbn [fst]. rewrite lhb_hblist by lia. apply Hb. lia. }
  assert (forall k, ~ home nb start lsize k -> wapply (redo_writes start d) d k = d k) as Hkeep.
  { intros k Hk. apply wapply_out. intros x Hx. by apply Hk, (Hhome (k, x)). }
  assert (forall k, redo_writes start d = w1 ++ k -> 
    d1 start = d start /\ forall b, home nb start lsize b -> recover_disk start d1 b = recover_disk start d b)
    as Hpart.
  { intros k Hk. assert (forall p, p ∈ w1 -> p ∈ redo_writes start d) as Hsub
      by (intros p Hp; rewrite Hk; apply elem_of_app; by left).
    assert (forall x, ~ home nb start lsize x -> d1 x = d x) as Hd1.
    { intros x Hx. apply wapply_out. intros c Hc. by apply Hx, (Hhome (x, c)), Hsub. }
    assert (d1 start = d start) as Hs by (apply Hd1; unfold home; lia). split; [done|].
    intros b Hbh. unfold recover_disk.
    rewrite !fn_lookup_insert_ne by (intros ->; destruct Hbh; lia).
    assert (redo_writes start d1 = redo_writes start d) as ->.
    { unfold redo_writes. rewrite Hs. apply home_writes_ext. intros t Ht. apply Hd1. unfold home. lia. }
    destruct (decide (b ∈ (redo_writes start d).*1)) as [Hin|Hout]; [by apply wapply_base|].
    apply wapply_ext, wapply_out. intros c Hc. apply Hout, list_elem_of_fmap. exists (b, c).
    split; [done|]. by apply Hsub. }
  apply app_eq_inv in Hw as [(k & Hw1 & Hk)|(k & Hk & Hw2)].
  2:{ destruct (Hpart k Hk) as [-> ?]. done. }
  destruct k as [|z k].
  { rewrite app_nil_r in Hw1. destruct (Hpart []) as [-> ?]; [by rewrite Hw1, app_nil_r | done]. }
  injection Hk as <- Hk. symmetry in Hk. apply app_eq_nil in Hk as [-> ->].
  assert (d1 = <[start := put32 (d start) 0 0]> (wapply (redo_writes start d) d)) as Hd1
    by (unfold d1; rewrite Hw1; apply wapply_snoc).
  assert (hdr_n (d1 start) = 0) as Hz.
  { rewrite Hd1, fn_lookup_insert. unfold hdr_n. destruct Hok. by rewrite get32_put32_eq by lia. }
  rewrite Hz. split_and!; [lia | lia | intros; lia |]. intros b Hbh.
  rewrite recover_clear; [by rewrite Hd1 | done | intros ->; destruct Hbh; lia].
Qed.

(** ** Reserving log space

    Operations run side by side, on one log.  Each of them calls [begin_op], then
    [log_write] any number of times for at most [b] blocks, and [end_op]; the list
    holds, for each one between [begin_op] and [end_op], how many blocks it may still
    add.  What happens to the cache in between is arbitrary: it is not the log's. *)

Section reserve.
Context {D : Type} `{!DiskDriver D}.
Implicit Types (st : lst D).

(** A write of the buffer [i]: the block number is in the log already. *)
Definition rewrites st (i : nat) : Prop :=
  exists t, (t < Z.to_nat (lh_n (llog st)))%nat /\ default 0 (lh_block (llog st) !! t) = b_blockno (bufs (lbc st) i).
Inductive lstep (b : Z) : lst D * list Z -> lst D * list Z -> Prop :=
| lstep_begin st st' ops : begin_op st = Ret tt st' -> lstep b (st, ops) (st', b :: ops)
| lstep_write st st' o1 k o2 i : 0 < k -> log_write i st = Ret tt st' -> lstep b (st, o1 ++ k :: o2) (st', o1 ++ (k - 1) :: o2)
| lstep_rewrite st st' o1 k o2 i : rewrites st i -> log_write i st = Ret tt st' -> lstep b (st, o1 ++ k :: o2) (st', o1 ++ k :: o2)
| lstep_end pid st st' o1 k o2 : end_op pid st = Ret tt st' -> lstep b (st, o1 ++ k :: o2) (st', o1 ++ o2)
| lstep_cache st c ops : lstep b (st, ops) (set_lbc c st, ops).

(** Computations that do not touch the log. *)
Definition keeps_log {A} (m : M (lst D) A) : Prop := forall st a st', m st = Ret a st' -> llog st' = llog st.
Lemma keeps_log_bind {A B} (m : M (lst D) A) (f : A -> M (lst D) B) : keeps_log m -> (forall a, keeps_log (f a)) -> keeps_log (bind m f).
Proof using. intros Hm Hf st c st' E. apply bind_ret_inv in E as (a & st1 & E1 & E2). by rewrite (Hf _ _ _ _ E2), (Hm _ _ _ E1). Qed.
Lemma keeps_log_ret {A} (a : A) : keeps_log (ret a).
Proof using. by intros st b st' [= _ <-]. Qed.
Lemma keeps_log_cache {A} (m : M (bst D) A) : keeps_log (cache m).
Proof using. intros st a st' E. unfold cache, zoom in E. destruct (m (lbc st)); [|done..]. by injection E as _ <-. Qed.
Lemma keeps_log_gets {A} (f : lst D -> A) : keeps_log (gets f).
Proof using. by intros st a st' [= _ <-]. Qed.
Lemma keeps_log_get_lh i : keeps_log (get_lh i).
Proof using. apply keeps_log_bind; [apply keeps_log_gets|]. intros bs. destruct (bs !! _); [apply keeps_log_ret | by intros st a st']. Qed.
Ltac keeps_log := repeat first [apply keeps_log_get_lh | apply keeps_log_bind; [|intros ?] | apply keeps_log_cache | apply keeps_log_gets | apply keeps_log_ret | match goal with H : forall _, keeps_log _ |- _ => apply H end].
Lemma keeps_log_write_log pid : keeps_log (write_log pid).
Proof. unfold write_log. apply keeps_log_bind; [apply keeps_log_gets|]. intros n. generalize (Z.to_nat n) as k. intros k. generalize 0. induction k as [|k IH]; intros t; cbn [write_log_loop]; keeps_log. Qed.
Lemma keeps_log_install pid : keeps_log (install_trans pid).
Proof. unfold install_trans. apply keeps_log_bind; [apply keeps_log_gets|]. intros n. generalize (Z.to_nat n) as k. intros k. generalize 0. induction k as [|k IH]; intros t; cbn [install_loop]; keeps_log. Qed.
Lemma keeps_log_write_head pid : keeps_log (write_head pid).
Proof. unfold write_head. keeps_log. Qed.
Lemma commit_log pid st st' : commit pid st = Ret tt st' -> llog st' = if 0 <? lh_n (llog st) then set_lh_n 0 (llog st) else llog st.
Proof.
  unfold commit, glog. rewrite bind_gets. destruct (0 <? lh_n (llog st)); [|by intros [= <-]]. intros E.
  apply bind_ret_inv in E as ([] & s1 & E1 & E). apply bind_ret_inv in E as ([] & s2 & E2 & E). apply bind_ret_inv in E as ([] & s3 & E3 & E). unfold mlog in E. rewrite bind_modify in E.
  by rewrite (keeps_log_write_head pid _ _ _ E), <- (keeps_log_write_log pid _ _ _ E1), <- (keeps_log_write_head pid _ _ _ E2), <- (keeps_log_install pid _ _ _ E3).
Qed.
Lemma end_op_log pid st st' : lg_committing (llog st) = false -> end_op pid st = Ret tt st' ->
  llog st' = let g := set_outstanding (lg_outstanding (llog st) - 1) (llog st) in if (lg_outstanding (llog st) =? 1) && (0 <? lh_n (llog st)) then set_lh_n 0 g else g.
Proof.
  destruct st as [c [start sz out cm dv n bs]]. intros Hc. cbn [llog lg_committing] in Hc. subst cm. unfold end_op, mlog, glog, id. rewrite bind_modify, bind_gets. cbn [llog set_llog set_outstanding lg_committing lg_outstanding].
  unfold panic_if. rewrite (bind_Ret (ret tt) _ _ tt _ eq_refl). replace (out - 1 =? 0) with (out =? 1) by zcases. destruct (Z.eqb_spec out 1) as [->|Ho]; [|by intros [= <-]].
  rewrite bind_modify. intros E. apply bind_ret_inv in E as ([] & s1 & E1 & E). apply commit_log in E1. injection E as <-.
  cbn [llog set_llog set_outstanding set_committing lg_committing lg_outstanding lh_n andb] in *. rewrite E1. by destruct (0 <? n).
Qed.
(** A write: it panics if the log is full, else it adds a block at most. *)
Lemma log_write_log i st : 1 <= lg_outstanding (llog st) -> 0 <= lh_n (llog st) -> length (lh_block (llog st)) = 30%nat ->
  if log_full (llog st) then log_write i st = Panic "too big a transaction"
  else exists st' bs n', log_write i st = Ret tt st' /\ llog st' = set_lh_n n' (set_lh_block bs (llog st)) /\ length bs = 30%nat /\
    (n' = lh_n (llog st) \/ n' = lh_n (llog st) + 1) /\ (rewrites st i -> n' = lh_n (llog st)).
Proof.
  destruct st as [c [start sz out cm dv n bs]]. cbn [llog lh_n lg_outstanding lh_block]. intros Ho Hn Hl. unfold log_write, glog, id. rewrite bind_gets. cbn [llog lh_n lg_outstanding lh_block].
  destruct (log_full _) eqn:Ef; [done|]. unfold panic_if at 1. rewrite (bind_Ret (ret tt) _ _ tt _ eq_refl). rewrite (proj2 (Z.ltb_ge out 1)) by lia. unfold panic_if at 1. rewrite (bind_Ret (ret tt) _ _ tt _ eq_refl), bind_gets. cbn [lbc].
  set (bno := b_blockno (bufs c i)). destruct (absorb_spec bs (Z.to_nat n) 0 bno) as (Ha & Hne & _). set (j := absorb bs (Z.to_nat n) 0 bno) in *.
  assert (n < 30) as Hn30 by (unfold log_full in Ef; apply orb_false_iff in Ef as [Ef _]; cbn [lh_n] in Ef; lia).
  rewrite (bind_Ret _ _ _ _ _ (put_lh_ok (LSt c (Logst start sz out cm dv n bs)) (Z.of_nat j) bno ltac:(cbn [llog lh_block]; lia))). cbn [llog lh_block set_llog].
  assert (rewrites (LSt c (Logst start sz out cm dv n bs)) i -> Z.of_nat j <> n) as Hr.
  { intros (t & Ht & E). cbn [llog lh_n lh_block lbc] in *. intros Ej. apply (Hne t); [lia | done]. }
  destruct (Z.eqb_spec (Z.of_nat j) n) as [Ej|Ej]; unfold mlog; [rewrite bind_modify | rewrite (bind_Ret (ret tt) _ _ tt _ eq_refl)].
  - eexists _, (<[Z.to_nat (Z.of_nat j) := bno]> bs), (n + 1). split; [done|]. split; [done|]. rewrite length_insert. split; [done|]. split; [by right|]. tauto.
  - eexists _, (<[Z.to_nat (Z.of_nat j) := bno]> bs), n. split; [done|]. split; [done|]. rewrite length_insert. split; [done|]. split; [by left | done].
Qed.
End reserve.

Definition sum (l : list Z) : Z := foldr Z.add 0 l.
Lemma sum_mid o1 k o2 : sum (o1 ++ k :: o2) = k + sum (o1 ++ o2).
Proof. unfold sum. induction o1 as [|x o1 IH]; simpl in *; lia. Qed.
Lemma sum_bounds b l : Forall (fun k => 0 <= k <= b) l -> 0 <= sum l <= b * Z.of_nat (length l).
Proof. unfold sum. induction 1; simpl; lia. Qed.

(** What is logged, what may still be written, and what each operation leaves of the
    [MAXOPBLOCKS] blocks that were reserved for it, fit. *)
Record reserved {D} (b : Z) (g0 : logst) (c : lst D * list Z) : Prop := {
  rs_size : lg_size (llog c.1) = lg_size g0;
  rs_len : length (lh_block (llog c.1)) = 30%nat;
  rs_idle : lg_committing (llog c.1) = false;
  rs_count : lg_outstanding (llog c.1) = Z.of_nat (length c.2);
  rs_left : Forall (fun k => 0 <= k <= b) c.2;
  rs_n : 0 <= lh_n (llog c.1);
  rs_empty : c.2 = [] -> lh_n (llog c.1) = 0;
  rs_room : lh_n (llog c.1) + sum c.2 + (MAXOPBLOCKS - b) * Z.of_nat (length c.2) <= LOGSIZE
}.
Lemma lstep_reserved {D} `{!DiskDriver D} b g0 (c c' : lst D * list Z) : 0 <= b <= MAXOPBLOCKS -> lstep b c c' -> reserved b g0 c -> reserved b g0 c'.
Proof.
  intros Hb Hs [Hsz Hl Hc Ho Hk Hn He Hr].
  destruct Hs as [st st' ops E|st st' o1 k o2 i Hk0 E|st st' o1 k o2 i Hrw E|pid st st' o1 k o2 E|st bc ops]; cbn [fst snd] in *; [| | | |by split].
  - unfold begin_op, glog, id in E. rewrite bind_gets, Hc in E. destruct (no_space (llog st)) eqn:Es; [done|]. injection E as <-. unfold no_space in Es. zcases_in Es. pose proof (sum_bounds _ _ Hk).
    split; cbn [fst snd llog set_llog set_outstanding lg_size lh_block lg_committing lg_outstanding lh_n length]; try done; try lia.
    + by constructor; [lia|].
    + unfold sum in *. simpl. nia.
  - pose proof (log_write_log i st) as Hw. assert (length (o1 ++ k :: o2) = length (o1 ++ (k - 1) :: o2)) as El by by rewrite !length_app. rewrite sum_mid in Hr. apply Forall_app in Hk as [Hk1 Hk2]. apply Forall_cons in Hk2 as [Hk2 Hk3].
    destruct (log_full (llog st)); [rewrite Hw in E; [done | rewrite Ho, length_app; simpl; lia | done | done]|].
    destruct Hw as (s1 & bs & n' & E1 & Elog & Hlb & Hn' & _); [rewrite Ho, length_app; simpl; lia | done | done|]. rewrite E in E1. injection E1 as <-.
    split; cbn [fst snd]; rewrite ?Elog; cbn [set_lh_n set_lh_block lg_size lh_block lg_committing lg_outstanding lh_n]; try done; try lia.
    + apply Forall_app. split; [done|]. constructor; [lia | done].
    + intros Hnil. by destruct o1.
    + rewrite sum_mid, <- El. lia.
  - pose proof (log_write_log i st) as Hw.
    destruct (log_full (llog st)); [rewrite Hw in E; [done | rewrite Ho, length_app; simpl; lia | done | done]|].
    destruct Hw as (s1 & bs & n' & E1 & Elog & Hlb & _ & Hn'); [rewrite Ho, length_app; simpl; lia | done | done|]. rewrite E in E1. injection E1 as <-. rewrite (Hn' Hrw) in Elog.
    split; cbn [fst snd]; rewrite ?Elog; cbn [set_lh_n set_lh_block lg_size lh_block lg_committing lg_outstanding lh_n]; done.
  - apply end_op_log in E; [|done]. apply Forall_app in Hk as [Hk1 Hk2]. apply Forall_cons in Hk2 as [Hk2 Hk3]. rewrite sum_mid in Hr. assert (Forall (fun k => 0 <= k <= b) (o1 ++ o2)) as Hk' by by apply Forall_app.
    pose proof (sum_bounds _ _ Hk') as Hs0. assert (Z.of_nat (length (o1 ++ k :: o2)) = Z.of_nat (length (o1 ++ o2)) + 1) as El by (rewrite !length_app; simpl; lia).
    rewrite El in *. rewrite Ho in E.
    split; cbn [fst snd]; rewrite ?E; destruct (_ && _) eqn:Eb; cbn [set_lh_n set_outstanding lg_size lh_block lg_committing lg_outstanding lh_n]; try done; try lia.
    intros Hnil. rewrite Hnil in Eb. cbn in Eb. zcases_in Eb.
Qed.

(** ** Properties *)

(** The disk that a commit leaves when it stops recovers to the old or to the new
    contents. *)
Lemma commit_stops {D} `{!DiskDriver D} `{!DiskLaws D} (pid : Z) (d0 : Z -> block) (nb : Z) (st : lst (traced D)) view dty start lsize w1 w2 :
  log_ok pid d0 nb st view dty ∅ [] start lsize -> hdr_n (d0 start) = 0 ->
  w1 ++ w2 = commit_writes start (lh_n (llog st)) (lh_block (llog st)) view ->
  let d1 := wapply w1 d0 in
  0 <= hdr_n (d1 start) < lsize /\
  (forall t, 0 <= t < hdr_n (d1 start) -> home nb start lsize (hdr_b (d1 start) t)) /\
  ((forall b, home nb start lsize b -> recover_disk start d1 b = d0 b) \/
   (forall b, home nb start lsize b -> recover_disk start d1 b = view b)) /\
  (w2 = [] -> forall b, home nb start lsize b -> recover_disk start d1 b = view b).
Proof.
  intros (Hl & _ & _ & _ & Hg & Hls & _ & Hnb & Hh & Hd & Hinj) Hclear Hw. pose proof Hg as (Hg1 & Hg2 & Hg3).
  assert (forall b, home nb start lsize b -> (b ∉ dty) -> view b = d0 b) as Hold.
  { intros b [Hb _] Hbd. destruct (lok_clean _ _ _ _ _ _ _ _ b Hl Hb) as [?|?]; set_solver. }
  assert (view start = d0 start) as Hvs.
  { destruct (lok_clean _ _ _ _ _ _ _ _ start Hl) as [Hin|?]; [lia | set_solver | | done].
    apply Hd in Hin as (t & Ht & Heq). destruct Hh as [_ Hb]. destruct (Hb t Ht) as [_ [_ Hnot]]. lia. }
  assert (block_ok (d0 start)) as Hok by (rewrite <- Hvs; eapply view_block_ok; [exact Hl | lia]).
  apply (crash_cases d0 nb start lsize (lh_n (llog st)) (lh_block (llog st)) view Hg Hls Hnb Hh Hinj Hclear Hvs Hok); [|done].
  intros b Hb Hbt. apply Hold; [done|]. intros (t & Ht & ->)%Hd. by apply (Hbt t).
Qed.

(** C1: a commit is atomic across crashes.  On a disk whose header is clear,
    [commit] of a transaction puts the new contents on the home blocks.  If the
    machine stops after any of its block writes and is started again, recovery
    returns and clears the header, and leaves either every home block with its
    old contents or every home block with its new contents; after a completed
    commit the new ones. *)
Theorem commit_crash_safe {D} `{!DiskDriver D} `{!DiskLaws D} (pid start lsize nb : Z)
    (d0 view : Z -> block) (dty : gset Z) (st : lst (traced D)) :
  log_ok pid d0 nb st view dty ∅ [] start lsize -> 0 < lh_n (llog st) -> hdr_n (d0 start) = 0 ->
  exists st' w, commit pid st = Ret tt st' /\ tr_writes (bdrv (lbc st')) = w /\ lh_n (llog st') = 0 /\
    (forall b, home nb start lsize b -> disk_block (bdrv (lbc st')) b = view b) /\
    forall w1 w2 (dr : D) (g : logst) (pid' : Z),
      w = w1 ++ w2 -> driver_ok dr -> nblocks dr = nb ->
      (forall k, 0 <= k < nb -> disk_block dr k = wapply w1 d0 k) ->
      lg_dev g = 1 -> lg_start g = start -> length (lh_block g) = 30%nat ->
      exists st2, recover_from_log pid' (booted dr g) = Ret tt st2 /\
        hdr_n (disk_block (bdrv (lbc st2)) start) = 0 /\
        ((forall b, home nb start lsize b -> disk_block (bdrv (lbc st2)) b = d0 b) \/
         (forall b, home nb start lsize b -> disk_block (bdrv (lbc st2)) b = view b)) /\
        (w2 = [] -> forall b, home nb start lsize b -> disk_block (bdrv (lbc st2)) b = view b).
Proof.
  intros Hlog Hpos Hclear.
  destruct (commit_ok pid d0 nb st view dty [] start lsize Hlog Hpos) as
    (st' & view' & Hr & Hlog' & Hn' & Hview & _).
  pose proof Hlog as (_ & _ & _ & _ & Hg & Hls & _). pose proof Hg as (Hg1 & Hg2 & Hg3). pose proof Hlog' as (Hl' & _).
  exists st', (commit_writes start (lh_n (llog st)) (lh_block (llog st)) view).
  split_and!; [done | apply Hl' | done | |].
  { intros b Hb. rewrite <- Hview by done.
    destruct Hl' as ((_ & _ & _ & _ & _ & Hcl & _) & _ & Hnb' & _). symmetry.
    apply Hcl; [rewrite Hnb'; apply Hb | set_solver | set_solver]. }
  intros w1 w2 dr g pid' Hw Hdr Hdn Hdisk Hdev Hst Hlen.
  destruct (commit_stops pid d0 nb st view dty start lsize w1 w2 Hlog Hclear (eq_sym Hw)) as (Hn1 & Hb1 & Hcase & Hdone).
  destruct (restart_ok nb start lsize (wapply w1 d0) dr g pid' Hdr Hdn Hdisk Hg Hls Hdev Hst Hlen Hn1 Hb1)
    as (st2 & Hr2 & _ & Hrec).
  assert (block_ok (wapply w1 d0 start)) as Hok1.
  { rewrite <- Hdisk by lia. apply disk_block_ok; [done | lia]. }
  exists st2. split; [exact Hr2|]. clear Hr2. split_and!.
  - rewrite Hrec by lia. unfold recover_disk. rewrite fn_lookup_insert. unfold hdr_n.
    destruct Hok1 as [Hlen1 _]. by rewrite get32_put32_eq by lia.
  - destruct Hcase as [Hc|Hc]; [left|right]; intros b Hb; rewrite Hrec by apply Hb; by apply Hc.
  - intros -> b Hb. rewrite Hrec by apply Hb. by apply Hdone.
Qed.

(** A log with one block pinned, on a disk in memory with the contents [f]. *)
Lemma demo_log f : (forall x, 0 <= f x < 256) ->
  exists st : lst (traced memide),
    log_ok 3 (disk_block (Memide 1048576 64 f)) 64 st (<[40 := replicate 512 7]> (disk_block (Memide 1048576 64 f))) {[40]} ∅ [] 2 30 /\ lh_n (llog st) = 1.
Proof.
  intros Hf. set (dr := Memide 1048576 64 f). set (g := Logst 2 30 1 false 1 0 (replicate 30 0)).
  assert (driver_ok dr) as Hdr by (intros x; apply Hf).
  pose proof (booted_ok 3 dr g Hdr) as Hl. pose proof (booted_log dr g) as Hlog.
  change (nblocks dr) with 64 in Hl. set (st0 := booted dr g) in *. clearbody st0.
  set (d0 := disk_block dr) in *.
  destruct (lok_bread 3 d0 64 st0 d0 ∅ ∅ [] 40 Hl) as (i & b1 & _ & L1 & H1 & _); [lia | apply not_elem_of_empty | |].
  { rewrite !union_empty_l_L, size_singleton. unfold NBUF. lia. }
  destruct (lok_bmodify 3 d0 64 (set_lbc b1 st0) d0 ∅ _ [] i 40 (fun _ => replicate 512 7) L1 H1) as
    (b2 & _ & L2 & H2); [apply elem_of_union_l, elem_of_singleton; done | |].
  { split; [by rewrite length_replicate|]. apply Forall_replicate. lia. }
  set (view := <[40 := replicate 512 7]> d0) in *.
  destruct (log_write_ok 3 d0 64 (set_lbc b2 st0) view ∅ ({[40]} ∪ ∅) [] 2 30 i 40) as
    (st1 & _ & Hlg & Hn & _ & H3).
  - split; [exact L2|]. cbn [llog set_lbc]. rewrite Hlog. unfold g. split_and!; simpl; try lia; try done.
    + split; simpl; [lia|]. intros t Ht. lia.
    + intros b. split; [intros ?%not_elem_of_empty; done|]. intros (t & Ht & _). lia.
  - by apply H2.
  - apply elem_of_union_l, elem_of_singleton. done.
  - unfold home. lia.
  - cbn [llog set_lbc]. rewrite Hlog. unfold g. simpl. lia.
  - cbn [llog set_lbc]. rewrite Hlog. unfold g. simpl. lia.
  - destruct Hlg as (L3 & Hrest).
    destruct (lok_brelse 3 d0 64 st1 view _ _ [] i 40 L3) as (b4 & _ & L4 & _).
    + by apply H3, H2.
    + apply elem_of_union_l, elem_of_singleton. done.
    + left. apply elem_of_union_l, elem_of_singleton. done.
    + rewrite union_empty_r_L in L4, Hrest. exists (set_lbc b4 st1). split.
      { split; [|exact Hrest]. replace ({[40]} ∖ {[40]}) with (∅ : gset Z) in L4; [exact L4|].
        clear. set_solver. }
      cbn [llog set_lbc] in Hn |- *. rewrite decide_False in Hn by apply not_elem_of_empty.
      rewrite Hn, Hlog. reflexivity.
Qed.

Lemma commit_crash_safe_witness :
  exists (st : lst (traced memide)) st', commit 3 st = Ret tt st' /\
    disk_block (bdrv (lbc st')) 40 = replicate 512 7.
Proof.
  destruct (demo_log (fun _ => 0)) as (st & Hlog & Hn); [lia|].
  destruct (commit_crash_safe 3 2 30 64 _ _ _ st Hlog) as (st' & w & Hr & _ & _ & Hd & _);
    [rewrite Hn; lia | reflexivity |].
  exists st, st'. split; [exact Hr|]. rewrite Hd, fn_lookup_insert by (unfold home; lia). reflexivity.
Defined.

(** C16: recovery may be interrupted too.  If the machine stops after any block
    write of [recover_from_log] and is started again, the second recovery leaves
    on every home block what an uninterrupted recovery would have left. *)
Theorem recovery_crash_safe {D} `{!DiskDriver D} `{!DiskLaws D} (pid pid' start lsize nb : Z)
    (dr dr' : D) (g g' : logst) :
  driver_ok dr -> nblocks dr = nb -> geom nb start lsize -> 0 < lsize ->
  lg_dev g = 1 -> lg_start g = start -> length (lh_block g) = 30%nat ->
  0 <= hdr_n (disk_block dr start) < lsize ->
  (forall t, 0 <= t < hdr_n (disk_block dr start) ->
     home nb start lsize (hdr_b (disk_block dr start) t)) ->
  exists st1, recover_from_log pid (booted dr g) = Ret tt st1 /\
    forall w1 w2, tr_writes (bdrv (lbc st1)) = w1 ++ w2 ->
      driver_ok dr' -> nblocks dr' = nb ->
      (forall k, 0 <= k < nb -> disk_block dr' k = wapply w1 (disk_block dr) k) ->
      lg_dev g' = 1 -> lg_start g' = start -> length (lh_block g') = 30%nat ->
      exists st2, recover_from_log pid' (booted dr' g') = Ret tt st2 /\
        forall b, home nb start lsize b ->
          disk_block (bdrv (lbc st2)) b = disk_block (bdrv (lbc st1)) b.
Proof.
  intros Hdr Hnb Hg Hls Hdev Hst Hlen Hn Hb. pose proof Hg as (Hg1 & Hg2 & Hg3).
  destruct (restart_ok nb start lsize (disk_block dr) dr g pid Hdr Hnb ltac:(done) Hg Hls Hdev Hst Hlen Hn Hb)
    as (st1 & Hr1 & Hw & Hrec1).
  exists st1. split; [exact Hr1|]. clear Hr1. intros w1 w2 Hw12 Hdr' Hnb' Hdisk Hdev' Hst' Hlen'.
  destruct (recover_again nb start lsize (disk_block dr) w1 w2 Hg Hls) as (Hn1 & Hb1 & Hagain);
    [apply disk_block_ok; [done | lia] | exact Hn | exact Hb | by rewrite <- Hw12 |].
  destruct (restart_ok nb start lsize (wapply w1 (disk_block dr)) dr' g' pid' Hdr' Hnb' Hdisk Hg Hls
    Hdev' Hst' Hlen' Hn1 Hb1) as (st2 & Hr2 & _ & Hrec2).
  exists st2. split; [exact Hr2|]. clear Hr2. intros b Hbh. rewrite Hrec2, Hrec1 by apply Hbh. by apply Hagain.
Qed.
Lemma recovery_crash_safe_witness :
  let dr := Memide 1048576 64 (fun _ => 0) in let g := Logst 2 30 0 false 1 0 (replicate 30 0) in
  exists st1 st2, recover_from_log 3 (booted dr g) = Ret tt st1 /\
    recover_from_log 4 (booted dr g) = Ret tt st2 /\
    forall b, home 64 2 30 b -> disk_block (bdrv (lbc st2)) b = disk_block (bdrv (lbc st1)) b.
Proof.
  intros dr g. assert (driver_ok dr) as Hdr by (intros x; simpl; lia).
  destruct (recovery_crash_safe 3 4 2 30 64 dr dr g g) as (st1 & Hr1 & Hrest);
    [exact Hdr | reflexivity | unfold geom; lia | lia | reflexivity | reflexivity | reflexivity | | |].
  - split; [|]; vm_compute; congruence.
  - intros t Ht. exfalso. change (hdr_n (disk_block dr 2)) with 0 in Ht. lia.
  - destruct (Hrest [] (tr_writes (bdrv (lbc st1)))) as (st2 & Hr2 & Hd);
      [reflexivity | exact Hdr | reflexivity | intros k _; reflexivity | reflexivity..|].
    exists st1, st2. split; [exact Hr1|]. split; [exact Hr2 | exact Hd].
Defined.

(** A cache in which the buffer [i] is of block [i]. *)
Definition op_cache : bst memide := BSt (fun i => Buf 2 1 (Z.of_nat i) (Sleeplock true 3) 1 (replicate 512 0)) (fun _ => 0%nat) (fun _ => 0%nat) (Memide 1048576 64 (fun _ => 0)).
Definition op_log (size : Z) : lst memide := LSt op_cache (Logst 2 size 0 false 1 0 (replicate 30 0)).

(** The log area that mkfs makes is one block short: with [log.size] equal to
    [LOGSIZE], three operations that add 29 of the 30 blocks that were reserved for
    them leave a log that [log_write] takes to be full.  And in a log with a block
    more, [log_write] panics for the thirtieth block when it is written again. *)
Fixpoint write_each (bs : list nat) : M (lst memide) unit := match bs with [] => ret tt | i :: bs => log_write i ;;; write_each bs end.
Definition three_ops : M (lst memide) unit := begin_op ;;; begin_op ;;; begin_op.
Theorem log_reservation_short :
  (three_ops ;;; write_each (seq 0 30)) (op_log LOGSIZE) = Panic "too big a transaction" /\
  (three_ops ;;; write_each (seq 0 30 ++ [29%nat])) (op_log (LOGSIZE + 1)) = Panic "too big a transaction" /\
  exists st, (three_ops ;;; write_each (seq 0 30)) (op_log (LOGSIZE + 1)) = Ret tt st.
Proof. split; [vm_compute; reflexivity|]. split; [vm_compute; reflexivity | eexists; vm_compute; reflexivity]. Qed.
