(* ===== verification/Spinlock.v ===== *)
(** * Processors and spin locks (spinlock.c, struct cpu, mycpu, lapicid)

    The processors with their interrupt flag, the per-CPU records they find
    through their local APIC's identifier, and the spin locks.  Every operation
    takes the number [h] of the processor that executes it.

    The operations are sequential functions; those that other processors can
    observe half-way are composed of the pieces between two accesses to shared
    memory.  [step] interleaves these pieces, one per step, of all processors in
    any order, and the invariant [lock_inv] is proved for every reachable state:
    a lock has one owner, [lk->cpu] names it, interrupts are off on a processor
    that owns a lock, and the only panics are an [acquire] of a lock the
    processor owns and a [release] of one it does not. *)

From stdpp Require Import functions.
From S2P Require Import Prelude Mem Mmu.
#[local] Open Scope Z_scope.

(** ** State *)

(** [struct cpu], the fields that the locks and the scheduler use. *)
Record cpu := Cpu {
  apicid : Z;
  ncli : Z;                  (* depth of pushcli nesting *)
  intena : Z;                (* were interrupts enabled before pushcli? *)
  cpu_proc : option nat;     (* the process running here *)
}.
Definition set_ncli (n : Z) (c : cpu) : cpu := Cpu (apicid c) n (intena c) (cpu_proc c).
Definition set_intena (n : Z) (c : cpu) : cpu := Cpu (apicid c) (ncli c) n (cpu_proc c).
Definition set_cpu_proc (p : option nat) (c : cpu) : cpu := Cpu (apicid c) (ncli c) (intena c) p.

Record spinlock := Spinlock {
  sl_locked : Z;
  sl_name : string;
  sl_cpu : option nat;       (* index in cpus[], None for the null pointer *)
  sl_pcs : list Z;
}.

(** The processors' own registers, the table cpus[] and the locks by address. *)
Record smp := Smp {
  eflags : nat -> Z;
  lapic : option (nat -> Z);      (* the ID register of each local APIC, once mapped *)
  cpus : list cpu;
  ncpu : nat;
  locks : Z -> spinlock;
  stack : mem;
}.
Definition set_eflags (h : nat) (e : Z) (s : smp) : smp :=
  Smp (<[h := e]> (eflags s)) (lapic s) (cpus s) (ncpu s) (locks s) (stack s).
Definition set_cpus (cs : list cpu) (s : smp) : smp :=
  Smp (eflags s) (lapic s) cs (ncpu s) (locks s) (stack s).
Definition set_lk (l : Z) (k : spinlock) (s : smp) : smp :=
  Smp (eflags s) (lapic s) (cpus s) (ncpu s) (<[l := k]> (locks s)) (stack s).
Definition upd_cpu (i : nat) (f : cpu -> cpu) : M smp unit :=
  modify (fun s => set_cpus (alter f i (cpus s)) s).
Definition upd_lk (l : Z) (f : spinlock -> spinlock) : M smp unit :=
  modify (fun s => set_lk l (f (locks s l)) s).

(** ** Operations *)

Definition FL_IF : Z := 512.
Definition readeflags (h : nat) : M smp Z := gets (fun s => eflags s h).
Definition cli (h : nat) : M smp unit :=
  modify (fun s => set_eflags h (Z.ldiff (eflags s h) FL_IF) s).
Definition sti (h : nat) : M smp unit :=
  modify (fun s => set_eflags h (Z.lor (eflags s h) FL_IF) s).

Definition lapicid (h : nat) : M smp Z :=
  gets (fun s => match lapic s with Some r => Z.shiftr (r h) 24 | None => 0 end).

(** [for(i = 0; i < ncpu; ++i) if(cpus[i].apicid == apicid) return &cpus[i];] *)
Fixpoint cpu_scan (cs : list cpu) (i : nat) (id : Z) : option nat :=
  match cs with
  | [] => None
  | c :: cs => if apicid c =? id then Some i else cpu_scan cs (S i) id
  end.
Definition mycpu (h : nat) : M smp nat :=
  e <- readeflags h ;;
  panic_if (negb (Z.land e FL_IF =? 0)) "mycpu called with interrupts enabled" ;;;
  id <- lapicid h ;;
  s <- get ;;
  match cpu_scan (take (ncpu s) (cpus s)) 0 id with
  | Some i => ret i
  | None => panic "unknown apicid"
  end.
Definition cpuid (h : nat) : M smp Z := i <- mycpu h ;; ret (Z.of_nat i).

(** A field of the record of this processor. *)
Definition mycpu_get {A} (h : nat) (f : cpu -> A) (d : A) : M smp A :=
  i <- mycpu h ;; gets (fun s => match cpus s !! i with Some c => f c | None => d end).
Definition mycpu_upd (h : nat) (f : cpu -> cpu) : M smp unit :=
  i <- mycpu h ;; upd_cpu i f.

Definition pushcli (h : nat) : M smp unit :=
  e <- readeflags h ;;
  cli h ;;;
  n <- mycpu_get h ncli 0 ;;
  (if n =? 0 then mycpu_upd h (set_intena (Z.land e FL_IF)) else ret tt) ;;;
  mycpu_upd h (fun c => set_ncli (s32 (ncli c + 1)) c).

Definition popcli (h : nat) : M smp unit :=
  e <- readeflags h ;;
  panic_if (negb (Z.land e FL_IF =? 0)) "popcli - interruptible" ;;;
  mycpu_upd h (fun c => set_ncli (s32 (ncli c - 1)) c) ;;;
  n <- mycpu_get h ncli 0 ;;
  panic_if (n <? 0) "popcli" ;;;
  b <- mycpu_get h intena 0 ;;
  if (n =? 0) && negb (b =? 0) then sti h else ret tt.

(** The process running on this processor. *)
Definition myproc (h : nat) : M smp (option nat) :=
  pushcli h ;;;
  p <- mycpu_get h cpu_proc None ;;
  popcli h ;;;
  ret p.

Definition initlock (l : Z) (name : string) : M smp unit :=
  upd_lk l (fun k => Spinlock 0 name None (sl_pcs k)).

(** [holding] reads lk->locked, and lk->cpu when that is not 0. *)
Definition holding_locked (l : Z) : M smp bool :=
  gets (fun s => negb (sl_locked (locks s l) =? 0)).
Definition holding_cpu (h : nat) (l : Z) : M smp bool :=
  i <- mycpu h ;; gets (fun s => bool_decide (sl_cpu (locks s l) = Some i)).
Definition holding (h : nat) (l : Z) : M smp bool :=
  pushcli h ;;;
  b <- holding_locked l ;;
  r <- (if b then holding_cpu h l else ret false) ;;
  popcli h ;;;
  ret r.

Definition xchg (l newval : Z) : M smp Z :=
  s <- get ;;
  upd_lk l (fun k => Spinlock newval (sl_name k) (sl_cpu k) (sl_pcs k)) ;;;
  ret (sl_locked (locks s l)).

(** The return addresses found by following the saved frame pointers, up to ten
    frames, as long as they are kernel addresses. *)
Fixpoint pcs_loop (m : mem) (ebp : Z) (n : nat) : list Z :=
  match n with
  | O => []
  | S n =>
      if (ebp =? 0) || (ebp <? KERNBASE) || (ebp =? 4294967295) then repeat 0 (S n)
      else ld32 m (ebp + 4) :: pcs_loop m (ld32 m ebp) n
  end.
Definition getcallerpcs (m : mem) (v : Z) : list Z := pcs_loop m (u32 (v - 8)) 10.

(** What [acquire] does once the exchange gave 0; [v] is the address of its
    argument. *)
Definition acquire_record (h : nat) (v l : Z) : M smp unit :=
  i <- mycpu h ;;
  upd_lk l (fun k => Spinlock (sl_locked k) (sl_name k) (Some i) (sl_pcs k)) ;;;
  m <- gets stack ;;
  upd_lk l (fun k => Spinlock (sl_locked k) (sl_name k) (sl_cpu k) (getcallerpcs m v)).

(** Spinning with nobody else to run does not end. *)
Definition acquire (h : nat) (v l : Z) : M smp unit :=
  pushcli h ;;;
  r <- holding h l ;;
  panic_if r "acquire" ;;;
  old <- xchg l 1 ;;
  (if old =? 0 then ret tt else diverge) ;;;
  acquire_record h v l.

Definition release_clear (l : Z) : M smp unit :=
  upd_lk l (fun k => Spinlock (sl_locked k) (sl_name k) (sl_cpu k) (<[0%nat := 0]> (sl_pcs k))) ;;;
  upd_lk l (fun k => Spinlock (sl_locked k) (sl_name k) None (sl_pcs k)).
Definition release_store (l : Z) : M smp unit :=
  upd_lk l (fun k => Spinlock 0 (sl_name k) (sl_cpu k) (sl_pcs k)).
Definition release (h : nat) (l : Z) : M smp unit :=
  r <- holding h l ;;
  panic_if (negb r) "release" ;;;
  release_clear l ;;;
  release_store l ;;;
  popcli h.

(** ** What the operations do on a processor with its interrupts off *)

(** mpinit found the processors: cpus[i] describes processor [i], and no two
    local APICs have the same identifier. *)
Definition topo (s : smp) : Prop :=
  (ncpu s <= length (cpus s))%nat /\
  exists r, lapic s = Some r /\
    (forall i c, (i < ncpu s)%nat -> cpus s !! i = Some c -> apicid c = Z.shiftr (r i) 24) /\
    (forall i j, (i < ncpu s)%nat -> (j < ncpu s)%nat ->
       Z.shiftr (r i) 24 = Z.shiftr (r j) 24 -> i = j).

Definition if_off (s : smp) (h : nat) : Prop := Z.land (eflags s h) FL_IF = 0.

Lemma cpu_scan_at cs k id i :
  (exists c, cs !! i = Some c /\ apicid c = id) ->
  (forall j c, (j < i)%nat -> cs !! j = Some c -> apicid c <> id) ->
  cpu_scan cs k id = Some (k + i)%nat.
Proof.
  revert k i. induction cs as [|c cs IH]; intros k i (c' & Hc & Hid) Hlt; [done|]. simpl.
  destruct i as [|i].
  - injection Hc as ->. rewrite Hid, Z.eqb_refl. f_equal. lia.
  - destruct (Z.eqb_spec (apicid c) id) as [E|E]; [by destruct (Hlt 0%nat c ltac:(lia) eq_refl)|].
    rewrite (IH (S k) i); [f_equal; lia | eauto |].
    intros j d Hj Hd. apply (Hlt (S j) d); [lia | done].
Qed.

Lemma topo_cpu s h : topo s -> (h < ncpu s)%nat -> exists c, cpus s !! h = Some c.
Proof. intros (Hl & _) Hh. apply lookup_lt_is_Some. lia. Qed.

Lemma mycpu_self s h : topo s -> (h < ncpu s)%nat -> if_off s h -> mycpu h s = Ret h s.
Proof.
  intros Ht Hh Hif. pose proof (topo_cpu s h Ht Hh) as (c & Hc).
  destruct Ht as (Hl & r & Hr & Hid & Hinj).
  unfold mycpu, readeflags, lapicid, bind, gets, get. rewrite Hif. simpl. rewrite Hr.
  rewrite (cpu_scan_at _ 0 _ h); [done | |].
  - exists c. rewrite lookup_take_lt by done. eauto.
  - intros j d Hj Hd E. apply lookup_take_Some in Hd as [Hd Hjn].
    rewrite (Hid j d) in E by (done || lia). apply Hinj in E; lia.
Qed.

Lemma if_off_ldiff e : Z.land (Z.ldiff e FL_IF) FL_IF = 0.
Proof. apply Z.bits_inj'. intros i Hi. rewrite Z.land_spec, Z.ldiff_spec, Z.bits_0. by destruct (Z.testbit e i), (Z.testbit FL_IF i). Qed.
Lemma if_on_lor e : Z.land (Z.lor e FL_IF) FL_IF = FL_IF.
Proof. apply Z.bits_inj'. intros i Hi. rewrite Z.land_spec, Z.lor_spec. by destruct (Z.testbit e i), (Z.testbit FL_IF i). Qed.

(** The state with another record for [h] and possibly other flags. *)
Definition put_cpu (h : nat) (c : cpu) (e : option Z) (s : smp) : smp :=
  set_cpus (<[h := c]> (cpus s)) (match e with Some e => set_eflags h e s | None => s end).

Lemma topo_put s h c c' e :
  topo s -> cpus s !! h = Some c -> apicid c' = apicid c -> topo (put_cpu h c' e s).
Proof.
  intros (Hl & r & Hr & Hid & Hinj) Hc Ha. unfold topo.
  assert (lapic (put_cpu h c' e s) = lapic s /\ ncpu (put_cpu h c' e s) = ncpu s) as [-> ->]
    by (by destruct e).
  replace (cpus (put_cpu h c' e s)) with (<[h := c']> (cpus s)) by (by destruct e).
  split; [by rewrite length_insert|]. exists r. split_and!; [done | | done]. intros i d Hi Hd.
  destruct (decide (i = h)) as [->|].
  - rewrite list_lookup_insert_eq in Hd by (by eapply lookup_lt_Some).
    injection Hd as <-. rewrite Ha. eauto.
  - rewrite list_lookup_insert_ne in Hd by done. eauto.
Qed.

(** [pushcli]'s and [popcli]'s new record and flags. *)
Definition pushed_cpu (e : Z) (c : cpu) : cpu :=
  Cpu (apicid c) (ncli c + 1) (if ncli c =? 0 then Z.land e FL_IF else intena c) (cpu_proc c).
Definition popped_cpu (c : cpu) : cpu := Cpu (apicid c) (ncli c - 1) (intena c) (cpu_proc c).
Definition popped_eflags (e : Z) (c : cpu) : option Z :=
  if (ncli c =? 1) && negb (intena c =? 0) then Some (Z.lor e FL_IF) else None.

Lemma mycpu_get_self {A} (f : cpu -> A) d s h c :
  topo s -> (h < ncpu s)%nat -> if_off s h -> cpus s !! h = Some c ->
  mycpu_get h f d s = Ret (f c) s.
Proof. intros. unfold mycpu_get, gets, bind. by rewrite mycpu_self, H2. Qed.

Lemma mycpu_upd_self f s h c :
  topo s -> (h < ncpu s)%nat -> if_off s h -> cpus s !! h = Some c ->
  mycpu_upd h f s = Ret tt (set_cpus (<[h := f c]> (cpus s)) s).
Proof.
  intros. unfold mycpu_upd, upd_cpu, modify, bind.
  by rewrite mycpu_self, (alter_insert_same _ _ _ c).
Qed.

Lemma pushcli_eq s h c :
  topo s -> (h < ncpu s)%nat -> cpus s !! h = Some c -> 0 <= ncli c < 2147483647 ->
  pushcli h s = Ret tt (put_cpu h (pushed_cpu (eflags s h) c) (Some (Z.ldiff (eflags s h) FL_IF)) s).
Proof.
  intros Ht Hh Hc Hn. unfold pushcli, readeflags, cli, gets, modify.
  set (s1 := set_eflags h (Z.ldiff (eflags s h) FL_IF) s).
  assert (if_off s1 h) as Hoff by (unfold if_off, s1; simpl; rewrite fn_lookup_insert; apply if_off_ldiff).
  unfold bind at 1 2. fold s1.
  rewrite (bind_Ret _ _ _ _ _ (mycpu_get_self ncli 0 s1 h c Ht Hh Hoff Hc)).
  destruct (Z.eqb_spec (ncli c) 0) as [E|E].
  - rewrite (bind_Ret _ _ _ _ _ (mycpu_upd_self (set_intena (Z.land (eflags s h) FL_IF)) s1 h c Ht Hh Hoff Hc)).
    assert (topo (set_cpus (<[h:=set_intena (Z.land (eflags s h) FL_IF) c]> (cpus s1)) s1)) as Ht2
      by (by apply (topo_put s h c _ (Some _))).
    erewrite (mycpu_upd_self _ _ h _ Ht2 Hh Hoff);
      [|simpl; apply list_lookup_insert_eq; by eapply lookup_lt_Some].
    unfold put_cpu, pushed_cpu. simpl. rewrite list_insert_insert_eq, s32_small by lia.
    by rewrite E.
  - rewrite (bind_Ret _ _ s1 tt s1 eq_refl).
    rewrite (mycpu_upd_self _ s1 h c Ht Hh Hoff Hc). unfold put_cpu, pushed_cpu.
    destruct (Z.eqb_spec (ncli c) 0); [done|]. unfold set_ncli. by rewrite s32_small by lia.
Qed.

Lemma popcli_eq s h c :
  topo s -> (h < ncpu s)%nat -> cpus s !! h = Some c -> 0 < ncli c <= 2147483647 -> if_off s h ->
  popcli h s = Ret tt (put_cpu h (popped_cpu c) (popped_eflags (eflags s h) c) s).
Proof.
  intros Ht Hh Hc Hn Hoff. unfold popcli, readeflags, gets.
  unfold bind at 1. unfold bind at 1. rewrite Hoff. simpl panic_if.
  unfold ret at 1. cbv iota beta. rewrite (bind_Ret _ _ _ _ _ (mycpu_upd_self _ s h c Ht Hh Hoff Hc)).
  rewrite s32_small by lia. change (set_ncli (ncli c - 1) c) with (popped_cpu c).
  set (s1 := set_cpus (<[h:=popped_cpu c]> (cpus s)) s).
  assert (topo s1) as Ht1 by (by apply (topo_put s h c _ None)).
  assert (cpus s1 !! h = Some (popped_cpu c)) as Hc1
    by (apply list_lookup_insert_eq; by eapply lookup_lt_Some).
  rewrite (bind_Ret _ _ _ _ _ (mycpu_get_self ncli 0 s1 h _ Ht1 Hh Hoff Hc1)). simpl ncli.
  destruct (Z.ltb_spec (ncli c - 1) 0); [lia|]. unfold panic_if.
  rewrite (bind_Ret _ _ s1 tt s1 eq_refl).
  rewrite (bind_Ret _ _ _ _ _ (mycpu_get_self intena 0 s1 h _ Ht1 Hh Hoff Hc1)). simpl intena.
  unfold popped_eflags. replace (ncli c - 1 =? 0) with (ncli c =? 1) by zcases.
  change (intena (popped_cpu c)) with (intena c).
  by destruct ((ncli c =? 1) && negb (intena c =? 0)).
Qed.

(** ** All processors at once

    Between two accesses to shared memory a processor is at a control point of
    [acquire] or [release]; [t_held] and [t_push] record the locks it owns and
    the [pushcli]s of its own that are not undone. *)
Inductive pc :=
| Run
| AcqHold (l : Z) | AcqCmp (l : Z) | AcqRet (l : Z) (r : bool) | Spin (l : Z) | Record_ (l : Z)
| RelHold (l : Z) | RelCmp (l : Z) | RelRet (l : Z) (r : bool) | RelClear (l : Z)
| RelStore (l : Z) | RelPop.
Record thread := Thread { t_pc : pc; t_held : list Z; t_push : nat }.
Definition at_pc (p : pc) (t : thread) : thread := Thread p (t_held t) (t_push t).

(** What a processor can begin when it is in neither function. *)
Inductive act := Acquire (l : Z) | Release (l : Z) | Push | Pop | Sti | Cli.

Definition start (h : nat) (a : act) (t : thread) : M smp thread :=
  match a with
  | Acquire l => pushcli h ;;; pushcli h ;;; ret (at_pc (AcqHold l) t)
  | Release l => pushcli h ;;; ret (at_pc (RelHold l) t)
  | Push => pushcli h ;;; ret (Thread Run (t_held t) (S (t_push t)))
  | Pop => popcli h ;;; ret (Thread Run (t_held t) (pred (t_push t)))
  | Sti => sti h ;;; ret t
  | Cli => cli h ;;; ret t
  end.

Definition advance (h : nat) (v : Z) (t : thread) : M smp thread :=
  match t_pc t with
  | Run => ret t
  | AcqHold l => b <- holding_locked l ;; ret (at_pc (if b then AcqCmp l else AcqRet l false) t)
  | AcqCmp l => r <- holding_cpu h l ;; ret (at_pc (AcqRet l r) t)
  | AcqRet l r => popcli h ;;; panic_if r "acquire" ;;; ret (at_pc (Spin l) t)
  | Spin l => old <- xchg l 1 ;; ret (at_pc (if old =? 0 then Record_ l else Spin l) t)
  | Record_ l => acquire_record h v l ;;; ret (Thread Run (l :: t_held t) (t_push t))
  | RelHold l => b <- holding_locked l ;; ret (at_pc (if b then RelCmp l else RelRet l false) t)
  | RelCmp l => r <- holding_cpu h l ;; ret (at_pc (RelRet l r) t)
  | RelRet l r => popcli h ;;; panic_if (negb r) "release" ;;; ret (at_pc (RelClear l) t)
  | RelClear l => release_clear l ;;; ret (at_pc (RelStore l) t)
  | RelStore l => release_store l ;;; ret (Thread RelPop (list_difference (t_held t) [l]) (t_push t))
  | RelPop => popcli h ;;; ret (at_pc Run t)
  end.

(** The [pushcli]s that the control point adds to those of the locks owned. *)
Definition extra (p : pc) : Z :=
  match p with
  | AcqHold _ | AcqCmp _ | AcqRet _ _ => 2
  | Spin _ | Record_ _ | RelHold _ | RelCmp _ | RelRet _ _ | RelPop => 1
  | _ => 0
  end.
Definition nest (t : thread) : Z := Z.of_nat (length (t_held t) + t_push t) + extra (t_pc t).

(** The callers' part: a [popcli] of one's own undoes a [pushcli] of one's own,
    interrupts are turned on only outside all critical sections, and the
    nesting fits an [int]. *)
Definition allowed (a : act) (t : thread) : Prop :=
  match a with
  | Pop => (0 < t_push t)%nat
  | Sti => nest t = 0
  | Cli => True
  | _ => nest t + 2 <= 2147483647
  end.

Definition config : Type := smp * (nat -> thread).
Inductive step : config -> config -> Prop :=
| step_start h a s ts t s' :
    (h < ncpu s)%nat -> t_pc (ts h) = Run -> allowed a (ts h) ->
    start h a (ts h) s = Ret t s' -> step (s, ts) (s', <[h := t]> ts)
| step_advance h v s ts t s' :
    (h < ncpu s)%nat -> advance h v (ts h) s = Ret t s' -> step (s, ts) (s', <[h := t]> ts).

(** ** The invariant *)

(** The processor owns the lock; it is named by lk->cpu from the end of
    [acquire] to the clearing of the field. *)
Definition owner (t : thread) (l : Z) : Prop := l ∈ t_held t \/ t_pc t = Record_ l.
Definition named (t : thread) (l : Z) : Prop := l ∈ t_held t /\ t_pc t <> RelStore l.

Definition lock_ok (s : smp) (ts : nat -> thread) (l : Z) : Prop :=
  (forall h, (h < ncpu s)%nat -> owner (ts h) l -> sl_locked (locks s l) <> 0) /\
  (sl_locked (locks s l) <> 0 -> exists h, (h < ncpu s)%nat /\ owner (ts h) l) /\
  (forall h h', (h < ncpu s)%nat -> (h' < ncpu s)%nat ->
     owner (ts h) l -> owner (ts h') l -> h = h') /\
  (forall h, sl_cpu (locks s l) = Some h <-> (h < ncpu s)%nat /\ named (ts h) l).

Definition pc_ok (t : thread) : Prop :=
  match t_pc t with
  | AcqRet l r | RelRet l r => r = bool_decide (l ∈ t_held t)
  | Spin l | Record_ l => l ∉ t_held t
  | RelClear l | RelStore l => l ∈ t_held t
  | _ => True
  end.

Definition thread_ok (s : smp) (h : nat) (t : thread) : Prop :=
  NoDup (t_held t) /\ pc_ok t /\ nest t <= 2147483647 /\
  (exists c, cpus s !! h = Some c /\ ncli c = nest t) /\
  (0 < nest t -> if_off s h).

Definition lock_inv (c : config) : Prop :=
  topo c.1 /\ (forall h, (h < ncpu c.1)%nat -> thread_ok c.1 h (c.2 h)) /\
  (forall l, lock_ok c.1 c.2 l).

(** A step of [h] that leaves the locks and the other processors alone. *)
Definition local (h : nat) (s s' : smp) : Prop :=
  topo s' /\ ncpu s' = ncpu s /\ locks s' = locks s /\
  forall h', h' <> h -> cpus s' !! h' = cpus s !! h' /\ eflags s' h' = eflags s h'.

Definition depth (s : smp) (h : nat) (n : Z) : Prop := exists c, cpus s !! h = Some c /\ ncli c = n.

Lemma local_put s h c c' e :
  topo s -> cpus s !! h = Some c -> apicid c' = apicid c -> local h s (put_cpu h c' e s).
Proof.
  intros Ht Hc Ha. split; [by eapply topo_put|]. split_and!; [by destruct e.. |].
  intros h' Hne. destruct e; simpl; rewrite list_lookup_insert_ne by done; [|done].
  by rewrite fn_lookup_insert_ne.
Qed.

Lemma local_trans h s1 s2 s3 : local h s1 s2 -> local h s2 s3 -> local h s1 s3.
Proof.
  intros (_ & Hn & Hl & Ho) (Ht & Hn' & Hl' & Ho'). split_and!; [done | congruence.. |].
  intros h' Hne. destruct (Ho _ Hne) as [<- <-]. by apply Ho'.
Qed.

Lemma put_cpu_at s h c c' e : cpus s !! h = Some c -> cpus (put_cpu h c' e s) !! h = Some c'.
Proof.
  intros Hc. replace (cpus (put_cpu h c' e s)) with (<[h := c']> (cpus s)) by (by destruct e).
  apply list_lookup_insert_eq. by eapply lookup_lt_Some.
Qed.

Lemma push_ok s h n :
  topo s -> (h < ncpu s)%nat -> depth s h n -> 0 <= n < 2147483647 ->
  exists s', pushcli h s = Ret tt s' /\ local h s s' /\ depth s' h (n + 1) /\ if_off s' h.
Proof.
  intros Ht Hh (c & Hc & Hn) Hb. eexists. split; [by rewrite (pushcli_eq s h c) by (done || lia)|].
  split; [by apply (local_put s h c)|]. split.
  - eexists. split; [by eapply put_cpu_at|]. simpl. lia.
  - unfold if_off. simpl. rewrite fn_lookup_insert. apply if_off_ldiff.
Qed.

Lemma pop_ok s h n :
  topo s -> (h < ncpu s)%nat -> depth s h n -> 0 < n <= 2147483647 -> if_off s h ->
  exists s', popcli h s = Ret tt s' /\ local h s s' /\ depth s' h (n - 1) /\
    (0 < n - 1 -> if_off s' h).
Proof.
  intros Ht Hh (c & Hc & Hn) Hb Hoff. eexists.
  split; [by rewrite (popcli_eq s h c) by (done || lia)|].
  split; [by apply (local_put s h c)|]. split.
  - eexists. split; [by eapply put_cpu_at|]. simpl. lia.
  - intros H. unfold popped_eflags. destruct (Z.eqb_spec (ncli c) 1); [lia | done].
Qed.


Section frame.
Context (s s' : smp) (ts : nat -> thread) (h : nat) (t : thread).
Context (Hn : ncpu s' = ncpu s).

Lemma lock_ok_same l :
  (h < ncpu s)%nat -> lock_ok s ts l -> locks s' l = locks s l ->
  (owner t l <-> owner (ts h) l) -> (named t l <-> named (ts h) l) ->
  lock_ok s' (<[h := t]> ts) l.
Proof using Hn.
  intros Hh Hok Hl Ho Hna. unfold lock_ok. rewrite Hn, Hl.
  assert (forall k, owner (<[h := t]> ts k) l <-> owner (ts k) l) as Ho'.
  { intros k. destruct (decide (h = k)) as [<-|];
      [by rewrite fn_lookup_insert | by rewrite fn_lookup_insert_ne]. }
  assert (forall k, named (<[h := t]> ts k) l <-> named (ts k) l) as Hna'.
  { intros k. destruct (decide (h = k)) as [<-|];
      [by rewrite fn_lookup_insert | by rewrite fn_lookup_insert_ne]. }
  setoid_rewrite Ho'. setoid_rewrite Hna'. done.
Qed.

Lemma inv_build :
  lock_inv (s, ts) -> topo s' ->
  (forall h', h' <> h -> cpus s' !! h' = cpus s !! h' /\ eflags s' h' = eflags s h') ->
  thread_ok s' h t -> (forall l, lock_ok s' (<[h := t]> ts) l) ->
  lock_inv (s', <[h := t]> ts).
Proof using Hn.
  intros (_ & Hth & _) Ht Ho Hok Hl. split_and!; [done | | done]. simpl in *.
  rewrite Hn. intros k Hk. destruct (decide (h = k)) as [<-|Hne]; [by rewrite fn_lookup_insert|].
  rewrite fn_lookup_insert_ne by done. destruct (Ho k) as [Hc He]; [done|].
  destruct (Hth k Hk) as (? & ? & ? & (c & ? & ?) & Hif). split_and!; try done.
  - exists c. by rewrite Hc.
  - unfold if_off. by rewrite He.
Qed.

Lemma inv_local :
  lock_inv (s, ts) -> (h < ncpu s)%nat -> local h s s' -> thread_ok s' h t ->
  (forall l, owner t l <-> owner (ts h) l) -> (forall l, named t l <-> named (ts h) l) ->
  lock_inv (s', <[h := t]> ts).
Proof using Hn.
  intros Hinv Hh (Ht & _ & Hl & Ho) Hok Hown Hnam. apply inv_build; try done.
  intros l. apply lock_ok_same; try done; [apply Hinv | by rewrite Hl].
Qed.
End frame.

(** Owners and names are those of before when the control points are of neither
    kind. *)
Ltac same_locks Hpc :=
  unfold owner, named; simpl; rewrite Hpc; intuition congruence.

Lemma nest_at t p : nest (at_pc p t) = nest t - extra (t_pc t) + extra p.
Proof. unfold nest. simpl. lia. Qed.
Lemma nest_nonneg t : 0 <= nest t.
Proof. unfold nest. destruct (t_pc t); simpl; lia. Qed.

Lemma thread_ok_at s h t p :
  NoDup (t_held t) -> pc_ok (at_pc p t) -> nest (at_pc p t) <= 2147483647 ->
  depth s h (nest (at_pc p t)) -> (0 < nest (at_pc p t) -> if_off s h) -> thread_ok s h (at_pc p t).
Proof. done. Qed.

Section steps.
Context (s : smp) (ts : nat -> thread) (h : nat).
Context (Hinv : lock_inv (s, ts)) (Hh : (h < ncpu s)%nat).

Lemma inv_topo : topo s.
Proof using Hinv. apply Hinv. Qed.
Lemma inv_thread : thread_ok s h (ts h).
Proof using Hinv Hh. apply Hinv, Hh. Qed.
Lemma inv_lock l : lock_ok s ts l.
Proof using Hinv. apply Hinv. Qed.

Lemma start_push p :
  t_pc (ts h) = Run -> (forall l, p <> Record_ l /\ p <> RelStore l) ->
  pc_ok (at_pc p (ts h)) -> extra p = 1 -> nest (ts h) + 2 <= 2147483647 ->
  exists s', pushcli h s = Ret tt s' /\ lock_inv (s', <[h := at_pc p (ts h)]> ts).
Proof using Hinv Hh.
  intros Hpc Hp Hok He Hb. destruct inv_thread as (Hnd & _ & Hb' & Hd & _).
  pose proof (nest_nonneg (ts h)).
  destruct (push_ok s h (nest (ts h)) inv_topo Hh Hd) as (s1 & E & Hloc & Hd1 & Hoff); [lia|].
  exists s1. split; [done|]. pose proof (nest_at (ts h) p) as Hna. rewrite Hpc, He in Hna. simpl in Hna.
  apply (inv_local s); try done; [apply Hloc | | |].
  - apply thread_ok_at; try done; [lia|]. by replace (nest (at_pc p (ts h))) with (nest (ts h) + 1) by lia.
  - intros l. destruct (Hp l). same_locks Hpc.
  - intros l. destruct (Hp l). same_locks Hpc.
Qed.

Lemma start_ok a :
  t_pc (ts h) = Run -> allowed a (ts h) ->
  exists t s', start h a (ts h) s = Ret t s' /\ lock_inv (s', <[h := t]> ts).
Proof using Hinv Hh.
  intros Hpc Ha. destruct inv_thread as (Hnd & Hok & Hb & Hd & Hif). pose proof inv_topo as Ht.
  pose proof (nest_nonneg (ts h)).
  destruct a as [l|l| | | |]; simpl in Ha.
  - destruct (push_ok s h (nest (ts h)) Ht Hh Hd) as (s1 & E1 & Hloc & Hd1 & _); [lia|].
    destruct (push_ok s1 h (nest (ts h) + 1)) as (s2 & E2 & Hloc2 & Hd2 & Hoff2);
      [apply Hloc | destruct Hloc as (_ & -> & _); done | done | lia |].
    eexists _, s2. simpl. rewrite (bind_Ret _ _ _ _ _ E1), (bind_Ret _ _ _ _ _ E2). split; [done|].
    pose proof (local_trans _ _ _ _ Hloc Hloc2) as Hl.
    pose proof (nest_at (ts h) (AcqHold l)) as Hna. rewrite Hpc in Hna. simpl in Hna.
    apply (inv_local s); try done; [apply Hl | | intros ?; same_locks Hpc..].
    apply thread_ok_at; try done; [lia|]. rewrite Hna.
    by replace (nest (ts h) - 0 + 2) with (nest (ts h) + 1 + 1) by lia.
  - destruct (start_push (RelHold l) Hpc) as (s1 & E & Hi); try done.
    eexists _, s1. simpl. by rewrite (bind_Ret _ _ _ _ _ E).
  - destruct (push_ok s h (nest (ts h)) Ht Hh Hd) as (s1 & E1 & Hloc & Hd1 & Hoff); [lia|].
    eexists _, s1. simpl. rewrite (bind_Ret _ _ _ _ _ E1). split; [done|].
    assert (nest (Thread Run (t_held (ts h)) (S (t_push (ts h)))) = nest (ts h) + 1) as Hna
      by (unfold nest; rewrite Hpc; simpl; lia).
    apply (inv_local s); try done; [apply Hloc | | intros ?; same_locks Hpc..].
    unfold thread_ok. rewrite Hna. split_and!; try done. lia.
  - assert (0 < nest (ts h)) as Hpos by (unfold nest; rewrite Hpc; simpl; lia).
    destruct (pop_ok s h (nest (ts h)) Ht Hh Hd) as (s1 & E1 & Hloc & Hd1 & Hoff); [lia | auto |].
    eexists _, s1. simpl. rewrite (bind_Ret _ _ _ _ _ E1). split; [done|].
    assert (nest (Thread Run (t_held (ts h)) (pred (t_push (ts h)))) = nest (ts h) - 1) as Hna
      by (unfold nest; rewrite Hpc; simpl; lia).
    apply (inv_local s); try done; [apply Hloc | | intros ?; same_locks Hpc..].
    unfold thread_ok. rewrite Hna. split_and!; try done. lia.
  - eexists _, _. split; [done|]. apply (inv_local s); try done; [| |intros ?; done..].
    + split_and!; try done. intros h' Hne. simpl. by rewrite fn_lookup_insert_ne.
    + split_and!; try done. lia.
  - eexists _, _. split; [done|]. apply (inv_local s); try done; [| |intros ?; done..].
    + split_and!; try done. intros h' Hne. simpl. by rewrite fn_lookup_insert_ne.
    + split_and!; try done. intros _. unfold if_off. simpl. rewrite fn_lookup_insert. apply if_off_ldiff.
Qed.

(** The piece returns, in a state that satisfies the invariant. *)
Definition runs (m : M smp thread) : Prop :=
  exists t s', m s = Ret t s' /\ lock_inv (s', <[h := t]> ts).

Lemma local_refl : local h s s.
Proof using Hinv. split; [apply inv_topo | done]. Qed.

(** A piece that only reads. *)
Lemma read_ok p :
  (forall l, t_pc (ts h) <> Record_ l /\ t_pc (ts h) <> RelStore l /\ p <> Record_ l /\ p <> RelStore l) ->
  extra p = extra (t_pc (ts h)) -> pc_ok (at_pc p (ts h)) ->
  lock_inv (s, <[h := at_pc p (ts h)]> ts).
Proof using Hinv Hh.
  intros Hp He Hok. destruct inv_thread as (Hnd & _ & Hb & Hd & Hif).
  assert (nest (at_pc p (ts h)) = nest (ts h)) as Hna by (rewrite nest_at; lia).
  apply (inv_local s); try done; [apply local_refl | | |].
  - unfold thread_ok. by rewrite Hna.
  - intros l. destruct (Hp l) as (? & ? & ? & ?). unfold owner. simpl. intuition congruence.
  - intros l. destruct (Hp l) as (? & ? & ? & ?). unfold named. simpl. intuition congruence.
Qed.

(** A [popcli] that ends a piece. *)
Lemma pop_piece p :
  (forall l, t_pc (ts h) <> Record_ l /\ t_pc (ts h) <> RelStore l /\ p <> Record_ l /\ p <> RelStore l) ->
  extra (t_pc (ts h)) = extra p + 1 -> 0 <= extra p -> pc_ok (at_pc p (ts h)) ->
  exists s', popcli h s = Ret tt s' /\ lock_inv (s', <[h := at_pc p (ts h)]> ts).
Proof using Hinv Hh.
  intros Hp He He' Hok. destruct inv_thread as (Hnd & _ & Hb & Hd & Hif).
  assert (0 < nest (ts h)) as Hpos by (unfold nest; lia).
  destruct (pop_ok s h (nest (ts h)) inv_topo Hh Hd) as (s1 & E1 & Hloc & Hd1 & Hoff); [lia | auto |].
  assert (nest (at_pc p (ts h)) = nest (ts h) - 1) as Hna by (rewrite nest_at; lia).
  exists s1. split; [done|]. apply (inv_local s); try done; [apply Hloc | | |].
  - unfold thread_ok. rewrite Hna. split_and!; try done. lia.
  - intros l. destruct (Hp l) as (? & ? & ? & ?). unfold owner. simpl. intuition congruence.
  - intros l. destruct (Hp l) as (? & ? & ? & ?). unfold named. simpl. intuition congruence.
Qed.

Lemma off_at : 0 < extra (t_pc (ts h)) -> if_off s h.
Proof using Hinv Hh. intros H. destruct inv_thread as (_ & _ & _ & _ & Hif). apply Hif. unfold nest. lia. Qed.

(** What [holding] reads: a lock that is not taken is not ours, and lk->cpu says
    whether it is. *)
Lemma unlocked_not_held l : sl_locked (locks s l) = 0 -> l ∉ t_held (ts h).
Proof using Hinv Hh. intros H Hin. destruct (inv_lock l) as (H1 & _). apply (H1 h Hh); [by left | done]. Qed.

Lemma holding_cpu_ok l :
  t_pc (ts h) <> RelStore l -> if_off s h ->
  holding_cpu h l s = Ret (bool_decide (l ∈ t_held (ts h))) s.
Proof using Hinv Hh.
  intros Hne Hoff. unfold holding_cpu, gets, bind. rewrite mycpu_self by (done || apply inv_topo).
  do 2 f_equal. apply bool_decide_ext. destruct (inv_lock l) as (_ & _ & _ & H4). rewrite H4.
  unfold named. tauto.
Qed.

Lemma holding_locked_ok l (p q : pc) :
  (forall l, t_pc (ts h) <> Record_ l /\ t_pc (ts h) <> RelStore l) ->
  (forall l, p <> Record_ l /\ p <> RelStore l) -> (forall l, q <> Record_ l /\ q <> RelStore l) ->
  extra p = extra (t_pc (ts h)) -> extra q = extra (t_pc (ts h)) ->
  pc_ok (at_pc p (ts h)) -> (l ∉ t_held (ts h) -> pc_ok (at_pc q (ts h))) ->
  runs (b <- holding_locked l ;; ret (at_pc (if b then p else q) (ts h))).
Proof using Hinv Hh.
  intros Hpc Hp Hq Hep Heq Hokp Hokq. unfold runs, holding_locked, gets, bind, ret.
  eexists _, s. split; [done|].
  destruct (Z.eqb_spec (sl_locked (locks s l)) 0) as [E|E]; simpl; apply read_ok; try done.
  - intros l'. specialize (Hpc l'). specialize (Hq l'). tauto.
  - apply Hokq. by apply unlocked_not_held.
  - intros l'. specialize (Hpc l'). specialize (Hp l'). tauto.
Qed.

(** A piece that changes one lock. *)
Lemma lock_piece s' t l :
  cpus s' = cpus s -> eflags s' = eflags s -> lapic s' = lapic s -> ncpu s' = ncpu s ->
  (forall l', l' <> l -> locks s' l' = locks s l') ->
  NoDup (t_held t) -> pc_ok t -> nest t = nest (ts h) ->
  (forall l', l' <> l -> (l' ∈ t_held t <-> l' ∈ t_held (ts h))) ->
  (forall l', l' <> l -> t_pc (ts h) <> Record_ l' /\ t_pc (ts h) <> RelStore l' /\
     t_pc t <> Record_ l' /\ t_pc t <> RelStore l') ->
  lock_ok s' (<[h := t]> ts) l -> lock_inv (s', <[h := t]> ts).
Proof using Hinv Hh.
  intros Hc He Ha Hn Hlk Hnd Hok Hne Hheld Hpcs Hl. destruct inv_thread as (_ & _ & Hb & Hd & Hif).
  apply (inv_build s); try done.
  - unfold topo. rewrite Hc, Ha, Hn. apply inv_topo.
  - intros. by rewrite Hc, He.
  - unfold thread_ok, if_off. by rewrite Hne, Hc, He.
  - intros l'. destruct (decide (l' = l)) as [->|Hd']; [done|].
    apply (lock_ok_same s); try done; [apply inv_lock | by apply Hlk | |];
      destruct (Hpcs l' Hd') as (? & ? & ? & ?); specialize (Hheld l' Hd');
      unfold owner, named; intuition congruence.
Qed.

(** The locks' fields after the pieces. *)
Lemma locks_set l k s0 : locks (set_lk l k s0) l = k.
Proof. apply fn_lookup_insert. Qed.
Lemma locks_set_ne l k s0 l' : l' <> l -> locks (set_lk l k s0) l' = locks s0 l'.
Proof. intros. by apply fn_lookup_insert_ne. Qed.

(** The owner is the only one, so what another processor's thread says of the
    lock is that it does not own it. *)
Lemma not_owner l k :
  owner (ts h) l -> (k < ncpu s)%nat -> k <> h -> ~ owner (ts k) l.
Proof using Hinv Hh. intros Ho Hk Hne Hk'. destruct (inv_lock l) as (_ & _ & H3 & _). by destruct Hne; apply H3. Qed.

Lemma owned_lock_ok s' t l :
  ncpu s' = ncpu s -> (owner (ts h) l \/ sl_locked (locks s l) = 0) -> owner t l ->
  sl_locked (locks s' l) <> 0 ->
  (sl_cpu (locks s' l) = Some h <-> named t l) -> (forall k, k <> h -> sl_cpu (locks s' l) <> Some k) ->
  lock_ok s' (<[h := t]> ts) l.
Proof using Hinv Hh.
  intros Hn Hold Hnew Hlk Hcpu Hcpu'.
  assert (forall k, (k < ncpu s)%nat -> k <> h -> ~ owner (ts k) l) as Hno.
  { intros k Hk Hne. destruct Hold as [Ho|Hz]; [by apply not_owner|].
    intros Ho. destruct (inv_lock l) as (H1 & _). by apply (H1 k). }
  assert (forall k, (k < ncpu s)%nat -> owner (<[h := t]> ts k) l -> k = h) as Honly.
  { intros k Hk. destruct (decide (k = h)) as [->|Hne]; [done|].
    rewrite fn_lookup_insert_ne by done. intros Ho. by destruct (Hno k Hk Hne). }
  unfold lock_ok. rewrite Hn. split_and!; [done | | |].
  - intros _. exists h. by rewrite fn_lookup_insert.
  - intros k k' Hk Hk' H1 H2. by rewrite (Honly k), (Honly k').
  - intros k. destruct (decide (k = h)) as [->|Hne].
    + rewrite fn_lookup_insert. tauto.
    + rewrite fn_lookup_insert_ne by done. split; [by intros ?%Hcpu'|].
      intros [Hk Hnk]. destruct (Hno k Hk Hne). left. apply Hnk.
Qed.

Lemma spin_ok l : t_pc (ts h) = Spin l -> runs (old <- xchg l 1 ;;
  ret (at_pc (if old =? 0 then Record_ l else Spin l) (ts h))).
Proof using Hinv Hh.
  intros Hpc. destruct inv_thread as (Hnd & Hok & _). unfold pc_ok in Hok. rewrite Hpc in Hok.
  unfold runs, xchg, upd_lk, modify, bind, get, ret.
  eexists _, _. split; [done|]. apply (lock_piece _ _ l); try done.
  - intros. by apply locks_set_ne.
  - unfold pc_ok. simpl. by destruct (_ =? 0).
  - rewrite nest_at, Hpc. destruct (_ =? 0); simpl; lia.
  - intros l' Hne. rewrite Hpc. simpl. destruct (_ =? 0); split_and!; congruence.
  - destruct (Z.eqb_spec (sl_locked (locks s l)) 0) as [E|E].
    + destruct (inv_lock l) as (H1 & _ & _ & H4).
      assert (forall k, sl_cpu (locks s l) <> Some k) as Hno.
      { intros k Hk. apply H4 in Hk as [Hk [Hin _]]. by apply (H1 k); [|left|]. }
      apply owned_lock_ok; rewrite ?locks_set; try done; [by right | by right |].
      simpl. split; [by intros ?%Hno | by intros [? _]].
    + destruct (inv_lock l) as (H1 & H2 & H3 & H4).
      assert (lock_ok (set_lk l (Spinlock (sl_locked (locks s l)) (sl_name (locks s l))
        (sl_cpu (locks s l)) (sl_pcs (locks s l))) s) (<[h := at_pc (Spin l) (ts h)]> ts) l) as Hk.
      { apply (lock_ok_same s); try done; [rewrite locks_set; by destruct (locks s l)| |];
          same_locks Hpc. }
      revert Hk. unfold lock_ok. rewrite !locks_set. simpl. intros (K1 & K2 & K3 & K4).
      split_and!; auto.
Qed.

Lemma record_ok v l : t_pc (ts h) = Record_ l -> runs (acquire_record h v l ;;;
  ret (Thread Run (l :: t_held (ts h)) (t_push (ts h)))).
Proof using Hinv Hh.
  intros Hpc. destruct inv_thread as (Hnd & Hok & _). unfold pc_ok in Hok. rewrite Hpc in Hok.
  assert (if_off s h) as Hoff by (apply off_at; by rewrite Hpc).
  unfold runs, acquire_record, upd_lk, modify, gets, bind, ret.
  rewrite mycpu_self by (done || apply inv_topo).
  eexists _, _. split; [done|]. apply (lock_piece _ _ l); try done.
  - intros. by rewrite !locks_set_ne.
  - by constructor.
  - unfold nest. rewrite Hpc. simpl. lia.
  - intros l' Hne. simpl. rewrite elem_of_cons. tauto.
  - intros l' Hne. rewrite Hpc. simpl. split_and!; congruence.
  - assert (sl_locked (locks s l) <> 0) as Hlk
      by (destruct (inv_lock l) as (H1 & _); apply (H1 h Hh); by right).
    apply owned_lock_ok; rewrite ?locks_set; simpl; try done.
    + left. by right.
    + left. by left.
    + split; [|done]. intros _. split; [by left | done].
    + intros k Hne [= <-]. done.
Qed.

Lemma clear_ok l : t_pc (ts h) = RelClear l -> runs (release_clear l ;;; ret (at_pc (RelStore l) (ts h))).
Proof using Hinv Hh.
  intros Hpc. destruct inv_thread as (Hnd & Hok & _). unfold pc_ok in Hok. rewrite Hpc in Hok.
  unfold runs, release_clear, upd_lk, modify, bind, ret.
  eexists _, _. split; [done|]. apply (lock_piece _ _ l); try done.
  - intros. by rewrite !locks_set_ne.
  - rewrite nest_at, Hpc. simpl. lia.
  - intros l' Hne. rewrite Hpc. simpl. split_and!; congruence.
  - assert (owner (ts h) l) as Ho by (by left).
    apply owned_lock_ok; rewrite ?locks_set; simpl; try done.
    + by left.
    + by left.
    + destruct (inv_lock l) as (H1 & _). by apply (H1 h).
    + split; [done|]. by intros [_ ?].
Qed.

Lemma store_ok l : t_pc (ts h) = RelStore l -> runs (release_store l ;;;
  ret (Thread RelPop (list_difference (t_held (ts h)) [l]) (t_push (ts h)))).
Proof using Hinv Hh.
  intros Hpc. destruct inv_thread as (Hnd & Hok & _). unfold pc_ok in Hok. rewrite Hpc in Hok.
  unfold runs, release_store, upd_lk, modify, bind, ret.
  eexists _, _. split; [done|]. apply (lock_piece _ _ l); try done.
  - intros. by rewrite !locks_set_ne.
  - by apply NoDup_list_difference.
  - unfold nest. rewrite Hpc. simpl.
    assert (length (t_held (ts h)) = S (length (list_difference (t_held (ts h)) [l]))) as ->; [|lia].
    assert (t_held (ts h) ≡ₚ l :: list_difference (t_held (ts h)) [l]) as HP;
      [|by rewrite HP at 1].
    apply NoDup_Permutation; [done | |].
    + constructor; [rewrite list_elem_of_difference; set_solver | by apply NoDup_list_difference].
    + intros x. rewrite elem_of_cons, list_elem_of_difference, list_elem_of_singleton.
      destruct (decide (x = l)) as [->|]; tauto.
  - intros l' Hne. simpl. rewrite list_elem_of_difference, list_elem_of_singleton. tauto.
  - intros l' Hne. rewrite Hpc. simpl. split_and!; congruence.
  - set (t := Thread _ _ _). assert (~ owner t l) as Hno.
    { intros [Hin|E]; simpl in *; [|done].
      rewrite list_elem_of_difference, list_elem_of_singleton in Hin. tauto. }
    assert (forall k, (k < ncpu s)%nat -> ~ owner (<[h := t]> ts k) l) as Hall.
    { intros k Hk. destruct (decide (h = k)) as [<-|Hne]; [by rewrite fn_lookup_insert|].
      rewrite fn_lookup_insert_ne by done. apply not_owner; [by left | done | done]. }
    unfold lock_ok. rewrite !locks_set. simpl. split_and!; try done.
    + intros k Hk Ho. by destruct (Hall k Hk).
    + intros k k' Hk _ Ho. by destruct (Hall k Hk).
    + destruct (inv_lock l) as (_ & _ & _ & H4). intros k. rewrite H4.
      split; intros [Hk [Hin Hp]].
      * exfalso. destruct (decide (k = h)) as [->|Hne]; [done|].
        apply (not_owner l k); [by left | done | done | by left].
      * destruct (Hall k Hk). by left.
Qed.

(** Every piece returns and keeps the invariant, except the two panics. *)
Lemma advance_ok v :
  runs (advance h v (ts h)) \/
  (exists l, t_pc (ts h) = AcqRet l true /\ l ∈ t_held (ts h) /\
     advance h v (ts h) s = Panic "acquire") \/
  (exists l, t_pc (ts h) = RelRet l false /\ l ∉ t_held (ts h) /\
     advance h v (ts h) s = Panic "release").
Proof using Hinv Hh.
  pose proof inv_thread as (Hnd & Hok & _). pose proof off_at as Hoff.
  unfold advance. unfold pc_ok in Hok. destruct (t_pc (ts h)) as [|l|l|l r|l|l|l|l|l r|l|l|] eqn:Hpc; simpl in Hoff.
  - left. eexists _, s. split; [done|]. replace (ts h) with (at_pc Run (ts h))
      by (destruct (ts h); simpl in *; by subst).
    apply read_ok; rewrite ?Hpc; done.
  - left. apply holding_locked_ok; rewrite ?Hpc; try done.
    intros Hnin. unfold pc_ok. simpl. by rewrite bool_decide_false.
  - left. eexists _, s. unfold bind. rewrite holding_cpu_ok by (rewrite ?Hpc; auto with lia).
    split; [done|]. apply read_ok; rewrite ?Hpc; done.
  - destruct r; symmetry in Hok.
    + apply bool_decide_eq_true in Hok. right. left. exists l.
      destruct (pop_piece (RelHold l)) as (s1 & E & _); rewrite ?Hpc; try done.
      by rewrite (bind_Ret _ _ _ _ _ E).
    + apply bool_decide_eq_false in Hok. left.
      destruct (pop_piece (Spin l)) as (s1 & E & Hi); rewrite ?Hpc; try done.
      eexists _, s1. by rewrite (bind_Ret _ _ _ _ _ E).
  - left. by apply spin_ok.
  - left. by apply record_ok.
  - left. apply holding_locked_ok; rewrite ?Hpc; try done.
    intros Hnin. unfold pc_ok. simpl. by rewrite bool_decide_false.
  - left. eexists _, s. unfold bind. rewrite holding_cpu_ok by (rewrite ?Hpc; auto with lia).
    split; [done|]. apply read_ok; rewrite ?Hpc; done.
  - destruct r; symmetry in Hok.
    + apply bool_decide_eq_true in Hok. left.
      destruct (pop_piece (RelClear l)) as (s1 & E & Hi); rewrite ?Hpc; try done.
      eexists _, s1. by rewrite (bind_Ret _ _ _ _ _ E).
    + apply bool_decide_eq_false in Hok. right. right. exists l.
      destruct (pop_piece Run) as (s1 & E & _); rewrite ?Hpc; try done.
      by rewrite (bind_Ret _ _ _ _ _ E).
  - left. by apply clear_ok.
  - left. by apply store_ok.
  - left. destruct (pop_piece Run) as (s1 & E & Hi); rewrite ?Hpc; try done.
    eexists _, s1. by rewrite (bind_Ret _ _ _ _ _ E).
Qed.
End steps.

Lemma step_inv c c' : step c c' -> lock_inv c -> lock_inv c'.
Proof.
  intros Hs Hinv. destruct Hs as [h a s ts t s' Hh Hpc Ha E | h v s ts t s' Hh E].
  - destruct (start_ok s ts h Hinv Hh a Hpc Ha) as (t1 & s1 & E1 & H1).
    rewrite E in E1. by injection E1 as <- <-.
  - destruct (advance_ok s ts h Hinv Hh v) as [(t1 & s1 & E1 & H1)|[(l & _ & _ & E1)|(l & _ & _ & E1)]];
      rewrite E in E1; [|done..]. by injection E1 as <- <-.
Qed.

(** No lock is taken and no processor has begun a critical section. *)
Definition idle : nat -> thread := fun _ => Thread Run [] 0.
Definition unlocked (s : smp) : Prop :=
  topo s /\ (forall l, sl_locked (locks s l) = 0 /\ sl_cpu (locks s l) = None) /\
  (forall i c, cpus s !! i = Some c -> ncli c = 0).

Lemma unlocked_inv s : unlocked s -> lock_inv (s, idle).
Proof.
  intros (Ht & Hl & Hc). split_and!; [done | |]; simpl.
  - intros h Hh. destruct (topo_cpu s h Ht Hh) as (c & E).
    split_and!; simpl; try done; [constructor|]. exists c. split; [done|]. by apply (Hc h).
  - intros l. destruct (Hl l) as [H1 H2]. unfold lock_ok. rewrite H1, H2.
    split_and!; try done.
    + intros h _ [Hin|E]; [by apply not_elem_of_nil in Hin | done].
    + intros h h' _ _ [Hin|E]; [by apply not_elem_of_nil in Hin | done].
    + intros h. split; [done|]. intros [_ [Hin _]]. by apply not_elem_of_nil in Hin.
Qed.

(** ** One critical section, on one processor *)

(** Equal but for how the flags' function is written. *)
Definition same_smp (s s' : smp) : Prop :=
  cpus s' = cpus s /\ (forall k, eflags s' k = eflags s k) /\ lapic s' = lapic s /\
  ncpu s' = ncpu s /\ locks s' = locks s.

Lemma ldiff_off e : Z.land e FL_IF = 0 -> Z.ldiff e FL_IF = e.
Proof.
  intros H. apply Z.bits_inj'. intros i Hi. rewrite Z.ldiff_spec.
  assert (Z.testbit (Z.land e FL_IF) i = false) as E by (by rewrite H, Z.bits_0).
  rewrite Z.land_spec in E. destruct (Z.testbit e i), (Z.testbit FL_IF i); done.
Qed.

(** Inside a critical section [holding] changes nothing. *)
Lemma holding_same s h l c :
  topo s -> (h < ncpu s)%nat -> cpus s !! h = Some c -> 0 < ncli c < 2147483647 -> if_off s h ->
  exists s1 s', pushcli h s = Ret tt s1 /\ popcli h s1 = Ret tt s' /\ same_smp s s' /\
    (topo s1 /\ ncpu s1 = ncpu s /\ locks s1 = locks s /\ if_off s1 h) /\
    holding h l s = Ret (negb (sl_locked (locks s l) =? 0) && bool_decide (sl_cpu (locks s l) = Some h)) s'.
Proof.
  intros Ht Hh Hc Hn Hoff.
  set (s1 := put_cpu h (pushed_cpu (eflags s h) c) (Some (Z.ldiff (eflags s h) FL_IF)) s).
  assert (pushcli h s = Ret tt s1) as E1 by (by rewrite (pushcli_eq s h c) by (done || lia)).
  assert (topo s1) as Ht1 by (by apply (topo_put s h c)).
  assert (cpus s1 !! h = Some (pushed_cpu (eflags s h) c)) as Hc1 by (by eapply put_cpu_at).
  assert (eflags s1 h = eflags s h) as He by (simpl; rewrite fn_lookup_insert; by apply ldiff_off).
  assert (if_off s1 h) as Hoff1 by (unfold if_off; by rewrite He).
  pose proof (popcli_eq s1 h _ Ht1 Hh Hc1) as E2. simpl ncli in E2.
  specialize (E2 ltac:(lia) Hoff1). eexists s1, _. split_and!; [exact E1 | exact E2 | | done.. |].
  - unfold popped_eflags. simpl. destruct (Z.eqb_spec (ncli c + 1) 1); [lia|]. simpl.
    split_and!; try done.
    + unfold put_cpu, s1. simpl. rewrite list_insert_insert_eq. unfold popped_cpu, pushed_cpu. simpl.
      destruct (Z.eqb_spec (ncli c) 0); [lia|].
      rewrite Z.add_simpl_r. apply list_insert_id. by destruct c.
    + intros k. destruct (decide (h = k)) as [<-|]; [done | simpl; by rewrite fn_lookup_insert_ne].
  - unfold holding. rewrite (bind_Ret _ _ _ _ _ E1). unfold holding_locked, gets.
    unfold bind at 1. change (locks s1) with (locks s).
    destruct (sl_locked (locks s l) =? 0); simpl.
    + rewrite (bind_Ret _ _ s1 false s1 eq_refl). by rewrite (bind_Ret _ _ _ _ _ E2).
    + unfold holding_cpu. rewrite (bind_Ret _ _ s1 (bool_decide (sl_cpu (locks s l) = Some h)) s1).
      * by rewrite (bind_Ret _ _ _ _ _ E2).
      * unfold bind, gets. by rewrite mycpu_self.
Qed.

Lemma topo_same s s' : cpus s' = cpus s -> lapic s' = lapic s -> ncpu s' = ncpu s -> topo s -> topo s'.
Proof. intros Hc Hl Hn. unfold topo. by rewrite Hc, Hl, Hn. Qed.

(** Updates of [h]'s thread, whatever the order they were made in. *)
Definition upd_thread (ts : nat -> thread) (h : nat) (t : thread) (ts' : nat -> thread) : Prop :=
  ts' h = t /\ forall k, k <> h -> ts' k = ts k.
Lemma upd_thread_insert ts h t : upd_thread ts h t (<[h := t]> ts).
Proof. split; [by rewrite fn_lookup_insert | intros; by rewrite fn_lookup_insert_ne]. Qed.

(** One more piece of [h]. *)
Lemma adv_step s0 ts0 s ts h v t s' t' :
  rtc step (s0, ts0) (s, ts) -> upd_thread ts0 h t ts -> (h < ncpu s)%nat ->
  advance h v t s = Ret t' s' ->
  exists ts', rtc step (s0, ts0) (s', ts') /\ upd_thread ts0 h t' ts'.
Proof.
  intros Hr [Ht Ho] Hh E. exists (<[h := t']> ts). split.
  - eapply rtc_r; [done|]. apply (step_advance h v); [done | by rewrite Ht].
  - split; [by rewrite fn_lookup_insert | intros; rewrite fn_lookup_insert_ne; auto].
Qed.

Lemma acquire_free s ts h v l c :
  topo s -> (h < ncpu s)%nat -> cpus s !! h = Some c -> 0 <= ncli c -> sl_locked (locks s l) = 0 ->
  t_pc (ts h) = Run -> ncli c = nest (ts h) -> nest (ts h) + 2 <= 2147483647 ->
  exists s' ts', acquire h v l s = Ret tt s' /\
    rtc step (s, ts) (s', ts') /\ upd_thread ts h (Thread Run (l :: t_held (ts h)) (t_push (ts h))) ts' /\
    topo s' /\ ncpu s' = ncpu s /\ cpus s' !! h = Some (pushed_cpu (eflags s h) c) /\
    eflags s' h = Z.ldiff (eflags s h) FL_IF /\
    sl_locked (locks s' l) = 1 /\ sl_cpu (locks s' l) = Some h.
Proof.
  intros Ht Hh Hc Hn Hl Hpc Hnest Hb.
  set (s1 := put_cpu h (pushed_cpu (eflags s h) c) (Some (Z.ldiff (eflags s h) FL_IF)) s).
  assert (pushcli h s = Ret tt s1) as E1 by (by rewrite (pushcli_eq s h c) by (done || lia)).
  assert (topo s1) as Ht1 by (by apply (topo_put s h c)).
  assert (cpus s1 !! h = Some (pushed_cpu (eflags s h) c)) as Hc1 by (by eapply put_cpu_at).
  assert (if_off s1 h) as Hoff1 by (unfold if_off; simpl; rewrite fn_lookup_insert; apply if_off_ldiff).
  destruct (holding_same s1 h l _ Ht1 Hh Hc1) as (s2 & s3 & E2 & E3 & (Hcs & Hes & Hls & Hns & Hks) & (Ht2 & Hn2 & Hl2 & Hoff2) & E4);
    [simpl; lia | done |].
  change (locks s1 l) with (locks s l) in E4. rewrite Hl in E4. simpl in E4.
  set (s4 := set_lk l (Spinlock 1 (sl_name (locks s l)) (sl_cpu (locks s l)) (sl_pcs (locks s l))) s3).
  assert (topo s4) as Ht4 by (by apply (topo_same s1)).
  assert (if_off s4 h) as Hoff4 by (unfold if_off; simpl; by rewrite Hes).
  assert (xchg l 1 s3 = Ret 0 s4) as E5
    by (unfold xchg, upd_lk, modify, bind, get, ret; rewrite Hks; by rewrite <- Hl).
  assert (exists s5, acquire_record h v l s4 = Ret tt s5 /\ cpus s5 = cpus s1 /\ eflags s5 = eflags s3 /\
    lapic s5 = lapic s1 /\ ncpu s5 = ncpu s /\ sl_locked (locks s5 l) = 1 /\ sl_cpu (locks s5 l) = Some h)
    as (s5 & E6 & Hc5 & He5 & Hl5 & Hn5 & Hk5 & Hk5').
  { eexists. split.
    - unfold acquire_record. rewrite (bind_Ret _ _ _ _ _ (mycpu_self s4 h Ht4 ltac:(simpl; by rewrite Hns) Hoff4)).
      reflexivity.
    - simpl. rewrite !fn_lookup_insert. simpl. done. }
  destruct (fun r => adv_step s ts s2 (<[h := at_pc (AcqHold l) (ts h)]> ts) h v _ s2
    (at_pc (AcqRet l false) (ts h)) r (upd_thread_insert _ _ _)) as (ts2 & R2 & U2).
  { apply rtc_once, (step_start h (Acquire l)); try done. simpl.
    by rewrite (bind_Ret _ _ _ _ _ E1), (bind_Ret _ _ _ _ _ E2). }
  { by rewrite Hn2. }
  { unfold advance, holding_locked, gets, bind. simpl. rewrite Hl2. change (locks s1) with (locks s).
    by rewrite Hl. }
  destruct (adv_step _ _ _ _ h v _ s3 (at_pc (Spin l) (ts h)) R2 U2) as (ts3 & R3 & U3);
    [by rewrite Hn2 | unfold advance; simpl; by rewrite (bind_Ret _ _ _ _ _ E3) |].
  destruct (adv_step _ _ _ _ h v _ s4 (at_pc (Record_ l) (ts h)) R3 U3) as (ts4 & R4 & U4);
    [by rewrite Hns | unfold advance; simpl; by rewrite (bind_Ret _ _ _ _ _ E5) |].
  destruct (adv_step _ _ _ _ h v _ s5 (Thread Run (l :: t_held (ts h)) (t_push (ts h))) R4 U4) as (ts5 & R5 & U5);
    [simpl; by rewrite Hns | unfold advance; simpl; by rewrite (bind_Ret _ _ _ _ _ E6) |].
  exists s5, ts5. split.
  { unfold acquire. rewrite (bind_Ret _ _ _ _ _ E1), (bind_Ret _ _ _ _ _ E4). unfold panic_if.
    rewrite (bind_Ret _ _ s3 tt s3 eq_refl), (bind_Ret _ _ _ _ _ E5). by rewrite (bind_Ret _ _ s4 tt s4 eq_refl). }
  split_and!; try done; [by apply (topo_same s1) | by rewrite Hc5 |].
  rewrite He5, Hes. simpl. by rewrite fn_lookup_insert.
Qed.

Lemma release_owned s ts h l c :
  topo s -> (h < ncpu s)%nat -> cpus s !! h = Some c -> 0 < ncli c < 2147483647 -> if_off s h ->
  sl_locked (locks s l) <> 0 -> sl_cpu (locks s l) = Some h ->
  t_pc (ts h) = Run -> nest (ts h) + 2 <= 2147483647 ->
  exists s' ts', release h l s = Ret tt s' /\ rtc step (s, ts) (s', ts') /\
    upd_thread ts h (Thread Run (list_difference (t_held (ts h)) [l]) (t_push (ts h))) ts' /\
    cpus s' !! h = Some (popped_cpu c) /\
    eflags s' h = default (eflags s h) (popped_eflags (eflags s h) c) /\ sl_locked (locks s' l) = 0.
Proof.
  intros Ht Hh Hc Hn Hoff Hl Hcpu Hpc Hb.
  destruct (holding_same s h l c Ht Hh Hc Hn Hoff) as (s1 & s2 & E1 & E2 & (Hcs & Hes & Hls & Hns & Hks) & (Ht1 & Hn1 & Hl1 & Hoff1) & E3).
  rewrite Hcpu, bool_decide_true in E3 by done.
  destruct (Z.eqb_spec (sl_locked (locks s l)) 0) as [|Hl']; [done|]. simpl in E3.
  assert (exists s4, release_clear l s2 = Ret tt s4 /\ cpus s4 = cpus s2 /\ eflags s4 = eflags s2 /\
    lapic s4 = lapic s2 /\ ncpu s4 = ncpu s2) as (s4 & E4 & Hc4 & He4 & Hp4 & Hn4) by (by eexists).
  assert (exists s5, release_store l s4 = Ret tt s5 /\ cpus s5 = cpus s4 /\ eflags s5 = eflags s4 /\
    lapic s5 = lapic s4 /\ ncpu s5 = ncpu s4 /\ sl_locked (locks s5 l) = 0) as (s5 & E5 & Hc5 & He5 & Hp5 & Hn5 & Hk5)
    by (eexists; split; [reflexivity|]; simpl; by rewrite fn_lookup_insert).
  assert (topo s5) as Ht5 by (apply (topo_same s); congruence).
  assert (eflags s5 h = eflags s h) as Hef by congruence.
  assert (popcli h s5 = Ret tt (put_cpu h (popped_cpu c) (popped_eflags (eflags s5 h) c) s5)) as E6
    by (apply popcli_eq; [done | congruence | congruence | lia | unfold if_off; by rewrite Hef]).
  assert (ncpu s5 = ncpu s) as Hns5 by congruence.
  destruct (fun r => adv_step s ts s1 (<[h := at_pc (RelHold l) (ts h)]> ts) h 0 _ s1
    (at_pc (RelCmp l) (ts h)) r (upd_thread_insert _ _ _)) as (ts2 & R2 & U2).
  { apply rtc_once, (step_start h (Release l)); try done. simpl. by rewrite (bind_Ret _ _ _ _ _ E1). }
  { by rewrite Hn1. }
  { unfold advance, holding_locked, gets, bind. simpl. rewrite Hl1. by destruct (Z.eqb_spec (sl_locked (locks s l)) 0). }
  destruct (adv_step _ _ _ _ h 0 _ s1 (at_pc (RelRet l true) (ts h)) R2 U2) as (ts3 & R3 & U3);
    [by rewrite Hn1 | unfold advance, holding_cpu, gets; simpl |].
  { rewrite (bind_Ret _ _ s1 true s1); [done|]. unfold bind.
    rewrite mycpu_self, Hl1, bool_decide_true by (done || congruence). done. }
  destruct (adv_step _ _ _ _ h 0 _ s2 (at_pc (RelClear l) (ts h)) R3 U3) as (ts4 & R4 & U4);
    [by rewrite Hn1 | unfold advance; simpl; by rewrite (bind_Ret _ _ _ _ _ E2) |].
  destruct (adv_step _ _ _ _ h 0 _ s4 (at_pc (RelStore l) (ts h)) R4 U4) as (ts5 & R5 & U5);
    [by rewrite Hns | unfold advance; simpl; by rewrite (bind_Ret _ _ _ _ _ E4) |].
  destruct (adv_step _ _ _ _ h 0 _ s5 (Thread RelPop (list_difference (t_held (ts h)) [l]) (t_push (ts h))) R5 U5)
    as (ts6 & R6 & U6); [by rewrite Hn4, Hns | unfold advance; simpl; by rewrite (bind_Ret _ _ _ _ _ E5) |].
  destruct (fun A => adv_step _ _ _ _ h 0 _ _ (Thread Run (list_difference (t_held (ts h)) [l]) (t_push (ts h))) R6 U6 A
    (ltac:(unfold advance; simpl; rewrite (bind_Ret _ _ _ _ _ E6); reflexivity))) as (ts7 & R7 & U7);
    [by rewrite Hns5 |].
  eexists _, ts7. split.
  { unfold release. rewrite (bind_Ret _ _ _ _ _ E3). unfold panic_if. simpl.
    rewrite (bind_Ret _ _ s2 tt s2 eq_refl), (bind_Ret _ _ _ _ _ E4), (bind_Ret _ _ _ _ _ E5). exact E6. }
  split_and!; try done.
  - apply (put_cpu_at s5 h c). congruence.
  - rewrite Hef. destruct (popped_eflags (eflags s h) c); simpl; [by rewrite fn_lookup_insert | done].
  - by destruct (popped_eflags (eflags s5 h) c).
Qed.

(** ** Properties *)

(** C9: Mutual exclusion.  From a state in which no lock is taken, under every
    interleaving of the pieces of [acquire], [release], [pushcli] and [popcli]
    of all processors: no lock has two owners, a lock is marked as taken and
    names its owner in lk->cpu while it is held, interrupts are off on every
    processor that owns a lock, every operation that a processor may begin gets
    through its first piece, and the next piece of a processor in the middle of one
    panics only when it acquires a lock it owns or releases one it does not own. *)
Theorem spinlock_mutual_exclusion s0 s ts :
  unlocked s0 -> rtc step (s0, idle) (s, ts) ->
  (forall l h h', (h < ncpu s)%nat -> (h' < ncpu s)%nat -> owner (ts h) l -> owner (ts h') l -> h = h') /\
  (forall l h, (h < ncpu s)%nat -> owner (ts h) l ->
     sl_locked (locks s l) <> 0 /\ if_off s h /\ (t_pc (ts h) = Run -> sl_cpu (locks s l) = Some h)) /\
  (forall h a, (h < ncpu s)%nat -> t_pc (ts h) = Run -> allowed a (ts h) -> exists t s', start h a (ts h) s = Ret t s') /\
  (forall h v, (h < ncpu s)%nat ->
     (exists t s', advance h v (ts h) s = Ret t s') \/
     (exists l, t_pc (ts h) = AcqRet l true /\ l ∈ t_held (ts h)) \/
     (exists l, t_pc (ts h) = RelRet l false /\ l ∉ t_held (ts h))).
Proof.
  intros H0 Hr. assert (lock_inv (s, ts)) as Hinv
    by (eapply (rtc_invariant step lock_inv); [apply step_inv | by apply unlocked_inv | done]).
  split_and!.
  - intros l h h' Hh Hh' Ho Ho'. destruct Hinv as (_ & _ & Hl). destruct (Hl l) as (_ & _ & H3 & _).
    by apply H3.
  - intros l h Hh Ho. pose proof Hinv as (_ & Hth & Hl). destruct (Hl l) as (H1 & _ & _ & H4).
    destruct (Hth h Hh) as (_ & _ & _ & _ & Hif). simpl in *. split_and!; [by apply (H1 h) | |].
    + apply Hif. unfold nest. destruct Ho as [Hin| ->]; [|simpl; lia].
      destruct (t_held (ts h)); [by apply not_elem_of_nil in Hin|].
      destruct (t_pc (ts h)); simpl; lia.
    + intros Hpc. apply H4. split; [done|]. destruct Ho as [Hin|E]; [|congruence].
      split; [done | congruence].
  - intros h a Hh Hpc Ha. destruct (start_ok s ts h Hinv Hh a Hpc Ha) as (t & s' & E & _). eauto.
  - intros h v Hh. destruct (advance_ok s ts h Hinv Hh v) as [(t & s' & E & _)|[(l & H1 & H2 & _)|(l & H1 & H2 & _)]];
      eauto 10.
Qed.

(** Two processors. *)
Definition demo_smp : smp :=
  Smp (fun _ => FL_IF) (Some (fun h => Z.shiftl (Z.of_nat h) 24))
    [Cpu 0 0 0 None; Cpu 1 0 0 None] 2 (fun _ => Spinlock 0 "" None (repeat 0 10)) (fun _ => 0).
Lemma demo_unlocked : unlocked demo_smp.
Proof.
  split_and!.
  - split; [simpl; lia|]. eexists. split; [reflexivity|]. split.
    + intros [|[|i]] c Hi Hc; cbn in Hc, Hi; by simplify_eq.
    + intros i j _ _. rewrite !Z.shiftr_shiftl_l by lia. simpl. rewrite !Z.shiftl_0_r. lia.
  - done.
  - intros [|[|i]] c Hc; simpl in Hc; by simplify_eq.
Qed.

Lemma spinlock_mutual_exclusion_witness :
  exists s ts, t_held (ts 0%nat) = [7] /\ owner (ts 0%nat) 7 /\ if_off s 0 /\
    sl_cpu (locks s 7) = Some 0%nat.
Proof.
  destruct (acquire_free demo_smp idle 0 0 7 (Cpu 0 0 0 None)) as (s & ts & _ & Hr & [Hu _] & _ & Hn & _);
    try apply demo_unlocked; try done; [simpl; lia.. |].
  destruct (spinlock_mutual_exclusion demo_smp s ts demo_unlocked Hr) as (_ & H & _).
  assert (owner (ts 0%nat) 7) as Ho by (left; rewrite Hu; left).
  destruct (H 7 0%nat) as (_ & Hif & Hc); [rewrite Hn; simpl; lia | done |].
  exists s, ts. rewrite Hu in *. split_and!; try done. by apply Hc.
Defined.

(** A critical section.  On a processor in neither function, at any nesting
    depth, [acquire] of a free lock returns with the lock taken and interrupts
    off, the following [release] returns with the lock free, the depth and the
    whole flags register, the interrupt flag included, as they were, and both
    are runs of the interleaved machine, so the mutual exclusion theorem is
    about these two functions. *)
Theorem critical_section_restores s ts h v l :
  lock_inv (s, ts) -> (h < ncpu s)%nat -> t_pc (ts h) = Run -> nest (ts h) + 3 <= 2147483647 ->
  sl_locked (locks s l) = 0 ->
  exists s1 ts1 s2 ts2,
    acquire h v l s = Ret tt s1 /\ rtc step (s, ts) (s1, ts1) /\
    t_held (ts1 h) = l :: t_held (ts h) /\ if_off s1 h /\ sl_locked (locks s1 l) = 1 /\
    release h l s1 = Ret tt s2 /\ rtc step (s1, ts1) (s2, ts2) /\
    eflags s2 h = eflags s h /\ sl_locked (locks s2 l) = 0 /\ depth s2 h (nest (ts h)).
Proof.
  intros Hinv Hh Hpc Hb Hl. pose proof (inv_topo _ _ Hinv) as Ht.
  destruct (inv_thread s ts h Hinv Hh) as (_ & _ & _ & (c & Hc & Hn) & Hif).
  pose proof (nest_nonneg (ts h)).
  destruct (acquire_free s ts h v l c) as (s1 & ts1 & E1 & R1 & [U1 _] & Ht1 & Hn1 & Hc1 & He1 & Hl1 & Hk1);
    try done; [lia.. |].
  assert (if_off s1 h) as Hoff by (unfold if_off; rewrite He1; apply if_off_ldiff).
  destruct (release_owned s1 ts1 h l _ Ht1 ltac:(by rewrite Hn1) Hc1) as (s2 & ts2 & E2 & R2 & _ & Hc2 & He2 & Hl2);
    try done; [simpl; lia | lia | by rewrite U1 | |].
  { rewrite U1. unfold nest in *. rewrite Hpc in *. simpl in *. lia. }
  exists s1, ts1, s2, ts2. split_and!; try done; [by rewrite U1 | |].
  - rewrite He2, He1. unfold popped_eflags. simpl.
    destruct (Z.eqb_spec (ncli c) 0) as [E|E].
    + rewrite E. simpl. destruct (Z.eqb_spec (Z.land (eflags s h) FL_IF) 0) as [Ez|Ez]; simpl; [by apply ldiff_off|].
      unfold FL_IF in Ez. change 512 with (2 ^ 9) in Ez. rewrite land_bit in Ez by lia.
      apply Z.bits_inj'. intros i Hi. rewrite Z.lor_spec, Z.ldiff_spec. unfold FL_IF.
      change 512 with (2 ^ 9). rewrite Z.pow2_bits_eqb by lia.
      destruct (Z.eqb_spec 9 i) as [<-|]; [|by rewrite andb_true_r, orb_false_r].
      destruct (Z.testbit (eflags s h) 9); done.
    + destruct (Z.eqb_spec (ncli c + 1) 1); [lia|]. simpl. apply ldiff_off, Hif. lia.
  - eexists. split; [exact Hc2|]. simpl. lia.
Qed.
Lemma critical_section_restores_witness :
  exists s1 s2, acquire 1 2147483648 5 demo_smp = Ret tt s1 /\ release 1 5 s1 = Ret tt s2 /\
    eflags s2 1%nat = 512.
Proof.
  destruct (critical_section_restores demo_smp idle 1 2147483648 5)
    as (s1 & ts1 & s2 & ts2 & E1 & _ & _ & _ & _ & E2 & _ & He & _);
    [apply unlocked_inv, demo_unlocked | simpl; lia | done | unfold nest; simpl; lia | done |].
  exists s1, s2. done.
Defined.
