(* ===== verification/Pipe.v ===== *)
(** * Pipes (pipe.c)

    [pipewrite] and [piperead] run under the pipe's lock from one call of
    [sleep] to the next, so each is modelled by what it does until it returns
    or goes to sleep; [step] interleaves these pieces of any number of readers
    and writers, with [wakeup] making all sleepers on a channel runnable and
    [kill] marking a process and waking it up.

    The abstract pipe is a byte stream: the bytes written so far are the bytes
    read so far followed by the contents of the ring, whose counters wrap around
    at 2^32. *)

From stdpp Require Import functions.
From S2P Require Import Prelude Mem.
#[local] Open Scope Z_scope.

Abbreviation PIPESIZE := 512.

Record pipe := Pipe {
  p_data : list Z;
  nread : Z;
  nwrite : Z;
  readopen : Z;
  writeopen : Z;
}.

(** The two channels of a pipe: &p->nread and &p->nwrite. *)
Inductive chan := CRead | CWrite.
#[export] Instance chan_eq_dec : EqDecision chan.
Proof. solve_decision. Defined.

(** A pipe with the channels woken up since the piece began, and two histories
    that the code does not have: the bytes stored and the bytes taken. *)
Record pst := PSt { pp : pipe; woken : list chan; stored : list Z; taken : list Z }.

Definition wakeup (c : chan) : M pst unit :=
  modify (fun s => PSt (pp s) (c :: woken s) (stored s) (taken s)).
Definition set_pp (f : pipe -> pipe) : M pst unit :=
  modify (fun s => PSt (f (pp s)) (woken s) (stored s) (taken s)).

(** The part of [pipealloc] that sets the pipe up in its new page. *)
Definition pipe_init (p : pipe) : pipe := Pipe (p_data p) 0 0 1 1.

(** [pipeclose]; the result says whether the page of the pipe is freed. *)
Definition pipeclose (writable : bool) : M pst bool :=
  (if writable then
     set_pp (fun p => Pipe (p_data p) (nread p) (nwrite p) (readopen p) 0) ;;; wakeup CRead
   else
     set_pp (fun p => Pipe (p_data p) (nread p) (nwrite p) 0 (writeopen p)) ;;; wakeup CWrite) ;;;
  gets (fun s => (readopen (pp s) =? 0) && (writeopen (pp s) =? 0)).

(** [p->data[p->nwrite++ % PIPESIZE] = c], a [char] *)
Definition put_byte (c : Z) : M pst unit := modify (fun s =>
  let p := pp s in
  let b := u8 c in
  PSt (Pipe (<[Z.to_nat (nwrite p mod PIPESIZE) := b]> (p_data p)) (nread p) (u32 (nwrite p + 1))
         (readopen p) (writeopen p))
    (woken s) (stored s ++ [b]) (taken s)).
(** [p->data[p->nread++ % PIPESIZE]] *)
Definition take_byte : M pst Z := fun s =>
  let p := pp s in
  let b := default 0 (p_data p !! Z.to_nat (nread p mod PIPESIZE)) in
  Ret b (PSt (Pipe (p_data p) (u32 (nread p + 1)) (nwrite p) (readopen p) (writeopen p))
           (woken s) (stored s) (taken s ++ [b])).

(** How a piece of [pipewrite] ends: with a result, or asleep before byte [i]. *)
Inductive wout := WRet (r : Z) | WSleep (i : Z).
Inductive rout := RRet (r : Z) (m : mem) | RSleep.

Definition full (p : pipe) : bool := nwrite p =? u32 (nread p + PIPESIZE).
Definition empty (p : pipe) : bool := nread p =? nwrite p.

(** The loop of [pipewrite] with [k] bytes to go; [killed] is the flag of the
    calling process at the time of this piece. *)
Fixpoint pipewrite_loop (k : nat) (m : mem) (addr i n : Z) (killed : bool) : M pst wout :=
  match k with
  | O => wakeup CRead ;;; ret (WRet n)
  | S k =>
      p <- gets pp ;;
      if full p then
        if (readopen p =? 0) || killed then ret (WRet (-1))
        else wakeup CRead ;;; ret (WSleep i)
      else put_byte (m (addr + i)) ;;; pipewrite_loop k m addr (i + 1) n killed
  end.
Definition pipewrite (m : mem) (addr i n : Z) (killed : bool) : M pst wout :=
  pipewrite_loop (Z.to_nat (n - i)) m addr i n killed.

Fixpoint piperead_loop (k : nat) (m : mem) (addr i : Z) : M pst rout :=
  match k with
  | O => wakeup CWrite ;;; ret (RRet i m)
  | S k =>
      p <- gets pp ;;
      if empty p then wakeup CWrite ;;; ret (RRet i m)
      else b <- take_byte ;; piperead_loop k (st8 m (addr + i) b) addr (i + 1)
  end.
Definition piperead (m : mem) (addr n : Z) (killed : bool) : M pst rout :=
  p <- gets pp ;;
  if empty p && negb (writeopen p =? 0) then
    if killed then ret (RRet (-1) m) else ret RSleep
  else piperead_loop (Z.to_nat n) m addr 0.

(** ** Processes at a pipe *)

Inductive pthr :=
| Out
| Writing (m : mem) (addr i n : Z) (asleep : bool)
| Reading (m : mem) (addr n : Z) (asleep : bool).

Record pconf := PConf { ps : pst; thr : nat -> pthr; killed : nat -> bool }.

(** [wakeup]'s effect on a process. *)
Definition wake (cs : list chan) (t : pthr) : pthr :=
  match t with
  | Writing m a i n s => Writing m a i n (s && negb (bool_decide (CWrite ∈ cs)))
  | Reading m a n s => Reading m a n (s && negb (bool_decide (CRead ∈ cs)))
  | Out => Out
  end.
Definition awake (t : pthr) : pthr :=
  match t with
  | Writing m a i n _ => Writing m a i n false
  | Reading m a n _ => Reading m a n false
  | Out => Out
  end.

(** The pipe at the beginning of a piece. *)
Definition fresh (s : pst) : pst := PSt (pp s) [] (stored s) (taken s).

Definition after (s : pst) (h : nat) (t : pthr) (c : pconf) : pconf :=
  PConf s (<[h := t]> (fun k => wake (woken s) (thr c k))) (killed c).

Inductive pstep : pconf -> pconf -> Prop :=
| ps_write c h m addr n :                      (* a process enters pipewrite *)
    thr c h = Out -> writeopen (pp (ps c)) <> 0 ->
    pstep c (PConf (ps c) (<[h := Writing m addr 0 n false]> (thr c)) (killed c))
| ps_read c h m addr n :
    thr c h = Out -> readopen (pp (ps c)) <> 0 ->
    pstep c (PConf (ps c) (<[h := Reading m addr n false]> (thr c)) (killed c))
| ps_write_ret c h m addr i n r s :
    thr c h = Writing m addr i n false ->
    pipewrite m addr i n (killed c h) (fresh (ps c)) = Ret (WRet r) s ->
    pstep c (after s h Out c)
| ps_write_sleep c h m addr i n i' s :
    thr c h = Writing m addr i n false ->
    pipewrite m addr i n (killed c h) (fresh (ps c)) = Ret (WSleep i') s ->
    pstep c (after s h (Writing m addr i' n true) c)
| ps_read_ret c h m addr n r m' s :
    thr c h = Reading m addr n false ->
    piperead m addr n (killed c h) (fresh (ps c)) = Ret (RRet r m') s ->
    pstep c (after s h Out c)
| ps_read_sleep c h m addr n s :
    thr c h = Reading m addr n false ->
    piperead m addr n (killed c h) (fresh (ps c)) = Ret RSleep s ->
    pstep c (after s h (Reading m addr n true) c)
| ps_close c h w b s :                         (* the last file of one end is closed *)
    (forall k m a i n sl, w = true -> thr c k <> Writing m a i n sl) ->
    (forall k m a n sl, w = false -> thr c k <> Reading m a n sl) ->
    pipeclose w (fresh (ps c)) = Ret b s ->
    pstep c (after s h (wake (woken s) (thr c h)) c).

Inductive pkstep : pconf -> pconf -> Prop :=
| pk_step c c' : pstep c c' -> pkstep c c'
| pk_kill c h :
    pkstep c (PConf (ps c) (<[h := awake (thr c h)]> (thr c)) (<[h := true]> (killed c))).

(** ** The stream *)

(** The ring holds the bytes [l], stored and not yet taken. *)
Definition fifo (s : pst) (l : list Z) : Prop :=
  length (p_data (pp s)) = 512%nat /\ Forall (fun b => 0 <= b < 256) l /\ (length l <= 512)%nat /\
  0 <= nread (pp s) < W32 /\ nwrite (pp s) = u32 (nread (pp s) + Z.of_nat (length l)) /\
  stored s = taken s ++ l /\
  forall k, (k < length l)%nat ->
    p_data (pp s) !! Z.to_nat ((nread (pp s) + Z.of_nat k) mod 512) = l !! k.

Lemma fifo_empty s l : fifo s l -> empty (pp s) = bool_decide (l = []).
Proof.
  intros (_ & _ & Hl & Hr & Hw & _). unfold empty. rewrite Hw. unfold u32.
  destruct l as [|b l]; simpl length in *.
  - rewrite bool_decide_true by done. apply Z.eqb_eq. zlia.
  - rewrite bool_decide_false by done. apply Z.eqb_neq. zlia.
Qed.
Lemma fifo_full s l : fifo s l -> full (pp s) = bool_decide (length l = 512%nat).
Proof.
  intros (_ & _ & Hl & Hr & Hw & _). unfold full. rewrite Hw. unfold u32.
  destruct (decide (length l = 512%nat)) as [E|E].
  - rewrite bool_decide_true, E by done. apply Z.eqb_eq. done.
  - rewrite bool_decide_false by done. apply Z.eqb_neq. zlia.
Qed.

(** The position of a byte in the ring does not see the wrap-around. *)
Lemma ring_index a : u32 a mod 512 = a mod 512.
Proof. unfold u32. zlia. Qed.

Lemma put_byte_ok s l c :
  fifo s l -> (length l < 512)%nat ->
  exists s', put_byte c s = Ret tt s' /\ fifo s' (l ++ [u8 c]) /\ stored s' = stored s ++ [u8 c] /\
    taken s' = taken s /\ woken s' = woken s /\
    readopen (pp s') = readopen (pp s) /\ writeopen (pp s') = writeopen (pp s).
Proof.
  intros (Hd & Hb & Hl & Hr & Hw & Hs & Hk) Hlt. eexists. split; [reflexivity|]. simpl.
  split; [|done]. split_and!; simpl; try done; try lia.
  - by rewrite length_insert.
  - apply Forall_app; split; [done|]. constructor; [apply u8_range | constructor].
  - rewrite length_app. simpl. lia.
  - rewrite Hw, u32_add_l, length_app. simpl. f_equal. lia.
  - by rewrite Hs, assoc_L by apply _.
  - intros k Hlk. rewrite length_app in Hlk. simpl in Hlk. rewrite Hw, ring_index.
    destruct (decide (k = length l)) as [->|Hne].
    + rewrite list_lookup_insert_eq by (rewrite Hd; zlia). by rewrite list_lookup_middle.
    + rewrite list_lookup_insert_ne by zlia. rewrite Hk by lia. by rewrite lookup_app_l by lia.
Qed.

Lemma take_byte_ok s b l :
  fifo s (b :: l) ->
  exists s', take_byte s = Ret b s' /\ fifo s' l /\ taken s' = taken s ++ [b] /\
    stored s' = stored s /\ woken s' = woken s /\
    readopen (pp s') = readopen (pp s) /\ writeopen (pp s') = writeopen (pp s).
Proof.
  intros (Hd & Hb & Hl & Hr & Hw & Hs & Hk). simpl in Hl.
  pose proof (Hk 0%nat ltac:(simpl; lia)) as H0. simpl in H0. rewrite Z.add_0_r in H0.
  eexists. split; [unfold take_byte; rewrite H0; reflexivity|]. simpl. split; [|done].
  apply Forall_cons in Hb as [_ Hb].
  split_and!; simpl; try done; [lia | apply u32_range.. | | |].
  - rewrite Hw, u32_add_l. simpl. f_equal. lia.
  - rewrite Hs. by rewrite <- assoc_L by apply _.
  - intros k Hlk. specialize (Hk (S k) ltac:(simpl; lia)). simpl in Hk. rewrite <- Hk. do 2 f_equal.
    unfold u32. zlia.
Qed.

(** The [woken] field is the piece's own. *)
Lemma fifo_woken s l w : fifo s l -> fifo (PSt (pp s) w (stored s) (taken s)) l.
Proof. done. Qed.

(** A piece of [pipewrite] stores a prefix of what is left; it stops early only
    at a full pipe. *)
Lemma pipewrite_loop_ok m addr n kd k : forall s l i,
  fifo s l ->
  exists out s' l' j, pipewrite_loop k m addr i n kd s = Ret out s' /\ fifo s' l' /\ (j <= k)%nat /\
    l' = l ++ (u8 <$> bytes_at m (addr + i) j) /\ taken s' = taken s /\
    readopen (pp s') = readopen (pp s) /\ writeopen (pp s') = writeopen (pp s) /\
    match out with
    | WRet r => (r = n /\ j = k /\ woken s' = CRead :: woken s) \/
        (r = -1 /\ (j < k)%nat /\ length l' = 512%nat /\ woken s' = woken s /\
         (readopen (pp s) = 0 \/ kd = true))
    | WSleep i' => i' = i + Z.of_nat j /\ (j < k)%nat /\ length l' = 512%nat /\
        readopen (pp s) <> 0 /\ kd = false /\ woken s' = CRead :: woken s
    end.
Proof.
  induction k as [|k IH]; intros s l i Hf; simpl.
  - eexists _, _, l, 0%nat. split; [reflexivity|]. simpl. rewrite app_nil_r. split_and!; try done.
    by left.
  - unfold bind at 1, gets. rewrite (fifo_full s l Hf). case_bool_decide as Hl.
    + destruct (Z.eqb_spec (readopen (pp s)) 0) as [E|E]; simpl; [|destruct kd].
      * eexists _, s, l, 0%nat. split; [reflexivity|]. simpl. rewrite app_nil_r. split_and!; try done; [lia|].
        right. split_and!; try done; [lia | by left].
      * eexists _, s, l, 0%nat. split; [reflexivity|]. simpl. rewrite app_nil_r. split_and!; try done; [lia|].
        right. split_and!; try done; [lia | by right].
      * eexists _, _, l, 0%nat. split; [reflexivity|]. simpl. rewrite app_nil_r. split_and!; try done; lia.
    + assert (length l < 512)%nat as Hlt by (destruct Hf as (_ & _ & ? & _); lia).
      destruct (put_byte_ok s l (m (addr + i)) Hf Hlt) as (s1 & E1 & Hf1 & _ & Ht1 & Hw1 & Hr1 & Ho1).
      rewrite (bind_Ret _ _ _ _ _ E1).
      destruct (IH s1 _ (i + 1) Hf1) as (out & s2 & l2 & j & E2 & Hf2 & Hj & Hl2 & Ht2 & Hr2 & Ho2 & Hout).
      exists out, s2, l2, (S j). split; [done|]. split; [done|]. split; [lia|].
      split; [rewrite Hl2; simpl; rewrite <- assoc_L by apply _; simpl; by replace (addr + (i + 1)) with (addr + i + 1) by lia|].
      split_and!; [congruence.. |]. rewrite Hw1, Hr1 in Hout. destruct out as [r|i'].
      * destruct Hout as [(? & ? & ?)|(? & ? & ? & ? & ?)]; [left | right]; split_and!; try done; lia.
      * destruct Hout as (? & ? & ? & ? & ? & ?). split_and!; try done; lia.
Qed.

Lemma bytes_at_st8 m a b n : bytes_at (st8 m a b) (a + 1) n = bytes_at m (a + 1) n.
Proof. apply bytes_at_ext. intros x Hx. apply st8_ne. lia. Qed.

(** A piece of [piperead] that reads takes as many bytes as it can, in order. *)
Lemma piperead_loop_ok addr k : forall s l m i,
  fifo s l -> 0 <= i ->
  let j := Nat.min k (length l) in
  exists s' m', piperead_loop k m addr i s = Ret (RRet (i + Z.of_nat j) m') s' /\
    fifo s' (drop j l) /\ taken s' = taken s ++ take j l /\ woken s' = CWrite :: woken s /\
    readopen (pp s') = readopen (pp s) /\ writeopen (pp s') = writeopen (pp s) /\
    bytes_at m' (addr + i) j = take j l /\
    (forall x, x < addr + i \/ addr + i + Z.of_nat j <= x -> m' x = m x).
Proof.
  induction k as [|k IH]; intros s l m i Hf Hi; simpl.
  - eexists _, m. split; [by rewrite Z.add_0_r|]. simpl. rewrite drop_0, app_nil_r. done.
  - unfold bind at 1, gets. rewrite (fifo_empty s l Hf). case_bool_decide as Hl.
    + subst l. simpl. eexists _, m. rewrite Z.add_0_r, app_nil_r. done.
    + destruct l as [|b l]; [done|]. simpl.
      destruct (take_byte_ok s b l Hf) as (s1 & E1 & Hf1 & Ht1 & Hs1 & Hw1 & Hr1 & Ho1).
      rewrite (bind_Ret _ _ _ _ _ E1).
      destruct (IH s1 l (st8 m (addr + i) b) (i + 1) Hf1 ltac:(lia))
        as (s2 & m2 & E2 & Hf2 & Ht2 & Hw2 & Hr2 & Ho2 & Hb2 & Hm2).
      exists s2, m2. replace (i + Z.of_nat (S (k `min` length l))) with (i + 1 + Z.of_nat (k `min` length l)) by lia.
      split; [done|]. split; [done|]. rewrite Ht2, Ht1, Hw2, Hw1, Hr2, Ho2. split_and!; try done.
      * by rewrite <- assoc_L by apply _.
      * replace (addr + i + 1) with (addr + (i + 1)) by lia. rewrite Hb2. f_equal.
        rewrite Hm2 by lia. rewrite st8_eq. apply u8_small.
        destruct Hf as (_ & Hb & _). by apply Forall_cons in Hb as [? _].
      * intros x Hx. rewrite Hm2 by lia. apply st8_ne. lia.
Qed.

Lemma piperead_ok m addr n kd s l :
  fifo s l ->
  exists out s', piperead m addr n kd s = Ret out s' /\
    readopen (pp s') = readopen (pp s) /\ writeopen (pp s') = writeopen (pp s) /\
    match out with
    | RSleep => l = [] /\ writeopen (pp s) <> 0 /\ kd = false /\ s' = s
    | RRet r m' =>
        (r = -1 /\ l = [] /\ writeopen (pp s) <> 0 /\ kd = true /\ m' = m /\ s' = s) \/
        (let j := Nat.min (Z.to_nat n) (length l) in
         r = Z.of_nat j /\ (l = [] -> writeopen (pp s) = 0) /\ fifo s' (drop j l) /\
         taken s' = taken s ++ take j l /\ bytes_at m' addr j = take j l /\
         (forall x, x < addr \/ addr + Z.of_nat j <= x -> m' x = m x) /\ woken s' = CWrite :: woken s)
    end.
Proof.
  intros Hf. unfold piperead. unfold bind at 1, gets. rewrite (fifo_empty s l Hf).
  destruct (decide (l = [])) as [El|El]; destruct (Z.eqb_spec (writeopen (pp s)) 0) as [Ew|Ew];
    rewrite ?(bool_decide_true (l = [])), ?(bool_decide_false (l = [])) by done; simpl.
  2: { destruct kd; eexists _, s; split_and!; try done. by left. }
  all: destruct (piperead_loop_ok addr (Z.to_nat n) s l m 0 Hf ltac:(lia))
        as (s2 & m2 & E2 & Hf2 & Ht2 & Hw2 & Hr2 & Ho2 & Hb2 & Hm2);
    rewrite Z.add_0_r in *; rewrite Z.add_0_l in E2; eexists _, s2; split; [exact E2|];
    split_and!; try done; right; by split_and!.
Qed.

Definition pipe_ok (c : pconf) : Prop := exists l, fifo (ps c) l.
Definition opened (c : pconf) (d : list Z) : Prop :=
  length d = 512%nat /\ (exists p, p_data p = d /\ ps c = PSt (pipe_init p) [] [] []) /\
  (forall h, thr c h = Out /\ killed c h = false).

Lemma opened_ok c d : opened c d -> pipe_ok c.
Proof.
  intros (Hd & (p & <- & E) & _). exists []. rewrite E. split_and!; simpl; try done; lia.
Qed.

Lemma pstep_ok c c' : pstep c c' -> pipe_ok c -> pipe_ok c'.
Proof.
  intros Hs (l & Hf). destruct Hs; try (by exists l).
  - destruct (pipewrite_loop_ok m addr n (killed c h) (Z.to_nat (n - i)) (fresh (ps c)) l i Hf)
      as (out & s' & l' & j & E & Hf' & _). exists l'. simpl. unfold pipewrite in *. congruence.
  - destruct (pipewrite_loop_ok m addr n (killed c h) (Z.to_nat (n - i)) (fresh (ps c)) l i Hf)
      as (out & s' & l' & j & E & Hf' & _). exists l'. simpl. unfold pipewrite in *. congruence.
  - destruct (piperead_ok m addr n (killed c h) (fresh (ps c)) l Hf) as (out & s' & E & _ & _ & H1).
    rewrite H0 in E. injection E as <- <-. destruct H1 as [(_ & _ & _ & _ & _ & ->)|H1]; [by exists l|].
    eexists. apply H1.
  - destruct (piperead_ok m addr n (killed c h) (fresh (ps c)) l Hf) as (out & s' & E & _ & _ & H1).
    rewrite H0 in E. injection E as <- <-. exists l. destruct H1 as (_ & _ & _ & ->). done.
  - exists l. destruct w; unfold pipeclose, set_pp, wakeup, modify, gets, bind in *; simpl in *;
      injection H1 as _ <-; done.
Qed.
Lemma pkstep_ok c c' : pkstep c c' -> pipe_ok c -> pipe_ok c'.
Proof. intros Hs Hok. destruct Hs; [by eapply pstep_ok | done]. Qed.

(** ** Who sleeps *)

(** A sleeping reader has nothing to read and a writer to wait for; a sleeping
    writer has no room and a reader to wait for; a process is inside only while
    its end is open. *)
Definition r_ok (p : pipe) (t : pthr) : Prop :=
  match t with
  | Reading _ _ _ sl => readopen p <> 0 /\ (sl = true -> empty p = true /\ writeopen p <> 0)
  | Writing _ _ _ _ sl => writeopen p <> 0 /\ (sl = true -> full p = true /\ readopen p <> 0)
  | Out => True
  end.
Definition sleep_ok (c : pconf) : Prop :=
  pipe_ok c /\ (forall h, killed c h = false) /\ forall h, r_ok (pp (ps c)) (thr c h).

(** What a piece may do to the pipe so that the processes it does not wake up
    may stay asleep. *)
Definition keeps (s s' : pst) (t : pthr) : Prop :=
  r_ok (pp s) t -> r_ok (pp s') (wake (woken s') t).

Lemma after_ok c s h t :
  sleep_ok c -> (exists l, fifo s l) -> (forall k, keeps (ps c) s (thr c k)) -> r_ok (pp s) t ->
  sleep_ok (after s h t c).
Proof.
  intros (_ & Hk & Hr) Hf Hkeep Ht. split_and!; [done | done |]. intros k. simpl.
  destruct (decide (h = k)) as [<-|]; [by rewrite fn_lookup_insert|].
  rewrite fn_lookup_insert_ne by done. apply Hkeep, Hr.
Qed.

Lemma write_keeps m addr n k s l i t :
  fifo s l ->
  exists out s' l', pipewrite_loop k m addr i n false (fresh s) = Ret out s' /\ fifo s' l' /\
    keeps s s' t /\ (forall i' ma a n', out = WSleep i' -> writeopen (pp s) <> 0 ->
      r_ok (pp s') (Writing ma a i' n' true)).
Proof.
  intros Hf. destruct (pipewrite_loop_ok m addr n false k (fresh s) l i (fifo_woken _ _ _ Hf))
    as (out & s' & l' & j & E & Hf' & Hj & Hl' & Ht & Hr & Hw & Hout).
  exists out, s', l'. split_and!; [done | done | |].
  - assert (full (pp s) = true -> full (pp s') = true) as Hfull.
    { rewrite (fifo_full s l Hf), (fifo_full s' l' Hf'), !bool_decide_eq_true.
      destruct Hf' as (_ & _ & Hle & _). rewrite Hl', length_app in *. lia. }
    simpl in *. intros Hok. destruct t as [|ma a i0 n0 sl|ma a n0 sl]; simpl in *; [done | |].
    + rewrite Hr, Hw. destruct sl; simpl; [|naive_solver]. naive_solver.
    + rewrite Hr, Hw. destruct Hok as [Ho Hs]. split; [done|].
      destruct out as [r|i']; [destruct Hout as [(_ & _ & E')|(_ & _ & _ & _ & [?|?])]|
        destruct Hout as (_ & _ & _ & _ & _ & E')]; try done;
        rewrite E', bool_decide_true by left; by rewrite andb_false_r.
  - intros i' ma a n' -> Ho. simpl in *. destruct Hout as (_ & _ & Hlen & Hro & _).
    rewrite Hr, Hw, (fifo_full s' l' Hf'), bool_decide_true by done. done.
Qed.

Lemma read_keeps m addr n s l t :
  fifo s l ->
  exists out s', piperead m addr n false (fresh s) = Ret out s' /\ (exists l', fifo s' l') /\
    keeps s s' t /\ (forall ma a n', out = RSleep -> readopen (pp s) <> 0 ->
      r_ok (pp s') (Reading ma a n' true)).
Proof.
  intros Hf. destruct (piperead_ok m addr n false (fresh s) l (fifo_woken _ _ _ Hf))
    as (out & s' & E & Hr & Hw & Hout).
  exists out, s'. split; [done|]. destruct out as [r m'|].
  - destruct Hout as [(_ & _ & _ & ? & _)|(_ & _ & Hf' & _ & _ & _ & Ew)]; [done|].
    split_and!; [eauto | | done].
    intros Hok. destruct t as [|ma a i0 n0 sl|ma a n0 sl]; simpl in *; [done | |].
    + rewrite Hr, Hw. rewrite Ew, bool_decide_true by left. rewrite andb_false_r. naive_solver.
    + rewrite Hr, Hw. destruct Hok as [Ho Hs]. split; [done|]. intros Hsl.
      apply andb_true_iff in Hsl as [Hsl _]. destruct (Hs Hsl) as [He Hwo]. split; [|done].
      rewrite (fifo_empty _ _ Hf'). rewrite (fifo_empty _ _ Hf), bool_decide_eq_true in He. subst l.
      by rewrite drop_nil.
  - destruct Hout as (-> & Hwo & _ & ->). split_and!; [eauto | |].
    + intros Hok. destruct t as [|ma a i0 n0 sl|ma a n0 sl]; simpl in *; [done | |]; by rewrite andb_true_r.
    + intros ma a n' _ Hro. simpl. split; [done|]. intros _. split; [|done].
      by rewrite (fifo_empty _ _ Hf).
Qed.

Lemma pstep_sleep_ok c c' : pstep c c' -> sleep_ok c -> sleep_ok c'.
Proof.
  intros Hs Hok. pose proof Hok as ((l & Hf) & Hk & Hr). pose proof (Hr) as Hr'.
  destruct Hs as [c h m addr n Ht Ho|c h m addr n Ht Ho|c h m addr i n r s Ht E|c h m addr i n i' s Ht E
    |c h m addr n r m' s Ht E|c h m addr n s Ht E|c h w b s Hw1 Hw2 E].
  1,2: (split_and!; [by exists l | done |]; intros k; simpl;
    destruct (decide (h = k)) as [<-|]; [by rewrite fn_lookup_insert | by rewrite fn_lookup_insert_ne]).
  1,2: specialize (Hr' h); rewrite Ht in Hr'; destruct Hr' as [Hwo _]; rewrite Hk in E;
    apply after_ok; [done | | |];
    [destruct (write_keeps m addr n (Z.to_nat (n - i)) (ps c) l i Out Hf) as (? & ? & l' & E' & ? & _);
       unfold pipewrite in E; exists l'; congruence
    | intros k; destruct (write_keeps m addr n (Z.to_nat (n - i)) (ps c) l i (thr c k) Hf) as (? & ? & l' & E' & _ & Hkp & _);
       unfold pipewrite in E; rewrite E in E'; by injection E' as <- <- |].
  1: done.
  1: { destruct (write_keeps m addr n (Z.to_nat (n - i)) (ps c) l i Out Hf) as (out & s' & l' & E' & _ & _ & Hsl).
       unfold pipewrite in E. rewrite E in E'. injection E' as <- <-. by apply Hsl. }
  1,2: specialize (Hr' h); rewrite Ht in Hr'; destruct Hr' as [Hwo _]; rewrite Hk in E;
    apply after_ok; [done | | |];
    [destruct (read_keeps m addr n (ps c) l Out Hf) as (? & ? & E' & [l' ?] & _); exists l'; congruence
    | intros k; destruct (read_keeps m addr n (ps c) l (thr c k) Hf) as (? & ? & E' & _ & Hkp & _);
       rewrite E in E'; by injection E' as <- <- |].
  1: done.
  1: { destruct (read_keeps m addr n (ps c) l Out Hf) as (out & s' & E' & _ & _ & Hsl).
       rewrite E in E'. injection E' as <- <-. by apply Hsl. }
  assert (forall k, keeps (ps c) s (thr c k)) as Hkeep.
  { intros k Hkk. specialize (Hw1 k). specialize (Hw2 k).
    destruct w; unfold pipeclose, set_pp, wakeup, modify, gets, bind in E; simpl in E;
      injection E as _ <-; destruct (thr c k) as [|ma a i0 n0 sl|ma a n0 sl]; simpl in *; try done;
      [by destruct (Hw1 ma a i0 n0 sl) | by rewrite andb_false_r; naive_solver
      | by rewrite andb_false_r; naive_solver | by destruct (Hw2 ma a n0 sl)]. }
  apply after_ok; [done | | done | apply Hkeep, Hr].
  exists l. destruct w; unfold pipeclose, set_pp, wakeup, modify, gets, bind in E; simpl in E;
    injection E as _ <-; done.
Qed.

(** ** Properties *)

(** C8: The pipe is a byte stream.  After any interleaving of reads, writes,
    closes and kills, the bytes stored so far are the bytes taken so far followed
    by at most PIPESIZE bytes [l] in the ring; every further piece of [piperead]
    returns or sleeps, sleeps only on an empty pipe with the write end open,
    returns 0 for a positive count only at the end of the stream, and otherwise
    delivers the next bytes of the stream in order, as many as are there and
    asked for, touching no other memory; every piece of [pipewrite] appends the
    next bytes of its buffer and stops before the last one only when the ring is
    full.  The counters wrap around at 2^32 without any effect on this. *)
Theorem pipe_is_stream c0 d c :
  opened c0 d -> rtc pkstep c0 c ->
  exists l, stored (ps c) = taken (ps c) ++ l /\ (length l <= 512)%nat /\
    (forall m addr n kd,
       exists out s', piperead m addr n kd (ps c) = Ret out s' /\
         match out with
         | RSleep => l = [] /\ writeopen (pp (ps c)) <> 0 /\ kd = false
         | RRet r m' =>
             (r = -1 /\ l = [] /\ kd = true /\ m' = m) \/
             (let j := Nat.min (Z.to_nat n) (length l) in
              r = Z.of_nat j /\ (l = [] -> writeopen (pp (ps c)) = 0) /\
              taken s' = taken (ps c) ++ take j l /\ bytes_at m' addr j = take j l /\
              (forall x, x < addr \/ addr + Z.of_nat j <= x -> m' x = m x))
         end) /\
    (forall m addr i n kd,
       exists out s' j, pipewrite m addr i n kd (ps c) = Ret out s' /\
         stored s' = stored (ps c) ++ (u8 <$> bytes_at m (addr + i) j) /\
         match out with
         | WSleep i' => i' = i + Z.of_nat j /\ i' < n /\ (length l + j = 512)%nat
         | WRet r => (r = n /\ j = Z.to_nat (n - i)) \/
             (r = -1 /\ (length l + j = 512)%nat /\ (readopen (pp (ps c)) = 0 \/ kd = true))
         end).
Proof.
  intros H0 Hr. assert (pipe_ok c) as (l & Hf)
    by (eapply (rtc_invariant pkstep pipe_ok); [apply pkstep_ok | by eapply opened_ok | done]).
  exists l. split_and!; [apply Hf.. | |].
  - intros m addr n kd. destruct (piperead_ok m addr n kd (ps c) l Hf) as (out & s' & E & _ & _ & H).
    exists out, s'. split; [done|]. destruct out; [|naive_solver].
    destruct H as [(? & ? & ? & ? & ? & _)|(? & ? & _ & ? & ? & ? & _)]; [by left | right; by split_and!].
  - intros m addr i n kd. unfold pipewrite.
    destruct (pipewrite_loop_ok m addr n kd (Z.to_nat (n - i)) (ps c) l i Hf)
      as (out & s' & l' & j & E & Hf' & Hj & Hl' & Ht & _ & _ & H).
    exists out, s', j. split; [done|].
    assert (length l' = length l + j)%nat as Hlen
      by (by rewrite Hl', length_app, length_fmap, length_bytes_at).
    split; [|destruct out; [destruct H as [(? & ? & _)|(? & _ & ? & _ & ?)]|destruct H as (? & ? & ? & _)]].
    + destruct Hf' as (_ & _ & _ & _ & _ & -> & _). destruct Hf as (_ & _ & _ & _ & _ & -> & _).
      by rewrite Ht, Hl', assoc_L by apply _.
    + left. done.
    + right. split_and!; [done | lia | done].
    + split_and!; [done | lia | lia].
Qed.

Definition demo_pipe : pconf :=
  PConf (PSt (pipe_init (Pipe (repeat 0 512) 5 6 0 0)) [] [] []) (fun _ => Out) (fun _ => false).
Lemma demo_opened : opened demo_pipe (repeat 0 512).
Proof.
  split_and!; [by rewrite repeat_length | | done].
  exists (Pipe (repeat 0 512) 5 6 0 0). done.
Qed.
Lemma pipe_is_stream_witness :
  exists l, stored (ps demo_pipe) = taken (ps demo_pipe) ++ l /\ l = [].
Proof.
  destruct (pipe_is_stream demo_pipe (repeat 0 512) demo_pipe demo_opened (rtc_refl _ _))
    as (l & H & _). exists l. split; [exact H|]. simpl in H. by symmetry.
Defined.

(** C18: No lost wakeups.  As long as no process is killed, under every
    interleaving of readers, writers and closes a sleeping reader has an empty
    pipe and an open write end and a sleeping writer has a full pipe and an open
    read end; so readers and writers are never asleep at the same time, and a
    process for which there is something to do is runnable. *)
Theorem pipe_no_lost_wakeup c0 d c :
  opened c0 d -> rtc pstep c0 c ->
  (forall h m a n, thr c h = Reading m a n true ->
     empty (pp (ps c)) = true /\ writeopen (pp (ps c)) <> 0) /\
  (forall h m a i n, thr c h = Writing m a i n true ->
     full (pp (ps c)) = true /\ readopen (pp (ps c)) <> 0) /\
  (forall h h' m a n m' a' i' n', thr c h = Reading m a n true -> thr c h' <> Writing m' a' i' n' true).
Proof.
  intros H0 Hr. assert (sleep_ok c) as ((l & Hf) & _ & Hok).
  { eapply (rtc_invariant pstep sleep_ok); [apply pstep_sleep_ok | | done].
    split_and!; [by eapply opened_ok | apply H0 |]. intros h. destruct H0 as (_ & _ & H0).
    by destruct (H0 h) as [-> _]. }
  assert (forall h m a n, thr c h = Reading m a n true ->
     empty (pp (ps c)) = true /\ writeopen (pp (ps c)) <> 0) as Hread.
  { intros h m a n E. specialize (Hok h). rewrite E in Hok. by apply Hok. }
  assert (forall h m a i n, thr c h = Writing m a i n true ->
     full (pp (ps c)) = true /\ readopen (pp (ps c)) <> 0) as Hwrite.
  { intros h m a i n E. specialize (Hok h). rewrite E in Hok. by apply Hok. }
  split_and!; [done | done |]. intros h h' m a n m' a' i' n' E E'.
  destruct (Hread _ _ _ _ E) as [He _]. destruct (Hwrite _ _ _ _ _ E') as [Hfl _].
  rewrite (fifo_empty _ _ Hf), bool_decide_eq_true in He. subst l.
  by rewrite (fifo_full _ _ Hf) in Hfl.
Qed.

(** A reader goes to sleep on a new pipe. *)
Definition demo_waiting : pconf :=
  after (fresh (ps demo_pipe)) 0 (Reading (fun _ => 0) 0 1 true)
    (PConf (ps demo_pipe) (<[0%nat := Reading (fun _ => 0) 0 1 false]> (thr demo_pipe)) (killed demo_pipe)).
Lemma demo_waiting_reached : rtc pstep demo_pipe demo_waiting.
Proof.
  eapply rtc_l; [by apply (ps_read demo_pipe 0 (fun _ => 0) 0 1)|].
  apply rtc_once. by apply (ps_read_sleep _ 0 (fun _ => 0) 0 1).
Qed.
Lemma pipe_no_lost_wakeup_witness :
  thr demo_waiting 0 = Reading (fun _ => 0) 0 1 true /\ empty (pp (ps demo_waiting)) = true.
Proof.
  destruct (pipe_no_lost_wakeup demo_pipe (repeat 0 512) demo_waiting demo_opened demo_waiting_reached)
    as (H & _). split; [done|]. by destruct (H 0%nat (fun _ => 0) 0 1 eq_refl).
Defined.

Lemma pstep_pkstep c c' : rtc pstep c c' -> rtc pkstep c c'.
Proof. induction 1; [done|]. eapply rtc_l; [by apply pk_step | done]. Qed.

(** The write of a killed process to an empty pipe that is too long for it. *)
Lemma killed_write_stops m addr n s :
  fifo s [] -> 512 < n ->
  exists r s' l, pipewrite m addr 0 n true s = Ret (WRet r) s' /\ fifo s' l /\ length l = 512%nat /\
    woken s' = woken s /\ readopen (pp s') = readopen (pp s) /\ writeopen (pp s') = writeopen (pp s).
Proof.
  intros Hf Hn. unfold pipewrite.
  destruct (pipewrite_loop_ok m addr n true (Z.to_nat (n - 0)) s [] 0 Hf)
    as (out & s' & l & j & E & Hf' & Hj & Hl & _ & Hro & Hwo & H).
  assert (length l = j) as Hlj by (by rewrite Hl, app_nil_l, length_fmap, length_bytes_at).
  destruct out as [r|i']; [|by destruct H as (_ & _ & _ & _ & ? & _)].
  exists r, s', l. destruct H as [(_ & Hk & _)|(_ & _ & ? & ? & _)]; [|done].
  destruct Hf' as (_ & _ & Hle & _). lia.
Qed.

(** A killed writer loses a wakeup.  [pipewrite] that finds the pipe full and
    its process killed returns -1 without waking up the readers it has stored
    bytes for: a run of the code reaches a state in which a reader sleeps, the
    pipe is full, both ends are open and no process is inside the pipe code. *)
Theorem killed_writer_loses_wakeup :
  exists c0 d c m, opened c0 d /\ rtc pkstep c0 c /\
    thr c 0%nat = Reading m 0 1 true /\ (forall h, h <> 0%nat -> thr c h = Out) /\
    full (pp (ps c)) = true /\ writeopen (pp (ps c)) <> 0 /\ readopen (pp (ps c)) <> 0.
Proof.
  set (m := fun _ : Z => 0). pose (c1 := demo_waiting).
  pose (c2 := PConf (ps c1) (<[1%nat := Writing m 0 0 513 false]> (thr c1)) (killed c1)).
  pose (c3 := PConf (ps c2) (<[1%nat := awake (thr c2 1%nat)]> (thr c2)) (<[1%nat := true]> (killed c2))).
  assert (fifo (fresh (ps c3)) []) as Hf
    by (split_and!; simpl; try done; lia).
  destruct (killed_write_stops m 0 513 (fresh (ps c3)) Hf) as (r & s & l & E & Hf' & Hlen & Hwk & Hro & Hwo);
    [lia|].
  exists demo_pipe, (repeat 0 512), (after s 1 Out c3), m. split; [apply demo_opened|]. split.
  { etransitivity; [apply pstep_pkstep, demo_waiting_reached|].
    eapply rtc_l; [apply pk_step; by apply (ps_write c1 1 m 0 513)|].
    eapply rtc_l; [apply (pk_kill c2 1)|].
    apply rtc_once, pk_step. by apply (ps_write_ret c3 1 m 0 0 513 r). }
  split_and!; simpl.
  - rewrite Hwk. done.
  - intros h Hh. destruct (decide (h = 1%nat)) as [->|]; [by rewrite fn_lookup_insert|].
    repeat rewrite fn_lookup_insert_ne by done. done.
  - rewrite (fifo_full _ _ Hf'). by rewrite bool_decide_true.
  - by rewrite Hwo.
  - by rewrite Hro.
Qed.
