(* ===== verification/Blocks.v ===== *)
(** * What the file system uses of the buffer cache and the log

    fs.c works on buffers: it reads blocks with [bread], changes them, names
    them in the transaction with [log_write] and releases them.  [BlockOps] are
    these operations and [BlockLaws] what they promise: one current contents per
    block, whatever the cache and the log do underneath.  The laws keep account
    of the blocks that are held, changed and not yet logged, and logged in this
    transaction, which may be [cap] many.  [log_laws] proves the laws for the
    cache and the log of Bio.v and Log.v on any disk driver. *)

From stdpp Require Import functions.
From S2P Require Import Prelude Mem Disk Bio Log.
#[local] Open Scope Z_scope.

Class BlockOps (S : Type) := {
  bk_bread : Z -> Z -> M S nat;               (* bread(dev, blockno) *)
  bk_data : nat -> M S block;                 (* b->data *)
  bk_modify : nat -> (block -> block) -> M S unit;
  bk_bwrite : nat -> M S unit;
  bk_log_write : nat -> M S unit;
  bk_brelse : nat -> M S unit;
  bk_begin_op : M S unit;
  bk_end_op : M S unit;
}.

(** The parameters of [bk_ok]: the contents [v] of the blocks, the logged blocks
    [d], the held blocks [h], those of them changed since they were last logged
    [m], and the number of blocks [cap] that may be logged, 0 outside a
    transaction. *)
Class BlockLaws (S : Type) `{BlockOps S} := {
  bk_ok : S -> (Z -> block) -> gset Z -> gset Z -> gset Z -> nat -> Prop;
  bk_handle : S -> nat -> Z -> Prop;
  (** A block of the disk outside the log area. *)
  bk_home : Z -> Prop;
  bk_view_ok s v d h m cap n : bk_ok s v d h m cap -> bk_home n -> block_ok (v n);
  bk_logged s v d h m cap : bk_ok s v d h m cap -> (size d <= cap)%nat;
  bk_bread_ok s v d h m cap n :
    bk_ok s v d h m cap -> bk_home n -> n ∉ h -> (size h <= 3)%nat ->
    exists i s', bk_bread 1 n s = Ret i s' /\ bk_ok s' v d ({[n]} ∪ h) m cap /\ bk_handle s' i n /\
      (forall j k, k ∈ h -> bk_handle s j k -> bk_handle s' j k);
  bk_data_ok s v d h m cap i n :
    bk_ok s v d h m cap -> bk_handle s i n -> n ∈ h -> bk_data i s = Ret (v n) s;
  bk_modify_ok s v d h m cap i n f :
    bk_ok s v d h m cap -> bk_handle s i n -> n ∈ h -> block_ok (f (v n)) ->
    exists s', bk_modify i f s = Ret tt s' /\ bk_ok s' (<[n := f (v n)]> v) d h ({[n]} ∪ m) cap /\
      (forall j k, bk_handle s j k -> bk_handle s' j k);
  bk_log_ok s v d h m cap i n :
    bk_ok s v d h m cap -> bk_handle s i n -> n ∈ h -> bk_home n -> (size ({[n]} ∪ d) <= cap)%nat ->
    exists s', bk_log_write i s = Ret tt s' /\ bk_ok s' v ({[n]} ∪ d) h (m ∖ {[n]}) cap /\
      (forall j k, bk_handle s j k -> bk_handle s' j k);
  bk_brelse_ok s v d h m cap i n :
    bk_ok s v d h m cap -> bk_handle s i n -> n ∈ h -> n ∉ m ->
    exists s', bk_brelse i s = Ret tt s' /\ bk_ok s' v d (h ∖ {[n]}) m cap /\
      (forall j k, bk_handle s j k -> bk_handle s' j k);
  bk_begin_ok s v :
    bk_ok s v ∅ ∅ ∅ 0 ->
    exists s', bk_begin_op s = Ret tt s' /\ bk_ok s' v ∅ ∅ ∅ 10;
  bk_end_ok s v d cap :
    bk_ok s v d ∅ ∅ cap -> (0 < cap)%nat ->
    exists s' v', bk_end_op s = Ret tt s' /\ bk_ok s' v' ∅ ∅ ∅ 0 /\ (forall n, bk_home n -> v' n = v n);
}.

(** ** Whole accesses *)
Section access.
Context {S : Type} `{!BlockOps S} `{!BlockLaws S}.
Implicit Types (s : S) (v : Z -> block) (d h m : gset Z).

(** [bp = bread(dev, n); ... bp->data ...; brelse(bp);] *)
Lemma bk_read s v d h m cap n :
  bk_ok s v d h m cap -> bk_home n -> n ∉ h -> n ∉ m -> (size h <= 3)%nat ->
  exists i s1 s2, bk_bread 1 n s = Ret i s1 /\ bk_data i s1 = Ret (v n) s1 /\
    bk_brelse i s1 = Ret tt s2 /\ bk_ok s2 v d h m cap /\
    (forall j k, k ∈ h -> bk_handle s j k -> bk_handle s2 j k).
Proof.
  intros Hok Hn Hh Hm Hsz.
  destruct (bk_bread_ok s v d h m cap n Hok Hn Hh Hsz) as (i & s1 & E1 & Hok1 & Hi & Hk1).
  assert (n ∈ {[n]} ∪ h) as Hin by set_solver.
  destruct (bk_brelse_ok s1 v d _ m cap i n Hok1 Hi Hin Hm) as (s2 & E2 & Hok2 & Hk2).
  exists i, s1, s2. split_and!; try done.
  - by eapply bk_data_ok.
  - by replace (({[n]} ∪ h) ∖ {[n]}) with h in Hok2 by set_solver.
  - intros. by apply Hk2, Hk1.
Qed.

(** A held block is changed, logged and released. *)
Lemma bk_finish s v d h m cap i n f :
  bk_ok s v d ({[n]} ∪ h) m cap -> bk_handle s i n -> n ∉ h -> n ∉ m -> bk_home n ->
  block_ok (f (v n)) -> (size ({[n]} ∪ d) <= cap)%nat ->
  exists s1 s2 s3, bk_modify i f s = Ret tt s1 /\ bk_log_write i s1 = Ret tt s2 /\
    bk_brelse i s2 = Ret tt s3 /\ bk_ok s3 (<[n := f (v n)]> v) ({[n]} ∪ d) h m cap /\
    (forall j k, bk_handle s j k -> bk_handle s3 j k).
Proof.
  intros Hok Hi Hh Hm Hn Hf Hsz. assert (n ∈ {[n]} ∪ h) as Hin by set_solver.
  destruct (bk_modify_ok s v d _ m cap i n f Hok Hi Hin Hf) as (s1 & E1 & Hok1 & Hk1).
  destruct (bk_log_ok s1 _ d _ _ cap i n Hok1 (Hk1 _ _ Hi) Hin Hn Hsz) as (s2 & E2 & Hok2 & Hk2).
  replace (({[n]} ∪ m) ∖ {[n]}) with m in Hok2 by set_solver.
  destruct (bk_brelse_ok s2 _ _ _ m cap i n Hok2 (Hk2 _ _ (Hk1 _ _ Hi)) Hin Hm) as (s3 & E3 & Hok3 & Hk3).
  exists s1, s2, s3. split_and!; try done; [|auto].
  by replace (({[n]} ∪ h) ∖ {[n]}) with h in Hok3 by set_solver.
Qed.

(** [bp = bread(dev, n); bp->data = f(bp->data); log_write(bp); brelse(bp);] *)
Lemma bk_update s v d h m cap n f :
  bk_ok s v d h m cap -> bk_home n -> n ∉ h -> n ∉ m -> (size h <= 3)%nat ->
  block_ok (f (v n)) -> (size ({[n]} ∪ d) <= cap)%nat ->
  exists i s0 s1 s2 s3, bk_bread 1 n s = Ret i s0 /\ bk_data i s0 = Ret (v n) s0 /\
    bk_modify i f s0 = Ret tt s1 /\ bk_log_write i s1 = Ret tt s2 /\ bk_brelse i s2 = Ret tt s3 /\
    bk_ok s3 (<[n := f (v n)]> v) ({[n]} ∪ d) h m cap /\
    (forall j k, k ∈ h -> bk_handle s j k -> bk_handle s3 j k).
Proof.
  intros Hok Hn Hh Hm Hsz Hf Hd.
  destruct (bk_bread_ok s v d h m cap n Hok Hn Hh Hsz) as (i & s0 & E0 & Hok0 & Hi & Hk0).
  destruct (bk_finish s0 v d h m cap i n f Hok0 Hi Hh Hm Hn Hf Hd)
    as (s1 & s2 & s3 & E1 & E2 & E3 & Hok3 & Hk3).
  exists i, s0, s1, s2, s3. split_and!; try done; [|auto].
  eapply bk_data_ok; [done.. | set_solver].
Qed.
End access.

(** ** The cache and the log keep the laws *)
Section instance.
Context {D0 : Type} `{!DiskDriver D0} `{!DiskLaws D0} (pid : Z).
(** The disk's contents at the start and its size, the log's place and size. *)
Context (d0 : Z -> block) (nb start lsize : Z).

#[export] Instance log_ops : BlockOps (lst (traced D0)) := {|
  bk_bread dev n := cache (bread pid dev n);
  bk_data i := data_of i;
  bk_modify i f := cache (bmodify i f);
  bk_bwrite i := cache (bwrite pid i);
  bk_log_write i := log_write i;
  bk_brelse i := cache (brelse pid i);
  bk_begin_op := begin_op;
  bk_end_op := end_op pid;
|}.

Implicit Types (st : lst (traced D0)) (v : Z -> block) (d h m : gset Z).

Definition tx_ok st v d h m (cap : nat) : Prop :=
  (exists w, log_ok pid d0 nb st v d h w start lsize /\
     (forall n, n ∈ h -> n ∉ m -> n ∈ d \/ v n = wapply w d0 n)) /\
  m ⊆ h /\ (size d <= cap)%nat /\ (cap <= 10)%nat /\ 12 <= lsize /\
  lg_committing (llog st) = false /\ lg_outstanding (llog st) = (if decide (cap = 0%nat) then 0 else 1).

(** The header counts the logged blocks. *)
Lemma logged_count st v d h w :
  log_ok pid d0 nb st v d h w start lsize -> Z.of_nat (size d) = lh_n (llog st).
Proof.
  intros (_ & _ & _ & _ & _ & _ & _ & _ & [Hn _] & Hd & Hinj).
  assert (d = list_to_set (lhb (lh_block (llog st)) <$> seqZ 0 (lh_n (llog st)))) as ->.
  { apply set_eq. intros b. rewrite Hd, elem_of_list_to_set, list_elem_of_fmap.
    setoid_rewrite elem_of_seqZ. split; intros (t & H); exists t; rewrite ?Z.add_0_l in *; tauto. }
  rewrite size_list_to_set.
  - rewrite length_fmap, length_seqZ. lia.
  - apply NoDup_fmap_2_strong; [|apply NoDup_seqZ].
    intros x y Hx%elem_of_seqZ Hy%elem_of_seqZ. apply Hinj; lia.
Qed.

(** [log_ok] does not see the transaction counters, nor which blocks of the
    cache are used for it. *)
Lemma log_ok_log st st' v d h w :
  log_ok pid d0 nb st v d h w start lsize -> lbc st' = lbc st ->
  lg_dev (llog st') = lg_dev (llog st) -> lg_start (llog st') = lg_start (llog st) ->
  lg_size (llog st') = lg_size (llog st) -> lh_n (llog st') = lh_n (llog st) ->
  lh_block (llog st') = lh_block (llog st) -> log_ok pid d0 nb st' v d h w start lsize.
Proof.
  intros Hl E1 E2 E3 E4 E5 E6. unfold log_ok, lok in *. rewrite E1, E2, E3, E4, E5, E6. exact Hl.
Qed.
Lemma log_ok_lok st b v d h w v' h' :
  log_ok pid d0 nb st v d h w start lsize -> lok pid d0 nb (set_lbc b st) v' d h' w ->
  log_ok pid d0 nb (set_lbc b st) v' d h' w start lsize.
Proof. intros (_ & Hl) Hl'. split; [exact Hl' | exact Hl]. Qed.

Lemma size_room (d h : gset Z) n :
  (size d <= 10)%nat -> (size h <= 3)%nat -> (size (h ∪ d ∪ {[n]}) <= NBUF)%nat.
Proof.
  intros Hd Hh. pose proof (size_union_alt (h ∪ d) {[n]}) as H1. pose proof (size_union_alt h d) as H2.
  assert (size (d ∖ h) <= size d)%nat by (apply subseteq_size; set_solver).
  assert (size ({[n]} ∖ (h ∪ d)) <= size ({[n]} : gset Z))%nat by (apply subseteq_size; set_solver).
  rewrite (size_singleton n) in *. unfold NBUF. lia.
Qed.

Lemma tx_bread st v d h m cap n :
  tx_ok st v d h m cap -> home nb start lsize n -> n ∉ h -> (size h <= 3)%nat ->
  exists i st', cache (bread pid 1 n) st = Ret i st' /\ tx_ok st' v d ({[n]} ∪ h) m cap /\
    handle (lbc st') i n /\ (forall j k, k ∈ h -> handle (lbc st) j k -> handle (lbc st') j k).
Proof.
  intros ((w & Hl & Hcl) & Hm & Hd & Hcap & Hls & Hc & Ho) [Hn Hlog] Hh Hsz.
  pose proof Hl as (Hlok & _).
  destruct (lok_bread pid d0 nb st v d h w n Hlok Hn Hh) as (i & b & E & Hlok' & Hi & _ & Hk);
    [apply size_room; lia|].
  exists i, (set_lbc b st). split; [unfold cache, zoom; by rewrite E|]. split; [|done].
  split; [exists w; split; [by eapply log_ok_lok|] | split_and!; try done; set_solver].
  intros k Hk1 Hk2. destruct (decide (k = n)) as [->|]; [|apply Hcl; set_solver].
  by apply (lok_clean pid d0 nb st v d h w).
Qed.

Lemma tx_modify st v d h m cap i n f :
  tx_ok st v d h m cap -> handle (lbc st) i n -> n ∈ h -> block_ok (f (v n)) ->
  exists st', cache (bmodify i f) st = Ret tt st' /\ tx_ok st' (<[n := f (v n)]> v) d h ({[n]} ∪ m) cap /\
    (forall j k, handle (lbc st) j k -> handle (lbc st') j k).
Proof.
  intros ((w & Hl & Hcl) & Hm & Hd & Hcap & Hls & Hc & Ho) Hi Hn Hf. pose proof Hl as (Hlok & _).
  destruct (lok_bmodify pid d0 nb st v d h w i n f Hlok Hi Hn Hf) as (b & E & Hlok' & Hk).
  exists (set_lbc b st). split; [unfold cache, zoom; by rewrite E|]. split; [|intros; by apply Hk].
  split; [exists w; split; [by eapply log_ok_lok|] | split_and!; try done; set_solver].
  intros k Hk1 Hk2. rewrite fn_lookup_insert_ne by set_solver. apply Hcl; set_solver.
Qed.

Lemma tx_log st v d h m cap i n :
  tx_ok st v d h m cap -> handle (lbc st) i n -> n ∈ h -> home nb start lsize n ->
  (size ({[n]} ∪ d) <= cap)%nat ->
  exists st', log_write i st = Ret tt st' /\ tx_ok st' v ({[n]} ∪ d) h (m ∖ {[n]}) cap /\
    (forall j k, handle (lbc st) j k -> handle (lbc st') j k).
Proof.
  intros ((w & Hl & Hcl) & Hm & Hd & Hcap & Hls & Hc & Ho) Hi Hn Hh Hsz.
  pose proof (logged_count _ _ _ _ _ Hl) as Hcount.
  assert (cap <> 0)%nat as Hpos.
  { intros ->. apply Nat.le_0_r, size_empty_inv in Hsz. set_solver. }
  rewrite decide_False in Ho by done.
  destruct (log_write_ok pid d0 nb st v d h w start lsize i n Hl Hi Hn Hh) as (st' & E & Hl' & Hlh & Ho' & Hc' & Hk);
    [lia | lia |].
  exists st'. split; [done|]. split; [|intros; by apply Hk].
  split; [exists w; split; [done|] | split_and!; try done; [set_solver | by rewrite Hc' | by rewrite Ho', decide_False]].
  intros k Hk1 Hk2. destruct (decide (k = n)) as [->|]; [left; set_solver|].
    destruct (Hcl k Hk1) as [?|?]; [set_solver | left; set_solver | by right].
Qed.

Lemma tx_brelse st v d h m cap i n :
  tx_ok st v d h m cap -> handle (lbc st) i n -> n ∈ h -> n ∉ m ->
  exists st', cache (brelse pid i) st = Ret tt st' /\ tx_ok st' v d (h ∖ {[n]}) m cap /\
    (forall j k, handle (lbc st) j k -> handle (lbc st') j k).
Proof.
  intros ((w & Hl & Hcl) & Hm & Hd & Hcap & Hls & Hc & Ho) Hi Hn Hm'. pose proof Hl as (Hlok & _).
  destruct (lok_brelse pid d0 nb st v d h w i n Hlok Hi Hn (Hcl n Hn Hm')) as (b & E & Hlok' & Hk).
  exists (set_lbc b st). split; [unfold cache, zoom; by rewrite E|]. split; [|intros; by apply Hk].
  split; [exists w; split; [by eapply log_ok_lok|] | split_and!; try done; set_solver].
  intros k Hk1 Hk2. apply Hcl; set_solver.
Qed.

Lemma tx_begin st v :
  tx_ok st v ∅ ∅ ∅ 0 -> exists st', begin_op st = Ret tt st' /\ tx_ok st' v ∅ ∅ ∅ 10.
Proof.
  intros ((w & Hl & Hcl) & Hm & Hd & Hcap & Hls & Hc & Ho). pose proof (logged_count _ _ _ _ _ Hl) as Hn.
  rewrite size_empty in Hn. unfold begin_op, glog, bind, gets, id, no_space.
  rewrite Hc, Ho, <- Hn. eexists. split; [reflexivity|].
  split; [exists w; split; [by apply (log_ok_log st)|] | split_and!; done || lia].
  done.
Qed.

Lemma tx_end st v d cap :
  tx_ok st v d ∅ ∅ cap -> (0 < cap)%nat ->
  exists st' v', end_op pid st = Ret tt st' /\ tx_ok st' v' ∅ ∅ ∅ 0 /\
    (forall n, home nb start lsize n -> v' n = v n).
Proof.
  intros ((w & Hl & Hcl) & Hm & Hd & Hcap & Hls & Hc & Ho) Hpos. rewrite decide_False in Ho by lia.
  pose proof (logged_count _ _ _ _ _ Hl) as Hn.
  set (st1 := set_llog (set_committing true (set_outstanding 0 (llog st))) st).
  assert (log_ok pid d0 nb st1 v d ∅ w start lsize) as Hl1 by (by apply (log_ok_log st)).
  assert (exists st2 v' w', commit pid st1 = Ret tt st2 /\ log_ok pid d0 nb st2 v' ∅ ∅ w' start lsize /\
    lg_outstanding (llog st2) = 0 /\ (forall n, home nb start lsize n -> v' n = v n)) as (st2 & v' & w' & E & Hl2 & Ho2 & Hv).
  { destruct (Z.ltb_spec 0 (lh_n (llog st))) as [Hlt|Hge].
    - destruct (commit_ok pid d0 nb st1 v d w start lsize Hl1 Hlt) as (st2 & v' & E & Hl2 & _ & Hv & Ho2 & _).
      by exists st2, v', (w ++ commit_writes start (lh_n (llog st1)) (lh_block (llog st1)) v).
    - exists st1, v, w. split_and!; try done.
      + unfold commit, glog, bind, gets. change (lh_n (llog st1)) with (lh_n (llog st)).
        by rewrite (proj2 (Z.ltb_ge _ _) Hge).
      + assert (size d = 0%nat) as Hz by lia. apply size_empty_inv in Hz.
        by replace (∅ : gset Z) with d at 1 by set_solver. }
  exists (set_llog (set_committing false (llog st2)) st2), v'. split_and!; [| |done].
  - unfold end_op, mlog, glog, modify, bind, gets, id, panic_if. cbn [llog set_llog lg_committing set_outstanding].
    rewrite Hc, Ho. unfold ret. cbn [lg_outstanding set_outstanding llog set_llog]. cbn beta iota.
    change (1 - 1 =? 0) with true. cbn beta iota. change (commit pid _) with (commit pid st1). by rewrite E.
  - split; [exists w'; split; [by apply (log_ok_log st2) | done]|]. split_and!; done || lia.
Qed.

#[export] Instance log_laws : BlockLaws (lst (traced D0)).
Proof.
  refine {| bk_ok := tx_ok; bk_handle st i n := handle (lbc st) i n; bk_home := home nb start lsize |}.
  - intros st v d h m cap n ((w & (Hl & _) & _) & _) [Hn _]. by eapply view_block_ok.
  - intros st v d h m cap H. apply H.
  - exact tx_bread.
  - intros st v d h m cap i n ((w & ((Hbc & _) & _) & _) & _) Hi Hn. cbn. unfold data_of, gets.
    f_equal. by destruct (held_buf _ _ _ _ _ _ _ Hbc Hi Hn) as (_ & _ & _ & ? & _).
  - exact tx_modify.
  - exact tx_log.
  - exact tx_brelse.
  - exact tx_begin.
  - exact tx_end.
Defined.
End instance.

(** ** The ideal block store

    An array of blocks with nothing in front of it: the store that [BlockLaws]
    describes, as a reference for the laws and for running the file system on a
    given image. *)
Record ideal := Ideal { id_view : Z -> block }.
#[export] Instance ideal_ops : BlockOps ideal := {|
  bk_bread dev n := ret (Z.to_nat n);
  bk_data i := gets (fun s => id_view s (Z.of_nat i));
  bk_modify i f := modify (fun s => Ideal (<[Z.of_nat i := f (id_view s (Z.of_nat i))]> (id_view s)));
  bk_bwrite i := ret tt;
  bk_log_write i := ret tt;
  bk_brelse i := ret tt;
  bk_begin_op := ret tt;
  bk_end_op := ret tt;
|}.
Definition ideal_ok (s : ideal) (v : Z -> block) (d h m : gset Z) (cap : nat) : Prop :=
  id_view s = v /\ (forall n, 0 <= n -> block_ok (v n)) /\ (size d <= cap)%nat.
#[export] Instance ideal_laws : BlockLaws ideal.
Proof.
  refine {| bk_ok := ideal_ok; bk_handle s i n := Z.of_nat i = n; bk_home n := 0 <= n |}.
  - intros s v d h m cap n (_ & H & _) Hn. by apply H.
  - intros s v d h m cap H. apply H.
  - intros s v d h m cap n H Hn Hh Hsz. eexists _, s. split; [reflexivity|]. split; [done|].
    split; [by rewrite Z2Nat.id | done].
  - intros s v d h m cap i n (<- & _) <- _. done.
  - intros s v d h m cap i n f (<- & Hb & Hd) <- _ Hf. eexists. split; [reflexivity|].
    split; [|done]. split_and!; [done | | done]. intros k Hk. destruct (decide (Z.of_nat i = k)) as [<-|].
    + by rewrite fn_lookup_insert.
    + rewrite fn_lookup_insert_ne by done. by apply Hb.
  - intros s v d h m cap i n (Hv & Hb & Hd) Hi _ _ Hsz. exists s. done.
  - intros s v d h m cap i n (Hv & Hb & Hd) Hi _ _. exists s. done.
  - intros s v (Hv & Hb & Hd). exists s. split_and!; try done. split_and!; try done; lia.
  - intros s v d cap (Hv & Hb & Hd) _. exists s, v. split_and!; done || by split_and!.
Defined.
