(* ===== verification/Balloc.v ===== *)
(** * The disk block allocator (bzero, balloc and bfree of fs.c)

    One bit per block of the disk, in the bitmap blocks.  [used] is the bitmap
    as a function; [balloc] takes the first free block, marks it and zeroes it,
    [bfree] clears the mark. *)

From stdpp Require Import functions.
From S2P Require Import Prelude Mem Disk Bio Log Blocks.
#[local] Open Scope Z_scope.

(** Bits of a bitmap block. *)
Abbreviation BPB := 4096.
Definition BBLOCK (b : Z) (sb : superblock) : Z := b / BPB + sb_bmapstart sb.

(** [1 << (bi % 8)] and [data[bi/8]]. *)
Definition bit_mask (bi : Z) : Z := Z.shiftl 1 (bi mod 8).
Definition bit_byte (bi : Z) : nat := Z.to_nat (bi / 8).
Definition bit_free (d : block) (bi : Z) : bool := Z.land (get8 d (bit_byte bi)) (bit_mask bi) =? 0.
Definition mark_bit (bi : Z) (d : block) : block :=
  <[bit_byte bi := u8 (Z.lor (get8 d (bit_byte bi)) (bit_mask bi))]> d.
Definition clear_bit (bi : Z) (d : block) : block :=
  <[bit_byte bi := u8 (Z.land (get8 d (bit_byte bi)) (Z.lnot (bit_mask bi)))]> d.

(** [for(bi = 0; bi < BPB && b + bi < sb.size; bi++)] up to the first free bit,
    with [k] bits of the block left. *)
Fixpoint bit_scan (k : nat) (d : block) (bi b size : Z) : option Z :=
  match k with
  | O => None
  | S k =>
      if b + bi <? size then
        if bit_free d bi then Some bi else bit_scan k d (bi + 1) b size
      else None
  end.

Section balloc.
Context {S : Type} `{!BlockOps S}.
Context (sb : superblock).

Definition bzero (dev bno : Z) : M S unit :=
  bp <- bk_bread dev bno ;;
  bk_modify bp (fun _ => replicate 512 0) ;;;
  bk_log_write bp ;;;
  bk_brelse bp.

(** [for(b = 0; b < sb.size; b += BPB)] with fuel for the bitmap blocks. *)
Fixpoint balloc_loop (fuel : nat) (dev b : Z) : M S Z :=
  match fuel with
  | O => diverge
  | Datatypes.S fuel =>
      if b <? sb_size sb then
        bp <- bk_bread dev (BBLOCK b sb) ;;
        data <- bk_data bp ;;
        match bit_scan (Z.to_nat BPB) data 0 b (sb_size sb) with
        | Some bi =>
            bk_modify bp (mark_bit bi) ;;;
            bk_log_write bp ;;;
            bk_brelse bp ;;;
            bzero dev (b + bi) ;;;
            ret (b + bi)
        | None => bk_brelse bp ;;; balloc_loop fuel dev (b + BPB)
        end
      else panic "balloc: out of blocks"
  end.
Definition balloc (dev : Z) : M S Z := balloc_loop (Z.to_nat (sb_size sb / BPB + 2)) dev 0.

Definition bfree (dev b : Z) : M S unit :=
  bp <- bk_bread dev (BBLOCK b sb) ;;
  data <- bk_data bp ;;
  let bi := b mod BPB in
  panic_if (bit_free data bi) "freeing free block" ;;;
  bk_modify bp (clear_bit bi) ;;;
  bk_log_write bp ;;;
  bk_brelse bp.
End balloc.

(** ** Bits *)

Lemma get8_range d i : block_ok d -> 0 <= get8 d i < 256.
Proof.
  intros [_ Hf]. unfold get8. destruct (d !! i) as [x|] eqn:E; simpl; [|lia].
  by eapply Forall_lookup in Hf.
Qed.

Lemma bit_mask_pow bi : bit_mask bi = 2 ^ (bi mod 8).
Proof. unfold bit_mask. rewrite Z.shiftl_mul_pow2 by zlia. lia. Qed.
Lemma bit_free_testbit d bi : bit_free d bi = negb (Z.testbit (get8 d (bit_byte bi)) (bi mod 8)).
Proof.
  unfold bit_free. rewrite bit_mask_pow, land_bit by zlia.
  assert (0 < 2 ^ (bi mod 8)) by (apply Z.pow_pos_nonneg; zlia).
  destruct (Z.testbit _ _); simpl; [|done]. apply Z.eqb_neq. lia.
Qed.

Lemma u8_testbit x i : 0 <= i < 8 -> Z.testbit (u8 x) i = Z.testbit x i.
Proof. intros. unfold u8. change 256 with (2 ^ 8). apply Z.mod_pow2_bits_low; lia. Qed.

Lemma bit_index bi : 0 <= bi < 4096 -> (bit_byte bi < 512)%nat.
Proof. intros. unfold bit_byte. zlia. Qed.
Lemma bit_inj bi bj : 0 <= bi -> 0 <= bj -> bit_byte bi = bit_byte bj -> bi mod 8 = bj mod 8 -> bi = bj.
Proof. unfold bit_byte. intros ? ? E ?. apply Z2Nat.inj in E; [|zlia..]. zlia. Qed.

(** A change of one byte that only touches the bit's position. *)
Lemma bit_free_insert d bi bj (x : Z) (val : bool) :
  block_ok d -> 0 <= bi < 4096 -> 0 <= bj < 4096 ->
  (forall i, 0 <= i < 8 -> Z.testbit x i =
     if decide (i = bi mod 8) then val else Z.testbit (get8 d (bit_byte bi)) i) ->
  bit_free (<[bit_byte bi := x]> d) bj = if decide (bj = bi) then negb val else bit_free d bj.
Proof.
  intros [Hl _] Hi Hj Hx. rewrite !bit_free_testbit.
  assert (get8 (<[bit_byte bi := x]> d) (bit_byte bj) =
    if decide (bit_byte bj = bit_byte bi) then x else get8 d (bit_byte bj)) as ->.
  { unfold get8. case_decide as E.
    - rewrite E, list_lookup_insert_eq; [done|]. rewrite Hl. by apply bit_index.
    - by rewrite list_lookup_insert_ne. }
  case_decide as E.
  - rewrite Hx by zlia. destruct (decide (bj = bi)) as [->|Hne]; [by rewrite decide_True|].
    rewrite decide_False, E; [done|]. intros Em. apply Hne. apply bit_inj; lia || done.
  - rewrite decide_False by (by intros ->). done.
Qed.

Lemma bit_free_mark d bi bj :
  block_ok d -> 0 <= bi < 4096 -> 0 <= bj < 4096 ->
  bit_free (mark_bit bi d) bj = if decide (bj = bi) then false else bit_free d bj.
Proof.
  intros Hd Hi Hj. apply (bit_free_insert d bi bj _ true Hd Hi Hj). intros i Hr.
  rewrite u8_testbit, Z.lor_spec, bit_mask_pow, Z.pow2_bits_eqb by zlia.
  destruct (decide (i = bi mod 8)) as [->|]; [by rewrite Z.eqb_refl, orb_true_r|].
  rewrite (proj2 (Z.eqb_neq (bi mod 8) i)) by done. by rewrite orb_false_r.
Qed.
Lemma bit_free_clear d bi bj :
  block_ok d -> 0 <= bi < 4096 -> 0 <= bj < 4096 ->
  bit_free (clear_bit bi d) bj = if decide (bj = bi) then true else bit_free d bj.
Proof.
  intros Hd Hi Hj. apply (bit_free_insert d bi bj _ false Hd Hi Hj). intros i Hr.
  rewrite u8_testbit, Z.land_spec, Z.lnot_spec, bit_mask_pow, Z.pow2_bits_eqb by zlia.
  destruct (decide (i = bi mod 8)) as [->|]; [by rewrite Z.eqb_refl, andb_false_r|].
  rewrite (proj2 (Z.eqb_neq (bi mod 8) i)) by done. by rewrite andb_true_r.
Qed.

Lemma insert_u8_ok d i x : block_ok d -> block_ok (<[i := u8 x]> d).
Proof. intros [Hl Hf]. split; [by rewrite length_insert|]. apply Forall_insert; [done | apply u8_range]. Qed.
Lemma mark_bit_ok bi d : block_ok d -> block_ok (mark_bit bi d).
Proof. apply insert_u8_ok. Qed.
Lemma clear_bit_ok bi d : block_ok d -> block_ok (clear_bit bi d).
Proof. apply insert_u8_ok. Qed.
Lemma zero_block_ok : block_ok (replicate 512 0).
Proof. split; [by rewrite length_replicate|]. apply Forall_replicate. lia. Qed.
Create HintDb block discriminated.
#[export] Hint Resolve mark_bit_ok clear_bit_ok zero_block_ok put32_ok : block.

Lemma bit_scan_ok k d bi b size :
  match bit_scan k d bi b size with
  | Some r => bi <= r < bi + Z.of_nat k /\ b + r < size /\ bit_free d r = true /\
      (forall i, bi <= i < r -> bit_free d i = false)
  | None => forall i, bi <= i < bi + Z.of_nat k -> b + i < size -> bit_free d i = false
  end.
Proof.
  revert bi. induction k as [|k IH]; intros bi; cbn [bit_scan]; [intros; lia|].
  destruct (Z.ltb_spec (b + bi) size); [|intros i Hi Hs; lia].
  destruct (bit_free d bi) eqn:E; [split_and!; try lia; done|].
  specialize (IH (bi + 1)). destruct (bit_scan k d (bi + 1) b size) as [r|].
  - destruct IH as (? & ? & ? & Hlt). split_and!; try done; [lia.. |]. intros i Hi.
    destruct (decide (i = bi)) as [->|]; [done|]. apply Hlt. lia.
  - intros i Hi Hs. destruct (decide (i = bi)) as [->|]; [done|]. apply IH; lia.
Qed.

(** ** The bitmap *)

(** The block is marked as in use. *)
Definition used (v : Z -> block) (sb : superblock) (b : Z) : bool :=
  negb (bit_free (v (BBLOCK b sb)) (b mod BPB)).
(** The first block after the bitmap. *)
Definition datastart (sb : superblock) : Z := sb_bmapstart sb + sb_size sb / BPB + 1.
Definition is_data (sb : superblock) (b : Z) : Prop := datastart sb <= b < sb_size sb.

(** The layout that mkfs makes: log, inode blocks, bitmap, data. *)
Definition layout (sb : superblock) : Prop :=
  0 <= sb_inodestart sb /\ 0 <= sb_ninodes sb /\
  sb_inodestart sb + sb_ninodes sb / 8 + 1 <= sb_bmapstart sb /\
  datastart sb <= sb_size sb < 2147483648.

(** Everything before the data blocks is marked. *)
Definition meta_used (v : Z -> block) (sb : superblock) : Prop :=
  forall b, 0 <= b < datastart sb -> used v sb b = true.

Definition first_free (v : Z -> block) (sb : superblock) (b : Z) : Prop :=
  0 <= b < sb_size sb /\ used v sb b = false /\ forall c, 0 <= c < b -> used v sb c = true.

(** The disk after [balloc] took block [b], and after [bfree] gave it back. *)
Definition alloc_view (v : Z -> block) (sb : superblock) (b : Z) : Z -> block :=
  <[b := replicate 512 0]> (<[BBLOCK b sb := mark_bit (b mod BPB) (v (BBLOCK b sb))]> v).
Definition free_view (v : Z -> block) (sb : superblock) (b : Z) : Z -> block :=
  <[BBLOCK b sb := clear_bit (b mod BPB) (v (BBLOCK b sb))]> v.

Lemma BBLOCK_range sb b : layout sb -> 0 <= b < sb_size sb -> sb_bmapstart sb <= BBLOCK b sb < datastart sb.
Proof. unfold layout, BBLOCK, datastart. intros H Hb. zlia. Qed.

Lemma bitmap_split b c sb :
  0 <= b -> 0 <= c -> BBLOCK b sb = BBLOCK c sb -> b mod BPB = c mod BPB -> b = c.
Proof. unfold BBLOCK. intros. zlia. Qed.

(** How the bitmap reads after one of its blocks changed at the bit of [b]. *)
Lemma used_insert v sb b c (f : Z -> block -> block) (val : bool) :
  layout sb -> 0 <= b < sb_size sb -> 0 <= c < sb_size sb -> block_ok (v (BBLOCK b sb)) ->
  (forall bj, 0 <= bj < 4096 -> bit_free (f (b mod BPB) (v (BBLOCK b sb))) bj =
     if decide (bj = b mod BPB) then negb val else bit_free (v (BBLOCK b sb)) bj) ->
  used (<[BBLOCK b sb := f (b mod BPB) (v (BBLOCK b sb))]> v) sb c =
    if decide (c = b) then val else used v sb c.
Proof.
  intros Hl Hb Hc Hok Hf. unfold used. destruct (decide (BBLOCK b sb = BBLOCK c sb)) as [E|E].
  - rewrite <- E, fn_lookup_insert, Hf by zlia. destruct (decide (c = b)) as [->|Hne].
    + rewrite decide_True by done. apply negb_involutive.
    + rewrite decide_False; [done|]. intros Em. apply Hne. symmetry. eapply bitmap_split; [lia | lia | done |]. done.
  - rewrite fn_lookup_insert_ne by done. rewrite decide_False by (by intros ->). done.
Qed.

Lemma used_alloc v sb b c :
  layout sb -> is_data sb b -> 0 <= sb_bmapstart sb -> 0 <= c < sb_size sb -> block_ok (v (BBLOCK b sb)) ->
  used (alloc_view v sb b) sb c = if decide (c = b) then true else used v sb c.
Proof.
  intros Hl [Hb1 Hb2] Hs Hc Hok. unfold alloc_view.
  assert (0 <= b < sb_size sb) as Hb by (unfold datastart, layout in *; zlia).
  pose proof (BBLOCK_range sb c Hl Hc) as Hr.
  assert (used (<[b:=replicate 512 0]> (<[BBLOCK b sb:=mark_bit (b mod BPB) (v (BBLOCK b sb))]> v)) sb c =
    used (<[BBLOCK b sb:=mark_bit (b mod BPB) (v (BBLOCK b sb))]> v) sb c) as ->.
  { unfold used. by rewrite fn_lookup_insert_ne by lia. }
  apply (used_insert v sb b c mark_bit true); try done.
  intros. apply bit_free_mark; [done | zlia | done].
Qed.
Lemma used_free v sb b c :
  layout sb -> 0 <= b < sb_size sb -> 0 <= c < sb_size sb -> block_ok (v (BBLOCK b sb)) ->
  used (free_view v sb b) sb c = if decide (c = b) then false else used v sb c.
Proof.
  intros Hl Hb Hc Hok. apply (used_insert v sb b c clear_bit false); try done.
  intros. apply bit_free_clear; [done | zlia | done].
Qed.

(** The first number for which a test fails, if there is one. *)
Lemma find_first (f : Z -> bool) n :
  (exists b, 0 <= b < n /\ f b = false /\ forall c, 0 <= c < b -> f c = true) \/
  (forall b, 0 <= b < n -> f b = true).
Proof.
  destruct (Z.le_gt_cases n 0) as [Hn|Hn]; [right; lia|].
  rewrite <- (Z2Nat.id n) by lia. clear Hn. induction (Z.to_nat n) as [|k IH]; [right; lia|].
  destruct IH as [(b & Hb & Hf & Hlt)|IH]; [left; exists b; split_and!; done || lia|].
  destruct (f (Z.of_nat k)) eqn:E.
  - right. intros b Hb. destruct (decide (b = Z.of_nat k)) as [->|]; [done|]. apply IH. lia.
  - left. exists (Z.of_nat k). split_and!; done || lia || (intros c Hc; apply IH; lia).
Qed.

Lemma size_add1 (a : Z) (d : gset Z) : (size ({[a]} ∪ d) <= size d + 1)%nat.
Proof.
  rewrite size_union_alt, size_singleton.
  assert (size (d ∖ {[a]}) <= size d)%nat by (apply subseteq_size; set_solver). lia.
Qed.
Lemma size_add2 (a b : Z) (d : gset Z) : (size ({[a]} ∪ ({[b]} ∪ d)) <= size d + 2)%nat.
Proof. pose proof (size_add1 a ({[b]} ∪ d)). pose proof (size_add1 b d). lia. Qed.

(** ** Correctness *)
Section spec.
Context {S : Type} `{!BlockOps S} `{!BlockLaws S}.
Context (sb : superblock) (Hlay : layout sb).
(** The log area is before the inode blocks. *)
Context (Hhome : forall b, sb_inodestart sb <= b < sb_size sb -> bk_home b).
Implicit Types (s : S) (v : Z -> block) (d h : gset Z).

(** The held blocks are data blocks in use. *)
Definition held_ok v h : Prop := forall n, n ∈ h -> is_data sb n /\ used v sb n = true.

Lemma bitmap_not_held v h b : held_ok v h -> 0 <= b < sb_size sb -> BBLOCK b sb ∉ h.
Proof using Hlay. intros Hh Hb Hin. apply Hh in Hin as [[? ?] _]. pose proof (BBLOCK_range sb b Hlay Hb). lia. Qed.
Lemma bitmap_home b : 0 <= b < sb_size sb -> bk_home (BBLOCK b sb).
Proof using Hlay Hhome.
  intros Hb. apply Hhome. pose proof (BBLOCK_range sb b Hlay Hb). unfold layout, datastart in *.
  destruct Hlay as (? & ? & ? & ?). zlia.
Qed.
Lemma free_is_data v b : meta_used v sb -> first_free v sb b -> is_data sb b.
Proof using.
  intros Hm (Hb & Hf & _). unfold is_data. destruct (decide (b < datastart sb)); [|lia].
  rewrite Hm in Hf by lia. done.
Qed.

Lemma bzero_ok s v d h cap b :
  bk_ok s v d h ∅ cap -> is_data sb b -> b ∉ h -> (size h <= 3)%nat -> (size ({[b]} ∪ d) <= cap)%nat ->
  exists s', bzero 1 b s = Ret tt s' /\ bk_ok s' (<[b := replicate 512 0]> v) ({[b]} ∪ d) h ∅ cap /\
    (forall j k, k ∈ h -> bk_handle s j k -> bk_handle s' j k).
Proof using Hlay Hhome.
  intros Hok [Hb1 Hb2] Hh Hsz Hd.
  destruct (bk_update s v d h ∅ cap b (fun _ => replicate 512 0)) as (i & s0 & s1 & s2 & s3 & E0 & _ & E1 & E2 & E3 & Hok' & Hk);
    try done; [| auto with block |].
  { apply Hhome. unfold datastart, layout in *. destruct Hlay as (? & ? & ? & ?). zlia. }
  exists s3. split_and!; try done. unfold bzero.
  by rewrite (bind_Ret _ _ _ _ _ E0), (bind_Ret _ _ _ _ _ E1), (bind_Ret _ _ _ _ _ E2).
Qed.

(** One bitmap block of [balloc]'s search, starting at block [b]. *)
Lemma bitmap_bit v b i :
  0 <= b -> b mod BPB = 0 -> 0 <= i < BPB -> used v sb (b + i) = negb (bit_free (v (BBLOCK b sb)) i).
Proof using.
  intros Hb Hm Hi. unfold used, BBLOCK. replace ((b + i) / BPB) with (b / BPB) by zlia.
  by replace ((b + i) mod BPB) with i by zlia.
Qed.

Lemma balloc_loop_found fuel s v d h cap b0 b :
  bk_ok s v d h ∅ cap -> held_ok v h -> (size h <= 2)%nat -> meta_used v sb -> first_free v sb b ->
  0 <= b0 <= b -> b0 mod BPB = 0 -> (b - b0) / BPB < Z.of_nat fuel ->
  (size ({[b]} ∪ ({[BBLOCK b sb]} ∪ d)) <= cap)%nat ->
  exists s', balloc_loop sb fuel 1 b0 s = Ret b s' /\
    bk_ok s' (alloc_view v sb b) ({[b]} ∪ ({[BBLOCK b sb]} ∪ d)) h ∅ cap /\
    (forall j k, k ∈ h -> bk_handle s j k -> bk_handle s' j k).
Proof using Hlay Hhome.
  intros Hok Hheld Hsz Hmeta Hff. pose proof (free_is_data _ _ Hmeta Hff) as Hdata.
  destruct Hff as (Hb & Hbf & Hlt). revert s b0 Hok.
  induction fuel as [|fuel IH]; intros s b0 Hok Hb0 Hm Hfuel Hcap; [zlia|]. cbn [balloc_loop].
  destruct (Z.ltb_spec b0 (sb_size sb)); [|lia].
  assert (BBLOCK b0 sb ∉ h) as Hnh by (apply (bitmap_not_held v); [done | lia]).
  assert (bk_home (BBLOCK b0 sb)) as Hhm by (apply bitmap_home; lia).
  destruct (bk_bread_ok s v d h ∅ cap (BBLOCK b0 sb) Hok Hhm Hnh ltac:(lia)) as (i & s1 & E1 & Hok1 & Hi & Hk1).
  assert (BBLOCK b0 sb ∈ {[BBLOCK b0 sb]} ∪ h) as Hin by set_solver.
  pose proof (bk_data_ok s1 v d _ ∅ cap i _ Hok1 Hi Hin) as E2.
  rewrite (bind_Ret _ _ _ _ _ E1), (bind_Ret _ _ _ _ _ E2).
  pose proof (bit_scan_ok (Z.to_nat BPB) (v (BBLOCK b0 sb)) 0 b0 (sb_size sb)) as Hscan.
  assert (forall j, 0 <= j < BPB -> used v sb (b0 + j) = negb (bit_free (v (BBLOCK b0 sb)) j)) as Hbit
    by (intros; apply bitmap_bit; lia).
  destruct (bit_scan (Z.to_nat BPB) (v (BBLOCK b0 sb)) 0 b0 (sb_size sb)) as [bi|].
  - destruct Hscan as (Hbi & Hs & Hfree & Hbefore). rewrite Z2Nat.id in Hbi by lia.
    assert (b0 + bi = b) as Heq.
    { destruct (Z.lt_trichotomy (b0 + bi) b) as [?|[?|?]]; [|done|].
      - specialize (Hlt (b0 + bi) ltac:(lia)). rewrite Hbit, Hfree in Hlt by lia. done.
      - specialize (Hbefore (b - b0) ltac:(lia)). specialize (Hbit (b - b0) ltac:(lia)).
        rewrite Hbefore in Hbit. replace (b0 + (b - b0)) with b in Hbit by lia. by rewrite Hbf in Hbit. }
    assert (BBLOCK b sb = BBLOCK b0 sb) as Hbb by (subst b; unfold BBLOCK; zlia).
    assert (b mod BPB = bi) as Hbm by (subst b; zlia).
    pose proof (bk_view_ok _ _ _ _ _ _ _ Hok Hhm) as Hvok.
    assert (size ({[BBLOCK b0 sb]} ∪ d) <= cap)%nat as Hc1.
    { etrans; [|exact Hcap]. rewrite Hbb. apply subseteq_size. set_solver. }
    destruct (bk_finish s1 v d h ∅ cap i (BBLOCK b0 sb) (mark_bit bi) Hok1 Hi Hnh) as
      (s2 & s3 & s4 & E3 & E4 & E5 & Hok4 & Hk4); try done; [auto with block|].
    destruct (bzero_ok s4 _ _ h cap b Hok4 Hdata) as (s5 & E6 & Hok5 & Hk5).
    { intros Hbh. apply Hheld in Hbh as [_ Hu]. congruence. }
    { lia. }
    { by rewrite Hbb in Hcap. }
    exists s5. rewrite (bind_Ret _ _ _ _ _ E3), (bind_Ret _ _ _ _ _ E4), (bind_Ret _ _ _ _ _ E5), Heq.
    rewrite (bind_Ret _ _ _ _ _ E6). split; [done|]. split; [by rewrite Hbb; unfold alloc_view; rewrite Hbb, Hbm|].
    intros j k Hk Hj. apply Hk5; [done|]. apply Hk4. by apply Hk1.
  - rewrite Z2Nat.id in Hscan by lia.
    assert (b0 + BPB <= b) as Hnext.
    { destruct (decide (b < b0 + BPB)); [|lia]. specialize (Hscan (b - b0) ltac:(lia) ltac:(lia)).
      specialize (Hbit (b - b0) ltac:(lia)). rewrite Hscan in Hbit.
      replace (b0 + (b - b0)) with b in Hbit by lia. by rewrite Hbf in Hbit. }
    destruct (bk_brelse_ok s1 v d _ ∅ cap i _ Hok1 Hi Hin) as (s2 & E3 & Hok2 & Hk2); [set_solver|].
    replace (({[BBLOCK b0 sb]} ∪ h) ∖ {[BBLOCK b0 sb]}) with h in Hok2 by set_solver.
    rewrite (bind_Ret _ _ _ _ _ E3).
    destruct (IH s2 (b0 + BPB) Hok2) as (s' & E & Hok' & Hk'); [lia | zlia | zlia | done |].
    exists s'. split_and!; try done. intros j k Hk Hj. apply Hk'; [done|]. by apply Hk2, Hk1.
Qed.

Lemma balloc_ok s v d h cap b :
  bk_ok s v d h ∅ cap -> held_ok v h -> (size h <= 2)%nat -> meta_used v sb -> first_free v sb b ->
  (size ({[b]} ∪ ({[BBLOCK b sb]} ∪ d)) <= cap)%nat ->
  exists s', balloc sb 1 s = Ret b s' /\
    bk_ok s' (alloc_view v sb b) ({[b]} ∪ ({[BBLOCK b sb]} ∪ d)) h ∅ cap /\
    (forall j k, k ∈ h -> bk_handle s j k -> bk_handle s' j k).
Proof using Hlay Hhome.
  intros Hok Hheld Hsz Hm Hff Hcap. destruct (Hff) as (Hb & _).
  apply balloc_loop_found; try done; [lia | rewrite Z2Nat.id; zlia].
Qed.

Lemma balloc_loop_full fuel s v d h cap b0 :
  bk_ok s v d h ∅ cap -> held_ok v h -> (size h <= 2)%nat ->
  (forall b, 0 <= b < sb_size sb -> used v sb b = true) ->
  0 <= b0 < sb_size sb + BPB -> b0 mod BPB = 0 -> (sb_size sb - b0) / BPB + 1 < Z.of_nat fuel ->
  balloc_loop sb fuel 1 b0 s = Panic "balloc: out of blocks".
Proof using Hlay Hhome.
  intros Hok Hheld Hsz Hall. revert s b0 Hok.
  induction fuel as [|fuel IH]; intros s b0 Hok Hb0 Hm Hfuel; [zlia|].
  cbn [balloc_loop]. destruct (Z.ltb_spec b0 (sb_size sb)); [|done].
  assert (BBLOCK b0 sb ∉ h) as Hnh by (apply (bitmap_not_held v); [done | lia]).
  destruct (bk_read s v d h ∅ cap (BBLOCK b0 sb) Hok) as (i & s1 & s2 & E1 & E2 & E3 & Hok2 & _);
    [apply bitmap_home; lia | done | set_solver | lia |].
  rewrite (bind_Ret _ _ _ _ _ E1), (bind_Ret _ _ _ _ _ E2).
  pose proof (bit_scan_ok (Z.to_nat BPB) (v (BBLOCK b0 sb)) 0 b0 (sb_size sb)) as Hscan.
  destruct (bit_scan (Z.to_nat BPB) (v (BBLOCK b0 sb)) 0 b0 (sb_size sb)) as [bi|].
  - destruct Hscan as (Hbi & Hs & Hfree & _). rewrite Z2Nat.id in Hbi by lia.
    specialize (Hall (b0 + bi) ltac:(lia)). rewrite bitmap_bit, Hfree in Hall by lia. done.
  - rewrite (bind_Ret _ _ _ _ _ E3). apply IH; [done | lia | zlia | zlia].
Qed.

Lemma bfree_ok s v d h cap b :
  bk_ok s v d h ∅ cap -> held_ok v h -> (size h <= 3)%nat -> 0 <= b < sb_size sb -> used v sb b = true ->
  (size ({[BBLOCK b sb]} ∪ d) <= cap)%nat ->
  exists s', bfree sb 1 b s = Ret tt s' /\ bk_ok s' (free_view v sb b) ({[BBLOCK b sb]} ∪ d) h ∅ cap /\
    (forall j k, k ∈ h -> bk_handle s j k -> bk_handle s' j k).
Proof using Hlay Hhome.
  intros Hok Hheld Hsz Hb Hu Hcap. pose proof (bitmap_home b Hb) as Hhm.
  pose proof (bk_view_ok _ _ _ _ _ _ _ Hok Hhm) as Hvok.
  destruct (bk_update s v d h ∅ cap (BBLOCK b sb) (clear_bit (b mod BPB)) Hok Hhm)
    as (i & s0 & s1 & s2 & s3 & E0 & E0' & E1 & E2 & E3 & Hok' & Hk);
    [by apply (bitmap_not_held v) | set_solver | done | auto with block | done |].
  exists s3. split_and!; try done. unfold bfree.
  rewrite (bind_Ret _ _ _ _ _ E0), (bind_Ret _ _ _ _ _ E0').
  unfold used in Hu. apply negb_true_iff in Hu. rewrite Hu. unfold panic_if.
  rewrite (bind_Ret _ _ s0 tt s0 eq_refl).
  by rewrite (bind_Ret _ _ _ _ _ E1), (bind_Ret _ _ _ _ _ E2).
Qed.

Lemma bfree_twice s v d h cap b :
  bk_ok s v d h ∅ cap -> held_ok v h -> (size h <= 3)%nat -> 0 <= b < sb_size sb -> used v sb b = false ->
  bfree sb 1 b s = Panic "freeing free block".
Proof using Hlay Hhome.
  intros Hok Hheld Hsz Hb Hu.
  destruct (bk_read s v d h ∅ cap (BBLOCK b sb) Hok (bitmap_home b Hb)) as (i & s1 & s2 & E1 & E2 & _);
    [by apply (bitmap_not_held v) | set_solver | done |].
  unfold bfree. rewrite (bind_Ret _ _ _ _ _ E1), (bind_Ret _ _ _ _ _ E2).
  unfold used in Hu. apply negb_false_iff in Hu. rewrite Hu. done.
Qed.

(** The block allocator.  With the metadata marked as in use, [balloc] gives
    the first block that is not, zeroed and marked, changes no other mark and no
    block but the one and its bitmap block, and panics when there is none;
    [bfree] of the block then returns every mark to what it was, and panics when
    it is called a second time. *)
Theorem balloc_takes_first_free s v d cap :
  bk_ok s v d ∅ ∅ cap -> meta_used v sb -> (size d + 2 <= cap)%nat ->
  (exists b s', first_free v sb b /\ is_data sb b /\ balloc sb 1 s = Ret b s' /\
     let v' := alloc_view v sb b in
     bk_ok s' v' ({[b]} ∪ ({[BBLOCK b sb]} ∪ d)) ∅ ∅ cap /\ v' b = replicate 512 0 /\
     (forall c, 0 <= c < sb_size sb -> used v' sb c = bool_decide (c = b) || used v sb c) /\
     (forall c, c <> b -> c <> BBLOCK b sb -> v' c = v c) /\
     exists s'', bfree sb 1 b s' = Ret tt s'' /\
       bk_ok s'' (free_view v' sb b) ({[b]} ∪ ({[BBLOCK b sb]} ∪ d)) ∅ ∅ cap /\
       (forall c, 0 <= c < sb_size sb -> used (free_view v' sb b) sb c = used v sb c) /\
       bfree sb 1 b s'' = Panic "freeing free block") \/
  ((forall b, 0 <= b < sb_size sb -> used v sb b = true) /\
   balloc sb 1 s = Panic "balloc: out of blocks").
Proof using Hlay Hhome.
  intros Hok Hm Hcap. assert (held_ok v ∅) as Hheld by (intros n Hn; set_solver).
  destruct (find_first (fun b => used v sb b) (sb_size sb)) as [(b & Hb & Hu & Hlt)|Hall].
  - left. assert (first_free v sb b) as Hff by exact (conj Hb (conj Hu Hlt)).
    pose proof (free_is_data v b Hm Hff) as Hdata.
    assert (size ({[b]} ∪ ({[BBLOCK b sb]} ∪ d)) <= cap)%nat as Hsz by (etrans; [apply size_add2 | lia]).
    destruct (balloc_ok s v d ∅ cap b Hok Hheld) as (s' & E & Hok' & _); try done; [rewrite size_empty; lia|].
    assert (block_ok (v (BBLOCK b sb))) as Hvok by (eapply bk_view_ok; [done | by apply bitmap_home]).
    assert (forall c, 0 <= c < sb_size sb -> used (alloc_view v sb b) sb c = bool_decide (c = b) || used v sb c) as Hu'.
    { intros c Hc. rewrite used_alloc; try done; [|destruct Hlay; zlia].
      destruct (decide (c = b)); [by rewrite bool_decide_true | by rewrite bool_decide_false]. }
    assert (held_ok (alloc_view v sb b) ∅) as Hheld' by (intros n Hn; set_solver).
    assert (used (alloc_view v sb b) sb b = true) as Hub by (rewrite Hu', bool_decide_true; done).
    assert ({[BBLOCK b sb]} ∪ ({[b]} ∪ ({[BBLOCK b sb]} ∪ d)) = {[b]} ∪ ({[BBLOCK b sb]} ∪ d)) as Hset by set_solver.
    destruct (bfree_ok s' _ _ ∅ cap b Hok' Hheld') as (s'' & E'' & Hok'' & _);
      [rewrite size_empty; lia | done | done | by rewrite Hset |]. rewrite Hset in Hok''.
    assert (block_ok (alloc_view v sb b (BBLOCK b sb))) as Hvok' by (eapply bk_view_ok; [done | by apply bitmap_home]).
    assert (forall c, 0 <= c < sb_size sb -> used (free_view (alloc_view v sb b) sb b) sb c = used v sb c) as Hu''.
    { intros c Hc. rewrite used_free by done. destruct (decide (c = b)) as [->|]; [by rewrite Hu|].
      rewrite Hu' by done. by rewrite bool_decide_false. }
    exists b, s'. split; [done|]. split; [done|]. split; [done|]. split; [done|]. split_and!; try done.
    + unfold alloc_view. by rewrite fn_lookup_insert.
    + intros c Hc1 Hc2. unfold alloc_view. rewrite fn_lookup_insert_ne by done. by rewrite fn_lookup_insert_ne.
    + exists s''. split_and!; try done. apply (bfree_twice s'' _ _ ∅ cap b Hok'');
        [intros n Hn; set_solver | rewrite size_empty; lia | done | by rewrite Hu''].
  - right. split; [done|]. destruct Hlay as (? & ? & ? & ?). unfold datastart in *.
    apply (balloc_loop_full _ s v d ∅ cap); try done; [rewrite size_empty; lia | zlia |].
    rewrite Z2Nat.id; zlia.
Qed.
End spec.

(** ** A small file system

    The layout of mkfs for 1000 blocks and 200 inodes, with a root directory
    (inode 1) that holds the entries "." and "..". *)
Definition demo_sb : superblock := Superblock 1000 941 200 30 2 32 58.
Definition demo_inodes : block :=
  replicate 64 0 ++ [1; 0; 0; 0; 0; 0; 1; 0; 32; 0; 0; 0; 59; 0; 0; 0] ++ replicate 432 0.
Definition demo_bitmap : block := replicate 7 255 ++ 15 :: replicate 504 0.
Definition demo_root : block :=
  [1; 0; 46] ++ replicate 13 0 ++ [1; 0; 46; 46] ++ replicate 12 0 ++ replicate 480 0.
Definition demo_view (n : Z) : block :=
  if n =? 32 then demo_inodes else if n =? 58 then demo_bitmap
  else if n =? 59 then demo_root else replicate 512 0.

Lemma demo_layout : layout demo_sb.
Proof. unfold layout, datastart. split_and!; by vm_compute. Qed.
Lemma demo_home b : sb_inodestart demo_sb <= b < sb_size demo_sb -> bk_home (BlockLaws := ideal_laws) b.
Proof. simpl. lia. Qed.
Lemma demo_block_ok n : block_ok (demo_view n).
Proof.
  unfold demo_view, block_ok.
  destruct (n =? 32), (n =? 58), (n =? 59); apply (bool_decide_unpack _); vm_compute; exact I.
Qed.

(** A test on a range of numbers, by computation. *)
Lemma forall_range (f : Z -> bool) n :
  forallb f (seqZ 0 n) = true -> forall b, 0 <= b < n -> f b = true.
Proof. rewrite forallb_forall. intros H b Hb. apply H, list_elem_of_In, elem_of_seqZ. lia. Qed.
Lemma demo_meta : meta_used demo_view demo_sb.
Proof. refine (forall_range (used demo_view demo_sb) (datastart demo_sb) _). vm_compute. reflexivity. Qed.
Lemma demo_ideal (d : gset Z) cap :
  (size d <= cap)%nat -> bk_ok (BlockLaws := ideal_laws) (Ideal demo_view) demo_view d ∅ ∅ cap.
Proof. intros. split_and!; [done | | done]. intros. apply demo_block_ok. Qed.

Lemma balloc_takes_first_free_witness :
  exists b s', balloc demo_sb 1 (Ideal demo_view) = Ret b s' /\ b = 60.
Proof.
  destruct (balloc_takes_first_free demo_sb demo_layout demo_home (Ideal demo_view) demo_view ∅ 10
    (demo_ideal ∅ 10 ltac:(rewrite size_empty; lia)) demo_meta ltac:(rewrite size_empty; lia))
    as [(b & s' & (Hb & Hf & Hlt) & _ & E & _)|[H _]].
  - exists b, s'. split; [exact E|].
    assert (used demo_view demo_sb 60 = false) as H60 by reflexivity.
    assert (forall c, 0 <= c < 60 -> used demo_view demo_sb c = true) as Hall
      by (refine (forall_range (used demo_view demo_sb) 60 _); vm_compute; reflexivity).
    destruct (Z.lt_trichotomy b 60) as [?|[?|?]]; [|done|].
    + rewrite Hall in Hf by lia. discriminate.
    + rewrite Hlt in H60 by lia. discriminate.
  - specialize (H 60 ltac:(simpl; lia)). discriminate.
Defined.
