(* ===== verification/Inode.v ===== *)
(** * Inodes (fs.c: the inode cache, bmap, itrunc, readi, writei)

    The state is the block store, the superblock read at boot, the inode cache
    and the memory that file data is copied to and from.  An inode pointer is
    an index into the cache.  A lock that is taken by somebody else is waited
    for; with nobody else to run this does not end. *)

From stdpp Require Import functions.
From S2P Require Import Prelude Mem Disk Bio Log Blocks Balloc.
#[local] Open Scope Z_scope.

Abbreviation NINODE := 50%nat.
Abbreviation NDIRECT := 12.
Abbreviation NINDIRECT := 128.
Abbreviation MAXFILE := 140.
Abbreviation IPB := 8.
Abbreviation NDEV := 10.
Abbreviation T_DIR := 1.
Abbreviation T_FILE := 2.
Abbreviation T_DEV := 3.

(** [struct inode] *)
Record inode := Inode {
  i_dev : Z;
  i_inum : Z;
  i_ref : Z;
  i_lock : sleeplock;
  i_valid : bool;
  i_type : Z;
  i_major : Z;
  i_minor : Z;
  i_nlink : Z;
  i_size : Z;
  i_addrs : list Z;
}.
Definition set_ref (r : Z) (x : inode) : inode :=
  Inode (i_dev x) (i_inum x) r (i_lock x) (i_valid x) (i_type x) (i_major x) (i_minor x) (i_nlink x)
    (i_size x) (i_addrs x).
Definition set_ilock (l : sleeplock) (x : inode) : inode :=
  Inode (i_dev x) (i_inum x) (i_ref x) l (i_valid x) (i_type x) (i_major x) (i_minor x) (i_nlink x)
    (i_size x) (i_addrs x).
Definition set_valid (b : bool) (x : inode) : inode :=
  Inode (i_dev x) (i_inum x) (i_ref x) (i_lock x) b (i_type x) (i_major x) (i_minor x) (i_nlink x)
    (i_size x) (i_addrs x).
Definition set_type (t : Z) (x : inode) : inode :=
  Inode (i_dev x) (i_inum x) (i_ref x) (i_lock x) (i_valid x) t (i_major x) (i_minor x) (i_nlink x)
    (i_size x) (i_addrs x).
Definition set_nlink (n : Z) (x : inode) : inode :=
  Inode (i_dev x) (i_inum x) (i_ref x) (i_lock x) (i_valid x) (i_type x) (i_major x) (i_minor x) n
    (i_size x) (i_addrs x).
Definition set_size (n : Z) (x : inode) : inode :=
  Inode (i_dev x) (i_inum x) (i_ref x) (i_lock x) (i_valid x) (i_type x) (i_major x) (i_minor x) (i_nlink x)
    n (i_addrs x).
Definition set_addrs (a : list Z) (x : inode) : inode :=
  Inode (i_dev x) (i_inum x) (i_ref x) (i_lock x) (i_valid x) (i_type x) (i_major x) (i_minor x) (i_nlink x)
    (i_size x) a.
Definition set_addr (i : nat) (b : Z) (x : inode) : inode := set_addrs (<[i := b]> (i_addrs x)) x.
Definition addr_of (x : inode) (i : nat) : Z := default 0 (i_addrs x !! i).

(** ** The inode on the disk *)

Definition s16 (x : Z) : Z := let y := u16 x in if y <? 32768 then y else y - 65536.
Definition get16 (d : block) (off : nat) : Z := s16 (get8 d off + 256 * get8 d (off + 1)).
Definition put16 (d : block) (off : nat) (w : Z) : block :=
  <[off := byte_of w 0]> (<[(off + 1)%nat := byte_of w 1]> d).

Definition IBLOCK (i : Z) (sb : superblock) : Z := i / IPB + sb_inodestart sb.
(** [(struct dinode* )bp->data + inum%IPB], as an offset. *)
Definition dino_off (inum : Z) : nat := (64 * Z.to_nat (inum mod IPB))%nat.

Fixpoint put_addrs (d : block) (off : nat) (a : list Z) : block :=
  match a with
  | [] => d
  | b :: a => put_addrs (put32 d off b) (off + 4) a
  end.
Definition get_addrs (d : block) (off : nat) : list Z :=
  (fun i => get32 d (off + 4 * i)) <$> seq 0 13.

(** The stores of [iupdate] and the loads of [ilock]. *)
Definition put_dinode (off : nat) (x : inode) (d : block) : block :=
  put_addrs (put32 (put16 (put16 (put16 (put16 d off (i_type x)) (off + 2) (i_major x))
    (off + 4) (i_minor x)) (off + 6) (i_nlink x)) (off + 8) (i_size x)) (off + 12) (i_addrs x).
Definition get_dinode (off : nat) (d : block) (x : inode) : inode :=
  Inode (i_dev x) (i_inum x) (i_ref x) (i_lock x) (i_valid x) (get16 d off) (get16 d (off + 2))
    (get16 d (off + 4)) (get16 d (off + 6)) (get32 d (off + 8)) (get_addrs d (off + 12)).
(** [memset(dip, 0, sizeof( *dip))] *)
Definition zero_dinode (off : nat) (d : block) : block :=
  take off d ++ replicate 64 0 ++ drop (off + 64) d.

(** ** State *)

Record fsys (S : Type) := FSt {
  fs_blk : S;
  fs_sb : superblock;
  fs_ic : list inode;        (* icache.inode[NINODE] *)
  fs_mem : mem;
}.
Arguments FSt {S} fs_blk fs_sb fs_ic fs_mem.
Arguments fs_blk {S} _.
Arguments fs_sb {S} _.
Arguments fs_ic {S} _.
Arguments fs_mem {S} _.
Definition set_blk {S} (b : S) (st : fsys S) : fsys S := FSt b (fs_sb st) (fs_ic st) (fs_mem st).
Definition set_ic {S} (l : list inode) (st : fsys S) : fsys S := FSt (fs_blk st) (fs_sb st) l (fs_mem st).
Definition set_fmem {S} (m : mem) (st : fsys S) : fsys S := FSt (fs_blk st) (fs_sb st) (fs_ic st) m.

Definition no_inode : inode := Inode 0 0 0 initsleeplock false 0 0 0 0 0 (replicate 13 0).

Section inode.
Context {S : Type} `{!BlockOps S}.
(** The process that runs the code. *)
Context (pid : Z).

Definition blk {A} (m : M S A) : M (fsys S) A := zoom fs_blk set_blk m.
Definition sblock : M (fsys S) superblock := gets fs_sb.
Definition ino (ip : nat) : M (fsys S) inode := gets (fun st => default no_inode (fs_ic st !! ip)).
Definition upd_ino (ip : nat) (f : inode -> inode) : M (fsys S) unit :=
  modify (fun st => set_ic (alter f ip (fs_ic st)) st).

(** [iinit]: the locks and the superblock. *)
Definition iinit (dev : Z) : M (fsys S) unit :=
  modify (fun st => set_ic (set_ilock initsleeplock <$> fs_ic st) st) ;;;
  bp <- blk (bk_bread dev 1) ;;
  d <- blk (bk_data bp) ;;
  blk (bk_brelse bp) ;;;
  modify (fun st => FSt (fs_blk st)
    (Superblock (get32 d 0) (get32 d 4) (get32 d 8) (get32 d 12) (get32 d 16) (get32 d 20) (get32 d 24))
    (fs_ic st) (fs_mem st)).

(** *** The cache *)

(** The scan of [iget]: the entry for the inode, or the first unused one. *)
Fixpoint iget_scan (l : list inode) (i : nat) (empty : option nat) (dev inum : Z) : nat + option nat :=
  match l with
  | [] => inr empty
  | x :: l =>
      if (0 <? i_ref x) && (i_dev x =? dev) && (i_inum x =? inum) then inl i
      else iget_scan l (i + 1)
             (match empty with
              | None => if i_ref x =? 0 then Some i else None
              | Some e => Some e
              end) dev inum
  end.
Definition iget (dev inum : Z) : M (fsys S) nat :=
  l <- gets fs_ic ;;
  match iget_scan l 0 None dev inum with
  | inl ip => upd_ino ip (fun x => set_ref (i_ref x + 1) x) ;;; ret ip
  | inr None => panic "iget: no inodes"
  | inr (Some ip) =>
      upd_ino ip (fun x => Inode dev inum 1 (i_lock x) false (i_type x) (i_major x) (i_minor x)
                             (i_nlink x) (i_size x) (i_addrs x)) ;;;
      ret ip
  end.
Definition idup (ip : nat) : M (fsys S) nat :=
  upd_ino ip (fun x => set_ref (i_ref x + 1) x) ;;; ret ip.

(** [for(inum = 1; inum < sb.ninodes; inum++)] with [k] numbers left. *)
Fixpoint ialloc_loop (k : nat) (dev type inum : Z) : M (fsys S) nat :=
  match k with
  | O => panic "ialloc: no inodes"
  | Datatypes.S k =>
      sb <- sblock ;;
      bp <- blk (bk_bread dev (IBLOCK inum sb)) ;;
      d <- blk (bk_data bp) ;;
      let off := dino_off inum in
      if get16 d off =? 0 then
        blk (bk_modify bp (fun d => put16 (zero_dinode off d) off type)) ;;;
        blk (bk_log_write bp) ;;;
        blk (bk_brelse bp) ;;;
        iget dev inum
      else blk (bk_brelse bp) ;;; ialloc_loop k dev type (inum + 1)
  end.
Definition ialloc (dev type : Z) : M (fsys S) nat :=
  sb <- sblock ;; ialloc_loop (Z.to_nat (sb_ninodes sb - 1)) dev type 1.

Definition iupdate (ip : nat) : M (fsys S) unit :=
  sb <- sblock ;; x <- ino ip ;;
  bp <- blk (bk_bread (i_dev x) (IBLOCK (i_inum x) sb)) ;;
  blk (bk_modify bp (put_dinode (dino_off (i_inum x)) x)) ;;;
  blk (bk_log_write bp) ;;;
  blk (bk_brelse bp).

Definition ilock (ip : option nat) : M (fsys S) unit :=
  match ip with
  | None => panic "ilock"
  | Some ip =>
      x <- ino ip ;;
      panic_if (i_ref x <? 1) "ilock" ;;;
      lk <- acquiresleep pid (i_lock x) ;;
      upd_ino ip (set_ilock lk) ;;;
      if i_valid x then ret tt
      else
        sb <- sblock ;;
        bp <- blk (bk_bread (i_dev x) (IBLOCK (i_inum x) sb)) ;;
        d <- blk (bk_data bp) ;;
        upd_ino ip (get_dinode (dino_off (i_inum x)) d) ;;;
        blk (bk_brelse bp) ;;;
        upd_ino ip (set_valid true) ;;;
        y <- ino ip ;;
        panic_if (i_type y =? 0) "ilock: no type"
  end.

Definition iunlock (ip : option nat) : M (fsys S) unit :=
  match ip with
  | None => panic "iunlock"
  | Some ip =>
      x <- ino ip ;;
      panic_if (negb (holdingsleep pid (i_lock x)) || (i_ref x <? 1)) "iunlock" ;;;
      upd_ino ip (fun x => set_ilock (releasesleep (i_lock x)) x)
  end.

(** *** Blocks of a file *)

(** [if((addr = ip->addrs[i]) == 0) ip->addrs[i] = addr = balloc(ip->dev);] *)
Definition bmap_addr (ip i : nat) : M (fsys S) Z :=
  x <- ino ip ;; sb <- sblock ;;
  let addr := addr_of x i in
  if addr =? 0 then
    addr <- blk (balloc sb (i_dev x)) ;;
    upd_ino ip (set_addr i addr) ;;;
    ret addr
  else ret addr.
(** Entry [bn] of the indirect block [addr]. *)
Definition bmap_entry (dev addr bn : Z) : M (fsys S) Z :=
  sb <- sblock ;;
  bp <- blk (bk_bread dev addr) ;;
  d <- blk (bk_data bp) ;;
  let off := (4 * Z.to_nat bn)%nat in
  addr <- (if get32 d off =? 0 then
             addr <- blk (balloc sb dev) ;;
             blk (bk_modify bp (fun d => put32 d off addr)) ;;;
             blk (bk_log_write bp) ;;;
             ret addr
           else ret (get32 d off)) ;;
  blk (bk_brelse bp) ;;;
  ret addr.
Definition bmap (ip : nat) (bn : Z) : M (fsys S) Z :=
  if bn <? NDIRECT then bmap_addr ip (Z.to_nat bn)
  else
    let bn := bn - NDIRECT in
    if bn <? NINDIRECT then
      x <- ino ip ;;
      addr <- bmap_addr ip 12 ;;
      bmap_entry (i_dev x) addr bn
    else panic "bmap: out of range".

(** The two loops of [itrunc]. *)
Fixpoint itrunc_direct (k : nat) (ip : nat) (i : nat) : M (fsys S) unit :=
  match k with
  | O => ret tt
  | Datatypes.S k =>
      x <- ino ip ;; sb <- sblock ;;
      (if addr_of x i =? 0 then ret tt
       else blk (bfree sb (i_dev x) (addr_of x i)) ;;; upd_ino ip (set_addr i 0)) ;;;
      itrunc_direct k ip (i + 1)
  end.
Fixpoint itrunc_indirect (k : nat) (dev : Z) (bp : nat) (j : nat) : M (fsys S) unit :=
  match k with
  | O => ret tt
  | Datatypes.S k =>
      sb <- sblock ;; d <- blk (bk_data bp) ;;
      (if get32 d (4 * j) =? 0 then ret tt else blk (bfree sb dev (get32 d (4 * j)))) ;;;
      itrunc_indirect k dev bp (j + 1)
  end.
Definition itrunc (ip : nat) : M (fsys S) unit :=
  itrunc_direct 12 ip 0 ;;;
  x <- ino ip ;; sb <- sblock ;;
  (if addr_of x 12 =? 0 then ret tt
   else
     bp <- blk (bk_bread (i_dev x) (addr_of x 12)) ;;
     itrunc_indirect 128 (i_dev x) bp 0 ;;;
     blk (bk_brelse bp) ;;;
     blk (bfree sb (i_dev x) (addr_of x 12)) ;;;
     upd_ino ip (set_addr 12 0)) ;;;
  upd_ino ip (set_size 0) ;;;
  iupdate ip.

Definition iput (ip : nat) : M (fsys S) unit :=
  x <- ino ip ;;
  lk <- acquiresleep pid (i_lock x) ;;
  upd_ino ip (set_ilock lk) ;;;
  (if i_valid x && (i_nlink x =? 0) && (i_ref x =? 1) then
     itrunc ip ;;;
     upd_ino ip (set_type 0) ;;;
     iupdate ip ;;;
     upd_ino ip (set_valid false)
   else ret tt) ;;;
  upd_ino ip (fun x => set_ilock (releasesleep (i_lock x)) x) ;;;
  upd_ino ip (fun x => set_ref (i_ref x - 1) x).

Definition iunlockput (ip : nat) : M (fsys S) unit := iunlock (Some ip) ;;; iput ip.

(** *** Contents *)

(** [struct stat] in memory: type, dev, ino, nlink, size. *)
Definition stati (ip : nat) (st : Z) : M (fsys S) unit :=
  x <- ino ip ;;
  modify (fun s => set_fmem (st32 (st16 (st32 (st32 (st16 (fs_mem s)
    st (i_type x)) (st + 4) (i_dev x)) (st + 8) (i_inum x)) (st + 12) (i_nlink x)) (st + 16) (i_size x)) s).

(** devsw[]: the read and write functions of the devices, by major number. *)
Context (devread devwrite : Z -> option (nat -> Z -> Z -> M (fsys S) Z)).
Definition dev_call (tab : Z -> option (nat -> Z -> Z -> M (fsys S) Z)) (ip : nat) (major p n : Z)
  : M (fsys S) Z :=
  if (major <? 0) || (NDEV <=? major) then ret (-1)
  else match tab major with
       | None => ret (-1)
       | Some f => f ip p n
       end.

(** [min(n - tot, BSIZE - off%BSIZE)] *)
Definition chunk (left off : Z) : Z := Z.min left (BSIZE - off mod BSIZE).

(** [for(tot=0; tot<n; tot+=m, off+=m, dst+=m)] with fuel for the blocks. *)
Fixpoint readi_loop (fuel : nat) (ip : nat) (dst off left : Z) : M (fsys S) unit :=
  match fuel with
  | O => diverge
  | Datatypes.S fuel =>
      if 0 <? left then
        x <- ino ip ;;
        b <- bmap ip (off / BSIZE) ;;
        bp <- blk (bk_bread (i_dev x) b) ;;
        d <- blk (bk_data bp) ;;
        let m := chunk left off in
        modify (fun s => set_fmem (copy_to (fs_mem s) dst
                           (take (Z.to_nat m) (drop (Z.to_nat (off mod BSIZE)) d))) s) ;;;
        blk (bk_brelse bp) ;;;
        readi_loop fuel ip (dst + m) (off + m) (left - m)
      else ret tt
  end.
Definition readi (ip : nat) (dst off n : Z) : M (fsys S) Z :=
  x <- ino ip ;;
  if i_type x =? T_DEV then dev_call devread ip (i_major x) dst n
  else if (i_size x <? off) || (u32 (off + n) <? off) then ret (-1)
  else
    let n := if i_size x <? u32 (off + n) then i_size x - off else n in
    readi_loop (Z.to_nat (n / BSIZE + 3)) ip dst off n ;;;
    ret (s32 n).

(** [memmove(bp->data + o, src, m)] *)
Definition splice (o : nat) (l : list Z) (d : block) : block := take o d ++ l ++ drop (o + length l) d.

Fixpoint writei_loop (fuel : nat) (ip : nat) (src off left : Z) : M (fsys S) unit :=
  match fuel with
  | O => diverge
  | Datatypes.S fuel =>
      if 0 <? left then
        x <- ino ip ;;
        b <- bmap ip (off / BSIZE) ;;
        bp <- blk (bk_bread (i_dev x) b) ;;
        let m := chunk left off in
        mm <- gets fs_mem ;;
        blk (bk_modify bp (splice (Z.to_nat (off mod BSIZE)) (bytes_at mm src (Z.to_nat m)))) ;;;
        blk (bk_log_write bp) ;;;
        blk (bk_brelse bp) ;;;
        writei_loop fuel ip (src + m) (off + m) (left - m)
      else ret tt
  end.
Definition writei (ip : nat) (src off n : Z) : M (fsys S) Z :=
  x <- ino ip ;;
  if i_type x =? T_DEV then dev_call devwrite ip (i_major x) src n
  else if (i_size x <? off) || (u32 (off + n) <? off) then ret (-1)
  else if MAXFILE * BSIZE <? u32 (off + n) then ret (-1)
  else
    writei_loop (Z.to_nat (n / BSIZE + 3)) ip src off n ;;;
    (if (0 <? n) && (i_size x <? off + n) then
       upd_ino ip (set_size (off + n)) ;;; iupdate ip
     else ret tt) ;;;
    ret (s32 n).
End inode.
