(* ===== verification/Dinode.v ===== *)
(** * The inode on the disk

    [iupdate] stores the fields of an inode into its slot of the inode block and
    [ilock] loads them: the slot gives back what was stored, and storing one
    slot leaves the other seven of the block as they are. *)

From stdpp Require Import functions.
From S2P Require Import Prelude Mem Disk Bio Log Blocks Balloc Inode.
#[local] Open Scope Z_scope.

Lemma s16_u16 w : -32768 <= w < 32768 -> s16 (byte_of w 0 + 256 * byte_of w 1) = w.
Proof.
  intros H. rewrite !byte_of_pow by lia. change (2 ^ (8 * 0)) with 1. change (2 ^ (8 * 1)) with 256.
  unfold s16, u16. destruct (Z.ltb_spec ((w / 1 mod 256 + 256 * (w / 256 mod 256)) mod 65536) 32768); zlia.
Qed.

Lemma length_put16 d off w : length (put16 d off w) = length d.
Proof. unfold put16. by rewrite !length_insert. Qed.
Lemma length_put_addrs d off a : length (put_addrs d off a) = length d.
Proof. revert d off. induction a as [|b a IH]; intros d off; simpl; [done|]. by rewrite IH, length_put32. Qed.

Lemma get8_put16 d off w i :
  (off + 2 <= length d)%nat ->
  get8 (put16 d off w) i = if decide (off <= i < off + 2)%nat then byte_of w (Z.of_nat (i - off)) else get8 d i.
Proof.
  intros Hl. unfold get8, put16. case_decide as Hi.
  - assert (i = off \/ i = off + 1)%nat as [-> | ->] by lia.
    + rewrite list_lookup_insert_eq by (rewrite length_insert; lia). simpl. f_equal. lia.
    + rewrite list_lookup_insert_ne by lia. rewrite list_lookup_insert_eq by lia. simpl. f_equal. lia.
  - by rewrite !list_lookup_insert_ne by lia.
Qed.

(** Fields only depend on their bytes. *)
Lemma get16_ext d d' off : (forall i, (off <= i < off + 2)%nat -> get8 d i = get8 d' i) -> get16 d off = get16 d' off.
Proof. intros H. unfold get16. rewrite !H by lia. done. Qed.
Lemma get32_ext d d' off : (forall i, (off <= i < off + 4)%nat -> get8 d i = get8 d' i) -> get32 d off = get32 d' off.
Proof. intros H. unfold get32. rewrite !H by lia. done. Qed.

Lemma get16_put16 d off w :
  (off + 2 <= length d)%nat -> -32768 <= w < 32768 -> get16 (put16 d off w) off = w.
Proof.
  intros Hl Hw. unfold get16. rewrite !get8_put16 by done. rewrite !decide_True by lia.
  replace (Z.of_nat (off - off)) with 0 by lia. replace (Z.of_nat (off + 1 - off)) with 1 by lia.
  by apply s16_u16.
Qed.

Lemma get8_put_addrs d off a i :
  (off + 4 * length a <= length d)%nat -> (i < off \/ off + 4 * length a <= i)%nat ->
  get8 (put_addrs d off a) i = get8 d i.
Proof.
  revert d off. induction a as [|b a IH]; intros d off Hl Hi; simpl in *; [done|].
  rewrite IH by (rewrite ?length_put32; lia). rewrite get8_put32 by lia. by rewrite decide_False by lia.
Qed.
Lemma get32_put_addrs d off a k :
  (off + 4 * length a <= length d)%nat -> (k < length a)%nat -> Forall (fun b => 0 <= b < W32) a ->
  get32 (put_addrs d off a) (off + 4 * k) = default 0 (a !! k).
Proof.
  revert d off k. induction a as [|b a IH]; intros d off k Hl Hk Hf; cbn [length put_addrs] in *; [lia|].
  apply Forall_cons in Hf as [Hb Hf]. destruct k as [|k].
  - rewrite Nat.mul_0_r, Nat.add_0_r. simpl. rewrite (get32_ext _ (put32 d off b)).
    + apply get32_put32_eq; [lia | done].
    + intros i Hi. apply get8_put_addrs; [rewrite length_put32; lia | lia].
  - replace (off + 4 * Datatypes.S k)%nat with (off + 4 + 4 * k)%nat by lia.
    apply IH; [rewrite length_put32; lia | lia | done].
Qed.

(** The fields are in the range of their types. *)
Definition is_short (w : Z) : Prop := -32768 <= w < 32768.
Definition inode_wf (x : inode) : Prop :=
  is_short (i_type x) /\ is_short (i_major x) /\ is_short (i_minor x) /\ is_short (i_nlink x) /\
  0 <= i_size x < W32 /\ length (i_addrs x) = 13%nat /\ Forall (fun b => 0 <= b < W32) (i_addrs x).

Lemma length_put_dinode off x d : length (put_dinode off x d) = length d.
Proof. unfold put_dinode. by rewrite length_put_addrs, length_put32, !length_put16. Qed.

Lemma get8_put_dinode off x d i :
  (off + 64 <= length d)%nat -> length (i_addrs x) = 13%nat -> (i < off \/ off + 64 <= i)%nat ->
  get8 (put_dinode off x d) i = get8 d i.
Proof.
  intros Hl Ha Hi. unfold put_dinode. rewrite get8_put_addrs by (rewrite ?length_put32, ?length_put16; lia).
  rewrite get8_put32 by (rewrite ?length_put16; lia). rewrite decide_False by lia.
  repeat (rewrite get8_put16 by (rewrite ?length_put16; lia); rewrite decide_False by lia). done.
Qed.

Lemma put16_ok d off w : block_ok d -> block_ok (put16 d off w).
Proof.
  intros [Hl Hf]. unfold put16. split; [by rewrite !length_insert|].
  repeat apply Forall_insert; try done; apply byte_of_range.
Qed.
Lemma put_addrs_ok d off a : block_ok d -> block_ok (put_addrs d off a).
Proof. revert d off. induction a; intros d off H; simpl; [done|]. by apply IHa, put32_ok. Qed.
Lemma put_dinode_ok off x d : block_ok d -> block_ok (put_dinode off x d).
Proof. intros H. unfold put_dinode. by apply put_addrs_ok, put32_ok, put16_ok, put16_ok, put16_ok, put16_ok. Qed.
Lemma zero_dinode_ok off d : block_ok d -> (off + 64 <= 512)%nat -> block_ok (zero_dinode off d).
Proof.
  intros [Hl Hf] Ho. unfold zero_dinode. split.
  - rewrite !length_app, length_take, length_replicate, length_drop, Hl. lia.
  - apply Forall_app; split; [by apply Forall_take|]. apply Forall_app; split; [|by apply Forall_drop].
    apply Forall_replicate. lia.
Qed.
#[export] Hint Resolve put16_ok put_addrs_ok put_dinode_ok : block.

(** The round trip. *)
Lemma get_put_dinode off x d :
  (off + 64 <= length d)%nat -> inode_wf x -> get_dinode off (put_dinode off x d) x = x.
Proof.
  intros Hl (Ht & Hma & Hmi & Hnl & Hs & Ha & Hf). unfold get_dinode.
  set (d1 := put16 d off (i_type x)). set (d2 := put16 d1 (off + 2) (i_major x)).
  set (d3 := put16 d2 (off + 4) (i_minor x)). set (d4 := put16 d3 (off + 6) (i_nlink x)).
  set (d5 := put32 d4 (off + 8) (i_size x)).
  assert (length d1 = length d) as L1 by apply length_put16.
  assert (length d2 = length d) as L2 by (by unfold d2; rewrite length_put16).
  assert (length d3 = length d) as L3 by (by unfold d3; rewrite length_put16).
  assert (length d4 = length d) as L4 by (by unfold d4; rewrite length_put16).
  assert (length d5 = length d) as L5 by (by unfold d5; rewrite length_put32).
  assert (forall i, (i < off + 12)%nat -> get8 (put_dinode off x d) i = get8 d5 i) as H5
    by (intros i Hi; apply get8_put_addrs; lia).
  assert (forall i, (i < off + 8)%nat -> get8 (put_dinode off x d) i = get8 d4 i) as H4.
  { intros i Hi. rewrite H5 by lia. unfold d5. rewrite get8_put32 by lia. by rewrite decide_False by lia. }
  assert (forall i, (i < off + 6)%nat -> get8 (put_dinode off x d) i = get8 d3 i) as H3.
  { intros i Hi. rewrite H4 by lia. unfold d4. rewrite get8_put16 by lia. by rewrite decide_False by lia. }
  assert (forall i, (i < off + 4)%nat -> get8 (put_dinode off x d) i = get8 d2 i) as H2.
  { intros i Hi. rewrite H3 by lia. unfold d3. rewrite get8_put16 by lia. by rewrite decide_False by lia. }
  assert (forall i, (i < off + 2)%nat -> get8 (put_dinode off x d) i = get8 d1 i) as H1.
  { intros i Hi. rewrite H2 by lia. unfold d2. rewrite get8_put16 by lia. by rewrite decide_False by lia. }
  rewrite (get16_ext _ d1 off), (get16_ext _ d2 (off + 2)), (get16_ext _ d3 (off + 4)),
    (get16_ext _ d4 (off + 6)), (get32_ext _ d5 (off + 8))
    by (intros i Hi; by (apply H1 || apply H2 || apply H3 || apply H4 || apply H5); lia).
  unfold d1, d2, d3, d4, d5. rewrite !get16_put16, get32_put32_eq by (rewrite ?L1, ?L2, ?L3, ?L4; done || lia).
  assert (get_addrs (put_dinode off x d) (off + 12) = i_addrs x) as ->; [|by destruct x].
  apply list_eq_same_length with 13%nat; [done | by unfold get_addrs; rewrite length_fmap, length_seq |].
  intros k a b Hk. unfold get_addrs. rewrite list_lookup_fmap, lookup_seq_lt, Nat.add_0_l by done. intros Hak Hb. injection Hak as <-.
  unfold put_dinode. fold d1 d2 d3 d4 d5. replace (k + (k + (k + (k + 0))))%nat with (4 * k)%nat by lia.
  rewrite get32_put_addrs by (done || lia). by rewrite Hb.
Qed.

(** Other slots. *)
Lemma get_put_dinode_ne off off' x y d :
  (off + 64 <= length d)%nat -> length (i_addrs x) = 13%nat -> (off' + 64 <= off \/ off + 64 <= off')%nat ->
  get_dinode off' (put_dinode off x d) y = get_dinode off' d y.
Proof.
  intros Hl Ha Ho. unfold get_dinode.
  assert (forall i, (off' <= i < off' + 64)%nat -> get8 (put_dinode off x d) i = get8 d i) as H
    by (intros i Hi; apply get8_put_dinode; try done; lia).
  rewrite !(get16_ext (put_dinode off x d) d), (get32_ext (put_dinode off x d) d) by (intros; apply H; lia).
  f_equal. unfold get_addrs. apply list_fmap_ext. intros i k Hk. apply lookup_seq in Hk as [-> Hi].
  apply get32_ext. intros. apply H. lia.
Qed.
