(* ===== verification/InodeData.v ===== *)
(** * File contents (bmap, readi, writei, itrunc)

    A file is a sequence of bytes: byte [p] is byte [p mod 512] of the block that
    the inode's addresses give for number [p / 512].  [tree_ok] says that the
    addresses of an inode form a tree of data blocks, all marked in the bitmap
    and all different.  The theorems are proved against the block interface of
    Blocks.v, with the count of the blocks that an operation logs. *)

From stdpp Require Import functions.
From S2P Require Import Prelude Mem Disk Bio Log Blocks Balloc Inode.
#[local] Open Scope Z_scope.

(** ** The tree of an inode *)

Definition a12 (a : list Z) : Z := default 0 (a !! 12%nat).

(** The address of block [bn] of the file, 0 when it has none. *)
Definition baddr (v : Z -> block) (a : list Z) (bn : Z) : Z :=
  if bn <? NDIRECT then default 0 (a !! Z.to_nat bn)
  else if a12 a =? 0 then 0
  else get32 (v (a12 a)) (4 * Z.to_nat (bn - NDIRECT)).

Definition tree_ok (v : Z -> block) (sb : superblock) (a : list Z) : Prop :=
  length a = 13%nat /\
  (forall bn, 0 <= bn < MAXFILE -> baddr v a bn <> 0 ->
     is_data sb (baddr v a bn) /\ used v sb (baddr v a bn) = true) /\
  (a12 a <> 0 -> is_data sb (a12 a) /\ used v sb (a12 a) = true /\
     forall bn, 0 <= bn < MAXFILE -> baddr v a bn <> a12 a) /\
  (forall bn bn', 0 <= bn < MAXFILE -> 0 <= bn' < MAXFILE ->
     baddr v a bn = baddr v a bn' -> baddr v a bn <> 0 -> bn = bn').

(** The block is one of the tree's. *)
Definition owns (v : Z -> block) (a : list Z) (b : Z) : Prop :=
  b <> 0 /\ (a12 a = b \/ exists bn, 0 <= bn < MAXFILE /\ baddr v a bn = b).

(** Byte [p] of the file. *)
Definition fbyte (v : Z -> block) (a : list Z) (p : Z) : Z :=
  get8 (v (baddr v a (p / BSIZE))) (Z.to_nat (p mod BSIZE)).

Lemma is_data_pos sb b : layout sb -> is_data sb b -> b <> 0.
Proof. unfold layout, is_data, datastart. intros (? & ? & ? & ?) [? ?]. zlia. Qed.

(** The tree only depends on the indirect block. *)
Lemma baddr_ext v v' a bn : (a12 a <> 0 -> v' (a12 a) = v (a12 a)) -> baddr v' a bn = baddr v a bn.
Proof.
  intros H. unfold baddr. destruct (bn <? NDIRECT); [done|].
  destruct (Z.eqb_spec (a12 a) 0); [done|]. by rewrite H.
Qed.
Lemma tree_ok_ext v v' sb a :
  (a12 a <> 0 -> v' (a12 a) = v (a12 a)) ->
  (forall b, is_data sb b -> used v sb b = true -> used v' sb b = true) ->
  tree_ok v sb a -> tree_ok v' sb a.
Proof.
  intros Hi Hu (Hl & Hb & Ha & Hinj). unfold tree_ok.
  split; [done|]. setoid_rewrite (fun bn => baddr_ext v v' a bn Hi). split_and!; [|intros H; split_and!|done].
  - intros bn Hbn H. destruct (Hb bn Hbn H). auto.
  - by apply Ha.
  - destruct (Ha H) as (? & ? & _). auto.
  - by apply Ha.
Qed.

(** ** Counting *)

Definition free_set (v : Z -> block) (sb : superblock) : gset Z :=
  list_to_set (filter (fun b => used v sb b = false) (seqZ 0 (sb_size sb))).
Definition nfree (v : Z -> block) (sb : superblock) : nat := size (free_set v sb).

Lemma elem_of_free_set v sb b : b ∈ free_set v sb <-> 0 <= b < sb_size sb /\ used v sb b = false.
Proof. unfold free_set. rewrite elem_of_list_to_set, list_elem_of_filter, elem_of_seqZ. rewrite Z.add_0_l. tauto. Qed.

Lemma nfree_first v sb : (0 < nfree v sb)%nat -> exists b, first_free v sb b.
Proof.
  intros H. destruct (find_first (used v sb) (sb_size sb)) as [(b & ?)|Hall]; [by exists b|].
  assert (free_set v sb = ∅) as E.
  { apply set_eq. intros b. rewrite elem_of_free_set. split; [|set_solver].
    intros [Hb Hf]. rewrite Hall in Hf by done. done. }
  unfold nfree in H. rewrite E, size_empty in H. lia.
Qed.

(** The bitmap blocks, and the room a file operation needs in the transaction:
    the logged blocks, the bitmap, and the indirect block it has or may get. *)
Definition bmaps (sb : superblock) : gset Z := list_to_set (seqZ (sb_bmapstart sb) (sb_size sb / BPB + 1)).
Definition ind_set (a : list Z) : gset Z := if a12 a =? 0 then ∅ else {[a12 a]}.
Definition room (sb : superblock) (d : gset Z) (a : list Z) : nat :=
  (size (d ∪ bmaps sb ∪ ind_set a) + (if (a12 a =? 0)%Z then 1 else 0))%nat.

Lemma BBLOCK_bmaps sb b : 0 <= b < sb_size sb -> BBLOCK b sb ∈ bmaps sb.
Proof. intros Hb. unfold bmaps, BBLOCK. rewrite elem_of_list_to_set, elem_of_seqZ. zlia. Qed.

Lemma size_add (x : Z) (X Y : gset Z) : Y ⊆ {[x]} ∪ X -> (size Y <= size X + 1)%nat.
Proof. intros H. etrans; [by apply subseteq_size|]. apply size_add1. Qed.

(** One block more than before, and possibly an indirect block. *)
Lemma room_grow sb d d' a a' b :
  d' ⊆ {[b]} ∪ (d ∪ bmaps sb ∪ ind_set a') -> (a12 a <> 0 -> a12 a' = a12 a) ->
  (room sb d' a' <= room sb d a + 1)%nat.
Proof.
  intros Hd Ha. unfold room, ind_set in *.
  destruct (Z.eqb_spec (a12 a) 0) as [E|E].
  - destruct (Z.eqb_spec (a12 a') 0) as [E'|E'].
    + pose proof (size_add b (d ∪ bmaps sb ∪ ∅) (d' ∪ bmaps sb ∪ ∅) ltac:(set_solver)). lia.
    + pose proof (size_add b (d ∪ bmaps sb ∪ {[a12 a']}) (d' ∪ bmaps sb ∪ {[a12 a']}) ltac:(set_solver)).
      pose proof (size_add (a12 a') (d ∪ bmaps sb ∪ ∅) (d ∪ bmaps sb ∪ {[a12 a']}) ltac:(set_solver)). lia.
  - rewrite (Ha E) in *. destruct (Z.eqb_spec (a12 a) 0); [done|].
    pose proof (size_add b (d ∪ bmaps sb ∪ {[a12 a]}) (d' ∪ bmaps sb ∪ {[a12 a]}) ltac:(set_solver)). lia.
Qed.
Lemma room_fits sb d d' a a' b cap :
  (room sb d a + 1 <= cap)%nat -> d' ⊆ {[b]} ∪ (d ∪ bmaps sb ∪ ind_set a') ->
  (a12 a <> 0 -> a12 a' = a12 a) -> (size d' <= cap)%nat.
Proof.
  intros Hc Hd Ha. pose proof (room_grow sb d d' a a' b Hd Ha) as H. unfold room in *.
  assert (size d' <= size (d' ∪ bmaps sb ∪ ind_set a'))%nat by (apply subseteq_size; set_solver). lia.
Qed.

Lemma room_alloc sb d a cap b :
  (room sb d a + 1 <= cap)%nat -> (size ({[b]} ∪ (d ∪ bmaps sb)) <= cap)%nat.
Proof. intros H. apply (room_fits sb d _ a a b); [done | set_solver | done]. Qed.

(** ** Growing a file *)

(** What allocating blocks leaves alone: everything before the bitmap, and every
    data block in use but the one named. *)
Definition frame (sb : superblock) (x : Z) (v v' : Z -> block) : Prop :=
  (forall c, c < sb_bmapstart sb -> v' c = v c) /\
  (forall c, is_data sb c -> used v sb c = true -> c <> x -> v' c = v c) /\
  (forall c, 0 <= c < sb_size sb -> used v sb c = true -> used v' sb c = true) /\
  (meta_used v sb -> meta_used v' sb).

Lemma frame_refl sb x v : frame sb x v v.
Proof. by split_and!. Qed.
Lemma is_data_range sb b : layout sb -> is_data sb b -> 0 <= b < sb_size sb.
Proof. unfold layout, is_data, datastart. intros (? & ? & ? & ?) [? ?]. zlia. Qed.
Lemma frame_trans sb x v1 v2 v3 : layout sb -> frame sb x v1 v2 -> frame sb x v2 v3 -> frame sb x v1 v3.
Proof.
  intros Hl (A1 & A2 & A3 & A4) (B1 & B2 & B3 & B4). split_and!; auto.
  - intros c Hc. by rewrite B1, A1.
  - intros c Hd Hu Hx. rewrite B2, A2; try done. apply A3; [by apply is_data_range | done].
Qed.

Section alloc.
Context (sb : superblock) (Hlay : layout sb).

Lemma alloc_frame v b x :
  first_free v sb b -> is_data sb b -> (forall c, 0 <= c < sb_size sb -> block_ok (v (BBLOCK c sb))) ->
  frame sb x v (alloc_view v sb b).
Proof using Hlay.
  intros (Hb & Hf & _) Hd Hok. pose proof (BBLOCK_range sb b Hlay Hb) as Hr.
  assert (0 <= sb_bmapstart sb) as Hs by (unfold layout in *; zlia).
  assert (forall c, 0 <= c < sb_size sb -> used v sb c = true -> used (alloc_view v sb b) sb c = true) as Hu.
  { intros c Hc Hu. rewrite used_alloc by (done || by apply Hok). by case_decide. }
  split_and!; [| |done|].
  - intros c Hc. unfold alloc_view. unfold is_data in Hd. rewrite fn_lookup_insert_ne by lia.
    by rewrite fn_lookup_insert_ne by lia.
  - intros c [Hc1 Hc2] Hcu _. unfold alloc_view. rewrite fn_lookup_insert_ne by congruence.
    by rewrite fn_lookup_insert_ne by lia.
  - intros Hm c Hc. apply Hu; [|by apply Hm]. unfold is_data, layout in *. lia.
Qed.

Lemma alloc_nfree v b :
  first_free v sb b -> is_data sb b -> block_ok (v (BBLOCK b sb)) ->
  nfree v sb = Datatypes.S (nfree (alloc_view v sb b) sb).
Proof using Hlay.
  intros (Hb & Hf & _) Hd Hok. unfold nfree.
  assert (0 <= sb_bmapstart sb) as Hs by (unfold layout in *; zlia).
  assert (free_set (alloc_view v sb b) sb = free_set v sb ∖ {[b]}) as ->.
  { apply set_eq. intros c. rewrite elem_of_difference, elem_of_singleton, !elem_of_free_set.
    destruct (decide (0 <= c < sb_size sb)) as [Hc|Hc]; [|tauto].
    rewrite used_alloc by done. case_decide; intuition congruence. }
  assert (free_set v sb = {[b]} ∪ free_set v sb ∖ {[b]}) as E.
  { apply union_difference_L. apply singleton_subseteq_l. by apply elem_of_free_set. }
  rewrite E at 1. rewrite size_union by set_solver. by rewrite size_singleton.
Qed.
End alloc.

(** The tree after one address of the inode was set to a new block. *)
Section set_direct.
Context (v v' : Z -> block) (sb : superblock) (a : list Z) (b : Z).
Context (Hlay : layout sb) (Ht : tree_ok v sb a) (Hd : is_data sb b).
Context (Hnew : used v sb b = false) (Hmark : used v' sb b = true).
Context (Hfr : forall c, is_data sb c -> used v sb c = true -> v' c = v c /\ used v' sb c = true).

Lemma a12_used : a12 a <> 0 -> v' (a12 a) = v (a12 a).
Proof using Ht Hfr. intros H. destruct Ht as (_ & _ & Ha & _). destruct (Ha H) as (? & ? & _). by apply Hfr. Qed.

Lemma new_not_owned bn : 0 <= bn < MAXFILE -> baddr v a bn <> b.
Proof using Hlay Ht Hd Hnew.
  intros Hbn E. destruct Ht as (_ & Hb & _). destruct (Hb bn Hbn) as [_ Hu].
  - rewrite E. by eapply is_data_pos.
  - rewrite E, Hnew in Hu. discriminate.
Qed.

(** A direct address. *)
Lemma tree_set_direct i :
  0 <= i < NDIRECT -> baddr v a i = 0 ->
  let a' := <[Z.to_nat i := b]> a in
  tree_ok v' sb a' /\ a12 a' = a12 a /\
  (forall bn, 0 <= bn < MAXFILE -> baddr v' a' bn = if decide (bn = i) then b else baddr v a bn).
Proof using Hlay Ht Hd Hnew Hmark Hfr.
  intros Hi Hz a'. assert (a12 a' = a12 a) as E12.
  { unfold a12, a'. by rewrite list_lookup_insert_ne by lia. }
  pose proof Ht as (Hlen & Hb & Ha & Hinj). pose proof (is_data_pos sb b Hlay Hd) as Hb0.
  assert (forall bn, 0 <= bn < MAXFILE -> baddr v' a' bn = if decide (bn = i) then b else baddr v a bn) as Hba.
  { intros bn Hbn. unfold baddr. rewrite E12. destruct (Z.ltb_spec bn NDIRECT).
    - unfold a'. case_decide as E; [subst bn; by rewrite list_lookup_insert_eq by lia|].
      by rewrite list_lookup_insert_ne by lia.
    - rewrite decide_False by lia. destruct (Z.eqb_spec (a12 a) 0); [done|]. by rewrite a12_used. }
  split_and!; [|done|done]. split; [unfold a'; by rewrite length_insert|]. rewrite E12.
  split_and!.
  - intros bn Hbn. rewrite Hba by done. case_decide; [done|]. intros Hne. destruct (Hb bn Hbn Hne). by split; [|apply Hfr].
  - intros H12. destruct (Ha H12) as (Hd12 & Hu12 & Hn12). split_and!; [done | by apply Hfr |].
    intros bn Hbn. rewrite Hba by done. case_decide; [congruence | by apply Hn12].
  - intros bn bn' Hbn Hbn'. rewrite !Hba by done. repeat case_decide; subst; try done.
    + intros E _. exfalso. by apply (new_not_owned bn' Hbn').
    + intros E _. exfalso. by apply (new_not_owned bn Hbn).
    + by apply Hinj.
Qed.

(** A new, empty indirect block. *)
Lemma tree_set_ind :
  a12 a = 0 -> v' b = replicate 512 0 ->
  let a' := <[12%nat := b]> a in
  tree_ok v' sb a' /\ a12 a' = b /\
  (forall bn, 0 <= bn < MAXFILE -> baddr v' a' bn = baddr v a bn).
Proof using Hlay Ht Hd Hnew Hmark Hfr.
  intros Hz Hzero a'. pose proof Ht as (Hlen & Hb & Ha & Hinj). pose proof (is_data_pos sb b Hlay Hd) as Hb0.
  assert (a12 a' = b) as E12 by (unfold a12, a'; by rewrite list_lookup_insert_eq by lia).
  assert (forall bn, 0 <= bn < MAXFILE -> baddr v' a' bn = baddr v a bn) as Hba.
  { intros bn Hbn. unfold baddr. rewrite E12, Hz. destruct (Z.ltb_spec bn NDIRECT).
    - unfold a'. by rewrite list_lookup_insert_ne by lia.
    - rewrite (proj2 (Z.eqb_neq b 0)) by done. rewrite Hzero. unfold get32, get8.
      rewrite !lookup_replicate_2 by lia. done. }
  split_and!; [|done|done]. split; [unfold a'; by rewrite length_insert|]. rewrite E12.
  split_and!.
  - intros bn Hbn. rewrite Hba by done. intros Hne. destruct (Hb bn Hbn Hne). by split; [|apply Hfr].
  - intros _. split_and!; try done. intros bn Hbn. rewrite Hba by done. by apply new_not_owned.
  - intros bn bn' Hbn Hbn'. rewrite !Hba by done. by apply Hinj.
Qed.
End set_direct.

(** A new entry in the indirect block. *)
Lemma tree_set_entry v v2 sb a b i :
  layout sb -> tree_ok v sb a -> is_data sb b -> used v sb b = false -> used v2 sb b = true ->
  (forall c, is_data sb c -> used v sb c = true -> v2 c = v c /\ used v2 sb c = true) ->
  NDIRECT <= i < MAXFILE -> a12 a <> 0 -> baddr v a i = 0 -> block_ok (v (a12 a)) ->
  let v' := <[a12 a := put32 (v2 (a12 a)) (4 * Z.to_nat (i - NDIRECT)) b]> v2 in
  tree_ok v' sb a /\
  (forall bn, 0 <= bn < MAXFILE -> baddr v' a bn = if decide (bn = i) then b else baddr v a bn).
Proof.
  intros Hlay Ht Hd Hnew Hmark Hfr Hi H12 Hz Hok v'.
  pose proof Ht as (Hlen & Hb & Ha & Hinj). pose proof (is_data_pos sb b Hlay Hd) as Hb0.
  destruct (Ha H12) as (Hd12 & Hu12 & Hn12). destruct (Hfr _ Hd12 Hu12) as [E12 Hu12'].
  assert (forall c, 0 <= c < sb_size sb -> used v' sb c = used v2 sb c) as Hu'.
  { intros c Hc. unfold used, v'. rewrite fn_lookup_insert_ne; [done|].
    pose proof (BBLOCK_range sb c Hlay Hc). unfold is_data in Hd12. lia. }
  assert (forall bn, 0 <= bn < MAXFILE -> baddr v' a bn = if decide (bn = i) then b else baddr v a bn) as Hba.
  { intros bn Hbn. unfold baddr. destruct (Z.ltb_spec bn NDIRECT); [by rewrite decide_False by lia|].
    rewrite (proj2 (Z.eqb_neq (a12 a) 0)) by done. unfold v'. rewrite fn_lookup_insert, E12.
    destruct Hok as [Hl _]. case_decide as E.
    - subst bn. rewrite get32_put32_eq; [done | rewrite Hl; lia |].
      pose proof (is_data_range sb b Hlay Hd). unfold layout in *. lia.
    - rewrite get32_put32_ne; [done | rewrite Hl; lia | lia]. }
  assert (forall bn, 0 <= bn < MAXFILE -> baddr v a bn <> b) as Hnb.
  { intros bn Hbn E. destruct (Hb bn Hbn) as [_ Hu]; congruence. }
  split; [|done]. split; [done|]. split_and!.
  - intros bn Hbn. rewrite Hba by done. case_decide.
    + intros _. split; [done|]. rewrite Hu' by (by apply is_data_range). done.
    + intros Hne. destruct (Hb bn Hbn Hne) as [Hd' Hu]. split; [done|].
      rewrite Hu' by (by apply is_data_range). by apply Hfr.
  - intros _. split_and!; [done | rewrite Hu' by (by apply is_data_range); done |].
    intros bn Hbn. rewrite Hba by done. case_decide; [congruence | by apply Hn12].
  - intros bn bn' Hbn Hbn'. rewrite !Hba by done. repeat case_decide; subst; try done.
    + intros E _. exfalso. by apply (Hnb bn' Hbn').
    + intros E _. exfalso. by apply (Hnb bn Hbn).
    + by apply Hinj.
Qed.

Lemma bind_blk {S A B} (m : M S A) (k : A -> M (fsys S) B) st a s :
  m (fs_blk st) = Ret a s -> bind (blk m) k st = k a (set_blk s st).
Proof. unfold bind, blk, zoom. by intros ->. Qed.
Lemma blk_Ret {S A} (m : M S A) st a s : m (fs_blk st) = Ret a s -> blk m st = Ret a (set_blk s st).
Proof. unfold blk, zoom. by intros ->. Qed.
(** Runs one operation on the blocks, given its equation; the last one. *)
Ltac run_blk E := erewrite bind_blk by (exact E).
Ltac end_blk E := erewrite blk_Ret by (exact E); reflexivity.

(** ** bmap *)
Section bmap.
Context {S : Type} `{!BlockOps S} `{!BlockLaws S}.
Context (sb : superblock) (Hlay : layout sb).
Context (Hhome : forall b, sb_inodestart sb <= b < sb_size sb -> bk_home b).
Context (ip : nat).
Implicit Types (st : fsys S) (v : Z -> block) (d h : gset Z) (x : inode).

(** Inode [ip] of the cache is [x], on a file system in a good state. *)
Definition fs_ok st v d (cap : nat) x : Prop :=
  bk_ok (fs_blk st) v d ∅ ∅ cap /\ fs_sb st = sb /\ fs_ic st !! ip = Some x /\ i_dev x = 1 /\
  meta_used v sb /\ tree_ok v sb (i_addrs x).

(** The state with another block store and another inode. *)
Definition put_ino (s : S) x st : fsys S := FSt s (fs_sb st) (<[ip := x]> (fs_ic st)) (fs_mem st).

Lemma data_home b : is_data sb b -> bk_home b.
Proof using Hlay Hhome. intros Hd. apply Hhome. unfold is_data, datastart, layout in *. zlia. Qed.
Lemma bitmaps_ok s v d h m cap c :
  bk_ok s v d h m cap -> 0 <= c < sb_size sb -> block_ok (v (BBLOCK c sb)).
Proof using Hlay Hhome. intros. eapply bk_view_ok; [done|]. by apply bitmap_home. Qed.

Lemma bind_ino {B} (k : inode -> M (fsys S) B) st x :
  fs_ic st !! ip = Some x -> bind (ino ip) k st = k x st.
Proof using. unfold bind, ino, gets. by intros ->. Qed.

(** [balloc] inside the file system's state, by a holder of data blocks. *)
Lemma balloc_fs s v d h cap :
  bk_ok s v d h ∅ cap -> held_ok sb v h -> (size h <= 2)%nat -> meta_used v sb -> (0 < nfree v sb)%nat ->
  (forall b, is_data sb b -> (size ({[b]} ∪ (d ∪ bmaps sb)) <= cap)%nat) ->
  exists b s', balloc sb 1 s = Ret b s' /\ is_data sb b /\ used v sb b = false /\
    let v' := alloc_view v sb b in
    bk_ok s' v' ({[b]} ∪ ({[BBLOCK b sb]} ∪ d)) h ∅ cap /\
    v' b = replicate 512 0 /\ used v' sb b = true /\ (forall y, frame sb y v v') /\
    nfree v sb = Datatypes.S (nfree v' sb) /\ BBLOCK b sb ∈ bmaps sb /\
    (forall c, is_data sb c -> used v sb c = true -> v' c = v c /\ used v' sb c = true) /\
    (forall j k, k ∈ h -> bk_handle s j k -> bk_handle s' j k).
Proof using Hlay Hhome.
  intros Hok Hh Hsz Hm Hn Hcap. destruct (nfree_first v sb Hn) as (b & Hff).
  pose proof (free_is_data sb v b Hm Hff) as Hd. pose proof Hff as (Hb & Hf & _).
  assert (BBLOCK b sb ∈ bmaps sb) as Hbm by (by apply BBLOCK_bmaps).
  assert (forall c, 0 <= c < sb_size sb -> block_ok (v (BBLOCK c sb))) as Hbok
    by (intros; by eapply bitmaps_ok).
  destruct (balloc_ok sb Hlay Hhome s v d h cap b Hok Hh Hsz Hm Hff) as (s' & E & Hok' & Hk).
  { etrans; [|by apply (Hcap b)]. apply subseteq_size. set_solver. }
  pose proof (fun y => alloc_frame sb Hlay v b y Hff Hd Hbok) as Hfr.
  assert (0 <= sb_bmapstart sb) as Hs by (unfold layout in *; zlia).
  exists b, s'. do 3 (split; [done|]). cbn zeta. split_and!; try done.
  - unfold alloc_view. by rewrite fn_lookup_insert.
  - rewrite used_alloc by (done || by apply Hbok). by rewrite decide_True.
  - apply alloc_nfree; try done. by apply Hbok.
  - intros c Hc Hu. destruct (Hfr b) as (_ & H2 & H3 & _). split.
    + apply H2; try done. congruence.
    + apply H3; [by apply is_data_range | done].
Qed.

Definition no_ind (a : list Z) : nat := if a12 a =? 0 then 1 else 0.

(** What finding, or making, block [bn] of the file does. *)
Definition grown v d x v' d' x' bn b : Prop :=
  let a := i_addrs x in let a' := i_addrs x' in
  x' = set_addrs a' x /\ is_data sb b /\
  (forall bn', 0 <= bn' < MAXFILE -> baddr v' a' bn' = if decide (bn' = bn) then b else baddr v a bn') /\
  (baddr v a bn = 0 -> v' b = replicate 512 0 /\ used v sb b = false) /\
  (baddr v a bn <> 0 -> b = baddr v a bn /\ x' = x /\ v' = v /\ d' = d) /\
  frame sb (a12 a) v v' /\ (a12 a <> 0 -> a12 a' = a12 a) /\
  (a12 a = 0 -> a12 a' <> 0 -> used v sb (a12 a') = false) /\
  d' ⊆ {[b]} ∪ (d ∪ bmaps sb ∪ ind_set a') /\
  (nfree v sb + no_ind a' <= nfree v' sb + 1 + no_ind a)%nat.

Lemma put_ino_id s x st : fs_ic st !! ip = Some x -> put_ino s x st = set_blk s st.
Proof using. intros H. unfold put_ino, set_blk. by rewrite list_insert_id. Qed.
Lemma put_ino_lookup s x x' st : fs_ic st !! ip = Some x -> fs_ic (put_ino s x' st) !! ip = Some x'.
Proof using. intros H. simpl. apply list_lookup_insert_eq. by eapply lookup_lt_Some. Qed.
Lemma upd_ino_eq s f x st :
  fs_ic st !! ip = Some x -> upd_ino ip f (set_blk s st) = Ret tt (put_ino s (f x) st).
Proof using. intros H. unfold upd_ino, modify, put_ino, set_ic. simpl. by rewrite (alter_insert_same _ _ _ x). Qed.
Lemma put_ino_twice s s' x x' st : put_ino s' x' (put_ino s x st) = put_ino s' x' st.
Proof using. unfold put_ino. simpl. by rewrite list_insert_insert_eq. Qed.

Lemma addr_of_lookup x i : addr_of x i = default 0 (i_addrs x !! i).
Proof using. done. Qed.

(** [bmap_addr] when the address is there. *)
Lemma bmap_addr_there st v d cap x i :
  fs_ok st v d cap x -> addr_of x i <> 0 -> bmap_addr ip i st = Ret (addr_of x i) st.
Proof using.
  intros (_ & _ & Hx & _) Hne. unfold bmap_addr. rewrite (bind_ino _ _ _ Hx). unfold bind, sblock, gets.
  by rewrite (proj2 (Z.eqb_neq _ 0)).
Qed.

(** [bmap_addr] when it allocates. *)
Lemma bmap_addr_new st v d cap x i :
  fs_ok st v d cap x -> addr_of x i = 0 -> (0 < nfree v sb)%nat ->
  (room sb d (i_addrs x) + 1 <= cap)%nat ->
  exists b s', bmap_addr ip i st = Ret b (put_ino s' (set_addr i b x) st) /\ is_data sb b /\
    used v sb b = false /\
    let v' := alloc_view v sb b in
    bk_ok s' v' ({[b]} ∪ ({[BBLOCK b sb]} ∪ d)) ∅ ∅ cap /\
    v' b = replicate 512 0 /\ used v' sb b = true /\ (forall y, frame sb y v v') /\
    nfree v sb = Datatypes.S (nfree v' sb) /\ BBLOCK b sb ∈ bmaps sb /\
    (forall c, is_data sb c -> used v sb c = true -> v' c = v c /\ used v' sb c = true).
Proof using Hlay Hhome.
  intros (Hok & Hsb & Hx & Hdev & Hm & Ht) Hz Hn Hroom.
  destruct (balloc_fs (fs_blk st) v d ∅ cap Hok) as (b & s' & E & Hd & Hu & Hok' & Hv & Hu' & Hfr & Hnf & Hbm & Hkeep & _);
    try done; [rewrite size_empty; lia | |].
  { intros b _. by apply (room_alloc sb d (i_addrs x)). }
  exists b, s'. split; [|by split_and!].
  unfold bmap_addr. rewrite (bind_ino _ _ _ Hx). unfold sblock, gets. unfold bind at 1.
  rewrite Hz, Hsb, Hdev. simpl. rewrite (bind_blk _ _ _ _ _ E).
  unfold bind. by rewrite (upd_ino_eq s' _ x).
Qed.

(** [bmap_entry], with the indirect block in place. *)
Lemma bmap_entry_there st v d cap x bn :
  fs_ok st v d cap x -> a12 (i_addrs x) <> 0 -> 0 <= bn < NINDIRECT -> baddr v (i_addrs x) (bn + NDIRECT) <> 0 ->
  exists s', bmap_entry 1 (a12 (i_addrs x)) bn st = Ret (baddr v (i_addrs x) (bn + NDIRECT)) (put_ino s' x st) /\
    fs_ok (put_ino s' x st) v d cap x.
Proof using Hlay Hhome.
  intros Hfs H12 Hbn Hne. pose proof Hfs as (Hok & Hsb & Hx & Hdev & Hm & Ht).
  pose proof Ht as (_ & _ & Ha & _). destruct (Ha H12) as (Hd12 & Hu12 & _).
  destruct (bk_read (fs_blk st) v d ∅ ∅ cap (a12 (i_addrs x)) Hok (data_home _ Hd12))
    as (i & s1 & s2 & E1 & E2 & E3 & Hok2 & _); [set_solver | set_solver | rewrite size_empty; lia |].
  assert (baddr v (i_addrs x) (bn + NDIRECT) = get32 (v (a12 (i_addrs x))) (4 * Z.to_nat bn)) as Hba.
  { unfold baddr. rewrite (proj2 (Z.ltb_ge _ _)), (proj2 (Z.eqb_neq _ 0)) by (done || lia). do 3 f_equal. lia. }
  exists s2. rewrite (put_ino_id s2 x st Hx). split.
  - unfold bmap_entry, sblock, gets. unfold bind at 1. rewrite (bind_blk _ _ _ _ _ E1).
    rewrite (bind_blk (bk_data i) _ (set_blk s1 st) _ _ E2). rewrite Hba in *.
    rewrite (proj2 (Z.eqb_neq _ 0)) by done. unfold bind at 1, ret at 1.
    by rewrite (bind_blk (bk_brelse i) _ (set_blk s1 (set_blk s1 st)) _ _ E3).
  - by split_and!.
Qed.

Lemma baddr_ind v a bn :
  a12 a <> 0 -> 0 <= bn -> baddr v a (bn + NDIRECT) = get32 (v (a12 a)) (4 * Z.to_nat bn).
Proof using.
  intros H Hbn. unfold baddr. rewrite (proj2 (Z.ltb_ge _ _)), (proj2 (Z.eqb_neq _ 0)) by (done || lia).
  do 3 f_equal. lia.
Qed.

Lemma bmap_entry_new st v d cap x bn :
  fs_ok st v d cap x -> a12 (i_addrs x) <> 0 -> 0 <= bn < NINDIRECT ->
  baddr v (i_addrs x) (bn + NDIRECT) = 0 -> (0 < nfree v sb)%nat ->
  (room sb d (i_addrs x) + 1 <= cap)%nat ->
  exists b s' v' d', bmap_entry 1 (a12 (i_addrs x)) bn st = Ret b (put_ino s' x st) /\
    fs_ok (put_ino s' x st) v' d' cap x /\ is_data sb b /\
    v' b = replicate 512 0 /\ used v sb b = false /\ frame sb (a12 (i_addrs x)) v v' /\
    (forall bn', 0 <= bn' < MAXFILE -> baddr v' (i_addrs x) bn' =
       if decide (bn' = bn + NDIRECT) then b else baddr v (i_addrs x) bn') /\
    d' = {[a12 (i_addrs x)]} ∪ ({[b]} ∪ ({[BBLOCK b sb]} ∪ d)) /\ BBLOCK b sb ∈ bmaps sb /\
    nfree v sb = Datatypes.S (nfree v' sb).
Proof using Hlay Hhome.
  intros Hfs H12 Hbn Hz Hn Hroom. pose proof Hfs as (Hok & Hsb & Hx & Hdev & Hm & Ht).
  set (t := a12 (i_addrs x)) in *.
  pose proof Ht as (_ & _ & Ha & _). destruct (Ha H12) as (Hd12 & Hu12 & Hn12). fold t in Hd12, Hu12, Hn12.
  pose proof (data_home _ Hd12) as Hh12.
  destruct (bk_bread_ok (fs_blk st) v d ∅ ∅ cap t Hok Hh12) as (i & s1 & E1 & Hok1 & Hi & _);
    [set_solver | rewrite size_empty; lia |].
  pose proof (bk_data_ok s1 v d _ ∅ cap i t Hok1 Hi ltac:(set_solver)) as E2.
  assert (forall b, (size ({[t]} ∪ ({[b]} ∪ (d ∪ bmaps sb))) <= cap)%nat) as Hcap.
  { intros b. apply (room_fits sb d _ (i_addrs x) (i_addrs x) b); [done | | done].
    unfold ind_set. fold t. rewrite (proj2 (Z.eqb_neq t 0)) by done. set_solver. }
  destruct (balloc_fs s1 v d ({[t]} ∪ ∅) cap Hok1) as (b & s2 & E3 & Hd & Hu & Hok2 & Hv & Hu' & Hfr & Hnf & Hbm & Hkeep & Hhd);
    try done.
  { intros n Hin. by assert (n = t) as -> by set_solver. }
  { rewrite union_empty_r_L, size_singleton. lia. }
  { intros b _. etrans; [|apply (Hcap b)]. apply subseteq_size. set_solver. }
  set (v2 := alloc_view v sb b) in *. destruct (Hkeep t Hd12 Hu12) as [Hv12 Hu12'].
  assert (b <> t) as Hbt by (intros ->; congruence).
  assert (block_ok (v2 t)) as Hok12 by (by eapply bk_view_ok).
  destruct (bk_finish s2 v2 _ ∅ ∅ cap i t (fun y : block => put32 y (4 * Z.to_nat bn) b) Hok2)
    as (s3 & s4 & s5 & E4 & E5 & E6 & Hok5 & _); try done.
  { apply Hhd; [by apply elem_of_union_l, elem_of_singleton | done]. }
  { by apply put32_ok. }
  { etrans; [|apply (Hcap b)]. apply subseteq_size. clear -Hbm. set_solver. }
  destruct (tree_set_entry v v2 sb (i_addrs x) b (bn + NDIRECT)) as (Htree & Hba); try done; [lia | fold t; by rewrite <- Hv12 |].
  fold t in Htree, Hba. replace (Z.to_nat (bn + NDIRECT - NDIRECT)) with (Z.to_nat bn) in * by lia.
  set (v' := <[t := put32 (v2 t) (4 * Z.to_nat bn) b]> v2) in *.
  assert (forall c, 0 <= c < sb_size sb -> used v' sb c = used v2 sb c) as Huv.
  { intros c Hc. unfold used, v'. rewrite fn_lookup_insert_ne; [done|].
    pose proof (BBLOCK_range sb c Hlay Hc). unfold is_data in Hd12. lia. }
  assert (frame sb t v v') as Hframe.
  { destruct (Hfr t) as (F1 & F2 & F3 & F4). split_and!.
    - intros c Hc. unfold v'. rewrite fn_lookup_insert_ne; [by apply F1|].
      unfold is_data, datastart, layout in *. zlia.
    - intros c Hc Hcu Hct. unfold v'. rewrite fn_lookup_insert_ne by done. by apply F2.
    - intros c Hc Hcu. rewrite Huv by done. by apply F3.
    - intros Hmu c Hc. rewrite Huv by (unfold layout in *; lia). by apply F4. }
  exists b, s5, v', ({[t]} ∪ ({[b]} ∪ ({[BBLOCK b sb]} ∪ d))). split.
  { unfold bmap_entry, sblock, gets. unfold bind at 1. rewrite (bind_blk _ _ _ _ _ E1).
    rewrite (bind_blk (bk_data i) _ (set_blk s1 st) _ _ E2).
    pose proof (baddr_ind v (i_addrs x) bn H12 ltac:(lia)) as Hbi. fold t in Hbi.
    rewrite <- Hbi, Hz, Hsb. simpl.
    rewrite (bind_Ret _ _ _ b (set_blk s4 st)).
    - rewrite (bind_blk (bk_brelse i) _ (set_blk s4 st) _ _ E6). unfold ret. by rewrite (put_ino_id s5 x st Hx).
    - rewrite (bind_blk (balloc sb 1) _ (set_blk s1 (set_blk s1 st)) _ _ E3).
      rewrite (bind_blk (bk_modify i _) _ (set_blk s2 _) _ _ E4).
      by rewrite (bind_blk (bk_log_write i) _ (set_blk s3 _) _ _ E5). }
  split; [|split_and!; try done].
  { split_and!; [exact Hok5 | done | by apply (put_ino_lookup s5 x x st) | done | by apply Hframe | done]. }
  - unfold v'. rewrite fn_lookup_insert_ne by done. done.
  - rewrite Hnf. f_equal. unfold nfree. f_equal. apply set_eq. intros c. rewrite !elem_of_free_set.
    destruct (decide (0 <= c < sb_size sb)) as [Hc|]; [|tauto]. by rewrite Huv.
Qed.

Lemma put_ino_same x st : fs_ic st !! ip = Some x -> put_ino (fs_blk st) x st = st.
Proof using. intros H. rewrite put_ino_id by done. by destruct st. Qed.

(** What is there is found, with nothing changed. *)
Lemma bmap_there st v d cap x bn :
  fs_ok st v d cap x -> 0 <= bn < MAXFILE -> baddr v (i_addrs x) bn <> 0 ->
  exists s', bmap ip bn st = Ret (baddr v (i_addrs x) bn) (put_ino s' x st) /\
    fs_ok (put_ino s' x st) v d cap x.
Proof using Hlay Hhome.
  intros Hfs Hbn Hne. pose proof Hfs as (Hok & Hsb & Hx & Hdev & Hm & Ht). unfold bmap.
  destruct (Z.ltb_spec bn NDIRECT) as [Hlt|Hge].
  - assert (baddr v (i_addrs x) bn = addr_of x (Z.to_nat bn)) as Hba
      by (unfold baddr; by rewrite (proj2 (Z.ltb_lt _ _))).
    exists (fs_blk st). rewrite put_ino_same by done. split; [|done]. rewrite Hba in *.
    by eapply bmap_addr_there.
  - destruct (Z.ltb_spec (bn - NDIRECT) NINDIRECT); [|lia].
    assert (a12 (i_addrs x) <> 0) as H12.
    { intros E. revert Hne. unfold baddr. rewrite (proj2 (Z.ltb_ge _ _)), E by done. done. }
    rewrite (bind_ino _ _ _ Hx), Hdev.
    rewrite (bind_Ret _ _ _ _ _ (bmap_addr_there st v d cap x 12 Hfs H12)).
    destruct (bmap_entry_there st v d cap x (bn - NDIRECT)) as (s' & E & Hfs'); try done; [lia | |].
    + by replace (bn - NDIRECT + NDIRECT) with bn by lia.
    + exists s'. by replace (bn - NDIRECT + NDIRECT) with bn in E by lia.
Qed.

(** A new direct block. *)
Lemma bmap_direct st v d cap x bn :
  fs_ok st v d cap x -> 0 <= bn < NDIRECT -> baddr v (i_addrs x) bn = 0 -> (0 < nfree v sb)%nat ->
  (room sb d (i_addrs x) + 1 <= cap)%nat ->
  exists b s' v' d' x', bmap ip bn st = Ret b (put_ino s' x' st) /\
    fs_ok (put_ino s' x' st) v' d' cap x' /\ grown v d x v' d' x' bn b.
Proof using Hlay Hhome.
  intros Hfs Hbn Hz Hn Hroom. pose proof Hfs as (Hok & Hsb & Hx & Hdev & Hm & Ht).
  assert (baddr v (i_addrs x) bn = addr_of x (Z.to_nat bn)) as Hba
    by (unfold baddr; rewrite (proj2 (Z.ltb_lt _ _)); [done | lia]).
  destruct (bmap_addr_new st v d cap x (Z.to_nat bn) Hfs) as
    (b & s' & E & Hd & Hu & Hok' & Hv & Hu' & Hfr & Hnf & Hbm & Hkeep); try done; [by rewrite <- Hba|].
  destruct (tree_set_direct v (alloc_view v sb b) sb (i_addrs x) b Hlay Ht Hd Hu Hu' Hkeep bn Hbn Hz)
    as (Ht' & E12 & Hba').
  exists b, s', (alloc_view v sb b), ({[b]} ∪ ({[BBLOCK b sb]} ∪ d)), (set_addr (Z.to_nat bn) b x).
  split; [unfold bmap; rewrite (proj2 (Z.ltb_lt _ _)); [done | lia]|]. split.
  - split_and!; [exact Hok' | done | by eapply put_ino_lookup | done | by apply (Hfr b) | done].
  - unfold grown. cbn zeta. change (i_addrs (set_addr (Z.to_nat bn) b x)) with (<[Z.to_nat bn := b]> (i_addrs x)).
    split_and!; try done.
    + intros E0. rewrite E12 in *. congruence.
    + clear -Hbm. set_solver.
    + unfold no_ind. rewrite E12, Hnf. lia.
Qed.

(** A new block with the indirect block there. *)
Lemma bmap_indirect st v d cap x bn :
  fs_ok st v d cap x -> NDIRECT <= bn < MAXFILE -> a12 (i_addrs x) <> 0 -> baddr v (i_addrs x) bn = 0 ->
  (0 < nfree v sb)%nat -> (room sb d (i_addrs x) + 1 <= cap)%nat ->
  exists b s' v' d', bmap_entry 1 (a12 (i_addrs x)) (bn - NDIRECT) st = Ret b (put_ino s' x st) /\
    fs_ok (put_ino s' x st) v' d' cap x /\ grown v d x v' d' x bn b.
Proof using Hlay Hhome.
  intros Hfs Hbn H12 Hz Hn Hroom.
  destruct (bmap_entry_new st v d cap x (bn - NDIRECT)) as
    (b & s' & v' & d' & E & Hfs' & Hd & Hv & Hu & Hfr & Hba & Hd' & Hbm & Hnf); try done; [lia | |].
  { by replace (bn - NDIRECT + NDIRECT) with bn by lia. }
  replace (bn - NDIRECT + NDIRECT) with bn in Hba by lia.
  exists b, s', v', d'. split_and!; [done | apply Hfs'.. |]. unfold grown. cbn zeta. split_and!; try done.
  - by destruct x.
  - rewrite Hd'. unfold ind_set. rewrite (proj2 (Z.eqb_neq _ 0)) by done. clear -Hbm. set_solver.
  - unfold no_ind. rewrite Hnf. lia.
Qed.

Lemma room_ind d x b :
  a12 (i_addrs x) = 0 -> length (i_addrs x) = 13%nat -> b <> 0 -> BBLOCK b sb ∈ bmaps sb ->
  (room sb ({[b]} ∪ ({[BBLOCK b sb]} ∪ d)) (<[12%nat := b]> (i_addrs x)) <= room sb d (i_addrs x))%nat.
Proof using.
  clear Hlay Hhome. intros Hz Hl Hb Hbm. unfold room, ind_set.
  assert (a12 (<[12%nat:=b]> (i_addrs x)) = b) as -> by (unfold a12; by rewrite list_lookup_insert_eq by lia).
  rewrite Hz, (proj2 (Z.eqb_neq b 0)) by done. simpl.
  pose proof (size_add b (d ∪ bmaps sb ∪ ∅) ({[b]} ∪ ({[BBLOCK b sb]} ∪ d) ∪ bmaps sb ∪ {[b]}) ltac:(set_solver)). lia.
Qed.

(** A first indirect block and its first entry. *)
Lemma bmap_both st v d cap x bn :
  fs_ok st v d cap x -> NDIRECT <= bn < MAXFILE -> a12 (i_addrs x) = 0 ->
  (2 <= nfree v sb)%nat -> (room sb d (i_addrs x) + 1 <= cap)%nat ->
  exists b s' v' d' x', bmap ip bn st = Ret b (put_ino s' x' st) /\
    fs_ok (put_ino s' x' st) v' d' cap x' /\ grown v d x v' d' x' bn b.
Proof using Hlay Hhome.
  intros Hfs Hbn Hz Hn Hroom. pose proof Hfs as (Hok & Hsb & Hx & Hdev & Hm & Ht).
  destruct (bmap_addr_new st v d cap x 12 Hfs) as
    (b1 & s1 & E1 & Hd1 & Hu1 & Hok1 & Hv1 & Hu1' & Hfr1 & Hnf1 & Hbm1 & Hkeep1); try done; [lia|].
  set (v1 := alloc_view v sb b1) in *. set (x1 := set_addr 12 b1 x).
  destruct (tree_set_ind v v1 sb (i_addrs x) b1 Hlay Ht Hd1 Hu1 Hu1' Hkeep1 Hz Hv1) as (Ht1 & E12 & Hba1).
  pose proof (is_data_pos sb b1 Hlay Hd1) as Hb1.
  assert (fs_ok (put_ino s1 x1 st) v1 ({[b1]} ∪ ({[BBLOCK b1 sb]} ∪ d)) cap x1) as Hfs1
    by (split_and!; [exact Hok1 | done | by eapply put_ino_lookup | done | by apply (Hfr1 b1) | done]).
  assert (baddr v (i_addrs x) bn = 0) as Hz0
    by (unfold baddr; by rewrite (proj2 (Z.ltb_ge _ _)), Hz by lia).
  assert (a12 (i_addrs x1) = b1) as E12' by done.
  destruct (bmap_indirect (put_ino s1 x1 st) v1 _ cap x1 bn Hfs1 Hbn) as (b & s' & v' & d' & E & Hfs' & Hg).
  { by rewrite E12'. }
  { change (i_addrs x1) with (<[12%nat := b1]> (i_addrs x)). by rewrite Hba1 by lia. }
  { lia. }
  { change (i_addrs x1) with (<[12%nat := b1]> (i_addrs x)).
    pose proof (room_ind d x b1 Hz (proj1 Ht) Hb1 Hbm1). lia. }
  rewrite put_ino_twice in E, Hfs'. exists b, s', v', d', x1. split; [|split; [done|]].
  - unfold bmap. rewrite (proj2 (Z.ltb_ge _ _)) by lia. rewrite (proj2 (Z.ltb_lt _ _)) by lia.
    rewrite (bind_ino _ _ _ Hx), Hdev, (bind_Ret _ _ _ _ _ E1). by rewrite E12' in E.
  - destruct Hg as (_ & Hd & Hba & Hnew & Hold & Hfr & Hk12 & _ & Hdd & Hnf). cbn zeta in *.
    change (i_addrs x1) with (<[12%nat := b1]> (i_addrs x)) in *. rewrite E12 in *.
    assert (baddr v1 (<[12%nat := b1]> (i_addrs x)) bn = 0) as Hz1 by (by rewrite Hba1 by lia).
    destruct (Hnew Hz1) as [Hvb Hub].
    assert (used v sb b = false) as Hub'.
    { destruct (used v sb b) eqn:Eu; [|done]. destruct (Hfr1 0) as (_ & _ & F3 & _).
      rewrite F3 in Hub; [done | by apply is_data_range | done]. }
    unfold grown. cbn zeta. change (i_addrs x1) with (<[12%nat := b1]> (i_addrs x)). rewrite E12.
    split_and!; try done.
    + intros bn' Hbn'. rewrite Hba by done. by rewrite Hba1.
    + destruct (Hfr1 0) as (G1 & G2 & G3 & G4). destruct Hfr as (F1 & F2 & F3 & F4). split_and!; auto.
      * intros c Hc. by rewrite F1, G1.
      * intros c Hc Hcu _. pose proof (is_data_range sb c Hlay Hc). destruct (Hkeep1 c Hc Hcu) as [<- Hc1].
        apply F2; [done | done | congruence].
    + unfold ind_set in *. rewrite E12, (proj2 (Z.eqb_neq b1 0)) in * by done.
      clear -Hdd Hbm1. set_solver.
    + unfold no_ind in *. rewrite E12, (proj2 (Z.eqb_neq b1 0)) in * by done. rewrite Hz. simpl. lia.
Qed.

Lemma bmap_ok st v d cap x bn :
  fs_ok st v d cap x -> 0 <= bn < MAXFILE ->
  (baddr v (i_addrs x) bn = 0 ->
     (1 + no_ind (i_addrs x) <= nfree v sb /\ room sb d (i_addrs x) + 1 <= cap)%nat) ->
  exists b s' v' d' x', bmap ip bn st = Ret b (put_ino s' x' st) /\
    fs_ok (put_ino s' x' st) v' d' cap x' /\ grown v d x v' d' x' bn b.
Proof using Hlay Hhome.
  intros Hfs Hbn Hneed. pose proof Hfs as (Hok & Hsb & Hx & Hdev & Hm & Ht).
  destruct (decide (baddr v (i_addrs x) bn = 0)) as [Hz|Hne].
  - destruct (Hneed Hz) as [Hn Hroom]. destruct (decide (bn < NDIRECT)) as [Hlt|Hge].
    { apply bmap_direct; try done; lia. }
    unfold no_ind in Hn. destruct (Z.eqb_spec (a12 (i_addrs x)) 0) as [H12|H12].
    { apply bmap_both; try done; lia. }
    destruct (bmap_indirect st v d cap x bn) as (b & s' & v' & d' & E & Hfs' & Hg); try done; [lia.. |].
    exists b, s', v', d', x. split; [|done]. unfold bmap.
    rewrite (proj2 (Z.ltb_ge _ _)) by lia. rewrite (proj2 (Z.ltb_lt _ _)) by lia.
    rewrite (bind_ino _ _ _ Hx), Hdev.
    by rewrite (bind_Ret _ _ _ _ _ (bmap_addr_there st v d cap x 12 Hfs H12)).
  - destruct (bmap_there st v d cap x bn Hfs Hbn Hne) as (s' & E & Hfs').
    exists (baddr v (i_addrs x) bn), s', v, d, x. split_and!; [done | apply Hfs'.. |].
    destruct Ht as (_ & Hb & _). destruct (Hb bn Hbn Hne) as [Hd Hu].
    unfold grown. cbn zeta. split_and!; try done.
    + by destruct x.
    + intros bn' _. by case_decide; [subst|].
    + clear. set_solver.
    + lia.
Qed.
End bmap.
