(* ===== verification/InodeIO.v ===== *)
(** * Reading and writing files (readi, writei of fs.c)

    [readi] copies the bytes of the file that it is asked for and that are
    there; [writei] replaces bytes and extends the file.  Both are proved
    against the abstract file, a function from positions to bytes, with what
    they leave alone: the other bytes, the other files, the inodes on the disk. *)

From stdpp Require Import functions.
From S2P Require Import Prelude Mem Disk Bio Log Blocks Balloc Inode Dinode InodeData.
#[local] Open Scope Z_scope.

(** Bytes [off, off + n) of the file. *)
Definition fbytes (v : Z -> block) (a : list Z) (off n : Z) : list Z := fbyte v a <$> seqZ off n.

(** The number of blocks that bytes [off, off + n) are in. *)
Definition nblk (off n : Z) : Z := if n <=? 0 then 0 else (off + n - 1) / BSIZE - off / BSIZE + 1.

Lemma length_fbytes v a off n : length (fbytes v a off n) = Z.to_nat n.
Proof. unfold fbytes. by rewrite length_fmap, length_seqZ. Qed.
Lemma fbytes_lookup v a off n i :
  0 <= i < n -> fbytes v a off n !! Z.to_nat i = Some (fbyte v a (off + i)).
Proof.
  intros Hi. unfold fbytes. rewrite list_lookup_fmap, lookup_seqZ_lt by lia. simpl. do 2 f_equal. lia.
Qed.
Lemma fbytes_app v a off n m :
  0 <= n -> 0 <= m -> fbytes v a off (n + m) = fbytes v a off n ++ fbytes v a (off + n) m.
Proof. intros. unfold fbytes. by rewrite seqZ_app, fmap_app by done. Qed.

Lemma chunk_range left off : 0 < left -> 0 <= off -> 0 < chunk left off <= left /\
  off mod BSIZE + chunk left off <= BSIZE.
Proof. intros. unfold chunk. pose proof (Z.mod_pos_bound off BSIZE ltac:(lia)). lia. Qed.

(** After a chunk that is not the last one the position is at a block. *)
Lemma nblk_next left off :
  0 < left -> 0 <= off ->
  nblk off left = nblk (off + chunk left off) (left - chunk left off) + 1.
Proof.
  intros Hl Ho. unfold nblk, chunk. pose proof (Z.mod_pos_bound off BSIZE ltac:(lia)) as Hm.
  pose proof (Z.div_mod off BSIZE ltac:(lia)) as Hd.
  destruct (Z.min_spec left (BSIZE - off mod BSIZE)) as [[Hlt ->]|[Hge ->]]; zcases; zlia.
Qed.
Lemma nblk_nonneg off n : 0 <= nblk off n.
Proof. unfold nblk. zcases. zlia. Qed.

(** One block's share of the bytes. *)
Lemma block_bytes v a off m :
  0 <= off -> 0 <= m -> off mod BSIZE + m <= BSIZE -> block_ok (v (baddr v a (off / BSIZE))) ->
  take (Z.to_nat m) (drop (Z.to_nat (off mod BSIZE)) (v (baddr v a (off / BSIZE)))) = fbytes v a off m.
Proof.
  intros Ho Hm Hle [Hlen _]. pose proof (Z.mod_pos_bound off BSIZE ltac:(lia)) as Hmod.
  apply list_eq_same_length with (Z.to_nat m).
  - by rewrite length_fbytes.
  - rewrite length_take, length_drop, Hlen. lia.
  - intros i x y Hi. rewrite lookup_take_lt by done. rewrite lookup_drop.
    replace i with (Z.to_nat (Z.of_nat i)) at 2 by lia. rewrite fbytes_lookup by lia. intros Hx [= <-].
    unfold fbyte. replace ((off + Z.of_nat i) / BSIZE) with (off / BSIZE) by zlia.
    replace (Z.to_nat ((off + Z.of_nat i) mod BSIZE)) with (Z.to_nat (off mod BSIZE) + i)%nat by zlia.
    unfold get8. by rewrite Hx.
Qed.

Section io.
Context {S : Type} `{!BlockOps S} `{!BlockLaws S}.
Context (sb : superblock) (Hlay : layout sb).
Context (Hhome : forall b, sb_inodestart sb <= b < sb_size sb -> bk_home b).
Context (ip : nat).
Implicit Types (st : fsys S) (v : Z -> block) (d h : gset Z) (x : inode).

(** ** readi *)

(** The blocks of bytes [off, off + n) are there. *)
Definition dense v (a : list Z) (off n : Z) : Prop :=
  forall bn, 0 < n -> off / BSIZE <= bn -> bn * BSIZE < off + n -> baddr v a bn <> 0.

Lemma fs_ok_mem st v d cap x m : fs_ok sb ip st v d cap x -> fs_ok sb ip (set_fmem m st) v d cap x.
Proof using. done. Qed.
Lemma fs_ok_blk st v d cap x s :
  fs_ok sb ip st v d cap x -> bk_ok s v d ∅ ∅ cap -> fs_ok sb ip (set_blk s st) v d cap x.
Proof using. intros (_ & H) Hs. by split. Qed.

Lemma readi_loop_ok fuel : forall st v d cap x dst off left,
  fs_ok sb ip st v d cap x -> 0 <= off -> off + left <= MAXFILE * BSIZE ->
  dense v (i_addrs x) off left -> nblk off left < Z.of_nat fuel ->
  exists s' m', readi_loop fuel ip dst off left st = Ret tt (set_fmem m' (set_blk s' st)) /\
    bk_ok s' v d ∅ ∅ cap /\ bytes_at m' dst (Z.to_nat left) = fbytes v (i_addrs x) off left /\
    (forall y, y < dst \/ dst + left <= y -> m' y = fs_mem st y).
Proof using Hlay Hhome.
  induction fuel as [|fuel IH]; intros st v d cap x dst off left Hfs Ho Hmax Hdense Hfuel;
    [pose proof (nblk_nonneg off left); lia|].
  cbn [readi_loop]. destruct (Z.ltb_spec 0 left) as [Hl|Hl].
  2: { exists (fs_blk st), (fs_mem st). split_and!; [by destruct st | apply Hfs | | done].
       replace (Z.to_nat left) with 0%nat by lia. unfold fbytes. by rewrite seqZ_nil by lia. }
  pose proof Hfs as (Hok & Hsb & Hx & Hdev & Hm & Ht).
  destruct (chunk_range left off Hl Ho) as [Hc1 Hc2]. set (m := chunk left off) in *.
  assert (0 <= off / BSIZE < MAXFILE) as Hbn by zlia.
  assert (baddr v (i_addrs x) (off / BSIZE) <> 0) as Hne by (apply Hdense; zlia).
  destruct (bmap_there sb Hlay Hhome ip st v d cap x _ Hfs Hbn Hne) as (s1 & E1 & Hfs1).
  rewrite put_ino_id in E1, Hfs1 by done.
  pose proof Ht as (_ & Hb & _). destruct (Hb _ Hbn Hne) as [Hd _].
  set (b := baddr v (i_addrs x) (off / BSIZE)) in *.
  pose proof (data_home sb Hlay Hhome b Hd) as Hh.
  destruct (bk_read s1 v d ∅ ∅ cap b (proj1 Hfs1) Hh) as (i & s2 & s3 & E2 & E3 & E4 & Hok3 & _);
    [set_solver | set_solver | rewrite size_empty; lia |].
  set (piece := take (Z.to_nat m) (drop (Z.to_nat (off mod BSIZE)) (v b))).
  assert (block_ok (v b)) as Hvb by (by eapply bk_view_ok).
  assert (piece = fbytes v (i_addrs x) off m) as Hpiece by (apply block_bytes; done || lia).
  assert (Forall (fun y => 0 <= y < 256) piece) as Hbytes by (apply Forall_take, Forall_drop, Hvb).
  assert (length piece = Z.to_nat m) as Hlen by (by rewrite Hpiece, length_fbytes).
  set (st3 := set_fmem (copy_to (fs_mem st) dst piece) (set_blk s3 st)).
  destruct (IH st3 v d cap x (dst + m) (off + m) (left - m)) as (s' & m' & E & Hok' & Hbs & Hout).
  { by apply fs_ok_mem, fs_ok_blk. }
  { lia. } { lia. }
  { intros bn H0 H1 H2. apply Hdense; zlia. }
  { pose proof (nblk_next left off Hl Ho) as Hnb. fold m in Hnb. lia. }
  exists s', m'. split_and!; [|done| |].
  - rewrite (bind_ino _ _ _ _ Hx), (bind_Ret _ _ _ _ _ E1), Hdev.
    run_blk E2. run_blk E3. unfold bind at 1, modify at 1. fold m piece.
    run_blk E4. exact E.
  - replace (Z.to_nat left) with (Z.to_nat m + Z.to_nat (left - m))%nat by lia.
    rewrite bytes_at_app, Z2Nat.id, Hbs by lia.
    replace left with (m + (left - m)) at 2 by lia. rewrite fbytes_app by lia. f_equal.
    rewrite <- Hpiece, <- Hlen, <- (bytes_at_copy_to (fs_mem st) dst piece Hbytes) at 1.
    rewrite bytes_at_copy_to by done. rewrite <- (bytes_at_copy_to (fs_mem st) dst piece Hbytes) at 2.
    apply bytes_at_ext. intros y Hy. rewrite Hout by lia. done.
  - intros y Hy. rewrite Hout by lia. unfold st3. simpl. rewrite copy_to_spec by done. by zcases.
Qed.

(** ** writei *)

(** What writing the bytes [f] to positions [off, off + n) of the file does to the
    disk and the inode. *)
Definition wrote v x v' x' (off n : Z) (f : Z -> Z) : Prop :=
  let a := i_addrs x in let a' := i_addrs x' in
  x' = set_addrs a' x /\ tree_ok v' sb a' /\
  (forall p, 0 <= p < MAXFILE * BSIZE -> off <= p < off + n -> fbyte v' a' p = f p) /\
  (forall p, 0 <= p < MAXFILE * BSIZE -> ~ (off <= p < off + n) -> baddr v' a' (p / BSIZE) <> 0 ->
     fbyte v' a' p = if baddr v a (p / BSIZE) =? 0 then 0 else fbyte v a p) /\
  (forall bn, 0 <= bn < MAXFILE -> baddr v a bn <> 0 -> baddr v' a' bn = baddr v a bn) /\
  (forall bn, 0 <= bn < MAXFILE -> baddr v a bn = 0 -> baddr v' a' bn <> 0 ->
     off / BSIZE <= bn /\ bn * BSIZE < off + n /\ used v sb (baddr v' a' bn) = false) /\
  dense v' a' off n /\
  (a12 a <> 0 -> a12 a' = a12 a) /\ (a12 a = 0 -> a12 a' <> 0 -> used v sb (a12 a') = false) /\
  (forall c, c < sb_bmapstart sb -> v' c = v c) /\
  (forall c, is_data sb c -> used v sb c = true -> ~ owns v a c -> v' c = v c) /\
  (forall c, 0 <= c < sb_size sb -> used v sb c = true -> used v' sb c = true) /\
  (meta_used v sb -> meta_used v' sb) /\ (dense v a off n -> x' = x).

(** A block of the file afterwards was one before, or was free. *)
Lemma wrote_owns v x v' x' off n f c :
  wrote v x v' x' off n f -> owns v' (i_addrs x') c -> owns v (i_addrs x) c \/ used v sb c = false.
Proof using.
  intros (_ & _ & _ & _ & Hsame & Hnew & _ & H12 & H12' & _) (Hc & [Ha|(bn & Hbn & Hb)]).
  - destruct (decide (a12 (i_addrs x) = 0)) as [Hz|Hz].
    + right. rewrite <- Ha. apply H12'; congruence.
    + left. split; [done|]. left. rewrite <- Ha. by rewrite H12.
  - destruct (decide (baddr v (i_addrs x) bn = 0)) as [Hz|Hz].
    + right. rewrite <- Hb. apply (Hnew bn Hbn Hz). congruence.
    + left. split; [done|]. right. exists bn. split; [done|]. by rewrite <- Hsame.
Qed.

Lemma wrote_nothing v x off f n :
  tree_ok v sb (i_addrs x) -> n <= 0 -> 0 <= off -> wrote v x v x off n f.
Proof using.
  intros Ht Hn Ho. unfold wrote. cbn zeta. split_and!; try done.
  - by destruct x.
  - intros p Hp H. lia.
  - intros p Hp H Hb. by rewrite (proj2 (Z.eqb_neq _ 0)).
  - intros bn H1. lia.
Qed.

Lemma wrote_trans v x v1 x1 v2 x2 off m n f :
  0 <= off -> 0 < m -> 0 <= n -> off + m + n <= MAXFILE * BSIZE -> (0 < n -> (off + m) mod BSIZE = 0) ->
  wrote v x v1 x1 off m f -> wrote v1 x1 v2 x2 (off + m) n f -> wrote v x v2 x2 off (m + n) f.
Proof using Hlay.
  intros Ho Hm Hn Hmax Hal H1 H2. pose proof (wrote_owns v x v1 x1 off m f) as Hown.
  pose proof H1 as (Ex & T1 & B1 & O1 & S1 & N1 & D1 & A1 & A1' & F1 & G1 & U1 & M1 & X1).
  pose proof H2 as (Ex2 & T2 & B2 & O2 & S2 & N2 & D2 & A2 & A2' & F2 & G2 & U2 & M2 & X2).
  cbn zeta in *. assert (forall bn, 0 <= bn < MAXFILE -> baddr v (i_addrs x) bn <> 0 ->
    baddr v2 (i_addrs x2) bn = baddr v (i_addrs x) bn) as Hsame.
  { intros bn Hbn Hne. rewrite S2, S1; try done. by rewrite S1. }
  assert (forall bn, 0 <= bn < MAXFILE -> baddr v1 (i_addrs x1) bn <> 0 -> is_data sb (baddr v1 (i_addrs x1) bn)) as Hdat.
  { intros bn Hbn Hne. destruct T1 as (_ & T & _). by apply T. }
  assert (forall c, 0 <= c < sb_size sb -> used v1 sb c = false -> used v sb c = false) as Hfree.
  { intros c Hc Hf. destruct (used v sb c) eqn:E; [|done]. rewrite U1 in Hf; done. }
  unfold wrote. cbn zeta. split_and!; try done.
  - rewrite Ex2, Ex. done.
  - intros p Hp Hr. destruct (decide (off + m <= p)); [apply B2; lia|].
    assert (baddr v1 (i_addrs x1) (p / BSIZE) <> 0) as Hne by (apply D1; zlia).
    rewrite O2; [| done | lia |].
    + rewrite (proj2 (Z.eqb_neq _ 0)) by done. apply B1; lia.
    + rewrite S2; [done | zlia | done].
  - intros p Hp Hr Hne. rewrite O2; [|done|lia|done].
    destruct (Z.eqb_spec (baddr v1 (i_addrs x1) (p / BSIZE)) 0) as [Hz|Hz].
    + destruct (Z.eqb_spec (baddr v (i_addrs x) (p / BSIZE)) 0) as [_|Hz']; [done|].
      rewrite S1 in Hz; [done | zlia | done].
    + apply O1; [done | lia | done].
  - intros bn Hbn Hz Hne. destruct (decide (baddr v1 (i_addrs x1) bn = 0)) as [Hz1|Hz1].
    + destruct (N2 bn Hbn Hz1 Hne) as (Hn1 & Hn2 & Hn3).
      assert (is_data sb (baddr v2 (i_addrs x2) bn)) as Hdt by (destruct T2 as (_ & T & _); by apply T).
      split_and!; [zlia | lia |]. apply Hfree; [by apply is_data_range | done].
    + rewrite S2 by done. destruct (N1 bn Hbn Hz Hz1) as (? & ? & ?). split_and!; [done | lia | done].
  - intros bn _ Hb1 Hb2. destruct (decide (bn * BSIZE < off + m)) as [Hlt|Hge].
    + rewrite S2; [by apply D1 | zlia | by apply D1].
    + destruct (decide (0 < n)); [|lia]. apply D2; [done | specialize (Hal ltac:(lia)); zlia | lia].
  - intros Ha. rewrite A2, A1; try done. by rewrite A1.
  - intros Ha Ha2. destruct (decide (a12 (i_addrs x1) = 0)) as [Hz|Hz].
    + apply Hfree; [|by apply A2']. destruct T2 as (_ & _ & T & _). destruct (T Ha2) as (? & _). by apply is_data_range.
    + rewrite A2 by done. by apply A1'.
  - intros c Hc. by rewrite F2, F1.
  - intros c Hc Hu Ho'. pose proof (is_data_range sb c Hlay Hc) as Hr.
    rewrite G2, G1; try done; [by apply U1|]. intros Hw. destruct (Hown c H1 Hw) as [?|?]; [done | congruence].
  - auto.
  - auto.
  - intros Hde. rewrite X2.
    + apply X1. intros bn Hb0 Hb1 Hb2. apply Hde; [lia | done | lia].
    + intros bn Hb0 Hb1 Hb2. assert (baddr v (i_addrs x) bn <> 0) by (apply Hde; zlia).
      rewrite S1; [done | zlia | done].
Qed.

Lemma get8_splice o l (d : block) i :
  (o + length l <= length d)%nat ->
  get8 (splice o l d) i =
    if decide (o <= i < o + length l)%nat then default 0 (l !! (i - o)%nat) else get8 d i.
Proof using.
  intros Hlen. unfold get8, splice. case_decide as Hi.
  - rewrite lookup_app_r; rewrite length_take_le by lia; [|lia]. by rewrite lookup_app_l by lia.
  - destruct (decide (i < o)%nat).
    + rewrite lookup_app_l by (rewrite length_take_le; lia). by rewrite lookup_take_lt.
    + rewrite lookup_app_r; rewrite length_take_le by lia; [|lia]. rewrite lookup_app_r by lia.
      rewrite lookup_drop. do 2 f_equal. lia.
Qed.
Lemma splice_ok o l (d : block) :
  block_ok d -> Forall (fun y => 0 <= y < 256) l -> (o + length l <= 512)%nat -> block_ok (splice o l d).
Proof using.
  intros [Hl Hf] Hb Hle. unfold splice. split.
  - rewrite !length_app, length_take, length_drop, Hl. lia.
  - apply Forall_app; split; [by apply Forall_take|]. apply Forall_app; split; [done | by apply Forall_drop].
Qed.

(** One block of the file gets new bytes. *)
Lemma wrote_chunk v d x v1 d1 x1 b off m (f : Z -> Z) l :
  tree_ok v sb (i_addrs x) -> tree_ok v1 sb (i_addrs x1) -> grown sb v d x v1 d1 x1 (off / BSIZE) b ->
  0 <= off -> 0 < m -> off + m <= MAXFILE * BSIZE -> off mod BSIZE + m <= BSIZE ->
  length (v1 b) = 512%nat -> length l = Z.to_nat m ->
  (forall i, 0 <= i < m -> l !! Z.to_nat i = Some (f (off + i))) ->
  wrote v x (<[b := splice (Z.to_nat (off mod BSIZE)) l (v1 b)]> v1) x1 off m f.
Proof using Hlay.
  intros Ht Ht1 (Ex & Hd & Hba & Hnew & Hold & (F1 & F2 & F3 & F4) & H12 & H12' & _) Ho Hm Hmax Hc Hlb Hll Hl.
  cbn zeta in *. set (bn := off / BSIZE) in *. set (v2 := <[b := _]> v1).
  assert (0 <= bn < MAXFILE) as Hbn by (unfold bn; zlia).
  pose proof (is_data_pos sb b Hlay Hd) as Hb0.
  assert (baddr v1 (i_addrs x1) bn = b) as Hb by (rewrite Hba by done; by rewrite decide_True).
  assert (a12 (i_addrs x1) <> 0 -> a12 (i_addrs x1) <> b) as Hne12.
  { intros Hz E. destruct Ht1 as (_ & _ & T & _). destruct (T Hz) as (_ & _ & T'). apply (T' bn Hbn). congruence. }
  assert (forall c, 0 <= c < sb_size sb -> used v2 sb c = used v1 sb c) as Hused.
  { intros c Hcr. unfold used, v2. rewrite fn_lookup_insert_ne; [done|].
    pose proof (BBLOCK_range sb c Hlay Hcr). unfold is_data in Hd. lia. }
  assert (forall k, baddr v2 (i_addrs x1) k = baddr v1 (i_addrs x1) k) as Hba2.
  { intros k. apply baddr_ext. intros Hz. unfold v2. rewrite fn_lookup_insert_ne; [done|].
    intros E. by apply (Hne12 Hz). }
  assert (tree_ok v2 sb (i_addrs x1)) as Ht2.
  { apply (tree_ok_ext v1); [|intros c Hcd Hcu; by rewrite Hused by (by apply is_data_range)|done].
    intros Hz. unfold v2. rewrite fn_lookup_insert_ne; [done|]. intros E. by apply (Hne12 Hz). }
  assert (forall k, 0 <= k < MAXFILE -> k <> bn -> baddr v (i_addrs x) k <> 0 ->
    v2 (baddr v (i_addrs x) k) = v (baddr v (i_addrs x) k)) as Hblk.
  { intros k Hk Hkb Hz. pose proof Ht as (_ & T & T12 & _). destruct (T k Hk Hz) as [Hdk Huk].
    assert (baddr v1 (i_addrs x1) k = baddr v (i_addrs x) k) as Ek by (rewrite Hba by done; by rewrite decide_False).
    assert (baddr v (i_addrs x) k <> b).
    { intros E. destruct Ht1 as (_ & _ & _ & Tinj). apply Hkb, Tinj; congruence. }
    unfold v2. rewrite fn_lookup_insert_ne by congruence. apply F2; try done.
    intros E. destruct (decide (a12 (i_addrs x) = 0)) as [Hz12|Hz12]; [congruence|].
    destruct (T12 Hz12) as (_ & _ & T'). by apply (T' k Hk). }
  assert (forall p, 0 <= p < MAXFILE * BSIZE -> p / BSIZE = bn ->
    fbyte v2 (i_addrs x1) p = if decide (off <= p < off + m) then f p
      else get8 (v1 b) (Z.to_nat (p mod BSIZE))) as Hown.
  { intros p Hp Epb. unfold fbyte. rewrite Hba2, Epb, Hb. unfold v2. rewrite fn_lookup_insert.
    rewrite get8_splice by (rewrite Hlb; zlia). rewrite Hll.
    destruct (decide (off <= p < off + m)) as [Hr|Hr].
    - rewrite decide_True by (unfold bn in *; zlia).
      replace (Z.to_nat (p mod BSIZE) - Z.to_nat (off mod BSIZE))%nat with (Z.to_nat (p - off)) by (unfold bn in *; zlia).
      rewrite Hl by lia. simpl. f_equal. lia.
    - by rewrite decide_False by (unfold bn in *; zlia). }
  unfold wrote. cbn zeta. split; [done|]. split; [done|]. setoid_rewrite Hba2. split_and!; try done.
  - intros p Hp Hr. rewrite Hown; [by rewrite decide_True | done | unfold bn in *; zlia].
  - intros p Hp Hr Hnz. destruct (decide (p / BSIZE = bn)) as [Epb|Epb].
    + rewrite Hown by done. rewrite decide_False by done. rewrite Epb.
      destruct (Z.eqb_spec (baddr v (i_addrs x) bn) 0) as [Hz|Hz].
      * destruct (Hnew Hz) as [-> _]. unfold get8. rewrite lookup_replicate_2 by zlia. done.
      * destruct (Hold Hz) as (-> & _ & -> & _). unfold fbyte. by rewrite Epb.
    + assert (baddr v1 (i_addrs x1) (p / BSIZE) = baddr v (i_addrs x) (p / BSIZE)) as Ek
        by (rewrite Hba by zlia; by rewrite decide_False).
      rewrite Ek in Hnz. rewrite (proj2 (Z.eqb_neq _ 0)) by done. unfold fbyte. rewrite Hba2, Ek.
      rewrite Hblk; [done | zlia | done | done].
  - intros k Hk Hz. rewrite Hba by done. case_decide as E; [|done]. subst k. by destruct (Hold Hz) as (-> & _).
  - intros k Hk Hz. rewrite Hba by done. case_decide as E; [|done]. subst k. intros _. destruct (Hnew Hz) as [_ Hu].
    split_and!; [done | unfold bn; zlia | done].
  - intros k _ Hk1 Hk2. rewrite Hba2, Hba by (unfold bn in *; zlia). by rewrite decide_True by (unfold bn in *; zlia).
  - intros c Hcb. unfold v2. rewrite fn_lookup_insert_ne; [by apply F1|].
    unfold is_data, datastart, layout in *. zlia.
  - intros c Hcd Hcu Hno. assert (c <> b).
    { intros ->. destruct (decide (baddr v (i_addrs x) bn = 0)) as [Hz|Hz].
      - destruct (Hnew Hz) as [_ Hu]. congruence.
      - destruct (Hold Hz) as (Eb & _). apply Hno. split; [done|]. right. by exists bn. }
    unfold v2. rewrite fn_lookup_insert_ne by done. apply F2; try done. intros E. apply Hno.
    split; [by eapply is_data_pos|]. by left.
  - intros c Hcr Hcu. rewrite Hused by done. by apply F3.
  - intros Hmu c Hcr. rewrite Hused by (unfold layout in *; lia). by apply F4.
  - intros Hde. destruct (Hold (Hde bn ltac:(lia) ltac:(unfold bn; lia) ltac:(unfold bn; zlia))) as (_ & -> & _). done.
Qed.

(** The blocks and the log space that are needed: none are allocated for blocks
    that are there. *)
Definition enough v d (cap : nat) (a : list Z) off n : Prop :=
  (room sb d a + Z.to_nat (nblk off n) <= cap)%nat /\
  (dense v a off n \/ (Z.to_nat (nblk off n) + no_ind a <= nfree v sb)%nat).

(** The bitmap is not in the data blocks. *)
Lemma nfree_data v b y : is_data sb b -> nfree (<[b := y]> v) sb = nfree v sb.
Proof using Hlay.
  intros Hd. unfold nfree. f_equal. apply set_eq. intros c. rewrite !elem_of_free_set.
  destruct (decide (0 <= c < sb_size sb)) as [Hc|]; [|tauto].
  unfold used. rewrite fn_lookup_insert_ne; [done|].
  pose proof (BBLOCK_range sb c Hlay Hc). unfold is_data in Hd. lia.
Qed.

Lemma writei_step fuel st v d cap x src off left :
  fs_ok sb ip st v d cap x -> mem_ok (fs_mem st) -> 0 <= off -> 0 < left -> off + left <= MAXFILE * BSIZE ->
  enough v d cap (i_addrs x) off left ->
  let m := chunk left off in
  exists s' v' d' x',
    writei_loop (Datatypes.S fuel) ip src off left st =
      writei_loop fuel ip (src + m) (off + m) (left - m) (put_ino ip s' x' st) /\
    fs_ok sb ip (put_ino ip s' x' st) v' d' cap x' /\
    wrote v x v' x' off m (fun p => fs_mem st (src + (p - off))) /\
    enough v' d' cap (i_addrs x') (off + m) (left - m) /\
    (room sb d' (i_addrs x') <= room sb d (i_addrs x) + 1)%nat /\
    (nfree v sb + no_ind (i_addrs x') <= nfree v' sb + 1 + no_ind (i_addrs x))%nat.
Proof using Hlay Hhome.
  intros Hfs Hmem Ho Hl Hmax [Hroom Hneed] m. pose proof Hfs as (Hok & Hsb & Hx & Hdev & Hm & Ht).
  destruct (chunk_range left off Hl Ho) as [Hc1 Hc2]. fold m in Hc1, Hc2.
  pose proof (nblk_next left off Hl Ho) as Hnb. fold m in Hnb. pose proof (nblk_nonneg (off + m) (left - m)) as Hnn.
  assert (0 <= off / BSIZE < MAXFILE) as Hbn by zlia.
  destruct (bmap_ok sb Hlay Hhome ip st v d cap x (off / BSIZE) Hfs Hbn) as (b & s1 & v1 & d1 & x1 & E1 & Hfs1 & Hg).
  { intros Hz. split; [|lia]. destruct Hneed as [Hde|?]; [|lia]. exfalso. apply (Hde (off / BSIZE)); [lia | lia | zlia | done]. }
  pose proof Hfs1 as (Hok1 & Hsb1 & Hx1 & Hdev1 & Hm1 & Ht1).
  pose proof Hg as (_ & Hd & Hba & _ & Hold & _ & H12 & _ & Hdd & Hnf). cbn zeta in *.
  pose proof (data_home sb Hlay Hhome b Hd) as Hh.
  assert (block_ok (v1 b)) as Hvb by (by eapply bk_view_ok).
  set (l := bytes_at (fs_mem st) src (Z.to_nat m)).
  set (o := Z.to_nat (off mod BSIZE)).
  assert (length l = Z.to_nat m) as Hll by apply length_bytes_at.
  assert (Forall (fun y => 0 <= y < 256) l) as Hlf.
  { apply Forall_lookup. intros i y Hy. assert (i < Z.to_nat m)%nat by (rewrite <- Hll; by eapply lookup_lt_Some).
    unfold l in Hy. rewrite bytes_at_lookup in Hy by done. injection Hy as <-. apply Hmem. }
  assert ({[b]} ∪ d1 ⊆ {[b]} ∪ (d ∪ bmaps sb ∪ ind_set (i_addrs x1))) as Hsub by (clear -Hdd; set_solver).
  destruct (bk_update s1 v1 d1 ∅ ∅ cap b (splice o l) Hok1 Hh)
    as (i & s2 & s3 & s4 & s5 & E2 & _ & E3 & E4 & E5 & Hok5 & _);
    [clear; set_solver | clear; set_solver | rewrite size_empty; lia | apply splice_ok; [done | done | rewrite Hll; unfold o; zlia] | |].
  { apply (room_fits sb d _ (i_addrs x) (i_addrs x1) b); [lia | done | done]. }
  pose proof (wrote_chunk v d x v1 d1 x1 b off m (fun p => fs_mem st (src + (p - off))) l Ht Ht1 Hg) as Hw.
  specialize (Hw ltac:(lia) ltac:(lia) ltac:(lia) ltac:(lia) (proj1 Hvb) Hll).
  assert (wrote v x (<[b := splice o l (v1 b)]> v1) x1 off m (fun p => fs_mem st (src + (p - off)))) as Hw'.
  { apply Hw. intros j Hj. unfold l. rewrite bytes_at_lookup by lia. do 2 f_equal. lia. }
  assert (room sb ({[b]} ∪ d1) (i_addrs x1) <= room sb d (i_addrs x) + 1)%nat as Hrg
    by (by apply (room_grow sb d _ (i_addrs x) (i_addrs x1) b)).
  exists s5, (<[b := splice o l (v1 b)]> v1), ({[b]} ∪ d1), x1. split; [|split; [|split; [|split; [|split]]]].
  - cbn [writei_loop]. rewrite (proj2 (Z.ltb_lt 0 left)) by done.
    rewrite (bind_ino _ _ _ _ Hx), (bind_Ret _ _ _ _ _ E1), Hdev. run_blk E2.
    unfold gets. unfold bind at 1. fold m l o. run_blk E3. run_blk E4. run_blk E5. done.
  - destruct Hw' as (_ & Htw & _ & _ & _ & _ & _ & _ & _ & _ & _ & _ & Hmw & _).
    split_and!; [exact Hok5 | exact Hsb | by eapply put_ino_lookup | exact Hdev1 | by apply Hmw | exact Htw].
  - exact Hw'.
  - split; [lia|]. destruct Hneed as [Hde|Hfree].
    + left. intros k Hk0 Hk1 Hk2. assert (baddr v (i_addrs x) k <> 0) as Hkz by (apply Hde; zlia).
      destruct Hw' as (_ & _ & _ & _ & Hs & _). rewrite Hs; [done | zlia | done].
    + right. rewrite nfree_data by done. lia.
  - exact Hrg.
  - by rewrite nfree_data.
Qed.

Lemma wrote_ext v x v' x' off n f g :
  (forall p, f p = g p) -> wrote v x v' x' off n f -> wrote v x v' x' off n g.
Proof using.
  intros Hfg (A1 & A2 & A3 & A4). cbn zeta in *. split; [done|]. split; [done|]. split; [|done].
  intros p Hp Hr. rewrite <- Hfg. by apply A3.
Qed.

Lemma writei_loop_ok fuel : forall st v d cap x src off left,
  fs_ok sb ip st v d cap x -> mem_ok (fs_mem st) -> 0 <= off -> 0 <= left -> off + left <= MAXFILE * BSIZE ->
  enough v d cap (i_addrs x) off left -> nblk off left < Z.of_nat fuel ->
  exists s' v' d' x',
    writei_loop fuel ip src off left st = Ret tt (put_ino ip s' x' st) /\
    fs_ok sb ip (put_ino ip s' x' st) v' d' cap x' /\
    wrote v x v' x' off left (fun p => fs_mem st (src + (p - off))) /\
    (room sb d' (i_addrs x') <= room sb d (i_addrs x) + Z.to_nat (nblk off left))%nat /\
    (nfree v sb + no_ind (i_addrs x') <= nfree v' sb + Z.to_nat (nblk off left) + no_ind (i_addrs x))%nat.
Proof using Hlay Hhome.
  induction fuel as [|fuel IH]; intros st v d cap x src off left Hfs Hmem Ho Hl Hmax Hen Hfuel;
    [pose proof (nblk_nonneg off left); lia|].
  destruct (decide (0 < left)) as [Hpos|Hnp].
  - destruct (writei_step fuel st v d cap x src off left Hfs Hmem Ho Hpos Hmax Hen)
      as (s1 & v1 & d1 & x1 & E1 & Hfs1 & Hw1 & Hen1 & Hr1 & Hf1).
    destruct (chunk_range left off Hpos Ho) as [Hc1 Hc2]. pose proof (nblk_next left off Hpos Ho) as Hnb.
    set (m := chunk left off) in *. pose proof (nblk_nonneg (off + m) (left - m)).
    destruct (IH (put_ino ip s1 x1 st) v1 d1 cap x1 (src + m) (off + m) (left - m))
      as (s' & v' & d' & x' & E & Hfs' & Hw & Hr & Hf); try done; try lia.
    rewrite put_ino_twice in E, Hfs'. exists s', v', d', x'. rewrite E1. split; [done|]. split; [done|].
    split; [|lia]. replace left with (m + (left - m)) by lia.
    eapply wrote_trans; [done | lia | lia | lia | | exact Hw1 |].
    + intros Hrest. unfold m, chunk in *. zlia.
    + eapply wrote_ext; [|exact Hw]. intros p. simpl. f_equal. lia.
  - assert (left = 0) as -> by lia. pose proof Hfs as (Hok & Hsb & Hx & Hdev & Hm & Ht).
    exists (fs_blk st), v, d, x. rewrite put_ino_same by done. split; [done|]. split; [done|].
    split; [by apply wrote_nothing | lia].
Qed.

(** ** The inode on the disk *)

(** The inode block holds what the cache holds. *)
Definition synced v x : Prop := get_dinode (dino_off (i_inum x)) (v (IBLOCK (i_inum x) sb)) x = x.

Lemma IBLOCK_range inum : 0 <= inum < sb_ninodes sb -> sb_inodestart sb <= IBLOCK inum sb < sb_bmapstart sb.
Proof using Hlay. intros H. unfold IBLOCK, layout in *. zlia. Qed.
Lemma IBLOCK_home inum : 0 <= inum < sb_ninodes sb -> bk_home (IBLOCK inum sb).
Proof using Hlay Hhome.
  intros H. apply Hhome. pose proof (IBLOCK_range inum H). unfold layout, datastart in *. zlia.
Qed.
Lemma dino_off_fits inum : (dino_off inum + 64 <= 512)%nat.
Proof using. unfold dino_off. zlia. Qed.

Lemma iupdate_ok st v d cap x :
  bk_ok (fs_blk st) v d ∅ ∅ cap -> fs_sb st = sb -> fs_ic st !! ip = Some x -> i_dev x = 1 ->
  0 <= i_inum x < sb_ninodes sb -> (size ({[IBLOCK (i_inum x) sb]} ∪ d) <= cap)%nat ->
  exists s', iupdate ip st = Ret tt (set_blk s' st) /\
    bk_ok s' (<[IBLOCK (i_inum x) sb := put_dinode (dino_off (i_inum x)) x (v (IBLOCK (i_inum x) sb))]> v)
      ({[IBLOCK (i_inum x) sb]} ∪ d) ∅ ∅ cap.
Proof using Hlay Hhome.
  intros Hok Hsb Hx Hdev Hin Hcap. pose proof (IBLOCK_home _ Hin) as Hh.
  destruct (bk_update (fs_blk st) v d ∅ ∅ cap (IBLOCK (i_inum x) sb) (put_dinode (dino_off (i_inum x)) x) Hok Hh)
    as (i & s1 & s2 & s3 & s4 & E1 & _ & E2 & E3 & E4 & Hok4 & _);
    [clear; set_solver | clear; set_solver | rewrite size_empty; lia
    | apply put_dinode_ok; by eapply bk_view_ok | done |].
  exists s4. split; [|done]. unfold iupdate, sblock, gets. unfold bind at 1.
  rewrite (bind_ino _ _ _ _ Hx), Hsb, Hdev. run_blk E1. run_blk E2. run_blk E3.
  end_blk E4.
Qed.

Lemma synced_put v x : block_ok (v (IBLOCK (i_inum x) sb)) -> inode_wf x ->
  synced (<[IBLOCK (i_inum x) sb := put_dinode (dino_off (i_inum x)) x (v (IBLOCK (i_inum x) sb))]> v) x.
Proof using.
  intros [Hl _] Hwf. unfold synced. rewrite fn_lookup_insert. apply get_put_dinode; [|done].
  rewrite Hl. apply dino_off_fits.
Qed.

(** Writing an inode block touches no file. *)
Lemma fbyte_low v a p c y : c < sb_bmapstart sb -> tree_ok v sb a -> 0 <= p < MAXFILE * BSIZE ->
  baddr v a (p / BSIZE) <> 0 -> fbyte (<[c := y]> v) a p = fbyte v a p.
Proof using Hlay.
  intros Hc Ht Hp Hne. unfold fbyte. pose proof Ht as (_ & Hb & Ha & _).
  rewrite (baddr_ext v).
  - destruct (Hb (p / BSIZE) ltac:(zlia) Hne) as [Hd _]. rewrite fn_lookup_insert_ne; [done|].
    unfold is_data, datastart, layout in *. zlia.
  - intros Hz. destruct (Ha Hz) as (Hd & _). rewrite fn_lookup_insert_ne; [done|].
    unfold is_data, datastart, layout in *. zlia.
Qed.
Lemma used_low v b c y : c < sb_bmapstart sb -> 0 <= b < sb_size sb -> used (<[c := y]> v) sb b = used v sb b.
Proof using Hlay.
  intros Hc Hb. unfold used. rewrite fn_lookup_insert_ne; [done|]. pose proof (BBLOCK_range sb b Hlay Hb). lia.
Qed.
Lemma nfree_low v c y : c < sb_bmapstart sb -> nfree (<[c := y]> v) sb = nfree v sb.
Proof using Hlay.
  intros Hc. unfold nfree. f_equal. apply set_eq. intros b. rewrite !elem_of_free_set.
  destruct (decide (0 <= b < sb_size sb)) as [Hb|]; [by rewrite used_low | tauto].
Qed.
Lemma tree_ok_low v a c y : c < sb_bmapstart sb -> tree_ok v sb a -> tree_ok (<[c := y]> v) sb a.
Proof using Hlay.
  intros Hc Ht. apply (tree_ok_ext v); [| |done].
  - intros Hz. destruct Ht as (_ & _ & Ha & _). destruct (Ha Hz) as (Hd & _). rewrite fn_lookup_insert_ne; [done|].
    unfold is_data, datastart, layout in *. zlia.
  - intros b Hb. rewrite used_low; [done | done | by apply is_data_range].
Qed.
Lemma baddr_low v a c y bn : c < sb_bmapstart sb -> tree_ok v sb a -> baddr (<[c := y]> v) a bn = baddr v a bn.
Proof using Hlay.
  intros Hc (_ & _ & Ha & _). apply baddr_ext. intros Hz. destruct (Ha Hz) as (Hd & _).
  rewrite fn_lookup_insert_ne; [done|]. unfold is_data, datastart, layout in *. zlia.
Qed.

(** ** The two operations *)

(** A regular file or directory that fits an inode, without holes. *)
Definition file_ok v x : Prop :=
  i_type x <> T_DEV /\ 0 <= i_size x <= MAXFILE * BSIZE /\ dense v (i_addrs x) 0 (i_size x).

(** The bytes of a file are bytes. *)
Lemma fbyte_range s v d h m cap a p : bk_ok s v d h m cap -> tree_ok v sb a -> 0 <= p < MAXFILE * BSIZE ->
  baddr v a (p / BSIZE) <> 0 -> 0 <= fbyte v a p < 256.
Proof using Hlay Hhome.
  intros Hok (_ & Hb & _) Hp Hne. apply get8_range. eapply bk_view_ok; [done|].
  eapply data_home; [done | done |]. apply Hb; [zlia | done].
Qed.

Lemma dense_sub v a off n size :
  dense v a 0 size -> 0 <= off -> off + n <= size -> dense v a off n.
Proof using. intros H Ho Hle bn Hn H1 H2. apply H; zlia. Qed.

Lemma readi_ok devread st v d cap x dst off n :
  fs_ok sb ip st v d cap x -> file_ok v x -> 0 <= off < W32 -> 0 <= n < W32 ->
  exists r s' m', readi devread ip dst off n st = Ret r (set_fmem m' (set_blk s' st)) /\
    bk_ok s' v d ∅ ∅ cap /\
    if (i_size x <? off) || (W32 <=? off + n) then r = -1 /\ m' = fs_mem st
    else
      let k := Z.min n (i_size x - off) in
      r = k /\ bytes_at m' dst (Z.to_nat k) = fbytes v (i_addrs x) off k /\
      forall y, y < dst \/ dst + k <= y -> m' y = fs_mem st y.
Proof using Hlay Hhome.
  intros Hfs (Hty & Hsz & Hde) Ho Hn. pose proof Hfs as (Hok & Hsb & Hx & Hdev & _).
  unfold readi. rewrite (bind_ino _ _ _ _ Hx). rewrite (proj2 (Z.eqb_neq _ _)) by done.
  assert ((u32 (off + n) <? off) = (W32 <=? off + n)) as Hw.
  { unfold u32. destruct (Z.leb_spec W32 (off + n)); [apply Z.ltb_lt | apply Z.ltb_ge]; zlia. }
  rewrite Hw. destruct (Z.ltb_spec (i_size x) off) as [H1|H1]; simpl.
  { exists (-1), (fs_blk st), (fs_mem st). split; [by destruct st | done]. }
  destruct (Z.leb_spec W32 (off + n)) as [H2|H2]; simpl.
  { exists (-1), (fs_blk st), (fs_mem st). split; [by destruct st | done]. }
  rewrite u32_small by lia.
  set (k := if i_size x <? off + n then i_size x - off else n).
  assert (k = Z.min n (i_size x - off)) as Hk by (unfold k; zcases).
  destruct (readi_loop_ok (Z.to_nat (k / BSIZE + 3)) st v d cap x dst off k) as (s' & m' & E & Hok' & Hb & Hout);
    try done; try lia.
  { apply (dense_sub _ _ _ _ (i_size x)); [done | lia | lia]. }
  { unfold nblk. rewrite Z2Nat.id by zlia. zcases; zlia. }
  exists k, s', m'. rewrite (bind_Ret _ _ _ _ _ E). rewrite <- Hk. split; [|by split_and!].
  unfold ret. f_equal. apply s32_small. lia.
Qed.

(** C40: [readi].  On a file without holes it fails, changing nothing, when the
    offset is beyond the end or offset plus count wraps around; otherwise it
    returns how many of the bytes asked for the file has, puts exactly these
    bytes of the file at the destination and touches no other memory.  Neither
    the disk nor the inode cache changes. *)
Theorem readi_returns_bytes devread st v d cap x dst off n :
  fs_ok sb ip st v d cap x -> file_ok v x -> 0 <= off < W32 -> 0 <= n < W32 ->
  exists r s' m', readi devread ip dst off n st = Ret r (set_fmem m' (set_blk s' st)) /\
    bk_ok s' v d ∅ ∅ cap /\
    if (i_size x <? off) || (W32 <=? off + n) then r = -1 /\ m' = fs_mem st
    else
      let k := Z.min n (i_size x - off) in
      r = k /\ bytes_at m' dst (Z.to_nat k) = fbytes v (i_addrs x) off k /\
      forall y, y < dst \/ dst + k <= y -> m' y = fs_mem st y.
Proof using Hlay Hhome. apply readi_ok. Qed.

(** The file after [n] bytes [f] were written at [off], and all that was not
    written. *)
Definition written v x v' x' (off n : Z) (f : Z -> Z) : Prop :=
  x' = set_size (Z.max (i_size x) (off + n)) (set_addrs (i_addrs x') x) /\ file_ok v' x' /\
  (forall p, 0 <= p < i_size x' -> fbyte v' (i_addrs x') p =
     if (off <=? p) && (p <? off + n) then f p else fbyte v (i_addrs x) p) /\
  (forall c, is_data sb c -> used v sb c = true -> ~ owns v (i_addrs x) c -> v' c = v c) /\
  (forall c, 0 <= c < sb_size sb -> used v sb c = true -> used v' sb c = true) /\
  (forall c, owns v' (i_addrs x') c -> owns v (i_addrs x) c \/ used v sb c = false) /\
  (forall c, sb_inodestart sb <= c < sb_bmapstart sb -> c <> IBLOCK (i_inum x) sb -> v' c = v c) /\
  (forall i, (i < dino_off (i_inum x) \/ dino_off (i_inum x) + 64 <= i)%nat ->
     get8 (v' (IBLOCK (i_inum x) sb)) i = get8 (v (IBLOCK (i_inum x) sb)) i).

Lemma wrote_file v x v' x' off n f :
  wrote v x v' x' off n f -> file_ok v x -> 0 <= off <= i_size x -> 0 <= n -> off + n <= MAXFILE * BSIZE ->
  0 <= i_inum x < sb_ninodes sb ->
  written v x v' (set_size (Z.max (i_size x) (off + n)) x') off n f.
Proof using Hlay.
  intros Hw (Hty & Hsz & Hde) Ho Hn Hmax Hin. pose proof (fun c => wrote_owns _ _ _ _ _ _ _ c Hw) as Hown.
  destruct Hw as (Ex & Ht & B & O & Sm & _ & Dn & _ & _ & Lo & Da & U & _ & _).
  cbn zeta in *. pose proof (IBLOCK_range _ Hin) as Hib.
  assert (dense v' (i_addrs x') 0 (Z.max (i_size x) (off + n))) as Hde'.
  { intros bn Hbn H1 H2. destruct (decide (bn * BSIZE < i_size x)) as [Hlt|Hge].
    - rewrite Sm by (try apply Hde; zlia). apply Hde; zlia.
    - apply Dn; zlia. }
  unfold written, file_ok. rewrite Ex in *. simpl in *. split_and!; try done; try lia.
  - intros p Hp. destruct (Z.leb_spec off p), (Z.ltb_spec p (off + n)); simpl; try (apply B; lia);
      (rewrite O by (try lia; apply Hde'; zlia); rewrite (proj2 (Z.eqb_neq _ 0)); [done | apply Hde; zlia]).
  - intros c Hc _. apply Lo. lia.
  - intros i _. by rewrite Lo by lia.
Qed.

(** Storing the inode on the disk changes its slot and nothing else. *)
Lemma written_stored v x v' x' off n f :
  let c := IBLOCK (i_inum x) sb in
  written v x v' x' off n f -> 0 <= i_inum x < sb_ninodes sb -> tree_ok v' sb (i_addrs x') -> block_ok (v' c) ->
  written v x (<[c := put_dinode (dino_off (i_inum x)) x' (v' c)]> v') x' off n f.
Proof using Hlay.
  intros c (Ex & (Hty & Hsz & Hde) & By & Da & U & Ow & Lo & Sl) Hin Ht [Hlen _].
  pose proof (IBLOCK_range _ Hin) as Hib. fold c in Hib, Lo, Sl.
  split; [done|]. split_and!.
  - split_and!; try done; try lia. intros bn Hbn H1 H2. rewrite baddr_low by (done || lia). by apply Hde.
  - intros p Hp. rewrite fbyte_low; [by apply By | lia | done | lia | apply Hde; zlia].
  - intros b Hb Hu Ho. rewrite fn_lookup_insert_ne by (unfold is_data, datastart, layout in *; zlia). by apply Da.
  - intros b Hb Hu. rewrite used_low by (done || lia). by apply U.
  - intros b (Hb & Hor). apply Ow. split; [done|]. destruct Hor as [?|(bn & Hbn & E)]; [by left|right].
    exists bn. split; [done|]. by rewrite baddr_low in E by (done || lia).
  - intros b Hb Hne. rewrite fn_lookup_insert_ne by done. by apply Lo.
  - intros i Hi. fold c. rewrite fn_lookup_insert, get8_put_dinode; [by apply Sl | | by destruct Ht | done].
    rewrite Hlen. apply dino_off_fits.
Qed.

Lemma tree_addrs_wf v a : tree_ok v sb a -> Forall (fun b => 0 <= b < W32) a.
Proof using Hlay.
  intros (Hl & Hb & Ha & _). apply Forall_lookup. intros i b Hi.
  pose proof (lookup_lt_Some _ _ _ Hi) as Hlt. destruct (decide (i = 12%nat)) as [->|Hne].
  - assert (a12 a = b) as E by (unfold a12; by rewrite Hi).
    destruct (decide (b = 0)) as [->|Hz]; [lia|]. destruct Ha as [Hd _]; [congruence|]. rewrite E in Hd.
    unfold is_data, datastart, layout in *. zlia.
  - assert (baddr v a (Z.of_nat i) = b) as E.
    { unfold baddr. rewrite (proj2 (Z.ltb_lt _ _)) by lia. by rewrite Nat2Z.id, Hi. }
    destruct (decide (b = 0)) as [->|Hz]; [lia|].
    destruct (Hb (Z.of_nat i) ltac:(lia)) as [Hd _]; [congruence|]. rewrite E in Hd.
    unfold is_data, datastart, layout in *. zlia.
Qed.

(** What [writei] does after its loop: the size, and the inode on the disk, when
    the file grew. *)
Lemma writei_finish st s v0 v d cap x0 x off n f :
  fs_ok sb ip (put_ino ip s x st) v d cap x -> fs_ic st !! ip = Some x0 -> x = set_addrs (i_addrs x) x0 ->
  written v0 x0 v (set_size (Z.max (i_size x0) (off + n)) x) off n f ->
  0 <= i_inum x0 < sb_ninodes sb -> inode_wf x0 -> 0 <= off <= i_size x0 ->
  (size ({[IBLOCK (i_inum x0) sb]} ∪ d) <= cap)%nat -> (off + n <= i_size x0 -> synced v x) ->
  exists s' v' d' x',
    (if (0 <? n) && (i_size x0 <? off + n) then upd_ino ip (set_size (off + n)) ;;; iupdate ip
     else ret tt) (put_ino ip s x st) = Ret tt (put_ino ip s' x' st) /\
    fs_ok sb ip (put_ino ip s' x' st) v' d' cap x' /\ written v0 x0 v' x' off n f /\ synced v' x' /\
    nfree v' sb = nfree v sb /\ i_addrs x' = i_addrs x.
Proof using Hlay Hhome.
  intros Hfs Hx0 Ex Hw Hin Hwf Ho Hcap Hsy. pose proof Hfs as (Hok & Hsb & Hx & Hdev & Hm & Ht).
  assert (i_inum x = i_inum x0 /\ i_size x = i_size x0) as [Ein Esz] by (by rewrite Ex).
  destruct ((0 <? n) && (i_size x0 <? off + n)) eqn:Hg.
  - apply andb_true_iff in Hg as [Hn Hgt]. apply Z.ltb_lt in Hn, Hgt.
    rewrite Z.max_r in Hw by lia. set (x' := set_size (off + n) x) in *.
    pose proof Hw as (_ & (_ & Hsz & _) & _). simpl in Hsz.
    destruct (iupdate_ok (put_ino ip s x' st) v d cap x') as (s' & E & Hok'); try done;
      [by eapply put_ino_lookup | simpl; congruence | simpl; by rewrite Ein |].
    pose proof (IBLOCK_range _ Hin) as Hib. assert (i_inum x' = i_inum x0) as Ein' by done. rewrite Ein' in Hok'.
    assert (block_ok (v (IBLOCK (i_inum x0) sb))) as Hbo by (eapply bk_view_ok; [done | by apply IBLOCK_home]).
    eexists s', _, _, x'. split; [|split; [split; [exact Hok'|]|split; [|split; [|split]]]].
    + pose proof (upd_ino_eq ip s (set_size (off + n)) x (put_ino ip s x st) Hx) as E0.
      rewrite put_ino_twice in E0. unfold bind.
      rewrite (E0 : upd_ino ip _ (put_ino ip s x st) = _). exact E.
    + split_and!; try done; [by eapply put_ino_lookup | | apply tree_ok_low; [lia | done]].
      intros b Hb. rewrite used_low; [by apply Hm | lia | unfold layout in *; lia].
    + by apply written_stored.
    + rewrite <- Ein'. apply synced_put; [by rewrite Ein'|]. destruct Hwf as (W1 & W2 & W3 & W4 & W5 & W6 & W7).
      unfold x'. rewrite Ex. unfold inode_wf. simpl. split_and!; try apply W1; try apply W2; try apply W3; try apply W4;
        try lia; [by destruct Ht | by eapply tree_addrs_wf].
    + apply nfree_low. lia.
    + done.
  - assert (off + n <= i_size x0) as Hle.
    { apply andb_false_iff in Hg as [Hg|Hg]; apply Z.ltb_ge in Hg; lia. }
    rewrite Z.max_l in Hw by lia. rewrite <- Esz in Hw. replace (set_size (i_size x) x) with x in Hw by (by destruct x).
    exists s, v, d, x. by split_and!; auto.
Qed.

Lemma writei_ok devwrite st v d cap x src off n :
  fs_ok sb ip st v d cap x -> file_ok v x -> inode_wf x -> synced v x -> mem_ok (fs_mem st) ->
  0 <= i_inum x < sb_ninodes sb -> 0 <= off < W32 -> 0 <= n < W32 ->
  (room sb d (i_addrs x) + Z.to_nat (nblk off n) + 1 <= cap)%nat ->
  (Z.to_nat (nblk off n) + no_ind (i_addrs x) <= nfree v sb)%nat ->
  exists r s' v' d' x', writei devwrite ip src off n st = Ret r (put_ino ip s' x' st) /\
    fs_ok sb ip (put_ino ip s' x' st) v' d' cap x' /\
    if (i_size x <? off) || (MAXFILE * BSIZE <? off + n) then r = -1 /\ v' = v /\ d' = d /\ x' = x
    else r = n /\ written v x v' x' off n (fun p => fs_mem st (src + (p - off))) /\ synced v' x' /\
      (nfree v sb + no_ind (i_addrs x') <= nfree v' sb + Z.to_nat (nblk off n) + no_ind (i_addrs x))%nat.
Proof using Hlay Hhome.
  intros Hfs Hfile Hwf Hsy Hmem Hin Ho Hn Hroom Hfree. pose proof Hfs as (Hok & Hsb & Hx & Hdev & Hm & Ht).
  pose proof Hfile as (Hty & Hsz & Hde).
  unfold writei. rewrite (bind_ino _ _ _ _ Hx). rewrite (proj2 (Z.eqb_neq _ _)) by done.
  destruct (Z.ltb_spec (i_size x) off) as [H1|H1]; simpl.
  { exists (-1), (fs_blk st), v, d, x. by rewrite put_ino_same. }
  destruct (Z.ltb_spec (MAXFILE * BSIZE) (off + n)) as [H2|H2].
  { exists (-1), (fs_blk st), v, d, x. rewrite put_ino_same by done. split; [|done].
    destruct (Z.ltb_spec (u32 (off + n)) off) as [H3|H3]; [done|].
    rewrite (proj2 (Z.ltb_lt _ _)); [done|]. unfold u32 in *. zlia. }
  rewrite u32_small by lia. rewrite !(proj2 (Z.ltb_ge _ _)) by lia.
  destruct (writei_loop_ok (Z.to_nat (n / BSIZE + 3)) st v d cap x src off n) as (s1 & v1 & d1 & x1 & E & Hfs1 & Hw & Hr & Hnf);
    try done; try lia.
  { split; [lia | by right]. }
  { unfold nblk. rewrite Z2Nat.id by zlia. zcases; zlia. }
  pose proof Hw as (Ex & _ & _ & _ & _ & _ & _ & _ & _ & Lo & _ & _ & _ & Same).
  destruct (writei_finish st s1 v v1 d1 cap x x1 off n (fun p => fs_mem st (src + (p - off))))
    as (s' & v' & d' & x' & E' & Hfs' & Hw' & Hsy' & Hnf' & Ha'); try done; try lia.
  - apply wrote_file; (done || lia).
  - etrans; [apply size_add1|]. unfold room in Hr at 1.
    assert (size d1 <= size (d1 ∪ bmaps sb ∪ ind_set (i_addrs x1)))%nat by (apply subseteq_size; clear; set_solver).
    lia.
  - intros Hle. rewrite Same by (by apply (dense_sub _ _ _ _ (i_size x)); [|lia|]).
    unfold synced in *. rewrite Lo; [done|]. by apply IBLOCK_range.
  - exists n, s', v', d', x'. rewrite (bind_Ret _ _ _ _ _ E), (bind_Ret _ _ _ _ _ E').
    split; [unfold ret; f_equal; apply s32_small; lia|]. split; [done|]. rewrite Hnf', Ha'. by split_and!.
Qed.

(** C27: [writei].  On a file without holes, with enough free blocks on the disk and
    enough room in the transaction, it fails, changing nothing, when the offset
    is beyond the end, or the end would wrap around or pass the largest file
    size.  Otherwise it returns the count; the file afterwards is the old one
    with the bytes of memory spliced in, grown where they reach past the end,
    again without holes; the inode on the disk agrees with the one in the cache;
    and no block of another file, no other inode and no allocated block is lost
    or changed. *)
Theorem writei_writes_bytes devwrite st v d cap x src off n :
  fs_ok sb ip st v d cap x -> file_ok v x -> inode_wf x -> synced v x -> mem_ok (fs_mem st) ->
  0 <= i_inum x < sb_ninodes sb -> 0 <= off < W32 -> 0 <= n < W32 ->
  (room sb d (i_addrs x) + Z.to_nat (nblk off n) + 1 <= cap)%nat ->
  (Z.to_nat (nblk off n) + no_ind (i_addrs x) <= nfree v sb)%nat ->
  exists r s' v' d' x', writei devwrite ip src off n st = Ret r (put_ino ip s' x' st) /\
    fs_ok sb ip (put_ino ip s' x' st) v' d' cap x' /\
    if (i_size x <? off) || (MAXFILE * BSIZE <? off + n) then r = -1 /\ v' = v /\ d' = d /\ x' = x
    else r = n /\ written v x v' x' off n (fun p => fs_mem st (src + (p - off))) /\ synced v' x'.
Proof using Hlay Hhome.
  intros. destruct (writei_ok devwrite st v d cap x src off n) as (r & s' & v' & d' & x' & E & Hfs & Hres); try done.
  exists r, s', v', d', x'. split; [done|]. split; [done|]. destruct (_ || _); [done|]. by destruct Hres as (? & ? & ? & _).
Qed.
End io.

(** ** The root directory of the demonstration image *)

Definition demo_root_inode : inode :=
  Inode 1 1 1 (Sleeplock true 1) true T_DIR 0 0 1 32 (59 :: replicate 12 0).
Definition demo_fs : fsys ideal := FSt (Ideal demo_view) demo_sb [demo_root_inode] (fun a => a mod 256).

Lemma demo_baddr bn :
  0 <= bn -> baddr demo_view (i_addrs demo_root_inode) bn = if bn =? 0 then 59 else 0.
Proof.
  intros Hbn. unfold baddr. destruct (Z.ltb_spec bn 12) as [Hlt|Hge].
  - assert (bn = 0 \/ bn = 1 \/ bn = 2 \/ bn = 3 \/ bn = 4 \/ bn = 5 \/ bn = 6 \/ bn = 7 \/ bn = 8 \/ bn = 9
      \/ bn = 10 \/ bn = 11) as H by lia.
    repeat (destruct H as [->|H]; [reflexivity|]). by rewrite H.
  - rewrite (proj2 (Z.eqb_neq bn 0)) by lia. reflexivity.
Qed.
Lemma demo_tree : tree_ok demo_view demo_sb (i_addrs demo_root_inode).
Proof.
  split; [reflexivity|]. split; [|split].
  - intros bn Hbn Hne. rewrite demo_baddr in * by lia. destruct (Z.eqb_spec bn 0); [|done].
    split; [|reflexivity]. split; by vm_compute.
  - intros H. by contradict H.
  - intros bn bn' H1 H2. rewrite !demo_baddr by lia. destruct (Z.eqb_spec bn 0), (Z.eqb_spec bn' 0); intros; lia.
Qed.
Lemma demo_dense : dense demo_view (i_addrs demo_root_inode) 0 32.
Proof. intros bn Hn H1 H2. rewrite demo_baddr by zlia. by assert (bn = 0) as -> by zlia. Qed.
Lemma demo_file_ok : file_ok demo_view demo_root_inode.
Proof. split; [done|]. split; [simpl; lia | exact demo_dense]. Qed.
Lemma demo_inode_wf : inode_wf demo_root_inode.
Proof.
  unfold inode_wf, is_short. simpl. do 5 (split; [lia|]). split; [done|].
  repeat (apply Forall_cons; split; [lia|]). by apply Forall_nil.
Qed.
Lemma demo_fs_ok (d : gset Z) cap : (size d <= cap)%nat ->
  fs_ok (BlockLaws0 := ideal_laws) demo_sb 0 demo_fs demo_view d cap demo_root_inode.
Proof.
  intros Hd. split; [by apply demo_ideal|]. split_and!; try done; [apply demo_meta | apply demo_tree].
Qed.
Lemma demo_nfree n : (n <= 100)%nat -> (n <= nfree demo_view demo_sb)%nat.
Proof.
  intros Hn. etrans; [exact Hn|]. transitivity (size (list_to_set (seqZ 100 100) : gset Z)); [by vm_compute|].
  apply subseteq_size. intros b Hb. apply elem_of_list_to_set, elem_of_seqZ in Hb.
  apply elem_of_free_set. split; [simpl; lia|].
  assert (negb (used demo_view demo_sb b) = true) as H; [|by destruct (used demo_view demo_sb b)].
  revert b Hb. assert (forall b, 0 <= b < 100 -> negb (used demo_view demo_sb (100 + b)) = true) as H.
  { refine (forall_range (fun b => negb (used demo_view demo_sb (100 + b))) 100 _). vm_compute. reflexivity. }
  intros b Hb. replace b with (100 + (b - 100)) by lia. apply H. lia.
Qed.

(** Reading 40 bytes at 16 of the 32 of the root directory: the second entry. *)
Lemma readi_returns_bytes_witness : exists s' m',
  readi (fun _ => None) 0 4096 16 40 demo_fs = Ret 16 (set_fmem m' (set_blk s' demo_fs)) /\
  bytes_at m' 4096 16 = [1; 0; 46; 46] ++ replicate 12 0.
Proof.
  destruct (readi_returns_bytes demo_sb demo_layout demo_home 0 (fun _ => None) demo_fs demo_view ∅ 10
    demo_root_inode 4096 16 40 (demo_fs_ok ∅ 10 ltac:(rewrite size_empty; lia)) demo_file_ok
    ltac:(lia) ltac:(lia)) as (r & s' & m' & E & _ & -> & Hb & _).
  exists s', m'. split; [exact E | exact Hb].
Defined.

(** Writing 16 bytes at the end of the root directory. *)
Lemma writei_writes_bytes_witness : exists s' x',
  writei (fun _ => None) 0 4096 32 16 demo_fs = Ret 16 (put_ino 0 s' x' demo_fs) /\ i_size x' = 48.
Proof.
  destruct (writei_writes_bytes demo_sb demo_layout demo_home 0 (fun _ => None) demo_fs demo_view ∅ 10
    demo_root_inode 4096 32 16) as (r & s' & v' & d' & x' & E & _ & -> & (Ex & _) & _).
  - apply demo_fs_ok. rewrite size_empty. lia.
  - apply demo_file_ok.
  - apply demo_inode_wf.
  - vm_compute. reflexivity.
  - intros a. simpl. zlia.
  - simpl. lia.
  - lia.
  - lia.
  - apply Nat.leb_le. vm_compute. reflexivity.
  - apply demo_nfree. vm_compute. lia.
  - exists s', x'. split; [exact E|]. by rewrite Ex.
Defined.
