(* ===== verification/Dir.v ===== *)
(** * Directories, paths and the swap area (fs.c)

    Definitions: dirlookup, dirlink, skipelem, namex and its two callers,
    swapread and swapwrite.  Names, paths and the [struct dirent] that a function
    has on its stack are in the memory of the state; the addresses of the stack
    variables are parameters.  The loops over a path have fuel, which DirLaws.v
    shows to be enough when it exceeds the length of the path. *)

From stdpp Require Import functions.
From S2P Require Import Prelude Mem CString Disk Bio Log Blocks Balloc Inode.
#[local] Open Scope Z_scope.

Abbreviation DIRSIZ := 14.
Abbreviation DIRENT := 16.
Abbreviation ROOTDEV := 1.
Abbreviation ROOTINO := 1.
Abbreviation SLASH := 47.

(** [namecmp] *)
Definition namecmp (m : mem) (s t : Z) : Z := strncmp m s t DIRSIZ.

(** [de.inum], an unsigned short; the name follows it. *)
Definition de_inum (m : mem) (de : Z) : Z := m de + 256 * m (de + 1).
Definition de_name (de : Z) : Z := de + 2.

(** [while( *path == '/') path++;] *)
Fixpoint skip_slashes (fuel : nat) (m : mem) (path : Z) : option Z :=
  match fuel with
  | O => None
  | S fuel => if m path =? SLASH then skip_slashes fuel m (path + 1) else Some path
  end.
(** [while( *path != '/' && *path != 0) path++;] *)
Fixpoint skip_name (fuel : nat) (m : mem) (path : Z) : option Z :=
  match fuel with
  | O => None
  | S fuel =>
      if negb (m path =? SLASH) && negb (m path =? 0) then skip_name fuel m (path + 1) else Some path
  end.

Definition skipelem (fuel : nat) (m : mem) (path name : Z) : option (option Z * mem) :=
  match skip_slashes fuel m path with
  | None => None
  | Some s =>
      if m s =? 0 then Some (None, m)
      else match skip_name fuel m s with
           | None => None
           | Some path =>
               let len := path - s in
               let m' := if DIRSIZ <=? len then memmove m name s DIRSIZ
                         else st8 (memmove m name s len) (name + len) 0 in
               match skip_slashes fuel m' path with
               | None => None
               | Some path => Some (Some path, m')
               end
           end
  end.

Abbreviation SWAPBASE := 500.
Abbreviation SWAPMAX := 99500.

Section dir.
Context {S : Type} `{!BlockOps S}.
(** The process that runs the code and its current directory. *)
Context (pid : Z) (cwd : nat).
Context (devread devwrite : Z -> option (nat -> Z -> Z -> M (fsys S) Z)).
(** The addresses of [de] in dirlookup and in dirlink. *)
Context (lookup_de link_de : Z).

Definition set_mem (f : mem -> mem) : M (fsys S) unit := modify (fun s => set_fmem (f (fs_mem s)) s).

Fixpoint dirlookup_loop (fuel : nat) (dp : nat) (name : Z) (poff : option Z) (off : Z)
  : M (fsys S) (option nat) :=
  match fuel with
  | O => diverge
  | Datatypes.S fuel =>
      x <- ino dp ;;
      if off <? i_size x then
        r <- readi devread dp lookup_de off DIRENT ;;
        panic_if (negb (r =? DIRENT)) "dirlookup read" ;;;
        m <- gets fs_mem ;;
        if de_inum m lookup_de =? 0 then dirlookup_loop fuel dp name poff (u32 (off + DIRENT))
        else if namecmp m name (de_name lookup_de) =? 0 then
          (match poff with
           | Some a => set_mem (fun m => st32 m a off)
           | None => ret tt
           end) ;;;
          ip <- iget (i_dev x) (de_inum m lookup_de) ;;
          ret (Some ip)
        else dirlookup_loop fuel dp name poff (u32 (off + DIRENT))
      else ret None
  end.
Definition dirlookup (dp : nat) (name : Z) (poff : option Z) : M (fsys S) (option nat) :=
  x <- ino dp ;;
  panic_if (negb (i_type x =? T_DIR)) "dirlookup not DIR" ;;;
  dirlookup_loop (Z.to_nat (i_size x / DIRENT + 2)) dp name poff 0.

(** The search of dirlink for an entry that is not used, or the end. *)
Fixpoint dirlink_loop (fuel : nat) (dp : nat) (off : Z) : M (fsys S) Z :=
  match fuel with
  | O => diverge
  | Datatypes.S fuel =>
      x <- ino dp ;;
      if off <? i_size x then
        r <- readi devread dp link_de off DIRENT ;;
        panic_if (negb (r =? DIRENT)) "dirlink read" ;;;
        m <- gets fs_mem ;;
        if de_inum m link_de =? 0 then ret off else dirlink_loop fuel dp (u32 (off + DIRENT))
      else ret off
  end.
Definition dirlink (dp : nat) (name inum : Z) : M (fsys S) Z :=
  ip <- dirlookup dp name None ;;
  match ip with
  | Some ip => iput pid ip ;;; ret (-1)
  | None =>
      x <- ino dp ;;
      off <- dirlink_loop (Z.to_nat (i_size x / DIRENT + 2)) dp 0 ;;
      set_mem (fun m => strncpy m (de_name link_de) name DIRSIZ) ;;;
      set_mem (fun m => st16 m link_de inum) ;;;
      r <- writei devwrite dp link_de off DIRENT ;;
      panic_if (negb (r =? DIRENT)) "dirlink" ;;;
      ret 0
  end.

(** [skipelem] on the memory of the state. *)
Definition next_elem (fuel : nat) (path name : Z) : M (fsys S) (option Z) := fun st =>
  match skipelem fuel (fs_mem st) path name with
  | None => Diverge
  | Some (r, m) => Ret r (set_fmem m st)
  end.

Fixpoint namex_loop (plen fuel : nat) (ip : nat) (path : Z) (nameiparent : bool) (name : Z)
  : M (fsys S) (option nat) :=
  match fuel with
  | O => diverge
  | Datatypes.S fuel =>
      r <- next_elem plen path name ;;
      match r with
      | Some path =>
          ilock pid (Some ip) ;;;
          x <- ino ip ;;
          if negb (i_type x =? T_DIR) then iunlockput pid ip ;;; ret None
          else
            m <- gets fs_mem ;;
            if nameiparent && (m path =? 0) then iunlock pid (Some ip) ;;; ret (Some ip)
            else
              next <- dirlookup ip name None ;;
              match next with
              | None => iunlockput pid ip ;;; ret None
              | Some next => iunlockput pid ip ;;; namex_loop plen fuel next path nameiparent name
              end
      | None => if nameiparent then iput pid ip ;;; ret None else ret (Some ip)
      end
  end.
Definition namex (plen : nat) (path : Z) (nameiparent : bool) (name : Z) : M (fsys S) (option nat) :=
  m <- gets fs_mem ;;
  ip <- (if m path =? SLASH then iget ROOTDEV ROOTINO else idup cwd) ;;
  namex_loop plen plen ip path nameiparent name.
(** [name] is the buffer on the stack of namei. *)
Definition namei (plen : nat) (path name : Z) : M (fsys S) (option nat) := namex plen path false name.
Definition nameiparent (plen : nat) (path name : Z) : M (fsys S) (option nat) := namex plen path true name.

(** ** The swap area *)

Fixpoint swapread_loop (k : nat) (ptr blkno i : Z) : M (fsys S) unit :=
  match k with
  | O => ret tt
  | Datatypes.S k =>
      bp <- blk (bk_bread 0 (blkno + SWAPBASE + i)) ;;
      d <- blk (bk_data bp) ;;
      set_mem (fun m => copy_to m (ptr + i * BSIZE) (take 512 d)) ;;;
      blk (bk_brelse bp) ;;;
      swapread_loop k ptr blkno (i + 1)
  end.
Definition swapread (ptr blkno : Z) : M (fsys S) unit :=
  panic_if ((blkno <? 0) || (SWAPMAX <=? blkno)) "swapread: blkno exceed range" ;;;
  swapread_loop 8 ptr blkno 0.

Fixpoint swapwrite_loop (k : nat) (ptr blkno i : Z) : M (fsys S) unit :=
  match k with
  | O => ret tt
  | Datatypes.S k =>
      bp <- blk (bk_bread 0 (blkno + SWAPBASE + i)) ;;
      m <- gets fs_mem ;;
      blk (bk_modify bp (splice 0 (bytes_at m (ptr + i * BSIZE) 512))) ;;;
      blk (bk_bwrite bp) ;;;
      blk (bk_brelse bp) ;;;
      swapwrite_loop k ptr blkno (i + 1)
  end.
Definition swapwrite (ptr blkno : Z) : M (fsys S) unit :=
  panic_if ((blkno <? 0) || (SWAPMAX <=? blkno)) "swapread: blkno exceed range" ;;;
  swapwrite_loop 8 ptr blkno 0.
End dir.
