(* ===== verification/DirLaws.v ===== *)
(** * Path elements and directory entries

    [skipelem] against the list of the elements of a path, and dirlookup and
    dirlink against the list of the entries of a directory. *)

From stdpp Require Import functions.
From S2P Require Import Prelude Mem CString Disk Bio Log Blocks Balloc Inode Dinode InodeData InodeIO Dir.
#[local] Open Scope Z_scope.

(** ** Paths *)

Fixpoint drop_slashes (l : list Z) : list Z :=
  match l with
  | c :: l' => if c =? SLASH then drop_slashes l' else l
  | [] => []
  end.
Fixpoint name_part (l : list Z) : list Z :=
  match l with
  | c :: l' => if c =? SLASH then [] else c :: name_part l'
  | [] => []
  end.
Fixpoint after_name (l : list Z) : list Z :=
  match l with
  | c :: l' => if c =? SLASH then l else after_name l'
  | [] => []
  end.

(** The elements of a path: the pieces between slashes that are not empty. *)
Definition cons_ne (e : list Z) (es : list (list Z)) : list (list Z) :=
  match e with [] => es | _ => e :: es end.
Fixpoint pieces (cur l : list Z) : list (list Z) :=
  match l with
  | [] => cons_ne cur []
  | c :: l => if c =? SLASH then cons_ne cur (pieces [] l) else pieces (cur ++ [c]) l
  end.
Definition path_elems (l : list Z) : list (list Z) := pieces [] l.

Lemma pieces_name cur l : pieces cur l = cons_ne (cur ++ name_part l) (pieces [] (after_name l)).
Proof.
  revert cur. induction l as [|c l IH]; intros cur; simpl; [by rewrite app_nil_r|].
  destruct (Z.eqb_spec c SLASH) as [->|Hc]; simpl; [by rewrite app_nil_r|].
  rewrite IH. by rewrite <- app_assoc.
Qed.
Lemma elems_drop l : path_elems (drop_slashes l) = path_elems l.
Proof.
  unfold path_elems. induction l as [|c l IH]; simpl; [done|]. destruct (c =? SLASH) eqn:E; simpl; [done|].
  by rewrite E.
Qed.
Lemma drop_slashes_head l c l' : drop_slashes l = c :: l' -> c <> SLASH.
Proof. induction l as [|b l IH]; simpl; [done|]. destruct (Z.eqb_spec b SLASH); [done|]. congruence. Qed.
Lemma path_elems_next l :
  path_elems l = match drop_slashes l with
                 | [] => []
                 | l' => name_part l' :: path_elems (drop_slashes (after_name l'))
                 end.
Proof.
  rewrite <- elems_drop. destruct (drop_slashes l) as [|c l'] eqn:E; [done|].
  apply drop_slashes_head in E. cbn zeta. rewrite elems_drop. unfold path_elems. rewrite pieces_name.
  simpl. by destruct (Z.eqb_spec c SLASH).
Qed.

Lemma skip_slashes_cstr fuel m p l : cstr m p l -> (length l < fuel)%nat ->
  exists q, skip_slashes fuel m p = Some q /\ cstr m q (drop_slashes l) /\
    q = p + (Z.of_nat (length l) - Z.of_nat (length (drop_slashes l))).
Proof.
  revert p l. induction fuel as [|fuel IH]; intros p l Hc Hf; [lia|]. simpl. destruct l as [|c l].
  - rewrite (cstr_nil _ _ Hc). exists p. split_and!; [done | done | simpl; lia].
  - pose proof (cstr_cons _ _ _ _ Hc) as (-> & Hnz & Hl). simpl in *. destruct (Z.eqb_spec c SLASH).
    + destruct (IH (p + 1) l Hl) as (q & -> & Hq & ->); [lia|]. eexists. split_and!; [done | done | lia].
    + exists p. split_and!; [done | done | simpl; lia].
Qed.
Lemma skip_name_cstr fuel m p l : cstr m p l -> (length l < fuel)%nat ->
  exists q, skip_name fuel m p = Some q /\ cstr m q (after_name l) /\
    q = p + Z.of_nat (length (name_part l)) /\
    (length l = length (name_part l) + length (after_name l))%nat.
Proof.
  revert p l. induction fuel as [|fuel IH]; intros p l Hc Hf; [lia|]. simpl. destruct l as [|c l].
  - rewrite (cstr_nil _ _ Hc). exists p. split_and!; [done | done | simpl; lia | done].
  - pose proof (cstr_cons _ _ _ _ Hc) as (-> & Hnz & Hl). simpl in *. rewrite (proj2 (Z.eqb_neq c 0)) by done.
    destruct (Z.eqb_spec c SLASH); simpl.
    + exists p. split_and!; [done | done | simpl; lia | done].
    + destruct (IH (p + 1) l Hl) as (q & -> & Hq & -> & Hlen); [lia|]. eexists. split_and!; [done | done | lia | lia].
Qed.

Lemma name_part_prefix l : exists r, l = name_part l ++ r.
Proof.
  induction l as [|c l [r IH]]; simpl; [by exists []|]. destruct (c =? SLASH); [by eexists|].
  exists r. simpl. congruence.
Qed.

(** The bytes of a path element, and those of the name made from it. *)
Lemma cstr_name_bytes m p l : cstr m p l -> bytes_at m p (length (name_part l)) = name_part l.
Proof.
  revert p. induction l as [|c l IH]; intros p Hc; simpl; [done|].
  pose proof (cstr_cons _ _ _ _ Hc) as (E & _ & Hl). destruct (c =? SLASH); simpl; [done|].
  by rewrite E, IH.
Qed.
Lemma cfield_full m p n : Forall (fun b => b <> 0) (bytes_at m p n) -> cfield m p n = bytes_at m p n.
Proof.
  revert p. induction n as [|n IH]; intros p H; simpl; [done|]. inversion H; subst.
  rewrite (proj2 (Z.eqb_neq _ 0)) by done. f_equal. by apply IH.
Qed.
Lemma cfield_short m p n k :
  (k < n)%nat -> Forall (fun b => b <> 0) (bytes_at m p k) -> m (p + Z.of_nat k) = 0 ->
  cfield m p n = bytes_at m p k.
Proof.
  revert p n. induction k as [|k IH]; intros p n Hk Hf H0; destruct n as [|n]; simpl; try lia.
  - simpl in H0. rewrite Z.add_0_r in H0. by rewrite H0.
  - inversion Hf; subst. rewrite (proj2 (Z.eqb_neq _ 0)) by done. f_equal. apply IH; [lia | done |].
    rewrite <- H0. f_equal. lia.
Qed.
Lemma bytes_at_take m p n k : (k <= n)%nat -> take k (bytes_at m p n) = bytes_at m p k.
Proof.
  intros H. replace n with (k + (n - k))%nat by lia. rewrite bytes_at_app, take_app_le by (rewrite length_bytes_at; lia).
  rewrite take_ge; [done|]. rewrite length_bytes_at. lia.
Qed.

(** The name that [skipelem] stores for the element at [s]. *)
Definition name_store (m : mem) (name s len : Z) : mem :=
  if DIRSIZ <=? len then memmove m name s DIRSIZ else st8 (memmove m name s len) (name + len) 0.

Lemma name_store_frame m name s len x :
  mem_ok m -> 0 <= len -> x < name \/ name + DIRSIZ <= x -> name_store m name s len x = m x.
Proof.
  intros Hm Hl Hx. unfold name_store. destruct (Z.leb_spec DIRSIZ len).
  - rewrite memmove_correct by (done || lia). by zcases.
  - rewrite st8_ne, memmove_correct by (done || lia). by zcases.
Qed.
Lemma name_store_ok m name s len : mem_ok m -> 0 <= len -> mem_ok (name_store m name s len).
Proof. intros Hm Hl. unfold name_store. destruct (_ <=? _); [|apply st8_ok]; apply memmove_ok; (done || lia). Qed.
Lemma name_store_field m name s e :
  mem_ok m -> bytes_at m s (length e) = e -> Forall (fun b => b <> 0) e ->
  cfield (name_store m name s (Z.of_nat (length e))) name 14 = take 14 e.
Proof.
  intros Hm He Hnz. set (m' := name_store _ _ _ _).
  set (k := Nat.min 14 (length e)).
  assert (bytes_at m' name k = take 14 e) as Hb.
  { rewrite <- He at 1. replace (take 14 (bytes_at m s (length e))) with (bytes_at m s k).
    - apply list_eq. intros i. destruct (decide (i < k)%nat) as [Hi|Hi].
      + rewrite !bytes_at_lookup by done. f_equal. unfold m', name_store. unfold k in *. destruct (Z.leb_spec DIRSIZ (Z.of_nat (length e))).
        * rewrite memmove_correct by (done || lia). zcases. f_equal. lia.
        * rewrite st8_ne, memmove_correct by (done || lia). zcases. f_equal. lia.
      + rewrite !lookup_ge_None_2; [done | rewrite length_bytes_at; lia | rewrite length_bytes_at; lia].
    - unfold k. destruct (Nat.min_spec 14 (length e)) as [[? ->]|[? ->]].
      + symmetry. apply bytes_at_take. lia.
      + symmetry. apply take_ge. rewrite length_bytes_at. lia. }
  rewrite <- Hb. assert (Forall (fun b => b <> 0) (bytes_at m' name k)) as Hf.
  { rewrite Hb. by apply Forall_take. }
  unfold k in *. destruct (Nat.min_spec 14 (length e)) as [[? E]|[? E]]; rewrite E in *.
  - by apply cfield_full.
  - destruct (decide (length e = 14)%nat) as [E14|]; [rewrite E14 in Hf |- *; by apply cfield_full|].
    apply cfield_short; [lia | done |]. unfold m', name_store. rewrite (proj2 (Z.leb_gt _ _)) by lia. apply st8_eq.
Qed.

Lemma length_drop_slashes l : (length (drop_slashes l) <= length l)%nat.
Proof. induction l as [|b l IH]; simpl; [lia|]. destruct (b =? SLASH); simpl; lia. Qed.
Lemma path_elems_nil l : path_elems (drop_slashes l) = [] <-> drop_slashes l = [].
Proof.
  rewrite elems_drop, path_elems_next. by destruct (drop_slashes l).
Qed.

(** [skipelem] takes the path apart into its elements: it returns no path when
    there is none left, changing nothing; otherwise it stores the first element,
    cut to fourteen bytes, as the name, returns a pointer to the path of the
    others, and changes nothing but the name. *)
Theorem skipelem_next_element fuel m path name l :
  mem_ok m -> cstr m path l -> (length l < fuel)%nat ->
  name + DIRSIZ <= path \/ path + Z.of_nat (length l) < name ->
  match path_elems l with
  | [] => skipelem fuel m path name = Some (None, m)
  | e :: es => exists p' l' m', skipelem fuel m path name = Some (Some p', m') /\
      cstr m' p' l' /\ path_elems l' = es /\ (length l' < length l)%nat /\
      p' = path + Z.of_nat (length l) - Z.of_nat (length l') /\ (l' = [] <-> es = []) /\
      cfield m' name 14 = take 14 e /\ mem_ok m' /\
      forall x, x < name \/ name + DIRSIZ <= x -> m' x = m x
  end.
Proof.
  intros Hm Hc Hf Hdis. rewrite path_elems_next. unfold skipelem.
  destruct (skip_slashes_cstr fuel m path l Hc Hf) as (s & -> & Hs & Es).
  destruct (drop_slashes l) as [|c t] eqn:Et; [by rewrite (cstr_nil _ _ Hs)|]. cbn zeta.
  set (l1 := c :: t) in *. pose proof (cstr_cons _ _ _ _ Hs) as (Hc1 & Hcz & _).
  rewrite Hc1, (proj2 (Z.eqb_neq c 0)) by done.
  assert (length l1 <= length l)%nat as Hl1.
  { rewrite <- Et. apply length_drop_slashes. }
  destruct (skip_name_cstr fuel m s l1 Hs) as (q & -> & Hq & Eq & Hlen); [lia|].
  replace (q - s) with (Z.of_nat (length (name_part l1))) by lia.
  change (if _ <=? _ then memmove m name s 14 else _) with (name_store m name s (Z.of_nat (length (name_part l1)))).
  set (m' := name_store _ _ _ _).
  assert (forall x, x < name \/ name + DIRSIZ <= x -> m' x = m x) as Hfr by (intros; apply name_store_frame; done || lia).
  assert (cstr m' q (after_name l1)) as Hq' by (apply (cstr_ext m); [|done]; intros x Hx; symmetry; apply Hfr; lia).
  destruct (skip_slashes_cstr fuel m' q (after_name l1) Hq') as (p' & -> & Hp & Ep); [lia|].
  pose proof (length_drop_slashes (after_name l1)) as Hda.
  assert (0 < length (name_part l1))%nat as Hpos.
  { unfold l1. simpl. apply drop_slashes_head in Et. by rewrite (proj2 (Z.eqb_neq _ _)); [simpl; lia|]. }
  exists p', (drop_slashes (after_name l1)), m'. split_and!; try done; try lia.
  - symmetry. apply path_elems_nil.
  - apply name_store_field; [done | by apply cstr_name_bytes |].
    destruct (name_part_prefix l1) as [r Er]. destruct Hs as (_ & Hnz & _). rewrite Er in Hnz.
    by apply Forall_app in Hnz as [? _].
  - apply name_store_ok; [done | lia].
Qed.

Lemma skipelem_next_element_witness :
  let m := copy_to (fun _ => 0) 100 [47; 47; 97; 47; 98; 98] in
  exists p' m', skipelem 20 m 100 200 = Some (Some p', m') /\ p' = 104 /\ cfield m' 200 14 = [97].
Proof.
  intros m. destruct (skipelem_next_element 20 m 100 200 [47; 47; 97; 47; 98; 98])
    as (p' & l' & m' & E & _ & _ & Hl & -> & _ & Hf & _).
  - apply copy_to_ok. intros a. lia.
  - split_and!; [reflexivity | | reflexivity]. repeat (apply Forall_cons; split; [lia|]). by apply Forall_nil.
  - simpl. lia.
  - simpl. lia.
  - eexists _, m'. split_and!; [exact E | | exact Hf].
    assert (skipelem 20 m 100 200 = Some (Some 104, name_store m 200 102 1)) as E' by reflexivity.
    rewrite E' in E. injection E as E _. done.
Defined.

(** ** Directories as maps *)

(** The entries of a directory with contents [f], and the first one with the
    name: its index and inode number. *)
Definition entry_at (f : Z -> Z) (a : Z) : Z * list Z := (de_inum f a, cfield f (de_name a) 14).
Definition dir_entries (f : Z -> Z) (n : Z) : list (Z * list Z) := (fun k => entry_at f (DIRENT * k)) <$> seqZ 0 n.
Definition entry_is (nm : list Z) (e : Z * list Z) : bool := negb (e.1 =? 0) && bool_decide (e.2 = nm).
Fixpoint find_entry (es : list (Z * list Z)) (k : Z) (nm : list Z) : option (Z * Z) :=
  match es with
  | [] => None
  | e :: es => if entry_is nm e then Some (k, e.1) else find_entry es (k + 1) nm
  end.
(** The inode number that the directory gives a name. *)
Definition dir_get (es : list (Z * list Z)) (nm : list Z) : option Z := snd <$> find_entry es 0 nm.

Lemma find_entry_shift es k k' nm : snd <$> find_entry es k nm = snd <$> find_entry es k' nm.
Proof. revert k k'. induction es as [|e es IH]; intros k k'; simpl; [done|]. destruct (entry_is nm e); [done|]. apply IH. Qed.
Lemma dir_get_cons e es nm : dir_get (e :: es) nm = if entry_is nm e then Some e.1 else dir_get es nm.
Proof. unfold dir_get. simpl. destruct (entry_is nm e); [done|]. apply find_entry_shift. Qed.
Lemma dir_get_app es i nm nm' : i <> 0 -> dir_get es nm = None ->
  dir_get (es ++ [(i, nm)]) nm' = if decide (nm' = nm) then Some i else dir_get es nm'.
Proof.
  intros Hi. induction es as [|e es IH]; intros Hn; simpl.
  - rewrite dir_get_cons. unfold entry_is. simpl. rewrite (proj2 (Z.eqb_neq i 0)) by done. simpl.
    destruct (decide (nm' = nm)) as [->|Hne]; [by rewrite bool_decide_true | by rewrite bool_decide_false].
  - rewrite dir_get_cons in Hn. rewrite !dir_get_cons. destruct (entry_is nm e) eqn:E; [done|].
    rewrite IH by done. destruct (decide (nm' = nm)) as [->|]; [by rewrite E | done].
Qed.
Lemma dir_get_insert es k i nm nm' b : i <> 0 -> es !! k = Some (0, b) -> dir_get es nm = None ->
  dir_get (<[k := (i, nm)]> es) nm' = if decide (nm' = nm) then Some i else dir_get es nm'.
Proof.
  intros Hi. revert k. induction es as [|e es IH]; intros k Hk Hn; [done|].
  rewrite dir_get_cons in Hn. destruct k as [|k]; simpl in Hk |- *; rewrite !dir_get_cons.
  - injection Hk as ->. unfold entry_is at 1 2. simpl. rewrite (proj2 (Z.eqb_neq i 0)) by done. simpl.
    destruct (decide (nm' = nm)) as [->|Hne]; [by rewrite bool_decide_true | by rewrite bool_decide_false].
  - destruct (entry_is nm e) eqn:E; [done|]. rewrite (IH k) by done.
    destruct (decide (nm' = nm)) as [->|]; [by rewrite E | done].
Qed.

Lemma cfield_shift (f g : Z -> Z) p q n :
  (forall i, 0 <= i < Z.of_nat n -> f (p + i) = g (q + i)) -> cfield f p n = cfield g q n.
Proof.
  revert p q. induction n as [|n IH]; intros p q H; simpl; [done|].
  pose proof (H 0 ltac:(lia)) as H0. rewrite !Z.add_0_r in H0. rewrite H0. destruct (g q =? 0); [done|]. f_equal.
  apply IH. intros i Hi. rewrite <- !Z.add_assoc. apply H. lia.
Qed.
Lemma entry_at_shift f g a b :
  (forall i, 0 <= i < DIRENT -> f (a + i) = g (b + i)) -> entry_at f a = entry_at g b.
Proof.
  intros H. unfold entry_at, de_inum, de_name. pose proof (H 0 ltac:(lia)) as H0. rewrite !Z.add_0_r in H0.
  rewrite H0, (H 1) by lia. f_equal. apply cfield_shift. intros i Hi. rewrite <- !Z.add_assoc. apply H. lia.
Qed.
Lemma dir_entries_lookup f n k : 0 <= k < n -> dir_entries f n !! Z.to_nat k = Some (entry_at f (DIRENT * k)).
Proof.
  intros Hk. unfold dir_entries. rewrite list_lookup_fmap, lookup_seqZ_lt by lia. simpl. do 3 f_equal. lia.
Qed.
Lemma length_dir_entries f n : length (dir_entries f n) = Z.to_nat n.
Proof. unfold dir_entries. by rewrite length_fmap, length_seqZ. Qed.
Lemma drop_dir_entries f n k : 0 <= k < n ->
  drop (Z.to_nat k) (dir_entries f n) = entry_at f (DIRENT * k) :: drop (Z.to_nat (k + 1)) (dir_entries f n).
Proof.
  intros Hk. replace (Z.to_nat (k + 1)) with (Datatypes.S (Z.to_nat k)) by lia.
  apply drop_S. by apply dir_entries_lookup.
Qed.

(** The first entry that is not used. *)
Fixpoint first_unused (es : list (Z * list Z)) (k : Z) : Z :=
  match es with
  | [] => k
  | e :: es => if e.1 =? 0 then k else first_unused es (k + 1)
  end.
Lemma first_unused_spec es k :
  k <= first_unused es k <= k + Z.of_nat (length es) /\
  (first_unused es k < k + Z.of_nat (length es) ->
     exists nm, es !! Z.to_nat (first_unused es k - k) = Some (0, nm)).
Proof.
  revert k. induction es as [|[i nm] es IH]; intros k; simpl; [lia|].
  destruct (Z.eqb_spec i 0) as [->|Hne].
  - split; [lia|]. intros _. rewrite Z.sub_diag. by exists nm.
  - destruct (IH (k + 1)) as [H1 H2]. split; [lia|]. intros H. destruct H2 as [nm' E]; [lia|]. exists nm'.
    replace (Z.to_nat (first_unused es (k + 1) - k)) with (Datatypes.S (Z.to_nat (first_unused es (k + 1) - (k + 1)))) by lia.
    done.
Qed.

(** The [struct dirent] that dirlink makes. *)
Lemma cfield_padded m p n l :
  (length l <= n)%nat -> Forall (fun b => b <> 0) l -> bytes_at m p n = l ++ replicate (n - length l) 0 ->
  cfield m p n = l.
Proof.
  intros Hl Hnz Hb. assert (bytes_at m p (length l) = l) as Hl'.
  { rewrite <- (bytes_at_take m p n) by done. rewrite Hb. apply take_app_length. }
  destruct (decide (length l = n)) as [<-|Hne]; [rewrite cfield_full; congruence|].
  rewrite (cfield_short m p n (length l)); [done | lia | by rewrite Hl' |].
  apply (f_equal (.!! length l)) in Hb. rewrite bytes_at_lookup, lookup_app_r, Nat.sub_diag in Hb by lia.
  rewrite lookup_replicate_2 in Hb by lia. by injection Hb as Hb.
Qed.
Lemma made_entry m de name inum :
  mem_ok m -> disjoint (de_name de) name DIRSIZ -> 0 <= inum < 65536 ->
  entry_at (st16 (strncpy m (de_name de) name DIRSIZ) de inum) de = (inum, cfield m name 14).
Proof.
  intros Hm Hdis Hi. unfold entry_at, de_inum. f_equal.
  - unfold st16. rewrite st8_eq, st8_ne, st8_eq, !u8_small by (apply byte_of_range || lia).
    rewrite !byte_of_pow by lia. change (2 ^ (8 * 0)) with 1. change (2 ^ (8 * 1)) with 256. zlia.
  - rewrite (cfield_ext _ (strncpy m (de_name de) name DIRSIZ)).
    2: { intros y Hy. unfold st16, de_name in *. by rewrite !st8_ne by lia. }
    apply cfield_padded; [apply cfield_length | apply cfield_nonzero |].
    by apply strncpy_loop_bytes.
Qed.

(** The entries of a directory when one was written, in place or at the end. *)
Lemma dir_entries_written (f g : Z -> Z) n k e :
  0 <= k <= n -> entry_at g (DIRENT * k) = e ->
  (forall p, 0 <= p < DIRENT * Z.max n (k + 1) -> ~ (DIRENT * k <= p < DIRENT * k + DIRENT) -> g p = f p) ->
  dir_entries g (Z.max n (k + 1)) =
    if decide (k < n) then <[Z.to_nat k := e]> (dir_entries f n) else dir_entries f n ++ [e].
Proof.
  intros Hk He Hsame. apply list_eq. intros i.
  assert (forall j, 0 <= j < Z.max n (k + 1) -> j <> k -> entry_at g (DIRENT * j) = entry_at f (DIRENT * j)) as Hj.
  { intros j Hj Hne. apply entry_at_shift. intros y Hy. apply Hsame; lia. }
  destruct (decide (Z.of_nat i < Z.max n (k + 1))) as [Hi|Hi].
  - rewrite <- (Nat2Z.id i) at 1. rewrite dir_entries_lookup by lia. destruct (decide (Z.of_nat i = k)) as [Hik|Hik].
    + rewrite Hik, He. destruct (decide (k < n)).
      * rewrite <- Hik, Nat2Z.id, list_lookup_insert_eq; [done|]. rewrite length_dir_entries. lia.
      * rewrite lookup_app_r, length_dir_entries by (rewrite length_dir_entries; lia).
        by replace (i - Z.to_nat n)%nat with 0%nat by lia.
    + rewrite Hj by lia. destruct (decide (k < n)).
      * rewrite list_lookup_insert_ne by lia. rewrite <- (Nat2Z.id i) at 2. by rewrite dir_entries_lookup by lia.
      * rewrite lookup_app_l by (rewrite length_dir_entries; lia).
        rewrite <- (Nat2Z.id i) at 2. by rewrite dir_entries_lookup by lia.
  - rewrite !lookup_ge_None_2; [done | | rewrite length_dir_entries; lia].
    destruct (decide (k < n)); rewrite ?length_insert, ?length_app, length_dir_entries; simpl; lia.
Qed.

Definition contents (v : Z -> block) (x : inode) : Z -> Z := fbyte v (i_addrs x).
Definition entries (v : Z -> block) (x : inode) : list (Z * list Z) := dir_entries (contents v x) (i_size x / DIRENT).

(** A directory: a file of whole entries. *)
Definition dir_ok (v : Z -> block) (x : inode) : Prop := i_type x = T_DIR /\ file_ok v x /\ i_size x mod DIRENT = 0.

Lemma nblk_entry k : 0 <= k -> nblk (DIRENT * k) DIRENT = 1.
Proof. intros Hk. unfold nblk. simpl. zlia. Qed.

(** What the write of the entry does to the map of the directory. *)
Lemma written_entry sb link_de (v : Z -> block) x v' x' m nm inum :
  let k := first_unused (entries v x) 0 in
  dir_ok v x -> entry_at m link_de = (inum, nm) -> inum <> 0 -> dir_get (entries v x) nm = None ->
  written sb v x v' x' (DIRENT * k) DIRENT (fun p => m (link_de + (p - DIRENT * k))) ->
  dir_ok v' x' /\
  forall nm', dir_get (entries v' x') nm' = if decide (nm' = nm) then Some inum else dir_get (entries v x) nm'.
Proof.
  intros k (Hty & (_ & Hsz & _) & Hmod) He Hi Hn (Ex & Hf & Hb & _).
  destruct (first_unused_spec (entries v x) 0) as [Hk Hfree]. fold k in Hk, Hfree. rewrite Z.add_0_l in Hk, Hfree.
  unfold entries in Hk, Hfree at 1. rewrite length_dir_entries, Z2Nat.id in Hk, Hfree by zlia.
  assert (i_size x' = DIRENT * Z.max (i_size x / DIRENT) (k + 1)) as Esz by (rewrite Ex; simpl; zlia).
  split; [split_and!; [by rewrite Ex | done | rewrite Esz; zlia]|]. intros nm'.
  assert (i_size x' / DIRENT = Z.max (i_size x / DIRENT) (k + 1)) as Ediv by zlia.
  unfold entries at 1. rewrite Ediv.
  rewrite (dir_entries_written (contents v x) _ (i_size x / DIRENT) k (inum, nm)).
  - fold (entries v x). destruct (decide (k < i_size x / DIRENT)) as [Hlt|Hge].
    + destruct (Hfree Hlt) as [b Eb]. rewrite Z.sub_0_r in Eb. by eapply dir_get_insert.
    + by apply dir_get_app.
  - lia.
  - rewrite <- He. apply entry_at_shift. intros y Hy. unfold contents. rewrite Hb by zlia. zcases. f_equal. lia.
  - intros p Hp Hout. unfold contents. rewrite Hb by lia. zcases.
Qed.

Section dir.
Context {S : Type} `{!BlockOps S} `{!BlockLaws S}.
Context (sb : superblock) (Hlay : layout sb).
Context (Hhome : forall b, sb_inodestart sb <= b < sb_size sb -> bk_home b).
Context (pid : Z) (cwd : nat).
Context (devread : Z -> option (nat -> Z -> Z -> M (fsys S) Z)).
Context (lookup_de : Z) (dp : nat).
Implicit Types (v : Z -> block) (d : gset Z) (x : inode) (st : fsys S).

(** Reading an entry into a [struct dirent]. *)
Lemma read_entry st v d cap x de k :
  fs_ok sb dp st v d cap x -> dir_ok v x -> mem_ok (fs_mem st) -> 0 <= k -> DIRENT * k < i_size x ->
  exists s' m', readi devread dp de (DIRENT * k) DIRENT st = Ret DIRENT (set_fmem m' (set_blk s' st)) /\
    bk_ok s' v d ∅ ∅ cap /\ entry_at m' de = entry_at (contents v x) (DIRENT * k) /\ mem_ok m' /\
    forall y, y < de \/ de + DIRENT <= y -> m' y = fs_mem st y.
Proof using Hlay Hhome.
  intros Hfs (Hty & Hf & Hmod) Hm Hk Hlt. pose proof Hf as (_ & Hsz & Hde). pose proof Hfs as (Hok & _ & _ & _ & _ & Ht).
  destruct (readi_ok sb Hlay Hhome dp devread st v d cap x de (DIRENT * k) DIRENT) as (r & s' & m' & E & Hok' & H);
    try done; try lia.
  rewrite (proj2 (Z.ltb_ge _ _)), (proj2 (Z.leb_gt _ _)) in H by lia. cbn zeta beta iota delta [orb] in H.
  rewrite Z.min_l in H by zlia. destruct H as (-> & Hb & Hout).
  assert (forall i, 0 <= i < DIRENT -> m' (de + i) = contents v x (DIRENT * k + i)) as Hin.
  { intros i Hi. apply (f_equal (.!! Z.to_nat i)) in Hb. rewrite bytes_at_lookup in Hb by lia.
    rewrite fbytes_lookup in Hb by lia. injection Hb as Hb. rewrite Z2Nat.id in Hb by lia. done. }
  exists s', m'. split_and!; try done.
  - by apply entry_at_shift.
  - intros y. destruct (decide (de <= y < de + DIRENT)) as [Hy|Hy]; [|rewrite Hout by lia; apply Hm].
    replace y with (de + (y - de)) by lia. rewrite Hin by lia. eapply fbyte_range; try done; [zlia|].
    apply Hde; zlia.
Qed.

(** What dirlookup does with the entry it finds. *)
Definition entry_found (poff : option Z) (e : option (Z * Z)) : M (fsys S) (option nat) :=
  match e with
  | None => ret None
  | Some (j, i) =>
      (match poff with
       | Some a => set_mem (fun m => st32 m a (DIRENT * j))
       | None => ret tt
       end) ;;;
      ip <- iget 1 i ;; ret (Some ip)
  end.

Lemma fs_ok_moved st v d cap x s m : fs_ok sb dp st v d cap x -> bk_ok s v d ∅ ∅ cap ->
  fs_ok sb dp (set_fmem m (set_blk s st)) v d cap x.
Proof using. intros (_ & H) Hok. by split. Qed.

Lemma dirlookup_loop_ok fuel : forall st v d cap x name nm poff k,
  fs_ok sb dp st v d cap x -> dir_ok v x -> mem_ok (fs_mem st) ->
  name + DIRSIZ <= lookup_de \/ lookup_de + DIRENT <= name -> cfield (fs_mem st) name 14 = nm ->
  0 <= k -> DIRENT * k <= i_size x -> i_size x / DIRENT - k < Z.of_nat fuel ->
  exists s' m', bk_ok s' v d ∅ ∅ cap /\ mem_ok m' /\
    (forall y, y < lookup_de \/ lookup_de + DIRENT <= y -> m' y = fs_mem st y) /\
    dirlookup_loop devread lookup_de fuel dp name poff (DIRENT * k) st =
      entry_found poff (find_entry (drop (Z.to_nat k) (entries v x)) k nm) (set_fmem m' (set_blk s' st)).
Proof using Hlay Hhome.
  induction fuel as [|fuel IH]; intros st v d cap x name nm poff k Hfs Hdir Hm Hdis Hnm Hk Hle Hfuel; [zlia|].
  pose proof Hfs as (Hok & Hsb & Hx & Hdev & _). pose proof Hdir as (_ & (_ & Hsz & _) & Hmod).
  cbn [dirlookup_loop]. rewrite (bind_ino _ _ _ _ Hx).
  destruct (Z.ltb_spec (DIRENT * k) (i_size x)) as [Hlt|Hge].
  - destruct (read_entry st v d cap x lookup_de k) as (s1 & m1 & E & Hok1 & He & Hm1 & Hout); try done.
    rewrite (bind_Ret _ _ _ _ _ E). rewrite bind_check by done. rewrite bind_gets.
    assert (cfield m1 name 14 = nm) as Hnm1.
    { rewrite <- Hnm. apply cfield_ext. intros y Hy. apply Hout. lia. }
    unfold entries. rewrite drop_dir_entries by zlia. cbn [find_entry]. fold (entries v x). rewrite <- He.
    assert (u32 (DIRENT * k + DIRENT) = DIRENT * (k + 1)) as -> by (rewrite u32_small; lia).
    destruct (IH (set_fmem m1 (set_blk s1 st)) v d cap x name nm poff (k + 1)) as (s' & m' & Hok' & Hm' & Hout' & E');
      try done; try zlia; [by apply fs_ok_moved|].
    change (fs_mem (set_fmem m1 (set_blk s1 st))) with m1.
    unfold entry_is, entry_at. cbn [fst snd]. destruct (Z.eqb_spec (de_inum m1 lookup_de) 0) as [Hz|Hnz]; cbn [negb andb].
    + exists s', m'. split_and!; [done | done | | exact E']. intros y Hy. rewrite Hout' by done. by apply Hout.
    + pose proof (strncmp_loop_zero m1 name (de_name lookup_de) 14 Hm1) as Hcmp. rewrite Hnm1 in Hcmp.
      destruct (Z.eqb_spec (namecmp m1 name (de_name lookup_de)) 0) as [Hc|Hc].
      * rewrite bool_decide_true by (symmetry; apply Hcmp, Hc). exists s1, m1. split_and!; try done.
        unfold entry_found. by rewrite Hdev.
      * rewrite bool_decide_false by (intros H; apply Hc, Hcmp; done).
        exists s', m'. split_and!; [done | done | | exact E']. intros y Hy. rewrite Hout' by done. by apply Hout.
  - exists (fs_blk st), (fs_mem st). split_and!; try done.
    rewrite drop_ge by (unfold entries; rewrite length_dir_entries; zlia). by destruct st.
Qed.

Lemma dirlookup_ok st v d cap x name nm poff :
  fs_ok sb dp st v d cap x -> dir_ok v x -> mem_ok (fs_mem st) ->
  name + DIRSIZ <= lookup_de \/ lookup_de + DIRENT <= name -> cfield (fs_mem st) name 14 = nm ->
  exists s' m', bk_ok s' v d ∅ ∅ cap /\ mem_ok m' /\
    (forall y, y < lookup_de \/ lookup_de + DIRENT <= y -> m' y = fs_mem st y) /\
    dirlookup devread lookup_de dp name poff st =
      entry_found poff (find_entry (entries v x) 0 nm) (set_fmem m' (set_blk s' st)).
Proof using Hlay Hhome.
  intros Hfs Hdir Hm Hdis Hnm. pose proof Hfs as (_ & _ & Hx & _). pose proof Hdir as (Hty & (_ & Hsz & _) & _).
  unfold dirlookup. rewrite (bind_ino _ _ _ _ Hx), bind_check by (by rewrite Hty).
  apply (dirlookup_loop_ok _ st v d cap x name nm poff 0); try done; zlia.
Qed.

Context (link_de : Z).

Lemma dirlink_loop_ok fuel : forall st v d cap x k,
  fs_ok sb dp st v d cap x -> dir_ok v x -> mem_ok (fs_mem st) ->
  0 <= k -> DIRENT * k <= i_size x -> i_size x / DIRENT - k < Z.of_nat fuel ->
  exists s' m', bk_ok s' v d ∅ ∅ cap /\ mem_ok m' /\
    (forall y, y < link_de \/ link_de + DIRENT <= y -> m' y = fs_mem st y) /\
    dirlink_loop devread link_de fuel dp (DIRENT * k) st =
      Ret (DIRENT * first_unused (drop (Z.to_nat k) (entries v x)) k) (set_fmem m' (set_blk s' st)).
Proof using Hlay Hhome.
  induction fuel as [|fuel IH]; intros st v d cap x k Hfs Hdir Hm Hk Hle Hfuel; [zlia|].
  pose proof Hfs as (Hok & Hsb & Hx & Hdev & _). pose proof Hdir as (_ & (_ & Hsz & _) & Hmod).
  cbn [dirlink_loop]. rewrite (bind_ino _ _ _ _ Hx).
  destruct (Z.ltb_spec (DIRENT * k) (i_size x)) as [Hlt|Hge].
  - destruct (read_entry st v d cap x link_de k) as (s1 & m1 & E & Hok1 & He & Hm1 & Hout); try done.
    rewrite (bind_Ret _ _ _ _ _ E), bind_check, bind_gets by done.
    unfold entries. rewrite drop_dir_entries by zlia. cbn [first_unused]. fold (entries v x). rewrite <- He.
    change (fs_mem (set_fmem m1 (set_blk s1 st))) with m1. unfold entry_at. cbn [fst].
    destruct (Z.eqb_spec (de_inum m1 link_de) 0) as [Hz|Hnz]; [by exists s1, m1|].
    assert (u32 (DIRENT * k + DIRENT) = DIRENT * (k + 1)) as -> by (rewrite u32_small; lia).
    destruct (IH (set_fmem m1 (set_blk s1 st)) v d cap x (k + 1)) as (s' & m' & Hok' & Hm' & Hout' & E');
      try done; try zlia; [by apply fs_ok_moved|].
    exists s', m'. split_and!; [done | done | | exact E']. intros y Hy. rewrite Hout' by done. by apply Hout.
  - exists (fs_blk st), (fs_mem st). split_and!; try done.
    rewrite drop_ge by (unfold entries; rewrite length_dir_entries; zlia). by destruct st.
Qed.

Context (devwrite : Z -> option (nat -> Z -> Z -> M (fsys S) Z)).

(** C28: a directory is a map from names to inode numbers, and [dirlink] is its
    insertion.  With the name in the map, it drops the reference that the
    look-up took and fails.  Otherwise it makes the name mean the inode and
    leaves the meaning of every other name, the blocks of all other files and
    all other inodes as they were; except that with no entry free in a
    directory of the largest size it panics. *)
Theorem dirlink_inserts st v d cap x name nm inum :
  fs_ok sb dp st v d cap x -> dir_ok v x -> inode_wf x -> synced sb v x -> mem_ok (fs_mem st) ->
  0 <= i_inum x < sb_ninodes sb -> 0 < inum < 65536 ->
  name + DIRSIZ <= lookup_de \/ lookup_de + DIRENT <= name ->
  name + DIRSIZ <= link_de \/ link_de + DIRENT <= name ->
  cfield (fs_mem st) name 14 = nm ->
  (room sb d (i_addrs x) + 2 <= cap)%nat -> (1 + no_ind (i_addrs x) <= nfree v sb)%nat ->
  let run := dirlink pid devread devwrite lookup_de link_de dp name inum st in
  match dir_get (entries v x) nm with
  | Some i => exists s' m', bk_ok s' v d ∅ ∅ cap /\
      run = (ip <- iget 1 i ;; iput pid ip ;;; ret (-1)) (set_fmem m' (set_blk s' st))
  | None =>
      if decide (first_unused (entries v x) 0 = MAXFILE * BSIZE / DIRENT) then run = Panic "dirlink"
      else exists s' m' v' d' x', run = Ret 0 (put_ino dp s' x' (set_fmem m' st)) /\
        fs_ok sb dp (put_ino dp s' x' (set_fmem m' st)) v' d' cap x' /\ dir_ok v' x' /\ synced sb v' x' /\
        (forall nm', dir_get (entries v' x') nm' =
           if decide (nm' = nm) then Some inum else dir_get (entries v x) nm') /\
        (forall c, is_data sb c -> used v sb c = true -> ~ owns v (i_addrs x) c -> v' c = v c) /\
        (forall c, sb_inodestart sb <= c < sb_bmapstart sb -> c <> IBLOCK (i_inum x) sb -> v' c = v c)
  end.
Proof using Hlay Hhome.
  intros Hfs Hdir Hwf Hsy Hm Hin Hi Hd1 Hd2 Hnm Hroom Hfree run. pose proof Hdir as (Hty & Hfile & Hmod).
  pose proof Hfile as (Hnd & Hsz & _).
  destruct (dirlookup_ok st v d cap x name nm None) as (s1 & m1 & Hok1 & Hm1 & Hout1 & E1); try done.
  unfold run, dirlink. destruct (dir_get (entries v x) nm) as [i|] eqn:Eg; unfold dir_get in Eg;
    destruct (find_entry (entries v x) 0 nm) as [[j i']|] eqn:Ef; try discriminate.
  { injection Eg as ->. exists s1, m1. split; [done|]. unfold bind at 1. rewrite E1. unfold entry_found, bind, ret.
    by destruct (iget 1 i (set_fmem m1 (set_blk s1 st))). }
  set (st1 := set_fmem m1 (set_blk s1 st)) in *. assert (fs_ok sb dp st1 v d cap x) as Hfs1 by (by apply fs_ok_moved).
  pose proof Hfs1 as (_ & _ & Hx & _). rewrite (bind_Ret _ _ _ _ _ E1), (bind_ino _ _ _ _ Hx).
  destruct (dirlink_loop_ok (Z.to_nat (i_size x / DIRENT + 2)) st1 v d cap x 0)
    as (s2 & m2 & Hok2 & Hm2 & Hout2 & E2); try done; try zlia.
  rewrite drop_0 in E2. set (k := first_unused (entries v x) 0) in *. set (st2 := set_fmem m2 (set_blk s2 st1)) in *.
  destruct (first_unused_spec (entries v x) 0) as [Hk _]. fold k in Hk. unfold entries in Hk.
  rewrite Z.add_0_l, length_dir_entries, Z2Nat.id in Hk by zlia.
  assert (DIRENT * k <= MAXFILE * BSIZE) as Hkm by zlia.
  rewrite (bind_Ret _ _ _ _ _ E2). unfold set_mem. rewrite !bind_modify.
  assert (cfield m2 name 14 = nm) as Hnm2.
  { rewrite <- Hnm. apply cfield_ext. intros y Hy. rewrite Hout2 by lia. apply Hout1. lia. }
  set (m4 := st16 (strncpy m2 (de_name link_de) name DIRSIZ) link_de inum).
  assert (entry_at m4 link_de = (inum, nm)) as He.
  { rewrite <- Hnm2. apply made_entry; [done | unfold disjoint, de_name; lia | lia]. }
  assert (mem_ok m4) as Hm4 by (unfold m4, st16; apply st8_ok, st8_ok, strncpy_loop_ok, Hm2).
  change (set_fmem _ (set_fmem _ st2)) with (set_fmem m4 st2).
  destruct (writei_ok sb Hlay Hhome dp devwrite (set_fmem m4 st2) v d cap x link_de (DIRENT * k) DIRENT)
    as (r & s' & v' & d' & x' & E & Hfs' & Hres); try done; try lia; try (rewrite nblk_entry; lia).
  { destruct Hfs1 as (_ & H). by split. }
  rewrite (bind_Ret _ _ _ _ _ E). rewrite (proj2 (Z.ltb_ge _ _)) in Hres by zlia. cbn [orb] in Hres.
  destruct (decide (k = MAXFILE * BSIZE / DIRENT)) as [Hfull|Hnf].
  - rewrite (proj2 (Z.ltb_lt _ _)) in Hres by zlia. by destruct Hres as (-> & _).
  - rewrite (proj2 (Z.ltb_ge _ _)) in Hres by zlia. destruct Hres as (-> & Hw & Hsy' & _).
    destruct (written_entry sb link_de v x v' x' m4 nm inum) as [Hdir' Hget]; try done; try lia.
    { unfold dir_get. by rewrite Ef. }
    destruct Hw as (_ & _ & _ & Hda & _ & _ & Hlo & _).
    exists s', m4, v', d', x'. by split_and!.
Qed.
End dir.

(** Linking inode 2 into the root directory under the name [abcdefghijklmn]. *)
Lemma dirlink_inserts_witness : exists s' m' v' x',
  dirlink 1 (fun _ => None) (fun _ => None) 8192 8448 0 4193 2 demo_fs = Ret 0 (put_ino 0 s' x' (set_fmem m' demo_fs)) /\
  dir_get (entries v' x') (seqZ 97 14) = Some 2 /\ dir_get (entries v' x') [46; 46] = Some 1.
Proof.
  pose proof (dirlink_inserts demo_sb demo_layout demo_home 1 (fun _ => None) 8192 0 8448 (fun _ => None)
    demo_fs demo_view ∅ 10 demo_root_inode 4193 (seqZ 97 14) 2) as H.
  assert (dir_get (entries demo_view demo_root_inode) (seqZ 97 14) = None) as E1 by (vm_compute; reflexivity).
  assert (first_unused (entries demo_view demo_root_inode) 0 = 2) as E2 by (vm_compute; reflexivity).
  assert (dir_get (entries demo_view demo_root_inode) [46; 46] = Some 1) as E3 by (vm_compute; reflexivity).
  cbn zeta in H. rewrite E1, E2 in H.
  destruct H as (s' & m' & v' & d' & x' & E & _ & _ & _ & Hget & _).
  - apply demo_fs_ok. rewrite size_empty. lia.
  - split_and!; [done | apply demo_file_ok | done].
  - apply demo_inode_wf.
  - vm_compute. reflexivity.
  - intros a. simpl. zlia.
  - simpl. lia.
  - lia.
  - lia.
  - lia.
  - vm_compute. reflexivity.
  - apply Nat.leb_le. vm_compute. reflexivity.
  - apply demo_nfree. vm_compute. lia.
  - exists s', m', v', x'. split; [exact E|]. rewrite !Hget, E3. by split.
Defined.
