(* ===== verification/File.v ===== *)
(** * Open files (file.c, and pipealloc of pipe.c)

    The file table on top of inodes and pipes.  The state has the file system,
    the page allocator, the table and the pipes by the address of their page.
    The operations run for one process; where they would sleep until another
    process acts they do not end. *)

From stdpp Require Import functions.
From S2P Require Import Prelude Mem Kalloc Disk Bio Log Pipe Blocks Balloc Inode.
#[local] Open Scope Z_scope.

Abbreviation NFILE := 100%nat.
Abbreviation MAXOPBLOCKS := 10.

Inductive ftype := FD_NONE | FD_PIPE | FD_INODE.
#[export] Instance ftype_eq_dec : EqDecision ftype.
Proof. solve_decision. Defined.

(** [struct file] *)
Record file := File {
  f_type : ftype;
  f_ref : Z;
  f_readable : bool;
  f_writable : bool;
  f_pipe : Z;
  f_ip : nat;
  f_off : Z;
}.
Definition no_file : file := File FD_NONE 0 false false 0 0 0.
Definition set_fref (r : Z) (f : file) : file :=
  File (f_type f) r (f_readable f) (f_writable f) (f_pipe f) (f_ip f) (f_off f).
Definition set_ftype (t : ftype) (f : file) : file :=
  File t (f_ref f) (f_readable f) (f_writable f) (f_pipe f) (f_ip f) (f_off f).
Definition set_foff (o : Z) (f : file) : file :=
  File (f_type f) (f_ref f) (f_readable f) (f_writable f) (f_pipe f) (f_ip f) o.
(** The fields that pipealloc fills in. *)
Definition set_fpipe (r w : bool) (p : Z) (f : file) : file :=
  File FD_PIPE (f_ref f) r w p (f_ip f) (f_off f).

Record fks (S : Type) := FK {
  fk_fs : fsys S;
  fk_kst : kst;
  fk_ft : list file;          (* ftable.file[NFILE] *)
  fk_pipe : Z -> pst;
}.
Arguments FK {S} fk_fs fk_kst fk_ft fk_pipe.
Arguments fk_fs {S} _.
Arguments fk_kst {S} _.
Arguments fk_ft {S} _.
Arguments fk_pipe {S} _.
Definition set_fs {S} (x : fsys S) (st : fks S) : fks S := FK x (fk_kst st) (fk_ft st) (fk_pipe st).
Definition set_kst {S} (x : kst) (st : fks S) : fks S := FK (fk_fs st) x (fk_ft st) (fk_pipe st).
Definition set_ft {S} (x : list file) (st : fks S) : fks S := FK (fk_fs st) (fk_kst st) x (fk_pipe st).
Definition set_pipe {S} (p : Z) (x : pst) (st : fks S) : fks S :=
  FK (fk_fs st) (fk_kst st) (fk_ft st) (<[p := x]> (fk_pipe st)).

(** The scan of filealloc. *)
Fixpoint unused_file (l : list file) (i : nat) : option nat :=
  match l with
  | [] => None
  | f :: l => if f_ref f =? 0 then Some i else unused_file l (i + 1)
  end.

Section file.
Context {S : Type} `{!BlockOps S}.
(** The process: its pid, and its flag [killed]. *)
Context (pid : Z) (killed : bool).
Context (devread devwrite : Z -> option (nat -> Z -> Z -> M (fsys S) Z)).
Context (kend : Z).

Definition fs {A} (m : M (fsys S) A) : M (fks S) A := zoom fk_fs set_fs m.
Definition mm {A} (m : M kst A) : M (fks S) A := zoom fk_kst set_kst m.
Definition pipe_of {A} (p : Z) (m : M pst A) : M (fks S) A := zoom (fun st => fk_pipe st p) (set_pipe p) m.
Definition fil (f : nat) : M (fks S) file := gets (fun st => default no_file (fk_ft st !! f)).
Definition upd_fil (f : nat) (g : file -> file) : M (fks S) unit :=
  modify (fun st => set_ft (alter g f (fk_ft st)) st).

Definition filealloc : M (fks S) (option nat) :=
  l <- gets fk_ft ;;
  match unused_file l 0 with
  | Some f => upd_fil f (set_fref 1) ;;; ret (Some f)
  | None => ret None
  end.

Definition filedup (f : nat) : M (fks S) nat :=
  x <- fil f ;;
  panic_if (f_ref x <? 1) "filedup" ;;;
  upd_fil f (set_fref (f_ref x + 1)) ;;;
  ret f.

Definition fileclose (f : nat) : M (fks S) unit :=
  x <- fil f ;;
  panic_if (f_ref x <? 1) "fileclose" ;;;
  upd_fil f (set_fref (f_ref x - 1)) ;;;
  if 0 <? f_ref x - 1 then ret tt
  else
    ff <- fil f ;;
    upd_fil f (fun x => set_ftype FD_NONE (set_fref 0 x)) ;;;
    match f_type ff with
    | FD_PIPE =>
        free <- pipe_of (f_pipe ff) (pipeclose (f_writable ff)) ;;
        if free : bool then mm (kfree kend (f_pipe ff)) else ret tt
    | FD_INODE =>
        fs (blk bk_begin_op) ;;;
        fs (iput pid (f_ip ff)) ;;;
        fs (blk bk_end_op)
    | FD_NONE => ret tt
    end.

Definition filestat (f : nat) (st : Z) : M (fks S) Z :=
  x <- fil f ;;
  if decide (f_type x = FD_INODE) then
    fs (ilock pid (Some (f_ip x))) ;;;
    fs (stati (f_ip x) st) ;;;
    fs (iunlock pid (Some (f_ip x))) ;;;
    ret 0
  else ret (-1).

Definition fileread (f : nat) (addr n : Z) : M (fks S) Z :=
  x <- fil f ;;
  if negb (f_readable x) then ret (-1)
  else match f_type x with
  | FD_PIPE =>
      m <- gets (fun st => fs_mem (fk_fs st)) ;;
      r <- pipe_of (f_pipe x) (piperead m addr n killed) ;;
      match r with
      | RRet r m => modify (fun st => set_fs (set_fmem m (fk_fs st)) st) ;;; ret r
      | RSleep => diverge
      end
  | FD_INODE =>
      fs (ilock pid (Some (f_ip x))) ;;;
      r <- fs (readi devread (f_ip x) addr (f_off x) (u32 n)) ;;
      (if 0 <? r then upd_fil f (fun x => set_foff (u32 (f_off x + r)) x) else ret tt) ;;;
      fs (iunlock pid (Some (f_ip x))) ;;;
      ret r
  | FD_NONE => panic "fileread"
  end.

(** [int max = ((MAXOPBLOCKS-1-1-2) / 2) * 512;] *)
Definition write_max : Z := ((MAXOPBLOCKS - 1 - 1 - 2) / 2) * 512.
Fixpoint filewrite_loop (fuel : nat) (f ip : nat) (addr i n : Z) : M (fks S) Z :=
  match fuel with
  | O => diverge
  | Datatypes.S fuel =>
      if i <? n then
        let n1 := if write_max <? n - i then write_max else n - i in
        fs (blk bk_begin_op) ;;;
        fs (ilock pid (Some ip)) ;;;
        x <- fil f ;;
        r <- fs (writei devwrite ip (addr + i) (f_off x) n1) ;;
        (if 0 <? r then upd_fil f (fun x => set_foff (u32 (f_off x + r)) x) else ret tt) ;;;
        fs (iunlock pid (Some ip)) ;;;
        fs (blk bk_end_op) ;;;
        if r <? 0 then ret (if i =? n then n else -1)
        else
          panic_if (negb (r =? n1)) "short filewrite" ;;;
          filewrite_loop fuel f ip addr (i + r) n
      else ret (if i =? n then n else -1)
  end.
Definition filewrite (f : nat) (addr n : Z) : M (fks S) Z :=
  x <- fil f ;;
  if negb (f_writable x) then ret (-1)
  else match f_type x with
  | FD_PIPE =>
      m <- gets (fun st => fs_mem (fk_fs st)) ;;
      r <- pipe_of (f_pipe x) (pipewrite m addr 0 n killed) ;;
      match r with
      | WRet r => ret r
      | WSleep _ => diverge
      end
  | FD_INODE => filewrite_loop (Z.to_nat (n / write_max + 2)) f (f_ip x) addr 0 n
  | FD_NONE => panic "filewrite"
  end.

(** [pipealloc]: the files are the results through [f0] and [f1]. *)
Definition close_if (f : option nat) : M (fks S) unit :=
  match f with
  | Some f => fileclose f
  | None => ret tt
  end.
Definition pipealloc : M (fks S) (option (nat * nat)) :=
  f0 <- filealloc ;;
  match f0 with
  | None => ret None
  | Some f0 =>
      f1 <- filealloc ;;
      match f1 with
      | None => close_if (Some f0) ;;; close_if None ;;; ret None
      | Some f1 =>
          p <- mm kalloc ;;
          if p =? 0 then close_if (Some f0) ;;; close_if (Some f1) ;;; ret None
          else
            pipe_of p (modify (fun s => PSt (pipe_init (pp s)) [] [] [])) ;;;
            upd_fil f0 (set_fpipe true false p) ;;;
            upd_fil f1 (set_fpipe false true p) ;;;
            ret (Some (f0, f1))
      end
  end.
End file.
