(* ===== verification/FileLaws.v ===== *)
(** * Writing through a file

    The loop of filewrite cuts a write into transactions.  Each piece fits the
    log reservation of one operation, and together they make one write. *)

From stdpp Require Import functions.
From S2P Require Import Prelude Mem Kalloc Disk Bio Log Pipe Blocks Balloc Inode Dinode InodeData InodeIO File.
#[local] Open Scope Z_scope.

Section agree.
Context (sb : superblock) (Hlay : layout sb).
Implicit Types (v : Z -> block) (x : inode).

(** Views that agree on everything but the log. *)
Definition agree v v' : Prop := forall n, sb_inodestart sb <= n < sb_size sb -> v' n = v n.

Lemma data_agree b : is_data sb b -> sb_inodestart sb <= b < sb_size sb.
Proof using Hlay. unfold is_data, datastart, layout in *. zlia. Qed.
Lemma used_agree v v' b : agree v v' -> 0 <= b < sb_size sb -> used v' sb b = used v sb b.
Proof using Hlay.
  intros H Hb. unfold used. rewrite H; [done|]. pose proof (BBLOCK_range sb b Hlay Hb).
  unfold layout, datastart in *. zlia.
Qed.
Lemma baddr_agree v v' a bn : agree v v' -> tree_ok v sb a -> baddr v' a bn = baddr v a bn.
Proof using Hlay.
  intros H (_ & _ & Ha & _). apply baddr_ext. intros Hz. destruct (Ha Hz) as (Hd & _). by apply H, data_agree.
Qed.
Lemma tree_agree v v' a : agree v v' -> tree_ok v sb a -> tree_ok v' sb a.
Proof using Hlay.
  intros H Ht. apply (tree_ok_ext v); [| |done].
  - intros Hz. destruct Ht as (_ & _ & Ha & _). destruct (Ha Hz) as (Hd & _). by apply H, data_agree.
  - intros b Hb Hu. rewrite (used_agree v v'); [done | done | by apply is_data_range].
Qed.
Lemma fbyte_agree v v' a p : agree v v' -> tree_ok v sb a -> 0 <= p < MAXFILE * BSIZE ->
  baddr v a (p / BSIZE) <> 0 -> fbyte v' a p = fbyte v a p.
Proof using Hlay.
  intros H Ht Hp Hne. unfold fbyte. rewrite (baddr_agree v v') by done. rewrite H; [done|].
  destruct Ht as (_ & Hb & _). apply data_agree, Hb; [zlia | done].
Qed.
Lemma dense_agree v v' a off n : agree v v' -> tree_ok v sb a -> dense v a off n -> dense v' a off n.
Proof using Hlay. intros H Ht Hd bn H1 H2 H3. rewrite (baddr_agree v v') by done. by apply Hd. Qed.
Lemma file_agree v v' x : agree v v' -> tree_ok v sb (i_addrs x) -> file_ok v x -> file_ok v' x.
Proof using Hlay. intros H Ht (H1 & H2 & H3). split_and!; try done; try lia. by eapply dense_agree. Qed.
Lemma meta_agree v v' : agree v v' -> meta_used v sb -> meta_used v' sb.
Proof using Hlay. intros H Hm b Hb. rewrite (used_agree v v'); [by apply Hm | done | unfold layout in *; lia]. Qed.
Lemma nfree_agree v v' : agree v v' -> nfree v' sb = nfree v sb.
Proof using Hlay.
  intros H. unfold nfree. f_equal. apply set_eq. intros b. rewrite !elem_of_free_set.
  destruct (decide (0 <= b < sb_size sb)); [|tauto]. by rewrite (used_agree v v').
Qed.
Lemma synced_agree v v' x : agree v v' -> 0 <= i_inum x < sb_ninodes sb -> synced sb v x -> synced sb v' x.
Proof using Hlay.
  intros H Hi Hs. unfold synced. rewrite H; [done|]. pose proof (IBLOCK_range sb Hlay _ Hi).
  unfold layout, datastart in *. zlia.
Qed.
Lemma owns_agree v v' a c : agree v v' -> tree_ok v sb a -> owns v' a c <-> owns v a c.
Proof using Hlay.
  intros H Ht. unfold owns. f_equiv. f_equiv. f_equiv. intros bn. by rewrite (baddr_agree v v').
Qed.
Lemma written_agree v x v' v'' x' off n f :
  agree v' v'' -> tree_ok v' sb (i_addrs x') -> 0 <= i_inum x < sb_ninodes sb ->
  written sb v x v' x' off n f -> written sb v x v'' x' off n f.
Proof using Hlay.
  intros H Ht Hi (Ex & Hf & Hb & Hda & Hu & Ho & Hlo & Hsl). pose proof Hf as (_ & Hsz & Hde).
  pose proof (IBLOCK_range sb Hlay _ Hi) as Hib.
  split_and!; try done.
  - by eapply file_agree.
  - intros p Hp. rewrite (fbyte_agree v' v''); [by apply Hb | done | done | lia | apply Hde; zlia].
  - intros c Hc Hu' Hno. rewrite H by (by apply data_agree). by apply Hda.
  - intros c Hc Hu'. rewrite (used_agree v' v'') by done. by apply Hu.
  - intros c Hc. apply Ho. by apply (owns_agree v' v'').
  - intros c Hc Hne. rewrite H; [by apply Hlo|]. unfold layout, datastart in *. zlia.
  - intros i Hi'. rewrite H; [by apply Hsl|]. unfold layout, datastart in *. zlia.
Qed.
End agree.

Section write.
Context {S : Type} `{!BlockOps S} `{!BlockLaws S}.
Context (sb : superblock) (Hlay : layout sb).
Context (Hhome : forall b, sb_inodestart sb <= b < sb_size sb -> bk_home b).
Implicit Types (v : Z -> block) (x : inode).


Lemma written_trans v x v1 x1 v2 x2 off m n f :
  0 <= off -> 0 <= m -> 0 <= n -> tree_ok v2 sb (i_addrs x2) ->
  written sb v x v1 x1 off m f -> written sb v1 x1 v2 x2 (off + m) n f -> written sb v x v2 x2 off (m + n) f.
Proof using Hlay.
  intros Ho Hm Hn Ht (Ex1 & Hf1 & Hb1 & Hd1 & Hu1 & Ho1 & Hl1 & Hs1) (Ex2 & Hf2 & Hb2 & Hd2 & Hu2 & Ho2 & Hl2 & Hs2).
  assert (i_inum x1 = i_inum x) as Ei by (by rewrite Ex1). rewrite Ei in Hl2, Hs2.
  assert (i_size x1 = Z.max (i_size x) (off + m)) as Es1 by (by rewrite Ex1).
  assert (i_size x2 = Z.max (i_size x) (off + (m + n))) as Es2 by (rewrite Ex2; simpl; lia).
  split_and!.
  - rewrite Ex2 at 1. rewrite Es1. generalize (i_addrs x2) as a. intros a. rewrite Ex1. unfold set_size, set_addrs. simpl. f_equal. lia.
  - done.
  - intros p Hp. rewrite Hb2 by done.
    destruct (Z.leb_spec (off + m) p), (Z.ltb_spec p (off + m + n)); cbn [andb]; [by zcases | | |];
      rewrite Hb1 by lia; by zcases.
  - intros c Hc Hu Hno. rewrite Hd2, Hd1; [done | done | done | done | done | |].
    + apply Hu1; [by apply is_data_range | done].
    + intros Hown. destruct (Ho1 c Hown) as [?|E]; [done|]. congruence.
  - intros c Hc Hu. by apply Hu2, Hu1.
  - intros c Hown. pose proof Hown as Hown'. apply Ho2 in Hown as [Hown|Hfr]; [by apply Ho1|]. right.
    destruct (used v sb c) eqn:Eu; [|done]. rewrite Hu1 in Hfr; [done | | done].
    destruct Ht as (_ & Hbd & Ha & _), Hown' as (Hc & [E|(bn & Hbn & E)]).
    + apply is_data_range; [done|]. rewrite <- E. apply Ha. congruence.
    + apply is_data_range; [done|]. rewrite <- E. apply Hbd; [done | congruence].
  - intros c Hc Hne. rewrite Hl2 by done. by apply Hl1.
  - intros i Hi. rewrite Hs2 by done. by apply Hs1.
Qed.

Context (pid : Z) (ip : nat).
Implicit Types (st : fsys S).

(** An inode that a file refers to, between operations: in the cache, not
    locked, and the same on the disk. *)
Definition open_inode st v x : Prop :=
  fs_ok sb ip st v ∅ 0 x /\ 1 <= i_ref x /\ i_valid x = true /\ i_lock x = Sleeplock false 0 /\
  0 <= i_inum x < sb_ninodes sb /\ file_ok v x /\ inode_wf x /\ synced sb v x.

(** The inode while the process holds its lock. *)
Definition held x : inode := set_ilock (Sleeplock true pid) x.

Lemma ilock_open st x : fs_ic st !! ip = Some x -> 1 <= i_ref x -> i_valid x = true -> i_lock x = Sleeplock false 0 ->
  ilock pid (Some ip) st = Ret tt (put_ino ip (fs_blk st) (held x) st).
Proof using.
  intros Hx Hr Hv Hl. unfold ilock. rewrite (bind_ino _ _ _ _ Hx), bind_check by (apply Z.ltb_ge; lia).
  rewrite Hl, Hv. unfold acquiresleep, bind, ret, upd_ino, modify, set_ic, put_ino. simpl.
  by rewrite (alter_insert_same _ _ _ x).
Qed.
Lemma iunlock_held st x : fs_ic st !! ip = Some x -> 1 <= i_ref x -> i_lock x = Sleeplock true pid ->
  iunlock pid (Some ip) st = Ret tt (put_ino ip (fs_blk st) (set_ilock (Sleeplock false 0) x) st).
Proof using.
  intros Hx Hr Hl. unfold iunlock. rewrite (bind_ino _ _ _ _ Hx), bind_check.
  - unfold upd_ino, modify, set_ic, put_ino. by rewrite (alter_insert_same _ _ _ x).
  - rewrite Hl. unfold holdingsleep. simpl. rewrite Z.eqb_refl. simpl. apply Z.ltb_ge. lia.
Qed.

(** A piece of a write fits the reservation of an operation. *)
Lemma piece_room a off n : (size (bmaps sb) <= 4)%nat -> 0 <= off -> 0 <= n <= write_max ->
  (room sb ∅ a + Z.to_nat (nblk off n) + 1 <= 10)%nat /\ (Z.to_nat (nblk off n) <= 4)%nat.
Proof using.
  intros Hbm Ho Hn. unfold write_max in Hn.
  assert (0 <= nblk off n <= 4) as Hnb by (unfold nblk; destruct (Z.leb_spec n 0); zlia).
  split; [|lia]. unfold room, ind_set. rewrite union_empty_l_L.
  destruct (a12 a =? 0); [rewrite union_empty_r_L; lia|].
  pose proof (size_union_alt (bmaps sb) {[a12 a]}) as E.
  assert (size ({[a12 a]} ∖ bmaps sb) <= 1)%nat by (rewrite <- (size_singleton (C := gset Z) (a12 a)); apply subseteq_size; clear; set_solver).
  clear -E H Hbm Hnb. lia.
Qed.

Lemma written_wf v x v' x' off n f :
  inode_wf x -> tree_ok v' sb (i_addrs x') -> written sb v x v' x' off n f -> inode_wf x'.
Proof using Hlay.
  intros (W1 & W2 & W3 & W4 & W5 & W6 & W7) Ht (Ex & (_ & Hsz & _) & _). pose proof (tree_addrs_wf sb Hlay _ _ Ht) as Hwf.
  destruct Ht as (Hlen & _).
  assert (i_type x' = i_type x /\ i_major x' = i_major x /\ i_minor x' = i_minor x /\ i_nlink x' = i_nlink x)
    as (E1 & E2 & E3 & E4) by (rewrite Ex; done).
  unfold inode_wf. rewrite E1, E2, E3, E4. split_and!; try apply W1; try apply W2; try apply W3; try apply W4; done || lia.
Qed.

Lemma synced_lock v x l : synced sb v x -> synced sb v (set_ilock l x).
Proof using.
  unfold synced. intros H. cbn [set_ilock i_inum].
  change (get_dinode ?o ?d (set_ilock l x)) with (set_ilock l (get_dinode o d x)). by rewrite H.
Qed.

(** One transaction of filewrite. *)
Lemma write_op devwrite st v x src off n :
  open_inode st v x -> mem_ok (fs_mem st) -> (size (bmaps sb) <= 4)%nat ->
  0 <= off <= i_size x -> 0 <= n <= write_max -> off + n <= MAXFILE * BSIZE ->
  (4 + no_ind (i_addrs x) <= nfree v sb)%nat ->
  exists st1 st2 st3 st4 st5 v' x', blk bk_begin_op st = Ret tt st1 /\ ilock pid (Some ip) st1 = Ret tt st2 /\
    writei devwrite ip src off n st2 = Ret n st3 /\ iunlock pid (Some ip) st3 = Ret tt st4 /\
    blk bk_end_op st4 = Ret tt st5 /\ fs_mem st5 = fs_mem st /\
    open_inode st5 v' x' /\ written sb v x v' x' off n (fun p => fs_mem st (src + (p - off))) /\
    (nfree v sb + no_ind (i_addrs x') <= nfree v' sb + 4 + no_ind (i_addrs x))%nat.
Proof using Hlay Hhome.
  intros ((Hok & Hsb & Hx & Hdev & Hmu & Ht) & Hr & Hv & Hl & Hin & Hf & Hwf & Hsy) Hmem Hbm Ho Hn Hmax Hfree.
  destruct (piece_room (i_addrs x) off n Hbm ltac:(lia) Hn) as [Hroom Hnb].
  destruct (bk_begin_ok _ _ Hok) as (s1 & E1 & Hok1). set (st1 := set_blk s1 st).
  assert (blk bk_begin_op st = Ret tt st1) as E1' by (unfold blk, zoom; by rewrite E1).
  assert (ilock pid (Some ip) st1 = Ret tt (put_ino ip s1 (held x) st1)) as E2 by (by apply ilock_open).
  set (st2 := put_ino ip s1 (held x) st1) in *.
  destruct (writei_ok sb Hlay Hhome ip devwrite st2 v ∅ 10 (held x) src off n)
    as (r & s3 & v3 & d3 & x3 & E3 & Hfs3 & Hres); try done; try (cbn [held set_ilock i_addrs i_inum]; lia).
  { split_and!; try done. by eapply put_ino_lookup. }
  { by apply synced_lock. }
  rewrite (proj2 (Z.ltb_ge _ _)), (proj2 (Z.ltb_ge _ _)) in Hres by (simpl; lia).
  destruct Hres as (-> & Hw & Hsy3 & Hnf). set (st3 := put_ino ip s3 x3 st2) in *.
  pose proof Hfs3 as (Hok3 & _ & Hx3 & Hdev3 & Hmu3 & Ht3). pose proof Hw as (Ex3 & Hf3 & _).
  assert (i_ref x3 = i_ref x /\ i_lock x3 = Sleeplock true pid /\ i_inum x3 = i_inum x /\ i_valid x3 = i_valid x)
    as (Er3 & El3 & Ei3 & Ev3) by (rewrite Ex3; done).
  pose proof (iunlock_held st3 x3 Hx3 ltac:(lia) El3) as E4. set (x4 := set_ilock (Sleeplock false 0) x3) in *.
  destruct (bk_end_ok s3 v3 d3 10 Hok3 ltac:(lia)) as (s5 & v5 & E5 & Hok5 & Hag).
  assert (agree sb v3 v5) as Hagr by (intros c Hc; by apply Hag, Hhome).
  set (st4 := put_ino ip s3 x4 st3) in *.
  assert (blk bk_end_op st4 = Ret tt (set_blk s5 st4)) as E5' by (unfold blk, zoom, st4; simpl; by rewrite E5).
  assert (tree_ok v3 sb (i_addrs x4)) as Ht4 by exact Ht3.
  assert (written sb v x v3 x4 off n (fun p => fs_mem st (src + (p - off)))) as Hw4.
  { destruct Hw as (_ & Hw). split; [|exact Hw]. unfold x4. rewrite Ex3 at 1. simpl. clear -Hl.
    unfold set_ilock, set_size, set_addrs. simpl. by rewrite Hl. }
  exists st1, st2, st3, st4, (set_blk s5 st4), v5, x4. split_and!; try done.
  - unfold open_inode. split.
    + split_and!; [exact Hok5 | done | exact (put_ino_lookup ip s5 x3 x4 st3 Hx3) | done | by eapply meta_agree | by eapply tree_agree].
    + split_and!; [simpl; lia | simpl; congruence | done | simpl; lia.. | | |].
      * by eapply file_agree.
      * by eapply written_wf.
      * eapply synced_agree; [done | exact Hagr | simpl; lia | by apply synced_lock].
  - apply (written_agree sb Hlay v x v3 v5 x4); done.
  - rewrite (nfree_agree sb Hlay v3 v5 Hagr). change (i_addrs (held x)) with (i_addrs x) in Hnf. change (i_addrs x4) with (i_addrs x3). lia.
Qed.

Context (devwrite : Z -> option (nat -> Z -> Z -> M (fsys S) Z)).

Lemma bind_fs {A B} (m : M (fsys S) A) (k : A -> M (fks S) B) (st : fks S) a s :
  m (fk_fs st) = Ret a s -> bind (fs m) k st = k a (set_fs s st).
Proof using. intros E. unfold bind, fs, zoom. by rewrite E. Qed.
Lemma bind_fil {B} f (k : file -> M (fks S) B) (st : fks S) fx :
  fk_ft st !! f = Some fx -> bind (fil f) k st = k fx st.
Proof using. intros E. unfold bind, fil, gets. by rewrite E. Qed.
Lemma bind_upd_fil {B} f g (k : unit -> M (fks S) B) (st : fks S) fx :
  fk_ft st !! f = Some fx -> bind (upd_fil f g) k st = k tt (set_ft (<[f := g fx]> (fk_ft st)) st).
Proof using. intros E. unfold upd_fil. rewrite bind_modify. by rewrite (alter_insert_same _ _ _ fx). Qed.

Lemma written_nothing st v x off f :
  open_inode st v x -> 0 <= off <= i_size x -> written sb v x v x off 0 f.
Proof using Hlay.
  intros ((_ & _ & _ & _ & _ & Ht) & _ & _ & _ & Hin & Hf & _) Ho. pose proof Hf as (_ & Hsz & _).
  pose proof (wrote_file sb Hlay v x v x off 0 f (wrote_nothing sb v x off f 0 Ht ltac:(lia) ltac:(lia)) Hf Ho) as Hw.
  specialize (Hw ltac:(lia) ltac:(lia) Hin). rewrite Z.max_l in Hw by lia. by destruct x.
Qed.
Lemma written_ext v x v' x' off n f g :
  (forall p, f p = g p) -> written sb v x v' x' off n f -> written sb v x v' x' off n g.
Proof using.
  intros Hfg (A1 & A2 & A3 & A4). split; [done|]. split; [done|]. split; [|done]. intros p Hp. rewrite <- Hfg. by apply A3.
Qed.

Lemma write_max_eq : write_max = 1536.
Proof using. done. Qed.
(** Runs the step on the file system that [E] describes. *)
Ltac step_fs E :=
  match goal with |- context [bind (fs _) _ ?s] => rewrite (bind_fs _ _ s _ _ E) end.

(** The number of pieces of a write. *)
Definition pieces (n : Z) : Z := (n + write_max - 1) / write_max.

Lemma filewrite_loop_ok f addr n (Hbm : (size (bmaps sb) <= 4)%nat) fuel : forall (st : fks S) v x fx i,
  open_inode (fk_fs st) v x -> mem_ok (fs_mem (fk_fs st)) -> fk_ft st !! f = Some fx ->
  0 <= i <= n -> 0 <= f_off fx <= i_size x -> f_off fx + (n - i) <= MAXFILE * BSIZE ->
  (Z.to_nat (4 * pieces (n - i)) + no_ind (i_addrs x) <= nfree v sb)%nat -> pieces (n - i) < Z.of_nat fuel ->
  exists s' v' x', filewrite_loop pid devwrite fuel f ip addr i n st =
      Ret n (FK s' (fk_kst st) (<[f := set_foff (f_off fx + (n - i)) fx]> (fk_ft st)) (fk_pipe st)) /\
    open_inode s' v' x' /\ fs_mem s' = fs_mem (fk_fs st) /\
    written sb v x v' x' (f_off fx) (n - i) (fun p => fs_mem (fk_fs st) (addr + i + (p - f_off fx))).
Proof using Hlay Hhome.
  induction fuel as [|fuel IH]; intros st v x fx i Hop Hmem Hfx Hi Ho Hmax Hfree Hfuel;
    [unfold pieces in Hfuel; rewrite write_max_eq in Hfuel; zlia|].
  cbn [filewrite_loop]. destruct (Z.ltb_spec i n) as [Hlt|Hge].
  2: { assert (i = n) as -> by lia. exists (fk_fs st), v, x. rewrite Z.eqb_refl, Z.sub_diag, Z.add_0_r.
       rewrite list_insert_id by (rewrite Hfx; by destruct fx). split_and!; try done; [by destruct st|].
       by eapply written_nothing. }
  set (n1 := if write_max <? n - i then write_max else n - i).
  assert (0 < n1 <= write_max /\ n1 <= n - i /\ pieces (n - i) = pieces (n - i - n1) + 1) as (Hn1 & Hn1' & Hp).
  { unfold n1, pieces. rewrite write_max_eq. destruct (Z.ltb_spec 1536 (n - i)); zlia. }
  assert (0 <= pieces (n - i - n1)) as Hp0 by (unfold pieces; rewrite write_max_eq in *; zlia).
  destruct (write_op devwrite (fk_fs st) v x (addr + i) (f_off fx) n1)
    as (st1 & st2 & st3 & st4 & st5 & v1 & x1 & E1 & E2 & E3 & E4 & E5 & Hm5 & Hop5 & Hw & Hnf); try done; try lia.
  step_fs E1. step_fs E2. rewrite (bind_fil f _ _ fx) by done. step_fs E3.
  rewrite (proj2 (Z.ltb_lt 0 n1)) by lia. rewrite (bind_upd_fil f _ _ _ fx) by done. step_fs E4. step_fs E5.
  rewrite (proj2 (Z.ltb_ge n1 0)) by lia. rewrite bind_check by (by rewrite Z.eqb_refl).
  rewrite u32_small by lia. set (fx1 := set_foff (f_off fx + n1) fx).
  assert (i_size x1 = Z.max (i_size x) (f_off fx + n1)) as Es by (destruct Hw as (-> & _); done).
  destruct (IH (FK st5 (fk_kst st) (<[f := fx1]> (fk_ft st)) (fk_pipe st)) v1 x1 fx1 (i + n1))
    as (s' & v' & x' & E & Hop' & Hm' & Hw'); cbn [fk_fs fk_ft fk_kst fk_pipe] in *; try done.
  - by rewrite Hm5.
  - apply list_lookup_insert_eq. by eapply lookup_lt_Some.
  - lia.
  - simpl. lia.
  - simpl. lia.
  - replace (n - (i + n1)) with (n - i - n1) by lia. lia.
  - replace (n - (i + n1)) with (n - i - n1) by lia. lia.
  - exists s', v', x'. split; [|split; [done|split; [congruence|]]].
    + rewrite list_insert_insert_eq in E. unfold fx1 in E. cbn [set_foff f_off] in E.
      replace (f_off fx + n1 + (n - (i + n1))) with (f_off fx + (n - i)) in E by lia. exact E.
    + replace (n - i) with (n1 + (n - (i + n1))) by lia.
      destruct Hop' as ((_ & _ & _ & _ & _ & Ht') & _).
      eapply written_trans; [lia | lia | lia | done | eapply written_ext; [|exact Hw] | eapply written_ext; [|exact Hw']].
      * done.
      * intros p. simpl. rewrite Hm5. f_equal. lia.
Qed.

(** C29: [filewrite] on an inode.  On a file system of at most four bitmap blocks
    every transaction it makes stays within the ten blocks that [begin_op]
    reserves, whatever the offset and the count; so with enough free blocks the
    write does not panic, writes all the bytes at the offset of the file as one
    write, moves the offset behind them, and leaves every other file, every
    other inode and every other open file as it was. *)
Theorem filewrite_writes killed f addr n (st : fks S) v x fx :
  (size (bmaps sb) <= 4)%nat -> fk_ft st !! f = Some fx -> f_writable fx = true -> f_type fx = FD_INODE ->
  f_ip fx = ip -> open_inode (fk_fs st) v x -> mem_ok (fs_mem (fk_fs st)) ->
  0 <= n -> 0 <= f_off fx <= i_size x -> f_off fx + n <= MAXFILE * BSIZE ->
  (Z.to_nat (4 * pieces n) + no_ind (i_addrs x) <= nfree v sb)%nat ->
  exists s' v' x', filewrite pid killed devwrite f addr n st =
      Ret n (FK s' (fk_kst st) (<[f := set_foff (f_off fx + n) fx]> (fk_ft st)) (fk_pipe st)) /\
    open_inode s' v' x' /\ fs_mem s' = fs_mem (fk_fs st) /\
    written sb v x v' x' (f_off fx) n (fun p => fs_mem (fk_fs st) (addr + (p - f_off fx))).
Proof using Hlay Hhome.
  intros Hbm Hfx Hwr Hty Hip Hop Hmem Hn Ho Hmax Hfree. unfold filewrite.
  rewrite (bind_fil f _ _ fx) by done. rewrite Hwr, Hty, Hip. cbn [negb].
  destruct (filewrite_loop_ok f addr n Hbm (Z.to_nat (n / write_max + 2)) st v x fx 0)
    as (s' & v' & x' & E & Hop' & Hm' & Hw); try done; try lia; rewrite ?Z.sub_0_r in *; try done.
  - unfold pieces. rewrite write_max_eq. zlia.
  - exists s', v', x'. split_and!; try done. eapply written_ext; [|exact Hw]. intros p. simpl. f_equal. lia.
Qed.
End write.

(** Four thousand bytes into the root directory file of the demonstration image,
    through file 0. *)
Definition demo_open : inode := set_ilock (Sleeplock false 0) demo_root_inode.
Definition demo_files : fks ideal :=
  FK (FSt (Ideal demo_view) demo_sb [demo_open] (fun a => a mod 256)) (KSt (fun _ => 0) 0 false)
    [File FD_INODE 1 true true 0 0 32] (fun _ => PSt (Pipe [] 0 0 0 0) [] [] []).
Lemma demo_open_ok : open_inode (BlockLaws0 := ideal_laws) demo_sb 0 (fk_fs demo_files) demo_view demo_open.
Proof.
  assert (synced demo_sb demo_view demo_root_inode) as Hs by (vm_compute; reflexivity).
  split.
  - split; [apply demo_ideal; rewrite size_empty; lia|]. split; [reflexivity|]. split; [reflexivity|].
    split; [reflexivity|]. split; [apply demo_meta | apply demo_tree].
  - split; [simpl; lia|]. split; [reflexivity|]. split; [reflexivity|]. split; [simpl; lia|].
    split; [apply demo_file_ok|]. split; [apply demo_inode_wf | by apply synced_lock].
Qed.
Lemma filewrite_writes_witness : exists s',
  filewrite 7 false (fun _ => None) 0 4096 4000 demo_files =
    Ret 4000 (FK s' (fk_kst demo_files) [File FD_INODE 1 true true 0 0 4032] (fk_pipe demo_files)).
Proof.
  destruct (filewrite_writes demo_sb demo_layout demo_home 7 0 (fun _ => None) false 0 4096 4000 demo_files
    demo_view demo_open (File FD_INODE 1 true true 0 0 32)) as (s' & v' & x' & E & _).
  - apply Nat.leb_le. vm_compute. reflexivity.
  - reflexivity.
  - reflexivity.
  - reflexivity.
  - reflexivity.
  - apply demo_open_ok.
  - intros a. simpl. zlia.
  - lia.
  - simpl. lia.
  - simpl. lia.
  - apply demo_nfree. apply Nat.leb_le. vm_compute. reflexivity.
  - exists s'. exact E.
Defined.

(** ** The file table *)

(** A file that is not referenced is not open. *)
Definition files_ok (l : list file) : Prop := Forall (fun f => 0 <= f_ref f /\ (f_ref f = 0 -> f_type f = FD_NONE)) l.

Lemma unused_file_spec l i :
  match unused_file l i with
  | Some j => exists f, l !! (j - i)%nat = Some f /\ f_ref f = 0 /\ (i <= j)%nat
  | None => Forall (fun f => f_ref f <> 0) l
  end.
Proof.
  revert i. induction l as [|f l IH]; intros i; simpl; [done|].
  destruct (Z.eqb_spec (f_ref f) 0) as [E|E]; [exists f; by rewrite Nat.sub_diag|].
  specialize (IH (i + 1)%nat). destruct (unused_file l (i + 1)) as [j|]; [|by constructor].
  destruct IH as (f' & Hl & Hr & Hij). exists f'. split_and!; [|done | lia].
  by replace (j - i)%nat with (Datatypes.S (j - (i + 1))) by lia.
Qed.

Lemma kalloc_total k : exists k', kalloc k = Ret (kmem_freelist k) k' /\ (kmem_freelist k = 0 -> k' = k).
Proof.
  unfold kalloc, bind, gets, modify, ret. destruct (Z.eqb_spec (kmem_freelist k) 0); eexists; split; done.
Qed.

Section table.
Context {S : Type} `{!BlockOps S}.
Context (pid kend : Z).
Implicit Types (st : fks S).

Lemma filealloc_ok st :
  (filealloc st = Ret None st /\ Forall (fun f => f_ref f <> 0) (fk_ft st)) \/
  exists i f, fk_ft st !! i = Some f /\ f_ref f = 0 /\
    filealloc st = Ret (Some i) (set_ft (<[i := set_fref 1 f]> (fk_ft st)) st).
Proof using.
  unfold filealloc. rewrite bind_gets. pose proof (unused_file_spec (fk_ft st) 0) as H.
  destruct (unused_file (fk_ft st) 0) as [i|]; [right | by left].
  destruct H as (f & Hi & Hr & _). rewrite Nat.sub_0_r in Hi. exists i, f. split_and!; try done.
  by rewrite (bind_upd_fil i _ _ _ f).
Qed.
(** Closing a file that was allocated and not used. *)
Lemma fileclose_fresh st i f : fk_ft st !! i = Some (set_fref 1 f) -> f_ref f = 0 -> f_type f = FD_NONE ->
  fileclose pid kend i st = Ret tt (set_ft (<[i := f]> (fk_ft st)) st).
Proof using.
  intros Hi Hr Ht. unfold fileclose. rewrite (bind_fil i _ _ _ Hi), bind_check by done.
  rewrite (bind_upd_fil i _ _ _ _ Hi). change (0 <? f_ref (set_fref 1 f) - 1) with false. cbn match.
  set (st1 := set_ft _ st). assert (fk_ft st1 !! i = Some (set_fref 0 f)) as Hi1.
  { apply list_lookup_insert_eq. by eapply lookup_lt_Some. }
  rewrite (bind_fil i _ _ _ Hi1), (bind_upd_fil i _ _ _ _ Hi1). cbn [set_fref f_type]. rewrite Ht.
  unfold ret. f_equal. unfold st1, set_ft. simpl. rewrite list_insert_insert_eq. do 2 f_equal.
  destruct f; simpl in *. by rewrite Hr, Ht.
Qed.

(** [pipealloc] makes a pipe or leaves everything as it was.  It fails when
    fewer than two files or no page is left, and then the file table, the
    allocator and the pipes are unchanged; otherwise the two files are
    different, were not in use, refer to the same new page, one to read from
    and one to write to, and the pipe is empty and open at both ends. *)
Theorem pipealloc_all_or_nothing st :
  files_ok (fk_ft st) ->
  (exists st', pipealloc pid kend st = Ret None st' /\ st' = st) \/
  exists i j f g p k' st', i <> j /\ fk_ft st !! i = Some f /\ fk_ft st !! j = Some g /\ f_ref f = 0 /\ f_ref g = 0 /\
    kalloc (fk_kst st) = Ret p k' /\ p <> 0 /\
    pipealloc pid kend st = Ret (Some (i, j)) st' /\ fk_fs st' = fk_fs st /\ fk_kst st' = k' /\
    fk_ft st' = <[j := File FD_PIPE 1 false true p (f_ip g) (f_off g)]>
      (<[i := File FD_PIPE 1 true false p (f_ip f) (f_off f)]> (fk_ft st)) /\
    fk_pipe st' p = PSt (Pipe (p_data (pp (fk_pipe st p))) 0 0 1 1) [] [] [] /\
    forall q, q <> p -> fk_pipe st' q = fk_pipe st q.
Proof using.
  intros Hft. unfold pipealloc.
  destruct (filealloc_ok st) as [[E0 _]|(i & f & Hi & Hr & E0)]; rewrite (bind_Ret _ _ _ _ _ E0); [left; by exists st|].
  assert (f_type f = FD_NONE) as Htf by (by apply (Forall_lookup_1 _ _ _ _ Hft Hi)).
  set (st1 := set_ft _ st) in *. assert (fk_ft st1 !! i = Some (set_fref 1 f)) as Hi1.
  { apply list_lookup_insert_eq. by eapply lookup_lt_Some. }
  destruct (filealloc_ok st1) as [[E1 _]|(j & g & Hj & Hg & E1)]; rewrite (bind_Ret _ _ _ _ _ E1).
  { left. eexists. split; [|reflexivity]. unfold close_if. rewrite (bind_Ret _ _ _ _ _ (fileclose_fresh st1 i f Hi1 Hr Htf)).
    unfold bind, ret, st1, set_ft. simpl. rewrite list_insert_insert_eq, list_insert_id by done. by destruct st. }
  assert (i <> j) as Hij by (intros <-; rewrite Hi1 in Hj; injection Hj as <-; done).
  assert (fk_ft st !! j = Some g) as Hj0 by (unfold st1 in Hj; simpl in Hj; by rewrite list_lookup_insert_ne in Hj).
  assert (f_type g = FD_NONE) as Htg by (by apply (Forall_lookup_1 _ _ _ _ Hft Hj0)).
  set (st2 := set_ft _ st1) in *.
  destruct (kalloc_total (fk_kst st)) as (k' & Ek & Hk0). set (p := kmem_freelist (fk_kst st)) in *.
  assert (mm kalloc st2 = Ret p (set_kst k' st2)) as E2 by (unfold mm, zoom; simpl; by rewrite Ek).
  rewrite (bind_Ret _ _ _ _ _ E2).
  assert (fk_ft st2 !! j = Some (set_fref 1 g)) as Hj2 by (apply list_lookup_insert_eq; by eapply lookup_lt_Some).
  assert (fk_ft st2 !! i = Some (set_fref 1 f)) as Hi2 by (unfold st2; simpl; by rewrite list_lookup_insert_ne).
  destruct (Z.eqb_spec p 0) as [Hp|Hp].
  - left. eexists. split; [|reflexivity]. rewrite (Hk0 Hp). change (set_kst (fk_kst st) st2) with st2.
    unfold close_if. rewrite (bind_Ret _ _ _ _ _ (fileclose_fresh st2 i f Hi2 Hr Htf)).
    set (st3 := set_ft _ st2).
    assert (fk_ft st3 !! j = Some (set_fref 1 g)) as Hj3 by (unfold st3; simpl; by rewrite list_lookup_insert_ne).
    rewrite (bind_Ret _ _ _ _ _ (fileclose_fresh st3 j g Hj3 Hg Htg)).
    unfold ret, st3, st2, st1, set_ft. simpl. f_equal.
    rewrite (list_insert_insert_ne _ i j) by done. rewrite !list_insert_insert_eq.
    rewrite (list_insert_id _ i f) by done. rewrite (list_insert_id _ j g) by done. by destruct st.
  - right. set (st3 := set_pipe p (PSt (pipe_init (pp (fk_pipe st p))) [] [] []) (set_kst k' st2)).
    assert (pipe_of p (modify (fun s => PSt (pipe_init (pp s)) [] [] [])) (set_kst k' st2) = Ret tt st3) as E3 by done.
    rewrite (bind_Ret _ _ _ _ _ E3), (bind_upd_fil i _ _ _ (set_fref 1 f)) by done.
    erewrite (bind_upd_fil j); [|simpl; rewrite list_lookup_insert_ne; done].
    eexists i, j, f, g, p, k', _. split_and!; try reflexivity; try done.
    + unfold st2, st1. simpl. rewrite (list_insert_insert_ne _ i j), !list_insert_insert_eq by done. done.
    + simpl. by rewrite fn_lookup_insert.
    + intros q Hq. simpl. by rewrite fn_lookup_insert_ne.
Qed.
End table.

Lemma pipealloc_all_or_nothing_witness :
  exists st, files_ok (fk_ft st) /\ fk_ft st !! 0%nat = Some no_file /\
  exists st', pipealloc (S := ideal) 1 0 st = Ret None st'.
Proof.
  set (st := FK (fk_fs demo_files) (KSt (fun _ => 0) 0 false) [no_file; no_file] (fk_pipe demo_files)).
  exists st. assert (files_ok (fk_ft st)) as Hf by (repeat constructor; done).
  split; [done|]. split; [done|].
  destruct (pipealloc_all_or_nothing 1 0 st Hf) as [(st' & E & _)|(i & j & f & g & p & k' & st' & _ & _ & _ & _ & _ & Ek & Hp & _)].
  - by exists st'.
  - injection Ek as <- _. by contradict Hp.
Defined.
