(* ===== verification/Ptable.v ===== *)
(** * The process table (proc.c, under ptable.lock)

    The part of every operation of proc.c that touches the process table, as one
    step on the table: what it does between [acquire(&ptable.lock)] and the
    release or the switch to another thread.  Proc.v builds the whole operations
    from these; Sched.v interleaves them. *)

From S2P Require Import Prelude.
#[local] Open Scope Z_scope.

Abbreviation NPROC := 64%nat.

Inductive procstate := UNUSED | EMBRYO | SLEEPING | RUNNABLE | RUNNING | ZOMBIE.
#[export] Instance procstate_eq_dec : EqDecision procstate.
Proof. solve_decision. Defined.

(** What a process sleeps on: an address; the address of a process is a case of
    its own. *)
Inductive pchan := ProcChan (p : nat) | AddrChan (a : Z).
#[export] Instance pchan_eq_dec : EqDecision pchan.
Proof. solve_decision. Defined.

(** [struct proc]; pointers to processes are indices into the table, [tf] and
    [context] are addresses on the kernel stack. *)
Record proc := Proc {
  p_sz : Z;
  p_pgdir : Z;
  p_kstack : Z;
  p_state : procstate;
  p_pid : Z;
  p_parent : option nat;
  p_tf : Z;
  p_context : Z;
  p_chan : option pchan;
  p_killed : bool;
  p_ofile : list (option nat);
  p_cwd : option nat;
  p_name : list Z;
}.
(** A slot of the table as the kernel starts. *)
Definition zero_proc : proc :=
  Proc 0 0 0 UNUSED 0 None 0 0 None false (replicate 16 None) None (replicate 16 0).

Definition set_pstate (s : procstate) (p : proc) : proc :=
  Proc (p_sz p) (p_pgdir p) (p_kstack p) s (p_pid p) (p_parent p) (p_tf p) (p_context p) (p_chan p)
    (p_killed p) (p_ofile p) (p_cwd p) (p_name p).
Definition set_pid (n : Z) (p : proc) : proc :=
  Proc (p_sz p) (p_pgdir p) (p_kstack p) (p_state p) n (p_parent p) (p_tf p) (p_context p) (p_chan p)
    (p_killed p) (p_ofile p) (p_cwd p) (p_name p).
Definition set_parent (q : option nat) (p : proc) : proc :=
  Proc (p_sz p) (p_pgdir p) (p_kstack p) (p_state p) (p_pid p) q (p_tf p) (p_context p) (p_chan p)
    (p_killed p) (p_ofile p) (p_cwd p) (p_name p).
Definition set_pchan (c : option pchan) (p : proc) : proc :=
  Proc (p_sz p) (p_pgdir p) (p_kstack p) (p_state p) (p_pid p) (p_parent p) (p_tf p) (p_context p) c
    (p_killed p) (p_ofile p) (p_cwd p) (p_name p).
Definition set_killed (b : bool) (p : proc) : proc :=
  Proc (p_sz p) (p_pgdir p) (p_kstack p) (p_state p) (p_pid p) (p_parent p) (p_tf p) (p_context p) (p_chan p)
    b (p_ofile p) (p_cwd p) (p_name p).
Definition set_vm (sz pgdir : Z) (p : proc) : proc :=
  Proc sz pgdir (p_kstack p) (p_state p) (p_pid p) (p_parent p) (p_tf p) (p_context p) (p_chan p)
    (p_killed p) (p_ofile p) (p_cwd p) (p_name p).
Definition set_stack (kstack tf context : Z) (p : proc) : proc :=
  Proc (p_sz p) (p_pgdir p) kstack (p_state p) (p_pid p) (p_parent p) tf context (p_chan p)
    (p_killed p) (p_ofile p) (p_cwd p) (p_name p).
Definition set_ofile (l : list (option nat)) (p : proc) : proc :=
  Proc (p_sz p) (p_pgdir p) (p_kstack p) (p_state p) (p_pid p) (p_parent p) (p_tf p) (p_context p) (p_chan p)
    (p_killed p) l (p_cwd p) (p_name p).
Definition set_cwd (d : option nat) (p : proc) : proc :=
  Proc (p_sz p) (p_pgdir p) (p_kstack p) (p_state p) (p_pid p) (p_parent p) (p_tf p) (p_context p) (p_chan p)
    (p_killed p) (p_ofile p) d (p_name p).
Definition set_name (n : list Z) (p : proc) : proc :=
  Proc (p_sz p) (p_pgdir p) (p_kstack p) (p_state p) (p_pid p) (p_parent p) (p_tf p) (p_context p) (p_chan p)
    (p_killed p) (p_ofile p) (p_cwd p) n.

(** The table, [nextpid] and [initproc]. *)
Record pts := Pts { pt_proc : list proc; pt_nextpid : Z; pt_init : option nat }.
Definition set_procs (l : list proc) (t : pts) : pts := Pts l (pt_nextpid t) (pt_init t).

Definition prc (i : nat) : M pts proc := gets (fun t => default zero_proc (pt_proc t !! i)).
Definition upd (i : nat) (f : proc -> proc) : M pts unit := modify (fun t => set_procs (alter f i (pt_proc t)) t).

Definition is_state (s : procstate) (p : proc) : bool := bool_decide (p_state p = s).

(** The first process for which [f] holds, from index [i] on. *)
Fixpoint first_proc (f : proc -> bool) (l : list proc) (i : nat) : option nat :=
  match l with
  | [] => None
  | p :: l => if f p then Some i else first_proc f l (i + 1)
  end.

(** allocproc, as far as it holds the lock. *)
Definition alloc_slot : M pts (option nat) :=
  l <- gets pt_proc ;;
  match first_proc (is_state UNUSED) l 0 with
  | None => ret None
  | Some i =>
      upd i (set_pstate EMBRYO) ;;;
      n <- gets pt_nextpid ;;
      modify (fun t => Pts (pt_proc t) (s32 (n + 1)) (pt_init t)) ;;;
      upd i (set_pid n) ;;;
      ret (Some i)
  end.

(** [wakeup1] *)
Definition wake1 (c : pchan) (p : proc) : proc :=
  if is_state SLEEPING p && bool_decide (p_chan p = Some c) then set_pstate RUNNABLE p else p.
Definition wakeup1 (c : pchan) : M pts unit := modify (fun t => set_procs (wake1 c <$> pt_proc t) t).

(** A pointer to a process as a channel. *)
Definition chan_of (q : option nat) : pchan :=
  match q with
  | Some p => ProcChan p
  | None => AddrChan 0
  end.

Definition kill (pid : Z) : M pts Z :=
  l <- gets pt_proc ;;
  match first_proc (fun p => p_pid p =? pid) l 0 with
  | None => ret (-1)
  | Some i =>
      upd i (set_killed true) ;;;
      upd i (fun p => if is_state SLEEPING p then set_pstate RUNNABLE p else p) ;;;
      ret 0
  end.

(** exit: the loop that passes the children to init, at process [i] with [k] to
    go, and the part of exit that holds the lock. *)
Fixpoint reparent_loop (k i cur : nat) : M pts unit :=
  match k with
  | O => ret tt
  | S k =>
      p <- prc i ;;
      (if bool_decide (p_parent p = Some cur) then
         init <- gets pt_init ;;
         upd i (set_parent init) ;;;
         if is_state ZOMBIE p then wakeup1 (chan_of init) else ret tt
       else ret tt) ;;;
      reparent_loop k (i + 1) cur
  end.
Definition exit_table (cur : nat) : M pts unit :=
  p <- prc cur ;;
  wakeup1 (chan_of (p_parent p)) ;;;
  reparent_loop NPROC 0 cur ;;;
  upd cur (set_pstate ZOMBIE).

(** wait: the scan of the table, which stops at a child that has exited, and what
    is done to that child. *)
Fixpoint wait_scan (l : list proc) (i cur : nat) (havekids : bool) : option nat * bool :=
  match l with
  | [] => (None, havekids)
  | p :: l =>
      if bool_decide (p_parent p = Some cur) then
        if is_state ZOMBIE p then (Some i, true) else wait_scan l (i + 1) cur true
      else wait_scan l (i + 1) cur havekids
  end.
Definition reap (i : nat) : M pts unit :=
  upd i (fun p => set_pstate UNUSED (set_killed false (set_name (<[0%nat := 0]> (p_name p))
                    (set_parent None (set_pid 0 p))))).

(** sleep, and the end of it. *)
Definition go_to_sleep (i : nat) (c : pchan) : M pts unit :=
  upd i (set_pchan (Some c)) ;;; upd i (set_pstate SLEEPING).
Definition tidy_up (i : nat) : M pts unit := upd i (set_pchan None).
