(* ===== verification/Sched.v ===== *)
(** * Scheduling, fork, exit and wait, interleaved (proc.c)

    The CPUs run the scheduler and the kernel threads of the processes.  A CPU
    is in the scheduler loop, at some index of the table, or runs a process; the
    process table changes under ptable.lock, which the scheduler hands to the
    process it switches to and gets back when the process switches away.  Each
    step is what one CPU does between two points where others can act; what
    allocproc and fork do to the new process without the lock are steps of their
    own, between which a timer interrupt may take the CPU away, and whether memory can
    be allocated is left open. *)

From stdpp Require Import functions.
From S2P Require Import Prelude Ptable.
#[local] Open Scope Z_scope.

(** Where the kernel thread of a process is: outside of the code modelled here;
    suspended in [sched] below forkret, yield, sleep or wait; at the head of
    the loop of wait, with the lock; in fork, with a new process that is not
    filled in, or is; or suspended in yield by a timer interrupt in fork. *)
Inductive kpc :=
| AtUser
| AtForkret | AtYield | AtSleep | AtWait
| InWait
| Allocated (np : nat)
| Filled (np : nat)
| Preempted (np : nat) (filled : bool).
(** Where yield suspends a process, and where a process goes on that was switched to
    and has released the lock. *)
Definition yielded (pc : kpc) : option kpc :=
  match pc with
  | AtUser => Some AtYield
  | Allocated np => Some (Preempted np false)
  | Filled np => Some (Preempted np true)
  | _ => None
  end.
Definition resumed (pc : kpc) : option kpc :=
  match pc with
  | AtForkret | AtYield => Some AtUser
  | Preempted np false => Some (Allocated np)
  | Preempted np true => Some (Filled np)
  | _ => None
  end.

Record mach := Mach {
  m_t : pts;
  m_lock : option nat;          (* the CPU that holds ptable.lock *)
  m_cpu : nat -> option nat;    (* c->proc *)
  m_pos : nat -> nat;           (* p of the scheduler's loop *)
  m_pc : nat -> kpc;
}.

(** Process [i] of the table. *)
Definition P (t : pts) (i : nat) : proc := default zero_proc (pt_proc t !! i).
Definition stateof (t : pts) (i : nat) : procstate := p_state (P t i).

(** The switch of CPU [c] back to the scheduler, with the lock. *)
Definition switch_out (t : pts) (c i : nat) (pc : kpc) (m : mach) : mach :=
  Mach t (Some c) (<[c := None]> (m_cpu m)) (<[c := S (m_pos m c)]> (m_pos m)) (<[i := pc]> (m_pc m)).
(** A step of the process after which the lock is as given. *)
Definition go_on (t : pts) (lk : option nat) (i : nat) (pc : kpc) (m : mach) : mach :=
  Mach t lk (m_cpu m) (m_pos m) (<[i := pc]> (m_pc m)).

Inductive sstep : mach -> mach -> Prop :=
(* the scheduler *)
| ss_acquire m c :
    m_lock m = None -> m_cpu m c = None ->
    sstep m (Mach (m_t m) (Some c) (m_cpu m) (<[c := 0%nat]> (m_pos m)) (m_pc m))
| ss_skip m c :
    m_lock m = Some c -> m_cpu m c = None -> (m_pos m c < NPROC)%nat ->
    stateof (m_t m) (m_pos m c) <> RUNNABLE ->
    sstep m (Mach (m_t m) (Some c) (m_cpu m) (<[c := S (m_pos m c)]> (m_pos m)) (m_pc m))
| ss_run m c t' :
    m_lock m = Some c -> m_cpu m c = None -> (m_pos m c < NPROC)%nat ->
    stateof (m_t m) (m_pos m c) = RUNNABLE ->
    upd (m_pos m c) (set_pstate RUNNING) (m_t m) = Ret tt t' ->
    sstep m (Mach t' (Some c) (<[c := Some (m_pos m c)]> (m_cpu m)) (m_pos m) (m_pc m))
| ss_release m c :
    m_lock m = Some c -> m_cpu m c = None -> (NPROC <= m_pos m c)%nat ->
    sstep m (Mach (m_t m) None (m_cpu m) (m_pos m) (m_pc m))
(* a process that was switched to *)
| ss_resume m c i pc' :
    m_lock m = Some c -> m_cpu m c = Some i -> resumed (m_pc m i) = Some pc' ->
    sstep m (go_on (m_t m) None i pc' m)
| ss_wake m c i t' :
    m_lock m = Some c -> m_cpu m c = Some i -> m_pc m i = AtSleep ->
    tidy_up i (m_t m) = Ret tt t' ->
    sstep m (go_on t' None i AtUser m)
| ss_wake_wait m c i t' :
    m_lock m = Some c -> m_cpu m c = Some i -> m_pc m i = AtWait ->
    tidy_up i (m_t m) = Ret tt t' ->
    sstep m (go_on t' (Some c) i InWait m)
(* a process that runs, and takes the lock *)
| ss_yield m c i pc' t' :
    m_lock m = None -> m_cpu m c = Some i -> yielded (m_pc m i) = Some pc' ->
    upd i (set_pstate RUNNABLE) (m_t m) = Ret tt t' ->
    sstep m (switch_out t' c i pc' m)
| ss_sleep m c i ch t' :
    m_lock m = None -> m_cpu m c = Some i -> m_pc m i = AtUser ->
    go_to_sleep i ch (m_t m) = Ret tt t' ->
    sstep m (switch_out t' c i AtSleep m)
| ss_wakeup m ch t' :
    m_lock m = None -> wakeup1 ch (m_t m) = Ret tt t' ->
    sstep m (Mach t' None (m_cpu m) (m_pos m) (m_pc m))
| ss_kill m c i pid r t' :
    m_lock m = None -> m_cpu m c = Some i -> m_pc m i = AtUser ->
    kill pid (m_t m) = Ret r t' ->
    sstep m (Mach t' None (m_cpu m) (m_pos m) (m_pc m))
| ss_killed m c i t' :
    m_cpu m c = Some i -> m_pc m i = AtUser ->
    upd i (set_killed true) (m_t m) = Ret tt t' ->
    sstep m (Mach t' (m_lock m) (m_cpu m) (m_pos m) (m_pc m))
| ss_exit m c i t' :
    m_lock m = None -> m_cpu m c = Some i -> m_pc m i = AtUser -> pt_init (m_t m) <> Some i ->
    exit_table i (m_t m) = Ret tt t' ->
    sstep m (switch_out t' c i AtUser m)
| ss_wait m c i :
    m_lock m = None -> m_cpu m c = Some i -> m_pc m i = AtUser ->
    sstep m (go_on (m_t m) (Some c) i InWait m)
| ss_wait_found m c i j b t' :
    m_lock m = Some c -> m_cpu m c = Some i -> m_pc m i = InWait ->
    wait_scan (pt_proc (m_t m)) 0 i false = (Some j, b) -> reap j (m_t m) = Ret tt t' ->
    sstep m (go_on t' None i AtUser m)
| ss_wait_fail m c i b :
    m_lock m = Some c -> m_cpu m c = Some i -> m_pc m i = InWait ->
    wait_scan (pt_proc (m_t m)) 0 i false = (None, b) -> negb b || p_killed (P (m_t m) i) = true ->
    sstep m (go_on (m_t m) None i AtUser m)
| ss_wait_sleep m c i t' :
    m_lock m = Some c -> m_cpu m c = Some i -> m_pc m i = InWait ->
    wait_scan (pt_proc (m_t m)) 0 i false = (None, true) -> p_killed (P (m_t m) i) = false ->
    go_to_sleep i (ProcChan i) (m_t m) = Ret tt t' ->
    sstep m (switch_out t' c i AtWait m)
(* fork *)
| ss_alloc m c i np t' :
    m_lock m = None -> m_cpu m c = Some i -> m_pc m i = AtUser -> pt_nextpid (m_t m) < 2147483647 ->
    alloc_slot (m_t m) = Ret (Some np) t' ->
    sstep m (go_on t' None i (Allocated np) m)
| ss_alloc_fail m i np t' :
    m_pc m i = Allocated np -> upd np (set_pstate UNUSED) (m_t m) = Ret tt t' ->
    sstep m (go_on t' (m_lock m) i AtUser m)
| ss_fill m i np t' :
    m_pc m i = Allocated np -> upd np (set_parent (Some i)) (m_t m) = Ret tt t' ->
    sstep m (go_on t' (m_lock m) i (Filled np) m)
| ss_fork m i np t' :
    m_lock m = None -> m_pc m i = Filled np -> upd np (set_pstate RUNNABLE) (m_t m) = Ret tt t' ->
    sstep m (Mach t' None (m_cpu m) (m_pos m) (<[np := AtForkret]> (<[i := AtUser]> (m_pc m)))).

(** ** What the operations do to each process *)

Lemma fn_insert_dec {A} (f : nat -> A) i x j : <[i := x]> f j = if decide (j = i) then x else f j.
Proof. destruct (decide (j = i)) as [->|]; [apply fn_lookup_insert | by apply fn_lookup_insert_ne]. Qed.

Lemma P_lt t i : stateof t i <> UNUSED -> (i < length (pt_proc t))%nat.
Proof.
  unfold stateof, P. intros H. destruct (pt_proc t !! i) eqn:E; [by eapply lookup_lt_Some | done].
Qed.
Lemma P_upd i f t t' : (i < length (pt_proc t))%nat -> upd i f t = Ret tt t' ->
  length (pt_proc t') = length (pt_proc t) /\ pt_init t' = pt_init t /\ pt_nextpid t' = pt_nextpid t /\
  forall j, P t' j = if decide (j = i) then f (P t i) else P t j.
Proof.
  intros Hi E. injection E as <-. simpl. split_and!; [apply length_alter | done | done|]. intros j.
  unfold P. simpl. destruct (decide (j = i)) as [->|Hne].
  - rewrite list_lookup_alter_eq. destruct (pt_proc t !! i) eqn:E; [done|]. apply lookup_ge_None_1 in E. lia.
  - by rewrite list_lookup_alter_ne.
Qed.
Lemma P_wakeup1 c t t' : wakeup1 c t = Ret tt t' ->
  length (pt_proc t') = length (pt_proc t) /\ pt_init t' = pt_init t /\ pt_nextpid t' = pt_nextpid t /\
  forall j, P t' j = wake1 c (P t j).
Proof.
  intros E. injection E as <-. simpl. split_and!; [apply length_fmap | done | done|]. intros j.
  unfold P. simpl. rewrite list_lookup_fmap. by destruct (pt_proc t !! j).
Qed.

Lemma first_proc_spec f l i :
  match first_proc f l i with
  | Some j => exists p, l !! (j - i)%nat = Some p /\ f p = true /\ (i <= j)%nat /\
                forall k q, (k < j - i)%nat -> l !! k = Some q -> f q = false
  | None => forall p, p ∈ l -> f p = false
  end.
Proof.
  revert i. induction l as [|p l IH]; intros i; simpl; [intros p Hp; by apply not_elem_of_nil in Hp|].
  destruct (f p) eqn:Ef.
  - exists p. rewrite Nat.sub_diag. split_and!; try done. intros. lia.
  - specialize (IH (i + 1)%nat). destruct (first_proc f l (i + 1)) as [j|].
    + destruct IH as (q & Hq & Hf & Hij & Hbefore). exists q.
      replace (j - i)%nat with (S (j - (i + 1))) by lia. split_and!; try done; [lia|].
      intros [|k] q' Hk Hl; simpl in Hl; [congruence|]. apply (Hbefore k); [lia | done].
    + intros q Hq. apply elem_of_cons in Hq as [->|Hq]; [done | by apply IH].
Qed.
Lemma first_proc_P f t i : first_proc f (pt_proc t) 0 = Some i ->
  (i < length (pt_proc t))%nat /\ f (P t i) = true.
Proof.
  intros E. pose proof (first_proc_spec f (pt_proc t) 0) as H. rewrite E in H.
  destruct H as (p & Hl & Hf & _). rewrite Nat.sub_0_r in Hl. split; [by eapply lookup_lt_Some|].
  unfold P. by rewrite Hl.
Qed.

Lemma first_proc_intro f l i p :
  l !! i = Some p -> f p = true -> (forall k q, (k < i)%nat -> l !! k = Some q -> f q = false) ->
  first_proc f l 0 = Some i.
Proof.
  intros Hp Hf Hb. pose proof (first_proc_spec f l 0) as H. destruct (first_proc f l 0) as [j|].
  - destruct H as (q & Hq & Hfq & _ & Hbj). rewrite Nat.sub_0_r in Hq, Hbj. f_equal.
    destruct (Nat.lt_trichotomy i j) as [Hlt|[->|Hgt]]; [|done|].
    + rewrite (Hbj i p) in Hf; done.
    + rewrite (Hb j q) in Hfq; done.
  - rewrite H in Hf; [done|]. by apply list_elem_of_lookup_2 in Hp.
Qed.

Lemma P_alloc t np t' : alloc_slot t = Ret (Some np) t' ->
  stateof t np = UNUSED /\ (np < length (pt_proc t))%nat /\
  length (pt_proc t') = length (pt_proc t) /\ pt_init t' = pt_init t /\ pt_nextpid t' = s32 (pt_nextpid t + 1) /\
  forall j, P t' j = if decide (j = np) then set_pid (pt_nextpid t) (set_pstate EMBRYO (P t np)) else P t j.
Proof.
  unfold alloc_slot. rewrite bind_gets. destruct (first_proc (is_state UNUSED) (pt_proc t) 0) as [i|] eqn:Ef; [|done].
  apply first_proc_P in Ef as [Hi Hs]. intros E.
  assert (np = i) as -> by (inv_bind E; inv_bind Hk; inv_bind Hk0; inv_bind Hk; by injection Hk0).
  unfold bind, upd, modify, gets, ret in E. injection E as <-. simpl.
  split; [by apply bool_decide_eq_true in Hs|]. split; [done|]. rewrite !length_alter. split_and!; try done.
  intros j. unfold P. simpl. destruct (decide (j = i)) as [->|Hne].
  - rewrite !list_lookup_alter_eq. destruct (pt_proc t !! i) eqn:E; [done|]. apply lookup_ge_None_1 in E. lia.
  - by rewrite !list_lookup_alter_ne.
Qed.
Lemma P_kill pid t r t' : kill pid t = Ret r t' ->
  length (pt_proc t') = length (pt_proc t) /\ pt_init t' = pt_init t /\ pt_nextpid t' = pt_nextpid t /\
  forall j, P t' j = P t j \/ P t' j = set_killed true (P t j) \/
    (stateof t j = SLEEPING /\ P t' j = set_pstate RUNNABLE (set_killed true (P t j))).
Proof.
  unfold kill. rewrite bind_gets. destruct (first_proc _ (pt_proc t) 0) as [i|] eqn:Ef.
  2: { intros E. injection E as _ <-. split_and!; try done. by left. }
  apply first_proc_P in Ef as [Hi _]. unfold bind, upd, modify, ret. intros E. injection E as _ <-. simpl.
  rewrite !length_alter. split_and!; try done. intros j. unfold stateof, P. simpl. destruct (decide (j = i)) as [->|Hne].
  - rewrite !list_lookup_alter_eq. destruct (pt_proc t !! i) as [p|] eqn:E; [|apply lookup_ge_None_1 in E; lia].
    right. simpl. unfold is_state. simpl. destruct (decide (p_state p = SLEEPING)) as [Es|Es].
    + right. by rewrite bool_decide_true.
    + left. by rewrite bool_decide_false.
  - left. by rewrite !list_lookup_alter_ne.
Qed.

(** A process as it was, except that it may have been woken up. *)
Definition woke (p p' : proc) : Prop := p' = p \/ (p_state p = SLEEPING /\ p' = set_pstate RUNNABLE p).

Lemma woke_refl p : woke p p.
Proof. by left. Qed.
Lemma woke_trans p q r : woke p q -> woke q r -> woke p r.
Proof. intros [->|[H ->]] [->|[H' ->]]; [by left | by right | by right | done]. Qed.
Lemma woke_wake1 c p : woke p (wake1 c p).
Proof.
  unfold wake1, is_state. destruct (decide (p_state p = SLEEPING)) as [E|E]; [|left; by rewrite bool_decide_false].
  rewrite (bool_decide_true _ E). destruct (bool_decide _); [by right | by left].
Qed.
Lemma woke_set_parent q p p' : woke p p' -> woke (set_parent q p) (set_parent q p').
Proof. intros [->|[H ->]]; [by left | by right]. Qed.
Lemma wake1_awake c p : p_state p = SLEEPING -> p_chan p = Some c -> p_state (wake1 c p) = RUNNABLE.
Proof. intros E1 E2. unfold wake1, is_state. by rewrite !bool_decide_true. Qed.
Lemma woke_awake p p' : woke p p' -> p_state p = RUNNABLE -> p_state p' = RUNNABLE.
Proof. by intros [->|[_ ->]]. Qed.
Lemma woke_fields p p' : woke p p' ->
  p_pid p' = p_pid p /\ p_parent p' = p_parent p /\ p_chan p' = p_chan p /\ p_killed p' = p_killed p.
Proof. by intros [->|[_ ->]]. Qed.
#[local] Hint Resolve woke_refl woke_wake1 woke_set_parent : core.

Definition adopted (cur : nat) (init : option nat) (p : proc) : proc :=
  if bool_decide (p_parent p = Some cur) then set_parent init p else p.

Lemma adopted_woke cur init p p' : woke p p' -> woke (adopted cur init p) (adopted cur init p').
Proof. intros [->|[H ->]]; [auto|]. unfold adopted. simpl. destruct (bool_decide _); by right. Qed.

(** One round of the loop of exit. *)
Lemma reparent_step k i cur t : (i < length (pt_proc t))%nat ->
  exists t1, reparent_loop (S k) i cur t = reparent_loop k (i + 1) cur t1 /\
    length (pt_proc t1) = length (pt_proc t) /\ pt_init t1 = pt_init t /\ pt_nextpid t1 = pt_nextpid t /\
    (forall j, woke (if decide (j = i) then adopted cur (pt_init t) (P t j) else P t j) (P t1 j)) /\
    (stateof t i = ZOMBIE -> p_parent (P t i) = Some cur -> forall j, stateof t j = SLEEPING ->
       p_chan (P t j) = Some (chan_of (pt_init t)) -> stateof t1 j = RUNNABLE).
Proof.
  intros Hi. cbn [reparent_loop]. unfold prc. rewrite bind_gets. fold (P t i). unfold adopted, stateof.
  destruct (decide (p_parent (P t i) = Some cur)) as [Hp|Hp].
  2: { exists t. rewrite bool_decide_false by done. split_and!; try done. intros j.
       destruct (decide (j = i)) as [->|]; [by rewrite bool_decide_false | auto]. }
  rewrite bool_decide_true by done. rewrite bind_assoc, bind_gets.
  destruct (upd i (set_parent (pt_init t)) t) as [[] t0| |] eqn:E0; try done.
  destruct (P_upd i _ t t0 Hi E0) as (L0 & I0 & N0 & F0). rewrite bind_assoc, (bind_Ret _ _ _ _ _ E0).
  assert (forall j, (if decide (j = i) then if bool_decide (p_parent (P t j) = Some cur) then set_parent (pt_init t) (P t j)
                       else P t j else P t j) = P t0 j) as Hsame.
  { intros j. rewrite F0. destruct (decide (j = i)) as [->|]; [by rewrite bool_decide_true | done]. }
  unfold is_state. destruct (decide (p_state (P t i) = ZOMBIE)) as [Hz|Hz].
  - rewrite bool_decide_true by done. destruct (wakeup1 (chan_of (pt_init t)) t0) as [[] t1| |] eqn:E1; try done.
    destruct (P_wakeup1 _ _ _ E1) as (L1 & I1 & N1 & F1). exists t1. rewrite (bind_Ret _ _ _ _ _ E1).
    split_and!; try congruence; try done.
    + intros j. rewrite Hsame, F1. auto.
    + intros _ _ j Hs Hc. rewrite F1. apply wake1_awake; rewrite F0; by destruct (decide (j = i)) as [->|].
  - rewrite bool_decide_false by done. exists t0. split_and!; try done. intros j. rewrite Hsame. auto.
Qed.

Lemma reparent_ok k : forall i cur t, (i + k <= length (pt_proc t))%nat ->
  exists t', reparent_loop k i cur t = Ret tt t' /\
    length (pt_proc t') = length (pt_proc t) /\ pt_init t' = pt_init t /\ pt_nextpid t' = pt_nextpid t /\
    (forall j, woke (if decide (i <= j < i + k)%nat then adopted cur (pt_init t) (P t j) else P t j) (P t' j)) /\
    (forall z j, (i <= z < i + k)%nat -> stateof t z = ZOMBIE -> p_parent (P t z) = Some cur ->
       stateof t j = SLEEPING -> p_chan (P t j) = Some (chan_of (pt_init t)) -> stateof t' j = RUNNABLE).
Proof.
  induction k as [|k IH]; intros i cur t Hi.
  { exists t. split_and!; try done; [|intros; lia]. intros j. rewrite decide_False by lia. auto. }
  destruct (reparent_step k i cur t ltac:(lia)) as (t1 & -> & L1 & I1 & N1 & F1 & W1).
  destruct (IH (i + 1)%nat cur t1) as (t' & -> & L & I & N & F & W); [lia|].
  exists t'. split_and!; try congruence.
  - intros j. specialize (F1 j). specialize (F j). rewrite I1 in F.
    destruct (decide (j = i)) as [->|Hne].
    + rewrite decide_False in F by lia. rewrite decide_True by lia. by eapply woke_trans.
    + destruct (decide (i + 1 <= j < i + 1 + k)%nat).
      * rewrite decide_True by lia. eapply woke_trans; [by apply adopted_woke | done].
      * rewrite decide_False by lia. by eapply woke_trans.
  - intros z j Hz Hzs Hzp Hjs Hjc. destruct (decide (z = i)) as [->|Hne].
    + specialize (W1 Hzs Hzp j Hjs Hjc). specialize (F j). unfold stateof in *.
      eapply woke_awake; [exact F|]. destruct (decide _); [|done]. unfold adopted. by destruct (bool_decide _).
    + assert (stateof t1 z = ZOMBIE /\ p_parent (P t1 z) = Some cur) as [Hz1 Hp1].
      { pose proof (F1 z) as Fz. rewrite decide_False in Fz by done. unfold stateof in *.
        destruct Fz as [->|[E _]]; [done | congruence]. }
      assert (woke (P t1 j) (P t' j) \/ woke (adopted cur (pt_init t1) (P t1 j)) (P t' j)) as Fj.
      { specialize (F j). destruct (decide (i + 1 <= j < i + 1 + k)%nat); [by right | by left]. }
      pose proof (F1 j) as F1j. assert (forall q, p_state (adopted cur q (P t j)) = SLEEPING /\
        p_chan (adopted cur q (P t j)) = p_chan (P t j)) as Ha by (intros q; unfold adopted; by destruct (bool_decide _)).
      destruct (decide (stateof t1 j = SLEEPING)) as [Hs1|Hs1].
      * apply (W z j); try done; [lia|]. rewrite I1, <- Hjc. unfold stateof in *.
        destruct F1j as [->|[_ E]]; [|rewrite E in Hs1; done]. destruct (decide _); [apply Ha | done].
      * assert (stateof t1 j = RUNNABLE) as Hr1.
        { unfold stateof in *. destruct F1j as [E|[_ ->]]; [|done]. contradict Hs1. rewrite E. destruct (decide _); [apply Ha | done]. }
        unfold stateof in *. destruct Fj as [Fj|Fj]; (eapply woke_awake; [exact Fj|]); [done|].
        unfold adopted. by destruct (bool_decide _).
Qed.

(** [exit_table]: the children go to init, the parent is woken up if it sleeps in
    wait, and so is init when it gets a child that has exited. *)
Lemma P_exit cur t t' : length (pt_proc t) = NPROC -> (cur < NPROC)%nat -> exit_table cur t = Ret tt t' ->
  length (pt_proc t') = NPROC /\ pt_init t' = pt_init t /\ pt_nextpid t' = pt_nextpid t /\
  p_pid (P t' cur) = p_pid (P t cur) /\ stateof t' cur = ZOMBIE /\
  p_parent (P t' cur) = p_parent (adopted cur (pt_init t) (P t cur)) /\
  (forall j, j <> cur -> woke (adopted cur (pt_init t) (P t j)) (P t' j)) /\
  (forall q, q <> cur -> p_parent (P t cur) = Some q -> stateof t q = SLEEPING ->
     p_chan (P t q) = Some (ProcChan q) -> stateof t' q = RUNNABLE) /\
  (forall z q, q <> cur -> z <> cur -> stateof t z = ZOMBIE -> p_parent (P t z) = Some cur -> pt_init t = Some q ->
     stateof t q = SLEEPING -> p_chan (P t q) = Some (ProcChan q) -> stateof t' q = RUNNABLE).
Proof.
  intros Hlen Hcur. unfold exit_table, prc. rewrite bind_gets. fold (P t cur).
  destruct (wakeup1 (chan_of (p_parent (P t cur))) t) as [[] t1| |] eqn:E1; try done.
  rewrite (bind_Ret _ _ _ _ _ E1). destruct (P_wakeup1 _ _ _ E1) as (L1 & I1 & N1 & F1).
  destruct (reparent_ok NPROC 0 cur t1) as (t2 & E2 & L2 & I2 & N2 & F2 & W2); [lia|].
  rewrite (bind_Ret _ _ _ _ _ E2). intros E3.
  destruct (P_upd cur _ t2 t' ltac:(lia) E3) as (L3 & I3 & N3 & F3).
  rewrite I1 in F2, W2. assert (forall j, woke (adopted cur (pt_init t) (P t j)) (P t2 j)) as F.
  { intros j. specialize (F2 j). assert (woke (P t j) (P t1 j)) as F1j by (rewrite F1; apply woke_wake1).
    apply (woke_trans _ _ _ (adopted_woke cur (pt_init t) _ _ F1j)).
    destruct (decide (0 <= j < 0 + NPROC)%nat) as [Hj|Hj]; [exact F2|].
    assert (P t1 j = zero_proc) as E0 by (unfold P; by rewrite lookup_ge_None_2 by lia). by rewrite E0 in *. }
  assert (forall j, stateof t1 j = RUNNABLE -> stateof t2 j = RUNNABLE) as Hkeep.
  { intros j Hj. eapply woke_awake; [apply F2|]. destruct (decide _); [|done]. unfold adopted. by destruct (bool_decide _). }
  unfold stateof in *. rewrite !F3, decide_True by done. destruct (woke_fields _ _ (F cur)) as (Hpid & Hpar & _).
  split_and!; try congruence; try done.
  - simpl. rewrite Hpid. unfold adopted. by destruct (bool_decide _).
  - intros j Hj. rewrite F3, decide_False by done. apply F.
  - intros q Hq Hp Hs Hc. rewrite F3, decide_False by done. apply Hkeep. rewrite F1, Hp. by apply wake1_awake.
  - intros z q Hq Hz Hzs Hzp Hini Hs Hc. rewrite F3, decide_False by done.
    destruct (woke_wake1 (chan_of (p_parent (P t cur))) (P t q)) as [E|[_ E]].
    + apply (W2 z q); rewrite ?F1, ?E, ?Hini; try done.
      * split; [lia|]. rewrite <- Hlen. apply P_lt. unfold stateof. congruence.
      * destruct (woke_wake1 (chan_of (p_parent (P t cur))) (P t z)) as [->|[? _]]; [done | congruence].
      * destruct (woke_wake1 (chan_of (p_parent (P t cur))) (P t z)) as [->|[? _]]; [done | congruence].
    + apply Hkeep. by rewrite F1, E.
Qed.

(** [wait_scan] *)
Lemma wait_scan_spec l i cur b :
  match wait_scan l i cur b with
  | (Some j, _) => exists p, l !! (j - i)%nat = Some p /\ (i <= j)%nat /\ p_parent p = Some cur /\ p_state p = ZOMBIE
  | (None, b') => (forall p, p ∈ l -> p_parent p = Some cur -> p_state p <> ZOMBIE) /\
      (b' = true <-> b = true \/ exists p, p ∈ l /\ p_parent p = Some cur)
  end.
Proof.
  revert i b. induction l as [|p l IH]; intros i b; simpl.
  { split; [intros p Hp; by apply not_elem_of_nil in Hp|]. split; [by left|].
    intros [?|(p & Hp & _)]; [done | by apply not_elem_of_nil in Hp]. }
  unfold is_state. destruct (decide (p_parent p = Some cur)) as [Hp|Hp].
  - rewrite (bool_decide_true _ Hp). destruct (decide (p_state p = ZOMBIE)) as [Hz|Hz].
    + rewrite bool_decide_true by done. exists p. by rewrite Nat.sub_diag.
    + rewrite bool_decide_false by done. specialize (IH (i + 1)%nat true).
      destruct (wait_scan l (i + 1) cur true) as [[j|] b'].
      * destruct IH as (q & Hq & Hij & ?). exists q. replace (j - i)%nat with (S (j - (i + 1))) by lia. split_and!; try done; [lia | naive_solver..].
      * destruct IH as [IH1 IH2]. split; [set_solver|]. split; [|tauto]. intros _. right. exists p. set_solver.
  - rewrite bool_decide_false by done. specialize (IH (i + 1)%nat b).
    destruct (wait_scan l (i + 1) cur b) as [[j|] b'].
    + destruct IH as (q & Hq & Hij & ?). exists q. replace (j - i)%nat with (S (j - (i + 1))) by lia. split_and!; try done; [lia | naive_solver..].
    + destruct IH as [IH1 IH2]. split; [set_solver|]. rewrite IH2. split.
      * intros [?|(q & Hq & E)]; [by left|]. right. exists q. set_solver.
      * intros [?|(q & Hq & E)]; [by left|]. apply elem_of_cons in Hq as [->|Hq]; [done|]. right. by exists q.
Qed.

(** ** The invariant *)

Definition suspended (pc : kpc) : bool :=
  match pc with AtForkret | AtYield | AtSleep | AtWait | Preempted _ _ => true | _ => false end.
Definition with_lock (pc : kpc) : bool :=
  match pc with InWait => true | _ => suspended pc end.
(** The new process that a fork is making. *)
Definition forking (pc : kpc) : option nat :=
  match pc with Allocated np | Filled np | Preempted np _ => Some np | _ => None end.
Definition filled (pc : kpc) : bool := match pc with Filled _ | Preempted _ true => true | _ => false end.

Definition alive (s : procstate) : Prop := s = SLEEPING \/ s = RUNNABLE \/ s = RUNNING.

Definition pc_fits (p : proc) (i : nat) (pc : kpc) : Prop :=
  match p_state p with
  | RUNNING => True
  | RUNNABLE => suspended pc = true
  | SLEEPING => pc = AtSleep \/ (pc = AtWait /\ p_chan p = Some (ProcChan i))
  | _ => forking pc = None
  end.

Record sched_inv (t : pts) (lk : option nat) (cpu : nat -> option nat) (pc : nat -> kpc) : Prop := {
  inv_len : length (pt_proc t) = NPROC;
  inv_init : exists i, pt_init t = Some i /\ alive (stateof t i);
  (* a process is RUNNING exactly while one CPU runs it *)
  inv_cpu : forall c i, cpu c = Some i -> stateof t i = RUNNING;
  inv_run : forall i, stateof t i = RUNNING -> exists c, cpu c = Some i;
  inv_inj : forall c c' i, cpu c = Some i -> cpu c' = Some i -> c = c';
  (* a process that was switched to has the lock until it releases it *)
  inv_lock : forall c i, cpu c = Some i -> lk = Some c <-> with_lock (pc i) = true;
  inv_pc : forall i, pc_fits (P t i) i (pc i);
  (* processes in the making *)
  inv_fork : forall i np, forking (pc i) = Some np -> (stateof t i = RUNNING \/ stateof t i = RUNNABLE) /\ stateof t np = EMBRYO /\
    p_parent (P t np) = if filled (pc i) then Some i else None;
  inv_fork_inj : forall i j np, forking (pc i) = Some np -> forking (pc j) = Some np -> i = j;
  inv_embryo : forall np, stateof t np = EMBRYO -> exists i, forking (pc i) = Some np;
  (* process identifiers *)
  inv_pid : forall i, stateof t i <> UNUSED -> 0 < p_pid (P t i) < pt_nextpid t;
  inv_pid_inj : forall i j, stateof t i <> UNUSED -> stateof t j <> UNUSED -> p_pid (P t i) = p_pid (P t j) -> i = j;
  (* parents *)
  inv_parent : forall i, alive (stateof t i) \/ stateof t i = ZOMBIE -> pt_init t <> Some i ->
    exists q, p_parent (P t i) = Some q /\ q <> i /\ alive (stateof t q);
  inv_free : forall i, stateof t i = UNUSED -> p_parent (P t i) = None;
  (* no exit is missed *)
  inv_wait : forall z q, stateof t z = ZOMBIE -> p_parent (P t z) = Some q -> stateof t q = SLEEPING -> pc q <> AtWait;
}.

(** A process as the others see it: only the flags and the channel of a process
    that does not sleep may differ, or it was woken up. *)
Definition same_proc (p p' : proc) : Prop :=
  p_pid p' = p_pid p /\ p_parent p' = p_parent p /\
  ((p_state p' = p_state p /\ (p_state p = SLEEPING -> p_chan p' = p_chan p)) \/
   (p_state p = SLEEPING /\ p_state p' = RUNNABLE)).
Definition same_table (t t' : pts) : Prop :=
  length (pt_proc t') = length (pt_proc t) /\ pt_init t' = pt_init t /\ pt_nextpid t' = pt_nextpid t.

Lemma same_alive p p' : same_proc p p' -> alive (p_state p) <-> alive (p_state p').
Proof. unfold alive. intros (_ & _ & [[-> _]|[-> ->]]); intuition (try done; eauto). Qed.
Lemma same_state p p' s : same_proc p p' -> s <> SLEEPING -> s <> RUNNABLE -> p_state p' = s <-> p_state p = s.
Proof. intros (_ & _ & [[-> _]|[-> ->]]) H1 H2; [done|]. split; congruence. Qed.

Lemma inv_same t t' lk cpu pc :
  same_table t t' -> (forall j, same_proc (P t j) (P t' j)) -> sched_inv t lk cpu pc -> sched_inv t' lk cpu pc.
Proof.
  intros (L & I & N) H [V1 V2 V3 V4 V5 V6 V7 V8 V9 V10 V11 V12 V13 V14 V15]. unfold stateof in *.
  assert (forall j s, s <> SLEEPING -> s <> RUNNABLE -> p_state (P t' j) = s <-> p_state (P t j) = s) as Hst
    by (intros; by apply same_state).
  assert (forall j, alive (p_state (P t j)) <-> alive (p_state (P t' j))) as Hal by (intros; by apply same_alive).
  assert (forall j, p_pid (P t' j) = p_pid (P t j)) as Hpid by (intros; apply H).
  assert (forall j, p_parent (P t' j) = p_parent (P t j)) as Hpar by (intros; apply H).
  split; unfold stateof; rewrite ?I, ?N; try done.
  - congruence.
  - destruct V2 as (i & Hi & Ha). exists i. split; [done|]. by apply Hal.
  - intros c i Hc. apply Hst; [done..|]. by apply (V3 c).
  - intros i Hi. apply V4. by apply Hst.
  - intros i. specialize (V7 i). specialize (H i). unfold pc_fits in *. destruct H as (_ & _ & [[-> Hc]|[E1 E2]]).
    + destruct (p_state (P t i)) eqn:E; try done. by rewrite Hc.
    + rewrite E2. rewrite E1 in V7. destruct V7 as [->|[-> _]]; done.
  - intros i np Hf. rewrite Hpar. destruct (V8 i np Hf) as (A & B & C). split_and!; [|by apply Hst | done].
    destruct A as [A|A]; [left; by apply Hst|]. right. destruct (H i) as (_ & _ & [[E _]|[E _]]); congruence.
  - intros np Hnp. apply V10. by apply Hst.
  - intros i Hi. rewrite Hpid. apply V11. contradict Hi. by apply Hst.
  - intros i j Hi Hj. rewrite !Hpid. apply V12; [contradict Hi | contradict Hj]; by apply Hst.
  - intros i Hi Hini. rewrite Hpar. destruct (V13 i) as (q & Hq & Hqi & Ha); [|done|].
    + destruct Hi as [Hi|Hi]; [left; by apply Hal | right; by apply Hst].
    + exists q. split_and!; [done | done | by apply Hal].
  - intros i Hi. rewrite Hpar. apply V14. by apply Hst.
  - intros z q Hz Hp Hs. rewrite Hpar in Hp. apply Hst in Hz; [|done..]. apply (V15 z); try done.
    destruct (H q) as (_ & _ & [[E _]|[E _]]); congruence.
Qed.

(** The lock changes hands at a CPU in the scheduler. *)
Lemma inv_sched_lock t lk lk' cpu pc c :
  cpu c = None -> lk = None \/ lk = Some c -> lk' = None \/ lk' = Some c ->
  sched_inv t lk cpu pc -> sched_inv t lk' cpu pc.
Proof.
  intros Hc Hlk Hlk' V. destruct V as [V1 V2 V3 V4 V5 V6 V7 V8 V9 V10 V11 V12 V13 V14 V15].
  split; try done. intros c' i Hi. rewrite <- (V6 c' i Hi). assert (c <> c') by congruence.
  destruct Hlk as [->| ->], Hlk' as [->| ->]; split; congruence.
Qed.

(** A process goes on, and may take or release the lock. *)
Lemma inv_go t lk lk' cpu pc c i pc' :
  cpu c = Some i -> lk = None \/ lk = Some c -> lk' = None \/ lk' = Some c ->
  (lk' = Some c <-> with_lock pc' = true) -> forking pc' = forking (pc i) -> filled pc' = filled (pc i) ->
  sched_inv t lk cpu pc -> sched_inv t lk' cpu (<[i := pc']> pc).
Proof.
  intros Hc Hlk Hlk' Hw Hf Hf' [V1 V2 V3 V4 V5 V6 V7 V8 V9 V10 V11 V12 V13 V14 V15].
  assert (stateof t i = RUNNING) as Hi by (by apply (V3 c)).
  assert (forall j, forking (<[i := pc']> pc j) = forking (pc j) /\ filled (<[i := pc']> pc j) = filled (pc j)) as Hfk.
  { intros j. rewrite fn_insert_dec. by destruct (decide (j = i)) as [->|]. }
  split; try done.
  - intros c' j Hj. rewrite fn_insert_dec. destruct (decide (j = i)) as [->|Hne].
    + by assert (c' = c) as -> by (by apply (V5 c' c i)).
    + assert (c <> c') by congruence. rewrite <- (V6 c' j Hj).
      destruct Hlk as [->| ->], Hlk' as [->| ->]; split; congruence.
  - intros j. rewrite fn_insert_dec. destruct (decide (j = i)) as [->|]; [|done].
    unfold pc_fits. unfold stateof in Hi. by rewrite Hi.
  - intros j np Hj. destruct (Hfk j) as [Ej ->]. apply V8. by rewrite <- Ej.
  - intros j k np. rewrite (proj1 (Hfk j)), (proj1 (Hfk k)). apply V9.
  - intros np Hnp. destruct (V10 np Hnp) as [j Hj]. exists j. by rewrite (proj1 (Hfk j)).
  - intros z q Hz Hp Hs. rewrite fn_insert_dec. destruct (decide (q = i)); [congruence|]. by apply (V15 z).
Qed.

(** A process gives up the CPU: it becomes RUNNABLE or SLEEPING. *)
Lemma inv_out t t' cpu pc lk c i pc' :
  cpu c = Some i -> lk = None \/ lk = Some c -> same_table t t' ->
  (forall j, j <> i -> P t' j = P t j) -> p_pid (P t' i) = p_pid (P t i) -> p_parent (P t' i) = p_parent (P t i) ->
  stateof t' i = RUNNABLE \/ stateof t' i = SLEEPING -> forking pc' = forking (pc i) -> filled pc' = filled (pc i) -> pc_fits (P t' i) i pc' ->
  (pc' = AtWait -> forall z, stateof t z = ZOMBIE -> p_parent (P t z) <> Some i) ->
  sched_inv t lk cpu pc -> sched_inv t' (Some c) (<[c := None]> cpu) (<[i := pc']> pc).
Proof.
  intros Hc Hlk (L & I & N) Hoth Hpid Hpar Hst Hf Hf' Hfit Hz [V1 V2 V3 V4 V5 V6 V7 V8 V9 V10 V11 V12 V13 V14 V15].
  assert (stateof t i = RUNNING) as Hi by (by apply (V3 c)).
  assert (forall j, j <> i -> stateof t' j = stateof t j) as Hso by (intros; unfold stateof; by rewrite Hoth).
  assert (forall j, p_parent (P t' j) = p_parent (P t j)) as Hpars
    by (intros j; destruct (decide (j = i)) as [->|]; [done | by rewrite Hoth]).
  assert (forall j, p_pid (P t' j) = p_pid (P t j)) as Hpids
    by (intros j; destruct (decide (j = i)) as [->|]; [done | by rewrite Hoth]).
  assert (forall j, alive (stateof t j) -> alive (stateof t' j)) as Hal.
  { intros j Hj. destruct (decide (j = i)) as [->|]; [unfold alive; tauto | by rewrite Hso]. }
  assert (forall j s, s <> RUNNABLE -> s <> SLEEPING -> stateof t' j = s -> stateof t j = s /\ j <> i) as Hback.
  { intros j s H1 H2 Hj. destruct (decide (j = i)) as [->|]; [destruct Hst; congruence | by rewrite <- Hso]. }
  assert (forall j, forking (<[i := pc']> pc j) = forking (pc j) /\ filled (<[i := pc']> pc j) = filled (pc j)) as Hfk.
  { intros j. rewrite fn_insert_dec. by destruct (decide (j = i)) as [->|]. }
  assert (forking (pc i) <> None -> stateof t' i = RUNNABLE) as Hrn.
  { intros Hn. destruct Hst as [?|Hs]; [done|]. unfold pc_fits in Hfit. unfold stateof in Hs. rewrite Hs in Hfit. rewrite <- Hf in Hn. by destruct Hfit as [->|[-> _]]. }
  split; rewrite ?I, ?N; try done.
  - congruence.
  - destruct V2 as (k & Hk & Ha). eauto.
  - intros c' j. rewrite fn_insert_dec. destruct (decide (c' = c)) as [->|Hne]; [done|]. intros Hj.
    rewrite Hso; [by apply (V3 c')|]. intros ->. by destruct (V5 c' c i).
  - intros j Hj. destruct (Hback j RUNNING) as [Hj' Hne]; [done..|]. destruct (V4 j Hj') as [c' Hc'].
    exists c'. rewrite fn_insert_dec. destruct (decide (c' = c)) as [->|]; congruence.
  - intros c1 c2 j. rewrite !fn_insert_dec. destruct (decide (c1 = c)), (decide (c2 = c)); try done. apply V5.
  - intros c' j. rewrite fn_insert_dec. destruct (decide (c' = c)) as [->|Hne]; [done|]. intros Hj.
    rewrite fn_insert_dec, decide_False by (intros ->; by destruct (V5 c' c i)).
    rewrite <- (V6 c' j Hj). destruct Hlk as [->| ->]; split; congruence.
  - intros j. rewrite fn_insert_dec. destruct (decide (j = i)) as [->|]; [done|]. by rewrite Hoth.
  - intros j np Hj. rewrite (proj1 (Hfk j)) in Hj. destruct (V8 j np Hj) as (A & B & C).
    rewrite Hpars, (proj2 (Hfk j)). split_and!; [| |done].
    + destruct (decide (j = i)) as [->|]; [right; apply Hrn; congruence | by rewrite Hso].
    + rewrite Hso; [done|]. intros ->. congruence.
  - intros j k np. rewrite (proj1 (Hfk j)), (proj1 (Hfk k)). apply V9.
  - intros np Hnp. destruct (Hback np EMBRYO) as [Hnp' Hne]; [done..|]. destruct (V10 np Hnp') as [j Hj]. exists j.
    by rewrite (proj1 (Hfk j)).
  - intros j Hj. rewrite Hpids. apply V11. intros E. destruct (decide (j = i)) as [->|]; [congruence|].
    apply Hj. by rewrite Hso.
  - intros j k Hj Hk. rewrite !Hpids. apply V12.
    + intros E. destruct (decide (j = i)) as [->|]; [congruence|]. apply Hj. by rewrite Hso.
    + intros E. destruct (decide (k = i)) as [->|]; [congruence|]. apply Hk. by rewrite Hso.
  - intros j Hj Hini. rewrite Hpars. destruct (V13 j) as (q & Hq & Hqi & Ha); [|done|by eauto].
    destruct (decide (j = i)) as [->|]; [left; unfold alive; tauto | by rewrite Hso in Hj].
  - intros j Hj. destruct (Hback j UNUSED) as [Hj' _]; [done..|]. rewrite Hpars. by apply V14.
  - intros z q Hzs Hp Hs. rewrite Hpars in Hp. destruct (Hback z ZOMBIE) as [Hz' _]; [done..|].
    rewrite fn_insert_dec. destruct (decide (q = i)) as [->|Hne]; [intros ->; by apply (Hz eq_refl z)|].
    rewrite Hso in Hs by done. by apply (V15 z).
Qed.

(** The scheduler switches to a process. *)
Lemma inv_dispatch t t' cpu pc c i :
  cpu c = None -> stateof t i = RUNNABLE -> same_table t t' ->
  (forall j, P t' j = if decide (j = i) then set_pstate RUNNING (P t i) else P t j) ->
  sched_inv t (Some c) cpu pc -> sched_inv t' (Some c) (<[c := Some i]> cpu) pc.
Proof.
  intros Hc Hi (L & I & N) F [V1 V2 V3 V4 V5 V6 V7 V8 V9 V10 V11 V12 V13 V14 V15].
  assert (forall j, p_parent (P t' j) = p_parent (P t j)) as Hpars
    by (intros j; rewrite F; by destruct (decide (j = i)) as [->|]).
  assert (forall j, p_pid (P t' j) = p_pid (P t j)) as Hpids
    by (intros j; rewrite F; by destruct (decide (j = i)) as [->|]).
  assert (forall j, stateof t' j = if decide (j = i) then RUNNING else stateof t j) as Hst
    by (intros j; unfold stateof; rewrite F; by destruct (decide (j = i))).
  assert (forall j, alive (stateof t j) -> alive (stateof t' j)) as Hal.
  { intros j Hj. rewrite Hst. destruct (decide (j = i)); [unfold alive; tauto | done]. }
  assert (forall j s, s <> RUNNING -> stateof t' j = s -> stateof t j = s /\ j <> i) as Hback.
  { intros j s H1 Hj. rewrite Hst in Hj. destruct (decide (j = i)); [congruence | done]. }
  assert (forall c', cpu c' <> Some i) as Hno by (intros c' E; apply V3 in E; congruence).
  split; rewrite ?I, ?N; try done.
  - congruence.
  - destruct V2 as (k & Hk & Ha). eauto.
  - intros c' j. rewrite fn_insert_dec, Hst. destruct (decide (c' = c)); [intros [= ->]; by rewrite decide_True|].
    intros Hj. destruct (decide (j = i)); [done | by apply (V3 c')].
  - intros j. rewrite Hst. destruct (decide (j = i)) as [->|]; intros Hj.
    + exists c. by rewrite fn_insert_dec, decide_True.
    + destruct (V4 j Hj) as [c' Hc']. exists c'. rewrite fn_insert_dec. destruct (decide (c' = c)); congruence.
  - intros c1 c2 j. rewrite !fn_insert_dec. destruct (decide (c1 = c)), (decide (c2 = c)); try congruence; naive_solver.
  - intros c' j. rewrite fn_insert_dec. destruct (decide (c' = c)) as [->|Hne].
    + intros [= <-]. specialize (V7 i). unfold pc_fits in V7. unfold stateof in Hi. rewrite Hi in V7.
      split; [|done]. intros _. by destruct (pc i).
    + intros Hj. rewrite <- (V6 c' j Hj). split; congruence.
  - intros j. rewrite F. destruct (decide (j = i)) as [->|]; done.
  - intros j np Hj. destruct (V8 j np Hj) as (A & B & C). rewrite Hpars, !Hst.
    destruct (decide (np = i)) as [->|]; [congruence|]. destruct (decide (j = i)) as [->|]; [by split; [left|] | done].
  - intros np Hnp. destruct (Hback np EMBRYO) as [Hnp' _]; [done..|]. by apply V10.
  - intros j Hj. rewrite Hpids. apply V11. intros E. apply Hj. rewrite Hst. destruct (decide (j = i)); congruence.
  - intros j k Hj Hk. rewrite !Hpids. rewrite Hst in Hj, Hk. apply V12.
    + destruct (decide (j = i)); congruence.
    + destruct (decide (k = i)); congruence.
  - intros j Hj Hini. rewrite Hpars. destruct (V13 j) as (q & Hq & Hqi & Ha); [|done|by eauto].
    rewrite Hst in Hj. destruct (decide (j = i)) as [->|]; [unfold alive; tauto | done].
  - intros j Hj. destruct (Hback j UNUSED) as [Hj' _]; [done..|]. rewrite Hpars. by apply V14.
  - intros z q Hzs Hp Hs. rewrite Hpars in Hp. destruct (Hback z ZOMBIE) as [Hz' _]; [done..|].
    destruct (Hback q SLEEPING) as [Hq' _]; [done..|]. by apply (V15 z).
Qed.

(** A process exits. *)
Lemma inv_exit t t' cpu pc c i :
  cpu c = Some i -> pc i = AtUser -> pt_init t <> Some i -> exit_table i t = Ret tt t' ->
  sched_inv t None cpu pc -> sched_inv t' (Some c) (<[c := None]> cpu) (<[i := AtUser]> pc).
Proof.
  intros Hc Hpc Hini E V. pose proof V as [V1 V2 V3 V4 V5 V6 V7 V8 V9 V10 V11 V12 V13 V14 V15].
  assert (stateof t i = RUNNING) as Hi by (by apply (V3 c)).
  destruct (P_exit i t t' V1) as (L & I & N & Hpid & Hz & Hpar & F & Wp & Wi); [rewrite <- V1; apply P_lt; congruence | done |].
  destruct V2 as (ini & Eini & Haini). assert (ini <> i) as Hne by congruence.
  assert (forall j, j <> i -> p_pid (P t' j) = p_pid (P t j) /\
    p_parent (P t' j) = (if decide (p_parent (P t j) = Some i) then Some ini else p_parent (P t j)) /\
    p_chan (P t' j) = p_chan (P t j) /\
    (stateof t' j = stateof t j \/ (stateof t j = SLEEPING /\ stateof t' j = RUNNABLE))) as Fj.
  { intros j Hj. specialize (F j Hj). destruct (woke_fields _ _ F) as (A & B & C & _). rewrite A, B, C. rewrite Eini in *.
    unfold adopted, stateof. destruct (decide (p_parent (P t j) = Some i)) as [Hd|Hd].
    - rewrite bool_decide_true in * by done. split_and!; try done. unfold adopted in F. rewrite bool_decide_true in F by done.
      destruct F as [->|[Es ->]]; [by left | by right].
    - rewrite bool_decide_false in * by done. split_and!; try done. unfold adopted in F. rewrite bool_decide_false in F by done.
      destruct F as [->|[Es ->]]; [by left | by right]. }
  assert (forall j s, s <> SLEEPING -> s <> RUNNABLE -> j <> i -> stateof t' j = s <-> stateof t j = s) as Hst.
  { intros j s H1 H2 Hj. destruct (Fj j Hj) as (_ & _ & _ & [->|[-> ->]]); [done|]. split; congruence. }
  assert (forall j, j <> i -> alive (stateof t j) <-> alive (stateof t' j)) as Hal.
  { intros j Hj. destruct (Fj j Hj) as (_ & _ & _ & [->|[-> ->]]); unfold alive; intuition (try done; eauto). }
  assert (exists q, p_parent (P t i) = Some q /\ q <> i /\ alive (stateof t q)) as (pi & Hpi & Hpine & Hpia)
    by (apply V13; [unfold alive; tauto | done]).
  assert (p_parent (P t' i) = Some pi) as Hpari.
  { rewrite Hpar. unfold adopted. rewrite bool_decide_false by congruence. done. }
  assert (forall j np, forking (<[i := AtUser]> pc j) = Some np -> forking (pc j) = Some np /\ j <> i) as Hfk.
  { intros j np. rewrite fn_insert_dec. by destruct (decide (j = i)). }
  split; rewrite ?N; try done.
  - exists ini. rewrite I. split; [done|]. by apply Hal.
  - intros c' j. rewrite fn_insert_dec. destruct (decide (c' = c)) as [->|Hne']; [done|]. intros Hj.
    apply Hst; [done.. | |by apply (V3 c')]. intros ->. by destruct (V5 c' c i).
  - intros j Hj. assert (j <> i) as Hji by congruence. apply Hst in Hj; [|done..]. destruct (V4 j Hj) as [c' Hc'].
    exists c'. rewrite fn_insert_dec. destruct (decide (c' = c)) as [->|]; congruence.
  - intros c1 c2 j. rewrite !fn_insert_dec. destruct (decide (c1 = c)), (decide (c2 = c)); try done. apply V5.
  - intros c' j. rewrite fn_insert_dec. destruct (decide (c' = c)) as [->|Hne']; [done|]. intros Hj.
    rewrite fn_insert_dec, decide_False by (intros ->; by destruct (V5 c' c i)).
    rewrite <- (V6 c' j Hj). split; congruence.
  - intros j. rewrite fn_insert_dec. unfold pc_fits. destruct (decide (j = i)) as [->|Hji].
    + unfold stateof in Hz. by rewrite Hz.
    + specialize (V7 j). unfold pc_fits in V7. destruct (Fj j Hji) as (_ & _ & Hch & [Es|[Es Es']]); unfold stateof in *.
      * rewrite Es, Hch. done.
      * rewrite Es'. rewrite Es in V7. destruct V7 as [->|[-> _]]; done.
  - intros j np Hj. destruct (Hfk _ _ Hj) as [Hj' Hji]. destruct (V8 j np Hj') as (A & B & C).
    assert (np <> i) as Hni by congruence. destruct (Fj np Hni) as (_ & Hp & _). rewrite Hp.
    rewrite decide_False by (rewrite C; destruct (filled (pc j)); congruence).
    rewrite fn_insert_dec, decide_False by done. split_and!; [|by apply Hst | done].
    destruct A as [A|A]; [left; by apply Hst|]. right. destruct (Fj j Hji) as (_ & _ & _ & [->|[E0 _]]); congruence.
  - intros j k np Hj Hk. apply (V9 j k np); by apply Hfk.
  - intros np Hnp. assert (np <> i) as Hni by congruence. apply Hst in Hnp; [|done..]. destruct (V10 np Hnp) as [j Hj].
    exists j. rewrite fn_insert_dec. destruct (decide (j = i)) as [->|]; [by rewrite Hpc in Hj | done].
  - intros j Hj. destruct (decide (j = i)) as [->|Hji]; [rewrite Hpid; apply V11; congruence|].
    destruct (Fj j Hji) as (-> & _). apply V11. contradict Hj. by apply Hst.
  - assert (forall j, p_pid (P t' j) = p_pid (P t j)) as Hpids.
    { intros j. destruct (decide (j = i)) as [->|Hji]; [done | apply (Fj j Hji)]. }
    assert (forall j, stateof t' j <> UNUSED -> stateof t j <> UNUSED) as Hun.
    { intros j Hj. destruct (decide (j = i)) as [->|Hji]; [congruence|]. contradict Hj. by apply Hst. }
    intros j k Hj Hk. rewrite !Hpids. apply V12; by apply Hun.
  - intros j Hj Hjn. rewrite I in Hjn. destruct (decide (j = i)) as [->|Hji].
    { exists pi. split_and!; [done | done | by apply Hal]. }
    destruct (Fj j Hji) as (_ & Hp & _). rewrite Hp.
    destruct (V13 j) as (q & Hq & Hqj & Ha); [|done|].
    { destruct Hj as [Hj|Hj]; [left; by apply Hal | right; by apply Hst]. }
    destruct (decide (p_parent (P t j) = Some i)) as [Hd|Hd].
    + exists ini. split_and!; [done | congruence | by apply Hal].
    + exists q. split_and!; [done | done | apply Hal; congruence || done].
  - intros j Hj. assert (j <> i) as Hji by congruence. destruct (Fj j Hji) as (_ & Hp & _). apply Hst in Hj; [|done..].
    rewrite Hp, (V14 j Hj). by rewrite decide_False.
  - intros z q Hzz Hp Hs. assert (q <> i) as Hqi by congruence. rewrite fn_insert_dec, decide_False by done. intros Hw.
    assert (stateof t q = SLEEPING) as Hs0 by (destruct (Fj q Hqi) as (_ & _ & _ & [E0|[E0 _]]); congruence).
    assert (p_chan (P t q) = Some (ProcChan q)) as Hch.
    { specialize (V7 q). unfold pc_fits in V7. unfold stateof in Hs0. rewrite Hs0, Hw in V7. by destruct V7 as [?|[_ ?]]. }
    destruct (decide (z = i)) as [->|Hzi].
    + rewrite Hpari in Hp. injection Hp as <-. specialize (Wp pi Hqi Hpi Hs0 Hch). congruence.
    + destruct (Fj z Hzi) as (_ & Hpz & _). rewrite Hpz in Hp. apply Hst in Hzz; [|done..].
      destruct (decide (p_parent (P t z) = Some i)) as [Hd|Hd].
      * injection Hp as <-. specialize (Wi z ini Hne Hzi Hzz Hd Eini Hs0 Hch). congruence.
      * by apply (V15 z q).
Qed.

(** A child that has exited leaves the table. *)
Lemma inv_reap t t' lk cpu pc i z :
  stateof t z = ZOMBIE -> p_parent (P t z) = Some i -> pt_init t <> Some z -> same_table t t' ->
  (forall j, j <> z -> P t' j = P t j) -> stateof t' z = UNUSED -> p_parent (P t' z) = None ->
  sched_inv t lk cpu pc -> sched_inv t' lk cpu pc.
Proof.
  intros Hz Hpz Hini (L & I & N) Hoth Hz' Hpz' [V1 V2 V3 V4 V5 V6 V7 V8 V9 V10 V11 V12 V13 V14 V15].
  assert (forall j, j <> z -> stateof t' j = stateof t j) as Hso by (intros; unfold stateof; by rewrite Hoth).
  assert (forall j s, s <> ZOMBIE -> stateof t j = s -> j <> z) as Hnz by congruence.
  assert (forall j s, s <> UNUSED -> stateof t' j = s -> j <> z) as Hnz' by congruence.
  assert (forall j, alive (stateof t j) -> alive (stateof t' j)) as Hal.
  { intros j Hj. rewrite Hso; [done|]. intros ->. rewrite Hz in Hj. by destruct Hj as [?|[?|?]]. }
  split; rewrite ?I, ?N; try done.
  - congruence.
  - destruct V2 as (k & Hk & Ha). eauto.
  - intros c j Hj. rewrite Hso; [by apply (V3 c)|]. eapply Hnz; [|by apply (V3 c)]. done.
  - intros j Hj. apply V4. rewrite <- Hso; [done|]. eapply Hnz'; [|exact Hj]. done.
  - intros j. destruct (decide (j = z)) as [->|Hjz]; [|by rewrite Hoth].
    specialize (V7 z). unfold pc_fits in *. unfold stateof in *. by rewrite Hz', Hz in *.
  - intros j np Hj. destruct (V8 j np Hj) as (A & B & C). assert (j <> z) by (intros ->; destruct A; congruence). rewrite !Hso, Hoth by congruence. done.
  - intros np Hnp. apply V10. rewrite <- Hso; [done|]. eapply Hnz'; [|exact Hnp]. done.
  - intros j Hj. rewrite Hoth by congruence. apply V11. rewrite <- Hso by congruence. done.
  - intros j k Hj Hk. rewrite !Hoth by congruence. apply V12; rewrite <- Hso by congruence; done.
  - intros j Hj Hjn. assert (j <> z) as Hjz by (intros ->; rewrite Hz' in Hj; unfold alive in Hj; naive_solver).
    rewrite Hoth, Hso in * by done. destruct (V13 j Hj Hjn) as (q & Hq & Hqj & Ha). eauto.
  - intros j Hj. destruct (decide (j = z)) as [->|Hjz]; [done|]. rewrite Hoth by done. apply V14. by rewrite <- Hso.
  - intros y q Hy Hp Hs. assert (y <> z) by congruence. assert (q <> z) by congruence.
    rewrite Hso in Hy, Hs by done. rewrite Hoth in Hp by done. by apply (V15 y).
Qed.

(** fork takes a slot of the table, gives it back, fills it in. *)
Lemma inv_alloc t t' cpu pc c i np :
  cpu c = Some i -> pc i = AtUser -> pt_nextpid t < 2147483647 -> alloc_slot t = Ret (Some np) t' ->
  sched_inv t None cpu pc -> sched_inv t' None cpu (<[i := Allocated np]> pc).
Proof.
  intros Hc Hpc Hn E [V1 V2 V3 V4 V5 V6 V7 V8 V9 V10 V11 V12 V13 V14 V15].
  destruct (P_alloc t np t' E) as (Hu & Hlt & L & I & N & F).
  assert (stateof t i = RUNNING) as Hi by (by apply (V3 c)). assert (np <> i) as Hni by congruence.
  assert (0 < pt_nextpid t) as Hn0 by (specialize (V11 i ltac:(congruence)); lia).
  rewrite s32_small in N by lia.
  assert (forall j, stateof t' j = if decide (j = np) then EMBRYO else stateof t j) as Hst
    by (intros j; unfold stateof; rewrite F; by destruct (decide (j = np))).
  assert (forall j, p_parent (P t' j) = p_parent (P t j)) as Hpars
    by (intros j; rewrite F; by destruct (decide (j = np)) as [->|]).
  assert (forall j, p_pid (P t' j) = if decide (j = np) then pt_nextpid t else p_pid (P t j)) as Hpids
    by (intros j; rewrite F; by destruct (decide (j = np)) as [->|]).
  assert (forall j, alive (stateof t j) -> alive (stateof t' j)) as Hal.
  { intros j Hj. rewrite Hst. destruct (decide (j = np)) as [->|]; [|done]. rewrite Hu in Hj. by destruct Hj as [?|[?|?]]. }
  assert (forall j k, forking (<[i := Allocated np]> pc j) = Some k -> (j = i /\ k = np) \/ (j <> i /\ forking (pc j) = Some k /\ k <> np)) as Hfk.
  { intros j k. rewrite fn_insert_dec. destruct (decide (j = i)) as [->|]; simpl; [intros [= <-]; by left|].
    intros Hk. right. split_and!; try done. intros ->. destruct (V8 j np Hk) as (_ & ? & _). congruence. }
  split; rewrite ?I, ?N; try done.
  - congruence.
  - destruct V2 as (k & Hk & Ha). eauto.
  - intros c' j Hj. rewrite Hst, decide_False; [by apply (V3 c')|]. intros ->. apply V3 in Hj. congruence.
  - intros j. rewrite Hst. destruct (decide (j = np)); [done|]. apply V4.
  - intros c' j Hj. rewrite fn_insert_dec. destruct (decide (j = i)) as [->|]; [by split|]. by apply V6.
  - intros j. rewrite fn_insert_dec. destruct (decide (j = i)) as [->|Hji].
    + unfold pc_fits. rewrite F, decide_False by done. unfold stateof in Hi. by rewrite Hi.
    + specialize (V7 j). unfold pc_fits in *. rewrite F. destruct (decide (j = np)) as [->|]; [|done].
      simpl. unfold stateof in Hu. by rewrite Hu in V7.
  - intros j k Hj. rewrite !Hst, Hpars. apply Hfk in Hj as [[-> ->]|(Hji & Hj & Hk)].
    + rewrite fn_insert_dec, (decide_False (P := i = np)), !decide_True by done. split_and!; [by left | done | by apply V14].
    + destruct (V8 j k Hj) as (A & B & C). assert (j <> np) by (intros ->; destruct A; congruence). rewrite fn_insert_dec, !decide_False by congruence. done.
  - intros j k q Hj Hk. apply Hfk in Hj, Hk. destruct Hj as [[-> ->]|(? & Hj & ?)], Hk as [[-> ?]|(? & Hk & ?)]; try congruence.
    by apply (V9 j k q).
  - intros q. rewrite Hst. destruct (decide (q = np)) as [->|Hq]; intros Hs.
    + exists i. by rewrite fn_insert_dec, decide_True.
    + destruct (V10 q Hs) as [j Hj]. exists j. rewrite fn_insert_dec. destruct (decide (j = i)) as [->|]; [|done].
      by rewrite Hpc in Hj.
  - intros j. rewrite Hst, Hpids. destruct (decide (j = np)); [lia|]. intros Hj. specialize (V11 j Hj). lia.
  - intros j k. rewrite !Hst, !Hpids. destruct (decide (j = np)), (decide (k = np)); intros Hj Hk; [congruence | | |by apply V12].
    + specialize (V11 k Hk). lia.
    + specialize (V11 j Hj). lia.
  - intros j Hj Hjn. rewrite Hpars. destruct (V13 j) as (q & Hq & Hqj & Ha); [|done|by eauto].
    rewrite Hst in Hj. destruct (decide (j = np)); [|done]. unfold alive in Hj. naive_solver.
  - intros j. rewrite Hst, Hpars. destruct (decide (j = np)); [done|]. apply V14.
  - intros z q. rewrite !Hst, Hpars, fn_insert_dec. destruct (decide (z = np)), (decide (q = np)); try done.
    destruct (decide (q = i)) as [->|]; [congruence|]. apply V15.
Qed.

(** What fork does with the slot it took: [f] is the change to it, [pc'] where the
    forking process is then. *)
Section forked.
Context (t t' : pts) (lk : option nat) (cpu : nat -> option nat) (pc : nat -> kpc) (i np : nat) (f : proc -> proc).
Context (Hf : forking (pc i) = Some np) (Hrun : suspended (pc i) = false) (Hup : upd np f t = Ret tt t') (V : sched_inv t lk cpu pc).

Lemma forked_table :
  same_table t t' /\ np <> i /\ stateof t i = RUNNING /\ stateof t np = EMBRYO /\
  (forall j, P t' j = if decide (j = np) then f (P t np) else P t j) /\
  (forall j k, forking (pc j) = Some k -> j <> i -> k <> np) /\
  (forall j, forking (pc j) <> None -> j <> np) /\ (forall c, cpu c <> Some np) /\ pt_init t <> Some np.
Proof using Hf Hrun Hup V.
  destruct V as [V1 V2 V3 V4 V5 V6 V7 V8 V9 V10 V11 V12 V13 V14 V15].
  destruct (V8 i np Hf) as (Hor & Hnp & Hpar).
  assert (stateof t i = RUNNING) as Hi.
  { destruct Hor as [?|Hr]; [done|]. specialize (V7 i). unfold pc_fits in V7. unfold stateof in Hr. rewrite Hr in V7. congruence. }
  destruct (P_upd np f t t') as (L & I & N & F); [apply P_lt; congruence | done |].
  split_and!; try done; try congruence.
  - intros j k Hj Hji ->. apply Hji. by apply (V9 j i np).
  - intros j Hj ->. destruct (forking (pc np)) as [k|] eqn:E; [|done]. destruct (V8 np k E) as ([?|?] & _); congruence.
  - intros c Hc. apply V3 in Hc. congruence.
  - intros Hini. destruct V2 as (k & Hk & Ha). rewrite Hini in Hk. injection Hk as ->. rewrite Hnp in Ha.
    by destruct Ha as [?|[?|?]].
Qed.

Lemma inv_alloc_fail : f = set_pstate UNUSED -> pc i = Allocated np -> sched_inv t' lk cpu (<[i := AtUser]> pc).
Proof using Hf Hrun Hup V.
  intros Ef Hpc. destruct forked_table as ((L & I & N) & Hni & Hi & Hnp & F & Hfk & Hfk2 & Hcpu & Hini). rewrite Ef in F.
  destruct V as [V1 V2 V3 V4 V5 V6 V7 V8 V9 V10 V11 V12 V13 V14 V15].
  assert (forall j, stateof t' j = if decide (j = np) then UNUSED else stateof t j) as Hst
    by (intros j; unfold stateof; rewrite F; by destruct (decide (j = np))).
  assert (forall j, p_parent (P t' j) = p_parent (P t j) /\ p_pid (P t' j) = p_pid (P t j)) as Hsame
    by (intros j; rewrite F; by destruct (decide (j = np)) as [->|]).
  assert (forall j k, forking (<[i := AtUser]> pc j) = Some k -> forking (pc j) = Some k /\ j <> i) as Hfi.
  { intros j k. rewrite fn_insert_dec. by destruct (decide (j = i)). }
  assert (forall j, alive (stateof t j) -> alive (stateof t' j)) as Hal.
  { intros j Hj. rewrite Hst. destruct (decide (j = np)) as [->|]; [|done]. rewrite Hnp in Hj. by destruct Hj as [?|[?|?]]. }
  split; rewrite ?I, ?N; try done.
  - congruence.
  - destruct V2 as (k & Hk & Ha). eauto.
  - intros c j Hj. rewrite Hst, decide_False; [by apply (V3 c)|]. intros ->. by apply (Hcpu c).
  - intros j. rewrite Hst. destruct (decide (j = np)); [done|]. apply V4.
  - intros c j Hj. rewrite fn_insert_dec, (V6 c j Hj). destruct (decide (j = i)) as [->|]; [by rewrite Hpc | done].
  - intros j. rewrite fn_insert_dec. specialize (V7 j). unfold pc_fits in *. rewrite F. destruct (decide (j = i)) as [->|Hji].
    + rewrite decide_False by done. unfold stateof in Hi. by rewrite Hi.
    + destruct (decide (j = np)) as [->|]; [|done]. simpl. unfold stateof in Hnp. by rewrite Hnp in V7.
  - intros j k Hj. destruct (Hfi j k Hj) as [Hj' Hji]. destruct (V8 j k Hj') as (A & B & C).
    destruct (Hsame k) as [-> _]. assert (k <> np) by (by eapply Hfk). assert (j <> np) by (apply Hfk2; congruence).
    rewrite !Hst, fn_insert_dec, !decide_False by done. done.
  - intros j k q Hj Hk. apply (V9 j k q); by apply Hfi.
  - intros q. rewrite Hst. destruct (decide (q = np)); [done|]. intros Hq. destruct (V10 q Hq) as [j Hj]. exists j.
    rewrite fn_insert_dec. destruct (decide (j = i)) as [->|]; congruence.
  - intros j. destruct (Hsame j) as [_ ->]. rewrite Hst. destruct (decide (j = np)); [done|]. apply V11.
  - intros j k. destruct (Hsame j) as [_ ->], (Hsame k) as [_ ->]. rewrite !Hst.
    destruct (decide (j = np)), (decide (k = np)); try done. apply V12.
  - intros j Hj Hjn. destruct (Hsame j) as [-> _]. destruct (V13 j) as (q & Hq & Hqj & Ha); [|done|by eauto].
    rewrite Hst in Hj. destruct (decide (j = np)); [|done]. unfold alive in Hj. naive_solver.
  - intros j. destruct (Hsame j) as [-> _]. rewrite Hst. destruct (decide (j = np)) as [->|]; [|apply V14].
    intros _. destruct (V8 i np Hf) as (_ & _ & ->). by rewrite Hpc.
  - intros z q. destruct (Hsame z) as [-> _]. rewrite !Hst, fn_insert_dec.
    destruct (decide (z = np)), (decide (q = np)); try done. destruct (decide (q = i)) as [->|]; [congruence|]. apply V15.
Qed.

Lemma inv_fill : f = set_parent (Some i) -> pc i = Allocated np -> sched_inv t' lk cpu (<[i := Filled np]> pc).
Proof using Hf Hrun Hup V.
  intros Ef Hpc. destruct forked_table as ((L & I & N) & Hni & Hi & Hnp & F & Hfk & Hfk2 & Hcpu & Hini). rewrite Ef in F.
  destruct V as [V1 V2 V3 V4 V5 V6 V7 V8 V9 V10 V11 V12 V13 V14 V15].
  assert (forall j, stateof t' j = stateof t j) as Hst by (intros j; unfold stateof; rewrite F; by destruct (decide (j = np)) as [->|]).
  assert (forall j, p_pid (P t' j) = p_pid (P t j)) as Hpids by (intros j; rewrite F; by destruct (decide (j = np)) as [->|]).
  assert (forall j, j <> np -> P t' j = P t j) as Hoth by (intros j Hj; by rewrite F, decide_False).
  assert (forall j, forking (<[i := Filled np]> pc j) = forking (pc j)) as Hfi.
  { intros j. rewrite fn_insert_dec. destruct (decide (j = i)) as [->|]; [by rewrite Hpc | done]. }
  split; rewrite ?I, ?N; try done; try (setoid_rewrite Hst; setoid_rewrite Hpids; done); try (setoid_rewrite Hst; done).
  - congruence.
  - intros c j Hj. rewrite fn_insert_dec, (V6 c j Hj). destruct (decide (j = i)) as [->|]; [by rewrite Hpc | done].
  - intros j. rewrite fn_insert_dec. destruct (decide (j = np)) as [->|Hjn].
    + rewrite decide_False by done. specialize (V7 np). unfold pc_fits in *. unfold stateof in Hnp.
      rewrite F, decide_True by done. simpl. by rewrite Hnp in *.
    + rewrite Hoth by done. destruct (decide (j = i)) as [->|]; [|done]. unfold pc_fits. unfold stateof in Hi. by rewrite Hi.
  - intros j k. rewrite Hfi, !Hst, fn_insert_dec. intros Hj. destruct (V8 j k Hj) as (A & B & C).
    split_and!; try done. destruct (decide (j = i)) as [->|Hji].
    + assert (k = np) as -> by congruence. by rewrite F, decide_True.
    + rewrite Hoth; [done | by eapply Hfk].
  - setoid_rewrite Hfi. done.
  - setoid_rewrite Hfi. setoid_rewrite Hst. done.
  - intros j Hj Hjn. rewrite Hst in Hj. assert (j <> np) as Hjnp.
    { intros ->. rewrite Hnp in Hj. unfold alive in Hj. naive_solver. }
    rewrite Hoth by done. destruct (V13 j Hj Hjn) as (q & Hq & Hqj & Ha). exists q. by rewrite Hst.
  - intros j Hj. rewrite Hst in Hj. rewrite Hoth by congruence. by apply V14.
  - intros z q Hz Hp Hs. rewrite Hst in Hz, Hs. rewrite Hoth in Hp by congruence. rewrite fn_insert_dec.
    destruct (decide (q = i)) as [->|]; [congruence|]. by apply (V15 z).
Qed.

Lemma inv_forked : f = set_pstate RUNNABLE -> pc i = Filled np ->
  sched_inv t' lk cpu (<[np := AtForkret]> (<[i := AtUser]> pc)).
Proof using Hf Hrun Hup V.
  intros Ef Hpc. destruct forked_table as ((L & I & N) & Hni & Hi & Hnp & F & Hfk & Hfk2 & Hcpu & Hini). rewrite Ef in F.
  destruct V as [V1 V2 V3 V4 V5 V6 V7 V8 V9 V10 V11 V12 V13 V14 V15].
  assert (forall j, stateof t' j = if decide (j = np) then RUNNABLE else stateof t j) as Hst
    by (intros j; unfold stateof; rewrite F; by destruct (decide (j = np))).
  assert (forall j, p_parent (P t' j) = p_parent (P t j) /\ p_pid (P t' j) = p_pid (P t j)) as Hsame
    by (intros j; rewrite F; by destruct (decide (j = np)) as [->|]).
  assert (forall j, <[np := AtForkret]> (<[i := AtUser]> pc) j =
    if decide (j = np) then AtForkret else if decide (j = i) then AtUser else pc j) as Hpcs by (intros j; by rewrite !fn_insert_dec).
  assert (forall j k, forking (<[np := AtForkret]> (<[i := AtUser]> pc) j) = Some k ->
    forking (pc j) = Some k /\ j <> i /\ j <> np) as Hfi.
  { intros j k. rewrite Hpcs. destruct (decide (j = np)), (decide (j = i)); done. }
  assert (forall j, alive (stateof t j) -> alive (stateof t' j)) as Hal.
  { intros j Hj. rewrite Hst. destruct (decide (j = np)) as [->|]; [unfold alive; tauto | done]. }
  split; rewrite ?I, ?N; try done.
  - congruence.
  - destruct V2 as (k & Hk & Ha). eauto.
  - intros c j Hj. rewrite Hst, decide_False; [by apply (V3 c)|]. intros ->. by apply (Hcpu c).
  - intros j. rewrite Hst. destruct (decide (j = np)); [done|]. apply V4.
  - intros c j Hj. rewrite Hpcs, (V6 c j Hj). rewrite decide_False by (intros ->; by apply (Hcpu c)).
    destruct (decide (j = i)) as [->|]; [by rewrite Hpc | done].
  - intros j. rewrite Hpcs. specialize (V7 j). unfold pc_fits in *. rewrite F. destruct (decide (j = np)) as [->|Hjn]; [done|].
    destruct (decide (j = i)) as [->|Hji]; [|done]. unfold stateof in Hi. by rewrite Hi.
  - intros j k Hj. destruct (Hfi j k Hj) as (Hj' & Hji & Hjn). destruct (V8 j k Hj') as (A & B & C).
    destruct (Hsame k) as [-> _]. assert (k <> np) by (by eapply Hfk).
    rewrite !Hst, Hpcs, !decide_False by done. done.
  - intros j k q Hj Hk. apply (V9 j k q); by apply Hfi.
  - intros q. rewrite Hst. destruct (decide (q = np)) as [|Hq]; [done|]. intros Hs. destruct (V10 q Hs) as [j Hj]. exists j.
    rewrite Hpcs, !decide_False; [done | congruence |]. apply Hfk2. congruence.
  - intros j. destruct (Hsame j) as [_ ->]. rewrite Hst. intros Hj. apply V11. destruct (decide (j = np)) as [->|]; congruence.
  - intros j k. destruct (Hsame j) as [_ ->], (Hsame k) as [_ ->]. rewrite !Hst. intros Hj Hk. apply V12.
    + destruct (decide (j = np)) as [->|]; congruence.
    + destruct (decide (k = np)) as [->|]; congruence.
  - intros j Hj Hjn. destruct (Hsame j) as [-> _]. rewrite Hst in Hj. destruct (decide (j = np)) as [->|].
    + exists i. destruct (V8 i np Hf) as (_ & _ & ->). rewrite Hpc. split_and!; try done. apply Hal. unfold alive. tauto.
    + destruct (V13 j Hj Hjn) as (q & Hq & Hqj & Ha). eauto.
  - intros j. destruct (Hsame j) as [-> _]. rewrite Hst. destruct (decide (j = np)); [done|]. apply V14.
  - intros z q. destruct (Hsame z) as [-> _]. rewrite !Hst, Hpcs.
    destruct (decide (z = np)), (decide (q = np)); try done. destruct (decide (q = i)) as [->|]; [congruence|]. apply V15.
Qed.
End forked.

(** ** Every step keeps the invariant *)

Definition minv (m : mach) : Prop := sched_inv (m_t m) (m_lock m) (m_cpu m) (m_pc m).

(** The scan of wait, on the table. *)
Lemma wait_scan_P t cur j b : wait_scan (pt_proc t) 0 cur false = (Some j, b) ->
  stateof t j = ZOMBIE /\ p_parent (P t j) = Some cur /\ (j < length (pt_proc t))%nat.
Proof.
  intros E. pose proof (wait_scan_spec (pt_proc t) 0 cur false) as H. rewrite E in H.
  destruct H as (p & Hp & _ & Hpar & Hz). rewrite Nat.sub_0_r in Hp. unfold stateof, P. rewrite Hp. simpl.
  split_and!; try done. by eapply lookup_lt_Some.
Qed.
Lemma wait_scan_none t cur b : wait_scan (pt_proc t) 0 cur false = (None, b) ->
  forall z, stateof t z = ZOMBIE -> p_parent (P t z) <> Some cur.
Proof.
  intros E. pose proof (wait_scan_spec (pt_proc t) 0 cur false) as H. rewrite E in H. destruct H as [H _].
  intros z Hz Hp. unfold stateof, P in *. destruct (pt_proc t !! z) as [p|] eqn:El; [|done].
  apply (H p); [by apply list_elem_of_lookup_2 in El | done..].
Qed.
(** An update of the process that a CPU runs. *)
Lemma upd_running t lk cpu pc c i f t' : sched_inv t lk cpu pc -> cpu c = Some i -> upd i f t = Ret tt t' ->
  same_table t t' /\ stateof t i = RUNNING /\ forall j, P t' j = if decide (j = i) then f (P t i) else P t j.
Proof.
  intros V Hc E. pose proof (inv_cpu _ _ _ _ V c i Hc) as Hi.
  destruct (P_upd i f t t') as (L & I & N & F); [apply P_lt; congruence | done |]. by split_and!.
Qed.
Lemma go_to_sleep_P t lk cpu pc c i ch t' : sched_inv t lk cpu pc -> cpu c = Some i -> go_to_sleep i ch t = Ret tt t' ->
  same_table t t' /\ stateof t i = RUNNING /\
  forall j, P t' j = if decide (j = i) then set_pstate SLEEPING (set_pchan (Some ch) (P t i)) else P t j.
Proof.
  intros V Hc E. unfold go_to_sleep in E. inv_bind E. destruct a.
  destruct (upd_running _ _ _ _ _ _ _ _ V Hc Hm) as ((L & I & N) & Hi & F).
  destruct (P_upd i (set_pstate SLEEPING) s1 t') as (L1 & I1 & N1 & F1); [rewrite L; apply P_lt; congruence | done |].
  split; [split_and!; congruence|]. split; [done|]. intros j. rewrite F1, !F. destruct (decide (j = i)); [by rewrite decide_True | done].
Qed.

Ltac step_inv := unfold minv, switch_out, go_on in *; cbn [m_t m_lock m_cpu m_pc] in *.

(** The steps of the scheduler and of a process that was switched to. *)
Lemma minv_wakers t t' lk cpu pc :
  (exists ch, wakeup1 ch t = Ret tt t') \/ (exists pid r, kill pid t = Ret r t') ->
  sched_inv t lk cpu pc -> sched_inv t' lk cpu pc.
Proof.
  intros [[ch E]|(pid & r & E)] V.
  - destruct (P_wakeup1 _ _ _ E) as (L & I & N & F). apply (inv_same t); [done | | done]. intros j. rewrite F.
    pose proof (woke_wake1 ch (P t j)) as W. destruct (woke_fields _ _ W) as (A & B & C & _). split_and!; try done.
    destruct W as [->|[? ->]]; [by left | by right].
  - destruct (P_kill _ _ _ _ E) as (L & I & N & F). apply (inv_same t); [done | | done]. intros j.
    destruct (F j) as [->|[->|[Hs ->]]]; split_and!; try done; [by left | by left | by right].
Qed.

Lemma inv_tidy t t' lk cpu pc c i : cpu c = Some i -> tidy_up i t = Ret tt t' -> sched_inv t lk cpu pc -> sched_inv t' lk cpu pc.
Proof.
  intros Hc E V. destruct (upd_running _ _ _ _ _ _ _ _ V Hc E) as (Hst & Hi & F). apply (inv_same t); [done | | done].
  intros j. rewrite F. unfold stateof in Hi. destruct (decide (j = i)) as [->|]; split_and!; try done; left; split; done || congruence.
Qed.
Lemma inv_sleep t t' lk cpu pc c i ch pc' :
  cpu c = Some i -> lk = None \/ lk = Some c -> forking (pc i) = None -> go_to_sleep i ch t = Ret tt t' ->
  pc' = AtSleep \/ (pc' = AtWait /\ ch = ProcChan i /\ forall z, stateof t z = ZOMBIE -> p_parent (P t z) <> Some i) ->
  sched_inv t lk cpu pc -> sched_inv t' (Some c) (<[c := None]> cpu) (<[i := pc']> pc).
Proof.
  intros Hc Hlk Hf E Hpc V. destruct (go_to_sleep_P _ _ _ _ _ _ _ _ V Hc E) as (Hst & Hi & F).
  pose proof (F i) as Fi. rewrite decide_True in Fi by done.
  apply (inv_out t t' cpu pc lk c i pc'); try done.
  - intros j Hj. by rewrite F, decide_False.
  - by rewrite Fi.
  - by rewrite Fi.
  - right. unfold stateof. by rewrite Fi.
  - rewrite Hf. by destruct Hpc as [->|(-> & _)].
  - assert (filled (pc i) = false) as -> by by destruct (pc i). by destruct Hpc as [->|(-> & _)].
  - rewrite Fi. unfold pc_fits. simpl. destruct Hpc as [->|(-> & -> & _)]; [by left | by right].
  - intros ->. by destruct Hpc as [?|(_ & _ & Hz)].
Qed.

Lemma minv_step m m' : sstep m m' -> minv m -> minv m'.
Proof.
  intros Hs V. destruct Hs as
    [ m c Hl Hc | m c Hl Hc Hp Hr | m c t' Hl Hc Hp Hr E | m c Hl Hc Hp
    | m c i pc' Hl Hc Hpc | m c i t' Hl Hc Hpc E | m c i t' Hl Hc Hpc E
    | m c i pc' t' Hl Hc Hpc E | m c i ch t' Hl Hc Hpc E | m ch t' Hl E | m c i pid r t' Hl Hc Hpc E
    | m c i t' Hc Hpc E | m c i t' Hl Hc Hpc Hini E | m c i Hl Hc Hpc
    | m c i j b t' Hl Hc Hpc Hw E | m c i b Hl Hc Hpc Hw Hk | m c i t' Hl Hc Hpc Hw Hk E
    | m c i np t' Hl Hc Hpc Hn E | m i np t' Hpc E | m i np t' Hpc E | m i np t' Hl Hpc E ]; step_inv; rewrite ?Hl in *.
  - by apply (inv_sched_lock _ None _ _ _ c); auto.
  - done.
  - assert (m_pos m c < length (pt_proc (m_t m)))%nat as Hlt by (apply P_lt; congruence).
    destruct (P_upd _ _ _ _ Hlt E) as (L & I & N & F). by apply (inv_dispatch (m_t m)).
  - by apply (inv_sched_lock _ (Some c) _ _ _ c); auto.
  - apply (inv_go _ (Some c) _ _ _ c); auto; destruct (m_pc m i) as [| | | | | | | |np []]; try discriminate; by injection Hpc as <-.
  - apply (inv_go _ (Some c) _ _ _ c); auto; [done | by rewrite Hpc | by rewrite Hpc | by eapply inv_tidy].
  - apply (inv_go _ (Some c) _ _ _ c); auto; [done | by rewrite Hpc | by rewrite Hpc | by eapply inv_tidy].
  - destruct (upd_running _ _ _ _ _ _ _ _ V Hc E) as (Hst & Hi & F). pose proof (F i) as Fi. rewrite decide_True in Fi by done.
    apply (inv_out (m_t m) t' _ _ None); rewrite ?Fi; auto; [intros j Hj; by rewrite F, decide_False | unfold stateof; rewrite Fi; by left | ..];
      destruct (m_pc m i); try discriminate; by injection Hpc as <-.
  - eapply (inv_sleep _ _ None); [exact Hc | by left | by rewrite Hpc | exact E | by left | exact V].
  - apply (minv_wakers (m_t m)); eauto.
  - apply (minv_wakers (m_t m)); eauto.
  - destruct (upd_running _ _ _ _ _ _ _ _ V Hc E) as (Hst & Hi & F). apply (inv_same (m_t m)); [done | | done].
    intros j. rewrite F. destruct (decide (j = i)) as [->|]; split_and!; try done; by left.
  - by apply (inv_exit (m_t m)).
  - apply (inv_go _ None _ _ _ c); auto; [done | by rewrite Hpc..].
  - destruct (wait_scan_P _ _ _ _ Hw) as (Hz & Hp & Hlt). destruct (P_upd _ _ _ _ Hlt E) as (L & I & N & F).
    pose proof (F j) as Fj. rewrite decide_True in Fj by done.
    apply (inv_go _ (Some c) _ _ _ c); auto; [done | by rewrite Hpc | by rewrite Hpc |].
    apply (inv_reap (m_t m) t' _ _ _ i j); try done; try (unfold stateof; by rewrite Fj); try (by rewrite Fj).
    + intros Hini. destruct (inv_init _ _ _ _ V) as (k & Hk & Ha). rewrite Hini in Hk. injection Hk as <-. rewrite Hz in Ha.
      by destruct Ha as [?|[?|?]].
    + intros k Hk. by rewrite F, decide_False.
  - apply (inv_go _ (Some c) _ _ _ c); auto; [done | by rewrite Hpc..].
  - eapply (inv_sleep _ _ (Some c)); [exact Hc | by right | by rewrite Hpc | exact E | | exact V]. right. split_and!; [done..|].
    by eapply wait_scan_none.
  - by apply (inv_alloc (m_t m) t' _ _ c).
  - eapply inv_alloc_fail; [| |exact E|exact V|done|done]; by rewrite Hpc.
  - eapply inv_fill; [| |exact E|exact V|done|done]; by rewrite Hpc.
  - eapply inv_forked; [| |exact E|exact V|done|done]; by rewrite Hpc.
Qed.

(** ** The machine as userinit leaves it *)

Definition boot : mach :=
  Mach (Pts (set_pstate RUNNABLE (set_pid 1 zero_proc) :: replicate 63 zero_proc) 2 (Some 0%nat)) None
    (fun _ => None) (fun _ => 0%nat) (fun i => match i with O => AtForkret | _ => AtUser end).

Lemma boot_P i : P (m_t boot) i = match i with O => set_pstate RUNNABLE (set_pid 1 zero_proc) | _ => zero_proc end.
Proof.
  destruct i as [|i]; [done|]. unfold P.
  change (pt_proc (m_t boot) !! Datatypes.S i) with (replicate 63 zero_proc !! i).
  destruct (replicate 63 zero_proc !! i) as [p|] eqn:E; [|done]. by apply lookup_replicate in E as [-> _].
Qed.
Lemma boot_inv : minv boot.
Proof.
  assert (forall i, stateof (m_t boot) i = match i with O => RUNNABLE | _ => UNUSED end) as Hst
    by (intros i; unfold stateof; rewrite boot_P; by destruct i).
  split; unfold alive; try done; try (intros i; rewrite Hst; by destruct i).
  - exists 0%nat. split; [done|]. rewrite Hst. tauto.
  - intros i. rewrite boot_P. by destruct i.
  - intros [|i] j np; discriminate.
  - intros [|i] [|j]; rewrite !Hst; done.
  - intros [|i]; rewrite Hst; [done | naive_solver].
  - intros [|i]; rewrite Hst, boot_P; done.
Qed.
Lemma reachable_inv m : rtc sstep boot m -> minv m.
Proof. intros H. apply (rtc_invariant sstep minv boot m); [apply minv_step | apply boot_inv | done]. Qed.

(** C21: the process table, under any interleaving of scheduling, fork, exit, wait,
    kill, sleep, wakeup and yield, also by a timer interrupt in the middle of fork, on
    any number of CPUs.  A process is RUNNING
    exactly while some CPU runs it, and no two CPUs run the same one; processes
    in use have different positive identifiers; and every process but init that
    has been created and not been waited for has a parent that has not exited,
    so that there is always someone to wait for it. *)
Theorem process_table_sound m :
  rtc sstep boot m ->
  (forall i, stateof (m_t m) i = RUNNING <-> exists c, m_cpu m c = Some i) /\
  (forall c c' i, m_cpu m c = Some i -> m_cpu m c' = Some i -> c = c') /\
  (forall i j, stateof (m_t m) i <> UNUSED -> stateof (m_t m) j <> UNUSED ->
     0 < p_pid (P (m_t m) i) /\ (p_pid (P (m_t m) i) = p_pid (P (m_t m) j) -> i = j)) /\
  (forall i, alive (stateof (m_t m) i) \/ stateof (m_t m) i = ZOMBIE -> pt_init (m_t m) <> Some i ->
     exists q, p_parent (P (m_t m) i) = Some q /\ alive (stateof (m_t m) q)).
Proof.
  intros H. destruct (reachable_inv m H) as [V1 V2 V3 V4 V5 V6 V7 V8 V9 V10 V11 V12 V13 V14 V15]. split_and!.
  - intros i. split; [apply V4 | intros [c Hc]; by apply (V3 c)].
  - done.
  - intros i j Hi Hj. split; [by apply V11 | by apply V12].
  - intros i Hi Hn. destruct (V13 i Hi Hn) as (q & Hq & _ & Ha). eauto.
Qed.

(** C39: [wait] misses no exit: whenever a process sleeps in wait, none of its
    children is a zombie; the wake-up of exit cannot come too early, and init
    learns of the zombies it inherits. *)
Theorem wait_misses_no_exit m q z :
  rtc sstep boot m -> stateof (m_t m) q = SLEEPING -> m_pc m q = AtWait -> p_parent (P (m_t m) z) = Some q ->
  stateof (m_t m) z <> ZOMBIE.
Proof. intros H Hs Hw Hp Hz. by apply (inv_wait _ _ _ _ (reachable_inv m H) z q). Qed.

(** A run: init starts, forks, and waits. *)
Definition table_of {A} (r : res pts A) : pts := match r with Ret _ t => t | _ => m_t boot end.
Definition run_t1 : pts := Eval vm_compute in table_of (upd 0 (set_pstate RUNNING) (m_t boot)).
Definition run_t2 : pts := Eval vm_compute in table_of (alloc_slot run_t1).
Definition run_t3 : pts := Eval vm_compute in table_of (upd 1 (set_parent (Some 0%nat)) run_t2).
Definition run_t4 : pts := Eval vm_compute in table_of (upd 1 (set_pstate RUNNABLE) run_t3).
Definition run_t5 : pts := Eval vm_compute in table_of (go_to_sleep 0 (ProcChan 0) run_t4).
Definition run_m1 : mach := Mach (m_t boot) (Some 0%nat) (m_cpu boot) (<[0%nat := 0%nat]> (m_pos boot)) (m_pc boot).
Definition run_m2 : mach := Mach run_t1 (Some 0%nat) (<[0%nat := Some 0%nat]> (m_cpu run_m1)) (m_pos run_m1) (m_pc run_m1).
Definition run_m3 : mach := go_on run_t1 None 0 AtUser run_m2.
Definition run_m4 : mach := go_on run_t2 None 0 (Allocated 1) run_m3.
Definition run_m5 : mach := go_on run_t3 None 0 (Filled 1) run_m4.
Definition run_m6 : mach :=
  Mach run_t4 None (m_cpu run_m5) (m_pos run_m5) (<[1%nat := AtForkret]> (<[0%nat := AtUser]> (m_pc run_m5))).
Definition run_m7 : mach := go_on run_t4 (Some 0%nat) 0 InWait run_m6.
Definition run_m8 : mach := switch_out run_t5 0 0 AtWait run_m7.

Lemma run_reachable : rtc sstep boot run_m3 /\ rtc sstep run_m3 run_m8.
Proof.
  split.
  - eapply (rtc_l _ _ run_m1); [by apply (ss_acquire boot 0)|].
    eapply (rtc_l _ _ run_m2).
    { apply (ss_run run_m1 0 run_t1); [done | done | by apply Nat.ltb_lt | done | by vm_compute]. }
    eapply (rtc_l _ _ run_m3); [by apply (ss_resume run_m2 0 0) | apply rtc_refl].
  - eapply (rtc_l _ _ run_m4); [by apply (ss_alloc run_m3 0 0 1 run_t2); vm_compute|].
    eapply (rtc_l _ _ run_m5); [by apply (ss_fill run_m4 0 1 run_t3); vm_compute|].
    eapply (rtc_l _ _ run_m6); [by apply (ss_fork run_m5 0 1 run_t4); vm_compute|].
    eapply (rtc_l _ _ run_m7); [by apply (ss_wait run_m6 0 0); vm_compute|].
    eapply (rtc_l _ _ run_m8); [by apply (ss_wait_sleep run_m7 0 0 run_t5); vm_compute | apply rtc_refl].
Qed.

Lemma process_table_sound_witness : stateof (m_t run_m8) 1 = RUNNABLE /\
  exists q, p_parent (P (m_t run_m8) 1) = Some q /\ alive (stateof (m_t run_m8) q).
Proof.
  split; [vm_compute; reflexivity|].
  apply (process_table_sound run_m8).
  - destruct run_reachable as [H1 H2]. by etransitivity.
  - left. right. left. vm_compute. reflexivity.
  - discriminate.
Defined.

Lemma wait_misses_no_exit_witness : stateof (m_t run_m8) 1 <> ZOMBIE.
Proof.
  apply (wait_misses_no_exit run_m8 0 1); try (vm_compute; reflexivity).
  destruct run_reachable as [H1 H2]. by etransitivity.
Defined.

(** ** No process is passed over *)

(** The scheduler of a CPU that runs a process stands at that process. *)
Definition pos_inv (m : mach) : Prop := forall c i, m_cpu m c = Some i -> m_pos m c = i.
Lemma pos_inv_step m m' : sstep m m' -> pos_inv m -> pos_inv m'.
Proof.
  intros Hs H. destruct Hs; unfold pos_inv, switch_out, go_on in *; cbn [m_cpu m_pos] in *; try done;
    intros c' i'; rewrite ?fn_insert_dec; destruct (decide (c' = c)) as [->|]; try done; try congruence; apply H.
Qed.

Lemma upd_other i f t t' j : upd i f t = Ret tt t' -> j <> i -> stateof t' j = stateof t j.
Proof. intros E Hj. injection E as <-. unfold stateof, P. simpl. by rewrite list_lookup_alter_ne. Qed.

(** Only the scheduler takes a process out of RUNNABLE. *)
Lemma runnable_stays m m' j : sstep m m' -> minv m -> stateof (m_t m) j = RUNNABLE ->
  stateof (m_t m') j = RUNNABLE \/ stateof (m_t m') j = RUNNING.
Proof.
  intros Hs V Hj. pose proof V as [V1 V2 V3 V4 V5 V6 V7 V8 V9 V10 V11 V12 V13 V14 V15].
  destruct Hs as
    [ m c Hl Hc | m c Hl Hc Hp Hr | m c t' Hl Hc Hp Hr E | m c Hl Hc Hp
    | m c i pc' Hl Hc Hpc | m c i t' Hl Hc Hpc E | m c i t' Hl Hc Hpc E
    | m c i pc' t' Hl Hc Hpc E | m c i ch t' Hl Hc Hpc E | m ch t' Hl E | m c i pid r t' Hl Hc Hpc E
    | m c i t' Hc Hpc E | m c i t' Hl Hc Hpc Hini E | m c i Hl Hc Hpc
    | m c i k b t' Hl Hc Hpc Hw E | m c i b Hl Hc Hpc Hw Hk | m c i t' Hl Hc Hpc Hw Hk E
    | m c i np t' Hl Hc Hpc Hn E | m i np t' Hpc E | m i np t' Hpc E | m i np t' Hl Hpc E ];
    unfold switch_out, go_on; cbn [m_t]; try (by left).
  - destruct (P_upd _ _ _ _ (P_lt _ _ ltac:(rewrite Hr; done)) E) as (_ & _ & _ & F). unfold stateof in *. rewrite F.
    destruct (decide (j = m_pos m c)); [by right | by left].
  - left. rewrite (upd_other _ _ _ _ j E); [done | apply V3 in Hc; congruence..].
  - left. rewrite (upd_other _ _ _ _ j E); [done | apply V3 in Hc; congruence..].
  - left. rewrite (upd_other _ _ _ _ j E); [done | apply V3 in Hc; congruence..].
  - left. destruct (go_to_sleep_P _ _ _ _ _ _ _ _ V Hc E) as (_ & Hi & F). unfold stateof in *.
    rewrite F, decide_False by congruence. done.
  - left. destruct (P_wakeup1 _ _ _ E) as (_ & _ & _ & F). unfold stateof in *. rewrite F.
    destruct (woke_wake1 ch (P (m_t m) j)) as [->|[? _]]; [done | congruence].
  - left. destruct (P_kill _ _ _ _ E) as (_ & _ & _ & F). unfold stateof in *.
    destruct (F j) as [->|[->|[_ ->]]]; done.
  - left. rewrite (upd_other _ _ _ _ j E); [done | apply V3 in Hc; congruence..].
  - left. pose proof (V3 _ _ Hc) as Hi.
    destruct (P_exit i (m_t m) t' V1) as (_ & _ & _ & _ & _ & _ & F & _); [rewrite <- V1; apply P_lt; congruence | done |].
    unfold stateof in *. eapply woke_awake; [apply F; congruence|]. unfold adopted. by destruct (bool_decide _).
  - left. destruct (wait_scan_P _ _ _ _ Hw) as (Hz & _). rewrite (upd_other _ _ _ _ j E); congruence.
  - left. destruct (go_to_sleep_P _ _ _ _ _ _ _ _ V Hc E) as (_ & Hi & F). unfold stateof in *.
    rewrite F, decide_False by congruence. done.
  - left. destruct (P_alloc _ _ _ E) as (Hu & _ & _ & _ & _ & F). unfold stateof in *. rewrite F, decide_False by congruence. done.
  - left. destruct (V8 i np) as (_ & Hnp & _); [by rewrite Hpc|]. rewrite (upd_other _ _ _ _ j E); congruence.
  - left. destruct (V8 i np) as (_ & Hnp & _); [by rewrite Hpc|]. rewrite (upd_other _ _ _ _ j E); congruence.
  - left. destruct (V8 i np) as (_ & Hnp & _); [by rewrite Hpc|]. rewrite (upd_other _ _ _ _ j E); congruence.
Qed.

(** A run during which process [j] is not switched to. *)
Definition bypass (j : nat) (m m' : mach) : Prop := sstep m m' /\ stateof (m_t m') j <> RUNNING.

Lemma bypass_step j c m m' : (j < NPROC)%nat -> minv m -> pos_inv m -> stateof (m_t m) j = RUNNABLE -> (m_pos m c <= j)%nat ->
  bypass j m m' -> stateof (m_t m') j = RUNNABLE /\ (m_pos m' c <= j)%nat.
Proof.
  intros Hlt V Hpos Hj Hc [Hs Hnr]. destruct (runnable_stays m m' j Hs V Hj) as [Hr|]; [|done]. split; [done|].
  destruct Hs; unfold switch_out, go_on in *; cbn [m_pos m_t] in *; try done; rewrite fn_insert_dec;
    (destruct (decide _) as [<-|]; [|done]); try lia;
    try (assert (m_pos m c <> j) by congruence; lia);
    match goal with H : m_cpu m c = Some _ |- _ =>
      pose proof (Hpos _ _ H); pose proof (inv_cpu _ _ _ _ V _ _ H); assert (m_pos m c <> j) by congruence; lia end.
Qed.

(** No process is passed over.  While a process is RUNNABLE and no CPU
    switches to it, it stays RUNNABLE, and no scheduler whose loop has not come
    to it gets past it, whatever the other processes and CPUs do: from the start
    of a pass of any scheduler over the table, the process is switched to before
    that pass ends. *)
Theorem scheduler_passes_over_none m m' j c :
  rtc sstep boot m -> stateof (m_t m) j = RUNNABLE -> (m_pos m c <= j)%nat -> rtc (bypass j) m m' ->
  stateof (m_t m') j = RUNNABLE /\ (m_pos m' c <= j)%nat /\
  (m_lock m' = Some c -> m_cpu m' c = None -> m_pos m' c = j ->
     exists m'', sstep m' m'' /\ m_cpu m'' c = Some j /\ stateof (m_t m'') j = RUNNING).
Proof.
  intros Hb Hj Hc Hr. assert (minv m /\ pos_inv m) as [V Hp].
  { split; [by apply reachable_inv|]. apply (rtc_invariant sstep pos_inv boot m); [apply pos_inv_step | done | done]. }
  assert (j < NPROC)%nat as Hlt by (rewrite <- (inv_len _ _ _ _ V); apply P_lt; congruence).
  clear Hb. assert (minv m' /\ stateof (m_t m') j = RUNNABLE /\ (m_pos m' c <= j)%nat) as (V' & Hj' & Hc').
  { induction Hr as [m|m m1 m' Hs Hr IH]; [done|]. destruct (bypass_step j c m m1) as [Hj1 Hc1]; try done.
    destruct Hs as [Hs _]. apply IH; try done; [by eapply minv_step | by eapply pos_inv_step]. }
  split_and!; try done. intros Hl Hcpu Hpos.
  destruct (upd j (set_pstate RUNNING) (m_t m')) as [[] t'| |] eqn:E; try done.
  eexists. split; [eapply (ss_run m' c t'); try done; rewrite Hpos; done|].
  cbn [m_cpu m_t]. rewrite Hpos, fn_insert_dec, decide_True by done. split; [done|].
  destruct (P_upd j _ _ _ (P_lt _ _ ltac:(rewrite Hj'; done)) E) as (_ & _ & _ & F). unfold stateof. by rewrite F, decide_True.
Qed.

(** The child of the run above is switched to next. *)
Lemma scheduler_passes_over_none_witness :
  exists m'', sstep run_m8 m'' /\ m_cpu m'' 0%nat = Some 1%nat /\ stateof (m_t m'') 1 = RUNNING.
Proof.
  assert (rtc sstep boot run_m8) as H by (destruct run_reachable as [H1 H2]; by etransitivity).
  assert (m_pos run_m8 0 <= 1)%nat as Hp by (apply Nat.leb_le; vm_compute; reflexivity).
  assert (stateof (m_t run_m8) 1 = RUNNABLE) as Hs by (vm_compute; reflexivity).
  apply (scheduler_passes_over_none run_m8 run_m8 1 0 H Hs Hp (rtc_refl _ _)); vm_compute; reflexivity.
Defined.

(** ** kill of process 0 *)

(** [kill] does not ask whether the slot it finds is in use, and slots that
    are not used have identifier 0.  So [kill(0)] succeeds and marks the first
    free slot, allocproc hands out that very slot with the mark still on, and
    the next process that is created is killed before it starts. *)
Theorem kill_zero_kills_next_child t i :
  first_proc (is_state UNUSED) (pt_proc t) 0 = Some i -> first_proc (fun p => p_pid p =? 0) (pt_proc t) 0 = Some i ->
  exists t1 t2, kill 0 t = Ret 0 t1 /\ alloc_slot t1 = Ret (Some i) t2 /\
    stateof t2 i = EMBRYO /\ p_pid (P t2 i) = pt_nextpid t /\ p_killed (P t2 i) = true.
Proof.
  intros Hu Hz. pose proof (first_proc_spec (is_state UNUSED) (pt_proc t) 0) as Hs. rewrite Hu in Hs.
  destruct Hs as (p & Hp & Hun & _ & Hbefore). rewrite Nat.sub_0_r in Hp, Hbefore. apply bool_decide_eq_true in Hun.
  set (l1 := <[i := set_killed true p]> (pt_proc t)).
  assert (kill 0 t = Ret 0 (set_procs l1 t)) as Ek.
  { unfold kill. rewrite bind_gets, Hz. unfold bind, upd, modify, ret, set_procs. simpl. do 2 f_equal.
    rewrite (alter_insert_same _ (pt_proc t) i p) by done. fold l1. rewrite (alter_insert_same _ l1 i (set_killed true p)).
    - unfold is_state. simpl. rewrite bool_decide_false by congruence. unfold l1. by rewrite list_insert_insert_eq.
    - apply list_lookup_insert_eq. by eapply lookup_lt_Some. }
  assert (l1 !! i = Some (set_killed true p)) as H1 by (apply list_lookup_insert_eq; by eapply lookup_lt_Some).
  assert (first_proc (is_state UNUSED) l1 0 = Some i) as Ef.
  { apply first_proc_intro with (p := set_killed true p); [done | by apply bool_decide_eq_true |].
    intros k q Hk Hq. unfold l1 in Hq. rewrite list_lookup_insert_ne in Hq by lia. by eapply Hbefore. }
  destruct (alloc_slot (set_procs l1 t)) as [r t2| |] eqn:Ea; unfold alloc_slot in Ea; rewrite bind_gets in Ea; simpl in Ea;
    rewrite Ef in Ea; try done.
  assert (r = Some i) as -> by (unfold bind, upd, modify, gets, ret in Ea; by injection Ea as <-).
  exists (set_procs l1 t), t2. split; [done|].
  assert (alloc_slot (set_procs l1 t) = Ret (Some i) t2) as Ea' by (unfold alloc_slot; rewrite bind_gets; simpl; by rewrite Ef).
  split; [done|]. destruct (P_alloc _ _ _ Ea') as (_ & _ & _ & _ & _ & F). unfold stateof. rewrite F, decide_True by done.
  split_and!; try done. unfold P. simpl. by rewrite H1.
Qed.

Lemma kill_zero_kills_next_child_witness : exists t1 t2,
  kill 0 (m_t boot) = Ret 0 t1 /\ alloc_slot t1 = Ret (Some 1%nat) t2 /\ p_killed (P t2 1) = true.
Proof.
  destruct (kill_zero_kills_next_child (m_t boot) 1) as (t1 & t2 & H1 & H2 & _ & _ & H3);
    [vm_compute; reflexivity | vm_compute; reflexivity | by exists t1, t2].
Defined.
