(* ===== verification/Proc.v ===== *)
(** * Processes (proc.c)

    The whole operations on processes: allocproc, userinit, fork, exit, wait,
    growproc, the parts of sleep, yield, scheduler and forkret around the switch.
    They are built from the steps on the process table of Ptable.v, the memory
    and page-table operations, and the file operations.  The process that runs
    is the parameter [cur].  The trap frame and the context of a process are on
    its kernel stack, in the memory of the allocator. *)

From stdpp Require Import functions.
From S2P Require Import Prelude Mem CString Mmu Kalloc PageTable Uvm UvmCopy Disk Bio Log Pipe Blocks Balloc Inode Dir File.
From S2P Require Import Ptable.
#[local] Open Scope Z_scope.

Abbreviation NOFILE := 16%nat.
Abbreviation KSTACKSIZE := 4096.

(** Sizes and offsets of [struct trapframe] and [struct context]. *)
Abbreviation TF_SIZE := 76.
Abbreviation TF_EAX := 28.
Abbreviation TF_ES := 40.
Abbreviation TF_DS := 44.
Abbreviation TF_EIP := 56.
Abbreviation TF_CS := 60.
Abbreviation TF_EFLAGS := 64.
Abbreviation TF_ESP := 68.
Abbreviation TF_SS := 72.
Abbreviation CTX_SIZE := 20.
Abbreviation CTX_EIP := 16.

Abbreviation SEG_UCODE := 3.
Abbreviation SEG_UDATA := 4.
Abbreviation DPL_USER := 3.
Abbreviation FL_IF := 512.

Record kern (S : Type) := Kern { k_fk : fks S; k_pt : pts }.
Arguments Kern {S} k_fk k_pt.
Arguments k_fk {S} _.
Arguments k_pt {S} _.

Fixpoint upto_nul (l : list Z) : list Z :=
  match l with
  | [] => []
  | c :: l => if c =? 0 then [] else c :: upto_nul l
  end.
(** [safestrcpy] into an array: the loop, which may copy [n] more characters, and the
    store after it.  The loop moves on behind a terminator that it has copied, so the
    store is then a second one. *)
Fixpoint name_copy (n : nat) (s t : list Z) : list Z :=
  match n with
  | O => 0 :: drop 1 s
  | Datatypes.S n => let c := hd 0 t in c :: if c =? 0 then 0 :: drop 2 s else name_copy n (drop 1 s) (drop 1 t)
  end.
(** Into a 16-byte name. *)
Definition safestrcpy16 (s t : list Z) : list Z := name_copy 15 s t.

Section proc.
Context {S : Type} `{!BlockOps S}.
Context (devread devwrite : Z -> option (nat -> Z -> Z -> M (fsys S) Z)).
(** Symbols of the linker script, of the assembly files and of initcode. *)
Context (kend kdata trapret forkret_addr initcode_start initcode_size : Z).
(** Addresses of stack variables of the file system, and of the string "/". *)
Context (lookup_de namebuf slash_str : Z).

Definition pt {A} (m : M pts A) : M (kern S) A := zoom k_pt (fun t k => Kern (k_fk k) t) m.
Definition fk {A} (m : M (fks S) A) : M (kern S) A := zoom k_fk (fun f k => Kern f (k_pt k)) m.
Definition kmm {A} (m : M kst A) : M (kern S) A := fk (mm m).
(** A store to kernel memory. *)
Definition store (f : mem -> mem) : M (kern S) unit :=
  kmm (modify (fun st => Kalloc.set_mem (f (kmem_mem st)) st)).

(** Kernel memory as a process with page directory [pgdir] running in the kernel
    addresses it: below KERNBASE through its table. *)
Definition seen (m : mem) (pgdir : Z) : mem := fun a =>
  if KERNBASE <=? a then m a
  else match mapped m pgdir a with
       | Some e => m (Uvm.frame e + a mod 4096)
       | None => 0
       end.
(** What stores through that table leave: [w] is the view after them, of which
    the bytes at kernel addresses and the [n] bytes at the user address [ua] may
    have changed. *)
Fixpoint put_user (m w : mem) (pgdir ua : Z) (n : nat) : mem :=
  match n with
  | O => m
  | Datatypes.S n =>
      let m := put_user m w pgdir ua n in
      let a := ua + Z.of_nat n in
      match mapped m pgdir a with
      | Some e => <[Uvm.frame e + a mod 4096 := w a]> m
      | None => m
      end
  end.
Definition put_kernel (m w : mem) : mem := fun a => if KERNBASE <=? a then w a else m a.

(** File operations work on [fs_mem].  They run here with the view of the process
    for it, and what they stored goes back to the memory of the kernel.  They are
    operations that do not use the allocator. *)
Definition window {A} (v : mem -> mem) (back : mem -> mem -> mem) (m : M (fks S) A) : M (kern S) A :=
  fk (modify (fun f => set_fs (set_fmem (v (kmem_mem (fk_kst f))) (fk_fs f)) f)) ;;;
  r <- fk m ;;
  fk (modify (fun f => set_kst (Kalloc.set_mem (back (kmem_mem (fk_kst f)) (fs_mem (fk_fs f))) (fk_kst f)) f)) ;;;
  ret r.
Definition kfs {A} (m : M (fsys S) A) : M (kern S) A := window (fun km => km) (fun _ w => w) (fs m).
(** With the [n] bytes at [ua] of process [cur] as the destination. *)
Definition ufk {A} (cur : nat) (ua n : Z) (m : M (fks S) A) : M (kern S) A :=
  x <- pt (prc cur) ;;
  let d := p_pgdir x in
  window (fun km => seen km d) (fun km w => put_user (put_kernel km w) w d ua (Z.to_nat n)) m.
(** A memory operation that reads process [cur] and stores at kernel addresses. *)
Definition umm {A} (cur : nat) (m : M kst A) : M (kern S) A :=
  x <- pt (prc cur) ;;
  km <- kmm (gets kmem_mem) ;;
  kmm (modify (Kalloc.set_mem (seen km (p_pgdir x)))) ;;;
  r <- kmm m ;;
  kmm (modify (fun st => Kalloc.set_mem (put_kernel km (kmem_mem st)) st)) ;;;
  ret r.

(** The checks of [switchuvm]; the rest loads the task register and cr3. *)
Definition switchuvm (p : nat) : M (kern S) unit :=
  x <- pt (prc p) ;;
  panic_if (p_kstack x =? 0) "switchuvm: no kstack" ;;;
  panic_if (p_pgdir x =? 0) "switchuvm: no pgdir".

(** The context of a new process: it starts at forkret, which returns to trapret. *)
Definition make_context (m : mem) (tf : Z) : mem :=
  let sp := tf - 4 in
  let m := st32 m sp trapret in
  let sp := sp - CTX_SIZE in
  let m := memset m sp 0 CTX_SIZE in
  st32 m (sp + CTX_EIP) forkret_addr.

Definition allocproc : M (kern S) (option nat) :=
  p <- pt alloc_slot ;;
  match p with
  | None => ret None
  | Some p =>
      kstack <- kmm kalloc ;;
      pt (upd p (fun x => set_stack kstack (p_tf x) (p_context x) x)) ;;;
      if kstack =? 0 then
        pt (upd p (set_pstate UNUSED)) ;;; ret None
      else
        let tf := kstack + KSTACKSIZE - TF_SIZE in
        store (fun m => make_context m tf) ;;;
        pt (upd p (set_stack kstack tf (tf - 4 - CTX_SIZE))) ;;;
        ret (Some p)
  end.

(** The trap frame with which the first process enters user space. *)
Definition first_frame (m : mem) (tf : Z) : mem :=
  let m := memset m tf 0 TF_SIZE in
  let m := st16 m (tf + TF_CS) (Z.lor (Z.shiftl SEG_UCODE 3) DPL_USER) in
  let ds := Z.lor (Z.shiftl SEG_UDATA 3) DPL_USER in
  let m := st16 m (tf + TF_DS) ds in
  let m := st16 m (tf + TF_ES) ds in
  let m := st16 m (tf + TF_SS) ds in
  let m := st32 m (tf + TF_EFLAGS) FL_IF in
  let m := st32 m (tf + TF_ESP) PGSIZE in
  st32 m (tf + TF_EIP) 0.

(** [userinit]; without a slot or a stack it would go on with a null pointer, and
    the fault in the kernel ends in trap's panic. *)
Definition userinit : M (kern S) unit :=
  p <- allocproc ;;
  match p with
  | None => panic "trap"
  | Some p =>
      pt (modify (fun t => Pts (pt_proc t) (pt_nextpid t) (Some p))) ;;;
      pgdir <- kmm (setupkvm kend kdata) ;;
      pt (upd p (fun x => set_vm (p_sz x) pgdir x)) ;;;
      panic_if (pgdir =? 0) "userinit: out of memory?" ;;;
      kmm (inituvm pgdir initcode_start initcode_size) ;;;
      pt (upd p (set_vm PGSIZE pgdir)) ;;;
      x <- pt (prc p) ;;
      store (fun m => first_frame m (p_tf x)) ;;;
      pt (upd p (fun x => set_name (safestrcpy16 (p_name x) [105; 110; 105; 116; 99; 111; 100; 101]) x)) ;;;
      cwd <- kfs (namei 1 0 devread lookup_de 2 slash_str namebuf) ;;
      pt (upd p (set_cwd cwd)) ;;;
      pt (upd p (set_pstate RUNNABLE))
  end.

Definition growproc_cur (cur : nat) (n : Z) : M (kern S) Z :=
  x <- pt (prc cur) ;;
  r <- kmm (growproc kend (p_pgdir x) (p_sz x) n) ;;
  (if fst r =? 0 then pt (upd cur (set_vm (snd r) (p_pgdir x))) ;;; switchuvm cur else ret tt) ;;;
  ret (fst r).

(** The loop of fork over the open files. *)
Fixpoint dup_files (l : list (option nat)) (fd np : nat) : M (kern S) unit :=
  match l with
  | [] => ret tt
  | None :: l => dup_files l (fd + 1) np
  | Some f :: l =>
      f <- fk (filedup f) ;;
      pt (upd np (fun x => set_ofile (<[fd := Some f]> (p_ofile x)) x)) ;;;
      dup_files l (fd + 1) np
  end.
Definition fork (cur : nat) : M (kern S) Z :=
  np <- allocproc ;;
  match np with
  | None => ret (-1)
  | Some np =>
      x <- pt (prc cur) ;;
      pgdir <- kmm (copyuvm kend kdata (p_pgdir x) (p_sz x)) ;;
      pt (upd np (fun y => set_vm (p_sz y) pgdir y)) ;;;
      y <- pt (prc np) ;;
      if pgdir =? 0 then
        kmm (kfree kend (p_kstack y)) ;;;
        pt (upd np (fun y => set_stack 0 (p_tf y) (p_context y) y)) ;;;
        pt (upd np (set_pstate UNUSED)) ;;;
        ret (-1)
      else
        pt (upd np (set_vm (p_sz x) pgdir)) ;;;
        pt (upd np (set_parent (Some cur))) ;;;
        store (fun m => st32 (memmove m (p_tf y) (p_tf x) TF_SIZE) (p_tf y + TF_EAX) 0) ;;;
        dup_files (p_ofile x) 0 np ;;;
        match p_cwd x with
        | None => panic "trap"
        | Some d =>
            d <- fk (fs (idup d)) ;;
            pt (upd np (set_cwd (Some d))) ;;;
            pt (upd np (fun y => set_name (safestrcpy16 (p_name y) (p_name x)) y)) ;;;
            pt (upd np (set_pstate RUNNABLE)) ;;;
            ret (p_pid y)
        end
  end.

(** The loop of exit over the open files. *)
Fixpoint close_files (k fd cur : nat) : M (kern S) unit :=
  match k with
  | O => ret tt
  | Datatypes.S k =>
      x <- pt (prc cur) ;;
      (match p_ofile x !! fd with
       | Some (Some f) =>
           fk (fileclose (p_pid x) kend f) ;;;
           pt (upd cur (fun x => set_ofile (<[fd := None]> (p_ofile x)) x))
       | _ => ret tt
       end) ;;;
      close_files k (fd + 1) cur
  end.
(** [exit], up to the call of [sched] from which it does not come back. *)
Definition exit (cur : nat) : M (kern S) unit :=
  init <- pt (gets pt_init) ;;
  panic_if (bool_decide (init = Some cur)) "init exiting" ;;;
  close_files NOFILE 0 cur ;;;
  x <- pt (prc cur) ;;
  fk (fs (blk bk_begin_op)) ;;;
  (match p_cwd x with
   | None => panic "trap"
   | Some d => fk (fs (iput (p_pid x) d))
   end) ;;;
  fk (fs (blk bk_end_op)) ;;;
  pt (upd cur (set_cwd None)) ;;;
  pt (exit_table cur).

(** One round of the loop of [wait]: the pid of a child that has exited, -1, or
    sleep. *)
Definition wait_round (cur : nat) : M (kern S) (option Z) :=
  l <- pt (gets pt_proc) ;;
  x <- pt (prc cur) ;;
  match wait_scan l 0 cur false with
  | (Some i, _) =>
      p <- pt (prc i) ;;
      kmm (kfree kend (p_kstack p)) ;;;
      pt (upd i (fun p => set_stack 0 (p_tf p) (p_context p) p)) ;;;
      kmm (freevm kend (p_pgdir p)) ;;;
      pt (reap i) ;;;
      ret (Some (p_pid p))
  | (None, havekids) =>
      if negb havekids || p_killed x then ret (Some (-1))
      else pt (go_to_sleep cur (ProcChan cur)) ;;; ret None
  end.

(** [sleep] and [yield] up to the switch, and what follows it. *)
Definition sleep_begin (cur : option nat) (c : pchan) (lk : bool) : M (kern S) unit :=
  match cur with
  | None => panic "sleep"
  | Some cur => panic_if (negb lk) "sleep without lk" ;;; pt (go_to_sleep cur c)
  end.
Definition sleep_end (cur : nat) : M (kern S) unit := pt (tidy_up cur).
Definition yield (cur : nat) : M (kern S) unit := pt (upd cur (set_pstate RUNNABLE)).
Definition wakeup (c : pchan) : M (kern S) unit := pt (wakeup1 c).
End proc.

(** The checks of [sched], on the processor that calls it: whether it holds
    ptable.lock, its depth of pushcli, the state of the process, and the
    processor flags. *)
Definition sched_checks {S} (holding_lock : bool) (ncli : Z) (s : procstate) (eflags : Z) : M S unit :=
  panic_if (negb holding_lock) "sched ptable.lock" ;;;
  panic_if (negb (ncli =? 1)) "sched locks" ;;;
  panic_if (bool_decide (s = RUNNING)) "sched running" ;;;
  panic_if (negb (Z.land eflags FL_IF =? 0)) "sched interruptible".
