(* ===== verification/Exec.v ===== *)
(** * exec (exec.c, and loaduvm of vm.c)

    File contents go to kernel memory: to the ELF headers on the stack of exec
    and to the pages of the new image.  The path and the arguments are read
    through the page table of the process that runs ([seen]).  Messages to the
    console are left out. *)

From stdpp Require Import functions.
From S2P Require Import Prelude Mem CString Mmu Kalloc PageTable Uvm UvmCopy Disk Bio Log Pipe Blocks Balloc Inode Dir File.
From S2P Require Import Ptable Proc.
#[local] Open Scope Z_scope.

Abbreviation MAXARG := 32.
Abbreviation ELF_MAGIC := 1179403647.
Abbreviation ELF_PROG_LOAD := 1.
Abbreviation ELFHDR_SIZE := 52.
Abbreviation PROGHDR_SIZE := 32.

(** Fields of [struct elfhdr] and [struct proghdr]. *)
Definition elf_magic (m : mem) (elf : Z) : Z := ld32 m elf.
Definition elf_entry (m : mem) (elf : Z) : Z := ld32 m (elf + 24).
Definition elf_phoff (m : mem) (elf : Z) : Z := ld32 m (elf + 28).
Definition elf_phnum (m : mem) (elf : Z) : Z := m (elf + 44) + 256 * m (elf + 45).
Definition ph_type (m : mem) (ph : Z) : Z := ld32 m ph.
Definition ph_off (m : mem) (ph : Z) : Z := ld32 m (ph + 4).
Definition ph_vaddr (m : mem) (ph : Z) : Z := ld32 m (ph + 8).
Definition ph_filesz (m : mem) (ph : Z) : Z := ld32 m (ph + 16).
Definition ph_memsz (m : mem) (ph : Z) : Z := ld32 m (ph + 20).

(** The name of the program: what follows the last slash of the path. *)
Fixpoint last_elem (last l : list Z) : list Z :=
  match l with
  | [] => last
  | c :: l => last_elem (if c =? SLASH then l else last) l
  end.

Section exec.
Context {S : Type} `{!BlockOps S}.
Context (devread devwrite : Z -> option (nat -> Z -> Z -> M (fsys S) Z)).
Context (kend kdata : Z).
(** Addresses of stack variables: of dirlookup and namei, and of [elf], [ph] and
    [ustack] in exec. *)
Context (lookup_de namebuf elf ph ustack : Z).
(** The running process. *)
Context (cur : nat).

Definition kmem : M (kern S) mem := gets (fun k => kmem_mem (fk_kst (k_fk k))).

(** Memory as the running process addresses it. *)
Definition user_mem : M (kern S) mem := x <- pt (prc cur) ;; m <- kmem ;; ret (seen m (p_pgdir x)).

Fixpoint loaduvm_loop (fuel : nat) (pgdir addr : Z) (ip : nat) (offset i sz : Z) : M (kern S) Z :=
  match fuel with
  | O => diverge
  | Datatypes.S fuel =>
      if i <? sz then
        pte <- kmm (walkpgdir pgdir (u32 (addr + i)) false) ;;
        panic_if (pte =? 0) "loaduvm: address should exist" ;;;
        e <- kmm (load32 pte) ;;
        let pa := PTE_ADDR e in
        let n := if sz - i <? PGSIZE then sz - i else PGSIZE in
        r <- kfs (readi devread ip (P2V pa) (u32 (offset + i)) n) ;;
        if negb (r =? n) then ret (-1) else loaduvm_loop fuel pgdir addr ip offset (u32 (i + PGSIZE)) sz
      else ret 0
  end.
Definition loaduvm (pgdir addr : Z) (ip : nat) (offset sz : Z) : M (kern S) Z :=
  panic_if (negb (addr mod PGSIZE =? 0)) "loaduvm: addr must be page aligned" ;;;
  loaduvm_loop (Z.to_nat (sz / PGSIZE + 2)) pgdir addr ip offset 0 sz.

(** The loop over the program headers; [None] is [goto bad]. *)
Fixpoint load_segments (k : nat) (ip : nat) (pgdir off sz : Z) : M (kern S) (option Z) :=
  match k with
  | O => ret (Some sz)
  | Datatypes.S k =>
      r <- kfs (readi devread ip ph off PROGHDR_SIZE) ;;
      if negb (r =? PROGHDR_SIZE) then ret None
      else
        m <- kmem ;;
        if negb (ph_type m ph =? ELF_PROG_LOAD) then load_segments k ip pgdir (u32 (off + PROGHDR_SIZE)) sz
        else if ph_memsz m ph <? ph_filesz m ph then ret None
        else if u32 (ph_vaddr m ph + ph_memsz m ph) <? ph_vaddr m ph then ret None
        else
          sz <- kmm (allocuvm kend pgdir sz (u32 (ph_vaddr m ph + ph_memsz m ph))) ;;
          if sz =? 0 then ret None
          else if negb (ph_vaddr m ph mod PGSIZE =? 0) then ret None
          else
            r <- loaduvm pgdir (ph_vaddr m ph) ip (ph_off m ph) (ph_filesz m ph) ;;
            if r <? 0 then ret None else load_segments k ip pgdir (u32 (off + PROGHDR_SIZE)) sz
  end.

(** The loop over the arguments, strings in the memory of the process that runs:
    the pushes, and the addresses that go to [ustack]. *)
Fixpoint push_args (fuel : nat) (argv : list Z) (argc pgdir sp : Z) (acc : list Z) : M (kern S) (option (Z * list Z)) :=
  match argv with
  | [] => ret (Some (sp, acc))
  | a :: argv =>
      if MAXARG <=? argc then ret None
      else
        m <- user_mem ;;
        match strlen fuel m a with
        | None => diverge
        | Some len =>
            let sp := Z.land (u32 (sp - (len + 1))) (u32 (Z.lnot 3)) in
            r <- umm cur (copyout pgdir sp a (len + 1)) ;;
            if r <? 0 then ret None else push_args fuel argv (argc + 1) pgdir sp (acc ++ [sp])
        end
  end.

Fixpoint put_words (m : mem) (a : Z) (l : list Z) : mem :=
  match l with
  | [] => m
  | w :: l => put_words (st32 m a w) (a + 4) l
  end.

(** [bad:] with the inode locked and in a transaction, or neither. *)
Definition exec_bad (pgdir : Z) (ip : option nat) (pid : Z) : M (kern S) Z :=
  (if pgdir =? 0 then ret tt else kmm (freevm kend pgdir)) ;;;
  (match ip with
   | Some ip => fk (fs (iunlockput pid ip)) ;;; fk (fs (blk bk_end_op))
   | None => ret tt
   end) ;;;
  ret (-1).

(** From the allocation of the stack on: the new image is complete but for it. *)
Definition exec_stack (fuel : nat) (pgdir sz entry path : Z) (argv : list Z) (pid : Z) : M (kern S) Z :=
  let sz := PGROUNDUP sz in
  sz <- kmm (allocuvm kend pgdir sz (u32 (sz + 2 * PGSIZE))) ;;
  if sz =? 0 then exec_bad pgdir None pid
  else
    kmm (clearpteu pgdir (u32 (sz - 2 * PGSIZE))) ;;;
    r <- push_args fuel argv 0 pgdir sz [] ;;
    match r with
    | None => exec_bad pgdir None pid
    | Some (sp, args) =>
        let argc := Z.of_nat (length args) in
        store (fun m => put_words m ustack ([4294967295; argc; u32 (sp - (argc + 1) * 4)] ++ args ++ [0])) ;;;
        let sp := u32 (sp - (3 + argc + 1) * 4) in
        r <- kmm (copyout pgdir sp ustack ((3 + argc + 1) * 4)) ;;
        if r <? 0 then exec_bad pgdir None pid
        else
          x <- pt (prc cur) ;;
          m <- user_mem ;;
          let str := upto_nul (bytes_at m path fuel) in
          pt (upd cur (fun x => set_name (safestrcpy16 (p_name x) (last_elem str str)) x)) ;;;
          pt (upd cur (set_vm sz pgdir)) ;;;
          store (fun m => st32 (st32 m (p_tf x + TF_EIP) entry) (p_tf x + TF_ESP) sp) ;;;
          switchuvm cur ;;;
          kmm (freevm kend (p_pgdir x)) ;;;
          ret 0
    end.

(** [exec]; [argv] is the vector up to its null pointer, and [fuel] is more than
    the length of each string. *)
Definition exec (fuel : nat) (path : Z) (argv : list Z) : M (kern S) Z :=
  x <- pt (prc cur) ;;
  (* userinit and fork give a process its working directory *)
  let cwd := default 0%nat (p_cwd x) in
  fk (fs (blk bk_begin_op)) ;;;
  ip <- ufk cur 0 0 (fs (namei (p_pid x) cwd devread lookup_de (fuel + 2) path namebuf)) ;;
  match ip with
  | None => fk (fs (blk bk_end_op)) ;;; ret (-1)
  | Some ip =>
      fk (fs (ilock (p_pid x) (Some ip))) ;;;
      r <- kfs (readi devread ip elf 0 ELFHDR_SIZE) ;;
      if negb (r =? ELFHDR_SIZE) then exec_bad 0 (Some ip) (p_pid x)
      else
        m <- kmem ;;
        if negb (elf_magic m elf =? ELF_MAGIC) then exec_bad 0 (Some ip) (p_pid x)
        else
          pgdir <- kmm (setupkvm kend kdata) ;;
          if pgdir =? 0 then exec_bad 0 (Some ip) (p_pid x)
          else
            m <- kmem ;;
            sz <- load_segments (Z.to_nat (elf_phnum m elf)) ip pgdir (elf_phoff m elf) 0 ;;
            match sz with
            | None => exec_bad pgdir (Some ip) (p_pid x)
            | Some sz =>
                fk (fs (iunlockput (p_pid x) ip)) ;;;
                fk (fs (blk bk_end_op)) ;;;
                m <- kmem ;;
                exec_stack fuel pgdir sz (elf_entry m elf) path argv (p_pid x)
            end
  end.
End exec.
