(* ===== verification/Syscall.v ===== *)
(** * System call arguments (syscall.c, sysfile.c)

    The arguments of a system call are words on the user stack.  The functions
    here read them from the memory of the process, of which the bytes below
    [sz] are its own, and check them.  A result through a pointer is the value
    of an option, [None] where the C function returns -1. *)

From S2P Require Import Prelude Mem CString.
#[local] Open Scope Z_scope.

(** [fetchint]: [*ip] is an int. *)
Definition fetchint (m : mem) (sz addr : Z) : option Z :=
  if (sz <=? addr) || (sz <? u32 (addr + 4)) then None else Some (s32 (ld32 m addr)).

(** [for(s = *pp; s < ep; s++)] with [k] addresses to go. *)
Fixpoint fetchstr_loop (m : mem) (k : nat) (s : Z) : option Z :=
  match k with
  | O => None
  | S k => if m s =? 0 then Some s else fetchstr_loop m k (s + 1)
  end.
(** The pointer and the length of the string. *)
Definition fetchstr (m : mem) (sz addr : Z) : option (Z * Z) :=
  if sz <=? addr then None
  else match fetchstr_loop m (Z.to_nat (sz - addr)) addr with
       | Some s => Some (addr, s - addr)
       | None => None
       end.

Definition argint (m : mem) (sz esp n : Z) : option Z := fetchint m sz (u32 (esp + 4 + 4 * n)).

Definition argptr (m : mem) (sz esp n size : Z) : option Z :=
  match argint m sz esp n with
  | None => None
  | Some i =>
      let p := u32 i in
      if (size <? 0) || (sz <=? p) || (sz <? u32 (p + size)) then None else Some p
  end.

Definition argstr (m : mem) (sz esp n : Z) : option (Z * Z) :=
  match argint m sz esp n with
  | None => None
  | Some addr => fetchstr m sz (u32 addr)
  end.

(** [argfd]: the descriptor and the file. *)
Definition argfd (m : mem) (sz esp : Z) (ofile : list (option nat)) (n : Z) : option (nat * nat) :=
  match argint m sz esp n with
  | None => None
  | Some fd =>
      if (fd <? 0) || (16 <=? fd) then None
      else match ofile !! Z.to_nat fd with
           | Some (Some f) => Some (Z.to_nat fd, f)
           | _ => None
           end
  end.

(** The scan of [fdalloc]. *)
Fixpoint unused_fd {A} (l : list (option A)) (fd : nat) : option nat :=
  match l with
  | [] => None
  | None :: _ => Some fd
  | Some _ :: l => unused_fd l (fd + 1)
  end.

(** The loop of sys_exec that collects the argument vector. *)
Fixpoint exec_args (m : mem) (sz uargv : Z) (k : nat) (i : Z) (acc : list Z) : option (list Z) :=
  match k with
  | O => None
  | S k =>
      match fetchint m sz (u32 (uargv + 4 * i)) with
      | None => None
      | Some uarg =>
          if uarg =? 0 then Some acc
          else match fetchstr m sz (u32 uarg) with
               | None => None
               | Some (p, _) => exec_args m sz uargv k (i + 1) (acc ++ [p])
               end
      end
  end.

(** ** What is accepted *)

Lemma fetchint_ok m sz addr : mem_ok m -> 0 <= sz <= 2147483648 -> 0 <= addr < W32 ->
  fetchint m sz addr = if addr + 4 <=? sz then Some (s32 (ld32 m addr)) else None.
Proof.
  intros Hm Hsz Ha. unfold fetchint, u32. destruct (Z.leb_spec (addr + 4) sz), (Z.leb_spec sz addr); simpl; try lia; try done.
  - destruct (Z.ltb_spec sz ((addr + 4) mod W32)); [zlia | done].
  - destruct (Z.ltb_spec sz ((addr + 4) mod W32)); [done | zlia].
Qed.

Lemma u32_s32 x : 0 <= x < W32 -> u32 (s32 x) = x.
Proof. intros H. unfold s32, u32. rewrite (Z.mod_small x) by done. destruct (Z.ltb_spec x 2147483648); zlia. Qed.

Lemma fetchstr_loop_spec m k s :
  match fetchstr_loop m k s with
  | Some e => s <= e < s + Z.of_nat k /\ m e = 0 /\ forall x, s <= x < e -> m x <> 0
  | None => forall x, s <= x < s + Z.of_nat k -> m x <> 0
  end.
Proof.
  revert s. induction k as [|k IH]; intros s; simpl; [intros; lia|].
  destruct (Z.eqb_spec (m s) 0) as [E|E]; [split_and!; [lia | lia | done | intros; lia]|].
  specialize (IH (s + 1)). destruct (fetchstr_loop m k (s + 1)) as [e|].
  - destruct IH as (H1 & H2 & H3). split_and!; try lia; try done. intros x Hx.
    destruct (decide (x = s)) as [->|]; [done|]. apply H3. lia.
  - intros x Hx. destruct (decide (x = s)) as [->|]; [done|]. apply IH. lia.
Qed.

Lemma cstr_intro m p e : p <= e -> m e = 0 -> (forall x, p <= x < e -> m x <> 0) -> cstr m p (bytes_at m p (Z.to_nat (e - p))).
Proof.
  intros Hpe He Hnz. split_and!.
  - by rewrite length_bytes_at.
  - apply Forall_lookup. intros i b Hb. assert (i < Z.to_nat (e - p))%nat as Hi.
    { rewrite <- (length_bytes_at m p (Z.to_nat (e - p))). by eapply lookup_lt_Some. }
    rewrite bytes_at_lookup in Hb by done. injection Hb as <-. apply Hnz. lia.
  - rewrite length_bytes_at. rewrite <- He. f_equal. lia.
Qed.

(** C30: the checks on system-call arguments.  For a process below the kernel,
    [argptr] accepts exactly the pointers for which the whole block lies in the
    process, and [argstr] exactly those that point to a NUL-terminated string in
    it, whose length it gives; the additions in the checks do not wrap around
    for any argument. *)
Theorem syscall_arguments_checked m sz esp n size :
  mem_ok m -> 0 <= sz <= 2147483648 -> 0 <= esp < W32 -> -2147483648 <= size < 2147483648 ->
  let a := u32 (esp + 4 + 4 * n) in
  let w := ld32 m a in
  (forall p, argptr m sz esp n size = Some p <->
     a + 4 <= sz /\ p = w /\ 0 <= size /\ w < sz /\ w + size <= sz) /\
  (forall p len, argstr m sz esp n = Some (p, len) <->
     a + 4 <= sz /\ p = w /\ 0 <= len /\ w + len < sz /\ cstr m w (bytes_at m w (Z.to_nat len))).
Proof.
  intros Hm Hsz He Hs a w. assert (0 <= a < W32) as Ha by apply u32_range.
  assert (0 <= w < W32) as Hw by (by apply ld32_range).
  assert (argint m sz esp n = if a + 4 <=? sz then Some (s32 w) else None) as E by (by apply fetchint_ok).
  unfold argptr, argstr. rewrite E. destruct (Z.leb_spec (a + 4) sz) as [Hin|Hout].
  2: { split; intros; (split; [done|]); intros (H & _); lia. }
  rewrite u32_s32 by done. split.
  - intros p. destruct (Z.ltb_spec size 0), (Z.leb_spec sz w); cbn [orb]; try (split; [done|]; intros; lia).
    destruct (Z.ltb_spec sz (u32 (w + size))); unfold u32 in *.
    + split; [done|]. intros. zlia.
    + split; [intros [= <-]; zlia | intros (_ & -> & _); done].
  - intros p len. unfold fetchstr. destruct (Z.leb_spec sz w) as [Hge|Hlt]; [split; [done | intros; lia]|].
    pose proof (fetchstr_loop_spec m (Z.to_nat (sz - w)) w) as H. destruct (fetchstr_loop m (Z.to_nat (sz - w)) w) as [e|].
    + destruct H as (H1 & H2 & H3). split.
      * intros [= <- <-]. split_and!; try lia. apply cstr_intro; done || lia.
      * intros (_ & -> & Hl & Hlen & Hc). do 2 f_equal. destruct Hc as (_ & Hnz & H0). rewrite length_bytes_at, Z2Nat.id in H0 by lia.
        destruct (Z.lt_trichotomy (w + len) e) as [?|[?|?]]; [by destruct (H3 (w + len)); [lia|] | lia |].
        exfalso. rewrite Forall_lookup in Hnz. apply (Hnz (Z.to_nat (e - w)) 0); [|done].
        rewrite bytes_at_lookup by lia. rewrite Z2Nat.id by lia. f_equal. rewrite <- H2. f_equal. lia.
    + split; [done|]. intros (_ & -> & Hl & Hlen & (_ & _ & H0)). rewrite length_bytes_at, Z2Nat.id in H0 by lia.
      exfalso. apply (H (w + len)); [lia | done].
Qed.

(** A stack with the pointer 100 to a string in a process of 4096 bytes. *)
Lemma syscall_arguments_checked_witness :
  let m := st32 (fun _ => 0) 4000 100 in
  argstr m 4096 3996 0 = Some (100, 0) /\ argptr m 4096 3996 0 3996 = Some 100.
Proof.
  intros m. assert (mem_ok m) as Hm by (apply st32_ok; intros a; lia).
  destruct (syscall_arguments_checked m 4096 3996 0 3996 Hm ltac:(lia) ltac:(lia) ltac:(lia)) as [H1 H2].
  split.
  - apply H2. vm_compute. repeat split; try discriminate. by apply Forall_nil.
  - apply H1. vm_compute. repeat split; discriminate.
Defined.
