(* ===== verification/ExecLaws.v ===== *)
(** * exec commits at the end

    The process table through exec: a failed exec leaves it as it was, and a
    successful one replaces the image and the name of the process that called
    it, and nothing else. *)

From stdpp Require Import functions.
From S2P Require Import Prelude Mem CString Mmu Kalloc PageTable Uvm UvmCopy Disk Bio Log Pipe Blocks Balloc Inode Dir File.
From S2P Require Import FileLaws Ptable Proc Exec.
#[local] Open Scope Z_scope.

(** Operations that return with the process table they started with. *)
Definition keeps_pt {S A} (m : M (kern S) A) : Prop :=
  forall k r k', m k = Ret r k' -> k_pt k' = k_pt k.

Create HintDb keeps.

Section keeps.
Context {S : Type}.

Lemma keeps_bind {A B} (m : M (kern S) A) (f : A -> M (kern S) B) :
  keeps_pt m -> (forall a, keeps_pt (f a)) -> keeps_pt (bind m f).
Proof using.
  intros Hm Hf k r k' H. unfold bind in H. destruct (m k) as [a k1| |] eqn:E; try done.
  rewrite (Hf a _ _ _ H). by apply (Hm _ _ _ E).
Qed.
Lemma keeps_ret {A} (a : A) : keeps_pt (S:=S) (ret a).
Proof using. intros k r k' H. by injection H as _ <-. Qed.
Lemma keeps_gets {A} (f : kern S -> A) : keeps_pt (gets f).
Proof using. intros k r k' H. by injection H as _ <-. Qed.
Lemma keeps_diverge {A} : keeps_pt (S:=S) (A:=A) diverge.
Proof using. done. Qed.
Lemma keeps_panic_if b msg : keeps_pt (S:=S) (panic_if b msg).
Proof using. unfold panic_if. destruct b; [done | apply keeps_ret]. Qed.
Lemma keeps_fk {A} (m : M (fks S) A) : keeps_pt (fk m).
Proof using. intros k r k' H. unfold fk, zoom in H. destruct (m (k_fk k)); try done. by injection H as _ <-. Qed.
Lemma keeps_kmm {A} (m : M kst A) : keeps_pt (S:=S) (kmm m).
Proof using. apply keeps_fk. Qed.
Lemma keeps_prc i : keeps_pt (S:=S) (pt (prc i)).
Proof using. intros k r k' H. unfold pt, zoom, prc, gets in H. injection H as _ <-. by destruct k. Qed.
End keeps.
#[export] Hint Resolve keeps_bind keeps_ret keeps_gets keeps_diverge keeps_panic_if keeps_fk keeps_kmm keeps_prc : keeps.

(** Case analysis on what an operation decides, up to the steps above. *)
Ltac keeps :=
  repeat (first [ progress eauto with keeps
                | apply keeps_bind; [|intros ?]
                | match goal with |- keeps_pt (if ?b then _ else _) => destruct b end
                | match goal with |- keeps_pt (match ?o with _ => _ end) => destruct o end ]).

Section exec.
Context {S : Type} `{!BlockOps S}.
Context (devread : Z -> option (nat -> Z -> Z -> M (fsys S) Z)).
Context (kend kdata lookup_de namebuf elf ph ustack : Z) (cur : nat).

Lemma keeps_window {A} v back (m : M (fks S) A) : keeps_pt (window v back m).
Proof using. unfold window. keeps. Qed.
Hint Resolve keeps_window : keeps.
Lemma keeps_kfs {A} (m : M (fsys S) A) : keeps_pt (kfs m).
Proof using. apply keeps_window. Qed.
Lemma keeps_ufk {A} ua n (m : M (fks S) A) : keeps_pt (ufk cur ua n m).
Proof using. unfold ufk. keeps. Qed.
Lemma keeps_umm {A} (m : M kst A) : keeps_pt (S:=S) (umm cur m).
Proof using. unfold umm. keeps. Qed.
Lemma keeps_store f : keeps_pt (S:=S) (store f).
Proof using. apply keeps_kmm. Qed.
Lemma keeps_kmem : keeps_pt (S:=S) kmem.
Proof using. apply keeps_gets. Qed.
Hint Resolve keeps_kfs keeps_ufk keeps_umm keeps_store keeps_kmem : keeps.
Lemma keeps_user_mem : keeps_pt (S:=S) (user_mem cur).
Proof using. unfold user_mem. keeps. Qed.
Lemma keeps_switchuvm p : keeps_pt (S:=S) (switchuvm p).
Proof using. unfold switchuvm. keeps. Qed.
Hint Resolve keeps_user_mem keeps_switchuvm : keeps.

Lemma keeps_loaduvm pgdir addr ip offset sz : keeps_pt (loaduvm devread pgdir addr ip offset sz).
Proof using.
  unfold loaduvm. apply keeps_bind; [keeps|]. intros _. generalize (Z.to_nat (sz / PGSIZE + 2)), 0.
  intros fuel. induction fuel as [|fuel IH]; intros i; cbn [loaduvm_loop]; keeps.
Qed.
Hint Resolve keeps_loaduvm : keeps.
Lemma keeps_load_segments k ip pgdir off sz : keeps_pt (load_segments devread kend ph k ip pgdir off sz).
Proof using. revert off sz. induction k as [|k IH]; intros off sz; cbn [load_segments]; keeps. Qed.
Lemma keeps_push_args fuel argv argc pgdir sp acc : keeps_pt (S:=S) (push_args cur fuel argv argc pgdir sp acc).
Proof using. revert argc sp acc. induction argv as [|a argv IH]; intros argc sp acc; cbn [push_args]; keeps. Qed.
Lemma keeps_exec_bad pgdir ip pid : keeps_pt (exec_bad kend pgdir ip pid).
Proof using. unfold exec_bad. keeps. Qed.
Hint Resolve keeps_load_segments keeps_push_args keeps_exec_bad : keeps.

(** How exec may end. *)
Definition committed (k : kern S) (r : Z) (k' : kern S) : Prop :=
  (r = -1 /\ k_pt k' = k_pt k) \/
  (r = 0 /\ exists nm sz pgdir, sz <> 0 /\ pgdir <> 0 /\
     k_pt k' = set_procs (alter (fun x => set_vm sz pgdir (set_name nm x)) cur (pt_proc (k_pt k))) (k_pt k)).
Definition commits (m : M (kern S) Z) : Prop := forall k r k', m k = Ret r k' -> committed k r k'.

Lemma commits_bind {A} (m : M (kern S) A) f : keeps_pt m -> (forall a, commits (f a)) -> commits (bind m f).
Proof using.
  intros Hm Hf k r k' H. unfold bind in H. destruct (m k) as [a k1| |] eqn:E; try done.
  specialize (Hf a _ _ _ H). unfold committed in *. by rewrite (Hm _ _ _ E) in Hf.
Qed.
Lemma commits_fail (k : unit -> M (kern S) Z) m : keeps_pt m -> (forall u, k u = ret (-1)) -> commits (bind m k).
Proof using.
  intros Hm Hk. apply commits_bind; [done|]. intros u k0 r k' H. rewrite Hk in H. injection H as <- <-. by left.
Qed.
Lemma commits_exec_bad pgdir ip pid : commits (exec_bad kend pgdir ip pid).
Proof using.
  unfold exec_bad. apply commits_bind; [keeps|]. intros _. apply commits_fail; [|done]. keeps.
Qed.

(** The commit itself. *)
Lemma commits_image nm sz pgdir (m : M (kern S) Z) :
  sz <> 0 -> pgdir <> 0 -> keeps_pt m -> (forall k r k', m k = Ret r k' -> r = 0) ->
  commits (pt (upd cur (fun x => set_name (nm x) x)) ;;; pt (upd cur (set_vm sz pgdir)) ;;; m).
Proof using.
  intros Hsz Hpg Hm H0 k r k' H. unfold bind, pt, zoom, upd, modify in H. simpl in H.
  right. split; [by eapply H0|].
  exists (nm (default zero_proc (pt_proc (k_pt k) !! cur))), sz, pgdir. split_and!; [done..|].
  rewrite (Hm _ _ _ H). simpl. unfold set_procs. simpl. f_equal. apply list_eq. intros i.
  destruct (decide (i = cur)) as [->|Hne].
  - rewrite !list_lookup_alter_eq. by destruct (pt_proc (k_pt k) !! cur).
  - by rewrite !list_lookup_alter_ne.
Qed.

Lemma commits_exec_stack fuel pgdir sz entry path argv pid :
  pgdir <> 0 -> commits (exec_stack kend ustack cur fuel pgdir sz entry path argv pid).
Proof using.
  intros Hpg. unfold exec_stack. apply commits_bind; [keeps|]. intros sz'.
  destruct (Z.eqb_spec sz' 0) as [|Hsz]; [apply commits_exec_bad|].
  apply commits_bind; [keeps|]. intros _. apply commits_bind; [keeps|]. intros [[sp args]|]; [|apply commits_exec_bad].
  apply commits_bind; [keeps|]. intros _. apply commits_bind; [keeps|]. intros r.
  destruct (r <? 0); [apply commits_exec_bad|].
  apply commits_bind; [keeps|]. intros x. apply commits_bind; [keeps|]. intros m.
  apply (commits_image (fun x => safestrcpy16 (p_name x) _)); [done | done | keeps|].
  intros k r0 k' H. do 3 (apply bind_ret_inv in H as (? & ? & _ & H)). by injection H.
Qed.

(** [exec] replaces the image of the process at the end or not at all.  When
    it fails the process table is as it was; when it succeeds the only change is
    that the process that called it has a new page directory, a new size and a
    new name.  In particular the open files, the working directory, the
    identifier and the parent are kept. *)
Theorem exec_commits_last fuel path argv k r k' :
  exec devread kend kdata lookup_de namebuf elf ph ustack cur fuel path argv k = Ret r k' -> committed k r k'.
Proof using.
  revert k r k'. change (commits (exec devread kend kdata lookup_de namebuf elf ph ustack cur fuel path argv)).
  unfold exec. apply commits_bind; [keeps|]. intros x. apply commits_bind; [keeps|]. intros _.
  apply commits_bind; [keeps|]. intros [ip|]; [|apply commits_fail; [keeps | done]].
  apply commits_bind; [keeps|]. intros _. apply commits_bind; [keeps|]. intros r.
  destruct (negb _); [apply commits_exec_bad|]. apply commits_bind; [keeps|]. intros m.
  destruct (negb _); [apply commits_exec_bad|]. apply commits_bind; [keeps|]. intros pgdir.
  destruct (Z.eqb_spec pgdir 0) as [|Hpg]; [apply commits_exec_bad|].
  apply commits_bind; [keeps|]. intros m'. apply commits_bind; [keeps|]. intros [sz|]; [|apply commits_exec_bad].
  apply commits_bind; [keeps|]. intros _. apply commits_bind; [keeps|]. intros _.
  apply commits_bind; [keeps|]. intros m''. by apply commits_exec_stack.
Qed.
End exec.

(** A path that names nothing in the root directory: exec fails, and the table of
    one process is as it was. *)
Definition demo_kern : kern ideal :=
  Kern (FK (fk_fs demo_files) (KSt (fun a => a mod 256) 0 false) (fk_ft demo_files) (fk_pipe demo_files))
    (Pts [set_cwd (Some 0%nat) (set_pid 1 (set_pstate RUNNING zero_proc))] 2 (Some 0%nat)).
Abbreviation demo_exec :=
  (exec (fun _ => None) 2148532224 2148536320 2149580800 2149580832 2149580864 2149580928 2149580992 0 20 2147483898 []).
Lemma demo_exec_run : match demo_exec demo_kern with Ret r _ => r =? -1 | _ => false end = true.
Proof. vm_cast_no_check (eq_refl true). Qed.
Lemma exec_commits_last_witness : exists k', demo_exec demo_kern = Ret (-1) k' /\ k_pt k' = k_pt demo_kern.
Proof.
  pose proof demo_exec_run as H.
  destruct (demo_exec demo_kern) as [r k'| |] eqn:E; [|done..]. apply Z.eqb_eq in H as ->.
  exists k'. split; [reflexivity|].
  destruct (exec_commits_last (fun _ => None) 2148532224 2148536320 2149580800 2149580832 2149580864 2149580928
    2149580992 0 20 2147483898 [] demo_kern (-1) k' E) as [[_ Hk]|[Hr _]]; [exact Hk | discriminate Hr].
Defined.
