(* ===== verification/Sysfile.v ===== *)
(** * System calls (sysfile.c, sysproc.c, syscall.c)

    Every system call of process [cur] as an operation on the whole kernel
    state.  Arguments are read through the page table of the process, from the
    user stack that its trap frame points to.  A call that gives up the processor
    ends in [Switched], with the table as it is at the switch. *)

From stdpp Require Import functions.
From S2P Require Import Prelude Mem CString Mmu Kalloc PageTable Uvm UvmCopy Disk Bio Log Pipe Blocks Balloc Inode Dir File.
From S2P Require Import Ptable Proc Exec Syscall.
#[local] Open Scope Z_scope.

Abbreviation O_RDONLY := 0.
Abbreviation O_WRONLY := 1.
Abbreviation O_RDWR := 2.
Abbreviation O_CREATE := 512.
Abbreviation STAT_SIZE := 20.

Inductive sysres := Returned (r : Z) | Switched.

(** [f->readable] and [f->writable] of sys_open, and what else it fills in. *)
Definition open_file (omode : Z) (ip : nat) (f : file) : file :=
  File FD_INODE (f_ref f) (Z.land omode O_WRONLY =? 0)
    (negb (Z.land omode O_WRONLY =? 0) || negb (Z.land omode O_RDWR =? 0)) (f_pipe f) ip 0.

Definition set_majmin (major minor : Z) (x : inode) : inode :=
  Inode (i_dev x) (i_inum x) (i_ref x) (i_lock x) (i_valid x) (i_type x) (s16 major) (s16 minor) (i_nlink x)
    (i_size x) (i_addrs x).
Definition add_nlink (d : Z) (x : inode) : inode := set_nlink (s16 (i_nlink x + d)) x.

Section sysfile.
Context {S : Type} `{!BlockOps S}.
Context (devread devwrite : Z -> option (nat -> Z -> Z -> M (fsys S) Z)).
Context (kend kdata trapret forkret_addr : Z).
(** Addresses of stack variables and of the strings "." and "..". *)
Context (lookup_de link_de namebuf elf ph ustack name de offbuf dot dotdot : Z).
(** The running process, the tick counter and its address. *)
Context (cur : nat) (ticks ticks_addr : Z).

Definition me : M (kern S) proc := pt (prc cur).
(** File-system code run by the process. *)
Definition ua {A} (m : M (fsys S) A) : M (kern S) A := ufk cur 0 0 (fs m).

(** What the argument functions look at: memory, [sz] and the saved esp. *)
Definition with_args {A} (f : mem -> Z -> Z -> A) : M (kern S) A :=
  x <- me ;;
  km <- kmem ;;
  m <- user_mem cur ;;
  ret (f m (p_sz x) (ld32 km (p_tf x + TF_ESP))).
Definition arg_int (n : Z) : M (kern S) (option Z) := with_args (fun m sz esp => argint m sz esp n).
Definition arg_ptr (n size : Z) : M (kern S) (option Z) := with_args (fun m sz esp => argptr m sz esp n size).
Definition arg_str (n : Z) : M (kern S) (option (Z * Z)) := with_args (fun m sz esp => argstr m sz esp n).
Definition arg_fd (n : Z) : M (kern S) (option (nat * nat)) :=
  x <- me ;; with_args (fun m sz esp => argfd m sz esp (p_ofile x) n).

Definition set_fd (fd : nat) (f : option nat) : M (kern S) unit :=
  pt (upd cur (fun x => set_ofile (<[fd := f]> (p_ofile x)) x)).
Definition fdalloc (f : nat) : M (kern S) (option nat) :=
  x <- me ;;
  match unused_fd (p_ofile x) 0 with
  | None => ret None
  | Some fd => set_fd fd (Some f) ;;; ret (Some fd)
  end.

(** The calls of namei, nameiparent, begin_op and the like for this process. *)
Definition the_namei (path len : Z) : M (kern S) (option nat) :=
  x <- me ;;
  ua (namei (p_pid x) (default 0%nat (p_cwd x)) devread lookup_de (Z.to_nat (len + 2)) path namebuf).
Definition the_nameiparent (path len : Z) : M (kern S) (option nat) :=
  x <- me ;;
  ua (nameiparent (p_pid x) (default 0%nat (p_cwd x)) devread lookup_de (Z.to_nat (len + 2)) path name).
Definition the_dirlink (dp : nat) (nm inum : Z) : M (kern S) Z :=
  x <- me ;; ua (dirlink (p_pid x) devread devwrite lookup_de link_de dp nm inum).
Definition lock (ip : nat) : M (kern S) unit := x <- me ;; ua (ilock (p_pid x) (Some ip)).
Definition unlock (ip : nat) : M (kern S) unit := x <- me ;; ua (iunlock (p_pid x) (Some ip)).
Definition unlockput (ip : nat) : M (kern S) unit := x <- me ;; ua (iunlockput (p_pid x) ip).
Definition put (ip : nat) : M (kern S) unit := x <- me ;; ua (iput (p_pid x) ip).
Definition the_begin_op : M (kern S) unit := ua (blk bk_begin_op).
Definition the_end_op : M (kern S) unit := ua (blk bk_end_op).
Definition close (f : nat) : M (kern S) unit := x <- me ;; fk (fileclose (p_pid x) kend f).

Definition sys_dup : M (kern S) Z :=
  a <- arg_fd 0 ;;
  match a with
  | None => ret (-1)
  | Some (_, f) =>
      fd <- fdalloc f ;;
      match fd with
      | None => ret (-1)
      | Some fd => fk (filedup f) ;;; ret (Z.of_nat fd)
      end
  end.

(** The arguments of read and write: file, pointer and count. *)
Definition rw_args : M (kern S) (option (nat * Z * Z)) :=
  a <- arg_fd 0 ;;
  n <- arg_int 2 ;;
  match a, n with
  | Some (_, f), Some n =>
      p <- arg_ptr 1 n ;;
      ret (match p with Some p => Some (f, p, n) | None => None end)
  | _, _ => ret None
  end.
Definition sys_read : M (kern S) Z :=
  a <- rw_args ;;
  match a with
  | None => ret (-1)
  | Some (f, p, n) => x <- me ;; ufk cur p n (fileread (p_pid x) (p_killed x) devread f p n)
  end.
Definition sys_write : M (kern S) Z :=
  a <- rw_args ;;
  match a with
  | None => ret (-1)
  | Some (f, p, n) => x <- me ;; ufk cur 0 0 (filewrite (p_pid x) (p_killed x) devwrite f p n)
  end.

Definition sys_close : M (kern S) Z :=
  a <- arg_fd 0 ;;
  match a with
  | None => ret (-1)
  | Some (fd, f) => set_fd fd None ;;; close f ;;; ret 0
  end.

Definition sys_fstat : M (kern S) Z :=
  a <- arg_fd 0 ;;
  p <- arg_ptr 1 STAT_SIZE ;;
  match a, p with
  | Some (_, f), Some st => x <- me ;; ufk cur st STAT_SIZE (filestat (p_pid x) f st)
  | _, _ => ret (-1)
  end.

(** [bad:] of sys_link. *)
Definition link_bad (ip : nat) : M (kern S) Z :=
  lock ip ;;; ua (upd_ino ip (add_nlink (-1))) ;;; ua (iupdate ip) ;;; unlockput ip ;;; the_end_op ;;; ret (-1).
Definition sys_link : M (kern S) Z :=
  old <- arg_str 0 ;;
  new <- arg_str 1 ;;
  match old, new with
  | Some (old, olen), Some (new, nlen) =>
      the_begin_op ;;;
      ip <- the_namei old olen ;;
      match ip with
      | None => the_end_op ;;; ret (-1)
      | Some ip =>
          lock ip ;;;
          x <- ua (ino ip) ;;
          if i_type x =? T_DIR then unlockput ip ;;; the_end_op ;;; ret (-1)
          else
            ua (upd_ino ip (add_nlink 1)) ;;; ua (iupdate ip) ;;; unlock ip ;;;
            dp <- the_nameiparent new nlen ;;
            match dp with
            | None => link_bad ip
            | Some dp =>
                lock dp ;;;
                d <- ua (ino dp) ;;
                x <- ua (ino ip) ;;
                r <- (if negb (i_dev d =? i_dev x) then ret (-1) else the_dirlink dp name (i_inum x)) ;;
                if r <? 0 then unlockput dp ;;; link_bad ip
                else unlockput dp ;;; put ip ;;; the_end_op ;;; ret 0
            end
      end
  | _, _ => ret (-1)
  end.

Fixpoint isdirempty_loop (fuel : nat) (dp : nat) (off : Z) : M (kern S) bool :=
  match fuel with
  | O => diverge
  | Datatypes.S fuel =>
      x <- ua (ino dp) ;;
      if off <? i_size x then
        r <- ua (readi devread dp de off DIRENT) ;;
        panic_if (negb (r =? DIRENT)) "isdirempty: readi" ;;;
        m <- kmem ;;
        if negb (de_inum m de =? 0) then ret false else isdirempty_loop fuel dp (off + DIRENT)
      else ret true
  end.
Definition isdirempty (dp : nat) : M (kern S) bool :=
  x <- ua (ino dp) ;; isdirempty_loop (Z.to_nat (i_size x / DIRENT + 2)) dp (2 * DIRENT).

Definition unlink_bad (dp : nat) : M (kern S) Z := unlockput dp ;;; the_end_op ;;; ret (-1).
Definition sys_unlink : M (kern S) Z :=
  path <- arg_str 0 ;;
  match path with
  | None => ret (-1)
  | Some (path, len) =>
      the_begin_op ;;;
      dp <- the_nameiparent path len ;;
      match dp with
      | None => the_end_op ;;; ret (-1)
      | Some dp =>
          lock dp ;;;
          m <- kmem ;;
          if (namecmp m name dot =? 0) || (namecmp m name dotdot =? 0) then unlink_bad dp
          else
            ip <- ua (dirlookup devread lookup_de dp name (Some offbuf)) ;;
            match ip with
            | None => unlink_bad dp
            | Some ip =>
                lock ip ;;;
                x <- ua (ino ip) ;;
                panic_if (i_nlink x <? 1) "unlink: nlink < 1" ;;;
                e <- (if i_type x =? T_DIR then isdirempty ip else ret true) ;;
                if negb e then unlockput ip ;;; unlink_bad dp
                else
                  store (fun m => memset m de 0 DIRENT) ;;;
                  m <- kmem ;;
                  r <- ua (writei devwrite dp de (ld32 m offbuf) DIRENT) ;;
                  panic_if (negb (r =? DIRENT)) "unlink: writei" ;;;
                  (if i_type x =? T_DIR then ua (upd_ino dp (add_nlink (-1))) ;;; ua (iupdate dp) else ret tt) ;;;
                  unlockput dp ;;;
                  ua (upd_ino ip (add_nlink (-1))) ;;; ua (iupdate ip) ;;; unlockput ip ;;;
                  the_end_op ;;;
                  ret 0
            end
      end
  end.

Definition create (path len type major minor : Z) : M (kern S) (option nat) :=
  dp <- the_nameiparent path len ;;
  match dp with
  | None => ret None
  | Some dp =>
      lock dp ;;;
      ip <- ua (dirlookup devread lookup_de dp name None) ;;
      match ip with
      | Some ip =>
          unlockput dp ;;;
          lock ip ;;;
          x <- ua (ino ip) ;;
          if (type =? T_FILE) && (i_type x =? T_FILE) then ret (Some ip) else unlockput ip ;;; ret None
      | None =>
          d <- ua (ino dp) ;;
          ip <- ua (ialloc (i_dev d) type) ;;
          lock ip ;;;
          ua (upd_ino ip (fun x => set_nlink 1 (set_majmin major minor x))) ;;;
          ua (iupdate ip) ;;;
          x <- ua (ino ip) ;;
          (if type =? T_DIR then
             ua (upd_ino dp (add_nlink 1)) ;;; ua (iupdate dp) ;;;
             r <- the_dirlink ip dot (i_inum x) ;;
             panic_if (r <? 0) "create dots" ;;;
             r <- the_dirlink ip dotdot (i_inum d) ;;
             panic_if (r <? 0) "create dots"
           else ret tt) ;;;
          r <- the_dirlink dp name (i_inum x) ;;
          panic_if (r <? 0) "create: dirlink" ;;;
          unlockput dp ;;;
          ret (Some ip)
      end
  end.

(** The inode that sys_open opens, locked. *)
Definition open_inode (path len omode : Z) : M (kern S) (option nat) :=
  if negb (Z.land omode O_CREATE =? 0) then create path len T_FILE 0 0
  else
    ip <- the_namei path len ;;
    match ip with
    | None => ret None
    | Some ip =>
        lock ip ;;;
        x <- ua (ino ip) ;;
        if (i_type x =? T_DIR) && negb (omode =? O_RDONLY) then unlockput ip ;;; ret None else ret (Some ip)
    end.
Definition sys_open : M (kern S) Z :=
  path <- arg_str 0 ;;
  omode <- arg_int 1 ;;
  match path, omode with
  | Some (path, len), Some omode =>
      the_begin_op ;;;
      ip <- open_inode path len omode ;;
      match ip with
      | None => the_end_op ;;; ret (-1)
      | Some ip =>
          f <- fk filealloc ;;
          fd <- (match f with Some f => fdalloc f | None => ret None end) ;;
          match f, fd with
          | Some f, Some fd =>
              unlock ip ;;; the_end_op ;;;
              fk (upd_fil f (open_file omode ip)) ;;;
              ret (Z.of_nat fd)
          | _, _ =>
              (match f with Some f => close f | None => ret tt end) ;;;
              unlockput ip ;;; the_end_op ;;; ret (-1)
          end
      end
  | _, _ => ret (-1)
  end.

Definition sys_mkdir : M (kern S) Z :=
  the_begin_op ;;;
  path <- arg_str 0 ;;
  ip <- (match path with Some (path, len) => create path len T_DIR 0 0 | None => ret None end) ;;
  match ip with
  | None => the_end_op ;;; ret (-1)
  | Some ip => unlockput ip ;;; the_end_op ;;; ret 0
  end.

Definition sys_mknod : M (kern S) Z :=
  the_begin_op ;;;
  path <- arg_str 0 ;;
  major <- arg_int 1 ;;
  minor <- arg_int 2 ;;
  ip <- (match path, major, minor with
         | Some (path, len), Some major, Some minor => create path len T_DEV major minor
         | _, _, _ => ret None
         end) ;;
  match ip with
  | None => the_end_op ;;; ret (-1)
  | Some ip => unlockput ip ;;; the_end_op ;;; ret 0
  end.

Definition sys_chdir : M (kern S) Z :=
  the_begin_op ;;;
  path <- arg_str 0 ;;
  ip <- (match path with Some (path, len) => the_namei path len | None => ret None end) ;;
  match ip with
  | None => the_end_op ;;; ret (-1)
  | Some ip =>
      lock ip ;;;
      x <- ua (ino ip) ;;
      if negb (i_type x =? T_DIR) then unlockput ip ;;; the_end_op ;;; ret (-1)
      else
        unlock ip ;;;
        p <- me ;;
        put (default 0%nat (p_cwd p)) ;;;
        the_end_op ;;;
        pt (upd cur (set_cwd (Some ip))) ;;;
        ret 0
  end.

Definition sys_exec : M (kern S) Z :=
  path <- arg_str 0 ;;
  uargv <- arg_int 1 ;;
  match path, uargv with
  | Some (path, _), Some uargv =>
      argv <- with_args (fun m sz _ => exec_args m sz (u32 uargv) 32 0 []) ;;
      x <- me ;;
      match argv with
      | None => ret (-1)
      | Some argv => exec devread kend kdata lookup_de namebuf elf ph ustack cur (Z.to_nat (p_sz x + 1)) path argv
      end
  | _, _ => ret (-1)
  end.

Definition sys_pipe : M (kern S) Z :=
  fd <- arg_ptr 0 8 ;;
  match fd with
  | None => ret (-1)
  | Some fd =>
      x <- me ;;
      r <- fk (pipealloc (p_pid x) kend) ;;
      match r with
      | None => ret (-1)
      | Some (rf, wf) =>
          fd0 <- fdalloc rf ;;
          fd1 <- (match fd0 with Some _ => fdalloc wf | None => ret None end) ;;
          match fd0, fd1 with
          | Some fd0, Some fd1 =>
              ufk cur fd 8 (fs (Dir.set_mem (fun m => st32 (st32 m fd (Z.of_nat fd0)) (fd + 4) (Z.of_nat fd1)))) ;;;
              ret 0
          | _, _ =>
              (match fd0 with Some fd0 => set_fd fd0 None | None => ret tt end) ;;;
              close rf ;;; close wf ;;; ret (-1)
          end
      end
  end.

Definition sys_swapread : M (kern S) Z :=
  p <- arg_ptr 0 PGSIZE ;;
  b <- arg_int 1 ;;
  match p, b with
  | Some p, Some b => ufk cur p PGSIZE (fs (swapread p b)) ;;; ret 0
  | _, _ => ret (-1)
  end.
Definition sys_swapwrite : M (kern S) Z :=
  p <- arg_ptr 0 PGSIZE ;;
  b <- arg_int 1 ;;
  match p, b with
  | Some p, Some b => ua (swapwrite p b) ;;; ret 0
  | _, _ => ret (-1)
  end.

(** ** sysproc.c *)

Definition sys_fork : M (kern S) Z := fork kend kdata trapret forkret_addr cur.
Definition sys_exit : M (kern S) sysres := exit kend cur ;;; ret Switched.
(** One round of wait. *)
Definition sys_wait : M (kern S) sysres :=
  r <- wait_round kend cur ;; ret (match r with Some pid => Returned pid | None => Switched end).
Definition sys_kill : M (kern S) Z :=
  a <- arg_int 0 ;;
  match a with
  | None => ret (-1)
  | Some pid => pt (kill pid)
  end.
Definition sys_getpid : M (kern S) Z := x <- me ;; ret (p_pid x).
Definition sys_sbrk : M (kern S) Z :=
  a <- arg_int 0 ;;
  match a with
  | None => ret (-1)
  | Some n =>
      x <- me ;;
      r <- growproc_cur kend cur n ;;
      ret (if r <? 0 then -1 else s32 (p_sz x))
  end.
(** One round of the loop of sys_sleep; [n] is converted to unsigned. *)
Definition sleep_round (ticks0 n : Z) : M (kern S) sysres :=
  if u32 (ticks - ticks0) <? u32 n then
    x <- me ;;
    if p_killed x then ret (Returned (-1))
    else sleep_begin (Some cur) (AddrChan ticks_addr) true ;;; ret Switched
  else ret (Returned 0).
Definition sys_sleep : M (kern S) sysres :=
  a <- arg_int 0 ;;
  match a with
  | None => ret (Returned (-1))
  | Some n => sleep_round ticks n
  end.
Definition sys_uptime : M (kern S) Z := ret (s32 ticks).

(** ** syscall.c *)

Definition returns (m : M (kern S) Z) : M (kern S) sysres := r <- m ;; ret (Returned r).
(** [syscalls[]] *)
Definition syscalls (num : Z) : option (M (kern S) sysres) :=
  match num with
  | 1 => Some (returns sys_fork) | 2 => Some sys_exit | 3 => Some sys_wait | 4 => Some (returns sys_pipe)
  | 5 => Some (returns sys_read) | 6 => Some (returns sys_kill) | 7 => Some (returns sys_exec)
  | 8 => Some (returns sys_fstat) | 9 => Some (returns sys_chdir) | 10 => Some (returns sys_dup)
  | 11 => Some (returns sys_getpid) | 12 => Some (returns sys_sbrk) | 13 => Some sys_sleep
  | 14 => Some (returns sys_uptime) | 15 => Some (returns sys_open) | 16 => Some (returns sys_write)
  | 17 => Some (returns sys_mknod) | 18 => Some (returns sys_unlink) | 19 => Some (returns sys_link)
  | 20 => Some (returns sys_mkdir) | 21 => Some (returns sys_close) | 22 => Some (returns sys_swapread)
  | 23 => Some (returns sys_swapwrite)
  | _ => None
  end.
Definition set_eax (r : Z) : M (kern S) unit := x <- me ;; store (fun m => st32 m (p_tf x + TF_EAX) (u32 r)).
Definition syscall : M (kern S) sysres :=
  x <- me ;;
  m <- kmem ;;
  match syscalls (s32 (ld32 m (p_tf x + TF_EAX))) with
  | Some f =>
      r <- f ;;
      match r with
      | Returned v => set_eax v ;;; ret r
      | Switched => ret Switched
      end
  | None => set_eax (-1) ;;; ret (Returned (-1))
  end.
End sysfile.

(** ** The swap calls *)

(** The number of the block goes to the file system as the process gave it. *)
Section swap.
Context {S : Type} `{!BlockOps S}.
Context (cur : nat).
Implicit Types (k : kern S).

Lemma ufk_panic {A} ua n (m : M (fks S) A) msg k :
  (forall f, m f = Panic msg) -> ufk cur ua n m k = Panic msg.
Proof using. intros H. unfold ufk, window, fk, pt, zoom, bind, modify, prc, gets. simpl. by rewrite H. Qed.

Lemma with_args_ok {A} (g : mem -> Z -> Z -> A) k :
  let x := default zero_proc (pt_proc (k_pt k) !! cur) in
  let m := kmem_mem (fk_kst (k_fk k)) in
  with_args cur g k = Ret (g (seen m (p_pgdir x)) (p_sz x) (ld32 m (p_tf x + TF_ESP))) k.
Proof using. by destruct k. Qed.

(** Any process can stop the kernel with swapread or swapwrite: with a valid
    buffer and a block number that is negative or too large the call does not
    fail, it panics. *)
Theorem swap_call_panics k p b :
  arg_ptr cur 0 PGSIZE k = Ret (Some p) k -> arg_int cur 1 k = Ret (Some b) k -> b < 0 \/ SWAPMAX <= b ->
  sys_swapread cur k = Panic "swapread: blkno exceed range" /\
  sys_swapwrite cur k = Panic "swapread: blkno exceed range".
Proof using.
  intros Hp Hb Hr. assert ((b <? 0) || (SWAPMAX <=? b) = true) as Hc by (apply orb_true_iff; lia).
  unfold sys_swapread, sys_swapwrite, ua.
  rewrite !(bind_Ret _ _ _ _ _ Hp), !(bind_Ret _ _ _ _ _ Hb).
  split; unfold bind; rewrite (ufk_panic _ _ _ "swapread: blkno exceed range"); try done;
    intros f; unfold fs, zoom, swapread, swapwrite, bind, panic_if; by rewrite Hc.
Qed.
End swap.

(** A process of one page, with the arguments 0 and -1 on its stack. *)
Definition demo_swap_mem : mem := fun a =>
  if a =? 2148532224 then 7 else if a =? 2148532225 then 16 else if a =? 2148532226 then 16
  else if a =? 2148536320 then 7 else if a =? 2148536321 then 32 else if a =? 2148536322 then 16
  else if (2148540424 <=? a) && (a <? 2148540428) then 255 else 0.
Definition demo_swap : kern ideal :=
  Kern (FK (FSt (Ideal (fun _ => [])) (Superblock 0 0 0 0 0 0 0) [] (fun _ => 0)) (KSt demo_swap_mem 0 false) []
          (fun _ => PSt (Pipe [] 0 0 0 0) [] [] []))
    (Pts [set_vm 4096 2148532224 (set_stack 2148544512 2148545000 0 (set_pstate RUNNING zero_proc))] 2 (Some 0%nat)).
Lemma swap_call_panics_witness : sys_swapread 0 demo_swap = Panic "swapread: blkno exceed range".
Proof.
  assert (forall (A : Type) (o o' : A), o = o' -> Ret o demo_swap = Ret o' demo_swap) as E by (by intros ? ? ? ->).
  refine (proj1 (swap_call_panics 0 demo_swap 0 (-1) _ _ _)).
  - unfold arg_ptr. rewrite with_args_ok. apply E. vm_compute. reflexivity.
  - unfold arg_int. rewrite with_args_ok. apply E. vm_compute. reflexivity.
  - left. reflexivity.
Defined.
