(* ===== verification/Trap.v ===== *)
(** * Traps (trap.c)

    The dispatch of a trap on the processor [cpu], which runs [cur] if any.  The
    handlers of the devices are parameters.  [trap] gives the new value of the
    tick counter and how the process goes on. *)

From S2P Require Import Prelude Mem Mmu Kalloc Disk Bio Log Pipe Blocks Balloc Inode File Ptable Proc Exec Sysfile.
#[local] Open Scope Z_scope.

Abbreviation T_SYSCALL := 64.
Abbreviation T_IRQ0 := 32.
Abbreviation IRQ_TIMER := 0.
Abbreviation IRQ_KBD := 1.
Abbreviation IRQ_COM1 := 4.
Abbreviation IRQ_IDE := 14.
Abbreviation IRQ_SPURIOUS := 31.
Abbreviation TF_TRAPNO := 48.

(** Back to where the trap came from, or to the scheduler: by exit, by yield, or
    by a call that sleeps. *)
Inductive outcome := Resumed | Exited | Yielded | Asleep.

Section trap.
Context {S : Type}.
(** The system call of the process, and its exit. *)
Context (syscall : nat -> M (kern S) sysres) (exit : nat -> M (kern S) unit).
Context (ideintr kbdintr uartintr : M (kern S) unit).
Context (ticks_addr : Z).

Definition killed (cur : nat) : M (kern S) bool := x <- pt (prc cur) ;; ret (p_killed x).

Definition trap_syscall (cur : nat) (tf : Z) : M (kern S) outcome :=
  k <- killed cur ;;
  if k : bool then exit cur ;;; ret Exited
  else
    pt (upd cur (fun x => set_stack (p_kstack x) tf (p_context x) x)) ;;;
    r <- syscall cur ;;
    match r with
    | Switched =>
        x <- pt (prc cur) ;;
        ret (if is_state ZOMBIE x then Exited else Asleep)
    | Returned _ =>
        k <- killed cur ;;
        if k : bool then exit cur ;;; ret Exited else ret Resumed
    end.

(** The switch on the trap number. *)
Definition trap_switch (cpu : Z) (cur : option nat) (trapno cs ticks : Z) : M (kern S) Z :=
  if trapno =? T_IRQ0 + IRQ_TIMER then
    if cpu =? 0 then wakeup (AddrChan ticks_addr) ;;; ret (u32 (ticks + 1)) else ret ticks
  else if trapno =? T_IRQ0 + IRQ_IDE then ideintr ;;; ret ticks
  else if trapno =? T_IRQ0 + IRQ_IDE + 1 then ret ticks
  else if trapno =? T_IRQ0 + IRQ_KBD then kbdintr ;;; ret ticks
  else if trapno =? T_IRQ0 + IRQ_COM1 then uartintr ;;; ret ticks
  else if (trapno =? T_IRQ0 + 7) || (trapno =? T_IRQ0 + IRQ_SPURIOUS) then ret ticks
  else match cur with
       | None => panic "trap"
       | Some cur =>
           panic_if (Z.land cs 3 =? 0) "trap" ;;;
           pt (upd cur (set_killed true)) ;;; ret ticks
       end.

(** Whether the process exits before it returns to user space. *)
Definition must_exit (cur : option nat) (cs : Z) : M (kern S) bool :=
  match cur with
  | None => ret false
  | Some cur => k <- killed cur ;; ret (k && (Z.land cs 3 =? DPL_USER))
  end.

(** From the switch on, up to the call of exit or yield. *)
Definition trap_other (cpu : Z) (cur : option nat) (trapno cs ticks : Z) : M (kern S) (Z * outcome) :=
  ticks <- trap_switch cpu cur trapno cs ticks ;;
  e <- must_exit cur cs ;;
  match cur with
  | None => ret (ticks, Resumed)
  | Some cur =>
      if e : bool then exit cur ;;; ret (ticks, Exited)
      else
        x <- pt (prc cur) ;;
        if is_state RUNNING x && (trapno =? T_IRQ0 + IRQ_TIMER) then yield cur ;;; ret (ticks, Yielded)
        else ret (ticks, Resumed)
  end.
(** After the process that yielded runs again. *)
Definition trap_resume (cur : nat) (cs : Z) : M (kern S) outcome :=
  e <- must_exit (Some cur) cs ;;
  if e : bool then exit cur ;;; ret Exited else ret Resumed.

Definition trap (cpu : Z) (cur : option nat) (tf ticks : Z) : M (kern S) (Z * outcome) :=
  m <- kmem ;;
  let trapno := ld32 m (tf + TF_TRAPNO) in
  let cs := m (tf + TF_CS) + 256 * m (tf + TF_CS + 1) in
  if trapno =? T_SYSCALL then
    match cur with
    | None => panic "trap"
    | Some cur => r <- trap_syscall cur tf ;; ret (ticks, r)
    end
  else trap_other cpu cur trapno cs ticks.

(** ** Killed processes *)

Definition killed_in (k : kern S) (cur : nat) : bool := p_killed (default zero_proc (pt_proc (k_pt k) !! cur)).

Lemma killed_ok cur k : killed cur k = Ret (killed_in k cur) k.
Proof using. by destruct k. Qed.
Lemma must_exit_ok cur cs k : must_exit (Some cur) cs k = Ret (killed_in k cur && (Z.land cs 3 =? DPL_USER)) k.
Proof using. by destruct k. Qed.

(** A trap number that the switch has no case for. *)
Definition unexpected (trapno : Z) : Prop :=
  trapno ∉ [T_SYSCALL; T_IRQ0 + IRQ_TIMER; T_IRQ0 + IRQ_IDE; T_IRQ0 + IRQ_IDE + 1; T_IRQ0 + IRQ_KBD;
            T_IRQ0 + IRQ_COM1; T_IRQ0 + 7; T_IRQ0 + IRQ_SPURIOUS].

Lemma trap_switch_unexpected cpu cur trapno cs ticks : unexpected trapno ->
  trap_switch cpu cur trapno cs ticks =
    match cur with
    | None => panic "trap"
    | Some cur =>
        panic_if (Z.land cs 3 =? 0) "trap" ;;; pt (upd cur (set_killed true)) ;;; ret ticks
    end.
Proof using.
  unfold unexpected. rewrite !not_elem_of_cons. intros H. destruct_and! H. unfold trap_switch.
  by rewrite !(proj2 (Z.eqb_neq trapno _)).
Qed.

Lemma trap_other_resumed cpu cur trapno cs ticks k t k' :
  trap_other cpu (Some cur) trapno cs ticks k = Ret (t, Resumed) k' -> Z.land cs 3 = DPL_USER ->
  killed_in k' cur = false.
Proof using.
  unfold trap_other. intros H Hcs. inv_bind H. rewrite (bind_Ret _ _ _ _ _ (must_exit_ok cur cs s1)), Hcs in Hk.
  rewrite Z.eqb_refl, andb_true_r in Hk. destruct (killed_in s1 cur) eqn:Ek; [inv_bind Hk; done|].
  inv_bind Hk. destruct (is_state RUNNING a0 && _); [inv_bind Hk0; done|].
  injection Hk0 as _ <-. unfold pt, zoom, prc, gets in Hm0. injection Hm0 as _ <-. by destruct s1.
Qed.
Lemma trap_syscall_resumed cur tf k k' : trap_syscall cur tf k = Ret Resumed k' -> killed_in k' cur = false.
Proof using.
  unfold trap_syscall. rewrite (bind_Ret _ _ _ _ _ (killed_ok cur k)). destruct (killed_in k cur).
  { intros H. by inv_bind H. }
  intros H. inv_bind H. inv_bind Hk. destruct a0.
  - rewrite (bind_Ret _ _ _ _ _ (killed_ok cur s0)) in Hk0. destruct (killed_in s0 cur) eqn:E.
    + by inv_bind Hk0.
    + injection Hk0 as <-. done.
  - inv_bind Hk0. by destruct (is_state ZOMBIE a0).
Qed.

(** A process that has been killed does not get back to user space, whatever
    the system call and the device handlers do: when a trap from user space
    returns, the process is not marked killed.  And an exception that the kernel
    has no handler for kills the process that caused it: the trap marks it and
    goes straight to exit. *)
Theorem killed_never_resumes cpu cur tf ticks k :
  let m := kmem_mem (fk_kst (k_fk k)) in
  let cs := m (tf + TF_CS) + 256 * m (tf + TF_CS + 1) in
  Z.land cs 3 = DPL_USER -> (cur < length (pt_proc (k_pt k)))%nat ->
  (forall t k', trap cpu (Some cur) tf ticks k = Ret (t, Resumed) k' -> killed_in k' cur = false) /\
  (unexpected (ld32 m (tf + TF_TRAPNO)) ->
     trap cpu (Some cur) tf ticks k = (pt (upd cur (set_killed true)) ;;; exit cur ;;; ret (ticks, Exited)) k).
Proof using.
  intros m cs Hcs Hcur. unfold trap, kmem. rewrite bind_gets. fold m. cbv zeta. fold cs. split.
  - intros t k' H. destruct (ld32 m _ =? T_SYSCALL); [|by eapply trap_other_resumed].
    inv_bind H. injection Hk as _ -> ->. by eapply trap_syscall_resumed.
  - intros Hu. assert (ld32 m (tf + TF_TRAPNO) <> T_SYSCALL) as Hs by (intros E; apply Hu; rewrite E; left).
    rewrite (proj2 (Z.eqb_neq _ _) Hs). unfold trap_other. rewrite trap_switch_unexpected by done.
    rewrite Hcs, !bind_assoc. change (DPL_USER =? 0) with false. rewrite bind_check by done.
    set (k1 := Kern (k_fk k) (set_procs (alter (set_killed true) cur (pt_proc (k_pt k))) (k_pt k))).
    assert (pt (upd cur (set_killed true)) k = Ret tt k1) as E1 by done.
    rewrite !bind_assoc, !(bind_Ret _ _ _ _ _ E1), (bind_Ret (ret ticks) _ _ _ _ eq_refl).
    rewrite (bind_Ret _ _ _ _ _ (must_exit_ok cur cs k1)), Hcs.
    destruct (lookup_lt_is_Some_2 _ _ Hcur) as [x Hx].
    assert (killed_in k1 cur = true) as -> by (unfold killed_in, k1; simpl; by rewrite list_lookup_alter_eq, Hx).
    done.
Qed.
End trap.

(** A page fault in user mode, with the exit of proc.c. *)
Definition demo_trap : kern ideal :=
  Kern (FK (FSt (Ideal (fun _ => [])) (Superblock 0 0 0 0 0 0 0) [] (fun _ => 0))
          (KSt (fun a => if a =? 2148536368 then 14 else if a =? 2148536380 then 27 else 0) 0 false) []
          (fun _ => PSt (Pipe [] 0 0 0 0) [] [] []))
    (Pts [zero_proc; set_pid 2 (set_pstate RUNNING zero_proc)] 3 (Some 0%nat)).
Lemma killed_never_resumes_witness :
  trap (fun _ => ret (Returned 0)) (exit 2148532224) (ret tt) (ret tt) (ret tt) 4096 0 (Some 1%nat) 2148536320 5 demo_trap =
    (pt (upd 1 (set_killed true)) ;;; exit 2148532224 1 ;;; ret (5, Exited)) demo_trap.
Proof.
  refine (proj2 (killed_never_resumes (fun _ => ret (Returned 0)) (exit 2148532224) (ret tt) (ret tt) (ret tt) 4096 0 1
    2148536320 5 demo_trap _ _) _).
  - vm_compute. reflexivity.
  - simpl. lia.
  - unfold unexpected. rewrite !not_elem_of_cons. vm_compute. split_and!; try congruence. apply not_elem_of_nil.
Defined.
