(* ===== verification/Grep.v ===== *)
(** * grep (grep.c)

    The matcher for patterns with the operators ^ . * $, and the loop that
    reads a file and prints the lines that match.  A C string is the list of
    its bytes before the NUL, so reading one place after the last byte gives 0.
    The matcher is proved equivalent to a declarative meaning of patterns, and
    the loop to a filter on the lines of its input. *)

From S2P Require Import Prelude.
#[local] Open Scope Z_scope.

Abbreviation CARET := 94.
Abbreviation DOT := 46.
Abbreviation STAR := 42.
Abbreviation DOLLAR := 36.
Abbreviation NEWLINE := 10.

(** [*text==c || c=='.'] *)
Definition fits (c d : Z) : bool := (d =? c) || (c =? DOT).

(** The loop of [matchstar], where [here] searches for the rest of the pattern. *)
Fixpoint matchstar_loop (here : list Z -> bool) (c : Z) (text : list Z) : bool :=
  if here text then true
  else match text with
       | [] => false
       | d :: text => if fits c d then matchstar_loop here c text else false
       end.
Fixpoint matchhere (re text : list Z) : bool :=
  match re with
  | [] => true
  | c :: re1 =>
      match re1 with
      | s :: re2 =>
          if s =? STAR then matchstar_loop (matchhere re2) c text
          else match text with
               | [] => false
               | d :: text => if fits c d then matchhere re1 text else false
               end
      | [] =>
          if c =? DOLLAR then match text with [] => true | _ => false end
          else match text with
               | [] => false
               | d :: text => if fits c d then matchhere re1 text else false
               end
      end
  end.
Definition matchstar (c : Z) (re text : list Z) : bool := matchstar_loop (matchhere re) c text.

(** The [do] loop of [match]: every suffix, the empty one included. *)
Fixpoint match_loop (re text : list Z) : bool :=
  if matchhere re text then true
  else match text with
       | [] => false
       | _ :: text => match_loop re text
       end.
Definition match_ (re text : list Z) : bool :=
  match re with
  | c :: re1 => if c =? CARET then matchhere re1 text else match_loop re text
  | [] => match_loop re text
  end.

(** ** The loop over the file *)

(** [strchr(p, c)]: what is before and after the first [c], which is looked for
    up to a NUL. *)
Fixpoint strchr_cut (c : Z) (l : list Z) : option (list Z * list Z) :=
  match l with
  | [] => None
  | d :: l =>
      if d =? 0 then None
      else if d =? c then Some ([], l)
      else match strchr_cut c l with
           | Some (a, b) => Some (d :: a, b)
           | None => None
           end
  end.

(** The inner loop: [l] is the buffer from [p] on.  What is printed, and the
    buffer from the last [p] on; [fuel] bounds the lines in it. *)
Fixpoint grep_lines (fuel : nat) (pattern l : list Z) : option (list Z * list Z) :=
  match fuel with
  | O => None
  | S fuel =>
      match strchr_cut NEWLINE l with
      | None => Some ([], l)
      | Some (line, rest) =>
          match grep_lines fuel pattern rest with
          | None => None
          | Some (out, p) => Some ((if match_ pattern line then line ++ [NEWLINE] else []) ++ out, p)
          end
      end
  end.

(** A file that is read: the bytes to come, and how many bytes the next calls
    have to offer; [read] gives at most that and at most what is asked for. *)
Definition read (size n : nat) (input : list Z) : list Z * list Z :=
  let k := (size `min` n)%nat in (take k input, drop k input).

Abbreviation GREPBUF := 1024%nat.

(** The outer loop, with [kept] the first [m] bytes of [buf]; the calls of
    [read] offer [sizes], and then end of file. *)
Fixpoint grep_loop (sizes : list nat) (pattern kept input : list Z) : option (list Z) :=
  match sizes with
  | [] => Some []
  | size :: sizes =>
      let r := read size (GREPBUF - length kept - 1) input in
      if decide (fst r = []) then Some []
      else
        let buf := kept ++ fst r in
        match grep_lines (S (length buf)) pattern buf with
        | None => None
        | Some (out, p) =>
            let kept := if decide (length p = length buf) then [] else p in
            match grep_loop sizes pattern kept (snd r) with
            | None => None
            | Some out' => Some (out ++ out')
            end
        end
  end.
Definition grep (sizes : list nat) (pattern input : list Z) : option (list Z) :=
  grep_loop sizes pattern [] input.

(** ** What patterns mean *)

(** A pattern is a sequence of items, and may have to reach the end. *)
Inductive item := One (c : Z) | Many (c : Z).
Fixpoint items (re : list Z) : list item :=
  match re with
  | [] => []
  | c :: re1 =>
      match re1 with
      | s :: re2 => if s =? STAR then Many c :: items re2 else One c :: items re1
      | [] => if c =? DOLLAR then [] else [One c]
      end
  end.
Fixpoint to_end (re : list Z) : bool :=
  match re with
  | [] => false
  | c :: re1 =>
      match re1 with
      | s :: re2 => if s =? STAR then to_end re2 else to_end re1
      | [] => c =? DOLLAR
      end
  end.

Inductive denotes : list item -> list Z -> Prop :=
| denotes_nil : denotes [] []
| denotes_one c d r l : fits c d = true -> denotes r l -> denotes (One c :: r) (d :: l)
| denotes_none c r l : denotes r l -> denotes (Many c :: r) l
| denotes_more c d r l : fits c d = true -> denotes (Many c :: r) l -> denotes (Many c :: r) (d :: l).

(** The pattern at the start of the text. *)
Definition found_here (re text : list Z) : Prop :=
  exists a b, text = a ++ b /\ denotes (items re) a /\ (to_end re = true -> b = []).
(** The pattern somewhere in the text; after ^, at its start. *)
Definition found (re text : list Z) : Prop :=
  match re with
  | c :: re1 => if c =? CARET then found_here re1 text else exists a b, text = a ++ b /\ found_here re b
  | [] => True
  end.

(** ** The matcher *)

Lemma found_here_cons c s re1 text :
  (s =? STAR) = false ->
  found_here (c :: s :: re1) text <->
    match text with [] => False | d :: text => fits c d = true /\ found_here (s :: re1) text end.
Proof.
  intros Hs. unfold found_here. cbn [items to_end]. rewrite Hs. split.
  - intros (a & b & -> & Hd & He). inversion Hd; subst. simpl. split; [done|]. by eexists _, _.
  - destruct text as [|d text]; [done|]. intros (Hf & a & b & -> & Hd & He).
    exists (d :: a), b. split_and!; [done | by constructor | done].
Qed.
Lemma found_here_last c text :
  (c =? DOLLAR) = false ->
  found_here [c] text <-> match text with [] => False | d :: _ => fits c d = true end.
Proof.
  intros Hc. unfold found_here. cbn [items to_end]. rewrite Hc. split.
  - intros (a & b & -> & Hd & _). by inversion Hd.
  - destruct text as [|d text]; [done|]. intros Hf. exists [d], text.
    split_and!; [done | by repeat constructor | done].
Qed.
(** The star: the rest of the pattern here, or one more byte. *)
Lemma found_here_star c re text :
  found_here (c :: STAR :: re) text <->
    found_here re text \/
    match text with [] => False | d :: text => fits c d = true /\ found_here (c :: STAR :: re) text end.
Proof.
  unfold found_here. cbn [items to_end]. rewrite Z.eqb_refl. split.
  - intros (a & b & -> & Hd & He). inversion Hd; subst; [left; by eauto | right; simpl; by eauto 6].
  - intros [(a & b & -> & Hd & He)|H]; [exists a, b; split_and!; [done | by constructor | done]|].
    destruct text as [|d text]; [done|]. destruct H as (Hf & a & b & -> & Hd & He).
    exists (d :: a), b. split_and!; [done | by constructor | done].
Qed.

Lemma matchstar_loop_ok here c re text :
  (forall t, here t = true <-> found_here re t) ->
  matchstar_loop here c text = true <-> found_here (c :: STAR :: re) text.
Proof.
  intros Hh. induction text as [|d text IH]; cbn [matchstar_loop]; rewrite found_here_star, <- Hh.
  - destruct (here []); naive_solver.
  - destruct (here (d :: text)), (fits c d); naive_solver.
Qed.

Lemma matchhere_bound n : forall re text, (length re < n)%nat -> matchhere re text = true <-> found_here re text.
Proof.
  induction n as [|n IH]; intros re text Hn; [lia|]. destruct re as [|c [|s re]]; cbn [matchhere].
  - split; [|done]. intros _. exists [], text. split_and!; [done | constructor | done].
  - destruct (c =? DOLLAR) eqn:Hc.
    + apply Z.eqb_eq in Hc as ->. split.
      * destruct text; [|done]. intros _. exists [], []. split_and!; [done | constructor | done].
      * intros (a & b & -> & Hd & He). inversion Hd. by rewrite He.
    + rewrite found_here_last by done. destruct text as [|d text]; [done|]. by destruct (fits c d).
  - simpl in Hn. destruct (s =? STAR) eqn:Hs.
    + apply Z.eqb_eq in Hs as ->. apply matchstar_loop_ok. intros t. apply IH. lia.
    + rewrite found_here_cons by done. destruct text as [|d text]; [done|].
      rewrite <- (IH (s :: re)) by (simpl; lia). destruct (fits c d); naive_solver.
Qed.
Lemma matchhere_ok re text : matchhere re text = true <-> found_here re text.
Proof. apply (matchhere_bound (S (length re))). lia. Qed.

Lemma match_loop_ok re text : match_loop re text = true <-> exists a b, text = a ++ b /\ found_here re b.
Proof.
  induction text as [|d text IH]; cbn [match_loop].
  - destruct (matchhere re []) eqn:E.
    + apply matchhere_ok in E. split; [|done]. intros _. by exists [], [].
    + split; [done|]. intros (a & b & Hab & Hf). symmetry in Hab. apply app_eq_nil in Hab as [-> ->].
      apply matchhere_ok in Hf. congruence.
  - destruct (matchhere re (d :: text)) eqn:E.
    + apply matchhere_ok in E. split; [|done]. intros _. by exists [], (d :: text).
    + rewrite IH. split.
      * intros (a & b & -> & Hf). by exists (d :: a), b.
      * intros ([|d' a] & b & Hab & Hf); simplify_eq/=; [|by exists a, b].
        apply matchhere_ok in Hf. congruence.
Qed.

(** C37: the matcher of Kernighan and Pike decides the meaning of patterns: [match]
    accepts a text exactly when some part of it, at the start after ^ and up to
    the end before $, is in the language of the items of the pattern, where .
    stands for any byte and x* for any number of x. *)
Theorem match_decides re text : match_ re text = true <-> found re text.
Proof.
  destruct re as [|c re]; cbn [match_ found].
  - split; [done|]. intros _. destruct text; done.
  - destruct (c =? CARET); [apply matchhere_ok | apply match_loop_ok].
Qed.

(** ** The lines *)

Definition unlines (ls : list (list Z)) : list Z := concat ((fun l => l ++ [NEWLINE]) <$> ls).
Lemma unlines_cons l ls : unlines (l :: ls) = l ++ NEWLINE :: unlines ls.
Proof. unfold unlines. simpl. by rewrite <- app_assoc. Qed.
Lemma unlines_app a b : unlines (a ++ b) = unlines a ++ unlines b.
Proof. unfold unlines. by rewrite fmap_app, concat_app. Qed.
(** The lines of [ls] that match, as they are printed. *)
Definition selected (pattern : list Z) (ls : list (list Z)) : list Z :=
  concat ((fun l => if match_ pattern l then l ++ [NEWLINE] else []) <$> ls).
(** A line of text that fits the buffer. *)
Definition line_ok (l : list Z) : Prop := (NEWLINE ∉ l) /\ (0 ∉ l) /\ (length l < GREPBUF - 1)%nat.

Lemma strchr_cut_found c a b : c <> 0 -> c ∉ a -> 0 ∉ a -> strchr_cut c (a ++ c :: b) = Some (a, b).
Proof.
  intros Hc Ha H0. induction a as [|d a IH]; simpl.
  - by rewrite (proj2 (Z.eqb_neq c 0)), Z.eqb_refl.
  - apply not_elem_of_cons in Ha as [Hca Ha], H0 as [H0a H0].
    rewrite (proj2 (Z.eqb_neq d 0)), (proj2 (Z.eqb_neq d c)), IH by done. done.
Qed.
Lemma strchr_cut_none c l : c ∉ l -> strchr_cut c l = None.
Proof.
  intros Hc. induction l as [|d l IH]; simpl; [done|]. apply not_elem_of_cons in Hc as [Hd Hc].
  destruct (d =? 0); [done|]. by rewrite (proj2 (Z.eqb_neq d c)), IH by done.
Qed.

(** The inner loop on the first [n] bytes of some lines: it prints those that are
    complete and leaves the start of the next one. *)
Lemma grep_lines_ok fuel pattern ls n :
  Forall line_ok ls -> (length (take n (unlines ls)) < fuel)%nat ->
  exists ls1 ls2 p, ls = ls1 ++ ls2 /\
    grep_lines fuel pattern (take n (unlines ls)) = Some (selected pattern ls1, p) /\
    (NEWLINE ∉ p) /\ p ++ drop n (unlines ls) = unlines ls2 /\
    (ls1 = [] -> p = take n (unlines ls)) /\ (forall l, head ls = Some l -> (length l < n)%nat -> ls1 <> []).
Proof.
  revert ls n. induction fuel as [|fuel IH]; intros ls n Hls Hf; [lia|]. cbn [grep_lines].
  destruct ls as [|l ls].
  { exists [], [], []. unfold unlines. simpl. rewrite take_nil, drop_nil.
    split_and!; [done | done | set_solver | done | done | done]. }
  apply Forall_cons in Hls as [(Hn & H0 & Hl) Hls].
  rewrite unlines_cons in *.
  destruct (decide (length l < n)%nat) as [Hlt|Hge].
  - rewrite take_app_ge, drop_app_ge in * by lia. destruct (n - length l)%nat as [|k] eqn:Ek; [lia|]. simpl in *.
    rewrite length_app in Hf. rewrite strchr_cut_found by done. simpl in Hf.
    destruct (IH ls k Hls ltac:(lia)) as (ls1 & ls2 & p & -> & E & Hp & Hd & _ & _). rewrite E.
    exists (l :: ls1), ls2, p. split_and!; try done.
  - rewrite take_app_le by lia. assert (NEWLINE ∉ take n l) as Hnt.
    { intros Hin. apply Hn. rewrite <- (take_drop n l). apply elem_of_app. by left. }
    rewrite strchr_cut_none by done. exists [], (l :: ls), (take n l). split_and!; try done.
    + by rewrite unlines_cons, drop_app_le, app_assoc, take_drop by lia.
    + intros l' [= <-] Hlt. lia.
Qed.

Lemma length_unlines ls : (length ls <= length (unlines ls))%nat.
Proof.
  induction ls as [|l ls IH]; [simpl; lia|]. rewrite unlines_cons, length_app. simpl. lia.
Qed.

(** What is kept between two calls of read is less than a line. *)
Lemma kept_short kept input ls :
  kept ++ input = unlines ls -> NEWLINE ∉ kept -> Forall line_ok ls -> (length kept < GREPBUF - 1)%nat.
Proof.
  intros E Hk Hls. destruct ls as [|l ls].
  { apply app_eq_nil in E as [-> _]. simpl. lia. }
  apply Forall_cons in Hls as [(_ & _ & Hl) _]. destruct (decide (length l < length kept)%nat) as [Hlt|Hge]; [|lia].
  exfalso. apply Hk. apply (list_elem_of_lookup_2 _ (length l)).
  rewrite <- (lookup_app_l kept input) by done. rewrite E.
  by rewrite unlines_cons, lookup_app_r, Nat.sub_diag by lia.
Qed.

(** The outer loop on a file whose reads give what is asked for. *)
Lemma grep_loop_ok sizes pattern kept input ls :
  kept ++ input = unlines ls -> (NEWLINE ∉ kept) -> Forall line_ok ls ->
  Forall (fun k => (GREPBUF - 1 <= k)%nat) sizes -> (length ls < length sizes)%nat ->
  grep_loop sizes pattern kept input = Some (selected pattern ls).
Proof.
  revert kept input ls. induction sizes as [|size sizes IH]; intros kept input ls E Hk Hls Hs Hn; [simpl in Hn; lia|].
  apply Forall_cons in Hs as [Hsize Hs]. simpl in Hn. cbn [grep_loop]. unfold read.
  pose proof (kept_short _ _ _ E Hk Hls) as Hkl.
  replace (size `min` (GREPBUF - length kept - 1))%nat with (GREPBUF - 1 - length kept)%nat by lia.
  set (k := (GREPBUF - 1 - length kept)%nat). cbn [fst snd]. destruct (decide (take k input = [])) as [E0|E0].
  - destruct input as [|c input]; [|by destruct k eqn:Ek; [unfold k in Ek; lia|]].
    rewrite app_nil_r in E. subst kept. destruct ls as [|l ls]; [done|].
    exfalso. apply Hk. rewrite unlines_cons. apply elem_of_app. right. left.
  - assert (kept ++ take k input = take (GREPBUF - 1) (unlines ls)) as Eb.
    { rewrite <- E, take_app_ge by lia. done. }
    assert (drop k input = drop (GREPBUF - 1) (unlines ls)) as Ed.
    { rewrite <- E, drop_app_ge by lia. done. }
    rewrite Eb, Ed.
    destruct (grep_lines_ok (S (length (take (GREPBUF - 1) (unlines ls)))) pattern ls (GREPBUF - 1) Hls)
      as (ls1 & ls2 & p & -> & Eg & Hp & Ep & _ & Hne); [lia|]. rewrite Eg.
    destruct ls1 as [|l ls1].
    { exfalso. destruct ls2 as [|l ls2].
      - apply E0. unfold unlines in E. simpl in E. apply app_eq_nil in E as [_ ->]. apply take_nil.
      - apply Forall_cons in Hls as [(_ & _ & Hl) _]. by apply (Hne l). }
    rewrite decide_False.
    2: { intros Hlen. apply (f_equal length) in Ep. rewrite length_app, Hlen, length_take, length_drop in Ep.
         rewrite unlines_app, unlines_cons, !length_app in Ep. cbn [length] in Ep. lia. }
    rewrite length_app in Hn. simpl in Hn. apply Forall_app in Hls as [_ Hls2].
    rewrite (IH p (drop (GREPBUF - 1) (unlines ((l :: ls1) ++ ls2))) ls2 Ep Hp Hls2 Hs ltac:(lia)).
    unfold selected. by rewrite fmap_app, concat_app.
Qed.

(** [grep] on a file prints exactly the lines that match, whole and in order.
    The file consists of lines of less than 1023 bytes, each ended by a newline
    and without NUL bytes; calls of read return all that is asked for up to the
    end of the file, as they do on files. *)
Theorem grep_prints_matching_lines sizes pattern ls :
  Forall line_ok ls -> Forall (fun k => (GREPBUF - 1 <= k)%nat) sizes -> (length ls < length sizes)%nat ->
  grep sizes pattern (unlines ls) = Some (selected pattern ls).
Proof. intros Hls Hs Hn. apply grep_loop_ok; [done | apply not_elem_of_nil | done..]. Qed.

(** Three lines, of which [^a.*c$] matches the first and the third. *)
Lemma grep_prints_matching_lines_witness :
  grep (replicate 4 2000%nat) [94; 97; 46; 42; 99; 36] (unlines [[97; 98; 99]; [98; 99]; [97; 99]]) =
    Some [97; 98; 99; 10; 97; 99; 10].
Proof.
  refine (grep_prints_matching_lines (replicate 4 2000%nat) [94; 97; 46; 42; 99; 36] [[97; 98; 99]; [98; 99]; [97; 99]] _ _ _).
  - repeat constructor; simpl; try (rewrite !not_elem_of_cons; split_and!; [lia..|apply not_elem_of_nil]); lia.
  - apply Forall_replicate. apply Nat.leb_le. reflexivity.
  - simpl. lia.
Defined.

(** When a call of read returns a part of a line, as one on a pipe may, [grep]
    forgets it: the outcome is that of a run that never saw those bytes, so lines
    are missed, or found where only their end matches. *)
Theorem grep_forgets_partial_line size sizes pattern a input :
  a <> [] -> length a = size -> (size < GREPBUF)%nat -> (NEWLINE ∉ a) ->
  grep (size :: sizes) pattern (a ++ input) = grep sizes pattern input.
Proof.
  intros Ha Hl Hs Hn. unfold grep. cbn [grep_loop]. unfold read. cbn [length fst snd].
  replace (size `min` (GREPBUF - 0 - 1))%nat with (length a) by lia.
  rewrite take_app_length, drop_app_length, decide_False by done. cbn [app grep_lines].
  rewrite strchr_cut_none, decide_True by done. by destruct (grep_loop sizes pattern [] input).
Qed.
(** The line [ab] in two pieces is not found. *)
Lemma grep_forgets_partial_line_witness : grep [1; 2]%nat [97; 98] [97; 98; 10] = Some [].
Proof.
  refine (eq_trans (grep_forgets_partial_line 1 [2%nat] [97; 98] [97] [98; 10] _ _ _ _) _); [done | done | | |reflexivity].
  - apply Nat.ltb_lt. reflexivity.
  - rewrite not_elem_of_cons. split; [lia | apply not_elem_of_nil].
Defined.
