(* ===== verification/Printf.v ===== *)
(** * Formatted output (printf.c, and printint and cprintf of console.c)

    The user library's printf and the kernel's cprintf.  What they write is a
    list of bytes, in the order of the calls of [putc] and [consputc].  The
    arguments are the words [ap] on the stack after the format; [str] gives the
    bytes of the string at an address, which are read up to its NUL. *)

From S2P Require Import Prelude Mem CString.
#[local] Open Scope Z_scope.

Abbreviation PERCENT := 37.
Abbreviation MINUS := 45.

(** [digits[]], of printf.c with capital letters and of console.c without. *)
Definition digits_upper (d : Z) : Z := if d <? 10 then 48 + d else 55 + d.
Definition digits_lower (d : Z) : Z := if d <? 10 then 48 + d else 87 + d.

(** [do buf[i++] = digits[x % base]; while((x /= base) != 0)]: the bytes put into
    [buf], the first one first. *)
Fixpoint printint_loop (fuel : nat) (digits : Z -> Z) (base x : Z) : option (list Z) :=
  match fuel with
  | O => None
  | S fuel =>
      let c := digits (x mod base) in
      let x := x / base in
      if x =? 0 then Some [c]
      else match printint_loop fuel digits base x with
           | Some l => Some (c :: l)
           | None => None
           end
  end.

(** The two functions [printint] differ in [digits] and in the way they write
    down the sign.  A number of 32 bits has at most 32 digits. *)
Definition printint (xx base : Z) (sgn : bool) : option (list Z) :=
  let neg := sgn && (xx <? 0) in
  let x := if neg then u32 (- xx) else u32 xx in
  match printint_loop 32 digits_upper base x with
  | Some buf => Some (reverse (if neg then buf ++ [MINUS] else buf))
  | None => None
  end.
Definition printint_kernel (xx base : Z) (sign : bool) : option (list Z) :=
  let sign := if sign then xx <? 0 else false in
  let x := if sign then u32 (- xx) else u32 xx in
  match printint_loop 32 digits_lower base x with
  | Some buf => Some (reverse (buf ++ if sign then [MINUS] else []))
  | None => None
  end.

Definition null_str : list Z := [40; 110; 117; 108; 108; 41].

Section printf.
Context (str : Z -> list Z).

Definition string_arg (p : Z) : list Z := if p =? 0 then null_str else str p.
Definition opt_app (o o' : option (list Z)) : option (list Z) :=
  match o, o' with
  | Some a, Some b => Some (a ++ b)
  | _, _ => None
  end.

(** [printf]: [state] is whether the last byte was a percent sign. *)
Fixpoint printf_loop (fmt : list Z) (state : bool) (ap : nat -> Z) : option (list Z) :=
  match fmt with
  | [] => Some []
  | c :: fmt =>
      if negb state then
        if c =? PERCENT then printf_loop fmt true ap
        else opt_app (Some [c]) (printf_loop fmt false ap)
      else
        if c =? 100 then opt_app (printint (s32 (ap 0%nat)) 10 true) (printf_loop fmt false (fun i => ap (S i)))
        else if (c =? 120) || (c =? 112) then
          opt_app (printint (s32 (ap 0%nat)) 16 false) (printf_loop fmt false (fun i => ap (S i)))
        else if c =? 115 then opt_app (Some (string_arg (ap 0%nat))) (printf_loop fmt false (fun i => ap (S i)))
        else if c =? 99 then opt_app (Some [u8 (ap 0%nat)]) (printf_loop fmt false (fun i => ap (S i)))
        else if c =? PERCENT then opt_app (Some [c]) (printf_loop fmt false ap)
        else opt_app (Some [PERCENT; c]) (printf_loop fmt false ap)
  end.
Definition printf (fmt : list Z) (ap : nat -> Z) : option (list Z) := printf_loop fmt false ap.

(** [cprintf], without its lock. *)
Fixpoint cprintf (fmt : list Z) (argp : nat -> Z) : option (list Z) :=
  match fmt with
  | [] => Some []
  | c :: fmt =>
      if negb (c =? PERCENT) then opt_app (Some [c]) (cprintf fmt argp)
      else match fmt with
           | [] => Some []
           | c :: fmt =>
               if c =? 100 then opt_app (printint_kernel (s32 (argp 0%nat)) 10 true) (cprintf fmt (fun i => argp (S i)))
               else if (c =? 120) || (c =? 112) then
                 opt_app (printint_kernel (s32 (argp 0%nat)) 16 false) (cprintf fmt (fun i => argp (S i)))
               else if c =? 115 then opt_app (Some (string_arg (argp 0%nat))) (cprintf fmt (fun i => argp (S i)))
               else if c =? PERCENT then opt_app (Some [PERCENT]) (cprintf fmt argp)
               else opt_app (Some [PERCENT; c]) (cprintf fmt argp)
           end
  end.
End printf.

(** ** Numbers *)

(** The value of digits in a base, the most significant first. *)
Definition value (base : Z) (ds : list Z) : Z := foldl (fun v d => v * base + d) 0 ds.

(** The loop writes the digits of [x], the least significant first, and no zeros
    after the last one that counts; it ends within as many rounds as [x] has
    digits. *)
Lemma printint_loop_ok fuel digits base x :
  1 < base -> 0 <= x < base ^ Z.of_nat fuel -> (0 < fuel)%nat ->
  exists ds, printint_loop fuel digits base x = Some (digits <$> ds) /\ value base (reverse ds) = x /\
    Forall (fun d => 0 <= d < base) ds /\ ds <> [] /\ (last ds = Some 0 -> ds = [0]) /\
    forall k, (0 < k)%nat -> x < base ^ Z.of_nat k -> (length ds <= k)%nat.
Proof.
  intros Hb. revert x. induction fuel as [|fuel IH]; intros x Hx Hf; [lia|]. cbn [printint_loop].
  pose proof (Z.mod_pos_bound x base ltac:(lia)) as Hm. pose proof (Z.div_mod x base ltac:(lia)) as Hdm.
  destruct (Z.eqb_spec (x / base) 0) as [E|E].
  { exists [x mod base]. split_and!; [done | | by apply Forall_singleton | done | simpl; congruence | simpl; lia].
    unfold value. simpl. rewrite E in Hdm. lia. }
  assert (0 < x / base) as Hpos by (assert (0 <= x / base) by (apply Z.div_pos; lia); lia).
  assert (x / base < base ^ Z.of_nat fuel) as Hlt.
  { apply Z.div_lt_upper_bound; [lia|]. rewrite <- Z.pow_succ_r by lia. rewrite <- Nat2Z.inj_succ. apply Hx. }
  destruct fuel as [|fuel]; [simpl in Hlt; lia|].
  destruct (IH (x / base) ltac:(lia) ltac:(lia)) as (ds & Eq & Hv & Hd & Hne & Hz & Hl). rewrite Eq.
  exists (x mod base :: ds). split_and!; [done | | by constructor | done | |].
  - unfold value in *. rewrite reverse_cons, foldl_app, Hv. simpl. lia.
  - destruct ds as [|d ds]; [done|]. intros Hlast. change (last (d :: ds) = Some 0) in Hlast.
    rewrite (Hz Hlast) in Hv. unfold value in Hv. simpl in Hv. lia.
  - intros k Hk Hxk. destruct k as [|[|k]]; [lia | simpl in Hxk; rewrite Z.div_small in E by lia; done|].
    simpl. apply le_n_S, Hl; [lia|]. apply Z.div_lt_upper_bound; [lia|].
    rewrite <- Z.pow_succ_r, <- Nat2Z.inj_succ by lia. done.
Qed.

Lemma dec_value_digits ds acc :
  Forall (fun d => 0 <= d < 10) ds -> dec_value acc (digits_upper <$> ds) = foldl (fun v d => v * 10 + d) acc ds.
Proof.
  intros Hd. revert acc. induction Hd as [|d ds Hr Hd IH]; intros acc; simpl; [done|].
  rewrite IH. f_equal. unfold digits_upper. destruct (Z.ltb_spec d 10); lia.
Qed.
Lemma digits_are_digits ds : Forall (fun d => 0 <= d < 10) ds -> Forall is_digit (digits_upper <$> ds).
Proof.
  intros Hd. apply Forall_fmap. eapply Forall_impl; [exact Hd|]. intros d Hr. cbn in Hr. unfold compose, is_digit, digits_upper.
  destruct (Z.ltb_spec d 10); lia.
Qed.

(** The magnitude that is written for [xx]. *)
Lemma printint_abs xx base sgn :
  1 < base -> -2147483648 <= xx < 2147483648 ->
  let neg := sgn && (xx <? 0) in
  let x := if neg then - xx else u32 xx in
  exists ds, printint xx base sgn = Some ((if neg then [MINUS] else []) ++ (digits_upper <$> ds)) /\
    value base ds = x /\ Forall (fun d => 0 <= d < base) ds /\ (head ds = Some 0 -> ds = [0]) /\
    forall k, (0 < k)%nat -> x < base ^ Z.of_nat k -> (length ds <= k)%nat.
Proof.
  intros Hb Hx neg x. unfold printint. fold neg.
  assert ((if neg then u32 (- xx) else u32 xx) = x) as ->.
  { unfold x. destruct neg eqn:En; [|done]. unfold neg in En. apply andb_true_iff in En as [_ En].
    apply Z.ltb_lt in En. rewrite u32_small by lia. done. }
  assert (0 <= x < base ^ Z.of_nat 32) as Hr.
  { assert (0 <= x < W32) as Hr'.
    { unfold x. destruct neg eqn:En; [|apply u32_range]. apply andb_true_iff in En as [_ En].
      apply Z.ltb_lt in En. lia. }
    split; [lia|]. eapply Z.lt_le_trans; [apply Hr'|]. change W32 with (2 ^ Z.of_nat 32). apply Z.pow_le_mono_l. lia. }
  destruct (printint_loop_ok 32 digits_upper base x Hb Hr ltac:(lia)) as (ds & -> & Hv & Hd & _ & Hz & Hl).
  exists (reverse ds). split_and!.
  - f_equal. rewrite fmap_reverse. destruct neg; [by rewrite reverse_app | done].
  - done.
  - by apply Forall_reverse.
  - rewrite head_reverse. intros Hh. by rewrite (Hz Hh).
  - by rewrite length_reverse.
Qed.

(** ** Properties *)

(** What [printf] prints for an int with %d, [atoi] reads back.  The number is
    written in decimal with no zeros in front, after a minus sign if it is
    negative (the least int included, whose negation does not fit an int), and
    takes at most 11 of the 16 bytes of the buffer; when the bytes without the
    sign stand in memory before a byte that is no digit, atoi returns their
    value. *)
Theorem printint_atoi_roundtrip xx m s fuel :
  -2147483648 <= xx < 2147483648 ->
  exists ds, printint xx 10 true = Some ((if xx <? 0 then [MINUS] else []) ++ ds) /\
    Forall is_digit ds /\ (head ds = Some 48 -> ds = [48]) /\ (length ds <= 10)%nat /\
    (xx <> -2147483648 -> bytes_at m s (length ds) = ds -> ~ is_digit (m (s + Z.of_nat (length ds))) ->
     (length ds < fuel)%nat -> atoi fuel m s = Some (Z.abs xx)).
Proof.
  intros Hx. destruct (printint_abs xx 10 true ltac:(lia) Hx) as (ds & E & Hv & Hd & Hz & Hl). simpl in E, Hv, Hl.
  assert ((if xx <? 0 then - xx else u32 xx) = Z.abs xx) as Ha.
  { destruct (Z.ltb_spec xx 0); [lia | rewrite u32_small; lia]. }
  rewrite Ha in Hv, Hl. exists (digits_upper <$> ds). split_and!; [done | by apply digits_are_digits | | |].
  - intros Hh. rewrite Hz; [done|]. destruct ds as [|d ds]; [done|]. apply Forall_cons in Hd as [Hd _].
    simpl in *. unfold digits_upper in Hh. destruct (Z.ltb_spec d 10); [|lia]. injection Hh as Hh. f_equal. lia.
  - rewrite length_fmap. apply Hl; [lia|]. simpl. lia.
  - intros Hmin Hb Hn Hf. unfold atoi.
    assert (dec_value 0 (digits_upper <$> ds) = Z.abs xx) as <- by (rewrite dec_value_digits by done; exact Hv).
    apply atoi_loop_digits; [done | by apply digits_are_digits | done | lia | | done].
    rewrite dec_value_digits by done. unfold value in Hv. rewrite Hv. lia.
Qed.
(** -42, of which atoi reads the digits. *)
Lemma printint_atoi_roundtrip_witness :
  printint (-42) 10 true = Some [45; 52; 50] /\
  atoi 9 (fun x => if x =? 0 then 52 else if x =? 1 then 50 else 0) 0 = Some 42.
Proof.
  destruct (printint_atoi_roundtrip (-42) (fun x => if x =? 0 then 52 else if x =? 1 then 50 else 0) 0 9 ltac:(lia))
    as (ds & E & _ & _ & _ & H).
  assert (ds = [52; 50]) as -> by (vm_compute in E; by injection E as <-). split; [exact E|].
  apply H; [lia | reflexivity | unfold is_digit; simpl; lia | simpl; lia].
Defined.

(** ** The two printfs *)

Lemma printint_loop_ext fuel d d' base x :
  0 < base -> (forall i, 0 <= i < base -> d i = d' i) -> printint_loop fuel d base x = printint_loop fuel d' base x.
Proof.
  intros Hb Hd. revert x. induction fuel as [|fuel IH]; intros x; cbn [printint_loop]; [done|].
  by rewrite Hd, IH by (by apply Z.mod_pos_bound).
Qed.
(** The two [printint]s agree in decimal. *)
Lemma printint_same xx : printint_kernel xx 10 true = printint xx 10 true.
Proof.
  unfold printint, printint_kernel. rewrite andb_true_l.
  rewrite (printint_loop_ext _ digits_lower digits_upper).
  - destruct (printint_loop _ _ _ _); [|done]. destruct (xx <? 0); [done | by rewrite app_nil_r].
  - lia.
  - intros i Hi. unfold digits_lower, digits_upper. destruct (Z.ltb_spec i 10); [done | lia].
Qed.

(** The bytes of a format that follow its percent signs. *)
Fixpoint convs (fmt : list Z) (state : bool) : list Z :=
  match fmt with
  | [] => []
  | c :: fmt => if state then c :: convs fmt false else convs fmt (c =? PERCENT)
  end.

Lemma cprintf_bound str n : forall fmt ap, (length fmt < n)%nat ->
  Forall (fun c => c ∉ [99; 112; 120]) (convs fmt false) -> cprintf str fmt ap = printf_loop str fmt false ap.
Proof.
  induction n as [|n IH]; intros fmt ap Hn Hc; [lia|]. destruct fmt as [|c fmt]; [done|].
  simpl in Hn. cbn [cprintf printf_loop convs negb] in *. destruct (c =? PERCENT); cbn [negb].
  2: { by rewrite IH by (done || lia). }
  destruct fmt as [|d fmt]; [done|]. simpl in Hn. cbn [convs] in Hc. apply Forall_cons in Hc as [Hd Hc].
  rewrite !not_elem_of_cons in Hd. destruct Hd as (H1 & H2 & H3 & _). cbn [printf_loop negb].
  rewrite (proj2 (Z.eqb_neq d 99)), (proj2 (Z.eqb_neq d 112)), (proj2 (Z.eqb_neq d 120)) by done. simpl.
  rewrite printint_same, !IH by (done || lia). destruct (Z.eqb_spec d PERCENT) as [->|]; done.
Qed.

(** The kernel's cprintf and the user library's printf write the same bytes,
    for every format and all arguments, unless the format has %c, which cprintf
    does not know, or a hexadecimal conversion, where the digits differ in case. *)
Theorem cprintf_is_printf str fmt ap :
  Forall (fun c => c ∉ [99; 112; 120]) (convs fmt false) -> cprintf str fmt ap = printf str fmt ap.
Proof. apply (cprintf_bound str (S (length fmt))). lia. Qed.
(** "%d%%" of 7. *)
Lemma cprintf_is_printf_witness : cprintf (fun _ => []) [37; 100; 37; 37] (fun _ => 7) = printf (fun _ => []) [37; 100; 37; 37] (fun _ => 7).
Proof.
  apply (cprintf_is_printf (fun _ => []) [37; 100; 37; 37] (fun _ => 7)).
  simpl. repeat constructor; rewrite !not_elem_of_cons; split_and!; (lia || apply not_elem_of_nil).
Defined.
