(* ===== verification/Sh.v ===== *)
(** * The shell (sh.c)

    The parser, from a line of input to a command, and the runner, from a command
    to the system calls it makes.  A pointer into the line is its index; the byte
    at the end of the line is the NUL.  Memory for commands is never short. *)

From S2P Require Import Prelude.
#[local] Open Scope Z_scope.

Abbreviation MAXARGS := 10%nat.
Abbreviation O_RDONLY := 0.
Abbreviation O_WRONLY := 1.
Abbreviation O_CREATE := 512.

(** The commands: words are pairs of the pointers to their start and their end.
    The constructor functions of sh.c ([execcmd], [redircmd] and the like) are
    the constructors. *)
Inductive cmd (W : Type) : Type :=
| Exec (argv : list W)
| Redir (c : cmd W) (file : W) (mode fd : Z)
| Pipe (left right : cmd W)
| List (left right : cmd W)
| Back (c : cmd W).
Arguments Exec {W} argv.
Arguments Redir {W} c file mode fd.
Arguments Pipe {W} left right.
Arguments List {W} left right.
Arguments Back {W} c.

(** ** Tokens *)

Definition whitespace : list Z := [32; 9; 13; 10; 11].
Definition symbols : list Z := [60; 124; 62; 38; 59; 40; 41].
(** [strchr] of a byte that is not NUL in such a string. *)
Definition in_str (l : list Z) (c : Z) : bool := bool_decide (c ∈ l).

Definition ch (b : list Z) (s : nat) : Z := default 0 (b !! s).

(** [while(s < es && p( *s)) s++], where [k] is [es - s]. *)
Fixpoint skip (k : nat) (p : Z -> bool) (b : list Z) (s : nat) : nat :=
  match k with
  | O => s
  | S k => if p (ch b s) then skip k p b (S s) else s
  end.
Definition skip_ws (b : list Z) (s : nat) : nat := skip (length b - s) (in_str whitespace) b s.
Definition word_char (c : Z) : bool := negb (in_str whitespace c) && negb (in_str symbols c).

(** What a token is, and the pointer behind it; a is the letter 97, + is 43. *)
Definition token_at (b : list Z) (s : nat) : Z * nat :=
  let c := ch b s in
  if c =? 0 then (c, s)
  else if in_str [124; 40; 41; 59; 38; 60] c then (c, S s)
  else if c =? 62 then if ch b (S s) =? 62 then (43, S (S s)) else (c, S s)
  else (97, skip (length b - s) word_char b s).

(** [gettoken]: the token, the pointers to its start and its end, and the new
    [*ps]. *)
Definition gettoken (b : list Z) (s : nat) : Z * nat * nat * nat :=
  let q := skip_ws b s in
  let '(ret, eq) := token_at b q in
  (ret, q, eq, skip_ws b eq).
Definition peek (b : list Z) (s : nat) (toks : list Z) : bool * nat :=
  let s := skip_ws b s in
  (negb (ch b s =? 0) && in_str toks (ch b s), s).

(** ** Parsing *)

Abbreviation word := (nat * nat)%type.

(** A parser gives a value and the new [*ps], or panics; [Fuel] is not reached. *)
Inductive parsed (A : Type) : Type := Parsed (a : A) (s : nat) | Failed (msg : string) | Fuel.
Arguments Parsed {A} a s.
Arguments Failed {A} msg.
Arguments Fuel {A}.
Definition pbind {A B} (r : parsed A) (f : A -> nat -> parsed B) : parsed B :=
  match r with
  | Parsed a s => f a s
  | Failed msg => Failed msg
  | Fuel => Fuel
  end.

(** The redirections that [parseredirs] finds; [k] bounds their number. *)
Abbreviation redir := (word * Z * Z)%type.
Fixpoint parseredirs (k : nat) (b : list Z) (s : nat) (acc : list redir) : parsed (list redir) :=
  match k with
  | O => Fuel
  | S k =>
      let '(p, s) := peek b s [60; 62] in
      if p then
        let '(tok, _, _, s) := gettoken b s in
        let '(t, q, eq, s) := gettoken b s in
        if negb (t =? 97) then Failed "missing file for redirection"
        else
          let acc := acc ++ (if tok =? 60 then [((q, eq), O_RDONLY, 0)]
                             else [((q, eq), Z.lor O_WRONLY O_CREATE, 1)]) in
          parseredirs k b s acc
      else Parsed acc s
  end.
(** [cmd = redircmd(cmd, ...)] for each of them. *)
Definition redirs {W} (c : cmd W) (l : list (W * Z * Z)) : cmd W :=
  foldl (fun c r => let '(f, mode, fd) := r in Redir c f mode fd) c l.

(** The loop of [parseexec] over the arguments, with [k] more allowed.  The
    command that collects them is below the redirections found so far, so they
    are put around it when it is complete. *)
Fixpoint parseargs (k : nat) (b : list Z) (s : nat) (argv : list word) (rs : list redir)
  : parsed (cmd word) :=
  let '(p, s) := peek b s [124; 41; 38; 59] in
  if p then Parsed (redirs (Exec argv) rs) s
  else
    let '(tok, q, eq, s) := gettoken b s in
    if tok =? 0 then Parsed (redirs (Exec argv) rs) s
    else if negb (tok =? 97) then Failed "syntax"
    else match k with
         | O | S O => Failed "too many args"
         | S k => pbind (parseredirs (S (length b)) b s rs) (fun rs s => parseargs k b s (argv ++ [(q, eq)]) rs)
         end.

(** The loop of [parseline] over &; [k] bounds their number. *)
Fixpoint parsebacks (k : nat) (b : list Z) (c : cmd word) (s : nat) : parsed (cmd word) :=
  match k with
  | O => Fuel
  | S k =>
      let '(p, s) := peek b s [38] in
      if p then let '(_, _, _, s) := gettoken b s in parsebacks k b (Back c) s else Parsed c s
  end.

Fixpoint parseline (fuel : nat) (b : list Z) (s : nat) : parsed (cmd word) :=
  match fuel with
  | O => Fuel
  | S fuel =>
      pbind (parsepipe fuel b s) (fun c s =>
      pbind (parsebacks (S (length b)) b c s) (fun c s =>
      let '(p, s) := peek b s [59] in
      if p then
        let '(_, _, _, s) := gettoken b s in
        pbind (parseline fuel b s) (fun d s => Parsed (List c d) s)
      else Parsed c s))
  end
with parsepipe (fuel : nat) (b : list Z) (s : nat) : parsed (cmd word) :=
  match fuel with
  | O => Fuel
  | S fuel =>
      pbind (parseexec fuel b s) (fun c s =>
      let '(p, s) := peek b s [124] in
      if p then
        let '(_, _, _, s) := gettoken b s in
        pbind (parsepipe fuel b s) (fun d s => Parsed (Pipe c d) s)
      else Parsed c s)
  end
with parseexec (fuel : nat) (b : list Z) (s : nat) : parsed (cmd word) :=
  match fuel with
  | O => Fuel
  | S fuel =>
      let '(p, s) := peek b s [40] in
      if p then parseblock fuel b s
      else pbind (parseredirs (S (length b)) b s []) (fun rs s => parseargs MAXARGS b s [] rs)
  end
with parseblock (fuel : nat) (b : list Z) (s : nat) : parsed (cmd word) :=
  match fuel with
  | O => Fuel
  | S fuel =>
      let '(p, s) := peek b s [40] in
      if negb p then Failed "parseblock"
      else
        let '(_, _, _, s) := gettoken b s in
        pbind (parseline fuel b s) (fun c s =>
        let '(p, s) := peek b s [41] in
        if negb p then Failed "syntax - missing )"
        else
          let '(_, _, _, s) := gettoken b s in
          pbind (parseredirs (S (length b)) b s []) (fun rs s => Parsed (redirs c rs) s))
  end.

(** [nulterminate]: the line with a NUL at the end of every word. *)
Fixpoint nulterminate (c : cmd word) (b : list Z) : list Z :=
  match c with
  | Exec argv => foldl (fun b w => <[snd w := 0]> b) b argv
  | Redir c f _ _ => <[snd f := 0]> (nulterminate c b)
  | Pipe l r | List l r => nulterminate r (nulterminate l b)
  | Back c => nulterminate c b
  end.

(** The line ends in its NUL, which [nulterminate] may write again. *)
Definition parsecmd (b : list Z) : parsed (cmd word * list Z) :=
  pbind (parseline (4 * length b + 4) b 0) (fun c s =>
  let '(_, s) := peek b s [] in
  if negb (s =? length b)%nat then Failed "syntax"
  else Parsed (c, nulterminate c (b ++ [0])) s).
