(* ===== verification/ShParse.v ===== *)
(** * The parser of the shell

    The parser ends on every line, the words of the command it returns are ended
    by NULs without touching one another, and it reads back the commands that the
    grammar of the shell can write. *)

From S2P Require Import Prelude Sh.
#[local] Open Scope Z_scope.

(** ** Tokens *)

Lemma skip_spec k p b s :
  (s <= skip k p b s <= s + k)%nat /\
  (forall i, (s <= i < skip k p b s)%nat -> p (ch b i) = true) /\
  ((skip k p b s < s + k)%nat -> p (ch b (skip k p b s)) = false).
Proof.
  revert s. induction k as [|k IH]; intros s; cbn [skip].
  - split_and!; [lia | lia | intros; lia | lia].
  - destruct (p (ch b s)) eqn:Hp.
    + destruct (IH (S s)) as (H1 & H2 & H3). split_and!; [lia | lia | |].
      * intros i Hi. destruct (decide (i = s)) as [->|]; [done | apply H2; lia].
      * intros Hlt. apply H3. lia.
    + split_and!; [lia | lia | intros; lia | done].
Qed.

Lemma ch_end b s : (length b <= s)%nat -> ch b s = 0.
Proof. intros H. unfold ch. by rewrite lookup_ge_None_2. Qed.
Lemma ch_lt b s : ch b s <> 0 -> (s < length b)%nat.
Proof. intros H. destruct (decide (s < length b)%nat); [done|]. exfalso. apply H, ch_end. lia. Qed.

Lemma skip_ws_spec b s : (s <= length b)%nat ->
  (s <= skip_ws b s <= length b)%nat /\ in_str whitespace (ch b (skip_ws b s)) = false.
Proof.
  intros Hs. unfold skip_ws. destruct (skip_spec (length b - s) (in_str whitespace) b s) as (H1 & _ & H3).
  split; [lia|]. destruct (decide (skip (length b - s) (in_str whitespace) b s < length b)%nat) as [Hlt|Hge].
  - apply H3. lia.
  - rewrite ch_end by lia. reflexivity.
Qed.
Lemma skip_stop k p b s : p (ch b s) = false -> skip k p b s = s.
Proof. intros H. destruct k; simpl; [done | by rewrite H]. Qed.

(** A word is a run of word characters before another one. *)
Definition token_ok (b : list Z) (w : word) : Prop :=
  (fst w < snd w <= length b)%nat /\ (forall i, (fst w <= i < snd w)%nat -> word_char (ch b i) = true) /\
  ((snd w < length b)%nat -> word_char (ch b (snd w)) = false).

(** The symbols and white space, as the cases of a byte. *)
Lemma word_start c :
  c <> 0 -> in_str whitespace c = false -> in_str [124; 40; 41; 59; 38; 60] c = false -> (c =? 62) = false ->
  word_char c = true.
Proof.
  intros _ Hw Hs Hg. unfold word_char. rewrite Hw. simpl. apply negb_true_iff. unfold in_str in *.
  apply bool_decide_eq_false in Hs. apply bool_decide_eq_false. apply Z.eqb_neq in Hg. set_solver.
Qed.

Lemma token_at_spec b q r e :
  token_at b q = (r, e) -> (q <= length b)%nat -> in_str whitespace (ch b q) = false ->
  (q <= e <= length b)%nat /\ (ch b q <> 0 -> (q < e)%nat) /\ (r = 97 -> token_ok b (q, e)).
Proof.
  unfold token_at. intros E Hq Hw. destruct (Z.eqb_spec (ch b q) 0) as [E0|E0].
  { injection E as <- <-. split_and!; [lia | lia | done |]. rewrite E0. done. }
  pose proof (ch_lt _ _ E0). destruct (in_str [124; 40; 41; 59; 38; 60] (ch b q)) eqn:Es.
  { injection E as <- <-. split_and!; [lia | lia | lia |]. intros E97. rewrite E97 in Es. done. }
  destruct (ch b q =? 62) eqn:Eg.
  { destruct (Z.eqb_spec (ch b (S q)) 62) as [E62|]; injection E as <- <-.
    - assert (S q < length b)%nat by (apply ch_lt; lia). split_and!; [lia | lia | lia | done].
    - split_and!; [lia | lia | lia |]. intros E97. apply Z.eqb_eq in Eg. lia. }
  injection E as <- <-. destruct (skip_spec (length b - q) word_char b q) as (H1 & H2 & H3).
  assert (q < skip (length b - q) word_char b q)%nat as Hlt.
  { destruct (length b - q)%nat as [|k] eqn:Ek; [lia|]. cbn [skip]. rewrite word_start by done.
    destruct (skip_spec k word_char b (S q)) as (H4 & _). lia. }
  split_and!; [lia | lia | done |]. intros _. split_and!; cbn [fst snd]; [lia | lia | done|].
  intros Hl. apply H3. lia.
Qed.

Lemma gettoken_spec b s r q e s' :
  gettoken b s = (r, q, e, s') -> (s <= length b)%nat ->
  (s <= q <= e)%nat /\ (e <= s' <= length b)%nat /\ (ch b (skip_ws b s) <> 0 -> (s < s')%nat) /\
  (r = 97 -> token_ok b (q, e)).
Proof.
  unfold gettoken. intros E Hs. destruct (skip_ws_spec b s Hs) as [H1 H2].
  destruct (token_at b (skip_ws b s)) as [r0 e0] eqn:Et. injection E as <- <- <- <-.
  destruct (token_at_spec _ _ _ _ Et ltac:(lia) H2) as (H3 & H4 & H5).
  destruct (skip_ws_spec b e0 ltac:(lia)) as [H6 _]. split_and!; try lia. done.
Qed.
(** A token that peek saw makes gettoken move on. *)
Lemma peek_spec b s toks p s' :
  peek b s toks = (p, s') -> (s <= length b)%nat ->
  (s <= s' <= length b)%nat /\ (p = true -> ch b (skip_ws b s') <> 0).
Proof.
  unfold peek. intros E Hs. destruct (skip_ws_spec b s Hs) as [H1 H2]. injection E as <- <-. split; [lia|].
  intros Hp. apply andb_true_iff in Hp as [Hp _]. apply negb_true_iff, Z.eqb_neq in Hp.
  unfold skip_ws at 1. by rewrite skip_stop.
Qed.

(** ** Every line is parsed or refused *)

Fixpoint words {W} (c : cmd W) : list W :=
  match c with
  | Exec argv => argv
  | Redir c f _ _ => words c ++ [f]
  | Pipe l r | List l r => words l ++ words r
  | Back c => words c
  end.

Section parse.
Context (b : list Z).

(** A parser from [s] on ends, does not go back, and gives what satisfies [P]. *)
Definition good {A} (s : nat) (P : A -> Prop) (r : parsed A) : Prop :=
  match r with
  | Parsed a s' => (s <= s' <= length b)%nat /\ P a
  | Failed _ => True
  | Fuel => False
  end.

Lemma good_bind {A B} s (P : A -> Prop) (Q : B -> Prop) r f :
  good s P r -> (forall a s1, (s <= s1 <= length b)%nat -> P a -> good s1 Q (f a s1)) -> good s Q (pbind r f).
Proof using.
  intros Hr Hf. destruct r as [a s1| |]; simpl in *; [|done..]. destruct Hr as [Hs Ha].
  specialize (Hf a s1 Hs Ha). destruct (f a s1) as [c s2| |]; simpl in *; [|done..].
  destruct Hf as [H1 H2]. split; [lia | done].
Qed.
Lemma good_le {A} s s' (P : A -> Prop) r : good s' P r -> (s <= s')%nat -> good s P r.
Proof using. destruct r; simpl; [|done..]. intros [H1 H2] Hs. split; [lia | done]. Qed.

Definition redirs_ok (rs : list redir) : Prop := Forall (fun r => token_ok b (fst (fst r))) rs.
Definition words_ok (c : cmd word) : Prop := Forall (token_ok b) (words c).

Lemma words_redirs (c : cmd word) rs : words (redirs c rs) = words c ++ ((fun r => fst (fst r)) <$> rs).
Proof using.
  revert c. induction rs as [|[[f mode] fd] rs IH]; intros c; simpl; [by rewrite app_nil_r|].
  rewrite IH. simpl. by rewrite <- app_assoc.
Qed.
Lemma redirs_words_ok c rs : words_ok c -> redirs_ok rs -> words_ok (redirs c rs).
Proof using. intros Hc Hr. unfold words_ok. rewrite words_redirs. apply Forall_app. split; [done|]. by apply Forall_fmap. Qed.

Lemma parseredirs_good k s acc : (s <= length b)%nat -> (length b - s < k)%nat -> redirs_ok acc ->
  good s redirs_ok (parseredirs k b s acc).
Proof using.
  revert s acc. induction k as [|k IH]; intros s acc Hs Hk Hacc; [lia|]. cbn [parseredirs].
  destruct (peek b s [60; 62]) as [p s1] eqn:Ep. destruct (peek_spec _ _ _ _ _ Ep Hs) as [H1 Hp].
  destruct p; [|simpl; split; [lia | done]]. specialize (Hp eq_refl).
  destruct (gettoken b s1) as [[[tok q1] e1] s2] eqn:E1. destruct (gettoken_spec _ _ _ _ _ _ E1 ltac:(lia)) as (G1 & G2 & G3 & _).
  destruct (gettoken b s2) as [[[t q] e] s3] eqn:E2. destruct (gettoken_spec _ _ _ _ _ _ E2 ltac:(lia)) as (K1 & K2 & _ & K4).
  destruct (Z.eqb_spec t 97) as [->|]; [|done]. simpl. specialize (G3 Hp). specialize (K4 eq_refl).
  eapply good_le; [apply IH; [lia | lia |] | lia].
  apply Forall_app. split; [done|]. destruct (tok =? 60); by apply Forall_singleton.
Qed.

Lemma parseargs_good k s argv rs : (s <= length b)%nat -> Forall (token_ok b) argv -> redirs_ok rs ->
  good s words_ok (parseargs k b s argv rs).
Proof using.
  revert s argv rs. induction k as [|k IH]; intros s argv rs Hs Ha Hr; cbn [parseargs];
    destruct (peek b s [124; 41; 38; 59]) as [p s1] eqn:Ep; destruct (peek_spec _ _ _ _ _ Ep Hs) as [H1 _];
    (destruct p; [by split; [lia | apply redirs_words_ok]|]);
    destruct (gettoken b s1) as [[[tok q] e] s2] eqn:E1;
    destruct (gettoken_spec _ _ _ _ _ _ E1 ltac:(lia)) as (G1 & G2 & _ & G4);
    (destruct (tok =? 0); [by split; [lia | apply redirs_words_ok]|]);
    (destruct (Z.eqb_spec tok 97) as [->|]; [|done]); cbn [negb]; [done|].
  destruct k as [|k]; [done|]. eapply good_le; [eapply (good_bind s2 redirs_ok)|lia].
  - apply parseredirs_good; [lia | lia | done].
  - intros rs' s3 H3 Hr'. apply IH; [lia | | done]. apply Forall_app. split; [done|]. apply Forall_singleton. by apply G4.
Qed.

Lemma parsebacks_good k c s : (s <= length b)%nat -> (length b - s < k)%nat -> words_ok c ->
  good s words_ok (parsebacks k b c s).
Proof using.
  revert c s. induction k as [|k IH]; intros c s Hs Hk Hc; [lia|]. cbn [parsebacks].
  destruct (peek b s [38]) as [p s1] eqn:Ep. destruct (peek_spec _ _ _ _ _ Ep Hs) as [H1 Hp].
  destruct p; [|simpl; split; [lia | done]]. specialize (Hp eq_refl).
  destruct (gettoken b s1) as [[[tok q] e] s2] eqn:E1. destruct (gettoken_spec _ _ _ _ _ _ E1 ltac:(lia)) as (G1 & G2 & G3 & _).
  specialize (G3 Hp). eapply good_le; [apply IH; [lia | lia | done] | lia].
Qed.

(** The four parsers, by what is left of the line and their place in the
    grammar. *)
Lemma parsers_good fuel : forall s, (s <= length b)%nat ->
  ((4 * (length b - s) + 3 < fuel)%nat -> good s words_ok (parseline fuel b s)) /\
  ((4 * (length b - s) + 2 < fuel)%nat -> good s words_ok (parsepipe fuel b s)) /\
  ((4 * (length b - s) + 1 < fuel)%nat -> good s words_ok (parseexec fuel b s)) /\
  ((4 * (length b - s) < fuel)%nat -> good s words_ok (parseblock fuel b s)).
Proof using.
  induction fuel as [|fuel IH]; intros s Hs; [split_and!; lia|].
  assert (forall toks s1 s0 p tok q e s2, peek b s1 toks = (p, s0) -> (s1 <= length b)%nat -> p = true ->
    gettoken b s0 = (tok, q, e, s2) -> (s1 < s2 <= length b)%nat) as Hstep.
  { intros toks s1 s0 p tok q e s2 Ep H1 -> E. destruct (peek_spec _ _ _ _ _ Ep H1) as [Hp Hc].
    destruct (gettoken_spec _ _ _ _ _ _ E ltac:(lia)) as (G1 & G2 & G3 & _). specialize (G3 (Hc eq_refl)). lia. }
  split_and!; intros Hf; cbn [parseline parsepipe parseexec parseblock].
  - eapply good_bind; [apply IH; lia|]. intros c s1 H1 Hc.
    eapply good_bind; [apply parsebacks_good; [lia | lia | done]|]. intros c2 s2 H2 Hc2.
    destruct (peek b s2 [59]) as [p s3] eqn:Ep. destruct (peek_spec _ _ _ _ _ Ep ltac:(lia)) as [H3 _].
    destruct p; [|simpl; split; [lia | done]]. destruct (gettoken b s3) as [[[tok q] e] s4] eqn:E.
    destruct (Hstep _ _ _ _ _ _ _ _ Ep ltac:(lia) eq_refl E) as [H4 H5].
    eapply good_le; [eapply (good_bind s4); [apply IH; lia|]|lia]. intros d s5 H6 Hd. simpl. split; [lia|].
    by apply Forall_app.
  - eapply good_bind; [apply IH; lia|]. intros c s2 H2 Hc2.
    destruct (peek b s2 [124]) as [p s3] eqn:Ep. destruct (peek_spec _ _ _ _ _ Ep ltac:(lia)) as [H3 _].
    destruct p; [|simpl; split; [lia | done]]. destruct (gettoken b s3) as [[[tok q] e] s4] eqn:E.
    destruct (Hstep _ _ _ _ _ _ _ _ Ep ltac:(lia) eq_refl E) as [H4 H5].
    eapply good_le; [eapply (good_bind s4); [apply IH; lia|]|lia]. intros d s5 H6 Hd. simpl. split; [lia|].
    by apply Forall_app.
  - destruct (peek b s [40]) as [p s1] eqn:Ep. destruct (peek_spec _ _ _ _ _ Ep Hs) as [H1 _].
    destruct p; [eapply good_le; [apply IH; lia | lia]|].
    eapply good_le; [eapply (good_bind s1 redirs_ok)|lia].
    + apply parseredirs_good; [lia | lia | constructor].
    + intros rs s2 H2 Hr. apply parseargs_good; [lia | constructor | done].
  - destruct (peek b s [40]) as [p s1] eqn:Ep. destruct p; [|done]. cbn [negb].
    destruct (gettoken b s1) as [[[tok q] e] s2] eqn:E.
    destruct (Hstep _ _ _ _ _ _ _ _ Ep Hs eq_refl E) as [H1 H2].
    eapply good_le; [eapply (good_bind s2 words_ok); [apply IH; lia|]|lia]. intros c s3 H3 Hc.
    destruct (peek b s3 [41]) as [p s4] eqn:Ep2. destruct p; [|done]. cbn [negb].
    destruct (gettoken b s4) as [[[tok2 q2] e2] s5] eqn:E2.
    destruct (Hstep _ _ _ _ _ _ _ _ Ep2 ltac:(lia) eq_refl E2) as [H5 H6].
    eapply good_le; [eapply (good_bind s5 redirs_ok)|lia].
    + apply parseredirs_good; [lia | lia | constructor].
    + intros rs s6 H7 Hr. simpl. split; [lia | by apply redirs_words_ok].
Qed.
End parse.

(** ** Strings *)

Definition nuls (l : list word) (b : list Z) : list Z := foldl (fun b w => <[snd w := 0]> b) b l.
Lemma nuls_app l l' b : nuls (l ++ l') b = nuls l' (nuls l b).
Proof. apply foldl_app. Qed.
Lemma nulterminate_nuls c b : nulterminate c b = nuls (words c) b.
Proof.
  revert b. induction c as [argv|c IH f mode fd|l IHl r IHr|l IHl r IHr|c IH]; intros b; simpl.
  - done.
  - by rewrite nuls_app, <- IH.
  - by rewrite nuls_app, <- IHl, <- IHr.
  - by rewrite nuls_app, <- IHl, <- IHr.
  - apply IH.
Qed.
Lemma nuls_lookup l b i : (i < length b)%nat ->
  nuls l b !! i = if decide (i ∈ snd <$> l) then Some 0 else b !! i.
Proof.
  revert b. induction l as [|w l IH]; intros b Hi; simpl; [done|].
  rewrite IH by (by rewrite length_insert). destruct (decide (i = snd w)) as [->|Hne].
  - rewrite (decide_True (P := snd w ∈ snd w :: _)) by left.
    rewrite list_lookup_insert_eq by done. by destruct (decide _).
  - rewrite list_lookup_insert_ne by done. by destruct (decide (i ∈ snd <$> l)), (decide (i ∈ snd w :: _)); set_solver.
Qed.
Lemma length_nuls l b : length (nuls l b) = length b.
Proof. revert b. induction l as [|w l IH]; intros b; simpl; [done|]. by rewrite IH, length_insert. Qed.

(** A NUL at the end of one word is in no other word. *)
Lemma nuls_words b l q e : Forall (token_ok b) l -> (q, e) ∈ l ->
  (q < e <= length b)%nat /\
  (forall i, (q <= i < e)%nat -> nuls l (b ++ [0]) !! i = b !! i /\ word_char (ch b i) = true) /\
  nuls l (b ++ [0]) !! e = Some 0.
Proof.
  intros Hl Hin. pose proof (proj1 (Forall_forall _ _) Hl _ Hin) as (Hqe & Hw & _). cbn [fst snd] in *.
  split; [done|]. split.
  - intros i Hi. split; [|by apply Hw]. rewrite nuls_lookup by (rewrite length_app; simpl; lia).
    rewrite decide_False; [by rewrite lookup_app_l by lia|]. intros Hs.
    apply list_elem_of_fmap in Hs as (w & -> & Hwl). pose proof (proj1 (Forall_forall _ _) Hl _ Hwl) as (_ & _ & He).
    specialize (Hw (snd w) Hi). rewrite He in Hw by lia. done.
  - rewrite nuls_lookup by (rewrite length_app; simpl; lia). rewrite decide_True; [done|].
    apply list_elem_of_fmap. by exists (q, e).
Qed.

(** The parser of the shell ends on every line: it refuses the line, or returns
    a command for all of it.  The strings of the command are words of the line,
    runs of characters that are neither white space nor symbols, and in the line
    that nulterminate leaves each of them is as it was typed and ended by a NUL;
    so no word is cut by the end of another one. *)
Theorem parsecmd_total b :
  match parsecmd b with
  | Parsed (c, b') s => s = length b /\ length b' = S (length b) /\
      forall q e, (q, e) ∈ words c ->
        (q < e <= length b)%nat /\
        (forall i, (q <= i < e)%nat -> b' !! i = b !! i /\ word_char (ch b i) = true) /\ b' !! e = Some 0
  | Failed _ => True
  | Fuel => False
  end.
Proof.
  unfold parsecmd. destruct (parsers_good b (4 * length b + 4) 0 ltac:(lia)) as (H & _). specialize (H ltac:(lia)).
  destruct (parseline _ b 0) as [c s| |]; simpl in *; [|done..]. destruct H as [_ Hw].
  destruct (Nat.eqb_spec (skip_ws b s) (length b)) as [E|]; [|done]. simpl.
  rewrite nulterminate_nuls, length_nuls, length_app. simpl. split_and!; [done | lia|]. intros q e. by apply nuls_words.
Qed.
