(* ===== verification/ShGrammar.v ===== *)
(** * The grammar of the shell

    What can be written in a line, with the command it means, and that the parser
    reads it back from its text.

      line   ::= pipe &* [; line]        pipe ::= simple [| pipe]
      simple ::= redir* (word redir* )*  |  ( line ) redir*
      redir  ::= < word | > word | >> word *)

From S2P Require Import Prelude Sh ShParse.
#[local] Open Scope Z_scope.

Inductive direction := From | To | Onto.
Abbreviation sredir := (direction * list Z)%type.
Inductive line :=
| LEnd (p : pipeline) (bg : nat)
| LSeq (p : pipeline) (bg : nat) (l : line)
with pipeline :=
| PEnd (e : simple)
| PSeq (e : simple) (p : pipeline)
with simple :=
| Simple (rs : list sredir) (args : list (list Z * list sredir))
| Block (l : line) (rs : list sredir).
Scheme line_mut := Induction for line Sort Prop
with pipeline_mut := Induction for pipeline Sort Prop
with simple_mut := Induction for simple Sort Prop.
Combined Scheme line_pipeline_simple_ind from line_mut, pipeline_mut, simple_mut.

(** ** Meaning *)

Definition redir_of (r : sredir) : list Z * Z * Z :=
  match fst r with
  | From => (snd r, O_RDONLY, 0)
  | To | Onto => (snd r, Z.lor O_WRONLY O_CREATE, 1)
  end.
Fixpoint backs (n : nat) (c : cmd (list Z)) : cmd (list Z) :=
  match n with
  | O => c
  | S n => backs n (Back c)
  end.
Fixpoint line_cmd (l : line) : cmd (list Z) :=
  match l with
  | LEnd p n => backs n (pipe_cmd p)
  | LSeq p n l => List (backs n (pipe_cmd p)) (line_cmd l)
  end
with pipe_cmd (p : pipeline) : cmd (list Z) :=
  match p with
  | PEnd e => simple_cmd e
  | PSeq e p => Pipe (simple_cmd e) (pipe_cmd p)
  end
with simple_cmd (e : simple) : cmd (list Z) :=
  match e with
  | Simple rs args => redirs (Exec (fst <$> args)) (redir_of <$> (rs ++ concat (snd <$> args)))
  | Block l rs => redirs (line_cmd l) (redir_of <$> rs)
  end.

(** ** Text *)

(** A token is its text.  A text with these tokens has any white space before, between
    and behind them: none is needed where a token cannot be longer, that is except
    between two words and between two signs >. *)
Definition blanks (ws : list Z) : Prop := Forall (fun c => c ∈ whitespace) ws.
Definition ends (t r : list Z) : Prop :=
  match r with
  | [] => True
  | c :: _ => (Forall (fun d => word_char d = true) t -> word_char c = false) /\ (t = [62] -> c <> 62)
  end.
Inductive spelled : list (list Z) -> list Z -> Prop :=
| spelled_nil ws : blanks ws -> spelled [] ws
| spelled_cons ws t ts r : blanks ws -> ends t r -> spelled ts r -> spelled (t :: ts) (ws ++ t ++ r).
Definition redir_tokens (r : sredir) : list (list Z) :=
  [match fst r with From => [60] | To => [62] | Onto => [62; 62] end; snd r].
Definition redirs_tokens (rs : list sredir) : list (list Z) := concat (redir_tokens <$> rs).
Definition args_tokens (args : list (list Z * list sredir)) : list (list Z) :=
  concat ((fun a => fst a :: redirs_tokens (snd a)) <$> args).
Fixpoint line_tokens (l : line) : list (list Z) :=
  match l with
  | LEnd p n => pipe_tokens p ++ replicate n [38]
  | LSeq p n l => pipe_tokens p ++ replicate n [38] ++ [59] :: line_tokens l
  end
with pipe_tokens (p : pipeline) : list (list Z) :=
  match p with
  | PEnd e => simple_tokens e
  | PSeq e p => simple_tokens e ++ [124] :: pipe_tokens p
  end
with simple_tokens (e : simple) : list (list Z) :=
  match e with
  | Simple rs args => redirs_tokens rs ++ args_tokens args
  | Block l rs => [40] :: line_tokens l ++ [41] :: redirs_tokens rs
  end.

(** Words are not empty and have no special characters; a simple command has at
    most nine. *)
Definition word_ok (w : list Z) : Prop := w <> [] /\ Forall (fun c => word_char c = true /\ c <> 0) w.
Definition redir_ok (r : sredir) : Prop := word_ok (snd r).
Fixpoint line_ok (l : line) : Prop :=
  match l with
  | LEnd p _ => pipe_ok p
  | LSeq p _ l => pipe_ok p /\ line_ok l
  end
with pipe_ok (p : pipeline) : Prop :=
  match p with
  | PEnd e => simple_ok e
  | PSeq e p => simple_ok e /\ pipe_ok p
  end
with simple_ok (e : simple) : Prop :=
  match e with
  | Simple rs args => Forall redir_ok rs /\ Forall (fun a => word_ok (fst a) /\ Forall redir_ok (snd a)) args /\
      (length args < MAXARGS)%nat
  | Block l rs => line_ok l /\ Forall redir_ok rs
  end.

(** The string at a pointer into the line, and a command with its strings. *)
Fixpoint upto_nul (l : list Z) : list Z :=
  match l with
  | [] => []
  | c :: l => if c =? 0 then [] else c :: upto_nul l
  end.
Definition string_at (b : list Z) (q : nat) : list Z := upto_nul (drop q b).
Fixpoint map_cmd {W X} (f : W -> X) (c : cmd W) : cmd X :=
  match c with
  | Exec argv => Exec (f <$> argv)
  | Redir c w mode fd => Redir (map_cmd f c) (f w) mode fd
  | Pipe l r => Pipe (map_cmd f l) (map_cmd f r)
  | List l r => List (map_cmd f l) (map_cmd f r)
  | Back c => Back (map_cmd f c)
  end.

(** Facts about the first byte of what follows. *)
Ltac follow := rewrite ?elem_of_cons, ?elem_of_nil in *; lia.

(** ** Reading tokens *)

Section read.
Context (b : list Z).

(** The next token is at [s], and the rest of the line spells [ts]. *)
Definition starts (ts : list (list Z)) (r : list Z) : Prop :=
  match ts with
  | [] => r = []
  | t :: ts => exists r', r = t ++ r' /\ ends t r' /\ spelled ts r'
  end.
Definition at_tokens (s : nat) (ts : list (list Z)) : Prop := (s <= length b)%nat /\ starts ts (drop s b).
(** The bytes of a word of the line. *)
Definition slice (w : word) : list Z := take (snd w - fst w) (drop (fst w) b).

Inductive token : list Z -> Z -> Prop :=
| token_word w : word_ok w -> token w 97
| token_sym c : c ∈ [124; 40; 41; 59; 38; 60; 62] -> token [c] c
| token_onto : token [62; 62] 43.
Definition first (ts : list (list Z)) : Z := match ts with (c :: _) :: _ => c | _ => 0 end.
Definition toks (ts : list (list Z)) : Prop := Forall (fun t => exists k, token t k) ts.

Lemma word_char_plain c : word_char c = true -> in_str whitespace c = false /\ in_str symbols c = false.
Proof using. unfold word_char. by rewrite andb_true_iff, !negb_true_iff. Qed.
Lemma symbol_cases c : c ∈ [124; 40; 41; 59; 38; 60; 62] ->
  in_str symbols c = true /\ in_str whitespace c = false /\ c <> 0.
Proof using. rewrite !elem_of_cons, elem_of_nil. intros H. by destruct_or! H; subst. Qed.

(** The first byte of a token. *)
Lemma token_first t k : token t k -> exists c r, t = c :: r /\ c <> 0 /\ in_str whitespace c = false.
Proof using.
  intros [w [Hne Hw]|c Hc|]; [|apply symbol_cases in Hc as (_ & ? & ?); by exists c, []|by exists 62, [62]].
  destruct w as [|c w]; [done|]. exists c, w. apply Forall_cons in Hw as [[Hc H0] _]. split_and!; try done.
  by apply word_char_plain.
Qed.
Lemma ch_drop s c r : drop s b = c :: r -> ch b s = c /\ (s < length b)%nat /\ drop (S s) b = r.
Proof using.
  intros E. assert (b !! s = Some c) as Hs by (rewrite <- (Nat.add_0_r s), <- lookup_drop, E; done). split; [unfold ch; by rewrite Hs|].
  split; [by eapply lookup_lt_Some|]. rewrite (drop_S _ _ _ Hs) in E. by injection E.
Qed.
(** A run of bytes of one kind, up to a byte of another. *)
Lemma skip_run p w r : Forall (fun c => p c = true) w -> match r with [] => True | c :: _ => p c = false end ->
  forall s, drop s b = w ++ r -> skip (length b - s) p b s = (s + length w)%nat.
Proof using.
  intros Hw Hr. induction Hw as [|c w Hc Hw IH]; intros s E; simpl in E.
  - simpl. rewrite Nat.add_0_r. destruct r as [|c r].
    + apply (f_equal length) in E. rewrite length_drop in E. simpl in E. by rewrite E.
    + destruct (ch_drop _ _ _ E) as (Ec & _). apply skip_stop. by rewrite Ec.
  - destruct (ch_drop _ _ _ E) as (Ec & Hl & E'). destruct (length b - s)%nat as [|k] eqn:Ek; [lia|]. cbn [skip]. rewrite Ec, Hc.
    replace k with (length b - S s)%nat by lia. rewrite IH by done. simpl. lia.
Qed.
Lemma starts_first ts r : toks ts -> starts ts r -> match r with [] => True | c :: _ => in_str whitespace c = false end.
Proof using.
  intros Ht Hs. destruct ts as [|t ts]; [by rewrite Hs|]. apply Forall_cons in Ht as [[k Ht] _].
  destruct (token_first t k Ht) as (c & u & -> & _ & Hc), Hs as (r' & -> & _). exact Hc.
Qed.
(** White space leads to the next token. *)
Lemma settle s ts : toks ts -> (s <= length b)%nat -> spelled ts (drop s b) -> at_tokens (skip_ws b s) ts /\ (s <= skip_ws b s)%nat.
Proof using.
  intros Ht Hs Hsp. assert (exists ws r, blanks ws /\ drop s b = ws ++ r /\ starts ts r) as (ws & r & Hws & E & Hr).
  { clear -Hsp. destruct Hsp as [ws Hws|ws t ts r Hws He Hr]; [exists ws, []; by rewrite app_nil_r | exists ws, (t ++ r)]. split_and!; try done. by exists r. }
  assert (skip_ws b s = (s + length ws)%nat) as ->.
  { apply (skip_run _ ws r); [|by eapply starts_first | done]. eapply Forall_impl; [exact Hws|]. intros c Hc. by apply bool_decide_eq_true. }
  split; [|lia]. pose proof (f_equal length E) as Hl. rewrite length_drop, length_app in Hl. split; [lia|]. by rewrite <- drop_drop, E, drop_app_length.
Qed.
Lemma at_first s ts : toks ts -> at_tokens s ts ->
  ch b s = first ts /\ in_str whitespace (ch b s) = false /\ (ts <> [] -> ch b s <> 0).
Proof using.
  intros Ht [Hs E]. destruct ts as [|t ts].
  - simpl in E. apply (f_equal length) in E. rewrite length_drop in E. simpl in E. rewrite ch_end by lia. done.
  - apply Forall_cons in Ht as [[k Ht] _]. destruct (token_first t k Ht) as (c & u & -> & H0 & Hw), E as (r & E & _).
    destruct (ch_drop _ _ _ E) as (-> & _). done.
Qed.
Lemma skip_ws_here s ts : toks ts -> at_tokens s ts -> skip_ws b s = s.
Proof using. intros Ht Hs. apply skip_stop. by apply (at_first s ts). Qed.
Lemma peek_here s ts l : toks ts -> at_tokens s ts -> ~ (0 ∈ l) -> peek b s l = (in_str l (first ts), s).
Proof using.
  intros Ht Hs Hl. unfold peek. rewrite (skip_ws_here s ts) by done. destruct (at_first s ts Ht Hs) as (-> & _ & _).
  f_equal. destruct (Z.eqb_spec (first ts) 0) as [->|]; [|done]. simpl. symmetry. by apply bool_decide_eq_false.
Qed.

Lemma token_at_here s t k r : token t k -> drop s b = t ++ r -> ends t r -> token_at b s = (k, (s + length t)%nat).
Proof using.
  intros Hk E He. unfold token_at. destruct (token_first t k Hk) as (c & u & Et & H0 & _). rewrite Et in E. destruct (ch_drop _ _ _ E) as (Ec & _ & E').
  rewrite Ec, (proj2 (Z.eqb_neq _ 0)) by done. rewrite <- Et in E. destruct Hk as [w [Hne Hw]|d Hin|].
  - subst w. pose proof (Forall_inv Hw) as [Hwc _]. apply word_char_plain in Hwc as [_ Hsy]. unfold in_str in *. apply bool_decide_eq_false in Hsy.
    rewrite bool_decide_false by set_solver. rewrite (proj2 (Z.eqb_neq c 62)) by set_solver.
    assert (Forall (fun d => word_char d = true) (c :: u)) as Hw' by (eapply Forall_impl; [exact Hw|]; by intros d [? _]).
    rewrite (skip_run word_char (c :: u) r Hw'); [done | | done]. destruct r as [|d r]; [done|]. by apply He.
  - injection Et as -> <-. rewrite Nat.add_1_r. assert (c = 62 -> (ch b (S s) =? 62) = false) as H62.
    { intros ->. simpl in E'. apply Z.eqb_neq. destruct r as [|d r]; [|destruct (ch_drop _ _ _ E') as (-> & _); by apply He].
      apply (f_equal length) in E'. rewrite length_drop in E'. simpl in E'. rewrite ch_end by lia. done. }
    rewrite !elem_of_cons, elem_of_nil in Hin. destruct_or! Hin; subst; try done. by rewrite (H62 eq_refl).
  - injection Et as <- <-. simpl in E'. destruct (ch_drop _ _ _ E') as (-> & _). by rewrite Nat.add_comm.
Qed.
Lemma token_here s t k ts : token t k -> toks ts -> at_tokens s (t :: ts) ->
  exists s', gettoken b s = (k, s, (s + length t)%nat, s') /\ at_tokens s' ts /\ slice (s, (s + length t)%nat) = t /\ (s < s')%nat.
Proof using.
  intros Hk Ht Hs. assert (toks (t :: ts)) as Htt by (constructor; eauto). unfold gettoken.
  rewrite (skip_ws_here s (t :: ts)) by done. destruct Hs as [Hs (r & E & He & Hr)]. rewrite (token_at_here s t k r) by done.
  pose proof (f_equal length E) as Hl. rewrite length_drop, length_app in Hl.
  destruct (settle (s + length t) ts) as [Ha Hle]; [done | lia | by rewrite <- drop_drop, E, drop_app_length|].
  destruct (token_first t k Hk) as (c & u & -> & _). simpl length in *. eexists. split; [done|]. split; [done|]. split; [|lia].
  unfold slice. cbn [fst snd]. rewrite E. replace (s + S (length u) - s)%nat with (length (c :: u)) by (simpl; lia). apply take_app_length.
Qed.

(** ** Reading commands *)

Lemma toks_app ts ts' : toks (ts ++ ts') <-> toks ts /\ toks ts'.
Proof using. apply Forall_app. Qed.
Lemma toks_redirs rs : Forall redir_ok rs -> toks (redirs_tokens rs).
Proof using.
  induction 1 as [|[d w] rs Hr Hrs IH]; [constructor|]. unfold redirs_tokens. simpl.
  constructor; [|constructor; [|exact IH]]; [|exists 97; by constructor].
  destruct d; eexists; [apply (token_sym 60) | apply (token_sym 62) | apply token_onto]; set_solver.
Qed.
Lemma toks_args args : Forall (fun a => word_ok (fst a) /\ Forall redir_ok (snd a)) args -> toks (args_tokens args).
Proof using.
  induction 1 as [|[w rs] args [Hw Hr] Hargs IH]; [constructor|]. unfold args_tokens. simpl.
  constructor; [exists 97; by constructor|]. apply toks_app. split; [by apply toks_redirs | exact IH].
Qed.
Lemma toks_sym c : c ∈ [124; 40; 41; 59; 38; 60; 62] -> toks [[c]].
Proof using. intros H. repeat constructor. exists c. by constructor. Qed.
Lemma toks_backs n : toks (replicate n [38]).
Proof using. apply Forall_replicate. exists 38. constructor. set_solver. Qed.
Lemma toks_cons_sym c ts : c ∈ [124; 40; 41; 59; 38; 60; 62] -> toks ts -> toks ([c] :: ts).
Proof using. intros Hc Ht. constructor; [|done]. exists c. by constructor. Qed.

Lemma toks_grammar :
  (forall l, line_ok l -> toks (line_tokens l)) /\ (forall p, pipe_ok p -> toks (pipe_tokens p)) /\
  (forall e, simple_ok e -> toks (simple_tokens e)).
Proof using.
  apply line_pipeline_simple_ind; simpl.
  - intros p IH n Hp. apply toks_app. split; [by apply IH | apply toks_backs].
  - intros p IHp n l IHl [Hp Hl]. rewrite !toks_app. split_and!; [by apply IHp | apply toks_backs|].
    apply toks_cons_sym; [set_solver | by apply IHl].
  - done.
  - intros e IHe p IHp [He Hp]. apply toks_app. split; [by apply IHe|]. apply toks_cons_sym; [set_solver | by apply IHp].
  - intros rs args (Hr & Ha & _). apply toks_app. split; [by apply toks_redirs | by apply toks_args].
  - intros l IH rs [Hl Hr]. apply toks_cons_sym; [set_solver|]. apply toks_app. split; [by apply IH|].
    apply toks_cons_sym; [set_solver | by apply toks_redirs].
Qed.

Definition sem_redir (r : redir) : list Z * Z * Z := (slice (fst (fst r)), snd (fst r), snd r).
Lemma map_redirs c rs : map_cmd slice (redirs c rs) = redirs (map_cmd slice c) (sem_redir <$> rs).
Proof using.
  revert c. induction rs as [|[[w mode] fd] rs IH]; intros c; simpl; [done|]. by rewrite IH.
Qed.

Lemma not_in_first l x : in_str l x = false <-> x ∉ l.
Proof using. apply bool_decide_eq_false. Qed.

Lemma redirs_here k s acc rs ts : Forall redir_ok rs -> toks ts -> first ts ∉ [60; 62] ->
  at_tokens s (redirs_tokens rs ++ ts) -> (length rs < k)%nat ->
  exists rs' s', parseredirs k b s acc = Parsed (acc ++ rs') s' /\ at_tokens s' ts /\ (s <= s')%nat /\
    sem_redir <$> rs' = redir_of <$> rs.
Proof using.
  intros Hr Hts Hf. revert k s acc. induction Hr as [|[d w] rs Hd Hr IH]; intros k s acc Hs Hk;
    (destruct k as [|k]; [simpl in Hk; lia|]); cbn [parseredirs].
  - rewrite (peek_here s ts) by (done || set_solver). rewrite (proj2 (not_in_first _ _) Hf).
    exists [], s. by rewrite app_nil_r.
  - unfold redirs_tokens in Hs. simpl in Hs. fold (redirs_tokens rs) in Hs.
    assert (toks (redirs_tokens rs ++ ts)) as Ht1 by (apply toks_app; split; [by apply toks_redirs | done]).
    set (t := match d with From => [60] | To => [62] | Onto => [62; 62] end) in *.
    assert (exists k0, token t k0 /\ (k0 =? 60) = match d with From => true | _ => false end) as (k0 & Htk & Ek0).
    { unfold t. destruct d; [exists 60 | exists 62 | exists 43]; split; try done; constructor; set_solver. }
    assert (toks (w :: redirs_tokens rs ++ ts)) as Ht2 by (constructor; [exists 97; by constructor | done]).
    rewrite (peek_here s (t :: w :: redirs_tokens rs ++ ts)) by (done || set_solver || (constructor; eauto)).
    assert (in_str [60; 62] (first (t :: w :: redirs_tokens rs ++ ts)) = true) as -> by (unfold t; by destruct d).
    destruct (token_here s t k0 _ Htk Ht2 Hs) as (s2 & -> & Hs2 & _ & Hl2).
    destruct (token_here _ w 97 _ (token_word w Hd) Ht1 Hs2) as (s3 & -> & Hs3 & Hsl & Hl3).
    rewrite Z.eqb_refl, Ek0. cbn [negb]. simpl in Hk.
    match goal with |- context [parseredirs k b _ ?a] =>
      destruct (IH k _ a Hs3 ltac:(lia)) as (rs' & s' & E & Hs' & Hle & Hm) end.
    rewrite E. eexists _, s'. rewrite <- app_assoc. split; [done|]. split; [done|]. split; [lia|].
    rewrite fmap_app, Hm. clearbody t. rewrite fmap_cons. unfold redir_of at 2. cbn [fst snd].
    by destruct d; cbn [fmap list_fmap app]; unfold sem_redir at 1; cbn [fst snd]; rewrite Hsl.
Qed.

Lemma spelled_length ts r : toks ts -> spelled ts r -> (length ts <= length r)%nat.
Proof using.
  intros Ht Hr. induction Hr as [ws Hws|ws t ts r Hws He Hr IH]; [simpl; lia|]. apply Forall_cons in Ht as [[k Hk] Ht].
  destruct (token_first t k Hk) as (c & u & -> & _). specialize (IH Ht). rewrite !length_app. simpl. lia.
Qed.
Lemma at_length s ts : toks ts -> at_tokens s ts -> (s + length ts <= length b)%nat.
Proof using.
  intros Ht [Hs E]. destruct ts as [|t ts]; [simpl; lia|]. destruct E as (r & E & He & Hr). pose proof (spelled_length (t :: ts) (drop s b) Ht) as Hl.
  rewrite length_drop in Hl. rewrite E in Hl at 1. specialize (Hl (spelled_cons [] t ts r (Forall_nil_2 _) He Hr)). lia.
Qed.
Lemma length_redirs_tokens rs : length (redirs_tokens rs) = (2 * length rs)%nat.
Proof using. unfold redirs_tokens. induction rs as [|r rs IH]; [done|]. cbn [fmap list_fmap concat]. rewrite length_app. simpl in *. lia. Qed.
(** With room for all the redirections there can be. *)
Lemma redirs_here' s acc rs ts : Forall redir_ok rs -> toks ts -> first ts ∉ [60; 62] ->
  at_tokens s (redirs_tokens rs ++ ts) ->
  exists rs' s', parseredirs (S (length b)) b s acc = Parsed (acc ++ rs') s' /\ at_tokens s' ts /\ (s <= s')%nat /\
    sem_redir <$> rs' = redir_of <$> rs.
Proof using.
  intros Hr Ht Hf Hs. apply redirs_here; try done. apply at_length in Hs; [|apply toks_app; split; [by apply toks_redirs | done]].
  rewrite length_app, length_redirs_tokens in Hs. lia.
Qed.

Lemma first_zero ts : toks ts -> first ts = 0 -> ts = [].
Proof using.
  intros Ht. destruct ts as [|t ts]; [done|]. apply Forall_cons in Ht as [[k Ht] _].
  destruct (token_first t k Ht) as (c & r & -> & H0 & _). done.
Qed.
Lemma token_end s : at_tokens s [] -> gettoken b s = (0, s, s, s).
Proof using.
  intros Hs. assert (toks []) as Ht by constructor. destruct (at_first s [] Ht Hs) as (H0 & _).
  unfold gettoken. rewrite !(skip_ws_here s []) by done. unfold token_at. rewrite H0. simpl.
  by rewrite (skip_ws_here s []).
Qed.
(** The first byte of a word ends no command. *)
Lemma word_first w ts l : word_ok w -> Forall (fun c => c ∈ symbols) l -> first (w :: ts) ∉ l.
Proof using.
  intros [Hne Hw] Hl Hin. destruct w as [|c w]; [done|]. apply Forall_cons in Hw as [[Hc _] _].
  apply word_char_plain in Hc as [_ Hc]. apply bool_decide_eq_false in Hc. apply Hc.
  by apply (proj1 (Forall_forall _ _) Hl).
Qed.

Lemma args_here k s argv rs args ts :
  Forall (fun a => word_ok (fst a) /\ Forall redir_ok (snd a)) args -> toks ts -> first ts ∈ [0; 124; 41; 38; 59] ->
  at_tokens s (args_tokens args ++ ts) -> (length args < k)%nat ->
  exists argv' rs' s', parseargs k b s argv rs = Parsed (redirs (Exec (argv ++ argv')) (rs ++ rs')) s' /\
    at_tokens s' ts /\ (s <= s')%nat /\ slice <$> argv' = fst <$> args /\ sem_redir <$> rs' = redir_of <$> concat (snd <$> args).
Proof using.
  intros Ha Hts Hf. revert k s argv rs. induction Ha as [|[w ra] args [Hw Hra] Ha IH]; intros k s argv rs Hs Hk.
  - exists [], [], s. rewrite !app_nil_r. split_and!; [|done..]. destruct k as [|k]; cbn [parseargs];
      rewrite (peek_here s ts) by (done || set_solver);
      (destruct (in_str [124; 41; 38; 59] (first ts)) eqn:E; [done|]);
      apply not_in_first in E; assert (ts = []) as -> by (apply first_zero; [done | set_solver]);
      by rewrite token_end.
  - unfold args_tokens in Hs. cbn [fmap list_fmap concat fst snd] in Hs. fold (args_tokens args) in Hs.
    rewrite <- app_assoc in Hs. cbn [app] in Hs.
    assert (toks (args_tokens args ++ ts)) as Ht1 by (apply toks_app; split; [by apply toks_args | done]).
    assert (toks (redirs_tokens ra ++ args_tokens args ++ ts)) as Ht2 by (apply toks_app; split; [by apply toks_redirs | done]).
    assert (toks (w :: redirs_tokens ra ++ args_tokens args ++ ts)) as Ht3 by (constructor; [exists 97; by constructor | done]).
    simpl in Hk. destruct k as [|[|k]]; [lia | lia|]. remember (S k) as k1. cbn [parseargs].
    rewrite (peek_here s (w :: redirs_tokens ra ++ args_tokens args ++ ts)) by (done || set_solver).
    rewrite (proj2 (not_in_first _ _)) by (apply word_first; [done|]; repeat constructor; set_solver).
    destruct (token_here s w 97 _ (token_word w Hw) Ht2 Hs) as (s0 & -> & Hs2 & Hsl & Hl0).
    change (97 =? 0) with false. rewrite Z.eqb_refl. cbn [negb]. rewrite Heqk1.
    destruct (redirs_here' s0 rs ra (args_tokens args ++ ts) Hra Ht1) as (rs1 & s1 & -> & Hs1 & Hl1 & Hm1); [|done|].
    { destruct args as [|[w' ra'] args'].
      - unfold args_tokens. cbn [fmap list_fmap concat app]. follow.
      - apply Forall_cons in Ha as [[Hw' _] _]. apply word_first; [done|]. repeat constructor; set_solver. }
    cbn [pbind]. rewrite <- Heqk1.
    destruct (IH k1 s1 (argv ++ [(s, (s + length w)%nat)]) (rs ++ rs1) Hs1 ltac:(lia)) as (argv' & rs' & s' & -> & Hs' & Hl' & Hma & Hmr).
    exists ((s, (s + length w)%nat) :: argv'), (rs1 ++ rs'), s'. rewrite <- !app_assoc. split_and!; [done | done | lia | |].
    + cbn [fmap list_fmap fst]. by rewrite <- Hma, Hsl.
    + cbn [fmap list_fmap snd concat]. by rewrite !fmap_app, Hm1, Hmr.
Qed.

Lemma backs_here k c s n ts : toks ts -> first ts ∉ [38] -> at_tokens s (replicate n [38] ++ ts) -> (n < k)%nat ->
  exists c' s', parsebacks k b c s = Parsed c' s' /\ at_tokens s' ts /\ (s <= s')%nat /\ map_cmd slice c' = backs n (map_cmd slice c).
Proof using.
  intros Ht Hf. revert c s n. induction k as [|k IH]; intros c s n Hs Hk; [lia|]. cbn [parsebacks].
  assert (toks (replicate n [38] ++ ts)) as Ht' by (apply toks_app; split; [apply toks_backs | done]).
  rewrite (peek_here s (replicate n [38] ++ ts)) by (done || set_solver). destruct n as [|n]; simpl in *.
  - rewrite (proj2 (not_in_first _ _) Hf). by exists c, s.
  - apply Forall_cons in Ht' as [_ Ht'].
    destruct (token_here s [38] 38 _ (token_sym 38 ltac:(set_solver)) Ht' Hs) as (s1 & -> & Hs' & _ & Hl1).
    destruct (IH (Back c) _ n Hs' ltac:(lia)) as (c' & s' & E & Ha & Hl & Hm). exists c', s'. split_and!; try done. lia.
Qed.

(** The parser of a symbol that is there. *)
Lemma symbol_here s c ts l : c ∈ [124; 40; 41; 59; 38; 60; 62] -> toks ts -> at_tokens s ([c] :: ts) -> 0 ∉ l ->
  peek b s l = (in_str l c, s) /\ exists s', gettoken b s = (c, s, S s, s') /\ at_tokens s' ts /\ (s < s')%nat.
Proof using.
  intros Hc Ht Hs Hl. rewrite (peek_here s ([c] :: ts)) by (done || by apply toks_cons_sym).
  destruct (token_here s [c] c ts (token_sym c Hc) Ht Hs) as (s' & E & Hs' & _ & Hlt). simpl in E. rewrite Nat.add_1_r in E. split; [done|]. by exists s'.
Qed.

Lemma first_simple rs args ts : Forall (fun a => word_ok (fst a) /\ Forall redir_ok (snd a)) args ->
  first ts ∈ [0; 124; 41; 38; 59] -> (first (redirs_tokens rs ++ args_tokens args ++ ts) ∉ [40]) /\
  (first (args_tokens args ++ ts) ∉ [60; 62]).
Proof using.
  intros Ha Hf. assert (first (args_tokens args ++ ts) ∉ [40; 60; 62]) as H.
  { destruct Ha as [|[w ra] args [Hw _] _]; [unfold args_tokens; cbn [fmap list_fmap concat app]; follow|].
    apply word_first; [done|]. repeat constructor; set_solver. }
  split; [|follow]. destruct rs as [|[[] w] rs]; [unfold redirs_tokens; cbn [fmap list_fmap concat app]; follow|..];
    simpl; follow.
Qed.

(** What a parser does at the text of a phrase before [ts]. *)
Definition reads (s : nat) (r : parsed (cmd word)) (c : cmd (list Z)) (ts : list (list Z)) : Prop :=
  exists c' s', r = Parsed c' s' /\ at_tokens s' ts /\ (s <= s')%nat /\ map_cmd slice c' = c.

(** A pipe and what runs it in the background. *)
Lemma line_part fuel pc n s ts :
  reads s (parsepipe fuel b s) pc (replicate n [38] ++ ts) -> toks ts -> first ts ∉ [38] ->
  exists c s', (forall k : cmd word -> nat -> parsed (cmd word),
      pbind (parsepipe fuel b s) (fun c s => pbind (parsebacks (S (length b)) b c s) k) = k c s') /\
    at_tokens s' ts /\ (s <= s')%nat /\ map_cmd slice c = backs n pc.
Proof using.
  intros (c & s1 & -> & Hs1 & Hle & <-) Ht Hf. cbn [pbind]. pose proof (at_length s1 (replicate n [38] ++ ts) ltac:(apply toks_app; split; [apply toks_backs | done]) Hs1) as Hl.
  rewrite length_app, length_replicate in Hl.
  destruct (backs_here (S (length b)) c s1 n ts Ht Hf Hs1 ltac:(lia)) as (c' & s' & -> & Hs' & Hl' & Hm).
  exists c', s'. split_and!; try done. lia.
Qed.

Lemma simple_here rs args fuel s ts : simple_ok (Simple rs args) -> toks ts -> first ts ∈ [0; 124; 41; 38; 59] ->
  at_tokens s ((redirs_tokens rs ++ args_tokens args) ++ ts) ->
  reads s (parseexec (S fuel) b s) (simple_cmd (Simple rs args)) ts.
Proof using.
  intros (Hr & Ha & Hn) Ht Hf Hs. rewrite <- app_assoc in Hs. destruct (first_simple rs args ts Ha Hf) as [F1 F2].
  assert (toks (args_tokens args ++ ts)) as Ht1 by (apply toks_app; split; [by apply toks_args | done]).
  assert (toks (redirs_tokens rs ++ args_tokens args ++ ts)) as Ht2 by (apply toks_app; split; [by apply toks_redirs | done]).
  cbn [parseexec]. rewrite (peek_here s _ [40] Ht2 Hs) by set_solver. rewrite (proj2 (not_in_first _ _) F1).
  destruct (redirs_here' s [] rs _ Hr Ht1 F2 Hs) as (rs1 & s1 & -> & Hs1 & Hl1 & Hm1). cbn [pbind app].
  destruct (args_here MAXARGS s1 [] rs1 args ts Ha Ht Hf Hs1 Hn) as (argv' & rs2 & s2 & -> & Hs2 & Hl2 & Hma & Hm2).
  eexists _, s2. split; [done|]. split; [done|]. split; [lia|]. rewrite map_redirs. cbn [map_cmd app simple_cmd].
  by rewrite Hma, !fmap_app, Hm1, Hm2.
Qed.

Lemma block_here l rs fuel s ts :
  (forall s ts, toks ts -> first ts ∈ [0; 41] -> at_tokens s (line_tokens l ++ ts) ->
     (4 * (length b - s) + 3 < fuel)%nat -> reads s (parseline fuel b s) (line_cmd l) ts) ->
  line_ok l -> Forall redir_ok rs -> toks ts -> first ts ∈ [0; 124; 41; 38; 59] ->
  at_tokens s (([40] :: line_tokens l ++ [41] :: redirs_tokens rs) ++ ts) -> (4 * (length b - s) < S fuel)%nat ->
  reads s (parseexec (S (S fuel)) b s) (simple_cmd (Block l rs)) ts.
Proof using.
  intros IH Hl Hr Ht Hf Hs Hfu. cbn [app] in Hs. rewrite <- app_assoc in Hs. cbn [app] in Hs.
  assert (toks (redirs_tokens rs ++ ts)) as Ht1 by (apply toks_app; split; [by apply toks_redirs | done]).
  assert (toks ([41] :: redirs_tokens rs ++ ts)) as Ht2 by (apply toks_cons_sym; [set_solver | done]).
  assert (toks (line_tokens l ++ [41] :: redirs_tokens rs ++ ts)) as Ht3 by (apply toks_app; split; [by apply toks_grammar | done]).
  destruct (symbol_here s 40 _ [40] ltac:(set_solver) Ht3 Hs ltac:(set_solver)) as (E1 & s1 & E2 & Hs1 & Hl1).
  cbn [parseexec]. rewrite E1. cbn [in_str]. change (in_str [40] 40) with true. cbn [parseblock].
  rewrite E1. change (in_str [40] 40) with true. cbn [negb]. rewrite E2.
  pose proof (proj1 Hs1).
  destruct (IH s1 _ Ht2 ltac:(set_solver) Hs1 ltac:(lia)) as (c & s2 & -> & Hs2 & Hl2 & Hc). cbn [pbind].
  destruct (symbol_here s2 41 _ [41] ltac:(set_solver) Ht1 Hs2 ltac:(set_solver)) as (E3 & s3 & E4 & Hs3 & Hl3).
  rewrite E3. change (in_str [41] 41) with true. cbn [negb]. rewrite E4.
  destruct (redirs_here' s3 [] rs ts Hr Ht ltac:(follow) Hs3) as (rs1 & s4 & -> & Hs4 & Hl4 & Hm). cbn [pbind app].
  eexists _, s4. split; [done|]. split; [done|]. split; [lia|]. by rewrite map_redirs, Hc, Hm.
Qed.

Lemma first_backs n ts (l : list Z) : first ts ∈ l -> 38 ∈ l -> first (replicate n [38] ++ ts) ∈ l.
Proof using. by destruct n. Qed.

Lemma parsers_read :
  (forall l, line_ok l -> forall fuel s ts, toks ts -> first ts ∈ [0; 41] -> at_tokens s (line_tokens l ++ ts) ->
     (4 * (length b - s) + 3 < fuel)%nat -> reads s (parseline fuel b s) (line_cmd l) ts) /\
  (forall p, pipe_ok p -> forall fuel s ts, toks ts -> first ts ∈ [0; 41; 38; 59] -> at_tokens s (pipe_tokens p ++ ts) ->
     (4 * (length b - s) + 2 < fuel)%nat -> reads s (parsepipe fuel b s) (pipe_cmd p) ts) /\
  (forall e, simple_ok e -> forall fuel s ts, toks ts -> first ts ∈ [0; 124; 41; 38; 59] ->
     at_tokens s (simple_tokens e ++ ts) ->
     (4 * (length b - s) + 1 < fuel)%nat -> reads s (parseexec fuel b s) (simple_cmd e) ts).
Proof using.
  apply line_pipeline_simple_ind.
  - intros p IH n Hp fuel s ts Ht Hf Hs Hfu. destruct fuel as [|fuel]; [lia|]. cbn [line_tokens] in Hs.
    rewrite <- app_assoc in Hs. cbn [parseline].
    assert (reads s (parsepipe fuel b s) (pipe_cmd p) (replicate n [38] ++ ts)) as Hr.
    { apply IH; [done | apply toks_app; split; [apply toks_backs | done] | apply first_backs; follow | done | lia]. }
    destruct (line_part _ _ _ _ _ Hr Ht ltac:(follow)) as (c & s' & E & Hs' & Hle & Hc). rewrite E.
    rewrite (peek_here s' ts) by (done || set_solver). rewrite (proj2 (not_in_first _ _)) by follow. by exists c, s'.
  - intros p IHp n l IHl [Hp Hl] fuel s ts Ht Hf Hs Hfu. destruct fuel as [|fuel]; [lia|]. cbn [line_tokens] in Hs.
    rewrite <- !app_assoc in Hs. cbn [app] in Hs. cbn [parseline].
    assert (toks (line_tokens l ++ ts)) as Ht1 by (apply toks_app; split; [by apply toks_grammar | done]).
    assert (toks ([59] :: line_tokens l ++ ts)) as Ht2 by (apply toks_cons_sym; [set_solver | done]).
    assert (reads s (parsepipe fuel b s) (pipe_cmd p) (replicate n [38] ++ [59] :: line_tokens l ++ ts)) as Hr.
    { apply IHp; [done | apply toks_app; split; [apply toks_backs | done] | | done | lia].
      apply first_backs; simpl; follow. }
    destruct (line_part _ _ _ _ _ Hr Ht2 ltac:(simpl; follow)) as (c & s' & E & Hs' & Hle & Hc). rewrite E.
    destruct (symbol_here s' 59 _ [59] ltac:(set_solver) Ht1 Hs' ltac:(set_solver)) as (-> & s2 & -> & Hs2 & Hl2).
    change (in_str [59] 59) with true. cbv iota. pose proof (proj1 Hs2).
    destruct (IHl Hl fuel _ ts Ht Hf Hs2 ltac:(lia)) as (d & s3 & -> & Hs3 & Hl3 & Hd). cbn [pbind].
    eexists _, s3. split; [done|]. split; [done|]. split; [lia|]. cbn [map_cmd line_cmd]. by rewrite Hc, Hd.
  - intros e IH He fuel s ts Ht Hf Hs Hfu. destruct fuel as [|fuel]; [lia|]. cbn [parsepipe].
    destruct (IH He fuel s ts Ht ltac:(follow) Hs ltac:(lia)) as (c & s' & -> & Hs' & Hle & Hc). cbn [pbind].
    rewrite (peek_here s' ts) by (done || set_solver). rewrite (proj2 (not_in_first _ _)) by follow. by exists c, s'.
  - intros e IHe p IHp [He Hp] fuel s ts Ht Hf Hs Hfu. destruct fuel as [|fuel]; [lia|]. cbn [pipe_tokens] in Hs.
    rewrite <- app_assoc in Hs. cbn [app] in Hs. cbn [parsepipe].
    assert (toks (pipe_tokens p ++ ts)) as Ht1 by (apply toks_app; split; [by apply toks_grammar | done]).
    assert (toks ([124] :: pipe_tokens p ++ ts)) as Ht2 by (apply toks_cons_sym; [set_solver | done]).
    destruct (IHe He fuel s _ Ht2 ltac:(simpl; follow) Hs ltac:(lia)) as (c & s' & -> & Hs' & Hle & Hc). cbn [pbind].
    destruct (symbol_here s' 124 _ [124] ltac:(set_solver) Ht1 Hs' ltac:(set_solver)) as (-> & s2 & -> & Hs2 & Hl2).
    change (in_str [124] 124) with true. cbv iota. pose proof (proj1 Hs2).
    destruct (IHp Hp fuel _ ts Ht Hf Hs2 ltac:(lia)) as (d & s3 & -> & Hs3 & Hl3 & Hd). cbn [pbind].
    eexists _, s3. split; [done|]. split; [done|]. split; [lia|]. cbn [map_cmd pipe_cmd]. by rewrite Hc, Hd.
  - intros rs args He fuel s ts Ht Hf Hs Hfu. destruct fuel as [|fuel]; [lia|]. by apply simple_here.
  - intros l IH rs [Hl Hr] fuel s ts Ht Hf Hs Hfu. destruct fuel as [|[|fuel]]; [lia | lia|].
    apply block_here; try done; [|lia]. intros s1 ts1 Ht1 Hf1 Hs1 Hfu1. by apply IH.
Qed.

(** The parsers skip white space first. *)
Lemma skip_ws_twice s : (s <= length b)%nat -> skip_ws b (skip_ws b s) = skip_ws b s.
Proof using. intros Hs. apply skip_stop. by destruct (skip_ws_spec b s Hs) as (_ & ?). Qed.
Lemma parseline_skips fuel s : (s <= length b)%nat -> parseline fuel b s = parseline fuel b (skip_ws b s).
Proof using.
  intros Hs. destruct fuel as [|[|[|fuel]]]; [done..|]. cbn [parseline parsepipe parseexec].
  assert (peek b (skip_ws b s) [40] = peek b s [40]) as -> by (unfold peek; by rewrite skip_ws_twice). done.
Qed.
End read.

(** ** Reading a line *)

Lemma upto_nul_app x r : 0 ∉ x -> upto_nul (x ++ 0 :: r) = x.
Proof.
  induction x as [|c x IH]; intros H; simpl; [done|]. apply not_elem_of_cons in H as [Hc H].
  by rewrite (proj2 (Z.eqb_neq c 0)), IH by done.
Qed.
Lemma string_at_word b b' q e : 0 ∉ b -> (q <= e <= length b)%nat ->
  (forall i, (q <= i < e)%nat -> b' !! i = b !! i) -> b' !! e = Some 0 -> string_at b' q = slice b (q, e).
Proof.
  intros H0 Hqe Hsame He. unfold string_at, slice. cbn [fst snd].
  rewrite <- (take_drop (e - q) (drop q b')), drop_drop. replace (q + (e - q))%nat with e by lia.
  rewrite (drop_S _ _ _ He). assert (take (e - q) (drop q b') = take (e - q) (drop q b)) as ->.
  { apply list_eq. intros i. destruct (decide (i < e - q)%nat) as [Hi|Hi].
    - rewrite !lookup_take_lt, !lookup_drop by done. apply Hsame. lia.
    - by rewrite !lookup_take_ge by lia. }
  apply upto_nul_app. intros Hin. apply H0. apply elem_of_take in Hin as (i & Hi & _).
  rewrite lookup_drop in Hi. by eapply list_elem_of_lookup_2.
Qed.
Lemma map_cmd_ext {W X} (f g : W -> X) c : (forall w, w ∈ words c -> f w = g w) -> map_cmd f c = map_cmd g c.
Proof.
  induction c as [argv|c IH w mode fd|l IHl r IHr|l IHl r IHr|c IH]; simpl; intros H.
  - f_equal. apply list_fmap_ext. intros i w Hw. apply H. by eapply list_elem_of_lookup_2.
  - rewrite IH, H by set_solver. done.
  - by rewrite IHl, IHr by set_solver.
  - by rewrite IHl, IHr by set_solver.
  - by rewrite IH.
Qed.

Lemma spelled_no_nul ts r : toks ts -> spelled ts r -> 0 ∉ r.
Proof.
  assert (forall ws, blanks ws -> 0 ∉ ws) as Hb by (intros ws Hws H0; apply (proj1 (Forall_forall _ _) Hws) in H0; unfold whitespace in H0; set_solver).
  intros Ht Hr. induction Hr as [ws Hws|ws t ts r Hws He Hr IH]; [by apply Hb|]. apply Forall_cons in Ht as [[k Hk] Ht].
  rewrite !not_elem_of_app. split; [by apply Hb|]. split; [|by apply IH].
  - destruct Hk as [w [_ Hw]|d Hd|].
    + intros Hin. by apply (proj1 (Forall_forall _ _) Hw 0 Hin).
    + apply symbol_cases in Hd as (_ & _ & Hd). set_solver.
    + set_solver.
Qed.

Lemma parsecmd_reads l b :
  line_ok l -> spelled (line_tokens l) b -> exists c b', parsecmd b = Parsed (c, b') (length b) /\
    map_cmd (fun w => string_at b' (fst w)) c = line_cmd l.
Proof.
  intros Hl Hb. pose proof (proj1 toks_grammar l Hl) as Ht.
  destruct (settle b 0 (line_tokens l)) as [H0 _]; [done | lia | by rewrite drop_0|]. rewrite <- (app_nil_r (line_tokens l)) in H0.
  destruct (proj1 (parsers_read b) l Hl (4 * length b + 4)%nat _ [] ltac:(constructor) ltac:(left) H0 ltac:(lia))
    as (c & s & E & Hs & _ & Hc). rewrite <- parseline_skips in E by lia.
  destruct (parsers_good b (4 * length b + 4) 0 ltac:(lia)) as (Hg & _). specialize (Hg ltac:(lia)).
  rewrite E in Hg. destruct Hg as [_ Hw]. unfold parsecmd. rewrite E. cbn [pbind].
  assert (s = length b) as -> by (destruct Hs as [Hle Ed]; simpl in Ed; apply (f_equal length) in Ed; rewrite length_drop in Ed; simpl in Ed; lia).
  unfold peek. rewrite (skip_ws_here b (length b) []) by (done || constructor).
  rewrite Nat.eqb_refl. cbn [negb]. eexists c, _. split; [done|].
  rewrite <- Hc, nulterminate_nuls. apply map_cmd_ext. intros [q e] Hin.
  destruct (nuls_words b (words c) q e Hw Hin) as (Hqe & Hsame & He).
  apply string_at_word; [by eapply spelled_no_nul | lia | | done]. intros i Hi. by apply Hsame.
Qed.

(** C36: the parser reads the grammar.  Every text of a line of the grammar, with any
    white space, which is needed only between two words, is accepted, and the
    command that comes out, with
    the strings its pointers mean in the line that nulterminate leaves, is the
    meaning of the line: & binds a whole pipe, ; and | associate to the right, and
    redirections are put around the command they stand in, the last one outermost. *)
Theorem parsecmd_reads_grammar l b :
  line_ok l -> spelled (line_tokens l) b -> exists c b', parsecmd b = Parsed (c, b') (length b) /\
    map_cmd (fun w => string_at b' (fst w)) c = line_cmd l.
Proof. apply parsecmd_reads. Qed.
Ltac spell := first [apply (spelled_cons [_; _] [_]) | apply (spelled_cons [_] [_]) | apply (spelled_cons [] [_])].
(** " (a<f |b)>o&;c  d", with an end of line after it *)
Lemma parsecmd_reads_grammar_witness :
  let a := Simple [] [([97], [(From, [102])])] in
  let bc := Simple [] [([98], [])] in
  let l := LSeq (PEnd (Block (LEnd (PSeq a (PEnd bc)) 0) [(To, [111])])) 1
             (LEnd (PEnd (Simple [] [([99], []); ([100], [])])) 0) in
  let b := [32; 40; 97; 60; 102; 32; 124; 98; 41; 62; 111; 38; 59; 99; 32; 32; 100; 10] in
  exists c b', parsecmd b = Parsed (c, b') (length b) /\
    map_cmd (fun w => string_at b' (fst w)) c =
      List (Back (Redir (Pipe (Redir (Exec [[97]]) [102] 0 0) (Exec [[98]])) [111] 513 1)) (Exec [[99]; [100]]).
Proof.
  intros a bc l b. refine (parsecmd_reads_grammar l b _ _).
  - assert (forall c, word_char c = true -> c <> 0 -> word_ok [c]) as Hw.
    { intros c H1 H2. split; [discriminate|]. apply Forall_singleton. done. }
    repeat (split || apply Forall_cons || apply Forall_nil || apply Hw); try (simpl; lia); try reflexivity; try discriminate.
  - assert (forall ws, forallb (in_str whitespace) ws = true -> blanks ws) as Hb.
    { intros ws H. apply Forall_forall. intros c Hc. rewrite forallb_forall in H. apply list_elem_of_In, H in Hc. by apply bool_decide_eq_true in Hc. }
    assert (forall c d r, word_char d = false -> d <> 62 -> ends [c] (d :: r)) as He by (by intros).
    assert (forall c d r, word_char c = false -> c <> 62 -> ends [c] (d :: r)) as He2 by (intros c d r Hc H62; split; [intros Hf; apply Forall_inv in Hf; congruence | congruence]).
    repeat (spell; [by apply Hb | first [by apply He | by apply He2 | split; [done | intros [=]] | split; [intros Hf; apply Forall_inv in Hf; done | done]] |]). apply spelled_nil. by apply Hb.
Defined.
