(* ===== verification/ShRun.v ===== *)
(** * Running commands in the shell (sh.c: runcmd, fork1, panic)

    [runcmd] as the tree of the system calls that it makes, and a meaning of such
    trees: which programs are run, by which processes, with which files open.
    Descriptors are handed out by the scan of the kernel ([unused_fd]).  The
    theorem is that pipes and redirections connect exactly the files that the
    command says, and that no process keeps the ends of a pipe it should not. *)

From S2P Require Import Prelude Syscall Sh.
#[local] Open Scope Z_scope.

(** ** The program *)

(** A process: what it does next, for each result of a call. *)
Inductive prog :=
| PExit
| PExec (path : list Z) (argv : list (list Z)) (k : prog)      (* [k] when exec returns *)
| PPrint (fmt : string) (args : list (list Z)) (k : prog)      (* printf(2, ...), without the newline at its end *)
| PClose (fd : Z) (k : prog)
| POpen (file : list Z) (mode : Z) (k : Z -> prog)
| PFork (k : Z -> prog)
| PWait (k : prog)
| PPipe (k : option (Z * Z) -> prog)
| PDup (fd : Z) (k : prog)
| PChdir (dir : list Z) (k : Z -> prog).

Definition panic_sh (msg : string) : prog := PPrint msg [] PExit.
Definition fork1 (k : Z -> prog) : prog :=
  PFork (fun pid => if pid =? -1 then panic_sh "fork" else k pid).

Fixpoint runcmd (c : cmd (list Z)) : prog :=
  match c with
  | Exec argv =>
      match argv with
      | [] => PExit
      | a :: _ => PExec a argv (PPrint "exec %s failed" [a] PExit)
      end
  | Redir c file mode fd =>
      PClose fd (POpen file mode (fun r =>
        if r <? 0 then PPrint "open %s failed" [file] PExit else runcmd c))
  | List l r => fork1 (fun pid => if pid =? 0 then runcmd l else PWait (runcmd r))
  | Pipe l r =>
      PPipe (fun p =>
        match p with
        | None => panic_sh "pipe"
        | Some (p0, p1) =>
            fork1 (fun pid =>
              if pid =? 0 then PClose 1 (PDup p1 (PClose p0 (PClose p1 (runcmd l))))
              else fork1 (fun pid =>
                if pid =? 0 then PClose 0 (PDup p0 (PClose p0 (PClose p1 (runcmd r))))
                else PClose p0 (PClose p1 (PWait (PWait PExit)))))
        end)
  | Back c => fork1 (fun pid => if pid =? 0 then runcmd c else PExit)
  end.

(** ** What processes do *)

(** Open files: those the shell starts with, files, and the two ends of a pipe. *)
Inductive handle := Inherited (n : nat) | Opened (file : list Z) (mode : Z) | ReadEnd (id : nat) | WriteEnd (id : nat).
Abbreviation fds := (list (option handle)).

Inductive event :=
| Ran (argv : list (list Z)) (t : fds)      (* the process becomes this program *)
| Printed (fmt : string) (args : list (list Z))
| Child (l : list event)                    (* what a new process does *)
| Waited
| Moved (dir : list Z).                     (* the process changes its directory *)

Section run.
(** Which programs can be executed, which files opened and which directories
    entered; and which of the calls of fork and pipe, by their number, have a process
    or a pipe to give. *)
Context (can_exec : list Z -> bool) (can_open : list Z -> Z -> bool) (can_chdir : list Z -> bool) (can_fork can_pipe : nat -> bool).

Definition close_fd (fd : Z) (t : fds) : fds := <[Z.to_nat fd := None]> t.
(** The lowest free descriptor gets the handle. *)
Definition alloc_fd (h : handle) (t : fds) : option (nat * fds) :=
  match unused_fd t 0 with
  | None => None
  | Some fd => Some (fd, <[fd := Some h]> t)
  end.

(** The events of a process with table [t], and the number of calls of fork and pipe
    so far, from which a pipe gets its name. *)
Fixpoint run (p : prog) (t : fds) (n : nat) : list event * nat :=
  match p with
  | PExit => ([], n)
  | PExec a argv k => if can_exec a then ([Ran argv t], n) else run k t n
  | PPrint fmt args k => let '(e, n) := run k t n in (Printed fmt args :: e, n)
  | PClose fd k => run k (close_fd fd t) n
  | POpen f mode k =>
      if can_open f mode then
        match alloc_fd (Opened f mode) t with
        | Some (fd, t) => run (k (Z.of_nat fd)) t n
        | None => run (k (-1)) t n
        end
      else run (k (-1)) t n
  | PFork k =>
      if can_fork n then
        let '(e, n) := run (k 0) t (S n) in
        let '(e', n) := run (k 1) t n in
        (Child e :: e', n)
      else run (k (-1)) t (S n)
  | PWait k => let '(e, n) := run k t n in (Waited :: e, n)
  | PPipe k =>
      if can_pipe n then
        match alloc_fd (ReadEnd n) t with
        | None => run (k None) t (S n)
        | Some (p0, t0) =>
            match alloc_fd (WriteEnd n) t0 with
            | None => run (k None) t (S n)
            | Some (p1, t1) => run (k (Some (Z.of_nat p0, Z.of_nat p1))) t1 (S n)
            end
        end
      else run (k None) t (S n)
  | PDup fd k =>
      match t !! Z.to_nat fd with
      | Some (Some h) =>
          match alloc_fd h t with
          | Some (_, t) => run k t n
          | None => run k t n
          end
      | _ => run k t n
      end
  | PChdir dir k =>
      if can_chdir dir then let '(e, n) := run (k 0) t n in (Moved dir :: e, n)
      else run (k (-1)) t n
  end.

(** ** What a command means *)

Fixpoint plumb (c : cmd (list Z)) (t : fds) (n : nat) : list event * nat :=
  match c with
  | Exec argv =>
      match argv with
      | [] => ([], n)
      | a :: _ => ([if can_exec a then Ran argv t else Printed "exec %s failed" [a]], n)
      end
  | Redir c f mode fd =>
      if can_open f mode then plumb c (<[Z.to_nat fd := Some (Opened f mode)]> t) n
      else ([Printed "open %s failed" [f]], n)
  | List l r =>
      if can_fork n then
        let '(e, n) := plumb l t (S n) in
        let '(e', n) := plumb r t n in
        (Child e :: Waited :: e', n)
      else ([Printed "fork" []], S n)
  | Pipe l r =>
      if negb (can_pipe n) then ([Printed "pipe" []], S n)
      else if can_fork (S n) then
        let '(e, n1) := plumb l (<[1%nat := Some (WriteEnd n)]> t) (S (S n)) in
        if can_fork n1 then
          let '(e', n2) := plumb r (<[0%nat := Some (ReadEnd n)]> t) (S n1) in
          ([Child e; Child e'; Waited; Waited], n2)
        else ([Child e; Printed "fork" []], S n1)
      else ([Printed "fork" []], S (S n))
  | Back c => if can_fork n then let '(e, n) := plumb c t (S n) in ([Child e], n) else ([Printed "fork" []], S n)
  end.

(** The parser redirects standard input and standard output only. *)
Fixpoint std_redirs {W} (c : cmd W) : Prop :=
  match c with
  | Exec _ => True
  | Redir c _ _ fd => (fd = 0 \/ fd = 1) /\ std_redirs c
  | Pipe l r | List l r => std_redirs l /\ std_redirs r
  | Back c => std_redirs c
  end.
(** Standard input, output and error are open, and two descriptors are free. *)
Definition std (t : fds) : Prop := forall i, (i < 3)%nat -> exists h, t !! i = Some (Some h).
Definition ready (t : fds) : Prop :=
  std t /\
  exists i j, i <> j /\ t !! i = Some None /\ t !! j = Some None.

(** ** Descriptors *)

Lemma unused_fd_spec (t : fds) k :
  match unused_fd t k with
  | Some fd => (k <= fd)%nat /\ t !! (fd - k)%nat = Some None /\
      forall i, (i < fd - k)%nat -> exists h, t !! i = Some (Some h)
  | None => forall i, t !! i <> Some None
  end.
Proof using.
  revert k. induction t as [|[h|] t IH]; intros k; simpl.
  - done.
  - specialize (IH (k + 1)%nat). destruct (unused_fd t (k + 1)) as [fd|].
    + destruct IH as (H1 & H2 & H3). split; [lia|]. replace (fd - k)%nat with (S (fd - (k + 1))) by lia. split; [done|].
      intros [|i] Hi; [by exists h | apply H3; lia].
    + intros [|i]; [done | apply IH].
  - rewrite Nat.sub_diag. split_and!; [lia | done | lia].
Qed.
(** The lowest free descriptor. *)
Lemma alloc_fd_at h t fd : t !! fd = Some None -> (forall i, (i < fd)%nat -> t !! i <> Some None) ->
  alloc_fd h t = Some (fd, <[fd := Some h]> t).
Proof using.
  intros Hfd Hlow. unfold alloc_fd. pose proof (unused_fd_spec t 0) as H. destruct (unused_fd t 0) as [x|].
  - rewrite Nat.sub_0_r in H. destruct H as (_ & Hx & Hl). destruct (lt_eq_lt_dec x fd) as [[Hlt| ->]|Hgt]; [|done|].
    + by destruct (Hlow x Hlt).
    + destruct (Hl fd Hgt). congruence.
  - by destruct (H fd).
Qed.
Lemma alloc_fd_some h t i : t !! i = Some None ->
  exists fd, alloc_fd h t = Some (fd, <[fd := Some h]> t) /\ t !! fd = Some None /\ (fd <= i)%nat.
Proof using.
  intros Hi. unfold alloc_fd. pose proof (unused_fd_spec t 0) as H. destruct (unused_fd t 0) as [x|]; [|by destruct (H i)].
  rewrite Nat.sub_0_r in H. destruct H as (_ & Hx & Hl). exists x. split_and!; [done | done|].
  destruct (decide (x <= i)%nat); [done|]. destruct (Hl i ltac:(lia)). congruence.
Qed.

Lemma ready_insert t i h : ready t -> (i < 3)%nat -> ready (<[i := Some h]> t).
Proof using.
  intros [Hstd (a & c & Hac & Ha & Hc)] Hi. split.
  - intros j Hj. destruct (decide (j = i)) as [->|Hne].
    + destruct (Hstd i Hi) as [h' Hh]. exists h. apply list_lookup_insert_eq. by eapply lookup_lt_Some.
    + rewrite list_lookup_insert_ne by done. by apply Hstd.
  - assert (forall x, t !! x = Some None -> x <> i) as Hne by (intros x Hx ->; destruct (Hstd i Hi); congruence).
    exists a, c. rewrite !list_lookup_insert_ne by (by apply not_eq_sym, Hne). done.
Qed.

(** Closing one of the standard descriptors makes it the next to be handed out. *)
Lemma reopen t i h : std t -> (i < 3)%nat ->
  alloc_fd h (close_fd (Z.of_nat i) t) = Some (i, <[i := Some h]> t).
Proof using.
  intros Hstd Hi. unfold close_fd. rewrite Nat2Z.id. destruct (Hstd i Hi) as [h' Hh].
  rewrite (alloc_fd_at h _ i); [by rewrite list_insert_insert_eq| |].
  - apply list_lookup_insert_eq. by eapply lookup_lt_Some.
  - intros j Hj. rewrite list_lookup_insert_ne by lia. destruct (Hstd j ltac:(lia)) as [? ->]. done.
Qed.

Lemma std_not_free t i : std t -> t !! i = Some None -> (3 <= i)%nat.
Proof using. intros Hs Hi. destruct (decide (i < 3)%nat) as [Hlt|]; [|lia]. destruct (Hs i Hlt). congruence. Qed.
Lemma std_insert t i h : std t -> std (<[i := Some h]> t).
Proof using.
  intros Hs j Hj. destruct (Hs j Hj) as [h' Hh]. destruct (decide (j = i)) as [->|Hne].
  - exists h. apply list_lookup_insert_eq. by eapply lookup_lt_Some.
  - rewrite list_lookup_insert_ne by done. by exists h'.
Qed.

(** The table of a process that has made a pipe. *)
Definition piped (t : fds) (p0 p1 n : nat) : fds := <[p1 := Some (WriteEnd n)]> (<[p0 := Some (ReadEnd n)]> t).
Definition pipe_slots (t : fds) (p0 p1 : nat) : Prop :=
  std t /\ p0 <> p1 /\ t !! p0 = Some None /\ t !! p1 = Some None.

Lemma pipe_ok t n : ready t -> exists p0 p1, pipe_slots t p0 p1 /\
  forall k, run (PPipe k) t n = if can_pipe n then run (k (Some (Z.of_nat p0, Z.of_nat p1))) (piped t p0 p1 n) (S n) else run (k None) t (S n).
Proof using.
  intros [Hs (i & j & Hij & Hi & Hj)]. destruct (alloc_fd_some (ReadEnd n) t i Hi) as (p0 & E0 & H0 & _).
  assert (exists x, <[p0 := Some (ReadEnd n)]> t !! x = Some None) as [x Hx].
  { destruct (decide (p0 = i)) as [->|]; [exists j | exists i]; by rewrite list_lookup_insert_ne. }
  destruct (alloc_fd_some (WriteEnd n) _ x Hx) as (p1 & E1 & H1 & _).
  assert (p0 <> p1) as Hne.
  { intros ->. rewrite list_lookup_insert_eq in H1 by (by eapply lookup_lt_Some). done. }
  rewrite list_lookup_insert_ne in H1 by done. exists p0, p1. split; [done|]. intros k. cbn [run]. by rewrite E0, E1.
Qed.

(** After the parent's or a child's closes, nothing is left of the pipe but [h]. *)
Lemma pipe_closed t p0 p1 n i h : pipe_slots t p0 p1 -> (i < 3)%nat ->
  close_fd (Z.of_nat p1) (close_fd (Z.of_nat p0) (<[i := Some h]> (piped t p0 p1 n))) = <[i := Some h]> t.
Proof using.
  intros (Hs & Hne & H0 & H1) Hi. pose proof (std_not_free _ _ Hs H0). pose proof (std_not_free _ _ Hs H1).
  unfold close_fd, piped. rewrite !Nat2Z.id. apply list_eq. intros j.
  assert (p0 < length t)%nat by (by eapply lookup_lt_Some). assert (p1 < length t)%nat by (by eapply lookup_lt_Some).
  destruct (decide (j = p1)) as [->|Hj1]; [by rewrite list_lookup_insert_eq, list_lookup_insert_ne by (rewrite ?length_insert; lia)|].
  rewrite list_lookup_insert_ne by done.
  destruct (decide (j = p0)) as [->|Hj0]; [by rewrite list_lookup_insert_eq, list_lookup_insert_ne by (rewrite ?length_insert; lia)|].
  rewrite list_lookup_insert_ne by done. destruct (decide (j = i)) as [->|Hji].
  - rewrite !list_lookup_insert_eq; [done|..]; rewrite ?length_insert; destruct (Hs i Hi); by eapply lookup_lt_Some.
  - by rewrite !list_lookup_insert_ne by done.
Qed.
Lemma pipe_child t p0 p1 n i px h k m : pipe_slots t p0 p1 -> (i < 3)%nat ->
  piped t p0 p1 n !! px = Some (Some h) -> (px = p0 \/ px = p1) ->
  run (PClose (Z.of_nat i) (PDup (Z.of_nat px) (PClose (Z.of_nat p0) (PClose (Z.of_nat p1) k)))) (piped t p0 p1 n) m =
    run k (<[i := Some h]> t) m.
Proof using.
  intros Hp Hi Hx Hpx. pose proof Hp as (Hs & Hne & H0 & H1).
  pose proof (std_not_free _ _ Hs H0). pose proof (std_not_free _ _ Hs H1). cbn [run].
  assert (std (piped t p0 p1 n)) as Hs' by (by do 2 apply std_insert).
  assert (close_fd (Z.of_nat i) (piped t p0 p1 n) !! Z.to_nat (Z.of_nat px) = Some (Some h)) as ->.
  { unfold close_fd. rewrite !Nat2Z.id, list_lookup_insert_ne by lia. done. }
  by rewrite reopen, (pipe_closed t p0 p1 n i h).
Qed.

Lemma run_fork1 k t n :
  run (fork1 k) t n = if can_fork n then let '(e, n) := run (k 0) t (S n) in let '(e', n) := run (k 1) t n in (Child e :: e', n) else ([Printed "fork" []], S n).
Proof using. unfold fork1. cbn [run]. by destruct (can_fork n). Qed.

Lemma runcmd_run c t n : std_redirs c -> ready t -> run (runcmd c) t n = plumb c t n.
Proof using.
  revert t n. induction c as [[|a argv]|c IH f mode fd|l IHl r IHr|l IHl r IHr|c IH]; intros t n Hc Ht; simpl in Hc.
  - done.
  - cbn [runcmd run plumb]. by destruct (can_exec a).
  - destruct Hc as [Hfd Hc]. cbn [runcmd run plumb].
    assert (exists i, fd = Z.of_nat i /\ (i < 3)%nat) as (i & -> & Hi).
    { destruct Hfd as [->| ->]; [exists 0%nat | exists 1%nat]; lia. }
    rewrite Nat2Z.id. destruct (can_open f mode); [|done]. rewrite reopen by (apply Ht || done).
    rewrite (proj2 (Z.ltb_ge _ 0)) by lia. apply IH; [done | by apply ready_insert].
  - destruct Hc as [Hl Hr]. cbn [runcmd plumb]. destruct (pipe_ok t n Ht) as (p0 & p1 & Hp & ->). destruct (can_pipe n); cbn [negb]; [|done].
    pose proof Hp as (Hs & Hne & H0 & H1).
    assert (piped t p0 p1 n !! p1 = Some (Some (WriteEnd n))) as Hw.
    { unfold piped. rewrite list_lookup_insert_eq; [done|]. rewrite length_insert. by eapply lookup_lt_Some. }
    assert (piped t p0 p1 n !! p0 = Some (Some (ReadEnd n))) as Hrd.
    { unfold piped. rewrite list_lookup_insert_ne, list_lookup_insert_eq by (done || by eapply lookup_lt_Some). done. }
    rewrite run_fork1. destruct (can_fork (S n)); [|done]. cbv beta. rewrite Z.eqb_refl. change (1 =? 0) with false. cbv iota.
    rewrite (pipe_child t p0 p1 n 1 p1 (WriteEnd n)) by (done || lia || by right).
    rewrite IHl by (done || by apply ready_insert; [|lia]). destruct (plumb l _ _) as [e n1].
    rewrite run_fork1. destruct (can_fork n1); [|done]. cbv beta. rewrite Z.eqb_refl. change (1 =? 0) with false. cbv iota.
    rewrite (pipe_child t p0 p1 n 0 p0 (ReadEnd n)) by (done || lia || by left).
    rewrite IHr by (done || by apply ready_insert; [|lia]). by destruct (plumb r _ _) as [e' n2].
  - destruct Hc as [Hl Hr]. cbn [runcmd plumb]. rewrite run_fork1. destruct (can_fork n); [|done]. cbv beta. rewrite Z.eqb_refl.
    change (1 =? 0) with false. cbv iota. cbn [run]. rewrite IHl by done. destruct (plumb l t (S n)) as [e n1].
    rewrite IHr by done. by destruct (plumb r t n1).
  - cbn [runcmd plumb]. rewrite run_fork1. destruct (can_fork n); [|done]. cbv beta. rewrite Z.eqb_refl. change (1 =? 0) with false. cbv iota.
    rewrite IH by done. by destruct (plumb c t (S n)).
Qed.

(** [runcmd] connects the programs of a command as the command says.  Started
    with the standard files open and two descriptors free, every program of the
    command is run by its own process with exactly the table it should have: the
    table of the shell, with the files of its redirections, and with one end of
    the pipe as its output or its input; no other end of a pipe stays open, so
    readers see the end of their input.  The parent waits for both sides of a
    pipe and for the left side of a list, and not for the background.  A process that
    gets no pipe or no child says so and ends. *)
Theorem runcmd_plumbs c t n : std_redirs c -> ready t -> run (runcmd c) t n = plumb c t n.
Proof using. apply runcmd_run. Qed.
End run.

(** "a < f | b" in a shell with three files open. *)
Lemma runcmd_plumbs_witness :
  let t := (Some ∘ Inherited <$> seq 0 3) ++ replicate 13 None in
  run (fun _ => true) (fun _ _ => true) (fun _ => true) (fun _ => true) (fun _ => true) (runcmd (Pipe (Redir (Exec [[97]]) [102] 0 0) (Exec [[98]]))) t 0 =
    ([Child [Ran [[97]] (<[0%nat := Some (Opened [102] 0)]> (<[1%nat := Some (WriteEnd 0)]> t))];
      Child [Ran [[98]] (<[0%nat := Some (ReadEnd 0)]> t)]; Waited; Waited], 3%nat).
Proof.
  intros t. refine (runcmd_plumbs (fun _ => true) (fun _ _ => true) (fun _ => true) (fun _ => true) (fun _ => true) (Pipe (Redir (Exec [[97]]) [102] 0 0) (Exec [[98]])) t 0 _ _).
  - simpl. auto.
  - split.
    + intros i Hi. exists (Inherited i). destruct i as [|[|[|i]]]; [reflexivity..|lia].
    + exists 3%nat, 4%nat. split_and!; [lia | reflexivity | reflexivity].
Defined.
