(* ===== verification/Console.v ===== *)
(** * The console (console.c, uart.c)

    Input: consoleintr puts the keys of a line into a ring of bytes, and lets the
    user edit the line until it is complete; consoleread takes bytes out.  Both
    hold cons.lock, so they are atomic but for the sleep of consoleread, which
    ends a piece of it.  Output: consputc writes to the serial port and to the
    screen.  The inode that consoleread and consolewrite unlock while they work,
    and the waiting for the serial port, are left out. *)

From S2P Require Import Prelude.
#[local] Open Scope Z_scope.

Abbreviation BACKSPACE := 256.
Abbreviation INPUT_BUF := 128.
Abbreviation CTRL_D := 4.
Abbreviation CTRL_H := 8.
Abbreviation CTRL_P := 16.
Abbreviation CTRL_U := 21.
Abbreviation DEL := 127.
Abbreviation LF := 10.
Abbreviation CR := 13.

(** [input], the screen with its cursor, and what went to the serial port. *)
Record cst := CSt {
  c_buf : list Z;
  c_r : Z;
  c_w : Z;
  c_e : Z;
  c_pos : Z;              (* the cursor in the registers of the controller *)
  c_crt : list Z;         (* CGA memory, in ushorts *)
  c_uart : bool;          (* is there a uart? *)
  c_sent : list Z;        (* bytes sent by the uart *)
  c_panicked : bool;
  c_woken : nat;          (* calls of wakeup(&input.r) *)
}.
Definition set_input (buf : list Z) (r w e : Z) (s : cst) : cst :=
  CSt buf r w e (c_pos s) (c_crt s) (c_uart s) (c_sent s) (c_panicked s) (c_woken s).
Definition set_screen (pos : Z) (crt : list Z) (s : cst) : cst :=
  CSt (c_buf s) (c_r s) (c_w s) (c_e s) pos crt (c_uart s) (c_sent s) (c_panicked s) (c_woken s).
Definition send (b : Z) (s : cst) : cst :=
  CSt (c_buf s) (c_r s) (c_w s) (c_e s) (c_pos s) (c_crt s) (c_uart s) (c_sent s ++ [u8 b]) (c_panicked s) (c_woken s).
Definition wake (s : cst) : cst :=
  CSt (c_buf s) (c_r s) (c_w s) (c_e s) (c_pos s) (c_crt s) (c_uart s) (c_sent s) (c_panicked s) (S (c_woken s)).

(** ** Output *)

Definition uartputc (c : Z) : M cst unit :=
  u <- gets c_uart ;;
  if u : bool then modify (send c) else ret tt.

(** The new position of the cursor, and the cell that is written. *)
Definition cga_advance (c pos : Z) (crt : list Z) : Z * list Z :=
  if c =? LF then (pos + (80 - pos mod 80), crt)
  else if c =? BACKSPACE then (if 0 <? pos then pos - 1 else pos, crt)
  else (pos + 1, <[Z.to_nat pos := Z.lor (Z.land c 255) 1792]> crt).
(** [memmove(crt, crt+80, sizeof(crt[0])*23*80)] and the [memset]. *)
Definition cga_scroll (pos : Z) (crt : list Z) : list Z :=
  let crt := take 1840 (drop 80 crt) ++ drop 1840 crt in
  take (Z.to_nat pos) crt ++ replicate (Z.to_nat (24 * 80 - pos)) 0 ++ drop (Z.to_nat (24 * 80)) crt.
Definition cgaputc (c : Z) : M cst unit :=
  pos <- gets c_pos ;;
  crt <- gets c_crt ;;
  let '(pos, crt) := cga_advance c pos crt in
  panic_if ((pos <? 0) || (25 * 80 <? pos)) "pos under/overflow" ;;;
  let '(pos, crt) := if 24 <=? pos / 80 then (pos - 80, cga_scroll (pos - 80) crt) else (pos, crt) in
  (* the registers take the two low bytes of the position *)
  modify (set_screen (u16 pos) (<[Z.to_nat pos := Z.lor 32 1792]> crt)).

Definition consputc (c : Z) : M cst unit :=
  p <- gets c_panicked ;;
  if p : bool then diverge
  else
    (if c =? BACKSPACE then uartputc 8 ;;; uartputc 32 ;;; uartputc 8 else uartputc c) ;;;
    cgaputc c.

Fixpoint consolewrite_loop (l : list Z) : M cst unit :=
  match l with
  | [] => ret tt
  | c :: l => consputc (Z.land c 255) ;;; consolewrite_loop l
  end.
(** [n] bytes at [buf], which are the list. *)
Definition consolewrite (l : list Z) : M cst Z := consolewrite_loop l ;;; ret (Z.of_nat (length l)).

(** ** Input *)

Definition buf_at (s : cst) (i : Z) : Z := default 0 (c_buf s !! Z.to_nat (i mod INPUT_BUF)).

(** The loop of ^U; the ring holds less than [k] bytes. *)
Fixpoint kill_line (k : nat) : M cst unit :=
  match k with
  | O => diverge
  | S k =>
      s <- get ;;
      if negb (c_e s =? c_w s) && negb (buf_at s (u32 (c_e s - 1)) =? LF) then
        modify (set_input (c_buf s) (c_r s) (c_w s) (u32 (c_e s - 1))) ;;;
        consputc BACKSPACE ;;;
        kill_line k
      else ret tt
  end.

(** The key [c] goes into the line. *)
Definition addkey (c : Z) : M cst unit :=
  modify (fun s => set_input (<[Z.to_nat (c_e s mod INPUT_BUF) := u8 c]> (c_buf s)) (c_r s) (c_w s) (u32 (c_e s + 1)) s) ;;;
  consputc c ;;;
  s <- get ;;
  if (c =? LF) || (c =? CTRL_D) || (c_e s =? u32 (c_r s + INPUT_BUF)) then
    modify (fun s => set_input (c_buf s) (c_r s) (c_e s) (c_e s) s) ;;; modify wake
  else ret tt.
(** One key: whether it asks for the list of processes. *)
Definition consolekey (c : Z) : M cst bool :=
  s <- get ;;
  if c =? CTRL_P then ret true
  else if c =? CTRL_U then kill_line 129 ;;; ret false
  else if (c =? CTRL_H) || (c =? DEL) then
    (if negb (c_e s =? c_w s) then
       modify (set_input (c_buf s) (c_r s) (c_w s) (u32 (c_e s - 1))) ;;; consputc BACKSPACE
     else ret tt) ;;; ret false
  else
    (if negb (c =? 0) && (u32 (c_e s - c_r s) <? INPUT_BUF) then
       addkey (if c =? CR then LF else c)
     else ret tt) ;;; ret false.
(** [consoleintr]: the keys that getc has; true when procdump is called. *)
Fixpoint consoleintr (keys : list Z) (doprocdump : bool) : M cst bool :=
  match keys with
  | [] => ret doprocdump
  | c :: keys => d <- consolekey c ;; consoleintr keys (doprocdump || d)
  end.

(** A piece of consoleread: the bytes [got] so far, of [target].  It returns, fails
    because the process was killed, or sleeps. *)
Inductive rpiece := CRet (got : list Z) | CKilled | CSleep (got : list Z).
Fixpoint consoleread_loop (n : nat) (killed : bool) (got : list Z) : M cst rpiece :=
  match n with
  | O => ret (CRet got)
  | S n =>
      s <- get ;;
      if c_r s =? c_w s then ret (if killed then CKilled else CSleep got)
      else
        let c := buf_at s (c_r s) in
        modify (set_input (c_buf s) (u32 (c_r s + 1)) (c_w s) (c_e s)) ;;;
        if c =? CTRL_D then
          (* n < target: some bytes were read before *)
          (if decide (got = []) then ret tt
           else modify (fun s => set_input (c_buf s) (u32 (c_r s - 1)) (c_w s) (c_e s) s)) ;;;
          ret (CRet got)
        else if c =? LF then ret (CRet (got ++ [c]))
        else consoleread_loop n killed (got ++ [c])
  end.
Definition consoleread (target : Z) (killed : bool) (got : list Z) : M cst rpiece :=
  consoleread_loop (Z.to_nat (target - Z.of_nat (length got))) killed got.

(** ** The screen *)

(** The cursor is in the first 24 rows of the screen. *)
Definition screen_ok (s : cst) : Prop := 0 <= c_pos s < 24 * 80 /\ length (c_crt s) = 2000%nat.
(** [s'] differs from [s] in output only. *)
Definition printed (s s' : cst) : Prop :=
  c_buf s' = c_buf s /\ c_r s' = c_r s /\ c_w s' = c_w s /\ c_e s' = c_e s /\
  c_woken s' = c_woken s /\ c_panicked s' = c_panicked s /\ c_uart s' = c_uart s.

Lemma printed_refl s : printed s s.
Proof. done. Qed.
Lemma printed_trans s s' s'' : printed s s' -> printed s' s'' -> printed s s''.
Proof. unfold printed. intros (?&?&?&?&?&?&?) (?&?&?&?&?&?&?). split_and!; congruence. Qed.

Lemma cga_advance_ok c pos crt pos' crt' :
  0 <= pos < 1920 -> length crt = 2000%nat -> cga_advance c pos crt = (pos', crt') ->
  0 <= pos' <= 1920 /\ length crt' = 2000%nat /\ drop 1920 crt' = drop 1920 crt.
Proof.
  intros Hp Hl. unfold cga_advance. destruct (c =? LF); [|destruct (c =? BACKSPACE)]; intros E; injection E as <- <-.
  - split_and!; [zlia | zlia | done | done].
  - destruct (Z.ltb_spec 0 pos); split_and!; try done; lia.
  - split_and!; [lia | lia | by rewrite length_insert | by rewrite drop_insert_lt by lia].
Qed.
Lemma cga_scroll_ok crt : length crt = 2000%nat ->
  length (cga_scroll 1840 crt) = 2000%nat /\ drop 1920 (cga_scroll 1840 crt) = drop 1920 crt.
Proof.
  intros Hl. unfold cga_scroll. change (Z.to_nat 1840) with 1840%nat. change (Z.to_nat (24 * 80 - 1840)) with 80%nat.
  change (Z.to_nat (24 * 80)) with 1920%nat. set (x := take 1840 (drop 80 crt)).
  assert (length x = 1840%nat) as Hx by (unfold x; rewrite length_take, length_drop; lia).
  rewrite take_app_ge by lia. replace (1840 - length x)%nat with 0%nat by lia. rewrite take_0, app_nil_r.
  rewrite (drop_app_ge x) by lia. replace (1920 - length x)%nat with 80%nat by lia. rewrite drop_drop. split.
  - rewrite !length_app, length_replicate, length_drop. lia.
  - rewrite drop_app_ge by lia. replace (1920 - length x)%nat with (length (replicate 80 0)) by (rewrite length_replicate; lia).
    by rewrite drop_app_length.
Qed.

Lemma cgaputc_ok c s : screen_ok s ->
  exists s', cgaputc c s = Ret tt s' /\ screen_ok s' /\ printed s s' /\ c_sent s' = c_sent s /\
    drop 1920 (c_crt s') = drop 1920 (c_crt s).
Proof.
  intros [Hp Hl]. unfold cgaputc. rewrite !bind_gets.
  destruct (cga_advance c (c_pos s) (c_crt s)) as [pos crt] eqn:E.
  destruct (cga_advance_ok _ _ _ _ _ Hp Hl E) as (Hp' & Hl' & Hd). clear E.
  rewrite bind_check by (apply orb_false_iff; split; [apply Z.ltb_ge | apply Z.ltb_ge]; lia).
  destruct (Z.leb_spec 24 (pos / 80)) as [Hge|Hlt].
  - assert (pos = 1920) as -> by zlia. destruct (cga_scroll_ok crt Hl') as [Hl2 Hd2].
    eexists. split; [done|]. change (1920 - 80) with 1840. split; [split; simpl; [unfold u16; zlia | by rewrite length_insert]|].
    split; [done|]. split; [done|]. simpl. by rewrite drop_insert_lt, Hd2 by lia.
  - eexists. split; [done|]. split; [split; simpl; [unfold u16; zlia | by rewrite length_insert]|].
    split; [done|]. split; [done|]. simpl. by rewrite drop_insert_lt by zlia.
Qed.

Lemma uartputc_ok c s : exists s', uartputc c s = Ret tt s' /\ printed s s' /\ c_pos s' = c_pos s /\ c_crt s' = c_crt s /\
  c_sent s' = c_sent s ++ (if c_uart s then [u8 c] else []).
Proof.
  unfold uartputc. rewrite bind_gets. destruct (c_uart s) eqn:E.
  - eexists. split; [done|]. done.
  - exists s. split; [done|]. split; [done|]. split; [done|]. split; [done|]. by rewrite app_nil_r.
Qed.

(** What a character puts on the serial line. *)
Definition uart_bytes (c : Z) : list Z := if c =? BACKSPACE then [8; 32; 8] else [u8 c].
Lemma consputc_ok c s : screen_ok s -> c_panicked s = false ->
  exists s', consputc c s = Ret tt s' /\ screen_ok s' /\ printed s s' /\
    drop 1920 (c_crt s') = drop 1920 (c_crt s) /\ c_sent s' = c_sent s ++ (if c_uart s then uart_bytes c else []).
Proof.
  intros Hs Hp. unfold consputc, uart_bytes. rewrite bind_gets, Hp.
  assert (exists s1, (if c =? BACKSPACE then uartputc 8 ;;; uartputc 32 ;;; uartputc 8 else uartputc c) s = Ret tt s1 /\
    printed s s1 /\ c_pos s1 = c_pos s /\ c_crt s1 = c_crt s /\
    c_sent s1 = c_sent s ++ (if c_uart s then if c =? BACKSPACE then [8; 32; 8] else [u8 c] else [])) as (s1 & E & Hpr & H1 & H2 & H3).
  { destruct (c =? BACKSPACE); [|by apply uartputc_ok]. unfold uartputc, bind, gets, ret, modify. simpl.
    destruct (c_uart s) eqn:Eu; simpl; rewrite ?Eu.
    - simpl. rewrite ?Eu. eexists. split; [reflexivity|]. split; [done|]. split; [done|]. split; [done|]. simpl. by rewrite <- !app_assoc.
    - simpl. rewrite ?Eu. eexists. split; [reflexivity|]. rewrite app_nil_r. done. }
  rewrite (bind_Ret _ _ _ _ _ E). destruct (cgaputc_ok c s1) as (s2 & E2 & Hs2 & Hp2 & Hse & Hd).
  { unfold screen_ok in *. by rewrite H1, H2. }
  exists s2. split; [done|]. split; [done|]. split; [by eapply printed_trans|]. split; [by rewrite Hd, H2 | by rewrite Hse].
Qed.

(** ** The line discipline

    What the console promises to its readers: the bytes of the complete lines that
    are not read yet, and the line that is being edited.  Besides, the characters
    echoed and how often readers were woken. *)

Record disc := Disc { d_q : list Z; d_ed : list Z; d_echo : list Z; d_wakes : nat }.

Definition key_line (c : Z) (d : disc) : disc :=
  let ed := d_ed d ++ [c] in
  if (c =? LF) || (c =? CTRL_D) || (length (d_q d ++ ed) =? 128)%nat
  then Disc (d_q d ++ ed) [] (d_echo d ++ [c]) (S (d_wakes d))
  else Disc (d_q d) ed (d_echo d ++ [c]) (d_wakes d).
Definition key_spec (c : Z) (d : disc) : disc :=
  if c =? CTRL_P then d
  else if c =? CTRL_U then Disc (d_q d) [] (d_echo d ++ replicate (length (d_ed d)) BACKSPACE) (d_wakes d)
  else if (c =? CTRL_H) || (c =? DEL) then
    match last (d_ed d) with
    | None => d
    | Some _ => Disc (d_q d) (removelast (d_ed d)) (d_echo d ++ [BACKSPACE]) (d_wakes d)
    end
  else if (c =? 0) || (128 <=? length (d_q d ++ d_ed d))%nat then d
  else key_line (if c =? CR then LF else c) d.

(** [n] bytes at most, up to the end of the line or of the file. *)
Fixpoint read_spec (n : nat) (killed : bool) (got q : list Z) : rpiece * list Z :=
  match n, q with
  | O, _ => (CRet got, q)
  | S n, [] => (if killed then CKilled else CSleep got, [])
  | S n, c :: q' =>
      if c =? CTRL_D then (CRet got, if decide (got = []) then q' else q)
      else if c =? LF then (CRet (got ++ [c]), q')
      else read_spec n killed (got ++ [c]) q'
  end.

(** Interrupts with the keys typed, and pieces of reads, in any order. *)
Inductive cop := Keys (l : list Z) | Read (target : Z) (killed : bool) (got : list Z).
Inductive cout := Dump (b : bool) | Piece (p : rpiece).
Definition op_run (o : cop) : M cst cout :=
  match o with
  | Keys l => b <- consoleintr l false ;; ret (Dump b)
  | Read target killed got => p <- consoleread target killed got ;; ret (Piece p)
  end.
Definition op_spec (o : cop) (d : disc) : cout * disc :=
  match o with
  | Keys l => (Dump (existsb (fun c => c =? CTRL_P) l), fold_left (fun d c => key_spec c d) l d)
  | Read target killed got =>
      let '(p, q) := read_spec (Z.to_nat (target - Z.of_nat (length got))) killed got (d_q d) in
      (Piece p, Disc q (d_ed d) (d_echo d) (d_wakes d))
  end.
Fixpoint ops_run (l : list cop) : M cst (list cout) :=
  match l with
  | [] => ret []
  | o :: l => x <- op_run o ;; xs <- ops_run l ;; ret (x :: xs)
  end.
Fixpoint ops_spec (l : list cop) (d : disc) : list cout * disc :=
  match l with
  | [] => ([], d)
  | o :: l => let '(x, d) := op_spec o d in let '(xs, d) := ops_spec l d in (x :: xs, d)
  end.
(** Drivers deliver bytes. *)
Definition op_ok (o : cop) : Prop := match o with Keys l => Forall (fun c => 0 <= c < 256) l | Read _ _ _ => True end.

(** The ring holds [l] from its read index to its edit index. *)
Definition ring (s : cst) (l : list Z) : Prop :=
  length (c_buf s) = 128%nat /\ 0 <= c_r s < W32 /\ c_e s = u32 (c_r s + Z.of_nat (length l)) /\ (length l <= 128)%nat /\
  forall i x, l !! i = Some x -> c_buf s !! Z.to_nat ((c_r s + Z.of_nat i) mod INPUT_BUF) = Some x.
Definition shown (s : cst) (echo : list Z) (wakes : nat) : Prop :=
  screen_ok s /\ c_panicked s = false /\ c_woken s = wakes /\
  c_sent s = if c_uart s then concat (uart_bytes <$> echo) else [].
Definition rep (d : disc) (s : cst) : Prop :=
  ring s (d_q d ++ d_ed d) /\ c_w s = u32 (c_r s + Z.of_nat (length (d_q d))) /\
  (length (d_q d ++ d_ed d) = 128%nat -> d_ed d = []) /\ (LF ∉ d_ed d) /\
  shown s (d_echo d) (d_wakes d).

Lemma u32_mod128 z : u32 z mod 128 = z mod 128.
Proof. unfold u32. zlia. Qed.
Lemma ring_at s l i x : ring s l -> l !! i = Some x -> buf_at s (u32 (c_r s + Z.of_nat i)) = x.
Proof. intros (_ & _ & _ & _ & H) Hi. unfold buf_at. rewrite u32_mod128. by rewrite (H _ _ Hi). Qed.
Lemma ring_printed s s' l : printed s s' -> ring s l -> ring s' l.
Proof. intros (E1 & E2 & E3 & E4 & _). unfold ring. by rewrite E1, E2, E4. Qed.
Lemma shown_input s buf r w e echo n : shown s echo n -> shown (set_input buf r w e s) echo n.
Proof. done. Qed.

Lemma consputc_shown c s echo n : shown s echo n ->
  exists s', consputc c s = Ret tt s' /\ printed s s' /\ shown s' (echo ++ [c]) n.
Proof.
  intros (Hs & Hp & Hw & Hse). destruct (consputc_ok c s Hs Hp) as (s' & E & Hs' & Hpr & _ & Hse').
  exists s'. split; [done|]. split; [done|]. destruct Hpr as (_ & _ & _ & _ & E1 & E2 & E3).
  unfold shown. rewrite E1, E2, E3. split_and!; try apply Hs'; try done.
  rewrite Hse', Hse. destruct (c_uart s); [|done]. by rewrite fmap_app, concat_app; simpl; rewrite app_nil_r.
Qed.

Lemma ring_push s l c : ring s l -> (length l < 128)%nat -> 0 <= c < 256 ->
  ring (set_input (<[Z.to_nat (c_e s mod INPUT_BUF) := u8 c]> (c_buf s)) (c_r s) (c_w s) (u32 (c_e s + 1)) s) (l ++ [c]).
Proof.
  intros (Hl & Hr & He & Hn & H) Hlt Hc. unfold ring. simpl. rewrite length_insert, length_app. simpl.
  split; [done|]. split; [done|]. split; [rewrite He; unfold u32; zlia|]. split; [lia|].
  intros i x Hi. rewrite He, u32_mod128. apply lookup_app_Some in Hi as [Hi|[Hge Hi]].
  - pose proof (lookup_lt_Some _ _ _ Hi). rewrite list_lookup_insert_ne by zlia. by apply H.
  - apply list_lookup_singleton_Some in Hi as [Hi <-]. replace i with (length l) by lia.
    rewrite list_lookup_insert_eq by zlia. unfold u8. by rewrite Z.mod_small.
Qed.
Lemma ring_pop_back s l x : ring s (l ++ [x]) ->
  ring (set_input (c_buf s) (c_r s) (c_w s) (u32 (c_e s - 1)) s) l.
Proof.
  intros (Hl & Hr & He & Hn & H). unfold ring. simpl. rewrite length_app in *. simpl in *.
  split; [done|]. split; [done|]. split; [rewrite He; unfold u32; zlia|]. split; [lia|].
  intros i y Hi. apply H. by apply lookup_app_l_Some.
Qed.
Lemma ring_pop_front s l x : ring s (x :: l) ->
  ring (set_input (c_buf s) (u32 (c_r s + 1)) (c_w s) (c_e s) s) l.
Proof.
  intros (Hl & Hr & He & Hn & H). unfold ring. simpl in *.
  split; [done|]. split; [apply u32_range|]. split; [rewrite He; unfold u32; zlia|]. split; [lia|].
  intros i y Hi. rewrite <- (H (S i) y Hi). f_equal. f_equal. unfold u32. zlia.
Qed.
(** A line is empty when its two ends are equal. *)
Lemma ring_ends r a b : (a <= 128)%nat -> (b <= 128)%nat -> (u32 (r + Z.of_nat a) =? u32 (r + Z.of_nat b)) = (a =? b)%nat.
Proof. intros Ha Hb. destruct (Nat.eqb_spec a b) as [->|]; [by rewrite Z.eqb_refl|]. apply Z.eqb_neq. unfold u32. zlia. Qed.

Lemma rep_ends d s : rep d s -> (c_e s =? c_w s) = match d_ed d with [] => true | _ => false end.
Proof.
  intros ((_ & _ & He & Hn & _) & Hw & _). rewrite He, Hw, ring_ends by (rewrite length_app in Hn; try rewrite length_app; lia).
  rewrite length_app. destruct (d_ed d); simpl; [apply Nat.eqb_eq | apply Nat.eqb_neq]; lia.
Qed.

(** One character of the line goes. *)
Lemma rep_erase q ed c echo n s : rep (Disc q (ed ++ [c]) echo n) s ->
  exists s', (modify (set_input (c_buf s) (c_r s) (c_w s) (u32 (c_e s - 1))) ;;; consputc BACKSPACE) s = Ret tt s' /\
    rep (Disc q ed (echo ++ [BACKSPACE]) n) s'.
Proof.
  intros (Hr & Hw & Hf & Hlf & Hsh). simpl in *. rewrite bind_modify. rewrite app_assoc in Hr.
  destruct (consputc_shown BACKSPACE _ _ _ (shown_input s (c_buf s) (c_r s) (c_w s) (u32 (c_e s - 1)) _ _ Hsh)) as (s' & E & Hp & Hsh').
  exists s'. split; [done|]. pose proof (ring_printed _ _ _ Hp (ring_pop_back _ _ _ Hr)) as Hr'.
  destruct Hp as (_ & Er & Ew & _). split; [done|]. simpl in *. rewrite Ew, Er. split; [done|].
  split; [|split; [|done]].
  - destruct Hr as (_ & _ & _ & Hn & _). rewrite !length_app in *. simpl in *. lia.
  - intros H. apply Hlf. rewrite elem_of_app. by left.
Qed.
Lemma rep_last q ed c echo n s : rep (Disc q (ed ++ [c]) echo n) s -> buf_at s (u32 (c_e s - 1)) = c /\ c <> LF.
Proof.
  intros (Hr & _ & _ & Hlf & _). simpl in *. split; [|intros ->; apply Hlf; rewrite elem_of_app; right; by left].
  rewrite app_assoc in Hr. rewrite <- (ring_at _ _ (length (q ++ ed)) c Hr) by (by apply list_lookup_middle).
  f_equal. destruct Hr as (_ & _ & -> & _). rewrite (length_app (q ++ ed)). simpl. unfold u32. zlia.
Qed.
Lemma kill_line_rep q n : forall ed k echo s, (length ed < k)%nat -> rep (Disc q ed echo n) s ->
  exists s', kill_line k s = Ret tt s' /\ rep (Disc q [] (echo ++ replicate (length ed) BACKSPACE) n) s'.
Proof.
  induction ed as [|c ed IH] using rev_ind; intros [|k] echo s Hk Hrep; try (rewrite ?length_app in Hk; simpl in Hk; lia);
    pose proof (rep_ends _ _ Hrep) as He; simpl in He.
  - exists s. simpl. unfold get, bind, gets. rewrite He. by rewrite app_nil_r.
  - destruct (rep_last _ _ _ _ _ _ Hrep) as [Eb Hc]. destruct (rep_erase _ _ _ _ _ _ Hrep) as (s1 & E1 & Hrep1).
    rewrite length_app in Hk. simpl in Hk. destruct (IH k (echo ++ [BACKSPACE]) s1) as (s' & E & Hrep'); [lia | done |].
    exists s'. split.
    + simpl. rewrite bind_get, He, Eb. rewrite (proj2 (Z.eqb_neq _ _) Hc).
      replace (match ed ++ [c] with [] => true | _ => false end) with false by (by destruct ed).
      simpl. rewrite <- bind_assoc. by rewrite (bind_Ret _ _ _ _ _ E1).
    + rewrite length_app, Nat.add_comm. rewrite <- (app_assoc echo [BACKSPACE]) in Hrep'. exact Hrep'.
Qed.

Lemma addkey_rep d c s : rep d s -> 0 <= c < 256 -> (length (d_q d ++ d_ed d) < 128)%nat ->
  exists s', addkey c s = Ret tt s' /\ rep (key_line c d) s'.
Proof.
  intros (Hr & Hw & Hf & Hlf & Hsh) Hc Hn. unfold addkey. rewrite bind_modify.
  pose proof (ring_push _ _ _ Hr Hn Hc) as Hr1. set (s1 := set_input _ _ _ _ s) in *. rewrite <- app_assoc in Hr1.
  destruct (consputc_shown c s1 (d_echo d) (d_wakes d)) as (s2 & E & Hp & Hsh2); [done|].
  rewrite (bind_Ret _ _ _ _ _ E), bind_get. pose proof (ring_printed _ _ _ Hp Hr1) as Hr2.
  destruct Hp as (_ & Er & Ew & _). subst s1. simpl in Er, Ew.
  replace (c_e s2 =? u32 (c_r s2 + INPUT_BUF)) with (length (d_q d ++ d_ed d ++ [c]) =? 128)%nat
    by (destruct Hr2 as (_ & _ & -> & Hn2 & _); by rewrite (ring_ends _ _ 128)).
  unfold key_line. destruct ((c =? LF) || (c =? CTRL_D) || _) eqn:Ec.
  - eexists. split; [done|]. split; [by rewrite app_nil_r|]. simpl. split; [by destruct Hr2 as (_ & _ & -> & _)|].
    split; [done|]. split; [set_solver|]. destruct Hsh2 as (? & ? & Hwk & ?). split; [done|]. by rewrite <- Hwk.
  - apply orb_false_iff in Ec as [Ec1 Ec]. apply orb_false_iff in Ec1 as [Ec1 _].
    eexists. split; [done|]. split; [done|]. simpl. rewrite Ew, Er. split; [done|]. split; [|split; [|done]].
    + intros H. apply Nat.eqb_neq in Ec. lia.
    + rewrite elem_of_app, list_elem_of_singleton. intros [?|?]; [done|]. apply Z.eqb_neq in Ec1. lia.
Qed.

Lemma rep_room d s : rep d s -> (u32 (c_e s - c_r s) <? INPUT_BUF) = negb (128 <=? length (d_q d ++ d_ed d))%nat.
Proof.
  intros ((_ & ? & He & Hn & _) & _). rewrite He. replace (u32 (u32 _ - _)) with (Z.of_nat (length (d_q d ++ d_ed d))) by (unfold u32; zlia).
  destruct (Nat.leb_spec 128 (length (d_q d ++ d_ed d))); [apply Z.ltb_ge | apply Z.ltb_lt]; lia.
Qed.

Lemma consolekey_rep d c s : rep d s -> 0 <= c < 256 ->
  exists s', consolekey c s = Ret (c =? CTRL_P) s' /\ rep (key_spec c d) s'.
Proof.
  intros Hrep Hc. unfold consolekey, key_spec. rewrite bind_get.
  destruct (c =? CTRL_P); [by exists s|]. destruct (c =? CTRL_U).
  { destruct d as [q ed echo n]. destruct (kill_line_rep q n ed 129 echo s) as (s' & E & H); [|done|].
    { destruct Hrep as ((_ & _ & _ & Hn & _) & _). rewrite length_app in Hn. simpl in Hn. lia. }
    exists s'. by rewrite (bind_Ret _ _ _ _ _ E). }
  destruct ((c =? CTRL_H) || (c =? DEL)).
  - rewrite (rep_ends _ _ Hrep). destruct d as [q ed echo n]. simpl. induction ed as [|x ed _] using rev_ind; [by exists s|].
    rewrite last_snoc, removelast_last. destruct (rep_erase _ _ _ _ _ _ Hrep) as (s' & E & H). exists s'. split; [|done].
    replace (match ed ++ [x] with [] => true | _ => false end) with false by (by destruct ed). simpl. by rewrite (bind_Ret _ _ _ _ _ E).
  - rewrite (rep_room _ _ Hrep), <- negb_orb. destruct ((c =? 0) || _) eqn:E; [by exists s|].
    apply orb_false_iff in E as [_ E%Nat.leb_gt]. simpl.
    destruct (addkey_rep d (if c =? CR then LF else c) s) as (s' & E' & H); [done | case_match; lia | done |].
    exists s'. by rewrite (bind_Ret _ _ _ _ _ E').
Qed.
Lemma consoleintr_rep l : forall b d s, rep d s -> Forall (fun c => 0 <= c < 256) l ->
  exists s', consoleintr l b s = Ret (b || existsb (fun c => c =? CTRL_P) l) s' /\ rep (fold_left (fun d c => key_spec c d) l d) s'.
Proof.
  induction l as [|c l IH]; intros b d s Hrep Hl; simpl; [exists s; by rewrite orb_false_r|].
  inversion Hl; subst. destruct (consolekey_rep d c s) as (s1 & E & H); [done..|]. rewrite (bind_Ret _ _ _ _ _ E), orb_assoc. eauto.
Qed.

(** The first unread byte, and the end of it. *)
Lemma rep_nonempty d s : rep d s -> (c_r s =? c_w s) = match d_q d with [] => true | _ => false end.
Proof.
  intros ((_ & Hr & _ & Hn & _) & Hw & _). rewrite Hw. replace (c_r s) with (u32 (c_r s + Z.of_nat 0)) at 1 by (unfold u32; zlia).
  rewrite ring_ends by (rewrite length_app in Hn; lia). by destruct (d_q d).
Qed.
Lemma rep_next x q ed echo n s : rep (Disc (x :: q) ed echo n) s ->
  buf_at s (c_r s) = x /\ rep (Disc q ed echo n) (set_input (c_buf s) (u32 (c_r s + 1)) (c_w s) (c_e s) s).
Proof.
  intros (Hr & Hw & Hf & Hlf & Hsh). simpl in *. split.
  - rewrite <- (ring_at _ _ 0 x Hr) by done. f_equal. destruct Hr as (_ & ? & _). unfold u32. zlia.
  - split; [by eapply ring_pop_front|]. simpl. split; [rewrite Hw; unfold u32; zlia|].
    split; [|done]. destruct Hr as (_ & _ & _ & Hn & _). simpl in Hn. lia.
Qed.
Lemma consoleread_rep ed echo n k killed : forall got q s, rep (Disc q ed echo n) s ->
  exists s', consoleread_loop k killed got s = Ret (fst (read_spec k killed got q)) s' /\
    rep (Disc (snd (read_spec k killed got q)) ed echo n) s'.
Proof.
  induction k as [|k IH]; intros got q s Hrep; [by exists s|]. simpl. rewrite bind_get, (rep_nonempty _ _ Hrep). simpl.
  destruct q as [|x q]; [by exists s|]. destruct (rep_next _ _ _ _ _ _ Hrep) as [-> Hrep'].
  rewrite bind_modify. destruct (x =? CTRL_D).
  - destruct (decide (got = [])); [by eexists|]. rewrite bind_modify. eexists. split; [done|]. simpl.
    replace (set_input _ _ _ _ _) with s; [done|]. destruct Hrep as ((_ & Hr & _) & _), s. unfold set_input. simpl in *.
    f_equal. unfold u32. zlia.
  - destruct (x =? LF); [by eexists|]. by apply IH.
Qed.

(** C34: consoleintr and consoleread are a line discipline.  Whatever keys the drivers
    deliver and whatever pieces of reads run in between, the ring with its three
    wrapping indices behaves as a queue of complete lines and a line being edited: no
    byte is lost, repeated or overwritten unread, ^U and backspace never reach into a
    line already given to readers, readers are woken exactly when a line is complete,
    a read ends at a newline, and an end of file is kept for the next read when bytes
    come before it.  The console neither panics nor loops. *)
Theorem console_is_line_discipline ops : forall d s, rep d s -> Forall op_ok ops ->
  exists s', ops_run ops s = Ret (fst (ops_spec ops d)) s' /\ rep (snd (ops_spec ops d)) s'.
Proof.
  induction ops as [|o ops IH]; intros d s Hrep Hok; [by exists s|]. inversion Hok as [|? ? Ho Hops]; subst.
  assert (exists s1, op_run o s = Ret (fst (op_spec o d)) s1 /\ rep (snd (op_spec o d)) s1) as (s1 & E & H1).
  { destruct o as [l|t killed got]; simpl.
    - destruct (consoleintr_rep l false d s Hrep Ho) as (s1 & E & H). exists s1. by rewrite (bind_Ret _ _ _ _ _ E).
    - destruct d as [q ed echo n]. simpl.
      destruct (consoleread_rep ed echo n (Z.to_nat (t - Z.of_nat (length got))) killed got q s Hrep) as (s1 & E & H).
      exists s1. unfold consoleread. rewrite (bind_Ret _ _ _ _ _ E). by destruct (read_spec _ _ _ _). }
  destruct (IH _ _ H1 Hops) as (s' & E' & H'). exists s'. simpl. rewrite (bind_Ret _ _ _ _ _ E), (bind_Ret _ _ _ _ _ E').
  destruct (op_spec o d) as [x d']. simpl in *. by destruct (ops_spec ops d').
Qed.

(** A console on which nothing was typed, with its indices about to wrap around. *)
Definition console0 : cst := CSt (replicate 128 0) 4294967294 4294967294 4294967294 0 (replicate 2000 0) true [] false 0.
Definition keys0 : list cop :=
  [Keys [97; 98; DEL; 99]; Read 10 false []; Keys [CR; 100; 101]; Read 10 false []; Keys [CTRL_U; CTRL_D]; Read 10 false []].
Lemma rep_console0 : rep (Disc [] [] [] 0) console0.
Proof.
  split; [split_and!; simpl; [done | lia | lia | done | lia | by intros i x]|]. split; [done|]. split; [done|].
  split; [by intros ?%elem_of_nil|]. split; [|done]. by split; simpl; [lia|].
Qed.
Lemma keys0_ok : Forall op_ok keys0.
Proof. repeat (apply Forall_cons; split; [simpl; try done; repeat (apply Forall_cons; split; [lia|]); by apply Forall_nil|]). by apply Forall_nil. Qed.
Lemma console_is_line_discipline_witness : exists s',
  ops_run keys0 console0 = Ret [Dump false; Piece (CSleep []); Dump false; Piece (CRet [97; 99; LF]); Dump false; Piece (CRet [])] s' /\
  rep (Disc [] [] [97; 98; BACKSPACE; 99; LF; 100; 101; BACKSPACE; BACKSPACE; CTRL_D] 2) s'.
Proof. exact (console_is_line_discipline keys0 (Disc [] [] [] 0) console0 rep_console0 keys0_ok). Defined.

(** Consolewrite writes every byte, on the serial line if there is one, and never
    panics: the cursor stays in the first 24 rows of the screen, which scroll, and the
    last row is not touched. *)
Theorem consolewrite_writes l : forall s, screen_ok s -> c_panicked s = false ->
  exists s', consolewrite l s = Ret (Z.of_nat (length l)) s' /\ screen_ok s' /\ printed s s' /\
    c_sent s' = c_sent s ++ (if c_uart s then u8 <$> l else []) /\ drop 1920 (c_crt s') = drop 1920 (c_crt s).
Proof.
  intros s Hs Hp. unfold consolewrite.
  enough (exists s', consolewrite_loop l s = Ret tt s' /\ screen_ok s' /\ printed s s' /\
    c_sent s' = c_sent s ++ (if c_uart s then u8 <$> l else []) /\ drop 1920 (c_crt s') = drop 1920 (c_crt s)) as (s' & E & H).
  { exists s'. by rewrite (bind_Ret _ _ _ _ _ E). }
  revert s Hs Hp. induction l as [|c l IH]; intros s Hs Hp.
  - exists s. simpl. split; [done|]. split; [done|]. split; [done|]. split; [|done]. destruct (c_uart s); by rewrite app_nil_r.
  - destruct (consputc_ok (Z.land c 255) s Hs Hp) as (s1 & E1 & Hs1 & Hpr & Hd & Hse).
    pose proof Hpr as (_ & _ & _ & _ & _ & Ep & Eu). destruct (IH s1) as (s2 & E2 & Hs2 & Hpr2 & Hse2 & Hd2); [done | by rewrite Ep |].
    exists s2. simpl. rewrite (bind_Ret _ _ _ _ _ E1). split; [done|]. split; [done|].
    split; [by eapply printed_trans|]. split; [|by rewrite Hd2].
    rewrite Hse2, Hse, Eu. destruct (c_uart s); [|by rewrite !app_nil_r]. rewrite <- app_assoc. f_equal. unfold uart_bytes.
    change 255 with (Z.ones 8). rewrite Z.land_ones by lia. rewrite (proj2 (Z.eqb_neq _ _)) by zlia. simpl.
    f_equal. unfold u8. by rewrite Z.mod_mod.
Qed.
Lemma consolewrite_writes_witness :
  exists s', consolewrite [104; 105; 10] console0 = Ret 3 s' /\ screen_ok s' /\ printed console0 s' /\
    c_sent s' = [104; 105; 10] /\ drop 1920 (c_crt s') = drop 1920 (c_crt console0).
Proof. apply (consolewrite_writes [104; 105; 10] console0); done. Defined.
