(* ===== verification/Kbd.v ===== *)
(** * The keyboard (kbd.c, kbd.h)

    kbdgetc turns the scan codes of the keyboard into characters; kbdintr gives
    them to the console.  The controller holds a list of scan codes; the state of
    the shift keys is kept between interrupts. *)

From S2P Require Import Prelude Console.
#[local] Open Scope Z_scope.

Abbreviation SHIFT := 1.
Abbreviation CTL := 2.
Abbreviation ALT := 4.
Abbreviation CAPSLOCK := 8.
Abbreviation NUMLOCK := 16.
Abbreviation SCROLLLOCK := 32.
Abbreviation E0ESC := 64.

(** ** The tables *)

(** An array of 256 bytes with an initialiser: first elements, and elements by index. *)
Definition table (first : list Z) (at_ : list (Z * Z)) : list Z :=
  fold_left (fun t '(i, x) => <[Z.to_nat i := x]> t) at_ (first ++ replicate (256 - length first) 0).
Definition at_code (t : list Z) (data : Z) : Z := default 0 (t !! Z.to_nat data).

Definition shiftcode : list Z := table [] [(29, CTL); (42, SHIFT); (54, SHIFT); (56, ALT); (157, CTL); (184, ALT)].
Definition togglecode : list Z := table [] [(58, CAPSLOCK); (69, NUMLOCK); (70, SCROLLLOCK)].
(** The arrow keys and the others above the letters. *)
Abbreviation special := [(200, 226); (208, 227); (201, 230); (209, 231); (203, 228); (205, 229); (151, 224); (207, 225); (210, 232); (211, 233)].
Definition normalmap : list Z := table
  [ 0; 27; 49; 50; 51; 52; 53; 54; 55; 56; 57; 48; 45; 61; 8; 9;
    113; 119; 101; 114; 116; 121; 117; 105; 111; 112; 91; 93; 10; 0; 97; 115;
    100; 102; 103; 104; 106; 107; 108; 59; 39; 96; 0; 92; 122; 120; 99; 118;
    98; 110; 109; 44; 46; 47; 0; 42; 0; 32; 0; 0; 0; 0; 0; 0;
    0; 0; 0; 0; 0; 0; 0; 55; 56; 57; 45; 52; 53; 54; 43; 49;
    50; 51; 48; 46; 0; 0; 0; 0 ]
  ([(156, 10); (181, 47)] ++ special).
Definition shiftmap : list Z := table
  [ 0; 27; 33; 64; 35; 36; 37; 94; 38; 42; 40; 41; 95; 43; 8; 9;
    81; 87; 69; 82; 84; 89; 85; 73; 79; 80; 123; 125; 10; 0; 65; 83;
    68; 70; 71; 72; 74; 75; 76; 58; 34; 126; 0; 124; 90; 88; 67; 86;
    66; 78; 77; 60; 62; 63; 0; 42; 0; 32; 0; 0; 0; 0; 0; 0;
    0; 0; 0; 0; 0; 0; 0; 55; 56; 57; 45; 52; 53; 54; 43; 49;
    50; 51; 48; 46; 0; 0; 0; 0 ]
  ([(156, 10); (181, 47)] ++ special).
(** [C('/')] is negative: as an unsigned char it is 239. *)
Definition ctlmap : list Z := table
  [ 0; 0; 0; 0; 0; 0; 0; 0; 0; 0; 0; 0; 0; 0; 0; 0;
    17; 23; 5; 18; 20; 25; 21; 9; 15; 16; 0; 0; 13; 0; 1; 19;
    4; 6; 7; 8; 10; 11; 12; 0; 0; 0; 0; 28; 26; 24; 3; 22;
    2; 14; 13; 0; 0; 239; 0; 0 ]
  ([(156, 13); (181, 239)] ++ special).

(** ** Scan codes to characters *)

(** [kbdgetc] with the shift state and the byte in the controller, if there is one:
    the character and the new state. *)
Definition kbdgetc (shift : Z) (byte : option Z) : Z * Z :=
  match byte with
  | None => (-1, shift)
  | Some data =>
      if data =? 224 then (0, Z.lor shift E0ESC)
      else if negb (Z.land data 128 =? 0) then
        let data := if negb (Z.land shift E0ESC =? 0) then data else Z.land data 127 in
        (0, Z.land shift (u32 (Z.lnot (Z.lor (at_code shiftcode data) E0ESC))))
      else
        let '(data, shift) :=
          if negb (Z.land shift E0ESC =? 0)
          then (Z.lor data 128, Z.land shift (u32 (Z.lnot E0ESC))) else (data, shift) in
        let shift := Z.lor shift (at_code shiftcode data) in
        let shift := Z.lxor shift (at_code togglecode data) in
        let charcode := [normalmap; shiftmap; ctlmap; ctlmap] in
        let c := at_code (default [] (charcode !! Z.to_nat (Z.land shift (Z.lor CTL SHIFT)))) data in
        let c :=
          if negb (Z.land shift CAPSLOCK =? 0) then
            if (97 <=? c) && (c <=? 122) then u32 (c + (65 - 97))
            else if (65 <=? c) && (c <=? 90) then u32 (c + (97 - 65))
            else c
          else c in
        (c, shift)
  end.

(** The characters that the loop of consoleintr gets, until the controller is empty. *)
Fixpoint kbd_keys (shift : Z) (codes : list Z) : list Z * Z :=
  match codes with
  | [] => ([], snd (kbdgetc shift None))
  | data :: codes =>
      let '(c, shift) := kbdgetc shift (Some data) in
      let '(l, shift) := kbd_keys shift codes in
      (c :: l, shift)
  end.
Definition kbdintr (shift : Z) (codes : list Z) : M cst (bool * Z) :=
  let '(keys, shift) := kbd_keys shift codes in
  b <- consoleintr keys false ;; ret (b, shift).

(** The serial line: the bytes the port has received. *)
Definition uartintr (bytes : list Z) : M cst bool :=
  u <- gets c_uart ;; consoleintr (if u : bool then bytes else []) false.

(** ** What the keyboard types *)

(** Some key with its character: the scan code. *)
Fixpoint code_of (t : list Z) (c i : Z) : option Z :=
  match t with
  | [] => None
  | x :: t => if x =? c then Some i else code_of t c (i + 1)
  end.
(** Press and release, with a shift key if the character needs it. *)
Definition strokes (c : Z) : list Z :=
  match code_of (take 88 normalmap) c 0, code_of (take 88 shiftmap) c 0 with
  | Some i, _ => [i; i + 128]
  | None, Some i => [42; i; i + 128; 170]
  | None, None => []
  end.
Definition printable (c : Z) : Prop := 32 <= c < 127.

Lemma strokes_type c : printable c \/ c = LF -> filter (fun k => k <> 0) (fst (kbd_keys 0 (strokes c))) = [c] /\ snd (kbd_keys 0 (strokes c)) = 0.
Proof.
  intros Hc.
  assert (forallb (fun c => bool_decide (filter (fun k => k <> 0) (fst (kbd_keys 0 (strokes c))) = [c] /\ snd (kbd_keys 0 (strokes c)) = 0))
    (LF :: seqZ 32 95) = true) as H by (vm_compute; reflexivity).
  rewrite forallb_forall in H. refine (bool_decide_eq_true_1 _ (H c _)).
  destruct Hc as [Hc| ->]; [right|by left]. apply list_elem_of_In, elem_of_seqZ. unfold printable in Hc. lia.
Qed.
Lemma kbd_keys_app codes codes' : forall shift, kbd_keys shift (codes ++ codes') =
  let '(l, shift) := kbd_keys shift codes in let '(l', shift) := kbd_keys shift codes' in (l ++ l', shift).
Proof.
  induction codes as [|x codes IH]; intros shift; cbn [kbd_keys app]; [simpl; by destruct (kbd_keys shift codes')|].
  destruct (kbdgetc shift (Some x)) as [c sh]. rewrite IH. destruct (kbd_keys sh codes) as [l sh']. by destruct (kbd_keys sh' codes').
Qed.

Lemma typed_text text : Forall (fun c => printable c \/ c = LF) text ->
  filter (fun k => k <> 0) (fst (kbd_keys 0 (concat (strokes <$> text)))) = text /\ snd (kbd_keys 0 (concat (strokes <$> text))) = 0.
Proof.
  induction 1 as [|c text Hc _ IH]; [done|]. rewrite fmap_cons. cbn [concat]. rewrite kbd_keys_app.
  destruct (strokes_type c Hc) as [E1 E2]. destruct (kbd_keys 0 (strokes c)) as [l sh]. simpl in E1, E2. subst sh.
  destruct (kbd_keys 0 (concat _)) as [l' sh]. simpl in *. destruct IH as [E3 E4]. by rewrite filter_app, E1, E3.
Qed.

(** Whatever the keyboard sends, its driver returns bytes, and keeps its state in range. *)
Lemma kbdgetc_byte shift data : 0 <= shift < 128 -> 0 <= data < 256 ->
  0 <= fst (kbdgetc shift (Some data)) < 256 /\ 0 <= snd (kbdgetc shift (Some data)) < 128.
Proof.
  intros Hs Hd.
  assert (forallb (fun s => forallb (fun d => let '(c, s') := kbdgetc s (Some d) in
    (0 <=? c) && (c <? 256) && (0 <=? s') && (s' <? 128)) (seqZ 0 256)) (seqZ 0 128) = true) as H by (vm_compute; reflexivity).
  rewrite forallb_forall in H. specialize (H shift ltac:(apply list_elem_of_In, elem_of_seqZ; lia)).
  rewrite forallb_forall in H. specialize (H data ltac:(apply list_elem_of_In, elem_of_seqZ; lia)).
  destruct (kbdgetc shift (Some data)) as [c s']. cbn [fst snd]. rewrite !andb_true_iff in H. lia.
Qed.
Lemma kbd_keys_bytes codes : forall shift, 0 <= shift < 128 -> Forall (fun x => 0 <= x < 256) codes ->
  Forall (fun c => 0 <= c < 256) (fst (kbd_keys shift codes)) /\ 0 <= snd (kbd_keys shift codes) < 128.
Proof.
  induction codes as [|x codes IH]; intros shift Hs Hc; [done|]. inversion Hc as [|? ? Hx Hc']; subst. cbn [kbd_keys].
  destruct (kbdgetc_byte shift x) as [H1 H2]; [done..|]. destruct (kbdgetc shift (Some x)) as [c sh]. cbn [fst snd] in *.
  specialize (IH sh H2 Hc'). destruct (kbd_keys sh codes) as [l sh']. cbn [fst snd] in *.
  split; [apply Forall_cons; split; [exact H1 | apply IH] | apply IH].
Qed.

(** Whatever scan codes the keyboard sends in whatever state of its shift keys,
    kbdgetc stays inside its tables and returns bytes, its state stays one of the
    seven flags, and the interrupt is one of the line discipline. *)
Theorem kbdintr_keys codes : forall shift d s, 0 <= shift < 128 -> Forall (fun x => 0 <= x < 256) codes -> rep d s ->
  let '(keys, shift') := kbd_keys shift codes in
  Forall (fun c => 0 <= c < 256) keys /\ 0 <= shift' < 128 /\
  exists b s', kbdintr shift codes s = Ret (b, shift') s' /\ rep (fold_left (fun d c => key_spec c d) keys d) s'.
Proof.
  intros shift d s Hs Hc Hrep. destruct (kbd_keys_bytes codes shift Hs Hc) as [H1 H2]. unfold kbdintr.
  destruct (kbd_keys shift codes) as [keys shift']. cbn [fst snd] in *. split; [done|]. split; [done|].
  destruct (consoleintr_rep keys false d s Hrep H1) as (s' & E & H). eexists _, s'. by rewrite (bind_Ret _ _ _ _ _ E).
Qed.
Lemma kbdintr_keys_witness :
  kbd_keys 64 [29; 22; 157; 58; 30] = ([0; 21; 0; 0; 65], 8) /\
  exists b s', kbdintr 64 [29; 22; 157; 58; 30] console0 = Ret (b, 8) s' /\ rep (Disc [] [65] [65] 0) s'.
Proof.
  split; [vm_compute; reflexivity|].
  refine (proj2 (proj2 (kbdintr_keys [29; 22; 157; 58; 30] 64 (Disc [] [] [] 0) console0 _ _ rep_console0))); [lia|].
  repeat (apply Forall_cons; split; [lia|]). by apply Forall_nil.
Defined.

Lemma keys_zero l : forall d, fold_left (fun d c => key_spec c d) l d = fold_left (fun d c => key_spec c d) (filter (fun k => k <> 0) l) d.
Proof.
  induction l as [|c l IH]; intros d; [done|]. rewrite filter_cons. destruct (decide (c <> 0)) as [Hc|Hc]; simpl; [apply IH|].
  replace c with 0 by lia. rewrite IH. by destruct d.
Qed.
Lemma keys_no_dump l : CTRL_P ∉ filter (fun k => k <> 0) l -> existsb (fun c => c =? CTRL_P) l = false.
Proof.
  intros H. apply not_true_iff_false. intros (x & Hx & ->%Z.eqb_eq)%existsb_exists. apply H, list_elem_of_filter.
  split; [lia | by apply list_elem_of_In].
Qed.
Lemma keys_text text : forall ed echo n, Forall printable text -> (length ed + length text < 128)%nat ->
  fold_left (fun d c => key_spec c d) text (Disc [] ed echo n) = Disc [] (ed ++ text) (echo ++ text) n.
Proof.
  induction text as [|c text IH]; intros ed echo n Ht Hl; simpl; [by rewrite !app_nil_r|]. inversion Ht as [|? ? Hc Ht']; subst.
  unfold printable in Hc. simpl in Hl.
  replace (key_spec c (Disc [] ed echo n)) with (Disc [] (ed ++ [c]) (echo ++ [c]) n).
  - rewrite IH by (try done; rewrite length_app; simpl; lia). by rewrite <- !app_assoc.
  - unfold key_spec, key_line. cbn [d_q d_ed d_echo d_wakes app].
    repeat (rewrite (proj2 (Z.eqb_neq _ _)) by lia; cbn [orb]). rewrite (proj2 (Nat.leb_gt _ _)) by lia.
    rewrite (proj2 (Z.eqb_neq c CR)) by lia. cbn [orb]. repeat (rewrite (proj2 (Z.eqb_neq _ _)) by lia; cbn [orb]).
    by rewrite (proj2 (Nat.eqb_neq _ _)) by (rewrite length_app; simpl; lia).
Qed.
Lemma read_text text : forall k got, Forall printable text -> (length text < k)%nat ->
  read_spec k false got (text ++ [LF]) = (CRet (got ++ text ++ [LF]), []).
Proof.
  induction text as [|c text IH]; intros [|k] got Ht Hk; simpl in Hk; try lia; [done|]. inversion Ht as [|? ? Hc Ht']; subst.
  unfold printable in Hc. simpl. rewrite !(proj2 (Z.eqb_neq _ _)) by lia. rewrite IH by (done || lia). by rewrite <- app_assoc.
Qed.

(** A line typed on the keyboard is the line that is read: for every printable
    text there are keys to press, with shift where it is needed, and after enter a
    read of the console with room for it returns exactly the text with its newline,
    which has been echoed. *)
Theorem typed_line_is_read text target echo n s :
  Forall printable text -> Z.of_nat (length text) < 127 -> Z.of_nat (length text) < target -> rep (Disc [] [] echo n) s ->
  exists s1 s2, kbdintr 0 (concat (strokes <$> (text ++ [LF]))) s = Ret (false, 0) s1 /\
    consoleread target false [] s1 = Ret (CRet (text ++ [LF])) s2 /\ rep (Disc [] [] (echo ++ text ++ [LF]) (S n)) s2.
Proof.
  intros Ht Hl Hr Hrep. destruct (typed_text (text ++ [LF])) as [Ek Esh].
  { apply Forall_app. split; [eapply Forall_impl; [done|]; by left | apply Forall_singleton; by right]. }
  assert (Forall (fun c => 0 <= c < 256) (text ++ [LF])) as Hb.
  { apply Forall_app. split; [eapply Forall_impl; [done|]; unfold printable; simpl; lia | by apply Forall_singleton]. }
  unfold kbdintr. destruct (kbd_keys 0 _) as [keys sh]. cbn [fst snd] in *. subst sh.
  destruct (consoleintr_rep keys false _ s Hrep) as (s1 & E1 & H1).
  { apply Forall_forall. intros k Hk. destruct (decide (k = 0)) as [->|Hz]; [lia|]. rewrite <- Ek in Hb.
    rewrite Forall_forall in Hb. apply Hb. by apply list_elem_of_filter. }
  rewrite keys_zero, Ek, fold_left_app, keys_text in H1 by (done || (simpl; lia)).
  rewrite keys_no_dump in E1 by (rewrite Ek; intros H; rewrite elem_of_app, list_elem_of_singleton in H;
    destruct H as [H|H]; [rewrite Forall_forall in Ht; specialize (Ht _ H); unfold printable in Ht; lia | done]).
  assert (rep (Disc (text ++ [LF]) [] (echo ++ text ++ [LF]) (S n)) s1) as H1'.
  { revert H1. cbn [fold_left]. unfold key_spec, key_line. cbn [d_q d_ed d_echo d_wakes app].
    rewrite (proj2 (Nat.leb_gt _ _)) by (simpl; lia). simpl. by rewrite <- app_assoc. }
  destruct (consoleread_rep _ _ _ (Z.to_nat target) false [] _ _ H1') as (s2 & E2 & H2).
  rewrite read_text in E2, H2 by (done || lia). exists s1, s2. split; [by rewrite (bind_Ret _ _ _ _ _ E1)|]. split; [|done].
  unfold consoleread. simpl. by rewrite Z.sub_0_r.
Qed.
Lemma typed_line_is_read_witness : exists s1 s2,
  kbdintr 0 [42; 35; 163; 170; 23; 151; 28; 156] console0 = Ret (false, 0) s1 /\
  consoleread 100 false [] s1 = Ret (CRet [72; 105; 10]) s2 /\ rep (Disc [] [] [72; 105; 10] 1) s2.
Proof.
  apply (typed_line_is_read [72; 105] 100 [] 0 console0); [|simpl; lia | simpl; lia | exact rep_console0].
  repeat (apply Forall_cons; split; [unfold printable; lia|]). by apply Forall_nil.
Defined.
