(* ===== verification/Ide.v ===== *)
(** * The IDE disk driver (ide.c)

    Requests wait in a list linked through the buffers; the disk works on the
    first.  iderw appends a request and sleeps; ideintr ends the request at the
    head, wakes its process and starts the next one.  Both hold idelock, so they
    are atomic pieces, which interrupts and processes interleave in any order.

    The disk is a parameter: the class [Ata] of the port operations the driver
    uses, with the laws [AtaLaws].  [PromptAta] adds what the driver takes for granted
    of a disk in LBA mode, which is more than the ATA standard promises: no command
    ends with an error, and the data of a write is taken as soon as the command is
    given.  With such a disk the driver is an instance of the disk interface of the buffer cache. *)

From stdpp Require Import functions.
From S2P Require Import Prelude Mem CString Disk.
#[local] Open Scope Z_scope.

Abbreviation SECTOR_SIZE := 512.
Abbreviation IDE_BSY := 128.
Abbreviation IDE_DRDY := 64.
Abbreviation IDE_DF := 32.
Abbreviation IDE_ERR := 1.
Abbreviation IDE_CMD_READ := 32.
Abbreviation IDE_CMD_WRITE := 48.
Abbreviation IDE_CMD_RDMUL := 196.
Abbreviation IDE_CMD_WRMUL := 197.
Abbreviation FSSIZE := 1000.
Abbreviation NBUF := 30%nat.

(** ** The disk *)

Class Ata (HW : Type) := {
  outb : Z -> Z -> HW -> HW;
  inb : Z -> HW -> Z * HW;
  (** [outsl] and [insl] of a sector at port 0x1f0. *)
  outsl : list Z -> HW -> HW;
  insl : HW -> list Z * HW;
  (** The disk ends its command, and raises an interrupt. *)
  complete : HW -> HW;
  (** How often the status is read until the disk is ready. *)
  polls : HW -> nat;
  (** What a disk holds. *)
  sector : HW -> Z -> Z -> block;
  (** No command, and a command that has the data of a read ready. *)
  idle : HW -> Prop;
  drq : HW -> block -> Prop;
}.

(** The registers of a command for one sector, by the parts of its address. *)
Definition lba {HW} `{Ata HW} (dev b0 b1 b2 b3 cmd : Z) (h : HW) : HW :=
  outb 503 cmd (outb 502 (224 + 16 * dev + b3) (outb 501 b2 (outb 500 b1 (outb 499 b0 (outb 498 1 (outb 1014 0 h)))))).

(** What the standard says of the status register, of the data of a read and of
    sectors. *)
Class AtaLaws (HW : Type) `{Ata HW} := {
  sector_ok h dev n : idle h -> block_ok (sector h dev n);
  inb_ready h : idle h \/ (exists d, drq h d) -> let '(r, h') := inb 503 h in
    (match polls h with
     | O => Z.land r (Z.lor IDE_BSY IDE_DRDY) = IDE_DRDY
     | S n => Z.land r (Z.lor IDE_BSY IDE_DRDY) <> IDE_DRDY /\ polls h' = n
     end) /\ sector h' = sector h /\ (idle h -> idle h') /\ (forall d, drq h d -> drq h' d);
  insl_data h d : drq h d -> let '(x, h') := insl h in x = d /\ idle h' /\ sector h' = sector h;
}.
(** What the driver takes for granted besides: the disk works promptly and without
    errors.  A command succeeds, and the status then shows no error; after an error
    ideintr would take the old contents of a buffer for those of the sector.  And the
    disk takes the data of a write without having asked for it, since idestart does
    not wait for DRQ between the command and the data. *)
Class PromptAta (HW : Type) `{Ata HW} := {
  prompt_laws :: AtaLaws HW;
  inb_clean h : idle h \/ (exists d, drq h d) -> polls h = 0%nat -> Z.land (inb 503 h).1 (Z.lor IDE_DF IDE_ERR) = 0;
  (** A write: the sector holds the data when the command ends. *)
  lba_write h dev b0 b1 b2 b3 d : idle h -> 0 <= dev < 2 ->
    0 <= b0 < 256 -> 0 <= b1 < 256 -> 0 <= b2 < 256 -> 0 <= b3 < 16 -> block_ok d ->
    let h' := complete (outsl d (lba dev b0 b1 b2 b3 IDE_CMD_WRITE h)) in
    idle h' /\ forall dev' n, sector h' dev' n =
      if (dev' =? dev) && (n =? b0 + 256 * b1 + 65536 * b2 + 16777216 * b3) then d else sector h dev' n;
  (** A read: the data can be taken when the command ends. *)
  lba_read h dev b0 b1 b2 b3 : idle h -> 0 <= dev < 2 ->
    0 <= b0 < 256 -> 0 <= b1 < 256 -> 0 <= b2 < 256 -> 0 <= b3 < 16 ->
    let h' := complete (lba dev b0 b1 b2 b3 IDE_CMD_READ h) in
    drq h' (sector h dev (b0 + 256 * b1 + 65536 * b2 + 16777216 * b3)) /\ sector h' = sector h;
}.
Lemma inb_status {HW} `{PromptAta HW} (h : HW) : idle h \/ (exists d, drq h d) -> let '(r, h') := inb 503 h in
  (match polls h with
   | O => Z.land r (Z.lor IDE_BSY IDE_DRDY) = IDE_DRDY /\ Z.land r (Z.lor IDE_DF IDE_ERR) = 0
   | S n => Z.land r (Z.lor IDE_BSY IDE_DRDY) <> IDE_DRDY /\ polls h' = n
   end) /\ sector h' = sector h /\ (idle h -> idle h') /\ (forall d, drq h d -> drq h' d).
Proof. intros Hh. pose proof (inb_ready h Hh) as Hr. pose proof (inb_clean h Hh) as Hc. destruct (inb 503 h) as [r h']. destruct (polls h); [|done]. split; [|by apply Hr]. by split; [apply Hr | apply Hc]. Qed.

(** ** The driver *)

Record ide_st (HW : Type) := IdeSt {
  i_bufs : nat -> buf;
  i_qnext : nat -> option nat;
  idequeue : option nat;
  havedisk1 : bool;
  i_hw : HW;
  i_woken : list nat;       (* the calls of wakeup(b), in order *)
}.
Arguments IdeSt {HW} i_bufs i_qnext idequeue havedisk1 i_hw i_woken.
Arguments i_bufs {HW} _.
Arguments i_qnext {HW} _.
Arguments idequeue {HW} _.
Arguments havedisk1 {HW} _.
Arguments i_hw {HW} _.
Arguments i_woken {HW} _.

Section ide.
Context {HW : Type} `{!Ata HW}.
Abbreviation st := (ide_st HW).

Definition set_hw (h : HW) (s : st) : st := IdeSt (i_bufs s) (i_qnext s) (idequeue s) (havedisk1 s) h (i_woken s).
Definition upd_buf (b : nat) (x : buf) (s : st) : st := IdeSt (<[b := x]> (i_bufs s)) (i_qnext s) (idequeue s) (havedisk1 s) (i_hw s) (i_woken s).
Definition set_queue (q : option nat) (s : st) : st := IdeSt (i_bufs s) (i_qnext s) q (havedisk1 s) (i_hw s) (i_woken s).
Definition set_qnext (b : nat) (q : option nat) (s : st) : st := IdeSt (i_bufs s) (<[b := q]> (i_qnext s)) (idequeue s) (havedisk1 s) (i_hw s) (i_woken s).
Definition wakeup_buf (b : nat) (s : st) : st := IdeSt (i_bufs s) (i_qnext s) (idequeue s) (havedisk1 s) (i_hw s) (i_woken s ++ [b]).
Definition out (port x : Z) : M st unit := modify (fun s => set_hw (outb port (u8 x) (i_hw s)) s).

Fixpoint idewait_loop (n : nat) : M st Z :=
  match n with
  | O => diverge
  | S n =>
      x <- gets (fun s => inb 503 (i_hw s)) ;;
      let '(r, h) := x in
      modify (set_hw h) ;;;
      if negb (Z.land r (Z.lor IDE_BSY IDE_DRDY) =? IDE_DRDY) then idewait_loop n else ret r
  end.
Definition idewait (checkerr : bool) : M st Z :=
  n <- gets (fun s => polls (i_hw s)) ;;
  r <- idewait_loop (S n) ;;
  ret (if checkerr && negb (Z.land r (Z.lor IDE_DF IDE_ERR) =? 0) then -1 else 0).

(** [for(i=0; i<1000; i++)] of ideinit. *)
Fixpoint probe (n : nat) : M st unit :=
  match n with
  | O => ret tt
  | S n =>
      x <- gets (fun s => inb 503 (i_hw s)) ;;
      let '(r, h) := x in
      modify (set_hw h) ;;;
      if negb (r =? 0)
      then modify (fun s => IdeSt (i_bufs s) (i_qnext s) (idequeue s) true (i_hw s) (i_woken s))
      else probe n
  end.
Definition ideinit_ide : M st unit :=
  idewait false ;;;
  out 502 (Z.lor 224 (Z.shiftl 1 4)) ;;;
  probe 1000 ;;;
  out 502 (Z.lor 224 (Z.shiftl 0 4)).

Definition idestart (b : option nat) : M st unit :=
  match b with
  | None => panic "idestart"
  | Some b =>
      x <- gets (fun s => i_bufs s b) ;;
      panic_if (FSSIZE <=? b_blockno x) "incorrect blockno" ;;;
      let sector_per_block := BSIZE / SECTOR_SIZE in
      let sector := s32 (b_blockno x * sector_per_block) in
      let read_cmd := if sector_per_block =? 1 then IDE_CMD_READ else IDE_CMD_RDMUL in
      let write_cmd := if sector_per_block =? 1 then IDE_CMD_WRITE else IDE_CMD_WRMUL in
      panic_if (7 <? sector_per_block) "idestart" ;;;
      idewait false ;;;
      out 1014 0 ;;;
      out 498 sector_per_block ;;;
      out 499 (Z.land sector 255) ;;;
      out 500 (Z.land (Z.shiftr sector 8) 255) ;;;
      out 501 (Z.land (Z.shiftr sector 16) 255) ;;;
      out 502 (Z.lor (Z.lor 224 (Z.shiftl (Z.land (b_dev x) 1) 4)) (Z.land (Z.shiftr sector 24) 15)) ;;;
      if dirty x then
        out 503 write_cmd ;;;
        modify (fun s => set_hw (outsl (b_data x) (i_hw s)) s)
      else out 503 read_cmd
  end.

Definition ideintr : M st unit :=
  q <- gets idequeue ;;
  match q with
  | None => ret tt
  | Some b =>
      next <- gets (fun s => i_qnext s b) ;;
      modify (set_queue next) ;;;
      x <- gets (fun s => i_bufs s b) ;;
      (if negb (dirty x) then
         r <- idewait true ;;
         if 0 <=? r then
           y <- gets (fun s => insl (i_hw s)) ;;
           let '(d, h) := y in
           modify (set_hw h) ;;;
           modify (fun s => upd_buf b (set_data d (i_bufs s b)) s)
         else ret tt
       else ret tt) ;;;
      modify (fun s => upd_buf b (add_flag B_VALID (i_bufs s b)) s) ;;;
      modify (fun s => upd_buf b (del_flag B_DIRTY (i_bufs s b)) s) ;;;
      modify (wakeup_buf b) ;;;
      q <- gets idequeue ;;
      match q with None => ret tt | Some _ => idestart q end
  end.

(** [pp]: the address of idequeue or of a qnext. *)
Inductive link := Idequeue | Qnext (b : nat).
Definition at_link (p : link) (s : st) : option nat := match p with Idequeue => idequeue s | Qnext b => i_qnext s b end.
Definition set_link (p : link) (q : option nat) (s : st) : st := match p with Idequeue => set_queue q s | Qnext b => set_qnext b q s end.
Fixpoint find_end (n : nat) (p : link) : M st link :=
  match n with
  | O => diverge
  | S n => x <- gets (at_link p) ;; match x with None => ret p | Some b => find_end n (Qnext b) end
  end.

(** iderw until it first looks at the flags; there are [NBUF] buffers. *)
Definition iderw_begin (pid : Z) (b : nat) : M st unit :=
  x <- gets (fun s => i_bufs s b) ;;
  panic_if (negb (holdingsleep pid (b_lock x))) "iderw: buf not locked" ;;;
  panic_if (Z.land (b_flags x) (Z.lor B_VALID B_DIRTY) =? B_VALID) "iderw: nothing to do" ;;;
  have <- gets havedisk1 ;;
  panic_if (negb (b_dev x =? 0) && negb have) "iderw: ide disk 1 not present" ;;;
  modify (set_qnext b None) ;;;
  pp <- find_end (S NBUF) Idequeue ;;
  modify (set_link pp (Some b)) ;;;
  q <- gets idequeue ;;
  if decide (q = Some b) then idestart (Some b) else ret tt.
(** The test of the loop in which it sleeps. *)
Definition iderw_done (b : nat) (s : st) : bool :=
  Z.land (b_flags (i_bufs s b)) (Z.lor B_VALID B_DIRTY) =? B_VALID.

(** An interrupt of the disk, which ends a command if it has one. *)
Definition interrupt : M st unit :=
  modify (fun s => match idequeue s with None => s | Some _ => set_hw (complete (i_hw s)) s end) ;;;
  ideintr.
(** iderw alone: it sleeps until interrupts end its request. *)
Fixpoint iderw_sleep (n : nat) (b : nat) : M st unit :=
  s <- get ;;
  if iderw_done b s then ret tt
  else match n with O => diverge | S n => interrupt ;;; iderw_sleep n b end.
Definition iderw_ide (pid : Z) (b : nat) : M st unit := iderw_begin pid b ;;; iderw_sleep 1 b.

(** ** Starting a request *)

Context `{!PromptAta HW}.

Lemma idewait_loop_ready n : forall s, polls (i_hw s) = n -> idle (i_hw s) \/ (exists d, drq (i_hw s) d) -> exists r h', idewait_loop (S n) s = Ret r (set_hw h' s) /\
  Z.land r (Z.lor IDE_DF IDE_ERR) = 0 /\ sector h' = sector (i_hw s) /\ (idle (i_hw s) -> idle h') /\ (forall d, drq (i_hw s) d -> drq h' d).
Proof.
  induction n as [|n IH]; intros s Hn Hok; pose proof (inb_status (i_hw s) Hok) as Hi; rewrite Hn in Hi; cbn [idewait_loop];
    rewrite bind_gets; destruct (inb 503 (i_hw s)) as [r h]; destruct Hi as ((H1 & H2) & H3 & H4 & H5); rewrite bind_modify.
  - exists r, h. rewrite H1. done.
  - rewrite (proj2 (Z.eqb_neq _ _) H1). destruct (IH (set_hw h s) H2 ltac:(naive_solver)) as (r' & h' & E & Er & Es & Ei & Ed).
    exists r', h'. split; [exact E|]. split; [done|]. simpl in *. rewrite Es. naive_solver.
Qed.
Lemma idewait_ready c s : idle (i_hw s) \/ (exists d, drq (i_hw s) d) -> exists h', idewait c s = Ret 0 (set_hw h' s) /\
  sector h' = sector (i_hw s) /\ (idle (i_hw s) -> idle h') /\ (forall d, drq (i_hw s) d -> drq h' d).
Proof.
  intros Hok. unfold idewait. rewrite bind_gets. destruct (idewait_loop_ready _ s eq_refl Hok) as (r & h' & E & Er & Hh).
  exists h'. rewrite (bind_Ret _ _ _ _ _ E), Er. simpl. by rewrite andb_false_r.
Qed.

(** The command for a request. *)
Definition issued (x : buf) (h : HW) : HW :=
  let n := b_blockno x in
  let cmd c := lba (b_dev x mod 2) (n mod 256) (n / 256 mod 256) (n / 65536 mod 256) (n / 16777216) c h in
  if dirty x then outsl (b_data x) (cmd IDE_CMD_WRITE) else cmd IDE_CMD_READ.
Definition req_ok (x : buf) : Prop := 0 <= b_blockno x < FSSIZE /\ block_ok (b_data x).

Lemma idestart_issues b s : idle (i_hw s) -> req_ok (i_bufs s b) ->
  exists h0, idle h0 /\ sector h0 = sector (i_hw s) /\ idestart (Some b) s = Ret tt (set_hw (issued (i_bufs s b) h0) s).
Proof.
  intros Hi [Hn Hd]. unfold idestart, issued, lba. rewrite bind_gets. set (x := i_bufs s b) in *.
  rewrite bind_check by (apply Z.leb_gt; lia). change (BSIZE / SECTOR_SIZE) with 1. cbv zeta. rewrite bind_check by done.
  destruct (idewait_ready false s (or_introl Hi)) as (h0 & E & Es & Hi' & _). exists h0. split; [by apply Hi'|]. split; [done|].
  rewrite (bind_Ret _ _ _ _ _ E). replace (s32 (b_blockno x * 1)) with (b_blockno x) by (unfold s32, u32; zcases; zlia).
  change 255 with (Z.ones 8). change 15 with (Z.ones 4). change 1 with (Z.ones 1) at 1 2 3 4.
  rewrite !Z.land_ones, !Z.shiftr_div_pow2 by lia. change (Z.ones 1) with 1.
  unfold out, bind, modify, u8. simpl.
  change (2 ^ 8) with 256. change (2 ^ 16) with 65536. change (2 ^ 24) with 16777216. change (2 ^ 1) with 2. rewrite !Z.mod_mod by lia.
  replace (Z.lor _ _ mod 256) with (224 + 16 * (b_dev x mod 2) + b_blockno x / 16777216).
  - by destruct (dirty x).
  - replace (b_blockno x / 16777216) with 0 by zlia. simpl. rewrite Z.lor_0_r.
    assert (b_dev x mod 2 = 0 \/ b_dev x mod 2 = 1) as [-> | ->] by zlia; done.
Qed.

(** ** The queue *)

Fixpoint linked (f : nat -> option nat) (p : option nat) (q : list nat) : Prop :=
  match q with
  | [] => p = None
  | b :: q => p = Some b /\ linked f (f b) q
  end.
Definition end_link (p : link) (q : list nat) : link := match last q with None => p | Some b => Qnext b end.

Lemma linked_insert f c v q : forall p, (c ∉ q) -> linked f p q -> linked (<[c := v]> f) p q.
Proof.
  induction q as [|b q IH]; intros p Hc; [done|]. intros [-> Hl]. rewrite not_elem_of_cons in Hc. destruct Hc as [Hb Hc].
  split; [done|]. rewrite fn_lookup_insert_ne by done. by apply IH.
Qed.
Lemma find_end_spec q : forall n p s, linked (i_qnext s) (at_link p s) q -> (length q < n)%nat -> find_end n p s = Ret (end_link p q) s.
Proof.
  induction q as [|b q IH]; intros [|n] p s Hl Hn; simpl in Hn; try lia; simpl; rewrite bind_gets.
  - simpl in Hl. by rewrite Hl.
  - destruct Hl as [-> Hl]. rewrite (IH n (Qnext b) s) by (done || lia). unfold end_link. rewrite last_cons. by destruct (last q).
Qed.
Lemma linked_snoc q : forall a f b, NoDup (a :: q) -> b ∉ a :: q -> f b = None -> linked f (Some a) (a :: q) ->
  linked (match end_link Idequeue (a :: q) with Idequeue => f | Qnext c => <[c := Some b]> f end) (Some a) (a :: q ++ [b]).
Proof.
  induction q as [|c q IH]; intros a f b Hnd Hb Hf Hl; (split; [done|]); destruct Hl as [_ Hl]; simpl in *.
  - rewrite fn_lookup_insert. split; [done|]. by rewrite fn_lookup_insert_ne by set_solver.
  - destruct Hl as [Hac Hl]. apply NoDup_cons in Hnd as [Ha Hnd]. specialize (IH c f b Hnd ltac:(set_solver) Hf (conj eq_refl Hl)).
    destruct IH as [_ IH]. change (end_link Idequeue (a :: c :: q)) with (end_link Idequeue (c :: q)).
    unfold end_link in *. destruct (last (c :: q)) as [e|] eqn:El; [|by split].
    rewrite fn_lookup_insert_ne; [by split|]. intros ->. apply Ha. by eapply last_Some_elem_of.
Qed.

(** ** What the driver does: requests are served one after the other *)

Record ide_abs := Abs {
  a_queue : list nat;
  a_disk : Z -> Z -> block;
  a_bufs : nat -> buf;
  a_woken : list nat;
}.
(** A request that is done: its buffer, and the disk. *)
Definition served (x : buf) (disk : Z -> Z -> block) : buf :=
  del_flag B_DIRTY (add_flag B_VALID (if dirty x then x else set_data (disk (b_dev x mod 2) (b_blockno x)) x)).
Definition stored (x : buf) (disk : Z -> Z -> block) : Z -> Z -> block := fun dev n =>
  if dirty x && (dev =? b_dev x mod 2) && (n =? b_blockno x) then b_data x else disk dev n.

(** A process calls iderw for a buffer that it has locked and filled in; the disk
    interrupts. *)
Inductive ide_ev := Enter (pid : Z) (b : nat) (x : buf) | Intr.
Definition ev_run (e : ide_ev) : M st unit :=
  match e with
  | Enter pid b x => modify (upd_buf b x) ;;; iderw_begin pid b
  | Intr => interrupt
  end.
Definition ev_spec (e : ide_ev) (a : ide_abs) : ide_abs :=
  match e with
  | Enter _ b x => Abs (a_queue a ++ [b]) (a_disk a) (<[b := x]> (a_bufs a)) (a_woken a)
  | Intr =>
      match a_queue a with
      | [] => a
      | b :: q => let x := a_bufs a b in Abs q (stored x (a_disk a)) (<[b := served x (a_disk a)]> (a_bufs a)) (a_woken a ++ [b])
      end
  end.
Fixpoint evs_run (l : list ide_ev) : M st unit :=
  match l with [] => ret tt | e :: l => ev_run e ;;; evs_run l end.
Fixpoint evs_spec (l : list ide_ev) (a : ide_abs) : ide_abs :=
  match l with [] => a | e :: l => evs_spec l (ev_spec e a) end.
(** The buffers of a request are locked, so it is not in the queue already. *)
Definition ev_ok (disk1 : bool) (e : ide_ev) (a : ide_abs) : Prop :=
  match e with
  | Enter pid b x => (b ∉ a_queue a) /\ (b < NBUF)%nat /\ holdingsleep pid (b_lock x) = true /\ valid x && negb (dirty x) = false /\
      (b_dev x = 0 \/ disk1 = true) /\ req_ok x
  | Intr => True
  end.
Fixpoint evs_ok (disk1 : bool) (l : list ide_ev) (a : ide_abs) : Prop :=
  match l with [] => True | e :: l => ev_ok disk1 e a /\ evs_ok disk1 l (ev_spec e a) end.

(** The disk has the first request of the queue, and the state before it is [disk]. *)
Definition working (q : list nat) (bufs : nat -> buf) (disk : Z -> Z -> block) (h : HW) : Prop :=
  match q with
  | [] => idle h /\ forall dev n, sector h dev n = disk dev n
  | b :: _ => exists h0, idle h0 /\ (forall dev n, sector h0 dev n = disk dev n) /\ h = issued (bufs b) h0
  end.
Definition sim (disk1 : bool) (s : st) (a : ide_abs) : Prop :=
  linked (i_qnext s) (idequeue s) (a_queue a) /\ NoDup (a_queue a) /\
  Forall (fun b => (b < NBUF)%nat /\ req_ok (a_bufs a b)) (a_queue a) /\
  (forall b, i_bufs s b = a_bufs a b) /\ i_woken s = a_woken a /\ havedisk1 s = disk1 /\
  working (a_queue a) (a_bufs a) (a_disk a) (i_hw s).

Lemma queue_short q : NoDup q -> Forall (fun b => (b < NBUF)%nat) q -> (length q <= NBUF)%nat.
Proof.
  intros Hnd Hq. rewrite <- (length_seq NBUF 0). apply submseteq_length, NoDup_submseteq; [done|].
  intros b Hb. rewrite Forall_forall in Hq. specialize (Hq b Hb). apply elem_of_seq. lia.
Qed.
(** The address of a block is in range of the registers. *)
Lemma issued_address n : 0 <= n < FSSIZE ->
  0 <= n mod 256 < 256 /\ 0 <= n / 256 mod 256 < 256 /\ 0 <= n / 65536 mod 256 < 256 /\ 0 <= n / 16777216 < 16 /\
  n mod 256 + 256 * (n / 256 mod 256) + 65536 * (n / 65536 mod 256) + 16777216 * (n / 16777216) = n.
Proof. intros Hn. zlia. Qed.
Lemma issued_write x h : idle h -> req_ok x -> dirty x = true ->
  idle (complete (issued x h)) /\ forall dev n, sector (complete (issued x h)) dev n = stored x (sector h) dev n.
Proof.
  intros Hi [Hn Hd] Hx. unfold issued, stored. rewrite Hx. destruct (issued_address _ Hn) as (A0 & A1 & A2 & A3 & A4).
  destruct (lba_write h (b_dev x mod 2) _ _ _ _ (b_data x) Hi ltac:(zlia) A0 A1 A2 A3 Hd) as [H1 H2].
  split; [done|]. intros dev n. by rewrite H2, A4.
Qed.
Lemma issued_read x h : idle h -> req_ok x -> dirty x = false ->
  drq (complete (issued x h)) (sector h (b_dev x mod 2) (b_blockno x)) /\ sector (complete (issued x h)) = sector h.
Proof.
  intros Hi [Hn Hd] Hx. unfold issued. rewrite Hx. destruct (issued_address _ Hn) as (A0 & A1 & A2 & A3 & A4).
  destruct (lba_read h (b_dev x mod 2) _ _ _ _ Hi ltac:(zlia) A0 A1 A2 A3) as [H1 H2]. by rewrite A4 in H1.
Qed.

Lemma iderw_begin_append pid b x s q : i_bufs s b = x -> linked (i_qnext s) (idequeue s) q -> NoDup q -> (length q <= NBUF)%nat -> (b ∉ q) ->
  holdingsleep pid (b_lock x) = true -> valid x && negb (dirty x) = false -> b_dev x = 0 \/ havedisk1 s = true ->
  exists s', linked (i_qnext s') (idequeue s') (q ++ [b]) /\
    i_bufs s' = i_bufs s /\ i_woken s' = i_woken s /\ havedisk1 s' = havedisk1 s /\ i_hw s' = i_hw s /\
    iderw_begin pid b s = (match q with [] => idestart (Some b) | _ => ret tt end) s'.
Proof.
  intros Hx Hl Hnd Hq Hb Hh Hv Hdev. unfold iderw_begin. rewrite bind_gets, Hx.
  rewrite !bind_check by (rewrite ?nothing_to_do; by rewrite ?Hh). rewrite bind_gets.
  rewrite bind_check by (destruct Hdev as [-> | ->]; [done | by rewrite andb_false_r]).
  rewrite bind_modify. set (s1 := set_qnext b None s).
  assert (linked (i_qnext s1) (at_link Idequeue s1) q) as Hl1 by (by apply linked_insert).
  rewrite (bind_Ret _ _ _ _ _ (find_end_spec q (S NBUF) Idequeue s1 Hl1 ltac:(lia))), bind_modify, bind_gets.
  exists (set_link (end_link Idequeue q) (Some b) s1). destruct q as [|a q].
  - split; [split; [done|]; simpl; by rewrite fn_lookup_insert|]. split_and!; try done. by destruct (decide _).
  - pose proof (linked_snoc q a (i_qnext s1) b Hnd Hb (fn_lookup_insert _ _ _)) as Hs. cbn [at_link] in Hl1.
    destruct Hl1 as [Eq Hl1]. specialize (Hs (conj eq_refl Hl1)). unfold end_link in *. rewrite last_cons in *.
    set (c := match last q with Some y => y | None => a end) in *.
    replace (match last q with Some y => Some y | None => Some a end) with (Some c) in * by (unfold c; by destruct (last q)).
    destruct (decide _) as [Eb|_].
    { cbn in Eb. cbn in Eq. rewrite Eq in Eb. injection Eb as ->. exfalso. apply Hb. by left. }
    cbn in *. rewrite Eq. split; [exact Hs | done].
Qed.

(** iderw for a buffer that is filled in already. *)
Lemma begin_sim disk1 pid b s a : sim disk1 s a -> ev_ok disk1 (Enter pid b (a_bufs a b)) a ->
  exists s', iderw_begin pid b s = Ret tt s' /\ sim disk1 s' (Abs (a_queue a ++ [b]) (a_disk a) (a_bufs a) (a_woken a)).
Proof.
  intros (Hl & Hnd & Hf & Hbu & Hw & Hd1 & Hwk) (Hb & Hlt & Hh & Hv & Hdev & Hr).
  destruct (iderw_begin_append pid b (a_bufs a b) s (a_queue a)) as (s' & Hl' & E1 & E2 & E3 & E4 & E); try done.
  { apply queue_short; [done|]. eapply Forall_impl; [done|]. by intros ? [? _]. }
  { by rewrite <- Hd1 in Hdev. }
  rewrite E. destruct a as [q disk bufs woken]. simpl in Hl, Hnd, Hf, Hbu, Hw, Hwk, Hb, Hh, Hv, Hdev, Hr, Hl'. cbn [a_queue a_disk a_bufs a_woken].
  assert (NoDup (q ++ [b])) as Hnd' by (apply NoDup_app; split; [done|]; split; [set_solver | by apply NoDup_singleton]).
  assert (Forall (fun c => (c < NBUF)%nat /\ req_ok (bufs c)) (q ++ [b])) as Hf' by (apply Forall_app; split; [done | by apply Forall_singleton]).
  assert (forall c, i_bufs s' c = bufs c) as Hbu' by (intros c; by rewrite E1).
  destruct q as [|c q].
  - destruct Hwk as [Hi Hs]. destruct (idestart_issues b s') as (h0 & Hi0 & Es & Eq); [by rewrite E4 | by rewrite Hbu' |].
    eexists. split; [exact Eq|]. do 4 (split; [done|]). split; [simpl; congruence|]. split; [simpl; congruence|]. exists h0. split; [done|].
    split; [intros dev n; by rewrite Es, E4|]. cbn [i_hw set_hw]. by rewrite Hbu'.
  - eexists. split; [done|]. do 4 (split; [done|]). split; [simpl; congruence|]. split; [simpl; congruence|]. destruct Hwk as (h0 & Hi & Hs & Eh).
    exists h0. do 2 (split; [done|]). by rewrite E4, Eh.
Qed.
Lemma fill_sim disk1 b x s a : sim disk1 s a -> (b ∉ a_queue a) ->
  sim disk1 (upd_buf b x s) (Abs (a_queue a) (a_disk a) (<[b := x]> (a_bufs a)) (a_woken a)).
Proof.
  intros (Hl & Hnd & Hf & Hbu & Hw & Hd1 & Hwk) Hb. do 2 (split; [done|]). split.
  { apply Forall_forall. intros c Hc. rewrite Forall_forall in Hf. simpl. rewrite fn_lookup_insert_ne by set_solver. by apply Hf. }
  split. { intros c. simpl. destruct (decide (b = c)) as [->|]; [by rewrite !fn_lookup_insert|]. by rewrite !fn_lookup_insert_ne. }
  do 2 (split; [done|]). simpl. unfold working in *. destruct (a_queue a) as [|c q]; [done|].
  by rewrite fn_lookup_insert_ne by set_solver.
Qed.
Lemma enter_sim disk1 pid b x s a : sim disk1 s a -> ev_ok disk1 (Enter pid b x) a ->
  exists s', ev_run (Enter pid b x) s = Ret tt s' /\ sim disk1 s' (ev_spec (Enter pid b x) a).
Proof.
  intros Hs He. simpl. rewrite bind_modify. destruct (begin_sim disk1 pid b _ _ (fill_sim disk1 b x s a Hs (proj1 He))) as (s' & E & H).
  - simpl. by rewrite fn_lookup_insert.
  - by exists s'.
Qed.

(** The data of a read arrive. *)
Lemma ideintr_reads b s d : drq (i_hw s) d ->
  exists h', idle h' /\ sector h' = sector (i_hw s) /\
    (r <- idewait true ;;
     if 0 <=? r then
       y <- gets (fun s => insl (i_hw s)) ;;
       let '(d, h) := y in
       modify (set_hw h) ;;; modify (fun s => upd_buf b (set_data d (i_bufs s b)) s)
     else ret tt) s = Ret tt (upd_buf b (set_data d (i_bufs s b)) (set_hw h' s)).
Proof.
  intros Hd. destruct (idewait_ready true s ltac:(eauto)) as (h1 & E & Es & _ & Hd1). rewrite (bind_Ret _ _ _ _ _ E). simpl. rewrite bind_gets.
  pose proof (insl_data h1 d (Hd1 _ Hd)) as Hi. simpl. destruct (insl h1) as [x h']. destruct Hi as (-> & Hi & Es').
  exists h'. split; [done|]. split; [congruence|]. done.
Qed.

Lemma interrupt_serves b s h0 : idequeue s = Some b -> idle h0 -> req_ok (i_bufs s b) -> i_hw s = issued (i_bufs s b) h0 ->
  exists s', interrupt s = match i_qnext s b with None => ret tt | Some _ => idestart (i_qnext s b) end s' /\
    idle (i_hw s') /\ (forall dev n, sector (i_hw s') dev n = stored (i_bufs s b) (sector h0) dev n) /\
    i_qnext s' = i_qnext s /\ idequeue s' = i_qnext s b /\ havedisk1 s' = havedisk1 s /\ i_woken s' = i_woken s ++ [b] /\
    (forall c, i_bufs s' c = <[b := served (i_bufs s b) (sector h0)]> (i_bufs s) c).
Proof.
  intros Hq Hi Hr Eh. unfold interrupt, ideintr. rewrite bind_modify, Hq, bind_gets. cbn [idequeue set_hw]. rewrite Hq.
  rewrite bind_gets, bind_modify, bind_gets. cbn [i_bufs i_qnext set_queue set_hw]. rewrite Eh.
  unfold served. set (x := i_bufs s b) in *. destruct (dirty x) eqn:Ed; cbn [negb].
  - destruct (issued_write x h0 Hi Hr Ed) as [Hi' Hs]. unfold bind at 1, ret at 1. rewrite !bind_modify, bind_gets.
    eexists. split; [reflexivity|]. split; [done|]. split; [done|]. do 4 (split; [done|]).
    intros c. simpl. destruct (decide (b = c)) as [<-|]; [by rewrite !fn_lookup_insert|]. by rewrite !fn_lookup_insert_ne.
  - destruct (issued_read x h0 Hi Hr Ed) as [Hd Hs].
    destruct (ideintr_reads b (set_queue (i_qnext s b) (set_hw (complete (issued x h0)) s)) _ Hd) as (h' & Hi' & Es & E).
    rewrite (bind_Ret _ _ _ _ _ E), !bind_modify, bind_gets. eexists. split; [reflexivity|]. split; [done|]. split; [|do 4 (split; [done|])].
    + intros dev n. unfold stored. rewrite Ed. simpl. rewrite Es. simpl. by rewrite Hs.
    + intros c. simpl. fold x. destruct (decide (b = c)) as [<-|]; [by rewrite !fn_lookup_insert|]. by rewrite !fn_lookup_insert_ne.
Qed.
Lemma intr_sim disk1 s a : sim disk1 s a -> exists s', ev_run Intr s = Ret tt s' /\ sim disk1 s' (ev_spec Intr a).
Proof.
  intros Hsim. pose proof Hsim as (Hl & Hnd & Hf & Hbu & Hw & Hd1 & Hwk). destruct a as [q disk bufs woken].
  cbn [a_queue a_disk a_bufs a_woken ev_spec ev_run] in *. destruct q as [|b q].
  { exists s. split; [|done]. simpl in Hl. unfold interrupt, ideintr. rewrite bind_modify, Hl, bind_gets. by rewrite Hl. }
  destruct Hl as [Eq Hl]. destruct Hwk as (h0 & Hi & Hs & Eh). apply Forall_cons in Hf as [[Hb Hr] Hf]. apply NoDup_cons in Hnd as [Hbq Hnd].
  rewrite <- Hbu in Hr, Eh. destruct (interrupt_serves b s h0 Eq Hi Hr Eh) as (s' & E & Hi' & Hs' & E1 & E2 & E3 & E4 & E5).
  assert (forall c, i_bufs s' c = <[b := served (bufs b) disk]> bufs c) as Hbu'.
  { intros c. rewrite E5. unfold served. rewrite Hbu, Hs. destruct (decide (b = c)) as [<-|]; [by rewrite !fn_lookup_insert|]. by rewrite !fn_lookup_insert_ne. }
  assert (forall dev n, sector (i_hw s') dev n = stored (bufs b) disk dev n) as Hs2.
  { intros dev n. rewrite Hs', Hbu. unfold stored. by rewrite Hs. }
  assert (Forall (fun c => (c < NBUF)%nat /\ req_ok (<[b := served (bufs b) disk]> bufs c)) q) as Hf'.
  { apply Forall_forall. intros c Hc. rewrite Forall_forall in Hf. rewrite fn_lookup_insert_ne by set_solver. by apply Hf. }
  rewrite E. rewrite <- E1, <- E2 in *. destruct q as [|c q].
  - simpl in Hl. rewrite Hl. exists s'. split; [done|]. split; [done|]. do 3 (split; [done|]). split; [by rewrite E4, Hw|]. by rewrite E3.
  - destruct Hl as [Hc Hl]. rewrite Hc. destruct (idestart_issues c s') as (h1 & Hi1 & Es & Eq'); [done | |].
    { rewrite Hbu'. apply Forall_cons in Hf' as [[_ Hf'] _]. done. }
    eexists. split; [exact Eq'|]. split; [split; [exact Hc|exact Hl]|]. do 3 (split; [done|]). split; [simpl; congruence|].
    split; [simpl; congruence|]. exists h1. split; [done|]. split; [intros dev n; by rewrite Es, Hs2|]. cbn [i_hw set_hw]. by rewrite Hbu'.
Qed.
Lemma ev_sim disk1 e s a : sim disk1 s a -> ev_ok disk1 e a -> exists s', ev_run e s = Ret tt s' /\ sim disk1 s' (ev_spec e a).
Proof. destruct e; [apply enter_sim | intros ? _; by apply intr_sim]. Qed.
Lemma evs_sim disk1 l : forall s a, sim disk1 s a -> evs_ok disk1 l a ->
  exists s', evs_run l s = Ret tt s' /\ sim disk1 s' (evs_spec l a).
Proof.
  induction l as [|e l IH]; intros s a Hs Hok; [by exists s|]. destruct Hok as [He Hok].
  destruct (ev_sim disk1 e s a Hs He) as (s1 & E & Hs1). simpl. rewrite (bind_Ret _ _ _ _ _ E). by apply IH.
Qed.
Lemma evs_spec_app l l' a : evs_spec (l ++ l') a = evs_spec l' (evs_spec l a).
Proof. revert a. by induction l; intros; simpl. Qed.

(** How many interrupts there are. *)
Fixpoint intrs (l : list ide_ev) : nat :=
  match l with [] => 0 | Intr :: l => S (intrs l) | Enter _ _ _ :: l => intrs l end.
(** Each interrupt brings a request nearer to the head of the queue, and nothing
    else changes its buffer. *)
Lemma queue_moves disk1 l : forall a b i, evs_ok disk1 l a -> a_queue a !! i = Some b -> NoDup (a_queue a) -> (i < intrs l)%nat ->
  exists l1 l2 q, l = l1 ++ Intr :: l2 /\ intrs l1 = i /\ evs_ok disk1 (l1 ++ [Intr]) a /\
    a_queue (evs_spec l1 a) = b :: q /\ a_bufs (evs_spec l1 a) b = a_bufs a b.
Proof.
  induction l as [|e l IH]; intros a b i Hok Hb Hnd Hi; simpl in Hi; [lia|]. destruct Hok as [He Hok].
  destruct e as [pid c x|].
  - destruct He as (Hc & He). destruct (IH (ev_spec (Enter pid c x) a) b i) as (l1 & l2 & q & -> & E1 & E2 & E3 & E4); try done.
    { simpl. by apply lookup_app_l_Some. }
    { simpl. apply NoDup_app. split; [done|]. split; [set_solver | by apply NoDup_singleton]. }
    exists (Enter pid c x :: l1), l2, q. do 2 (split; [done|]). split; [done|]. split; [done|]. cbn [evs_spec]. rewrite E4. simpl.
    rewrite fn_lookup_insert_ne; [done|]. intros ->. apply Hc. by eapply list_elem_of_lookup_2.
  - destruct a as [[|c q] disk bufs woken]; [done|]. destruct i as [|i].
    { injection Hb as ->. exists [], l, q. done. }
    simpl in Hb. apply NoDup_cons in Hnd as [Hc Hnd].
    destruct (IH (ev_spec Intr (Abs (c :: q) disk bufs woken)) b i) as (l1 & l2 & q' & -> & E1 & E2 & E3 & E4); try done; [lia|].
    exists (Intr :: l1), l2, q'. split; [done|]. split; [simpl; congruence|]. split; [done|]. split; [done|].
    cbn [evs_spec]. rewrite E4. simpl.
    rewrite fn_lookup_insert_ne; [done|]. intros ->. apply Hc. by eapply list_elem_of_lookup_2.
Qed.
Lemma served_done x disk : valid (served x disk) = true /\ dirty (served x disk) = false /\
  b_data (served x disk) = if dirty x then b_data x else disk (b_dev x mod 2) (b_blockno x).
Proof.
  unfold served. destruct (valid_flags (add_flag B_VALID (if dirty x then x else set_data (disk (b_dev x mod 2) (b_blockno x)) x))) as (_ & _ & -> & _).
  split; [apply valid_flags|]. split; [apply dirty_flags|]. by destruct (dirty x).
Qed.

(** The driver serves requests in their order.  Whatever processes call iderw and
    whenever the disk interrupts, the queue linked through the buffers is a queue: no
    request is lost or served twice, the command in the registers of the disk is that
    of the first, and an interrupt moves the data of that one and wakes its process. *)
Theorem ide_serves_in_order disk1 l s a : sim disk1 s a -> evs_ok disk1 l a ->
  exists s', evs_run l s = Ret tt s' /\ sim disk1 s' (evs_spec l a).
Proof. apply evs_sim. Qed.

(** Every request is served.  The request at position [i] of the queue is done,
    and its process woken, by the interrupt number [i+1], whatever requests come in
    between: then iderw leaves its loop, a read has got what the disk holds and a
    write is on the disk. *)
Theorem ide_request_done disk1 l s a b i : sim disk1 s a -> evs_ok disk1 l a ->
  a_queue a !! i = Some b -> (i < intrs l)%nat ->
  exists l1 l2 s', l = l1 ++ Intr :: l2 /\ intrs l1 = i /\ evs_run (l1 ++ [Intr]) s = Ret tt s' /\
    iderw_done b s' = true /\ last (i_woken s') = Some b /\
    let x := i_bufs s b in let disk := a_disk (evs_spec (l1 ++ [Intr]) a) in
    b_data (i_bufs s' b) = disk (b_dev x mod 2) (b_blockno x) /\ (dirty x = true -> b_data (i_bufs s' b) = b_data x).
Proof.
  intros Hs Hok Hb Hi. pose proof Hs as (_ & Hnd & _ & Hbu & _).
  destruct (queue_moves disk1 l a b i Hok Hb Hnd Hi) as (l1 & l2 & q & El & Ei & Hok1 & Eq & Ex).
  destruct (evs_sim disk1 _ s a Hs Hok1) as (s' & E & _ & _ & _ & Hbu' & Hw' & _).
  exists l1, l2, s'. do 3 (split; [done|]). rewrite !evs_spec_app in *. cbn [evs_spec ev_spec] in *. rewrite Eq in *.
  cbn [a_queue a_disk a_bufs a_woken] in *. unfold iderw_done. rewrite nothing_to_do, Hbu', fn_lookup_insert, Ex, Hbu.
  destruct (served_done (a_bufs a b) (a_disk (evs_spec l1 a))) as (-> & -> & ->). split; [done|].
  rewrite Hw', last_snoc. split; [done|]. unfold stored. rewrite !Z.eqb_refl. by destruct (dirty (a_bufs a b)).
Qed.
End ide.

(** ** The disk interface of the buffer cache *)

Record ide_drv (HW : Type) := IdeDrv { dr_hw : HW; dr_disk1 : bool }.
Arguments IdeDrv {HW} dr_hw dr_disk1.
Arguments dr_hw {HW} _.
Arguments dr_disk1 {HW} _.

Section driver.
Context {HW : Type} `{!Ata HW}.

(** The driver with no other process: the queue is empty, buffer 0 is the one of
    the request. *)
Definition drv_state (b : buf) (d : ide_drv HW) : ide_st HW := IdeSt (fun _ => b) (fun _ => None) None (dr_disk1 d) (dr_hw d) [].
Definition drv_iderw (pid : Z) (b : buf) : M (ide_drv HW) buf := fun d =>
  match iderw_ide pid 0 (drv_state b d) with
  | Ret _ s => Ret (i_bufs s 0%nat) (IdeDrv (i_hw s) (havedisk1 s))
  | Panic msg => Panic msg
  | Diverge => Diverge
  end.
#[export] Instance ide_driver : DiskDriver (ide_drv HW) := {
  disk_block d n := sector (dr_hw d) 1 n;
  nblocks _ := FSSIZE;
  driver_ok d := idle (dr_hw d) /\ dr_disk1 d = true;
  iderw := drv_iderw;
}.

Context `{!PromptAta HW}.
Lemma drv_iderw_serves pid b d : driver_ok d -> request_ok pid b d -> valid b && negb (dirty b) = false ->
  exists d', iderw pid b d = Ret (served b (sector (dr_hw d))) d' /\ driver_ok d' /\
    forall n, disk_block d' n = stored b (sector (dr_hw d)) 1 n.
Proof.
  intros [Hi Hd] (Hh & Hdev & Hn & Hb) Hv. simpl in Hn.
  set (a := Abs [] (sector (dr_hw d)) (fun _ => b) []).
  assert (sim true (drv_state b d) a) as Hs.
  { split_and!; try done. apply NoDup_nil_2. }
  destruct (begin_sim true pid 0 _ _ Hs) as (s1 & E1 & Hs1).
  { split; [by intros ?%elem_of_nil|]. split; [lia|]. do 2 (split; [done|]). split; [by right | done]. }
  destruct (intr_sim true _ _ Hs1) as (s2 & E2 & Hs2). destruct Hs1 as (_ & _ & _ & Hbu1 & _), Hs2 as (_ & _ & _ & Hbu2 & _ & Hd2 & Hi2 & Hs2).
  cbn in Hbu1, Hbu2, Hi2, Hs2. specialize (Hbu2 0%nat). rewrite fn_lookup_insert in Hbu2.
  exists (IdeDrv (i_hw s2) (havedisk1 s2)). split; [|split; [done|]; intros n; apply Hs2].
  cbn [iderw ide_driver]. unfold drv_iderw, iderw_ide. rewrite (bind_Ret _ _ _ _ _ E1). cbn [iderw_sleep].
  unfold bind, get. unfold iderw_done at 1. rewrite nothing_to_do, Hbu1, Hv. simpl in E2. rewrite E2.
  unfold iderw_done. rewrite nothing_to_do, Hbu2. destruct (served_done b (sector (dr_hw d))) as (-> & -> & _). simpl. by rewrite Hbu2.
Qed.

Lemma served_write b disk : dirty b = true -> served b disk = add_flag B_VALID (del_flag B_DIRTY b).
Proof.
  intros Hd. unfold served. rewrite Hd. unfold add_flag, del_flag, set_flags. cbn [b_flags b_dev b_blockno b_lock b_refcnt b_data].
  f_equal. by rewrite !Z.ldiff_land, Z.land_lor_distr_l.
Qed.
Lemma served_read b disk : dirty b = false -> served b disk = add_flag B_VALID (set_data (disk (b_dev b mod 2) (b_blockno b)) b).
Proof.
  intros Hd. unfold served. rewrite Hd. unfold add_flag, del_flag, set_flags, set_data. cbn [b_flags b_dev b_blockno b_lock b_refcnt b_data].
  f_equal. rewrite <- (Z.lor_ldiff_and (Z.lor (b_flags b) B_VALID) B_DIRTY) at 2. rewrite Z.land_lor_distr_l.
  unfold dirty in Hd. apply negb_false_iff, Z.eqb_eq in Hd. rewrite Hd. by rewrite Z.lor_0_r.
Qed.

End driver.

(** An error of a read is not reported.  When the disk sets its error bits, ideintr
    leaves the old data in the buffer and marks it valid all the same, so that iderw
    returns as if the block had been read. *)
Theorem ideintr_hides_error {HW} `{!Ata HW} (b : nat) (s : ide_st HW) r h :
  idequeue s = Some b -> i_qnext s b = None -> dirty (i_bufs s b) = false ->
  inb 503 (i_hw s) = (r, h) -> Z.land r (Z.lor IDE_BSY IDE_DRDY) = IDE_DRDY -> Z.land r (Z.lor IDE_DF IDE_ERR) <> 0 ->
  exists s', ideintr s = Ret tt s' /\ iderw_done b s' = true /\ b_data (i_bufs s' b) = b_data (i_bufs s b) /\ i_woken s' = i_woken s ++ [b].
Proof.
  intros Hq Hn Hd Hi Hr He. unfold ideintr. rewrite bind_gets, Hq, bind_gets, Hn, bind_modify, bind_gets. cbn [i_bufs set_queue]. rewrite Hd.
  cbn [negb]. unfold idewait. rewrite bind_assoc, bind_assoc, bind_gets. cbn [i_hw set_queue idewait_loop].
  rewrite !bind_assoc, bind_gets. cbn [i_hw set_queue]. rewrite Hi, !bind_assoc, bind_modify, Hr. cbn [Z.eqb negb Pos.eqb].
  unfold bind at 1, ret at 1. rewrite (proj2 (Z.eqb_neq _ _) He). cbn. eexists. split; [reflexivity|].
  unfold iderw_done. rewrite nothing_to_do. cbn. rewrite !fn_lookup_insert.
  destruct (valid_flags (add_flag B_VALID (i_bufs s b))) as (_ & _ & -> & _), (dirty_flags (add_flag B_VALID (i_bufs s b))) as (_ & _ & -> & _).
  by rewrite (proj1 (valid_flags _)).
Qed.

(** ** A disk

    A device with registers that follows the laws; its status is a field. *)
Record toy := Toy { t_status : Z; t_regs : Z -> Z; t_disk : Z -> Z -> block; t_cmd : Z; t_data : block }.
Definition toy_dev (h : toy) : Z := (t_regs h 502 - 224) / 16.
Definition toy_sector (h : toy) : Z := t_regs h 499 + 256 * t_regs h 500 + 65536 * t_regs h 501 + 16777216 * (t_regs h 502 mod 16).
#[export] Instance toy_ata : Ata toy := {
  outb port x h :=
    if port =? 503
    then if x =? IDE_CMD_READ then Toy (t_status h) (t_regs h) (t_disk h) 1 (t_disk h (toy_dev h) (toy_sector h))
         else Toy (t_status h) (t_regs h) (t_disk h) x (t_data h)
    else Toy (t_status h) (fun p => if p =? port then x else t_regs h p) (t_disk h) (t_cmd h) (t_data h);
  inb _ h := (t_status h, h);
  outsl d h := Toy (t_status h) (t_regs h) (t_disk h) (t_cmd h) d;
  insl h := (t_data h, Toy (t_status h) (t_regs h) (t_disk h) 0 []);
  complete h :=
    if t_cmd h =? IDE_CMD_WRITE
    then Toy (t_status h) (t_regs h) (fun dev n => if (dev =? toy_dev h) && (n =? toy_sector h) then t_data h else t_disk h dev n) 0 []
    else h;
  polls _ := 0%nat;
  sector := t_disk;
  idle h := t_cmd h = 0 /\ t_status h = IDE_DRDY /\ forall dev n, block_ok (t_disk h dev n);
  drq h d := t_cmd h = 1 /\ t_data h = d /\ t_status h = IDE_DRDY /\ forall dev n, block_ok (t_disk h dev n);
}.

#[export] Instance toy_laws : PromptAta toy.
Proof.
  assert (forall h : toy, idle h \/ (exists d, drq h d) -> t_status h = IDE_DRDY) as Hst by (by intros h [(_ & E & _)|(d & _ & _ & E & _)]).
  split; [split| | |].
  - by intros h dev n (_ & _ & Hd).
  - intros h Hok. simpl. by rewrite (Hst h Hok).
  - intros h d (Hc & <- & Hs & Hd). done.
  - intros h Hok _. simpl. by rewrite (Hst h Hok).
  - intros h dev b0 b1 b2 b3 d (Hc & Hs & Hd) Hdev H0 H1 H2 H3 Hok. unfold lba. cbn.
    replace (toy_dev _) with dev by (unfold toy_dev; cbn; zlia).
    replace (toy_sector _) with (b0 + 256 * b1 + 65536 * b2 + 16777216 * b3) by (unfold toy_sector; cbn; zlia).
    split; [|done]. split; [done|]. split; [done|]. intros dev' n. by case_match.
  - intros h dev b0 b1 b2 b3 (Hc & Hs & Hd) Hdev H0 H1 H2 H3. unfold lba. cbn.
    replace (toy_dev _) with dev by (unfold toy_dev; cbn; zlia).
    replace (toy_sector _) with (b0 + 256 * b1 + 65536 * b2 + 16777216 * b3) by (unfold toy_sector; cbn; zlia). done.
Qed.

(** A process reads block 5 of disk 1 while another writes block 7. *)
Definition toy0 : toy := Toy IDE_DRDY (fun _ => 0) (fun _ n => replicate 512 (n mod 256)) 0 [].
Definition buf0 (n flags x : Z) : buf := Buf flags 1 n (Sleeplock true 3) 1 (replicate 512 x).
Definition ide0 : ide_st toy := IdeSt (fun _ => buf0 0 0 0) (fun _ => None) None true toy0 [].
Definition abs0 : ide_abs := Abs [] (t_disk toy0) (fun _ => buf0 0 0 0) [].
Definition evs0 : list ide_ev := [Enter 3 1 (buf0 5 0 9); Enter 3 2 (buf0 7 B_DIRTY 8); Intr; Intr].
Lemma block_ok_replicate x : 0 <= x < 256 -> block_ok (replicate 512 x).
Proof. intros Hx. split; [by rewrite length_replicate|]. by apply Forall_replicate. Qed.
Lemma sim0 : sim true ide0 abs0.
Proof.
  do 1 (split; [done|]). split; [apply NoDup_nil_2|]. split; [by apply Forall_nil|]. do 3 (split; [done|]). split; [|done].
  split; [done|]. split; [done|]. intros dev n. apply block_ok_replicate. zlia.
Qed.
Lemma evs0_ok : evs_ok true evs0 abs0.
Proof.
  assert (forall n f x, 0 <= n < FSSIZE -> 0 <= x < 256 -> req_ok (buf0 n f x)) as Hreq by (intros; split; [done | by apply block_ok_replicate]).
  split; [|split; [|done]]; (split; [simpl; rewrite ?elem_of_cons, ?elem_of_nil; lia|]); (split; [lia|]); do 2 (split; [done|]);
    (split; [by right | apply Hreq; lia]).
Qed.
Lemma ide_serves_in_order_witness : exists s', evs_run evs0 ide0 = Ret tt s' /\ sim true s' (evs_spec evs0 abs0).
Proof. exact (ide_serves_in_order true evs0 ide0 abs0 sim0 evs0_ok). Defined.

(** Both requests are queued. *)
Definition ide2 : ide_st toy := match evs_run (take 2 evs0) ide0 with Ret _ s => s | _ => ide0 end.
Definition abs2 : ide_abs := evs_spec (take 2 evs0) abs0.
Definition evs2 : list ide_ev := [Intr; Enter 3 4 (buf0 7 0 9); Intr].
Lemma sim2 : sim true ide2 abs2.
Proof.
  destruct evs0_ok as (H1 & H2 & _). destruct (evs_sim true (take 2 evs0) ide0 abs0 sim0) as (s' & E & Hs); [by split|].
  unfold ide2. by rewrite E.
Qed.
Lemma evs2_ok : evs_ok true evs2 abs2.
Proof.
  split; [done|]. split; [|done]. split; [simpl; rewrite ?elem_of_cons, ?elem_of_nil; lia|]. split; [lia|]. do 2 (split; [done|]).
  split; [by right|]. split; [done|]. apply block_ok_replicate. lia.
Qed.
Lemma ide_request_done_witness : exists l1 l2 s', evs2 = l1 ++ Intr :: l2 /\ intrs l1 = 1%nat /\
  evs_run (l1 ++ [Intr]) ide2 = Ret tt s' /\ iderw_done 2 s' = true /\ last (i_woken s') = Some 2%nat /\
  let x := i_bufs ide2 2%nat in let disk := a_disk (evs_spec (l1 ++ [Intr]) abs2) in
  b_data (i_bufs s' 2%nat) = disk (b_dev x mod 2) (b_blockno x) /\ (dirty x = true -> b_data (i_bufs s' 2%nat) = b_data x).
Proof. apply (ide_request_done true evs2 ide2 abs2 2 1 sim2 evs2_ok); [done | simpl; lia]. Defined.

(** A read of block 5 for which the disk reports an error: status 0x41. *)
Definition ide1 : ide_st toy := IdeSt (fun _ => buf0 5 0 9) (fun _ => None) (Some 1%nat) true (Toy 65 (fun _ => 0) (t_disk toy0) 1 []) [].
Lemma ideintr_hides_error_witness : exists s', ideintr ide1 = Ret tt s' /\ iderw_done 1 s' = true /\
  b_data (i_bufs s' 1%nat) = replicate 512 9 /\ i_woken s' = [1%nat].
Proof. apply (ideintr_hides_error 1 ide1 65 (i_hw ide1)); done. Defined.
