(* ===== verification/Mkfs.v ===== *)
(** * The file system image (mkfs.c)

    mkfs runs on the build host and writes the disk image that the kernel boots
    from: the superblock, the root directory with one entry for each file, the
    files, and the bitmap.  The image file is its number of sectors and their
    contents; its system calls succeed, but a read behind the end of the file
    fails.  An exit with status 1 and a failed assertion are panics here.  The
    theorem shows that the image satisfies what the kernel relies on. *)

From stdpp Require Import functions.
From S2P Require Import Prelude Mem Disk Bio Log Blocks Balloc Inode Dinode InodeData InodeIO.
#[local] Open Scope Z_scope.

Abbreviation FSSIZE := 1000.
Abbreviation LOGSIZE := 30.
Abbreviation NINODES := 200.
Abbreviation ROOTINO := 1.
Abbreviation SLASH := 47.
Abbreviation UNDERSCORE := 95.

(** ** The program *)

(** The bytes of the result, read by the host, which is little-endian as well. *)
Definition xshort (x : Z) : Z := u8 x + 256 * u8 (Z.shiftr x 8).
Definition xint (x : Z) : Z :=
  u8 x + 256 * u8 (Z.shiftr x 8) + 65536 * u8 (Z.shiftr x 16) + 16777216 * u8 (Z.shiftr x 24).

Definition nbitmap : Z := FSSIZE / (BSIZE * 8) + 1.
Definition ninodeblocks : Z := NINODES / IPB + 1.
Definition nlog : Z := LOGSIZE.
Definition nmeta : Z := 2 + nlog + ninodeblocks + nbitmap.
Definition mk_nblocks : Z := FSSIZE - nmeta.
Definition sb : superblock :=
  Superblock (xint FSSIZE) (xint mk_nblocks) (xint NINODES) (xint nlog) (xint 2) (xint (2 + nlog))
    (xint (2 + nlog + ninodeblocks)).

Record mkst := Mk { mk_len : Z; mk_img : Z -> block; freeinode : Z; freeblock : Z }.
Definition set_freeinode (n : Z) (s : mkst) : mkst := Mk (mk_len s) (mk_img s) n (freeblock s).
Definition set_freeblock (n : Z) (s : mkst) : mkst := Mk (mk_len s) (mk_img s) (freeinode s) n.

(** The sector at offset [sec * BSIZE], which is computed in 32 bits. *)
Definition sect_at (sec : Z) : Z := u32 (sec * BSIZE) / BSIZE.
Definition wsect (sec : Z) (d : block) : M mkst unit := modify (fun s =>
  Mk (Z.max (mk_len s) (sect_at sec + 1)) (<[sect_at sec := d]> (mk_img s)) (freeinode s) (freeblock s)).
Definition rsect (sec : Z) : M mkst block :=
  s <- get ;;
  if sect_at sec <? mk_len s then ret (mk_img s (sect_at sec)) else panic "read".

Definition winode (inum : Z) (ip : inode) : M mkst unit :=
  let bn := IBLOCK inum sb in
  d <- rsect bn ;;
  wsect bn (put_dinode (dino_off inum) ip d).
Definition rinode (inum : Z) : M mkst inode :=
  d <- rsect (IBLOCK inum sb) ;;
  ret (get_dinode (dino_off inum) d no_inode).

Definition mk_ialloc (type : Z) : M mkst Z :=
  inum <- gets freeinode ;;
  modify (fun s => set_freeinode (u32 (freeinode s + 1)) s) ;;;
  winode inum (set_size (xint 0) (set_nlink (xshort 1) (set_type (xshort type) no_inode))) ;;;
  ret inum.

Fixpoint mark_loop (k : nat) (i : Z) (d : block) : block :=
  match k with
  | O => d
  | S k => mark_loop k (i + 1) (mark_bit i d)
  end.
Definition mk_balloc (used : Z) : M mkst unit :=
  panic_if (BSIZE * 8 <=? used) "assert" ;;;
  wsect (sb_bmapstart sb) (mark_loop (Z.to_nat used) 0 (replicate 512 0)).

(** The next block that is not in use. *)
Definition newblock : M mkst Z :=
  b <- gets freeblock ;;
  modify (fun s => set_freeblock (u32 (freeblock s + 1)) s) ;;;
  ret (xint b).
(** The sector of block [fbn] of the file, which is made if it is not there. *)
Definition iappend_block (din : inode) (fbn : Z) : M mkst (inode * Z) :=
  if fbn <? NDIRECT then
    din <- (if xint (addr_of din (Z.to_nat fbn)) =? 0
            then b <- newblock ;; ret (set_addr (Z.to_nat fbn) b din) else ret din) ;;
    ret (din, xint (addr_of din (Z.to_nat fbn)))
  else
    din <- (if xint (addr_of din 12) =? 0 then b <- newblock ;; ret (set_addr 12 b din) else ret din) ;;
    ind <- rsect (xint (addr_of din 12)) ;;
    let off := (4 * Z.to_nat (fbn - NDIRECT))%nat in
    ind <- (if get32 ind off =? 0
            then b <- newblock ;; wsect (xint (addr_of din 12)) (put32 ind off b) ;;; ret (put32 ind off b)
            else ret ind) ;;
    ret (din, xint (get32 ind off)).
(** [bcopy] of [l] to [d + off]. *)
Definition bcopy (l : list Z) (d : block) (off : nat) : block := take off d ++ l ++ drop (off + length l) d.
(** One round of the loop, on the bytes [p] that are left: how many it copies. *)
Definition iappend_round (p : list Z) (din : inode) (off : Z) : M mkst (inode * Z) :=
  let fbn := off / BSIZE in
  panic_if (MAXFILE <=? fbn) "assert" ;;;
  y <- iappend_block din fbn ;;
  let '(din, x) := y in
  let n1 := Z.min (Z.of_nat (length p)) ((fbn + 1) * BSIZE - off) in
  d <- rsect x ;;
  wsect x (bcopy (take (Z.to_nat n1) p) d (Z.to_nat (off - fbn * BSIZE))) ;;;
  ret (din, n1).
(** [while(n > 0)] *)
Fixpoint iappend_loop (k : nat) (p : list Z) (din : inode) (off : Z) : M mkst (inode * Z) :=
  match p with
  | [] => ret (din, off)
  | _ =>
      match k with
      | O => diverge
      | S k =>
          y <- iappend_round p din off ;;
          let '(din, n1) := y in
          iappend_loop k (drop (Z.to_nat n1) p) din (off + n1)
      end
  end.
Definition iappend (inum : Z) (p : list Z) : M mkst unit :=
  din <- rinode inum ;;
  let off := xint (i_size din) in
  y <- iappend_loop (length p) p din off ;;
  let '(din, off) := y in
  winode inum (set_size (xint off) din).

(** [struct dirent] with a name of at most 14 bytes, or the first 14 of them. *)
Definition dirent (inum : Z) (name : list Z) : list Z :=
  [u8 (xshort inum); u8 (Z.shiftr (xshort inum) 8)] ++ take 14 name ++ replicate (14 - length name) 0.
Definition skip_underscore (name : list Z) : list Z :=
  match name with
  | c :: name' => if c =? UNDERSCORE then name' else name
  | [] => []
  end.

(** A file of the command line: its name, and what the reads return. *)
Record hostfile := Hostfile { h_name : list Z; h_chunks : list (list Z) }.
Fixpoint add_chunks (inum : Z) (l : list (list Z)) : M mkst unit :=
  match l with
  | [] => ret tt
  | c :: l => iappend inum c ;;; add_chunks inum l
  end.
Fixpoint add_files (rootino : Z) (l : list hostfile) : M mkst unit :=
  match l with
  | [] => ret tt
  | f :: l =>
      panic_if (bool_decide (SLASH ∈ h_name f)) "assert" ;;;
      inum <- mk_ialloc T_FILE ;;
      iappend rootino (dirent inum (skip_underscore (h_name f))) ;;;
      add_chunks inum (h_chunks f) ;;;
      add_files rootino l
  end.
Fixpoint zero_loop (k : nat) (i : Z) : M mkst unit :=
  match k with
  | O => ret tt
  | S k => wsect i (replicate 512 0) ;;; zero_loop k (i + 1)
  end.
Definition sb_block : block :=
  put32 (put32 (put32 (put32 (put32 (put32 (put32 (replicate 512 0) 0 (sb_size sb)) 4 (sb_nblocks sb)) 8 (sb_ninodes sb))
    12 (sb_nlog sb)) 16 (sb_logstart sb)) 20 (sb_inodestart sb)) 24 (sb_bmapstart sb).
Definition mkfs (files : list hostfile) : M mkst unit :=
  modify (set_freeblock nmeta) ;;;
  zero_loop (Z.to_nat FSSIZE) 0 ;;;
  wsect 1 sb_block ;;;
  rootino <- mk_ialloc T_DIR ;;
  panic_if (negb (rootino =? ROOTINO)) "assert" ;;;
  iappend rootino (dirent rootino [46]) ;;;
  iappend rootino (dirent rootino [46; 46]) ;;;
  add_files rootino files ;;;
  din <- rinode rootino ;;
  let off := xint (i_size din) in
  let off := (off / BSIZE + 1) * BSIZE in
  winode rootino (set_size (xint off) din) ;;;
  used <- gets freeblock ;;
  mk_balloc used.
(** The image file is created empty, and inode numbers start at 1. *)
Definition mk0 : mkst := Mk 0 (fun _ => replicate 512 0) 1 0.

(** ** Sectors *)

Lemma xint_id x : 0 <= x < W32 -> xint x = x.
Proof. intros Hx. unfold xint, u8. rewrite !Z.shiftr_div_pow2 by lia. change (2 ^ 8) with 256. change (2 ^ 16) with 65536. change (2 ^ 24) with 16777216. zlia. Qed.
Lemma xshort_id x : 0 <= x < 65536 -> xshort x = x.
Proof. intros Hx. unfold xshort, u8. rewrite !Z.shiftr_div_pow2 by lia. change (2 ^ 8) with 256. zlia. Qed.
Lemma sect_at_id sec : 0 <= sec < FSSIZE -> sect_at sec = sec.
Proof. intros Hs. unfold sect_at, u32. zlia. Qed.

(** The whole image exists, its blocks are blocks, and those not in use are zero. *)
Definition img_ok (s : mkst) : Prop :=
  mk_len s = FSSIZE /\ (forall b, block_ok (mk_img s b)) /\ nmeta <= freeblock s <= FSSIZE /\
  (forall b, freeblock s <= b -> mk_img s b = replicate 512 0).
Definition upd_img (b : Z) (d : block) (s : mkst) : mkst := Mk (mk_len s) (<[b := d]> (mk_img s)) (freeinode s) (freeblock s).

Lemma rsect_ok sec s : img_ok s -> 0 <= sec < FSSIZE -> rsect sec s = Ret (mk_img s sec) s.
Proof. intros (Hl & _) Hs. unfold rsect, bind, get. rewrite sect_at_id by done. rewrite (proj2 (Z.ltb_lt _ _)) by lia. done. Qed.
Lemma wsect_ok sec d s : img_ok s -> 0 <= sec < FSSIZE -> wsect sec d s = Ret tt (upd_img sec d s).
Proof.
  intros (Hl & _) Hs. unfold wsect, modify, upd_img. rewrite sect_at_id by done. do 2 f_equal. lia.
Qed.
Lemma img_ok_upd b d s : img_ok s -> block_ok d -> b < freeblock s -> img_ok (upd_img b d s).
Proof.
  intros (Hl & Hok & Hf & Hz) Hd Hb. split_and!; try done; simpl; try lia.
  - intros c. destruct (decide (b = c)) as [->|]; [by rewrite fn_lookup_insert | by rewrite fn_lookup_insert_ne].
  - intros c Hc. rewrite fn_lookup_insert_ne by lia. by apply Hz.
Qed.
Lemma newblock_ok s : img_ok s -> freeblock s < FSSIZE ->
  newblock s = Ret (freeblock s) (set_freeblock (freeblock s + 1) s) /\ img_ok (set_freeblock (freeblock s + 1) s).
Proof.
  intros (Hl & Hok & Hf & Hz) Hlt. change nmeta with 59 in Hf. split.
  - unfold newblock. rewrite bind_gets, bind_modify, xint_id by lia. unfold u32. by rewrite Z.mod_small by lia.
  - split_and!; try done; simpl; try lia; [change nmeta with 59; lia|]. intros b Hb. apply Hz. lia.
Qed.

(** ** Files under construction *)

(** The blocks of a file are different data blocks below [fb]. *)
Definition mine (v : Z -> block) (fb : Z) (a : list Z) : Prop :=
  length a = 13%nat /\
  (forall bn, 0 <= bn < MAXFILE -> baddr v a bn <> 0 -> nmeta <= baddr v a bn < fb /\ baddr v a bn <> a12 a) /\
  (a12 a <> 0 -> nmeta <= a12 a < fb) /\
  (forall bn bn', 0 <= bn < MAXFILE -> 0 <= bn' < MAXFILE -> baddr v a bn = baddr v a bn' -> baddr v a bn <> 0 -> bn = bn').
(** It has exactly the blocks that [size] bytes need. *)
Definition full (v : Z -> block) (a : list Z) (size : Z) : Prop :=
  (forall bn, 0 <= bn < MAXFILE -> (baddr v a bn <> 0 <-> bn * BSIZE < size)) /\ (a12 a <> 0 <-> NDIRECT * BSIZE < size).
Definition need (size : Z) : Z := (size + 511) / BSIZE + (if NDIRECT * BSIZE <? size then 1 else 0).

(** Appending [l] to a file of [off] bytes: the old bytes stay, and no block of
    another file changes. *)
Definition grows (v : Z -> block) (fb : Z) (a : list Z) (off : Z) (v' : Z -> block) (fb' : Z) (a' : list Z) (off' : Z) : Prop :=
  fb' - fb = need off' - need off /\
  (forall b, b < fb -> ~ owns v a b -> v' b = v b) /\
  (forall b, owns v' a' b -> owns v a b \/ fb <= b) /\
  (forall p, 0 <= p < off -> fbyte v' a' p = fbyte v a p).
Lemma grows_refl v fb a off : grows v fb a off v fb a off.
Proof. split_and!; [lia | done | by left | done]. Qed.
Lemma grows_trans v fb a off v1 fb1 a1 off1 v2 fb2 a2 off2 : fb <= fb1 -> off <= off1 ->
  grows v fb a off v1 fb1 a1 off1 -> grows v1 fb1 a1 off1 v2 fb2 a2 off2 -> grows v fb a off v2 fb2 a2 off2.
Proof.
  intros Hfb Ho (H1 & H2 & H3 & H4) (G1 & G2 & G3 & G4). split_and!; [lia | | |].
  - intros b Hb Hn. rewrite G2; [by apply H2 | lia |]. intros [?|?]%H3; [done | lia].
  - intros b [?|?]%G3; [by apply H3 | right; lia].
  - intros p Hp. rewrite G4 by lia. by apply H4.
Qed.

(** Reading addresses. *)
Lemma addr_baddr v x bn : 0 <= bn < NDIRECT -> addr_of x (Z.to_nat bn) = baddr v (i_addrs x) bn.
Proof. intros Hb. unfold baddr. by rewrite (proj2 (Z.ltb_lt _ _)) by lia. Qed.
Lemma ind_baddr v x bn : NDIRECT <= bn -> a12 (i_addrs x) <> 0 ->
  get32 (v (addr_of x 12)) (4 * Z.to_nat (bn - NDIRECT)) = baddr v (i_addrs x) bn.
Proof. intros Hb Ha. unfold baddr. rewrite (proj2 (Z.ltb_ge _ _)) by lia. by rewrite (proj2 (Z.eqb_neq _ _)). Qed.
Lemma baddr_indirect v a bn : NDIRECT <= bn -> baddr v a bn <> 0 -> a12 a <> 0.
Proof. intros Hb Hn Ha. apply Hn. unfold baddr. rewrite (proj2 (Z.ltb_ge _ _)) by lia. by rewrite Ha. Qed.

(** A new address in the inode, and in the indirect block. *)
Lemma baddr_direct v a i x bn : length a = 13%nat -> 0 <= i < NDIRECT -> 0 <= bn < MAXFILE ->
  baddr v (<[Z.to_nat i := x]> a) bn = (if bn =? i then x else baddr v a bn) /\ a12 (<[Z.to_nat i := x]> a) = a12 a.
Proof.
  intros Hl Hi Hb. assert (a12 (<[Z.to_nat i := x]> a) = a12 a) as Ea by (unfold a12; by rewrite list_lookup_insert_ne by lia).
  split; [|done]. unfold baddr. rewrite Ea. destruct (Z.eqb_spec bn i) as [->|Hne].
  - rewrite (proj2 (Z.ltb_lt _ _)) by lia. by rewrite list_lookup_insert_eq by lia.
  - destruct (bn <? NDIRECT) eqn:E; [|done]. apply Z.ltb_lt in E. by rewrite list_lookup_insert_ne by lia.
Qed.
Lemma baddr_new_indirect v a c bn : length a = 13%nat -> a12 a = 0 -> c <> 0 -> v c = replicate 512 0 -> 0 <= bn < MAXFILE ->
  baddr v (<[12%nat := c]> a) bn = baddr v a bn.
Proof.
  intros Hl Ha Hc Hz Hb. unfold baddr, a12 in *. destruct (bn <? NDIRECT) eqn:E.
  - apply Z.ltb_lt in E. by rewrite list_lookup_insert_ne by lia.
  - rewrite Ha. rewrite list_lookup_insert_eq by lia. simpl. rewrite (proj2 (Z.eqb_neq _ _)) by done. rewrite Hz.
    assert (forall i, get8 (replicate 512 0) i = 0) as H8.
    { intros i. unfold get8. destruct (replicate 512 0 !! i) as [y|] eqn:Ey; [|done]. by apply lookup_replicate in Ey as [-> _]. }
    unfold get32. by rewrite !H8.
Qed.
Lemma baddr_set_indirect v a i x bn : a12 a <> 0 -> NDIRECT <= i < MAXFILE -> 0 <= bn < MAXFILE -> 0 <= x < W32 -> block_ok (v (a12 a)) ->
  baddr (<[a12 a := put32 (v (a12 a)) (4 * Z.to_nat (i - NDIRECT)) x]> v) a bn = if bn =? i then x else baddr v a bn.
Proof.
  intros Ha Hi Hb Hx [Hl _]. unfold baddr. destruct (bn <? NDIRECT) eqn:E.
  - apply Z.ltb_lt in E. by rewrite (proj2 (Z.eqb_neq _ _)) by lia.
  - apply Z.ltb_ge in E. rewrite (proj2 (Z.eqb_neq _ _)) by done. rewrite fn_lookup_insert. destruct (Z.eqb_spec bn i) as [->|Hne].
    + apply get32_put32_eq; [lia | done].
    + apply get32_put32_ne; lia.
Qed.

(** What [iappend_block] does to a file of [off] bytes: block [off / BSIZE] is at [x]. *)
Definition placed (off : Z) (v : Z -> block) (fb : Z) (a : list Z) (v' : Z -> block) (fb' : Z) (a' : list Z) (x : Z) : Prop :=
  let fbn := off / BSIZE in
  fb' - fb = need (off + 1) - need off /\ length a' = 13%nat /\
  (forall bn, 0 <= bn < MAXFILE -> baddr v' a' bn = if bn =? fbn then x else baddr v a bn) /\
  (forall b, b <> a12 a' \/ a12 a' = 0 -> v' b = v b) /\
  (a12 a' <> 0 <-> NDIRECT <= fbn) /\ (a12 a' = a12 a \/ fb <= a12 a' < fb') /\
  x <> a12 a' /\ x <> 0 /\ (fb <= x < fb' \/ v' = v /\ a' = a).
Lemma need_step off : 0 <= off -> off / BSIZE < MAXFILE ->
  need (off + 1) - need off = if off mod BSIZE =? 0 then (if off =? NDIRECT * BSIZE then 2 else 1) else 0.
Proof. intros Ho Hm. unfold need. zcases; zlia. Qed.

Lemma iappend_block_old din off s : let v := mk_img s in let a := i_addrs din in
  img_ok s -> mine v (freeblock s) a -> full v a off -> 0 <= off -> off / BSIZE < MAXFILE -> off mod BSIZE <> 0 ->
  exists x, iappend_block din (off / BSIZE) s = Ret (din, x) s /\ placed off v (freeblock s) a v (freeblock s) a x.
Proof.
  intros v a Hok (Hl & Hb & Ha & Hinj) (Hf & Hf12) Ho Hm Hr. pose proof Hok as (_ & _ & Hfb & _). change nmeta with 59 in *.
  assert (baddr v a (off / BSIZE) <> 0) as Hne by (apply Hf; zlia). destruct (Hb (off / BSIZE) ltac:(zlia) Hne) as [Hrange Hne12].
  exists (baddr v a (off / BSIZE)). split.
  - unfold iappend_block. destruct (Z.ltb_spec (off / BSIZE) NDIRECT) as [Hlt|Hge].
    + rewrite (addr_baddr v) by zlia. rewrite xint_id by (fold a; lia). fold a. rewrite (proj2 (Z.eqb_neq _ _) Hne).
      unfold bind at 1, ret at 1. rewrite (addr_baddr v) by zlia. by rewrite xint_id by (fold a; lia).
    + pose proof (baddr_indirect v a _ Hge Hne) as H12. specialize (Ha H12). change (addr_of din 12) with (a12 a). rewrite xint_id by lia.
      rewrite (proj2 (Z.eqb_neq _ _) H12). unfold bind at 1, ret at 1. change (addr_of din 12) with (a12 a). rewrite xint_id by lia.
      rewrite (bind_Ret _ _ _ _ _ (rsect_ok (a12 a) s Hok ltac:(lia))). cbv zeta. fold v. change (a12 a) with (addr_of din 12).
      rewrite (ind_baddr v din (off / BSIZE) Hge H12). fold a. rewrite (proj2 (Z.eqb_neq _ _) Hne).
      unfold bind at 1, ret at 1. rewrite (ind_baddr v din (off / BSIZE) Hge H12). by rewrite xint_id by (fold a; lia).
  - split; [rewrite need_step by done; rewrite (proj2 (Z.eqb_neq _ _)) by done; lia|]. split; [done|].
    split; [intros bn Hbn; by destruct (Z.eqb_spec bn (off / BSIZE)) as [->|]|]. split; [done|]. split; [rewrite Hf12; zlia|].
    split; [by left|]. split; [done|]. split; [done|]. by right.
Qed.

Lemma new_direct din off s : let v := mk_img s in let a := i_addrs din in
  img_ok s -> mine v (freeblock s) a -> full v a off -> 0 <= off -> off / BSIZE < NDIRECT -> off mod BSIZE = 0 -> freeblock s < FSSIZE ->
  exists a' x s', iappend_block din (off / BSIZE) s = Ret (set_addrs a' din, x) s' /\ img_ok s' /\ freeinode s' = freeinode s /\
    placed off v (freeblock s) a (mk_img s') (freeblock s') a' x.
Proof.
  intros v a Hok (Hl & Hb & Ha & Hinj) (Hf & Hf12) Ho Hm Hr Hfree. pose proof Hok as (_ & _ & Hfb & _). change nmeta with 59 in *.
  assert (baddr v a (off / BSIZE) = 0) as Hz.
  { destruct (decide (baddr v a (off / BSIZE) = 0)) as [|Hn]; [done|]. apply Hf in Hn; zlia. }
  destruct (newblock_ok s Hok Hfree) as [En Hok']. set (x := freeblock s) in *. set (fbn := off / BSIZE) in *.
  assert (0 <= fbn) as H0 by (unfold fbn; zlia).
  exists (<[Z.to_nat fbn := x]> a), x, (set_freeblock (x + 1) s). split; [|split; [done|]; split; [done|]].
  - unfold iappend_block. rewrite (proj2 (Z.ltb_lt _ _)) by done. rewrite (addr_baddr v) by lia. fold a. rewrite Hz. change (xint 0 =? 0) with true. cbv iota.
    rewrite bind_assoc, (bind_Ret _ _ _ _ _ En). unfold bind at 1, ret. do 2 f_equal.
    unfold addr_of, set_addr, set_addrs. simpl. fold a. rewrite list_lookup_insert_eq by lia. simpl. by rewrite xint_id by lia.
  - split; [rewrite need_step by zlia; rewrite Hr; simpl; zcases; zlia|]. split; [by rewrite length_insert|].
    destruct (baddr_direct v a fbn x fbn Hl ltac:(lia) ltac:(lia)) as [_ E12].
    split; [intros bn Hbn; by apply baddr_direct|]. split; [done|]. rewrite E12. split; [rewrite Hf12; unfold fbn in *; zlia|]. split; [by left|].
    split; [|split; [lia|]; left; simpl; lia]. intros E. destruct (decide (a12 a = 0)); [lia|]. specialize (Ha n). lia.
Qed.

Lemma new_in_indirect din fbn s : let v := mk_img s in let a := i_addrs din in
  img_ok s -> a12 a <> 0 -> nmeta <= a12 a < freeblock s -> freeblock s < FSSIZE -> NDIRECT <= fbn < MAXFILE -> baddr v a fbn = 0 ->
  let s' := upd_img (a12 a) (put32 (v (a12 a)) (4 * Z.to_nat (fbn - NDIRECT)) (freeblock s)) (set_freeblock (freeblock s + 1) s) in
  (ind <- rsect (xint (addr_of din 12)) ;;
   let off := (4 * Z.to_nat (fbn - NDIRECT))%nat in
   ind <- (if get32 ind off =? 0
           then b <- newblock ;; wsect (xint (addr_of din 12)) (put32 ind off b) ;;; ret (put32 ind off b)
           else ret ind) ;;
   ret (din, xint (get32 ind off))) s = Ret (din, freeblock s) s' /\ img_ok s'.
Proof.
  intros v a Hok H12 Hr Hfree Hfbn Hz. change nmeta with 59 in *. destruct (newblock_ok s Hok Hfree) as [En Hok'].
  pose proof Hok as (_ & Hbk & Hfb & _). split.
  - change (addr_of din 12) with (a12 a). rewrite xint_id by lia. rewrite (bind_Ret _ _ _ _ _ (rsect_ok (a12 a) s Hok ltac:(lia))). cbv zeta. fold v.
    assert (get32 (v (a12 a)) (4 * Z.to_nat (fbn - NDIRECT)) = 0) as ->.
    { rewrite <- Hz. change (a12 a) with (addr_of din 12). apply ind_baddr; [lia | done]. }
    cbn [Z.eqb]. rewrite bind_assoc, (bind_Ret _ _ _ _ _ En). rewrite bind_assoc.
    rewrite (bind_Ret _ _ _ _ _ (wsect_ok (a12 a) _ _ Hok' ltac:(lia))). unfold bind at 1, ret.
    destruct (Hbk (a12 a)) as [Hlen _]. fold v in Hlen. rewrite get32_put32_eq, xint_id by (rewrite ?Hlen; lia). done.
  - apply img_ok_upd; [done | apply put32_ok, Hbk | simpl; lia].
Qed.

Lemma set_addrs_same x : set_addrs (i_addrs x) x = x.
Proof. by destruct x. Qed.
Lemma new_indirect din off s : let v := mk_img s in let a := i_addrs din in
  img_ok s -> mine v (freeblock s) a -> full v a off -> NDIRECT <= off / BSIZE < MAXFILE -> off mod BSIZE = 0 ->
  freeblock s + (need (off + 1) - need off) <= FSSIZE ->
  exists a' x s', iappend_block din (off / BSIZE) s = Ret (set_addrs a' din, x) s' /\ img_ok s' /\ freeinode s' = freeinode s /\
    placed off v (freeblock s) a (mk_img s') (freeblock s') a' x.
Proof.
  intros v a Hok (Hl & Hb & Ha & Hinj) (Hf & Hf12) Hm Hr Hfree. pose proof Hok as (_ & Hbk & Hfb & Hzero). change nmeta with 59 in *.
  assert (0 <= off) as Ho by zlia. unfold placed. rewrite need_step in * by lia. rewrite Hr in *. cbn [Z.eqb] in *.
  assert (baddr v a (off / BSIZE) = 0) as Hz.
  { destruct (decide (baddr v a (off / BSIZE) = 0)) as [|Hn]; [done|]. apply Hf in Hn; zlia. }
  unfold iappend_block. rewrite (proj2 (Z.ltb_ge _ _)) by lia. change (addr_of din 12) with (a12 a).
  destruct (decide (a12 a = 0)) as [E12|H12].
  - assert (off = NDIRECT * BSIZE) as Eoff by (destruct (decide (NDIRECT * BSIZE < off)) as [H|]; [by apply Hf12 in H | zlia]).
    rewrite (proj2 (Z.eqb_eq _ _) Eoff) in *. rewrite E12. change (xint 0 =? 0) with true. cbv iota.
    set (c := freeblock s) in *. destruct (newblock_ok s Hok ltac:(lia)) as [En Hok1]. fold c in En, Hok1.
    rewrite bind_assoc, (bind_Ret _ _ _ _ _ En). unfold bind at 1, ret at 1.
    assert (a12 (<[12%nat := c]> a) = c) as E1 by (unfold a12; by rewrite list_lookup_insert_eq by lia).
    assert (forall bn, 0 <= bn < MAXFILE -> baddr v (<[12%nat := c]> a) bn = baddr v a bn) as Eb.
    { intros bn Hbn. apply baddr_new_indirect; try done; [lia | by apply Hzero]. }
    destruct (new_in_indirect (set_addr 12 c din) (off / BSIZE) (set_freeblock (c + 1) s) Hok1) as [E Hok2];
      [cbn [i_addrs set_addr set_addrs]; fold a; simpl; change nmeta with 59; rewrite ?E1; try lia .. |].
    { rewrite Eb; [done | lia]. }
    exists (<[12%nat := c]> a), (c + 1). eexists. split; [exact E|]. split; [exact Hok2|]. clear E Hok2.
    cbn [i_addrs set_addr set_addrs mk_img freeblock freeinode upd_img set_freeblock]. fold a. rewrite E1. split; [done|].
    split; [lia|]. split; [by rewrite length_insert|]. split.
    { intros bn Hbn. rewrite <- Eb by done. rewrite <- E1 at 1 2. apply baddr_set_indirect; rewrite ?E1; try lia. apply Hbk. }
    split; [intros b Hbb; by rewrite fn_lookup_insert_ne by lia|]. split; [lia|]. split; [right; lia|]. split; [lia|]. split; [lia|]. left. lia.
  - specialize (Ha H12). rewrite xint_id by lia. rewrite (proj2 (Z.eqb_neq _ _) H12). unfold bind at 1, ret at 1.
    destruct (off =? NDIRECT * BSIZE) eqn:Eoff; [apply Z.eqb_eq in Eoff; apply Hf12 in H12; lia|].
    destruct (new_in_indirect din (off / BSIZE) s Hok) as [E Hok2]; try done; [lia|].
    exists a, (freeblock s). eexists. split; [unfold a; rewrite set_addrs_same; exact E|]. split; [exact Hok2|]. split; [done|]. cbn [mk_img freeblock upd_img set_freeblock].
    split; [lia|]. split; [done|]. split.
    { intros bn Hbn. apply baddr_set_indirect; try done. lia. }
    split; [intros b Hbb; destruct Hbb; [by rewrite fn_lookup_insert_ne | done]|]. split; [rewrite Hf12; zlia|]. split; [by left|]. split; [lia|]. split; [lia|]. left. lia.
Qed.
Lemma iappend_block_ok din off s : let v := mk_img s in let a := i_addrs din in
  img_ok s -> mine v (freeblock s) a -> full v a off -> 0 <= off -> off / BSIZE < MAXFILE ->
  freeblock s + (need (off + 1) - need off) <= FSSIZE ->
  exists a' x s', iappend_block din (off / BSIZE) s = Ret (set_addrs a' din, x) s' /\ img_ok s' /\ freeinode s' = freeinode s /\
    placed off v (freeblock s) a (mk_img s') (freeblock s') a' x.
Proof.
  intros v a Hok Hm Hf Ho Hmax Hfree. destruct (decide (off mod BSIZE = 0)) as [Hr|Hr].
  - destruct (Z.lt_ge_cases (off / BSIZE) NDIRECT).
    + apply new_direct; try done. rewrite need_step, Hr in Hfree by done. simpl in Hfree. destruct (off =? NDIRECT * BSIZE) in Hfree; lia.
    + by apply new_indirect.
  - destruct (iappend_block_old din off s Hok Hm Hf Ho Hmax Hr) as (x & E & Hp). exists a, x, s. unfold a. by rewrite set_addrs_same.
Qed.

(** One round of the loop: [l] goes into the block of [off]. *)
Lemma placed_mine off v fb a v' fb' a' x : 0 <= off -> off / BSIZE < MAXFILE -> fb <= fb' -> nmeta <= fb ->
  mine v fb a -> placed off v fb a v' fb' a' x -> mine v' fb' a' /\ nmeta <= x < fb'.
Proof.
  intros Ho Hm Hfb Hn (Hl & Hb & Ha & Hinj) (_ & Hl' & Hb' & _ & _ & H12 & Hx12 & Hx0 & Hx). change nmeta with 59 in *.
  assert (59 <= x < fb') as Hxr.
  { destruct Hx as [|[-> ->]]; [lia|]. specialize (Hb' (off / BSIZE) ltac:(zlia)). rewrite Z.eqb_refl in Hb'.
    destruct (Hb (off / BSIZE) ltac:(zlia)); [congruence|]. lia. }
  assert (a12 a' <> 0 -> 59 <= a12 a' < fb') as Ha'.
  { intros Hne. destruct H12 as [E|]; [|lia]. rewrite E in *. specialize (Ha Hne). lia. }
  assert (forall bn, 0 <= bn < MAXFILE -> baddr v a bn <> 0 -> baddr v a bn <> a12 a' /\ (bn <> off / BSIZE -> baddr v a bn <> x)) as Hold.
  { intros bn Hbn Hne. destruct (Hb bn Hbn Hne) as [Hr Hr12]. split; [destruct H12 as [->|]; [done | lia]|].
    intros Hbf Ex. destruct Hx as [|[-> ->]]; [lia|]. specialize (Hb' (off / BSIZE) ltac:(zlia)). rewrite Z.eqb_refl in Hb'.
    apply Hbf. apply Hinj; [done | zlia | congruence | done]. }
  split; [|done]. split; [done|]. change nmeta with 59. split; [|split; [done|]].
  - intros bn Hbn. rewrite Hb' by done. destruct (Z.eqb_spec bn (off / BSIZE)); [done|]. intros Hne.
    destruct (Hb bn Hbn Hne) as [Hr _]. split; [lia | by apply Hold].
  - intros bn bn' Hbn Hbn'. rewrite !Hb' by done.
    destruct (Z.eqb_spec bn (off / BSIZE)) as [->|], (Z.eqb_spec bn' (off / BSIZE)) as [->|]; [done | | |].
    + intros Ex Hne. exfalso. destruct (Hold bn' Hbn' ltac:(congruence)) as [_ H]. by apply H.
    + intros Ex Hne. exfalso. destruct (Hold bn Hbn Hne) as [_ H]. by apply H.
    + by apply Hinj.
Qed.

Lemma get8_bcopy l d off i : (off + length l <= length d)%nat ->
  get8 (bcopy l d off) i = if decide (off <= i < off + length l)%nat then default 0 (l !! (i - off)%nat) else get8 d i.
Proof.
  intros Hl. unfold get8, bcopy. destruct (decide (i < off)%nat) as [H1|H1].
  - rewrite lookup_app_l by (rewrite length_take; lia). rewrite lookup_take_lt by lia. by rewrite decide_False by lia.
  - rewrite lookup_app_r by (rewrite length_take; lia). rewrite length_take_le by lia.
    destruct (decide (i - off < length l)%nat) as [H2|H2].
    + rewrite lookup_app_l by lia. by rewrite decide_True by lia.
    + rewrite lookup_app_r by lia. rewrite lookup_drop. rewrite decide_False by lia. f_equal. f_equal. lia.
Qed.
Lemma bcopy_ok l d off : block_ok d -> Forall (fun x => 0 <= x < 256) l -> (off + length l <= 512)%nat -> block_ok (bcopy l d off).
Proof.
  intros [Hl Hf] Hb Ho. unfold bcopy. split; [rewrite !length_app, length_take, length_drop; lia|].
  apply Forall_app; split; [by apply Forall_take|]. apply Forall_app; split; [done | by apply Forall_drop].
Qed.
Lemma mine_ext v v' fb a : (forall bn, baddr v' a bn = baddr v a bn) -> mine v fb a -> mine v' fb a.
Proof. intros E. unfold mine. by setoid_rewrite E. Qed.
Lemma full_ext v v' a n : (forall bn, baddr v' a bn = baddr v a bn) -> full v a n -> full v' a n.
Proof. intros E. unfold full. by setoid_rewrite E. Qed.

Section round.
Context (off fb fb' x : Z) (v v' : Z -> block) (a a' l : list Z).
Context (Ho : 0 <= off) (Hmax : off / BSIZE < MAXFILE) (Hfb : nmeta <= fb <= fb').
Context (Hm : mine v fb a) (Hf : full v a off) (Hp : placed off v fb a v' fb' a' x).
Context (Hl0 : 0 < Z.of_nat (length l)) (Hl : off mod BSIZE + Z.of_nat (length l) <= BSIZE) (Hok : forall b, block_ok (v' b)).
Abbreviation v2 := (<[x := bcopy l (v' x) (Z.to_nat (off mod BSIZE))]> v').
Abbreviation off2 := (off + Z.of_nat (length l)).

Lemma round_baddr bn : baddr v2 a' bn = baddr v' a' bn.
Proof using Hp. apply baddr_ext. intros _. destruct Hp as (_ & _ & _ & _ & _ & _ & Hx & _). by rewrite fn_lookup_insert_ne. Qed.
Lemma round_old : fb <= x < fb' -> off mod BSIZE = 0.
Proof using Ho Hmax Hp.
  clear Hl Hl0.
  destruct Hp as (Hn & _). rewrite need_step in Hn by done. intros Hx. destruct (Z.eqb_spec (off mod BSIZE) 0); [done|lia].
Qed.
Lemma round_full : full v2 a' off2.
Proof using Ho Hmax Hf Hp Hl0 Hl.
  apply (full_ext v'); [apply round_baddr|]. destruct Hf as [Hf1 Hf2], Hp as (_ & _ & Hb & _ & H12 & _ & _ & Hx0 & _). split.
  - intros bn Hbn. rewrite Hb by done. destruct (Z.eqb_spec bn (off / BSIZE)); [zlia|]. rewrite Hf1 by done. zlia.
  - rewrite H12. zlia.
Qed.
Lemma round_mine : mine v2 fb' a' /\ nmeta <= x < fb'.
Proof using Ho Hmax Hfb Hm Hp.
  destruct (placed_mine off v fb a v' fb' a' x) as [H1 H2]; try done; [lia.. |]. split; [|done].
  apply (mine_ext v'); [apply round_baddr | done].
Qed.
Lemma round_new i : 0 <= i < Z.of_nat (length l) -> fbyte v2 a' (off + i) = default 0 (l !! Z.to_nat i).
Proof using Ho Hmax Hp Hl Hl0 Hok.
  intros Hi. unfold fbyte. rewrite round_baddr. destruct Hp as (_ & _ & Hb & _). replace ((off + i) / BSIZE) with (off / BSIZE) by zlia.
  rewrite Hb, Z.eqb_refl, fn_lookup_insert by zlia. destruct (Hok x) as [Hlen _]. rewrite get8_bcopy by (rewrite Hlen; zlia).
  rewrite decide_True by zlia. f_equal. f_equal. zlia.
Qed.
Lemma round_byte p : 0 <= p < off -> fbyte v2 a' p = fbyte v a p.
Proof using Ho Hmax Hfb Hm Hf Hp Hl Hl0 Hok.
  intros Hpo. unfold fbyte. rewrite round_baddr. pose proof Hp as (_ & _ & Hb & Hv & _ & _ & Hx12 & Hx0 & Hx).
  assert (baddr v a (p / BSIZE) <> 0) as Hne by (apply Hf; zlia).
  rewrite Hb by zlia. destruct (Z.eqb_spec (p / BSIZE) (off / BSIZE)) as [E|E].
  - destruct Hx as [Hx%round_old|[-> ->]]; [zlia|]. specialize (Hb (off / BSIZE) ltac:(zlia)). rewrite Z.eqb_refl in Hb.
    rewrite fn_lookup_insert, E, Hb. destruct (Hok x) as [Hlen _]. rewrite get8_bcopy by (rewrite Hlen; zlia).
    by rewrite decide_False by zlia.
  - destruct (placed_mine off v fb a v' fb' a' x) as ((_ & Hb2 & _ & Hinj) & _); try done; [lia..|].
    assert (baddr v' a' (p / BSIZE) = baddr v a (p / BSIZE)) as Eb by (rewrite Hb by zlia; by rewrite (proj2 (Z.eqb_neq _ _))).
    rewrite fn_lookup_insert_ne.
    + rewrite Hv; [done|]. left. rewrite <- Eb. apply Hb2; [zlia | congruence].
    + intros Ex. apply E. apply Hinj; [zlia | zlia | | congruence]. rewrite Eb, <- Ex, Hb by zlia. by rewrite Z.eqb_refl.
Qed.
Lemma round_grows : grows v fb a off v2 fb' a' off2.
Proof using Ho Hmax Hfb Hm Hf Hp Hl0 Hl Hok.
  pose proof Hp as (Hn & _ & Hb & Hv & _ & H12 & Hx12 & Hx0 & Hx).
  assert (owns v a x \/ fb <= x) as Hxo.
  { destruct Hx as [|[-> ->]]; [right; lia|]. left. split; [done|]. right. exists (off / BSIZE). split; [zlia|].
    specialize (Hb (off / BSIZE) ltac:(zlia)). by rewrite Z.eqb_refl in Hb. }
  assert (a12 a' <> 0 -> owns v a (a12 a') \/ fb <= a12 a') as H12o.
  { intros Hne. destruct H12 as [E|]; [|right; lia]. left. split; [done|]. left. done. }
  split; [|split; [|split; [|apply round_byte]]].
  - rewrite Hn. unfold need. zcases; zlia.
  - intros b Hbb Hno. rewrite fn_lookup_insert_ne by (intros ->; destruct Hxo; [done | lia]). apply Hv.
    destruct (decide (a12 a' = 0)) as [|Hne]; [by right|]. left. intros ->. destruct (H12o Hne); [done | lia].
  - intros b (Hb0 & [E|(bn & Hbn & E)]).
    + subst b. by apply H12o.
    + rewrite round_baddr, Hb in E by done. destruct (Z.eqb_spec bn (off / BSIZE)); [by subst b|]. left. split; [done|]. right. by exists bn.
Qed.
End round.

Lemma need_mono m n : 0 <= m <= n -> need m <= need n.
Proof. intros H. unfold need. zcases; zlia. Qed.
(** The file with addresses [a] and [off] bytes got the bytes [l] at its end. *)
Definition appended (s : mkst) (a : list Z) (off : Z) (l : list Z) (s' : mkst) (a' : list Z) : Prop :=
  let off' := off + Z.of_nat (length l) in
  img_ok s' /\ freeinode s' = freeinode s /\ mine (mk_img s') (freeblock s') a' /\ full (mk_img s') a' off' /\
  grows (mk_img s) (freeblock s) a off (mk_img s') (freeblock s') a' off' /\
  forall i, 0 <= i < Z.of_nat (length l) -> fbyte (mk_img s') a' (off + i) = default 0 (l !! Z.to_nat i).
Lemma appended_nil s a off : img_ok s -> mine (mk_img s) (freeblock s) a -> full (mk_img s) a off -> appended s a off [] s a.
Proof. intros H1 H2 H3. unfold appended. simpl. rewrite Z.add_0_r. do 4 (split; [done|]). split; [apply grows_refl | lia]. Qed.
Lemma appended_app s a off l s1 a1 l' s2 a2 : 0 <= off -> appended s a off l s1 a1 ->
  appended s1 a1 (off + Z.of_nat (length l)) l' s2 a2 -> appended s a off (l ++ l') s2 a2.
Proof.
  intros Ho (_ & H2 & _ & _ & H5 & H6) (G1 & G2 & G3 & G4 & G5 & G6). unfold appended. cbv zeta. rewrite length_app, Nat2Z.inj_add, Z.add_assoc.
  split; [done|]. split; [congruence|]. do 2 (split; [done|]). split.
  { eapply grows_trans; [| | exact H5 | exact G5]; [|lia]. destruct H5 as [H5 _]. pose proof (need_mono off (off + Z.of_nat (length l)) ltac:(lia)). lia. }
  intros i Hi. destruct (Z.lt_ge_cases i (Z.of_nat (length l))) as [Hlt|Hge].
  - destruct G5 as (_ & _ & _ & G5). rewrite G5, H6 by lia. by rewrite lookup_app_l by lia.
  - replace (off + i) with (off + Z.of_nat (length l) + (i - Z.of_nat (length l))) by lia. rewrite G6 by lia.
    rewrite lookup_app_r by lia. f_equal. f_equal. lia.
Qed.

Lemma iappend_round_ok p din off s : let a := i_addrs din in let n := Z.of_nat (length p) in
  img_ok s -> mine (mk_img s) (freeblock s) a -> full (mk_img s) a off -> 0 <= off -> 0 < n -> off + n <= MAXFILE * BSIZE ->
  Forall (fun x => 0 <= x < 256) p -> freeblock s + (need (off + n) - need off) <= FSSIZE ->
  exists a' n1 s', iappend_round p din off s = Ret (set_addrs a' din, n1) s' /\ 0 < n1 <= n /\
    appended s a off (take (Z.to_nat n1) p) s' a'.
Proof.
  intros a n Hok Hm Hf Ho Hpos Hmax Hb Hfree. subst n. unfold iappend_round. cbv zeta. rewrite bind_check by (apply Z.leb_gt; zlia).
  pose proof (need_mono (off + 1) (off + Z.of_nat (length p)) ltac:(lia)) as Hn1.
  destruct (iappend_block_ok din off s Hok Hm Hf Ho ltac:(zlia) ltac:(lia)) as (a1 & x & s1 & E1 & Hok1 & Efi & Hp).
  rewrite (bind_Ret _ _ _ _ _ E1). set (n1 := Z.min (Z.of_nat (length p)) ((off / BSIZE + 1) * BSIZE - off)).
  assert (0 < n1 <= Z.of_nat (length p) /\ off mod BSIZE + n1 <= BSIZE) as [Hn1r Hn1m] by (unfold n1; zlia).
  set (l := take (Z.to_nat n1) p). assert (Z.of_nat (length l) = n1) as El by (unfold l; rewrite length_take; lia).
  assert (freeblock s <= freeblock s1) as Hle by (destruct Hp as (Hp & _); pose proof (need_mono off (off + 1) ltac:(lia)); lia).
  pose proof Hok as (_ & _ & [Hfb _] & _). pose proof Hok1 as (_ & Hbk1 & Hfb1 & _).
  destruct (round_mine off (freeblock s) (freeblock s1) x (mk_img s) (mk_img s1) a a1 l) as [Hm2 Hxr]; try done; [zlia|].
  change nmeta with 59 in Hxr. rewrite (bind_Ret _ _ _ _ _ (rsect_ok x s1 Hok1 ltac:(lia))). rewrite (bind_Ret _ _ _ _ _ (wsect_ok x _ s1 Hok1 ltac:(lia))).
  replace (off - off / BSIZE * BSIZE) with (off mod BSIZE) by zlia. eexists a1, n1, _. split; [done|]. split; [done|].
  split. { apply img_ok_upd; [done | | lia]. apply bcopy_ok; [apply Hbk1 | by apply Forall_take | zlia]. }
  fold l. split; [done|]. split; [done|]. split; [|split].
  - eapply round_full; [done | zlia | done | done | lia | lia].
  - eapply round_grows; [done | zlia | done | done | done | done | lia | lia | done].
  - eapply round_new; [done | zlia | done | lia | lia | done].
Qed.
Lemma iappend_loop_ok k : forall p din off s, let a := i_addrs din in let n := Z.of_nat (length p) in
  img_ok s -> mine (mk_img s) (freeblock s) a -> full (mk_img s) a off -> 0 <= off -> off + n <= MAXFILE * BSIZE -> (length p <= k)%nat ->
  Forall (fun x => 0 <= x < 256) p -> freeblock s + (need (off + n) - need off) <= FSSIZE ->
  exists a' s', iappend_loop k p din off s = Ret (set_addrs a' din, off + n) s' /\ appended s a off p s' a'.
Proof.
  induction k as [|k IH]; intros p din off s a n Hok Hm Hf Ho Hmax Hk Hb Hfree; subst n;
    (destruct p as [|c p0] eqn:Ep; [exists a, s; unfold a; rewrite set_addrs_same; simpl; rewrite Z.add_0_r; split; [done | by apply appended_nil]|]);
    [simpl in Hk; lia|]. rewrite <- Ep in *. assert (0 < Z.of_nat (length p)) as Hpos by (subst p; simpl; lia).
  destruct (iappend_round_ok p din off s) as (a1 & n1 & s1 & E & Hn1 & H1); try done.
  pose proof H1 as (Hok1 & _ & Hm1 & Hf1 & (Hg1 & _) & _). assert (Z.of_nat (length (take (Z.to_nat n1) p)) = n1) as El by (rewrite length_take; lia).
  assert (Z.of_nat (length (drop (Z.to_nat n1) p)) = Z.of_nat (length p) - n1) as El' by (rewrite length_drop; lia). rewrite El in *.
  destruct (IH (drop (Z.to_nat n1) p) (set_addrs a1 din) (off + n1) s1) as (a2 & s2 & E2 & H2); try done; rewrite ?El'; try lia.
  { by apply Forall_drop. }
  { replace (off + n1 + (Z.of_nat (length p) - n1)) with (off + Z.of_nat (length p)) by lia. lia. }
  exists a2, s2. split.
  - transitivity (iappend_loop k (drop (Z.to_nat n1) p) (set_addrs a1 din) (off + n1) s1).
    + subst p. cbn [iappend_loop]. by rewrite (bind_Ret _ _ _ _ _ E).
    + rewrite E2, El'. by replace (off + n1 + (Z.of_nat (length p) - n1)) with (off + Z.of_nat (length p)) by lia.
  - rewrite <- (take_drop (Z.to_nat n1) p). eapply appended_app; [done | exact H1 |]. by rewrite El.
Qed.

(** ** The files of the image *)

Definition dino (v : Z -> block) (inum : Z) : inode := get_dinode (dino_off inum) (v (IBLOCK inum sb)) no_inode.
Definition faddrs (v : Z -> block) (inum : Z) : list Z := i_addrs (dino v inum).
Definition new_inode (type size : Z) (a : list Z) : inode := set_addrs a (set_size size (set_nlink 1 (set_type type no_inode))).
(** Inode [inum] of the image is a file of this type with these bytes. *)
Definition file_at (v : Z -> block) (fb inum type : Z) (bytes : list Z) : Prop :=
  let n := Z.of_nat (length bytes) in let a := faddrs v inum in
  dino v inum = new_inode type n a /\ mine v fb a /\ full v a n /\ n <= MAXFILE * BSIZE /\
  forall i, 0 <= i < n -> fbyte v a i = default 0 (bytes !! Z.to_nat i).

(** Changes of other blocks leave a file as it is. *)
Lemma keep_baddr v v' a : (forall b, owns v a b -> v' b = v b) -> forall bn, baddr v' a bn = baddr v a bn.
Proof. intros H bn. apply baddr_ext. intros Ha. apply H. split; [done | by left]. Qed.
Lemma keep_owns v v' a b : (forall b, owns v a b -> v' b = v b) -> owns v' a b <-> owns v a b.
Proof. intros H. unfold owns. by setoid_rewrite (keep_baddr v v' a H). Qed.
Lemma keep_file v v' fb fb' inum type bytes :
  file_at v fb inum type bytes -> dino v' inum = dino v inum -> (forall b, owns v (faddrs v inum) b -> v' b = v b) -> fb <= fb' ->
  file_at v' fb' inum type bytes.
Proof.
  intros (E & (Hl & Hb & Ha & Hinj) & Hf & Hmax & Hby) Ed Hv Hfb. unfold file_at, faddrs in *. rewrite Ed. cbv zeta.
  pose proof (keep_baddr _ _ _ Hv) as Eb. split; [done|]. split; [|split; [by apply (full_ext v)|]; split; [done|]].
  - unfold mine. setoid_rewrite Eb. split; [done|]. split; [|split; [|done]].
    + intros bn Hbn Hne. destruct (Hb bn Hbn Hne). split; [lia | done].
    + intros H. specialize (Ha H). lia.
  - intros i Hi. rewrite <- Hby by done. unfold fbyte. rewrite Eb, Hv; [done|].
    assert (baddr v (i_addrs (dino v inum)) (i / BSIZE) <> 0) as Hne by (apply Hf; zlia). split; [done|]. right. exists (i / BSIZE). split; [zlia | done].
Qed.
Lemma owns_range v fb a b : mine v fb a -> owns v a b -> nmeta <= b < fb.
Proof. intros (_ & Hb & Ha & _) (Hb0 & [E|(bn & Hbn & E)]); subst b; [by apply Ha | by apply Hb]. Qed.

(** Inodes. *)
Lemma IBLOCK_small inum : 0 <= inum < NINODES -> 32 <= IBLOCK inum sb < 58.
Proof. intros H. unfold IBLOCK. change (sb_inodestart sb) with 32. zlia. Qed.
Lemma dino_new v inum type size a : block_ok (v (IBLOCK inum sb)) -> 0 <= type < 32768 -> 0 <= size < W32 ->
  length a = 13%nat -> Forall (fun b => 0 <= b < W32) a ->
  dino (<[IBLOCK inum sb := put_dinode (dino_off inum) (new_inode type size a) (v (IBLOCK inum sb))]> v) inum = new_inode type size a.
Proof.
  intros [Hl _] Ht Hs Ha Hf. unfold dino. rewrite fn_lookup_insert. apply (get_put_dinode (dino_off inum) (new_inode type size a)).
  - rewrite Hl. unfold dino_off. zlia.
  - unfold inode_wf, is_short. simpl. split_and!; try done; lia.
Qed.
Lemma dino_other v inum j x : 0 <= inum -> 0 <= j -> inum <> j -> block_ok (v (IBLOCK inum sb)) -> length (i_addrs x) = 13%nat ->
  dino (<[IBLOCK inum sb := put_dinode (dino_off inum) x (v (IBLOCK inum sb))]> v) j = dino v j.
Proof.
  intros Hi Hj Hne [Hl _] Ha. unfold dino. destruct (decide (IBLOCK inum sb = IBLOCK j sb)) as [E|E].
  - rewrite <- E, fn_lookup_insert. apply get_put_dinode_ne; [rewrite Hl; unfold dino_off; zlia | done |].
    unfold IBLOCK, dino_off in *. zlia.
  - by rewrite fn_lookup_insert_ne.
Qed.
Lemma dino_ext v v' inum : v' (IBLOCK inum sb) = v (IBLOCK inum sb) -> dino v' inum = dino v inum.
Proof. unfold dino. by intros ->. Qed.
Lemma winode_ok inum x s : img_ok s -> 0 <= inum < NINODES ->
  let b := IBLOCK inum sb in let s' := upd_img b (put_dinode (dino_off inum) x (mk_img s b)) s in
  winode inum x s = Ret tt s' /\ img_ok s'.
Proof.
  intros Hok Hi. pose proof (IBLOCK_small inum Hi). unfold winode. cbv zeta. rewrite (bind_Ret _ _ _ _ _ (rsect_ok (IBLOCK inum sb) s Hok ltac:(lia))).
  rewrite wsect_ok by (done || lia). split; [done|]. pose proof Hok as (_ & Hb & Hfb & _). change nmeta with 59 in Hfb.
  apply img_ok_upd; [done | by apply put_dinode_ok, Hb | lia].
Qed.

Fixpoint total (l : list (Z * list Z)) : Z :=
  match l with [] => 0 | (_, bytes) :: l => need (Z.of_nat (length bytes)) + total l end.
(** The image holds the files [l], the first one as inode 1, in blocks of their own;
    the superblock is written, the log is empty, the other inodes are free. *)
Definition mk_inv (s : mkst) (l : list (Z * list Z)) : Prop :=
  let v := mk_img s in
  img_ok s /\ freeinode s = 1 + Z.of_nat (length l) /\ freeinode s <= NINODES /\ freeblock s = nmeta + total l /\
  (forall i type bytes, l !! i = Some (type, bytes) -> file_at v (freeblock s) (1 + Z.of_nat i) type bytes) /\
  (forall i j b, (i < length l)%nat -> (j < length l)%nat -> i <> j ->
     owns v (faddrs v (1 + Z.of_nat i)) b -> ~ owns v (faddrs v (1 + Z.of_nat j)) b) /\
  (forall inum, freeinode s <= inum < NINODES -> i_type (dino v inum) = 0) /\
  (forall b, 0 <= b < 32 -> v b = if b =? 1 then sb_block else replicate 512 0).

(** All files but number [i] are in place, and the blocks of that one are those of [a]. *)
Definition ready_inode (s : mkst) (l : list (Z * list Z)) (i : nat) (a : list Z) : Prop :=
  let v := mk_img s in
  img_ok s /\ freeinode s = 1 + Z.of_nat (length l) /\ freeinode s <= NINODES /\ freeblock s = nmeta + total l /\
  (forall j type bytes, j <> i -> l !! j = Some (type, bytes) -> file_at v (freeblock s) (1 + Z.of_nat j) type bytes) /\
  (forall j k b, (j < length l)%nat -> (k < length l)%nat -> j <> i -> k <> i -> j <> k ->
     owns v (faddrs v (1 + Z.of_nat j)) b -> ~ owns v (faddrs v (1 + Z.of_nat k)) b) /\
  (forall j b, (j < length l)%nat -> j <> i -> owns v (faddrs v (1 + Z.of_nat j)) b -> ~ owns v a b) /\
  (forall inum, freeinode s <= inum < NINODES -> i_type (dino v inum) = 0) /\
  (forall b, 0 <= b < 32 -> v b = if b =? 1 then sb_block else replicate 512 0).
Lemma winode_finishes s l i type bytes a : let n := Z.of_nat (length bytes) in
  ready_inode s l i a -> l !! i = Some (type, bytes) -> 0 <= type < 32768 ->
  mine (mk_img s) (freeblock s) a -> Forall (fun b => 0 <= b < W32) a -> full (mk_img s) a n -> n <= MAXFILE * BSIZE ->
  (forall p, 0 <= p < n -> fbyte (mk_img s) a p = default 0 (bytes !! Z.to_nat p)) ->
  exists s', winode (1 + Z.of_nat i) (new_inode type n a) s = Ret tt s' /\ mk_inv s' l.
Proof.
  intros n (Hok & Hfi & Hle & Hfb & Hfiles & Hdis & Hdisa & Hfree & Hlow) Hi Ht Hm Hw Hf Hmax Hby. subst n.
  pose proof (lookup_lt_Some _ _ _ Hi) as Hlt. set (inum := 1 + Z.of_nat i). assert (0 <= inum < NINODES) as Hin by lia.
  destruct (winode_ok inum (new_inode type (Z.of_nat (length bytes)) a) s Hok Hin) as [E Hok2].
  pose proof Hok as (_ & Hbk & _). pose proof Hm as (Hla & _). pose proof (IBLOCK_small inum Hin) as HI.
  set (v := mk_img s) in *.
  set (v2 := <[IBLOCK inum sb := put_dinode (dino_off inum) (new_inode type (Z.of_nat (length bytes)) a) (v (IBLOCK inum sb))]> v).
  exists (Mk (mk_len s) v2 (freeinode s) (freeblock s)). split; [exact E|]. change (img_ok (Mk (mk_len s) v2 (freeinode s) (freeblock s))) in Hok2. clear E.
  assert (dino v2 inum = new_inode type (Z.of_nat (length bytes)) a) as Ei by (apply dino_new; try done; lia).
  assert (forall j, 0 <= j -> j <> inum -> dino v2 j = dino v j) as Ej by (intros j Hj Hne; apply dino_other; [lia | done | congruence | apply Hbk | done]).
  assert (forall a', mine v (freeblock s) a' -> forall b, owns v a' b -> v2 b = v b) as Hkeep.
  { intros a' Ha' b Hb. unfold v2. rewrite fn_lookup_insert_ne; [done|]. pose proof (owns_range _ _ _ _ Ha' Hb) as Hr. change nmeta with 59 in Hr. lia. }
  assert (forall j, (j < length l)%nat -> j <> i -> mine v (freeblock s) (faddrs v (1 + Z.of_nat j)) /\ faddrs v2 (1 + Z.of_nat j) = faddrs v (1 + Z.of_nat j)) as Hj.
  { intros j Hjl Hji. destruct (lookup_lt_is_Some_2 l j Hjl) as [[t b] Hjb]. split; [by apply (Hfiles j t b)|]. unfold faddrs. by rewrite Ej by lia. }
  assert (faddrs v2 inum = a) as Ea by (unfold faddrs; by rewrite Ei).
  unfold mk_inv. cbn [mk_img freeblock freeinode]. split; [done|]. do 3 (split; [done|]). split; [|split; [|split]].
  - intros j t b Hjb. destruct (decide (j = i)) as [->|Hne].
    + rewrite Hi in Hjb. injection Hjb as <- <-. unfold file_at. fold inum. rewrite Ea. split; [done|].
      pose proof (keep_baddr _ _ _ (Hkeep a Hm)) as Eb. split; [by apply (mine_ext v)|]. split; [by apply (full_ext v)|]. split; [done|].
      intros p Hp. rewrite <- Hby by done. unfold fbyte. rewrite Eb, (Hkeep a Hm); [done|].
      assert (baddr v a (p / BSIZE) <> 0) by (apply Hf; zlia). split; [done|]. right. exists (p / BSIZE). split; [zlia | done].
    + apply (keep_file v v2 (freeblock s)); [by apply Hfiles | apply Ej; lia | | lia]. apply Hkeep. apply Hj; [by eapply lookup_lt_Some | done].
  - intros j k b Hjl Hkl Hjk. destruct (decide (j = i)) as [->|Hji], (decide (k = i)) as [->|Hki]; try done.
    + destruct (Hj k Hkl Hki) as [Hmk ->]. fold inum. rewrite Ea. rewrite (keep_owns v v2 a b (Hkeep a Hm)), (keep_owns v v2 _ b (Hkeep _ Hmk)).
      intros H1 H2. by apply (Hdisa k b).
    + destruct (Hj j Hjl Hji) as [Hmj ->]. fold inum. rewrite Ea. rewrite (keep_owns v v2 a b (Hkeep a Hm)), (keep_owns v v2 _ b (Hkeep _ Hmj)). by apply Hdisa.
    + destruct (Hj j Hjl Hji) as [Hmj ->], (Hj k Hkl Hki) as [Hmk ->]. rewrite (keep_owns v v2 _ b (Hkeep _ Hmk)), (keep_owns v v2 _ b (Hkeep _ Hmj)). by apply Hdis.
  - intros j Hjr. rewrite Ej by lia. by apply Hfree.
  - intros b Hb. unfold v2. rewrite fn_lookup_insert_ne by lia. by apply Hlow.
Qed.

Lemma baddr_zero v bn : baddr v (replicate 13 0) bn = 0.
Proof.
  unfold baddr. destruct (bn <? NDIRECT); [|done]. destruct (replicate 13 0 !! Z.to_nat bn) as [y|] eqn:E; [|done].
  by apply lookup_replicate in E as [-> _].
Qed.
Lemma owns_zero v b : ~ owns v (replicate 13 0) b.
Proof. intros (Hb & [E|(bn & _ & E)]); [by apply Hb | by rewrite baddr_zero in E]. Qed.
Lemma mine_zero v fb : mine v fb (replicate 13 0) /\ full v (replicate 13 0) 0.
Proof. unfold mine, full. setoid_rewrite baddr_zero. change (a12 (replicate 13 0)) with 0.
  split; [split; [done|]; split; [by intros|]; split; [done | by intros]|]. split; [intros; lia | lia]. Qed.
Lemma total_app l l' : total (l ++ l') = total l + total l'.
Proof. induction l as [|[t b] l IH]; simpl; lia. Qed.

Lemma mk_ialloc_ok type s l : mk_inv s l -> Z.of_nat (length l) < NINODES - 1 -> 0 <= type < 32768 ->
  exists s', mk_ialloc type s = Ret (1 + Z.of_nat (length l)) s' /\ mk_inv s' (l ++ [(type, [])]).
Proof.
  intros (Hok & Hfi & Hle & Hfb & Hfiles & Hdis & Hfree & Hlow) Hlen Ht. unfold mk_ialloc. rewrite bind_gets, bind_modify.
  rewrite Hfi, (xshort_id type) by lia. change (xshort 1) with 1. change (xint 0) with 0. rewrite u32_small by lia.
  set (s1 := set_freeinode _ s). assert (img_ok s1) as Hok1 by done.
  destruct (winode_finishes s1 (l ++ [(type, [])]) (length l) type [] (replicate 13 0)) as (s2 & E & Hinv).
  - assert (forall j, (j < length (l ++ [(type, [])]))%nat -> j <> length l -> (j < length l)%nat) as Hj by (intros j; rewrite length_app; simpl; lia).
    unfold ready_inode. subst s1. cbn [mk_img freeblock freeinode set_freeinode]. split; [done|]. rewrite length_app. cbn [length].
    split; [lia|]. split; [lia|]. split; [rewrite total_app; change (total [(type, [])]) with 0; lia|].
    split; [intros j t b Hne Hb; apply Hfiles; rewrite <- Hb, lookup_app_l; [done | apply lookup_lt_Some in Hb; auto]|].
    split; [|split; [intros j b _ _ _; apply owns_zero|split; [|done]]].
    + intros j k b H1 H2 H3 H4. apply Hdis; lia.
    + intros inum Hin. apply Hfree. lia.
  - by rewrite list_lookup_middle.
  - done.
  - apply mine_zero.
  - by apply Forall_replicate.
  - apply (mine_zero _ (freeblock s1)).
  - simpl. lia.
  - simpl. lia.
  - exists s2. change (set_size 0 _) with (new_inode type (Z.of_nat (@length Z [])) (replicate 13 0)). by rewrite (bind_Ret _ _ _ _ _ E).
Qed.

Lemma mine_words v fb a : mine v fb a -> fb <= FSSIZE -> Forall (fun b => 0 <= b < W32) a.
Proof.
  intros (Hl & Hb & Ha & _) Hfb. change nmeta with 59 in *. apply Forall_lookup. intros k x Hx.
  pose proof (lookup_lt_Some _ _ _ Hx). destruct (decide (x = 0)) as [->|Hne]; [lia|].
  destruct (decide (k = 12%nat)) as [->|Hk].
  - assert (a12 a = x) as E by (unfold a12; by rewrite Hx). rewrite E in Ha. specialize (Ha Hne). lia.
  - assert (baddr v a (Z.of_nat k) = x) as E.
    { unfold baddr. rewrite (proj2 (Z.ltb_lt _ _)) by lia. by rewrite Nat2Z.id, Hx. }
    specialize (Hb (Z.of_nat k) ltac:(lia)). rewrite E in Hb. specialize (Hb Hne). lia.
Qed.
Lemma total_insert l : forall i type bytes bytes', l !! i = Some (type, bytes) ->
  total (<[i := (type, bytes')]> l) = total l + (need (Z.of_nat (length bytes')) - need (Z.of_nat (length bytes))).
Proof.
  induction l as [|[t b] l IH]; intros [|i] type bytes bytes' H; simplify_eq/=; [lia|]. rewrite (IH _ _ _ bytes' H). lia.
Qed.

(** After the loop of iappend only the inode is missing. *)
Lemma appended_ready s l i type bytes p s1 a1 : mk_inv s l -> l !! i = Some (type, bytes) ->
  appended s (faddrs (mk_img s) (1 + Z.of_nat i)) (Z.of_nat (length bytes)) p s1 a1 ->
  ready_inode s1 (<[i := (type, bytes ++ p)]> l) i a1.
Proof.
  intros (Hok & Hfi & Hle & Hfb & Hfiles & Hdis & Hfree & Hlow) Hi (Hok1 & Hfi1 & Hm1 & _ & (Hg1 & Hg2 & Hg3 & _) & _).
  pose proof (Hfiles _ _ _ Hi) as (_ & Hm & _). set (v := mk_img s) in *. set (v1 := mk_img s1) in *. set (a := faddrs v (1 + Z.of_nat i)) in *.
  pose proof (lookup_lt_Some _ _ _ Hi) as Hlt.
  assert (forall b, b < nmeta -> v1 b = v b) as Hlow1.
  { intros b Hb. pose proof Hok as (_ & _ & Hr & _). apply Hg2; [lia|]. intros Ho. pose proof (owns_range _ _ _ _ Hm Ho). lia. }
  change nmeta with 59 in Hlow1. assert (forall j, 0 <= j < NINODES -> dino v1 j = dino v j) as Ed.
  { intros j Hj. apply dino_ext, Hlow1. pose proof (IBLOCK_small j Hj). lia. }
  assert (forall j, (j < length l)%nat -> j <> i ->
    mine v (freeblock s) (faddrs v (1 + Z.of_nat j)) /\ faddrs v1 (1 + Z.of_nat j) = faddrs v (1 + Z.of_nat j) /\
    (forall b, owns v (faddrs v (1 + Z.of_nat j)) b -> v1 b = v b)) as Hj.
  { intros j Hjl Hji. destruct (lookup_lt_is_Some_2 l j Hjl) as [[t b] Hjb]. assert (mine v (freeblock s) (faddrs v (1 + Z.of_nat j))) as Hmj by (by apply (Hfiles j t b)).
    split; [done|]. split; [unfold faddrs; by rewrite Ed by lia|]. intros c Hc. apply Hg2; [apply (owns_range _ _ _ _ Hmj) in Hc; lia|]. by apply (Hdis j i). }
  pose proof (need_mono (Z.of_nat (length bytes)) (Z.of_nat (length bytes) + Z.of_nat (length p)) ltac:(lia)) as Hn.
  unfold ready_inode. rewrite length_insert, Hfi1. do 3 (split; [done|]).
  split; [rewrite (total_insert l i type bytes _ Hi), length_app, Nat2Z.inj_add; lia|]. fold v1. split; [|split; [|split; [|split]]].
  - intros j t b Hne Hjb. rewrite list_lookup_insert_ne in Hjb by done. destruct (Hj j ltac:(by eapply lookup_lt_Some) Hne) as (_ & _ & Hk).
    apply lookup_lt_Some in Hjb as Hjl. apply (keep_file v v1 (freeblock s)); [by apply Hfiles | apply Ed; lia | done | lia].
  - intros j k b Hjl Hkl Hji Hki Hjk. destruct (Hj j Hjl Hji) as (_ & -> & Hkj), (Hj k Hkl Hki) as (_ & -> & Hkk).
    rewrite (keep_owns v v1 _ b Hkj), (keep_owns v v1 _ b Hkk). by apply Hdis.
  - intros j b Hjl Hji. destruct (Hj j Hjl Hji) as (Hmj & -> & Hkj). rewrite (keep_owns v v1 _ b Hkj). intros Ho [Ho'|Hge]%Hg3.
    + by apply (Hdis j i b).
    + pose proof (owns_range _ _ _ _ Hmj Ho). lia.
  - intros inum Hin. rewrite Ed by lia. by apply Hfree.
  - intros b Hb. rewrite Hlow1 by lia. by apply Hlow.
Qed.
Lemma iappend_ok i p s l type bytes : mk_inv s l -> l !! i = Some (type, bytes) -> 0 <= type < 32768 ->
  Z.of_nat (length (bytes ++ p)) <= MAXFILE * BSIZE -> Forall (fun x => 0 <= x < 256) p ->
  freeblock s + (need (Z.of_nat (length (bytes ++ p))) - need (Z.of_nat (length bytes))) <= FSSIZE ->
  exists s', iappend (1 + Z.of_nat i) p s = Ret tt s' /\ mk_inv s' (<[i := (type, bytes ++ p)]> l).
Proof.
  intros Hinv Hi Ht Hmax Hp Hfree. pose proof Hinv as (Hok & Hfi & Hle & _ & Hfiles & _). pose proof (lookup_lt_Some _ _ _ Hi) as Hlt.
  destruct (Hfiles _ _ _ Hi) as (Ed & Hm & Hf & _ & Hby). set (inum := 1 + Z.of_nat i) in *. set (a := faddrs (mk_img s) inum) in *.
  pose proof (IBLOCK_small inum ltac:(lia)) as HI. rewrite length_app, Nat2Z.inj_add in Hmax, Hfree.
  unfold iappend, rinode. rewrite bind_assoc, (bind_Ret _ _ _ _ _ (rsect_ok (IBLOCK inum sb) s Hok ltac:(lia))). unfold bind at 1, ret at 1.
  fold (dino (mk_img s) inum). rewrite Ed. cbv zeta. cbn [i_size new_inode set_addrs set_size]. rewrite xint_id by lia.
  destruct (iappend_loop_ok (length p) p (new_inode type (Z.of_nat (length bytes)) a) (Z.of_nat (length bytes)) s) as (a1 & s1 & E1 & Happ); try done; [lia|].
  cbn [i_addrs new_inode set_addrs] in Happ. pose proof (appended_ready _ _ _ _ _ _ _ _ Hinv Hi Happ) as Hready.
  destruct Happ as (Hok1 & _ & Hm1 & Hf1 & (_ & _ & _ & Hg) & Hnew). pose proof Hok1 as (_ & _ & [_ Hfb1] & _).
  destruct (winode_finishes s1 _ i type (bytes ++ p) a1 Hready) as (s2 & E2 & Hinv2); try done.
  - by rewrite list_lookup_insert_eq.
  - by apply (mine_words _ _ _ Hm1).
  - by rewrite length_app, Nat2Z.inj_add.
  - rewrite length_app, Nat2Z.inj_add. lia.
  - rewrite length_app, Nat2Z.inj_add. intros q Hq. destruct (Z.lt_ge_cases q (Z.of_nat (length bytes))).
    + rewrite Hg, Hby by lia. by rewrite lookup_app_l by lia.
    + replace q with (Z.of_nat (length bytes) + (q - Z.of_nat (length bytes))) at 1 by lia. rewrite Hnew by lia.
      rewrite lookup_app_r by lia. f_equal. f_equal. lia.
  - exists s2. split; [|done]. rewrite (bind_Ret _ _ _ _ _ E1). rewrite xint_id by lia. rewrite length_app, Nat2Z.inj_add in E2. exact E2.
Qed.

Lemma total_nonneg l : 0 <= total l.
Proof. induction l as [|[t b] l IH]; simpl; [lia|]. pose proof (need_mono 0 (Z.of_nat (length b)) ltac:(lia)) as H. change (need 0) with 0 in H. lia. Qed.
Abbreviation bytes_ok := (Forall (fun x : Z => 0 <= x < 256)).
Lemma add_chunks_ok i cs : forall s l type bytes, mk_inv s l -> l !! i = Some (type, bytes) -> 0 <= type < 32768 ->
  Z.of_nat (length (bytes ++ concat cs)) <= MAXFILE * BSIZE -> Forall (fun c => bytes_ok c) cs ->
  nmeta + total (<[i := (type, bytes ++ concat cs)]> l) <= FSSIZE ->
  exists s', add_chunks (1 + Z.of_nat i) cs s = Ret tt s' /\ mk_inv s' (<[i := (type, bytes ++ concat cs)]> l).
Proof.
  induction cs as [|c cs IH]; intros s l type bytes Hinv Hi Ht Hmax Hcs Hfit; simpl in *.
  { exists s. rewrite app_nil_r. split; [done|]. by rewrite list_insert_id. }
  apply Forall_cons in Hcs as [Hc Hcs]. pose proof (lookup_lt_Some _ _ _ Hi) as Hlt. pose proof Hinv as (_ & _ & _ & Hfb & _).
  rewrite (total_insert _ _ _ _ _ Hi) in Hfit. rewrite app_assoc in Hmax, Hfit |- *.
  assert (Z.of_nat (length (bytes ++ c)) <= Z.of_nat (length ((bytes ++ c) ++ concat cs))) as Hle by (rewrite (length_app (bytes ++ c)); lia).
  pose proof (need_mono (Z.of_nat (length (bytes ++ c))) (Z.of_nat (length ((bytes ++ c) ++ concat cs))) ltac:(lia)).
  destruct (iappend_ok i c s l type bytes) as (s1 & E1 & Hinv1); try done; [lia..|]. rewrite (bind_Ret _ _ _ _ _ E1).
  destruct (IH s1 _ type (bytes ++ c) Hinv1) as (s2 & E2 & Hinv2); try done.
  - by rewrite list_lookup_insert_eq.
  - rewrite list_insert_insert_eq, (total_insert _ _ _ _ _ Hi). lia.
  - exists s2. rewrite list_insert_insert_eq in Hinv2. done.
Qed.

(** The entries of the files in the root directory, and the files. *)
Fixpoint dirents (inum : Z) (l : list hostfile) : list Z :=
  match l with
  | [] => []
  | f :: l => dirent inum (skip_underscore (h_name f)) ++ dirents (inum + 1) l
  end.
Definition contents_of (f : hostfile) : list Z := concat (h_chunks f).
Definition file_of (f : hostfile) : Z * list Z := (T_FILE, contents_of f).
(** A file that can be put into the image; an entry's bytes are bytes. *)
Definition hostfile_ok (f : hostfile) : Prop :=
  (SLASH ∉ h_name f) /\ bytes_ok (h_name f) /\ Forall (fun c => bytes_ok c) (h_chunks f) /\
  Z.of_nat (length (contents_of f)) <= MAXFILE * BSIZE.

Lemma length_dirent inum name : length (dirent inum name) = 16%nat.
Proof. unfold dirent. rewrite !length_app, length_take, length_replicate. cbn [length]. lia. Qed.
Lemma dirent_bytes inum name : bytes_ok name -> bytes_ok (dirent inum name).
Proof.
  intros Hn. unfold dirent. apply Forall_app. split.
  - repeat (apply Forall_cons; split; [unfold u8; zlia|]). by apply Forall_nil.
  - apply Forall_app. split; [by apply Forall_take | apply Forall_replicate; lia].
Qed.
Lemma skip_underscore_bytes name : bytes_ok name -> bytes_ok (skip_underscore name).
Proof. intros Hn. destruct name as [|c name]; [done|]. simpl. destruct (c =? UNDERSCORE); [|done]. by apply Forall_cons in Hn as [_ Hn]. Qed.
Lemma length_dirents l : forall inum, Z.of_nat (length (dirents inum l)) = 16 * Z.of_nat (length l).
Proof. induction l as [|f l IH]; intros inum; cbn [dirents length]; [done|]. rewrite length_app, Nat2Z.inj_add, IH, length_dirent. lia. Qed.

Lemma insert_last {A} (r x y : A) l : <[S (length l) := y]> (r :: l ++ [x]) = r :: l ++ [y].
Proof. change (r :: <[length l := y]> (l ++ [x]) = r :: l ++ [y]). by rewrite insert_app_r_alt, Nat.sub_diag by lia. Qed.
(** One file: its inode, its entry, its contents. *)
Lemma add_file_ok f s root fs : let inum := 2 + Z.of_nat (length fs) in let de := dirent inum (skip_underscore (h_name f)) in
  mk_inv s ((T_DIR, root) :: fs) -> hostfile_ok f -> Z.of_nat (length fs) + 1 < NINODES - 1 -> Z.of_nat (length root) + 16 <= MAXFILE * BSIZE ->
  nmeta + total ((T_DIR, root ++ de) :: fs ++ [file_of f]) <= FSSIZE ->
  exists s', (inum <- mk_ialloc T_FILE ;; iappend ROOTINO (dirent inum (skip_underscore (h_name f))) ;;; add_chunks inum (h_chunks f)) s = Ret tt s' /\
    mk_inv s' ((T_DIR, root ++ de) :: fs ++ [file_of f]).
Proof.
  intros inum de Hinv (Hsl & Hname & Hch & Hmax) Hcount Hroot Hfit.
  destruct (mk_ialloc_ok T_FILE s _ Hinv ltac:(simpl; lia) ltac:(lia)) as (s1 & E1 & Hinv1). rewrite (bind_Ret _ _ _ _ _ E1).
  replace (1 + Z.of_nat (length ((T_DIR, root) :: fs))) with inum by (unfold inum; simpl; lia). fold de.
  assert (length de = 16%nat) as Hde by apply length_dirent. pose proof Hinv1 as (_ & _ & _ & Hfb1 & _).
  pose proof (need_mono 0 (Z.of_nat (length (contents_of f))) ltac:(lia)) as Hc0. change (need 0) with 0 in Hc0.
  assert (total [file_of f] = need (Z.of_nat (length (contents_of f)))) as Ef by (cbn [total file_of]; lia).
  change (total ((T_DIR, root ++ de) :: fs ++ [file_of f])) with (need (Z.of_nat (length (root ++ de))) + total (fs ++ [file_of f])) in Hfit.
  rewrite total_app, Ef in Hfit.
  assert (freeblock s1 = nmeta + (need (Z.of_nat (length root)) + total fs)) as Hfb by (rewrite Hfb1, total_app; change (total [(T_FILE, [])]) with 0; cbn [total]; lia).
  destruct (iappend_ok 0 de s1 _ T_DIR root Hinv1 eq_refl ltac:(lia)) as (s2 & E2 & Hinv2).
  { rewrite length_app, Hde. lia. } { by apply dirent_bytes, skip_underscore_bytes. } { lia. }
  change (1 + Z.of_nat 0) with ROOTINO in E2. rewrite (bind_Ret _ _ _ _ _ E2). clear E1 E2.
  destruct (add_chunks_ok (S (length fs)) (h_chunks f) s2 ((T_DIR, root ++ de) :: fs ++ [(T_FILE, [])]) T_FILE [] Hinv2) as (s3 & E3 & Hinv3); try done.
  { simpl. by rewrite list_lookup_middle. }
  { rewrite insert_last. change (T_FILE, [] ++ concat (h_chunks f)) with (file_of f). cbn [total]. rewrite total_app, Ef. lia. }
  rewrite insert_last in Hinv3. exists s3. split; [rewrite <- E3; f_equal; unfold inum; lia | done].
Qed.
Lemma add_files_ok files : forall s root fs, mk_inv s ((T_DIR, root) :: fs) ->
  Forall hostfile_ok files -> Z.of_nat (length fs + length files) < NINODES - 1 -> Z.of_nat (length root) <= 16 * Z.of_nat (length fs + 2) ->
  nmeta + total ((T_DIR, root ++ dirents (2 + Z.of_nat (length fs)) files) :: fs ++ (file_of <$> files)) <= FSSIZE ->
  exists s', add_files ROOTINO files s = Ret tt s' /\
    mk_inv s' ((T_DIR, root ++ dirents (2 + Z.of_nat (length fs)) files) :: fs ++ (file_of <$> files)).
Proof.
  induction files as [|f files IH]; intros s root fs Hinv Hfs Hcount Hroot Hfit; cbn [add_files dirents fmap list_fmap] in *.
  { exists s. by rewrite !app_nil_r. }
  apply Forall_cons in Hfs as [Hf Hfs]. cbn [length] in Hcount. set (de := dirent (2 + Z.of_nat (length fs)) (skip_underscore (h_name f))) in *.
  assert (length de = 16%nat) as Hde by apply length_dirent. rewrite bind_check by (apply bool_decide_eq_false; apply Hf).
  rewrite app_assoc in Hfit |- *. replace (fs ++ file_of f :: (file_of <$> files)) with ((fs ++ [file_of f]) ++ (file_of <$> files)) in * by (by rewrite <- app_assoc).
  replace (2 + Z.of_nat (length fs) + 1) with (2 + Z.of_nat (length (fs ++ [file_of f]))) in * by (rewrite length_app; simpl; lia).
  pose proof (total_nonneg (file_of <$> files)). pose proof (need_mono (Z.of_nat (length (root ++ de))) (Z.of_nat (length ((root ++ de) ++ dirents (2 + Z.of_nat (length (fs ++ [file_of f]))) files)))) as Hr0.
  rewrite (length_app (root ++ de)) in Hr0. specialize (Hr0 ltac:(lia)).
  destruct (add_file_ok f s root fs Hinv Hf) as (s1 & E1 & Hinv1); [lia | lia | |].
  { cbn [total] in Hfit |- *. rewrite (total_app (fs ++ _)), (length_app (root ++ de)) in Hfit. fold de. lia. }
  destruct (IH s1 (root ++ de) (fs ++ [file_of f]) Hinv1 Hfs) as (s2 & E2 & Hinv2); [rewrite length_app; simpl; lia | rewrite !length_app, Hde; cbn [length]; lia | done |].
  exists s2. split; [|done]. rewrite <- E2. apply (bind_Ret _ (fun _ => add_files ROOTINO files)) in E1. rewrite <- E1, bind_assoc.
  unfold bind. destruct (mk_ialloc T_FILE s) as [inum s0| |]; [|done..]. by destruct (iappend ROOTINO _ s0).
Qed.

(** ** The whole program *)

Lemma zero_loop_ok k : forall i s, 0 <= i -> i + Z.of_nat k <= FSSIZE -> mk_len s = i -> (forall b, mk_img s b = replicate 512 0) ->
  exists s', zero_loop k i s = Ret tt s' /\ mk_len s' = i + Z.of_nat k /\ (forall b, mk_img s' b = replicate 512 0) /\
    freeinode s' = freeinode s /\ freeblock s' = freeblock s.
Proof.
  induction k as [|k IH]; intros i s Hi Hk Hl Hz; cbn [zero_loop].
  { exists s. split_and!; try done. lia. }
  unfold wsect at 1. rewrite bind_modify, sect_at_id by lia. destruct (IH (i + 1) (Mk (Z.max (mk_len s) (i + 1))
    (<[i := replicate 512 0]> (mk_img s)) (freeinode s) (freeblock s))) as (s' & E & H1 & H2 & H3); simpl; [lia.. | |].
  { intros b. destruct (decide (i = b)) as [->|]; [by rewrite fn_lookup_insert | by rewrite fn_lookup_insert_ne]. }
  exists s'. split; [exact E|]. split; [lia|]. done.
Qed.
Lemma get16_zero off : get16 (replicate 512 0) off = 0.
Proof.
  assert (forall i, get8 (replicate 512 0) i = 0) as H8.
  { intros i. unfold get8. destruct (replicate 512 0 !! i) as [y|] eqn:Ey; [|done]. by apply lookup_replicate in Ey as [-> _]. }
  unfold get16. by rewrite !H8.
Qed.
Lemma sb_block_ok : block_ok sb_block.
Proof. repeat apply put32_ok. apply zero_block_ok. Qed.
(** The empty image with its superblock. *)
Lemma mkfs_starts : exists s, (zero_loop (Z.to_nat FSSIZE) 0 ;;; wsect 1 sb_block) (set_freeblock nmeta mk0) = Ret tt s /\ mk_inv s [].
Proof.
  destruct (zero_loop_ok (Z.to_nat FSSIZE) 0 (set_freeblock nmeta mk0)) as (s & E & Hl & Hz & Hfi & Hfb); [lia | lia | done | done |].
  simpl in Hfi, Hfb. change (Z.of_nat (Z.to_nat FSSIZE)) with FSSIZE in Hl.
  assert (img_ok s) as Hok.
  { split; [lia|]. split; [intros b; rewrite Hz; apply zero_block_ok|]. rewrite Hfb. split; [by vm_compute|]. done. }
  exists (upd_img 1 sb_block s). split; [by rewrite (bind_Ret _ _ _ _ _ E), wsect_ok|].
  split; [apply img_ok_upd; [done | apply sb_block_ok | rewrite Hfb; by vm_compute]|]. simpl. rewrite Hfi, Hfb.
  split; [done|]. split; [lia|]. split; [done|]. split; [done|]. split; [lia|]. split.
  - intros inum Hin. unfold dino. pose proof (IBLOCK_small inum ltac:(lia)). simpl. rewrite fn_lookup_insert_ne, Hz by lia. apply get16_zero.
  - intros b Hb. destruct (Z.eqb_spec b 1) as [->|]; [by rewrite fn_lookup_insert | by rewrite fn_lookup_insert_ne].
Qed.

(** *** The bitmap *)
Lemma mark_loop_ok k : forall i d, block_ok d -> 0 <= i -> i + Z.of_nat k <= 4096 ->
  block_ok (mark_loop k i d) /\
  forall bj, 0 <= bj < 4096 -> bit_free (mark_loop k i d) bj = if (i <=? bj) && (bj <? i + Z.of_nat k) then false else bit_free d bj.
Proof.
  induction k as [|k IH]; intros i d Hd Hi Hk; cbn [mark_loop].
  { split; [done|]. intros bj Hb. by replace ((i <=? bj) && (bj <? i + Z.of_nat 0)) with false by (destruct (Z.leb_spec i bj), (Z.ltb_spec bj (i + Z.of_nat 0)); simpl; lia). }
  destruct (IH (i + 1) (mark_bit i d)) as [H1 H2]; [by apply mark_bit_ok | lia | lia |]. split; [done|]. intros bj Hb.
  rewrite H2, bit_free_mark by (done || lia). destruct (decide (bj = i)) as [->|]; zcases; done.
Qed.
Lemma bit_free_zero bj : bit_free (replicate 512 0) bj = true.
Proof.
  unfold bit_free, get8. destruct (replicate 512 0 !! bit_byte bj) as [y|] eqn:E; [|done]. by apply lookup_replicate in E as [-> _].
Qed.
Definition bitmap (n : Z) : block := mark_loop (Z.to_nat n) 0 (replicate 512 0).
Lemma used_bitmap v n b : v 58 = bitmap n -> 0 <= n <= FSSIZE -> 0 <= b < FSSIZE -> used v sb b = (b <? n).
Proof.
  intros Hv Hn Hb. unfold used, BBLOCK. change (sb_bmapstart sb) with 58. replace (b / BPB + 58) with 58 by zlia.
  rewrite Hv. unfold bitmap. destruct (mark_loop_ok (Z.to_nat n) 0 (replicate 512 0) zero_block_ok) as [_ H]; [lia | lia |]. rewrite H by zlia.
  rewrite bit_free_zero. replace (b mod BPB) with b by zlia. zcases; done.
Qed.
Lemma sb_layout : layout sb.
Proof. unfold layout, datastart. split_and!; by vm_compute. Qed.

(** *** What the kernel finds *)

(** Inode [inum] is a file of this type and size, its blocks are marked and its own,
    and it starts with these bytes. *)
Definition image_file (v : Z -> block) (inum type size : Z) (bytes : list Z) : Prop :=
  let x := dino v inum in
  i_type x = type /\ i_nlink x = 1 /\ i_size x = size /\ tree_ok v sb (i_addrs x) /\
  fbytes v (i_addrs x) 0 (Z.of_nat (length bytes)) = bytes.
Lemma mine_tree v n a : v 58 = bitmap n -> nmeta <= n <= FSSIZE -> mine v n a -> tree_ok v sb a.
Proof.
  intros Hv Hn (Hl & Hb & Ha & Hinj). change nmeta with 59 in *.
  assert (forall b, 59 <= b < n -> is_data sb b /\ used v sb b = true) as Hd.
  { intros b Hr. split; [change (59 <= b < 1000); lia|]. rewrite (used_bitmap v n) by (done || lia). apply Z.ltb_lt. lia. }
  split; [done|]. split; [|split; [|done]].
  - intros bn Hbn Hne. apply Hd. by apply Hb.
  - intros Hne. destruct (Hd _ (Ha Hne)) as [H1 H2]. do 2 (split; [done|]). intros bn Hbn E. destruct (Hb bn Hbn ltac:(congruence)). done.
Qed.
Lemma fbytes_eq v a bytes : (forall i, 0 <= i < Z.of_nat (length bytes) -> fbyte v a i = default 0 (bytes !! Z.to_nat i)) ->
  fbytes v a 0 (Z.of_nat (length bytes)) = bytes.
Proof.
  intros H. apply list_eq_same_length with (length bytes); [done | by rewrite length_fbytes, Nat2Z.id |].
  intros i x y Hi. rewrite <- (Nat2Z.id i) at 1. rewrite fbytes_lookup by lia. intros [= <-] Hy.
  rewrite Z.add_0_l, H by lia. by rewrite Nat2Z.id, Hy.
Qed.
Lemma file_image v n inum type bytes : v 58 = bitmap n -> nmeta <= n <= FSSIZE -> file_at v n inum type bytes ->
  image_file v inum type (Z.of_nat (length bytes)) bytes.
Proof.
  intros Hv Hn (E & Hm & Hf & Hmax & Hb). unfold image_file. fold (faddrs v inum). rewrite E.
  do 3 (split; [done|]). split; [by eapply mine_tree | by apply fbytes_eq].
Qed.
Lemma file_dense v n inum type bytes : file_at v n inum type bytes -> type <> T_DEV -> file_ok v (dino v inum).
Proof.
  intros (E & Hm & Hf & Hmax & Hb) Ht. unfold file_ok. fold (faddrs v inum). rewrite E. split; [done|]. split; [simpl; lia|].
  intros bn H1 H2 H3. simpl in *. apply Hf; zlia.
Qed.

(** The size of the root directory, and the bitmap. *)
Lemma mkfs_ends s root fs : mk_inv s ((T_DIR, root) :: fs) -> let size := (Z.of_nat (length root) / BSIZE + 1) * BSIZE in
  exists s', (din <- rinode ROOTINO ;;
    let off := xint (i_size din) in
    let off := (off / BSIZE + 1) * BSIZE in
    winode ROOTINO (set_size (xint off) din) ;;;
    used <- gets freeblock ;;
    mk_balloc used) s = Ret tt s' /\ mk_len s' = FSSIZE /\
  let v := mk_img s in let v' := mk_img s' in
  v' 58 = bitmap (freeblock s) /\ dino v' ROOTINO = new_inode T_DIR size (faddrs v ROOTINO) /\
  (forall b, nmeta <= b -> v' b = v b) /\ (forall b, 0 <= b < 32 -> v' b = v b) /\ (forall inum, 2 <= inum < NINODES -> dino v' inum = dino v inum).
Proof.
  intros (Hok & Hfi & Hle & Hfb & Hfiles & _) size. destruct (Hfiles 0%nat T_DIR root eq_refl) as (Ed & Hm & _ & Hmax & _).
  change (1 + Z.of_nat 0) with ROOTINO in *. set (a := faddrs (mk_img s) ROOTINO) in *. change (IBLOCK ROOTINO sb) with 32 in *.
  pose proof Hok as (_ & Hbk & Hr & _). unfold rinode. rewrite bind_assoc. change (IBLOCK ROOTINO sb) with 32. rewrite (bind_Ret _ _ _ _ _ (rsect_ok 32 s Hok ltac:(lia))).
  unfold bind at 1, ret at 1. change (get_dinode (dino_off ROOTINO) (mk_img s 32) no_inode) with (dino (mk_img s) ROOTINO). rewrite Ed.
  cbv zeta. cbn [i_size new_inode set_addrs set_size]. rewrite (xint_id (Z.of_nat (length root))), xint_id by zlia. fold size.
  change (set_size size _) with (new_inode T_DIR size a). destruct (winode_ok ROOTINO (new_inode T_DIR size a) s Hok ltac:(lia)) as [E1 Hok1].
  rewrite (bind_Ret _ _ _ _ _ E1), bind_gets. change nmeta with 59 in Hr. unfold mk_balloc.
  rewrite bind_check by (apply Z.leb_gt; simpl; lia). change (sb_bmapstart sb) with 58. rewrite (wsect_ok 58 _ _ Hok1) by lia.
  eexists. split; [done|]. split; [apply Hok|]. cbn [mk_img upd_img freeblock]. change (IBLOCK ROOTINO sb) with 32.
  split; [by rewrite fn_lookup_insert|]. split; [|split; [|split]].
  - rewrite (dino_ext (<[32 := _]> (mk_img s))) by (by rewrite fn_lookup_insert_ne). apply (dino_new (mk_img s) ROOTINO); [apply Hbk | lia | unfold size; zlia | apply Hm |].
    eapply mine_words; [done | lia].
  - intros b Hb. change nmeta with 59 in Hb. by rewrite !fn_lookup_insert_ne by lia.
  - intros b Hb. by rewrite !fn_lookup_insert_ne by lia.
  - intros inum Hin. pose proof (IBLOCK_small inum ltac:(lia)) as HI. rewrite (dino_ext (<[32 := put_dinode (dino_off ROOTINO) (new_inode T_DIR size a) (mk_img s 32)]> (mk_img s))).
    + apply (dino_other (mk_img s) ROOTINO inum); [lia | lia | lia | apply Hbk | apply Hm].
    + by rewrite fn_lookup_insert_ne by lia.
Qed.

Definition root_of (files : list hostfile) : list Z := dirent ROOTINO [46] ++ dirent ROOTINO [46; 46] ++ dirents 2 files.
Definition blocks_used (files : list hostfile) : Z := nmeta + total ((T_DIR, root_of files) :: (file_of <$> files)).
(** A disk with the files in its root directory, as the kernel reads it: the
    superblock, an empty log, the marks of exactly the first [blocks_used] blocks, the
    inodes with their contents, no block in two files, and the other inodes free. *)
Definition image_ok (v : Z -> block) (files : list hostfile) : Prop :=
  layout sb /\
  Superblock (get32 (v 1) 0) (get32 (v 1) 4) (get32 (v 1) 8) (get32 (v 1) 12) (get32 (v 1) 16) (get32 (v 1) 20) (get32 (v 1) 24) = sb /\
  get32 (v (sb_logstart sb)) 0 = 0 /\
  (forall b, 0 <= b < FSSIZE -> used v sb b = (b <? blocks_used files)) /\ meta_used v sb /\
  (let n := Z.of_nat (length (root_of files)) in
   image_file v ROOTINO T_DIR ((n / BSIZE + 1) * BSIZE) (root_of files) /\ (file_ok v (dino v ROOTINO) <-> n mod BSIZE <> 0)) /\
  (forall i f, files !! i = Some f ->
     image_file v (2 + Z.of_nat i) T_FILE (Z.of_nat (length (contents_of f))) (contents_of f) /\ file_ok v (dino v (2 + Z.of_nat i))) /\
  (forall i j b, 1 <= i <= 1 + Z.of_nat (length files) -> 1 <= j <= 1 + Z.of_nat (length files) -> i <> j ->
     owns v (faddrs v i) b -> ~ owns v (faddrs v j) b) /\
  (forall inum, 2 + Z.of_nat (length files) <= inum < NINODES -> i_type (dino v inum) = 0).

Lemma length_root files : Z.of_nat (length (root_of files)) = 32 + 16 * Z.of_nat (length files).
Proof. unfold root_of. rewrite !length_app, !Nat2Z.inj_add, length_dirents, !length_dirent. lia. Qed.
(** The calls of main up to the last file. *)
Lemma mkfs_builds files : Forall hostfile_ok files -> Z.of_nat (length files) < NINODES - 1 -> blocks_used files <= FSSIZE ->
  exists s, (forall k, mkfs files mk0 = k -> (din <- rinode ROOTINO ;;
    let off := xint (i_size din) in
    let off := (off / BSIZE + 1) * BSIZE in
    winode ROOTINO (set_size (xint off) din) ;;;
    used <- gets freeblock ;;
    mk_balloc used) s = k) /\ mk_inv s ((T_DIR, root_of files) :: (file_of <$> files)).
Proof.
  intros Hf Hn Hfit. destruct mkfs_starts as (s0 & E0 & Hinv0). unfold blocks_used in Hfit. cbn [total] in Hfit.
  pose proof (total_nonneg (file_of <$> files)) as Ht. pose proof (length_root files) as Hlr.
  destruct (mk_ialloc_ok T_DIR s0 [] Hinv0 ltac:(simpl; lia) ltac:(lia)) as (s1 & E1 & Hinv1). simpl app in Hinv1.
  assert (forall n, 0 <= n <= 32 -> freeblock s1 + need n <= FSSIZE) as Hcap.
  { intros n Hr. pose proof Hinv1 as (_ & _ & _ & -> & _). pose proof (need_mono n (Z.of_nat (length (root_of files))) ltac:(lia)).
    change (total [(T_DIR, [])]) with 0. lia. }
  destruct (iappend_ok 0 (dirent ROOTINO [46]) s1 _ T_DIR [] Hinv1 eq_refl ltac:(lia)) as (s2 & E2 & Hinv2).
  { rewrite app_nil_l, length_dirent. lia. } { apply dirent_bytes. by apply Forall_singleton. }
  { rewrite app_nil_l, length_dirent. change (need (Z.of_nat (length []))) with 0. rewrite Z.sub_0_r. apply Hcap. lia. }
  rewrite app_nil_l in Hinv2. destruct (iappend_ok 0 (dirent ROOTINO [46; 46]) s2 _ T_DIR (dirent ROOTINO [46]) Hinv2 eq_refl ltac:(lia)) as (s3 & E3 & Hinv3).
  { rewrite length_app, !length_dirent. lia. } { apply dirent_bytes. by repeat (apply Forall_cons; split; [lia|]). }
  { rewrite length_app, !length_dirent. pose proof Hinv2 as (_ & _ & _ & -> & _). pose proof Hinv1 as (_ & _ & _ & E & _).
    specialize (Hcap 32 ltac:(lia)). rewrite E in Hcap. change (total [(T_DIR, [])]) with 0 in Hcap. by vm_compute. }
  destruct (add_files_ok files s3 (dirent ROOTINO [46] ++ dirent ROOTINO [46; 46]) [] Hinv3 Hf) as (s4 & E4 & Hinv4).
  { simpl. lia. } { rewrite length_app, !length_dirent. simpl. lia. } { cbn [total app]. rewrite <- app_assoc. exact Hfit. }
  exists s4. split; [|by rewrite <- app_assoc in Hinv4]. intros k <-. unfold mkfs. rewrite bind_modify.
  rewrite <- (bind_assoc (zero_loop (Z.to_nat FSSIZE) 0) (fun _ => wsect 1 sb_block)), (bind_Ret _ _ _ _ _ E0), (bind_Ret _ _ _ _ _ E1).
  rewrite bind_check by done. change (1 + Z.of_nat (@length (Z * list Z) [])) with ROOTINO.
  by rewrite (bind_Ret _ _ _ _ _ E2), (bind_Ret _ _ _ _ _ E3), (bind_Ret _ _ _ _ _ E4).
Qed.

Section image.
Context (s : mkst) (files : list hostfile) (v' : Z -> block).
Context (Hinv : mk_inv s ((T_DIR, root_of files) :: (file_of <$> files))).
Abbreviation v := (mk_img s).
Abbreviation nroot := (Z.of_nat (length (root_of files))).
Context (Hbm : v' 58 = bitmap (freeblock s)) (Hroot : dino v' ROOTINO = new_inode T_DIR ((nroot / BSIZE + 1) * BSIZE) (faddrs v ROOTINO)).
Context (Hhigh : forall b, nmeta <= b -> v' b = v b) (Hlow : forall b, 0 <= b < 32 -> v' b = v b).
Context (Hino : forall inum, 2 <= inum < NINODES -> dino v' inum = dino v inum) (Hn : Z.of_nat (length files) < NINODES - 1).

Lemma image_blocks : nmeta <= blocks_used files <= FSSIZE /\ freeblock s = blocks_used files.
Proof using Hinv. destruct Hinv as ((_ & _ & Hr & _) & _ & _ & E & _). unfold blocks_used. by rewrite <- E. Qed.
Lemma image_faddrs inum : 1 <= inum < NINODES -> faddrs v' inum = faddrs v inum.
Proof using Hroot Hino.
  intros Hin. unfold faddrs. destruct (decide (inum = 1)) as [->|]; [by rewrite Hroot | by rewrite Hino by lia].
Qed.
Lemma image_mine inum : 1 <= inum <= 1 + Z.of_nat (length files) ->
  mine v (freeblock s) (faddrs v inum) /\ forall b, owns v (faddrs v inum) b -> v' b = v b.
Proof using Hinv Hhigh.
  intros Hin. destruct Hinv as (_ & _ & _ & _ & Hfiles & _).
  destruct (lookup_lt_is_Some_2 ((T_DIR, root_of files) :: (file_of <$> files)) (Z.to_nat (inum - 1))) as [[t b] Hb].
  { simpl. rewrite length_fmap. lia. }
  destruct (Hfiles _ _ _ Hb) as (_ & Hm & _). replace (1 + Z.of_nat (Z.to_nat (inum - 1))) with inum in Hm by lia. split; [done|].
  intros c Hc. apply Hhigh. by eapply owns_range.
Qed.
Lemma image_root : image_file v' ROOTINO T_DIR ((nroot / BSIZE + 1) * BSIZE) (root_of files) /\ (file_ok v' (dino v' ROOTINO) <-> nroot mod BSIZE <> 0).
Proof using Hinv Hbm Hroot Hhigh Hn.
  pose proof (length_root files) as Hlr. destruct image_blocks as [Hr Hfb]. destruct (image_mine ROOTINO ltac:(lia)) as [Hm Hk]. rewrite Hfb in *.
  pose proof Hinv as (_ & _ & _ & _ & Hfiles & _). destruct (Hfiles 0%nat _ _ eq_refl) as (_ & _ & Hf & _ & Hb). change (1 + Z.of_nat 0) with ROOTINO in *.
  pose proof (keep_baddr _ _ _ Hk) as Eb. unfold image_file, file_ok. rewrite Hroot. cbv zeta. cbn [i_type i_nlink i_size i_addrs new_inode set_addrs set_size set_nlink set_type].
  split; [do 3 (split; [done|]); split|].
  - apply (mine_tree v' (blocks_used files)); [done | done |]. by apply (mine_ext v).
  - apply fbytes_eq. intros i Hi. rewrite <- Hb by done. unfold fbyte. rewrite Eb, Hk; [done|].
    assert (baddr v (faddrs v ROOTINO) (i / BSIZE) <> 0) by (apply Hf; zlia). split; [done|]. right. exists (i / BSIZE). split; [zlia | done].
  - unfold dense. setoid_rewrite Eb. split.
    + intros (_ & _ & Hd) Hz. specialize (Hd (nroot / BSIZE) ltac:(zlia) ltac:(zlia) ltac:(zlia)). apply Hf in Hd; zlia.
    + intros Hz. split; [done|]. split; [zlia|]. intros bn H1 H2 H3. apply Hf; zlia.
Qed.
Lemma image_files i f : files !! i = Some f ->
  image_file v' (2 + Z.of_nat i) T_FILE (Z.of_nat (length (contents_of f))) (contents_of f) /\ file_ok v' (dino v' (2 + Z.of_nat i)).
Proof using Hinv Hbm Hhigh Hino Hn.
  intros Hi. pose proof (lookup_lt_Some _ _ _ Hi) as Hlt. destruct image_blocks as [Hr Hfb].
  pose proof Hinv as (_ & _ & _ & _ & Hfiles & _). specialize (Hfiles (S i) T_FILE (contents_of f)). simpl in Hfiles. rewrite list_lookup_fmap, Hi in Hfiles.
  specialize (Hfiles eq_refl). replace (1 + Z.of_nat (S i)) with (2 + Z.of_nat i) in Hfiles by lia.
  assert (file_at v' (blocks_used files) (2 + Z.of_nat i) T_FILE (contents_of f)) as H.
  { rewrite <- Hfb. apply (keep_file v v' (freeblock s)); [done | apply Hino; lia | apply image_mine; lia | lia]. }
  rewrite Hfb in Hbm. split; [by eapply file_image | by eapply file_dense].
Qed.
Lemma image_holds : image_ok v' files.
Proof using All.
  destruct image_blocks as [Hr Hfb]. pose proof Hinv as (_ & Hfi & _ & _ & _ & Hdis & Hfree & Hlow0). pose proof Hbm as Hbm'. rewrite Hfb in Hbm'.
  split; [apply sb_layout|]. rewrite !(Hlow 1) by lia. rewrite (Hlow0 1) by lia. split; [by vm_compute|].
  split; [change (sb_logstart sb) with 2; rewrite Hlow, Hlow0 by lia; by vm_compute|].
  assert (forall b, 0 <= b < FSSIZE -> used v' sb b = (b <? blocks_used files)) as Hu by (intros b Hb; apply used_bitmap; [done | change nmeta with 59 in Hr; lia | done]).
  split; [done|]. split.
  { intros b Hb. change (datastart sb) with 59 in Hb. change nmeta with 59 in Hr. rewrite Hu by lia. apply Z.ltb_lt. lia. }
  split; [apply image_root|]. split; [apply image_files|]. split.
  - intros i j b Hi Hj Hne. rewrite !image_faddrs by lia. destruct (image_mine i Hi) as [_ Hki], (image_mine j Hj) as [_ Hkj].
    rewrite (keep_owns _ _ _ b Hki), (keep_owns _ _ _ b Hkj). replace i with (1 + Z.of_nat (Z.to_nat (i - 1))) by lia. replace j with (1 + Z.of_nat (Z.to_nat (j - 1))) by lia.
    apply Hdis; simpl; rewrite ?length_fmap; lia.
  - intros inum Hin. rewrite Hino by lia. apply Hfree. rewrite Hfi. simpl. rewrite length_fmap. lia.
Qed.
End image.

(** C31: mkfs makes a file system.  For every list of files that fit, mkfs ends without a
    failed assertion and leaves an image in which the kernel finds the superblock of the
    layout that its code assumes, an empty log, a bitmap that marks exactly the blocks in
    use, each file as an inode with its bytes in blocks of its own, and the root
    directory with the entries.  The size of the root directory is rounded up to a block
    behind its entries: that block exists only when the entries do not end with a block. *)
Theorem mkfs_makes_file_system files :
  Forall hostfile_ok files -> Z.of_nat (length files) < NINODES - 1 -> blocks_used files <= FSSIZE ->
  exists s, mkfs files mk0 = Ret tt s /\ mk_len s = FSSIZE /\ image_ok (mk_img s) files.
Proof.
  intros Hf Hn Hfit. destruct (mkfs_builds files Hf Hn Hfit) as (s & Es & Hinv).
  destruct (mkfs_ends s _ _ Hinv) as (s' & E & Hlen & Hbm & Hroot & Hhigh & Hlow & Hino).
  exists s'. rewrite (Es _ eq_refl) in E. split; [done|]. split; [done|].
  by apply (image_holds s).
Qed.
(** A file _a with three bytes, read in two pieces. *)
Definition file0 : hostfile := Hostfile [95; 97] [[104; 105]; [10]].
Lemma mkfs_makes_file_system_witness : exists s, mkfs [file0] mk0 = Ret tt s /\ mk_len s = FSSIZE /\ image_ok (mk_img s) [file0].
Proof.
  apply (mkfs_makes_file_system [file0]); [|simpl; lia | by vm_compute].
  apply Forall_singleton. split; [by apply (bool_decide_unpack _)|]. split; [by apply (bool_decide_unpack _)|].
  split; [by apply (bool_decide_unpack _) | by vm_compute].
Defined.
