(* ===== verification/Umalloc.v ===== *)
(** * The allocator of user programs (umalloc.c)

    Blocks of memory have a header of eight bytes with a pointer and a size in units
    of eight bytes.  Free blocks are on a circular list in the order of their
    addresses, which starts at [base]; freep points to some block of it.  Headers
    are kept as two functions of their address: what a program stores in its own
    blocks does not change them.

    sbrk is the system call: it gives memory at the break of the process or fails.
    Which calls fail is a parameter. *)

From stdpp Require Import functions.
From S2P Require Import Prelude.
#[local] Open Scope Z_scope.

Abbreviation HDR := 8.
Abbreviation KERNBASE := 2147483648.

Record ust := USt {
  u_ptr : Z -> Z;
  u_size : Z -> Z;
  u_freep : Z;
  u_brk : Z;
}.
Definition set_ptr (a x : Z) (s : ust) : ust := USt (<[a := x]> (u_ptr s)) (u_size s) (u_freep s) (u_brk s).
Definition set_usize (a x : Z) (s : ust) : ust := USt (u_ptr s) (<[a := x]> (u_size s)) (u_freep s) (u_brk s).
Definition set_freep (p : Z) (s : ust) : ust := USt (u_ptr s) (u_size s) p (u_brk s).
Definition set_brk (b : Z) (s : ust) : ust := USt (u_ptr s) (u_size s) (u_freep s) b.
(** [p + n] on pointers to headers. *)
Definition padd (p n : Z) : Z := u32 (p + HDR * n).

Section umalloc.
(** The address of [base], and when sbrk gives memory. *)
Context (base : Z) (grants : Z -> Z -> bool).

Definition sbrk (n : Z) : M ust Z :=
  b <- gets u_brk ;;
  if grants b n then modify (set_brk (b + n)) ;;; ret b else ret (-1).

(** There are fewer headers than this below the break. *)
Definition headers (s : ust) : nat := Z.to_nat (u_brk s / HDR + 2).

(** The loop of free: the block after which [bp] belongs. *)
Fixpoint find_pred (k : nat) (bp p : Z) : M ust Z :=
  match k with
  | O => diverge
  | S k =>
      q <- gets (fun s => u_ptr s p) ;;
      if (p <? bp) && (bp <? q) then ret p
      else if (q <=? p) && ((p <? bp) || (bp <? q)) then ret p
      else find_pred k bp q
  end.
(** Joins the block [bp] with the one after it, or links it to that one. *)
Definition join_next (bp p : Z) : M ust unit :=
  s <- get ;;
  let q := u_ptr s p in
  if padd bp (u_size s bp) =? q then
    modify (set_usize bp (u32 (u_size s bp + u_size s q))) ;;;
    modify (fun s => set_ptr bp (u_ptr s (u_ptr s p)) s)
  else modify (set_ptr bp q).
(** The same with the block [p] before it. *)
Definition join_prev (bp p : Z) : M ust unit :=
  s <- get ;;
  if padd p (u_size s p) =? bp then
    modify (set_usize p (u32 (u_size s p + u_size s bp))) ;;;
    modify (fun s => set_ptr p (u_ptr s bp) s)
  else modify (set_ptr p bp).
Definition free_block (bp : Z) : M ust unit :=
  s <- get ;;
  p <- find_pred (headers s) bp (u_freep s) ;;
  join_next bp p ;;;
  join_prev bp p ;;;
  modify (set_freep p).
Definition free (ap : Z) : M ust unit := free_block (padd ap (-1)).

(** Zero when there is no memory. *)
Definition morecore (nu : Z) : M ust Z :=
  let nu := if nu <? 4096 then 4096 else nu in
  p <- sbrk (s32 (nu * HDR)) ;;
  if p =? -1 then ret 0
  else
    modify (set_usize p nu) ;;;
    free (padd p 1) ;;;
    gets u_freep.

(** The loop of malloc, at [p] after [prevp]. *)
Fixpoint malloc_loop (k : nat) (nunits prevp p : Z) : M ust Z :=
  match k with
  | O => diverge
  | S k =>
      s <- get ;;
      if nunits <=? u_size s p then
        r <- (if u_size s p =? nunits then modify (set_ptr prevp (u_ptr s p)) ;;; ret p
              else
                modify (set_usize p (u32 (u_size s p - nunits))) ;;;
                s <- get ;;
                let p := padd p (u_size s p) in
                modify (set_usize p nunits) ;;; ret p) ;;
        modify (set_freep prevp) ;;;
        ret (padd r 1)
      else
        let next p := q <- gets (fun s => u_ptr s p) ;; malloc_loop k nunits p q in
        if p =? u_freep s then p <- morecore nunits ;; if p =? 0 then ret 0 else next p
        else next p
  end.
Definition malloc (nbytes : Z) : M ust Z :=
  let nunits := u32 (u32 (nbytes + HDR - 1) / HDR + 1) in
  s <- get ;;
  (if u_freep s =? 0 then
     modify (set_freep base) ;;; modify (set_ptr base base) ;;; modify (set_usize base 0)
   else ret tt) ;;;
  s <- get ;;
  malloc_loop (2 * headers s + 2) nunits (u_freep s) (u_ptr s (u_freep s)).

(** Calls of a program: to malloc, and to free with a block that it has.  The blocks
    are kept with their sizes, and the calls that got no memory with the break. *)
Inductive ucall :=
| Alloc (nbytes : Z)
| Release (i : nat).
Fixpoint uruns (l : list ucall) (live refused : list (Z * Z)) : M ust (list (Z * Z) * list (Z * Z)) :=
  match l with
  | [] => ret (live, refused)
  | Alloc n :: l =>
      b <- gets u_brk ;;
      p <- malloc n ;;
      if p =? 0 then uruns l live ((b, n) :: refused) else uruns l ((p, n) :: live) refused
  | Release i :: l =>
      match live !! i with
      | Some (p, _) => free p ;;; uruns l (delete i live) refused
      | None => uruns l live refused
      end
  end.
Definition asks (o : ucall) : Prop := match o with Alloc n => 0 <= n <= 2147483632 | Release _ => True end.

(** ** The free list *)

(** From [p] the pointers [f] go through the blocks [l] to [q]. *)
Fixpoint seg (f : Z -> Z) (p : Z) (l : list (Z * Z)) (q : Z) : Prop :=
  match l with
  | [] => f p = q
  | (a, _) :: l => f p = a /\ seg f a l q
  end.
(** The last block of [p] and [l]. *)
Fixpoint end_of (p : Z) (l : list (Z * Z)) : Z := match l with [] => p | (a, _) :: l => end_of a l end.
(** The blocks are in order, between the two addresses, and do not touch. *)
Fixpoint sorted (lo : Z) (l : list (Z * Z)) (hi : Z) : Prop :=
  match l with
  | [] => True
  | (a, n) :: l => lo < a /\ 0 < n /\ a + HDR * n <= hi /\ sorted (a + HDR * n) l hi
  end.

Lemma seg_app f l1 a n l2 : forall p q, seg f p (l1 ++ (a, n) :: l2) q <-> seg f p l1 a /\ seg f a l2 q.
Proof. induction l1 as [|[b m] l1 IH]; intros p q; simpl; [tauto|]. rewrite IH. tauto. Qed.
Lemma end_of_app l1 a n l2 : forall p, end_of p (l1 ++ (a, n) :: l2) = end_of a l2.
Proof. induction l1 as [|[b m] l1 IH]; intros p; simpl; [done | apply IH]. Qed.
Lemma end_of_in l : forall p, end_of p l = p \/ end_of p l ∈ l.*1.
Proof. induction l as [|[a n] l IH]; intros p; simpl; [by left|]. right. destruct (IH a) as [->|H]; [left | by right]. Qed.
Lemma seg_insert f c x l : forall p q, c <> p -> (c ∉ l.*1) -> seg (<[c := x]> f) p l q <-> seg f p l q.
Proof.
  induction l as [|[a n] l IH]; intros p q Hp Hl; simpl; [by rewrite fn_lookup_insert_ne|].
  rewrite fmap_cons, not_elem_of_cons in Hl. rewrite fn_lookup_insert_ne, IH by tauto. tauto.
Qed.
(** A new pointer at the end of a segment. *)
Lemma seg_end f x l : forall p q, (p ∉ l.*1) -> NoDup (l.*1) -> seg f p l q -> seg (<[end_of p l := x]> f) p l x.
Proof.
  induction l as [|[a n] l IH]; intros p q Hp Hnd; simpl; [by rewrite fn_lookup_insert|]. intros [Hf Hs].
  rewrite fmap_cons in Hp, Hnd. apply NoDup_cons in Hnd as [Ha Hnd]. split; [|by eapply IH].
  rewrite fn_lookup_insert_ne; [done|]. intros E. apply Hp. rewrite elem_of_cons, <- E. destruct (end_of_in l a) as [->|H]; [by left | by right].
Qed.

Lemma sorted_lo l : forall lo lo' hi, lo' <= lo -> sorted lo l hi -> sorted lo' l hi.
Proof. destruct l as [|[a n] l]; intros lo lo' hi H; simpl; [done|]. intuition lia. Qed.
Lemma sorted_hi l : forall lo hi hi', hi <= hi' -> sorted lo l hi -> sorted lo l hi'.
Proof. induction l as [|[a n] l IH]; intros lo hi hi' H; simpl; [done|]. intros (? & ? & ? & ?). split_and!; try done; [lia | by eapply IH]. Qed.
Lemma sorted_in l : forall lo hi a n, sorted lo l hi -> (a, n) ∈ l -> lo < a /\ 0 < n /\ a + HDR * n <= hi.
Proof.
  induction l as [|[b m] l IH]; intros lo hi a n Hs Hin; [by apply elem_of_nil in Hin|]. destruct Hs as (? & ? & ? & Hs).
  apply elem_of_cons in Hin as [[= -> ->]|Hin]; [done|]. destruct (IH _ _ _ _ Hs Hin). lia.
Qed.
Lemma sorted_app l1 a n l2 : forall lo hi, sorted lo (l1 ++ (a, n) :: l2) hi <->
  sorted lo l1 (a - 1) /\ lo < a /\ 0 < n /\ a + HDR * n <= hi /\ sorted (a + HDR * n) l2 hi.
Proof.
  induction l1 as [|[b m] l1 IH]; intros lo hi; simpl; [tauto|]. rewrite IH. intuition lia.
Qed.
Lemma sorted_nodup l : forall lo hi, sorted lo l hi -> NoDup (l.*1) /\ forall a, a ∈ l.*1 -> lo < a.
Proof.
  induction l as [|[b m] l IH]; intros lo hi Hs; simpl; [split; [constructor | by intros ? ?%elem_of_nil]|].
  destruct Hs as (H1 & H2 & H3 & Hs). destruct (IH _ _ Hs) as [Hnd Hlo]. split.
  - apply NoDup_cons. split; [|done]. intros Hin. apply Hlo in Hin. lia.
  - intros a [->|Hin]%elem_of_cons; [done|]. apply Hlo in Hin. lia.
Qed.

(** ** Where a block belongs *)

Definition apart (x y : Z * Z) : Prop := x.1 + HDR * x.2 <= y.1 \/ y.1 + HDR * y.2 <= x.1.
Lemma split_at b n l : forall lo hi, 0 < n -> sorted lo l hi -> (forall y, y ∈ l -> apart (b, n) y) ->
  exists l1 l2, l = l1 ++ l2 /\ sorted lo l1 b /\ sorted (b + HDR * n - 1) l2 hi.
Proof.
  induction l as [|[a m] l IH]; intros lo hi Hn Hs Hap; [by exists [], []|]. destruct Hs as (H1 & H2 & H3 & Hs).
  destruct (Hap (a, m)) as [H|H]; [by left | |]; simpl in H.
  - exists [], ((a, m) :: l). simpl. split_and!; try done; lia.
  - destruct (IH (a + HDR * m) hi Hn) as (l1 & l2 & -> & Hs1 & Hs2); [done | intros; apply Hap; by right |].
    exists ((a, m) :: l1), l2. simpl. split_and!; try done; lia.
Qed.

(** Walking from below [b] to the last block before it. *)
Lemma walk_low b l : forall k p q s, seg (u_ptr s) p l q -> p < b -> sorted p l b -> (b < q \/ q = base) -> base <= p -> base < b ->
  (length l < k)%nat -> find_pred k b p s = Ret (end_of p l) s.
Proof.
  induction l as [|[a m] l IH]; intros [|k] p q s Hs Hp Ho Hq Hb Hb' Hk; simpl in Hk; try lia; cbn [find_pred seg end_of] in *; rewrite bind_gets.
  - rewrite Hs. destruct Hq as [Hq|Hq]; zcases; done.
  - destruct Hs as [-> Hs], Ho as (H1 & H2 & H3 & Ho). replace ((p <? b) && (b <? a)) with false by zcases.
    replace ((a <=? p) && _) with false by zcases. apply (IH k a q); try done; try lia. by eapply sorted_lo; [|done]; lia.
Qed.
(** Walking from above [b] around the end of the list. *)
Lemma walk_high b l : forall k p s, seg (u_ptr s) p l base -> b < p -> (exists hi, sorted p l hi) -> base < b ->
  find_pred (S (length l) + k) b p s = find_pred k b base s.
Proof.
  induction l as [|[a m] l IH]; intros k p s Hs Hp [hi Ho] Hb; cbn [find_pred seg length Nat.add] in *; rewrite bind_gets.
  - rewrite Hs. by replace ((p <? b) && (b <? base)) with false by zcases; replace ((base <=? p) && _) with false by zcases.
  - destruct Hs as [-> Hs], Ho as (H1 & H2 & H3 & Ho). replace ((p <? b) && (b <? a)) with false by zcases.
    replace ((a <=? p) && _) with false by zcases. apply (IH k a s); try done; [lia|]. exists hi. by eapply sorted_lo; [|done]; lia.
Qed.
Lemma find_pred_more k b : forall p s r, find_pred k b p s = Ret r s -> forall j, (k <= j)%nat -> find_pred j b p s = Ret r s.
Proof.
  induction k as [|k IH]; intros p s r E [|j] Hj; try done; [lia|]. cbn [find_pred] in *. rewrite bind_gets in *.
  destruct (_ && _); [done|]. destruct (_ && _); [done|]. apply IH; [done | lia].
Qed.
(** From any block of the list. *)
Lemma find_pred_ok b l1 l2 s k hi p : seg (u_ptr s) base (l1 ++ l2) base -> sorted base l1 b -> sorted b l2 hi -> base < b ->
  p = base \/ p ∈ (l1 ++ l2).*1 -> (length (l1 ++ l2) < k)%nat -> find_pred k b p s = Ret (end_of base l1) s.
Proof.
  intros Hseg H1 H2 Hb Hp Hk. rewrite length_app in Hk.
  assert (exists q, seg (u_ptr s) base l1 q /\ (b < q \/ q = base)) as (q & Hs1 & Hq).
  { destruct l2 as [|[a n] l2]; [exists base; rewrite app_nil_r in Hseg; auto|]. apply seg_app in Hseg as [Hseg _]. exists a. destruct H2. auto. }
  assert (find_pred (S (length l1)) b base s = Ret (end_of base l1) s) as E0 by (eapply walk_low; try done; lia).
  destruct Hp as [->|Hp]; [eapply find_pred_more; [done|lia]|].
  rewrite fmap_app, elem_of_app in Hp. destruct Hp as [Hp|Hp]; apply list_elem_of_fmap in Hp as ([p' n] & -> & Hp); simpl;
    apply list_elem_of_split in Hp as (x & y & ->).
  - apply seg_app in Hs1 as [_ Hs1]. apply sorted_app in H1 as (_ & Hlo & Hn & Hle & Ho1). rewrite end_of_app. rewrite length_app in Hk. simpl in Hk.
    apply (walk_low b y k p' q); try done; try lia. eapply sorted_lo; [|done]. lia.
  - rewrite app_assoc in Hseg. apply seg_app in Hseg as [_ Hseg]. apply sorted_app in H2 as (_ & Hlo & Hn & Hle & Ho2).
    rewrite length_app in Hk. simpl in Hk. replace k with (S (length y) + (k - S (length y)))%nat by lia.
    rewrite walk_high; [| done | done | exists hi; eapply sorted_lo; [|done]; lia | done]. eapply find_pred_more; [done | lia].
Qed.

(** ** The invariant *)

(** The break when the program started; [base] is below it. *)
Context (brk0 : Z) (Hbase : 0 < base) (Hbrk0 : base + HDR <= brk0).

Definition sizes (s : ust) (l : list (Z * Z)) : Prop := Forall (fun x => u_size s x.1 = x.2) l.
Definition inside (hi : Z) (l : list (Z * Z)) : Prop := Forall (fun x => brk0 <= x.1 /\ 0 < x.2 /\ x.1 + HDR * x.2 <= hi) l.
Fixpoint separate (l : list (Z * Z)) : Prop :=
  match l with [] => True | x :: l => Forall (apart x) l /\ separate l end.
(** [fl] are the free blocks and [live] the blocks in use. *)
Definition inv (s : ust) (fl live : list (Z * Z)) : Prop :=
  seg (u_ptr s) base fl base /\ u_size s base = 0 /\ sizes s fl /\ sizes s live /\
  sorted (brk0 - 1) fl (u_brk s) /\ inside (u_brk s) live /\ separate live /\
  Forall (fun x => Forall (apart x) fl) live /\
  (u_freep s = base \/ u_freep s ∈ fl.*1) /\ brk0 <= u_brk s <= KERNBASE.

Lemma seg_ext f f' l : forall p p' q, f' p' = f p -> (forall x, x ∈ l.*1 -> f' x = f x) -> seg f p l q -> seg f' p' l q.
Proof.
  induction l as [|[a n] l IH]; intros p p' q Hp Hl; simpl; [congruence|]. intros [H1 H2]. split; [congruence|].
  apply (IH a a); [apply Hl; by left | intros; apply Hl; by right | done].
Qed.
Lemma sizes_ext s s' l : (forall x, x ∈ l.*1 -> u_size s' x = u_size s x) -> sizes s l -> sizes s' l.
Proof.
  intros Hx. unfold sizes. rewrite !Forall_forall. intros Hs [a n] Hin. rewrite Hx; [by apply (Hs (a, n))|].
  apply list_elem_of_fmap. by exists (a, n).
Qed.
(** The block after the list. *)
Definition after (l : list (Z * Z)) : Z := match l with [] => base | (a, _) :: _ => a end.

(** The list goes on to [base] from its first block. *)
Definition rest (f : Z -> Z) (l : list (Z * Z)) : Prop := match l with [] => True | (a, _) :: l => seg f a l base end.
Lemma seg_rest f l1 l2 p : seg f p (l1 ++ l2) base <-> seg f p l1 (after l2) /\ rest f l2.
Proof. destruct l2 as [|[a n] l2]; simpl; [rewrite app_nil_r; tauto | apply seg_app]. Qed.

(** [s'] is [s] but for the header of [b]. *)
Definition but (b : Z) (s s' : ust) : Prop :=
  (forall x, x <> b -> u_ptr s' x = u_ptr s x /\ u_size s' x = u_size s x) /\ u_freep s' = u_freep s /\ u_brk s' = u_brk s.

Lemma join_next_ok b n p l hi s : u_ptr s p = after l -> u_size s b = n -> sizes s l -> sorted (b + HDR * n - 1) l hi -> 0 < n ->
  base < b -> p <> b -> rest (u_ptr s) l -> b + HDR * n <= hi <= KERNBASE ->
  exists m l' s', join_next b p s = Ret tt s' /\ but b s s' /\ u_size s' b = m /\ u_ptr s' b = after l' /\ n <= m /\
    sorted (b + HDR * m) l' hi /\ b + HDR * m <= hi /\
    (l = l' /\ m = n \/ l = (b + HDR * n, m - n) :: l').
Proof.
  intros Hq Hn Hsz Hso Hpos Hb Hpb Hseg Hhi. unfold join_next, bind at 1, get at 1. rewrite Hq, Hn.
  replace (padd b n) with (b + HDR * n) by (unfold padd; rewrite u32_small; lia).
  destruct l as [|[c k] l]; simpl in *.
  - rewrite (proj2 (Z.eqb_neq _ _)) by lia. exists n, [], (set_ptr b base s). split; [done|].
    split; [split; [|done]; intros x Hx; simpl; by rewrite fn_lookup_insert_ne|]. simpl. rewrite fn_lookup_insert. split_and!; try done; try lia. by left.
  - destruct Hso as (H1 & H2 & H3 & Hso). apply Forall_cons in Hsz as [Hc Hsz]. simpl in Hc. destruct (Z.eqb_spec (b + HDR * n) c) as [E|E].
    + rewrite bind_modify, Hc, u32_small by lia. eexists (n + k), l, _. split; [done|]. split.
      { split; [|done]. intros x Hx. simpl. by rewrite !fn_lookup_insert_ne. }
      simpl. rewrite !fn_lookup_insert, Hq. split; [done|]. split; [by destruct l as [|[d j] l]; [|destruct Hseg]|]. split; [lia|].
      replace (b + HDR * (n + k)) with (c + HDR * k) by lia. split; [done|]. split; [lia|]. right. f_equal. f_equal; lia.
    + exists n, ((c, k) :: l), (set_ptr b c s). split; [done|]. split; [split; [|done]; intros x Hx; simpl; by rewrite fn_lookup_insert_ne|].
      simpl. rewrite fn_lookup_insert. split_and!; try done; try lia. by left.
Qed.

Lemma sizes_app s l1 x l2 : sizes s (l1 ++ x :: l2) <-> sizes s l1 /\ u_size s x.1 = x.2 /\ sizes s l2.
Proof. unfold sizes. rewrite Forall_app, Forall_cons. tauto. Qed.
Lemma not_in_sorted lo l hi a : sorted lo l hi -> a <= lo \/ hi <= a -> a ∉ l.*1.
Proof.
  intros Hs Ha Hin. apply list_elem_of_fmap in Hin as ([b n] & -> & Hin). destruct (sorted_in _ _ _ _ _ Hs Hin). simpl in Ha. lia.
Qed.

Lemma join_prev_ok b m l1 l2 hi s q : let p := end_of base l1 in
  seg (u_ptr s) base l1 q -> u_size s base = 0 -> sizes s l1 -> sorted (brk0 - 1) l1 b -> 0 < m -> brk0 <= b ->
  u_size s b = m -> seg (u_ptr s) b l2 base -> sizes s l2 -> sorted (b + HDR * m) l2 hi -> b + HDR * m <= hi <= KERNBASE ->
  exists fl s', join_prev b p s = Ret tt s' /\ but p s s' /\ seg (u_ptr s') base fl base /\ sizes s' fl /\ u_size s' base = 0 /\
    sorted (brk0 - 1) fl hi /\ (p = base \/ p ∈ fl.*1) /\
    (fl = l1 ++ (b, m) :: l2 \/ exists l1' n, l1 = l1' ++ [(p, n)] /\ p + HDR * n = b /\ fl = l1' ++ (p, n + m) :: l2).
Proof.
  intros p Hs1 H0 Hz1 Ho1 Hm Hb Hbm Hs2 Hz2 Ho2 Hhi. unfold join_prev, bind at 1, get at 1.
  destruct (sorted_nodup _ _ _ Ho1) as [Hnd Hlo]. assert (base ∉ l1.*1) as Hb1 by (eapply not_in_sorted; [done | lia]).
  assert (b ∉ l1.*1) as Hbl by (eapply not_in_sorted; [done | lia]).
  assert (p <> b) as Hpb by (unfold p; destruct (end_of_in l1 base) as [->|Hin]; [lia | congruence]).
  assert (forall c, c <= b -> c ∉ l2.*1) as Hl2 by (intros c Hc; eapply not_in_sorted; [done | lia]).
  assert (p = base \/ p ∈ l1.*1) as Hp by apply end_of_in. assert (p < b) as Hplt.
  { destruct Hp as [->|Hin]; [lia|]. apply list_elem_of_fmap in Hin as ([c n] & -> & Hin). apply (sorted_in _ _ _ _ _ Ho1) in Hin. simpl. lia. }
  destruct (Z.eqb_spec (padd p (u_size s p)) b) as [E|E].
  - destruct l1 as [|[c n] l1' _] using rev_ind.
    { exfalso. change p with base in E. rewrite H0 in E. unfold padd in E. rewrite u32_small in E; lia. }
    assert (p = c) as Epc by (unfold p; by rewrite end_of_app). clearbody p. subst c.
    apply sizes_app in Hz1 as (Hz1 & Hpn & _). simpl in Hpn. apply sorted_app in Ho1 as (Ho1 & Hl & Hn & Hle & _). apply seg_app in Hs1 as [Hs1 _].
    rewrite Hpn in *. unfold padd in E. rewrite u32_small in E by lia. rewrite bind_modify, Hbm, u32_small by lia.
    assert (p ∉ l1'.*1) as Hp1 by (eapply not_in_sorted; [done | lia]).
    eexists (l1' ++ (p, n + m) :: l2), _. split; [done|]. split; [split; [|done]; intros x Hx; simpl; by rewrite !fn_lookup_insert_ne|]. simpl.
    split; [|split; [|split; [|split; [|split]]]].
    + apply seg_app. split; [apply seg_insert; [lia | done | done]|]. apply (seg_ext (u_ptr s) _ l2 b p); [by rewrite fn_lookup_insert | | done].
      intros x Hx. rewrite fn_lookup_insert_ne; [done|]. intros ->. by eapply Hl2; [|done]; lia.
    + apply sizes_app. simpl. rewrite fn_lookup_insert. split; [|split; [done|]]; (eapply sizes_ext; [|done]); intros x Hx; simpl; apply fn_lookup_insert_ne;
        intros ->; [done | by eapply Hl2; [|done]; lia].
    + rewrite fn_lookup_insert_ne by lia. done.
    + apply sorted_app. replace (p + HDR * (n + m)) with (b + HDR * m) by lia. split_and!; try done; lia.
    + right. rewrite fmap_app, fmap_cons. rewrite elem_of_app, elem_of_cons. auto.
    + right. exists l1', n. split_and!; done.
  - exists (l1 ++ (b, m) :: l2), (set_ptr p b s). split; [done|]. split; [split; [|done]; intros x Hx; simpl; by rewrite !fn_lookup_insert_ne|]. simpl.
    split; [|split; [|split; [done|split; [|split; [|by left]]]]].
    + apply seg_app. split; [by eapply seg_end|]. apply seg_insert; [done | apply Hl2; lia | done].
    + apply sizes_app. split; [done|]. split; [done|]. done.
    + apply sorted_app. split_and!; try done; try lia. destruct l1 as [|[c n] l1' _] using rev_ind; [done|].
      unfold p in E. rewrite end_of_app in E. apply sizes_app in Hz1 as (_ & Hpn & _). simpl in Hpn, E. rewrite Hpn in E.
      apply sorted_app in Ho1 as (? & ? & ? & Hle & _). unfold padd in E. rewrite u32_small in E by lia. apply sorted_app. simpl. split_and!; try done; lia.
    + destruct Hp as [?|?]; [by left|]. right. rewrite fmap_app, elem_of_app. by left.
Qed.

Lemma sorted_length l : forall lo hi, sorted lo l hi -> lo + HDR * Z.of_nat (length l) <= Z.max lo hi.
Proof. induction l as [|[a n] l IH]; intros lo hi Hs; simpl; [lia|]. destruct Hs as (? & ? & ? & Hs). apply IH in Hs. lia. Qed.
Lemma apart_join x a n m : 0 < x.2 -> apart x (a, n) -> apart x (a + HDR * n, m) -> apart x (a, n + m).
Proof. unfold apart. simpl. lia. Qed.
(** A block that joined its neighbours stays apart from those that were apart from them. *)
Lemma apart_joined x l1 l2 l2' b n m fl p : 0 < x.2 -> apart x (b, n) -> Forall (apart x) (l1 ++ l2) ->
  (l2 = l2' /\ m = n \/ l2 = (b + HDR * n, m - n) :: l2') ->
  (fl = l1 ++ (b, m) :: l2' \/ exists l1' k, l1 = l1' ++ [(p, k)] /\ p + HDR * k = b /\ fl = l1' ++ (p, k + m) :: l2') ->
  Forall (apart x) fl.
Proof.
  intros Hx Hb Hl H2 Hfl. apply Forall_app in Hl as [Hl1 Hl2].
  assert (apart x (b, m) /\ Forall (apart x) l2') as [Hbm Hl2'].
  { destruct H2 as [[-> ->]| ->]; [by split|]. apply Forall_cons in Hl2 as [Hc Hl2]. split; [|done].
    replace m with (n + (m - n)) by lia. by apply apart_join. }
  destruct Hfl as [->|(l1' & k & -> & Hk & ->)].
  - apply Forall_app. split; [done|]. by apply Forall_cons.
  - apply Forall_app in Hl1 as [Hl1 Hp]. apply Forall_cons in Hp as [Hp _]. apply Forall_app. split; [done|]. apply Forall_cons. split; [|done].
    apply (apart_join x p k m); [done | exact Hp | by rewrite Hk].
Qed.

Lemma seg_last f l : forall p q, seg f p l q -> f (end_of p l) = q.
Proof. induction l as [|[a n] l IH]; intros p q; simpl; [done|]. intros [_ H]. by apply IH. Qed.
(** Headers of live blocks are not those of others. *)
Lemma live_header x a k : apart x (a, k) -> 0 < x.2 -> 0 < k -> x.1 <> a.
Proof. unfold apart. simpl. lia. Qed.
Lemma free_block_ok b n s fl live : inv s fl ((b, n) :: live) ->
  exists fl' s', free_block b s = Ret tt s' /\ inv s' fl' live /\ u_brk s' = u_brk s /\ (length fl' <= S (length fl))%nat /\
    exists a k, (a, k) ∈ fl' /\ n <= k.
Proof.
  intros (Hseg & H0 & Hzf & Hzl & Hso & Hin & [Hsep Hsep'] & Hap & Hfp & Hbrk).
  apply Forall_cons in Hzl as [Hbn Hzl]. apply Forall_cons in Hin as [(Hb0 & Hn & Hbe) Hin]. apply Forall_cons in Hap as [Hapb Hap]. simpl in Hbn, Hb0, Hn, Hbe.
  destruct (split_at b n fl (brk0 - 1) (u_brk s) Hn Hso) as (l1 & l2 & -> & Ho1 & Ho2).
  { intros y Hy. rewrite Forall_forall in Hapb. by apply Hapb. }
  pose proof (sorted_length _ _ _ Hso) as Hlen. unfold free_block. unfold bind at 1, get at 1.
  assert (find_pred (headers s) b (u_freep s) s = Ret (end_of base l1) s) as E1.
  { apply (find_pred_ok b l1 l2 s (headers s) (u_brk s)); try done; try (by eapply sorted_lo; [|done]; lia); [lia|].
    unfold headers. zlia. }
  rewrite (bind_Ret _ _ _ _ _ E1). set (p := end_of base l1). apply seg_rest in Hseg as [Hs1 Hs2].
  unfold sizes in Hzf. apply Forall_app in Hzf as [Hz1 Hz2].
  assert (b ∉ l1.*1) as Hb1 by (eapply not_in_sorted; [done | lia]). assert (b ∉ l2.*1) as Hb2 by (eapply not_in_sorted; [done | lia]).
  assert (p <> b) as Hpb by (unfold p; destruct (end_of_in l1 base) as [->|]; [lia | congruence]).
  pose proof (seg_last _ _ _ _ Hs1 : u_ptr s p = after l2) as Hp.
  destruct (join_next_ok b n p l2 (u_brk s) s) as (m & l2' & s1 & E2 & (But1 & Ef1 & Eb1) & Hm & Hpm & Hnm & Ho2' & Hbm & Hl2); try done; [lia | lia |].
  rewrite (bind_Ret _ _ _ _ _ E2).
  assert (forall x, x ∈ l2'.*1 -> x ∈ l2.*1) as Hsub by (destruct Hl2 as [[-> _]| ->]; [done | intros x; rewrite fmap_cons; by right]).
  destruct (join_prev_ok b m l1 l2' (u_brk s) s1 (after l2)) as (fl & s2 & E3 & (But2 & Ef2 & Eb2) & Hs & Hz & H00 & Ho & Hpf & Hfl); try done; try lia.
  { apply (seg_ext (u_ptr s) _ l1 base base); [apply But1; lia | | done]. intros x Hx. apply But1. congruence. }
  { destruct (But1 base) as [_ ->]; [lia | done]. }
  { apply (sizes_ext s); [|done]. intros x Hx. apply But1. congruence. }
  { destruct l2' as [|[c k] l2']; [done|]. split; [done|]. apply (seg_ext (u_ptr s) _ l2' c c).
    - apply But1. intros ->. by apply Hb2, Hsub; left.
    - intros x Hx. apply But1. intros ->. by apply Hb2, Hsub; right.
    - destruct Hl2 as [[-> _]| ->]; [done|]. by destruct Hs2. }
  { destruct Hl2 as [[-> _]| ->]; [|apply Forall_cons in Hz2 as [_ Hz2]]; (apply (sizes_ext s); [|done]); intros x Hx; apply But1; intros ->; by apply Hb2, Hsub. }
  rewrite (bind_Ret _ _ _ _ _ E3). exists fl, (set_freep p s2). split; [done|].
  assert (forall x, x ∈ live -> x.1 <> b /\ x.1 <> p) as Hlive.
  { intros x Hx. unfold inside in Hin. rewrite Forall_forall in Hin, Hsep, Hap. destruct (Hin x Hx) as (? & ? & ?). split.
    - apply (live_header x b n); [|done..]. specialize (Hsep x Hx). unfold apart in *. simpl in *. lia.
    - unfold p. destruct (end_of_in l1 base) as [->|Hpin]; [lia|]. apply list_elem_of_fmap in Hpin as ([c k] & -> & Hc).
      specialize (Hap x Hx). rewrite Forall_forall in Hap. apply (live_header x c k); [apply Hap; rewrite elem_of_app; by left | done | apply (sorted_in _ _ _ _ _ Ho1) in Hc; lia]. }
  split; [|split; [simpl; congruence|split]].
  - unfold inv. cbn [u_ptr u_size u_freep u_brk set_freep]. rewrite Eb2, Eb1. do 3 (split; [done|]). split.
    { apply (sizes_ext s); [|done]. intros c (x & -> & Hx)%list_elem_of_fmap. destruct (Hlive x Hx) as [Hxb Hxp]. simpl.
      destruct (But2 _ Hxp) as [_ ->], (But1 _ Hxb) as [_ ->]. done. }
    do 3 (split; [done|]). split; [|done]. apply Forall_forall. intros x Hx. unfold inside in Hin. rewrite Forall_forall in Hin, Hsep, Hap.
    eapply (apart_joined x l1 l2 l2' b n m fl p); [by apply Hin | | by apply Hap | done | done]. specialize (Hsep x Hx). unfold apart in *. simpl in *. lia.
  - assert (length l2' <= length l2)%nat by (destruct Hl2 as [[-> _]| ->]; simpl; lia).
    destruct Hfl as [->|(l1' & k & -> & Hk & ->)]; rewrite !length_app; simpl; lia.
  - destruct Hfl as [->|(l1' & k & E & Hk & ->)].
    + exists b, m. split; [|done]. rewrite elem_of_app, elem_of_cons. auto.
    + exists p, (k + m). split; [rewrite elem_of_app, elem_of_cons; auto|]. rewrite E in Ho1. apply sorted_app in Ho1. lia.
Qed.

(** ** malloc *)

Lemma sorted_remove l1 p n l2 : forall lo hi, sorted lo (l1 ++ (p, n) :: l2) hi -> sorted lo (l1 ++ l2) hi /\ Forall (apart (p, n)) (l1 ++ l2).
Proof.
  induction l1 as [|[a k] l1 IH]; intros lo hi Hs; simpl in *.
  - destruct Hs as (H1 & H2 & H3 & Hs). split; [by eapply sorted_lo; [|done]; lia|]. apply Forall_forall. intros [c j] Hc.
    apply (sorted_in _ _ _ _ _ Hs) in Hc. left. simpl. lia.
  - destruct Hs as (H1 & H2 & H3 & Hs). destruct (IH _ _ Hs) as [Hr Ha]. split; [done|]. apply Forall_cons. split; [|done].
    apply sorted_app in Hs. right. simpl. lia.
Qed.
Lemma inv_parts s l1 p n l2 live : inv s (l1 ++ (p, n) :: l2) live ->
  seg (u_ptr s) base l1 p /\ u_ptr s p = after l2 /\ rest (u_ptr s) l2 /\ u_size s p = n /\ 0 < n /\ brk0 <= p /\ p + HDR * n <= u_brk s /\
  sorted (brk0 - 1) l1 (p - 1) /\ sorted (p + HDR * n) l2 (u_brk s) /\ Forall (fun x => apart x (p, n)) live.
Proof.
  intros (Hseg & _ & Hz & _ & Hso & _ & _ & Hap & _). apply seg_app in Hseg as [H1 H2]. apply sizes_app in Hz as (_ & Hz & _).
  apply sorted_app in Hso as (? & ? & ? & ? & ?). split; [done|]. split; [by destruct l2 as [|[a k] l2]; [|destruct H2]|].
  split; [by destruct l2 as [|[a k] l2]; [|destruct H2]|]. do 2 (split; [done|]). split; [lia|]. do 3 (split; [done|]).
  eapply Forall_impl; [exact Hap|]. simpl. intros x Hx. apply Forall_app in Hx as [_ Hx]. by apply Forall_cons in Hx as [Hx _].
Qed.
Lemma apart_sym x y : apart x y -> apart y x.
Proof. unfold apart. lia. Qed.
Lemma pred_in l : end_of base l = base \/ end_of base l ∈ l.*1.
Proof. apply end_of_in. Qed.

(** A block of the right size is taken off the list. *)
Lemma take_whole s l1 p n l2 live : inv s (l1 ++ (p, n) :: l2) live ->
  inv (set_freep (end_of base l1) (set_ptr (end_of base l1) (u_ptr s p) s)) (l1 ++ l2) ((p, n) :: live).
Proof.
  intros Hinv. destruct (inv_parts _ _ _ _ _ _ Hinv) as (Hs1 & Hp & Hr & Hn & Hpos & Hlo & Hhi & Ho1 & Ho2 & Hap).
  destruct Hinv as (_ & H0 & Hzf & Hzl & Hso & Hin & Hsep & Hapl & _ & Hbrk). destruct (sorted_remove _ _ _ _ _ _ Hso) as [Hso' Hapf].
  destruct (sorted_nodup _ _ _ Ho1) as [Hnd _]. unfold inv. cbn [u_ptr u_size u_freep u_brk set_freep set_ptr].
  assert (base ∉ l1.*1) as Hb1 by (eapply not_in_sorted; [done | lia]).
  assert (end_of base l1 <= p) as Hle.
  { destruct (pred_in l1) as [->|Hi]; [lia|]. apply list_elem_of_fmap in Hi as ([c k] & -> & Hc). apply (sorted_in _ _ _ _ _ Ho1) in Hc. simpl. lia. }
  split; [|split; [done|split; [|split; [|split; [done|split; [|split; [|split; [|split; [|done]]]]]]]]].
  - apply seg_rest. split; [rewrite Hp; by eapply seg_end|]. destruct l2 as [|[c k] l2]; [done|]. simpl in *. destruct Ho2 as (? & ? & ? & Ho2).
    apply seg_insert; [lia | | done]. eapply not_in_sorted; [done | lia].
  - apply sizes_app in Hzf as (? & _ & ?). unfold sizes in *. by apply Forall_app.
  - apply Forall_cons. done.
  - apply Forall_cons. split; [simpl; lia | done].
  - split; [|done]. eapply Forall_impl; [exact Hap|]. intros x. apply apart_sym.
  - apply Forall_cons. split; [done|]. eapply Forall_impl; [exact Hapl|]. simpl. intros x Hx. apply Forall_app in Hx as [? Hx].
    apply Forall_cons in Hx as [_ ?]. by apply Forall_app.
  - destruct (pred_in l1) as [?|?]; [by left|]. right. rewrite fmap_app, elem_of_app. by left.
Qed.
(** The end of a larger block is cut off. *)
Lemma take_part s l1 p n l2 live m : inv s (l1 ++ (p, n) :: l2) live -> 0 < m < n ->
  let r := p + HDR * (n - m) in
  inv (set_freep (end_of base l1) (set_usize r m (set_usize p (n - m) s))) (l1 ++ (p, n - m) :: l2) ((r, m) :: live).
Proof.
  intros Hinv Hm r. destruct (inv_parts _ _ _ _ _ _ Hinv) as (Hs1 & Hp & Hr & Hn & Hpos & Hlo & Hhi & Ho1 & Ho2 & Hap).
  destruct Hinv as (Hseg & H0 & Hzf & Hzl & Hso & Hin & Hsep & Hapl & _ & Hbrk). destruct (sorted_remove _ _ _ _ _ _ Hso) as [_ Hapf].
  apply sizes_app in Hzf as (Hz1 & _ & Hz2). unfold inv. cbn [u_ptr u_size u_freep u_brk set_freep set_usize].
  assert (forall x, x ∈ l1.*1 \/ x ∈ l2.*1 -> x <> p /\ x <> r) as Hne.
  { intros x Hx. assert (exists k, (x, k) ∈ l1 \/ (x, k) ∈ l2) as [k Hk].
    { destruct Hx as [Hx|Hx]; apply list_elem_of_fmap in Hx as ([c k] & -> & Hc); exists k; auto. }
    destruct Hk as [Hk|Hk]; [apply (sorted_in _ _ _ _ _ Ho1) in Hk | apply (sorted_in _ _ _ _ _ Ho2) in Hk]; unfold r; lia. }
  assert (forall x, x ∈ live -> x.1 <> p /\ x.1 <> r /\ apart x (p, n - m) /\ apart x (r, m)) as Hlive.
  { intros x Hx. rewrite Forall_forall in Hap. unfold inside in Hin. rewrite Forall_forall in Hin. specialize (Hap x Hx). destruct (Hin x Hx) as (? & ? & ?).
    unfold apart, r in *. simpl in *. lia. }
  assert (forall x, x <> p /\ x <> r -> <[r := m]> (<[p := n - m]> (u_size s)) x = u_size s x) as Hsz by (intros x [? ?]; by rewrite !fn_lookup_insert_ne).
  split; [|split; [|split; [|split; [|split; [|split; [|split; [|split; [|split; [|done]]]]]]]]].
  - apply seg_app in Hseg. by apply seg_app.
  - rewrite Hsz; [done|]. unfold r. lia.
  - apply sizes_app. split; [|split]; simpl.
    + eapply sizes_ext; [|done]. intros x Hx. apply Hsz. auto.
    + rewrite fn_lookup_insert_ne by (unfold r; lia). by rewrite fn_lookup_insert.
    + eapply sizes_ext; [|done]. intros x Hx. apply Hsz. auto.
  - apply Forall_cons. split; [simpl; by rewrite fn_lookup_insert|]. eapply sizes_ext; [|exact Hzl]. intros c (x & -> & Hx)%list_elem_of_fmap.
    apply Hsz. destruct (Hlive x Hx) as (? & ? & _). done.
  - apply sorted_app. split; [done|]. split; [lia|]. split; [lia|]. split; [lia|]. eapply sorted_lo; [|done]. lia.
  - apply Forall_cons. split; [unfold r; simpl; lia | done].
  - split; [|done]. apply Forall_forall. intros x Hx. apply apart_sym. by apply Hlive.
  - apply Forall_cons. split.
    + apply Forall_app in Hapf as [Ha1 Ha2]. apply Forall_app. split; [|apply Forall_cons; split; [unfold apart, r; simpl; lia|]];
        (eapply Forall_impl; [eassumption|]); intros y; unfold apart, r; simpl; lia.
    + apply Forall_forall. intros x Hx. rewrite Forall_forall in Hapl. specialize (Hapl x Hx). apply Forall_app in Hapl as [? Hapl].
      apply Forall_cons in Hapl as [_ ?]. apply Forall_app. split; [done|]. apply Forall_cons. split; [by apply Hlive | done].
  - destruct (pred_in l1) as [?|?]; [by left|]. right. rewrite fmap_app, elem_of_app. by left.
Qed.

(** The step of the loop at a block that is large enough. *)
Lemma malloc_takes k m s l1 p n l2 live : inv s (l1 ++ (p, n) :: l2) live -> 0 < m <= n ->
  exists r fl s', malloc_loop (S k) m (end_of base l1) p s = Ret (r + HDR) s' /\ inv s' fl ((r, m) :: live).
Proof.
  intros Hinv Hm. destruct (inv_parts _ _ _ _ _ _ Hinv) as (_ & _ & _ & Hn & _ & Hlo & Hhi & _). pose proof Hinv as (_ & _ & _ & _ & _ & _ & _ & _ & _ & Hbrk).
  cbn [malloc_loop]. unfold bind at 1, get at 1. rewrite Hn, (proj2 (Z.leb_le _ _)) by lia. destruct (Z.eqb_spec n m) as [->|Hne].
  - eexists p, _, _. split; [|by apply take_whole]. unfold bind, modify, ret. do 2 f_equal. unfold padd. rewrite u32_small; lia.
  - eexists (p + HDR * (n - m)), _, _. split; [|apply take_part; [done | lia]]. unfold bind, modify, ret, get. simpl. rewrite fn_lookup_insert.
    rewrite (u32_small (n - m)) by lia. assert (padd p (n - m) = p + HDR * (n - m)) as -> by (unfold padd; rewrite u32_small; lia).
    f_equal. unfold padd. rewrite u32_small; lia.
Qed.
(** The steps over blocks that are too small. *)
Lemma malloc_skips k m s prev p : u_size s p < m -> p <> u_freep s -> malloc_loop (S k) m prev p s = malloc_loop k m p (u_ptr s p) s.
Proof. intros Hs Hp. cbn [malloc_loop]. unfold bind at 1, get at 1. rewrite (proj2 (Z.leb_gt _ _)), (proj2 (Z.eqb_neq _ _)) by done. done. Qed.
Lemma scan_list m l : forall prev q s, seg (u_ptr s) prev l q -> (u_freep s ∉ l.*1) -> sizes s l ->
  (exists l1 p n l2, l = l1 ++ (p, n) :: l2 /\ m <= n /\
     forall k, malloc_loop (length l1 + k) m prev (u_ptr s prev) s = malloc_loop k m (end_of prev l1) p s) \/
  (Forall (fun x => x.2 < m) l /\ forall k, malloc_loop (length l + k) m prev (u_ptr s prev) s = malloc_loop k m (end_of prev l) q s).
Proof.
  induction l as [|[a n] l IH]; intros prev q s Hs Hf Hz; simpl in Hs, Hf.
  { right. split; [done|]. intros k. simpl. by rewrite Hs. }
  destruct Hs as [Ha Hs]. apply Forall_cons in Hz as [Hn Hz]. simpl in Hn. apply not_elem_of_cons in Hf as [Hfa Hf].
  destruct (Z.le_gt_cases m n) as [Hle|Hgt].
  { left. exists [], a, n, l. split_and!; try done. intros k. simpl. by rewrite Ha. }
  destruct (IH a q s Hs Hf Hz) as [(l1 & p & n' & l2 & -> & Hle & E)|[Hsm E]].
  - left. exists ((a, n) :: l1), p, n', l2. split_and!; try done. intros k. cbn [length end_of]. rewrite Nat.add_succ_l, Ha, malloc_skips by (lia || done). apply E.
  - right. split; [by apply Forall_cons|]. intros k. cbn [length end_of]. rewrite Nat.add_succ_l, Ha, malloc_skips by (lia || done). apply E.
Qed.

(** A round over the list from freep finds the first block that is large enough, or
    comes back to freep. *)
Lemma scan_round m s fl live : inv s fl live -> 0 < m ->
  (exists l1 p n l2 j, fl = l1 ++ (p, n) :: l2 /\ m <= n /\ (j <= length fl)%nat /\
     forall k, malloc_loop (j + k) m (u_freep s) (u_ptr s (u_freep s)) s = malloc_loop k m (end_of base l1) p s) \/
  (Forall (fun x => x.2 < m) fl /\ u_size s (u_freep s) < m /\ exists j pv, (j <= length fl)%nat /\
     forall k, malloc_loop (j + k) m (u_freep s) (u_ptr s (u_freep s)) s = malloc_loop k m pv (u_freep s) s).
Proof.
  intros (Hseg & H0 & Hzf & _ & Hso & _ & _ & _ & Hfp & _) Hm.
  destruct Hfp as [Efp|Hfp].
  - rewrite Efp. destruct (scan_list m fl base base s Hseg) as [(l1 & p & n & l2 & -> & Hle & E)|[Hsm E]].
    { rewrite Efp. eapply not_in_sorted; [done | lia]. } { done. }
    + left. exists l1, p, n, l2, (length l1). split_and!; try done. rewrite length_app. lia.
    + right. rewrite H0. split_and!; try done. exists (length fl), (end_of base fl). done.
  - set (fp := u_freep s) in *. apply list_elem_of_fmap in Hfp as ([fp' n] & Efp & Hin). simpl in Efp. subst fp'.
    apply list_elem_of_split in Hin as (X & Y & ->). apply seg_app in Hseg as [HX HY]. apply sizes_app in Hzf as (HzX & Hn & HzY). simpl in Hn.
    pose proof Hso as Hso'. apply sorted_app in Hso as (HoX & Hlo & Hpos & Hhi & HoY). rewrite length_app. simpl length.
    destruct (scan_list m Y fp base s HY) as [(l1 & p & n' & l2 & -> & Hle & E)|[HsmY EY]]; [eapply not_in_sorted; [done | fold fp; lia] | done | |].
    { left. exists (X ++ (fp, n) :: l1), p, n', l2, (length l1). rewrite end_of_app, length_app. split; [by rewrite <- app_assoc|]. split_and!; try done. lia. }
    destruct (scan_list m X base fp s HX) as [(l1 & p & n' & l2 & -> & Hle & E)|[HsmX EX]]; [eapply not_in_sorted; [done | fold fp; lia] | done | |].
    { left. exists l1, p, n', (l2 ++ (fp, n) :: Y), (length Y + S (length l1))%nat. rewrite length_app. simpl. split; [by rewrite <- app_assoc|].
      split; [done|]. split; [lia|]. intros k. rewrite <- Nat.add_assoc, EY. simpl Nat.add. rewrite malloc_skips by (fold fp; lia). apply E. }
    assert (forall k, malloc_loop (length Y + S (length X) + k) m fp (u_ptr s fp) s = malloc_loop k m (end_of base X) fp s) as E.
    { intros k. rewrite <- Nat.add_assoc, EY. simpl Nat.add. rewrite malloc_skips by (fold fp; lia). apply EX. }
    destruct (Z.le_gt_cases m n) as [Hle|Hgt].
    + left. exists X, fp, n, Y, (length Y + S (length X))%nat. split_and!; try done. lia.
    + right. split; [apply Forall_app; split; [done | by apply Forall_cons]|]. split; [lia|].
      exists (length Y + S (length X))%nat, (end_of base X). split; [lia | done].
Qed.

(** What sbrk gives stays below the kernel. *)
Context (Hgrants : forall b n, grants b n = true -> 0 <= n -> b + n <= KERNBASE).

Lemma grow_ok s fl live nu : inv s fl live -> 0 < nu -> u_brk s + HDR * nu <= KERNBASE ->
  inv (set_usize (u_brk s) nu (set_brk (u_brk s + HDR * nu) s)) fl ((u_brk s, nu) :: live).
Proof.
  intros (Hseg & H0 & Hzf & Hzl & Hso & Hin & Hsep & Hap & Hfp & Hbrk) Hnu Hle. unfold inv. cbn [u_ptr u_size u_freep u_brk set_usize set_brk].
  assert (forall x, x ∈ live -> x.1 < u_brk s /\ x.1 + HDR * x.2 <= u_brk s) as Hl.
  { intros x Hx. unfold inside in Hin. rewrite Forall_forall in Hin. specialize (Hin x Hx). lia. }
  assert (forall x, x ∈ fl -> x.1 < u_brk s /\ x.1 + HDR * x.2 <= u_brk s) as Hf.
  { intros [a n] Hx. apply (sorted_in _ _ _ _ _ Hso) in Hx. simpl. lia. }
  split; [done|]. split; [rewrite fn_lookup_insert_ne by lia; done|].
  split. { eapply sizes_ext; [|done]. intros c (x & -> & Hx)%list_elem_of_fmap. apply fn_lookup_insert_ne. specialize (Hf x Hx). lia. }
  split. { apply Forall_cons. split; [simpl; by rewrite fn_lookup_insert|]. eapply sizes_ext; [|exact Hzl]. intros c (x & -> & Hx)%list_elem_of_fmap. apply fn_lookup_insert_ne. specialize (Hl x Hx). lia. }
  split; [by eapply sorted_hi; [|done]; lia|]. split. { apply Forall_cons. split; [simpl; lia|]. eapply Forall_impl; [exact Hin|]. simpl. lia. }
  split. { split; [|done]. apply Forall_forall. intros x Hx. right. simpl. by apply Hl. }
  split; [|split; [done | lia]]. apply Forall_cons. split; [|done]. apply Forall_forall. intros x Hx. right. simpl. by apply Hf.
Qed.
Lemma morecore_ok nu s fl live : inv s fl live -> 0 < nu < 268435456 ->
  morecore nu s = Ret 0 s /\ grants (u_brk s) (HDR * Z.max 4096 nu) = false \/
  exists fl' s', morecore nu s = Ret (u_freep s') s' /\ u_freep s' <> 0 /\ inv s' fl' live /\ (length fl' <= S (length fl))%nat /\
    Exists (fun x => nu <= x.2) fl'.
Proof.
  intros Hinv Hnu. pose (nu' := if nu <? 4096 then 4096 else nu). assert (nu <= nu' < 268435456 /\ nu' = Z.max 4096 nu) as [Hr Emax] by (unfold nu'; zcases).
  pose proof Hinv as (_ & _ & _ & _ & _ & _ & _ & _ & _ & Hbrk).
  assert (morecore nu s = if grants (u_brk s) (HDR * nu')
    then (free_block (u_brk s) ;;; gets u_freep) (set_usize (u_brk s) nu' (set_brk (u_brk s + HDR * nu') s)) else Ret 0 s) as Em.
  { unfold morecore. cbv zeta. fold nu'. replace (s32 (nu' * HDR)) with (HDR * nu') by (unfold s32; rewrite u32_small by lia; zcases).
    unfold sbrk. rewrite bind_assoc, bind_gets. destruct (grants (u_brk s) (HDR * nu')); [|done]. rewrite bind_assoc, bind_modify. unfold bind at 1, ret at 1.
    rewrite (proj2 (Z.eqb_neq _ _)) by lia. rewrite bind_modify. unfold free.
    by replace (padd (padd (u_brk s) 1) (-1)) with (u_brk s) by (unfold padd; rewrite !u32_small; rewrite ?u32_small; lia). }
  rewrite Em. destruct (grants (u_brk s) (HDR * nu')) eqn:Eg; [|left; by rewrite <- Emax]. apply Hgrants in Eg; [|lia].
  destruct (free_block_ok _ _ _ _ _ (grow_ok s fl live nu' Hinv ltac:(lia) Eg)) as (fl' & s' & E & Hinv' & _ & Hlen & a & k & Hin & Hk).
  right. exists fl', s'. rewrite (bind_Ret _ _ _ _ _ E). split; [done|]. split.
  { destruct Hinv' as (_ & _ & _ & _ & Hso & _ & _ & _ & [->|Hfp] & _); [lia|]. apply list_elem_of_fmap in Hfp as ([c j] & -> & Hc).
    apply (sorted_in _ _ _ _ _ Hso) in Hc. simpl. lia. }
  do 2 (split; [done|]). apply Exists_exists. exists (a, k). split; [done|]. simpl. lia.
Qed.

(** ** Allocation and release *)

Lemma inv_freep s fl live : inv s fl live -> u_freep s <> 0.
Proof.
  intros (_ & _ & _ & _ & Hso & _ & _ & _ & [->|Hfp] & _); [lia|]. apply list_elem_of_fmap in Hfp as ([c j] & -> & Hc).
  apply (sorted_in _ _ _ _ _ Hso) in Hc. simpl. lia.
Qed.
Lemma inv_fuel s fl live : inv s fl live -> (length fl < headers s)%nat.
Proof. intros (_ & _ & _ & _ & Hso & _ & _ & _ & _ & Hbrk). pose proof (sorted_length _ _ _ Hso). unfold headers. zlia. Qed.
(** The block that malloc finds in the list, with enough fuel for a round. *)
Lemma malloc_finds k m s fl live : inv s fl live -> 0 < m -> Exists (fun x => m <= x.2) fl -> (length fl < k)%nat ->
  exists r fl' s', malloc_loop k m (u_freep s) (u_ptr s (u_freep s)) s = Ret (r + HDR) s' /\ inv s' fl' ((r, m) :: live).
Proof.
  intros Hinv Hm Hex Hk. destruct (scan_round m s fl live Hinv Hm) as [(l1 & p & n & l2 & j & -> & Hle & Hj & E)|(Hsm & _)].
  - replace k with (j + S (k - S j))%nat by lia. rewrite E. by apply malloc_takes with (n := n) (l2 := l2).
  - exfalso. apply Exists_exists in Hex as (x & Hx & Hle). rewrite Forall_forall in Hsm. specialize (Hsm x Hx). simpl in *. lia.
Qed.
Lemma malloc_grows k m s prev : u_size s (u_freep s) < m ->
  malloc_loop (S k) m prev (u_freep s) s =
  (p <- morecore m ;; if p =? 0 then ret 0 else q <- gets (fun s => u_ptr s p) ;; malloc_loop k m p q) s.
Proof. intros H. cbn [malloc_loop]. unfold bind at 1, get at 1. by rewrite (proj2 (Z.leb_gt _ _)), Z.eqb_refl by lia. Qed.
Lemma malloc_loop_ok k m s fl live : inv s fl live -> 0 < m < 268435456 -> (2 * length fl + 3 <= k)%nat ->
  malloc_loop k m (u_freep s) (u_ptr s (u_freep s)) s = Ret 0 s /\ grants (u_brk s) (HDR * Z.max 4096 m) = false \/
  exists r fl' s', malloc_loop k m (u_freep s) (u_ptr s (u_freep s)) s = Ret (r + HDR) s' /\ inv s' fl' ((r, m) :: live).
Proof.
  intros Hinv Hm Hk. destruct (scan_round m s fl live Hinv ltac:(lia)) as [(l1 & p & n & l2 & j & -> & Hle & Hj & E)|(Hsm & Hfp & j & pv & Hj & E)].
  - right. replace k with (j + S (k - S j))%nat by lia. rewrite E. apply malloc_takes with (n := n) (l2 := l2); [done | lia].
  - replace k with (j + S (k - S j))%nat by lia. rewrite E, malloc_grows by done.
    destruct (morecore_ok m s fl live Hinv Hm) as [[Em Eg]|(fl' & s' & Em & Hne & Hinv' & Hlen & Hex)].
    + left. by rewrite (bind_Ret _ _ _ _ _ Em).
    + right. rewrite (bind_Ret _ _ _ _ _ Em), (proj2 (Z.eqb_neq _ _) Hne), bind_gets. apply (malloc_finds _ _ _ fl'); [done | lia | done | lia].
Qed.

(** Before the first call of malloc there is no list. *)
Definition heap (s : ust) (live : list (Z * Z)) : Prop :=
  u_freep s = 0 /\ live = [] /\ brk0 <= u_brk s <= KERNBASE \/ exists fl, inv s fl live.
Lemma malloc_ok n s live : heap s live -> 0 <= n <= 2147483632 ->
  (exists s', malloc n s = Ret 0 s' /\ heap s' live /\ grants (u_brk s) (HDR * Z.max 4096 ((n + 7) / HDR + 1)) = false) \/
  exists r s', malloc n s = Ret (r + HDR) s' /\ heap s' ((r, (n + 7) / HDR + 1) :: live).
Proof.
  intros Hh Hn. set (m := (n + 7) / HDR + 1). assert (0 < m < 268435456) as Hm by (unfold m; zlia).
  assert (exists s1 fl, inv s1 fl live /\ u_brk s1 = u_brk s /\ malloc n s = malloc_loop (2 * headers s1 + 2) m (u_freep s1) (u_ptr s1 (u_freep s1)) s1) as (s1 & fl & Hinv & Eb & E).
  { unfold malloc. replace (u32 (u32 (n + HDR - 1) / HDR + 1)) with m by (rewrite (u32_small (n + HDR - 1)) by lia; unfold m; rewrite u32_small; zlia).
    unfold bind at 1, get at 1. destruct Hh as [(E0 & -> & Hb)|[fl Hinv]].
    - rewrite E0. exists (set_usize base 0 (set_ptr base base (set_freep base s))), []. split; [|done]. unfold inv. simpl. rewrite !fn_lookup_insert.
      repeat (split; [done || (by apply Forall_nil)|]). split; [by left | done].
    - rewrite (proj2 (Z.eqb_neq _ _)) by (by eapply inv_freep). by exists s, fl. }
  rewrite E. pose proof (inv_fuel _ _ _ Hinv).
  destruct (malloc_loop_ok (2 * headers s1 + 2) m s1 fl live Hinv Hm ltac:(lia)) as [[-> Eg]|(r & fl' & s' & -> & Hinv')].
  - left. exists s1. split; [done|]. split; [right; by exists fl | by rewrite <- Eb].
  - right. exists r, s'. split; [done|]. right. by exists fl'.
Qed.

Lemma separate_perm l l' : l ≡ₚ l' -> separate l -> separate l'.
Proof.
  induction 1 as [|x l l' Hp IH|x y l|l1 l2 l3 _ IH1 _ IH2]; [done| | |by auto].
  - intros [Hx Hs]. split; [by rewrite <- Hp | by apply IH].
  - intros [Hy [Hx Hs]]. apply Forall_cons in Hy as [Hyx Hy]. split; [|done]. apply Forall_cons. split; [by apply apart_sym | done].
Qed.
Lemma inv_perm s fl live live' : live ≡ₚ live' -> inv s fl live -> inv s fl live'.
Proof.
  intros Hp (? & ? & ? & Hsz & ? & Hin & Hse & Hap & ?). unfold sizes, inside in *. rewrite Hp in Hsz, Hin, Hap. unfold inv, sizes, inside.
  by pose proof (separate_perm _ _ Hp Hse).
Qed.
Lemma free_ok i r m s live : heap s live -> live !! i = Some (r, m) ->
  exists s', free (r + HDR) s = Ret tt s' /\ heap s' (delete i live).
Proof.
  intros [(_ & -> & _)|[fl Hinv]] Hi; [done|]. apply (inv_perm _ _ _ _ (delete_Permutation _ _ _ Hi)) in Hinv.
  pose proof Hinv as (_ & _ & _ & _ & _ & Hin & _ & _ & _ & Hbrk). apply Forall_cons in Hin as [Hin _]. simpl in Hin.
  destruct (free_block_ok _ _ _ _ _ Hinv) as (fl' & s' & E & Hinv' & _). exists s'. split; [|right; by exists fl'].
  unfold free. by replace (padd (r + HDR) (-1)) with r by (unfold padd; rewrite u32_small; lia).
Qed.

(** A program that allocates, and releases blocks that it has: the blocks are kept
    with the sizes that were asked for. *)
Definition sized (x y : Z * Z) : Prop := x.1 = y.1 + HDR /\ x.2 + HDR <= HDR * y.2.
Definition refusal (x : Z * Z) : Prop := grants x.1 (HDR * Z.max 4096 ((x.2 + 7) / HDR + 1)) = false.
Lemma uruns_ok l : forall s live refused blocks, Forall asks l -> heap s blocks -> Forall2 sized live blocks -> Forall refusal refused ->
  exists live' refused' s' blocks', uruns l live refused s = Ret (live', refused') s' /\
    heap s' blocks' /\ Forall2 sized live' blocks' /\ Forall refusal refused'.
Proof.
  induction l as [|o l IH]; intros s live refused blocks Ho Hh Hf Hr; [by exists live, refused, s, blocks|].
  apply Forall_cons in Ho as [Ho Hl]. destruct o as [n|i]; simpl uruns.
  - rewrite bind_gets. destruct (malloc_ok n s blocks Hh Ho) as [(s' & E & Hh' & Hg)|(r & s' & E & Hh')]; rewrite (bind_Ret _ _ _ _ _ E).
    + apply (IH _ _ _ blocks); [done | done | done |]. by apply Forall_cons.
    + assert (0 < r) as Hpos.
      { destruct Hh' as [(_ & ? & _)|[fl (_ & _ & _ & _ & _ & Hin & _)]]; [done|]. apply Forall_cons in Hin as [Hin _]. simpl in Hin. lia. }
      rewrite (proj2 (Z.eqb_neq _ _)) by lia. eapply IH; [done | done| |done]. apply Forall2_cons. split; [|done]. split; simpl; [done | zlia].
  - destruct (live !! i) as [[p n]|] eqn:Ei; [|by apply (IH _ _ _ blocks)].
    destruct (Forall2_lookup_l _ _ _ _ _ Hf Ei) as ([r m] & Hb & Hp & _). simpl in Hp. subst p. destruct (free_ok _ _ _ _ _ Hh Hb) as (s' & E & Hh').
    rewrite (bind_Ret _ _ _ _ _ E). apply (IH _ _ _ (delete i blocks)); [done | done | |done]. by apply Forall2_delete.
Qed.
Lemma separate_lookup l : forall i j x y, separate l -> i <> j -> l !! i = Some x -> l !! j = Some y -> apart x y.
Proof.
  induction l as [|z l IH]; intros i j x y Hs Hij Hi Hj; [done|]. destruct Hs as [Hz Hs]. rewrite Forall_forall in Hz.
  destruct i, j; simpl in *; simplify_eq.
  - apply Hz. by eapply list_elem_of_lookup_2.
  - apply apart_sym, Hz. by eapply list_elem_of_lookup_2.
  - by eapply (IH i j); [| congruence | |].
Qed.

(** C32: A program that starts with no memory and calls malloc, for up to 2^31 - 16
    bytes each time, and free, for blocks that it has, in any order, always gets an
    answer: the free list never loops and malloc gives zero or a block.  At the end
    the blocks it has, with the sizes it asked for, do not overlap and lie in the
    memory that sbrk gave.  malloc gave zero only when sbrk refused the memory. *)
Theorem malloc_blocks_disjoint l s : u_freep s = 0 -> brk0 <= u_brk s <= KERNBASE -> Forall asks l ->
  exists live refused s', uruns l [] [] s = Ret (live, refused) s' /\
    Forall (fun x => grants x.1 (HDR * Z.max 4096 ((x.2 + 7) / HDR + 1)) = false) refused /\
    Forall (fun x => brk0 < x.1 /\ x.1 + x.2 <= u_brk s' <= KERNBASE) live /\
    forall i j p n q m, i <> j -> live !! i = Some (p, n) -> live !! j = Some (q, m) -> p + n < q \/ q + m < p.
Proof.
  intros Hf Hb Hl. destruct (uruns_ok l s [] [] [] Hl) as (live & refused & s' & blocks & E & Hh & Hfit & Href); [by left | by apply Forall2_nil | by apply Forall_nil|].
  exists live, refused, s'. do 2 (split; [done|]). destruct Hh as [(_ & -> & _)|[fl (_ & _ & _ & _ & _ & Hin & Hse & _ & _ & Hbrk)]].
  { apply Forall2_nil_inv_r in Hfit as ->. by split. }
  unfold inside in Hin. rewrite Forall_forall in Hin. split.
  - apply Forall_forall. intros x Hx. apply list_elem_of_lookup in Hx as [i Hi]. destruct (Forall2_lookup_l _ _ _ _ _ Hfit Hi) as ([r k] & Hr & -> & Hn).
    specialize (Hin _ (list_elem_of_lookup_2 _ _ _ Hr)). simpl in *. lia.
  - intros i j p n q m Hij Hi Hj. destruct (Forall2_lookup_l _ _ _ _ _ Hfit Hi) as ([a k] & Ha & Hp & Hn).
    destruct (Forall2_lookup_l _ _ _ _ _ Hfit Hj) as ([a' k'] & Ha' & Hq & Hm). pose proof (separate_lookup _ _ _ _ _ Hse Hij Ha Ha') as Hap.
    unfold apart in Hap. simpl in *. lia.
Qed.
End umalloc.

Lemma malloc_blocks_disjoint_witness :
  let calls := [Alloc 100; Alloc 5000; Release 1; Alloc 40000; Alloc 20; Alloc 0] in
  let s := USt (fun _ => 0) (fun _ => 0) 0 8192 in
  let grants b n := b + n <=? 65536 in
  match uruns 4096 grants calls [] [] s with Ret x _ => x = ([(40928, 0); (40936, 20); (35848, 5000)], [(40960, 40000)]) | _ => False end /\
  exists live refused s', uruns 4096 grants calls [] [] s = Ret (live, refused) s' /\
    Forall (fun x => grants x.1 (HDR * Z.max 4096 ((x.2 + 7) / HDR + 1)) = false) refused /\
    Forall (fun x => 8192 < x.1 /\ x.1 + x.2 <= u_brk s' <= KERNBASE) live /\
    forall i j p n q m, i <> j -> live !! i = Some (p, n) -> live !! j = Some (q, m) -> p + n < q \/ q + m < p.
Proof.
  cbv zeta. split; [vm_compute; reflexivity|]. apply malloc_blocks_disjoint; [lia | lia | | done | simpl; lia|].
  - intros b n H. apply Z.leb_le in H. lia.
  - repeat (apply Forall_cons; split; [simpl; lia || done|]). by apply Forall_nil.
Defined.
