(* ===== verification/Boot.v ===== *)
(** * The boot loader (bootmain.c)

    bootmain reads the ELF image of the kernel from the disk, sector by sector and
    waiting for the disk, to the physical addresses that its headers say.  The
    disk is the class [Ata] of the driver; a command that is polled instead of
    ended by an interrupt has its law in [AtaPolled].  The jump to the entry of
    the kernel is the result of bootmain, [None] when bootmain returns. *)

From stdpp Require Import functions.
From S2P Require Import Prelude Mem CString Disk Ide Exec.
#[local] Open Scope Z_scope.

Abbreviation SECTSIZE := 512.
Abbreviation SCRATCH := 65536.

Definition ph_paddr (m : mem) (ph : Z) : Z := ld32 m (ph + 12).

Record boot_st (HW : Type) := BSt { b_mem : mem; b_hw : HW }.
Arguments BSt {HW} b_mem b_hw.
Arguments b_mem {HW} _.
Arguments b_hw {HW} _.

(** The bytes [d] at address [a]. *)
Definition st_bytes (a : Z) (d : list Z) (m : mem) : mem := fun x =>
  if (a <=? x) && (x <? a + Z.of_nat (length d)) then default 0 (d !! Z.to_nat (x - a)) else m x.

Section boot.
Context {HW : Type} `{!Ata HW}.
Abbreviation st := (boot_st HW).

Definition boot_out (port x : Z) : M st unit := modify (fun s => BSt (b_mem s) (outb port (u8 x) (b_hw s))).
Definition set_bmem (f : mem -> mem) : M st unit := modify (fun s => BSt (f (b_mem s)) (b_hw s)).

Fixpoint waitdisk_loop (n : nat) : M st unit :=
  match n with
  | O => diverge
  | S n =>
      x <- gets (fun s => inb 503 (b_hw s)) ;;
      let '(r, h) := x in
      modify (fun s => BSt (b_mem s) h) ;;;
      if negb (Z.land r 192 =? 64) then waitdisk_loop n else ret tt
  end.
Definition waitdisk : M st unit :=
  n <- gets (fun s => polls (b_hw s)) ;; waitdisk_loop (S n).

Definition readsect (dst offset : Z) : M st unit :=
  waitdisk ;;;
  boot_out 498 1 ;;;
  boot_out 499 offset ;;;
  boot_out 500 (Z.shiftr offset 8) ;;;
  boot_out 501 (Z.shiftr offset 16) ;;;
  boot_out 502 (Z.lor (Z.shiftr offset 24) 224) ;;;
  boot_out 503 32 ;;;
  waitdisk ;;;
  x <- gets (fun s => insl (b_hw s)) ;;
  let '(d, h) := x in
  modify (fun s => BSt (st_bytes dst d (b_mem s)) h).

Fixpoint readseg_loop (k : nat) (pa epa offset : Z) : M st unit :=
  match k with
  | O => diverge
  | S k =>
      if pa <? epa then readsect pa offset ;;; readseg_loop k (u32 (pa + SECTSIZE)) epa (u32 (offset + 1))
      else ret tt
  end.
Definition readseg (pa count offset : Z) : M st unit :=
  let epa := u32 (pa + count) in
  let pa := u32 (pa - offset mod SECTSIZE) in
  let offset := u32 (offset / SECTSIZE + 1) in
  readseg_loop (Z.to_nat (epa / SECTSIZE + 2)) pa epa offset.

(** The loop over the program headers. *)
Fixpoint boot_segments (k : nat) (ph eph : Z) : M st unit :=
  match k with
  | O => diverge
  | S k =>
      if ph <? eph then
        m <- gets b_mem ;;
        let pa := ph_paddr m ph in
        readseg pa (ph_filesz m ph) (ph_off m ph) ;;;
        m <- gets b_mem ;;
        (if ph_memsz m ph >? ph_filesz m ph
         then set_bmem (fun m => stosb m (u32 (pa + ph_filesz m ph)) 0 (ph_memsz m ph - ph_filesz m ph))
         else ret tt) ;;;
        boot_segments k (u32 (ph + PROGHDR_SIZE)) eph
      else ret tt
  end.
Definition bootmain : M st (option Z) :=
  let elf := SCRATCH in
  readseg elf 4096 0 ;;;
  m <- gets b_mem ;;
  if negb (elf_magic m elf =? ELF_MAGIC) then ret None
  else
    let ph := u32 (elf + elf_phoff m elf) in
    let eph := u32 (ph + PROGHDR_SIZE * elf_phnum m elf) in
    boot_segments (S (Z.to_nat (elf_phnum m elf))) ph eph ;;;
    m <- gets b_mem ;;
    ret (Some (elf_entry m elf)).
End boot.

(** A command that reads a sector, with the drive and the address in its registers:
    the data can be taken when the status says that the disk is ready. *)
Class AtaPolled (HW : Type) `{Ata HW} := {
  lba_poll h b0 b1 b2 b3 : idle h ->
    0 <= b0 < 256 -> 0 <= b1 < 256 -> 0 <= b2 < 256 -> 0 <= b3 < 16 ->
    let h' := outb 503 IDE_CMD_READ (outb 502 (224 + b3) (outb 501 b2 (outb 500 b1 (outb 499 b0 (outb 498 1 h))))) in
    drq h' (sector h 0 (b0 + 256 * b1 + 65536 * b2 + 16777216 * b3)) /\ sector h' = sector h;
}.

(** The image of the kernel: it starts at the second sector of the disk. *)
Definition image {HW} `{Ata HW} (h : HW) : mem := fun o => default 0 (sector h 0 (o / SECTSIZE + 1) !! Z.to_nat (o mod SECTSIZE)).

Section laws.
Context {HW : Type} `{!Ata HW} `{!PromptAta HW} `{!AtaPolled HW}.
Abbreviation st := (boot_st HW).

Lemma waitdisk_loop_ready n : forall m h, polls h = n -> idle h \/ (exists d, drq h d) -> exists h', waitdisk_loop (S n) (BSt m h) = Ret tt (BSt m h') /\
  sector h' = sector h /\ (idle h -> idle h') /\ (forall d, drq h d -> drq h' d).
Proof.
  induction n as [|n IH]; intros m h Hn Hok; pose proof (inb_status h Hok) as Hi; rewrite Hn in Hi; cbn [waitdisk_loop];
    rewrite bind_gets; cbn [b_hw]; destruct (inb 503 h) as [r h1]; destruct Hi as ((H1 & H2) & H3 & H4 & H5); rewrite bind_modify.
  - exists h1. change 192 with (Z.lor IDE_BSY IDE_DRDY). by rewrite H1.
  - change 192 with (Z.lor IDE_BSY IDE_DRDY). rewrite (proj2 (Z.eqb_neq _ _) H1). destruct (IH m h1 H2 ltac:(naive_solver)) as (h' & E & Es & Ei & Ed).
    exists h'. split; [exact E|]. rewrite Es. naive_solver.
Qed.
Lemma waitdisk_ready m h : idle h \/ (exists d, drq h d) -> exists h', waitdisk (BSt m h) = Ret tt (BSt m h') /\
  sector h' = sector h /\ (idle h -> idle h') /\ (forall d, drq h d -> drq h' d).
Proof. intros Hok. unfold waitdisk. rewrite bind_gets. by apply waitdisk_loop_ready. Qed.

Lemma lor_224 x : 0 <= x < 16 -> Z.lor x 224 = 224 + x.
Proof. intros Hx. assert (x = 0 \/ x = 1 \/ x = 2 \/ x = 3 \/ x = 4 \/ x = 5 \/ x = 6 \/ x = 7 \/ x = 8 \/ x = 9 \/ x = 10 \/ x = 11 \/ x = 12 \/ x = 13 \/ x = 14 \/ x = 15) as Hc by lia. naive_solver. Qed.
Lemma readsect_ok dst n m h : idle h -> 0 <= n < 268435456 -> exists h', readsect dst n (BSt m h) = Ret tt (BSt (st_bytes dst (sector h 0 n) m) h') /\
  idle h' /\ sector h' = sector h.
Proof.
  intros Hi Hn. destruct (waitdisk_ready m h (or_introl Hi)) as (h1 & E1 & Es1 & Hi1 & _). specialize (Hi1 Hi).
  destruct (lba_poll h1 (n mod 256) (n / 256 mod 256) (n / 65536 mod 256) (n / 16777216) Hi1) as [Hd Es2]; [zlia..|].
  rewrite Es1 in Hd, Es2. replace (n mod 256 + _ + _ + _) with n in Hd by zlia.
  match type of Hd with drq ?h2 _ => destruct (waitdisk_ready m h2 (or_intror (ex_intro _ _ Hd))) as (h3 & E3 & Es3 & _ & Hd3) end.
  apply Hd3 in Hd. pose proof (insl_data _ _ Hd) as Hins. destruct (insl h3) as [d h4] eqn:E4. destruct Hins as (-> & Hi4 & Es4).
  exists h4. split; [|split; [done | congruence]]. unfold readsect, boot_out. rewrite (bind_Ret _ _ _ _ _ E1). repeat (rewrite bind_modify). simpl b_mem. simpl b_hw.
  rewrite !Z.shiftr_div_pow2 by lia. change (2 ^ 8) with 256. change (2 ^ 16) with 65536. change (2 ^ 24) with 16777216. rewrite lor_224 by zlia.
  unfold u8 at 1 2 3 4 5 6. change (1 mod 256) with 1. change (32 mod 256) with 32. rewrite (Z.mod_small (224 + n / 16777216)) by zlia.
  rewrite (bind_Ret _ _ _ _ _ E3), bind_gets. cbn [b_hw b_mem]. rewrite E4. cbn [b_hw b_mem]. done.
Qed.

(** ** Segments *)

Lemma image_sector h n x : idle h -> 0 <= x < SECTSIZE -> image h (x + SECTSIZE * n) = default 0 (sector h 0 (n + 1) !! Z.to_nat x).
Proof. intros Hi Hx. unfold image. by replace ((x + SECTSIZE * n) / SECTSIZE) with n by zlia; replace ((x + SECTSIZE * n) mod SECTSIZE) with x by zlia. Qed.
Lemma readseg_loop_ok epa c : forall k pa n m h, idle h -> Z.of_nat c = Z.max 0 ((epa - pa + 511) / SECTSIZE) -> (c < k)%nat ->
  0 <= pa -> pa + SECTSIZE * Z.of_nat c < W32 -> 0 <= n -> n + Z.of_nat c < 268435455 ->
  exists m' h', readseg_loop k pa epa (n + 1) (BSt m h) = Ret tt (BSt m' h') /\ idle h' /\ sector h' = sector h /\
    forall x, m' x = if (pa <=? x) && (x <? pa + SECTSIZE * Z.of_nat c) then image h (x - pa + SECTSIZE * n) else m x.
Proof.
  induction c as [|c IH]; intros k pa n m h Hi Hc Hk Hpa Hend Hn Hnc; destruct k as [|k]; try lia; cbn [readseg_loop].
  - rewrite (proj2 (Z.ltb_ge _ _)) by zlia. exists m, h. do 3 (split; [done|]). intros x. zcases.
  - rewrite (proj2 (Z.ltb_lt _ _)) by zlia. destruct (readsect_ok pa (n + 1) m h Hi ltac:(lia)) as (h1 & E1 & Hi1 & Es1).
    rewrite (bind_Ret _ _ _ _ _ E1), !u32_small by lia.
    destruct (IH k (pa + SECTSIZE) (n + 1) (st_bytes pa (sector h 0 (n + 1)) m) h1 Hi1) as (m' & h' & E & Hi' & Es & Hm); [zlia..|].
    exists m', h'. split; [done|]. split; [done|]. split; [congruence|]. intros x. rewrite Hm. unfold st_bytes.
    replace (length (sector h 0 (n + 1))) with 512%nat by (symmetry; apply (sector_ok h 0 (n + 1) Hi)).
    assert (image h1 = image h) as -> by (unfold image; by rewrite Es1).
    zcases; try lia; [f_equal; lia|]. rewrite image_sector by (done || lia). done.
Qed.

(** The bytes that readseg writes, from the start of the sector that the segment
    starts in. *)
Definition seg_start (pa off : Z) : Z := pa - off mod SECTSIZE.
Definition seg_span (count off : Z) : Z := SECTSIZE * ((count + off mod SECTSIZE + 511) / SECTSIZE).
Lemma readseg_ok pa count off m h : idle h -> 0 <= count -> 0 <= off < W32 -> 0 <= seg_start pa off -> pa + count + SECTSIZE <= W32 ->
  exists m' h', readseg pa count off (BSt m h) = Ret tt (BSt m' h') /\ idle h' /\ sector h' = sector h /\
    forall x, m' x = if (seg_start pa off <=? x) && (x <? seg_start pa off + seg_span count off) then image h (off + (x - pa)) else m x.
Proof.
  intros Hi Hc Hoff Hst Hend. unfold seg_start, seg_span in *. unfold readseg. cbv zeta. rewrite !u32_small by zlia.
  destruct (readseg_loop_ok (pa + count) (Z.to_nat ((count + off mod SECTSIZE + 511) / SECTSIZE)) (Z.to_nat ((pa + count) / SECTSIZE + 2))
    (pa - off mod SECTSIZE) (off / SECTSIZE) m h Hi) as (m' & h' & E & Hi' & Es & Hm); [zlia..|].
  exists m', h'. split; [done|]. do 2 (split; [done|]). intros x. rewrite Hm, Z2Nat.id by zlia.
  by replace (x - (pa - off mod SECTSIZE) + SECTSIZE * (off / SECTSIZE)) with (off + (x - pa)) by zlia.
Qed.

(** A program header, of the image or of the copy of its first page. *)
Record bseg := BSeg { g_pa : Z; g_filesz : Z; g_memsz : Z; g_off : Z }.
Definition seg_of (m : mem) (ph : Z) : bseg := BSeg (ph_paddr m ph) (ph_filesz m ph) (ph_memsz m ph) (ph_off m ph).
Fixpoint segs_of (m : mem) (ph : Z) (n : nat) : list bseg :=
  match n with O => [] | S n => seg_of m ph :: segs_of m (ph + PROGHDR_SIZE) n end.
Definition g_size (g : bseg) : Z := Z.max (g_filesz g) (g_memsz g).
(** Segments in the order of their addresses: the sector that one starts in does
    not reach into the one before. *)
Fixpoint loadable (lo : Z) (l : list bseg) : Prop :=
  match l with
  | [] => True
  | g :: l => lo <= seg_start (g_pa g) (g_off g) /\ g_pa g + g_size g + SECTSIZE <= W32 /\ loadable (g_pa g + g_size g) l
  end.
(** The bytes of the file, and zeros for the rest. *)
Definition loaded (img m : mem) (g : bseg) : Prop :=
  forall x, 0 <= x < g_size g -> m (g_pa g + x) = if x <? g_filesz g then img (g_off g + x) else 0.
Definition kept (img m : mem) : Prop := forall x, 0 <= x < 4096 -> m (SCRATCH + x) = img x.

Lemma image_ok h : idle h -> mem_ok (image h).
Proof.
  intros Hi x. unfold image. destruct (sector h 0 (x / SECTSIZE + 1) !! Z.to_nat (x mod SECTSIZE)) as [b|] eqn:E; simpl; [|lia].
  destruct (sector_ok h 0 (x / SECTSIZE + 1) Hi) as [_ Hb]. by apply (Forall_lookup_1 _ _ _ _ Hb) in E.
Qed.
Lemma kept_ld32 img m o : kept img m -> 0 <= o -> o + 4 <= 4096 -> ld32 m (SCRATCH + o) = ld32 img o.
Proof. intros Hk H0 H1. unfold ld32. rewrite <- !Z.add_assoc, !Hk by lia. done. Qed.
Lemma kept_seg img m o : kept img m -> 0 <= o -> o + PROGHDR_SIZE <= 4096 -> seg_of m (SCRATCH + o) = seg_of img o.
Proof.
  intros Hk H0 H1. unfold seg_of, ph_paddr, ph_filesz, ph_memsz, ph_off. rewrite <- !Z.add_assoc, !(kept_ld32 img) by (done || lia). done.
Qed.
Lemma seg_of_range img o : mem_ok img -> let g := seg_of img o in
  0 <= g_pa g < W32 /\ 0 <= g_filesz g < W32 /\ 0 <= g_memsz g < W32 /\ 0 <= g_off g < W32.
Proof. intros Hm. simpl. repeat split; apply ld32_range; done. Qed.

(** One round of the loop. *)
Lemma segment_ok o m h lo : let g := seg_of (image h) o in
  kept (image h) m -> idle h -> 0 <= o -> o + PROGHDR_SIZE <= 4096 -> SCRATCH + 4096 <= lo -> lo <= seg_start (g_pa g) (g_off g) -> g_pa g + g_size g + SECTSIZE <= W32 ->
  exists m' h', (forall k eph, SCRATCH + o < eph -> boot_segments (S k) (SCRATCH + o) eph (BSt m h) = boot_segments k (SCRATCH + (o + PROGHDR_SIZE)) eph (BSt m' h')) /\
    idle h' /\ sector h' = sector h /\ (forall x, x < lo -> m' x = m x) /\ loaded (image h) m' g.
Proof.
  intros g Hk Hi H0 H1 Hlo Hst Hend. pose proof (seg_of_range (image h) o (image_ok h Hi)) as (R1 & R2 & R3 & R4). fold g in R1, R2, R3, R4.
  unfold g_size in Hend. destruct (readseg_ok (g_pa g) (g_filesz g) (g_off g) m h Hi) as (m1 & h1 & E1 & Hi1 & Es1 & Hm1); [lia..|].
  assert (kept (image h) m1) as Hk1 by (intros x Hx; rewrite Hm1; zcases; by apply Hk).
  pose proof (kept_seg _ _ _ Hk H0 H1) as G. pose proof (kept_seg _ _ _ Hk1 H0 H1) as G1. fold g in G, G1. clearbody g.
  exists (if g_memsz g >? g_filesz g then stosb m1 (g_pa g + g_filesz g) 0 (g_memsz g - g_filesz g) else m1), h1. split; [|split; [done|]; split; [done|]].
  - intros k eph Hlt. cbn [boot_segments]. rewrite (proj2 (Z.ltb_lt _ _)) by lia. rewrite bind_gets. cbv zeta. cbn [b_mem].
    rewrite (f_equal g_pa G : ph_paddr m _ = _), (f_equal g_filesz G : ph_filesz m _ = _), (f_equal g_off G : ph_off m _ = _).
    rewrite (bind_Ret _ _ _ _ _ E1), bind_gets. cbn [b_mem].
    rewrite (f_equal g_memsz G1 : ph_memsz m1 _ = _), (f_equal g_filesz G1 : ph_filesz m1 _ = _).
    replace (u32 (SCRATCH + o + PROGHDR_SIZE)) with (SCRATCH + (o + PROGHDR_SIZE)) by (rewrite u32_small; lia).
    destruct (g_memsz g >? g_filesz g) eqn:Ec; [|done]. unfold set_bmem. rewrite bind_modify. cbn [b_mem b_hw].
    rewrite (f_equal g_memsz G1 : ph_memsz m1 _ = _), (f_equal g_filesz G1 : ph_filesz m1 _ = _).
    rewrite u32_small by lia. done.
  - unfold seg_start, seg_span in *. pose proof (Z.mod_pos_bound (g_off g) SECTSIZE ltac:(lia)). split.
    + intros x Hx. destruct (_ >? _) eqn:Ec; [rewrite stosb_out by lia|]; rewrite Hm1; zcases.
    + intros x Hx. unfold g_size in Hx. destruct (g_memsz g >? g_filesz g) eqn:Ec.
      * destruct (Z.ltb_spec x (g_filesz g)); [|by rewrite stosb_in by lia]. rewrite stosb_out, Hm1 by lia. zcases; (f_equal; lia) || zlia.
      * rewrite Hm1. zcases; (f_equal; lia) || zlia.
Qed.
Lemma loaded_kept img m m' g hi : loaded img m g -> g_pa g + g_size g <= hi -> (forall x, x < hi -> m' x = m x) -> loaded img m' g.
Proof. intros Hl Hhi Hm x Hx. rewrite Hm by lia. by apply Hl. Qed.
Lemma boot_segments_ok n : forall k o m h lo, kept (image h) m -> idle h -> 0 <= o -> o + PROGHDR_SIZE * Z.of_nat n <= 4096 -> SCRATCH + 4096 <= lo ->
  loadable lo (segs_of (image h) o n) -> (n < k)%nat ->
  exists m' h', boot_segments k (SCRATCH + o) (SCRATCH + o + PROGHDR_SIZE * Z.of_nat n) (BSt m h) = Ret tt (BSt m' h') /\
    idle h' /\ sector h' = sector h /\ (forall x, x < lo -> m' x = m x) /\ Forall (loaded (image h) m') (segs_of (image h) o n).
Proof.
  induction n as [|n IH]; intros k o m h lo Hk Hi H0 H1 Hlo Hl Hf; destruct k as [|k]; try lia.
  - exists m, h. cbn [boot_segments]. rewrite (proj2 (Z.ltb_ge _ _)) by lia. do 4 (split; [done|]). by apply Forall_nil.
  - destruct Hl as (Hst & Hend & Hl). destruct (segment_ok o m h lo Hk Hi H0 ltac:(lia) Hlo Hst Hend) as (m1 & h1 & E & Hi1 & Es1 & Hm1 & Hld).
    assert (image h1 = image h) as Ei by (unfold image; by rewrite Es1). rewrite E by lia.
    assert (lo <= g_pa (seg_of (image h) o) + g_size (seg_of (image h) o)) as Hlo'.
    { destruct (seg_of_range (image h) o (image_ok h Hi)) as (_ & ? & _). unfold seg_start, g_size in *. zlia. }
    destruct (IH k (o + PROGHDR_SIZE) m1 h1 (g_pa (seg_of (image h) o) + g_size (seg_of (image h) o))) as (m' & h' & E' & Hi' & Es' & Hm' & Hld'); rewrite ?Ei; try done; try lia.
    { intros x Hx. rewrite Hm1 by lia. by apply Hk. }
    exists m', h'. split; [rewrite <- E'; f_equal; lia|]. split; [done|]. split; [congruence|]. split; [intros x Hx; rewrite Hm', Hm1 by lia; done|].
    rewrite Ei in Hld'. apply Forall_cons. split; [|done]. by eapply loaded_kept.
Qed.

(** C38: The boot loader.  When the first page of the image on the disk does not have
    the magic number, bootmain returns.  Otherwise, if the program headers lie in
    the first page and the segments are in the order of their addresses, above the
    page where the headers are read, such that the sectors of one do not reach back
    into the one before, bootmain returns the entry point, with every segment in
    memory: the bytes of the file, then zeros up to its size.  What the last sector
    of a segment writes beyond its end is overwritten by the next one. *)
Theorem bootmain_loads_kernel m h : idle h ->
  let img := image h in
  let n := Z.to_nat (elf_phnum img 0) in
  (elf_magic img 0 <> ELF_MAGIC -> exists s', bootmain (BSt m h) = Ret None s') /\
  (elf_magic img 0 = ELF_MAGIC -> elf_phoff img 0 + PROGHDR_SIZE * elf_phnum img 0 <= 4096 -> loadable (SCRATCH + 4096) (segs_of img (elf_phoff img 0) n) ->
   exists m' h', bootmain (BSt m h) = Ret (Some (elf_entry img 0)) (BSt m' h') /\ Forall (loaded img m') (segs_of img (elf_phoff img 0) n)).
Proof.
  intros Hi img n. destruct (readseg_ok SCRATCH 4096 0 m h Hi) as (m1 & h1 & E1 & Hi1 & Es1 & Hm1); try (unfold seg_start; zlia).
  assert (kept img m1) as Hk by (intros x Hx; rewrite Hm1; unfold seg_start, seg_span; zcases; (f_equal; lia) || zlia).
  assert (image h1 = img) as Ei by (unfold img, image; by rewrite Es1).
  pose proof (kept_ld32 img m1 0 Hk ltac:(lia) ltac:(lia)) as Emag. pose proof (kept_ld32 img m1 28 Hk ltac:(lia) ltac:(lia)) as Eoff.
  assert (elf_phnum m1 SCRATCH = elf_phnum img 0) as Enum by (unfold elf_phnum; by rewrite !Hk by lia).
  pose proof (ld32_range img 28 (image_ok h Hi)) as Ro. assert (0 <= elf_phnum img 0) as Rn by (unfold elf_phnum; pose proof (image_ok h Hi (0 + 44)); pose proof (image_ok h Hi (0 + 45)); unfold img; lia).
  unfold bootmain. rewrite (bind_Ret _ _ _ _ _ E1), bind_gets. cbv zeta. cbn [b_mem]. rewrite (Emag : elf_magic m1 SCRATCH = elf_magic img 0). split.
  - intros Hne. rewrite (proj2 (Z.eqb_neq _ _) Hne). by eexists.
  - intros -> Hph Hl. rewrite Z.eqb_refl. cbn [negb]. rewrite Enum, (Eoff : elf_phoff m1 SCRATCH = elf_phoff img 0).
    change (ld32 img 28) with (elf_phoff img 0) in *.
    destruct (boot_segments_ok n (S n) (elf_phoff img 0) m1 h1 (SCRATCH + 4096)) as (m' & h' & E & Hi' & Es' & Hm' & Hld); rewrite ?Ei; try done; try lia.
    rewrite !u32_small by lia. exists m', h'. rewrite Ei in Hld. split; [|done]. replace (PROGHDR_SIZE * elf_phnum img 0) with (PROGHDR_SIZE * Z.of_nat n) by lia.
    fold n. rewrite (bind_Ret _ _ _ _ _ E), bind_gets. unfold ret, elf_entry. cbn [b_mem]. do 2 f_equal.
    etransitivity; [|apply (kept_ld32 img m1 24 Hk); lia]. apply ld32_ext.
    intros x Hx. apply Hm'. lia.
Qed.
End laws.

(** ** An image *)

#[export] Instance toy_polled : AtaPolled toy.
Proof.
  split. intros h b0 b1 b2 b3 (Hc & Hst & Hd) H0 H1 H2 H3. cbn.
  replace (toy_dev _) with 0 by (unfold toy_dev; cbn; zlia).
  replace (toy_sector _) with (b0 + 256 * b1 + 65536 * b2 + 16777216 * b3) by (unfold toy_sector; cbn; zlia). done.
Qed.

(** A header with two program headers at 52; the text of 600 bytes at offset 1000 goes
    to 0x100000 and the data of 5 bytes at offset 1600 to 0x100400, with 20 bytes
    of memory. *)
Definition boot_file (o : Z) : Z :=
  let word a w := if (a <=? o) && (o <? a + 4) then byte_of w (o - a) else 0 in
  if o <? 52 then word 0 ELF_MAGIC + word 24 1048588 + word 28 52 + word 44 2
  else if o <? 84 then word 56 1000 + word 64 1048576 + word 68 600 + word 72 600
  else if o <? 116 then word 88 1600 + word 96 1049600 + word 100 5 + word 104 20
  else o mod 251.
Definition boot_disk : toy :=
  Toy IDE_DRDY (fun _ => 0) (fun _ n => map (fun i => u8 (boot_file (SECTSIZE * (n - 1) + Z.of_nat i))) (seq 0 512)) 0 [].
Lemma boot_disk_idle : idle boot_disk.
Proof.
  do 2 (split; [done|]). intros dev n. split; [done|]. apply Forall_forall. intros x Hx.
  apply list_elem_of_fmap in Hx as (i & -> & _). apply u8_range.
Qed.
Lemma bootmain_loads_kernel_witness :
  exists m' h', bootmain (BSt (fun _ => 7) boot_disk) = Ret (Some 1048588) (BSt m' h') /\
    Forall (loaded (image boot_disk) m') [BSeg 1048576 600 600 1000; BSeg 1049600 5 20 1600].
Proof.
  assert (segs_of (image boot_disk) 52 2 = [BSeg 1048576 600 600 1000; BSeg 1049600 5 20 1600]) as E by (vm_compute; reflexivity).
  rewrite <- E. destruct (bootmain_loads_kernel (fun _ => 7) boot_disk boot_disk_idle) as [_ H].
  apply H; [vm_compute; reflexivity | vm_compute; discriminate |].
  change (loadable (SCRATCH + 4096) (segs_of (image boot_disk) 52 2)). rewrite E. vm_compute. repeat split; discriminate.
Defined.
