(* ===== verification/Mp.v ===== *)
(** * Discovery of the processors (mp.c)

    The BIOS leaves a floating structure in one of three areas of memory, which
    points to a table of the processors and the interrupt controllers.  mpinit
    reads the table and fills cpus[], which mycpu searches.

    Memory is read only.  Local APICs are mapped at the address that the table
    gives; their registers and what the input ports return are parameters. *)

From stdpp Require Import functions.
From S2P Require Import Prelude Mem Mmu Spinlock.
#[local] Open Scope Z_scope.

Abbreviation NCPU := 8%nat.
Abbreviation MP_SIZE := 16.
Abbreviation MPCONF_SIZE := 44.
Abbreviation MPPROC := 0.
Abbreviation MPBUS := 1.
Abbreviation MPIOAPIC := 2.
Abbreviation MPIOINTR := 3.
Abbreviation MPLINTR := 4.

(** Fields of [struct mp] and [struct mpconf]. *)
Definition mp_physaddr (m : mem) (mp : Z) : Z := ld32 m (mp + 4).
Definition mp_imcrp (m : mem) (mp : Z) : Z := m (mp + 12).
Definition conf_length (m : mem) (conf : Z) : Z := m (conf + 4) + 256 * m (conf + 5).
Definition conf_version (m : mem) (conf : Z) : Z := m (conf + 6).
Definition conf_lapicaddr (m : mem) (conf : Z) : Z := ld32 m (conf + 36).

Fixpoint sum_loop (m : mem) (addr : Z) (len : nat) (acc : Z) : Z :=
  match len with O => acc | S len => sum_loop m (addr + 1) len (s32 (acc + m addr)) end.
Definition sum (m : mem) (addr len : Z) : Z := u8 (sum_loop m addr (Z.to_nat len) 0).

(** memcmp with a constant string. *)
Fixpoint memcmp_str (m : mem) (p : Z) (s : list Z) : Z :=
  match s with
  | [] => 0
  | c :: s => if m p =? c then memcmp_str m (p + 1) s else m p - c
  end.
Definition MP_SIGN : list Z := [95; 77; 80; 95].
Definition PCMP_SIGN : list Z := [80; 67; 77; 80].

(** The structure at the addresses from [p] up to [e]. *)
Fixpoint mpsearch1_loop (k : nat) (m : mem) (p e : Z) : option Z :=
  match k with
  | O => None
  | S k =>
      if p <? e then
        if (memcmp_str m p MP_SIGN =? 0) && (sum m p MP_SIZE =? 0) then Some p
        else mpsearch1_loop k m (u32 (p + MP_SIZE)) e
      else None
  end.
Definition mpsearch1 (m : mem) (a len : Z) : option Z :=
  let addr := P2V a in
  mpsearch1_loop (Z.to_nat (len / MP_SIZE + 1)) m addr (u32 (addr + len)).
Definition mpsearch (m : mem) : option Z :=
  let bda := P2V 1024 in
  let p := Z.shiftl (Z.lor (Z.shiftl (m (bda + 15)) 8) (m (bda + 14))) 4 in
  let rom := mpsearch1 m 983040 65536 in
  if negb (p =? 0) then
    match mpsearch1 m p 1024 with Some mp => Some mp | None => rom end
  else
    let p := Z.lor (Z.shiftl (m (bda + 20)) 8) (m (bda + 19)) * 1024 in
    match mpsearch1 m (u32 (p - 1024)) 1024 with Some mp => Some mp | None => rom end.

(** The configuration table and the structure that points to it. *)
Definition mpconfig (m : mem) : option (Z * Z) :=
  match mpsearch m with
  | None => None
  | Some mp =>
      if mp_physaddr m mp =? 0 then None
      else
        let conf := P2V (mp_physaddr m mp) in
        if negb (memcmp_str m conf PCMP_SIGN =? 0) then None
        else if negb (conf_version m conf =? 1) && negb (conf_version m conf =? 4) then None
        else if negb (sum m conf (conf_length m conf) =? 0) then None
        else Some (mp, conf)
  end.

Record mpst := MpSt {
  mp_smp : smp;
  ioapicid : Z;
  mp_ports : list (Z * Z);     (* the writes to ports, the last one first *)
}.
Definition set_smp (f : smp -> smp) : M mpst unit := modify (fun s => MpSt (f (mp_smp s)) (ioapicid s) (mp_ports s)).
Definition set_ioapicid (x : Z) : M mpst unit := modify (fun s => MpSt (mp_smp s) x (mp_ports s)).
Definition mp_outb (port x : Z) : M mpst unit := modify (fun s => MpSt (mp_smp s) (ioapicid s) ((port, u8 x) :: mp_ports s)).
Definition add_cpu (id : Z) (s : smp) : smp :=
  if (ncpu s <? NCPU)%nat
  then Smp (eflags s) (lapic s) (alter (fun c => Cpu id (ncli c) (intena c) (cpu_proc c)) (ncpu s) (cpus s)) (S (ncpu s)) (locks s) (stack s)
  else s.

Section mp.
Context (m : mem) (apic_at : Z -> nat -> Z) (inb : Z -> Z).

Definition set_lapic (addr : Z) (s : smp) : smp :=
  Smp (eflags s) (if addr =? 0 then None else Some (apic_at addr)) (cpus s) (ncpu s) (locks s) (stack s).

(** The loop over the entries of the table; an entry of another type is not left. *)
Fixpoint mpinit_loop (k : nat) (p e : Z) (ismp : bool) : M mpst bool :=
  match k with
  | O => diverge
  | S k =>
      if p <? e then
        let t := m p in
        if t =? MPPROC then set_smp (add_cpu (m (p + 1))) ;;; mpinit_loop k (u32 (p + 20)) e ismp
        else if t =? MPIOAPIC then set_ioapicid (m (p + 1)) ;;; mpinit_loop k (u32 (p + 8)) e ismp
        else if (t =? MPBUS) || (t =? MPIOINTR) || (t =? MPLINTR) then mpinit_loop k (u32 (p + 8)) e ismp
        else mpinit_loop k p e false
      else ret ismp
  end.
Definition mpinit : M mpst unit :=
  match mpconfig m with
  | None => panic "Expect to run on an SMP"
  | Some (mp, conf) =>
      set_smp (set_lapic (conf_lapicaddr m conf)) ;;;
      ismp <- mpinit_loop (S (Z.to_nat (conf_length m conf))) (u32 (conf + MPCONF_SIZE)) (u32 (conf + conf_length m conf)) true ;;
      panic_if (negb ismp) "Didn't find a suitable machine" ;;;
      if negb (mp_imcrp m mp =? 0) then
        mp_outb 34 112 ;;;
        mp_outb 35 (Z.lor (inb 35) 1)
      else ret tt
  end.
End mp.

(** ** The search *)

Definition total (l : list Z) : Z := foldr Z.add 0 l.
(** A floating structure: its signature, and bytes that add up to zero. *)
Definition is_mp (m : mem) (p : Z) : bool :=
  bool_decide (bytes_at m p 4 = MP_SIGN) && (total (bytes_at m p 16) mod 256 =? 0).
Definition grid (a len : Z) : list Z := map (fun i => P2V a + MP_SIZE * Z.of_nat i) (seq 0 (Z.to_nat (len / MP_SIZE))).
(** The addresses that are searched: the extended BIOS data area if there is one,
    else the last kilobyte of the base memory; then the ROM. *)
Definition ebda (m : mem) : Z := 16 * (256 * m (P2V 1024 + 15) + m (P2V 1024 + 14)).
Definition base_memory (m : mem) : Z := 1024 * (256 * m (P2V 1024 + 20) + m (P2V 1024 + 19)).
Definition candidates (m : mem) : list Z :=
  (if ebda m =? 0 then grid (u32 (base_memory m - 1024)) 1024 else grid (ebda m) 1024) ++ grid 983040 65536.

Lemma sum_loop_total m n : forall a acc, mem_ok m -> 0 <= acc -> acc + 255 * Z.of_nat n < 2147483648 ->
  sum_loop m a n acc = acc + total (bytes_at m a n).
Proof.
  induction n as [|n IH]; intros a acc Hm Ha Hb; simpl; [lia|]. pose proof (Hm a).
  replace (s32 (acc + m a)) with (acc + m a) by (unfold s32; rewrite u32_small by lia; zcases). rewrite IH by (done || lia). unfold total at 2. simpl. unfold total. lia.
Qed.
Lemma sum_total m a len : mem_ok m -> 0 <= len < 65536 -> sum m a len = total (bytes_at m a (Z.to_nat len)) mod 256.
Proof. intros Hm Hl. unfold sum. by rewrite sum_loop_total by (done || lia). Qed.
Lemma memcmp_str_zero m s : forall p, (memcmp_str m p s =? 0) = bool_decide (bytes_at m p (length s) = s).
Proof.
  induction s as [|c s IH]; intros p; simpl; [done|]. destruct (Z.eqb_spec (m p) c) as [->|Hne].
  - rewrite IH. apply bool_decide_ext. split; [by intros -> | by intros [=]].
  - rewrite (proj2 (Z.eqb_neq _ _)) by lia. rewrite bool_decide_eq_false_2; [done|]. intros [=]. done.
Qed.
Lemma mpsearch1_find m n : forall k p, mem_ok m -> 0 <= p -> p + MP_SIZE * Z.of_nat n < W32 -> (n < k)%nat ->
  mpsearch1_loop k m p (p + MP_SIZE * Z.of_nat n) = List.find (is_mp m) (map (fun i => p + MP_SIZE * Z.of_nat i) (seq 0 n)).
Proof.
  induction n as [|n IH]; intros k p Hm Hp He Hk; destruct k as [|k]; try lia; cbn [mpsearch1_loop].
  - by rewrite (proj2 (Z.ltb_ge _ _)) by lia.
  - rewrite (proj2 (Z.ltb_lt _ _)) by lia. rewrite memcmp_str_zero, sum_total by (done || lia). cbn [seq map List.find]. change (p + MP_SIZE * Z.of_nat 0) with (p + 0). rewrite Z.add_0_r. unfold is_mp at 1.
    change (Z.to_nat MP_SIZE) with 16%nat. change (length MP_SIGN) with 4%nat. destruct (_ && _); [done|].
    rewrite u32_small by lia. replace (p + MP_SIZE * Z.of_nat (S n)) with (p + MP_SIZE + MP_SIZE * Z.of_nat n) by lia. rewrite IH by (done || lia).
    rewrite <- seq_shift, map_map. f_equal. apply map_ext. intros i. lia.
Qed.
Lemma mpsearch1_grid m a n : mem_ok m -> P2V a + MP_SIZE * Z.of_nat n < W32 -> mpsearch1 m a (MP_SIZE * Z.of_nat n) = List.find (is_mp m) (grid a (MP_SIZE * Z.of_nat n)).
Proof.
  intros Hm He. unfold mpsearch1, grid. cbv zeta. assert (0 <= P2V a) by (unfold P2V; pose proof (u32_range (a + KERNBASE)); lia). rewrite u32_small by lia.
  replace (MP_SIZE * Z.of_nat n / MP_SIZE) with (Z.of_nat n) by zlia. rewrite Nat2Z.id. apply mpsearch1_find; [done | done | done | lia].
Qed.
Lemma find_app {A} (f : A -> bool) l1 l2 : List.find f (l1 ++ l2) = match List.find f l1 with Some x => Some x | None => List.find f l2 end.
Proof. induction l1 as [|x l1 IH]; simpl; [done|]. by destruct (f x). Qed.
Lemma lor_bytes x y : 0 <= y < 256 -> Z.lor (Z.shiftl x 8) y = 256 * x + y.
Proof.
  intros Hy. rewrite <- Z.add_nocarry_lor.
  - rewrite Z.shiftl_mul_pow2 by lia. change (2 ^ 8) with 256. lia.
  - apply Z.bits_inj'. intros i Hi. rewrite Z.land_spec, Z.bits_0. destruct (Z.ltb_spec i 8).
    + by rewrite Z.shiftl_spec_low.
    + rewrite (Z.bits_above_log2 y i), andb_false_r; [done | lia |]. destruct (decide (y = 0)) as [->|]; [simpl; lia|].
      apply Z.lt_le_trans with 8; [|done]. apply Z.log2_lt_pow2; lia.
Qed.
Lemma mpsearch_find m : mem_ok m -> mpsearch m = List.find (is_mp m) (candidates m).
Proof.
  intros Hm. unfold mpsearch, candidates. cbv zeta. rewrite find_app, !lor_bytes by apply Hm.
  rewrite Z.shiftl_mul_pow2 by lia. change (2 ^ 4) with 16. rewrite Z.mul_comm. fold (ebda m). rewrite (Z.mul_comm _ 1024). fold (base_memory m).
  pose proof (mpsearch1_grid m 983040 4096 Hm eq_refl) as Erom. change (MP_SIZE * Z.of_nat 4096) with 65536 in Erom. rewrite Erom.
  pose proof (Hm (P2V 1024 + 15)). pose proof (Hm (P2V 1024 + 14)). pose proof (Hm (P2V 1024 + 20)). pose proof (Hm (P2V 1024 + 19)).
  assert (forall a, P2V a + 1024 < W32 -> mpsearch1 m a 1024 = List.find (is_mp m) (grid a 1024)) as Eg by (intros a Ha; by apply (mpsearch1_grid m a 64)).
  destruct (Z.eqb_spec (ebda m) 0) as [E|E]; simpl negb; cbv iota; rewrite Eg; try done.
  - unfold base_memory. assert (0 <= 256 * m (P2V 1024 + 20) + m (P2V 1024 + 19) < 65536) as Hb by lia. revert Hb. generalize (256 * m (P2V 1024 + 20) + m (P2V 1024 + 19)).
    intros b Hb. destruct (decide (b = 0)) as [->|]; [done|]. unfold P2V.
    rewrite (u32_small (1024 * b - 1024)) by lia. rewrite u32_small; lia.
  - unfold ebda. unfold P2V at 1. rewrite u32_small; lia.
Qed.

(** ** The table *)

(** An entry, with the bytes that are not used. *)
Inductive mpentry :=
| EProc (id : Z) (rest : list Z)
| EIoapic (id : Z) (rest : list Z)
| EOther (t : Z) (rest : list Z).
Definition entry_ok (x : mpentry) : Prop :=
  match x with
  | EProc _ l => length l = 18%nat
  | EIoapic _ l => length l = 6%nat
  | EOther t l => (t = MPBUS \/ t = MPIOINTR \/ t = MPLINTR) /\ length l = 7%nat
  end.
Definition entry_bytes (x : mpentry) : list Z :=
  match x with EProc id l => MPPROC :: id :: l | EIoapic id l => MPIOAPIC :: id :: l | EOther t l => t :: l end.
Definition table_bytes (l : list mpentry) : list Z := concat (map entry_bytes l).
Definition proc_ids (l : list mpentry) : list Z := flat_map (fun x => match x with EProc id _ => [id] | _ => [] end) l.
(** What an entry does to the state. *)
Definition entry_step (x : mpentry) (s : mpst) : mpst :=
  match x with
  | EProc id _ => MpSt (add_cpu id (mp_smp s)) (ioapicid s) (mp_ports s)
  | EIoapic id _ => MpSt (mp_smp s) id (mp_ports s)
  | EOther _ _ => s
  end.

Lemma bytes_at_cons m p n x l : bytes_at m p n = x :: l -> m p = x /\ bytes_at m (p + 1) (length l) = l.
Proof.
  destruct n as [|n]; [done|]. intros [= E1 E2]. split; [done|]. rewrite <- E2 at 2. f_equal. rewrite <- E2. clear. revert p. induction n as [|n IH]; intros p; simpl; [done|]. by rewrite IH.
Qed.
Lemma bytes_at_split m p l1 l2 : bytes_at m p (length (l1 ++ l2)) = l1 ++ l2 -> bytes_at m p (length l1) = l1 /\ bytes_at m (p + Z.of_nat (length l1)) (length l2) = l2.
Proof.
  rewrite length_app, bytes_at_app. intros E. apply app_inj_1 in E; [done|]. clear. revert p. induction l1 as [|x l1 IH]; intros p; simpl; [done|]. by rewrite IH.
Qed.
Section table.
Context (m : mem).

Lemma mpinit_loop_entry x k p e ismp s : entry_ok x -> bytes_at m p (length (entry_bytes x)) = entry_bytes x -> 0 <= p < e -> e + 20 <= W32 ->
  mpinit_loop m (S k) p e ismp s = mpinit_loop m k (p + Z.of_nat (length (entry_bytes x))) e ismp (entry_step x s).
Proof.
  intros Hx Hb Hp He. cbn [mpinit_loop]. rewrite (proj2 (Z.ltb_lt _ _)) by lia. cbv zeta.
  destruct x as [id l|id l|t l]; simpl in Hx; unfold entry_bytes in *.
  - apply bytes_at_cons in Hb as [-> Hb]. apply bytes_at_cons in Hb as [-> _]. change (0 =? 0) with true. cbv iota. unfold set_smp. rewrite bind_modify.
    rewrite u32_small by lia. simpl length. by rewrite Hx.
  - apply bytes_at_cons in Hb as [-> Hb]. apply bytes_at_cons in Hb as [-> _]. change (2 =? 0) with false. change (2 =? 2) with true. cbv iota. unfold set_ioapicid. rewrite bind_modify.
    rewrite u32_small by lia. simpl length. by rewrite Hx.
  - apply bytes_at_cons in Hb as [-> _]. destruct Hx as [Ht Hl]. rewrite !u32_small by lia. simpl length. rewrite Hl. by destruct Ht as [-> |[-> | ->]].
Qed.
Lemma mpinit_loop_ok l : forall k p ismp s, Forall entry_ok l -> bytes_at m p (length (table_bytes l)) = table_bytes l -> 0 <= p -> p + Z.of_nat (length (table_bytes l)) + 20 <= W32 ->
  (length l < k)%nat -> mpinit_loop m k p (p + Z.of_nat (length (table_bytes l))) ismp s = Ret ismp (foldl (fun s x => entry_step x s) s l).
Proof.
  induction l as [|x l IH]; intros k p ismp s Hl Hb Hp He Hk; destruct k as [|k]; try (simpl in Hk; lia).
  - cbn [mpinit_loop]. by rewrite (proj2 (Z.ltb_ge _ _)) by (simpl; lia).
  - apply Forall_cons in Hl as [Hx Hl]. change (table_bytes (x :: l)) with (entry_bytes x ++ table_bytes l) in *.
    apply bytes_at_split in Hb as [Hbx Hb]. rewrite length_app in *.
    assert (0 < length (entry_bytes x))%nat by (destruct x; simpl; lia).
    rewrite (mpinit_loop_entry x) by (done || lia). simpl foldl. simpl in Hk. rewrite <- (IH k (p + Z.of_nat (length (entry_bytes x))) ismp) by (done || lia).
    f_equal. lia.
Qed.
End table.

(** The first [NCPU] processors are in cpus[]. *)
Definition known (ids : list Z) (s : smp) : Prop :=
  length (cpus s) = NCPU /\ ncpu s = length (take NCPU ids) /\ map apicid (take (ncpu s) (cpus s)) = take NCPU ids.
Lemma add_cpu_known id ids s : known ids s -> known (ids ++ [id]) (add_cpu id s).
Proof.
  intros (Hl & Hn & Hm). unfold add_cpu, known. destruct (Nat.ltb_spec (ncpu s) NCPU) as [Hlt|Hge].
  - rewrite length_take in Hn. rewrite (take_ge ids) in Hm by lia. simpl. rewrite length_alter, (take_ge (ids ++ [id])), length_app by (rewrite length_app; simpl; lia).
    simpl. split; [done|]. split; [lia|]. destruct (lookup_lt_is_Some_2 (cpus s) (ncpu s)) as [c Hc]; [lia|].
    erewrite take_S_r by (by rewrite list_lookup_alter_eq, Hc). rewrite take_alter_ge by lia. by rewrite map_app, Hm.
  - split; [done|]. rewrite take_app_le by (rewrite length_take in Hn; lia). done.
Qed.
Lemma entries_known l : forall ids s, known ids (mp_smp s) -> let s' := foldl (fun s x => entry_step x s) s l in
  known (ids ++ proc_ids l) (mp_smp s') /\ eflags (mp_smp s') = eflags (mp_smp s) /\ lapic (mp_smp s') = lapic (mp_smp s).
Proof.
  induction l as [|x l IH]; intros ids s Hk; simpl; [by rewrite app_nil_r|]. destruct x as [id r|id r|t r]; simpl.
  - destruct (IH (ids ++ [id]) (entry_step (EProc id r) s)) as (H1 & H2 & H3); [by apply add_cpu_known|]. rewrite <- app_assoc in H1. split; [done|].
    simpl in H2, H3. rewrite H2, H3. unfold add_cpu. by case_match.
  - by apply (IH ids (entry_step (EIoapic id r) s)).
  - by apply IH.
Qed.
Lemma known_topo ids s r : known ids s -> NoDup (take NCPU ids) -> lapic s = Some r ->
  (forall i id, take NCPU ids !! i = Some id -> Z.shiftr (r i) 24 = id) -> topo s.
Proof.
  intros (Hl & Hn & Hm) Hd Hr Hid. assert (ncpu s <= NCPU)%nat as Hle by (rewrite Hn, length_take; lia). split; [lia|]. exists r. split; [done|]. split.
  - intros i c Hi Hc. symmetry. apply Hid. rewrite <- Hm. change (apicid <$> take (ncpu s) (cpus s)) with (map apicid (take (ncpu s) (cpus s))). rewrite list_lookup_fmap, lookup_take_lt by done. by rewrite Hc.
  - intros i j Hi Hj E. rewrite Hn in Hi, Hj. destruct (lookup_lt_is_Some_2 _ _ Hi) as [x Hx]. destruct (lookup_lt_is_Some_2 _ _ Hj) as [y Hy].
    rewrite (Hid _ _ Hx), (Hid _ _ Hy) in E. subst y. by eapply NoDup_lookup.
Qed.

(** The structure at [mp] is the first one and leads to the table at [conf], which
    has the entries [l]. *)
Definition mp_table (m : mem) (mp conf : Z) (l : list mpentry) : Prop :=
  List.find (is_mp m) (candidates m) = Some mp /\
  mp_physaddr m mp <> 0 /\ conf = P2V (mp_physaddr m mp) /\
  bytes_at m conf 4 = PCMP_SIGN /\ (conf_version m conf = 1 \/ conf_version m conf = 4) /\
  total (bytes_at m conf (Z.to_nat (conf_length m conf))) mod 256 = 0 /\
  conf_length m conf = MPCONF_SIZE + Z.of_nat (length (table_bytes l)) /\
  bytes_at m (conf + MPCONF_SIZE) (length (table_bytes l)) = table_bytes l /\
  Forall entry_ok l /\ conf + conf_length m conf + 20 <= W32.
Lemma find_ext {A} (f g : A -> bool) l : Forall (fun x => g x = f x) l -> List.find g l = List.find f l.
Proof. induction 1 as [|x l E _ IH]; simpl; [done|]. by rewrite E, IH. Qed.
(** The table stays where memory below [n] does, when the search and the table do not
    go beyond. *)
Lemma mp_table_ext n m m' mp conf l : mp_table m mp conf l -> P2V 1024 + 256 <= n -> Forall (fun p => p + MP_SIZE <= n) (candidates m) -> conf + conf_length m conf <= n ->
  (forall a, a < n -> m' a = m a) -> mp_table m' mp conf l /\ conf_lapicaddr m' conf = conf_lapicaddr m conf.
Proof.
  intros (Hf & Hp & Hc & Hs & Hv & Ht & Hl & Hb & Hok & Hw) Hn Hca Hend Hm.
  assert (mp + MP_SIZE <= n) as Hmp by (apply List.find_some in Hf as [Hf _]; rewrite Forall_forall in Hca; apply Hca; by apply list_elem_of_In).
  assert (candidates m' = candidates m) as Ec by (unfold candidates, ebda, base_memory; by rewrite !Hm by lia).
  assert (mp_physaddr m' mp = mp_physaddr m mp) as Ea by (apply ld32_ext; intros; apply Hm; lia).
  assert (conf_length m' conf = conf_length m conf) as El by (unfold conf_length; by rewrite !Hm by lia).
  assert (forall a k, a + Z.of_nat k <= n -> bytes_at m' a k = bytes_at m a k) as Eb by (intros; apply bytes_at_ext; intros; apply Hm; lia).
  split; [|apply ld32_ext; intros; apply Hm; lia]. unfold mp_table. rewrite Ec, Ea, El, !Eb by lia. split; [|split_and!; try done; unfold conf_version in *; by rewrite Hm by lia].
  rewrite <- Hf. apply find_ext. eapply Forall_impl; [exact Hca|]. intros p Hp'. cbv beta in Hp'. unfold is_mp. by rewrite !Eb by lia.
Qed.
Lemma mpconfig_table m mp conf l : mem_ok m -> mp_table m mp conf l -> mpconfig m = Some (mp, conf).
Proof.
  intros Hm (Hf & Hp & -> & Hs & Hv & Ht & Hl & _). unfold mpconfig. rewrite mpsearch_find, Hf by done. rewrite (proj2 (Z.eqb_neq _ _) Hp). cbv zeta.
  rewrite memcmp_str_zero, bool_decide_eq_true_2 by done. simpl negb. cbv iota.
  set (conf := P2V (mp_physaddr m mp)) in *. pose proof (Hm (conf + 4)). pose proof (Hm (conf + 5)).
  rewrite sum_total, Ht by (done || unfold conf_length; lia). by destruct Hv as [-> | ->].
Qed.
Lemma table_fuel l : Forall entry_ok l -> (length l <= length (table_bytes l))%nat.
Proof.
  induction 1 as [|x l Hx Hl IH]; [done|]. change (table_bytes (x :: l)) with (entry_bytes x ++ table_bytes l). rewrite length_app.
  assert (0 < length (entry_bytes x))%nat by (destruct x; simpl; lia). simpl. lia.
Qed.

Lemma mpinit_ok m apic_at inb mp conf l s : mem_ok m -> mp_table m mp conf l ->
  ncpu (mp_smp s) = 0%nat -> length (cpus (mp_smp s)) = NCPU ->
  exists s', mpinit m apic_at inb s = Ret tt s' /\
    map apicid (take (ncpu (mp_smp s')) (cpus (mp_smp s'))) = take NCPU (proc_ids l) /\
    ioapicid s' = foldl (fun x y => match y with EIoapic id _ => id | _ => x end) (ioapicid s) l /\
    (conf_lapicaddr m conf <> 0 -> NoDup (take NCPU (proc_ids l)) ->
     (forall i id, take NCPU (proc_ids l) !! i = Some id -> Z.shiftr (apic_at (conf_lapicaddr m conf) i) 24 = id) ->
     topo (mp_smp s')) /\
    eflags (mp_smp s') = eflags (mp_smp s) /\ (conf_lapicaddr m conf <> 0 -> lapic (mp_smp s') <> None).
Proof.
  intros Hm Ht Hn Hc. pose proof (mpconfig_table _ _ _ _ Hm Ht) as E. destruct Ht as (_ & _ & Hconf & _ & _ & _ & Hl & Hb & Hok & He).
  assert (0 <= conf) by (rewrite Hconf; unfold P2V; pose proof (u32_range (mp_physaddr m mp + KERNBASE)); lia).
  pose (s0 := MpSt (set_lapic apic_at (conf_lapicaddr m conf) (mp_smp s)) (ioapicid s) (mp_ports s)). pose (s1 := foldl (fun s x => entry_step x s) s0 l).
  assert (exists ports, mpinit m apic_at inb s = Ret tt (MpSt (mp_smp s1) (ioapicid s1) ports)) as [ports Ei].
  { unfold mpinit. rewrite E. unfold set_smp. rewrite bind_modify. fold s0. rewrite !u32_small by lia.
    replace (conf + conf_length m conf) with (conf + MPCONF_SIZE + Z.of_nat (length (table_bytes l))) by lia. pose proof (table_fuel l Hok).
    rewrite (bind_Ret _ _ _ _ _ (mpinit_loop_ok m l (S (Z.to_nat (conf_length m conf))) _ true s0 Hok Hb ltac:(lia) ltac:(lia) ltac:(lia))). fold s1. simpl negb.
    destruct (mp_imcrp m mp =? 0); [exists (mp_ports s1); by destruct s1 | by eexists]. }
  destruct (entries_known l [] s0) as (Hk & _ & Hlap); [by unfold known; simpl; rewrite Hn|]. fold s1 in Hk, Hlap.
  exists (MpSt (mp_smp s1) (ioapicid s1) ports). split; [done|]. split; [apply Hk|]. split; [|split; [|split]].
  - simpl. change (ioapicid s) with (ioapicid s0). unfold s1. generalize s0. clear. induction l as [|x l IH]; intros s; simpl; [done|]. rewrite IH. by destruct x.
  - intros Ha Hd Hid. eapply known_topo; [done | done | | done]. etransitivity; [exact Hlap|]. simpl. by rewrite (proj2 (Z.eqb_neq _ _) Ha).
  - simpl. change (eflags (mp_smp s)) with (eflags (mp_smp s0)). unfold s1. generalize s0. clear. induction l as [|x l IH]; intros s; simpl; [done|]. rewrite IH. destruct x; simpl; try done. unfold add_cpu. by destruct (_ <? _)%nat.
  - intros Ha. simpl. rewrite Hlap. simpl. by rewrite (proj2 (Z.eqb_neq _ _) Ha).
Qed.

(** Discovery of the processors.  When the first floating structure of the areas
    leads to a table with a signature, a version and a checksum that are right,
    mpinit records the first eight processors of the table in cpus[], in order,
    and the last I/O interrupt controller.  If the identifiers of the local APICs
    are those of the table, without repetition, cpus[] describes the processors as
    the locks rely on: each one finds itself with mycpu. *)
Theorem mpinit_finds_processors m apic_at inb mp conf l s : mem_ok m -> mp_table m mp conf l ->
  ncpu (mp_smp s) = 0%nat -> length (cpus (mp_smp s)) = NCPU ->
  exists s', mpinit m apic_at inb s = Ret tt s' /\
    map apicid (take (ncpu (mp_smp s')) (cpus (mp_smp s'))) = take NCPU (proc_ids l) /\
    ioapicid s' = foldl (fun x y => match y with EIoapic id _ => id | _ => x end) (ioapicid s) l /\
    (conf_lapicaddr m conf <> 0 -> NoDup (take NCPU (proc_ids l)) ->
     (forall i id, take NCPU (proc_ids l) !! i = Some id -> Z.shiftr (apic_at (conf_lapicaddr m conf) i) 24 = id) ->
     topo (mp_smp s')).
Proof. intros Hm Ht Hn Hc. destruct (mpinit_ok m apic_at inb mp conf l s Hm Ht Hn Hc) as (s' & H1 & H2 & H3 & H4 & _). by exists s'. Qed.

(** An entry of a type above 4 is never left: the loop over the table does not
    end, although the code after it reports such a machine. *)
Theorem mpinit_unknown_entry_loops m l p e s : Forall entry_ok l -> bytes_at m p (length (table_bytes l)) = table_bytes l -> 0 <= p ->
  p + Z.of_nat (length (table_bytes l)) < e -> e + 20 <= W32 -> 4 < m (p + Z.of_nat (length (table_bytes l))) ->
  forall k ismp, mpinit_loop m k p e ismp s = Diverge.
Proof.
  intros Hl. revert p s. induction Hl as [|x l Hx Hl IH]; intros p s Hb Hp He Hw Ht.
  - simpl in *. rewrite Z.add_0_r in *. induction k as [|k IHk]; intros ismp; [done|]. cbn [mpinit_loop]. rewrite (proj2 (Z.ltb_lt _ _)) by lia. cbv zeta.
    rewrite !(proj2 (Z.eqb_neq _ _)) by lia. apply IHk.
  - change (table_bytes (x :: l)) with (entry_bytes x ++ table_bytes l) in *. apply bytes_at_split in Hb as [Hbx Hb]. rewrite length_app, Nat2Z.inj_add, Z.add_assoc in *.
    intros [|k] ismp; [done|]. rewrite (mpinit_loop_entry m x) by (done || lia). apply IH; done || lia.
Qed.

(** ** A machine with two processors *)

Definition mp_bios (mp table : list Z) : mem := fun a =>
  let a := a - KERNBASE in
  if (983072 <=? a) && (a <? 983088) then default 0 (mp !! Z.to_nat (a - 983072))
  else if 987136 <=? a then default 0 (table !! Z.to_nat (a - 987136))
  else 0.
Definition mp_bytes : list Z := [95; 77; 80; 95; 0; 16; 15; 0; 1; 4; 1; 0; 128; 0; 0; 0].
Definition conf_bytes : list Z := [80; 67; 77; 80; 100; 0; 4; 194; 88; 86; 54; 32; 32; 32; 32; 32; 77; 65; 67; 72; 73; 78; 69; 32; 32; 32; 32; 32; 0; 0; 0; 0; 0; 0; 4; 0; 0; 0; 224; 254; 0; 0; 0; 0; 0; 3; 20; 3; 1; 2; 3; 4; 255; 251; 235; 191; 0; 0; 0; 0; 0; 0; 0; 0; 0; 7; 20; 1; 1; 2; 3; 4; 255; 251; 235; 191; 0; 0; 0; 0; 0; 0; 0; 0; 1; 0; 73; 83; 65; 32; 32; 32; 2; 9; 17; 1; 0; 0; 192; 254].
Definition mp_entries : list mpentry :=
  [EProc 3 [20; 3; 1; 2; 3; 4; 255; 251; 235; 191; 0; 0; 0; 0; 0; 0; 0; 0];
   EProc 7 [20; 1; 1; 2; 3; 4; 255; 251; 235; 191; 0; 0; 0; 0; 0; 0; 0; 0];
   EOther 1 [0; 73; 83; 65; 32; 32; 32]; EIoapic 9 [17; 1; 0; 0; 192; 254]].
Definition smp0 : smp := Smp (fun _ => 0) None (replicate 8 (Cpu 0 0 0 None)) 0 (fun _ => Spinlock 0 EmptyString None []) (fun _ => 0).
Lemma mp_bios_ok mp table : Forall (fun x => 0 <= x < 256) mp -> Forall (fun x => 0 <= x < 256) table -> mem_ok (mp_bios mp table).
Proof.
  intros Hmp Ht a. unfold mp_bios. assert (forall l i, Forall (fun x => 0 <= x < 256) l -> 0 <= default 0 (l !! i) < 256) as Hd.
  { intros l i Hl. destruct (l !! i) as [x|] eqn:E; simpl; [|lia]. by apply (Forall_lookup_1 _ _ _ _ Hl) in E. }
  cbv zeta. repeat case_match; try lia; by apply Hd.
Qed.
Lemma mp_table0 : mp_table (mp_bios mp_bytes conf_bytes) (KERNBASE + 983072) (KERNBASE + 987136) mp_entries.
Proof.
  split; [vm_compute; reflexivity|]. split; [vm_compute; discriminate|]. do 2 (split; [vm_compute; reflexivity|]). split; [right; vm_compute; reflexivity|].
  do 3 (split; [vm_compute; reflexivity|]). split; [|vm_compute; discriminate]. repeat (apply Forall_cons; split; [repeat split; (done || by left)|]). by apply Forall_nil.
Qed.
Lemma mpinit_finds_processors_witness : exists s',
  mpinit (mp_bios mp_bytes conf_bytes) (fun _ h => if (h =? 0)%nat then 50331648 else 117440512) (fun _ => 0) (MpSt smp0 0 []) = Ret tt s' /\
  map apicid (take (ncpu (mp_smp s')) (cpus (mp_smp s'))) = [3; 7] /\ ioapicid s' = 9 /\ topo (mp_smp s').
Proof.
  destruct (mpinit_finds_processors (mp_bios mp_bytes conf_bytes) (fun _ h => if (h =? 0)%nat then 50331648 else 117440512) (fun _ => 0)
    (KERNBASE + 983072) (KERNBASE + 987136) mp_entries (MpSt smp0 0 [])) as (s' & E & Hc & Hio & Ht).
  - apply mp_bios_ok; repeat (apply Forall_cons; split; [lia|]); by apply Forall_nil.
  - exact mp_table0.
  - done.
  - done.
  - exists s'. split; [exact E|]. split; [exact Hc|]. split; [exact Hio|]. apply Ht.
    + vm_compute. discriminate.
    + change (take NCPU (proc_ids mp_entries)) with [3; 7]. apply NoDup_cons. split; [by rewrite list_elem_of_singleton | apply NoDup_singleton].
    + change (take NCPU (proc_ids mp_entries)) with [3; 7]. cbv beta. intros [|[|i]] id [= <-]; reflexivity.
Defined.
Lemma mpinit_unknown_entry_loops_witness : mpinit_loop (fun a => 9) 500 1000 1016 true (MpSt smp0 0 []) = Diverge.
Proof. apply (mpinit_unknown_entry_loops (fun a => 9) []); [by apply Forall_nil | done | lia | simpl; lia | lia | lia]. Defined.
