(* ===== verification/ShMain.v ===== *)
(** * The main loop of the shell (sh.c: getcmd, main; ulib.c: gets)

    The shell as a process of [ShRun]: it opens the console until three descriptors
    are in use, and then reads lines, changes its directory for lines that start
    with "cd " and has a child run the others.  What is typed is a list of bytes,
    which the programs that are run do not read. *)

From S2P Require Import Prelude Syscall Sh ShParse ShGrammar ShRun.
#[local] Open Scope Z_scope.

Abbreviation NBUF := 100%nat.
Abbreviation LF := 10.
Abbreviation CR := 13.
Abbreviation O_RDWR := 2.

(** The loop of gets, with [k] bytes of room: what is put into the buffer, and the
    input that is left. *)
Fixpoint gets_loop (k : nat) (input : list Z) : list Z * list Z :=
  match k, input with
  | O, _ | _, [] => ([], input)
  | S k, c :: input =>
      if (c =? LF) || (c =? CR) then ([c], input)
      else let '(l, rest) := gets_loop k input in (c :: l, rest)
  end.
(** The whole buffer: gets writes a NUL after the bytes. *)
Definition gets (buf : list Z) (input : list Z) : list Z * list Z :=
  let '(l, rest) := gets_loop (length buf - 1) input in
  (l ++ 0 :: drop (S (length l)) buf, rest).

(** The result of getcmd, the buffer and the input that is left; the prompt is
    written by [shell]. *)
Definition getcmd (nbuf : nat) (input : list Z) : Z * list Z * list Z :=
  let '(buf, rest) := gets (replicate nbuf 0) input in
  (if ch buf 0 =? 0 then -1 else 0, buf, rest).

(** What the child does with the line. *)
Definition runline (buf : list Z) : prog :=
  match parsecmd (upto_nul buf) with
  | Parsed (c, b) _ => runcmd (map_cmd (fun w => string_at b (fst w)) c)
  | Failed msg => panic_sh msg
  | Fuel => PExit
  end.
(** [buf[strlen(buf)-1] = 0], and the string at [buf+3]. *)
Definition cd_dir (buf : list Z) : list Z :=
  string_at (<[(length (upto_nul buf) - 1)%nat := 0]> buf) 3.

(** The loop over the lines; there are fewer of them than bytes. *)
Fixpoint main_loop (fuel : nat) (input : list Z) : prog :=
  match fuel with
  | O => PExit
  | S fuel =>
      PPrint "$ " [] (
        let '(r, buf, rest) := getcmd NBUF input in
        if r <? 0 then PExit
        else if (ch buf 0 =? 99) && (ch buf 1 =? 100) && (ch buf 2 =? 32) then
          PChdir (cd_dir buf) (fun r =>
            if r <? 0 then PPrint "cannot cd %s" [cd_dir buf] (main_loop fuel rest) else main_loop fuel rest)
        else fork1 (fun pid => if pid =? 0 then runline buf else PWait (main_loop fuel rest)))
  end.
Definition console_name : list Z := [99; 111; 110; 115; 111; 108; 101].
(** The loop that opens the console; [k] bounds the descriptors below three. *)
Fixpoint open_console (k : nat) (next : prog) : prog :=
  match k with
  | O => PExit
  | S k =>
      POpen console_name O_RDWR (fun fd =>
        if fd <? 0 then next
        else if 3 <=? fd then PClose fd next
        else open_console k next)
  end.
Definition shell (input : list Z) : prog := open_console 4 (main_loop (S (length input)) input).

(** ** What a script does *)

(** A line of a script: a command of the grammar, which may be empty, or a change of
    directory. *)
Inductive item := Do (l : line) | Cd (dir : list Z).
Definition cd_prefix : list Z := [99; 100; 32].
Definition plain (l : list Z) : Prop := Forall (fun c => c <> 0 /\ c <> LF /\ c <> CR) l.
(** The bytes of an item: one line of at most 99 bytes. *)
Definition item_text (x : item) (b : list Z) : Prop :=
  (exists l, b = l ++ [LF] /\ plain l) /\ (length b < NBUF)%nat /\
  match x with
  | Do l => line_ok l /\ spelled (line_tokens l) b /\ take 3 b <> cd_prefix
  | Cd dir => b = cd_prefix ++ dir ++ [LF]
  end.

Section script.
Context (can_exec : list Z -> bool) (can_open : list Z -> Z -> bool) (can_chdir : list Z -> bool) (can_fork can_pipe : nat -> bool).
Abbreviation run := (run can_exec can_open can_chdir can_fork can_pipe).
Abbreviation plumb := (plumb can_exec can_open can_fork can_pipe).

Fixpoint script_events (l : list item) (t : fds) (n : nat) : list event * nat :=
  match l with
  | [] => ([Printed "$ " []], n)
  | Do c :: l =>
      if can_fork n then
        let '(e, n) := plumb (line_cmd c) t (S n) in
        let '(e', n) := script_events l t n in
        (Printed "$ " [] :: Child e :: Waited :: e', n)
      else ([Printed "$ " []; Printed "fork" []], S n)
  | Cd dir :: l =>
      let '(e, n) := script_events l t n in
      (Printed "$ " [] :: (if can_chdir dir then Moved dir else Printed "cannot cd %s" [dir]) :: e, n)
  end.

Lemma gets_line k l rest : plain l -> (length l < k)%nat -> gets_loop k (l ++ LF :: rest) = (l ++ [LF], rest).
Proof.
  revert k. induction l as [|c l IH]; intros [|k] Hl Hk; simpl in *; try lia; [done|]. apply Forall_cons in Hl as [(H0 & H1 & H2) Hl].
  rewrite (proj2 (Z.eqb_neq c LF)), (proj2 (Z.eqb_neq c CR)) by done. simpl. by rewrite IH by (done || lia).
Qed.
Lemma getcmd_line l rest : plain l -> (length l < 99)%nat ->
  getcmd NBUF (l ++ LF :: rest) = (0, l ++ LF :: replicate (99 - length l) 0, rest).
Proof.
  intros Hl Hn. unfold getcmd, gets. rewrite length_replicate, gets_line by (done || lia).
  assert ((l ++ [LF]) ++ 0 :: drop (S (length (l ++ [LF]))) (replicate NBUF 0) = l ++ LF :: replicate (99 - length l) 0) as ->.
  { rewrite drop_replicate, length_app, <- app_assoc. simpl. f_equal. f_equal. destruct (99 - length l)%nat as [|k] eqn:E; [lia|]. simpl. f_equal. f_equal. lia. }
  destruct l as [|c l]; [done|]. apply Forall_cons in Hl as [[H0 _] _]. unfold ch. simpl. by rewrite (proj2 (Z.eqb_neq _ _) H0).
Qed.
Lemma plain_no_nul l : plain l -> 0 ∉ l ++ [LF].
Proof. intros Hl Hin. apply elem_of_app in Hin as [Hin|Hin]; [by apply (proj1 (Forall_forall _ _) Hl) in Hin as [? _] | set_solver]. Qed.
Lemma line_string l k : plain l -> (0 < k)%nat -> upto_nul (l ++ LF :: replicate k 0) = l ++ [LF].
Proof.
  intros Hl Hk. destruct k as [|k]; [lia|]. change (LF :: replicate (S k) 0) with ([LF] ++ 0 :: replicate k 0). rewrite app_assoc. apply upto_nul_app. by apply plain_no_nul.
Qed.
Lemma is_cd l r : let buf := l ++ LF :: r in
  (ch buf 0 =? 99) && (ch buf 1 =? 100) && (ch buf 2 =? 32) = bool_decide (take 3 (l ++ [LF]) = cd_prefix).
Proof.
  destruct l as [|a [|b [|c l]]]; unfold ch; simpl.
  - done.
  - rewrite andb_false_r. symmetry. by apply bool_decide_eq_false.
  - rewrite andb_false_r. symmetry. by apply bool_decide_eq_false.
  - destruct (Z.eqb_spec a 99), (Z.eqb_spec b 100), (Z.eqb_spec c 32); simpl; symmetry; (apply bool_decide_eq_true || apply bool_decide_eq_false); unfold cd_prefix; first [by subst | congruence].
Qed.
Lemma cd_dir_line dir k : plain dir -> cd_dir ((cd_prefix ++ dir) ++ LF :: replicate (S k) 0) = dir.
Proof.
  intros Hd. unfold cd_dir. assert (plain (cd_prefix ++ dir)) as Hp by (apply Forall_app; split; [repeat (apply Forall_cons; split; [lia|]); by apply Forall_nil | done]).
  rewrite line_string, length_app by (done || lia). simpl length. rewrite Nat.add_sub, insert_app_r_alt, Nat.sub_diag by (simpl; lia).
  unfold string_at. simpl. apply upto_nul_app. intros H0. by apply (proj1 (Forall_forall _ _) Hd) in H0 as [? _].
Qed.

(** The commands of the grammar redirect the standard files only. *)
Lemma std_backs n : forall c : cmd (list Z), std_redirs c -> std_redirs (backs n c).
Proof. induction n as [|n IH]; intros c Hc; [done|]. by apply IH. Qed.
Lemma std_redir_list rs : forall c, std_redirs c -> std_redirs (redirs c (redir_of <$> rs)).
Proof. unfold redirs. induction rs as [|[d w] rs IH]; intros c Hc; simpl; [done|]. apply IH. destruct d; simpl; auto. Qed.
Lemma grammar_std : (forall l, std_redirs (line_cmd l)) /\ (forall p, std_redirs (pipe_cmd p)) /\ (forall e, std_redirs (simple_cmd e)).
Proof.
  apply line_pipeline_simple_ind; simpl.
  - intros p IH n. by apply std_backs.
  - intros p IHp n l IHl. split; [by apply std_backs | done].
  - done.
  - done.
  - intros rs args. by apply std_redir_list.
  - intros l IH rs. by apply std_redir_list.
Qed.

Lemma runline_do c b k : line_ok c -> spelled (line_tokens c) (b ++ [LF]) -> plain b -> runline (b ++ LF :: replicate (S k) 0) = runcmd (line_cmd c).
Proof.
  intros Hc Hs Hb. unfold runline. rewrite line_string by (done || lia). destruct (parsecmd_reads c _ Hc Hs) as (x & b' & -> & <-). done.
Qed.
Lemma main_loop_run items bs : Forall2 item_text items bs -> forall fuel t n, (length (concat bs) < fuel)%nat -> ready t ->
  run (main_loop fuel (concat bs)) t n = script_events items t n.
Proof.
  induction 1 as [|x b items bs Hx Hbs IH]; intros fuel t n Hf Ht; destruct fuel as [|fuel]; try (simpl in Hf; lia); [done|].
  destruct Hx as ((l & -> & Hl) & Hlen & Hx). rewrite length_app in Hlen. simpl in Hlen, Hf. rewrite !length_app in Hf. simpl in Hf.
  assert (forall t n, ready t -> run (main_loop fuel (concat bs)) t n = script_events items t n) as IH' by (intros; apply IH; [lia | done]).
  cbn [main_loop ShRun.run]. simpl concat. rewrite <- app_assoc. cbn [app]. rewrite getcmd_line by (done || lia). change (0 <? 0) with false. cbv iota. rewrite is_cd.
  destruct (99 - length l)%nat as [|k] eqn:Ek; [lia|]. destruct x as [c|dir].
  - destruct Hx as (Hc & Hsp & Hcd). rewrite bool_decide_eq_false_2 by done. rewrite run_fork1. cbn [script_events]. destruct (can_fork n); [|done]. rewrite (runline_do c l k) by done.
    rewrite Z.eqb_refl, runcmd_run by (done || apply grammar_std). destruct (plumb (line_cmd c) t (S n)) as [e n1]. change (1 =? 0) with false. cbv iota. cbn [ShRun.run].
    rewrite IH' by done. by destruct (script_events items t n1).
  - rewrite Hx. assert (l = cd_prefix ++ dir) as -> by (rewrite app_assoc in Hx; by apply app_inj_2 in Hx as [-> _]).
    rewrite bool_decide_eq_true_2 by done. apply Forall_app in Hl as [_ Hdir]. cbn [ShRun.run script_events]. rewrite !cd_dir_line by done.
    destruct (can_chdir dir); [change (0 <? 0) with false | change (-1 <? 0) with true]; cbv iota; cbn [ShRun.run]; rewrite IH' by done; by destruct (script_events items t n).
Qed.

(** The table with the console at the standard descriptors that were not open. *)
Definition filled (t : fds) : fds :=
  match t with
  | a :: b :: c :: t =>
      let fill (x : option handle) := match x with Some h => Some h | None => Some (Opened console_name O_RDWR) end in
      fill a :: fill b :: fill c :: t
  | _ => t
  end.
(** There are two descriptors besides the standard ones. *)
Definition room (t : fds) : Prop := exists i j, (3 <= i)%nat /\ (3 <= j)%nat /\ i <> j /\ t !! i = Some None /\ t !! j = Some None.
Lemma room_filled t : room t -> ready (filled t).
Proof.
  intros (i & j & Hi & Hj & Hij & Ei & Ej). destruct i as [|[|[|i]]]; try lia. destruct j as [|[|[|j]]]; try lia.
  destruct t as [|a [|b [|c t]]]; try done. split.
  - intros [|[|[|k]]] Hk; [destruct a | destruct b | destruct c | lia]; by eexists.
  - exists (S (S (S i))), (S (S (S j))). done.
Qed.
Lemma open_first k next (t : fds) i n : (i < 3)%nat -> can_open console_name O_RDWR = true -> t !! i = Some None -> (forall j, (j < i)%nat -> t !! j <> Some None) ->
  run (open_console (S k) next) t n = run (open_console k next) (<[i := Some (Opened console_name O_RDWR)]> t) n.
Proof.
  intros Hi Ho Ht Hlow. cbn [open_console ShRun.run]. rewrite Ho, (alloc_fd_at _ t i) by done. rewrite (proj2 (Z.ltb_ge _ _)), (proj2 (Z.leb_gt _ _)) by lia. done.
Qed.
Lemma open_last k next t n : can_open console_name O_RDWR = true -> ready t -> run (open_console (S k) next) t n = run next t n.
Proof.
  intros Ho [Hs (i & _ & _ & Hi & _)]. cbn [open_console ShRun.run]. rewrite Ho. destruct (alloc_fd_some (Opened console_name O_RDWR) t i Hi) as (fd & -> & Hfd & _).
  pose proof (std_not_free _ _ Hs Hfd). rewrite (proj2 (Z.ltb_ge _ _)), (proj2 (Z.leb_le _ _)) by lia. cbn [ShRun.run]. unfold close_fd.
  rewrite Nat2Z.id, list_insert_insert_eq, list_insert_id by done. done.
Qed.
Lemma open_console_run next t n : can_open console_name O_RDWR = true -> room t -> run (open_console 4 next) t n = run next (filled t) n.
Proof.
  intros Ho Hr. pose proof (room_filled t Hr) as Hf. destruct t as [|a [|b [|c t]]]; try (by destruct Hr as ([|[|[|i]]] & j & Hi & Hj & Hij & Ei & Ej); try lia).
  destruct a as [a|], b as [b|], c as [c|];
    repeat (erewrite (open_first _ next (None :: _) 0) by (lia || done || (intros; lia)); cbn [insert list_insert]);
    repeat (erewrite (open_first _ next (Some _ :: None :: _) 1) by (lia || done || (intros [|] ?; [done | lia])); cbn [insert list_insert]);
    repeat (erewrite (open_first _ next (Some _ :: Some _ :: None :: _) 2) by (lia || done || (intros [|[|]] ?; [done | done | lia])); cbn [insert list_insert]);
    by rewrite open_last.
Qed.

(** C33: The shell runs what is typed.  Started with room for two files more than the
    standard ones, it has the console on every standard descriptor that was not
    open.  For every line that is a command of the grammar a child of its own runs
    the command with its pipes and redirections as the grammar says, and the shell
    waits for it; a line "cd dir" changes the directory of the shell itself.  The
    shell ends with its input, or when fork gives it no child.  Lines have at most 99
    bytes and an end, and the programs that are run do not read the input. *)
Theorem shell_runs_script items bs t n : can_open console_name O_RDWR = true -> room t -> Forall2 item_text items bs ->
  run (shell (concat bs)) t n = script_events items (filled t) n.
Proof.
  intros Ho Hr Hi. unfold shell. rewrite open_console_run by done. apply main_loop_run; [done | lia | by apply room_filled].
Qed.
End script.

(** Started by init with the console open three times; typed are "a<f | b", an empty
    line, "cd d" and "c", for which there is no process left. *)
Lemma shell_runs_script_witness :
  let t := (Some ∘ Inherited <$> seq 0 3) ++ replicate 13 None in
  let yes := fun _ => true in
  run yes (fun _ _ => true) yes (fun n => (n <? 5)%nat) (fun _ => true) (shell (concat [[97; 60; 102; 32; 124; 32; 98; 10]; [10]; [99; 100; 32; 100; 10]; [99; 10]])) t 0 =
    ([Printed "$ " [];
      Child [Child [Ran [[97]] (<[0%nat := Some (Opened [102] 0)]> (<[1%nat := Some (WriteEnd 1)]> t))];
             Child [Ran [[98]] (<[0%nat := Some (ReadEnd 1)]> t)]; Waited; Waited]; Waited;
      Printed "$ " []; Child []; Waited;
      Printed "$ " []; Moved [100];
      Printed "$ " []; Printed "fork" []], 6%nat).
Proof.
  intros t yes. refine (shell_runs_script yes (fun _ _ => true) yes (fun n => (n <? 5)%nat) (fun _ => true)
    [Do (LEnd (PSeq (Simple [] [([97], [(From, [102])])]) (PEnd (Simple [] [([98], [])]))) 0); Do (LEnd (PEnd (Simple [] [])) 0); Cd [100]; Do (LEnd (PEnd (Simple [] [([99], [])])) 0)] _ t 0 _ _ _).
  - done.
  - exists 3%nat, 4%nat. by repeat split; lia.
  - assert (forall c, word_char c = true -> c <> 0 -> word_ok [c]) as Hw.
    { intros c H1 H2. split; [discriminate|]. apply Forall_singleton. done. }
    assert (forall l, forallb (fun c => negb (c =? 0) && negb (c =? 10) && negb (c =? 13)) l = true -> plain l) as Hp.
    { intros l H. apply Forall_forall. intros c Hc. rewrite forallb_forall in H. apply list_elem_of_In, H in Hc. lia. }
    assert (blanks [32] /\ blanks [] /\ blanks [10]) as (Hb & Hb0 & Hb1) by (split_and!; [apply Forall_singleton; by left | by apply Forall_nil | apply Forall_singleton; by do 3 right; left]).
    repeat (apply Forall2_cons; split); [| | | |by apply Forall2_nil].
    + split; [exists [97; 60; 102; 32; 124; 32; 98]; split; [done | by apply Hp]|]. split; [simpl; lia|]. split.
      * repeat (split || apply Forall_cons || apply Forall_nil || apply Hw); try (simpl; lia); try reflexivity; try discriminate.
      * split; [|done]. repeat (spell; [done | split; [first [done | intros Hf; apply Forall_inv in Hf; done] | done] |]). by apply spelled_nil.
    + split; [exists []; split; [done | by apply Hp]|]. split; [simpl; lia|]. split.
      * repeat (split || apply Forall_nil); simpl; lia.
      * split; [by apply spelled_nil | done].
    + split; [exists [99; 100; 32; 100]; split; [done | by apply Hp]|]. split; [simpl; lia | done].
    + split; [exists [99]; split; [done | by apply Hp]|]. split; [simpl; lia|]. split.
      * repeat (split || apply Forall_cons || apply Forall_nil || apply Hw); try (simpl; lia); try reflexivity; try discriminate.
      * split; [|done]. spell; [done | done |]. by apply spelled_nil.
Defined.
