(* ===== verification/Utils.v ===== *)
(** * User programs (cat.c, wc.c, ls.c, echo.c; stat of ulib.c)

    The programs over the system calls that they make: the class [Sys] has the
    calls, and [SysLaws] what the programs rely on, for the files that a program
    can open and read to their end, and for the descriptors that it writes to.
    A program that calls exit returns; a function of it that can call exit says
    with its result whether it returned. *)

From Stdlib Require Import Ascii.
From stdpp Require Import functions.
From S2P Require Import Prelude Mem CString Printf.
#[local] Open Scope Z_scope.

Abbreviation DIRSIZ := 14%nat.
Abbreviation T_DIR := 1.
Abbreviation T_FILE := 2.
Abbreviation LF := 10.

Record stat := Stat { st_type : Z; st_ino : Z; st_size : Z }.

Class Sys (W : Type) := {
  u_open : list Z -> Z -> M W Z;
  u_close : Z -> M W Z;
  (** The result, and the bytes that are put into the buffer. *)
  u_read : Z -> nat -> M W (Z * list Z);
  u_write : Z -> list Z -> M W Z;
  u_fstat : Z -> M W (Z * stat);
}.

(** The bytes of a string constant. *)
Fixpoint bytes (s : string) : list Z :=
  match s with
  | EmptyString => []
  | String c s => Z.of_nat (nat_of_ascii c) :: bytes s
  end.
(** An argument of printf. *)
Inductive parg := Num (x : Z) | Str (s : list Z).
(** What printf writes: the strings are at the addresses 1, 2, ... *)
Definition formatted (fmt : list Z) (args : list parg) : option (list Z) :=
  printf (fun p => match args !! Z.to_nat (p - 1) with Some (Str s) => s | _ => [] end) fmt
    (fun i => match args !! i with Some (Num x) => u32 x | _ => Z.of_nat i + 1 end).

Section utils.
Context {W : Type} `{!Sys W}.

(** [putc] writes one byte at a time. *)
Fixpoint putcs (fd : Z) (l : list Z) : M W unit :=
  match l with [] => ret tt | c :: l => u_write fd [c] ;;; putcs fd l end.
Definition uprintf (fd : Z) (fmt : list Z) (args : list parg) : M W unit :=
  match formatted fmt args with Some l => putcs fd l | None => diverge end.

(** ** cat *)

Fixpoint cat (fuel : nat) (fd : Z) : M W bool :=
  match fuel with
  | O => diverge
  | S fuel =>
      x <- u_read fd 512 ;;
      let '(n, buf) := x in
      if 0 <? n then
        w <- u_write 1 (take (Z.to_nat n) buf) ;;
        if negb (w =? n) then uprintf 1 (bytes "cat: write error" ++ [LF]) [] ;;; ret false
        else cat fuel fd
      else if n <? 0 then uprintf 1 (bytes "cat: read error" ++ [LF]) [] ;;; ret false
      else ret true
  end.
(** The loop over the arguments, in cat and in wc: [body] is what is done with an open
    file, [prog] the name of the program. *)
Fixpoint on_files (body : Z -> list Z -> M W bool) (prog : string) (argv : list (list Z)) : M W unit :=
  match argv with
  | [] => ret tt
  | f :: argv =>
      fd <- u_open f 0 ;;
      if fd <? 0 then uprintf 1 (bytes prog ++ bytes ": cannot open %s" ++ [LF]) [Str f]
      else
        r <- body fd f ;;
        if negb r then ret tt else u_close fd ;;; on_files body prog argv
  end.
(** [argv] has the arguments after the name of the program. *)
Definition cat_main (fuel : nat) (argv : list (list Z)) : M W unit :=
  match argv with
  | [] => cat fuel 0 ;;; ret tt
  | _ => on_files (fun fd _ => cat fuel fd) "cat" argv
  end.

(** ** wc *)

Definition wc_space : list Z := [32; 13; 9; 10; 11].
Record counts := Counts { n_l : Z; n_w : Z; n_c : Z; inword : bool }.
Definition wc_byte (x : counts) (b : Z) : counts :=
  let c := s32 (n_c x + 1) in
  let l := if b =? LF then s32 (n_l x + 1) else n_l x in
  if bool_decide (b ∈ wc_space) then Counts l (n_w x) c false
  else if negb (inword x) then Counts l (s32 (n_w x + 1)) c true
  else Counts l (n_w x) c true.
Fixpoint wc_loop (fuel : nat) (fd : Z) (name : list Z) (x : counts) : M W bool :=
  match fuel with
  | O => diverge
  | S fuel =>
      r <- u_read fd 512 ;;
      let '(n, buf) := r in
      if 0 <? n then wc_loop fuel fd name (foldl wc_byte x (take (Z.to_nat n) buf))
      else if n <? 0 then uprintf 1 (bytes "wc: read error" ++ [LF]) [] ;;; ret false
      else uprintf 1 (bytes "%d %d %d %s" ++ [LF]) [Num (n_l x); Num (n_w x); Num (n_c x); Str name] ;;; ret true
  end.
Definition wc (fuel : nat) (fd : Z) (name : list Z) : M W bool := wc_loop fuel fd name (Counts 0 0 0 false).
Definition wc_main (fuel : nat) (argv : list (list Z)) : M W unit :=
  match argv with
  | [] => wc fuel 0 [] ;;; ret tt
  | _ => on_files (wc fuel) "wc" argv
  end.

(** ** echo *)

Fixpoint echo_main (argv : list (list Z)) : M W unit :=
  match argv with
  | [] => ret tt
  | a :: argv =>
      uprintf 1 (bytes "%s%s") [Str a; Str (match argv with [] => [LF] | _ => [32] end)] ;;;
      echo_main argv
  end.

(** ** ls *)

(** [stat] of ulib.c; [st] is what the structure held before. *)
Definition u_stat (path : list Z) (st : stat) : M W (Z * stat) :=
  fd <- u_open path 0 ;;
  if fd <? 0 then ret (-1, st)
  else
    r <- u_fstat fd ;;
    u_close fd ;;;
    ret r.

(** The loop of fmtname: where the name after the last slash starts. *)
Fixpoint name_start (path : list Z) (i : nat) : nat :=
  if default 0 (path !! i) =? 47 then S i
  else match i with O => O | S i => name_start path i end.
Definition fmtname (path : list Z) : list Z :=
  let p := drop (name_start path (length path)) path in
  if (DIRSIZ <=? length p)%nat then p else p ++ replicate (DIRSIZ - length p) 32.

Definition ls_line : list Z := bytes "%s %d %d %d" ++ [LF].
Definition ls_args (path : list Z) (st : stat) : list parg := [Str (fmtname path); Num (st_type st); Num (st_ino st); Num (st_size st)].
(** The string at [de.name], which has at most [DIRSIZ] bytes. *)
Fixpoint upto_nul (l : list Z) : list Z :=
  match l with [] => [] | c :: l => if c =? 0 then [] else c :: upto_nul l end.
Definition ls_inum (de : list Z) : Z := default 0 (de !! 0%nat) + 256 * default 0 (de !! 1%nat).
Definition ls_name (de : list Z) : list Z := upto_nul (take DIRSIZ (drop 2 de)).
Fixpoint ls_dir (fuel : nat) (fd : Z) (path : list Z) (st : stat) : M W unit :=
  match fuel with
  | O => diverge
  | S fuel =>
      x <- u_read fd 16 ;;
      let '(n, de) := x in
      if negb (n =? 16) then ret tt
      else if ls_inum de =? 0 then ls_dir fuel fd path st
      else
        let buf := path ++ 47 :: ls_name de in
        y <- u_stat buf st ;;
        let '(r, st) := y in
        (if r <? 0 then uprintf 1 (bytes "ls: cannot stat %s" ++ [LF]) [Str buf]
         else uprintf 1 ls_line (ls_args buf st)) ;;;
        ls_dir fuel fd path st
  end.
Definition ls (fuel : nat) (path : list Z) : M W unit :=
  fd <- u_open path 0 ;;
  if fd <? 0 then uprintf 2 (bytes "ls: cannot open %s" ++ [LF]) [Str path]
  else
    x <- u_fstat fd ;;
    let '(r, st) := x in
    if r <? 0 then uprintf 2 (bytes "ls: cannot stat %s" ++ [LF]) [Str path] ;;; u_close fd ;;; ret tt
    else
      (if st_type st =? T_FILE then uprintf 1 ls_line (ls_args path st)
       else if st_type st =? T_DIR then
         if (512 <? length path + 1 + DIRSIZ + 1)%nat then uprintf 1 (bytes "ls: path too long" ++ [LF]) []
         else ls_dir fuel fd path st
       else ret tt) ;;;
      u_close fd ;;;
      ret tt.
Fixpoint ls_all (fuel : nat) (argv : list (list Z)) : M W unit :=
  match argv with [] => ret tt | a :: argv => ls fuel a ;;; ls_all fuel argv end.
Definition ls_main (fuel : nat) (argv : list (list Z)) : M W unit :=
  match argv with [] => ls fuel [46] | _ => ls_all fuel argv end.
End utils.

(** ** What the calls do *)

Class SysLaws (W : Type) `{Sys W} := {
  (** What is still to be read from a descriptor, what has been written to one,
      and the files that can be opened. *)
  src : W -> Z -> option (list Z);
  out : W -> Z -> option (list Z);
  file : W -> list Z -> option (stat * list Z);
  node : W -> Z -> option stat;
  read_src w fd l n : src w fd = Some l -> (0 < n)%nat -> exists k w', u_read fd n w = Ret (Z.of_nat k, take k l) w' /\
    (k <= n)%nat /\ (k <= length l)%nat /\ (l <> [] -> 0 < k)%nat /\
    src w' fd = Some (drop k l) /\ out w' = out w /\ file w' = file w /\ (forall x, node w' x = node w x);
  (** A directory is not read in pieces. *)
  read_dir w fd st l n : src w fd = Some l -> node w fd = Some st -> st_type st = T_DIR -> (n <= length l)%nat -> (0 < n)%nat ->
    exists w', u_read fd n w = Ret (Z.of_nat n, take n l) w';
  write_out w fd o d : out w fd = Some o -> exists w', u_write fd d w = Ret (Z.of_nat (length d)) w' /\
    out w' fd = Some (o ++ d) /\ src w' = src w /\ file w' = file w /\ node w' = node w;
  open_file w f st l : file w f = Some (st, l) -> exists fd w', u_open f 0 w = Ret fd w' /\ 0 <= fd /\
    src w fd = None /\ (forall x, src w' x = (<[fd := Some l]> (src w)) x) /\ (forall x, node w' x = (<[fd := Some st]> (node w)) x) /\
    out w' = out w /\ file w' = file w;
  open_missing w f : file w f = None -> u_open f 0 w = Ret (-1) w;
  fstat_node w fd st : node w fd = Some st -> u_fstat fd w = Ret (0, st) w;
  close_src w fd l : src w fd = Some l -> exists r w', u_close fd w = Ret r w' /\
    (forall x, src w' x = (<[fd := None]> (src w)) x) /\ (forall x, node w' x = (<[fd := None]> (node w)) x) /\ out w' = out w /\ file w' = file w;
}.

Section laws.
Context {W : Type} `{!Sys W} `{!SysLaws W}.

Lemma putcs_ok l : forall w fd o, out w fd = Some o -> exists w', putcs fd l w = Ret tt w' /\ out w' fd = Some (o ++ l) /\ src w' = src w /\ file w' = file w /\ node w' = node w.
Proof.
  induction l as [|c l IH]; intros w fd o Ho; simpl; [exists w; by rewrite app_nil_r|].
  destruct (write_out w fd o [c] Ho) as (w1 & E & Ho1 & Hs & Hf & Hn). rewrite (bind_Ret _ _ _ _ _ E). destruct (IH w1 fd _ Ho1) as (w' & E' & Ho' & Hs' & Hf' & Hn').
  exists w'. rewrite <- app_assoc in Ho'. by rewrite Hs', Hf', Hn'.
Qed.
Lemma uprintf_ok fmt args l w fd o : formatted fmt args = Some l -> out w fd = Some o ->
  exists w', uprintf fd fmt args w = Ret tt w' /\ out w' fd = Some (o ++ l) /\ src w' = src w /\ file w' = file w /\ node w' = node w.
Proof. intros E Ho. unfold uprintf. rewrite E. by apply putcs_ok. Qed.

Lemma cat_ok n : forall l fuel fd w o, (length l <= n)%nat -> src w fd = Some l -> out w 1 = Some o -> (length l < fuel)%nat ->
  exists w', cat fuel fd w = Ret true w' /\ src w' fd = Some [] /\ out w' 1 = Some (o ++ l) /\ file w' = file w.
Proof.
  induction n as [|n IH]; intros l fuel fd w o Hn Hs Ho Hf; destruct fuel as [|fuel]; try lia; cbn [cat];
    destruct (read_src w fd l 512 Hs ltac:(lia)) as (k & w1 & E & Hk & Hkl & Hk0 & Hs1 & Ho1 & Hf1 & _); rewrite (bind_Ret _ _ _ _ _ E).
  - destruct l; [|simpl in Hn; lia]. assert (k = 0)%nat as -> by (simpl in Hkl; lia). exists w1. rewrite app_nil_r, Ho1. done.
  - destruct l as [|c l].
    + assert (k = 0)%nat as -> by (simpl in Hkl; lia). exists w1. rewrite app_nil_r, Ho1. done.
    + specialize (Hk0 ltac:(done)). rewrite (proj2 (Z.ltb_lt _ _)), Nat2Z.id, take_take, Nat.min_id by lia. rewrite <- Ho1 in Ho.
      destruct (write_out w1 1 o (take k (c :: l)) Ho) as (w2 & E2 & Ho2 & Hs2 & Hf2 & _). rewrite (bind_Ret _ _ _ _ _ E2), length_take_le, Z.eqb_refl by done. cbn [negb].
      rewrite <- Hs2 in Hs1. destruct (IH (drop k (c :: l)) fuel fd w2 (o ++ take k (c :: l))) as (w' & E' & Hs' & Ho' & Hf'); [rewrite length_drop; simpl in *; lia | done | done | rewrite length_drop; simpl in *; lia|].
      exists w'. rewrite <- app_assoc, take_drop in Ho'. rewrite Hf', Hf2, Hf1. done.
Qed.
Lemma printf_plain str a fmt ap : PERCENT ∉ a -> printf_loop str (a ++ fmt) false ap = opt_app (Some a) (printf_loop str fmt false ap).
Proof.
  induction a as [|c a IH]; intros Ha; simpl; [by destruct (printf_loop str fmt false ap)|]. apply not_elem_of_cons in Ha as [Hc Ha].
  rewrite (proj2 (Z.eqb_neq c PERCENT)), IH by done. by destruct (printf_loop str fmt false ap).
Qed.
(** What is written for the arguments, when [text] is written for a file: it ends at
    the first file that cannot be opened. *)
Fixpoint files_text (text : list Z -> list Z -> list Z) (prog : string) (files : list Z -> option (stat * list Z)) (argv : list (list Z)) : list Z :=
  match argv with
  | [] => []
  | f :: argv =>
      match files f with
      | Some (_, l) => text f l ++ files_text text prog files argv
      | None => bytes prog ++ bytes ": cannot open " ++ f ++ [LF]
      end
  end.
Lemma format_open prog f : PERCENT ∉ bytes prog ->
  formatted (bytes prog ++ bytes ": cannot open %s" ++ [LF]) [Str f] = Some (bytes prog ++ bytes ": cannot open " ++ f ++ [LF]).
Proof.
  intros Hp. unfold formatted, printf. rewrite printf_plain by done. change (bytes ": cannot open %s" ++ [LF]) with (bytes ": cannot open " ++ [PERCENT; 115; LF]).
  rewrite printf_plain by (apply (bool_decide_unpack _); vm_compute; exact I). done.
Qed.
Lemma on_files_ok body text prog size argv : PERCENT ∉ bytes prog ->
  (forall w fd f l o, src w fd = Some l -> out w 1 = Some o -> Z.of_nat (length l) < size -> exists w', body fd f w = Ret true w' /\
     src w' fd = Some [] /\ file w' = file w /\ out w' 1 = Some (o ++ text f l)) ->
  forall w o, out w 1 = Some o -> (forall f st l, file w f = Some (st, l) -> Z.of_nat (length l) < size) ->
  exists w', on_files body prog argv w = Ret tt w' /\ out w' 1 = Some (o ++ files_text text prog (file w) argv).
Proof.
  intros Hp Hbody. induction argv as [|f argv IH]; intros w o Ho Hfu; simpl; [exists w; by rewrite app_nil_r|]. destruct (file w f) as [[st l]|] eqn:Ef.
  - destruct (open_file w f st l Ef) as (fd & w1 & E1 & Hfd & _ & Hs1 & _ & Ho1 & Hf1). rewrite (bind_Ret _ _ _ _ _ E1), (proj2 (Z.ltb_ge _ _)) by done.
    destruct (Hbody w1 fd f l o) as (w2 & E2 & Hs2 & Hf2 & Ho2); [by rewrite Hs1, fn_lookup_insert | by rewrite Ho1 | by eapply Hfu|].
    rewrite (bind_Ret _ _ _ _ _ E2). cbn [negb]. destruct (close_src w2 fd [] Hs2) as (r & w3 & E3 & _ & _ & Ho3 & Hf3). rewrite (bind_Ret _ _ _ _ _ E3).
    rewrite <- Ho3 in Ho2. destruct (IH w3 _ Ho2) as (w' & E' & Ho'); [rewrite Hf3, Hf2, Hf1; done|].
    exists w'. rewrite Hf3, Hf2, Hf1, <- app_assoc in Ho'. done.
  - rewrite (bind_Ret _ _ _ _ _ (open_missing w f Ef)). change (-1 <? 0) with true. cbv iota.
    destruct (uprintf_ok _ _ _ w 1 o (format_open prog f Hp) Ho) as (w' & E & Ho' & _). by exists w'.
Qed.

(** ** Counting words *)

Definition space (c : Z) : Prop := c ∈ wc_space.
(** The text between white space, with empty fields. *)
Fixpoint fields (l : list Z) : list (list Z) :=
  match l with
  | [] => [[]]
  | c :: l =>
      if decide (space c) then [] :: fields l
      else match fields l with f :: fs => (c :: f) :: fs | [] => [[c]] end
  end.
Definition words (l : list Z) : list (list Z) := filter (fun f => f <> []) (fields l).
Definition lines (l : list Z) : nat := length (filter (fun c => c = LF) l).
Lemma fields_cons l : exists f fs, fields l = f :: fs.
Proof. induction l as [|c l [f [fs E]]]; simpl; [eauto|]. rewrite E. case_decide; eauto. Qed.
Lemma s32_small_nat x : 0 <= x < 2147483648 -> s32 x = x.
Proof. intros Hx. unfold s32. rewrite u32_small by lia. zcases. Qed.
(** In a word its rest is not counted. *)
Definition words_from (b : bool) (l : list Z) : nat := length (filter (fun f => f <> []) (if b then tail (fields l) else fields l)).
Lemma wc_fold l : forall x, 0 <= n_l x -> 0 <= n_w x -> 0 <= n_c x -> n_l x + n_w x + n_c x + 3 * Z.of_nat (length l) < 2147483648 ->
  let y := foldl wc_byte x l in
  n_l y = n_l x + Z.of_nat (lines l) /\ n_w y = n_w x + Z.of_nat (words_from (inword x) l) /\ n_c y = n_c x + Z.of_nat (length l).
Proof.
  induction l as [|c l IH]; intros [xl xw xc b] Hl Hw Hc Hb; cbn [n_l n_w n_c inword length foldl] in *.
  { unfold lines, words_from. destruct b; simpl; lia. }
  unfold wc_byte at 2 4 6. cbn [n_l n_w n_c inword]. rewrite (s32_small_nat (xc + 1)), (s32_small_nat (xl + 1)), (s32_small_nat (xw + 1)) by lia.
  assert (lines (c :: l) = (if (c =? LF)%Z then 1 else 0) + lines l)%nat as ->.
  { unfold lines. rewrite filter_cons. destruct (Z.eqb_spec c LF); case_decide; simpl; done || lia. }
  destruct (fields_cons l) as (f & fs & Ef). unfold words_from in *. simpl fields. rewrite Ef in *. unfold space in *.
  destruct (decide (c ∈ wc_space)) as [Hsp|Hsp].
  - rewrite bool_decide_eq_true_2 by done.
    destruct (IH (Counts (if c =? LF then xl + 1 else xl) xw (xc + 1) false)) as (E1 & E2 & E3); cbn [n_l n_w n_c inword] in *; [repeat case_match; lia..|].
    rewrite E1, E2, E3. split; [case_match; lia|]. split; [|lia]. destruct b; cbn [tail]; [done|]. by rewrite (filter_cons_False _ []) by (intros H; by apply H).
  - rewrite bool_decide_eq_false_2 by done.
    destruct (IH (Counts (if c =? LF then xl + 1 else xl) (if b then xw else xw + 1) (xc + 1) true)) as (E1 & E2 & E3); cbn [n_l n_w n_c inword] in *; [repeat case_match; lia..|].
    destruct b; cbn [negb]; rewrite E1, E2, E3; (split; [case_match; lia|]); (split; [|lia]); cbn [tail]; [done|].
    rewrite (filter_cons_True _ (c :: f)) by done. simpl length. lia.
Qed.

Definition decimal (x : Z) : list Z := default [] (printint x 10 true).
Lemma printint_decimal x : 0 <= x < 2147483648 -> printint (s32 (u32 x)) 10 true = Some (decimal x).
Proof.
  intros Hx. rewrite u32_small, s32_small_nat by lia. unfold decimal. destruct (printint_abs x 10 true ltac:(lia) ltac:(lia)) as (ds & -> & _). done.
Qed.
(** The line that wc writes for a file. *)
Definition wc_report (name l : list Z) : list Z :=
  decimal (Z.of_nat (lines l)) ++ [32] ++ decimal (Z.of_nat (length (words l))) ++ [32] ++ decimal (Z.of_nat (length l)) ++ [32] ++ name ++ [LF].
Lemma printf_num str fmt ap x : ap 0%nat = u32 x -> 0 <= x < 2147483648 ->
  printf_loop str (PERCENT :: 100 :: fmt) false ap = opt_app (Some (decimal x)) (printf_loop str fmt false (fun i => ap (S i))).
Proof. intros Ha Hx. cbn [printf_loop negb]. simpl Z.eqb. cbv iota. by rewrite Ha, printint_decimal. Qed.
Lemma printf_char str c fmt ap : c <> PERCENT -> printf_loop str (c :: fmt) false ap = opt_app (Some [c]) (printf_loop str fmt false ap).
Proof. intros Hc. cbn [printf_loop negb]. by rewrite (proj2 (Z.eqb_neq _ _) Hc). Qed.
Lemma printf_str str fmt ap : printf_loop str (PERCENT :: 115 :: fmt) false ap = opt_app (Some (string_arg str (ap 0%nat))) (printf_loop str fmt false (fun i => ap (S i))).
Proof. done. Qed.
Lemma format_wc a b c f : 0 <= a < 2147483648 -> 0 <= b < 2147483648 -> 0 <= c < 2147483648 ->
  formatted (bytes "%d %d %d %s" ++ [LF]) [Num a; Num b; Num c; Str f] = Some (decimal a ++ [32] ++ decimal b ++ [32] ++ decimal c ++ [32] ++ f ++ [LF]).
Proof.
  intros Ha Hb Hc. unfold formatted, printf. change (bytes "%d %d %d %s" ++ [LF]) with [37; 100; 32; 37; 100; 32; 37; 100; 32; 37; 115; 10].
  rewrite (printf_num _ _ _ a) by done. rewrite printf_char by done.
  rewrite (printf_num _ _ _ b) by done. rewrite printf_char by done.
  rewrite (printf_num _ _ _ c) by done. rewrite printf_char by done. rewrite printf_str.
  simpl. by rewrite <- ?app_assoc.
Qed.
Lemma words_count l : (length (words l) <= length l)%nat.
Proof.
  unfold words. assert (forall l, length (filter (fun f => f <> []) (fields l)) <= length l /\ length (filter (fun f => f <> []) (tail (fields l))) <= length l)%nat as H; [|apply H].
  clear. induction l as [|c l [IH1 IH2]]; simpl; [done|]. destruct (fields_cons l) as (f & fs & Ef). rewrite Ef in *. case_decide.
  - simpl tail. rewrite (filter_cons_False _ []) by (intros H'; by apply H'). lia.
  - simpl tail in *. rewrite (filter_cons_True _ (c :: f)) by done. simpl. lia.
Qed.
Lemma wc_loop_ok n : forall l fuel fd name w o x, (length l <= n)%nat -> src w fd = Some l -> out w 1 = Some o -> (length l < fuel)%nat ->
  let y := foldl wc_byte x l in 0 <= n_l y < 2147483648 -> 0 <= n_w y < 2147483648 -> 0 <= n_c y < 2147483648 ->
  exists w', wc_loop fuel fd name x w = Ret true w' /\ src w' fd = Some [] /\ file w' = file w /\
    out w' 1 = Some (o ++ decimal (n_l y) ++ [32] ++ decimal (n_w y) ++ [32] ++ decimal (n_c y) ++ [32] ++ name ++ [LF]).
Proof.
  induction n as [|n IH]; intros l fuel fd name w o x Hn Hs Ho Hf y Hl Hw Hc; destruct fuel as [|fuel]; try lia; cbn [wc_loop];
    destruct (read_src w fd l 512 Hs ltac:(lia)) as (k & w1 & E & Hk & Hkl & Hk0 & Hs1 & Ho1 & Hf1 & _); rewrite (bind_Ret _ _ _ _ _ E); rewrite <- Ho1 in Ho.
  all: destruct l as [|c l];
    [assert (k = 0)%nat as -> by (simpl in Hkl; lia); subst y; cbn [foldl] in *; change (0 <? Z.of_nat 0) with false; change (Z.of_nat 0 <? 0) with false; cbv iota; destruct (uprintf_ok _ _ _ w1 1 o (format_wc _ _ _ name Hl Hw Hc) Ho) as (w2 & E2 & Ho2 & Hs2 & Hf2 & _);
     exists w2; rewrite (bind_Ret _ _ _ _ _ E2), Hs2, Hf2, Hf1; done |].
  - simpl in Hn. lia.
  - specialize (Hk0 ltac:(done)). rewrite (proj2 (Z.ltb_lt _ _)), Nat2Z.id, take_take, Nat.min_id by lia.
    assert (y = foldl wc_byte (foldl wc_byte x (take k (c :: l))) (drop k (c :: l))) as Ey by (by rewrite <- foldl_app, take_drop).
    destruct (IH (drop k (c :: l)) fuel fd name w1 o (foldl wc_byte x (take k (c :: l)))) as (w' & E' & Hs' & Hf' & Ho'); rewrite <- ?Ey; try done; [rewrite length_drop; simpl in *; lia..|].
    exists w'. rewrite <- Ey in Ho'. by rewrite Hf', Hf1.
Qed.
Lemma wc_ok l fuel fd name w o : src w fd = Some l -> out w 1 = Some o -> (length l < fuel)%nat -> 3 * Z.of_nat (length l) < 2147483648 ->
  exists w', wc fuel fd name w = Ret true w' /\ src w' fd = Some [] /\ file w' = file w /\ out w' 1 = Some (o ++ wc_report name l).
Proof.
  intros Hs Ho Hf Hb. destruct (wc_fold l (Counts 0 0 0 false)) as (E1 & E2 & E3); simpl; try lia. pose proof (words_count l) as Hw.
  assert (lines l <= length l)%nat as Hl by (unfold lines; apply length_filter). simpl in E1, E2, E3. unfold words_from in E2. fold (words l) in E2.
  destruct (wc_loop_ok (length l) l fuel fd name w o (Counts 0 0 0 false)) as (w' & E & H1 & H2 & H3); rewrite ?E1, ?E2, ?E3; try done; try lia.
  exists w'. rewrite E1, E2, E3 in H3. done.
Qed.

(** Wc counts.  For files that can be read, up to 2^31 / 3 bytes, wc writes for
    each argument, in order, the number of its newlines, of the maximal runs of
    bytes that are not white space, and of its bytes, whatever pieces the calls of
    read deliver, and with no argument those of its standard input; at a file that
    cannot be opened it says so and ends. *)
Theorem wc_counts fuel w o : out w 1 = Some o -> let size := Z.min 715827882 (Z.of_nat fuel) in
  (forall l, src w 0 = Some l -> Z.of_nat (length l) < size ->
     exists w', wc_main fuel [] w = Ret tt w' /\ out w' 1 = Some (o ++ wc_report [] l)) /\
  (forall f argv, (forall f st l, file w f = Some (st, l) -> Z.of_nat (length l) < size) ->
     exists w', wc_main fuel (f :: argv) w = Ret tt w' /\ out w' 1 = Some (o ++ files_text wc_report "wc" (file w) (f :: argv))).
Proof.
  intros Ho size. split.
  - intros l Hs Hl. destruct (wc_ok l fuel 0 [] w o) as (w' & E & _ & _ & Ho'); [done | done | lia | lia|].
    exists w'. split; [|done]. unfold wc_main. by rewrite (bind_Ret _ _ _ _ _ E).
  - intros f argv Hsize. apply (on_files_ok _ _ _ size); [by vm_compute; set_solver| | done | done]. intros w0 fd f0 l o0 Hs Ho0 Hl. apply wc_ok; [done | done | lia | lia].
Qed.

(** Cat copies.  cat writes the contents of its arguments one after the other,
    or its standard input when it has none; at a file that cannot be opened it says
    so and ends. *)
Theorem cat_concatenates fuel w o : out w 1 = Some o ->
  (forall l, src w 0 = Some l -> Z.of_nat (length l) < Z.of_nat fuel -> exists w', cat_main fuel [] w = Ret tt w' /\ out w' 1 = Some (o ++ l)) /\
  (forall f argv, (forall f st l, file w f = Some (st, l) -> Z.of_nat (length l) < Z.of_nat fuel) ->
     exists w', cat_main fuel (f :: argv) w = Ret tt w' /\ out w' 1 = Some (o ++ files_text (fun _ l => l) "cat" (file w) (f :: argv))).
Proof.
  intros Ho.
  assert (forall w fd (f : list Z) l o, src w fd = Some l -> out w 1 = Some o -> Z.of_nat (length l) < Z.of_nat fuel ->
    exists w', cat fuel fd w = Ret true w' /\ src w' fd = Some [] /\ file w' = file w /\ out w' 1 = Some (o ++ l)) as Hcat.
  { intros w0 fd f0 l o0 Hs Ho0 Hl. destruct (cat_ok (length l) l fuel fd w0 o0) as (w' & E & H1 & H2 & H3); [done | done | done | lia|]. by exists w'. }
  split.
  - intros l Hs Hl. destruct (Hcat w 0 [] l o Hs Ho Hl) as (w' & E & _ & _ & Ho'). exists w'. split; [|done]. unfold cat_main. by rewrite (bind_Ret _ _ _ _ _ E).
  - intros f argv Hsize. by apply (on_files_ok _ (fun _ l => l) _ (Z.of_nat fuel)); [vm_compute; set_solver | | |].
Qed.

(** echo writes its arguments, with a blank between them and a newline at the end. *)
Fixpoint echo_text (argv : list (list Z)) : list Z :=
  match argv with
  | [] => []
  | a :: argv => a ++ match argv with [] => [LF] | _ => [32] end ++ echo_text argv
  end.
Lemma echo_writes argv : forall w o, out w 1 = Some o -> exists w', echo_main argv w = Ret tt w' /\ out w' 1 = Some (o ++ echo_text argv).
Proof.
  induction argv as [|a argv IH]; intros w o Ho; simpl; [exists w; by rewrite app_nil_r|]. set (e := match argv with [] => [LF] | _ => [32] end).
  assert (formatted (bytes "%s%s") [Str a; Str e] = Some (a ++ e)) as Ef.
  { unfold formatted, printf. change (bytes "%s%s") with [37; 115; 37; 115]. rewrite !printf_str. simpl. by rewrite app_nil_r. }
  destruct (uprintf_ok _ _ _ w 1 o Ef Ho) as (w1 & E1 & Ho1 & _). rewrite (bind_Ret _ _ _ _ _ E1).
  destruct (IH w1 _ Ho1) as (w' & E' & Ho'). exists w'. by rewrite <- !app_assoc in Ho'.
Qed.

(** ** Listing a directory *)

Definition ls_text (path : list Z) (st : stat) : list Z :=
  fmtname path ++ [32] ++ decimal (st_type st) ++ [32] ++ decimal (st_ino st) ++ [32] ++ decimal (st_size st) ++ [LF].
Definition small_stat (st : stat) : Prop := 0 <= st_type st < 2147483648 /\ 0 <= st_ino st < 2147483648 /\ 0 <= st_size st < 2147483648.
Lemma format_ls path st : small_stat st -> formatted ls_line (ls_args path st) = Some (ls_text path st).
Proof.
  intros (H1 & H2 & H3). unfold formatted, printf, ls_args. change ls_line with [37; 115; 32; 37; 100; 32; 37; 100; 32; 37; 100; 10].
  rewrite printf_str, printf_char, (printf_num _ _ _ (st_type st)) by done. rewrite printf_char, (printf_num _ _ _ (st_ino st)) by done.
  rewrite printf_char, (printf_num _ _ _ (st_size st)), printf_char by done. simpl. unfold string_arg, ls_text. simpl. by rewrite <- ?app_assoc.
Qed.
Lemma format_stat path : formatted (bytes "ls: cannot stat %s" ++ [LF]) [Str path] = Some (bytes "ls: cannot stat " ++ path ++ [LF]).
Proof.
  unfold formatted, printf. change (bytes "ls: cannot stat %s" ++ [LF]) with (bytes "ls: cannot stat " ++ [PERCENT; 115; LF]).
  rewrite printf_plain by (apply (bool_decide_unpack _); vm_compute; exact I). done.
Qed.
(** What is written for an entry of the directory [path]. *)
Definition ls_entry (files : list Z -> option (stat * list Z)) (path de : list Z) : list Z :=
  if ls_inum de =? 0 then []
  else
    let buf := path ++ 47 :: ls_name de in
    match files buf with
    | Some (st, _) => ls_text buf st
    | None => bytes "ls: cannot stat " ++ buf ++ [LF]
    end.
(** The directory stays open while other files are opened. *)
Definition dir_at (w : W) (fd : Z) (l o : list Z) (files : list Z -> option (stat * list Z)) : Prop :=
  src w fd = Some l /\ (exists st, node w fd = Some st /\ st_type st = T_DIR) /\ out w 1 = Some o /\ file w = files.
Lemma u_stat_ok path st0 w fd l o files : dir_at w fd l o files -> exists r w', u_stat path st0 w = Ret r w' /\ dir_at w' fd l o files /\
  match files path with Some (st, _) => r = (0, st) | None => r = (-1, st0) end.
Proof.
  intros (Hs & (dst & Hn & Ht) & Ho & Hf). unfold u_stat. rewrite <- Hf. destruct (file w path) as [[st x]|] eqn:Ef.
  - destruct (open_file w path st x Ef) as (fd' & w1 & E1 & Hfd & Hnew & Hs1 & Hn1 & Ho1 & Hf1). rewrite (bind_Ret _ _ _ _ _ E1), (proj2 (Z.ltb_ge _ _)) by done.
    assert (fd <> fd') as Hne by (intros ->; congruence).
    rewrite (bind_Ret _ _ _ _ _ (fstat_node w1 fd' st ltac:(by rewrite Hn1, fn_lookup_insert))).
    destruct (close_src w1 fd' x ltac:(by rewrite Hs1, fn_lookup_insert)) as (r & w2 & E2 & Hs2 & Hn2 & Ho2 & Hf2). rewrite (bind_Ret _ _ _ _ _ E2).
    exists (0, st), w2. split; [done|]. split; [|done]. unfold dir_at. rewrite Hs2, Hn2, !fn_lookup_insert_ne, Hs1, Hn1, !fn_lookup_insert_ne, Ho2, Ho1, Hf2, Hf1 by done. split; [done|]. split; [by exists dst | done].
  - rewrite (bind_Ret _ _ _ _ _ (open_missing w path Ef)). exists (-1, st0), w. split; [done|]. split; [|done]. split; [done|]. split; [by exists dst | done].
Qed.
Lemma ls_write fmt args text w fd l o files : formatted fmt args = Some text -> dir_at w fd l o files ->
  exists w', uprintf 1 fmt args w = Ret tt w' /\ dir_at w' fd l (o ++ text) files.
Proof.
  intros E (Hs & Hn & Ho & Hf). destruct (uprintf_ok _ _ _ w 1 o E Ho) as (w' & E' & Ho' & Hs' & Hf' & Hn'). exists w'. split; [done|].
  unfold dir_at. by rewrite Hs', Hn', Hf'.
Qed.
Lemma ls_dir_ok path files recs : Forall (fun de => length de = 16%nat) recs -> (forall f st l, files f = Some (st, l) -> small_stat st) ->
  forall fuel fd st w o, dir_at w fd (concat recs) o files -> (length recs < fuel)%nat ->
  exists w', ls_dir fuel fd path st w = Ret tt w' /\ dir_at w' fd [] (o ++ concat (map (ls_entry files path) recs)) files.
Proof.
  intros Hr Hsm. induction Hr as [|de recs Hde Hr IH]; intros fuel fd st w o Hd Hfu; destruct fuel as [|fuel]; try (simpl in Hfu; lia); cbn [ls_dir].
  - pose proof Hd as (Hs & Hn & Ho & Hf). destruct (read_src w fd [] 16 Hs ltac:(lia)) as (k & w1 & E & _ & Hk & _ & Hs1 & Ho1 & Hf1 & Hn1).
    assert (k = 0)%nat as -> by (simpl in Hk; lia). rewrite (bind_Ret _ _ _ _ _ E). exists w1. split; [done|]. unfold dir_at. rewrite Hs1, Hn1, Ho1, Hf1, app_nil_r. done.
  - pose proof Hd as (Hs & (dst & Hn & Ht) & Ho & Hf). simpl concat in Hs. destruct (read_src w fd _ 16 Hs ltac:(lia)) as (k & w1 & E & _ & _ & _ & Hs1 & Ho1 & Hf1 & Hn1).
    destruct (read_dir w fd dst _ 16 Hs Hn Ht) as (w1' & E'); [rewrite length_app; lia | lia|]. rewrite E' in E. simplify_eq.
    rewrite (bind_Ret _ _ _ _ _ E'). change (Z.of_nat 16 =? 16) with true. cbn [negb]. rewrite <- Hde in Hs1. rewrite <- Hde, take_app_length. rewrite drop_app_length in Hs1.
    assert (dir_at w1 fd (concat recs) o (file w)) as Hd1 by (unfold dir_at; rewrite Hn1, Ho1, Hf1; split; [done|]; split; [by exists dst | done]).
    simpl map. simpl concat. unfold ls_entry at 1. destruct (ls_inum de =? 0); [by apply IH; [|simpl in Hfu; lia]|]. cbv zeta.
    destruct (u_stat_ok (path ++ 47 :: ls_name de) st w1 fd _ _ _ Hd1) as (r & w2 & E2 & Hd2 & Hr2). rewrite (bind_Ret _ _ _ _ _ E2).
    destruct (file w (path ++ 47 :: ls_name de)) as [[st' x]|] eqn:Ef; subst r; [change (0 <? 0) with false | change (-1 <? 0) with true]; cbv iota.
    + destruct (ls_write _ _ _ w2 fd _ _ _ (format_ls (path ++ 47 :: ls_name de) st' (Hsm _ _ _ Ef)) Hd2) as (w3 & E3 & Hd3). rewrite (bind_Ret _ _ _ _ _ E3), app_assoc.
      apply IH; [done | simpl in Hfu; lia].
    + destruct (ls_write _ _ _ w2 fd _ _ _ (format_stat (path ++ 47 :: ls_name de)) Hd2) as (w3 & E3 & Hd3). rewrite (bind_Ret _ _ _ _ _ E3), app_assoc.
      apply IH; [done | simpl in Hfu; lia].
Qed.
Lemma name_start_app a b : 47 ∉ b -> forall i, (i <= length b)%nat -> name_start (a ++ 47 :: b) (S (length a) + i) = S (length a).
Proof.
  intros Hb. induction i as [|i IH]; intros Hi.
  - rewrite Nat.add_0_r. cbn [name_start]. rewrite lookup_app_r by lia. replace (S (length a) - length a)%nat with 1%nat by lia. simpl.
    assert ((default 0 (b !! 0%nat) =? 47) = false) as ->.
    { apply Z.eqb_neq. destruct b as [|c b]; [done|]. simpl. set_solver. }
    destruct (length a) as [|n] eqn:En; cbn [name_start]; rewrite lookup_app_r, En, Nat.sub_diag by lia; done.
  - replace (S (length a) + S i)%nat with (S (S (length a) + i)) by lia. cbn [name_start]. rewrite lookup_app_r by lia.
    replace (S (S (length a) + i) - length a)%nat with (S (S i)) by lia. simpl.
    rewrite (proj2 (Z.eqb_neq _ _)); [apply IH; lia|]. destruct (b !! S i) as [c|] eqn:E; simpl; [|lia]. intros ->. by apply Hb, (list_elem_of_lookup_2 _ (S i)).
Qed.
Lemma fmtname_app a b : 47 ∉ b -> fmtname (a ++ 47 :: b) = b ++ replicate (DIRSIZ - length b) 32.
Proof.
  intros Hb. unfold fmtname. replace (length (a ++ 47 :: b)) with (S (length a) + length b)%nat by (rewrite length_app; simpl; lia).
  rewrite name_start_app by done. replace (drop (S (length a)) (a ++ 47 :: b)) with b.
  - destruct (Nat.leb_spec DIRSIZ (length b)) as [Hge|Hlt]; [|done]. replace (DIRSIZ - length b)%nat with 0%nat by lia. by rewrite app_nil_r.
  - rewrite drop_app_ge by lia. by replace (S (length a) - length a)%nat with 1%nat by lia.
Qed.

(** Ls lists a directory.  For a directory whose path fits the buffer, ls writes a
    line for every entry with an inode number, in the order of the directory: the
    name, padded with blanks to 14 bytes, and the type, the number and the size of
    the file that its path leads to, or that it cannot be examined.  For a file it
    writes the line of the file. *)
Theorem ls_lists_directory fuel path w o st l : out w 1 = Some o -> file w path = Some (st, l) ->
  (forall f st l, file w f = Some (st, l) -> small_stat st) -> (length l < 16 * fuel)%nat ->
  (st_type st = T_FILE -> exists w', ls fuel path w = Ret tt w' /\ out w' 1 = Some (o ++ ls_text path st)) /\
  (forall recs, st_type st = T_DIR -> (length path <= 496)%nat -> l = concat recs -> Forall (fun de => length de = 16%nat) recs ->
   (forall de, de ∈ recs -> 47 ∉ ls_name de) ->
   exists w', ls fuel path w = Ret tt w' /\ out w' 1 = Some (o ++ concat (map (fun de =>
     if ls_inum de =? 0 then []
     else match file w (path ++ 47 :: ls_name de) with
          | Some (st, _) => (ls_name de ++ replicate (DIRSIZ - length (ls_name de)) 32) ++ [32] ++
              decimal (st_type st) ++ [32] ++ decimal (st_ino st) ++ [32] ++ decimal (st_size st) ++ [LF]
          | None => bytes "ls: cannot stat " ++ path ++ [47] ++ ls_name de ++ [LF]
          end) recs))).
Proof.
  intros Ho Hf Hsm Hfu. destruct (open_file w path st l Hf) as (fd & w1 & E1 & Hfd & Hnew & Hs1 & Hn1 & Ho1 & Hf1).
  assert (src w1 fd = Some l) as Hs by (by rewrite Hs1, fn_lookup_insert). assert (node w1 fd = Some st) as Hn by (by rewrite Hn1, fn_lookup_insert). rewrite <- Ho1 in Ho.
  assert (forall body o', (exists w2, body w1 = Ret tt w2 /\ (exists x, src w2 fd = Some x) /\ out w2 1 = Some o') ->
    exists w', (body ;;; u_close fd ;;; ret tt) w1 = Ret tt w' /\ out w' 1 = Some o') as Hend.
  { intros body o' (w2 & E2 & [x Hx] & Ho2). destruct (close_src w2 fd x Hx) as (r & w3 & E3 & _ & _ & Ho3 & _). exists w3. rewrite (bind_Ret _ _ _ _ _ E2), (bind_Ret _ _ _ _ _ E3), Ho3. done. }
  unfold ls. rewrite (bind_Ret _ _ _ _ _ E1), (proj2 (Z.ltb_ge _ _)) by done. rewrite (bind_Ret _ _ _ _ _ (fstat_node w1 fd st Hn)). change (0 <? 0) with false. cbv iota. split.
  - intros Ht. rewrite Ht. apply Hend. destruct (uprintf_ok _ _ _ w1 1 o (format_ls path st (Hsm _ _ _ Hf)) Ho) as (w2 & E2 & Ho2 & Hs2 & _).
    exists w2. split; [done|]. split; [exists l; by rewrite Hs2 | done].
  - intros recs Ht Hp Hl Hr Hname. rewrite Ht. change (T_DIR =? T_FILE) with false. change (T_DIR =? T_DIR) with true. cbv iota.
    rewrite (proj2 (Nat.ltb_ge _ _)) by lia. apply Hend.
    assert (length l = 16 * length recs)%nat as Hlen by (rewrite Hl; clear -Hr; induction Hr; simpl; rewrite ?length_app; lia).
    destruct (ls_dir_ok path (file w) recs Hr Hsm fuel fd st w1 o) as (w2 & E2 & Hd2 & _ & Ho2 & _); [|lia|].
    { split; [by rewrite Hs, Hl|]. split; [by exists st | done]. }
    exists w2. split; [done|]. split; [by exists []|]. rewrite Ho2. do 2 f_equal. f_equal. apply map_ext_in. intros de Hde. apply list_elem_of_In in Hde.
    unfold ls_entry. cbv zeta. destruct (ls_inum de =? 0); [done|]. destruct (file w (path ++ 47 :: ls_name de)) as [[st' x]|].
    + unfold ls_text. by rewrite fmtname_app by (by apply Hname).
    + f_equal. by rewrite <- app_assoc.
Qed.
End laws.

(** ** Files in memory *)

(** A system with the files [t_files]: reads of what is no directory give at most
    seven bytes; descriptors are not used again. *)
Record toysys := ToySys { t_files : list Z -> option (stat * list Z); t_fds : Z -> option (stat * list Z); t_next : nat; t_out : list Z }.
Definition toy_fd (w : toysys) (fd : Z) : option (stat * list Z) := if fd <? Z.of_nat (t_next w) then t_fds w fd else None.
Definition set_fd (fd : Z) (x : option (stat * list Z)) (w : toysys) : toysys := ToySys (t_files w) (<[fd := x]> (t_fds w)) (t_next w) (t_out w).
#[export] Instance toy_sys : Sys toysys := {
  u_open f _ := fun w =>
    match t_files w f with
    | Some x => let fd := Z.of_nat (t_next w) in Ret fd (ToySys (t_files w) (<[fd := Some x]> (t_fds w)) (S (t_next w)) (t_out w))
    | None => Ret (-1) w
    end;
  u_close fd := fun w => Ret 0 (set_fd fd None w);
  u_read fd n := fun w =>
    match toy_fd w fd with
    | Some (st, l) =>
        let k := (if (st_type st =? T_DIR)%Z then n `min` length l else (n `min` 7) `min` length l)%nat in
        Ret (Z.of_nat k, take k l) (set_fd fd (Some (st, drop k l)) w)
    | None => Ret (-1, []) w
    end;
  u_write fd d := fun w => if fd =? 1 then Ret (Z.of_nat (length d)) (ToySys (t_files w) (t_fds w) (t_next w) (t_out w ++ d)) else Ret (-1) w;
  u_fstat fd := fun w => match toy_fd w fd with Some (st, _) => Ret (0, st) w | None => Ret (-1, Stat 0 0 0) w end;
}.
Lemma toy_set fd x w y z : toy_fd w fd = Some y -> toy_fd (set_fd fd x w) z = (<[fd := x]> (toy_fd w)) z.
Proof.
  unfold toy_fd. simpl. intros Hfd. destruct (decide (z = fd)) as [->|Hne]; [rewrite !fn_lookup_insert | rewrite !fn_lookup_insert_ne by done; done].
  destruct (fd <? Z.of_nat (t_next w)); done.
Qed.
Lemma toy_set_fmap {A} (f : stat * list Z -> A) fd x w y z : toy_fd w fd = Some y -> f <$> toy_fd (set_fd fd x w) z = (<[fd := f <$> x]> (fun z => f <$> toy_fd w z)) z.
Proof.
  intros Hfd. rewrite (toy_set _ _ _ _ _ Hfd). destruct (decide (z = fd)) as [->|Hne]; [by rewrite !fn_lookup_insert | by rewrite !fn_lookup_insert_ne].
Qed.
#[export] Instance toy_syslaws : SysLaws toysys.
Proof.
  refine {| src w fd := snd <$> toy_fd w fd; out w fd := if fd =? 1 then Some (t_out w) else None; file w := t_files w; node w fd := fst <$> toy_fd w fd |}.
  - intros w fd l n Hs Hn. simpl. destruct (toy_fd w fd) as [[st l']|] eqn:E; simplify_eq/=. eexists _, _. split; [done|]. split; [case_match; lia|]. split; [case_match; lia|].
    split; [intros Hl; destruct l; [done|]; simpl; case_match; lia|]. split; [by rewrite (toy_set _ _ _ _ _ E), fn_lookup_insert|]. do 2 (split; [done|]).
    intros x. rewrite (toy_set_fmap _ _ _ _ _ _ E). destruct (decide (x = fd)) as [->|Hne]; [by rewrite fn_lookup_insert, E | by rewrite fn_lookup_insert_ne].
  - intros w fd st l n Hs Hn Ht Hle Hpos. simpl. destruct (toy_fd w fd) as [[st' l']|] eqn:E; simplify_eq/=. rewrite Ht. simpl. rewrite Nat.min_l by done. by eexists.
  - intros w fd o d Ho. simpl. destruct (fd =? 1); simplify_eq/=. by eexists.
  - intros w f st l Hf. simpl. rewrite Hf. eexists _, _. split; [done|]. split; [lia|]. split; [unfold toy_fd; by rewrite (proj2 (Z.ltb_ge _ _)) by lia|].
    assert (forall A (g : stat * list Z -> A) x, g <$> toy_fd (ToySys (t_files w) (<[Z.of_nat (t_next w) := Some (st, l)]> (t_fds w)) (S (t_next w)) (t_out w)) x =
      (<[Z.of_nat (t_next w) := Some (g (st, l))]> (fun x => g <$> toy_fd w x)) x) as Hg; [|split; [intros x; apply Hg|]; split; [intros x; apply Hg | done]].
    intros A g x. unfold toy_fd. cbn [t_next t_fds]. destruct (decide (x = Z.of_nat (t_next w))) as [->|Hne].
    + by rewrite !fn_lookup_insert, (proj2 (Z.ltb_lt _ _)) by lia.
    + rewrite !fn_lookup_insert_ne by done. f_equal. destruct (Z.ltb_spec x (Z.of_nat (t_next w))), (Z.ltb_spec x (Z.of_nat (S (t_next w)))); done || lia.
  - intros w f Hf. simpl. by rewrite Hf.
  - intros w fd st Hn. simpl. destruct (toy_fd w fd) as [[st' l']|]; by simplify_eq/=.
  - intros w fd l Hs. simpl. destruct (toy_fd w fd) as [[st' l']|] eqn:E; simplify_eq/=. eexists _, _. split; [done|].
    split; [intros x; exact (toy_set_fmap snd fd None w _ x E)|]. split; [intros x; exact (toy_set_fmap fst fd None w _ x E) | done].
Defined.

(** A directory "d" with the entries "a" and "bc" and an empty one, and files of 12
    and 0 bytes. *)
Definition name_a : list Z := [100; 47; 97].
Definition name_bc : list Z := [100; 47; 98; 99].
Definition text_a : list Z := bytes "one  two" ++ [10] ++ bytes "3.." .
Definition dir_d : list (list Z) := [[5; 0; 97] ++ replicate 13 0; replicate 16 0; [6; 0; 98; 99] ++ replicate 12 0].
Definition toy_w : toysys :=
  ToySys (fun f => if decide (f = [100]) then Some (Stat 1 2 48, concat dir_d)
                   else if decide (f = name_a) then Some (Stat 2 5 12, text_a)
                   else if decide (f = name_bc) then Some (Stat 2 6 0, []) else None) (fun _ => None) 3 [].
Lemma toy_sizes f st l : t_files toy_w f = Some (st, l) -> (length l < 100)%nat /\ small_stat st.
Proof. simpl. intros H. repeat case_decide; simplify_eq; (split; [simpl; lia | repeat split; simpl; lia]). Qed.
Lemma wc_counts_witness : exists w', wc_main 100 [name_a; name_bc; [120]] toy_w = Ret tt w' /\
  out w' 1 = Some (bytes "1 3 12 d/a" ++ [10] ++ bytes "0 0 0 d/bc" ++ [10] ++ bytes "wc: cannot open x" ++ [10]).
Proof.
  refine (proj2 (wc_counts 100 toy_w [] eq_refl) name_a [name_bc; [120]] _).
  intros f st l Hf. apply toy_sizes in Hf as [Hl _]. lia.
Defined.
Lemma cat_concatenates_witness : exists w', cat_main 100 [name_a; name_a; [120]] toy_w = Ret tt w' /\
  out w' 1 = Some (text_a ++ text_a ++ bytes "cat: cannot open x" ++ [10]).
Proof.
  refine (proj2 (cat_concatenates 100 toy_w [] eq_refl) name_a [name_a; [120]] _).
  intros f st l Hf. apply toy_sizes in Hf as [Hl _]. lia.
Defined.
Lemma ls_lists_directory_witness : exists w', ls 100 [100] toy_w = Ret tt w' /\
  out w' 1 = Some (bytes "a              2 5 12" ++ [10] ++ bytes "bc             2 6 0" ++ [10]).
Proof.
  refine (proj2 (ls_lists_directory 100 [100] toy_w [] (Stat 1 2 48) (concat dir_d) eq_refl eq_refl _ _) dir_d eq_refl _ eq_refl _ _).
  - intros f st l Hf. by apply toy_sizes in Hf as [_ ?].
  - simpl. lia.
  - simpl. lia.
  - repeat (apply Forall_cons; split; [done|]). by apply Forall_nil.
  - intros de Hde. unfold dir_d in Hde. rewrite !elem_of_cons, elem_of_nil in Hde. destruct Hde as [-> |[-> |[-> |[]]]]; apply (bool_decide_unpack _); vm_compute; exact I.
Defined.
