(* ===== verification/Programs.v ===== *)
(** * More user programs (init.c, grep.c, rm.c, mkdir.c, ln.c, kill.c, zombie.c, forktest.c, stressfs.c, swaptest.c)

    The programs that use processes, directories or swap space, over the class of
    system calls of Utils.v and the class [Procs].  A call of exec that succeeds
    does not return; a program that calls exit returns.  The law of processes,
    [ProcLaws], is what fork and wait of the kernel promise to a process. *)

From stdpp Require Import functions gmap.
From S2P Require Import Prelude Mem CString Printf Grep Utils.
#[local] Open Scope Z_scope.

Abbreviation O_RDWR := 2.
Abbreviation O_CREATE := 512.

Class Procs (W : Type) := {
  u_fork : M W Z;
  u_wait : M W Z;
  u_exec : list Z -> list (list Z) -> M W bool;   (* whether the program was replaced *)
  u_sleep : Z -> M W Z;
  u_kill : Z -> M W Z;
  u_dup : Z -> M W Z;
  u_mknod : list Z -> Z -> Z -> M W Z;
  u_unlink : list Z -> M W Z;
  u_mkdir : list Z -> M W Z;
  u_link : list Z -> list Z -> M W Z;
  u_swapwrite : list Z -> Z -> M W Z;
  u_swapread : Z -> M W (list Z);                 (* what is put into the buffer *)
}.

Section programs.
Context {W : Type} `{!Sys W, !Procs W}.

(** ** init *)

Definition init_open : M W unit :=
  fd <- u_open (bytes "console") O_RDWR ;;
  (if fd <? 0 then u_mknod (bytes "console") 1 1 ;;; u_open (bytes "console") O_RDWR ;;; ret tt else ret tt) ;;;
  u_dup 0 ;;;
  u_dup 0 ;;;
  ret tt.
(** What became of the process after a round of the loop. *)
Inductive after := Again | Exited | Replaced.
Fixpoint init_wait (fuel : nat) (pid : Z) : M W unit :=
  match fuel with
  | O => diverge
  | S fuel =>
      wpid <- u_wait ;;
      if (0 <=? wpid) && negb (wpid =? pid) then uprintf 1 (bytes "zombie!" ++ [LF]) [] ;;; init_wait fuel pid
      else ret tt
  end.
Definition init_round (fuel : nat) : M W after :=
  uprintf 1 (bytes "init: starting sh" ++ [LF]) [] ;;;
  pid <- u_fork ;;
  if pid <? 0 then uprintf 1 (bytes "init: fork failed" ++ [LF]) [] ;;; ret Exited
  else if pid =? 0 then
    r <- u_exec (bytes "sh") [bytes "sh"] ;;
    if r then ret Replaced else uprintf 1 (bytes "init: exec sh failed" ++ [LF]) [] ;;; ret Exited
  else init_wait fuel pid ;;; ret Again.
(** The first [n] rounds of the endless loop. *)
Fixpoint init_rounds (n fuel : nat) : M W after :=
  match n with
  | O => ret Again
  | S n => r <- init_round fuel ;; match r with Again => init_rounds n fuel | _ => ret r end
  end.
Definition init_main (n fuel : nat) : M W after := init_open ;;; init_rounds n fuel.

(** ** rm, mkdir, ln, kill, zombie *)

(** The loop of rm and mkdir: a failure ends it. *)
Fixpoint on_names (call : list Z -> M W Z) (msg : list Z) (argv : list (list Z)) : M W unit :=
  match argv with
  | [] => ret tt
  | f :: argv =>
      r <- call f ;;
      if r <? 0 then uprintf 2 msg [Str f] else on_names call msg argv
  end.
Definition rm_main (argv : list (list Z)) : M W unit :=
  match argv with
  | [] => uprintf 2 (bytes "Usage: rm files..." ++ [LF]) []
  | _ => on_names u_unlink (bytes "rm: %s failed to delete" ++ [LF]) argv
  end.
Definition mkdir_main (argv : list (list Z)) : M W unit :=
  match argv with
  | [] => uprintf 2 (bytes "Usage: mkdir files..." ++ [LF]) []
  | _ => on_names u_mkdir (bytes "mkdir: %s failed to create" ++ [LF]) argv
  end.
Definition ln_main (argv : list (list Z)) : M W unit :=
  match argv with
  | [old; new] =>
      r <- u_link old new ;;
      if r <? 0 then uprintf 2 (bytes "link %s %s: failed" ++ [LF]) [Str old; Str new] else ret tt
  | _ => uprintf 2 (bytes "Usage: ln old new" ++ [LF]) []
  end.
(** A string at address 0, with its NUL. *)
Definition str_at0 (s : list Z) : mem := fun a => default 0 (s !! Z.to_nat a).
Definition atoi_arg (s : list Z) : M W Z :=
  match atoi (S (length s)) (str_at0 s) 0 with Some x => ret x | None => diverge end.
Fixpoint kill_all (argv : list (list Z)) : M W unit :=
  match argv with [] => ret tt | s :: argv => p <- atoi_arg s ;; u_kill p ;;; kill_all argv end.
Definition kill_main (argv : list (list Z)) : M W unit :=
  match argv with
  | [] => uprintf 2 (bytes "usage: kill pid..." ++ [LF]) []
  | _ => kill_all argv
  end.
Definition zombie_main : M W unit :=
  r <- u_fork ;;
  if 0 <? r then u_sleep 5 ;;; ret tt else ret tt.

(** ** grep *)

(** The inner loop, which writes the lines that match; the rest of the buffer. *)
Fixpoint grep_write (fuel : nat) (pattern l : list Z) : M W (list Z) :=
  match fuel with
  | O => diverge
  | S fuel =>
      match strchr_cut NEWLINE l with
      | None => ret l
      | Some (line, rest) =>
          (if match_ pattern line then u_write 1 (line ++ [NEWLINE]) ;;; ret tt else ret tt) ;;;
          grep_write fuel pattern rest
      end
  end.
Fixpoint grep_fd (fuel : nat) (pattern kept : list Z) (fd : Z) : M W bool :=
  match fuel with
  | O => diverge
  | S fuel =>
      x <- u_read fd (GREPBUF - length kept - 1) ;;
      let '(n, new) := x in
      if 0 <? n then
        let buf := kept ++ take (Z.to_nat n) new in
        p <- grep_write (S (length buf)) pattern buf ;;
        grep_fd fuel pattern (if decide (length p = length buf) then [] else p) fd
      else ret true
  end.
Definition grep_main (fuel : nat) (argv : list (list Z)) : M W unit :=
  match argv with
  | [] => uprintf 2 (bytes "usage: grep pattern [file ...]" ++ [LF]) []
  | [pattern] => grep_fd fuel pattern [] 0 ;;; ret tt
  | pattern :: files => on_files (fun fd _ => grep_fd fuel pattern [] fd) "grep" files
  end.

(** ** forktest *)

(** The number of children, or nothing in a child, which exits. *)
Fixpoint fork_loop (k : nat) (n : Z) : M W (option Z) :=
  match k with
  | O => ret (Some n)
  | S k =>
      pid <- u_fork ;;
      if pid <? 0 then ret (Some n) else if pid =? 0 then ret None else fork_loop k (n + 1)
  end.
Fixpoint wait_loop (n : nat) : M W bool :=
  match n with
  | O => ret true
  | S n =>
      r <- u_wait ;;
      if r <? 0 then u_write 1 (bytes "wait stopped early" ++ [LF]) ;;; ret false else wait_loop n
  end.
Definition forktest : M W unit :=
  u_write 1 (bytes "fork test" ++ [LF]) ;;;
  n <- fork_loop 1000 0 ;;
  match n with
  | None => ret tt
  | Some n =>
      if n =? 1000 then u_write 1 (bytes "fork claimed to work N times!" ++ [LF]) ;;; ret tt
      else
        r <- wait_loop (Z.to_nat n) ;;
        if negb r then ret tt
        else
          x <- u_wait ;;
          if negb (x =? -1) then u_write 1 (bytes "wait got too many" ++ [LF]) ;;; ret tt
          else u_write 1 (bytes "fork test OK" ++ [LF]) ;;; ret tt
  end.

(** ** stressfs *)

(** The number of the first round in which fork returns in the parent. *)
Fixpoint stress_forks (k : nat) (i : Z) : M W Z :=
  match k with
  | O => ret i
  | S k => r <- u_fork ;; if 0 <? r then ret i else stress_forks k (i + 1)
  end.
Fixpoint times (k : nat) (m : M W unit) : M W unit := match k with O => ret tt | S k => m ;;; times k m end.
Definition stressfs_main : M W unit :=
  uprintf 1 (bytes "stressfs starting" ++ [LF]) [] ;;;
  i <- stress_forks 4 0 ;;
  uprintf 1 (bytes "write %d" ++ [LF]) [Num i] ;;;
  let path := bytes "stressfs" ++ [48 + i] in
  fd <- u_open path (Z.lor O_CREATE O_RDWR) ;;
  times 20 (u_write fd (replicate 512 97) ;;; ret tt) ;;;
  u_close fd ;;;
  uprintf 1 (bytes "read" ++ [LF]) [] ;;;
  fd <- u_open path 0 ;;
  times 20 (u_read fd 512 ;;; ret tt) ;;;
  u_close fd ;;;
  u_wait ;;;
  ret tt.

(** ** swaptest *)

Fixpoint compare (a b : list Z) (i : Z) : M W unit :=
  match a, b with
  | x :: a, y :: b => (if negb (x =? y) then uprintf 1 (bytes "different at %d" ++ [LF]) [Num i] else ret tt) ;;; compare a b (i + 1)
  | _, _ => ret tt
  end.
Definition swaptest_main (argv0 : list Z) (argv : list (list Z)) : M W unit :=
  match argv with
  | [] => uprintf 1 (bytes "Usage: %s blkno" ++ [LF]) [Str argv0]
  | s :: _ =>
      blkno <- atoi_arg s ;;
      let buffer1 := replicate 4096 49 in
      u_swapwrite buffer1 blkno ;;;
      buffer2 <- u_swapread blkno ;;
      compare buffer1 buffer2 0
  end.
End programs.

(** ** What fork and wait promise *)

(** What a process knows of its children: their pids, how many forks will succeed, how
    many waits end before the wait for a child does, and whether it is init, which
    is given the children of others. *)
Record pview := PView { kids : gset Z; room : nat; exits : Z -> nat; adopter : bool }.
Class ProcLaws (W : Type) `{SysLaws W, !Procs W} := {
  procs : W -> pview;
  (** In the parent. *)
  fork_child w n : room (procs w) = S n -> exists p w', u_fork w = Ret p w' /\ 0 < p /\ (p ∉ kids (procs w)) /\ kids (procs w') = {[p]} ∪ kids (procs w) /\
    room (procs w') = n /\ adopter (procs w') = adopter (procs w) /\ out w' = out w;
  fork_full w : room (procs w) = 0%nat -> u_fork w = Ret (-1) w;
  wait_none w : kids (procs w) = ∅ -> u_wait w = Ret (-1) w;
  wait_child w : kids (procs w) <> ∅ -> exists p a w', u_wait w = Ret p w' /\ 0 < p /\ p ∈ kids (procs w) /\ kids (procs w') = (kids (procs w) ∖ {[p]}) ∪ a /\
    a ## kids (procs w) /\ (adopter (procs w) = false -> a = ∅) /\ (forall d, d ∈ kids (procs w) -> d <> p -> (exits (procs w') d < exits (procs w) d)%nat) /\
    (0 < room (procs w'))%nat /\ adopter (procs w') = adopter (procs w) /\ out w' = out w;
  write_procs w fd d r w' : u_write fd d w = Ret r w' -> procs w' = procs w;
}.

Section laws.
Context {W : Type} `{!Sys W, !SysLaws W, !Procs W, !ProcLaws W}.

Lemma write_ok w fd o d : out w fd = Some o -> exists w', u_write fd d w = Ret (Z.of_nat (length d)) w' /\ out w' fd = Some (o ++ d) /\ procs w' = procs w.
Proof. intros Ho. destruct (write_out w fd o d Ho) as (w' & E & Ho' & _). exists w'. split; [done|]. split; [done|]. by eapply write_procs. Qed.
Lemma putcs_procs l : forall w fd w', putcs fd l w = Ret tt w' -> procs w' = procs w.
Proof.
  induction l as [|c l IH]; intros w fd w' E; simpl in E; [by injection E as <-|]. unfold bind in E. destruct (u_write fd [c] w) as [r w1| |] eqn:E1; try done.
  rewrite (IH _ _ _ E). by eapply write_procs.
Qed.
Lemma say_ok l w o : formatted l [] = Some l -> out w 1 = Some o -> exists w', uprintf 1 l [] w = Ret tt w' /\ out w' 1 = Some (o ++ l) /\ procs w' = procs w.
Proof.
  intros Hl Ho. destruct (uprintf_ok l [] l w 1 o Hl Ho) as (w' & E & Ho' & _). exists w'. split; [done|]. split; [done|]. unfold uprintf in E. rewrite Hl in E. by eapply putcs_procs.
Qed.

(** *** init *)

Definition zombie_line : list Z := bytes "zombie!" ++ [LF].
Definition round_text (zombies : nat) : list Z := bytes "init: starting sh" ++ [LF] ++ mjoin (replicate zombies zombie_line).
Lemma init_wait_ok n : forall p w o, p ∈ kids (procs w) -> out w 1 = Some o -> (exits (procs w) p <= n)%nat ->
  exists w' z, (forall fuel, (n < fuel)%nat -> init_wait fuel p w = Ret tt w') /\ (p ∉ kids (procs w')) /\ (0 < room (procs w'))%nat /\ out w' 1 = Some (o ++ mjoin (replicate z zombie_line)).
Proof.
  induction n as [|n IH]; intros p w o Hp Ho Hn;
    (destruct (wait_child w ltac:(set_solver)) as (c & a & w1 & E & Hc & Hin & Hk & Ha & _ & Hex & Hr & _ & Ho1); destruct (decide (c = p)) as [->|Hne];
     [exists w1, 0%nat; split; [|rewrite app_nil_r, Ho1; split; [set_solver | done]]; intros [|fuel] Hf; [lia|]; cbn [init_wait]; rewrite (bind_Ret _ _ _ _ _ E), Z.eqb_refl, andb_false_r; done|]);
    assert (p <> c) as Hpc by done; specialize (Hex p Hp Hpc).
  - lia.
  - destruct (say_ok zombie_line w1 o) as (w2 & E2 & Ho2 & Hv2); [done | by rewrite Ho1|].
    destruct (IH p w2 (o ++ zombie_line)) as (w' & z & E' & Hk' & Hr' & Ho'); [rewrite Hv2, Hk; set_solver | done | rewrite Hv2; lia|].
    exists w', (S z). split; [|split; [done|]; split; [done|]; by rewrite Ho', <- app_assoc].
    intros [|fuel] Hf; [lia|]. cbn [init_wait]. rewrite (bind_Ret _ _ _ _ _ E), (proj2 (Z.leb_le 0 c)), (proj2 (Z.eqb_neq c p)) by (done || lia). cbn [andb negb].
    fold zombie_line. rewrite (bind_Ret _ _ _ _ _ E2). apply E'. lia.
Qed.
(** One round: a shell is started and waited for, however many others end before. *)
Lemma init_round_ok w o : (0 < room (procs w))%nat -> out w 1 = Some o ->
  exists N w' z, (forall fuel, (N <= fuel)%nat -> init_round fuel w = Ret Again w') /\ (0 < room (procs w'))%nat /\ out w' 1 = Some (o ++ round_text z).
Proof.
  intros Hr Ho. destruct (say_ok (bytes "init: starting sh" ++ [LF]) w o) as (w1 & E1 & Ho1 & Hv1); [done | done|].
  destruct (room (procs w)) as [|k] eqn:Hk; [lia|]. rewrite <- Hv1 in Hk. destruct (fork_child w1 k Hk) as (p & w2 & E2 & Hp & Hnew & Hk2 & _ & _ & Ho2).
  destruct (init_wait_ok (exits (procs w2) p) p w2 (o ++ bytes "init: starting sh" ++ [LF])) as (w3 & z & E3 & _ & Hr3 & Ho3); [rewrite Hk2; set_solver | by rewrite Ho2 | lia|].
  exists (S (exits (procs w2) p)), w3, z. split; [|split; [done|]; by rewrite Ho3, <- !app_assoc].
  intros fuel Hf. unfold init_round. rewrite (bind_Ret _ _ _ _ _ E1), (bind_Ret _ _ _ _ _ E2), (proj2 (Z.ltb_ge p 0)), (proj2 (Z.eqb_neq p 0)), (bind_Ret _ _ _ _ _ (E3 fuel ltac:(lia))) by lia. done.
Qed.
(** init never ends while there is room for a process: in every round it starts a
    shell, waits until this shell has exited, and reports the others that did. *)
Theorem init_restarts_shell n : forall w o, (0 < room (procs w))%nat -> out w 1 = Some o ->
  exists N w' zs, (forall fuel, (N <= fuel)%nat -> init_rounds n fuel w = Ret Again w') /\ length zs = n /\ (0 < room (procs w'))%nat /\ out w' 1 = Some (o ++ mjoin (round_text <$> zs)).
Proof.
  induction n as [|n IH]; intros w o Hr Ho; [exists 0%nat, w, []; rewrite app_nil_r; by split_and!|].
  destruct (init_round_ok w o Hr Ho) as (N1 & w1 & z & E1 & Hr1 & Ho1). destruct (IH w1 _ Hr1 Ho1) as (N2 & w2 & zs & E2 & Hl & Hr2 & Ho2).
  exists (N1 + N2)%nat, w2, (z :: zs). split; [|split; [simpl; lia|]; split; [done|]; by rewrite Ho2, <- app_assoc].
  intros fuel Hf. cbn [init_rounds]. by rewrite (bind_Ret _ _ _ _ _ (E1 fuel ltac:(lia))), E2 by lia.
Qed.

(** *** forktest *)

Lemma fork_loop_ok k : forall j w n, (j < k)%nat -> room (procs w) = j -> exists w', fork_loop k n w = Ret (Some (n + Z.of_nat j)) w' /\
  size (kids (procs w')) = (size (kids (procs w)) + j)%nat /\ adopter (procs w') = adopter (procs w) /\ out w' = out w.
Proof.
  induction k as [|k IH]; intros j w n Hj Hr; [lia|]. cbn [fork_loop]. destruct j as [|j].
  - exists w. rewrite (bind_Ret _ _ _ _ _ (fork_full w Hr)), Z.add_0_r, Nat.add_0_r. done.
  - destruct (fork_child w j Hr) as (p & w1 & E & Hp & Hnew & Hk & Hr1 & Ha & Ho). rewrite (bind_Ret _ _ _ _ _ E), (proj2 (Z.ltb_ge p 0)), (proj2 (Z.eqb_neq p 0)) by lia.
    destruct (IH j w1 (n + 1)) as (w' & E' & Hs & Ha' & Ho'); [lia | done|]. exists w'. rewrite E', Hs, Ha', Ho', Hk, size_union, size_singleton by set_solver.
    split; [do 2 f_equal; lia|]. split; [lia | done].
Qed.
Lemma wait_loop_ok n : forall w, size (kids (procs w)) = n -> adopter (procs w) = false -> exists w', wait_loop n w = Ret true w' /\ kids (procs w') = ∅ /\ out w' = out w.
Proof.
  induction n as [|n IH]; intros w Hs Ha; cbn [wait_loop]; [exists w; apply size_empty_inv in Hs; split; [done|]; split; [by apply leibniz_equiv | done]|].
  destruct (wait_child w) as (p & a & w1 & E & Hp & Hin & Hk & _ & Hempty & _ & _ & Ha1 & Ho); [intros Hz; rewrite Hz, size_empty in Hs; lia|].
  rewrite (Hempty Ha), union_empty_r_L in Hk. rewrite (bind_Ret _ _ _ _ _ E), (proj2 (Z.ltb_ge p 0)) by lia.
  destruct (IH w1) as (w' & E' & Hk' & Ho'); [rewrite Hk, size_difference, size_singleton by set_solver; lia | by rewrite Ha1|]. exists w'. by rewrite E', Hk', Ho', Ho.
Qed.
(** forktest passes on a system that keeps the promises: it forks until it may not,
    waits for as many children, and finds no more. *)
Theorem forktest_passes w o : (room (procs w) < 1000)%nat -> kids (procs w) = ∅ -> adopter (procs w) = false -> out w 1 = Some o ->
  exists w', forktest w = Ret tt w' /\ kids (procs w') = ∅ /\ out w' 1 = Some (o ++ bytes "fork test" ++ [LF] ++ bytes "fork test OK" ++ [LF]).
Proof.
  intros Hr Hk Ha Ho. destruct (write_ok w 1 o (bytes "fork test" ++ [LF]) Ho) as (w1 & E1 & Ho1 & Hv1). rewrite <- Hv1 in Hr, Hk, Ha.
  destruct (fork_loop_ok 1000 _ w1 0 Hr eq_refl) as (w2 & E2 & Hs2 & Ha2 & Ho2). rewrite Hk, size_empty, Nat.add_0_l in Hs2.
  destruct (wait_loop_ok _ w2 Hs2) as (w3 & E3 & Hk3 & Ho3); [by rewrite Ha2|]. destruct (write_ok w3 1 (o ++ bytes "fork test" ++ [LF]) (bytes "fork test OK" ++ [LF])) as (w4 & E4 & Ho4 & Hv4); [by rewrite Ho3, Ho2|].
  exists w4. rewrite Hv4. split; [|split; [done|]; by rewrite Ho4, <- !app_assoc]. unfold forktest.
  rewrite (bind_Ret _ _ _ _ _ E1), (bind_Ret _ _ _ _ _ E2), (proj2 (Z.eqb_neq _ _)) by lia. rewrite Z.add_0_l, Nat2Z.id, (bind_Ret _ _ _ _ _ E3). cbn [negb].
  rewrite (bind_Ret _ _ _ _ _ (wait_none w3 Hk3)). change (negb (-1 =? -1)) with false. cbv iota. by rewrite (bind_Ret _ _ _ _ _ E4).
Qed.
End laws.

(** ** grep on a descriptor *)

Section grep.
Context {W : Type} `{!Sys W, !SysLaws W}.

Lemma strchr_cut_length c l a b : strchr_cut c l = Some (a, b) -> (length b < length l)%nat.
Proof.
  revert a b. induction l as [|d l IH]; intros a b E; simpl in E; [done|]. destruct (d =? 0); [done|]. destruct (d =? c); [injection E as <- <-; simpl; lia|].
  destruct (strchr_cut c l) as [[a' b']|] eqn:E'; [|done]. injection E as <- <-. specialize (IH _ _ eq_refl). simpl. lia.
Qed.
Lemma grep_write_ok fuel pattern : forall l w o, (length l < fuel)%nat -> out w 1 = Some o ->
  exists w' txt p, grep_write fuel pattern l w = Ret p w' /\ grep_lines fuel pattern l = Some (txt, p) /\ (length p <= length l)%nat /\ out w' 1 = Some (o ++ txt) /\ src w' = src w /\ file w' = file w.
Proof.
  induction fuel as [|fuel IH]; intros l w o Hf Ho; [lia|]. cbn [grep_write grep_lines]. destruct (strchr_cut NEWLINE l) as [[line rest]|] eqn:E; [|exists w, [], l; by rewrite app_nil_r].
  apply strchr_cut_length in E. destruct (match_ pattern line).
  - destruct (write_out w 1 o (line ++ [NEWLINE]) Ho) as (w1 & E1 & Ho1 & Hs1 & Hf1 & _). rewrite bind_assoc, (bind_Ret _ _ _ _ _ E1). destruct (IH rest w1 _ ltac:(lia) Ho1) as (w' & txt & p & E' & El & Hp & Ho' & Hs' & Hf').
    exists w', ((line ++ [NEWLINE]) ++ txt), p. rewrite El, app_assoc. rewrite (bind_Ret (ret tt) _ _ _ _ eq_refl). split_and!; try done; [lia | by rewrite Hs' | by rewrite Hf'].
  - destruct (IH rest w _ ltac:(lia) Ho) as (w' & txt & p & E' & El & Hp & Ho' & Hs' & Hf'). exists w', txt, p. rewrite El. rewrite (bind_Ret (ret tt) _ _ _ _ eq_refl). split_and!; try done. lia.
Qed.
(** On a descriptor grep writes what its loop gives for the sizes in which the bytes
    arrive. *)
Lemma grep_fd_ok pattern n : forall kept l fuel fd w o, (length l <= n)%nat -> (length kept <= GREPBUF - 2)%nat -> src w fd = Some l -> out w 1 = Some o -> (length l < fuel)%nat ->
  exists w' sizes txt, grep_fd fuel pattern kept fd w = Ret true w' /\ grep_loop sizes pattern kept l = Some txt /\ src w' fd = Some [] /\ out w' 1 = Some (o ++ txt) /\ file w' = file w.
Proof.
  induction n as [n IH] using (well_founded_induction lt_wf). intros kept l fuel fd w o Hn Hkept Hs Ho Hf. destruct fuel as [|fuel]; [lia|]. cbn [grep_fd].
  destruct (read_src w fd l (GREPBUF - length kept - 1) Hs ltac:(lia)) as (k & w1 & E & Hk & Hkl & Hk0 & Hs1 & Ho1 & Hf1 & _). rewrite (bind_Ret _ _ _ _ _ E). cbv beta iota.
  destruct l as [|c l]; [assert (k = 0)%nat as -> by (simpl in Hkl; lia); exists w1, [], []; split; [reflexivity|]; split; [reflexivity|]; split; [exact Hs1|]; split; [by rewrite app_nil_r, Ho1 | exact Hf1]|].
  specialize (Hk0 ltac:(done)). rewrite (proj2 (Z.ltb_lt _ _)), Nat2Z.id, take_take, Nat.min_id by lia. set (buf := kept ++ take k (c :: l)). rewrite <- Ho1 in Ho.
  destruct (grep_write_ok (S (length buf)) pattern buf w1 o ltac:(lia) Ho) as (w2 & txt & p & E2 & El & Hp & Ho2 & Hs2 & Hf2). rewrite (bind_Ret _ _ _ _ _ E2).
  assert (length buf <= GREPBUF - 1)%nat as Hbuf by (unfold buf; rewrite length_app, length_take; lia).
  rewrite <- Hs2 in Hs1. destruct (IH (length (drop k (c :: l))) ltac:(rewrite length_drop; simpl in *; lia) (if decide (length p = length buf) then [] else p) (drop k (c :: l)) fuel fd w2 (o ++ txt))
    as (w' & sizes & txt' & E' & El' & Hs' & Ho' & Hf'); [lia | case_decide; simpl; lia | done | done | rewrite length_drop; simpl in *; lia|].
  exists w', (k :: sizes), (txt ++ txt'). split; [exact E'|]. split; [|split_and!; [done | by rewrite Ho', <- app_assoc | by rewrite Hf', Hf2, Hf1]].
  cbn [grep_loop]. unfold read. rewrite Nat.min_l by done. cbn [fst snd]. rewrite decide_False by (intros Hz; apply (f_equal length) in Hz; rewrite length_take in Hz; simpl in *; lia).
  fold buf. by rewrite El, El'.
Qed.
End grep.

(** ** A system with processes *)

(** Children that exit at once, in a system with the files of Utils.v. *)
Record toyprocs := ToyProcs { tp_sys : toysys; tp_kids : gset positive; tp_room : nat }.
Definition lift {A} (m : M toysys A) : M toyprocs A := zoom tp_sys (fun s w => ToyProcs s (tp_kids w) (tp_room w)) m.
#[export] Instance toyprocs_sys : Sys toyprocs := {
  u_open f m := lift (u_open f m); u_close fd := lift (u_close fd); u_read fd n := lift (u_read fd n); u_write fd d := lift (u_write fd d); u_fstat fd := lift (u_fstat fd) }.
#[export] Instance toyprocs_procs : Procs toyprocs := {
  u_fork w := match tp_room w with O => Ret (-1) w | S n => let p := fresh (tp_kids w) in Ret (Z.pos p) (ToyProcs (tp_sys w) ({[p]} ∪ tp_kids w) n) end;
  u_wait w := match elements (tp_kids w) with [] => Ret (-1) w | p :: _ => Ret (Z.pos p) (ToyProcs (tp_sys w) (tp_kids w ∖ {[p]}) (S (tp_room w))) end;
  u_exec _ _ := ret false; u_sleep _ := ret 0; u_kill _ := ret (-1); u_dup _ := ret (-1); u_mknod _ _ _ := ret (-1);
  u_unlink _ := ret (-1); u_mkdir _ := ret (-1); u_link _ _ := ret (-1); u_swapwrite _ _ := ret 0; u_swapread _ := ret [] }.
Lemma lift_Ret {A} (m : M toysys A) w a s : m (tp_sys w) = Ret a s -> lift m w = Ret a (ToyProcs s (tp_kids w) (tp_room w)).
Proof. unfold lift, zoom. by intros ->. Qed.
#[export] Instance toyprocs_syslaws : SysLaws toyprocs.
Proof.
  refine {| src w := src (tp_sys w); out w := out (tp_sys w); file w := file (tp_sys w); node w := node (tp_sys w) |}.
  - intros w fd l n Hs Hn. destruct (read_src (tp_sys w) fd l n Hs Hn) as (k & s & E & HE). exists k. eexists. split; [exact (lift_Ret _ _ _ _ E) | exact HE].
  - intros w fd st l n H1 H2 H3 H4 H5. destruct (read_dir (tp_sys w) fd st l n H1 H2 H3 H4 H5) as (s & E). eexists. exact (lift_Ret _ _ _ _ E).
  - intros w fd o d Ho. destruct (write_out (tp_sys w) fd o d Ho) as (s & E & HE). eexists. split; [exact (lift_Ret _ _ _ _ E) | exact HE].
  - intros w f st l Hf. destruct (open_file (tp_sys w) f st l Hf) as (fd & s & E & HE). exists fd. eexists. split; [exact (lift_Ret _ _ _ _ E) | exact HE].
  - intros w f Hf. pose proof (open_missing (tp_sys w) f Hf) as E. etransitivity; [exact (lift_Ret _ _ _ _ E) | by destruct w].
  - intros w fd st Hn. pose proof (fstat_node (tp_sys w) fd st Hn) as E. etransitivity; [exact (lift_Ret _ _ _ _ E) | by destruct w].
  - intros w fd l Hs. destruct (close_src (tp_sys w) fd l Hs) as (r & s & E & HE). exists r. eexists. split; [exact (lift_Ret _ _ _ _ E) | exact HE].
Defined.
Lemma set_map_pos (X : gset positive) p : Z.pos p ∈ (set_map Z.pos X : gset Z) <-> p ∈ X.
Proof. rewrite elem_of_map. split; [intros (q & [= ->] & Hq); done | intros Hp; by exists p]. Qed.
#[export] Instance toyprocs_laws : ProcLaws toyprocs.
Proof.
  refine {| procs w := PView (set_map Z.pos (tp_kids w)) (tp_room w) (fun _ => size (tp_kids w)) false |}; cbn [kids room exits adopter].
  - intros w n Hr. cbn. rewrite Hr. eexists _, _. split; [done|]. cbn. split; [lia|]. split; [rewrite set_map_pos; apply is_fresh|]. split; [by rewrite set_map_union_L, set_map_singleton_L | done].
  - intros w Hr. cbn. by rewrite Hr.
  - intros w Hk. cbn. destruct (elements (tp_kids w)) as [|p l] eqn:E; [done|]. assert (p ∈ tp_kids w) as Hp by (apply elem_of_elements; rewrite E; left). apply set_map_pos in Hp. set_solver.
  - intros w Hk. cbn. destruct (elements (tp_kids w)) as [|p l] eqn:E.
    + apply elements_empty_inv, leibniz_equiv in E. rewrite E in Hk. by rewrite set_map_empty in Hk.
    + assert (p ∈ tp_kids w) as Hp by (apply elem_of_elements; rewrite E; left). eexists _, ∅, _. split; [done|]. cbn. split; [lia|]. split; [by apply set_map_pos|].
      split; [apply set_eq; intros z; rewrite union_empty_r_L, elem_of_difference, !elem_of_map, elem_of_singleton|].
      * split; [intros (q & -> & [Hq Hne]%elem_of_difference); split; [by exists q | intros [= ->]; set_solver] | intros [(q & -> & Hq) Hne]; exists q; split; [done|]; apply elem_of_difference; split; [done|]; intros ->%elem_of_singleton; done].
      * split; [set_solver|]. split; [done|]. split; [|split; [lia | done]]. intros d _ _. rewrite size_difference, size_singleton by set_solver. assert (size (tp_kids w) <> 0)%nat; [|lia].
        apply size_non_empty_iff. set_solver.
  - intros w fd d r w' E. change (lift (u_write fd d) w = Ret r w') in E. unfold lift, zoom in E. destruct (u_write fd d (tp_sys w)); try done. injection E as _ <-. done.
Defined.
Example forktest_runs : exists w', forktest (ToyProcs toy_w ∅ 61) = Ret tt w' /\ out w' 1 = Some (bytes "fork test" ++ [LF] ++ bytes "fork test OK" ++ [LF]).
Proof. destruct (forktest_passes (ToyProcs toy_w ∅ 61) []) as (w' & E & _ & Ho);
  [cbn [procs toyprocs_laws room tp_room]; lia | apply set_map_empty | reflexivity | reflexivity|]. exists w'. split; [exact E | exact Ho]. Qed.
