(* ===== verification/Apic.v ===== *)
(** * The interrupt controller and the clock (ioapic.c; cmos_read, fill_rtcdate and cmostime of lapic.c)

    The I/O APIC is a class: its registers are selected and then read or written.
    The theorem is about the routes that the kernel sets up.

    The clock goes on while its registers are read one by one.  It is a parameter:
    what the registers hold at the time of each read.  The theorem is that cmostime
    returns the date of one moment. *)

From S2P Require Import Prelude.
#[local] Open Scope Z_scope.

(** ** The I/O APIC *)

Abbreviation REG_ID := 0.
Abbreviation REG_VER := 1.
Abbreviation REG_TABLE := 16.
Abbreviation INT_DISABLED := 65536.
Abbreviation T_IRQ0 := 32.

Class Ioapic (H : Type) := {
  io_select : Z -> H -> H;        (* ioapic->reg = *)
  io_data : H -> Z;               (* ioapic->data *)
  io_store : Z -> H -> H;         (* ioapic->data = *)
  io_regs : H -> Z -> Z;
}.
Class IoapicLaws (H : Type) `{Ioapic H} := {
  io_data_select h r : io_data (io_select r h) = io_regs h r;
  io_regs_select h r r' : io_regs (io_select r h) r' = io_regs h r';
  (** Registers of the table keep what is written; the others stay. *)
  io_regs_store h r x r' : REG_TABLE <= r -> io_regs (io_store x (io_select r h)) r' = if r' =? r then x else io_regs h r';
}.

Section ioapic.
Context {H : Type} `{!Ioapic H}.

Definition ioapicread (reg : Z) : M H Z := modify (io_select reg) ;;; gets io_data.
Definition ioapicwrite (reg data : Z) : M H unit := modify (io_select reg) ;;; modify (io_store data).
(** [n] entries of the table from the entry [i]. *)
Fixpoint ioapicinit_loop (n : nat) (i : Z) : M H unit :=
  match n with
  | O => ret tt
  | S n =>
      ioapicwrite (REG_TABLE + 2 * i) (Z.lor INT_DISABLED (T_IRQ0 + i)) ;;;
      ioapicwrite (REG_TABLE + 2 * i + 1) 0 ;;;
      ioapicinit_loop n (i + 1)
  end.
(** Whether the message is printed. *)
Definition ioapicinit (ioapicid : Z) : M H bool :=
  v <- ioapicread REG_VER ;;
  let maxintr := Z.land (Z.shiftr v 16) 255 in
  r <- ioapicread REG_ID ;;
  let id := Z.shiftr r 24 in
  ioapicinit_loop (Z.to_nat (maxintr + 1)) 0 ;;;
  ret (negb (id =? ioapicid)).
Definition ioapicenable (irq cpunum : Z) : M H unit :=
  ioapicwrite (REG_TABLE + 2 * irq) (T_IRQ0 + irq) ;;;
  ioapicwrite (REG_TABLE + 2 * irq + 1) (u32 (Z.shiftl cpunum 24)).
Fixpoint ioapicenables (l : list (Z * Z)) : M H unit :=
  match l with [] => ret tt | (irq, cpu) :: l => ioapicenable irq cpu ;;; ioapicenables l end.

Context `{!IoapicLaws H}.

Lemma ioapicwrite_ok reg x h : REG_TABLE <= reg -> exists h', ioapicwrite reg x h = Ret tt h' /\ forall r, io_regs h' r = if r =? reg then x else io_regs h r.
Proof.
  intros Hr. unfold ioapicwrite. rewrite bind_modify. eexists. split; [done|]. intros r. by apply io_regs_store.
Qed.
(** The two registers of an entry. *)
Definition entry (h : H) (i : Z) : Z * Z := (io_regs h (REG_TABLE + 2 * i), io_regs h (REG_TABLE + 2 * i + 1)).
Lemma entry_write i x y h : 0 <= i -> exists h', (ioapicwrite (REG_TABLE + 2 * i) x ;;; ioapicwrite (REG_TABLE + 2 * i + 1) y) h = Ret tt h' /\
  forall j, 0 <= j -> entry h' j = if j =? i then (x, y) else entry h j.
Proof.
  intros Hi. destruct (ioapicwrite_ok (REG_TABLE + 2 * i) x h ltac:(lia)) as (h1 & E1 & H1). destruct (ioapicwrite_ok (REG_TABLE + 2 * i + 1) y h1 ltac:(lia)) as (h2 & E2 & H2).
  exists h2. rewrite (bind_Ret _ _ _ _ _ E1). split; [done|]. intros j Hj. unfold entry. rewrite !H2, !H1. destruct (Z.eqb_spec j i) as [->|Hne].
  - by rewrite !Z.eqb_refl, (proj2 (Z.eqb_neq _ (REG_TABLE + 2 * i + 1))) by lia.
  - by rewrite !(proj2 (Z.eqb_neq _ _)) by lia.
Qed.
Lemma ioapicinit_loop_ok n : forall i h, 0 <= i -> exists h', ioapicinit_loop n i h = Ret tt h' /\
  forall j, 0 <= j -> entry h' j = if (i <=? j) && (j <? i + Z.of_nat n) then (Z.lor INT_DISABLED (T_IRQ0 + j), 0) else entry h j.
Proof.
  induction n as [|n IH]; intros i h Hi; cbn [ioapicinit_loop].
  - exists h. split; [done|]. intros j Hj. zcases; done.
  - destruct (entry_write i (Z.lor INT_DISABLED (T_IRQ0 + i)) 0 h Hi) as (h1 & E1 & H1). rewrite <- bind_assoc, (bind_Ret _ _ _ _ _ E1).
    destruct (IH (i + 1) h1 ltac:(lia)) as (h' & E & H'). exists h'. split; [done|]. intros j Hj. rewrite H', H1 by done. destruct (Z.eqb_spec j i) as [->|]; zcases; done.
Qed.
(** The entry [e] of an interrupt after calls of ioapicenable. *)
Definition enabled (j : Z) (l : list (Z * Z)) (e : Z * Z) : Z * Z :=
  foldl (fun e x => if x.1 =? j then (T_IRQ0 + j, u32 (Z.shiftl x.2 24)) else e) e l.
Lemma ioapicenables_ok l : forall h, Forall (fun x => 0 <= x.1) l -> exists h', ioapicenables l h = Ret tt h' /\
  forall j, 0 <= j -> entry h' j = enabled j l (entry h j).
Proof.
  induction l as [|[irq cpu] l IH]; intros h Hl; cbn [ioapicenables]; [by exists h|]. apply Forall_cons in Hl as [Hi Hl].
  destruct (entry_write irq (T_IRQ0 + irq) (u32 (Z.shiftl cpu 24)) h Hi) as (h1 & E1 & H1). unfold ioapicenable. rewrite (bind_Ret _ _ _ _ _ E1).
  destruct (IH h1 Hl) as (h' & E & H'). exists h'. split; [done|]. intros j Hj. rewrite H', H1 by done. unfold enabled. simpl. f_equal.
  rewrite (Z.eqb_sym irq j). destruct (Z.eqb_spec j irq) as [->|]; done.
Qed.

(** The routes of interrupts.  After ioapicinit and any calls of ioapicenable every
    interrupt of the controller that was enabled goes, with its own vector, to the
    processor of the last call for it, and every other one is disabled. *)
Theorem ioapic_routes id l h : Forall (fun x => 0 <= x.1) l -> exists h', (ioapicinit id ;;; ioapicenables l) h = Ret tt h' /\
  forall j, 0 <= j <= Z.land (Z.shiftr (io_regs h REG_VER) 16) 255 -> entry h' j = enabled j l (Z.lor INT_DISABLED (T_IRQ0 + j), 0).
Proof.
  intros Hl. unfold ioapicinit, ioapicread. rewrite !bind_assoc, bind_modify, bind_gets, io_data_select. cbv zeta.
  set (n := Z.to_nat (Z.land (Z.shiftr (io_regs h REG_VER) 16) 255 + 1)). rewrite !bind_assoc, bind_modify, bind_gets, bind_assoc.
  destruct (ioapicinit_loop_ok n 0 (io_select REG_ID (io_select REG_VER h)) ltac:(lia)) as (h1 & E1 & H1). rewrite (bind_Ret _ _ _ _ _ E1).
  destruct (ioapicenables_ok l h1 Hl) as (h' & E & H'). exists h'. split; [done|]. intros j Hj. rewrite H', H1 by lia.
  destruct (Z.leb_spec 0 j), (Z.ltb_spec j (0 + Z.of_nat n)); simpl; done || lia.
Qed.
End ioapic.

(** ** The clock *)

Abbreviation CMOS_STATA := 10.
Abbreviation CMOS_STATB := 11.
Abbreviation CMOS_UIP := 128.
Abbreviation SECS := 0.
Abbreviation MINS := 2.
Abbreviation HOURS := 4.
Abbreviation DAY := 7.
Abbreviation MONTH := 8.
Abbreviation YEAR := 9.

Record rtcdate := Rtcdate { second : Z; minute : Z; hour : Z; day : Z; month : Z; year : Z }.
#[export] Instance rtcdate_eq : EqDecision rtcdate.
Proof. solve_decision. Defined.

Section clock.
(** What a register holds at the time of each read; the state counts the reads. *)
Context (clock : nat -> Z -> Z).

Definition cmos_read (reg : Z) : M nat Z :=
  n <- get ;; put (S n) ;;; ret (clock n reg).
Definition fill_rtcdate : M nat rtcdate :=
  s <- cmos_read SECS ;;
  m <- cmos_read MINS ;;
  h <- cmos_read HOURS ;;
  d <- cmos_read DAY ;;
  mo <- cmos_read MONTH ;;
  y <- cmos_read YEAR ;;
  ret (Rtcdate s m h d mo y).
Fixpoint cmostime_loop (k : nat) : M nat rtcdate :=
  match k with
  | O => diverge
  | S k =>
      t1 <- fill_rtcdate ;;
      a <- cmos_read CMOS_STATA ;;
      if negb (Z.land a CMOS_UIP =? 0) then cmostime_loop k
      else
        t2 <- fill_rtcdate ;;
        if decide (t1 = t2) then ret t1 else cmostime_loop k
  end.
Definition conv (x : Z) : Z := u32 (Z.shiftr x 4 * 10 + Z.land x 15).
Definition conv_date (t : rtcdate) : rtcdate :=
  Rtcdate (conv (second t)) (conv (minute t)) (conv (hour t)) (conv (day t)) (conv (month t)) (conv (year t)).
Definition add_century (t : rtcdate) : rtcdate :=
  Rtcdate (second t) (minute t) (hour t) (day t) (month t) (u32 (year t + 2000)).
Definition cmostime (k : nat) : M nat rtcdate :=
  sb <- cmos_read CMOS_STATB ;;
  let bcd := Z.land sb 4 =? 0 in
  t1 <- cmostime_loop k ;;
  ret (add_century (if bcd then conv_date t1 else t1)).

(** The date that the registers hold at a moment. *)
Definition shown (n : nat) : rtcdate :=
  Rtcdate (clock n SECS) (clock n MINS) (clock n HOURS) (clock n DAY) (clock n MONTH) (clock n YEAR).
Definition mixed (n : nat) : rtcdate :=
  Rtcdate (clock n SECS) (clock (n + 1) MINS) (clock (n + 2) HOURS) (clock (n + 3) DAY) (clock (n + 4) MONTH) (clock (n + 5) YEAR).
Lemma f_equal6 {A1 A2 A3 A4 A5 A6 B} (f : A1 -> A2 -> A3 -> A4 -> A5 -> A6 -> B) {x1 y1 x2 y2 x3 y3 x4 y4 x5 y5 x6 y6} :
  x1 = y1 -> x2 = y2 -> x3 = y3 -> x4 = y4 -> x5 = y5 -> x6 = y6 -> f x1 x2 x3 x4 x5 x6 = f y1 y2 y3 y4 y5 y6.
Proof. by intros -> -> -> -> -> ->. Qed.
Lemma fill_reads n : fill_rtcdate n = Ret (mixed n) (n + 6)%nat.
Proof. unfold fill_rtcdate, cmos_read, mixed, bind, get, put, ret. rewrite !Nat.add_1_r, !(Nat.add_comm n). done. Qed.
(** In the time of a round the date changes once at most. *)
Definition slow : Prop := forall n, exists k, forall i, (i < 13)%nat -> shown (n + i) = if (i <? k)%nat then shown n else shown (n + 12).
Definition uip (n : nat) : bool := negb (Z.land (clock n CMOS_STATA) CMOS_UIP =? 0).
(** One round: it gives a date that was shown, or another round follows. *)
Lemma cmostime_round k n : slow ->
  (exists i, cmostime_loop (S k) n = Ret (shown i) (n + 13)%nat /\ (n <= i < n + 13)%nat) \/
  (exists d, cmostime_loop (S k) n = cmostime_loop k (n + d)%nat /\ (0 < d <= 13)%nat /\
     (uip (n + 6) = true \/ mixed n <> mixed (n + 7))).
Proof.
  intros Hslow. cbn [cmostime_loop]. rewrite (bind_Ret _ _ _ _ _ (fill_reads n)). rewrite (bind_Ret (cmos_read CMOS_STATA) _ (n + 6)%nat _ _ eq_refl).
  fold (uip (n + 6)). destruct (uip (n + 6)) eqn:Eu; [right; exists 7%nat; split; [by replace (n + 7)%nat with (S (n + 6)) by lia | split; [lia | by left]]|].
  replace (S (n + 6)) with (n + 7)%nat by lia. rewrite (bind_Ret _ _ _ _ _ (fill_reads (n + 7))). replace (n + 7 + 6)%nat with (n + 13)%nat by lia.
  destruct (decide (mixed n = mixed (n + 7))) as [Et|Et]; [|right; exists 13%nat; split; [done | split; [lia | by right]]].
  left. destruct (Hslow n) as (k0 & Hk). destruct (decide (6 <= k0)%nat) as [Hge|Hlt].
  - exists n. split; [|lia]. unfold ret. f_equal. unfold mixed.
    assert (forall i, (i < 6)%nat -> shown (n + i) = shown n) as Hs by (intros i Hi; rewrite Hk by lia; destruct (Nat.ltb_spec i k0); [done | lia]).
    exact (f_equal6 Rtcdate eq_refl (f_equal minute (Hs 1%nat ltac:(lia))) (f_equal hour (Hs 2%nat ltac:(lia)))
      (f_equal day (Hs 3%nat ltac:(lia))) (f_equal month (Hs 4%nat ltac:(lia))) (f_equal year (Hs 5%nat ltac:(lia)))).
  - exists (n + 12)%nat. split; [|lia]. unfold ret. f_equal. rewrite Et. unfold mixed.
    assert (forall i, (i < 6)%nat -> shown (n + 7 + i) = shown (n + 12)) as Hs by (intros i Hi; rewrite <- Nat.add_assoc, Hk by lia; destruct (Nat.ltb_spec (7 + i) k0); [lia | done]).
    pose proof (Hs 0%nat ltac:(lia)) as H0. rewrite Nat.add_0_r in H0.
    exact (f_equal6 Rtcdate (f_equal second H0) (f_equal minute (Hs 1%nat ltac:(lia))) (f_equal hour (Hs 2%nat ltac:(lia)))
      (f_equal day (Hs 3%nat ltac:(lia))) (f_equal month (Hs 4%nat ltac:(lia))) (f_equal year (Hs 5%nat ltac:(lia)))).
Qed.
(** The dates [D] as the registers show them, in the form that status register B says. *)
Definition bcd (x : Z) : Z := 16 * (x / 10) + x mod 10.
Definition encode (b : bool) (t : rtcdate) : rtcdate :=
  if b then Rtcdate (bcd (second t)) (bcd (minute t)) (bcd (hour t)) (bcd (day t)) (bcd (month t)) (bcd (year t)) else t.
Definition two_digits (t : rtcdate) : Prop :=
  Forall (fun x : Z => 0 <= x < 100) [second t; minute t; hour t; day t; month t; year t].
Lemma conv_bcd x : 0 <= x < 100 -> conv (bcd x) = x.
Proof.
  intros Hx. unfold conv, bcd. rewrite Z.shiftr_div_pow2 by lia. change 15 with (Z.ones 4). rewrite Z.land_ones by lia. change (2 ^ 4) with 16. rewrite u32_small; zlia.
Qed.
Lemma decode_encode (b : bool) t : two_digits t -> (if b then conv_date (encode b t) else encode b t) = t.
Proof.
  intros Ht. unfold two_digits in Ht. rewrite !Forall_cons in Ht. destruct Ht as (H1 & H2 & H3 & H4 & H5 & H6 & _). destruct b; [|done].
  unfold conv_date, encode. simpl. rewrite !conv_bcd by done. by destruct t.
Qed.
(** While the date stands still for two rounds and no update is under way, a round
    that starts in the first half succeeds. *)
Definition quiet (n : nat) : Prop := forall i, (i < 26)%nat -> shown (n + i) = shown n /\ uip (n + i) = false.
Lemma quiet_round q n : quiet q -> (q <= n <= q + 13)%nat -> uip (n + 6) = false /\ mixed n = mixed (n + 7).
Proof.
  intros Hq Hn. assert (forall i, (i < 13)%nat -> shown (n + i) = shown q /\ uip (n + i) = false) as Hs.
  { intros i Hi. replace (n + i)%nat with (q + (n - q + i))%nat by lia. apply Hq. lia. }
  split; [apply Hs; lia|]. assert (forall m, (n <= m <= n + 7)%nat -> mixed m = shown q) as Hm; [|by rewrite !Hm by lia].
  intros m Hm. assert (forall i, (i < 6)%nat -> shown (m + i) = shown q) as Hi by (intros i Hi; replace (m + i)%nat with (n + (m - n + i))%nat by lia; apply Hs; lia).
  pose proof (Hi 0%nat ltac:(lia)) as H0. rewrite Nat.add_0_r in H0.
  exact (f_equal6 Rtcdate (f_equal second H0) (f_equal minute (Hi 1%nat ltac:(lia))) (f_equal hour (Hi 2%nat ltac:(lia)))
    (f_equal day (Hi 3%nat ltac:(lia))) (f_equal month (Hi 4%nat ltac:(lia))) (f_equal year (Hi 5%nat ltac:(lia)))).
Qed.
Lemma cmostime_loop_ok q k : slow -> quiet q -> forall n, (n <= q + 13)%nat -> (q + 14 - n < k)%nat ->
  exists i m, cmostime_loop k n = Ret (shown i) m /\ (n <= i < m)%nat.
Proof.
  intros Hslow Hq. induction k as [|k IH]; intros n Hn Hk; [lia|]. destruct (cmostime_round k n Hslow) as [(i & E & Hi)|(d & E & Hd & Hno)]; [by exists i, (n + 13)%nat|].
  destruct (decide (q <= n)%nat) as [Hge|Hlt].
  - exfalso. destruct (quiet_round q n Hq ltac:(lia)) as [Hu Hm]. destruct Hno as [Hno|Hno]; congruence.
  - rewrite E. destruct (IH (n + d)%nat ltac:(lia) ltac:(lia)) as (i & m & E' & Hi). exists i, m. split; [done | lia].
Qed.

(** Cmostime returns the date of one moment.  The registers of the clock are read
    one by one while the date in them may change, but not twice in the 13 reads of
    a round.  If at some time it stands still for 26 reads, cmostime returns, and
    the date is the one that the clock had at one moment since the call, from its
    digits or in binary as the clock says, with 2000 added to the year. *)
Theorem cmostime_one_moment b D n q k : slow -> (forall i, shown i = encode b (D i) /\ two_digits (D i)) -> (Z.land (clock n CMOS_STATB) 4 =? 0) = b ->
  quiet q -> (n <= q)%nat -> (q + 14 - n < k)%nat ->
  exists i m, cmostime k n = Ret (add_century (D i)) m /\ (n < i < m)%nat.
Proof.
  intros Hslow HD Hb Hq Hn Hk. unfold cmostime. rewrite (bind_Ret (cmos_read CMOS_STATB) _ n _ _ eq_refl). cbv zeta. rewrite Hb.
  destruct (cmostime_loop_ok q k Hslow Hq (S n) ltac:(lia) ltac:(lia)) as (i & m & E & Hi). rewrite (bind_Ret _ _ _ _ _ E). exists i, m. split; [|lia].
  unfold ret. f_equal. f_equal. destruct (HD i) as [-> Ht]. by apply decode_encode.
Qed.
End clock.

(** ** Witnesses *)

(** A controller as a function of its registers, with 24 interrupts. *)
#[export] Instance toy_ioapic : Ioapic (Z * (Z -> Z)) := {
  io_select r h := (r, h.2);
  io_data h := h.2 h.1;
  io_store x h := (h.1, fun r => if r =? h.1 then x else h.2 r);
  io_regs h := h.2;
}.
#[export] Instance toy_ioapic_laws : IoapicLaws (Z * (Z -> Z)).
Proof. by split. Qed.
Lemma ioapic_routes_witness : exists h', (ioapicinit 0 ;;; ioapicenables [(1, 0); (14, 0); (14, 3)]) (0, fun r => if r =? 1 then 1507345 else 0) = Ret tt h' /\
  entry h' 14 = (46, 50331648) /\ entry h' 1 = (33, 0) /\ entry h' 23 = (65591, 0).
Proof.
  destruct (ioapic_routes 0 [(1, 0); (14, 0); (14, 3)] (0, fun r => if r =? 1 then 1507345 else 0)) as (h' & E & He).
  - repeat (apply Forall_cons; split; [simpl; lia|]). by apply Forall_nil.
  - exists h'. split; [exact E|]. rewrite !He by (vm_compute; split; discriminate). done.
Defined.

(** The year changes while the clock is read: 24-12-31 23:59:59 up to the fifth read. *)
Definition new_year (n : nat) : rtcdate := if (n <? 5)%nat then Rtcdate 59 59 23 31 12 24 else Rtcdate 0 0 0 1 1 25.
Definition rtc_clock (n : nat) (reg : Z) : Z :=
  let t := encode true (new_year n) in
  if reg =? SECS then second t else if reg =? MINS then minute t else if reg =? HOURS then hour t
  else if reg =? DAY then day t else if reg =? MONTH then month t else if reg =? YEAR then year t else 0.
Lemma rtc_shown n : shown rtc_clock n = encode true (new_year n).
Proof. unfold shown, rtc_clock, encode. done. Qed.
Lemma cmostime_one_moment_witness : exists i m, cmostime rtc_clock 30 0%nat = Ret (add_century (new_year i)) m /\ (0 < i < m)%nat.
Proof.
  refine (cmostime_one_moment rtc_clock true new_year 0 5 30 _ _ _ _ _ _).
  - intros n. exists (5 - n)%nat. intros i Hi. rewrite !rtc_shown. unfold new_year.
    destruct (Nat.ltb_spec (n + i) 5), (Nat.ltb_spec i (5 - n)), (Nat.ltb_spec n 5), (Nat.ltb_spec (n + 12) 5); done || lia.
  - intros i. rewrite rtc_shown. split; [done|]. unfold new_year, two_digits. destruct (i <? 5)%nat; simpl; repeat (apply Forall_cons; split; [lia|]); by apply Forall_nil.
  - reflexivity.
  - intros i Hi. rewrite !rtc_shown. unfold new_year. destruct (Nat.ltb_spec (5 + i) 5); [lia|]. done.
  - lia.
  - lia.
Defined.
