(* ===== verification/ForkLaws.v ===== *)
(** * What fork does (proc.c)

    fork builds on the page allocator, the copy of an address space, the process
    table, open files and inodes.  The theorem puts their lemmas together: the
    child is a copy of its parent that differs in what fork returns, or nothing has
    changed. *)

From stdpp Require Import functions.
From S2P Require Import Prelude Mem CString Mmu Kalloc PageTable Uvm UvmCopy Disk Bio Log Pipe Blocks Balloc Inode Dir File.
From S2P Require Import Ptable Proc.
#[local] Open Scope Z_scope.

(** ** Parts of the state *)

Section parts.
Context {S : Type}.

Lemma run_pt {A} (m : M pts A) (f : fks S) t a t' : m t = Ret a t' -> pt m (Kern f t) = Ret a (Kern f t').
Proof. intros E. unfold pt, zoom. simpl. by rewrite E. Qed.
Lemma run_kmm {A} (m : M kst A) (fy : fsys S) st ft pi t a st' : m st = Ret a st' ->
  kmm m (Kern (FK fy st ft pi) t) = Ret a (Kern (FK fy st' ft pi) t).
Proof. intros E. unfold kmm, fk, mm, zoom. simpl. by rewrite E. Qed.
Lemma run_store g (fy : fsys S) st ft pi t :
  store g (Kern (FK fy st ft pi) t) = Ret tt (Kern (FK fy (Kalloc.set_mem (g (kmem_mem st)) st) ft pi) t).
Proof. done. Qed.
End parts.

(** ** The process table *)

Section table.
Context (procs : list proc).

Lemma upd_slot np y f n i : (np < length procs)%nat -> upd np f (Pts (<[np := y]> procs) n i) = Ret tt (Pts (<[np := f y]> procs) n i).
Proof.
  intros Hnp. unfold upd, modify, set_procs. simpl. f_equal. f_equal. apply list_eq. intros j. destruct (decide (np = j)) as [<-|Hne].
  - by rewrite list_lookup_alter_eq, !list_lookup_insert_eq.
  - by rewrite list_lookup_alter_ne, !list_lookup_insert_ne.
Qed.
Lemma prc_slot np y n i : (np < length procs)%nat -> prc np (Pts (<[np := y]> procs) n i) = Ret y (Pts (<[np := y]> procs) n i).
Proof. intros Hnp. unfold prc, gets. simpl. by rewrite list_lookup_insert_eq. Qed.
Lemma prc_other np y j x n i : np <> j -> procs !! j = Some x -> prc j (Pts (<[np := y]> procs) n i) = Ret x (Pts (<[np := y]> procs) n i).
Proof. intros Hne Hx. unfold prc, gets. simpl. by rewrite list_lookup_insert_ne, Hx. Qed.
Lemma first_proc_at f l : forall k np, first_proc f l k = Some np -> (k <= np)%nat /\ exists y, l !! (np - k)%nat = Some y /\ f y = true.
Proof.
  induction l as [|p l IH]; intros k np E; simpl in E; [done|]. destruct (f p) eqn:Ef.
  - simplify_eq. split; [done|]. rewrite Nat.sub_diag. by exists p.
  - apply IH in E as (Hk & y & Hy & Hf). split; [lia|]. exists y. split; [|done]. by replace (np - k)%nat with (Datatypes.S (np - (k + 1))) by lia.
Qed.
Lemma alloc_slot_some np y n i : first_proc (is_state UNUSED) procs 0 = Some np -> procs !! np = Some y ->
  alloc_slot (Pts procs n i) = Ret (Some np) (Pts (<[np := set_pid n (set_pstate EMBRYO y)]> procs) (s32 (n + 1)) i).
Proof.
  intros Hf Hy. unfold alloc_slot. rewrite bind_gets. cbn [pt_proc]. rewrite Hf. assert (np < length procs)%nat by by eapply lookup_lt_Some.
  assert (upd np (set_pstate EMBRYO) (Pts procs n i) = Ret tt (Pts (<[np := set_pstate EMBRYO y]> procs) n i)) as E.
  { rewrite <- (list_insert_id procs np y) at 1 by done. by rewrite upd_slot. }
  rewrite (bind_Ret _ _ _ _ _ E), bind_gets, bind_modify. cbn [pt_proc pt_nextpid pt_init].
  by rewrite (bind_Ret _ _ _ _ _ (upd_slot np _ (set_pid n) _ _ ltac:(done))).
Qed.
End table.

(** ** The new stack *)

Section stack.
Context (trapret forkret_addr : Z).

(** Stores below the trap frame of a new process, and what is there. *)
Lemma make_context_out m tf x : x < tf - 24 \/ tf <= x -> make_context trapret forkret_addr m tf x = m x.
Proof. intros Hx. unfold make_context. rewrite st32_out, memset_correct, st32_out by lia. zcases; done. Qed.
Lemma make_context_ok m tf : mem_ok m -> mem_ok (make_context trapret forkret_addr m tf).
Proof. intros Hm. unfold make_context. auto with word lia. Qed.
Lemma make_context_frame m tf : 0 <= trapret < W32 -> 0 <= forkret_addr < W32 ->
  ld32 (make_context trapret forkret_addr m tf) (tf - 24 + CTX_EIP) = forkret_addr /\ ld32 (make_context trapret forkret_addr m tf) (tf - 4) = trapret.
Proof.
  intros Ht Hf. unfold make_context. replace (tf - 4 - CTX_SIZE) with (tf - 24) by lia. split; [by rewrite ld32_st32_eq|].
  rewrite ld32_st32_ne by lia. rewrite (ld32_ext _ (st32 m (tf - 4) trapret)); [by apply ld32_st32_eq|].
  intros x Hx. rewrite memset_correct by lia. zcases; done.
Qed.
End stack.

(** ** Open files *)

Definition dup_ft (ft : list file) (l : list (option nat)) : list file :=
  foldl (fun ft o => match o with Some f => alter (fun x => set_fref (f_ref x + 1) x) f ft | None => ft end) ft l.
(** Open files have a reference. *)
Definition file_open (ft : list file) (o : option nat) : Prop :=
  match o with Some f => exists x, ft !! f = Some x /\ 1 <= f_ref x | None => True end.
Definition refs (f : nat) (l : list (option nat)) : nat := length (filter (fun o => o = Some f) l).
Lemma dup_ft_lookup l : forall ft f, dup_ft ft l !! f = (fun x => set_fref (f_ref x + Z.of_nat (refs f l)) x) <$> ft !! f.
Proof.
  unfold dup_ft, refs. induction l as [|o l IH]; intros ft f; simpl.
  - destruct (ft !! f) as [x|]; [|done]. simpl. rewrite Z.add_0_r. by destruct x.
  - rewrite IH. destruct o as [g|]; [|by rewrite filter_cons_False]. destruct (decide (g = f)) as [->|Hne].
    + rewrite filter_cons_True, list_lookup_alter_eq by done. destruct (ft !! f) as [x|]; [|done]. simpl. unfold set_fref. simpl. do 2 f_equal. lia.
    + rewrite filter_cons_False, list_lookup_alter_ne by congruence. done.
Qed.

Section files.
Context {S : Type} `{!BlockOps S}.

Lemma alter_same {A} (g h : A -> A) i (l : list A) x : l !! i = Some x -> g x = h x -> alter g i l = alter h i l.
Proof.
  intros Hx E. apply list_eq. intros j. destruct (decide (i = j)) as [<-|Hne]; [by rewrite !list_lookup_alter_eq, Hx; simpl; rewrite E | by rewrite !list_lookup_alter_ne].
Qed.
Lemma filedup_ok f x (fy : fsys S) st ft pi t : ft !! f = Some x -> 1 <= f_ref x ->
  fk (filedup f) (Kern (FK fy st ft pi) t) = Ret f (Kern (FK fy st (alter (fun x => set_fref (f_ref x + 1) x) f ft) pi) t).
Proof.
  intros Hx Hr. unfold fk, zoom, filedup, fil, upd_fil. cbn [k_fk]. rewrite bind_gets. cbn [fk_ft]. rewrite Hx. simpl default.
  unfold panic_if. rewrite (proj2 (Z.ltb_ge _ _)) by lia. unfold bind, ret, modify. cbn. unfold set_ft. cbn. do 3 f_equal. by eapply alter_same.
Qed.
Lemma file_open_alter ft f l : Forall (file_open ft) l -> Forall (file_open (alter (fun x => set_fref (f_ref x + 1) x) f ft)) l.
Proof.
  intros Hl. eapply Forall_impl; [exact Hl|]. intros [g|] Hg; [|done]. destruct Hg as (x & Hx & Hr). unfold file_open.
  destruct (decide (f = g)) as [<-|Hne]; [rewrite list_lookup_alter_eq, Hx | rewrite list_lookup_alter_ne, Hx by done]; eexists; (split; [done|]); simpl; lia.
Qed.
Lemma dup_files_ok l : forall o (fy : fsys S) st ft pi procs np y n i, (np < length procs)%nat -> Forall (file_open ft) l -> p_ofile y = o ++ replicate (length l) None ->
  dup_files l (length o) np (Kern (FK fy st ft pi) (Pts (<[np := y]> procs) n i)) =
  Ret tt (Kern (FK fy st (dup_ft ft l) pi) (Pts (<[np := set_ofile (o ++ l) y]> procs) n i)).
Proof.
  induction l as [|a l IH]; intros o fy st ft pi procs np y n i Hnp Hl Ho; cbn [dup_files].
  - simpl in Ho. rewrite <- Ho. by destruct y.
  - apply Forall_cons in Hl as [Ha Hl]. destruct a as [f|].
    + destruct Ha as (x & Hx & Hr). rewrite (bind_Ret _ _ _ _ _ (filedup_ok f x _ _ _ _ _ Hx Hr)).
      rewrite (bind_Ret _ _ _ _ _ (run_pt _ _ _ _ _ (upd_slot procs np y _ n i Hnp))).
      replace (length o + 1)%nat with (length (o ++ [Some f])) by (rewrite length_app; simpl; lia).
      rewrite IH; [by rewrite <- app_assoc; destruct y | done | by apply file_open_alter |].
      simpl. rewrite Ho. simpl. rewrite insert_app_r_alt, Nat.sub_diag by lia. simpl. by rewrite <- app_assoc.
    + replace (length o + 1)%nat with (length (o ++ [None : option nat])) by (rewrite length_app; simpl; lia).
      rewrite IH; [by rewrite <- app_assoc | done | done | by rewrite <- app_assoc].
Qed.
Lemma idup_ok d (fy : fsys S) st ft pi t : fk (fs (idup d)) (Kern (FK fy st ft pi) t) =
  Ret d (Kern (FK (set_ic (alter (fun z => set_ref (i_ref z + 1) z) d (fs_ic fy)) fy) st ft pi) t).
Proof. done. Qed.
End files.

(** ** Memory *)

Section memory.
Context (kend kdata trapret forkret_addr : Z).
Context (Hkend : KERNLINK <= kend < KERNBASE + PHYSTOP) (Hdata : KERNLINK < kdata < KERNBASE + PHYSTOP) (Hdal : kdata mod 4096 = 0).

Lemma kend_ok : KERNBASE <= kend < KERNBASE + PHYSTOP.
Proof. clear -Hkend. lia. Qed.
(** Stores to a page that is held. *)
Lemma write_page O q st l m : free_inv kend st l -> kpage kend q -> (q ∉ l) -> O q -> mem_ok m -> same_outside (eq q) (kmem_mem st) m ->
  evolves kend O st l O (Kalloc.set_mem m st) l.
Proof.
  intros Hf Hk Hq HO Hm Hs. split; [|split].
  - eapply (free_inv_outside kend); [done | done | exact Hs|]. by intros p <-.
  - done.
  - eapply same_outside_mono; [|exact Hs]. intros p <-. by left.
Qed.
(** The child's trap frame: the one of its parent with zero as the result. *)
Definition child_frame (m : mem) (tf' tf : Z) : mem := st32 (memmove m tf' tf TF_SIZE) (tf' + TF_EAX) 0.
Lemma child_frame_at m tf' tf i : mem_ok m -> 0 <= i < TF_SIZE -> child_frame m tf' tf (tf' + i) = if (TF_EAX <=? i) && (i <? TF_EAX + 4) then 0 else m (tf + i).
Proof.
  intros Hm Hi. unfold child_frame. destruct (Z.leb_spec TF_EAX i), (Z.ltb_spec i (TF_EAX + 4)); simpl.
  - rewrite st32_in by lia. unfold byte_of. by rewrite Z.shiftr_0_l.
  - rewrite st32_out, memmove_correct by (done || lia). zcases. f_equal. lia.
  - rewrite st32_out, memmove_correct by (done || lia). zcases. f_equal. lia.
  - lia.
Qed.
Lemma child_frame_out m tf' tf x : mem_ok m -> x < tf' \/ tf' + TF_SIZE <= x -> child_frame m tf' tf x = m x.
Proof. intros Hm Hx. unfold child_frame. rewrite st32_out, memmove_correct by (done || lia). zcases; done. Qed.

(** Every address space keeps its pages and its contents. *)
Definition kept_spaces (st : kst) (l : list Z) (st' : kst) (l' : list Z) : Prop :=
  forall d, vm_ok kend st l d -> vm_ok kend st' l' d /\ forall va, uva va -> uview (kmem_mem st') d va = uview (kmem_mem st) d va.
Lemma evolves_spaces st l O' st' l' : evolves kend (fun _ => False) st l O' st' l' -> kept_spaces st l st' l'.
Proof.
  intros He d Hd. destruct (bystander kend _ _ _ _ _ _ d Hd He) as (Hv & _); [done|]. split; [done|]. by eapply bystander_uview.
Qed.

(** The state after the stack of the child is there. *)
Definition stacked (q : Z) (st : kst) : kst :=
  Kalloc.set_mem (make_context trapret forkret_addr (kmem_mem st) (q + KSTACKSIZE - TF_SIZE)) (set_freelist (ld32 (kmem_mem st) q) st).
Lemma stacked_evolves q l st : free_inv kend st (q :: l) -> kalloc st = Ret q (set_freelist (ld32 (kmem_mem st) q) st) /\
  evolves kend (fun _ => False) st (q :: l) (fun p => False \/ p = q) (stacked q st) l /\ kpage kend q /\ (q ∉ l) /\ q <> 0.
Proof.
  intros Hf. apply (kalloc_evolves kend Hkend (fun _ => False) q st l); [done | apply make_context_ok, Hf|].
  intros x Hx. apply make_context_out. specialize (Hx q eq_refl). unfold in_page in Hx. lia.
Qed.
(** The pages outside of what is free before. *)
Lemma evolves_page st l O' st' l' p x : free_inv kend st l -> evolves kend (fun _ => False) st l O' st' l' -> kpage kend p -> (p ∉ l) -> in_page p x -> kmem_mem st' x = kmem_mem st x.
Proof.
  intros Hf (_ & _ & Hs) Hp Hl Hx. eapply same_outside_page; [exact Hs | | exact Hp | | exact Hx].
  - intros r [[]|Hr]. by eapply kpage_not_free.
  - by intros [[]|?].
Qed.

Section copy.
Context (st : kst) (q : Z) (l : list Z) (pgdir sz s0 : Z).
Context (Hvm : vm_ok kend st (q :: l) pgdir) (Hsz : 0 <= sz <= KERNBASE) (Hex : exact (kmem_mem st) pgdir sz).
(** The kernel stack of the parent. *)
Context (Hs0 : kpage kend s0) (Hs0l : s0 ∉ q :: l).
Abbreviation tf := (s0 + KSTACKSIZE - TF_SIZE).
Abbreviation tf' := (q + KSTACKSIZE - TF_SIZE).

Lemma copy_stacked : exists d st2 l2, copyuvm kend kdata pgdir sz (stacked q st) = Ret d st2 /\
  evolves kend (fun _ => False) st (q :: l) (fun p => (d <> 0 /\ owned (kmem_mem st2) d p) \/ p = q) st2 l2 /\ (q ∉ l2) /\
  (forall x, in_page q x -> kmem_mem st2 x = kmem_mem (stacked q st) x) /\
  (d = 0 -> Z.of_nat (length l) <= 65 + 2 * npages 0 sz) /\
  (d <> 0 -> vm_ok kend st2 l2 d /\ ~ owned (kmem_mem st2) d q /\ apart (kmem_mem st2) pgdir d /\
     forall va, uva va -> uview (kmem_mem st2) d va = uview (kmem_mem st) pgdir va).
Proof.
  pose proof (vm_ok_free _ _ _ _ Hvm) as Hf. destruct (stacked_evolves q l st Hf) as (_ & He1 & Hkq & Hql & _).
  destruct (bystander kend _ _ _ _ _ _ pgdir Hvm He1) as (Hvm1 & _ & Ho1 & _); [done|].
  pose proof (bystander_uview kend _ _ _ _ _ _ pgdir Hvm He1 ltac:(done)) as Hu1.
  destruct (copyuvm_ok kend kdata Hkend Hdata Hdal pgdir sz (stacked q st) l Hvm1 Hsz) as (d & st2 & l2 & E & _ & _ & _ & Hcase).
  { intros va Hva Hlt. rewrite Hu1 by done. by apply Hex. }
  pose proof (vm_ok_free _ _ _ _ Hvm1) as Hf1. exists d, st2, l2. split; [done|].
  assert (exists O', evolves kend (fun _ => False) (stacked q st) l O' st2 l2 /\ (forall p, O' p <-> d <> 0 /\ owned (kmem_mem st2) d p)) as (O' & He2 & HO').
  { destruct Hcase as [(Hd & _ & _ & _ & _ & _ & He2)|(Hd & _ & _ & He2)]; eexists; (split; [exact He2|]); intros p; tauto. }
  assert (forall p, O' p \/ p ∈ l2 -> p ∈ l) as Hin by (intros p Hp; destruct He2 as (_ & Hp2 & _); apply Hp2 in Hp; tauto).
  split; [|split; [intros Hq; apply Hql, Hin; tauto | split; [|split]]].
  - apply (evolves_ext kend (fun _ => False) _ (fun p => O' p \/ p = q)); [done | intros p; by rewrite HO'|].
    eapply evolves_trans; [exact He1 | exact (evolves_frame kend Hkend q _ _ _ _ _ _ He2)].
  - intros x Hx. by eapply (evolves_page _ l).
  - intros Hd. by destruct Hcase as [(? & _)|(_ & _ & Hlen & _)].
  - intros Hd. destruct Hcase as [(_ & Hvd & Hap & _ & Hc & _)|(? & _)]; [|done]. split; [done|]. split; [intros Hq; apply Hql, Hin; left; by apply HO'|]. split; [done|].
    intros va Hva. rewrite Hc, Hu1 by done. destruct (Z.ltb_spec (pg va) sz) as [|Hge]; [done|].
    destruct (uview (kmem_mem st) pgdir va) eqn:Ev; [|done]. exfalso. assert (pg va < sz) by (apply Hex; [done | by rewrite Ev]). lia.
Qed.

(** The memory of a child: its address space [d] reads as the one of its parent and
    has pages of its own, as has its stack [q], with the frames for its first run. *)
Record forked (st' : kst) (l' : list Z) (d : Z) : Prop := {
  forked_space : vm_ok kend st' l' d;
  forked_view : forall va, uva va -> uview (kmem_mem st') d va = uview (kmem_mem st) pgdir va;
  forked_apart : apart (kmem_mem st') pgdir d;
  forked_pages : forall p, (owned (kmem_mem st') d p \/ p = q) \/ p ∈ l' <-> p ∈ q :: l;
  forked_stack : ~ owned (kmem_mem st') d q /\ q ∉ l';
  forked_frame : forall i, 0 <= i < TF_SIZE -> kmem_mem st' (tf' + i) = if (TF_EAX <=? i) && (i <? TF_EAX + 4) then 0 else kmem_mem st (tf + i);
  forked_context : ld32 (kmem_mem st') (tf' - 24 + CTX_EIP) = forkret_addr /\ ld32 (kmem_mem st') (tf' - 4) = trapret;
  forked_others : kept_spaces st (q :: l) st' l'
}.

Context (Htr : 0 <= trapret < W32) (Hfr : 0 <= forkret_addr < W32).
Lemma frame_copied d st2 l2 : d <> 0 ->
  evolves kend (fun _ => False) st (q :: l) (fun p => (d <> 0 /\ owned (kmem_mem st2) d p) \/ p = q) st2 l2 -> (q ∉ l2) ->
  (forall x, in_page q x -> kmem_mem st2 x = kmem_mem (stacked q st) x) ->
  vm_ok kend st2 l2 d -> ~ owned (kmem_mem st2) d q -> apart (kmem_mem st2) pgdir d ->
  (forall va, uva va -> uview (kmem_mem st2) d va = uview (kmem_mem st) pgdir va) ->
  forked (Kalloc.set_mem (child_frame (kmem_mem st2) tf' tf) st2) l2 d.
Proof.
  intros Hd He Hql Hq Hvd Hdq Hap Hu. pose proof (vm_ok_free _ _ _ _ Hvm) as Hf. pose proof (vm_ok_free _ _ _ _ Hvd) as Hf2.
  assert (kpage kend q) as Hkq by (eapply kpage_not_free; [exact Hf | left]). assert (mem_ok (kmem_mem st2)) as Hm2 by apply Hf2.
  set (m3 := child_frame (kmem_mem st2) tf' tf).
  assert (same_outside (eq q) (kmem_mem st2) m3) as Hs.
  { intros x Hx. apply child_frame_out; [done|]. specialize (Hx q eq_refl). unfold in_page in Hx. lia. }
  assert (mem_ok m3) as Hm3 by (unfold m3, child_frame; auto with word lia).
  assert (forall d', vm_ok kend st2 l2 d' -> ~ owned (kmem_mem st2) d' q -> forall p, q = p -> kpage kend p /\ ~ owned (kmem_mem st2) d' p) as HO by (by intros d' _ ? p <-).
  pose proof (write_page (eq q) q st2 l2 m3 Hf2 Hkq Hql eq_refl Hm3 Hs) as He3.
  destruct (bystander kend _ _ _ _ _ _ d Hvd He3 (HO d Hvd Hdq)) as (Hvd3 & _ & Ho3 & _).
  pose proof (bystander_uview kend _ _ _ _ _ _ d Hvd He3 (HO d Hvd Hdq)) as Hu3.
  assert (evolves kend (fun _ => False) st (q :: l) (fun p => owned (kmem_mem (Kalloc.set_mem m3 st2)) d p \/ p = q) (Kalloc.set_mem m3 st2) l2) as Hall.
  { eapply evolves_trans; [exact He|]. apply (evolves_ext kend (fun p => (d <> 0 /\ owned (kmem_mem st2) d p) \/ p = q) _ (fun p => (d <> 0 /\ owned (kmem_mem st2) d p) \/ p = q)); [done | intros p; rewrite Ho3; tauto|].
    eapply write_page; [done | done | done | by right | done | done]. }
  destruct (bystander kend _ _ _ _ _ _ pgdir Hvm Hall) as (_ & _ & Hop & _ & Hnp); [done|].
  split; [done | intros va Hva; by rewrite Hu3, Hu | intros p Hp; exact (proj2 (Hnp p (or_introl Hp))) | intros p; rewrite (proj1 (proj2 Hall) p); tauto | by rewrite Ho3 | | | by eapply evolves_spaces].
  - intros i Hi. unfold m3. simpl kmem_mem. rewrite child_frame_at by done. destruct ((TF_EAX <=? i) && (i <? TF_EAX + 4)); [done|].
    eapply (evolves_page st (q :: l)); [done | exact He | exact Hs0 | done | unfold in_page; lia].
  - destruct (make_context_frame trapret forkret_addr (kmem_mem st) tf' Htr Hfr) as [E1 E2]. split.
    + rewrite <- E1. apply ld32_ext. intros x Hx. unfold m3. simpl kmem_mem. rewrite child_frame_out by (done || lia). rewrite Hq by (unfold in_page; lia). done.
    + rewrite <- E2. apply ld32_ext. intros x Hx. unfold m3. simpl kmem_mem. rewrite child_frame_out by (done || lia). rewrite Hq by (unfold in_page; lia). done.
Qed.
End copy.
End memory.

(** ** fork *)

Section fork.
Context {S : Type} `{!BlockOps S}.
Context (kend kdata trapret forkret_addr : Z).
Context (Hkend : KERNLINK <= kend < KERNBASE + PHYSTOP) (Hdata : KERNLINK < kdata < KERNBASE + PHYSTOP) (Hdal : kdata mod 4096 = 0).
Context (Htr : 0 <= trapret < W32) (Hfr : 0 <= forkret_addr < W32).

(** A slot that allocproc has filled. *)
Definition embryo (n q : Z) (y : proc) : proc :=
  set_stack q (q + KSTACKSIZE - TF_SIZE) (q + KSTACKSIZE - TF_SIZE - 4 - CTX_SIZE) (set_pid n (set_pstate EMBRYO y)).
Lemma allocproc_some (fy : fsys S) st ft pi procs n i np y q l : first_proc (is_state UNUSED) procs 0 = Some np -> procs !! np = Some y -> free_inv kend st (q :: l) ->
  allocproc trapret forkret_addr (Kern (FK fy st ft pi) (Pts procs n i)) =
  Ret (Some np) (Kern (FK fy (stacked trapret forkret_addr q st) ft pi) (Pts (<[np := embryo n q y]> procs) (s32 (n + 1)) i)).
Proof.
  intros Hf Hy Hl. destruct (stacked_evolves kend trapret forkret_addr Hkend q l st Hl) as (Hk & _ & _ & _ & Hq0).
  assert (np < length procs)%nat as Hnp by by eapply lookup_lt_Some. unfold allocproc.
  rewrite (bind_Ret _ _ _ _ _ (run_pt _ _ _ _ _ (alloc_slot_some procs np y n i Hf Hy))). cbv beta iota.
  rewrite (bind_Ret _ _ _ _ _ (run_kmm _ _ _ _ _ _ _ _ Hk)), (bind_Ret _ _ _ _ _ (run_pt _ _ _ _ _ (upd_slot procs np _ _ _ _ Hnp))).
  rewrite (proj2 (Z.eqb_neq q 0) Hq0). cbv zeta. rewrite (bind_Ret _ _ _ _ _ (run_store _ _ _ _ _ _)).
  by rewrite (bind_Ret _ _ _ _ _ (run_pt _ _ _ _ _ (upd_slot procs np _ _ _ _ Hnp))).
Qed.
Lemma allocproc_none (fy : fsys S) st ft pi procs n i np y : first_proc (is_state UNUSED) procs 0 = Some np -> procs !! np = Some y -> free_inv kend st [] ->
  allocproc trapret forkret_addr (Kern (FK fy st ft pi) (Pts procs n i)) =
  Ret None (Kern (FK fy st ft pi) (Pts (<[np := set_pstate UNUSED (set_stack 0 (p_tf y) (p_context y) (set_pid n (set_pstate EMBRYO y)))]> procs) (s32 (n + 1)) i)).
Proof.
  intros Hf Hy Hl. assert (np < length procs)%nat as Hnp by by eapply lookup_lt_Some. unfold allocproc.
  rewrite (bind_Ret _ _ _ _ _ (run_pt _ _ _ _ _ (alloc_slot_some procs np y n i Hf Hy))). cbv beta iota.
  rewrite (bind_Ret _ _ _ _ _ (run_kmm _ _ _ _ _ _ _ _ (kalloc_none kend st Hl))), (bind_Ret _ _ _ _ _ (run_pt _ _ _ _ _ (upd_slot procs np _ _ _ _ Hnp))).
  change (0 =? 0) with true. cbv iota. by rewrite (bind_Ret _ _ _ _ _ (run_pt _ _ _ _ _ (upd_slot procs np _ _ _ _ Hnp))).
Qed.

(** The state in which [cur], with slot [x], calls fork: its address space has its
    size, its trap frame is at the top of its stack, its files are open. *)
Context (fy : fsys S) (st : kst) (ft : list file) (pi : Z -> pst) (procs : list proc) (n : Z) (i : option nat) (l : list Z).
Context (cur : nat) (x : proc) (dn : nat).
Record forkable : Prop := {
  fa_proc : procs !! cur = Some x;
  fa_state : p_state x <> UNUSED;
  fa_space : vm_ok kend st l (p_pgdir x);
  fa_size : 0 <= p_sz x <= KERNBASE;
  fa_exact : exact (kmem_mem st) (p_pgdir x) (p_sz x);
  fa_stack : kpage kend (p_kstack x) /\ p_kstack x ∉ l;
  fa_frame : p_tf x = p_kstack x + KSTACKSIZE - TF_SIZE;
  fa_files : Forall (file_open ft) (p_ofile x);
  fa_cwd : p_cwd x = Some dn;
  fa_unused : forall np y, procs !! np = Some y -> p_state y = UNUSED -> p_ofile y = replicate (length (p_ofile x)) None
}.
(** The child in slot [y]. *)
Definition child (y : proc) (q d : Z) : proc :=
  Proc (p_sz x) d q RUNNABLE n (Some cur) (q + KSTACKSIZE - TF_SIZE) (q + KSTACKSIZE - TF_SIZE - 4 - CTX_SIZE) (p_chan y) (p_killed y)
    (p_ofile x) (p_cwd x) (safestrcpy16 (p_name y) (p_name x)).
(** The slot [y] after a fork that failed: unused as before, but with the pid that
    was given out, and with what is left of the new process where memory ran out
    after its stack. *)
Definition abandoned (y z : proc) : Prop := exists d tf ctx : Z,
  z = Proc (p_sz y) d 0 UNUSED n (p_parent y) tf ctx (p_chan y) (p_killed y) (p_ofile y) (p_cwd y) (p_name y) /\
  match l with
  | [] => d = p_pgdir y /\ tf = p_tf y /\ ctx = p_context y
  | q :: _ => d = 0 /\ tf = q + KSTACKSIZE - TF_SIZE /\ ctx = tf - 4 - CTX_SIZE
  end.
(** Without a slot nothing has changed; without memory one unused slot, the counter of
    pids, and what is in the free pages. *)
Definition fork_failed (r : Z) (k' : kern S) : Prop := r = -1 /\
  (first_proc (is_state UNUSED) procs 0 = None /\ k' = Kern (FK fy st ft pi) (Pts procs n i) \/
   exists np y z st' l', first_proc (is_state UNUSED) procs 0 = Some np /\ procs !! np = Some y /\ abandoned y z /\
     k' = Kern (FK fy st' ft pi) (Pts (<[np := z]> procs) (s32 (n + 1)) i) /\
     evolves kend (fun _ => False) st l (fun _ => False) st' l' /\ kept_spaces kend st l st' l' /\ Z.of_nat (length l) <= 66 + 2 * npages 0 (p_sz x)).
Definition fork_done (r : Z) (k' : kern S) : Prop := exists np y q l0 d st' l', l = q :: l0 /\ r = n /\
  first_proc (is_state UNUSED) procs 0 = Some np /\ procs !! np = Some y /\
  k' = Kern (FK (set_ic (alter (fun z => set_ref (i_ref z + 1) z) dn (fs_ic fy)) fy) st' (dup_ft ft (p_ofile x)) pi) (Pts (<[np := child y q d]> procs) (s32 (n + 1)) i) /\
  forked kend trapret forkret_addr st q l0 (p_pgdir x) (p_kstack x) st' l' d.

(** The rest of fork once the address space is there. *)
Lemma fork_rest np y q l0 : forkable -> l = q :: l0 -> first_proc (is_state UNUSED) procs 0 = Some np -> procs !! np = Some y -> p_state y = UNUSED ->
  exists r k', fork kend kdata trapret forkret_addr cur (Kern (FK fy st ft pi) (Pts procs n i)) = Ret r k' /\ (fork_failed r k' \/ fork_done r k').
Proof.
  intros [Hx Hsx Hvm Hsz Hex [Hks Hksl] Htf Hfi Hcw Hun] Hl Hfp Hy Hsy. rewrite Hl in Hvm, Hksl. assert (np < length procs)%nat as Hnp by by eapply lookup_lt_Some.
  assert (np <> cur) as Hne by congruence. pose proof (vm_ok_free _ _ _ _ Hvm) as Hf.
  destruct (copy_stacked kend kdata trapret forkret_addr Hkend Hdata Hdal st q l0 _ _ Hvm Hsz Hex) as (d & st2 & l2 & E & He & Hql & Hpq & Hlen & Hd).
  unfold fork. rewrite (bind_Ret _ _ _ _ _ (allocproc_some _ _ _ _ _ _ _ _ _ _ _ Hfp Hy Hf)). cbv beta iota.
  rewrite (bind_Ret _ _ _ _ _ (run_pt _ _ _ _ _ (prc_other procs np _ cur x _ _ Hne Hx))), (bind_Ret _ _ _ _ _ (run_kmm _ _ _ _ _ _ _ _ E)).
  rewrite (bind_Ret _ _ _ _ _ (run_pt _ _ _ _ _ (upd_slot procs np _ _ _ _ Hnp))), (bind_Ret _ _ _ _ _ (run_pt _ _ _ _ _ (prc_slot procs np _ _ _ Hnp))).
  cbv beta. destruct (Z.eqb_spec d 0) as [->|Hd0].
  - destruct (kfree_evolves kend Hkend (fun _ => False) q st2 l2) as (st3 & Ek & He3 & _); [apply He | eapply kpage_not_free; [exact Hf | left] | done |].
    rewrite (bind_Ret _ _ _ _ _ (run_kmm _ _ _ _ _ _ _ _ Ek)), !(bind_Ret _ _ _ _ _ (run_pt _ _ _ _ _ (upd_slot procs np _ _ _ _ Hnp))).
    eexists _, _. split; [done|]. left. split; [done|]. rewrite Hl.
    assert (evolves kend (fun _ => False) st (q :: l0) (fun _ => False) st3 (q :: l2)) as Hall.
    { eapply evolves_trans; [exact He|]. apply (evolves_ext kend (fun p => False \/ p = q) _ (fun _ => False)); [intros p; simpl; tauto | done | exact He3]. }
    right. eexists np, y, _, st3, (q :: l2). split; [done|]. split; [done|]. split; [unfold abandoned; rewrite Hl; by exists 0, (q + KSTACKSIZE - TF_SIZE), (q + KSTACKSIZE - TF_SIZE - 4 - CTX_SIZE)|]. split; [done|].
    split; [done|]. split; [by eapply evolves_spaces|]. specialize (Hlen eq_refl). simpl length. lia.
  - destruct (Hd Hd0) as (Hvd & Hdq & Hap & Hu).
    rewrite !(bind_Ret _ _ _ _ _ (run_pt _ _ _ _ _ (upd_slot procs np _ _ _ _ Hnp))), (bind_Ret _ _ _ _ _ (run_store _ _ _ _ _ _)).
    match goal with |- context [Pts (<[np := ?z]> procs)] => assert (p_ofile z = [] ++ replicate (length (p_ofile x)) None) as Ho by exact (Hun np y Hy Hsy) end.
    rewrite (bind_Ret _ _ _ _ _ (dup_files_ok (p_ofile x) [] _ _ _ _ procs np _ _ _ Hnp Hfi Ho)), Hcw.
    rewrite (bind_Ret _ _ _ _ _ (idup_ok dn _ _ _ _ _)), !(bind_Ret _ _ _ _ _ (run_pt _ _ _ _ _ (upd_slot procs np _ _ _ _ Hnp))).
    eexists _, _. split; [done|]. right. eexists np, y, q, l0, d, _, l2. split; [done|]. split; [done|]. split; [done|]. split; [done|]. split.
    + unfold child. rewrite Hcw. done.
    + cbn [p_tf set_vm embryo set_stack]. rewrite Htf. by eapply frame_copied.
Qed.

Lemma fork_cases : forkable ->
  exists r k', fork kend kdata trapret forkret_addr cur (Kern (FK fy st ft pi) (Pts procs n i)) = Ret r k' /\ (fork_failed r k' \/ fork_done r k').
Proof.
  intros Hfa. pose proof (vm_ok_free _ _ _ _ (fa_space Hfa)) as Hf. destruct (first_proc (is_state UNUSED) procs 0) as [np|] eqn:Hfp.
  2:{ eexists _, _. split; [unfold fork, allocproc, alloc_slot, bind, gets, ret, pt, zoom; simpl; by rewrite Hfp|]. left. split; [done|]. by left. }
  destruct (first_proc_at _ _ _ _ Hfp) as (_ & y & Hy & Hsy). rewrite Nat.sub_0_r in Hy. unfold is_state in Hsy. apply bool_decide_eq_true in Hsy.
  destruct l as [|q l0] eqn:Hl; [|rewrite <- Hl in *; by eapply fork_rest].
  eexists _, _. split; [unfold fork; by rewrite (bind_Ret _ _ _ _ _ (allocproc_none _ _ _ _ _ _ _ _ _ Hfp Hy Hf))|].
  left. split; [done|]. right. eexists np, y, _, st, []. split; [done|]. split; [done|]. split; [unfold abandoned; rewrite Hl; by exists (p_pgdir y), (p_tf y), (p_context y)|]. split; [done|]. rewrite Hl.
  split; [by apply evolves_refl|]. split; [by intros d Hd|]. simpl length. destruct Hfa as [_ _ _ Hsz _ _ _ _ _ _]. unfold npages. zlia.
Qed.

(** C13: fork makes a copy.  A process calls it with its stack, address space and files in order.
    Either there is no slot, it returns -1, and nothing has changed; or there is not
    enough memory, it returns -1, files and address spaces are what they were and so
    is every slot but the first unused one, which stays unused with the pid that was
    given out, no byte outside the free pages has changed and the same pages are
    free; or it returns the next pid and the first free slot holds a runnable child with that pid, whose
    parent is the caller, with the same size, files and directory (each with a
    reference more), an address space that reads as the caller's in pages of its
    own, and a stack from which it returns from the call like its parent, with 0. *)
Theorem fork_copies : forkable ->
  exists r k', fork kend kdata trapret forkret_addr cur (Kern (FK fy st ft pi) (Pts procs n i)) = Ret r k' /\ (fork_failed r k' \/ fork_done r k').
Proof. exact fork_cases. Qed.
End fork.

(** ** wait *)

Section wait.
Context {S : Type} `{!BlockOps S}.
Context (kend : Z) (Hkend : KERNLINK <= kend < KERNBASE + PHYSTOP).

(** The slot of a child that has been waited for. *)
Definition reaped (c : proc) : proc :=
  set_pstate UNUSED (set_killed false (set_name (<[0%nat := 0]> (p_name c)) (set_parent None (set_pid 0 (set_stack 0 (p_tf c) (p_context c) c))))).
(** The memory that wait gives back: the stack [q] and the space [d]. *)
Lemma stack_and_space_freed st l q d : vm_ok kend st l d -> kpage kend q -> (q ∉ l) -> ~ owned (kmem_mem st) d q ->
  exists st1 st2 l2, kfree kend q st = Ret tt st1 /\ freevm kend d st1 = Ret tt st2 /\ free_inv kend st2 l2 /\
    (forall p, p ∈ l2 <-> p ∈ l \/ p = q \/ owned (kmem_mem st) d p) /\
    same_outside (fun p => p = q \/ owned (kmem_mem st) d p) (kmem_mem st) (kmem_mem st2).
Proof.
  intros Hvm Hq Hql Hqd. destruct (kfree_evolves kend Hkend (fun _ => False) q st l (vm_ok_free _ _ _ _ Hvm) Hq Hql) as (st1 & E1 & He1 & Hm1).
  destruct (bystander kend _ _ _ _ _ _ d Hvm He1) as (Hvm1 & _ & Ho1 & _); [by intros p [[]| ->]|].
  destruct (freevm_ok kend Hkend d st1 (q :: l) Hvm1) as (st2 & l2 & E2 & Hf2 & Hl2 & Hs2). exists st1, st2, l2. split; [done|]. split; [done|]. split; [done|]. split.
  - intros p. rewrite Hl2, Ho1, elem_of_cons. tauto.
  - intros x Hx. rewrite Hs2 by (intros p Hp; apply Hx; right; by apply Ho1). apply Hm1. specialize (Hx q (or_introl eq_refl)). unfold in_page in Hx. lia.
Qed.
(** The first slot of a child of [cur] that has exited. *)
Definition exited (procs : list proc) (cur j : nat) (c : proc) : Prop := procs !! j = Some c /\ p_parent c = Some cur /\ p_state c = ZOMBIE.
Definition first_exited (procs : list proc) (cur np : nat) (c : proc) : Prop := exited procs cur np c /\ forall j z, (j < np)%nat -> ~ exited procs cur j z.
Lemma wait_scan_exited procs cur c : forall np i b, first_exited procs cur np c -> wait_scan procs i cur b = (Some (i + np)%nat, true).
Proof.
  induction procs as [|p procs IH]; intros np i b [[Hc [Hp Hz]] Hf]; [done|]. cbn [wait_scan]. destruct np as [|np].
  - injection Hc as ->. rewrite bool_decide_true by done. unfold is_state. rewrite bool_decide_true by done. by rewrite Nat.add_0_r.
  - assert (forall b, wait_scan procs (i + 1) cur b = (Some (i + Datatypes.S np)%nat, true)) as E.
    { intros b'. rewrite (IH np); [do 2 f_equal; lia|]. split; [done|]. intros j z Hj (Hz' & Hr). apply (Hf (Datatypes.S j) z); [lia | by split]. }
    destruct (bool_decide_reflect (p_parent p = Some cur)) as [Hpp|]; [|done]. unfold is_state. destruct (bool_decide_reflect (p_state p = ZOMBIE)); [|done].
    by destruct (Hf 0%nat p); [lia|].
Qed.
Lemma wait_scan_no_exited procs cur : (forall j z, ~ exited procs cur j z) -> forall i b, wait_scan procs i cur b = (None, b || bool_decide (Exists (fun z => p_parent z = Some cur) procs)).
Proof.
  induction procs as [|p procs IH]; intros Hn i b; cbn [wait_scan]; [by rewrite orb_false_r|].
  assert (forall j z, ~ exited procs cur j z) as Hn' by (intros j z Hz; exact (Hn (Datatypes.S j) z Hz)).
  destruct (bool_decide_reflect (p_parent p = Some cur)) as [Hpp|Hpp].
  - unfold is_state. rewrite bool_decide_false by (intros Hz; by apply (Hn 0%nat p)). rewrite IH by done. rewrite (bool_decide_true (Exists _ (p :: _))) by by left. by rewrite orb_true_r.
  - rewrite IH by done. f_equal. f_equal. apply bool_decide_ext. rewrite Exists_cons. tauto.
Qed.
Lemma exited_dec procs cur : (exists np c, first_exited procs cur np c) \/ forall j z, ~ exited procs cur j z.
Proof.
  induction procs as [|p procs IH]; [right; by intros j z (? & _)|]. destruct (decide (p_parent p = Some cur /\ p_state p = ZOMBIE)) as [Hp|Hp].
  - left. exists 0%nat, p. split; [by split|]. intros j z Hj. lia.
  - destruct IH as [(np & c & Hc & Hf)|Hn].
    + left. exists (Datatypes.S np), c. split; [done|]. intros [|j] z Hj Hz; [|by apply (Hf j z); [lia|]]. destruct Hz as [[= ->] Hz]. done.
    + right. intros [|j] z Hz; [|by apply (Hn j z)]. destruct Hz as [[= ->] Hz]. done.
Qed.
(** The memory of a process that has exited: its space and its stack. *)
Definition holds (st : kst) (l : list Z) (c : proc) : Prop :=
  vm_ok kend st l (p_pgdir c) /\ kpage kend (p_kstack c) /\ (p_kstack c ∉ l) /\ ~ owned (kmem_mem st) (p_pgdir c) (p_kstack c).
(** One round of wait that finds a child which has exited. *)
Lemma wait_round_reaps (fy : fsys S) st ft pi procs n i l cur np c : first_exited procs cur np c -> holds st l c ->
  exists st' l', wait_round kend cur (Kern (FK fy st ft pi) (Pts procs n i)) = Ret (Some (p_pid c)) (Kern (FK fy st' ft pi) (Pts (<[np := reaped c]> procs) n i)) /\
    free_inv kend st' l' /\ (forall p, p ∈ l' <-> p ∈ l \/ p = p_kstack c \/ owned (kmem_mem st) (p_pgdir c) p) /\
    same_outside (fun p => p = p_kstack c \/ owned (kmem_mem st) (p_pgdir c) p) (kmem_mem st) (kmem_mem st').
Proof.
  intros Hfe (Hvm & Hq & Hql & Hqd). pose proof (wait_scan_exited procs cur c np 0 false Hfe) as Hw. destruct Hfe as [[Hc _] _]. assert (np < length procs)%nat as Hnp by by eapply lookup_lt_Some.
  destruct (stack_and_space_freed st l _ _ Hvm Hq Hql Hqd) as (st1 & st2 & l2 & E1 & E2 & Hf & Hl & Hs). exists st2, l2. split; [|done].
  unfold wait_round. rewrite (bind_Ret _ _ _ _ _ (run_pt (gets pt_proc) _ _ _ _ eq_refl)), (bind_Ret _ _ _ _ _ (run_pt (prc cur) _ _ _ _ eq_refl)).
  cbn [pt_proc]. rewrite Hw. cbv beta iota.
  rewrite <- (list_insert_id procs np c Hc) at 1.
  rewrite (bind_Ret _ _ _ _ _ (run_pt _ _ _ _ _ (prc_slot procs np c _ _ Hnp))), (bind_Ret _ _ _ _ _ (run_kmm _ _ _ _ _ _ _ _ E1)).
  rewrite (bind_Ret _ _ _ _ _ (run_pt _ _ _ _ _ (upd_slot procs np _ _ _ _ Hnp))), (bind_Ret _ _ _ _ _ (run_kmm _ _ _ _ _ _ _ _ E2)).
  unfold reap. by rewrite (bind_Ret _ _ _ _ _ (run_pt _ _ _ _ _ (upd_slot procs np _ _ _ _ Hnp))).
Qed.
(** The caller asleep until a child exits. *)
Definition asleep (cur : nat) (x : proc) : proc := set_pstate SLEEPING (set_pchan (Some (ProcChan cur)) x).
(** What a round of wait does. *)
Inductive waited (fy : fsys S) st ft pi procs n i (l : list Z) cur x : option Z -> kern S -> Prop :=
  | waited_child np c st' l' : first_exited procs cur np c -> free_inv kend st' l' ->
      (forall p, p ∈ l' <-> p ∈ l \/ p = p_kstack c \/ owned (kmem_mem st) (p_pgdir c) p) ->
      same_outside (fun p => p = p_kstack c \/ owned (kmem_mem st) (p_pgdir c) p) (kmem_mem st) (kmem_mem st') ->
      waited fy st ft pi procs n i l cur x (Some (p_pid c)) (Kern (FK fy st' ft pi) (Pts (<[np := reaped c]> procs) n i))
  | waited_sleeps : (forall j z, ~ exited procs cur j z) -> Exists (fun z => p_parent z = Some cur) procs -> p_killed x = false ->
      waited fy st ft pi procs n i l cur x None (Kern (FK fy st ft pi) (Pts (<[cur := asleep cur x]> procs) n i))
  | waited_none : (forall j z, ~ exited procs cur j z) -> ~ Exists (fun z => p_parent z = Some cur) procs \/ p_killed x = true ->
      waited fy st ft pi procs n i l cur x (Some (-1)) (Kern (FK fy st ft pi) (Pts procs n i)).

(** C15: wait.  A round of the loop of wait returns: with the pid of the first child in
    the table that has exited, when there is one, whose slot is then unused and whose
    stack and pages are free, no other byte having changed; else it puts the caller,
    which has a child and was not killed, to sleep; else the result is -1 and nothing
    has changed. *)
Theorem wait_reaps_first_exited (fy : fsys S) st ft pi procs n i l cur x : procs !! cur = Some x -> (forall np c, first_exited procs cur np c -> holds st l c) ->
  exists r k', wait_round kend cur (Kern (FK fy st ft pi) (Pts procs n i)) = Ret r k' /\ waited fy st ft pi procs n i l cur x r k'.
Proof.
  intros Hx Hh. destruct (exited_dec procs cur) as [(np & c & Hc)|Hn].
  - destruct (wait_round_reaps fy st ft pi procs n i l cur np c Hc (Hh _ _ Hc)) as (st' & l' & E & Hf & Hl & Hs). eexists _, _. split; [exact E|]. by econstructor.
  - assert (cur < length procs)%nat as Hcur by by eapply lookup_lt_Some.
    unfold wait_round. rewrite (bind_Ret _ _ _ _ _ (run_pt (gets pt_proc) _ _ _ _ eq_refl)), (bind_Ret _ _ _ _ _ (run_pt (prc cur) _ _ _ _ eq_refl)).
    cbn [pt_proc]. rewrite (wait_scan_no_exited procs cur Hn), Hx. cbv beta iota. cbn [orb]. change (default zero_proc (Some x)) with x.
    destruct (bool_decide_reflect (Exists (fun z => p_parent z = Some cur) procs)) as [He|He]; [|eexists _, _; split; [done|]; apply waited_none; tauto].
    destruct (p_killed x) eqn:Ek; [eexists _, _; split; [done|]; apply waited_none; tauto|]. cbn [negb orb].
    assert ((upd cur (set_pchan (Some (ProcChan cur))) ;;; upd cur (set_pstate SLEEPING)) (Pts procs n i) = Ret tt (Pts (<[cur := asleep cur x]> procs) n i)) as E
      by (rewrite <- (list_insert_id procs cur x Hx) at 1; rewrite (bind_Ret _ _ _ _ _ (upd_slot procs cur x _ n i Hcur)); exact (upd_slot procs cur (set_pchan (Some (ProcChan cur)) x) (set_pstate SLEEPING) n i Hcur)).
    unfold go_to_sleep. rewrite (bind_Ret _ _ _ _ _ (run_pt _ _ _ _ _ E)). eexists _, _. split; [done|]. by apply waited_sleeps.
Qed.
End wait.

(** A child has run since fork: its space, which exec may have replaced, is now [d1] and
    in order, and pages have moved only between it and the free list; its stack is
    [q]. *)
Definition has_run (kend d q : Z) (st : kst) (l : list Z) (d1 : Z) (st1 : kst) (l1 : list Z) : Prop :=
  vm_ok kend st1 l1 d1 /\ (q ∉ l1) /\ ~ owned (kmem_mem st1) d1 q /\ (forall p, owned (kmem_mem st1) d1 p \/ p ∈ l1 <-> owned (kmem_mem st) d p \/ p ∈ l).

(** C14: no page is lost between fork and wait.  When fork has returned the pid of
    a child, and later that child, having grown or shrunk or having loaded another
    program while no one else took or gave pages, is the first of the caller's
    children in the table to have exited, then wait returns its pid, its slot is
    unused again, and the free pages are those from before fork. *)
Theorem fork_then_wait {S : Type} `{!BlockOps S} (kend kdata trapret forkret_addr : Z) (fy : fsys S) st ft pi procs n i l cur x dn r k' :
  KERNLINK <= kend < KERNBASE + PHYSTOP -> KERNLINK < kdata < KERNBASE + PHYSTOP -> kdata mod 4096 = 0 ->
  0 <= trapret < W32 -> 0 <= forkret_addr < W32 -> forkable kend st ft procs l cur x dn ->
  fork kend kdata trapret forkret_addr cur (Kern (FK fy st ft pi) (Pts procs n i)) = Ret r k' -> r <> -1 ->
  exists np c l', pt_proc (k_pt k') !! np = Some c /\ p_pid c = r /\ p_parent c = Some cur /\
    has_run kend (p_pgdir c) (p_kstack c) (fk_kst (k_fk k')) l' (p_pgdir c) (fk_kst (k_fk k')) l' /\
    forall (fy1 : fsys S) st1 ft1 pi1 procs1 n1 i1 l1 c1, has_run kend (p_pgdir c) (p_kstack c) (fk_kst (k_fk k')) l' (p_pgdir c1) st1 l1 ->
      p_pid c1 = r -> p_kstack c1 = p_kstack c -> first_exited procs1 cur np c1 ->
      exists st2 l2, wait_round kend cur (Kern (FK fy1 st1 ft1 pi1) (Pts procs1 n1 i1)) = Ret (Some r) (Kern (FK fy1 st2 ft1 pi1) (Pts (<[np := reaped c1]> procs1) n1 i1)) /\
        free_inv kend st2 l2 /\ forall p, p ∈ l2 <-> p ∈ l.
Proof.
  intros Hk Hd Ha Ht Hr Hfa E Hne. destruct (fork_cases kend kdata trapret forkret_addr Hk Hd Ha Ht Hr fy st ft pi procs n i l cur x dn Hfa) as (r' & k'' & E' & Hcase).
  rewrite E in E'. simplify_eq. destruct Hcase as [(-> & _)|(np & y & q & l0 & d & st' & l' & -> & -> & _ & Hy & -> & Hfk)]; [done|].
  pose proof (lookup_lt_Some _ _ _ Hy) as Hnp. exists np, (child n cur x y q d), l'. cbn [k_pt pt_proc]. rewrite list_lookup_insert_eq by done. split; [done|]. split; [done|]. split; [done|].
  split; [by destruct Hfk as [? _ _ _ [? ?] _ _ _]|].
  intros fy1 st1 ft1 pi1 procs1 n1 i1 l1 c1 (Hv1 & Hq1 & Ho1 & Hp1) Hpid Hks Hw. cbn [k_fk fk_kst child p_pgdir p_kstack] in *.
  assert (kpage kend q) as Hkq by (eapply kpage_not_free; [exact (vm_ok_free _ _ _ _ (fa_space _ _ _ _ _ _ _ _ Hfa)) | left]).
  destruct (wait_round_reaps kend Hk fy1 st1 ft1 pi1 procs1 n1 i1 l1 cur np c1 Hw) as (st2 & l2 & E2 & Hf2 & Hl2 & _); [by unfold holds; rewrite Hks|].
  exists st2, l2. rewrite <- Hpid. split; [done|]. split; [done|]. intros p. rewrite Hl2, Hks, <- (forked_pages _ _ _ _ _ _ _ _ _ _ _ Hfk p). specialize (Hp1 p). tauto.
Qed.

(** ** A machine with free memory *)

(** [n] free pages from [p] on, in the memory [m0]. *)
Fixpoint pool (n : nat) (p : Z) : list Z :=
  match n with O => [] | Datatypes.S n => p :: pool n (p + 4096) end.
Fixpoint pool_mem (m0 : mem) (n : nat) (p : Z) : mem :=
  match n with O => m0 | Datatypes.S n => st32 (pool_mem m0 n (p + 4096)) p (hd 0 (pool n (p + 4096))) end.
Lemma pool_in n : forall p q, q ∈ pool n p -> p <= q < p + 4096 * Z.of_nat n /\ (q - p) mod 4096 = 0.
Proof.
  induction n as [|n IH]; intros p q Hq; simpl in Hq; [by apply elem_of_nil in Hq|]. apply elem_of_cons in Hq as [->|Hq]; [zlia|]. apply IH in Hq. zlia.
Qed.
Lemma pool_below m0 n : forall p x, x < p -> pool_mem m0 n p x = m0 x.
Proof. induction n as [|n IH]; intros p x Hx; simpl; [done|]. rewrite st32_out by lia. apply IH. lia. Qed.
Lemma pool_free kend m0 n p : mem_ok m0 -> p mod 4096 = 0 -> KERNBASE <= kend <= p -> p + 4096 * Z.of_nat n <= KERNBASE + PHYSTOP ->
  free_inv kend (KSt (pool_mem m0 n p) (hd 0 (pool n p)) true) (pool n p).
Proof.
  intros Hm0. revert p. induction n as [|n IH]; intros p Hal Hk Hhi; [split_and!; [exact Hm0 | constructor | constructor | done]|].
  destruct (IH (p + 4096)) as (Hm & Hn & Hp & Hc); [zlia | lia | lia|].
  assert (0 <= hd 0 (pool n (p + 4096)) < W32) as Hr.
  { destruct n; simpl; lia. }
  split_and!.
  - by apply st32_ok.
  - constructor; [|done]. intros Hin%pool_in. lia.
  - constructor; [unfold kpage; lia | done].
  - split; [done|]. cbn [kmem_mem pool_mem]. rewrite ld32_st32_eq by done. eapply chain_ext; [|exact Hc]. intros q Hq%pool_in. simpl. rewrite ld32_st32_ne by lia. done.
Qed.

Lemma pool_hd n p q l : pool (Datatypes.S n) p = q :: l -> q = p.
Proof. simpl. by intros [= ->]. Qed.
Opaque pool pool_mem.
(** A process with an empty address space at [demo_dir], its stack in the page
    after it, where its trap frame is of user space, and one open file. *)
Definition demo_base : mem := st16 (fun _ => 0) (demo_dir + 4096 + KSTACKSIZE - TF_SIZE + TF_CS) 27.
Definition demo_pool : kst := KSt (pool_mem demo_base 1100 (demo_dir + 8192)) (hd 0 (pool 1100 (demo_dir + 8192))) true.
Definition demo_proc : proc :=
  Proc 0 demo_dir (demo_dir + 4096) RUNNING 1 None (demo_dir + 4096 + KSTACKSIZE - TF_SIZE) 0 None false (Some 0%nat :: replicate 15 None) (Some 0%nat) (replicate 16 0).
Definition demo_files : list file := [File FD_INODE 1 true true 0 0 0].
Lemma demo_forkable : forkable demo_kend demo_pool demo_files [demo_proc; zero_proc] (pool 1100 (demo_dir + 8192)) 0 demo_proc 0.
Proof.
  assert (free_inv demo_kend demo_pool (pool 1100 (demo_dir + 8192))) as Hf by (apply pool_free; [apply st16_ok; intros x; simpl; lia | done | unfold demo_kend, demo_dir; lia | unfold demo_dir; lia]).
  destruct (zero_dir demo_kend demo_dir (pool 1100 (demo_dir + 8192)) true (kmem_mem demo_pool) (kmem_freelist demo_pool)) as [Hpt Hm].
  - intros i Hi. unfold demo_pool. cbn [kmem_mem]. rewrite (ld32_ext _ demo_base) by (intros x Hx; apply pool_below; lia). unfold demo_base. rewrite ld32_st16_ne by lia. done.
  - exact Hf.
  - unfold kpage, demo_dir, demo_kend. zlia.
  - intros Hin%pool_in. lia.
  - split; [done | done | | cbn [p_sz demo_proc]; lia | | | done | | done |].
    + split_and!; [exact Hpt | |].
      * intros va e Hva. by rewrite Hm by by apply uva_ok.
      * intros va va' e e' Hva _. by rewrite Hm by by apply uva_ok.
    + intros va Hva. cbn [p_pgdir p_sz demo_proc]. rewrite uview_None, Hm by by apply uva_ok. unfold pg, uva in *. split; [intros Hn; by destruct (Hn eq_refl) | zlia].
    + cbn [p_kstack demo_proc]. split; [unfold kpage, demo_dir, demo_kend; zlia | intros Hin%pool_in; lia].
    + apply Forall_cons. split; [by exists (File FD_INODE 1 true true 0 0 0)|]. by apply Forall_replicate.
    + intros [|[|np]] y Hy Hs; simpl in Hy; simplify_eq; done.
Qed.
Lemma demo_fork_succeeds {S} (fy : fsys S) pi r k' : ~ fork_failed demo_kend fy demo_pool demo_files pi [demo_proc; zero_proc] 2 None (pool 1100 (demo_dir + 8192)) demo_proc r k'.
Proof. intros (_ & [[H _]|(_ & _ & _ & _ & _ & _ & _ & _ & _ & _ & _ & H)]); vm_compute in H; [discriminate | by apply H]. Qed.
Lemma fork_copies_witness : exists k', fork demo_kend 2148536320 2148532224 2148532230 0
  (Kern (FK (FSt (Ideal (fun _ => [])) (Superblock 0 0 0 0 0 0 0) [] (fun _ => 0)) demo_pool demo_files (fun _ => PSt (Pipe [] 0 0 0 0) [] [] [])) (Pts [demo_proc; zero_proc] 2 None)) = Ret 2 k'.
Proof.
  destruct (fork_copies demo_kend 2148536320 2148532224 2148532230 ltac:(unfold demo_kend; lia) ltac:(lia) eq_refl ltac:(lia) ltac:(lia)
    (FSt (Ideal (fun _ => [])) (Superblock 0 0 0 0 0 0 0) [] (fun _ => 0)) _ _ (fun _ => PSt (Pipe [] 0 0 0 0) [] [] []) _ 2 None _ _ _ _ demo_forkable) as (r & k' & E & [H|H]).
  - destruct (demo_fork_succeeds _ _ _ _ H).
  - destruct H as (_ & _ & _ & _ & _ & _ & _ & _ & -> & _). exists k'. exact E.
Defined.
Lemma fork_then_wait_witness : exists k1 k2 : kern ideal, wait_round demo_kend 0 k1 = Ret (Some 2) k2.
Proof.
  set (fy := FSt (Ideal (fun _ => [])) (Superblock 0 0 0 0 0 0 0) [] (fun _ => 0)). set (pi := fun _ : Z => PSt (Pipe [] 0 0 0 0) [] [] []).
  destruct (fork_cases demo_kend 2148536320 2148532224 2148532230 ltac:(unfold demo_kend; lia) ltac:(lia) eq_refl ltac:(lia) ltac:(lia)
    fy _ _ pi _ 2 None _ _ _ _ demo_forkable) as (r & k' & E & [H|(np & y & q & l0 & d & st' & l' & _ & -> & Hnp & _ & -> & _)]).
  - destruct (demo_fork_succeeds _ _ _ _ H).
  - vm_compute in Hnp. injection Hnp as <-.
    destruct (fork_then_wait demo_kend 2148536320 2148532224 2148532230 fy _ _ pi _ 2 None _ _ _ _ _ _ ltac:(unfold demo_kend; lia) ltac:(lia) eq_refl ltac:(lia) ltac:(lia) demo_forkable E ltac:(lia))
      as (np & c & l1 & Hc & Hpid & Hpar & Hrun & Hw).
    destruct np as [|[|np]]; [injection Hc as <-; discriminate | | discriminate]. injection Hc as <-.
    destruct (Hw fy _ [] pi [demo_proc; set_pstate ZOMBIE (child 2 0 demo_proc y q d)] 3 None _ (set_pstate ZOMBIE (child 2 0 demo_proc y q d)) Hrun eq_refl eq_refl) as (st2 & l2 & E2 & _).
    + split; [exact (conj eq_refl (conj eq_refl eq_refl))|]. intros [|j] z Hj (Hz & _ & Hs); [|lia]. injection Hz as <-. discriminate.
    + eexists _, _. exact E2.
Defined.
Lemma wait_reaps_first_exited_witness : exists k1 k2 : kern ideal, wait_round demo_kend 0 k1 = Ret (Some 2) k2.
Proof.
  set (fy := FSt (Ideal (fun _ => [])) (Superblock 0 0 0 0 0 0 0) [] (fun _ => 0)). set (pi := fun _ : Z => PSt (Pipe [] 0 0 0 0) [] [] []).
  destruct (fork_cases demo_kend 2148536320 2148532224 2148532230 ltac:(unfold demo_kend; lia) ltac:(lia) eq_refl ltac:(lia) ltac:(lia)
    fy _ _ pi _ 2 None _ _ _ _ demo_forkable) as (r & k' & E & [H|(np & y & q & l0 & d & st' & l' & Hl & -> & Hnp & _ & -> & Hfk)]).
  - destruct (demo_fork_succeeds _ _ _ _ H).
  - set (c := set_pstate ZOMBIE (child 2 0 demo_proc y q d)). assert (first_exited [demo_proc; c] 0 1 c) as Hc
      by (split; [exact (conj eq_refl (conj eq_refl eq_refl))|]; intros [|j] z Hj (Hz & _ & Hs); [|lia]; injection Hz as <-; discriminate).
    destruct (wait_reaps_first_exited demo_kend ltac:(unfold demo_kend; lia) fy st' [] pi [demo_proc; c] 3 None l' 0 demo_proc eq_refl) as (r & k2 & E2 & Hw).
    + intros [|[|j]] z [(Hz & Hp & Hs) _]; [injection Hz as <-; discriminate | | discriminate]. injection Hz as <-. destruct Hfk as [Hv _ _ _ [Hq1 Hq2] _ _ _]. split; [exact Hv|].
      split; [|exact (conj Hq2 Hq1)]. eapply kpage_not_free; [exact (vm_ok_free _ _ _ _ (fa_space _ _ _ _ _ _ _ _ demo_forkable)) | rewrite Hl; left].
    + eexists _, k2. rewrite E2. destruct Hw as [np' c' st2 l2 [Hx _] _ _ _|Hn _ _|Hn _]; [|by destruct (Hn 1%nat c); destruct Hc..].
      destruct np' as [|[|np']]; destruct Hx as (Hx & Hp & _); [injection Hx as <-; discriminate | by injection Hx as <- | discriminate].
Defined.
