(* ===== verification/Seg.v ===== *)
(** * Segments, gates and the task state (mmu.h, asm.h; seginit, switchkvm and switchuvm of vm.c; tvinit of trap.c)

    The descriptors that the processor reads, as the bit fields of mmu.h and as the
    bytes they have in memory.  [base_of] and the functions after it say what the
    processor takes from the eight bytes of a descriptor, as the manual of the
    processor has it; the theorems say that this is what the kernel means. *)

From S2P Require Import Prelude Mem Mmu.
#[local] Open Scope Z_scope.

Abbreviation SEG_KCODE := 1.
Abbreviation SEG_KDATA := 2.
Abbreviation SEG_UCODE := 3.
Abbreviation SEG_UDATA := 4.
Abbreviation SEG_TSS := 5.
Abbreviation NSEGS := 6%nat.
Abbreviation DPL_USER := 3.
Abbreviation STA_X := 8.
Abbreviation STA_W := 2.
Abbreviation STA_R := 2.
Abbreviation STS_T32A := 9.
Abbreviation STS_IG32 := 14.
Abbreviation STS_TG32 := 15.
Abbreviation T_SYSCALL := 64.
Abbreviation KSTACKSIZE := 4096.

(** ** Descriptors *)

(** A bit field of [n] bits keeps the low bits of what is stored to it. *)
Definition bits (n x : Z) : Z := x mod 2 ^ n.

Record segdesc := Segdesc {
  lim_15_0 : Z; base_15_0 : Z; base_23_16 : Z; sd_type : Z; sd_s : Z; sd_dpl : Z; sd_p : Z;
  lim_19_16 : Z; avl : Z; sd_rsv1 : Z; db : Z; gran : Z; base_31_24 : Z;
}.
Definition segdesc0 : segdesc := Segdesc 0 0 0 0 0 0 0 0 0 0 0 0 0.
Definition SEG (type base lim dpl : Z) : segdesc :=
  Segdesc (Z.land (Z.shiftr lim 12) 65535) (Z.land base 65535) (Z.land (Z.shiftr base 16) 255) (bits 4 type) 1 (bits 2 dpl) 1
    (bits 4 (Z.shiftr lim 28)) 0 0 1 1 (bits 8 (Z.shiftr base 24)).
Definition SEG16 (type base lim dpl : Z) : segdesc :=
  Segdesc (Z.land lim 65535) (Z.land base 65535) (Z.land (Z.shiftr base 16) 255) (bits 4 type) 1 (bits 2 dpl) 1
    (bits 4 (Z.shiftr lim 16)) 0 0 1 0 (bits 8 (Z.shiftr base 24)).
Definition set_s (x : Z) (d : segdesc) : segdesc :=
  Segdesc (lim_15_0 d) (base_15_0 d) (base_23_16 d) (sd_type d) x (sd_dpl d) (sd_p d) (lim_19_16 d) (avl d) (sd_rsv1 d) (db d) (gran d) (base_31_24 d).
(** The bytes of a descriptor: fields from the low bits up. *)
Definition seg_bytes (d : segdesc) : list Z :=
  [lim_15_0 d mod 256; lim_15_0 d / 256; base_15_0 d mod 256; base_15_0 d / 256; base_23_16 d;
   sd_type d + 16 * sd_s d + 32 * sd_dpl d + 128 * sd_p d;
   lim_19_16 d + 16 * avl d + 32 * sd_rsv1 d + 64 * db d + 128 * gran d; base_31_24 d].

(** The macros for the assembler. *)
Definition word_bytes (x : Z) : list Z := [x mod 256; x / 256].
Definition SEG_NULLASM : list Z := word_bytes 0 ++ word_bytes 0 ++ [0; 0; 0; 0].
Definition SEG_ASM (type base lim : Z) : list Z :=
  word_bytes (Z.land (Z.shiftr lim 12) 65535) ++ word_bytes (Z.land base 65535) ++
  [Z.land (Z.shiftr base 16) 255; Z.lor 144 type; Z.lor 192 (Z.land (Z.shiftr lim 28) 15); Z.land (Z.shiftr base 24) 255].

Record gatedesc := Gatedesc {
  off_15_0 : Z; gd_cs : Z; gd_args : Z; gd_rsv1 : Z; gd_type : Z; gd_s : Z; gd_dpl : Z; gd_p : Z; off_31_16 : Z;
}.
Definition gatedesc0 : gatedesc := Gatedesc 0 0 0 0 0 0 0 0 0.
Definition SETGATE (istrap : bool) (sel off d : Z) : gatedesc :=
  Gatedesc (Z.land off 65535) (bits 16 sel) 0 0 (if istrap then STS_TG32 else STS_IG32) 0 (bits 2 d) 1 (bits 16 (Z.shiftr off 16)).
Definition gate_bytes (g : gatedesc) : list Z :=
  [off_15_0 g mod 256; off_15_0 g / 256; gd_cs g mod 256; gd_cs g / 256; gd_args g + 32 * gd_rsv1 g;
   gd_type g + 16 * gd_s g + 32 * gd_dpl g + 128 * gd_p g; off_31_16 g mod 256; off_31_16 g / 256].

(** ** What the processor reads *)

Definition byte (b : list Z) (i : nat) : Z := nth i b 0.
Definition base_of (b : list Z) : Z := byte b 2 + 256 * byte b 3 + 65536 * byte b 4 + 16777216 * byte b 7.
(** The last address of the segment, in units of a page when the granularity bit is set. *)
Definition limit_of (b : list Z) : Z :=
  let l := byte b 0 + 256 * byte b 1 + 65536 * (byte b 6 mod 16) in
  if Z.testbit (byte b 6) 7 then 4096 * l + 4095 else l.
Definition type_of (b : list Z) : Z := byte b 5 mod 16.
(** An application segment, not a system segment or a gate. *)
Definition app_of (b : list Z) : bool := Z.testbit (byte b 5) 4.
Definition dpl_of (b : list Z) : Z := byte b 5 / 32 mod 4.
Definition present_of (b : list Z) : bool := Z.testbit (byte b 5) 7.
Definition offset_of (b : list Z) : Z := byte b 0 + 256 * byte b 1 + 65536 * byte b 6 + 16777216 * byte b 7.
Definition selector_of (b : list Z) : Z := byte b 2 + 256 * byte b 3.

(** ** The task state *)

(** The fields of [struct taskstate] with their sizes. *)
Definition taskstate : list (string * Z) :=
  [("link", 4); ("esp0", 4); ("ss0", 2); ("padding1", 2); ("esp1", 4); ("ss1", 2); ("padding2", 2); ("esp2", 4); ("ss2", 2); ("padding3", 2);
   ("cr3", 4); ("eip", 4); ("eflags", 4); ("eax", 4); ("ecx", 4); ("edx", 4); ("ebx", 4); ("esp", 4); ("ebp", 4); ("esi", 4); ("edi", 4);
   ("es", 2); ("padding4", 2); ("cs", 2); ("padding5", 2); ("ss", 2); ("padding6", 2); ("ds", 2); ("padding7", 2); ("fs", 2); ("padding8", 2);
   ("gs", 2); ("padding9", 2); ("ldt", 2); ("padding10", 2); ("t", 2); ("iomb", 2)]%string.
Fixpoint offset (l : list (string * Z)) (f : string) : Z :=
  match l with [] => 0 | (g, n) :: l => if String.eqb f g then 0 else n + offset l f end.
Fixpoint sizeof (l : list (string * Z)) : Z := match l with [] => 0 | (_, n) :: l => n + sizeof l end.

(** ** The tables of a processor *)

(** The table of segments of a processor, the memory with its task state, and the
    registers that say where they are.  The task register holds a selector and what
    the descriptor said when it was loaded: base and limit. *)
Record segs := Segs { gdt : list segdesc; smem : mem; gdtr : Z * Z; tr : Z * Z * Z; cr3 : Z }.
Definition set_gdt (l : list segdesc) (c : segs) : segs := Segs l (smem c) (gdtr c) (tr c) (cr3 c).
Definition set_smem (m : mem) (c : segs) : segs := Segs (gdt c) m (gdtr c) (tr c) (cr3 c).
Definition set_type (x : Z) (d : segdesc) : segdesc :=
  Segdesc (lim_15_0 d) (base_15_0 d) (base_23_16 d) x (sd_s d) (sd_dpl d) (sd_p d) (lim_19_16 d) (avl d) (sd_rsv1 d) (db d) (gran d) (base_31_24 d).
(** [lgdt]: the two halves of the address and the size for the instruction. *)
Definition lgdt (p size : Z) (c : segs) : segs := Segs (gdt c) (smem c) (p, (size - 1) mod 65536) (tr c) (cr3 c).
Definition lcr3 (x : Z) : M segs unit := modify (fun c => Segs (gdt c) (smem c) (gdtr c) (tr c) x).

Section tables.
(** The addresses of the table and of the task state in [struct cpu]. *)
Context (gdt_addr ts_addr : Z).

(** The descriptor that the processor finds for a selector: it reads the table that
    gdtr points to, which is the table of this record when it is at [gdt_addr], and
    faults beyond the limit. *)
Definition find_seg (c : segs) (sel : Z) : option segdesc :=
  let i := Z.shiftr sel 3 in
  if ((gdtr c).1 =? gdt_addr) && (8 * i + 7 <=? (gdtr c).2) then gdt c !! Z.to_nat i else None.
(** [ltr]: the instruction faults unless the descriptor is a present, available task
    state, and marks it busy. *)
Definition ltr (sel : Z) : M segs unit :=
  fun c =>
    match find_seg c sel with
    | Some d =>
        let b := seg_bytes d in
        if (type_of b =? STS_T32A) && negb (app_of b) && present_of b
        then Ret tt (Segs (<[Z.to_nat (Z.shiftr sel 3) := set_type 11 d]> (gdt c)) (smem c) (gdtr c) (sel, base_of b, limit_of b) (cr3 c))
        else Panic "general protection fault"
    | None => Panic "general protection fault"
    end.

Definition seginit : M segs unit :=
  modify (fun c => set_gdt (<[Z.to_nat SEG_KCODE := SEG (Z.lor STA_X STA_R) 0 4294967295 0]> (gdt c)) c) ;;;
  modify (fun c => set_gdt (<[Z.to_nat SEG_KDATA := SEG STA_W 0 4294967295 0]> (gdt c)) c) ;;;
  modify (fun c => set_gdt (<[Z.to_nat SEG_UCODE := SEG (Z.lor STA_X STA_R) 0 4294967295 DPL_USER]> (gdt c)) c) ;;;
  modify (fun c => set_gdt (<[Z.to_nat SEG_UDATA := SEG STA_W 0 4294967295 DPL_USER]> (gdt c)) c) ;;;
  modify (lgdt gdt_addr (8 * Z.of_nat NSEGS)).
Definition switchkvm (kpgdir : Z) : M segs unit := lcr3 (V2P kpgdir).
(** [switchuvm] after its checks, with interrupts off. *)
Definition switchuvm_task (kstack pgdir : Z) : M segs unit :=
  modify (fun c => set_gdt (<[Z.to_nat SEG_TSS := SEG16 STS_T32A ts_addr (sizeof taskstate - 1) 0]> (gdt c)) c) ;;;
  modify (fun c => set_gdt (alter (set_s 0) (Z.to_nat SEG_TSS) (gdt c)) c) ;;;
  modify (fun c => set_smem (st16 (smem c) (ts_addr + offset taskstate "ss0") (Z.shiftl SEG_KDATA 3)) c) ;;;
  modify (fun c => set_smem (st32 (smem c) (ts_addr + offset taskstate "esp0") (u32 (kstack + KSTACKSIZE))) c) ;;;
  modify (fun c => set_smem (st16 (smem c) (ts_addr + offset taskstate "iomb") 65535) c) ;;;
  ltr (Z.shiftl SEG_TSS 3) ;;;
  lcr3 (V2P pgdir).
End tables.

(** [tvinit] on the interrupt descriptor table; [k] gates to go. *)
Fixpoint tvinit_loop (vectors : Z -> Z) (k : nat) (i : Z) (idt : list gatedesc) : list gatedesc :=
  match k with
  | O => idt
  | S k => tvinit_loop vectors k (i + 1) (<[Z.to_nat i := SETGATE false (Z.shiftl SEG_KCODE 3) (vectors i) 0]> idt)
  end.
Definition tvinit (vectors : Z -> Z) (idt : list gatedesc) : list gatedesc :=
  let idt := tvinit_loop vectors 256 0 idt in
  <[Z.to_nat T_SYSCALL := SETGATE true (Z.shiftl SEG_KCODE 3) (vectors T_SYSCALL) DPL_USER]> idt.

(** What a processor in use of these tables does: where a trap from user space
    finds its stack, and whether code of level 3 may use a port (flags with I/O
    privilege level 0, and no byte of the permission map inside the segment). *)
Definition trap_stack (c : segs) : Z * Z := (ld16 (smem c) ((tr c).1.2 + offset taskstate "ss0"), ld32 (smem c) ((tr c).1.2 + offset taskstate "esp0")).
Definition ports_closed (c : segs) : bool := (tr c).2 <? ld16 (smem c) ((tr c).1.2 + offset taskstate "iomb").

(** ** Theorems *)

Lemma land_ff x : Z.land x 255 = x mod 256.
Proof. apply (land_low_mask x 8). lia. Qed.
Lemma land_ffff x : Z.land x 65535 = x mod 65536.
Proof. apply (land_low_mask x 16). lia. Qed.
Lemma land_f x : Z.land x 15 = x mod 16.
Proof. apply (land_low_mask x 4). lia. Qed.
Lemma testbit_div b i : 0 <= i -> Z.testbit b i = (b / 2 ^ i mod 2 =? 1).
Proof. intros Hi. rewrite Z.testbit_eqb by done. done. Qed.
Lemma lor_nibble t : 0 <= t < 16 -> Z.lor 144 t = 144 + t /\ Z.lor 192 t = 192 + t.
Proof.
  intros Ht. assert (t ∈ seqZ 0 16) as Hin by (apply elem_of_seqZ; lia). clear Ht. revert t Hin. apply Forall_forall. repeat constructor.
Qed.
Ltac fields := cbn [nth lim_15_0 base_15_0 base_23_16 sd_type sd_s sd_dpl sd_p lim_19_16 avl sd_rsv1 db gran base_31_24
  off_15_0 gd_cs gd_args gd_rsv1 gd_type gd_s gd_dpl gd_p off_31_16].
Ltac unpack := unfold base_of, limit_of, type_of, app_of, dpl_of, present_of, offset_of, selector_of, SEG, SEG16, SETGATE, set_s, bits, seg_bytes, gate_bytes, byte; fields;
  rewrite ?land_ff, ?land_ffff, ?land_f, ?Z.shiftr_div_pow2, ?testbit_div by lia;
  change (2 ^ 12) with 4096; change (2 ^ 16) with 65536; change (2 ^ 28) with 268435456; change (2 ^ 24) with 16777216; change (2 ^ 4) with 16; change (2 ^ 2) with 4;
  change (2 ^ 8) with 256; change (2 ^ 7) with 128.

(** The processor reads from a descriptor of [SEG] what its arguments say. *)
Lemma SEG_read type base lim dpl : 0 <= type < 16 -> 0 <= base < W32 -> 0 <= lim < W32 -> lim mod 4096 = 4095 -> 0 <= dpl < 4 ->
  let b := seg_bytes (SEG type base lim dpl) in
  base_of b = base /\ limit_of b = lim /\ type_of b = type /\ app_of b = true /\ dpl_of b = dpl /\ present_of b = true.
Proof.
  intros Ht Hb Hl Hm Hd. unpack. split_and!; zcases; zlia.
Qed.
(** Segments in bytes, up to a megabyte. *)
Lemma SEG16_read type base lim dpl : 0 <= type < 16 -> 0 <= base < W32 -> 0 <= lim < 1048576 -> 0 <= dpl < 4 ->
  let b := seg_bytes (set_s 0 (SEG16 type base lim dpl)) in
  base_of b = base /\ limit_of b = lim /\ type_of b = type /\ app_of b = false /\ dpl_of b = dpl /\ present_of b = true.
Proof. intros Ht Hb Hl Hd. unpack. split_and!; zcases; zlia. Qed.
(** The assembler's macro makes the bytes of a descriptor of level 0. *)
Lemma SEG_ASM_bytes type base lim : 0 <= type < 16 -> 0 <= base < W32 -> 0 <= lim < W32 -> SEG_ASM type base lim = seg_bytes (SEG type base lim 0).
Proof.
  intros Ht Hb Hl. unfold SEG_ASM, word_bytes. unpack. destruct (lor_nibble type Ht) as [-> _]. destruct (lor_nibble (lim / 268435456 mod 16) ltac:(zlia)) as [_ ->].
  simpl app. repeat match goal with |- ?x :: _ = ?y :: _ => replace x with y by zlia; f_equal end.
Qed.
Lemma SETGATE_read istrap sel off d : 0 <= sel < 65536 -> 0 <= off < W32 -> 0 <= d < 4 ->
  let b := gate_bytes (SETGATE istrap sel off d) in
  offset_of b = off /\ selector_of b = sel /\ type_of b = (if istrap then STS_TG32 else STS_IG32) /\ app_of b = false /\ dpl_of b = d /\ present_of b = true.
Proof. intros Hs Ho Hd. unpack. destruct istrap; split_and!; zcases; zlia. Qed.

(** The gates of the table after tvinit. *)
Lemma tvinit_loop_lookup vectors k : forall i idt, 0 <= i -> length idt = 256%nat -> i + Z.of_nat k = 256 -> forall j, 0 <= j < 256 ->
  tvinit_loop vectors k i idt !! Z.to_nat j = if i <=? j then Some (SETGATE false (Z.shiftl SEG_KCODE 3) (vectors j) 0) else idt !! Z.to_nat j.
Proof.
  induction k as [|k IH]; intros i idt Hi Hl Hk j Hj; cbn [tvinit_loop]; [zcases; done|].
  rewrite IH by (rewrite ?length_insert; lia). destruct (Z.eq_dec i j) as [<-|Hne].
  - rewrite (proj2 (Z.leb_gt _ _)), (proj2 (Z.leb_le i i)) by lia. apply list_lookup_insert_eq. lia.
  - rewrite list_lookup_insert_ne by lia. zcases; done.
Qed.
Lemma tvinit_lookup vectors idt j : length idt = 256%nat -> 0 <= j < 256 ->
  tvinit vectors idt !! Z.to_nat j = Some (SETGATE (j =? T_SYSCALL) (Z.shiftl SEG_KCODE 3) (vectors j) (if j =? T_SYSCALL then DPL_USER else 0)).
Proof.
  intros Hl Hj. unfold tvinit. assert (length (tvinit_loop vectors 256 0 idt) = 256%nat) as Hl'.
  { assert (forall k i l, length (tvinit_loop vectors k i l) = length l) as Hlen; [|by rewrite Hlen].
    induction k; intros; cbn [tvinit_loop]; [done|]. by rewrite IHk, length_insert. }
  destruct (Z.eqb_spec j T_SYSCALL) as [->|Hne]; [by rewrite list_lookup_insert_eq by (rewrite Hl'; lia)|].
  rewrite list_lookup_insert_ne, tvinit_loop_lookup by (done || lia). zcases; done.
Qed.

(** The ways into the kernel.  After tvinit each of the 256 interrupt numbers
    goes, as the processor reads its gate, to its own vector in the kernel's code
    segment.  Only the gate of system calls may be used by the int instruction of
    a user program, and only that one leaves interrupts on. *)
Theorem gates_lead_to_vectors (vectors : Z -> Z) (idt : list gatedesc) : length idt = 256%nat -> (forall n, 0 <= n < 256 -> 0 <= vectors n < W32) ->
  forall n, 0 <= n < 256 -> exists g, tvinit vectors idt !! Z.to_nat n = Some g /\
    let b := gate_bytes g in
    offset_of b = vectors n /\ selector_of b = Z.shiftl SEG_KCODE 3 /\ present_of b = true /\ app_of b = false /\
    (DPL_USER <= dpl_of b <-> n = T_SYSCALL) /\ type_of b = (if n =? T_SYSCALL then STS_TG32 else STS_IG32).
Proof.
  intros Hl Hv n Hn. rewrite tvinit_lookup by done. eexists. split; [done|]. cbv zeta.
  destruct (SETGATE_read (n =? T_SYSCALL) (Z.shiftl SEG_KCODE 3) (vectors n) (if n =? T_SYSCALL then DPL_USER else 0)) as (-> & -> & -> & -> & -> & ->);
    [done | by apply Hv | by destruct (n =? T_SYSCALL)|]. split_and!; try done. destruct (Z.eqb_spec n T_SYSCALL); lia.
Qed.
Lemma gates_lead_to_vectors_witness : exists g, tvinit (fun n => 2148532224 + 16 * n) (replicate 256 gatedesc0) !! 64%nat = Some g /\ offset_of (gate_bytes g) = 2148533248.
Proof.
  destruct (gates_lead_to_vectors (fun n => 2148532224 + 16 * n) (replicate 256 gatedesc0) eq_refl ltac:(lia) 64 ltac:(lia)) as (g & Hg & Ho & _).
  exists g. split; [exact Hg | exact Ho].
Defined.

(** A flat segment of the type and level. *)
Definition flat (type dpl : Z) (b : list Z) : Prop :=
  base_of b = 0 /\ limit_of b = 4294967295 /\ type_of b = type /\ app_of b = true /\ dpl_of b = dpl /\ present_of b = true.
Lemma SEG_flat type dpl : 0 <= type < 16 -> 0 <= dpl < 4 -> flat type dpl (seg_bytes (SEG type 0 4294967295 dpl)).
Proof. intros Ht Hd. apply SEG_read; done || lia. Qed.

(** The descriptor of a task state. *)
Lemma ltr_task l m t x gdt_addr ts_addr : 0 <= ts_addr < W32 -> l !! Z.to_nat SEG_TSS = Some (set_s 0 (SEG16 STS_T32A ts_addr (sizeof taskstate - 1) 0)) ->
  ltr gdt_addr (Z.shiftl SEG_TSS 3) (Segs l m (gdt_addr, 47) t x) =
  Ret tt (Segs (<[5%nat := set_type 11 (set_s 0 (SEG16 STS_T32A ts_addr (sizeof taskstate - 1) 0))]> l) m (gdt_addr, 47) (Z.shiftl SEG_TSS 3, ts_addr, 103) x).
Proof.
  intros Hts Hl. unfold ltr, find_seg. cbn [gdt smem gdtr cr3 fst snd]. rewrite Z.eqb_refl. change (Z.shiftr (Z.shiftl SEG_TSS 3) 3) with SEG_TSS. change (8 * SEG_TSS + 7 <=? 47) with true. cbn [andb]. rewrite Hl.
  destruct (SEG16_read STS_T32A ts_addr (sizeof taskstate - 1) 0) as (-> & -> & -> & -> & _ & ->); [lia | lia | vm_compute; done | lia |]. done.
Qed.
Lemma switchuvm_task_ok gdt_addr ts_addr kstack pgdir c : length (gdt c) = NSEGS -> gdtr c = (gdt_addr, 47) -> 0 <= ts_addr < W32 -> 0 <= kstack < W32 - KSTACKSIZE ->
  exists c', switchuvm_task gdt_addr ts_addr kstack pgdir c = Ret tt c' /\
    trap_stack c' = (Z.shiftl SEG_KDATA 3, kstack + KSTACKSIZE) /\ ports_closed c' = true /\ cr3 c' = V2P pgdir /\
    length (gdt c') = NSEGS /\ gdtr c' = gdtr c /\ forall i, i <> 5%nat -> gdt c' !! i = gdt c !! i.
Proof.
  intros Hl Hg Hts Hk. destruct c as [g m gr t x]. simpl in Hl, Hg. subst gr. unfold switchuvm_task. rewrite !bind_modify. unfold set_gdt, set_smem. cbn [gdt smem gdtr tr cr3].
  assert (alter (set_s 0) (Z.to_nat SEG_TSS) (<[Z.to_nat SEG_TSS := SEG16 STS_T32A ts_addr (sizeof taskstate - 1) 0]> g) !! Z.to_nat SEG_TSS = Some (set_s 0 (SEG16 STS_T32A ts_addr (sizeof taskstate - 1) 0))) as Hd
    by (rewrite list_lookup_alter_eq, list_lookup_insert_eq by (rewrite Hl; lia); done).
  rewrite (bind_Ret _ _ _ _ _ (ltr_task _ _ _ _ gdt_addr ts_addr Hts Hd)). eexists. split; [reflexivity|].
  unfold trap_stack, ports_closed. cbn [gdt smem gdtr tr cr3 fst snd]. change (offset taskstate "ss0") with 8. change (offset taskstate "esp0") with 4. change (offset taskstate "iomb") with 102.
  split_and!; [| | done | by rewrite !length_insert, length_alter, length_insert | done |].
  - change (Z.shiftl SEG_KDATA 3) with 16. rewrite ld16_st16_ne, ld16_st32_ne, ld16_st16_eq by lia. rewrite ld32_st16_ne, ld32_st32_eq by (apply u32_range || lia). by rewrite u32_small by lia.
  - by rewrite ld16_st16_eq by lia.
  - intros i Hi. by rewrite list_lookup_insert_ne, list_lookup_alter_ne, list_lookup_insert_ne by (simpl; lia).
Qed.

(** C23: the segments and the task of a processor.  After seginit the processor uses
    the table of its [struct cpu]: for the selectors of code and data, of the kernel
    and of user programs, it finds segments that cover all addresses unchanged,
    those of user programs at level 3; the boot code's are the kernel's.  And from
    then on switchuvm, for whatever process ran before on the processor, does not
    fault: then the next trap from user space switches to the top of the kernel
    stack of the process, in the kernel's data segment, its page directory is in
    use, no port is open to it, and the other segments are as before. *)
Theorem switchuvm_sets_task (gdt_addr ts_addr kstack pgdir : Z) (c : segs) :
  length (gdt c) = NSEGS -> 0 <= ts_addr < W32 -> 0 <= kstack < W32 - KSTACKSIZE -> exists c1,
  seginit gdt_addr c = Ret tt c1 /\
  (forall i d, (i, d) ∈ [(SEG_KCODE, flat 10 0); (SEG_KDATA, flat 2 0); (SEG_UCODE, flat 10 3); (SEG_UDATA, flat 2 3)] -> exists s, find_seg gdt_addr c1 (Z.shiftl i 3) = Some s /\ d (seg_bytes s)) /\
  gdtr c1 = (gdt_addr, 8 * Z.of_nat NSEGS - 1) /\ length (gdt c1) = NSEGS /\
  SEG_ASM (Z.lor STA_X STA_R) 0 4294967295 = seg_bytes (nth 1 (gdt c1) segdesc0) /\ SEG_ASM STA_W 0 4294967295 = seg_bytes (nth 2 (gdt c1) segdesc0) /\
  forall c2, length (gdt c2) = NSEGS -> gdtr c2 = gdtr c1 -> exists c3, switchuvm_task gdt_addr ts_addr kstack pgdir c2 = Ret tt c3 /\
    trap_stack c3 = (Z.shiftl SEG_KDATA 3, kstack + KSTACKSIZE) /\ ports_closed c3 = true /\ cr3 c3 = V2P pgdir /\
    length (gdt c3) = NSEGS /\ gdtr c3 = gdtr c1 /\ forall i, i <> 5%nat -> gdt c3 !! i = gdt c2 !! i.
Proof.
  intros Hl Hts Hk. destruct c as [g m gr t x]. simpl in Hl. do 6 (destruct g as [|? g]; [done|]). destruct g; [|done]. eexists. split; [reflexivity|]. split; [|split; [done|]; split; [done|]; split; [by apply SEG_ASM_bytes|]; split; [by apply SEG_ASM_bytes|]].
  - intros i d Hin. unfold find_seg. cbn [gdtr lgdt gdt fst snd]. rewrite Z.eqb_refl. rewrite !elem_of_cons, elem_of_nil in Hin. destruct Hin as [E|[E|[E|[E|[]]]]]; injection E as -> ->; eexists; (split; [reflexivity|]); by apply SEG_flat.
  - intros c2 Hl2 Hg. destruct (switchuvm_task_ok gdt_addr ts_addr kstack pgdir c2) as (c3 & H1 & H2 & H3 & H4 & H5 & H6 & H7); try done. exists c3. split_and!; try done. by rewrite H6.
Qed.
Lemma switchuvm_sets_task_witness : exists c2 c3, switchuvm_task 2148610000 2148600000 2149580800 2149584896 c2 = Ret tt c3 /\ trap_stack c3 = (16, 2149584896).
Proof.
  destruct (switchuvm_sets_task 2148610000 2148600000 2149580800 2149584896 (Segs (replicate 6 segdesc0) (fun _ => 0) (0, 0) (0, 0, 0) 0) eq_refl ltac:(lia) ltac:(lia)) as (c1 & _ & _ & _ & Hl & _ & _ & H).
  destruct (H c1 Hl eq_refl) as (c3 & E & Ht & _). exists c1, c3. split; [exact E | exact Ht].
Defined.
