(* ===== verification/Asm.v ===== *)
(** * Assembly code (swtch.S, trapasm.S, usys.S, initcode.S, vectors.pl)

    The instructions of the processor that the assembly files use, as a function
    from state to state, and the routines as lists of instructions.  Linear code is
    run instruction by instruction; the instruction pointer matters where control
    leaves a routine.  Memory is addressed as the kernel sees it.

    The theorems: a trap saves the registers of a user program in a [struct
    trapframe] and the return from it loads them; swtch suspends a kernel thread so
    that a later swtch resumes it; and a child of fork starts where its parent
    called fork, with 0 as the result. *)

From S2P Require Import Prelude Mem Mmu Seg.
#[local] Open Scope Z_scope.

Abbreviation FL_IF := 512.

(** ** The processor *)

Inductive reg := EAX | ECX | EDX | EBX | ESP | EBP | ESI | EDI.
Inductive sreg := CS | DS | ES | FS | GS | SS.

Record regs := Regs { eax : Z; ecx : Z; edx : Z; ebx : Z; esp_ : Z; ebp : Z; esi : Z; edi : Z }.
Record sregs := Sregs { cs : Z; ds : Z; es : Z; fs : Z; gs : Z; ss : Z }.
Record x86 := X86 { gprs : regs; sgrs : sregs; eip : Z; flags : Z; xmem : mem }.
Definition gpr (s : x86) (r : reg) : Z :=
  let g := gprs s in
  match r with EAX => eax g | ECX => ecx g | EDX => edx g | EBX => ebx g | ESP => esp_ g | EBP => ebp g | ESI => esi g | EDI => edi g end.
Definition seg (s : x86) (r : sreg) : Z :=
  let g := sgrs s in match r with CS => cs g | DS => ds g | ES => es g | FS => fs g | GS => gs g | SS => ss g end.
Definition setr (r : reg) (v : Z) (s : x86) : x86 :=
  let '(Regs a c d b sp bp si di) := gprs s in
  X86 (match r with
       | EAX => Regs v c d b sp bp si di | ECX => Regs a v d b sp bp si di | EDX => Regs a c v b sp bp si di | EBX => Regs a c d v sp bp si di
       | ESP => Regs a c d b v bp si di | EBP => Regs a c d b sp v si di | ESI => Regs a c d b sp bp v di | EDI => Regs a c d b sp bp si v
       end) (sgrs s) (eip s) (flags s) (xmem s).
Definition sets (r : sreg) (v : Z) (s : x86) : x86 :=
  let '(Sregs c d e f g t) := sgrs s in
  X86 (gprs s)
      (match r with
       | CS => Sregs v d e f g t | DS => Sregs c v e f g t | ES => Sregs c d v f g t
       | FS => Sregs c d e v g t | GS => Sregs c d e f v t | SS => Sregs c d e f g v
       end) (eip s) (flags s) (xmem s).
Definition set_eip (a : Z) (s : x86) : x86 := X86 (gprs s) (sgrs s) a (flags s) (xmem s).
Definition set_flags (x : Z) (s : x86) : x86 := X86 (gprs s) (sgrs s) (eip s) x (xmem s).
Definition set_xmem (m : mem) (s : x86) : x86 := X86 (gprs s) (sgrs s) (eip s) (flags s) m.

Definition esp (s : x86) : Z := gpr s ESP.
(** A word and a segment selector on the stack; the upper half of the selector's
    word is not defined. *)
Definition push (v : Z) (s : x86) : x86 :=
  let a := u32 (esp s - 4) in set_xmem (st32 (xmem s) a v) (setr ESP a s).
Definition push16 (v : Z) (s : x86) : x86 :=
  let a := u32 (esp s - 4) in set_xmem (st16 (xmem s) a v) (setr ESP a s).
Definition top (s : x86) : Z := ld32 (xmem s) (esp s).
Definition drop4 (s : x86) : x86 := setr ESP (u32 (esp s + 4)) s.

Inductive instr :=
| movl (a b : reg)                    (* movl %a, %b *)
| movl_i (i : Z) (b : reg)            (* movl $i, %b *)
| movl_ld (off : Z) (a b : reg)       (* movl off(%a), %b *)
| movl_st (a b : reg)                 (* movl %a, (%b) *)
| movw_ax (i : Z)                     (* movw $i, %ax *)
| movw_s (s : sreg)                   (* movw %ax, %s *)
| addl (i : Z) (a : reg)
| pushl (a : reg) | pushl_i (i : Z) | pushl_s (s : sreg) | pushal
| popl (a : reg) | popl_s (s : sreg) | popal
| call (f back : Z)                   (* back: the address of the next instruction *)
| jmp (a : Z)
| ret_
| iret.

Definition pop (r : reg) (s : x86) : x86 := setr r (top s) (drop4 s).
(** Back from a gate: to the same level, or with the stack of the outer level. *)
Definition do_iret (s : x86) : x86 :=
  let level := Z.land (seg s CS) 3 in
  let s := drop4 (set_eip (top s) s) in
  let cs := ld16 (xmem s) (esp s) in
  let s := drop4 (sets CS cs s) in
  let s := drop4 (set_flags (top s) s) in
  if level <? Z.land cs 3 then
    let sp := top s in
    let s := drop4 s in
    setr ESP sp (sets SS (ld16 (xmem s) (esp s)) s)
  else s.
Definition do_pushal (s : x86) : x86 :=
  let sp := esp s in
  push (gpr s EDI) (push (gpr s ESI) (push (gpr s EBP) (push sp (push (gpr s EBX) (push (gpr s EDX) (push (gpr s ECX) (push (gpr s EAX) s))))))).
Definition do_popal (s : x86) : x86 :=
  pop EAX (pop ECX (pop EDX (pop EBX (drop4 (pop EBP (pop ESI (pop EDI s))))))).
Definition step1 (i : instr) (s : x86) : x86 :=
  match i with
  | movl a b => setr b (gpr s a) s
  | movl_i i b => setr b i s
  | movl_ld off a b => setr b (ld32 (xmem s) (u32 (gpr s a + off))) s
  | movl_st a b => set_xmem (st32 (xmem s) (gpr s b) (gpr s a)) s
  | movw_ax i => setr EAX (gpr s EAX - gpr s EAX mod 65536 + i) s
  | movw_s r => sets r (gpr s EAX mod 65536) s
  | addl i a => setr a (u32 (gpr s a + i)) s
  | pushl a => push (gpr s a) s
  | pushl_i i => push i s
  | pushl_s r => push16 (seg s r) s
  | pushal => do_pushal s
  | popl a => pop a s
  | popl_s r => drop4 (sets r (ld16 (xmem s) (esp s)) s)
  | popal => do_popal s
  | call f back => set_eip f (push back s)
  | jmp a => set_eip a s
  | ret_ => drop4 (set_eip (top s) s)
  | iret => do_iret s
  end.
Fixpoint run (l : list instr) (s : x86) : x86 := match l with [] => s | i :: l => run l (step1 i s) end.

(** Entry through the gate with the bytes [b]; [stk] is the stack for traps from
    user space, [err] the error code of the exceptions that have one. *)
Definition FL_CLEAR : Z := 213248.    (* TF, NT, RF and VM *)
Definition enter (b : list Z) (stk : Z * Z) (err : option Z) (s : x86) : x86 :=
  let s1 := if Z.land (seg s CS) 3 =? 0 then s
            else push (esp s) (push16 (seg s SS) (setr ESP stk.2 (sets SS stk.1 s))) in
  let s2 := push (eip s) (push16 (seg s CS) (push (flags s) s1)) in
  let s3 := match err with Some e => push e s2 | None => s2 end in
  set_eip (offset_of b) (sets CS (selector_of b)
    (set_flags (Z.ldiff (Z.ldiff (flags s) FL_CLEAR) (if type_of b =? STS_IG32 then FL_IF else 0)) s3)).

(** ** The routines *)

Section code.
(** The addresses of labels and of the function trap. *)
Context (alltraps_addr trap_addr back_addr : Z).

Definition swtch : list instr :=
  [movl_ld 4 ESP EAX; movl_ld 8 ESP EDX;
   pushl EBP; pushl EBX; pushl ESI; pushl EDI;
   movl_st ESP EAX; movl EDX ESP;
   popl EDI; popl ESI; popl EBX; popl EBP; ret_].

(** The exceptions for which the processor pushes an error code, as the script
    that writes the vectors has them. *)
Definition errcode (i : Z) : bool := (i =? 8) || ((10 <=? i) && (i <=? 14)) || (i =? 17).
Definition vector (i : Z) : list instr := (if errcode i then [] else [pushl_i 0]) ++ [pushl_i i; jmp alltraps_addr].

Definition alltraps : list instr :=
  [pushl_s DS; pushl_s ES; pushl_s FS; pushl_s GS; pushal;
   movw_ax (Z.shiftl SEG_KDATA 3); movw_s DS; movw_s ES;
   pushl ESP; call trap_addr back_addr].
(** After the call. *)
Definition aftertrap : list instr := [addl 4 ESP].
Definition trapret : list instr :=
  [popal; popl_s GS; popl_s FS; popl_s ES; popl_s DS; addl 8 ESP; iret].
End code.

(** [struct trapframe] and [struct context]. *)
Definition trapframe : list (string * Z) :=
  [("edi", 4); ("esi", 4); ("ebp", 4); ("oesp", 4); ("ebx", 4); ("edx", 4); ("ecx", 4); ("eax", 4);
   ("gs", 2); ("padding1", 2); ("fs", 2); ("padding2", 2); ("es", 2); ("padding3", 2); ("ds", 2); ("padding4", 2); ("trapno", 4);
   ("err", 4); ("eip", 4); ("cs", 2); ("padding5", 2); ("eflags", 4); ("esp", 4); ("ss", 2); ("padding6", 2)]%string.
Definition context : list (string * Z) := [("edi", 4); ("esi", 4); ("ebx", 4); ("ebp", 4); ("eip", 4)]%string.
Definition tf_reg (m : mem) (tf : Z) (r : reg) : Z :=
  ld32 m (tf + offset trapframe (match r with EAX => "eax" | ECX => "ecx" | EDX => "edx" | EBX => "ebx" | ESP => "esp" | EBP => "ebp" | ESI => "esi" | EDI => "edi" end)).
Definition tf_seg (m : mem) (tf : Z) (r : sreg) : Z :=
  ld16 m (tf + offset trapframe (match r with CS => "cs" | DS => "ds" | ES => "es" | FS => "fs" | GS => "gs" | SS => "ss" end)).
Definition tf_word (m : mem) (tf : Z) (f : string) : Z := ld32 m (tf + offset trapframe f).
(** The frame holds the registers of a program. *)
Record saved (m : mem) (tf : Z) (s : x86) : Prop := {
  sv_gpr : forall r, tf_reg m tf r = gpr s r;
  sv_seg : forall r, tf_seg m tf r = seg s r;
  sv_eip : tf_word m tf "eip" = eip s;
  sv_flags : tf_word m tf "eflags" = flags s
}.

(** Registers and memory hold what they can hold. *)
Record xok (s : x86) : Prop := {
  xok_gpr : forall r, 0 <= gpr s r < W32;
  xok_seg : forall r, 0 <= seg s r < 65536;
  xok_eip : 0 <= eip s < W32;
  xok_flags : 0 <= flags s < W32;
}.

(** ** Running code symbolically *)

Lemma push_eq v a c d b k n bp si di sg ip fl m : 0 <= k - (n + 4) < W32 ->
  push v (X86 (Regs a c d b (k - n) bp si di) sg ip fl m) = X86 (Regs a c d b (k - (n + 4)) bp si di) sg ip fl (st32 m (k - (n + 4)) v).
Proof. intros Hsp. unfold push, esp, gpr. cbn [gprs esp_ xmem setr set_xmem]. replace (k - n - 4) with (k - (n + 4)) by lia. by rewrite u32_small by lia. Qed.
Lemma push16_eq v a c d b k n bp si di sg ip fl m : 0 <= k - (n + 4) < W32 ->
  push16 v (X86 (Regs a c d b (k - n) bp si di) sg ip fl m) = X86 (Regs a c d b (k - (n + 4)) bp si di) sg ip fl (st16 m (k - (n + 4)) v).
Proof. intros Hsp. unfold push16, esp, gpr. cbn [gprs esp_ xmem setr set_xmem]. replace (k - n - 4) with (k - (n + 4)) by lia. by rewrite u32_small by lia. Qed.
Ltac xcbn := cbv beta iota zeta delta [gpr seg setr sets set_eip set_flags set_xmem gprs sgrs eip flags xmem eax ecx edx ebx esp_ ebp esi edi cs ds es fs gs ss fst snd app].
Lemma run_nil s : run [] s = s.
Proof. done. Qed.
Lemma run_step i l s s' : step1 i s = s' -> run (i :: l) s = run l s'.
Proof. by intros <-. Qed.
Ltac xnorm := xcbn; repeat (first [rewrite push_eq by lia | rewrite push16_eq by lia]; xcbn).
(** One instruction on a state given by its parts. *)
Ltac xstep := erewrite run_step; [|cbn [step1]; unfold do_pushal, do_popal, pop, drop4, top, esp; xnorm; reflexivity].

Lemma ld32_st32_at m a b w : a = b -> 0 <= w < W32 -> ld32 (st32 m a w) b = w.
Proof. intros <-. apply ld32_st32_eq. Qed.
Lemma ld16_st16_at m a b w : a = b -> 0 <= w < 65536 -> ld16 (st16 m a w) b = w.
Proof. intros <-. apply ld16_st16_eq. Qed.
(** Reads a field of the frame through the stores to it. *)
Ltac xread := repeat first [rewrite ld32_st32_ne by lia | rewrite ld32_st16_ne by lia | rewrite ld16_st32_ne by lia | rewrite ld16_st16_ne by lia];
  first [apply ld32_st32_at; lia | apply ld16_st16_at; lia].
Ltac xoffset := repeat match goal with |- context [offset ?l ?f] => let o := eval vm_compute in (offset l f) in change (offset l f) with o end.

Lemma drop4_eq a c d b t n bp si di sg ip fl m : 0 <= t + (n + 4) < W32 ->
  drop4 (X86 (Regs a c d b (t + n) bp si di) sg ip fl m) = X86 (Regs a c d b (t + (n + 4)) bp si di) sg ip fl m.
Proof. intros Hsp. unfold drop4, esp, gpr. cbn [gprs esp_ setr]. replace (t + n + 4) with (t + (n + 4)) by lia. by rewrite u32_small by lia. Qed.
Lemma pop_eq r a c d b t n bp si di sg ip fl m : 0 <= t + (n + 4) < W32 ->
  pop r (X86 (Regs a c d b (t + n) bp si di) sg ip fl m) = setr r (ld32 m (t + n)) (X86 (Regs a c d b (t + (n + 4)) bp si di) sg ip fl m).
Proof. intros Hsp. unfold pop. by rewrite drop4_eq. Qed.
Lemma u32_at t n i : 0 <= t + (n + i) < W32 -> u32 (t + n + i) = t + (n + i).
Proof. intros H. rewrite <- Z.add_assoc. by apply u32_small. Qed.
Ltac xpop := xcbn; repeat (first [rewrite pop_eq by lia | rewrite drop4_eq by lia]; xcbn).
Ltac xpstep := erewrite run_step; [|cbn [step1]; unfold do_popal, top, esp; xpop; reflexivity].

(** ** Traps *)

Section entry.
Context (alltraps_addr trap_addr back_addr : Z).

(** Where the code for traps leaves the stack, which is [k] at the top. *)
Record entered (s : x86) (k n e : Z) (s' : x86) : Prop := {
  en_saved : saved (xmem s') (k - 76) s;
  en_trapno : tf_word (xmem s') (k - 76) "trapno" = n;
  en_err : tf_word (xmem s') (k - 76) "err" = e;
  en_call : eip s' = trap_addr /\ esp s' = k - 84 /\ top s' = back_addr /\ ld32 (xmem s') (esp s' + 4) = k - 76;
  en_seg : seg s' CS = Z.shiftl SEG_KCODE 3 /\ seg s' DS = Z.shiftl SEG_KDATA 3 /\ seg s' ES = Z.shiftl SEG_KDATA 3 /\ seg s' SS = Z.shiftl SEG_KDATA 3;
  en_mem : forall x, x < k - 84 \/ k <= x -> xmem s' x = xmem s x
}.
(** The frame after the stores of the processor and of the vector. *)
Definition trap_mem (s : x86) (k n e : Z) : mem :=
  let m := st16 (xmem s) (k - 4) (ss (sgrs s)) in
  let m := st32 m (k - 8) (esp_ (gprs s)) in
  let m := st32 m (k - 12) (flags s) in
  let m := st16 m (k - 16) (cs (sgrs s)) in
  let m := st32 m (k - 20) (eip s) in
  let m := st32 m (k - 24) e in
  let m := st32 m (k - 28) n in
  let m := st16 m (k - 32) (ds (sgrs s)) in
  let m := st16 m (k - 36) (es (sgrs s)) in
  let m := st16 m (k - 40) (fs (sgrs s)) in
  let m := st16 m (k - 44) (gs (sgrs s)) in
  let m := st32 m (k - 48) (eax (gprs s)) in
  let m := st32 m (k - 52) (ecx (gprs s)) in
  let m := st32 m (k - 56) (edx (gprs s)) in
  let m := st32 m (k - 60) (ebx (gprs s)) in
  let m := st32 m (k - 64) (k - 44) in
  let m := st32 m (k - 68) (ebp (gprs s)) in
  let m := st32 m (k - 72) (esi (gprs s)) in
  let m := st32 m (k - 76) (edi (gprs s)) in
  let m := st32 m (k - 80) (k - 76) in
  st32 m (k - 84) back_addr.
Lemma user_entry_run s n b k err : Z.land (seg s CS) 3 = 3 -> 256 <= k < W32 -> err = (if errcode n then Some (default 0 err) else None) ->
  run (alltraps trap_addr back_addr) (run (vector alltraps_addr n) (enter b (16, k) err s)) =
  let g := gprs s in
  X86 (Regs (eax g - eax g mod 65536 + 16) (ecx g) (edx g) (ebx g) (k - 84) (ebp g) (esi g) (edi g)) (Sregs (selector_of b) 16 16 (fs (sgrs s)) (gs (sgrs s)) 16)
    trap_addr (Z.ldiff (Z.ldiff (flags s) FL_CLEAR) (if type_of b =? STS_IG32 then FL_IF else 0)) (trap_mem s k n (default 0 err)).
Proof.
  intros Hcs Hk He. rewrite <- (Z.sub_0_r k) at 1. destruct s as [[a c d x sp bp si di] [c1 d1 e1 f1 g1 t1] ip fl m]. unfold enter. rewrite Hcs. cbv zeta. change (3 =? 0) with false. cbv iota.
  assert ((a - a mod 65536 + Z.shiftl SEG_KDATA 3) mod 65536 = 16) as Hax by (change (Z.shiftl SEG_KDATA 3) with 16; zlia).
  unfold vector. rewrite He. unfold seg, esp, gpr. destruct (errcode n).
  - xnorm. repeat xstep. rewrite run_nil. unfold alltraps. repeat xstep. rewrite run_nil, Hax. reflexivity.
  - xnorm. repeat xstep. rewrite run_nil. unfold alltraps. repeat xstep. rewrite run_nil, Hax. reflexivity.
Qed.
Lemma trap_mem_saved s k n e : xok s -> 256 <= k < W32 -> 0 <= n < W32 -> 0 <= e < W32 ->
  saved (trap_mem s k n e) (k - 76) s /\ tf_word (trap_mem s k n e) (k - 76) "trapno" = n /\ tf_word (trap_mem s k n e) (k - 76) "err" = e.
Proof.
  intros [Hg Hs Hi Hf] Hk Hn He. pose proof (Hg EAX); pose proof (Hg ECX); pose proof (Hg EDX); pose proof (Hg EBX); pose proof (Hg ESP); pose proof (Hg EBP); pose proof (Hg ESI); pose proof (Hg EDI).
  pose proof (Hs CS); pose proof (Hs DS); pose proof (Hs ES); pose proof (Hs FS); pose proof (Hs GS); pose proof (Hs SS). clear Hg Hs. unfold gpr, seg in *.
  unfold trap_mem, tf_word. cbv zeta. split_and!; [split| |].
  - intros []; unfold tf_reg, gpr; xoffset; xread.
  - intros []; unfold tf_seg, seg; xoffset; xread.
  - unfold tf_word. xoffset. xread.
  - unfold tf_word. xoffset. xread.
  - xoffset. xread.
  - xoffset. xread.
Qed.
Lemma trap_mem_out s k n e x : x < k - 84 \/ k <= x -> trap_mem s k n e x = xmem s x.
Proof. intros Hx. unfold trap_mem. cbv zeta. by rewrite ?st32_out, ?st16_out, ?st32_out, ?st16_out, ?st32_out, ?st16_out by lia. Qed.
(** The state that trapret leads to: all of it from the frame. *)
Lemma trapret_run s tf : esp s = tf -> 0 <= tf < W32 - 76 -> Z.land (seg s CS) 3 = 0 -> Z.land (tf_seg (xmem s) tf CS) 3 = 3 ->
  let m := xmem s in
  run trapret s = X86 (Regs (ld32 m (tf + 28)) (ld32 m (tf + 24)) (ld32 m (tf + 20)) (ld32 m (tf + 16)) (ld32 m (tf + 68)) (ld32 m (tf + 8)) (ld32 m (tf + 4)) (ld32 m (tf + 0)))
    (Sregs (ld16 m (tf + 60)) (ld16 m (tf + 44)) (ld16 m (tf + 40)) (ld16 m (tf + 36)) (ld16 m (tf + 32)) (ld16 m (tf + 72))) (ld32 m (tf + 56)) (ld32 m (tf + 64)) m.
Proof.
  destruct s as [[a c d x sp bp si di] [c1 d1 e1 f1 g1 t1] ip fl m]. unfold esp, gpr, seg, tf_seg. cbn [gprs sgrs esp_ cs xmem]. intros -> Htf Hl Hc. unfold trapret.
  rewrite <- (Z.add_0_r tf) at 1. do 5 xpstep.
  erewrite run_step; [|cbn [step1]; xcbn; rewrite u32_at by lia; reflexivity]. erewrite run_step; [|cbn [step1]; reflexivity].
  rewrite run_nil. unfold do_iret, top, esp. xpop. rewrite Hl. match goal with |- context [Z.land (ld16 m ?a) 3] => change (Z.land (ld16 m a) 3) with (Z.land (ld16 m (tf + offset trapframe "cs")) 3) end.
  rewrite Hc. reflexivity.
Qed.
Lemma trapret_loads s tf : esp s = tf -> 0 <= tf < W32 - 76 -> Z.land (seg s CS) 3 = 0 -> Z.land (tf_seg (xmem s) tf CS) 3 = 3 ->
  saved (xmem s) tf (run trapret s) /\ xmem (run trapret s) = xmem s.
Proof.
  intros Hsp Htf Hl Hc. rewrite (trapret_run s tf) by done. cbv zeta. split; [|done].
  split; [intros [] | intros [] | |]; unfold tf_reg, tf_seg, tf_word, gpr, seg; xoffset; xcbn; done.
Qed.
Lemma aftertrap_loads s tf : esp s + 4 = tf -> 0 <= tf < W32 - 76 -> Z.land (seg s CS) 3 = 0 -> Z.land (tf_seg (xmem s) tf CS) 3 = 3 ->
  saved (xmem s) tf (run (aftertrap ++ trapret) s).
Proof.
  intros Hsp Htf Hl Hc. unfold aftertrap. cbn [app]. rewrite (run_step _ _ _ _ eq_refl). cbn [step1]. unfold esp in Hsp. rewrite Hsp, u32_small by lia.
  assert (xmem (setr ESP tf s) = xmem s) as Hm by (by destruct s as [[] ? ? ? ?]). rewrite <- Hm in Hc |- *.
  apply trapret_loads; [by destruct s as [[] ? ? ? ?] | done | by destruct s as [[] [] ? ? ?] | done].
Qed.
Lemma trap_entered s n b k err : xok s -> Z.land (seg s CS) 3 = 3 -> 256 <= k < W32 -> 0 <= n < 256 -> 0 <= back_addr < W32 ->
  err = (if errcode n then Some (default 0 err) else None) -> 0 <= default 0 err < W32 -> selector_of b = Z.shiftl SEG_KCODE 3 ->
  entered s k n (default 0 err) (run (alltraps trap_addr back_addr) (run (vector alltraps_addr n) (enter b (16, k) err s))).
Proof.
  intros Hok Hcs Hk Hn Hb He Her Hsel. rewrite (user_entry_run s n b k err Hcs Hk He). cbv zeta.
  destruct (trap_mem_saved s k n (default 0 err) Hok Hk ltac:(lia) Her) as (Hs & Ht & Hr). split; [done | done | done | | by rewrite <- Hsel | intros x Hx; by apply trap_mem_out].
  unfold top, esp, gpr. xcbn. split; [done|]. split; [done|]. unfold trap_mem. cbv zeta. split; xread.
Qed.
End entry.

(** C5: a trap is transparent to the program it interrupts.  From user space, for
    each of the 256 numbers, with or without an error code, the processor, the
    vector and alltraps build a [struct trapframe] at the top of the kernel stack
    with all registers of the program, and call trap with its address.  When trap
    has returned, the program goes on with the registers of the frame: if trap has
    changed no more than the field eax, with all its registers but that one as
    they were. *)
Theorem trap_transparent (alltraps_addr trap_addr back_addr n k : Z) (b : list Z) (err : option Z) (s : x86) :
  xok s -> Z.land (seg s CS) 3 = 3 -> 256 <= k < W32 -> 0 <= n < 256 -> 0 <= back_addr < W32 ->
  err = (if errcode n then Some (default 0 err) else None) -> 0 <= default 0 err < W32 -> selector_of b = Z.shiftl SEG_KCODE 3 ->
  let s1 := run (alltraps trap_addr back_addr) (run (vector alltraps_addr n) (enter b (Z.shiftl SEG_KDATA 3, k) err s)) in
  let tf := k - 76 in
  entered trap_addr back_addr s k n (default 0 err) s1 /\
  forall s2, eip s2 = top s1 -> esp s2 = esp s1 + 4 -> seg s2 CS = seg s1 CS -> Z.land (tf_seg (xmem s2) tf CS) 3 = 3 ->
    let s3 := run (aftertrap ++ trapret) s2 in
    saved (xmem s2) tf s3 /\
    ((forall x, k - 76 <= x < k -> ~ (k - 48 <= x < k - 44) -> xmem s2 x = xmem s1 x) ->
     (forall r, r <> EAX -> gpr s3 r = gpr s r) /\ (forall r, seg s3 r = seg s r) /\ eip s3 = eip s /\ flags s3 = flags s).
Proof.
  intros Hok Hcs Hk Hn Hb He Her Hsel s1 tf.
  assert (entered trap_addr back_addr s k n (default 0 err) s1) as Hen by by apply trap_entered. clearbody s1. split; [done|]. intros s2 Hip Hsp Hcs2 Htf s3.
  destruct Hen as [Hsv _ _ (_ & Hes & _) (Hc1 & _) _].
  assert (saved (xmem s2) tf s3) as Hs3 by (apply aftertrap_loads; [lia | subst tf; lia | by rewrite Hcs2, Hc1 | done]). clearbody s3.
  split; [done|]. intros Hsame. destruct Hs3 as [G3 S3 I3 F3]. destruct Hsv as [G1 S1 I1 F1].
  split_and!.
  - intros r Hr. rewrite <- G3, <- G1. unfold tf_reg. apply ld32_ext. intros x Hx. subst tf. destruct r; try done; (vm_compute offset in Hx); apply Hsame; lia.
  - intros r. rewrite <- S3, <- S1. unfold tf_seg. apply ld16_ext. intros x Hx. subst tf. destruct r; (vm_compute offset in Hx); apply Hsame; lia.
  - rewrite <- I3, <- I1. unfold tf_word. apply ld32_ext. intros x Hx. subst tf. (vm_compute offset in Hx). apply Hsame; lia.
  - rewrite <- F3, <- F1. unfold tf_word. apply ld32_ext. intros x Hx. subst tf. (vm_compute offset in Hx). apply Hsame; lia.
Qed.

(** ** Context switches *)

Definition ctx_word (m : mem) (c : Z) (f : string) : Z := ld32 m (c + offset context f).
(** A call [swtch(old, new)]: the words on the stack, and the places that it writes
    and reads do not overlap. *)
Record swtch_call (s : x86) (old new : Z) : Prop := {
  sc_stack : 16 <= esp s < W32 - 12;
  sc_old : ld32 (xmem s) (esp s + 4) = old /\ 0 <= old < W32;
  sc_new : ld32 (xmem s) (esp s + 8) = new /\ 0 <= new < W32 - 20;
  sc_apart : (old + 4 <= esp s - 16 \/ esp s + 12 <= old) /\ (new + 20 <= esp s - 16 \/ esp s <= new) /\ (new + 20 <= old \/ old + 4 <= new)
}.
Definition swtch_mem (s : x86) (old : Z) : mem :=
  let e := esp s in
  st32 (st32 (st32 (st32 (st32 (xmem s) (e - 4) (gpr s EBP)) (e - 8) (gpr s EBX)) (e - 12) (gpr s ESI)) (e - 16) (gpr s EDI)) old (e - 16).
Lemma swtch_run s old new : swtch_call s old new ->
  run swtch s = let m := xmem s in
    X86 (Regs old (ecx (gprs s)) new (ctx_word m new "ebx") (new + 20) (ctx_word m new "ebp") (ctx_word m new "esi") (ctx_word m new "edi"))
      (sgrs s) (ctx_word m new "eip") (flags s) (swtch_mem s old).
Proof.
  intros [Hsp [Ho Hor] [Hn Hnr] (H1 & H2 & H3)]. unfold ctx_word, swtch_mem.
  destruct s as [[a c d x e bp si di] sg ip fl m]. unfold esp, gpr in *. cbn [gprs esp_ xmem ecx sgrs flags ebx ebp esi edi] in *. unfold swtch.
  erewrite run_step; [|cbn [step1]; xcbn; rewrite u32_small, Ho by lia; reflexivity]. erewrite run_step; [|cbn [step1]; xcbn; rewrite u32_small, Hn by lia; reflexivity].
  rewrite <- (Z.sub_0_r e) at 1. do 4 xstep. erewrite run_step; [|cbn [step1]; xcbn; reflexivity]. erewrite run_step; [|cbn [step1]; xcbn; reflexivity].
  rewrite <- (Z.add_0_r new) at 2. do 4 xpstep.
  erewrite run_step; [|cbn [step1]; unfold top, esp; xpop; reflexivity]. rewrite run_nil, !ld32_st32_ne by lia. reflexivity.
Qed.
(** What swtch saves. *)
Lemma swtch_mem_saves s old : (forall r, 0 <= gpr s r < W32) -> 16 <= esp s < W32 - 12 -> 0 <= old < W32 -> old + 4 <= esp s - 16 \/ esp s + 12 <= old ->
  ld32 (swtch_mem s old) old = esp s - 16 /\ ctx_word (swtch_mem s old) (esp s - 16) "eip" = top s /\
  ctx_word (swtch_mem s old) (esp s - 16) "ebp" = gpr s EBP /\ ctx_word (swtch_mem s old) (esp s - 16) "ebx" = gpr s EBX /\
  ctx_word (swtch_mem s old) (esp s - 16) "esi" = gpr s ESI /\ ctx_word (swtch_mem s old) (esp s - 16) "edi" = gpr s EDI.
Proof.
  intros Hg Hsp Hor Ho. unfold ctx_word, swtch_mem. cbv zeta. xoffset. pose proof (Hg EBP); pose proof (Hg EBX); pose proof (Hg ESI); pose proof (Hg EDI). split; [apply ld32_st32_at; lia|].
  split; [rewrite !ld32_st32_ne by lia; unfold top; f_equal; lia|]. split; [xread|]. split; [xread|]. split; xread.
Qed.

(** C22: swtch suspends a kernel thread and resumes it.  A thread that calls swtch
    continues in the other context, and its own registers are in a [struct context]
    on its stack whose address is in [*old].  Any later swtch to that context, from
    wherever, when its words are still there, returns from the thread's call with
    its stack pointer and its callee-saved registers as they were. *)
Theorem swtch_resumes (s : x86) (old new : Z) : (forall r, 0 <= gpr s r < W32) -> swtch_call s old new ->
  let s' := run swtch s in
  (eip s' = ctx_word (xmem s) new "eip" /\ esp s' = new + sizeof context /\ gpr s' EBP = ctx_word (xmem s) new "ebp" /\ gpr s' EBX = ctx_word (xmem s) new "ebx" /\
   gpr s' ESI = ctx_word (xmem s) new "esi" /\ gpr s' EDI = ctx_word (xmem s) new "edi") /\
  forall t old', let c := ld32 (xmem s') old in
    swtch_call t old' c -> (forall x, c <= x < c + sizeof context -> xmem t x = xmem s' x) ->
    let t' := run swtch t in
    eip t' = top s /\ esp t' = esp s + 4 /\ gpr t' EBP = gpr s EBP /\ gpr t' EBX = gpr s EBX /\ gpr t' ESI = gpr s ESI /\ gpr t' EDI = gpr s EDI.
Proof.
  intros Hg Hsc s'. pose proof Hsc as [Hsp [_ Hor] _ (Ho & _)]. unfold s'. rewrite (swtch_run s old new Hsc). cbv zeta. split; [done|].
  cbn [xmem]. destruct (swtch_mem_saves s old Hg Hsp Hor Ho) as (-> & Ei & Eb & Ex & Es & Ed). intros t old' Ht Hm.
  rewrite (swtch_run t old' _ Ht). cbv zeta. cbn [eip gpr gprs esp_ ebp ebx esi edi].
  assert (forall f, offset context f + 4 <= 20 -> 0 <= offset context f -> ctx_word (xmem t) (esp s - 16) f = ctx_word (swtch_mem s old) (esp s - 16) f) as E.
  { intros f Hf Hf0. unfold ctx_word. apply ld32_ext. intros x Hx. apply Hm. change (sizeof context) with 20. lia. }
  rewrite !E by done. split_and!; try done. change (esp s - 16 + 20 = esp s + 4). lia.
Qed.

(** ** Witnesses *)

Definition demo_user : x86 := X86 (Regs 5 1 2 7 8000 8100 3 4) (Sregs 27 35 35 0 0 35) 4096 514 (fun _ => 0).
Definition demo_gate : list Z := gate_bytes (SETGATE true (Z.shiftl SEG_KCODE 3) 2148532224 3).
Lemma trap_transparent_witness : exists s1 s3, s1 = run (alltraps 2148540000 2148540100) (run (vector 2148530000 64) (enter demo_gate (Z.shiftl SEG_KDATA 3, 2149584896) None demo_user)) /\
  tf_word (xmem s1) 2149584820 "trapno" = 64 /\ s3 = run (aftertrap ++ trapret) (set_eip 2148540100 (setr ESP 2149584816 s1)) /\ gpr s3 EBX = 7.
Proof.
  destruct (trap_transparent 2148530000 2148540000 2148540100 64 2149584896 demo_gate None demo_user) as [H1 H2];
    [split; [intros []; vm_compute; done | intros []; vm_compute; done | vm_compute; done | vm_compute; done] | reflexivity | lia | lia | lia | reflexivity | simpl; lia | reflexivity |].
  set (s1 := run (alltraps 2148540000 2148540100) _) in *. destruct H1 as [[_ Hs _ _] Hn _ (_ & He & Ht & _) _ _].
  exists s1. eexists. split; [reflexivity|]. split; [exact Hn|]. split; [reflexivity|].
  assert (xmem (set_eip 2148540100 (setr ESP 2149584816 s1)) = xmem s1) as Em by (clearbody s1; by destruct s1 as [[] ? ? ? ?]).
  destruct (H2 (set_eip 2148540100 (setr ESP 2149584816 s1))) as [_ H3].
  - rewrite Ht. clearbody s1. by destruct s1 as [[] ? ? ? ?].
  - rewrite He. clearbody s1. by destruct s1 as [[] ? ? ? ?].
  - clearbody s1. by destruct s1 as [[] [] ? ? ?].
  - rewrite Em. rewrite (Hs CS). reflexivity.
  - destruct H3 as [H3 _]; [intros x Hx Hx'; by rewrite Em|]. rewrite (H3 EBX) by done. reflexivity.
Defined.

Definition demo_thread : x86 :=
  X86 (Regs 0 0 0 11 1000000 12 13 14) (Sregs 8 16 16 0 0 16) 0 0 (st32 (st32 (st32 (fun _ => 0) 1000000 5000) 1000004 2000) 1000008 3000).
Lemma swtch_resumes_witness : exists t, eip (run swtch t) = 5000 /\ gpr (run swtch t) EBP = 12.
Proof.
  assert (swtch_call demo_thread 2000 3000) as Hc by (split; unfold esp; cbn [gpr gprs esp_ demo_thread]; [lia | split; [reflexivity | lia] | split; [reflexivity | lia] | lia]).
  destruct (swtch_resumes demo_thread 2000 3000) as [_ H]; [intros []; vm_compute; done | exact Hc |].
  rewrite (swtch_run _ _ _ Hc) in H. cbv zeta in H. cbn [xmem] in H.
  destruct (swtch_mem_saves demo_thread 2000) as (E & _); [intros []; vm_compute; done | vm_compute; done | lia | unfold esp; simpl; lia |].
  rewrite E in H. clear E. change (esp demo_thread - 16) with 999984 in H.
  set (t := X86 (Regs 0 0 0 0 4000 0 0 0) (Sregs 8 16 16 0 0 16) 0 0 (st32 (st32 (swtch_mem demo_thread 2000) 4004 2100) 4008 999984)).
  destruct (H t 2100) as (H1 & _ & H2 & _).
  - split; unfold esp; cbn [gpr gprs esp_ t xmem]; [lia | split; [rewrite ld32_st32_ne, ld32_st32_eq by lia; reflexivity | lia] | split; [rewrite ld32_st32_eq by lia; reflexivity | lia] | lia].
  - intros x Hx. cbn [t xmem]. change (sizeof context) with 20 in Hx. rewrite !st32_out by lia. reflexivity.
  - exists t. split; [rewrite H1; reflexivity | rewrite H2; reflexivity].
Defined.
