(* ===== verification/UserAsm.v ===== *)
(** * Assembly code of user programs (usys.S, initcode.S, syscall.h)

    The stubs of the system calls and the code of the first process.  A program
    runs its own instructions; what happens from an int instruction to the return
    from the trap is the parameter [kernel].

    The lemmas about the first process put together the trap frame that userinit
    makes, the code of initcode.S and the checks of the arguments of a system
    call. *)

From stdpp Require Import functions.
From S2P Require Import Prelude Mem CString Mmu Kalloc Inode Proc Syscall Seg Asm.
#[local] Open Scope Z_scope.

(** [syscall.h] *)
Definition SYS : list (string * Z) :=
  [("fork", 1); ("exit", 2); ("wait", 3); ("pipe", 4); ("read", 5); ("kill", 6); ("exec", 7); ("fstat", 8); ("chdir", 9); ("dup", 10); ("getpid", 11);
   ("sbrk", 12); ("sleep", 13); ("uptime", 14); ("open", 15); ("write", 16); ("mknod", 17); ("unlink", 18); ("link", 19); ("mkdir", 20); ("close", 21);
   ("swapread", 22); ("swapwrite", 23)]%string.
Fixpoint number (l : list (string * Z)) (f : string) : Z :=
  match l with [] => 0 | (g, n) :: l => if String.eqb f g then n else number l f end.

Inductive uinstr := ins (i : instr) | int (n : Z).
(** [SYSCALL(name)] *)
Definition SYSCALL (name : string) : list uinstr := [ins (movl_i (number SYS name) EAX); int T_SYSCALL; ins ret_].
Definition usys : list (string * list uinstr) :=
  map (fun name => (name, SYSCALL name))
    ["fork"; "exit"; "wait"; "pipe"; "read"; "write"; "close"; "kill"; "exec"; "open"; "mknod"; "unlink"; "fstat"; "link"; "mkdir"; "chdir"; "dup"; "getpid";
     "sbrk"; "sleep"; "uptime"; "swapread"; "swapwrite"]%string.

(** The code of initcode.S; the addresses of its labels are those of the assembler. *)
Definition start (argv init : Z) : list uinstr :=
  [ins (pushl_i argv); ins (pushl_i init); ins (pushl_i 0); ins (movl_i (number SYS "exec") EAX); int T_SYSCALL].
Definition exit_loop (exit : Z) : list uinstr := [ins (movl_i (number SYS "exit") EAX); int T_SYSCALL; ins (jmp exit)].
(** Its data: the string, with the zero it ends with and the one of [.string], and
    the argument vector. *)
Definition init_string : list Z := [47; 105; 110; 105; 116; 0; 0].
Definition initcode_data (m : mem) (argv init : Z) : Prop :=
  bytes_at m init 7 = init_string /\ argv mod 4 = 0 /\ ld32 m argv = init /\ ld32 m (argv + 4) = 0.

Section user.
Context (kernel : Z -> x86 -> x86).

(** A program, up to its end or to the first system call. *)
Fixpoint urun (l : list uinstr) (s : x86) : x86 :=
  match l with [] => s | ins i :: l => urun l (step1 i s) | int n :: l => urun l (kernel n s) end.
Fixpoint to_int (l : list uinstr) (s : x86) : option (Z * x86) :=
  match l with [] => None | ins i :: l => to_int l (step1 i s) | int n :: _ => Some (n, s) end.

(** The kernel gives the program its registers back, with a result in eax, and does
    not touch the words above the stack pointer that the program still needs. *)
Definition transparent (s : x86) : Prop :=
  (forall r, r <> EAX -> gpr (kernel T_SYSCALL s) r = gpr s r) /\ top (kernel T_SYSCALL s) = top s.

(** A stub passes the arguments of its call where the kernel looks for them, with
    the number of the system call, and returns what the kernel returns. *)
Theorem stub_calls_kernel name s : name ∈ map fst usys -> 0 <= esp s < W32 - 4 -> transparent (setr EAX (number SYS name) s) ->
  exists s1, to_int (SYSCALL name) s = Some (T_SYSCALL, s1) /\ gpr s1 EAX = number SYS name /\ 1 <= number SYS name <= 23 /\
    (forall n sz, argint (xmem s1) sz (gpr s1 ESP) n = fetchint (xmem s) sz (u32 (esp s + 4 + 4 * n))) /\
    let s' := urun (SYSCALL name) s in
    gpr s' EAX = gpr (kernel T_SYSCALL s1) EAX /\ eip s' = top s /\ esp s' = esp s + 4 /\ (forall r, r <> EAX -> r <> ESP -> gpr s' r = gpr s r).
Proof.
  intros Hn Hsp [Hr Ht]. eexists. split; [reflexivity|]. cbn [step1]. split; [by destruct s as [[] ? ? ? ?]|]. split.
  { revert Hn. generalize name. apply Forall_forall. repeat (constructor; [vm_compute; done|]). constructor. }
  split; [intros n sz; by destruct s as [[] ? ? ? ?]|]. unfold SYSCALL. cbn [urun step1]. pose proof (Hr ESP ltac:(done)) as He.
  assert (top (setr EAX (number SYS name) s) = top s) as Ht' by (by destruct s as [[] ? ? ? ?]).
  assert (forall r, r <> EAX -> gpr (setr EAX (number SYS name) s) r = gpr s r) as Hs by (intros r Hne; destruct s as [[] ? ? ? ?]; by destruct r).
  rewrite Hs in He by done. destruct (kernel T_SYSCALL (setr EAX (number SYS name) s)) as [[a c d b sp bp si di] sg ip fl m] eqn:Ek. unfold esp in *. cbn in He. subst sp.
  rewrite Ht' in Ht. split_and!.
  - done.
  - exact Ht.
  - change (u32 (gpr s ESP + 4) = gpr s ESP + 4). apply u32_small. lia.
  - intros r H1 H2. rewrite <- Hs, <- Hr by done. by destruct r.
Qed.
End user.

(** ** The first process *)

Lemma memset_ld32 m a n x : a <= x -> x + 4 <= a + n -> ld32 (memset m a 0 n) x = 0.
Proof. intros H1 H2. unfold ld32. rewrite !memset_correct by lia. zcases. done. Qed.
Lemma memset_ld16 m a n x : a <= x -> x + 2 <= a + n -> ld16 (memset m a 0 n) x = 0.
Proof. intros H1 H2. unfold ld16. rewrite !memset_correct by lia. zcases. done. Qed.
(** The frame that userinit makes. *)
Lemma first_frame_fields m tf : let m' := first_frame m tf in
  tf_seg m' tf CS = 27 /\ tf_reg m' tf ESP = PGSIZE /\ tf_word m' tf "eip" = 0 /\ tf_word m' tf "eflags" = FL_IF /\
  (forall r, r ∈ [DS; ES; SS] -> tf_seg m' tf r = 35) /\ forall r, r <> ESP -> tf_reg m' tf r = 0.
Proof.
  cbv zeta. unfold first_frame. change (Z.lor (Z.shiftl SEG_UCODE 3) DPL_USER) with 27. change (Z.lor (Z.shiftl SEG_UDATA 3) DPL_USER) with 35. cbv zeta.
  split_and!.
  - unfold tf_seg. xoffset. xread.
  - unfold tf_reg. xoffset. xread.
  - unfold tf_word. xoffset. xread.
  - unfold tf_word. xoffset. xread.
  - apply Forall_forall. repeat constructor; unfold tf_seg; xoffset; xread.
  - intros r Hr. destruct r; try done; unfold tf_reg; xoffset; rewrite !ld32_st32_ne, !ld32_st16_ne by lia; apply memset_ld32; lia.
Qed.
Lemma fetchstr_at m sz a n : 0 <= a -> a + Z.of_nat n < sz -> (forall i, 0 <= i < Z.of_nat n -> m (a + i) <> 0) -> m (a + Z.of_nat n) = 0 -> fetchstr m sz a = Some (a, Z.of_nat n).
Proof.
  intros Ha Hn Hnz Hz. unfold fetchstr. rewrite (proj2 (Z.leb_gt _ _)) by lia. pose proof (fetchstr_loop_spec m (Z.to_nat (sz - a)) a) as H.
  destruct (fetchstr_loop m (Z.to_nat (sz - a)) a) as [e|].
  - destruct H as (H1 & H2 & H3). assert (e = a + Z.of_nat n) as ->; [|f_equal; f_equal; lia].
    destruct (Z.lt_trichotomy e (a + Z.of_nat n)) as [Hl|[->|Hg]]; [|done|].
    + exfalso. apply (Hnz (e - a)); [lia|]. by replace (a + (e - a)) with e by lia.
    + exfalso. apply (H3 (a + Z.of_nat n)); [lia | done].
  - exfalso. apply (H (a + Z.of_nat n)); [lia | done].
Qed.
Lemma exec_args_one m sz uargv k a p n : 0 <= uargv < W32 - 4 -> fetchint m sz uargv = Some a -> a <> 0 -> fetchstr m sz (u32 a) = Some (p, n) -> fetchint m sz (uargv + 4) = Some 0 ->
  exec_args m sz uargv (S (S k)) 0 [] = Some [p].
Proof.
  intros Hu Ha Hne Hs Hz. cbn [exec_args]. change (4 * 0) with 0. change (4 * (0 + 1)) with 4. rewrite Z.add_0_r, !u32_small by lia.
  by rewrite Ha, (proj2 (Z.eqb_neq _ _) Hne), Hs, Hz.
Qed.
(** The state at the system call of initcode.S. *)
Lemma start_to_int argv init s : esp s = PGSIZE ->
  exists s', to_int (start argv init) s = Some (T_SYSCALL, s') /\ gpr s' EAX = number SYS "exec" /\ esp s' = 4084 /\
    xmem s' = st32 (st32 (st32 (xmem s) 4092 argv) 4088 init) 4084 0.
Proof. destruct s as [[a c d b sp bp si di] sg ip fl m]. unfold esp. cbn [gpr gprs esp_]. intros ->. eexists. split; [reflexivity|]. done. Qed.
Lemma init_at m init : bytes_at m init 7 = init_string -> (forall i, 0 <= i < 5 -> m (init + i) <> 0) /\ m (init + 5) = 0.
Proof.
  intros Hb. assert (forall i : nat, (i < 7)%nat -> init_string !! i = Some (m (init + Z.of_nat i))) as H by (intros i Hi; rewrite <- Hb; by apply bytes_at_lookup).
  split; [|pose proof (H 5%nat ltac:(lia)) as H5; injection H5 as H5; exact (eq_sym H5)].
  intros i Hi. pose proof (H (Z.to_nat i) ltac:(lia)) as Hc. rewrite Z2Nat.id in Hc by lia. intros E. rewrite E in Hc.
  assert (i = 0 \/ i = 1 \/ i = 2 \/ i = 3 \/ i = 4) as [->|[->|[->|[->| ->]]]] by lia; discriminate.
Qed.

Lemma start_calls_exec (u : x86) (argv init : Z) : esp u = PGSIZE -> mem_ok (xmem u) -> initcode_data (xmem u) argv init -> 0 < init -> init + 7 <= 4084 -> 0 < argv -> argv + 8 <= 4084 ->
  exists s, to_int (start argv init) u = Some (T_SYSCALL, s) /\ gpr s EAX = number SYS "exec" /\
    argstr (xmem s) PGSIZE (esp s) 0 = Some (init, 5) /\ argint (xmem s) PGSIZE (esp s) 1 = Some argv /\
    exec_args (xmem s) PGSIZE (u32 argv) 32 0 [] = Some [init] /\ bytes_at (xmem s) init 5 = [47; 105; 110; 105; 116].
Proof.
  intros Hu Hok (Hi & _ & Ha0 & Ha1) Hi0 Hi1 Hv0 Hv1.
  destruct (start_to_int argv init u Hu) as (s & E & He & Hes & Hms). exists s. split; [done|]. split; [done|]. rewrite Hes.
  set (um := xmem u) in *. clearbody um. assert (mem_ok (xmem s)) as Hok' by (rewrite Hms; auto with word).
  assert (forall x, 0 <= x < 4084 -> xmem s x = um x) as Hlow by (intros x Hx; rewrite Hms, !st32_out by lia; done).
  assert (bytes_at (xmem s) init 7 = init_string) as Hi'. { rewrite <- Hi. apply bytes_at_ext. intros x Hx. apply Hlow. lia. }
  destruct (init_at _ _ Hi') as [Hnz Hz].
  assert (argint (xmem s) PGSIZE 4084 0 = Some init) as E0.
  { unfold argint. rewrite fetchint_ok by (done || vm_compute; done). rewrite u32_small by lia. rewrite Hms. change (4084 + 4 + 4 * 0) with 4088.
    rewrite (ld32_st32_ne _ 4084), ld32_st32_eq by lia. simpl. f_equal. apply s32_small. lia. }
  assert (argint (xmem s) PGSIZE 4084 1 = Some argv) as E1.
  { unfold argint. rewrite fetchint_ok by (done || vm_compute; done). rewrite u32_small by lia. rewrite Hms. change (4084 + 4 + 4 * 1) with 4092.
    rewrite (ld32_st32_ne _ 4084), (ld32_st32_ne _ 4088), ld32_st32_eq by lia. simpl. f_equal. apply s32_small. lia. }
  assert (fetchstr (xmem s) PGSIZE init = Some (init, 5)) as Es by (apply (fetchstr_at _ _ _ 5); [lia | lia | done | done]).
  split; [unfold argstr; rewrite E0, u32_small by lia; done|]. split; [done|]. split.
  - rewrite (u32_small argv) by lia. apply (exec_args_one _ _ _ 30 init init 5); [lia | | lia | by rewrite u32_small by lia |].
    + rewrite fetchint_ok, (proj2 (Z.leb_le _ _)), (ld32_ext (xmem s) um), Ha0 by (done || lia || (intros x Hx; apply Hlow; lia)). f_equal. apply s32_small. lia.
    + rewrite fetchint_ok, (proj2 (Z.leb_le _ _)), (ld32_ext (xmem s) um), Ha1 by (done || lia || (intros x Hx; apply Hlow; lia)). done.
  - assert (take 5 (bytes_at (xmem s) init 7) = take 5 init_string) as Ht by by rewrite Hi'. exact Ht.
Qed.

Lemma first_frame_enters (u : x86) (m um : mem) (tf argv init : Z) : saved (first_frame m tf) tf u ->
  mem_ok um -> initcode_data um argv init -> 0 < init -> init + 7 <= 4084 -> 0 < argv -> argv + 8 <= 4084 ->
  eip u = 0 /\ Z.land (seg u CS) 3 = 3 /\ flags u = FL_IF /\
  exists s, to_int (start argv init) (set_xmem um u) = Some (T_SYSCALL, s) /\ gpr s EAX = number SYS "exec" /\
    argstr (xmem s) PGSIZE (esp s) 0 = Some (init, 5) /\ argint (xmem s) PGSIZE (esp s) 1 = Some argv /\
    exec_args (xmem s) PGSIZE (u32 argv) 32 0 [] = Some [init] /\ bytes_at (xmem s) init 5 = [47; 105; 110; 105; 116].
Proof.
  intros [G S I F] Hok Hdat Hi0 Hi1 Hv0 Hv1. destruct (first_frame_fields m tf) as (Fc & Fs & Fi & Ff & _).
  split; [by rewrite <- I|]. split; [by rewrite <- S, Fc|]. split; [by rewrite <- F|].
  apply start_calls_exec; try done. change (gpr u ESP = PGSIZE). by rewrite <- G.
Qed.

Definition demo_initcode : mem := fun a =>
  if (100 <=? a) && (a <? 107) then nth (Z.to_nat (a - 100)) init_string 0 else st32 (fun _ => 0) 108 100 a.
Lemma demo_initcode_ok : mem_ok demo_initcode /\ initcode_data demo_initcode 108 100.
Proof.
  split; [|repeat split; vm_compute; done]. intros a. unfold demo_initcode. destruct ((100 <=? a) && (a <? 107)).
  - assert (Forall (fun b => 0 <= b < 256) init_string) as H by (repeat constructor; done). set (i := Z.to_nat (a - 100)). clearbody i.
    do 7 (destruct i as [|i]; [vm_compute; split; congruence|]). destruct i; vm_compute; split; congruence.
  - apply st32_ok. intros x. simpl. lia.
Qed.
