(* ===== verification/ForkRun.v ===== *)
(** * fork returns twice

    What fork leaves in memory (ForkLaws.v), the switch of the scheduler to the child
    and the return from a trap (Asm.v) put together: the child enters user space
    where its parent does, with the same registers except for the result. *)

From stdpp Require Import functions.
From S2P Require Import Prelude Mem CString Mmu Kalloc PageTable Uvm UvmCopy Blocks Proc ForkLaws Seg Asm.
#[local] Open Scope Z_scope.

(** A C function has returned: [s] is the state at its first instruction, and it has
    left the [n] bytes above its return address alone. *)
Record returned (s s' : x86) (n : Z) : Prop := {
  rt_eip : eip s' = top s;
  rt_esp : esp s' = esp s + 4;
  rt_cs : seg s' CS = seg s CS;
  rt_mem : forall x, esp s + 4 <= x < esp s + 4 + n -> xmem s' x = xmem s x
}.

(** The registers that a return from a trap loads depend on the frame only. *)
Lemma saved_same m1 tf1 u1 m2 tf2 u2 : saved m1 tf1 u1 -> saved m2 tf2 u2 ->
  (forall i, 0 <= i < TF_SIZE -> ~ (TF_EAX <= i < TF_EAX + 4) -> m1 (tf1 + i) = m2 (tf2 + i)) ->
  (forall r, r <> EAX -> gpr u1 r = gpr u2 r) /\ (forall r, seg u1 r = seg u2 r) /\ eip u1 = eip u2 /\ flags u1 = flags u2.
Proof.
  intros [G1 S1 I1 F1] [G2 S2 I2 F2] Hm.
  assert (forall o, 0 <= o -> o + 4 <= TF_SIZE -> o + 4 <= TF_EAX \/ TF_EAX + 4 <= o -> ld32 m1 (tf1 + o) = ld32 m2 (tf2 + o)) as H32.
  { intros o H0 H1 H2. unfold ld32. rewrite <- !Z.add_assoc, !Hm by lia. done. }
  assert (forall o, 0 <= o -> o + 2 <= TF_SIZE -> o + 2 <= TF_EAX \/ TF_EAX + 4 <= o -> ld16 m1 (tf1 + o) = ld16 m2 (tf2 + o)) as H16.
  { intros o H0 H1 H2. unfold ld16. rewrite <- !Z.add_assoc, !Hm by lia. done. }
  split_and!.
  - intros r Hr. rewrite <- G1, <- G2. unfold tf_reg. destruct r; try done; xoffset; apply H32; lia.
  - intros r. rewrite <- S1, <- S2. unfold tf_seg. destruct r; xoffset; apply H16; lia.
  - rewrite <- I1, <- I2. unfold tf_word. xoffset. apply H32; lia.
  - rewrite <- F1, <- F2. unfold tf_word. xoffset. apply H32; lia.
Qed.

(** The scheduler, on a stack of its own, switches to a process with the kernel stack
    [q] and the context [ctx]; [km] is the memory of the kernel. *)
Record switches_to (km : mem) (q ctx : Z) (s : x86) (old : Z) : Prop := {
  tc_call : swtch_call s old ctx;
  tc_stack : esp s + 12 <= q \/ q + 4096 <= esp s - 16;
  tc_old : old + 4 <= q \/ q + 4096 <= old;
  tc_mem : forall x, in_page q x -> xmem s x = km x;
  tc_level : Z.land (seg s CS) 3 = 0
}.

(** A process that has not run: its context starts at forkret, which returns to
    trapret. *)
Section new.
Context (trapret forkret_addr q : Z) (km : mem).
Abbreviation tf' := (q + KSTACKSIZE - TF_SIZE).
Context (Hctx : ld32 km (tf' - 24 + CTX_EIP) = forkret_addr /\ ld32 km (tf' - 4) = trapret).
Context (s : x86) (old : Z) (Hs : switches_to km q (tf' - 4 - CTX_SIZE) s old).

Lemma new_starts : eip (run swtch s) = forkret_addr /\ esp (run swtch s) = tf' - 4 /\ seg (run swtch s) CS = seg s CS /\
  forall x, in_page q x -> xmem (run swtch s) x = km x.
Proof.
  destruct Hs as [Hc Hst Ho Hm _]. rewrite (swtch_run _ _ _ Hc). cbv zeta. destruct Hctx as [Hf _]. cbn [eip xmem]. split_and!.
  - unfold ctx_word. xoffset. rewrite <- Hf. replace (tf' - 4 - CTX_SIZE + 16) with (tf' - 24 + CTX_EIP) by lia. apply ld32_ext. intros x Hx. apply Hm. unfold in_page. lia.
  - unfold esp. cbn [gpr gprs esp_]. lia.
  - done.
  - intros x Hx. rewrite <- Hm by done. unfold swtch_mem, in_page in *. cbv zeta. by rewrite !st32_out by lia.
Qed.
(** After forkret, the frame is on the stack. *)
Lemma new_frame_there s2 : returned (run swtch s) s2 TF_SIZE -> eip s2 = trapret /\ esp s2 = tf' /\ Z.land (seg s2 CS) 3 = 0 /\
  forall i, 0 <= i < TF_SIZE -> xmem s2 (tf' + i) = km (tf' + i).
Proof.
  intros [Hi He Hcs Hm]. destruct new_starts as (_ & Es & Ec & Em). destruct Hctx as [_ Ht]. rewrite Es in *. split_and!.
  - rewrite Hi. unfold top. rewrite Es, <- Ht. apply ld32_ext. intros x Hx. apply Em. unfold in_page. lia.
  - lia.
  - rewrite Hcs, Ec. apply Hs.
  - intros i Hi'. rewrite Hm by lia. by rewrite Em by (unfold in_page; lia).
Qed.
End new.

Section child.
Context (kend trapret forkret_addr : Z) (st : kst) (q : Z) (l : list Z) (pgdir s0 : Z) (st' : kst) (l' : list Z) (d : Z).
Context (Hfk : forked kend trapret forkret_addr st q l pgdir s0 st' l' d) (Hq : 0 <= q < W32 - 4096).
Abbreviation tf := (s0 + KSTACKSIZE - TF_SIZE).
Abbreviation tf' := (q + KSTACKSIZE - TF_SIZE).
Context (s : x86) (old : Z) (Hs : switches_to (kmem_mem st') q (tf' - 4 - CTX_SIZE) s old).

Lemma child_starts : eip (run swtch s) = forkret_addr.
Proof. eapply new_starts; [eapply forked_context; exact Hfk | exact Hs]. Qed.
Lemma child_frame_there s2 : returned (run swtch s) s2 TF_SIZE -> eip s2 = trapret /\ esp s2 = tf' /\ Z.land (seg s2 CS) 3 = 0 /\
  forall i, 0 <= i < TF_SIZE -> xmem s2 (tf' + i) = if (TF_EAX <=? i) && (i <? TF_EAX + 4) then 0 else kmem_mem st (tf + i).
Proof.
  intros Hr. destruct (new_frame_there trapret forkret_addr q (kmem_mem st') ltac:(eapply forked_context; exact Hfk) s old Hs s2 Hr) as (H1 & H2 & H3 & H4).
  split_and!; try done. intros i Hi. rewrite H4 by done. by apply (forked_frame _ _ _ _ _ _ _ _ _ _ _ Hfk).
Qed.
(** The child in user space, and its parent, of which [sp] is the state as it is
    about to return from its trap. *)
Lemma child_enters_user s2 sp : returned (run swtch s) s2 TF_SIZE -> Z.land (tf_seg (kmem_mem st) tf CS) 3 = 3 -> 0 <= tf < W32 - 76 ->
  esp sp = tf -> Z.land (seg sp CS) 3 = 0 -> (forall i, 0 <= i < TF_SIZE -> ~ (TF_EAX <= i < TF_EAX + 4) -> xmem sp (tf + i) = kmem_mem st (tf + i)) ->
  let u := run Asm.trapret s2 in let up := run Asm.trapret sp in
  gpr u EAX = 0 /\ (forall r, r <> EAX -> gpr u r = gpr up r) /\ (forall r, seg u r = seg up r) /\ eip u = eip up /\ flags u = flags up.
Proof.
  intros Hr Hcs Htf Hsp Hl Hm. destruct (child_frame_there s2 Hr) as (_ & He & Hl2 & Hf). cbv zeta.
  assert (forall i, 0 <= i < TF_SIZE -> ~ (TF_EAX <= i < TF_EAX + 4) -> xmem s2 (tf' + i) = xmem sp (tf + i)) as Hsame.
  { intros i Hi Hn. rewrite Hf, Hm by done. destruct (Z.leb_spec TF_EAX i), (Z.ltb_spec i (TF_EAX + 4)); simpl; done || lia. }
  assert (tf_seg (xmem sp) tf CS = tf_seg (kmem_mem st) tf CS) as Hc1 by (unfold tf_seg, ld16; xoffset; rewrite <- !Z.add_assoc, !Hm by lia; done).
  assert (tf_seg (xmem s2) tf' CS = tf_seg (kmem_mem st) tf CS) as Hc2 by (rewrite <- Hc1; unfold tf_seg, ld16; xoffset; rewrite <- !Z.add_assoc, !Hsame by lia; done).
  destruct (trapret_loads s2 tf' He ltac:(lia) Hl2 ltac:(by rewrite Hc2)) as [Su _]. destruct (trapret_loads sp tf Hsp Htf Hl ltac:(by rewrite Hc1)) as [Sp _].
  split; [|by eapply saved_same].
  rewrite <- (sv_gpr _ _ _ Su EAX). unfold tf_reg, ld32. xoffset. rewrite <- !Z.add_assoc, !Hf by lia. done.
Qed.
End child.

(** C3: fork returns twice.  When a process calls fork from user space and gets the
    pid of a child, then the scheduler's first switch to that child leads through
    forkret and trapret to user space, where the child has the registers that the
    return of its parent has, the same instruction pointer and stack pointer, and 0
    as the result; and it sees the memory that its parent saw. *)
Theorem fork_returns_twice {S : Type} `{!BlockOps S} (kend kdata trapret forkret_addr : Z) (fy : Inode.fsys S) st ft pi procs n i l cur x dn r k' :
  KERNLINK <= kend < KERNBASE + PHYSTOP -> KERNLINK < kdata < KERNBASE + PHYSTOP -> kdata mod 4096 = 0 ->
  0 <= trapret < W32 -> 0 <= forkret_addr < W32 -> forkable kend st ft procs l cur x dn ->
  fork kend kdata trapret forkret_addr cur (Kern (File.FK fy st ft pi) (Ptable.Pts procs n i)) = Ret r k' -> r <> -1 ->
  Z.land (tf_seg (kmem_mem st) (Ptable.p_tf x) CS) 3 = 3 ->
  exists np c, Ptable.pt_proc (k_pt k') !! np = Some c /\ Ptable.p_pid c = r /\
    (forall va, uva va -> uview (kmem_mem (File.fk_kst (k_fk k'))) (Ptable.p_pgdir c) va = uview (kmem_mem st) (Ptable.p_pgdir x) va) /\
    forall s old s2 sp, switches_to (kmem_mem (File.fk_kst (k_fk k'))) (Ptable.p_kstack c) (Ptable.p_context c) s old ->
      returned (run swtch s) s2 TF_SIZE ->
      esp sp = Ptable.p_tf x -> Z.land (seg sp CS) 3 = 0 ->
      (forall i, 0 <= i < TF_SIZE -> ~ (TF_EAX <= i < TF_EAX + 4) -> xmem sp (Ptable.p_tf x + i) = kmem_mem st (Ptable.p_tf x + i)) ->
      eip (run swtch s) = forkret_addr /\ eip s2 = trapret /\
      let u := run Asm.trapret s2 in let up := run Asm.trapret sp in
      gpr u EAX = 0 /\ (forall r, r <> EAX -> gpr u r = gpr up r) /\ (forall r, seg u r = seg up r) /\ eip u = eip up /\ flags u = flags up.
Proof.
  intros Hk Hd Ha Ht Hr Hfa E Hne Hcs. destruct (fork_cases kend kdata trapret forkret_addr Hk Hd Ha Ht Hr fy st ft pi procs n i l cur x dn Hfa) as (r' & k'' & E' & Hcase).
  rewrite E in E'. simplify_eq. destruct Hcase as [(-> & _)|(np & y & q & l0 & d & st' & l' & -> & -> & _ & Hy & -> & Hfk)]; [done|].
  exists np, (child n cur x y q d). cbn [k_pt Ptable.pt_proc]. rewrite list_lookup_insert_eq by by eapply lookup_lt_Some. split; [done|]. split; [done|].
  split; [apply (forked_view _ _ _ _ _ _ _ _ _ _ _ Hfk)|]. intros s old s2 sp Hs Hrt Hsp Hl Hm. cbn [k_fk File.fk_kst child Ptable.p_kstack Ptable.p_context] in Hs.
  assert (kpage kend q) as Hkq by (eapply kpage_not_free; [exact (vm_ok_free _ _ _ _ (fa_space _ _ _ _ _ _ _ _ Hfa)) | left]).
  destruct (kpage_range kend (kend_ok kend Hk) q Hkq) as (Hq1 & Hq2 & _). destruct (kpage_range kend (kend_ok kend Hk) _ (proj1 (fa_stack _ _ _ _ _ _ _ _ Hfa))) as (Hs1 & Hs2 & _).
  rewrite (fa_frame _ _ _ _ _ _ _ _ Hfa) in *. split; [eapply child_starts; (exact Hfk || exact Hs || lia)|]. split; [eapply child_frame_there; (exact Hfk || exact Hs || exact Hrt || lia)|].
  eapply child_enters_user; (exact Hfk || exact Hs || exact Hrt || done || lia).
Qed.
(** The stack of the child that fork makes in the demonstration. *)
Abbreviation demo_q := (demo_dir + 8192).
Definition demo_scheduler (m : mem) : x86 :=
  X86 (Regs 0 0 0 0 1000000 0 0 0) (Sregs 8 16 16 0 0 16) 0 0 (st32 (st32 m 1000004 2000) 1000008 (demo_q + KSTACKSIZE - TF_SIZE - 4 - CTX_SIZE)).
Lemma demo_switches m : switches_to m demo_q (demo_q + KSTACKSIZE - TF_SIZE - 4 - CTX_SIZE) (demo_scheduler m) 2000.
Proof.
  split; unfold demo_scheduler, esp, demo_dir; cbn [gpr gprs esp_ xmem seg sgrs cs]; [|lia | lia | | done].
  - split; unfold esp; cbn [gpr gprs esp_ xmem]; [lia | | | lia].
    + split; [|lia]. rewrite ld32_st32_ne, ld32_st32_eq by lia. done.
    + split; [|lia]. rewrite ld32_st32_eq by lia. done.
  - intros x Hx. unfold in_page in Hx. by rewrite !st32_out by lia.
Qed.
Lemma return_exists s n : exists s', returned s s' n.
Proof. exists (set_eip (top s) (setr ESP (esp s + 4) s)). destruct s as [[] [] ? ? ?]. by split. Qed.
Lemma fork_returns_twice_witness : exists s s2, returned (run swtch s) s2 TF_SIZE /\ eip s2 = 2148532224 /\ gpr (run Asm.trapret s2) EAX = 0.
Proof.
  set (fy := Inode.FSt (Ideal (fun _ => [])) (Log.Superblock 0 0 0 0 0 0 0) [] (fun _ => 0)). set (pi := fun _ : Z => Pipe.PSt (Pipe.Pipe [] 0 0 0 0) [] [] []).
  destruct (fork_cases demo_kend 2148536320 2148532224 2148532230 ltac:(unfold demo_kend; lia) ltac:(lia) eq_refl ltac:(lia) ltac:(lia)
    fy _ _ pi _ 2 None _ _ _ _ demo_forkable) as (r & k' & E & [H|(np & y & q & l0 & d & st' & l' & Hql & -> & Hnp & _ & -> & _)]).
  - destruct (demo_fork_succeeds _ _ _ _ H).
  - vm_compute in Hnp. injection Hnp as <-. assert (q = demo_q) as -> by exact (pool_hd 1099 _ _ _ Hql).
    destruct (fork_returns_twice demo_kend 2148536320 2148532224 2148532230 fy _ _ pi _ 2 None _ _ _ _ _ _ ltac:(unfold demo_kend; lia) ltac:(lia) eq_refl ltac:(lia) ltac:(lia) demo_forkable E ltac:(lia))
      as (np & c & Hc & Hpid & _ & Hrun).
    + unfold demo_pool, demo_proc. cbn [kmem_mem Ptable.p_tf]. unfold tf_seg. xoffset. rewrite (ld16_ext _ demo_base) by (intros x Hx; apply pool_below; lia).
      unfold demo_base. rewrite ld16_st16_at by lia. done.
    + destruct np as [|[|np]]; [injection Hc as <-; discriminate | | discriminate]. injection Hc as <-. destruct (return_exists (run swtch (demo_scheduler (kmem_mem st'))) TF_SIZE) as (s2 & Hs2).
      destruct (Hrun (demo_scheduler (kmem_mem st')) 2000 s2 (X86 (Regs 0 0 0 0 (Ptable.p_tf demo_proc) 0 0 0) (Sregs 8 16 16 0 0 16) 0 0 (kmem_mem demo_pool)) (demo_switches _) Hs2 eq_refl eq_refl ltac:(done)) as (_ & E2 & E3 & _).
      exists (demo_scheduler (kmem_mem st')), s2. split; [exact Hs2|]. split; [exact E2 | exact E3].
Defined.
