(* ===== verification/Lapic.v ===== *)
(** * The local APIC, the old interrupt controllers and the serial port (lapic.c, picirq.c, uart.c)

    The devices are classes: the registers of the local APIC are words that are
    read and written, the others are behind ports.  The laws say what the hardware
    is documented to do: configuration registers keep their values, a write to the
    low half of the command register sends a message to the processor in the high
    half, and its delivery ends. *)

From S2P Require Import Prelude Mem Mmu.
#[local] Open Scope Z_scope.

Abbreviation T_IRQ0 := 32.
Abbreviation IRQ_TIMER := 0.
Abbreviation IRQ_COM1 := 4.
Abbreviation IRQ_ERROR := 19.
Abbreviation IRQ_SPURIOUS := 31.

(** ** The local APIC *)

(** Indices of registers, and the bits in them. *)
Abbreviation ID := 8.
Abbreviation VER := 12.
Abbreviation TPR := 32.
Abbreviation EOI := 44.
Abbreviation SVR := 60.
Abbreviation ENABLE := 256.
Abbreviation ESR := 160.
Abbreviation ICRLO := 192.
Abbreviation INIT := 1280.
Abbreviation STARTUP := 1536.
Abbreviation DELIVS := 4096.
Abbreviation ASSERT := 16384.
Abbreviation LEVEL := 32768.
Abbreviation BCAST := 524288.
Abbreviation ICRHI := 196.
Abbreviation TIMER := 200.
Abbreviation X1 := 11.
Abbreviation PERIODIC := 131072.
Abbreviation PCINT := 208.
Abbreviation LINT0 := 212.
Abbreviation LINT1 := 216.
Abbreviation ERROR := 220.
Abbreviation MASKED := 65536.
Abbreviation TICR := 224.
Abbreviation TDCR := 248.
Abbreviation CMOS_PORT := 112.

Class Lapic (H : Type) := {
  la_read : Z -> H -> Z * H;
  la_write : Z -> Z -> H -> H;
}.
(** Ports of other devices. *)
Class Ports (H : Type) := {
  inb : Z -> H -> Z * H;
  outb : Z -> Z -> H -> H;
}.
(** Registers that keep what is written to them, and the two that never change. *)
Definition steady (r : Z) : bool := existsb (Z.eqb r) [ID; VER; TPR; SVR; ICRHI; TIMER; PCINT; LINT0; LINT1; ERROR; TICR; TDCR].
Class LapicLaws (H : Type) `{Lapic H, Ports H} := {
  la_regs : H -> Z -> Z;
  (** The messages that were sent: the destination and the command. *)
  la_sent : H -> list (Z * Z);
  la_read_regs r h r' : la_regs (la_read r h).2 r' = la_regs h r';
  la_read_sent r h : la_sent (la_read r h).2 = la_sent h;
  la_read_ver h : (la_read VER h).1 = la_regs h VER;
  la_read_id h : (la_read ID h).1 = la_regs h ID;
  la_write_regs r v h r' : steady r' = true -> r <> VER -> r <> ID -> la_regs (la_write r v h) r' = if r' =? r then v else la_regs h r';
  la_write_sent r v h : la_sent (la_write r v h) = if r =? ICRLO then la_sent h ++ [(Z.shiftr (la_regs h ICRHI) 24, v)] else la_sent h;
  (** Delivery ends: a register that is read again and again loses the bit. *)
  la_delivers h : exists k, Z.land (la_read ICRLO (Nat.iter k (fun h => (la_read ICRLO h).2) h)).1 DELIVS = 0;
  outb_regs p v h r : la_regs (outb p v h) r = la_regs h r;
  outb_sent p v h : la_sent (outb p v h) = la_sent h;
}.

Section lapic.
Context {H : Type} `{!Lapic H, !Ports H}.

Definition load (r : Z) : M H Z := fun h => Ret (la_read r h).1 (la_read r h).2.
Definition lapicw (index value : Z) : M H unit :=
  modify (la_write index value) ;;;
  load ID ;;;
  ret tt.
(** [while(lapic[ICRLO] & DELIVS)] *)
Fixpoint wait_delivery (fuel : nat) : M H unit :=
  match fuel with
  | O => diverge
  | S fuel => x <- load ICRLO ;; if Z.land x DELIVS =? 0 then ret tt else wait_delivery fuel
  end.
(** [lapic] is the pointer. *)
Definition lapicinit (fuel : nat) (lapic : Z) : M H unit :=
  if lapic =? 0 then ret tt
  else
    lapicw SVR (Z.lor ENABLE (T_IRQ0 + IRQ_SPURIOUS)) ;;;
    lapicw TDCR X1 ;;;
    lapicw TIMER (Z.lor PERIODIC (T_IRQ0 + IRQ_TIMER)) ;;;
    lapicw TICR 10000000 ;;;
    lapicw LINT0 MASKED ;;;
    lapicw LINT1 MASKED ;;;
    v <- load VER ;;
    (if 4 <=? Z.land (Z.shiftr v 16) 255 then lapicw PCINT MASKED else ret tt) ;;;
    lapicw ERROR (T_IRQ0 + IRQ_ERROR) ;;;
    lapicw ESR 0 ;;;
    lapicw ESR 0 ;;;
    lapicw EOI 0 ;;;
    lapicw ICRHI 0 ;;;
    lapicw ICRLO (Z.lor (Z.lor BCAST INIT) LEVEL) ;;;
    wait_delivery fuel ;;;
    lapicw TPR 0.
Definition lapicid (lapic : Z) : M H Z :=
  if lapic =? 0 then ret 0 else v <- load ID ;; ret (Z.shiftr v 24).
Definition lapiceoi (lapic : Z) : M H unit := if lapic =? 0 then ret tt else lapicw EOI 0.
Definition microdelay (us : Z) : M H unit := ret tt.

(** The two messages of the start. *)
Fixpoint startups (n : nat) (apicid addr : Z) : M H unit :=
  match n with
  | O => ret tt
  | S n =>
      lapicw ICRHI (u32 (Z.shiftl apicid 24)) ;;;
      lapicw ICRLO (Z.lor STARTUP (Z.shiftr addr 12)) ;;;
      microdelay 200 ;;;
      startups n apicid addr
  end.
(** The warm reset vector is in memory, at physical address 40:67. *)
Definition warm_reset (m : mem) (addr : Z) : mem :=
  let wrv := P2V (Z.lor (Z.shiftl 64 4) 103) in
  st16 (st16 m wrv 0) (wrv + 2) (Z.land (Z.shiftr addr 4) 65535).
Definition lapicstartap (apicid addr : Z) : M (H * mem) unit :=
  let dev {A} (f : M H A) : M (H * mem) A := zoom fst (fun h s => (h, s.2)) f in
  dev (modify (outb CMOS_PORT 15)) ;;;
  dev (modify (outb (CMOS_PORT + 1) 10)) ;;;
  modify (fun s => (s.1, warm_reset s.2 addr)) ;;;
  dev (lapicw ICRHI (u32 (Z.shiftl apicid 24))) ;;;
  dev (lapicw ICRLO (Z.lor (Z.lor INIT LEVEL) ASSERT)) ;;;
  dev (microdelay 200) ;;;
  dev (lapicw ICRLO (Z.lor INIT LEVEL)) ;;;
  dev (microdelay 100) ;;;
  dev (startups 2 apicid addr).

(** ** picirq.c *)

Abbreviation IO_PIC1 := 32.
Abbreviation IO_PIC2 := 160.
Definition picinit : M H unit :=
  modify (outb (IO_PIC1 + 1) 255) ;;;
  modify (outb (IO_PIC2 + 1) 255).

(** ** uart.c *)

Abbreviation COM1 := 1016.
Definition port_in (p : Z) : M H Z := fun h => Ret (inb p h).1 (inb p h).2.
Definition port_out (p v : Z) : M H unit := modify (outb p v).
(** [for(i = 0; i < 128 && !(inb(COM1+5) & 0x20); i++)] *)
Fixpoint uart_wait (n : nat) : M H unit :=
  match n with
  | O => ret tt
  | S n => x <- port_in (COM1 + 5) ;; if Z.land x 32 =? 0 then microdelay 10 ;;; uart_wait n else ret tt
  end.
Definition uart_putc (uart : bool) (c : Z) : M H unit :=
  if uart then uart_wait 128 ;;; port_out (COM1 + 0) (u8 c) else ret tt.
Definition uartgetc (uart : bool) : M H Z :=
  if uart then
    x <- port_in (COM1 + 5) ;;
    if Z.land x 1 =? 0 then ret (-1) else port_in (COM1 + 0)
  else ret (-1).
Fixpoint announce (l : list Z) : M H unit := match l with [] => ret tt | c :: l => uart_putc true c ;;; announce l end.
(** The new value of [uart]. *)
Definition uartinit (ioapicenable : Z -> Z -> M H unit) (uart : bool) : M H bool :=
  port_out (COM1 + 2) 0 ;;;
  port_out (COM1 + 3) 128 ;;;
  port_out (COM1 + 0) (115200 / 9600) ;;;
  port_out (COM1 + 1) 0 ;;;
  port_out (COM1 + 3) 3 ;;;
  port_out (COM1 + 4) 0 ;;;
  port_out (COM1 + 1) 1 ;;;
  x <- port_in (COM1 + 5) ;;
  if x =? 255 then ret uart
  else
    port_in (COM1 + 2) ;;;
    port_in (COM1 + 0) ;;;
    ioapicenable IRQ_COM1 0 ;;;
    announce [120; 118; 54; 46; 46; 46; 10] ;;;
    ret true.
End lapic.

(** ** What the kernel sets up *)

Section laws.
Context {H : Type} `{!Lapic H, !Ports H, !LapicLaws H}.
Implicit Types (h : H).

(** The state after a write. *)
Definition wrote (r v : Z) (h : H) : H := (la_read ID (la_write r v h)).2.
Lemma lapicw_eq r v h : lapicw r v h = Ret tt (wrote r v h).
Proof using. done. Qed.
Lemma wrote_regs r v h r' : steady r' = true -> r <> VER -> r <> ID -> la_regs (wrote r v h) r' = if r' =? r then v else la_regs h r'.
Proof. intros. unfold wrote. rewrite la_read_regs. by apply la_write_regs. Qed.
Lemma wrote_sent r v h : la_sent (wrote r v h) = if r =? ICRLO then la_sent h ++ [(Z.shiftr (la_regs h ICRHI) 24, v)] else la_sent h.
Proof. unfold wrote. rewrite la_read_sent. apply la_write_sent. Qed.
(** Waiting ends, and reads change no setting. *)
Lemma wait_delivery_ok h : exists n, forall fuel, (n <= fuel)%nat -> exists h', wait_delivery fuel h = Ret tt h' /\ (forall r, la_regs h' r = la_regs h r) /\ la_sent h' = la_sent h.
Proof.
  destruct (la_delivers h) as [k Hk]. exists (S k). revert h Hk. induction k as [|k IH]; intros h Hk fuel Hf; (destruct fuel as [|fuel]; [lia|]); cbn [wait_delivery]; unfold bind, load.
  - simpl in Hk. rewrite Hk. simpl. eexists. split; [done|]. split; [intros r; apply la_read_regs | apply la_read_sent].
  - destruct (Z.land (la_read ICRLO h).1 DELIVS =? 0).
    + eexists. split; [done|]. split; [intros r; apply la_read_regs | apply la_read_sent].
    + rewrite Nat.iter_succ_r in Hk. destruct (IH _ Hk fuel ltac:(lia)) as (h' & E & Hr & Hs). exists h'. split; [done|]. split; [intros r; by rewrite Hr, la_read_regs | by rewrite Hs, la_read_sent].
Qed.
Ltac wrote_simpl := repeat rewrite wrote_sent; repeat rewrite wrote_regs by (reflexivity || discriminate).

(** What a processor's local APIC is set to. *)
Record configured (h : H) : Prop := {
  cf_svr : la_regs h SVR = Z.lor ENABLE (T_IRQ0 + IRQ_SPURIOUS);
  cf_timer : la_regs h TIMER = Z.lor PERIODIC (T_IRQ0 + IRQ_TIMER) /\ la_regs h TDCR = X1 /\ la_regs h TICR = 10000000;
  cf_lint : la_regs h LINT0 = MASKED /\ la_regs h LINT1 = MASKED;
  cf_pcint : 4 <= Z.land (Z.shiftr (la_regs h VER) 16) 255 -> la_regs h PCINT = MASKED;
  cf_error : la_regs h ERROR = T_IRQ0 + IRQ_ERROR;
  cf_tpr : la_regs h TPR = 0
}.
(** The writes up to the wait. *)
Definition config1 (h : H) : H := wrote LINT1 MASKED (wrote LINT0 MASKED (wrote TICR 10000000 (wrote TIMER (Z.lor PERIODIC (T_IRQ0 + IRQ_TIMER)) (wrote TDCR X1 (wrote SVR (Z.lor ENABLE (T_IRQ0 + IRQ_SPURIOUS)) h))))).
Definition config2 (h : H) : H := (la_read VER h).2.
Definition config3 (h : H) : H := if 4 <=? Z.land (Z.shiftr (la_regs h VER) 16) 255 then wrote PCINT MASKED (config2 h) else config2 h.
Definition config4 (h : H) : H := wrote ICRLO (Z.lor (Z.lor BCAST INIT) LEVEL) (wrote ICRHI 0 (wrote EOI 0 (wrote ESR 0 (wrote ESR 0 (wrote ERROR (T_IRQ0 + IRQ_ERROR) h))))).
Lemma lapicinit_run fuel lapic h : lapic <> 0 -> lapicinit fuel lapic h = (wait_delivery fuel ;;; lapicw TPR 0) (config4 (config3 (config1 h))).
Proof.
  intros Hl. unfold lapicinit. rewrite (proj2 (Z.eqb_neq _ _) Hl). do 6 rewrite (bind_Ret _ _ _ _ _ (lapicw_eq _ _ _)). fold (config1 h). generalize (config1 h). clear h. intros h.
  rewrite (bind_Ret (load VER) _ h _ _ eq_refl), la_read_ver. fold (config2 h).
  assert ((if 4 <=? Z.land (Z.shiftr (la_regs h VER) 16) 255 then lapicw PCINT MASKED else ret tt) (config2 h) = Ret tt (config3 h)) as E by (unfold config3; by destruct (4 <=? _)).
  rewrite (bind_Ret _ _ _ _ _ E). by do 6 rewrite (bind_Ret _ _ _ _ _ (lapicw_eq _ _ _)).
Qed.
Lemma config3_regs h r : steady r = true -> la_regs (config3 h) r = if (r =? PCINT) && (4 <=? Z.land (Z.shiftr (la_regs h VER) 16) 255) then MASKED else la_regs h r.
Proof.
  intros Hr. unfold config3, config2. destruct (4 <=? _); [|by rewrite andb_false_r, la_read_regs]. rewrite andb_true_r, wrote_regs by done. by destruct (r =? PCINT); [|apply la_read_regs].
Qed.
Lemma config1_regs h r : steady r = true -> la_regs (config1 h) r =
  if r =? LINT1 then MASKED else if r =? LINT0 then MASKED else if r =? TICR then 10000000 else if r =? TIMER then Z.lor PERIODIC (T_IRQ0 + IRQ_TIMER)
  else if r =? TDCR then X1 else if r =? SVR then Z.lor ENABLE (T_IRQ0 + IRQ_SPURIOUS) else la_regs h r.
Proof. intros Hr. unfold config1. by rewrite !wrote_regs by done. Qed.
Lemma config4_regs h r : steady r = true -> la_regs (config4 h) r = if r =? ICRHI then 0 else if r =? ERROR then T_IRQ0 + IRQ_ERROR else la_regs h r.
Proof.
  intros Hr. unfold config4. rewrite !wrote_regs by done. destruct (Z.eqb_spec r ICRLO) as [->|_]; [done|]. destruct (Z.eqb_spec r EOI) as [->|_]; [done|].
  by destruct (Z.eqb_spec r ESR) as [->|_].
Qed.
Lemma config3_sent h : la_sent (config3 h) = la_sent h.
Proof. unfold config3, config2. destruct (4 <=? _); [rewrite wrote_sent|]; apply la_read_sent. Qed.

(** The local APIC.  lapicinit ends, and leaves the processor's APIC with a periodic
    timer on the vector that trap takes for the timer, the error and spurious
    vectors of traps.h, the lines and counters masked, and every priority accepted;
    it has sent one message, for synchronisation. *)
Theorem lapicinit_configures lapic h : lapic <> 0 -> exists n, forall fuel, (n <= fuel)%nat -> exists h', lapicinit fuel lapic h = Ret tt h' /\
  configured h' /\ la_sent h' = la_sent h ++ [(0, Z.lor (Z.lor BCAST INIT) LEVEL)].
Proof.
  intros Hl. destruct (wait_delivery_ok (config4 (config3 (config1 h)))) as [n Hn]. exists n. intros fuel Hf. rewrite lapicinit_run by done.
  destruct (Hn fuel Hf) as (h1 & E & Hr & Hs). rewrite (bind_Ret _ _ _ _ _ E). eexists. split; [apply lapicw_eq|].
  assert (forall r, steady r = true -> la_regs (wrote TPR 0 h1) r = if r =? TPR then 0 else la_regs (config4 (config3 (config1 h))) r) as HT.
  { intros r Hc. rewrite wrote_regs by done. by rewrite Hr. }
  assert (forall r, steady r = true -> la_regs (wrote TPR 0 h1) r = if r =? TPR then 0 else if r =? ICRHI then 0 else if r =? ERROR then T_IRQ0 + IRQ_ERROR else
    if (r =? PCINT) && (4 <=? Z.land (Z.shiftr (la_regs h VER) 16) 255) then MASKED else la_regs (config1 h) r) as HA.
  { intros r Hc. rewrite HT, config4_regs, config3_regs, (config1_regs h VER) by done. done. }
  split.
  - split; rewrite ?HA, ?config1_regs by done; [done | done | done | | done | done]. intros Hv. simpl in Hv. by rewrite (proj2 (Z.leb_le _ _) Hv).
  - rewrite wrote_sent. simpl. rewrite Hs. unfold config4. wrote_simpl. simpl. rewrite config3_sent. unfold config1. wrote_simpl. simpl. done.
Qed.

(** The state of the devices after lapicstartap. *)
Definition started (apicid addr : Z) (h : H) : H :=
  let to := wrote ICRHI (u32 (Z.shiftl apicid 24)) in
  let go := wrote ICRLO (Z.lor STARTUP (Z.shiftr addr 12)) in
  go (to (go (to (wrote ICRLO (Z.lor INIT LEVEL) (wrote ICRLO (Z.lor (Z.lor INIT LEVEL) ASSERT) (to (outb (CMOS_PORT + 1) 10 (outb CMOS_PORT 15 h)))))))).
(** Starting a processor.  lapicstartap resets the processor with the given
    identifier and tells it, twice, to start, at the page of the address; and points
    the warm reset vector there.  Nothing else in memory changes. *)
Theorem lapicstartap_starts apicid addr h m : 0 <= apicid < 256 -> 0 <= addr < 1048576 -> addr mod 4096 = 0 ->
  exists h' m', lapicstartap apicid addr (h, m) = Ret tt (h', m') /\
    la_sent h' = la_sent h ++ [(apicid, Z.lor (Z.lor INIT LEVEL) ASSERT); (apicid, Z.lor INIT LEVEL); (apicid, Z.lor STARTUP (Z.shiftr addr 12)); (apicid, Z.lor STARTUP (Z.shiftr addr 12))] /\
    Z.shiftl (Z.land (Z.lor STARTUP (Z.shiftr addr 12)) 255) 12 = addr /\
    16 * ld16 m' (P2V 1129) + ld16 m' (P2V 1127) = addr /\
    (forall x, x < P2V 1127 \/ P2V 1127 + 4 <= x -> m' x = m x).
Proof.
  intros Ha Hd Hal. assert (lapicstartap apicid addr (h, m) = Ret tt (started apicid addr h, warm_reset m addr)) as -> by done.
  eexists _, _. split; [reflexivity|]. assert (Z.shiftr (u32 (Z.shiftl apicid 24)) 24 = apicid) as Hid.
  { rewrite Z.shiftr_div_pow2, Z.shiftl_mul_pow2, u32_small by lia. change (2 ^ 24) with 16777216. zlia. }
  split; [|split; [|split]].
  - unfold started. wrote_simpl. cbn [Z.eqb Pos.eqb]. rewrite !Hid, !outb_sent, <- !app_assoc. done.
  - assert (Z.shiftr addr 12 ∈ seqZ 0 256) as Hin by (apply elem_of_seqZ; rewrite Z.shiftr_div_pow2 by lia; change (2 ^ 12) with 4096; zlia).
    assert (Z.land (Z.lor STARTUP (Z.shiftr addr 12)) 255 = Z.shiftr addr 12) as ->.
    { revert Hin. generalize (Z.shiftr addr 12). apply Forall_forall. apply (bool_decide_eq_true_1 (Forall (fun z => Z.land (Z.lor STARTUP z) 255 = z) (seqZ 0 256))). by vm_compute. }
    rewrite Z.shiftr_div_pow2, Z.shiftl_mul_pow2 by lia. change (2 ^ 12) with 4096. zlia.
  - unfold warm_reset. change (Z.lor (Z.shiftl 64 4) 103) with 1127. change (P2V 1127) with 2147484775. change (P2V 1129) with (2147484775 + 2). cbv zeta.
    change 65535 with (2 ^ 16 - 1). rewrite land_low_mask, Z.shiftr_div_pow2 by lia. change (2 ^ 4) with 16. change (2 ^ 16) with 65536.
    rewrite ld16_st16_eq by zlia. rewrite ld16_st16_ne, ld16_st16_eq by lia. zlia.
  - intros x Hx. unfold warm_reset. change (Z.lor (Z.shiftl 64 4) 103) with 1127. cbv zeta. change (P2V 1127) with 2147484775 in *. by rewrite !st16_out by lia.
Qed.
End laws.

(** ** A local APIC that delivers at the second read *)

Record toy_apic := ToyApic { ta_regs : Z -> Z; ta_busy : bool; ta_log : list (Z * Z) }.
#[export] Instance toy_lapic : Lapic toy_apic := {
  la_read r h := if r =? ICRLO then (if ta_busy h then DELIVS else 0, ToyApic (ta_regs h) false (ta_log h)) else (ta_regs h r, h);
  la_write r v h := ToyApic (fun r' => if r' =? r then v else ta_regs h r') (ta_busy h || (r =? ICRLO)) (if r =? ICRLO then ta_log h ++ [(Z.shiftr (ta_regs h ICRHI) 24, v)] else ta_log h);
}.
#[export] Instance toy_ports : Ports toy_apic := { inb p h := (0, h); outb p v h := h }.
#[export] Instance toy_lapic_laws : LapicLaws toy_apic.
Proof.
  refine {| la_regs := ta_regs; la_sent := ta_log |}; try done.
  - intros r h r'. simpl. by destruct (r =? ICRLO).
  - intros r h. simpl. by destruct (r =? ICRLO).
  - intros h. exists 1%nat. done.
Defined.
Lemma lapicinit_configures_witness : exists n (h' : toy_apic), lapicinit n 4276092928 (ToyApic (fun _ => 0) false []) = Ret tt h' /\ la_regs h' TIMER = 131104.
Proof.
  destruct (lapicinit_configures 4276092928 (ToyApic (fun _ => 0) false [])) as [n Hn]; [lia|]. destruct (Hn n ltac:(lia)) as (h' & E & [_ [Ht _] _ _ _ _] & _).
  exists n, h'. split; [exact E | exact Ht].
Defined.
Lemma lapicstartap_starts_witness : exists (h' : toy_apic) m', lapicstartap 3 28672 (ToyApic (fun _ => 0) false [], fun _ => 0) = Ret tt (h', m') /\ la_sent h' !! 3%nat = Some (3, 1543).
Proof.
  destruct (lapicstartap_starts 3 28672 (ToyApic (fun _ => 0) false []) (fun _ => 0)) as (h' & m' & E & Hs & _); [lia | lia | reflexivity |].
  exists h', m'. split; [exact E|]. rewrite Hs. reflexivity.
Defined.
