(* ===== verification/Start.v ===== *)
(** * From reset to main (bootasm.S, entry.S, entryother.S; entrypgdir of main.c)

    The code that processors run before they run C code.  A processor has its
    registers, the control registers, and physical memory; every access to memory
    goes through the translation that the control registers ask for, and [None] is
    a page fault.

    The theorems: entry turns paging on with a directory that maps the first four
    megabytes both where the processor is running and where the kernel is linked,
    and enters main on the kernel's stack; a processor that another one has started
    enters mpenter on the stack it was given. *)

From S2P Require Import Prelude Mem Mmu Seg Asm.
#[local] Open Scope Z_scope.

Definition CR0_PE : Z := 1.
Definition CR0_WP : Z := 65536.
Definition CR0_PG : Z := 2147483648.
Definition CR4_PSE : Z := 16.
Definition FOURMB : Z := 4194304.

(** ** The processor *)

Inductive creg := CR0 | CR3 | CR4.
Record crs := Crs { cr0 : Z; cr3 : Z; cr4 : Z }.
(** [core]'s memory is physical; [gdtp] is the operand of the last lgdt. *)
Record bcpu := Bcpu { core : x86; ctl : crs; gdtp : Z * Z }.
Definition getc (c : creg) (b : bcpu) : Z := match c with CR0 => cr0 (ctl b) | CR3 => cr3 (ctl b) | CR4 => cr4 (ctl b) end.
Definition setc (c : creg) (v : Z) (b : bcpu) : bcpu :=
  let '(Crs x y z) := ctl b in Bcpu (core b) (match c with CR0 => Crs v y z | CR3 => Crs x v z | CR4 => Crs x y v end) (gdtp b).
Definition set_core (s : x86) (b : bcpu) : bcpu := Bcpu s (ctl b) (gdtp b).

(** How the processor translates an address: through a directory whose entries are
    pages of four megabytes or tables. *)
Definition translate (c : crs) (m : mem) (va : Z) : option Z :=
  if Z.land (cr0 c) CR0_PG =? 0 then Some va
  else
    let pde := ld32 m (PTE_ADDR (cr3 c) + 4 * PDX va) in
    if negb (has PTE_P pde) then None
    else if has PTE_PS pde && negb (Z.land (cr4 c) CR4_PSE =? 0) then Some (Z.land pde 4290772992 + va mod FOURMB)
    else
      let pte := ld32 m (PTE_ADDR pde + 4 * PTX va) in
      if has PTE_P pte then Some (PTE_ADDR pte + va mod 4096) else None.
Definition phys (b : bcpu) (va : Z) : option Z := translate (ctl b) (xmem (core b)) va.

Inductive binstr :=
| on_core (i : instr)                 (* an instruction that does not touch memory *)
| cli
| xorw_ax
| lgdt (a : Z)
| movl_from (c : creg)                (* movl %c, %eax *)
| movl_to (c : creg)                  (* movl %eax, %c *)
| orl (i : Z)                         (* orl $i, %eax *)
| ljmp (sel a : Z)
| movl_abs (a : Z) (r : reg)          (* movl (a), %r *)
| jmp_eax                             (* jmp *%eax *)
| bcall (f back : Z)
| call_abs (a back : Z).              (* call *(a) *)

Definition bload (b : bcpu) (va : Z) : option Z := a ← phys b va; Some (ld32 (xmem (core b)) a).
Definition bpush (v : Z) (b : bcpu) : option bcpu :=
  let sp := u32 (esp (core b) - 4) in
  a ← phys b sp; Some (set_core (set_xmem (st32 (xmem (core b)) a v) (setr ESP sp (core b))) b).
Definition bstep (i : binstr) (b : bcpu) : option bcpu :=
  let s := core b in
  match i with
  | on_core i => Some (set_core (step1 i s) b)
  | cli => Some (set_core (set_flags (Z.ldiff (flags s) FL_IF) s) b)
  | xorw_ax => Some (set_core (setr EAX (gpr s EAX - gpr s EAX mod 65536) s) b)
  | lgdt a => p ← phys b a; Some (Bcpu s (ctl b) (ld16 (xmem s) p, ld32 (xmem s) (p + 2)))
  | movl_from c => Some (set_core (setr EAX (getc c b) s) b)
  | movl_to c => Some (setc c (gpr s EAX) b)
  | orl i => Some (set_core (setr EAX (Z.lor (gpr s EAX) i) s) b)
  | ljmp sel a => Some (set_core (set_eip a (sets CS sel s)) b)
  | movl_abs a r => v ← bload b a; Some (set_core (setr r v s) b)
  | jmp_eax => Some (set_core (set_eip (gpr s EAX) s) b)
  | bcall f back => b ← bpush back b; Some (set_core (set_eip f (core b)) b)
  | call_abs a back => f ← bload b a; b ← bpush back b; Some (set_core (set_eip f (core b)) b)
  end.
Fixpoint brun (l : list binstr) (b : bcpu) : option bcpu :=
  match l with [] => Some b | i :: l => b ← bstep i b; brun l b end.

(** ** entry.S *)

Section entry.
(** Addresses of the kernel image. *)
Context (entrypgdir_addr stack main : Z).
Definition entry : list binstr :=
  [movl_from CR4; orl CR4_PSE; movl_to CR4;
   on_core (movl_i (V2P entrypgdir_addr) EAX); movl_to CR3;
   movl_from CR0; orl (Z.lor CR0_PG CR0_WP); movl_to CR0;
   on_core (movl_i (u32 (stack + KSTACKSIZE)) ESP);
   on_core (movl_i main EAX); jmp_eax].
End entry.

(** ** The directory of main.c *)

Definition entrypgdir (i : Z) : Z :=
  if (i =? 0) || (i =? Z.shiftr KERNBASE 22) then Z.lor (Z.lor (Z.lor 0 PTE_P) PTE_W) PTE_PS else 0.
(** It is in memory at the physical address [a]. *)
Definition has_entrypgdir (m : mem) (a : Z) : Prop := forall i, 0 <= i < 1024 -> ld32 m (a + 4 * i) = entrypgdir i.

(** ** entryother.S *)

Section entryother.
Context (start start32 gdtdesc after : Z).
Definition entryother16 : list binstr :=
  [cli; xorw_ax; on_core (movw_s DS); on_core (movw_s ES); on_core (movw_s SS);
   lgdt gdtdesc; movl_from CR0; orl CR0_PE; movl_to CR0; ljmp (Z.shiftl SEG_KCODE 3) start32].
Definition entryother32 : list binstr :=
  [on_core (movw_ax (Z.shiftl SEG_KDATA 3)); on_core (movw_s DS); on_core (movw_s ES); on_core (movw_s SS);
   on_core (movw_ax 0); on_core (movw_s FS); on_core (movw_s GS);
   movl_from CR4; orl CR4_PSE; movl_to CR4;
   movl_abs (start - 12) EAX; movl_to CR3;
   movl_from CR0; orl (Z.lor (Z.lor CR0_PE CR0_PG) CR0_WP); movl_to CR0;
   movl_abs (start - 4) ESP; call_abs (start - 8) after].
End entryother.

(** ** bootasm.S *)

(** [seta20.1] and [seta20.2]: the controller of the keyboard, at ports 0x64 and
    0x60, is asked until it is not busy. *)
Section a20.
Context {H : Type} (inb : Z -> H -> Z * H) (outb : Z -> Z -> H -> H).
Fixpoint kbd_wait (fuel : nat) (h : H) : option H :=
  match fuel with
  | O => None
  | S fuel => let '(x, h) := inb 100 h in if Z.land x 2 =? 0 then Some h else kbd_wait fuel h
  end.
Definition seta20 (fuel : nat) (h : H) : option H :=
  h ← kbd_wait fuel h;
  let h := outb 100 209 h in
  h ← kbd_wait fuel h;
  Some (outb 96 223 h).
End a20.
Section bootasm.
Context (start start32 gdtdesc bootmain after : Z).
Definition bootasm16 : list binstr := [cli; xorw_ax; on_core (movw_s DS); on_core (movw_s ES); on_core (movw_s SS)].
Definition bootasm16b : list binstr := [lgdt gdtdesc; movl_from CR0; orl CR0_PE; movl_to CR0; ljmp (Z.shiftl SEG_KCODE 3) start32].
Definition bootasm32 : list binstr :=
  [on_core (movw_ax (Z.shiftl SEG_KDATA 3)); on_core (movw_s DS); on_core (movw_s ES); on_core (movw_s SS);
   on_core (movw_ax 0); on_core (movw_s FS); on_core (movw_s GS);
   on_core (movl_i start ESP); bcall bootmain after].
End bootasm.
(** The table of both, and its descriptor. *)
Definition boot_gdt : list Z := SEG_NULLASM ++ SEG_ASM (Z.lor STA_X STA_R) 0 4294967295 ++ SEG_ASM STA_W 0 4294967295.
Definition gdtdesc_bytes (gdt : Z) : list Z := word_bytes (Z.of_nat (length boot_gdt) - 1) ++ [byte_of gdt 0; byte_of gdt 1; byte_of gdt 2; byte_of gdt 3].

(** ** Paging at the start *)

Lemma ld32_shift m1 m2 a b : (forall k, 0 <= k < 4 -> m1 (a + k) = m2 (b + k)) -> ld32 m1 a = ld32 m2 b.
Proof. intros H. unfold ld32. pose proof (H 0 ltac:(lia)) as H0. rewrite !Z.add_0_r in H0. by rewrite H0, !H by lia. Qed.

Lemma entrypgdir_translates c m va : has_entrypgdir m (PTE_ADDR (cr3 c)) -> Z.land (cr0 c) CR0_PG <> 0 -> Z.land (cr4 c) CR4_PSE <> 0 -> 0 <= va < W32 ->
  translate c m va = if va <? FOURMB then Some va else if (KERNBASE <=? va) && (va <? KERNBASE + FOURMB) then Some (va - KERNBASE) else None.
Proof.
  intros Hd H0 H4 Hva. unfold translate. cbv zeta. rewrite (proj2 (Z.eqb_neq _ _) H0), (proj2 (Z.eqb_neq _ _) H4).
  assert (PDX va = va / FOURMB) as -> by (rewrite PDX_eq by done; done). rewrite !Hd by (unfold FOURMB; zlia). unfold entrypgdir, FOURMB. change (Z.shiftr KERNBASE 22) with 512.
  change (Z.lor (Z.lor (Z.lor 0 PTE_P) PTE_W) PTE_PS) with 131.
  destruct (Z.eqb_spec (va / 4194304) 0) as [E|E]; [|destruct (Z.eqb_spec (va / 4194304) 512) as [E2|E2]]; cbn [orb negb].
    - change (Some (0 + va mod 4194304) = if va <? 4194304 then Some va else if (KERNBASE <=? va) && (va <? KERNBASE + 4194304) then Some (va - KERNBASE) else None).
    rewrite (proj2 (Z.ltb_lt _ _)) by zlia. f_equal. zlia.
  - change (Some (0 + va mod 4194304) = if va <? 4194304 then Some va else if (KERNBASE <=? va) && (va <? KERNBASE + 4194304) then Some (va - KERNBASE) else None).
    rewrite (proj2 (Z.ltb_ge _ _)), (proj2 (Z.leb_le _ _)), (proj2 (Z.ltb_lt _ _)) by zlia. cbn [andb]. f_equal. zlia.
  - change (None = if va <? 4194304 then Some va else if (KERNBASE <=? va) && (va <? KERNBASE + 4194304) then Some (va - KERNBASE) else None).
    rewrite (proj2 (Z.ltb_ge _ _)) by zlia. destruct (Z.leb_spec KERNBASE va), (Z.ltb_spec va (KERNBASE + 4194304)); cbn [andb]; try done. zlia.
Qed.

(** Bits that are set stay set. *)
Lemma land_lor_bit x y k : 0 <= k -> Z.testbit y k = true -> Z.land (Z.lor x y) (2 ^ k) <> 0.
Proof.
  intros Hk Hy E. assert (Z.testbit (Z.land (Z.lor x y) (2 ^ k)) k = false) as Hf by (by rewrite E, Z.bits_0).
  rewrite Z.land_spec, Z.lor_spec, Hy, orb_true_r, Z.pow2_bits_true in Hf by done. done.
Qed.

(** C25: the kernel starts.  From protected mode without paging, with entrypgdir in
    the image of the kernel, the code of entry.S ends at main with the stack pointer
    at the top of the stack of the kernel, and with paging on: the first four
    megabytes are where they were, so that the code goes on, and also at KERNBASE,
    where the kernel is linked; no other address is mapped. *)
Theorem entry_enters_main (b : bcpu) (entrypgdir_addr stack main : Z) :
  KERNBASE <= entrypgdir_addr < W32 -> entrypgdir_addr mod 4096 = 0 -> 0 <= stack < W32 - KSTACKSIZE ->
  has_entrypgdir (xmem (core b)) (V2P entrypgdir_addr) -> exists b', brun (entry entrypgdir_addr stack main) b = Some b' /\
  eip (core b') = main /\ esp (core b') = stack + KSTACKSIZE /\ xmem (core b') = xmem (core b) /\
  forall va, 0 <= va < W32 -> phys b' va = if va <? FOURMB then Some va else if (KERNBASE <=? va) && (va <? KERNBASE + FOURMB) then Some (va - KERNBASE) else None.
Proof.
  intros Ha Hal Hst Hm. destruct b as [[[a c d x sp bp si di] sg ip fl m] [c0 c3 c4] g]. cbn [core xmem] in *.
  exists (Bcpu (X86 (Regs main c d x (u32 (stack + KSTACKSIZE)) bp si di) sg main fl m) (Crs (Z.lor c0 (Z.lor CR0_PG CR0_WP)) (V2P entrypgdir_addr) (Z.lor c4 CR4_PSE)) g).
  split; [reflexivity|]. split; [done|]. split; [apply u32_small; lia|]. split; [done|].
  intros va Hva. unfold phys. cbn [ctl core xmem]. apply entrypgdir_translates; [| | |done]; cbn [cr0 cr3 cr4].
  - assert (PTE_ADDR (V2P entrypgdir_addr) = V2P entrypgdir_addr) as -> by (rewrite V2P_eq, PTE_ADDR_eq by zlia; zlia). done.
  - apply (land_lor_bit c0 _ 31); done.
  - apply (land_lor_bit c4 _ 4); done.
Qed.
Lemma entry_enters_main_witness : exists b', brun (entry 2148532224 2148600000 2148700000)
    (Bcpu (X86 (Regs 0 0 0 0 0 0 0 0) (Sregs 8 16 16 0 0 16) 0 0 (fun a => if (a =? 1048576) || (a =? 1050624) then 131 else 0)) (Crs 1 0 0) (0, 0)) = Some b' /\ eip (core b') = 2148700000.
Proof.
  destruct (entry_enters_main (Bcpu (X86 (Regs 0 0 0 0 0 0 0 0) (Sregs 8 16 16 0 0 16) 0 0 (fun a => if (a =? 1048576) || (a =? 1050624) then 131 else 0)) (Crs 1 0 0) (0, 0)) 2148532224 2148600000 2148700000)
    as (b' & E & Hi & _); [lia | reflexivity | lia | |].
  - intros i Hi. cbn [core xmem]. change (V2P 2148532224) with 1048576. unfold ld32, entrypgdir. change (Z.shiftr KERNBASE 22) with 512. change (Z.lor (Z.lor (Z.lor 0 PTE_P) PTE_W) PTE_PS) with 131.
    destruct (Z.eqb_spec i 0) as [->|]; [done|]. destruct (Z.eqb_spec i 512) as [->|]; [done|]. cbn [orb]. rewrite !(proj2 (Z.eqb_neq _ _)) by lia. done.
  - exists b'. split; [exact E | exact Hi].
Defined.

(** ** The other processors *)

(** What startothers leaves for entryother.S below its code at [start]. *)
Record prepared (m : mem) (start stack mpenter pgdir : Z) : Prop := {
  pr_stack : ld32 m (start - 4) = stack;
  pr_enter : ld32 m (start - 8) = mpenter;
  pr_pgdir : ld32 m (start - 12) = pgdir;
}.
Lemma brun_step i l b b' : bstep i b = Some b' -> brun (i :: l) b = brun l b'.
Proof. intros E. cbn [brun]. by rewrite E. Qed.
Ltac bcbn := cbv beta iota zeta delta [set_core setc getc core ctl gdtp cr0 cr3 cr4 mbind option_bind]; xcbn.
(** An instruction without memory operands. *)
Ltac bstep1 := erewrite brun_step; [|cbn [bstep step1]; bcbn; reflexivity].
Lemma no_paging c0 c3 c4 m va : Z.land c0 CR0_PG = 0 -> translate (Crs c0 c3 c4) m va = Some va.
Proof. intros H. unfold translate. cbn [cr0]. by rewrite H. Qed.
Lemma entryother_runs (b : bcpu) (start start32 gdtdesc after stack mpenter pgdir : Z) :
  Z.land (cr0 (ctl b)) CR0_PG = 0 -> 12 <= start <= FOURMB -> KERNBASE + 4 <= stack <= KERNBASE + FOURMB ->
  prepared (xmem (core b)) start stack mpenter pgdir -> PTE_ADDR pgdir = pgdir -> has_entrypgdir (xmem (core b)) pgdir ->
  exists b', brun (entryother16 start32 gdtdesc ++ entryother32 start after) b = Some b' /\
    eip (core b') = mpenter /\ esp (core b') = stack - 4 /\ seg (core b') DS = Z.shiftl SEG_KDATA 3 /\ seg (core b') SS = Z.shiftl SEG_KDATA 3 /\ seg (core b') CS = Z.shiftl SEG_KCODE 3 /\
    gdtp b' = (ld16 (xmem (core b)) gdtdesc, ld32 (xmem (core b)) (gdtdesc + 2)) /\
    xmem (core b') = st32 (xmem (core b)) (stack - 4 - KERNBASE) after /\ cr3 (ctl b') = pgdir /\ Z.land (cr0 (ctl b')) CR0_PG <> 0.
Proof.
  intros Hpg Hst Hsk [H4 H8 H12] Hal Hm. destruct b as [[[a c d x sp bp si di] sg ip fl m] [c0 c3 c4] g]. cbn [core xmem ctl cr0] in *.
  destruct sg as [c1 d1 e1 f1 g1 t1]. unfold entryother16, entryother32. cbn [app]. do 5 bstep1.
  erewrite brun_step; [|cbn [bstep]; unfold phys; bcbn; rewrite no_paging by done; bcbn; reflexivity]. do 14 bstep1.
  assert (Z.land (Z.lor c0 CR0_PE) CR0_PG = 0) as Hpg' by (rewrite Z.land_lor_distr_l, Hpg; done).
  erewrite brun_step; [|cbn [bstep]; unfold bload, phys; bcbn; rewrite no_paging by done; bcbn; rewrite H12; reflexivity]. do 4 bstep1.
  set (C := Crs (Z.lor (Z.lor c0 CR0_PE) (Z.lor (Z.lor CR0_PE CR0_PG) CR0_WP)) pgdir (Z.lor c4 CR4_PSE)).
  assert (Z.land (cr0 C) CR0_PG <> 0) as HC0 by (apply (land_lor_bit (Z.lor c0 CR0_PE) _ 31); done).
  assert (forall va, 0 <= va < W32 -> translate C m va = if va <? FOURMB then Some va else if (KERNBASE <=? va) && (va <? KERNBASE + FOURMB) then Some (va - KERNBASE) else None) as T.
  { intros va Hva. apply entrypgdir_translates; [by cbn [cr3 C]; rewrite Hal | done | apply (land_lor_bit c4 _ 4); done | done]. }
  unfold FOURMB in *.
  erewrite brun_step; [|cbn [bstep]; unfold bload, phys; bcbn; rewrite T, (proj2 (Z.ltb_lt _ _)) by lia; bcbn; rewrite H4; reflexivity].
  erewrite brun_step; [|cbn [bstep]; unfold bload, bpush, phys, esp; bcbn; rewrite T, (proj2 (Z.ltb_lt _ _)) by lia; bcbn; rewrite H8, (u32_small (stack - 4)) by lia;
    rewrite T, (proj2 (Z.ltb_ge _ _)), (proj2 (Z.leb_le _ _)), (proj2 (Z.ltb_lt _ _)) by lia; bcbn; reflexivity].
  eexists. split; [reflexivity|]. change (Z.shiftl SEG_KDATA 3) with 16. unfold esp. bcbn. split_and!; try done; zlia.
Qed.
