(* ===== verification/FirstProc.v ===== *)
(** * The first process (userinit of proc.c, initcode.S)

    userinit builds on the page allocator, the kernel half of address spaces, the
    copy of initcode into a page, the process table and the lookup of "/".  The
    theorem follows the process that it makes from the first switch of the scheduler
    through forkret and trapret into initcode.S, up to the system call exec. *)

From stdpp Require Import functions.
From S2P Require Import Prelude Mem CString Mmu Kalloc PageTable Uvm UvmCopy Disk Bio Log Pipe Blocks Balloc Inode Dir File Ptable Proc.
From S2P Require Import Syscall ForkLaws Seg Asm UserAsm ForkRun.
#[local] Open Scope Z_scope.

(** ** The root directory *)

Section root.
Context {S : Type} `{!BlockOps S}.

(** The inode cache before the first lookup. *)
Definition unused (l : list inode) : Prop := l <> [] /\ Forall (fun x => i_ref x = 0) l.
Definition root_inode (x : inode) : inode := Inode ROOTDEV ROOTINO 1 (i_lock x) false (i_type x) (i_major x) (i_minor x) (i_nlink x) (i_size x) (i_addrs x).

Lemma iget_scan_unused l : forall i e dev inum, Forall (fun x => i_ref x = 0) l -> iget_scan l i (Some e) dev inum = inr (Some e).
Proof. induction l as [|x l IH]; intros i e dev inum Hl; simpl; [done|]. apply Forall_cons in Hl as [Hx Hl]. rewrite Hx. simpl. by apply IH. Qed.
Lemma namei_root pid cwd devread lookup_de slash_str namebuf (fy : fsys S) : unused (fs_ic fy) -> fs_mem fy slash_str = SLASH -> fs_mem fy (slash_str + 1) = 0 ->
  namei pid cwd devread lookup_de 2 slash_str namebuf fy = Ret (Some 0%nat) (set_ic (alter root_inode 0%nat (fs_ic fy)) fy).
Proof.
  intros [Hne Hu] H0 H1. unfold namei, namex. rewrite bind_gets, H0. change (SLASH =? SLASH) with true. cbv iota.
  assert (iget ROOTDEV ROOTINO fy = Ret 0%nat (set_ic (alter root_inode 0%nat (fs_ic fy)) fy)) as E.
  { unfold iget. rewrite bind_gets. destruct (fs_ic fy) as [|x l] eqn:Hl; [done|]. apply Forall_cons in Hu as [Hx Hu]. cbn [iget_scan]. rewrite Hx. change (0 <? 0) with false. change (0 =? 0) with true. cbv iota beta. cbn [andb].
    rewrite iget_scan_unused by done. unfold bind, upd_ino, modify. by rewrite Hl. }
  assert (forall fy' : fsys S, fs_mem fy' = fs_mem fy -> next_elem 2 slash_str namebuf fy' = Ret None fy') as Hn.
  { intros fy' Hm. unfold next_elem, skipelem. cbn [skip_slashes]. rewrite Hm, H0, H1. change (SLASH =? SLASH) with true. change (0 =? SLASH) with false. cbv iota.
    rewrite H1. change (0 =? 0) with true. cbv iota. rewrite <- Hm. by destruct fy'. }
  rewrite (bind_Ret _ _ _ _ _ E). cbn [namex_loop]. by rewrite (bind_Ret _ _ _ _ _ (Hn (set_ic (alter root_inode 0%nat (fs_ic fy)) fy) eq_refl)).
Qed.
Lemma kfs_root pid cwd devread lookup_de slash_str namebuf (fy : fsys S) st ft pi t : unused (fs_ic fy) -> kmem_mem st slash_str = SLASH -> kmem_mem st (slash_str + 1) = 0 ->
  kfs (namei pid cwd devread lookup_de 2 slash_str namebuf) (Kern (FK fy st ft pi) t) =
  Ret (Some 0%nat) (Kern (FK (set_ic (alter root_inode 0%nat (fs_ic fy)) (set_fmem (kmem_mem st) fy)) st ft pi) t).
Proof.
  intros Hu H0 H1. pose proof (namei_root pid cwd devread lookup_de slash_str namebuf (set_fmem (kmem_mem st) fy) Hu H0 H1) as E.
  unfold kfs, window, bind, fk, File.fs, zoom, modify, ret. cbn [k_fk fk_fs set_fs fk_kst k_pt]. rewrite E. by destruct st.
Qed.
End root.

(** ** What userinit makes *)

Section userinit.
Context {S : Type} `{!BlockOps S}.
Context (devread : Z -> option (nat -> Z -> Z -> M (fsys S) Z)) (kend kdata trapret forkret_addr start size lookup_de namebuf slash_str : Z).
Context (Hkend : KERNLINK <= kend < KERNBASE + PHYSTOP) (Hdata : KERNLINK < kdata < KERNBASE + PHYSTOP) (Hdal : kdata mod 4096 = 0).
Context (Htr : 0 <= trapret < W32) (Hfr : 0 <= forkret_addr < W32).
Context (Hsize : 0 <= size < 4096) (Hstart : start + size <= kend) (Hslash : slash_str + 2 <= kend).

(** The memory of the first process: its address space [d] shows initcode, and its
    stack [q] has the frames for its first run. *)
Record first_made (st : kst) (q : Z) (l : list Z) (st' : kst) (l' : list Z) (d : Z) : Prop := {
  fm_space : vm_ok kend st' l' d;
  fm_view : forall va, uva va -> uview (kmem_mem st') d va = if va <? 4096 then Some (7, if va <? size then kmem_mem st (start + va) else 0) else None;
  fm_pages : forall p, (owned (kmem_mem st') d p \/ p = q) \/ p ∈ l' <-> p ∈ q :: l;
  fm_stack : ~ owned (kmem_mem st') d q /\ q ∉ l';
  fm_frame : exists m0, forall i, 0 <= i < TF_SIZE -> kmem_mem st' (q + KSTACKSIZE - TF_SIZE + i) = first_frame m0 (q + KSTACKSIZE - TF_SIZE) (q + KSTACKSIZE - TF_SIZE + i);
  fm_context : ld32 (kmem_mem st') (q + KSTACKSIZE - TF_SIZE - 24 + CTX_EIP) = forkret_addr /\ ld32 (kmem_mem st') (q + KSTACKSIZE - TF_SIZE - 4) = trapret;
  fm_below : forall x, x < kend -> kmem_mem st' x = kmem_mem st x;
  fm_rest : forall p x, kpage kend p -> (p ∉ q :: l) -> in_page p x -> kmem_mem st' x = kmem_mem st x
}.
Lemma evolves_below st l O' st' l' x : free_inv kend st l -> evolves kend (fun _ => False) st l O' st' l' -> x < kend -> kmem_mem st' x = kmem_mem st x.
Proof.
  intros Hf (_ & _ & Hs) Hx. apply Hs. intros p Hp Hin. assert (kpage kend p) as (_ & Hk & _); [|unfold in_page in Hin; lia].
  destruct Hp as [[]|Hp]. by eapply kpage_not_free.
Qed.
Lemma first_frame_out m tf x : x < tf \/ tf + TF_SIZE <= x -> first_frame m tf x = m x.
Proof. intros Hx. unfold first_frame. cbv zeta. rewrite !st32_out, !st16_out, memset_correct by lia. zcases; done. Qed.
Lemma first_frame_ok m tf : mem_ok m -> mem_ok (first_frame m tf).
Proof. intros Hm. unfold first_frame. cbv zeta. auto 20 using st16_ok, st32_ok with word lia. Qed.

(** The two steps on memory before the trap frame is made. *)
Lemma first_space st q l : free_inv kend st (q :: l) -> (67 <= length l)%nat ->
  exists d st1 st2 l2, setupkvm kend kdata (stacked trapret forkret_addr q st) = Ret d st1 /\ d <> 0 /\ inituvm d start size st1 = Ret tt st2 /\ vm_ok kend st2 l2 d /\
    evolves kend (fun _ => False) (stacked trapret forkret_addr q st) l (owned (kmem_mem st2) d) st2 l2 /\
    forall va, uva va -> uview (kmem_mem st2) d va = if va <? 4096 then Some (7, if va <? size then kmem_mem st (start + va) else 0) else None.
Proof.
  intros Hf Hlen. destruct (stacked_evolves kend trapret forkret_addr Hkend q l st Hf) as (_ & He0 & _). set (st0 := stacked trapret forkret_addr q st) in *.
  assert (free_inv kend st0 l) as Hf0 by apply He0.
  destruct (setupkvm_ok kend kdata Hkend Hdata Hdal st0 l Hf0) as (d & st1 & l1 & E1 & [(Hd & Hv1 & He1 & Hu1 & _ & Hl)|(_ & _ & Hl)]); [|lia].
  assert (2 <= length l1)%nat as Hl1 by lia.
  destruct (inituvm_ok kend Hkend d start size st1 l1 Hv1 Hl1 Hsize Hstart (Hu1 0 ltac:(unfold uva; lia))) as (st2 & l2 & E2 & Hv2 & He2 & Hu2).
  exists d, st1, st2, l2. split_and!; try done; [by eapply evolves_trans|]. intros va Hva. rewrite Hu2 by done. rewrite Hu1 by done. destruct (Z.ltb_spec va 4096); [|done].
  destruct (Z.ltb_spec va size); [|done]. unfold uva in Hva. do 2 f_equal.
  rewrite (evolves_below _ _ _ _ _ (start + va) Hf0 He1) by lia. by rewrite (evolves_below _ _ _ _ _ (start + va) Hf He0) by lia.
Qed.
Lemma first_memory st q l d st2 l2 : free_inv kend st (q :: l) -> vm_ok kend st2 l2 d ->
  evolves kend (fun _ => False) (stacked trapret forkret_addr q st) l (owned (kmem_mem st2) d) st2 l2 ->
  (forall va, uva va -> uview (kmem_mem st2) d va = if va <? 4096 then Some (7, if va <? size then kmem_mem st (start + va) else 0) else None) ->
  first_made st q l (Kalloc.set_mem (first_frame (kmem_mem st2) (q + KSTACKSIZE - TF_SIZE)) st2) l2 d.
Proof.
  intros Hf Hv He Hu. destruct (stacked_evolves kend trapret forkret_addr Hkend q l st Hf) as (_ & He0 & Hkq & Hql & _). set (st0 := stacked trapret forkret_addr q st) in *.
  assert (free_inv kend st0 l) as Hf0 by apply He0. assert (free_inv kend st2 l2) as Hf2 by by eapply vm_ok_free.
  assert (forall p, owned (kmem_mem st2) d p \/ p ∈ l2 <-> p ∈ l) as Hp by (intros p; rewrite (proj1 (proj2 He) p); tauto).
  assert (~ owned (kmem_mem st2) d q) as Hqo by (intros Ho; apply Hql, Hp; by left). assert (q ∉ l2) as Hq2 by (intros Ho; apply Hql, Hp; by right).
  set (tf := q + KSTACKSIZE - TF_SIZE). set (m3 := first_frame (kmem_mem st2) tf).
  assert (same_outside (eq q) (kmem_mem st2) m3) as Hs by (intros x Hx; apply first_frame_out; specialize (Hx q eq_refl); unfold in_page, tf in *; lia).
  assert (mem_ok m3) as Hm3 by (apply first_frame_ok, Hf2).
  pose proof (write_page kend (eq q) q st2 l2 m3 Hf2 Hkq Hq2 eq_refl Hm3 Hs) as He3.
  assert (forall p, q = p -> kpage kend p /\ ~ owned (kmem_mem st2) d p) as HO by (by intros p <-).
  destruct (bystander kend _ _ _ _ _ _ d Hv He3 HO) as (Hv3 & _ & Ho3 & _). pose proof (bystander_uview kend _ _ _ _ _ _ d Hv He3 HO) as Hu3.
  assert (forall x, in_page q x -> kmem_mem st2 x = kmem_mem st0 x) as Hq by (intros x Hx; by eapply (evolves_page kend _ l)).
  split; [done | intros va Hva; by rewrite Hu3, Hu | intros p; rewrite Ho3, elem_of_cons; specialize (Hp p); tauto | by rewrite Ho3 | by exists (kmem_mem st2) | | |].
  - destruct (make_context_frame trapret forkret_addr (kmem_mem st) tf Htr Hfr) as [E1 E2]. fold tf.
    split; [rewrite <- E1 | rewrite <- E2]; apply ld32_ext; intros x Hx; cbn [kmem_mem Kalloc.set_mem]; unfold m3; rewrite first_frame_out by lia; apply Hq; unfold in_page, tf in *; lia.
  - intros x Hx. cbn [kmem_mem Kalloc.set_mem]. destruct Hkq as (_ & Hkq & _). unfold m3, tf. rewrite first_frame_out by lia.
    rewrite (evolves_below _ _ _ _ _ x Hf0 He) by done. by apply (evolves_below _ _ _ _ _ x Hf He0).
  - intros p x Hkp Hpl Hx. cbn [kmem_mem Kalloc.set_mem]. assert (p <> q) as Hne by (intros ->; apply Hpl; left). destruct (kpage_ne kend p q Hkp Hkq Hne) as [Hlt|Hlt]; unfold in_page in Hx;
      (unfold m3, tf; rewrite first_frame_out by lia; rewrite (evolves_page kend _ l _ _ _ p x Hf0 He Hkp ltac:(intros Hin; apply Hpl; by right) Hx); exact (evolves_page kend _ (q :: l) _ _ _ p x Hf He0 Hkp Hpl Hx)).
Qed.

(** What userinit finds when main calls it, and the process that it makes. *)
Record bootable (fy : fsys S) (st : kst) (procs : list proc) (l : list Z) (np : nat) (y : proc) : Prop := {
  bt_slot : first_proc (is_state UNUSED) procs 0 = Some np;
  bt_proc : procs !! np = Some y;
  bt_free : free_inv kend st l;
  bt_memory : (68 <= length l)%nat;
  bt_inodes : unused (fs_ic fy);
  bt_slash : kmem_mem st slash_str = SLASH /\ kmem_mem st (slash_str + 1) = 0
}.
Definition initcode_name : list Z := [105; 110; 105; 116; 99; 111; 100; 101].
Definition first_process (n : Z) (y : proc) (q d : Z) : proc :=
  Proc PGSIZE d q RUNNABLE n (p_parent y) (q + KSTACKSIZE - TF_SIZE) (q + KSTACKSIZE - TF_SIZE - 4 - CTX_SIZE) (p_chan y) (p_killed y)
    (p_ofile y) (Some 0%nat) (safestrcpy16 (p_name y) initcode_name).
Lemma userinit_ok fy st ft pi procs n i l np y : bootable fy st procs l np y ->
  exists q l0 d st' l' fy', l = q :: l0 /\ first_made st q l0 st' l' d /\ fs_blk fy' = fs_blk fy /\ fs_ic fy' = alter root_inode 0%nat (fs_ic fy) /\
    userinit devread kend kdata trapret forkret_addr start size lookup_de namebuf slash_str (Kern (FK fy st ft pi) (Pts procs n i)) =
    Ret tt (Kern (FK fy' st' ft pi) (Pts (<[np := first_process n y q d]> procs) (s32 (n + 1)) (Some np))).
Proof.
  intros [Hfp Hy Hf Hlen Hun [Hs0 Hs1]]. destruct l as [|q l0]; [simpl in Hlen; lia|]. simpl in Hlen.
  destruct (first_space st q l0 Hf ltac:(lia)) as (d & st1 & st2 & l2 & E1 & Hd & E2 & Hv & He & Hu).
  pose proof (first_memory st q l0 d st2 l2 Hf Hv He Hu) as Hm. set (st3 := Kalloc.set_mem _ _) in Hm.
  assert (np < length procs)%nat as Hnp by by eapply lookup_lt_Some.
  exists q, l0, d, st3, l2, (set_ic (alter root_inode 0%nat (fs_ic fy)) (set_fmem (kmem_mem st3) fy)). split_and!; [done.. |].
  unfold userinit. rewrite (bind_Ret _ _ _ _ _ (allocproc_some kend trapret forkret_addr Hkend _ _ _ _ _ _ _ _ _ _ _ Hfp Hy Hf)). cbv beta iota.
  rewrite (bind_Ret _ _ _ _ _ (run_pt (modify (fun t => Pts (pt_proc t) (pt_nextpid t) (Some np))) _ _ _ _ eq_refl)). cbn [pt_proc pt_nextpid].
  rewrite (bind_Ret _ _ _ _ _ (run_kmm _ _ _ _ _ _ _ _ E1)), (bind_Ret _ _ _ _ _ (run_pt _ _ _ _ _ (upd_slot procs np _ _ _ _ Hnp))).
  unfold panic_if. rewrite (proj2 (Z.eqb_neq d 0) Hd), (bind_Ret (ret tt) _ _ _ _ eq_refl).
  rewrite (bind_Ret _ _ _ _ _ (run_kmm _ _ _ _ _ _ _ _ E2)), (bind_Ret _ _ _ _ _ (run_pt _ _ _ _ _ (upd_slot procs np _ _ _ _ Hnp))), (bind_Ret _ _ _ _ _ (run_pt _ _ _ _ _ (prc_slot procs np _ _ _ Hnp))).
  cbv beta. rewrite (bind_Ret _ _ _ _ _ (run_store _ _ _ _ _ _)), (bind_Ret _ _ _ _ _ (run_pt _ _ _ _ _ (upd_slot procs np _ _ _ _ Hnp))).
  cbn [p_tf set_vm embryo set_stack]. fold st3.
  assert (kmem_mem st3 slash_str = SLASH /\ kmem_mem st3 (slash_str + 1) = 0) as [Hs0' Hs1'] by (by rewrite !(fm_below _ _ _ _ _ _ Hm) by lia).
  rewrite (bind_Ret _ _ _ _ _ (kfs_root 1 0 devread lookup_de slash_str namebuf fy st3 ft pi _ Hun Hs0' Hs1')), (bind_Ret _ _ _ _ _ (run_pt _ _ _ _ _ (upd_slot procs np _ _ _ _ Hnp))). by rewrite (run_pt _ _ _ _ _ (upd_slot procs np _ _ _ _ Hnp)).
Qed.
End userinit.

(** ** The first run *)

(** The memory that a process sees. *)
Definition user_mem (m : mem) (d : Z) : mem := fun va => match uview m d va with Some (_, b) => b | None => 0 end.
Lemma user_mem_ok m d : mem_ok m -> mem_ok (user_mem m d).
Proof. intros Hm va. unfold user_mem, uview. destruct (mapped m d va); [apply Hm | lia]. Qed.
Lemma saved_ext m m' tf u : saved m tf u -> (forall i, 0 <= i < TF_SIZE -> m (tf + i) = m' (tf + i)) -> saved m' tf u.
Proof.
  intros [G1 S1 I1 F1] Hm.
  assert (forall o, 0 <= o -> o + 4 <= TF_SIZE -> ld32 m' (tf + o) = ld32 m (tf + o)) as H32 by (intros o H0 H1; unfold ld32; rewrite <- !Z.add_assoc, !Hm by lia; done).
  assert (forall o, 0 <= o -> o + 2 <= TF_SIZE -> ld16 m' (tf + o) = ld16 m (tf + o)) as H16 by (intros o H0 H1; unfold ld16; rewrite <- !Z.add_assoc, !Hm by lia; done).
  split.
  - intros r. rewrite <- G1. unfold tf_reg. destruct r; xoffset; apply H32; lia.
  - intros r. rewrite <- S1. unfold tf_seg. destruct r; xoffset; apply H16; lia.
  - rewrite <- I1. unfold tf_word. xoffset. apply H32; lia.
  - rewrite <- F1. unfold tf_word. xoffset. apply H32; lia.
Qed.
Lemma initcode_data_ext m m' argv init n : initcode_data m argv init -> 0 <= init -> init + 7 <= n -> 0 <= argv -> argv + 8 <= n -> (forall a, 0 <= a < n -> m' a = m a) -> initcode_data m' argv init.
Proof.
  intros (Hi & Ha & H0 & H1) Hi0 Hi1 Ha0 Ha1 Hm. split_and!; [rewrite <- Hi; apply bytes_at_ext | done | rewrite <- H0; apply ld32_ext | rewrite <- H1; apply ld32_ext]; intros x Hx; apply Hm; lia.
Qed.

(** C26: the first process.  At the end of main, with free memory and slots, userinit
    makes a process in the first slot that is runnable and remembered as initproc.
    When the scheduler switches to it, it goes through forkret and trapret into user
    space with interrupts on, at address 0, where it sees the code of initcode.S;
    that code, on any assembly of it that leaves room for its stack, makes the
    system call exec with the path "/init" and an argument vector of just that
    string, all of which pass the checks of the kernel. *)
Theorem first_process_execs_init {S : Type} `{!BlockOps S} (devread : Z -> option (nat -> Z -> Z -> M (fsys S) Z))
    (kend kdata trapret forkret_addr initcode size lookup_de namebuf slash_str argv init : Z) fy st ft pi procs n i l np y :
  KERNLINK <= kend < KERNBASE + PHYSTOP -> KERNLINK < kdata < KERNBASE + PHYSTOP -> kdata mod 4096 = 0 -> 0 <= trapret < W32 -> 0 <= forkret_addr < W32 ->
  0 <= size <= 4084 -> initcode + size <= kend -> slash_str + 2 <= kend -> bootable kend slash_str fy st procs l np y ->
  initcode_data (fun a => kmem_mem st (initcode + a)) argv init -> 0 < init -> init + 7 <= size -> 0 < argv -> argv + 8 <= size ->
  exists k' c, userinit devread kend kdata trapret forkret_addr initcode size lookup_de namebuf slash_str (Kern (FK fy st ft pi) (Pts procs n i)) = Ret tt k' /\
    pt_init (k_pt k') = Some np /\ pt_proc (k_pt k') !! np = Some c /\ p_state c = RUNNABLE /\
    forall s old s2, switches_to (kmem_mem (fk_kst (k_fk k'))) (p_kstack c) (p_context c) s old -> returned (run swtch s) s2 TF_SIZE ->
      eip (run swtch s) = forkret_addr /\ eip s2 = trapret /\
      let u := run Asm.trapret s2 in
      eip u = 0 /\ Z.land (seg u CS) 3 = 3 /\ flags u = FL_IF /\
      exists s3, to_int (start argv init) (set_xmem (user_mem (kmem_mem (fk_kst (k_fk k'))) (p_pgdir c)) u) = Some (T_SYSCALL, s3) /\ gpr s3 EAX = number SYS "exec" /\
        argstr (xmem s3) (p_sz c) (esp s3) 0 = Some (init, 5) /\ argint (xmem s3) (p_sz c) (esp s3) 1 = Some argv /\
        exec_args (xmem s3) (p_sz c) (u32 argv) 32 0 [] = Some [init] /\ bytes_at (xmem s3) init 5 = [47; 105; 110; 105; 116].
Proof.
  intros Hk Hd Ha Ht Hr Hsz Hic Hsl Hbt Hdat Hi0 Hi1 Hv0 Hv1.
  destruct (userinit_ok devread kend kdata trapret forkret_addr initcode size lookup_de namebuf slash_str Hk Hd Ha Ht Hr ltac:(lia) Hic Hsl fy st ft pi procs n i l np y Hbt)
    as (q & l0 & d & st' & l' & fy' & -> & Hm & _ & _ & E).
  eexists _, (first_process n y q d). split; [exact E|]. cbn [k_pt k_fk pt_init pt_proc fk_kst]. split; [done|].
  split; [apply list_lookup_insert_eq; by eapply lookup_lt_Some, bt_proc|]. split; [done|]. cbn [first_process p_kstack p_context p_pgdir p_sz]. intros s old s2 Hs Hrt.
  pose proof (new_starts _ _ _ _ (fm_context _ _ _ _ _ _ _ _ _ _ _ Hm) _ _ Hs) as (Hf & _).
  destruct (new_frame_there _ _ _ _ (fm_context _ _ _ _ _ _ _ _ _ _ _ Hm) _ _ Hs s2 Hrt) as (Hi & He & Hl & Hfr). split; [done|]. split; [done|].
  assert (kpage kend q) as Hkq by (eapply kpage_not_free; [apply (bt_free _ _ _ _ _ _ _ _ Hbt) | left]). destruct (kpage_range kend (kend_ok kend Hk) q Hkq) as (Hq1 & Hq2 & _).
  destruct (fm_frame _ _ _ _ _ _ _ _ _ _ _ Hm) as (m0 & Hm0). set (tf := q + KSTACKSIZE - TF_SIZE) in *.
  assert (forall j, 0 <= j < TF_SIZE -> xmem s2 (tf + j) = first_frame m0 tf (tf + j)) as Hx by (intros j Hj; by rewrite Hfr, Hm0).
  assert (Z.land (tf_seg (xmem s2) tf CS) 3 = 3) as Hcs.
  { destruct (first_frame_fields m0 tf) as (Hc & _). cbv zeta in Hc. replace (tf_seg (xmem s2) tf CS) with 27; [done|]. rewrite <- Hc. unfold tf_seg, ld16. xoffset. by rewrite <- !Z.add_assoc, !Hx by lia. }
  destruct (trapret_loads s2 tf He ltac:(lia) Hl Hcs) as [Su _]. cbv zeta. apply (first_frame_enters _ m0 _ tf); try lia.
  - by eapply saved_ext.
  - apply user_mem_ok. apply (vm_ok_free _ _ _ _ (fm_space _ _ _ _ _ _ _ _ _ _ _ Hm)).
  - eapply initcode_data_ext; [exact Hdat | lia | exact Hi1 | lia | exact Hv1 |]. intros a Ha'. unfold user_mem. rewrite (fm_view _ _ _ _ _ _ _ _ _ _ _ Hm) by (unfold uva; lia). by zcases.
Qed.
(** A machine at the end of main. *)
Definition demo_kernel : mem := fun a =>
  if a =? 2148540000 then SLASH else if (KERNLINK <=? a) && (a <? KERNLINK + 116) then demo_initcode (a - KERNLINK) else 0.
Definition demo_booted : kst := KSt (pool_mem demo_kernel 1100 demo_q) (hd 0 (pool 1100 demo_q)) true.
Definition demo_fs : fsys ideal := FSt (Ideal (fun _ => [])) (Superblock 0 0 0 0 0 0 0) [no_inode] (fun _ => 0).
Lemma demo_bootable : bootable demo_kend 2148540000 demo_fs demo_booted [zero_proc] (pool 1100 demo_q) 0 zero_proc.
Proof.
  split; [done | done | | vm_compute; lia | split; [done | by repeat constructor] |].
  - apply pool_free; [| done | unfold demo_kend, demo_dir; lia | unfold demo_dir; lia].
    intros a. unfold demo_kernel. destruct (a =? 2148540000); [lia|]. destruct (_ && _); [apply demo_initcode_ok | lia].
  - unfold demo_booted. cbn [kmem_mem]. unfold demo_dir. rewrite !pool_below by lia. done.
Qed.
Lemma first_process_execs_init_witness : exists u s3, to_int (start 108 100) u = Some (64, s3) /\ gpr s3 EAX = 7.
Proof.
  destruct (first_process_execs_init (fun _ => None) demo_kend 2148536320 2148532224 2148532230 KERNLINK 116 0 0 2148540000 108 100 demo_fs demo_booted [] (fun _ => PSt (Pipe [] 0 0 0 0) [] [] [])
    [zero_proc] 1 None (pool 1100 demo_q) 0 zero_proc) as (k' & c & E & _ & Hc & _ & Hrun); [unfold demo_kend; lia | lia | done | lia | lia | lia | unfold demo_kend; lia | unfold demo_kend; lia | apply demo_bootable | | lia | lia | lia | lia |].
  - eapply (initcode_data_ext demo_initcode _ _ _ 116); [apply demo_initcode_ok | lia | lia | lia | lia|]. intros a Ha. unfold demo_booted. cbn [kmem_mem]. unfold demo_dir.
    rewrite pool_below by lia. unfold demo_kernel. zcases. f_equal. lia.
  - destruct (userinit_ok (fun _ => None) demo_kend 2148536320 2148532224 2148532230 KERNLINK 116 0 0 2148540000 ltac:(unfold demo_kend; lia) ltac:(lia) eq_refl ltac:(lia) ltac:(lia) ltac:(lia) ltac:(unfold demo_kend; lia) ltac:(unfold demo_kend; lia)
      demo_fs demo_booted [] (fun _ => PSt (Pipe [] 0 0 0 0) [] [] []) [zero_proc] 1 None (pool 1100 demo_q) 0 zero_proc demo_bootable) as (q & l0 & d & st' & l' & fy' & Hql & _ & _ & _ & E').
    assert (q = demo_q) as -> by exact (pool_hd 1099 _ _ _ Hql). rewrite E in E'. injection E' as ->. injection Hc as <-.
    destruct (return_exists (run swtch (demo_scheduler (kmem_mem st'))) TF_SIZE) as (s2 & Hs2).
    destruct (Hrun (demo_scheduler (kmem_mem st')) 2000 s2 (demo_switches _) Hs2) as (_ & _ & _ & _ & _ & s3 & E3 & He & _). eexists _, s3. split; [exact E3 | exact He].
Defined.
