(* ===== verification/Main.v ===== *)
(** * Starting the other processors (startothers of main.c)

    startothers copies the code of entryother.S to a low page and then, for each of
    the other processors, takes a page for its stack, leaves three words for the
    code, sends the messages that start it and waits for its flag.  What the other
    processor does meanwhile is the parameter [other]: one call of it for each time
    that the flag is looked at.

    The theorem composes the page allocator, the local APIC and entryother.S: a
    processor that is started finds what its code needs, so that it comes up, and
    startothers returns. *)

From S2P Require Import Prelude Mem CString Mmu Kalloc PageTable Uvm Seg Asm Lapic Start.
#[local] Open Scope Z_scope.

Section startothers.
Context {H : Type} `{!Lapic H, !Ports H}.
(** The image of entryother.S, linked to the kernel; functions and data of the
    kernel; the place of the flags. *)
Context (image size mpenter entrypgdir_addr : Z) (started_addr : nat -> Z).
Context (other : nat -> kst * H -> kst * H).

Definition code : Z := P2V 28672.
Definition km {A} (m : M kst A) : M (kst * H) A := zoom fst (fun k s => (k, s.2)) m.
Definition kstore (f : mem -> mem) : M (kst * H) unit := km (modify (fun st => Kalloc.set_mem (f (kmem_mem st)) st)).
(** The device and the memory of the kernel together, for lapicstartap. *)
Definition on_apic (m : M (H * mem) unit) : M (kst * H) unit :=
  zoom (fun s => (s.2, kmem_mem s.1)) (fun t s => (Kalloc.set_mem t.2 s.1, t.1)) m.
Definition is_started (c : nat) (s : kst * H) : bool := negb (ld32 (kmem_mem s.1) (started_addr c) =? 0).
(** [while(c->started == 0)] *)
Fixpoint wait_started (fuel c : nat) : M (kst * H) unit :=
  match fuel with
  | O => diverge
  | S fuel => b <- gets (is_started c) ;; if b : bool then ret tt else modify (other c) ;;; wait_started fuel c
  end.
Definition startother (fuel c : nat) (apicid : Z) : M (kst * H) unit :=
  stack <- km kalloc ;;
  kstore (fun m => st32 m (code - 4) (u32 (stack + KSTACKSIZE))) ;;;
  kstore (fun m => st32 m (code - 8) mpenter) ;;;
  kstore (fun m => st32 m (code - 12) (V2P entrypgdir_addr)) ;;;
  on_apic (lapicstartap apicid (V2P code)) ;;;
  wait_started fuel c.
(** The loop over [cpus], of which [me] is the caller's. *)
Fixpoint startothers_loop (fuel : nat) (cpus : list Z) (c me : nat) : M (kst * H) unit :=
  match cpus with
  | [] => ret tt
  | id :: cpus => (if Nat.eqb c me then ret tt else startother fuel c id) ;;; startothers_loop fuel cpus (c + 1) me
  end.
Definition startothers (fuel : nat) (cpus : list Z) (me : nat) : M (kst * H) unit :=
  kstore (fun m => memmove m code image size) ;;;
  startothers_loop fuel cpus 0 me.
End startothers.

(** ** The other processors come up *)

Section laws.
Context {H : Type} `{!Lapic H, !Ports H, !LapicLaws H}.
Context (kend image size mpenter entrypgdir_addr : Z) (started_addr : nat -> Z) (other : nat -> kst * H -> kst * H).
Context (Hkend : KERNLINK <= kend <= KERNBASE + FOURMB) (Hsize : 0 <= size <= 4096) (Himg : KERNLINK <= image /\ image + size <= kend).
Context (Hepd : KERNLINK <= entrypgdir_addr /\ entrypgdir_addr + 4096 <= kend /\ entrypgdir_addr mod 4096 = 0).
Context (Hmp : 0 <= mpenter < W32).
(** Data of the kernel that does not change. *)
Context (rodata : Z -> Prop) (Hro : forall x, rodata x -> KERNLINK <= x < kend).
Implicit Types (st : kst) (h : H) (m : mem).

(** Any processor without paging that runs the code of entryother.S on this memory
    calls mpenter on the stack in the page [q]. *)
Definition enters_kernel m (q : Z) : Prop := forall b start32 gdtdesc after,
  Z.land (Start.cr0 (ctl b)) CR0_PG = 0 -> (forall a, 0 <= a < FOURMB -> xmem (core b) a = m (a + KERNBASE)) ->
  exists b', brun (entryother16 start32 gdtdesc ++ entryother32 28672 after) b = Some b' /\ eip (core b') = mpenter /\ esp (core b') = q + KSTACKSIZE - 4.
(** The page of the code, and the directory. *)
Definition image_there m0 m : Prop := forall i, 0 <= i < size -> m (code + i) = m0 (image + i).
Definition directory_there m : Prop := forall i, 0 <= i < 1024 -> ld32 m (entrypgdir_addr + 4 * i) = entrypgdir i.
(** What the processor with the stack [q] leaves alone: the pages of others and the
    allocator, what other processors still need, and this processor's APIC. *)
Record quiet (q : Z) (s s' : kst * H) : Prop := {
  qu_list : kmem_freelist s'.1 = kmem_freelist s.1 /\ kmem_use_lock s'.1 = kmem_use_lock s.1;
  qu_ok : mem_ok (kmem_mem s'.1);
  qu_pages : forall x, kend <= x -> ~ in_page q x -> kmem_mem s'.1 x = kmem_mem s.1 x;
  qu_data : forall x, code <= x < code + size \/ entrypgdir_addr <= x < entrypgdir_addr + 4096 \/ rodata x -> kmem_mem s'.1 x = kmem_mem s.1 x;
  qu_sent : la_sent s'.2 = la_sent s.2
}.
(** The other processor: when the messages tell it to start at the page of the code
    and the code, which is there, leads it to the kernel, it sets its flag. *)
Context (m0 : mem).
Definition comes_up : Prop := forall c id q st h, mem_ok (kmem_mem st) -> image_there m0 (kmem_mem st) -> enters_kernel (kmem_mem st) q -> (id, Z.lor STARTUP 7) ∈ la_sent h ->
  exists n, is_started started_addr c (Nat.iter n (other c) (st, h)) = true /\ forall j, (j <= n)%nat -> quiet q (st, h) (Nat.iter j (other c) (st, h)).

Lemma wait_started_ok q c n : forall s, is_started started_addr c (Nat.iter n (other c) s) = true -> (forall j, (j <= n)%nat -> quiet q s (Nat.iter j (other c) s)) ->
  exists N s', quiet q s s' /\ forall fuel, (N <= fuel)%nat -> wait_started started_addr other fuel c s = Ret tt s'.
Proof.
  assert (forall n s t, quiet q t s -> is_started started_addr c (Nat.iter n (other c) s) = true -> (forall j, (j <= n)%nat -> quiet q t (Nat.iter j (other c) s)) ->
    exists N s', quiet q t s' /\ forall fuel, (N <= fuel)%nat -> wait_started started_addr other fuel c s = Ret tt s') as Hgen.
  { clear n. induction n as [|n IH]; intros s t Ht Hs Hq.
    - exists 1%nat, s. split; [done|]. intros [|fuel] Hf; [lia|]. cbn [wait_started]. rewrite bind_gets. simpl in Hs. by rewrite Hs.
    - destruct (is_started started_addr c s) eqn:E; [exists 1%nat, s; split; [done|]; intros [|fuel] Hf; [lia|]; cbn [wait_started]; by rewrite bind_gets, E|].
      destruct (IH (other c s) t) as (N & s' & Hq' & HN).
      + apply (Hq 1%nat). lia.
      + by rewrite Nat.iter_succ_r in Hs.
      + intros j Hj. rewrite <- Nat.iter_succ_r. apply Hq. lia.
      + exists (S N), s'. split; [done|]. intros [|fuel] Hf; [lia|]. cbn [wait_started]. rewrite bind_gets, E, bind_modify. apply HN. lia. }
  intros s Hs Hq. apply (Hgen n s s); [by apply (Hq 0%nat); lia | done | done].
Qed.

(** The memory when the messages are sent. *)
Definition handed m (q : Z) : mem := st32 (st32 (st32 m (code - 4) (u32 (q + KSTACKSIZE))) (code - 8) mpenter) (code - 12) (V2P entrypgdir_addr).
Lemma code_eq : code = 2147512320.
Proof. done. Qed.
Lemma handed_enters m m' q : mem_ok m -> directory_there m -> kend <= q -> q + 4096 <= KERNBASE + FOURMB ->
  (forall x, x < P2V 1127 \/ P2V 1127 + 4 <= x -> m' x = handed m q x) -> enters_kernel m' q.
Proof using Hkend Hepd Hmp.
  intros Hok Hdir Hq Hq4 Hm b start32 gdtdesc after Hpg Hb. change (P2V 1127) with 2147484775 in Hm. unfold FOURMB in *.
  assert (forall x, code - 12 <= x < KERNBASE + 4194304 -> xmem (core b) (x - KERNBASE) = handed m q x) as Hx.
  { intros x Hx. rewrite code_eq in Hx. rewrite Hb by lia. rewrite Hm by lia. f_equal. lia. }
  destruct (entryother_runs b 28672 start32 gdtdesc after (q + KSTACKSIZE) mpenter (V2P entrypgdir_addr)) as (b' & E & Hi & Hs & _); [done | unfold FOURMB; lia | unfold FOURMB; lia | | | |].
  - assert (forall o v, ld32 (handed m q) (code - o) = v -> 4 <= o <= 12 -> ld32 (xmem (core b)) (28672 - o) = v) as Hld.
    { intros o v <- Ho. apply ld32_shift. intros k Hk. rewrite <- Hx by (rewrite code_eq; lia). rewrite code_eq. f_equal. lia. }
    unfold handed in Hld. rewrite V2P_eq in * by lia. split; apply Hld; try lia.
    + rewrite !ld32_st32_ne, ld32_st32_eq, u32_small by (apply u32_range || lia). done.
    + rewrite ld32_st32_ne, ld32_st32_eq by lia. done.
    + rewrite ld32_st32_eq by lia. done.
  - rewrite V2P_eq, PTE_ADDR_eq by lia. zlia.
  - intros i Hi. rewrite <- Hdir by done. rewrite V2P_eq by lia.
    assert (forall x, entrypgdir_addr <= x < entrypgdir_addr + 4096 -> xmem (core b) (x - KERNBASE) = m x) as Hxx.
    { intros x Hx'. rewrite Hx by (rewrite code_eq; lia). unfold handed. rewrite code_eq. by rewrite !st32_out by lia. }
    apply ld32_shift. intros k Hk. rewrite <- Hxx by lia. f_equal. lia.
  - exists b'. split; [done|]. split; [done|]. rewrite Hs. lia.
Qed.

Definition start_messages (id : Z) : list (Z * Z) := [(id, Z.lor (Z.lor INIT LEVEL) ASSERT); (id, Z.lor INIT LEVEL); (id, Z.lor STARTUP 7); (id, Z.lor STARTUP 7)].
(** What holds between two turns of the loop. *)
Record ready st (l : list Z) : Prop := {
  rd_free : free_inv kend st l;
  rd_image : image_there m0 (kmem_mem st);
  rd_dir : directory_there (kmem_mem st)
}.
(** What startothers leaves alone: data, and the pages that were not free. *)
Definition kept st st' (l : list Z) : Prop :=
  forall x, rodata x \/ (kend <= x /\ forall p, p ∈ l -> ~ in_page p x) -> kmem_mem st' x = kmem_mem st x.
(** Stores below the kernel's image, outside the page of the code. *)
Lemma ready_low st l m : ready st l -> mem_ok m -> (forall x, code <= x -> m x = kmem_mem st x) -> ready (Kalloc.set_mem m st) l.
Proof using Hkend Hepd.
  intros [Hf Hi Hd] Hok Hm. rewrite code_eq in Hm. split.
  - apply free_inv_ext; [done | done|]. intros q x Hq Hx. apply Hm. pose proof (kpage_not_free kend _ _ _ Hf Hq) as (_ & Hk & _). lia.
  - intros j Hj. cbn [kmem_mem Kalloc.set_mem]. rewrite Hm by (rewrite code_eq; lia). by apply Hi.
  - intros j Hj. rewrite <- Hd by done. cbn [kmem_mem Kalloc.set_mem]. apply ld32_ext. intros x Hx. apply Hm. lia.
Qed.
Lemma ready_quiet st st' l q h h' : ready st l -> kpage kend q -> (q ∉ l) -> quiet q (st, h) (st', h') -> ready st' l.
Proof using Hkend Hepd.
  intros [Hf Hi Hd] Hk Hql [[Hfl Hul] Hok Hp Hdt _]. cbn [fst snd] in *. split.
  - assert (st' = Kalloc.set_mem (kmem_mem st') st) as -> by (destruct st, st'; simpl in *; by subst).
    apply free_inv_ext; [done | done|]. intros p x Hpl Hx. pose proof (kpage_not_free kend _ _ _ Hf Hpl) as Hkp. apply Hp; [destruct Hkp; lia|].
    unfold in_page. intros Hx'. assert (p <> q) as Hne by congruence. destruct (kpage_ne kend p q Hkp Hk Hne); lia.
  - intros j Hj. rewrite Hdt by lia. by apply Hi.
  - intros j Hj. rewrite <- Hd by done. apply ld32_ext. intros x Hx. apply Hdt. lia.
Qed.
Lemma startother_ok st h c id q l : comes_up -> ready st (q :: l) -> q + 4096 <= KERNBASE + FOURMB -> 0 <= id < 256 ->
  exists N st' h', (forall fuel, (N <= fuel)%nat -> startother mpenter entrypgdir_addr started_addr other fuel c id (st, h) = Ret tt (st', h')) /\
    ready st' l /\ la_sent h' = la_sent h ++ start_messages id /\ kept st st' (q :: l).
Proof using All.
  intros Hup Hr Hq4 Hid. assert (KERNBASE <= kend < KERNBASE + PHYSTOP) as Hke by (unfold FOURMB in *; lia). pose proof Hr as [Hf Hi Hd].
  destruct (kalloc_some kend Hke q l st Hf) as (Ek & Hf1 & Hkq & Hql & Hq0). set (st1 := set_freelist (ld32 (kmem_mem st) q) st) in *.
  assert (ready st1 l) as Hr1 by (by split).
  set (m2 := handed (kmem_mem st) q).
  assert (mem_ok (kmem_mem st)) as Hok by apply Hf. assert (mem_ok m2) as Hok2 by (unfold m2, handed; auto with word).
  destruct (lapicstartap_starts id (V2P code) h m2) as (h' & m3 & El & Hs & _ & _ & Hm3); [done | vm_compute; done | reflexivity |].
  assert (mem_ok m3) as Hok3. { injection El as _ <-. unfold warm_reset. auto with word. }
  change (P2V 1127) with 2147484775 in Hm3.
  assert (ready (Kalloc.set_mem m3 st1) l) as Hr3.
  { apply ready_low; [done | done|]. intros x Hx. rewrite code_eq in Hx. rewrite Hm3 by lia. unfold m2, handed. rewrite code_eq. by rewrite !st32_out by lia. }
  assert (enters_kernel m3 q) as Hen. { apply (handed_enters (kmem_mem st) m3 q); [done | done | destruct Hkq; lia | done | intros x Hx; by apply Hm3]. }
  assert ((id, Z.lor STARTUP 7) ∈ la_sent h') as Hsent. { rewrite Hs. change (Z.shiftr (V2P code) 12) with 7. rewrite !elem_of_app, !elem_of_cons. tauto. }
  destruct (Hup c id q (Kalloc.set_mem m3 st1) h' Hok3 (rd_image _ _ Hr3) Hen Hsent) as (n & Hn & Hqn).
  destruct (wait_started_ok q c n _ Hn Hqn) as (N & [st' h2] & Hqu & HN). exists N, st', h2. split; [|split; [|split]].
  - intros fuel Hfu. unfold startother. rewrite (bind_Ret (km kalloc) _ (st, h) q (st1, h)) by (unfold km, zoom; cbn [fst snd]; by rewrite Ek).
    unfold kstore, km. rewrite !(bind_Ret (zoom _ _ (modify _)) _ _ _ _ eq_refl). cbn [fst snd kmem_mem Kalloc.set_mem].
    rewrite (bind_Ret (on_apic _) _ _ tt (Kalloc.set_mem m3 st1, h')); [by apply HN|]. unfold on_apic, zoom. cbn [fst snd kmem_mem Kalloc.set_mem]. fold (handed (kmem_mem st1) q). change (kmem_mem st1) with (kmem_mem st). fold m2. by rewrite El.
  - eapply ready_quiet; [exact Hr3 | exact Hkq | exact Hql | exact Hqu].
  - pose proof (qu_sent _ _ _ Hqu) as Hq'. cbn [snd] in Hq'. rewrite Hq', Hs. done.
  - intros x Hx. assert (KERNLINK <= x) as Hxk by (destruct Hx as [Hx|[Hx _]]; [apply Hro in Hx|]; lia). transitivity (m3 x).
    + destruct Hx as [Hx|[Hx Hp]]; [exact (qu_data _ _ _ Hqu x (or_intror (or_intror Hx))) | exact (qu_pages _ _ _ Hqu x Hx (Hp q ltac:(left)))].
    + rewrite Hm3 by lia. unfold m2, handed. rewrite code_eq. by rewrite !st32_out by lia.
Qed.

(** The processors of the table other than the caller's. *)
Fixpoint others (cpus : list Z) (c me : nat) : list Z :=
  match cpus with [] => [] | id :: cpus => if Nat.eqb c me then others cpus (c + 1) me else id :: others cpus (c + 1) me end.
Lemma startothers_loop_ok cpus : forall c me st h l, comes_up -> ready st l -> (length (others cpus c me) <= length l)%nat -> Forall (fun p => p + 4096 <= KERNBASE + FOURMB) l ->
  Forall (fun id => 0 <= id < 256) cpus ->
  exists N st' h', (forall fuel, (N <= fuel)%nat -> startothers_loop mpenter entrypgdir_addr started_addr other fuel cpus c me (st, h) = Ret tt (st', h')) /\
    ready st' (drop (length (others cpus c me)) l) /\ la_sent h' = la_sent h ++ mjoin (start_messages <$> others cpus c me) /\ kept st st' l.
Proof using All.
  induction cpus as [|id cpus IH]; intros c me st h l Hup Hr Hlen Hl Hid; cbn [startothers_loop others] in *.
  - exists 0%nat, st, h. split; [done|]. split; [done|]. simpl. split; [by rewrite app_nil_r | by intros x].
  - apply Forall_cons in Hid as [Hi Hid]. destruct (Nat.eqb c me).
    + destruct (IH (c + 1)%nat me st h l Hup Hr Hlen Hl Hid) as (N & st' & h' & E & H1 & H2). exists N, st', h'. done.
    + simpl in Hlen. destruct l as [|q l]; [simpl in Hlen; lia|]. apply Forall_cons in Hl as [Hq Hl].
      destruct (startother_ok st h c id q l Hup Hr Hq Hi) as (N1 & st1 & h1 & E1 & Hr1 & Hs1 & Hk1).
      destruct (IH (c + 1)%nat me st1 h1 l Hup Hr1 ltac:(simpl in Hlen; lia) Hl Hid) as (N2 & st' & h' & E2 & Hr2 & Hs2 & Hk2).
      exists (N1 + N2)%nat, st', h'. split; [|split; [done|split]].
      * intros fuel Hf. rewrite (bind_Ret _ _ _ _ _ (E1 fuel ltac:(lia))). apply E2. lia.
      * rewrite Hs2, Hs1, <- app_assoc. done.
      * intros x Hx. rewrite Hk2, Hk1; [done | done|]. destruct Hx as [Hx|[Hx Hp]]; [by left | right]. split; [done|]. intros p Hin. apply Hp. by right.
Qed.

Lemma startothers_ok cpus me st h l : comes_up -> m0 = kmem_mem st -> free_inv kend st l -> directory_there (kmem_mem st) ->
  (length (others cpus 0 me) <= length l)%nat -> Forall (fun p => p + 4096 <= KERNBASE + FOURMB) l -> Forall (fun id => 0 <= id < 256) cpus ->
  exists N st' h', (forall fuel, (N <= fuel)%nat -> startothers image size mpenter entrypgdir_addr started_addr other fuel cpus me (st, h) = Ret tt (st', h')) /\
    free_inv kend st' (drop (length (others cpus 0 me)) l) /\ la_sent h' = la_sent h ++ mjoin (start_messages <$> others cpus 0 me) /\ kept st st' l.
Proof using All.
  intros Hup Hm0 Hf Hd Hlen Hl Hid. assert (mem_ok (kmem_mem st)) as Hok by apply Hf.
  set (m1 := memmove (kmem_mem st) code image size). assert (forall x, m1 x = if (code <=? x) && (x <? code + size) then kmem_mem st (image + (x - code)) else kmem_mem st x) as Hm1 by (intros x; by apply memmove_correct; [|lia]).
  rewrite code_eq in Hm1.
  assert (ready (Kalloc.set_mem m1 st) l) as Hr.
  { split.
    - apply free_inv_ext; [done | intros x; rewrite Hm1; by destruct (_ && _)|]. intros q x Hq Hx. pose proof (kpage_not_free kend _ _ _ Hf Hq) as (_ & Hk & _). rewrite Hm1. zcases; done.
    - intros i Hi. cbn [kmem_mem Kalloc.set_mem]. rewrite Hm1, code_eq, Hm0. zcases. f_equal. lia.
    - intros i Hi. rewrite <- Hd by done. cbn [kmem_mem Kalloc.set_mem]. apply ld32_ext. intros x Hx. rewrite Hm1. zcases; done. }
  destruct (startothers_loop_ok cpus 0 me (Kalloc.set_mem m1 st) h l Hup Hr Hlen Hl Hid) as (N & st' & h' & E & [Hf' _ _] & Hs & Hk).
  exists N, st', h'. split; [|split; [done | split; [done|]]].
  - intros fuel Hfu. unfold startothers. rewrite (bind_Ret (kstore (fun m => memmove m code image size)) _ (st, h) tt (Kalloc.set_mem m1 st, h) eq_refl). by apply E.
  - intros x Hx. rewrite (Hk x Hx). cbn [kmem_mem Kalloc.set_mem]. rewrite Hm1. assert (KERNLINK <= x) as Hxk by (destruct Hx as [Hx|[Hx _]]; [apply Hro in Hx|]; lia). by zcases.
Qed.
End laws.

(** C24: the other processors.  When there are as many free pages as other processors,
    all in the first four megabytes, startothers returns: for each other processor,
    in the order of the table, it sends the messages that start it at the low page,
    where the code and what it reads are such that any processor which runs it
    arrives in mpenter on a page of its own; that it then sets its flag is what
    is asked of it.  The pages taken are those stacks, and memory that the kernel
    relies on stays as it was. *)
Theorem startothers_starts_all {H : Type} `{!Lapic H, !Ports H, !LapicLaws H} (kend image size mpenter entrypgdir_addr : Z) (started_addr : nat -> Z) (other : nat -> kst * H -> kst * H)
    (rodata : Z -> Prop) (cpus : list Z) (me : nat) (st : kst) (h : H) (l : list Z) :
  KERNLINK <= kend <= KERNBASE + FOURMB -> 0 <= size <= 4096 -> KERNLINK <= image /\ image + size <= kend ->
  KERNLINK <= entrypgdir_addr /\ entrypgdir_addr + 4096 <= kend /\ entrypgdir_addr mod 4096 = 0 -> 0 <= mpenter < W32 -> (forall x, rodata x -> KERNLINK <= x < kend) ->
  comes_up kend image size mpenter entrypgdir_addr started_addr other rodata (kmem_mem st) ->
  free_inv kend st l -> directory_there entrypgdir_addr (kmem_mem st) ->
  (length (others cpus 0 me) <= length l)%nat -> Forall (fun p => p + 4096 <= KERNBASE + FOURMB) l -> Forall (fun id => 0 <= id < 256) cpus ->
  exists N st' h', (forall fuel, (N <= fuel)%nat -> startothers image size mpenter entrypgdir_addr started_addr other fuel cpus me (st, h) = Ret tt (st', h')) /\
    free_inv kend st' (drop (length (others cpus 0 me)) l) /\ la_sent h' = la_sent h ++ mjoin (start_messages <$> others cpus 0 me) /\ kept kend rodata st st' l.
Proof. intros. by apply startothers_ok with (kmem_mem st). Qed.

(** A machine with two processors, of which the other sets its flag at once. *)
Definition demo_epd : Z := 2148536320.
Definition demo_image (m : mem) : mem := st32 (st32 m demo_epd 131) (demo_epd + 2048) 131.
Definition demo_machine : kst := Kalloc.set_mem (demo_image (kmem_mem demo_st)) demo_st.
Definition demo_other {H} (c : nat) (s : kst * H) : kst * H := (Kalloc.set_mem (st32 (kmem_mem s.1) 2148532224 1) s.1, s.2).
Lemma demo_directory m : (forall x, demo_epd <= x < demo_epd + 4096 -> m x = 0) -> directory_there demo_epd (demo_image m).
Proof.
  intros Hm i Hi. unfold demo_image, entrypgdir. change (Z.shiftr KERNBASE 22) with 512. change (Z.lor (Z.lor (Z.lor 0 PTE_P) PTE_W) PTE_PS) with 131.
  destruct (Z.eqb_spec i 512) as [->|]; [rewrite orb_true_r; by rewrite ld32_st32_eq by lia|]. rewrite ld32_st32_ne, orb_false_r by lia. destruct (Z.eqb_spec i 0) as [->|].
  - rewrite Z.add_0_r. by rewrite ld32_st32_eq by lia.
  - rewrite ld32_st32_ne by lia. unfold ld32. by rewrite !Hm by lia.
Qed.
Lemma demo_machine_ready : free_inv demo_kend demo_machine demo_free /\ directory_there demo_epd (kmem_mem demo_machine).
Proof.
  split; [|apply demo_directory; intros x Hx; unfold demo_st, demo_epd in *; cbn [kmem_mem]; by rewrite st32_out by lia].
  apply free_inv_ext; [apply demo_free_inv | apply st32_ok, st32_ok, demo_free_inv|]. intros q x Hq Hx. unfold demo_image, demo_epd. rewrite !st32_out; [done | |];
    (unfold demo_free in Hq; rewrite !elem_of_cons, elem_of_nil in Hq; destruct Hq as [->|[->|[]]]; lia).
Qed.
Lemma demo_comes_up {H} `{!Lapic H, !Ports H, !LapicLaws H} (rodata : Z -> Prop) m0 : (forall x, rodata x -> 2148532228 <= x) ->
  comes_up demo_kend demo_epd 0 2148550000 demo_epd (fun _ => 2148532224) (demo_other (H:=H)) rodata m0.
Proof.
  intros Hro c id q st h Hok _ _ _. exists 1%nat. split.
  - unfold is_started. cbn [Nat.iter nat_rect demo_other fst kmem_mem Kalloc.set_mem]. by rewrite ld32_st32_eq by lia.
  - intros [|[|j]] Hj; [by split | | lia]. split; try done; cbn [Nat.iter nat_rect demo_other fst kmem_mem Kalloc.set_mem].
    + by apply st32_ok.
    + intros x Hx _. unfold demo_kend in Hx. by rewrite st32_out by lia.
    + intros x Hx. rewrite st32_out; [done|]. rewrite code_eq in Hx. unfold demo_epd in Hx. destruct Hx as [Hx|[Hx|Hx]]; [lia | lia |]. specialize (Hro x Hx). lia.
Qed.
Lemma startothers_starts_all_witness : exists fuel s', startothers demo_epd 0 2148550000 demo_epd (fun _ => 2148532224) demo_other fuel [0; 1] 0 (demo_machine, ToyApic (fun _ => 0) false []) = Ret tt s' /\ length (la_sent s'.2) = 4%nat.
Proof.
  destruct (startothers_starts_all demo_kend demo_epd 0 2148550000 demo_epd (fun _ => 2148532224) demo_other (fun _ => False) [0; 1] 0 demo_machine (ToyApic (fun _ => 0) false []) demo_free) as (N & st' & h' & E & _ & Hs & _).
  - unfold demo_kend, FOURMB. lia.
  - lia.
  - unfold demo_epd, demo_kend. lia.
  - unfold demo_epd, demo_kend. repeat split; lia || reflexivity.
  - lia.
  - done.
  - by apply demo_comes_up.
  - apply demo_machine_ready.
  - apply demo_machine_ready.
  - simpl. lia.
  - unfold demo_free, FOURMB. repeat constructor; lia.
  - repeat constructor; lia.
  - exists N, (st', h'). split; [apply E; reflexivity|]. cbn [snd]. rewrite Hs. reflexivity.
Defined.
