(* ===== verification/Kmain.v ===== *)
(** * The kernel comes up (main, mpmain and mpenter of main.c; kvmalloc of vm.c; consoleinit, pinit, fileinit, ideinit, idtinit)

    main calls the initialisation of every component in order, on one machine: the
    memory and the tables of the kernel (Proc.v), the processors and locks (Mp.v,
    Spinlock.v), the devices (Lapic.v, Apic.v, Ide.v) and the registers of the boot
    processor (Seg.v).

    The theorem composes what the components promise.  Memory is handed out in two
    steps, because the other processors run at first with a directory of four
    megabytes; at the end every page belongs to exactly one owner, and the first
    process can run. *)

From stdpp Require Import functions.
From S2P Require Import Prelude Mem CString Mmu Kalloc PageTable Uvm UvmCopy Disk Bio Log Spinlock Pipe Blocks Balloc Inode Dir File Ptable Proc Ide Mp Apic.
From S2P Require Import ForkLaws Seg Asm UserAsm Lapic Start FirstProc Main.
#[local] Open Scope Z_scope.

Abbreviation IRQ_KBD := 1.
Abbreviation IRQ_IDE := 14.

Section main.
Context {H HW : Type} `{!Lapic H, !Ports H, !Ioapic H, !Ata HW}.
Abbreviation blocks := (lst (traced (ide_drv HW))).

(** The machine, with the registers of the boot processor. *)
Record machine := Machine {
  mc_kern : kern blocks;
  mc_mp : mpst;
  mc_dev : H;
  mc_segs : segs;
  mc_idt : list gatedesc;
  mc_idtr : Z * Z;
  mc_kpgdir : Z;
  mc_uart : bool;
  mc_devsw : bool;       (* devsw[CONSOLE] has its functions *)
  mc_locking : bool;     (* cons.locking *)
}.
Definition kern_of {A} (m : M (kern blocks) A) : M machine A :=
  zoom mc_kern (fun k s => Machine k (mc_mp s) (mc_dev s) (mc_segs s) (mc_idt s) (mc_idtr s) (mc_kpgdir s) (mc_uart s) (mc_devsw s) (mc_locking s)) m.
Definition mp_of {A} (m : M mpst A) : M machine A :=
  zoom mc_mp (fun p s => Machine (mc_kern s) p (mc_dev s) (mc_segs s) (mc_idt s) (mc_idtr s) (mc_kpgdir s) (mc_uart s) (mc_devsw s) (mc_locking s)) m.
Definition smp_of {A} (m : M smp A) : M machine A := mp_of (zoom mp_smp (fun x p => MpSt x (ioapicid p) (mp_ports p)) m).
Definition dev_of {A} (m : M H A) : M machine A :=
  zoom mc_dev (fun h s => Machine (mc_kern s) (mc_mp s) h (mc_segs s) (mc_idt s) (mc_idtr s) (mc_kpgdir s) (mc_uart s) (mc_devsw s) (mc_locking s)) m.
Definition segs_of {A} (m : M segs A) : M machine A :=
  zoom mc_segs (fun c s => Machine (mc_kern s) (mc_mp s) (mc_dev s) c (mc_idt s) (mc_idtr s) (mc_kpgdir s) (mc_uart s) (mc_devsw s) (mc_locking s)) m.
Definition kst_of {A} (m : M kst A) : M machine A := kern_of (kmm m).
(** The memory and the devices, for startothers. *)
Definition kdev_of {A} (m : M (kst * H) A) : M machine A :=
  zoom (fun s => (fk_kst (k_fk (mc_kern s)), mc_dev s))
    (fun t s => Machine (Kern (set_kst t.1 (k_fk (mc_kern s))) (k_pt (mc_kern s))) (mc_mp s) t.2 (mc_segs s) (mc_idt s) (mc_idtr s) (mc_kpgdir s) (mc_uart s) (mc_devsw s) (mc_locking s)) m.

(** Symbols of the linker and of assembly files; addresses of variables. *)
Context (kend kdata trapret forkret_addr initcode_start initcode_size lookup_de namebuf slash_str : Z).
Context (entryother entryother_size mpenter_addr entrypgdir_addr gdt_addr idt_addr : Z) (started_addr : nat -> Z) (vectors : Z -> Z).
Context (kmem_lock cons_lock ptable_lock tickslock bcache_lock ftable_lock idelock : Z).
(** The processor that runs main, the identifiers that local APICs at an address
    have, the register of the IMCR, and what the other processors do. *)
Context (h : nat) (apic_at : Z -> nat -> Z) (imcr : Z -> Z) (other : nat -> kst * H -> kst * H).
Context (devread : Z -> option (nat -> Z -> Z -> M (fsys blocks) Z)) `{!BlockOps blocks}.

(** [kvmalloc] *)
Definition set_kpgdir (d : Z) : M machine unit :=
  modify (fun s => Machine (mc_kern s) (mc_mp s) (mc_dev s) (mc_segs s) (mc_idt s) (mc_idtr s) d (mc_uart s) (mc_devsw s) (mc_locking s)).
Definition kvmalloc : M machine unit :=
  d <- kst_of (setupkvm kend kdata) ;;
  set_kpgdir d ;;;
  s <- get ;;
  segs_of (switchkvm (mc_kpgdir s)).
(** [lapicinit] looks whether mpinit has set lapic. *)
Definition lapic_set (s : smp) : Z := match lapic s with Some _ => 1 | None => 0 end.
Definition consoleinit : M machine unit :=
  smp_of (initlock cons_lock "console") ;;;
  modify (fun s => Machine (mc_kern s) (mc_mp s) (mc_dev s) (mc_segs s) (mc_idt s) (mc_idtr s) (mc_kpgdir s) (mc_uart s) true (mc_locking s)) ;;;
  modify (fun s => Machine (mc_kern s) (mc_mp s) (mc_dev s) (mc_segs s) (mc_idt s) (mc_idtr s) (mc_kpgdir s) (mc_uart s) (mc_devsw s) true) ;;;
  dev_of (ioapicenable IRQ_KBD 0).
Definition pinit : M machine unit := smp_of (initlock ptable_lock "ptable").
Definition fileinit : M machine unit := smp_of (initlock ftable_lock "ftable").
Definition set_idt (l : list gatedesc) : M machine unit :=
  modify (fun s => Machine (mc_kern s) (mc_mp s) (mc_dev s) (mc_segs s) l (mc_idtr s) (mc_kpgdir s) (mc_uart s) (mc_devsw s) (mc_locking s)).
Definition set_uart (b : bool) : M machine unit :=
  modify (fun s => Machine (mc_kern s) (mc_mp s) (mc_dev s) (mc_segs s) (mc_idt s) (mc_idtr s) (mc_kpgdir s) b (mc_devsw s) (mc_locking s)).
(** The state of the buffer cache and of the disk driver in it. *)
Definition on_blocks (f : blocks -> blocks) : M machine unit :=
  kern_of (fk (File.fs (modify (fun y => FSt (f (fs_blk y)) (fs_sb y) (fs_ic y) (fs_mem y))))).
Definition drv_of {A} (m : M (ide_drv HW) A) : M machine A :=
  kern_of (fk (File.fs (zoom (fun y => tr_drv (bdrv (lbc (fs_blk y))))
    (fun d y => let b := lbc (fs_blk y) in
      FSt (set_lbc (BSt (bufs b) (bnext b) (bprev b) (Traced d (tr_writes (bdrv b)))) (fs_blk y)) (fs_sb y) (fs_ic y) (fs_mem y)) m))).
(** The driver without requests. *)
Definition ideinit_drv : M (ide_drv HW) unit := fun d =>
  match ideinit_ide (drv_state (Buf 0 0 0 initsleeplock 0 []) d) with
  | Ret _ s => Ret tt (IdeDrv (i_hw s) (havedisk1 s))
  | Panic msg => Panic msg
  | Diverge => Diverge
  end.
Definition ideinit : M machine unit :=
  smp_of (initlock idelock "ide") ;;;
  s <- get ;;
  dev_of (ioapicenable IRQ_IDE (Z.of_nat (ncpu (mp_smp (mc_mp s))) - 1)) ;;;
  drv_of ideinit_drv.

(** [main] up to seginit, and from picinit to ideinit. *)
Definition main_processors (fuel : nat) : M machine unit :=
  smp_of (initlock kmem_lock "kmem") ;;;
  kst_of (kinit1 kend kend (P2V (4 * 1024 * 1024))) ;;;
  kvmalloc ;;;
  s <- get ;;
  mp_of (mpinit (kmem_mem (fk_kst (k_fk (mc_kern s)))) apic_at imcr) ;;;
  s <- get ;;
  dev_of (lapicinit fuel (lapic_set (mp_smp (mc_mp s)))) ;;;
  smp_of (cpuid h) ;;;
  segs_of (seginit gdt_addr).
Definition main_interrupts : M machine unit :=
  dev_of picinit ;;;
  s <- get ;;
  dev_of (ioapicinit (ioapicid (mc_mp s))) ;;;
  consoleinit ;;;
  s <- get ;;
  u <- dev_of (uartinit ioapicenable (mc_uart s)) ;;
  set_uart u ;;;
  pinit ;;;
  s <- get ;;
  set_idt (tvinit vectors (mc_idt s)) ;;;
  smp_of (initlock tickslock "time") ;;;
  smp_of (initlock bcache_lock "bcache") ;;;
  on_blocks (fun b => set_lbc (binit (lbc b)) b) ;;;
  fileinit ;;;
  ideinit.
(** [startothers] with [cpus] and [mycpu]. *)
Definition main_startothers (fuel : nat) : M machine unit :=
  me <- smp_of (mycpu h) ;;
  s <- get ;;
  let x := mp_smp (mc_mp s) in
  kdev_of (startothers entryother entryother_size mpenter_addr entrypgdir_addr started_addr other fuel (map apicid (take (ncpu x) (cpus x))) me).
(** [mpmain] before it calls the scheduler, without its message. *)
Definition lidt (p size : Z) : Z * Z := (p, (size - 1) mod 65536).
Definition idtinit : M machine unit :=
  modify (fun s => Machine (mc_kern s) (mc_mp s) (mc_dev s) (mc_segs s) (mc_idt s) (lidt idt_addr (8 * 256)) (mc_kpgdir s) (mc_uart s) (mc_devsw s) (mc_locking s)).
Definition mpmain : M machine unit :=
  smp_of (cpuid h) ;;;
  idtinit ;;;
  i <- smp_of (mycpu h) ;;
  kst_of (modify (fun st => Kalloc.set_mem (st32 (kmem_mem st) (started_addr i) 1) st)).
Definition main (fuel : nat) : M machine unit :=
  main_processors fuel ;;;
  main_interrupts ;;;
  main_startothers fuel ;;;
  kst_of (kinit2 kend (P2V (4 * 1024 * 1024)) (P2V PHYSTOP)) ;;;
  kern_of (userinit devread kend kdata trapret forkret_addr initcode_start initcode_size lookup_de namebuf slash_str) ;;;
  mpmain.
(** The other processors, with their own registers and local APIC. *)
Definition mpenter (fuel : nat) : M machine unit :=
  s <- get ;;
  segs_of (switchkvm (mc_kpgdir s)) ;;;
  smp_of (cpuid h) ;;;
  segs_of (seginit gdt_addr) ;;;
  s <- get ;;
  dev_of (lapicinit fuel (lapic_set (mp_smp (mc_mp s)))) ;;;
  mpmain.
End main.

(** ** The devices do not disturb each other *)

Class DevLaws (H : Type) `{LapicLaws H, !Ioapic H, !IoapicLaws H} := {
  dv_inb_la p h r : la_regs (inb p h).2 r = la_regs h r;
  dv_inb_sent p h : la_sent (inb p h).2 = la_sent h;
  dv_inb_io p h r : io_regs (inb p h).2 r = io_regs h r;
  dv_outb_io p v h r : io_regs (outb p v h) r = io_regs h r;
  dv_read_io k h r : io_regs (la_read k h).2 r = io_regs h r;
  dv_write_io k v h r : io_regs (la_write k v h) r = io_regs h r;
  dv_select_la k h r : la_regs (io_select k h) r = la_regs h r;
  dv_select_sent k h : la_sent (io_select k h) = la_sent h;
  dv_store_la v h r : la_regs (io_store v h) r = la_regs h r;
  dv_store_sent v h : la_sent (io_store v h) = la_sent h;
}.

Section devices.
Context {H : Type} `{!Lapic H, !Ports H, !LapicLaws H, !Ioapic H, !IoapicLaws H, !DevLaws H}.
Implicit Types (h : H).

Definition same_la h h' : Prop := (forall r, la_regs h' r = la_regs h r) /\ la_sent h' = la_sent h.
Definition same_io h h' : Prop := forall r, io_regs h' r = io_regs h r.
#[local] Instance same_la_po : PreOrder same_la.
Proof. split; [done|]. intros h1 h2 h3 [H1 H2] [H3 H4]. split; [intros r; by rewrite H3 | by rewrite H4]. Qed.
#[local] Instance same_io_po : PreOrder same_io.
Proof. split; [done|]. intros h1 h2 h3 H1 H2 r. by rewrite H2. Qed.
Lemma same_io_entry h h' j : same_io h h' -> Apic.entry h' j = Apic.entry h j.
Proof. intros E. unfold Apic.entry. by rewrite !E. Qed.
Lemma configured_same h h' : same_la h h' -> configured h -> configured h'.
Proof. intros [E _] []. by split; rewrite ?E. Qed.

(** A computation on ports only: it returns and leaves both controllers alone. *)
Definition ports_only {A} (m : M H A) : Prop := forall h, exists a h', m h = Ret a h' /\ same_la h h' /\ same_io h h'.
Lemma ports_ret {A} (a : A) : ports_only (ret a).
Proof. intros h. by exists a, h. Qed.
Lemma ports_bind {A B} (m : M H A) (k : A -> M H B) : ports_only m -> (forall a, ports_only (k a)) -> ports_only (bind m k).
Proof.
  intros Hm Hk h. destruct (Hm h) as (a & h1 & E & L1 & I1). destruct (Hk a h1) as (b & h2 & E2 & L2 & I2).
  exists b, h2. rewrite (bind_Ret _ _ _ _ _ E). split; [done|]. split; by etransitivity.
Qed.
Lemma ports_in p : ports_only (port_in p).
Proof. intros h. eexists _, _. split; [done|]. split; [split; [intros r; apply dv_inb_la | apply dv_inb_sent] | intros r; apply dv_inb_io]. Qed.
Lemma ports_out p v : ports_only (port_out p v).
Proof. intros h. eexists _, _. split; [done|]. split; [split; [intros r; apply outb_regs | apply outb_sent] | intros r; apply dv_outb_io]. Qed.
Lemma ports_wait n : ports_only (uart_wait n).
Proof.
  induction n as [|n IH]; cbn [uart_wait]; [apply ports_ret|]. apply ports_bind; [apply ports_in|]. intros x. destruct (_ =? 0); [|apply ports_ret].
  apply ports_bind; [apply ports_ret | done].
Qed.
Lemma ports_announce l : ports_only (announce l).
Proof.
  induction l as [|c l IH]; cbn [announce]; [apply ports_ret|]. apply ports_bind; [|done]. unfold uart_putc. apply ports_bind; [apply ports_wait | intros _; apply ports_out].
Qed.
Lemma ports_picinit : ports_only picinit.
Proof. apply ports_bind; intros; apply ports_out. Qed.

Lemma ioapicwrite_la r v h : exists h', ioapicwrite r v h = Ret tt h' /\ same_la h h'.
Proof. eexists. split; [done|]. split; [intros k; by rewrite dv_store_la, dv_select_la | by rewrite dv_store_sent, dv_select_sent]. Qed.
Lemma ioapicenable_ok irq c h : 0 <= irq -> exists h', ioapicenable irq c h = Ret tt h' /\ same_la h h' /\
  forall j, 0 <= j -> Apic.entry h' j = if j =? irq then (Apic.T_IRQ0 + irq, u32 (Z.shiftl c 24)) else Apic.entry h j.
Proof.
  intros Hi. destruct (entry_write irq (Apic.T_IRQ0 + irq) (u32 (Z.shiftl c 24)) h Hi) as (h1 & E & He).
  assert (exists h2, ioapicenable irq c h = Ret tt h2 /\ same_la h h2) as (h2 & E2 & Hs).
  { unfold ioapicenable. destruct (ioapicwrite_la (REG_TABLE + 2 * irq) (Apic.T_IRQ0 + irq) h) as (a & Ea & Sa). rewrite (bind_Ret _ _ _ _ _ Ea).
    destruct (ioapicwrite_la (REG_TABLE + 2 * irq + 1) (u32 (Z.shiftl c 24)) a) as (b & Eb & Sb). exists b. split; [done | by etransitivity]. }
  exists h2. split; [done|]. split; [done|]. unfold ioapicenable in E2. rewrite E in E2. by injection E2 as ->.
Qed.
Lemma ioapicinit_loop_la n : forall i h, exists h', ioapicinit_loop n i h = Ret tt h' /\ same_la h h'.
Proof.
  induction n as [|n IH]; intros i h; cbn [ioapicinit_loop]; [by exists h|].
  destruct (ioapicwrite_la (REG_TABLE + 2 * i) (Z.lor INT_DISABLED (Apic.T_IRQ0 + i)) h) as (a & Ea & Sa). rewrite (bind_Ret _ _ _ _ _ Ea).
  destruct (ioapicwrite_la (REG_TABLE + 2 * i + 1) 0 a) as (b & Eb & Sb). rewrite (bind_Ret _ _ _ _ _ Eb).
  destruct (IH (i + 1) b) as (c & Ec & Sc). exists c. split; [done|]. etransitivity; [exact Sa|]. by etransitivity.
Qed.
(** The last interrupt of the controller. *)
Definition maxintr h : Z := Z.land (Z.shiftr (io_regs h REG_VER) 16) 255.
Lemma ioapicinit_ok id h : exists b h', ioapicinit id h = Ret b h' /\ same_la h h' /\
  forall j, 0 <= j <= maxintr h -> Apic.entry h' j = (Z.lor INT_DISABLED (Apic.T_IRQ0 + j), 0).
Proof.
  unfold ioapicinit, ioapicread. rewrite !bind_assoc, bind_modify, bind_gets, io_data_select. cbv zeta. fold (maxintr h).
  set (n := Z.to_nat (maxintr h + 1)). rewrite !bind_assoc, bind_modify, bind_gets. set (h0 := io_select REG_ID (io_select REG_VER h)).
  destruct (ioapicinit_loop_ok n 0 h0 ltac:(lia)) as (h1 & E1 & H1). destruct (ioapicinit_loop_la n 0 h0) as (h2 & E2 & S2). rewrite E1 in E2. injection E2 as <-.
  rewrite (bind_Ret _ _ _ _ _ E1). eexists _, h1. split; [done|]. split.
  - etransitivity; [|exact S2]. split; [intros r; unfold h0; by rewrite !dv_select_la | unfold h0; by rewrite !dv_select_sent].
  - intros j Hj. rewrite H1 by lia. destruct (Z.leb_spec 0 j), (Z.ltb_spec j (0 + Z.of_nat n)); simpl; done || lia.
Qed.
Lemma uartinit_ok u h : exists u' h' present, uartinit ioapicenable u h = Ret u' h' /\ same_la h h' /\
  forall j, 0 <= j -> Apic.entry h' j = if present && (j =? IRQ_COM1) then (Apic.T_IRQ0 + IRQ_COM1, 0) else Apic.entry h j.
Proof.
  unfold uartinit. rewrite <- !bind_assoc. match goal with |- context [bind ?m _ h] => assert (ports_only m) as Hp by (repeat apply ports_bind; intros; apply ports_out || apply ports_in) end.
  destruct (Hp h) as (x & h1 & E1 & L1 & I1). rewrite (bind_Ret _ _ _ _ _ E1). clear Hp E1. destruct (x =? 255).
  { exists u, h1, false. split; [done|]. split; [done|]. intros j Hj. by apply same_io_entry. }
  destruct (ports_in (1016 + 2) h1) as (y & h2 & E2 & L2 & I2). rewrite (bind_Ret _ _ _ _ _ E2). destruct (ports_in (1016 + 0) h2) as (z & h3 & E3 & L3 & I3). rewrite (bind_Ret _ _ _ _ _ E3).
  destruct (ioapicenable_ok IRQ_COM1 0 h3 ltac:(lia)) as (h4 & E4 & L4 & I4). rewrite (bind_Ret _ _ _ _ _ E4).
  destruct (ports_announce [120; 118; 54; 46; 46; 46; 10] h4) as (w & h5 & E5 & L5 & I5). rewrite (bind_Ret _ _ _ _ _ E5).
  exists true, h5, true. split; [done|]. split; [by repeat (etransitivity; [eassumption|])|]. intros j Hj. rewrite (same_io_entry h4 h5) by done. rewrite I4 by done.
  destruct (j =? IRQ_COM1); [done|]. simpl. by rewrite (same_io_entry h2 h3), (same_io_entry h1 h2), (same_io_entry h h1).
Qed.
Lemma wait_delivery_io fuel : forall h a h', wait_delivery fuel h = Ret a h' -> same_io h h'.
Proof.
  induction fuel as [|fuel IH]; intros h a h' E; cbn [wait_delivery] in E; [done|]. rewrite (bind_Ret (load ICRLO) _ h _ _ eq_refl) in E.
  destruct (Z.land (la_read ICRLO h).1 DELIVS =? 0).
  - injection E as _ <-. intros r. apply dv_read_io.
  - apply IH in E. intros r. by rewrite E, dv_read_io.
Qed.
Lemma wait_delivery_mono n : forall fuel h a h', wait_delivery n h = Ret a h' -> (n <= fuel)%nat -> wait_delivery fuel h = Ret a h'.
Proof.
  induction n as [|n IH]; intros [|fuel] h a h' E Hf; [done | done | lia|]. cbn [wait_delivery] in *. rewrite (bind_Ret (load ICRLO) _ h _ _ eq_refl) in E. rewrite (bind_Ret (load ICRLO) _ h _ _ eq_refl).
  destruct (Z.land (la_read ICRLO h).1 DELIVS =? 0); [exact E|]. apply (IH fuel); [exact E | lia].
Qed.
(** The message of lapicinit. *)
Definition sync_message : Z * Z := (0, Z.lor (Z.lor BCAST INIT) LEVEL).
Lemma lapicinit_ok l h : l <> 0 -> exists n h', (forall fuel, (n <= fuel)%nat -> lapicinit fuel l h = Ret tt h') /\ configured h' /\ la_sent h' = la_sent h ++ [sync_message] /\ same_io h h'.
Proof.
  intros Hl. destruct (lapicinit_configures l h Hl) as (n & Hn). destruct (Hn n ltac:(lia)) as (h' & E & Hc & Hs). exists n, h'.
  rewrite lapicinit_run in E by done. apply bind_ret_inv in E as (u & h1 & E1 & E2). split; [|split; [done|split; [done|]]].
  - intros fuel Hf. rewrite lapicinit_run by done. by rewrite (bind_Ret _ _ _ _ _ (wait_delivery_mono _ _ _ _ _ E1 Hf)).
  - injection E2 as <-. apply wait_delivery_io in E1.
    assert (forall k v g, same_io g (wrote k v g)) as Hw by (intros k v g r; unfold wrote; by rewrite dv_read_io, dv_write_io).
    assert (forall g, same_io g (config3 g)) as H3 by (intros g; unfold config3, config2; destruct (4 <=? _); [etransitivity; [|apply Hw]|]; intros r; apply dv_read_io).
    etransitivity; [|apply Hw]. etransitivity; [|exact E1]. unfold config4. repeat (etransitivity; [|apply Hw]). etransitivity; [|apply H3]. unfold config1. by repeat (etransitivity; [|apply Hw]).
Qed.

(** The settings of both controllers, but for the destination of the next message. *)
Definition undisturbed h h' : Prop := (forall r, steady r = true -> r <> ICRHI -> la_regs h' r = la_regs h r) /\ same_io h h'.
#[local] Instance undisturbed_po : PreOrder undisturbed.
Proof. split; [done|]. intros h1 h2 h3 [A1 B1] [A2 B2]. split; [intros r ? ?; by rewrite A2, A1 | by etransitivity]. Qed.
Lemma undisturbed_configured h h' : undisturbed h h' -> configured h -> configured h'.
Proof. intros [E _] []. by split; rewrite ?E by done. Qed.
Lemma undisturbed_wrote r v h : r = ICRHI \/ r = ICRLO -> undisturbed h (wrote r v h).
Proof.
  intros Hr. split; [|intros j; unfold wrote; by rewrite dv_read_io, dv_write_io]. intros j Hj Hne. rewrite wrote_regs; [|done | destruct Hr; subst; discriminate..].
  destruct (Z.eqb_spec j r) as [->|]; [|done]. destruct Hr as [->| ->]; [done | discriminate].
Qed.
Lemma undisturbed_outb p v h : undisturbed h (outb p v h).
Proof. split; [intros; apply outb_regs | intros r; apply dv_outb_io]. Qed.
Lemma startups_undisturbed n apicid addr : forall h, exists h', startups n apicid addr h = Ret tt h' /\ undisturbed h h'.
Proof.
  induction n as [|n IH]; intros h; cbn [startups]; [by exists h|]. rewrite (bind_Ret _ _ _ _ _ (lapicw_eq _ _ _)), (bind_Ret _ _ _ _ _ (lapicw_eq _ _ _)), (bind_Ret (microdelay 200) _ _ tt _ eq_refl).
  edestruct IH as (h' & E & U). exists h'. split; [exact E|]. etransitivity; [|exact U]. etransitivity; apply undisturbed_wrote; tauto.
Qed.
Lemma lapicstartap_undisturbed apicid addr h m h' m' : lapicstartap apicid addr (h, m) = Ret tt (h', m') -> undisturbed h h'.
Proof.
  unfold lapicstartap. intros E.
  destruct (startups_undisturbed 2 apicid addr (wrote ICRLO (Z.lor INIT LEVEL) (wrote ICRLO (Z.lor (Z.lor INIT LEVEL) ASSERT) (wrote ICRHI (u32 (Z.shiftl apicid 24)) (outb (CMOS_PORT + 1) 10 (outb CMOS_PORT 15 h))))))
    as (h1 & E1 & U).
  cbn -[startups Z.lor] in E. unfold zoom in E. cbn [fst] in E. unfold wrote in E1. rewrite E1 in E. injection E as <- _.
  etransitivity; [|exact U]. do 3 (etransitivity; [|apply undisturbed_wrote; tauto]). etransitivity; apply undisturbed_outb.
Qed.

(** startothers leaves the settings alone if the other processors do. *)
Lemma wait_started_undisturbed started_addr other : (forall c s, undisturbed s.2 (other c s).2) -> forall fuel c (s s' : kst * H), wait_started started_addr other fuel c s = Ret tt s' -> undisturbed s.2 s'.2.
Proof.
  intros Ho. induction fuel as [|fuel IH]; intros c s s' E; cbn [wait_started] in E; [done|]. rewrite bind_gets in E. destruct (is_started started_addr c s); [by injection E as <-|].
  rewrite bind_modify in E. etransitivity; [apply Ho | by eapply IH].
Qed.
Lemma km_undisturbed {A} (m : M kst A) (s s' : kst * H) a : km m s = Ret a s' -> s'.2 = s.2.
Proof. unfold km, zoom. destruct (m s.1); [|done..]. by intros [= _ <-]. Qed.
Lemma startother_undisturbed mpenter epd started_addr other fuel c id (s s' : kst * H) : (forall c s, undisturbed s.2 (other c s).2) ->
  startother mpenter epd started_addr other fuel c id s = Ret tt s' -> undisturbed s.2 s'.2.
Proof.
  intros Ho E. unfold startother in E. apply bind_ret_inv in E as (q & s1 & E1 & E). apply bind_ret_inv in E as ([] & s2 & E2 & E). apply bind_ret_inv in E as ([] & s3 & E3 & E).
  apply bind_ret_inv in E as ([] & s4 & E4 & E). apply bind_ret_inv in E as ([] & s5 & E5 & E).
  apply km_undisturbed in E1, E2, E3, E4. rewrite <- E1, <- E2, <- E3, <- E4. etransitivity; [|by eapply wait_started_undisturbed].
  unfold on_apic, zoom in E5. destruct (lapicstartap _ _ _) as [[] [g w]| |] eqn:El; [|done..]. injection E5 as <-. by eapply lapicstartap_undisturbed.
Qed.
Lemma startothers_undisturbed image size mpenter epd started_addr other fuel ids me (s s' : kst * H) : (forall c s, undisturbed s.2 (other c s).2) ->
  startothers image size mpenter epd started_addr other fuel ids me s = Ret tt s' -> undisturbed s.2 s'.2.
Proof.
  intros Ho E. unfold startothers in E. apply bind_ret_inv in E as ([] & s1 & E1 & E). apply km_undisturbed in E1. rewrite <- E1. clear E1. revert s1 E. generalize 0%nat.
  induction ids as [|id ids IH]; intros c s1 E; cbn [startothers_loop] in E; [by injection E as <-|]. apply bind_ret_inv in E as ([] & s2 & E1 & E).
  etransitivity; [|by eapply IH]. destruct (Nat.eqb c me); [by injection E1 as <- | by eapply startother_undisturbed].
Qed.
End devices.

(** ** Memory in two steps *)

Lemma NoDup_pages n : forall p, NoDup (pages p n).
Proof. induction n as [|n IH]; intros p; cbn [pages]; [constructor|]. constructor; [|apply IH]. rewrite elem_of_pages. lia. Qed.
Lemma length_pages n : forall p, length (pages p n) = n.
Proof. induction n as [|n IH]; intros p; cbn [pages length]; [done|]. by rewrite IH. Qed.
Lemma free_count (a b : Z) (n : nat) (l : list Z) : (forall p, p mod 4096 = 0 -> a <= p -> p + 4096 <= b -> p ∈ l) -> a + 4096 * (Z.of_nat n + 1) <= b -> (n <= length l)%nat.
Proof.
  intros Hl Hb. rewrite <- (length_pages n ((a + 4095) / 4096 * 4096)). apply submseteq_length, NoDup_submseteq; [apply NoDup_pages|].
  intros p Hp. apply elem_of_pages in Hp. apply Hl; zlia.
Qed.


Section steps.
Context {H HW : Type}.
Abbreviation blocks := (lst (traced (ide_drv HW))).
Abbreviation machine := (@machine H HW).
Implicit Types (k : kern blocks) (d : H).

Lemma run_kern_of {A} (m : M (kern blocks) A) k p d c i r g u v w a k' : m k = Ret a k' ->
  kern_of m (Machine k p d c i r g u v w) = Ret a (Machine k' p d c i r g u v w).
Proof. intros E. unfold kern_of, zoom. cbn [mc_kern]. by rewrite E. Qed.
Lemma run_kst_of {A} (m : M kst A) fy st ft pi t p d c i r g u v w a st' : m st = Ret a st' ->
  kst_of m (Machine (H:=H) (HW:=HW) (Kern (FK fy st ft pi) t) p d c i r g u v w) = Ret a (Machine (Kern (FK fy st' ft pi) t) p d c i r g u v w).
Proof. intros E. apply run_kern_of. by apply run_kmm. Qed.
Lemma run_smp_of {A} (m : M smp A) k x o q d c i r g u v w a x' : m x = Ret a x' ->
  smp_of m (Machine k (MpSt x o q) d c i r g u v w) = Ret a (Machine k (MpSt x' o q) d c i r g u v w).
Proof. intros E. unfold smp_of, mp_of, zoom. cbn [mc_mp mp_smp]. by rewrite E. Qed.
Lemma run_mp_of {A} (m : M mpst A) k p d c i r g u v w a p' : m p = Ret a p' ->
  mp_of m (Machine k p d c i r g u v w) = Ret a (Machine k p' d c i r g u v w).
Proof. intros E. unfold mp_of, zoom. cbn [mc_mp]. by rewrite E. Qed.
Lemma run_dev_of {A} (m : M H A) k p d c i r g u v w a d' : m d = Ret a d' ->
  dev_of m (Machine k p d c i r g u v w) = Ret a (Machine k p d' c i r g u v w).
Proof. intros E. unfold dev_of, zoom. cbn [mc_dev]. by rewrite E. Qed.
Lemma run_segs_of {A} (m : M segs A) k p d c i r g u v w a c' : m c = Ret a c' ->
  segs_of m (Machine k p d c i r g u v w) = Ret a (Machine k p d c' i r g u v w).
Proof. intros E. unfold segs_of, zoom. cbn [mc_segs]. by rewrite E. Qed.
Lemma run_kdev_of {A} (m : M (kst * H) A) fy st ft pi t p d c i r g u v w a st' d' : m (st, d) = Ret a (st', d') ->
  kdev_of m (Machine (HW:=HW) (Kern (FK fy st ft pi) t) p d c i r g u v w) = Ret a (Machine (Kern (FK fy st' ft pi) t) p d' c i r g u v w).
Proof. intros E. unfold kdev_of, zoom. cbn [mc_kern mc_dev k_fk fk_kst]. by rewrite E. Qed.
(** A lock is set up; nothing else of the processors changes. *)
Definition same_cpus (x x' : smp) : Prop := eflags x' = eflags x /\ lapic x' = lapic x /\ cpus x' = cpus x /\ ncpu x' = ncpu x.
Lemma initlock_ok l name x : exists x', initlock l name x = Ret tt x' /\ same_cpus x x'.
Proof. eexists. split; [done|]. done. Qed.
Lemma same_cpus_trans x y z : same_cpus x y -> same_cpus y z -> same_cpus x z.
Proof. intros (E1 & E2 & E3 & E4) (F1 & F2 & F3 & F4). split_and!; by etransitivity. Qed.
Lemma same_cpus_topo x x' : same_cpus x x' -> topo x -> topo x'.
Proof. intros (_ & E1 & E2 & E3). unfold topo. by rewrite E1, E2, E3. Qed.
Lemma cpuid_ok h x : topo x -> (h < ncpu x)%nat -> if_off x h -> cpuid h x = Ret (Z.of_nat h) x.
Proof. intros. unfold cpuid. by rewrite (bind_Ret _ _ _ _ _ (mycpu_self x h ltac:(done) ltac:(done) ltac:(done))). Qed.
Context `{!Ata HW, !PromptAta HW}.
Lemma probe_returns n : forall s : ide_st HW, exists s', probe n s = Ret tt s'.
Proof.
  induction n as [|n IH]; intros s; cbn [probe]; [by exists s|]. rewrite bind_gets. destruct (Ide.inb 503 (i_hw s)) as [r h]. rewrite bind_modify.
  destruct (negb (r =? 0)); [by eexists | apply IH].
Qed.
Lemma ideinit_drv_ok (y : ide_drv HW) : idle (dr_hw y) -> exists y', ideinit_drv y = Ret tt y'.
Proof.
  intros Hi. unfold ideinit_drv. set (s := drv_state _ y). destruct (idewait_ready false s (or_introl Hi)) as (h & E & _).
  assert (exists s', ideinit_ide s = Ret tt s') as (s' & ->); [|by eexists].
  unfold ideinit_ide. rewrite (bind_Ret _ _ _ _ _ E). unfold out. rewrite bind_modify.
  match goal with |- exists s', bind _ _ ?t = _ => destruct (probe_returns 1000 t) as (t' & Et) end. rewrite (bind_Ret _ _ _ _ _ Et). by eexists.
Qed.
End steps.

Section memory.
Context (kend kdata : Z) (Hkend : KERNLINK <= kend) (Hdata : KERNLINK < kdata < KERNBASE + PHYSTOP) (Hdal : kdata mod 4096 = 0).

(** After kinit1 and kvmalloc: the pages below four megabytes belong to the kernel's
    directory or are free. *)
Record early (st st' : kst) (l : list Z) (d : Z) : Prop := {
  ea_space : vm_ok kend st' l d;
  ea_map : forall va, va_ok va -> mapped (kmem_mem st') d va = kernel_pte kdata va;
  ea_pages : forall p, owned (kmem_mem st') d p \/ p ∈ l <-> kpage kend p /\ p < KERNBASE + FOURMB;
  ea_below : forall x, x < kend -> kmem_mem st' x = kmem_mem st x
}.
Lemma early_memory st n : kend + 4096 * (Z.of_nat n + 67) <= KERNBASE + FOURMB -> mem_ok (kmem_mem st) -> kmem_freelist st = 0 ->
  exists st1 d st2 l, kinit1 kend kend (P2V (4 * 1024 * 1024)) st = Ret tt st1 /\ setupkvm kend kdata st1 = Ret d st2 /\ early st st2 l d /\ (n <= length l)%nat.
Proof.
  intros Hk Hok Hfl. unfold FOURMB in *. assert (P2V 4194304 = KERNBASE + 4194304) as EP by (rewrite P2V_eq; lia).
  destruct (kinit_frees_all_pages kend st) as (st1 & l1 & E1 & Hf1 & _ & Hl1 & Hb1 & _); [rewrite EP; lia | done | done|]. rewrite EP in *.
  assert (forall p, p mod 4096 = 0 -> kend <= p -> p + 4096 <= KERNBASE + 4194304 -> p ∈ l1) as Hin by (intros p Hp1 Hp2 Hp3; apply Hl1; unfold kpage; lia).
  assert (n + 66 <= length l1)%nat as Hlen by (eapply free_count; [exact Hin | lia]).
  destruct (setupkvm_ok kend kdata ltac:(lia) Hdata Hdal st1 l1 Hf1) as (d & st2 & l2 & E2 & [(Hd & Hv & He & Hu & Hm & Hl)|(_ & _ & Hl)]); [|lia].
  exists st1, d, st2, l2. split; [change (4 * 1024 * 1024) with 4194304; by rewrite EP|]. split; [done|]. split; [|lia]. split; [done | done | |].
  - intros p. rewrite (proj1 (proj2 He) p), Hl1. tauto.
  - intros x Hx. rewrite <- Hb1 by done. by eapply (evolves_below kend); [exact Hf1 | exact He |].
Qed.
End memory.

(** ** Everything up to the other processors *)

Section boot.
Context {H HW : Type} `{!Lapic H, !Ports H, !LapicLaws H, !Ioapic H, !IoapicLaws H, !DevLaws H, !Ata HW, !PromptAta HW}.
Abbreviation blocks := (lst (traced (ide_drv HW))).
Context (kend kdata gdt_addr : Z) (vectors : Z -> Z) (kmem_lock cons_lock ptable_lock tickslock bcache_lock ftable_lock idelock : Z).
Context (h : nat) (apic_at : Z -> nat -> Z) (imcr : Z -> Z).
Context (Hkend : KERNLINK <= kend) (Hdata : KERNLINK < kdata < KERNBASE + PHYSTOP) (Hdal : kdata mod 4096 = 0).
(** Room below four megabytes for the kernel's directory and the stacks of the other
    processors. *)
Context (Hroom : kend + 4096 * (Z.of_nat NCPU + 67) <= KERNBASE + FOURMB).
Implicit Types (d : H).

(** The machine when entry jumps to main: the memory of the image, with nothing on
    the free list, the table of the BIOS at [conf] below the end of the kernel with
    the entries [es], interrupts off, and a disk without a request. *)
Record power_on (st : kst) (x : smp) (y : ide_drv HW) (mp conf lap : Z) (es : list mpentry) : Prop := {
  po_mem : mem_ok (kmem_mem st);
  po_free : kmem_freelist st = 0;
  po_table : mp_table (kmem_mem st) mp conf es /\ conf_lapicaddr (kmem_mem st) conf = lap;
  po_bios : Forall (fun p => p + 16 <= kend) (candidates (kmem_mem st)) /\ conf + conf_length (kmem_mem st) conf <= kend;
  po_lapic : lap <> 0;
  po_ids : NoDup (take NCPU (proc_ids es)) /\ forall i id, take NCPU (proc_ids es) !! i = Some id -> Z.shiftr (apic_at lap i) 24 = id;
  po_cpus : ncpu x = 0%nat /\ length (cpus x) = NCPU;
  po_self : (h < length (take NCPU (proc_ids es)))%nat /\ if_off x h;
  po_disk : idle (dr_hw y)
}.
(** The interrupts that are on afterwards: keyboard and serial port, if there is one,
    go to the first processor, the disk to the last. *)
Definition routes d d' (ncpu : nat) : Prop := exists uart : bool, forall j, 0 <= j <= maxintr d -> Apic.entry d' j =
  if j =? IRQ_IDE then (Apic.T_IRQ0 + IRQ_IDE, u32 (Z.shiftl (Z.of_nat ncpu - 1) 24))
  else if uart && (j =? IRQ_COM1) then (Apic.T_IRQ0 + IRQ_COM1, 0)
  else if j =? IRQ_KBD then (Apic.T_IRQ0 + IRQ_KBD, 0)
  else (Z.lor INT_DISABLED (Apic.T_IRQ0 + j), 0).

Lemma main_processors_ok fy st ft pi t x o po d c i r g u v w y mp conf lap es : power_on st x y mp conf lap es ->
  exists N st' l x' o' po' d' c' kp,
    (forall fuel, (N <= fuel)%nat -> main_processors kend kdata gdt_addr kmem_lock h apic_at imcr fuel (Machine (HW:=HW) (Kern (FK fy st ft pi) t) (MpSt x o po) d c i r g u v w) =
      Ret tt (Machine (Kern (FK fy st' ft pi) t) (MpSt x' o' po') d' c' i r kp u v w)) /\
    early kend kdata st st' l kp /\ (NCPU <= length l)%nat /\ topo x' /\ map apicid (take (ncpu x') (cpus x')) = take NCPU (proc_ids es) /\ if_off x' h /\
    configured d' /\ la_sent d' = la_sent d ++ [sync_message] /\ same_io d d' /\ Seg.cr3 c' = V2P kp.
Proof.
  intros [Hok Hfl [Htab Elap] [Hb1 Hb2] Hlap [Hnd Hid] [Hn Hc] [Hh Hif] _].
  destruct (early_memory kend kdata Hkend Hdata Hdal st NCPU Hroom Hok Hfl) as (st1 & kp & st2 & l & E1 & E2 & Hea & Hlen).
  destruct (mp_table_ext kend _ (kmem_mem st2) _ _ _ Htab) as [Ht El]; [rewrite P2V_eq; lia | done | done | apply (ea_below _ _ _ _ _ _ Hea)|].
  destruct (initlock_ok kmem_lock "kmem" x) as (x1 & Ex & Hx1 & Hx2 & Hx3 & Hx4).
  destruct (mpinit_ok (kmem_mem st2) apic_at imcr mp conf es (MpSt x1 o po) ltac:(apply (vm_ok_free _ _ _ _ (ea_space _ _ _ _ _ _ Hea))) Ht) as ([x2 o2 po2] & Em & Hap & _ & Htopo & Hef & Hlp); [cbn [mp_smp]; congruence | cbn [mp_smp]; congruence|].
  cbn [mp_smp] in *. rewrite El, Elap in *. specialize (Htopo Hlap Hnd Hid). specialize (Hlp Hlap).
  assert (lapic_set x2 <> 0) as Hls by (unfold lapic_set; by destruct (lapic x2)).
  destruct (lapicinit_ok (lapic_set x2) d Hls) as (N & d' & Ed & Hcf & Hsy & Hio).
  assert (if_off x2 h) as Hif2 by (unfold if_off in *; congruence).
  assert (h < ncpu x2)%nat as Hh2 by (rewrite <- Hap, length_map, length_take in Hh; lia).
  assert (exists c2, seginit gdt_addr (Segs (gdt c) (smem c) (gdtr c) (tr c) (V2P kp)) = Ret tt c2 /\ Seg.cr3 c2 = V2P kp) as (c2 & Ec & Hcr) by (by eexists).
  exists N, st2, l, x2, o2, po2, d', c2, kp. split; [|by split_and!]. intros fuel Hf. unfold main_processors, kvmalloc.
  rewrite (bind_Ret _ _ _ _ _ (run_smp_of _ _ _ _ _ _ _ _ _ _ _ _ _ _ _ Ex)), (bind_Ret _ _ _ _ _ (run_kst_of _ _ _ _ _ _ _ _ _ _ _ _ _ _ _ _ _ E1)), bind_assoc.
  rewrite (bind_Ret _ _ _ _ _ (run_kst_of _ _ _ _ _ _ _ _ _ _ _ _ _ _ _ _ _ E2)), bind_assoc. unfold set_kpgdir at 1. rewrite bind_modify, bind_assoc, bind_get. cbn [mc_kern mc_mp mc_dev mc_segs mc_idt mc_idtr mc_kpgdir mc_uart mc_devsw mc_locking].
  rewrite (bind_Ret _ _ _ _ _ (run_segs_of (switchkvm kp) _ _ _ _ _ _ _ _ _ _ _ _ eq_refl)), bind_get. cbn [mc_kern k_fk fk_kst].
  rewrite (bind_Ret _ _ _ _ _ (run_mp_of _ _ _ _ _ _ _ _ _ _ _ _ _ Em)), bind_get. cbn [mc_mp mp_smp].
  rewrite (bind_Ret _ _ _ _ _ (run_dev_of _ _ _ _ _ _ _ _ _ _ _ _ _ (Ed fuel Hf))).
  rewrite (bind_Ret _ _ _ _ _ (run_smp_of _ _ _ _ _ _ _ _ _ _ _ _ _ _ _ (cpuid_ok h x2 Htopo Hh2 Hif2))). exact (run_segs_of _ _ _ _ _ _ _ _ _ _ _ _ _ Ec).
Qed.

(** The file system with another state of the blocks. *)
Definition with_blocks (b : blocks) (fy : fsys blocks) : fsys blocks := FSt b (fs_sb fy) (fs_ic fy) (fs_mem fy).
Lemma run_on_blocks f fy st ft pi t p d c i r g u v w : on_blocks f (Machine (Kern (FK fy st ft pi) t) p d c i r g u v w) =
  Ret tt (Machine (Kern (FK (with_blocks (f (fs_blk fy)) fy) st ft pi) t) p d c i r g u v w).
Proof. done. Qed.
Lemma run_drv_of {A} (m : M (ide_drv HW) A) fy st ft pi t p d c i r g u v w a y : m (tr_drv (bdrv (lbc (fs_blk fy)))) = Ret a y ->
  exists b, drv_of m (Machine (Kern (FK fy st ft pi) t) p d c i r g u v w) = Ret a (Machine (Kern (FK (with_blocks b fy) st ft pi) t) p d c i r g u v w).
Proof. intros E. eexists. apply run_kern_of. unfold fk, File.fs, zoom. cbn [k_fk fk_fs]. rewrite E. done. Qed.
Lemma main_interrupts_ok fy st ft pi t x o po d c i r g u v w : idle (dr_hw (tr_drv (bdrv (lbc (fs_blk fy))))) ->
  exists b x' d' u', main_interrupts vectors cons_lock ptable_lock tickslock bcache_lock ftable_lock idelock (Machine (Kern (FK fy st ft pi) t) (MpSt x o po) d c i r g u v w) =
    Ret tt (Machine (Kern (FK (with_blocks b fy) st ft pi) t) (MpSt x' o po) d' c (tvinit vectors i) r g u' true true) /\
    same_cpus x x' /\ same_la d d' /\ routes d d' (ncpu x).
Proof using DevLaws0 PromptAta0.
  clear Hroom. intros Hidle. destruct (ports_picinit d) as (a1 & d1 & E1 & L1 & I1). destruct (ioapicinit_ok o d1) as (a2 & d2 & E2 & L2 & I2).
  destruct (initlock_ok cons_lock "console" x) as (x1 & Ex1 & Hx1). destruct (ioapicenable_ok IRQ_KBD 0 d2 ltac:(lia)) as (d3 & E3 & L3 & I3).
  destruct (uartinit_ok u d3) as (u' & d4 & pr & E4 & L4 & I4). destruct (initlock_ok ptable_lock "ptable" x1) as (x2 & Ex2 & Hx2).
  destruct (initlock_ok tickslock "time" x2) as (x3 & Ex3 & Hx3). destruct (initlock_ok bcache_lock "bcache" x3) as (x4 & Ex4 & Hx4).
  destruct (initlock_ok ftable_lock "ftable" x4) as (x5 & Ex5 & Hx5). destruct (initlock_ok idelock "ide" x5) as (x6 & Ex6 & Hx6).
  assert (same_cpus x x6) as Hx by eauto 10 using same_cpus_trans.
  destruct (ioapicenable_ok IRQ_IDE (Z.of_nat (ncpu x6) - 1) d4 ltac:(lia)) as (d5 & E5 & L5 & I5).
  set (fy1 := with_blocks (set_lbc (binit (lbc (fs_blk fy))) (fs_blk fy)) fy). destruct (ideinit_drv_ok (tr_drv (bdrv (lbc (fs_blk fy1))))) as (y & Ey).
  { unfold fy1, with_blocks. cbn [fs_blk set_lbc lbc]. destruct (binit_ok (lbc (fs_blk fy))) as (_ & _ & -> & _). done. }
  destruct (run_drv_of _ fy1 st ft pi t (MpSt x6 o po) d5 c (tvinit vectors i) r g u' true true _ _ Ey) as (b & Eb).
  exists b, x6, d5, u'. split; [|split; [done | split]].
  - unfold main_interrupts, consoleinit, pinit, fileinit, ideinit. rewrite (bind_Ret _ _ _ _ _ (run_dev_of _ _ _ _ _ _ _ _ _ _ _ _ _ E1)), bind_get. cbn [mc_mp ioapicid].
    rewrite (bind_Ret _ _ _ _ _ (run_dev_of _ _ _ _ _ _ _ _ _ _ _ _ _ E2)), bind_assoc, (bind_Ret _ _ _ _ _ (run_smp_of _ _ _ _ _ _ _ _ _ _ _ _ _ _ _ Ex1)), bind_assoc, bind_modify, bind_assoc, bind_modify.
    cbn [mc_kern mc_mp mc_dev mc_segs mc_idt mc_idtr mc_kpgdir mc_uart mc_devsw mc_locking]. rewrite (bind_Ret _ _ _ _ _ (run_dev_of _ _ _ _ _ _ _ _ _ _ _ _ _ E3)), bind_get. cbn [mc_uart].
    rewrite (bind_Ret _ _ _ _ _ (run_dev_of _ _ _ _ _ _ _ _ _ _ _ _ _ E4)). unfold set_uart, set_idt. rewrite bind_modify. cbn [mc_kern mc_mp mc_dev mc_segs mc_idt mc_idtr mc_kpgdir mc_uart mc_devsw mc_locking].
    rewrite (bind_Ret _ _ _ _ _ (run_smp_of _ _ _ _ _ _ _ _ _ _ _ _ _ _ _ Ex2)), bind_get, bind_modify. cbn [mc_kern mc_mp mc_dev mc_segs mc_idt mc_idtr mc_kpgdir mc_uart mc_devsw mc_locking].
    rewrite (bind_Ret _ _ _ _ _ (run_smp_of _ _ _ _ _ _ _ _ _ _ _ _ _ _ _ Ex3)), (bind_Ret _ _ _ _ _ (run_smp_of _ _ _ _ _ _ _ _ _ _ _ _ _ _ _ Ex4)).
    rewrite (bind_Ret _ _ _ _ _ (run_on_blocks _ _ _ _ _ _ _ _ _ _ _ _ _ _ _)). fold fy1.
    rewrite (bind_Ret _ _ _ _ _ (run_smp_of _ _ _ _ _ _ _ _ _ _ _ _ _ _ _ Ex5)), (bind_Ret _ _ _ _ _ (run_smp_of _ _ _ _ _ _ _ _ _ _ _ _ _ _ _ Ex6)), bind_get. cbn [mc_mp mp_smp].
    rewrite (bind_Ret _ _ _ _ _ (run_dev_of _ _ _ _ _ _ _ _ _ _ _ _ _ E5)). exact Eb.
  - destruct L1 as [L1 M1], L2 as [L2 M2], L3 as [L3 M3], L4 as [L4 M4], L5 as [L5 M5]. split; [intros k; by rewrite L5, L4, L3, L2, L1 | by rewrite M5, M4, M3, M2, M1].
  - exists pr. intros j Hj. assert (maxintr d1 = maxintr d) as Hmax by (unfold maxintr; by rewrite I1). rewrite I5, I4, I3, I2 by (rewrite ?Hmax; lia). destruct Hx as (_ & _ & _ & ->). done.
Qed.
End boot.

(** ** The owners of memory *)

Lemma proc_ids_bytes m mp conf es : mem_ok m -> mp_table m mp conf es -> Forall (fun id => 0 <= id < 256) (proc_ids es).
Proof.
  intros Hm (_ & _ & _ & _ & _ & _ & _ & Hb & _ & _). assert (Forall (fun b => 0 <= b < 256) (table_bytes es)) as Hall.
  { rewrite <- Hb. apply Forall_lookup. intros k b Hk. assert (k < length (table_bytes es))%nat as Hl by (apply lookup_lt_Some in Hk; by rewrite Hb in Hk).
    rewrite bytes_at_lookup in Hk by done. injection Hk as <-. apply Hm. }
  clear Hb. unfold table_bytes in Hall. induction es as [|e es IH]; simpl in *; [constructor|]. apply Forall_app in Hall as [He Hes]. apply Forall_app. split; [|by apply IH].
  destruct e; simpl in *; [|constructor..]. apply Forall_cons in He as [_ He]. apply Forall_cons in He as [He _]. by apply Forall_singleton.
Qed.

(** An address space of which no page changes. *)
Lemma vm_ok_pages kend st l st' l' pgdir : vm_ok kend st l pgdir -> free_inv kend st' l' ->
  (forall p x, owned (kmem_mem st) pgdir p -> in_page p x -> kmem_mem st' x = kmem_mem st x) -> (forall p, p ∈ l' -> ~ owned (kmem_mem st) pgdir p) ->
  vm_ok kend st' l' pgdir /\ (forall va, va_ok va -> mapped (kmem_mem st') pgdir va = mapped (kmem_mem st) pgdir va) /\
  (forall p, owned (kmem_mem st') pgdir p <-> owned (kmem_mem st) pgdir p).
Proof.
  intros ((Hf & Htp & Hnd & Hinj) & Hup & Hin) Hf' Hm Hl'.
  destruct (tables_ext (kmem_mem st) (kmem_mem st') pgdir) as (Hd & Hmap & Ht).
  { intros p i Hp Hi. apply ld32_ext. intros x Hx. apply (Hm p); [by left | unfold in_page; lia]. }
  assert (forall p, upage (kmem_mem st') pgdir p <-> upage (kmem_mem st) pgdir p) as Hu.
  { intros p. unfold upage. split; intros (va & e & Hva & He & ->); exists va, e; [rewrite Hmap in He by by apply uva_ok | rewrite Hmap by by apply uva_ok]; done. }
  split_and!; try done.
  - split_and!; [split_and!; [done | | |] | |].
    + intros p Hp. apply Ht in Hp. split; [by apply Htp|]. intros Hpl. apply (Hl' p Hpl). by left.
    + intros i Hi. destruct (Hd i Hi) as [-> ->]. by apply Hnd.
    + intros i j Hi Hj. destruct (Hd i Hi) as [-> ->], (Hd j Hj) as [-> ->]. by apply Hinj.
    + intros va e Hva. rewrite Hmap by by apply uva_ok. intros He. destruct (Hup va e Hva He) as (? & _ & ?). split_and!; [done | | by rewrite Ht].
      intros Hpl. apply (Hl' _ Hpl). right. by exists va, e.
    + intros va va' e e' Hva Hva'. rewrite !Hmap by by apply uva_ok. by apply Hin.
  - intros p. unfold owned. by rewrite Ht, Hu.
Qed.

(** Who holds a page at the end of main. *)
Inductive owner := Free | KernelDir | CpuStack (i : nat) | InitSpace | InitStack.
Definition owns (m : mem) (free stacks : list Z) (kpgdir d q : Z) (o : owner) (p : Z) : Prop :=
  match o with
  | Free => p ∈ free
  | KernelDir => owned m kpgdir p
  | CpuStack i => stacks !! i = Some p
  | InitSpace => owned m d p
  | InitStack => p = q
  end.
Lemma owners_logic (A K K2 T Dr L P lt ge : Prop) : (A <-> Dr \/ P /\ ge) -> (K2 \/ L <-> P /\ lt) -> (K <-> K2) -> (T <-> L /\ ~ Dr) -> (Dr -> L) ->
  (K -> ~ L) -> ~ (lt /\ ge) -> lt \/ ge -> Dr \/ ~ Dr -> (P <-> A \/ K \/ T) /\ (K -> ~ A) /\ (T -> ~ A) /\ (K -> ~ T).
Proof. intros -> HL -> -> HD HK Hlg Hor Hdec. tauto. Qed.
Section owners.
Context (kend kdata : Z) (Hkend : KERNLINK <= kend <= KERNBASE + FOURMB).
Context (st st2 : kst) (l : list Z) (kp : Z) (Hea : early kend kdata st st2 l kp).
(** After startothers and kinit2. *)
Context (rodata : Z -> Prop) (n : nat) (st3 st4 : kst) (l4 : list Z).
Context (Hf3 : free_inv kend st3 (drop n l)) (Hk3 : kept kend rodata st2 st3 l).
Context (Hf4 : free_inv kend st4 l4) (Hl4 : forall p, p ∈ l4 <-> p ∈ drop n l \/ (kpage kend p /\ KERNBASE + FOURMB <= p)) (Hb4 : forall x, x < KERNBASE + FOURMB -> kmem_mem st4 x = kmem_mem st3 x).

Lemma dir_page p : owned (kmem_mem st2) kp p -> kpage kend p /\ p < KERNBASE + FOURMB /\ (p ∉ l) /\ p + 4096 <= KERNBASE + FOURMB.
Proof using Hea.
  intros Ho. destruct (proj1 (ea_pages _ _ _ _ _ _ Hea p) (or_introl Ho)) as [Hk Hlt]. destruct (vm_ok_owned _ _ _ _ _ (ea_space _ _ _ _ _ _ Hea) Ho) as [_ Hl].
  split_and!; try done. destruct Hk as (Ha & _). unfold FOURMB in *. zlia.
Qed.
Lemma drop_in p : p ∈ drop n l -> p ∈ l.
Proof using. intros Hp. rewrite <- (take_drop n l). apply elem_of_app. by right. Qed.
Lemma kernel_dir_kept : vm_ok kend st4 l4 kp /\ (forall va, va_ok va -> mapped (kmem_mem st4) kp va = kernel_pte kdata va) /\
  (forall p, owned (kmem_mem st4) kp p <-> owned (kmem_mem st2) kp p).
Proof using All.
  destruct (vm_ok_pages kend st2 l st4 l4 kp (ea_space _ _ _ _ _ _ Hea) Hf4) as (Hv & Hm & Ho).
  - intros p x Hp Hx. destruct (dir_page p Hp) as (Hk & _ & Hnl & Hlt). unfold in_page in Hx. rewrite Hb4 by lia. apply Hk3. right. destruct Hk as (Ha & Hge & Hhi). split; [lia|].
    intros q Hq Hxq. assert (kpage kend q) as Hkq by (eapply kpage_not_free; [exact (vm_ok_free _ _ _ _ (ea_space _ _ _ _ _ _ Hea)) | done]).
    assert (p <> q) as Hne by congruence. destruct (kpage_ne kend p q ltac:(done) Hkq Hne); unfold in_page in Hxq; lia.
  - intros p Hp Ho. destruct (dir_page p Ho) as (_ & Hlt & Hnl & _). apply Hl4 in Hp as [Hp|[_ Hp]]; [by apply drop_in in Hp | lia].
  - split_and!; try done. intros va Hva. rewrite Hm by done. by apply (ea_map _ _ _ _ _ _ Hea).
Qed.

(** After userinit. *)
Context (trapret forkret_addr initcode size q : Z) (l0 : list Z) (st5 : kst) (l5 : list Z) (d : Z).
Context (Hq4 : l4 = q :: l0) (Hfm : first_made kend trapret forkret_addr initcode size st4 q l0 st5 l5 d).
Lemma kernel_dir_final : vm_ok kend st5 l5 kp /\ (forall va, va_ok va -> mapped (kmem_mem st5) kp va = kernel_pte kdata va) /\
  (forall p, owned (kmem_mem st5) kp p <-> owned (kmem_mem st2) kp p).
Proof using All.
  destruct kernel_dir_kept as (Hv & Hm & Ho). destruct (vm_ok_pages kend st4 l4 st5 l5 kp Hv (vm_ok_free _ _ _ _ (fm_space _ _ _ _ _ _ _ _ _ _ _ Hfm))) as (Hv5 & Hm5 & Ho5).
  - intros p x Hp Hx. destruct (vm_ok_owned _ _ _ _ _ Hv Hp) as [Hk Hnl]. rewrite Hq4 in Hnl. by apply (fm_rest _ _ _ _ _ _ _ _ _ _ _ Hfm p).
  - intros p Hp Hp'. destruct (vm_ok_owned _ _ _ _ _ Hv Hp') as [_ Hnl]. apply Hnl. rewrite Hq4. apply (fm_pages _ _ _ _ _ _ _ _ _ _ _ Hfm). by right.
  - split_and!; [done | intros va Hva; by rewrite Hm5, Hm | intros p; by rewrite Ho5, Ho].
Qed.
Lemma one_owner p : (kpage kend p <-> exists o, owns (kmem_mem st5) l5 (take n l) kp d q o p) /\
  forall o o', owns (kmem_mem st5) l5 (take n l) kp d q o p -> owns (kmem_mem st5) l5 (take n l) kp d q o' p -> o = o'.
Proof using All.
  destruct kernel_dir_final as (_ & _ & Ho). pose proof (fm_pages _ _ _ _ _ _ _ _ _ _ _ Hfm p) as Hp. rewrite <- Hq4, Hl4 in Hp.
  destruct (fm_stack _ _ _ _ _ _ _ _ _ _ _ Hfm) as [Hq1 Hq2]. pose proof (ea_pages _ _ _ _ _ _ Hea p) as He. specialize (Ho p).
  pose proof (vm_ok_free _ _ _ _ (ea_space _ _ _ _ _ _ Hea)) as (_ & Hnd & _).
  assert (p ∈ take n l <-> p ∈ l /\ p ∉ drop n l) as Hst.
  { rewrite <- (take_drop n l) in Hnd. apply NoDup_app in Hnd as (_ & Hd & _). specialize (Hd p). assert (p ∈ l <-> p ∈ take n l \/ p ∈ drop n l) as -> by (rewrite <- elem_of_app; by rewrite take_drop). tauto. }
  assert (forall i, take n l !! i = Some p -> p ∈ take n l) as Hi by (intros i; apply list_elem_of_lookup_2).
  assert (owned (kmem_mem st5) d p -> p ∉ l5) as Hdl by (intros Hd; by destruct (vm_ok_owned _ _ _ _ _ (fm_space _ _ _ _ _ _ _ _ _ _ _ Hfm) Hd)).
  destruct (owners_logic _ _ _ _ _ _ _ _ _ Hp He Ho Hst (drop_in p)) as (Hall & Hka & Hta & Hkt);
    [intros Hk; apply Ho, dir_page in Hk; tauto | lia | lia | destruct (decide (p ∈ drop n l)); auto |]. clear Hp He Ho Hst. split; [rewrite Hall; split|].
  - intros [[[H|H]|H]|[H|H]]; [by exists InitSpace | by exists InitStack | by exists Free | by exists KernelDir |]. apply list_elem_of_lookup in H as (i & H). by exists (CpuStack i).
  - intros ([| |i| |] & H); cbn [owns] in H; try (apply Hi in H); tauto.
  - assert (p = q -> ~ owned (kmem_mem st5) d p /\ p ∉ l5) as Hqq by (intros ->; done).
    clear -Hka Hta Hkt Hqq Hdl Hi Hnd. intros [| |i| |] [| |j| |]; cbn [owns]; intros H1 H2; try done; try (exfalso; try (apply Hi in H1); try (apply Hi in H2); tauto).
    f_equal. rewrite <- (take_drop n l) in Hnd. apply NoDup_app in Hnd as (Hnd & _ & _). by eapply NoDup_lookup.
Qed.
End owners.

(** ** The whole *)

Lemma others_length cpus : forall c me, (length (others cpus c me) <= length cpus)%nat.
Proof. induction cpus as [|id cpus IH]; intros c me; simpl; [lia|]. specialize (IH (c + 1)%nat me). destruct (Nat.eqb c me); simpl; lia. Qed.
Lemma comes_up_ext {H} `{!Lapic H, !Ports H, !LapicLaws H} kend image size mpenter epd started_addr (other : nat -> kst * H -> kst * H) rodata m0 m1 :
  (forall i, 0 <= i < size -> m1 (image + i) = m0 (image + i)) -> comes_up kend image size mpenter epd started_addr other rodata m0 -> comes_up kend image size mpenter epd started_addr other rodata m1.
Proof. intros Hm Hup c id q st h Hok Hi. apply Hup; [done|]. intros i Hi'. by rewrite Hi, Hm. Qed.

(** The data of the kernel that userinit reads. *)
Definition kernel_data (initcode size slash_str x : Z) : Prop := initcode <= x < initcode + size \/ slash_str <= x < slash_str + 2.

Section up.
Context {H HW : Type} `{!Lapic H, !Ports H, !LapicLaws H, !Ioapic H, !IoapicLaws H, !DevLaws H, !Ata HW, !PromptAta HW}.
Context (kend kdata initcode size : Z) (started_addr : nat -> Z) (vectors : Z -> Z) (idt_addr : Z) (h : nat).

(** The machine when main calls the scheduler.  Before the flag of this processor was
    set the state of memory was [st5]. *)
Record up (st : kst) (d : H) (idt : list gatedesc) (ids : list Z) (np : nat) (n : Z) (y : proc) (s : machine (H:=H) (HW:=HW)) (st5 : kst) (free stacks : list Z) (q dir : Z) : Prop := {
  up_memory : fk_kst (k_fk (mc_kern s)) = Kalloc.set_mem (st32 (kmem_mem st5) (started_addr h) 1) st5;
  up_owners : forall p, (kpage kend p <-> exists o, owns (kmem_mem st5) free stacks (mc_kpgdir s) dir q o p) /\
    forall o o', owns (kmem_mem st5) free stacks (mc_kpgdir s) dir q o p -> owns (kmem_mem st5) free stacks (mc_kpgdir s) dir q o' p -> o = o';
  up_free : free_inv kend st5 free;
  up_kernel : vm_ok kend st5 free (mc_kpgdir s) /\ (forall va, va_ok va -> mapped (kmem_mem st5) (mc_kpgdir s) va = kernel_pte kdata va) /\ Seg.cr3 (mc_segs s) = V2P (mc_kpgdir s);
  up_process : pt_init (k_pt (mc_kern s)) = Some np /\ pt_proc (k_pt (mc_kern s)) !! np = Some (first_process n y q dir);
  up_space : vm_ok kend st5 free dir /\ forall va, uva va -> uview (kmem_mem st5) dir va = if va <? 4096 then Some (7, if va <? size then kmem_mem st (initcode + va) else 0) else None;
  up_cpus : topo (mp_smp (mc_mp s)) /\ map apicid (take (ncpu (mp_smp (mc_mp s))) (cpus (mp_smp (mc_mp s)))) = ids;
  up_others : length stacks = length (others ids 0 h);
  up_devices : configured (mc_dev s) /\ routes d (mc_dev s) (length ids) /\ la_sent (mc_dev s) = la_sent d ++ sync_message :: mjoin (start_messages <$> others ids 0 h);
  up_traps : mc_idt s = tvinit vectors idt /\ mc_idtr s = lidt idt_addr (8 * 256)
}.
End up.

(** The other processors start on the memory below four megabytes, before the rest is
    freed.  The data that userinit reads stays. *)
Lemma others_then_memory {H} `{!Lapic H, !Ports H, !LapicLaws H} (kend kdata entryother entryother_size mpenter_addr entrypgdir_addr : Z) (started_addr : nat -> Z) (other : nat -> kst * H -> kst * H) :
  KERNLINK <= kend <= KERNBASE + FOURMB -> 0 <= entryother_size <= 4096 -> KERNLINK <= entryother /\ entryother + entryother_size <= kend ->
  KERNLINK <= entrypgdir_addr /\ entrypgdir_addr + 4096 <= kend /\ entrypgdir_addr mod 4096 = 0 -> 0 <= mpenter_addr < W32 ->
  forall rodata, (forall a, rodata a -> KERNLINK <= a < kend) -> forall st st2 l kp, early kend kdata st st2 l kp ->
  comes_up kend entryother entryother_size mpenter_addr entrypgdir_addr started_addr other rodata (kmem_mem st) -> directory_there entrypgdir_addr (kmem_mem st) ->
  forall ids h d, (length (others ids 0 h) <= length l)%nat -> Forall (fun id => 0 <= id < 256) ids -> mem_ok (kmem_mem st) -> kmem_freelist st = 0 ->
  let k := length (others ids 0 h) in
  exists N st3 d' st4 l4,
    (forall fuel, (N <= fuel)%nat -> startothers entryother entryother_size mpenter_addr entrypgdir_addr started_addr other fuel ids h (st2, d) = Ret tt (st3, d')) /\
    free_inv kend st3 (drop k l) /\ la_sent d' = la_sent d ++ mjoin (start_messages <$> others ids 0 h) /\ kept kend rodata st2 st3 l /\
    kinit2 kend (P2V (4 * 1024 * 1024)) (P2V PHYSTOP) st3 = Ret tt st4 /\ free_inv kend st4 l4 /\
    (forall p, p ∈ l4 <-> p ∈ drop k l \/ (kpage kend p /\ KERNBASE + FOURMB <= p)) /\ (forall a, a < KERNBASE + FOURMB -> kmem_mem st4 a = kmem_mem st3 a) /\
    (forall a, rodata a -> kmem_mem st4 a = kmem_mem st a).
Proof.
  intros Hke Hes Heo Hep Hmp rodata Hro st st2 l kp Hea Hup Hdir ids h d Hlen Hbyte Hok Hfl k.
  destruct (startothers_ok kend entryother entryother_size mpenter_addr entrypgdir_addr started_addr other Hke Hes Heo Hep Hmp rodata Hro (kmem_mem st2) ids h st2 d l)
    as (N & st3 & d' & E3 & Hf3 & Hsent & Hkept).
  { eapply comes_up_ext; [|exact Hup]. intros a Ha. apply (ea_below _ _ _ _ _ _ Hea). lia. }
  { done. } { eapply vm_ok_free, ea_space; exact Hea. }
  { intros a Ha. rewrite <- Hdir by done. apply ld32_ext. intros z Hz. apply (ea_below _ _ _ _ _ _ Hea). lia. }
  { done. }
  { apply Forall_forall. intros p Hp. destruct (proj1 (ea_pages _ _ _ _ _ _ Hea p) (or_intror Hp)) as [(Ha & _) Hlt]. unfold FOURMB in *. zlia. }
  { done. }
  destruct (kinit_frees_all_pages kend st) as (_ & _ & _ & _ & _ & _ & _ & Hk2); [rewrite P2V_eq; unfold FOURMB in *; lia | done | done|].
  assert (P2V 4194304 = KERNBASE + FOURMB) as EP by (rewrite P2V_eq; unfold FOURMB; lia).
  destruct (Hk2 st3 (drop k l) Hf3) as (st4 & l4 & E4 & Hf4 & _ & Hl4 & Hb4).
  { intros p Hp. rewrite EP. eapply drop_in in Hp. by apply (ea_pages _ _ _ _ _ _ Hea p); right. }
  rewrite EP in Hl4, Hb4. exists N, st3, d', st4, l4. do 8 (split; [done|]).
  intros a Ha. pose proof (Hro a Ha). rewrite Hb4, (Hkept a (or_introl Ha)) by lia. apply (ea_below _ _ _ _ _ _ Hea). lia.
Qed.

Section runs.
Context {H HW : Type} `{!Lapic H, !Ports H, !LapicLaws H, !Ioapic H, !Ata HW, !BlockOps (lst (traced (ide_drv HW)))}.
Context (kend kdata trapret forkret_addr initcode size lookup_de namebuf slash_str entryother entryother_size mpenter_addr entrypgdir_addr gdt_addr idt_addr : Z) (started_addr : nat -> Z) (vectors : Z -> Z).
Context (kmem_lock cons_lock ptable_lock tickslock bcache_lock ftable_lock idelock : Z) (h : nat) (apic_at : Z -> nat -> Z) (imcr : Z -> Z) (other : nat -> kst * H -> kst * H).
Context (devread : Z -> option (nat -> Z -> Z -> M (fsys (lst (traced (ide_drv HW)))) Z)).

(** The last step of every processor. *)
Lemma mpmain_ok fy st ft pi t x o po (d : H) c idt r g u v w : topo x -> (h < ncpu x)%nat -> if_off x h ->
  mpmain (HW:=HW) idt_addr started_addr h (Machine (Kern (FK fy st ft pi) t) (MpSt x o po) d c idt r g u v w) =
  Ret tt (Machine (Kern (FK fy (Kalloc.set_mem (st32 (kmem_mem st) (started_addr h) 1) st) ft pi) t) (MpSt x o po) d c idt (lidt idt_addr (8 * 256)) g u v w).
Proof.
  intros Ht Hh Hif. unfold mpmain. rewrite (bind_Ret _ _ _ _ _ (run_smp_of _ _ _ _ _ _ _ _ _ _ _ _ _ _ _ (cpuid_ok h x Ht Hh Hif))). unfold idtinit. rewrite bind_modify.
  cbn [mc_kern mc_mp mc_dev mc_segs mc_idt mc_idtr mc_kpgdir mc_uart mc_devsw mc_locking].
  rewrite (bind_Ret _ _ _ _ _ (run_smp_of _ _ _ _ _ _ _ _ _ _ _ _ _ _ _ (mycpu_self x h Ht Hh Hif))). exact (run_kst_of _ _ _ _ _ _ _ _ _ _ _ _ _ _ _ _ _ eq_refl).
Qed.
(** [main] from the results of its parts. *)
Lemma main_runs fuel s0 s1 fy st2 ft pi t x o po (d3 : H) c idt r g u v w st3 d4 st4 fy5 st5 t5 :
  main_processors kend kdata gdt_addr kmem_lock h apic_at imcr fuel s0 = Ret tt s1 ->
  main_interrupts vectors cons_lock ptable_lock tickslock bcache_lock ftable_lock idelock s1 = Ret tt (Machine (Kern (FK fy st2 ft pi) t) (MpSt x o po) d3 c idt r g u v w) ->
  topo x -> (h < ncpu x)%nat -> if_off x h ->
  startothers entryother entryother_size mpenter_addr entrypgdir_addr started_addr other fuel (map apicid (take (ncpu x) (cpus x))) h (st2, d3) = Ret tt (st3, d4) ->
  kinit2 kend (P2V (4 * 1024 * 1024)) (P2V PHYSTOP) st3 = Ret tt st4 ->
  userinit devread kend kdata trapret forkret_addr initcode size lookup_de namebuf slash_str (Kern (FK fy st4 ft pi) t) = Ret tt (Kern (FK fy5 st5 ft pi) t5) ->
  main kend kdata trapret forkret_addr initcode size lookup_de namebuf slash_str entryother entryother_size mpenter_addr entrypgdir_addr gdt_addr idt_addr started_addr vectors
    kmem_lock cons_lock ptable_lock tickslock bcache_lock ftable_lock idelock h apic_at imcr other devread fuel s0 =
  Ret tt (Machine (Kern (FK fy5 (Kalloc.set_mem (st32 (kmem_mem st5) (started_addr h) 1) st5) ft pi) t5) (MpSt x o po) d4 c idt (lidt idt_addr (8 * 256)) g u v w).
Proof.
  intros E1 E2 Ht Hh Hif E3 E4 E5. unfold main. rewrite (bind_Ret _ _ _ _ _ E1), (bind_Ret _ _ _ _ _ E2). unfold main_startothers.
  rewrite bind_assoc, (bind_Ret _ _ _ _ _ (run_smp_of _ _ _ _ _ _ _ _ _ _ _ _ _ _ _ (mycpu_self x h Ht Hh Hif))), bind_assoc, bind_get. cbn [mc_mp mp_smp].
  rewrite (bind_Ret _ _ _ _ _ (run_kdev_of _ _ _ _ _ _ _ _ _ _ _ _ _ _ _ _ _ _ E3)), (bind_Ret _ _ _ _ _ (run_kst_of _ _ _ _ _ _ _ _ _ _ _ _ _ _ _ _ _ E4)).
  rewrite (bind_Ret _ _ _ _ _ (run_kern_of _ _ _ _ _ _ _ _ _ _ _ _ _ E5)). by apply mpmain_ok.
Qed.
End runs.

(** Another processor comes up as startothers relies on: mpenter returns, on the
    directory of the kernel, with its local APIC set up and its interrupt table
    loaded.  Of the memory it writes only its flag, which startothers waits for. *)
Lemma mpenter_sets_flag {H HW : Type} `{!Lapic H, !Ports H, !LapicLaws H, !Ioapic H, !IoapicLaws H, !DevLaws H} (kend entryother_size mpenter_addr entrypgdir_addr gdt_addr idt_addr : Z) (started_addr : nat -> Z) (rodata : Z -> Prop) (h : nat)
    fy st ft pi t x o po (d : H) c idt r g u v w :
  topo x -> (h < ncpu x)%nat -> if_off x h -> mem_ok (kmem_mem st) ->
  (forall a, started_addr h <= a < started_addr h + 4 -> a < kend /\ ~ (code <= a < code + entryother_size \/ entrypgdir_addr <= a < entrypgdir_addr + 4096 \/ rodata a)) ->
  exists N st' d' c', (forall fuel, (N <= fuel)%nat -> mpenter (HW:=HW) gdt_addr idt_addr started_addr h fuel (Machine (Kern (FK fy st ft pi) t) (MpSt x o po) d c idt r g u v w) =
      Ret tt (Machine (Kern (FK fy st' ft pi) t) (MpSt x o po) d' c' idt (lidt idt_addr (8 * 256)) g u v w)) /\
    configured d' /\ Seg.cr3 c' = V2P g /\ forall q (b : H), is_started started_addr h (st', b) = true /\ quiet kend entryother_size entrypgdir_addr rodata q (st, b) (st', b).
Proof.
  intros Ht Hh Hif Hok Hfl. assert (lapic_set x <> 0) as Hls by (destruct Ht as (_ & rr & Hr & _); unfold lapic_set; by rewrite Hr).
  destruct (lapicinit_ok (lapic_set x) d Hls) as (N & d' & Ed & Hcf & _).
  assert (exists c2, seginit gdt_addr (Segs (gdt c) (smem c) (gdtr c) (tr c) (V2P g)) = Ret tt c2 /\ Seg.cr3 c2 = V2P g) as (c2 & Ec & Hcr) by (by eexists).
  exists N, (Kalloc.set_mem (st32 (kmem_mem st) (started_addr h) 1) st), d', c2. split_and!; [|done|done|].
  - intros fuel Hf. unfold mpenter. rewrite bind_get. cbn [mc_kpgdir]. rewrite (bind_Ret _ _ _ _ _ (run_segs_of (switchkvm g) _ _ _ _ _ _ _ _ _ _ _ _ eq_refl)).
    rewrite (bind_Ret _ _ _ _ _ (run_smp_of _ _ _ _ _ _ _ _ _ _ _ _ _ _ _ (cpuid_ok h x Ht Hh Hif))), (bind_Ret _ _ _ _ _ (run_segs_of _ _ _ _ _ _ _ _ _ _ _ _ _ Ec)), bind_get. cbn [mc_mp mp_smp].
    rewrite (bind_Ret _ _ _ _ _ (run_dev_of _ _ _ _ _ _ _ _ _ _ _ _ _ (Ed fuel Hf))). by apply mpmain_ok.
  - intros q b. split; [unfold is_started; cbn [fst kmem_mem Kalloc.set_mem]; by rewrite ld32_st32_eq by lia|].
    split; cbn [fst snd kmem_mem kmem_freelist kmem_use_lock Kalloc.set_mem]; try done; [by apply st32_ok | |];
      intros a Ha; [intros _|]; apply st32_out; destruct (decide (started_addr h <= a < started_addr h + 4)) as [Hin|]; [|lia | |lia]; apply Hfl in Hin; [lia | tauto].
Qed.


(** ** A machine that comes up *)

(** A local APIC beside an I/O APIC, without serial port. *)
Definition board : Type := toy_apic * (Z * (Z -> Z)).
#[export] Instance board_lapic : Lapic board := { la_read r h := ((la_read r h.1).1, ((la_read r h.1).2, h.2)); la_write r v h := (la_write r v h.1, h.2) }.
#[export] Instance board_ports : Ports board := { inb p h := (255, h); outb p v h := h }.
#[export] Instance board_ioapic : Ioapic board :=
  { io_select r h := (h.1, io_select r h.2); io_data h := io_data h.2; io_store x h := (h.1, io_store x h.2); io_regs h := io_regs h.2 }.
#[export] Instance board_lapic_laws : LapicLaws board.
Proof.
  refine {| la_regs h := la_regs h.1; la_sent h := la_sent h.1 |}; try done; intros; cbn [la_read la_write board_lapic fst snd].
  - apply la_read_regs.
  - apply la_read_sent.
  - by exists 1%nat.
Defined.
#[export] Instance board_ioapic_laws : IoapicLaws board.
Proof. by split. Qed.
#[export] Instance board_laws : DevLaws board.
Proof. by split. Qed.

(** The image of the kernel: initcode, the string "/" and the first directory; and
    below it the tables of a BIOS with two processors. *)
Definition board_mem : mem := demo_image (fun a =>
  if a =? 2148533248 then SLASH else if (2148532736 <=? a) && (a <? 2148532736 + 116) then demo_initcode (a - 2148532736) else mp_bios mp_bytes conf_bytes a).
Definition board_kst : kst := KSt board_mem 0 false.
Definition board_fs : fsys (lst (traced (ide_drv toy))) :=
  FSt (LSt (BSt (fun _ => buf0 0 0 0) (fun _ => 0%nat) (fun _ => 0%nat) (Traced (IdeDrv toy0 true) [])) (Logst 0 0 0 false 0 0 [])) (Superblock 0 0 0 0 0 0 0) [no_inode] (fun _ => 0).
Definition board_ids (_ : Z) (c : nat) : Z := if (c =? 0)%nat then 50331648 else 117440512.
Lemma board_bios a : a < KERNLINK -> board_mem a = mp_bios mp_bytes conf_bytes a.
Proof. intros Ha. unfold board_mem, demo_image, demo_epd. rewrite !st32_out by lia. by zcases. Qed.
Lemma board_mem_ok : mem_ok board_mem.
Proof.
  unfold board_mem, demo_image. apply st32_ok, st32_ok. intros a. destruct (a =? 2148533248); [lia|]. destruct (_ && _); [apply demo_initcode_ok|].
  apply mp_bios_ok; repeat (apply Forall_cons; split; [lia|]); by apply Forall_nil.
Qed.
Lemma bios_candidates : Forall (fun p => p + 16 <= KERNLINK) (candidates (mp_bios mp_bytes conf_bytes)).
Proof. apply (bool_decide_unpack _). vm_compute. exact I. Qed.
Lemma board_on : power_on demo_kend 0 board_ids board_kst smp0 (tr_drv (bdrv (lbc (fs_blk board_fs)))) (KERNBASE + 983072) (KERNBASE + 987136) 4276092928 mp_entries.
Proof.
  destruct (mp_table_ext KERNLINK _ board_mem _ _ _ mp_table0) as [Ht El]; [vm_compute; discriminate | apply bios_candidates | vm_compute; discriminate | apply board_bios |].
  split; cbn [kmem_mem board_kst]; try done.
  - apply board_mem_ok.
  - split; [|vm_compute; discriminate]. replace (candidates board_mem) with (candidates (mp_bios mp_bytes conf_bytes)); [|unfold candidates, ebda, base_memory; rewrite P2V_eq, !board_bios by lia; done].
    eapply Forall_impl; [apply bios_candidates|]. unfold demo_kend. cbv beta. lia.
  - change (take NCPU (proc_ids mp_entries)) with [3; 7]. split; [apply NoDup_cons; split; [by rewrite list_elem_of_singleton | apply NoDup_singleton] | by intros [|[|i]] id [= <-]].
  - split; [vm_compute; lia | done].
  - split_and!; try done. intros dev n. apply block_ok_replicate. cbn. zlia.
Qed.
#[local] Instance board_blocks : BlockOps (lst (traced (ide_drv toy))) := log_ops 0.
