(* ===== verification/Reboot.v ===== *)
(** * The first run of a process, and a crash before it (forkret of proc.c)

    The first process to run reads the superblock and recovers the log, because
    both can sleep on the disk.  The theorem follows a machine that stops in the
    middle of a commit and is started again: when forkret returns, the file system
    stands on the interface of Blocks.v with either all of the transaction or none
    of it. *)

From stdpp Require Import functions.
From S2P Require Import Prelude Mem Disk Bio Log Spinlock Blocks Balloc Inode.
#[local] Open Scope Z_scope.

Abbreviation ROOTDEV := 1.

Section forkret.
Context {D : Type} `{!DiskDriver D}.
Abbreviation blocks := (lst (traced D)).
Context (pid : Z) (ptable_lock : Z) (h : nat).

(** The static variable [first], the locks and the file system. *)
Record fret := Fret { fr_first : bool; fr_smp : smp; fr_fs : fsys blocks }.
Definition forkret : M fret unit :=
  zoom fr_smp (fun x s => Fret (fr_first s) x (fr_fs s)) (release h ptable_lock) ;;;
  first <- gets fr_first ;;
  if first then
    modify (fun s => Fret false (fr_smp s) (fr_fs s)) ;;;
    zoom fr_fs (fun y s => Fret (fr_first s) (fr_smp s) y) (iinit (BlockOps0 := log_ops pid) ROOTDEV) ;;;
    zoom fr_fs (fun y s => Fret (fr_first s) (fr_smp s) y) (zoom fs_blk set_blk (initlog pid ROOTDEV))
  else ret tt.
End forkret.
Arguments Fret {D} _ _ _.

Definition superblock_of (d : block) : superblock :=
  Superblock (get32 d 0) (get32 d 4) (get32 d 8) (get32 d 12) (get32 d 16) (get32 d 20) (get32 d 24).
(** The log in memory before initlog: zero. *)
Definition log0 : logst := Logst 0 0 0 false 0 0 (replicate 30 0).

Section recovery.
Context {D : Type} `{!DiskDriver D, !DiskLaws D} (pid : Z) (d0 : Z -> block) (nb : Z).
Implicit Types (st : lst (traced D)).

Lemma read_super st view w : lok pid d0 nb st view ∅ ∅ w -> 1 < nb ->
  exists i b1 b2, bread pid 1 1 (lbc st) = Ret i b1 /\ data_of i (set_lbc b1 st) = Ret (view 1) (set_lbc b1 st) /\ brelse pid i b1 = Ret tt b2 /\
    lok pid d0 nb (set_lbc b2 st) view ∅ ∅ w.
Proof.
  intros Hl Hnb. destruct (lok_bread pid d0 nb st view ∅ ∅ w 1 Hl) as (i & b1 & E1 & L1 & H1 & Hd & _); [lia | set_solver | rewrite !union_empty_l_L, size_singleton; unfold NBUF; lia|].
  destruct (lok_brelse pid d0 nb _ view _ _ w i 1 L1 H1) as (b2 & E2 & L2 & _); [set_solver | apply (lok_clean pid d0 nb st view ∅ ∅ w 1 Hl); [lia | set_solver] |].
  exists i, b1, b2. split; [done|]. split; [unfold data_of, gets; cbn [lbc set_lbc]; by rewrite Hd|]. split; [exact E2|].
  replace (({[1]} ∪ ∅) ∖ {[1]}) with (∅ : gset Z) in L2 by set_solver. exact L2.
Qed.
Lemma initlog_ok st view w start lsize : lok pid d0 nb st view ∅ ∅ w -> 1 < nb <= 2147483648 -> geom nb start lsize -> 0 < lsize -> length (lh_block (llog st)) = 30%nat ->
  sb_logstart (superblock_of (view 1)) = start -> sb_nlog (superblock_of (view 1)) = lsize -> 0 <= hdr_n (view start) < lsize ->
  (forall t, 0 <= t < hdr_n (view start) -> home nb start lsize (hdr_b (view start) t)) ->
  exists st' w', initlog pid 1 st = Ret tt st' /\ log_ok pid d0 nb st' (recover_disk start view) ∅ ∅ w' start lsize /\
    lg_outstanding (llog st') = lg_outstanding (llog st) /\ lg_committing (llog st') = lg_committing (llog st).
Proof.
  intros Hl Hnb Hg Hls Hlen Hs0 Hs1 Hn Hb. destruct (read_super st view w Hl) as (i & b1 & b2 & E1 & E2 & E3 & L2); [lia|]. pose proof Hg as (Hg1 & Hg2 & Hg3).
  assert (s32 start = start /\ s32 lsize = lsize) as [Es El] by (split; unfold s32; rewrite u32_small by lia; zcases).
  set (g := Logst start lsize (lg_outstanding (llog st)) (lg_committing (llog st)) 1 (lh_n (llog st)) (lh_block (llog st))).
  destruct (recover_ok pid d0 nb (LSt b2 g) view w start lsize L2 eq_refl eq_refl Hg Hls Hlen Hn Hb) as (st' & Er & L3 & H1 & H2 & H3 & H4 & H5 & H6 & H7).
  eexists st', _. split_and!; [| |done|done].
  - unfold initlog. change (BSIZE <=? 4 + 4 * LOGSIZE) with false. unfold panic_if. rewrite (bind_Ret (ret tt) _ st tt st eq_refl).
    unfold readsb. rewrite !bind_assoc, (bind_cache _ _ _ _ _ E1), bind_assoc, (bind_Ret _ _ _ _ _ E2), bind_assoc. rewrite (bind_cache (brelse pid i) _ (set_lbc b1 st) tt b2 E3).
    rewrite (bind_Ret (ret _) _ _ _ _ eq_refl). unfold mlog. rewrite bind_modify. fold (superblock_of (view 1)). rewrite Hs0, Hs1, Es, El. exact Er.
  - split; [exact L3|]. split_and!; try done; try lia.
    + rewrite H1. split; [lia|]. intros t Ht. lia.
    + intros b. rewrite H1. split; [set_solver|]. intros (t & Ht & _). lia.
Qed.

(** A commit leaves a home block that it does not log alone, wherever it stops. *)
Lemma commit_keeps start n bs view w1 w2 k : w1 ++ w2 = commit_writes start n bs view -> k <> start -> (forall t, 0 <= t < n -> k <> start + t + 1 /\ k <> lhb bs t) ->
  wapply w1 d0 k = d0 k.
Proof.
  intros Hw Hs Hk. apply wapply_out. intros b Hb. assert ((k, b) ∈ commit_writes start n bs view) as Hin by (rewrite <- Hw; apply elem_of_app; by left).
  unfold commit_writes in Hin. apply elem_of_app in Hin as [(t & Ht & [= E _])%elem_of_log_writes|Hin]; [destruct (Hk t); lia|].
  apply elem_of_cons in Hin as [[= E _]|Hin]; [done|]. apply elem_of_app in Hin as [(t & [= E _] & Ht%elem_of_seqZ)%list_elem_of_fmap|Hin]; [destruct (Hk t); [lia|done]|].
  apply list_elem_of_singleton in Hin as [= E _]. done.
Qed.
End recovery.

(** A process that the scheduler switched to: it holds the lock of the process table,
    and the scheduler had interrupts on. *)
Definition scheduled (x : smp) (l : Z) (h : nat) : Prop :=
  topo x /\ (h < ncpu x)%nat /\ if_off x h /\ sl_locked (locks x l) <> 0 /\ sl_cpu (locks x l) = Some h /\
  exists c, cpus x !! h = Some c /\ ncli c = 1 /\ intena c <> 0.
Lemma release_scheduled x l h : scheduled x l h -> exists x', release h l x = Ret tt x' /\ sl_locked (locks x' l) = 0 /\ Z.land (eflags x' h) FL_IF = FL_IF.
Proof.
  intros (Ht & Hh & Hif & Hl & Hc & c & Hx & Hn & Hi).
  destruct (release_owned x (fun _ => Thread Run [] 0) h l c) as (x' & _ & E & _ & _ & _ & He & Hk); try done; [rewrite Hn; lia|].
  exists x'. split; [done|]. split; [done|]. rewrite He. unfold popped_eflags. rewrite Hn. destruct (Z.eqb_spec (intena c) 0); [done|]. apply if_on_lor.
Qed.

Section boot.
Context {D : Type} `{!DiskDriver D, !DiskLaws D} (pid nb start lsize : Z) (lk : Z) (h : nat).

(** The first run on a disk that may need recovery. *)
Lemma forkret_first (dr : D) x sb ic m : driver_ok dr -> nblocks dr = nb -> 1 < nb <= 2147483648 -> geom nb start lsize -> 12 <= lsize -> scheduled x lk h ->
  sb_logstart (superblock_of (disk_block dr 1)) = start -> sb_nlog (superblock_of (disk_block dr 1)) = lsize -> 0 <= hdr_n (disk_block dr start) < lsize ->
  (forall t, 0 <= t < hdr_n (disk_block dr start) -> home nb start lsize (hdr_b (disk_block dr start) t)) ->
  exists x' fy, forkret pid lk h (Fret true x (FSt (booted dr log0) sb ic m)) = Ret tt (Fret false x' fy) /\
    sl_locked (locks x' lk) = 0 /\ Z.land (eflags x' h) FL_IF = FL_IF /\ fs_sb fy = superblock_of (disk_block dr 1) /\
    tx_ok pid (disk_block dr) nb start lsize (fs_blk fy) (recover_disk start (disk_block dr)) ∅ ∅ ∅ 0.
Proof.
  intros Hdr Hnb Hr Hg Hls Hsch Hs0 Hs1 Hn Hb. destruct (release_scheduled x lk h Hsch) as (x' & Ex & Hx).
  pose proof (booted_ok pid dr log0 Hdr) as Hl. pose proof (booted_log dr log0) as Hlog0. rewrite Hnb in Hl. set (st0 := booted dr log0) in *. clearbody st0.
  destruct (read_super pid _ nb _ _ _ Hl) as (i & b1 & b2 & E1 & E2 & E3 & L2); [lia|].
  destruct (initlog_ok pid _ nb (set_lbc b2 st0) _ _ start lsize L2 Hr Hg) as (st' & w' & Ei & Hlog & Ho & Hc); [lia | cbn [llog set_lbc]; by rewrite Hlog0 | done..|].
  cbn [llog set_lbc] in Ho, Hc. rewrite Hlog0 in Ho, Hc.
  exists x', (FSt st' (superblock_of (disk_block dr 1)) (set_ilock initsleeplock <$> ic) m). split; [|split; [apply Hx|]; split; [apply Hx|]; split; [reflexivity|]].
  - unfold forkret, iinit, blk, zoom, bind, modify, gets, ret. cbn [fr_smp fr_first fr_fs fs_blk set_ic fs_sb fs_ic fs_mem bk_bread bk_data bk_brelse log_ops]. rewrite Ex.
    cbn [fr_smp fr_first fr_fs fs_blk set_ic fs_sb fs_ic fs_mem]. unfold cache, zoom. rewrite E1. cbn [fs_blk set_blk]. rewrite E2. cbn [fs_blk set_blk set_lbc lbc]. rewrite E3.
    cbn [fr_fs fr_smp fr_first fs_blk set_blk set_ic fs_sb fs_ic fs_mem]. change (set_lbc b2 (set_lbc b1 st0)) with (set_lbc b2 st0). by rewrite Ei.
  - split; [exists w'; split; [exact Hlog | intros k Hk; by apply not_elem_of_empty in Hk]|]. split; [done|]. split; [by rewrite size_empty|]. split; [lia|]. split; [done|]. cbn [fs_blk]. by rewrite Hc, Ho.
Qed.
End boot.

(** C2: a crash and a reboot.  A machine stops after any of the block writes of a
    commit and is started again on the disk that it left.  The first process that
    runs returns from forkret, with the lock of the process table released and
    interrupts on.  It has read the superblock and recovered the log: the blocks
    outside the log area are all as before the transaction or all as after it, the
    latter if the commit was complete, and the file system can go on from there.
    Later processes find [first] clear and only release the lock. *)
Theorem reboot_recovers {D} `{!DiskDriver D, !DiskLaws D} (pid start lsize nb : Z) (d0 view : Z -> block) (dty : gset Z) (st : lst (traced D)) :
  log_ok pid d0 nb st view dty ∅ [] start lsize -> 0 < lh_n (llog st) -> hdr_n (d0 start) = 0 -> 12 <= lsize ->
  home nb start lsize 1 -> 1 ∉ dty -> sb_logstart (superblock_of (d0 1)) = start -> sb_nlog (superblock_of (d0 1)) = lsize ->
  exists st' w, commit pid st = Ret tt st' /\ tr_writes (bdrv (lbc st')) = w /\
    forall w1 w2 (dr : D) (pid' lk : Z) (h : nat) x sb ic m,
      w = w1 ++ w2 -> driver_ok dr -> nblocks dr = nb -> (forall k, 0 <= k < nb -> disk_block dr k = wapply w1 d0 k) -> scheduled x lk h ->
      exists x' fy v, forkret pid' lk h (Fret true x (FSt (booted dr log0) sb ic m)) = Ret tt (Fret false x' fy) /\
        sl_locked (locks x' lk) = 0 /\ Z.land (eflags x' h) FL_IF = FL_IF /\
        fs_sb fy = superblock_of (d0 1) /\ tx_ok pid' (disk_block dr) nb start lsize (fs_blk fy) v ∅ ∅ ∅ 0 /\
        ((forall b, home nb start lsize b -> v b = d0 b) \/ (forall b, home nb start lsize b -> v b = view b)) /\
        (w2 = [] -> forall b, home nb start lsize b -> v b = view b) /\
        forall x2, scheduled x2 lk h -> exists x2', forkret pid' lk h (Fret false x2 fy) = Ret tt (Fret false x2' fy) /\ sl_locked (locks x2' lk) = 0.
Proof.
  intros Hlog Hpos Hclear Hls Hsuper Hd1 Hs0 Hs1.
  destruct (commit_ok pid d0 nb st view dty [] start lsize Hlog Hpos) as (st' & view' & Hr & (Hl' & _) & _).
  exists st', (commit_writes start (lh_n (llog st)) (lh_block (llog st)) view). split; [done|]. split; [apply Hl'|].
  intros w1 w2 dr pid' lk h x sb ic m Hw Hdr Hnb Hdisk Hsch.
  destruct (commit_stops pid d0 nb st view dty start lsize w1 w2 Hlog Hclear (eq_sym Hw)) as (Hn1 & Hb1 & Hcase & Hdone).
  pose proof Hlog as (_ & _ & _ & _ & Hg & _ & _ & Hnb2 & [Hn Hh] & Hd & _). pose proof Hg as (Hg1 & Hg2 & Hg3). destruct Hsuper as [Hr1 Hr2].
  assert (disk_block dr 1 = d0 1) as E1.
  { rewrite Hdisk by lia. apply (commit_keeps d0 start _ _ _ _ _ 1 (eq_sym Hw)); [lia|]. intros t Ht. split; [lia|]. intros E. apply Hd1, Hd. by exists t. }
  assert (disk_block dr start = wapply w1 d0 start) as Es by (apply Hdisk; lia).
  destruct (forkret_first pid' nb start lsize lk h dr x sb ic m) as (x' & fy & E & Hk & Hi & Hsb & Htx); rewrite ?E1, ?Es; try done; [lia|].
  exists x', fy, (recover_disk start (disk_block dr)). split; [exact E|]. rewrite E1 in Hsb. do 4 (split; [done|]).
  assert (forall b, home nb start lsize b -> recover_disk start (disk_block dr) b = recover_disk start (wapply w1 d0) b) as Hext.
  { intros b [Hb _]. by apply (recover_disk_ext nb start lsize). }
  split; [destruct Hcase as [Hc|Hc]; [left | right]; intros b Hb; rewrite Hext by done; by apply Hc|]. split; [intros -> b Hb; rewrite Hext by done; by apply Hdone|].
  intros x2 H2. destruct (release_scheduled x2 lk h H2) as (x2' & E2 & Hx2 & _). exists x2'. split; [|done].
  unfold forkret, zoom, bind, gets, ret. cbn [fr_smp fr_first fr_fs]. by rewrite E2.
Qed.

(** A disk of 64 blocks with a superblock, and a processor that the scheduler left. *)
Definition reboot_disk (a : Z) : Z := if a =? 1049100 then 30 else if a =? 1049104 then 2 else 0.
Definition reboot_smp : smp :=
  Smp (fun _ => 0) (Some (fun h => Z.shiftl (Z.of_nat h) 24)) (replicate 8 (Cpu 0 1 1 None)) 1 (fun _ => Spinlock 1 EmptyString (Some 0%nat) []) (fun _ => 0).
Lemma reboot_scheduled : scheduled reboot_smp 7 0.
Proof.
  split; [|split_and!; try done; [simpl; lia | by exists (Cpu 0 1 1 None)]]. split; [simpl; lia|]. eexists. split; [reflexivity|]. cbn [ncpu reboot_smp]. split.
  - intros i c Hi Hc. assert (i = 0%nat) as -> by lia. injection Hc as <-. done.
  - intros i j Hi Hj _. lia.
Qed.
Lemma reboot_recovers_witness : exists (s s' : fret (D:=memide)), forkret 1 7 0 s = Ret tt s' /\ sb_nlog (fs_sb (fr_fs s')) = 30.
Proof.
  destruct (demo_log reboot_disk) as (st & Hlog & Hn); [intros x; unfold reboot_disk; zcases|].
  destruct (reboot_recovers 3 2 30 64 _ _ _ st Hlog) as (st' & w & _ & _ & Hre); [rewrite Hn; lia | vm_compute; reflexivity | lia | unfold home; lia | by rewrite elem_of_singleton | vm_compute; reflexivity | vm_compute; reflexivity|].
  destruct (Hre [] w (Memide 1048576 64 reboot_disk) 1 7 0%nat reboot_smp (Superblock 0 0 0 0 0 0 0) [] (fun _ => 0)) as (x' & fy & v & E & _ & _ & Hsb & _);
    [reflexivity | intros x; simpl; unfold reboot_disk; zcases | reflexivity | intros k Hk; reflexivity | apply reboot_scheduled|].
  eexists _, _. split; [exact E|]. cbn [fr_fs]. rewrite Hsb. vm_compute. reflexivity.
Defined.
